(* ===== verification/_CoqProject ===== *)
-Q . S2P
Prelude.v
SortedList.v
Types.v
Numeric.v
Base64.v
Utils.v
Uri.v
Float.v
Data.v
FloatText.v
Tlv.v
Cbor.v
CborFloat.v
CoapPacket.v
CoapMessage.v
CoapOptions.v
CoapSerialize.v
CoapParse.v
Transaction.v
Request.v
Block.v
CoapUri.v
Packet.v
Blockwise.v
Client.v
Observed.v
Discover.v
Formats.v
Objects.v
Observe.v
Send.v
RegisterPayload.v
RegQuery.v
Registration.v
RegMachine.v
Management.v
LinkFormat.v
Clients.v
ServerRegistry.v
Reporting.v
ServerManagement.v
Delivery.v
ServerObserve.v
BootDiscover.v
Bootstrap.v
BootMachine.v
BootDelete.v
