(* ===== verification/Prelude.v ===== *)
(** * Wakaama (LwM2M client/server library): verification development

    Wakaama implements OMA LightweightM2M over CoAP.  A program links the library,
    hands every received datagram to [lwm2m_handle_packet], calls [lwm2m_step]
    periodically, and supplies the platform (clock, memory, sessions, sending of
    datagrams) and, on a client, the objects.  This library models the core of
    it and proves what each part promises to the others.

    ** The parts and how they interact

    A datagram enters in core/packet.c.  [coap_parse_message] turns the bytes into a
    [coap_packet_t].  A request is answered from the URI that [uri_decode] reads in
    its options: the objects of a client (device management), the registry of a
    server (registration, reporting) or the bootstrap; payloads that come in blocks
    are put together first, and large answers are cut.  A response goes to the
    transaction it answers, whose callback then continues the operation that sent
    the request; a notification goes to the observations of the server.  The
    periodic step retransmits transactions, drives the state machine of the
    registration, sends the notifications that are due, and removes the clients
    whose registration has expired.  Values travel as trees of [lwm2m_data_t],
    written and read in the formats of src/data/.

    ** Files and the code they model

    Foundations:
    - Prelude.v: notations, machine integers, buffers, record updates, tactics and
      hints; no code.
    - SortedList.v: core/list.c, the list that all tables are built on.
    - Types.v: the shared types of include/liblwm2m.h.
    - Numeric.v, Base64.v, Utils.v: core/utils.c; FloatText.v: its floating-point
      text, and the text form of data/data.c; Float.v: IEEE 754 representations.
    - Uri.v: core/uri.c.

    Data formats (src/data/):
    - Data.v: data.c, nodes and their values; Formats.v: its dispatch to the formats.
    - Tlv.v: tlv.c.  Cbor.v: cbor.c; CborFloat.v: its floating-point items.

    CoAP (src/coap/):
    - CoapPacket.v, CoapMessage.v: er-coap-13, the packet with its options and the
      serializer and parser; CoapOptions.v, CoapSerialize.v, CoapParse.v, CoapUri.v:
      reference encodings and theorems about them.
    - Transaction.v: transaction.c.  Block.v: block.c.
    - Request.v: a request through transaction, serializer, parser and URI decoder.
    - Packet.v: core/packet.c; Blockwise.v: theorems about it.

    Client:
    - Client.v: the state of a client (liblwm2m.h, internals.h).
    - Discover.v: core/discover.c.  Objects.v and RegisterPayload.v: core/objects.c.
    - Observed.v, Observe.v, Send.v: core/observe.c, client part.
    - RegQuery.v, Registration.v: core/registration.c, client part; RegMachine.v: the
      state machine it refines.
    - Management.v: core/management.c, client part.

    Server:
    - Clients.v: the state of a server (liblwm2m.h).
    - LinkFormat.v, ServerRegistry.v: core/registration.c, server part.
    - Reporting.v: core/reporting.c.
    - ServerManagement.v: core/management.c, server part; Delivery.v: a request of a
      server, through the transaction, the serializer, the parser and the decoder of
      URIs, to the client.
    - ServerObserve.v: core/observe.c, server part.

    A definition has the name of the C function it models; a record has the name of
    the C structure, with fields renamed where two structures share a name.

    ** How code is modelled

    - A call is a function to [C A], which is [option A]: [None] is undefined
      behaviour (an access outside an object, a null or dangling pointer that is
      read, a read of an indeterminate value, a signed overflow), so a
      theorem that a call is [Some] says that it is defined and that it ends.  An
      error that the code reports is a value: a status code, or an option inside.
    - An unsigned integer is a [Z] reduced by [wrap] to its width where the code
      computes it ([u8], [u16], [u32], [u64], [size_t]); a signed computation that may
      overflow is guarded.
    - A buffer is the list of its bytes; writing past the end is [None].  What is
      allocated but not written is an argument [junk]; what lies in memory behind
      a pointer is an argument [beyond].
    - A linked list is the sequence of its nodes.  A pointer kept elsewhere (in the
      user data of a transaction, say) is the identifier of the node, and is looked
      up when it is read, so that a pointer to a removed node is undefined.
    - The context is threaded through calls; the datagrams sent and the callbacks
      run are recorded in it.

    Code that is not in the repository is a parameter, as a type class: [Malloc]
    (Prelude.v), [LibC] for strtod (FloatText.v), [Sessions], [Callbacks]
    (Transaction.v), [ObjectCallbacks], [Connections] (Client.v), [ResultCallbacks]
    (Clients.v).  Parts that interact see one another through classes as well:
    [Handlers] (Packet.v) is what packet.c expects of the components, [Registry]
    (Clients.v) is where a state keeps the clients of a server, [Codecs]
    (Formats.v) stands for the formats that are not modelled.  [ReadLaw] and
    [DeleteLaw] (Objects.v) state what the code expects of an application.

    ** Loops

    Loops over a buffer have as fuel a bound on their steps computed from the
    length of the buffer; loops that look for a free 16-bit identifier have 65537
    steps, one more than there are identifiers; recursion in a tree of values is
    structural.  Running out of fuel is [None], so the theorems that give the result
    of a call prove that the fuel is enough.

    ** What the theorems show

    - Encodings: TLV, CoAP messages, CBOR values, URIs, numbers, base64, the links
      of a registration and a request as a whole read back what was written;
      serializers write exactly a reference encoding and stay in the size they
      announce ([tlv_roundtrip], [coap_roundtrip], [registration_roundtrip], ...).
    - Safety: the parsers end and never leave the received bytes, whatever these are
      ([tlv_parse_total], [coap_parse_safe], [uri_decode_total], [cbor_singular_safe]).
    - State machines: the registration of a client refines an abstract machine, in
      which a server counts as registered only once it has answered 2.01
      ([registration_refines_machine], [registered_was_accepted]); so do the
      observations and the block-wise transfers.
    - Invariants over all sequences of operations: the clients of a server
      ([registry_invariant]), its observations ([server_observations_invariant]), the
      observations of a client ([observations_invariant]).
    - From one end to the other: an operation of a server arrives at the client as it
      was asked ([operation_delivered]), and so do attributes
      ([write_attributes_roundtrip]); a notification reaches the callback of its
      observation ([notification_routed]).
    - Operations: register, update, expiry, attributes, transactions and their
      retransmission, on each of their branches.

    ** Build

    LP64 and little-endian; the client and the server role and the bootstrap of a
    client, without the bootstrap server; LWM2M 1.1; all the formats; block-wise
    transfers reassembled by the library (not LWM2M_RAW_BLOCK1_REQUESTS); the sizes
    of the default configuration.

    ** Not modelled

    - core/bootstrap.c: its operations are parameters of packet.c.
    - JSON and SenML (class [Codecs]).
    - core/liblwm2m.c: creation and destruction of the context, and the step that
      calls the components one after the other.
    - core/logging.c, and the calls to it: output only.
    - The release of memory: that freed memory is not read is modelled by looking
      nodes up; double frees and leaks are not.
    - src/transport/, src/examples/, src/tests/, src/tools/: sockets, DTLS and
      programs around the library. *)
From Stdlib Require Export ZArith Lia Bool ZifyBool Sorted Ascii String.

From stdpp Require Export prelude list option strings.
Open Scope Z_scope.

(** ** Notations

    A C function whose execution may run into undefined behaviour (a read or a
    write outside an object, a signed overflow) is an [option]: [None] is
    undefined behaviour, [Some r] is a completed call.  The notations below
    live in [c_scope]. *)
Declare Scope c_scope.
Delimit Scope c_scope with c.
Abbreviation C A := (option A).
Notation "'ret' x" := (Some x) (at level 20, x at level 15, only parsing) : c_scope.
Notation "'UB'" := None (only parsing) : c_scope.
Notation "'assert!' b ; k" := (if b then k else None)
  (at level 100, b at level 90, k at level 200, right associativity, only parsing) : c_scope.
Open Scope c_scope.

Abbreviation len l := (Z.of_nat (length l)) (only parsing).

(** ** Machine integers *)

(** Conversion to an unsigned type of [n] bits (C11 6.3.1.3p2). *)
Definition wrap (n z : Z) : Z := z mod 2 ^ n.
(** Conversion to a two's complement signed type of [n] bits. *)
Definition swrap (n z : Z) : Z := (z + 2 ^ (n - 1)) mod 2 ^ n - 2 ^ (n - 1).

Abbreviation u8 := (wrap 8).
Abbreviation u16 := (wrap 16).
Abbreviation u32 := (wrap 32).
Abbreviation u64 := (wrap 64).
Abbreviation s8 := (swrap 8).
Abbreviation s16 := (swrap 16).
Abbreviation s32 := (swrap 32).
Abbreviation s64 := (swrap 64).

Definition INT_MAX : Z := 2147483647.
Definition INT64_MAX : Z := 9223372036854775807.
Definition INT64_MIN : Z := -9223372036854775808.
Definition UINT64_MAX : Z := 18446744073709551615.

(** Signed [int] arithmetic: overflow is undefined. *)
Definition int_ok (z : Z) : bool := (- 2147483648 <=? z) && (z <=? 2147483647).

Lemma wrap_small n z : 0 <= z < 2 ^ n -> wrap n z = z.
Proof. intros; unfold wrap; apply Z.mod_small; lia. Qed.

Lemma wrap_bound n z : 0 <= n -> 0 <= wrap n z < 2 ^ n.
Proof. intros; unfold wrap; apply Z.mod_pos_bound; lia. Qed.

Lemma swrap_small n z : 0 < n -> - 2 ^ (n - 1) <= z < 2 ^ (n - 1) -> swrap n z = z.
Proof.
  intros Hn Hz; unfold swrap.
  assert (2 ^ n = 2 * 2 ^ (n - 1)) as E by (rewrite <- Z.pow_succ_r by lia; f_equal; lia).
  rewrite Z.mod_small; lia.
Qed.

Lemma swrap_wrap n z : 0 < n -> swrap n (wrap n z) = swrap n z.
Proof.
  intros Hn; unfold swrap, wrap. rewrite Z.add_mod_idemp_l; [done | lia].
Qed.

(** ** Bytes and buffers *)

Definition is_byte (b : Z) : Prop := 0 <= b < 256.
Abbreviation bytes := (Forall is_byte).

(** [b[i]] in an array of [length b] elements. *)
Definition rd {A} (b : list A) (i : Z) : C A :=
  if 0 <=? i then b !! Z.to_nat i else None.

(** [b[i] = v]. *)
Definition wr {A} (b : list A) (i : Z) (v : A) : C (list A) :=
  if (0 <=? i) && (i <? len b) then Some (<[Z.to_nat i := v]> b) else None.

(** The [n] elements at offset [off]. *)
Definition slice {A} (b : list A) (off n : Z) : list A :=
  take (Z.to_nat n) (drop (Z.to_nat off) b).

Definition rd_bytes {A} (b : list A) (off n : Z) : C (list A) :=
  if (0 <=? off) && (0 <=? n) && (off + n <=? len b) then Some (slice b off n) else None.

(** [memcpy(b + off, src, length src)]. *)
Definition patch {A} (b : list A) (off : Z) (src : list A) : list A :=
  take (Z.to_nat off) b ++ src ++ drop (Z.to_nat off + length src) b.
Definition wr_bytes {A} (b : list A) (off : Z) (src : list A) : C (list A) :=
  if (0 <=? off) && (off + len src <=? len b) then Some (patch b off src) else None.

(** ** Automation *)

Create HintDb lens discriminated.
Create Rewrite HintDb buf.

#[export] Hint Rewrite @length_app @length_take @length_drop @length_insert
  @length_replicate @length_cons @length_nil @length_rev @length_map : buf.

(** Normalise list lengths everywhere, then linear arithmetic. *)
Ltac lens := autorewrite with buf in *; cbn [length] in *; lia.
(** Linear arithmetic with [/] and [mod] by constants. *)
Ltac dlia := Z.div_mod_to_equations; lia.
(** Decide the boolean guards of the goal by linear arithmetic. *)
Ltac guards :=
  repeat match goal with
  | |- context [if ?b then _ else _] =>
      first [ replace b with true by lens | replace b with false by lens ]; cbn match
  end.
(** Case analysis on the next guard of a hypothesis, with the boolean turned
    into arithmetic by [lia] afterwards. *)
Ltac guard_in H :=
  match type of H with
  | context [if ?b then _ else _] => let E := fresh "E" in destruct b eqn:E; try discriminate H
  end.

(** ** Lemmas on buffers *)

Section Buffers.
Context {A : Type}.
Implicit Types (b p q src : list A) (i off n : Z).

Lemma slice_length b off n :
  0 <= off -> 0 <= n -> off + n <= len b -> len (slice b off n) = n.
Proof. intros; unfold slice; lens. Qed.

Lemma slice_app b p q off n :
  b = p ++ q -> off = len p -> 0 <= n <= len q -> slice b off n = take (Z.to_nat n) q.
Proof.
  intros -> -> Hn; unfold slice. by rewrite Nat2Z.id, drop_app_length.
Qed.

Lemma sorted_filter {X} (R : X -> X -> Prop) (P : X -> Prop) `{!forall x, Decision (P x)} l :
  StronglySorted R l -> StronglySorted R (filter P l).
Proof.
  induction 1 as [|x l Hs IH Hx]; [constructor|]. destruct (decide (P x)).
  - rewrite filter_cons_True by done. constructor; [done|]. apply list.Forall_forall. intros y Hy%list_elem_of_filter. rewrite list.Forall_forall in Hx. by apply Hx, Hy.
  - by rewrite filter_cons_False.
Qed.

Lemma Forall_keep {X} (Q P : X -> Prop) `{!forall x, Decision (P x)} l : Forall Q l -> Forall Q (filter P l).
Proof. rewrite !list.Forall_forall. intros HQ x [_ Hx]%list_elem_of_filter. by apply HQ. Qed.

Lemma rd_bytes_app p q r off n :
  off = len p -> n = len q -> rd_bytes (p ++ q ++ r) off n = Some q.
Proof.
  intros -> ->; unfold rd_bytes. guards. f_equal.
  rewrite (slice_app _ p (q ++ r)) by (done || lens). by rewrite Nat2Z.id, take_app_length.
Qed.

Lemma rd_bytes_all b : rd_bytes b 0 (len b) = Some b.
Proof.
  pose proof (rd_bytes_app [] b [] 0 (len b) eq_refl eq_refl) as H.
  cbn [app] in H. by rewrite app_nil_r in H.
Qed.

Lemma slice_prefix p q n : n = len p -> slice (p ++ q) 0 n = p.
Proof. intros ->. unfold slice. by rewrite drop_0, Nat2Z.id, take_app_length. Qed.

Lemma rd_lookup b i : 0 <= i -> rd b i = b !! Z.to_nat i.
Proof. intros; unfold rd. by guards. Qed.

Lemma rd_is_Some b i : is_Some (rd b i) <-> 0 <= i < len b.
Proof.
  unfold rd; destruct (0 <=? i) eqn:E.
  - rewrite lookup_lt_is_Some. lia.
  - split; [by intros []|lia].
Qed.

Lemma rd_Some b i : 0 <= i < len b -> exists v, rd b i = Some v.
Proof. intros; by apply rd_is_Some. Qed.

Lemma rd_bound b i v : rd b i = Some v -> 0 <= i < len b.
Proof. intros; apply rd_is_Some; eauto. Qed.

Lemma rd_elem b i v : rd b i = Some v -> v ∈ b.
Proof.
  unfold rd; destruct (0 <=? i); [|done]. apply list_elem_of_lookup_2.
Qed.

Lemma rd_Forall (P : A -> Prop) b i v : Forall P b -> rd b i = Some v -> P v.
Proof. intros Hb Hr; apply rd_elem in Hr. by eapply list.Forall_forall. Qed.

Lemma rd_app_l p q i : i < len p -> rd (p ++ q) i = rd p i.
Proof.
  intros; unfold rd. destruct (0 <=? i) eqn:E; [|done]. apply lookup_app_l; lia.
Qed.

Lemma rd_app_r p q i : len p <= i -> rd (p ++ q) i = rd q (i - len p).
Proof.
  intros; unfold rd. guards. rewrite lookup_app_r by lia. f_equal; lia.
Qed.

Lemma rd_app_off p q i : 0 <= i -> rd (p ++ q) (len p + i) = rd q i.
Proof. intros; rewrite rd_app_r by lia. f_equal; lia. Qed.

Lemma app_cons_assoc p x q : p ++ x :: q = (p ++ [x]) ++ q.
Proof. by rewrite <- app_assoc. Qed.

Lemma rd_cons_0 x q : rd (x :: q) 0 = Some x.
Proof. done. Qed.

Lemma rd_middle p x q i : i = len p -> rd (p ++ x :: q) i = Some x.
Proof.
  intros ->; unfold rd. guards. by apply list_lookup_middle; lia.
Qed.

Lemma wr_cons_0 x q v : wr (x :: q) 0 v = Some (v :: q).
Proof. unfold wr. by guards. Qed.

Lemma wr_middle p x q i v :
  i = len p -> wr (p ++ x :: q) i v = Some (p ++ v :: q).
Proof.
  intros ->; unfold wr. guards. by rewrite Nat2Z.id, insert_app_r_alt, Nat.sub_diag by lia.
Qed.

(** A write beyond the prefix [p]. *)
Lemma wr_off p q i v :
  0 <= i -> wr (p ++ q) (len p + i) v = match wr q i v with Some q => Some (p ++ q) | None => None end.
Proof.
  intros Hi. unfold wr. destruct (i <? len q) eqn:E.
  - guards. f_equal. rewrite insert_app_r_alt by lia. do 2 f_equal. lia.
  - rewrite andb_false_r. by guards.
Qed.

Lemma wr_off_0 p q v :
  wr (p ++ q) (len p) v = match wr q 0 v with Some q => Some (p ++ q) | None => None end.
Proof. by rewrite <- (Z.add_0_r (len p)), wr_off by lia. Qed.

Lemma wr_Some b i v : 0 <= i < len b -> wr b i v = Some (<[Z.to_nat i := v]> b).
Proof. intros; unfold wr. by guards. Qed.

Lemma patch_length b off src :
  0 <= off -> off + len src <= len b -> len (patch b off src) = len b.
Proof. intros; unfold patch; lens. Qed.

Lemma wr_bytes_Some b off src :
  0 <= off -> off + len src <= len b -> wr_bytes b off src = Some (patch b off src).
Proof. intros; unfold wr_bytes. by guards. Qed.

(** Appending to the written part [p] of a buffer. *)
Lemma patch_app p q off src :
  off = len p -> patch (p ++ q) off src = (p ++ src) ++ drop (length src) q.
Proof.
  intros ->; unfold patch. rewrite Nat2Z.id, take_app_length.
  rewrite drop_app_ge by lia. rewrite Nat.add_comm, Nat.add_sub.
  by rewrite app_assoc.
Qed.

Lemma wr_bytes_app p q off src :
  off = len p -> len src <= len q ->
  wr_bytes (p ++ q) off src = Some ((p ++ src) ++ drop (length src) q).
Proof. intros; rewrite wr_bytes_Some by lens. by rewrite patch_app. Qed.

Lemma wr_app p q off v :
  off = len p -> 0 < len q -> wr (p ++ q) off v = Some ((p ++ [v]) ++ drop 1 q).
Proof.
  intros -> Hq. destruct q as [|x q]; [simpl in Hq; lia|].
  rewrite wr_middle by done. simpl. by rewrite <- app_assoc.
Qed.

(** [memcpy] to the start of a buffer. *)
Lemma wr_bytes_0 p q src : length src = length p -> wr_bytes (p ++ q) 0 src = Some (src ++ q).
Proof.
  intros Hl. rewrite wr_bytes_Some by lens. unfold patch. change (Z.to_nat 0) with O.
  rewrite take_0. cbn [app]. by rewrite Nat.add_0_l, Hl, drop_app_length.
Qed.

(** The two parts of a list around its [n]-th element. *)
Lemma split_at b (n : nat) :
  (n < length b)%nat -> exists p x q, b = p ++ x :: q /\ length p = n.
Proof.
  intros Hn. destruct (lookup_lt_is_Some_2 b n Hn) as [x Hx].
  exists (take n b), x, (drop (S n) b). split; [by rewrite take_drop_middle|].
  rewrite length_take. lia.
Qed.

Lemma patch_slice b off src :
  0 <= off -> off + len src <= len b -> slice (patch b off src) off (len src) = src.
Proof.
  intros. unfold slice, patch. rewrite Nat2Z.id.
  rewrite drop_app_length' by (rewrite length_take; lens).
  by rewrite take_app_length.
Qed.

Lemma patch_take b off src :
  0 <= off -> off + len src <= len b ->
  take (Z.to_nat off) (patch b off src) = take (Z.to_nat off) b.
Proof.
  intros. unfold patch. by rewrite take_app_length' by lens.
Qed.

Lemma Forall_patch (P : A -> Prop) b off src :
  Forall P b -> Forall P src -> Forall P (patch b off src).
Proof. intros; unfold patch. auto using Forall_app_2, Forall_take, Forall_drop. Qed.

Lemma Forall_slice (P : A -> Prop) b off n : Forall P b -> Forall P (slice b off n).
Proof. intros; unfold slice. auto using Forall_take, Forall_drop. Qed.
End Buffers.

#[export] Hint Resolve Forall_patch Forall_slice : lens.

(** ** Object representation of integers

    The build under study is little-endian ([LWM2M_LITTLE_ENDIAN]): the bytes
    of an integer object, least significant first. *)
Fixpoint le_bytes (n : nat) (z : Z) : list Z :=
  match n with
  | O => []
  | S n => z mod 256 :: le_bytes n (z / 256)
  end.

Fixpoint le_val (l : list Z) : Z :=
  match l with
  | [] => 0
  | b :: l => b + 256 * le_val l
  end.

(** The same, most significant byte first (network order). *)
Definition be_bytes (n : nat) (z : Z) : list Z := rev (le_bytes n z).
Definition be_val (l : list Z) : Z := le_val (rev l).

Lemma le_bytes_length n z : length (le_bytes n z) = n.
Proof. revert z; induction n; intros; cbn; [done | by rewrite IHn]. Qed.

Lemma le_bytes_bytes n z : bytes (le_bytes n z).
Proof.
  revert z; induction n; intros; cbn; constructor; auto.
  unfold is_byte; apply Z.mod_pos_bound; lia.
Qed.

Lemma le_val_bound l : bytes l -> 0 <= le_val l < 256 ^ len l.
Proof.
  induction 1 as [|b l Hb Hl IH]; [cbn; lia|].
  cbn [le_val length]. rewrite Nat2Z.inj_succ, Z.pow_succ_r by lia.
  unfold is_byte in Hb. nia.
Qed.

Lemma le_val_bytes n z : le_val (le_bytes n z) = z mod 256 ^ Z.of_nat n.
Proof.
  revert z; induction n; intros z; [cbn; by rewrite Z.mod_1_r|].
  cbn [le_val le_bytes]. rewrite IHn, Nat2Z.inj_succ, Z.pow_succ_r by lia.
  rewrite Z.rem_mul_r; lia.
Qed.

Lemma le_bytes_val l : bytes l -> le_bytes (length l) (le_val l) = l.
Proof.
  induction 1 as [|b l Hb Hl IH]; [done|]. cbn [le_val le_bytes length].
  unfold is_byte in Hb.
  assert ((b + 256 * le_val l) mod 256 = b) as -> by dlia.
  assert ((b + 256 * le_val l) / 256 = le_val l) as -> by dlia.
  by rewrite IH.
Qed.

Lemma be_bytes_length n z : length (be_bytes n z) = n.
Proof. unfold be_bytes. by rewrite length_rev, le_bytes_length. Qed.
#[export] Hint Rewrite le_bytes_length be_bytes_length : buf.

Lemma be_bytes_bytes n z : bytes (be_bytes n z).
Proof. apply Forall_rev, le_bytes_bytes. Qed.

Lemma be_val_bytes n z : be_val (be_bytes n z) = z mod 256 ^ Z.of_nat n.
Proof. unfold be_val, be_bytes. by rewrite rev_involutive, le_val_bytes. Qed.

Lemma be_val_small n z : 0 <= z < 256 ^ Z.of_nat n -> be_val (be_bytes n z) = z.
Proof. intros; rewrite be_val_bytes; apply Z.mod_small; lia. Qed.

Lemma bytes_rev l : bytes l -> bytes (rev l).
Proof. apply Forall_rev. Qed.

Lemma be_bytes_val l : bytes l -> be_bytes (length l) (be_val l) = l.
Proof.
  intros. unfold be_bytes, be_val.
  rewrite <- (length_rev l), le_bytes_val by auto using bytes_rev.
  apply rev_involutive.
Qed.

Lemma le_val_snoc l b : le_val (l ++ [b]) = le_val l + 256 ^ len l * b.
Proof.
  induction l as [|a l IH]; [cbn; lia|]. cbn [app le_val length]. rewrite IH, Nat2Z.inj_succ, Z.pow_succ_r by lia. lia.
Qed.

Lemma be_val_cons b l : be_val (b :: l) = b * 256 ^ len l + be_val l.
Proof. unfold be_val. cbn [rev]. rewrite le_val_snoc, length_rev. lia. Qed.

Lemma be_val_bound l : bytes l -> 0 <= be_val l < 256 ^ len l.
Proof.
  intros; unfold be_val. rewrite <- (length_rev l).
  apply le_val_bound; auto using bytes_rev.
Qed.

(** ** Bit operations with constant masks *)

Lemma land_ones_mod z n : 0 <= n -> Z.land z (Z.ones n) = z mod 2 ^ n.
Proof. apply Z.land_ones. Qed.

Lemma land_255 z : Z.land z 255 = z mod 256.
Proof. exact (Z.land_ones z 8 ltac:(lia)). Qed.
Lemma land_15 z : Z.land z 15 = z mod 16.
Proof. exact (Z.land_ones z 4 ltac:(lia)). Qed.
Lemma land_31 z : Z.land z 31 = z mod 32.
Proof. exact (Z.land_ones z 5 ltac:(lia)). Qed.
Lemma land_7 z : Z.land z 7 = z mod 8.
Proof. exact (Z.land_ones z 3 ltac:(lia)). Qed.
Lemma land_3 z : Z.land z 3 = z mod 4.
Proof. exact (Z.land_ones z 2 ltac:(lia)). Qed.
Lemma land_63 z : Z.land z 63 = z mod 64.
Proof. exact (Z.land_ones z 6 ltac:(lia)). Qed.

Lemma shiftr_div z n : 0 <= n -> Z.shiftr z n = z / 2 ^ n.
Proof. apply Z.shiftr_div_pow2. Qed.
Lemma shiftl_mul z n : 0 <= n -> Z.shiftl z n = z * 2 ^ n.
Proof. apply Z.shiftl_mul_pow2. Qed.

(** [a << n | b] with [b] below [2^n] is an addition. *)
Lemma lor_add a b n : 0 <= n -> 0 <= b < 2 ^ n -> Z.lor (a * 2 ^ n) b = a * 2 ^ n + b.
Proof.
  intros Hn Hb. rewrite <- shiftl_mul by done.
  apply Z.bits_inj'; intros k Hk. rewrite Z.lor_spec.
  destruct (Z.lt_ge_cases k n) as [Hlt|Hge].
  - rewrite Z.shiftl_spec_low by done. cbn.
    rewrite <- (Z.mod_pow2_bits_low (_ + _) n) by done.
    f_equal. rewrite shiftl_mul, Z.add_comm, Z.mod_add, Z.mod_small by lia. done.
  - rewrite Z.shiftl_spec by done.
    assert (Z.testbit b k = false) as ->.
    { rewrite <- (Z.mod_small b (2 ^ n)) by done. by apply Z.mod_pow2_bits_high. }
    rewrite orb_false_r. replace k with ((k - n) + n) at 2 by lia.
    rewrite <- Z.div_pow2_bits by lia. f_equal.
    rewrite shiftl_mul, Z.div_add_l, Z.div_small by lia. lia.
Qed.

Lemma be_bytes_1 z : be_bytes 1 z = [z mod 256].
Proof. done. Qed.
Lemma be_bytes_2 z : be_bytes 2 z = [(z / 256) mod 256; z mod 256].
Proof. done. Qed.
Lemma be_bytes_3 z : be_bytes 3 z = [(z / 65536) mod 256; (z / 256) mod 256; z mod 256].
Proof. unfold be_bytes. cbn [le_bytes rev app]. rewrite Z.div_div by lia. done. Qed.

Lemma be_bytes_4 z :
  be_bytes 4 z = [(z / 16777216) mod 256; (z / 65536) mod 256; (z / 256) mod 256; z mod 256].
Proof. unfold be_bytes. cbn [le_bytes rev app]. rewrite !Z.div_div by lia. done. Qed.

Lemma land_FF z : Z.land z 0xFF = z mod 256.
Proof. apply land_255. Qed.

Lemma shiftr_land z n : 0 <= n -> Z.land (Z.shiftr z n) 0xFF = (z / 2 ^ n) mod 256.
Proof. intros. by rewrite land_FF, Z.shiftr_div_pow2. Qed.

Lemma land_pow2 z n : 0 <= n -> Z.land z (2 ^ n) = if Z.testbit z n then 2 ^ n else 0.
Proof.
  intros Hn. apply Z.bits_inj'. intros k Hk. rewrite Z.land_spec, Z.pow2_bits_eqb by lia.
  destruct (Z.eqb_spec n k) as [->|Hne].
  - rewrite andb_true_r. destruct (Z.testbit z k) eqn:E; [by rewrite Z.pow2_bits_true|by rewrite Z.bits_0].
  - rewrite andb_false_r. destruct (Z.testbit z n); [by rewrite Z.pow2_bits_false|by rewrite Z.bits_0].
Qed.

(** A boolean fact about the integers below a constant is checked on each. *)
Lemma range_cases (n : nat) (f : Z -> bool) :
  forallb f (map Z.of_nat (seq 0 n)) = true -> forall v, 0 <= v < Z.of_nat n -> f v = true.
Proof.
  intros H v Hv. rewrite forallb_forall in H. apply H.
  apply in_map_iff. exists (Z.to_nat v). split; [lia|]. apply in_seq. lia.
Qed.

Create Rewrite HintDb bits.
#[export] Hint Rewrite land_255 land_15 land_31 land_7 land_3 land_63 : bits.
#[export] Hint Rewrite shiftr_div shiftl_mul using lia : bits.

(** ** Record update

    [r <| f := v |>] is [r] with the value [v] for the field [f].  A record type
    declares how a value is rebuilt from its fields; the update is found by
    abstracting the field in that expression. *)
Class Rebuild (R : Type) := rebuild : R -> R.
Class Update {R T : Type} (field : R -> T) := update : (R -> T) -> R -> R.
Arguments update {R T} field {_}.
Ltac update_of R field :=
  tryif has_evar field then fail else
  let inst := constr:(_ : Rebuild R) in
  let e := eval hnf in inst in
  match eval pattern field in e with
  | ?g field =>
      lazymatch g with
      | fun _ => ?b => fail
      | _ => exact g
      end
  end.
#[export] Hint Extern 0 (@Update ?R _ ?field) => update_of R field : typeclass_instances.
Notation "r <| f := v |>" := (update f (fun _ => v) r)
  (at level 1, f at level 9, left associativity, format "r  <| f  :=  v |>").

(** ** The platform layer

    [lwm2m_malloc] is supplied by the user of the library; all the model needs
    is whether a request of a given size succeeds. *)
Class Malloc := malloc_ok : Z -> bool.

(** An allocator that never fails. *)
Definition malloc_always : Malloc := fun _ => true.

(** ** Parts of a buffer *)

(** [f (b + off)]: [f] works on the tail of the buffer. *)
Definition at_off {A B} (b : list A) (off : Z) (f : list A -> C (B * list A)) : C (B * list A) :=
  assert! (0 <=? off) && (off <=? len b);
  '(r, t) ← f (drop (Z.to_nat off) b);
  ret (r, take (Z.to_nat off) b ++ t).

Lemma at_off_app {A B} (p q : list A) (off : Z) (f : list A -> C (B * list A)) :
  off = len p -> at_off (p ++ q) off f = '(r, t) ← f q; ret (r, p ++ t).
Proof.
  intros ->. unfold at_off. guards. rewrite Nat2Z.id, list.drop_app_length, list.take_app_length. done.
Qed.

(** ** Early returns *)

(** The value of a step that may end the function with a failure ([-1], [NULL]):
    [ret None] is the failure, and [None] is undefined behaviour as before. *)
Definition and_then {A B} (e : C (option A)) (k : A -> C (option B)) : C (option B) :=
  r ← e; match r with Some x => k x | None => ret None end.
Notation "x ←? e ; k" := (and_then e (fun x => k))
  (at level 20, e at level 100, k at level 200, right associativity, only parsing) : c_scope.
Notation "' x ←? e ; k" := (and_then e (fun x => k))
  (at level 20, x pattern, e at level 100, k at level 200, right associativity, only parsing) : c_scope.

(** ** Character constants and string literals *)
Definition chr (a : Ascii.ascii) : Z := Z.of_N (Ascii.N_of_ascii a).
Definition str (s : String.string) : list Z := map chr (String.list_ascii_of_string s).
Arguments chr a%_char.
Arguments str s%_string.

Lemma chr_byte a : is_byte (chr a).
Proof.
  unfold chr, is_byte. pose proof (Ascii.N_ascii_bounded a). lia.
Qed.

Lemma str_bytes s : bytes (str s).
Proof. unfold str. induction (String.list_ascii_of_string s); constructor; auto using chr_byte. Qed.

(** Replace the character constants by their codes, everywhere. *)
Ltac chars :=
  repeat match goal with
  | |- context [chr ?a] => let v := eval vm_compute in (chr a) in change (chr a) with v
  | H : context [chr ?a] |- _ => let v := eval vm_compute in (chr a) in change (chr a) with v in H
  end.
(** Close a boolean or arithmetic goal on characters. *)
Ltac clia := chars; lens.

(** Case analysis on the first guard of the goal. *)
Ltac dif E :=
  match goal with |- context [if ?c then _ else _] => destruct c eqn:E end.

(** Case analysis on all guards of the goal. *)
Ltac ifs := repeat (let E := fresh "E" in dif E).

(** Accesses at a constant index of an explicit list. *)
Ltac wr_const :=
  match goal with
  | |- context [wr ?l ?i ?v] =>
      let n := eval vm_compute in (Z.to_nat i) in
      let l' := eval cbn [insert list_insert] in (<[n := v]> l) in
      replace (wr l i v) with (Some l') by (unfold wr; guards; reflexivity)
  end.

Ltac rd_const :=
  match goal with
  | |- context [rd ?l ?i] =>
      let n := eval vm_compute in (Z.to_nat i) in
      let x := eval cbn [lookup list_lookup] in (l !! n) in
      replace (rd l i) with x by (unfold rd; guards; reflexivity)
  end.

(** Equality of structured values, arithmetic at the leaves. *)
Ltac feq := repeat first [reflexivity | lens | progress f_equal].

(** Right-nest the concatenations of the goal. *)
Ltac apps := repeat (rewrite <- app_assoc; cbn [app]).

(** One step of the option monad. *)
Ltac mstep := cbn [mbind option_bind fst snd].

(** Discharge a closed arithmetic side condition by computation. *)
Ltac eval_side := vm_compute; repeat split; first [discriminate | reflexivity | done].
