(* ===== verification/SortedList.v ===== *)
(** * The sorted linked list (core/list.c)

    The generic singly linked list every table of the library is built on
    (transactions, clients, servers, objects, observations).  A list is the
    sequence of nodes reachable from its head; a node type is any structure
    that starts with the fields [next] and [id] of [lwm2m_list_t], which the
    class [ListNode] states.  Module [SortedList] has the operations, their
    invariant (ids ascending) and what each operation does to it. *)
From S2P Require Import Prelude.

(** A structure castable to [lwm2m_list_t]: its [id] field. *)
Class ListNode (A : Type) := node_id : A -> Z.

Module SortedList.
Section Operations.
Context {A : Type} `{ListNode A}.
Implicit Types (node h : A) (head next : list A) (id : Z).

(** The loop of [lwm2m_list_add] that walks [target], on [target->next]. *)
Fixpoint insert_after node (next : list A) : list A :=
  match next with
  | [] => [node]
  | n :: next' =>
      if node_id n <? node_id node then n :: insert_after node next'
      else node :: n :: next'
  end.

(** [node_next] is the [next] field the node has on entry: it is kept when
    the list is empty. *)
Definition lwm2m_list_add head node (node_next : list A) : list A :=
  match head with
  | [] => node :: node_next
  | h :: next =>
      if node_id node <? node_id h then node :: h :: next
      else h :: insert_after node next
  end.

Fixpoint lwm2m_list_find head id : option A :=
  match head with
  | [] => None
  | h :: next =>
      if node_id h <? id then lwm2m_list_find next id
      else if node_id h =? id then Some h else None
  end.

Fixpoint lwm2m_list_count head : Z :=
  match head with
  | [] => 0
  | _ :: next => 1 + lwm2m_list_count next
  end.

(** The loop of [lwm2m_list_remove] on [target->next]. *)
Fixpoint remove_after (next : list A) id : list A * option A :=
  match next with
  | [] => ([], None)
  | n :: next' =>
      if node_id n <? id then
        let (l, r) := remove_after next' id in (n :: l, r)
      else if node_id n =? id then (next', Some n) else (n :: next', None)
  end.

(** The new head and [*nodeP]. *)
Definition lwm2m_list_remove head id : list A * option A :=
  match head with
  | [] => ([], None)
  | h :: next =>
      if node_id h =? id then (next, Some h)
      else let (l, r) := remove_after next id in (h :: l, r)
  end.

(** The loop of [lwm2m_list_newId] from [target], with its local [id]. *)
Fixpoint newId_from (target : list A) id : Z :=
  match target with
  | [] => id
  | t :: target' => if id =? node_id t then newId_from target' (u16 (node_id t + 1)) else id
  end.

Definition lwm2m_list_newId head : Z := newId_from head 0.

(** The nodes handed to [lwm2m_free], in order. *)
Fixpoint lwm2m_list_free head : list A :=
  match head with
  | [] => []
  | h :: next => h :: lwm2m_list_free next
  end.

(** The identifier of the node behind [id]: its [next] field. *)
Fixpoint next_id (l : list A) id : option Z :=
  match l with
  | [] => None
  | h :: l => if node_id h =? id then node_id <$> head l else next_id l id
  end.

(** ** Invariants *)

Definition id_le (a b : A) : Prop := node_id a <= node_id b.
Definition id_lt (a b : A) : Prop := node_id a < node_id b.
(** Ids ascending; ids pairwise different and ascending. *)
Definition list_sorted (l : list A) : Prop := StronglySorted id_le l.
Definition list_strict (l : list A) : Prop := StronglySorted id_lt l.

Lemma strict_sorted l : list_strict l -> list_sorted l.
Proof.
  induction 1 as [|x l Hs IH Hx]; constructor; [done|].
  eapply list.Forall_impl; [exact Hx|]. unfold id_lt, id_le; lia.
Qed.

Lemma insert_after_perm node l : insert_after node l ≡ₚ node :: l.
Proof.
  induction l as [|n l IH]; cbn; [done|]. destruct (node_id n <? node_id node); [|done].
  rewrite IH. apply Permutation_swap.
Qed.

Lemma insert_after_sorted node l : list_sorted l -> list_sorted (insert_after node l).
Proof.
  induction 1 as [|n l Hs IH Hn]; cbn; [repeat constructor|].
  destruct (node_id n <? node_id node) eqn:E.
  - constructor; [exact IH|]. rewrite insert_after_perm.
    constructor; [unfold id_le; lia|done].
  - constructor; [by constructor|]. constructor; [unfold id_le; lia|].
    eapply list.Forall_impl; [exact Hn|]. unfold id_le; lia.
Qed.

Lemma add_perm head node next :
  (head = [] -> next = []) -> lwm2m_list_add head node next ≡ₚ node :: head.
Proof.
  intros Hn. destruct head as [|h l]; cbn; [by rewrite Hn|].
  destruct (node_id node <? node_id h); [done|].
  rewrite insert_after_perm. apply Permutation_swap.
Qed.

Lemma add_sorted head node next :
  (head = [] -> next = []) -> list_sorted head ->
  list_sorted (lwm2m_list_add head node next).
Proof.
  intros Hn Hs. destruct head as [|h l]; cbn; [rewrite Hn by done; repeat constructor|].
  inversion_clear Hs as [|? ? Hs' Hh].
  destruct (node_id node <? node_id h) eqn:E.
  - constructor; [by constructor|]. constructor; [unfold id_le; lia|].
    eapply list.Forall_impl; [exact Hh|]. unfold id_le; lia.
  - constructor; [by apply insert_after_sorted|]. rewrite insert_after_perm.
    constructor; [unfold id_le; lia|done].
Qed.

Lemma find_above l id : Forall (fun n => id < node_id n) l -> lwm2m_list_find l id = None.
Proof.
  destruct 1; cbn; [done|]. by guards.
Qed.

Lemma filter_above l id :
  Forall (fun n => id < node_id n) l -> filter (fun n => node_id n = id) l = [].
Proof.
  induction 1; [done|]. rewrite filter_cons_False by lia. done.
Qed.

(** The early stop of the search is sound on an ascending list: it is a
    search through the whole list. *)
Lemma find_filter l id :
  list_sorted l -> lwm2m_list_find l id = head (filter (fun n => node_id n = id) l).
Proof.
  induction 1 as [|h l Hs IH Hh]; [done|]. cbn [lwm2m_list_find].
  destruct (node_id h <? id) eqn:E1.
  - rewrite filter_cons_False by lia. done.
  - destruct (node_id h =? id) eqn:E2.
    + rewrite filter_cons_True by lia. done.
    + rewrite filter_cons_False by lia. rewrite filter_above; [done|].
      eapply list.Forall_impl; [exact Hh|]. unfold id_le; lia.
Qed.

Lemma remove_after_spec l id n :
  lwm2m_list_find l id = Some n ->
  exists l1 l2, l = l1 ++ n :: l2 /\ Forall (fun m => node_id m < id) l1 /\
    node_id n = id /\ remove_after l id = (l1 ++ l2, Some n).
Proof.
  induction l as [|h l IH]; cbn; [done|].
  destruct (node_id h <? id) eqn:E1.
  - intros (l1 & l2 & -> & Hl & Hi & ->)%IH. exists (h :: l1), l2.
    repeat split; auto. constructor; [lia|done].
  - destruct (node_id h =? id) eqn:E2; [|done]. intros [= ->].
    exists [], l. repeat split; [constructor | lia].
Qed.

Lemma remove_after_none l id :
  lwm2m_list_find l id = None -> remove_after l id = (l, None).
Proof.
  induction l as [|h l IH]; cbn; [done|].
  destruct (node_id h <? id); [intros ->%IH; done|]. by destruct (node_id h =? id).
Qed.

Lemma newId_from_spec l id :
  list_strict l -> Forall (fun n => id <= node_id n < 2 ^ 16) l -> 0 <= id < 2 ^ 16 ->
  id + len l < 2 ^ 16 ->
  let r := newId_from l id in
  id <= r <= id + len l /\ Forall (fun n => node_id n <> r) l /\
  (forall k, id <= k < r -> exists n, n ∈ l /\ node_id n = k).
Proof.
  intros Hs. revert id. induction Hs as [|h l Hs IH Hh]; intros id Hb Hid Hlen; cbn zeta.
  - cbn. split_and!; [lia|lia|constructor|intros; lia].
  - cbn [newId_from]. inversion_clear Hb as [|? ? Hh' Hb'].
    destruct (id =? node_id h) eqn:E.
    + assert (u16 (node_id h + 1) = id + 1) as -> by (rewrite wrap_small; lens).
      destruct (IH (id + 1)) as (H1 & H2 & H3).
      * rewrite list.Forall_forall in Hh, Hb' |- *. unfold id_lt in Hh.
        intros n Hn. specialize (Hh n Hn). specialize (Hb' n Hn). lia.
      * lens.
      * lens.
      * split_and!; [lens|lens| |].
        -- constructor; [lia|done].
        -- intros k Hk. destruct (decide (k = id)) as [->|Hne].
           ++ exists h. split; [by apply list_elem_of_here|lia].
           ++ destruct (H3 k) as (n & Hn & <-); [lia|]. exists n.
              split; [by apply list_elem_of_further|done].
    + split_and!; [lia|lens| |intros; lia]. constructor; [lia|].
      eapply list.Forall_impl; [exact Hh|]. unfold id_lt; intros; lia.
Qed.

Lemma list_sorted_delete l1 n l2 : list_sorted (l1 ++ n :: l2) -> list_sorted (l1 ++ l2).
Proof.
  induction l1 as [|h l1 IH]; cbn; [by inversion_clear 1|].
  inversion_clear 1 as [|? ? Hs Hh]. constructor; [by apply IH|].
  apply Forall_app in Hh as [H1 H2]. inversion_clear H2. by apply Forall_app.
Qed.

Lemma strict_NoDup l : list_strict l -> NoDup (node_id <$> l).
Proof.
  induction 1 as [|h l Hs IH Hh]; cbn; constructor; [|done].
  intros (n & He & Hn)%list_elem_of_fmap. rewrite list.Forall_forall in Hh.
  specialize (Hh n Hn). unfold id_lt in Hh. lia.
Qed.

Lemma sorted_distinct_strict l : list_sorted l -> NoDup (node_id <$> l) -> list_strict l.
Proof.
  induction 1 as [|h l Hs IH Hh]; [constructor|]. cbn. inversion_clear 1 as [|? ? Hn Hd].
  constructor; [by apply IH|]. rewrite list.Forall_forall in Hh |- *.
  intros n Hin. specialize (Hh n Hin). unfold id_le in Hh. unfold id_lt.
  assert (node_id n <> node_id h); [|lia]. intros E. apply Hn. rewrite <- E.
  by apply list_elem_of_fmap_2.
Qed.

(** A node in the middle of a list. *)
Lemma strict_middle l n l2 :
  list_strict (l ++ n :: l2) -> Forall (fun m => node_id m < node_id n) l /\ Forall (fun m => node_id n < node_id m) l2.
Proof.
  induction l as [|h l IH]; cbn; inversion_clear 1 as [|? ? Hs Hh]; [split; [constructor|exact Hh]|].
  destruct (IH Hs) as [H1 H2]. apply Forall_app in Hh as [_ Hh]. apply Forall_cons in Hh as [Hh _].
  split; [by constructor|done].
Qed.

Lemma find_middle l n l2 : list_strict (l ++ n :: l2) -> lwm2m_list_find (l ++ n :: l2) (node_id n) = Some n.
Proof.
  intros [Hl _]%strict_middle. induction Hl as [|h l Hh Hl IH]; cbn; [by rewrite Z.ltb_irrefl, Z.eqb_refl|].
  by rewrite (proj2 (Z.ltb_lt _ _) Hh).
Qed.

Lemma next_middle l n l2 : list_strict (l ++ n :: l2) -> next_id (l ++ n :: l2) (node_id n) = node_id <$> head l2.
Proof.
  intros [Hl _]%strict_middle. induction Hl as [|h l Hh Hl IH]; cbn; [by rewrite Z.eqb_refl|].
  by rewrite (proj2 (Z.eqb_neq (node_id h) (node_id n))) by lia.
Qed.

Lemma remove_middle l n l2 : list_strict (l ++ n :: l2) -> lwm2m_list_remove (l ++ n :: l2) (node_id n) = (l ++ l2, Some n).
Proof.
  intros [Hl _]%strict_middle. assert (remove_after (l ++ n :: l2) (node_id n) = (l ++ l2, Some n)) as Hr.
  { induction Hl as [|h l Hh Hl IH]; cbn; [by rewrite Z.ltb_irrefl, Z.eqb_refl|].
    by rewrite (proj2 (Z.ltb_lt _ _) Hh), IH. }
  destruct Hl as [|h l Hh Hl]; cbn in *; [by rewrite Z.eqb_refl|].
  rewrite (proj2 (Z.ltb_lt _ _) Hh) in Hr. rewrite (proj2 (Z.eqb_neq (node_id h) (node_id n))) by lia.
  destruct (remove_after _ _). by simplify_eq.
Qed.

Lemma find_split l id n :
  list_strict l -> lwm2m_list_find l id = Some n -> node_id n = id /\ exists l1 l2, l = l1 ++ n :: l2.
Proof.
  intros Hs Hf. destruct (remove_after_spec _ _ _ Hf) as (l1 & l2 & -> & _ & Hn & _). by eauto.
Qed.

(** Strictness depends on the identifiers only. *)
Lemma strict_node_ids l : list_strict l <-> StronglySorted Z.lt (map node_id l).
Proof.
  induction l as [|x l IH]; cbn; [split; constructor|].
  split; intros Hs; inversion Hs as [|? ? Hs' Hx]; subst; constructor; try (by apply IH).
  - apply (proj2 (list.Forall_fmap node_id _ l)). exact Hx.
  - exact (proj1 (list.Forall_fmap node_id _ l) Hx).
Qed.

Lemma strict_delete_middle l n l2 : list_strict (l ++ n :: l2) -> list_strict (l ++ l2).
Proof.
  induction l as [|h l IH]; cbn; inversion_clear 1 as [|? ? Hs Hh]; [done|]. constructor; [by apply IH|].
  apply Forall_app in Hh as [H1 H2]. apply Forall_cons in H2 as [_ H2]. by apply Forall_app.
Qed.

Lemma strict_replace_middle l n n' l2 : list_strict (l ++ n :: l2) -> node_id n' = node_id n -> list_strict (l ++ n' :: l2).
Proof. rewrite !strict_node_ids, !map_app. cbn. by intros ? ->. Qed.

Lemma find_absent l id : Forall (fun n => node_id n <> id) l -> lwm2m_list_find l id = None.
Proof. induction 1 as [|h l Hh Hl IH]; cbn; [done|]. destruct (node_id h <? id); [done|]. by guards. Qed.

Lemma find_insert n l id :
  Forall (fun m => node_id m <> node_id n) l ->
  lwm2m_list_find (insert_after n l) id = if id =? node_id n then Some n else lwm2m_list_find l id.
Proof.
  induction 1 as [|h l Hh Hl IH]; cbn [insert_after lwm2m_list_find].
  - destruct (node_id n <? id) eqn:E1; [by guards|]. by rewrite Z.eqb_sym.
  - destruct (node_id h <? node_id n) eqn:E1; cbn [lwm2m_list_find].
    + rewrite IH. destruct (Z.eqb_spec id (node_id n)) as [->|Hn]; [by rewrite E1|done].
    + destruct (Z.eqb_spec id (node_id n)) as [->|Hn]; [by rewrite Z.ltb_irrefl, Z.eqb_refl|].
      destruct (node_id n <? id) eqn:E2; [done|]. by guards.
Qed.

Lemma find_add n l id :
  Forall (fun m => node_id m <> node_id n) l ->
  lwm2m_list_find (lwm2m_list_add l n []) id = if id =? node_id n then Some n else lwm2m_list_find l id.
Proof.
  intros Hl. rewrite <- find_insert by done. destruct l as [|h l]; [done|]. cbn [lwm2m_list_add].
  apply Forall_cons in Hl as [Hh Hl]. destruct (node_id n <? node_id h) eqn:E1; cbn [insert_after];
    destruct (node_id h <? node_id n) eqn:E2; try done; lia.
Qed.

(** A node with a new identifier is added where it belongs. *)
Lemma insert_split n l :
  list_strict l -> Forall (fun m => node_id m <> node_id n) l ->
  exists l1 l2, insert_after n l = l1 ++ n :: l2 /\ l = l1 ++ l2 /\ list_strict (l1 ++ n :: l2).
Proof.
  intros Hs Hf. assert (list_strict (insert_after n l)) as Hs'.
  { apply sorted_distinct_strict; [by apply insert_after_sorted, strict_sorted|]. rewrite insert_after_perm. cbn [fmap list_fmap].
    apply NoDup_cons. split; [|by apply strict_NoDup]. intros (m & Hm & Hin)%list_elem_of_fmap.
    rewrite list.Forall_forall in Hf. by apply (Hf m). }
  assert (exists l1 l2, insert_after n l = l1 ++ n :: l2 /\ l = l1 ++ l2) as (l1 & l2 & E & E2).
  { clear. induction l as [|h l IH]; cbn [insert_after]; [by exists [], []|]. destruct (_ <? _).
    - destruct IH as (l1 & l2 & -> & ->). by exists (h :: l1), l2.
    - by exists [], (h :: l). }
  exists l1, l2. rewrite E in Hs'. done.
Qed.

Lemma add_split n l :
  list_strict l -> Forall (fun m => node_id m <> node_id n) l ->
  exists l1 l2, lwm2m_list_add l n [] = l1 ++ n :: l2 /\ l = l1 ++ l2 /\ list_strict (l1 ++ n :: l2).
Proof.
  intros Hs Hf. destruct (insert_split n l Hs Hf) as (l1 & l2 & E & Hl). exists l1, l2. split; [|done]. rewrite <- E.
  destruct l as [|h l]; [done|]. cbn [lwm2m_list_add insert_after]. apply Forall_cons in Hf as [Hh Hf].
  destruct (node_id n <? node_id h) eqn:E1, (node_id h <? node_id n) eqn:E2; try done; lia.
Qed.

(** At most [bound] identifiers. *)
Lemma strict_length_bound l lo bound :
  list_strict l -> Forall (fun n => lo <= node_id n < bound) l -> len l <= Z.max 0 (bound - lo).
Proof.
  intros Hs. revert lo. induction Hs as [|x l Hs IH Hx]; intros lo Hl; [cbn; lia|].
  apply Forall_cons in Hl as [H1 H2]. specialize (IH (node_id x + 1)). cbn [length].
  assert (Forall (fun n => node_id x + 1 <= node_id n < bound) l) as H3; [|specialize (IH H3); lia].
  rewrite list.Forall_forall in *. intros y Hy. specialize (H2 y Hy). specialize (Hx y Hy). unfold id_lt in Hx. lia.
Qed.
End Operations.


Section Correctness.
Context {A : Type} `{ListNode A}.
Implicit Types (head : list A) (node : A).

(** [lwm2m_list_add] keeps the ids ascending and inserts exactly the new
    node: the result is a permutation of the node and the old list.  A node
    added to the empty list must come with a null [next], which the code
    leaves untouched there. *)
Theorem list_add_invariant head node next :
  (head = [] -> next = []) -> list_sorted head ->
  list_sorted (lwm2m_list_add head node next) /\
  lwm2m_list_add head node next ≡ₚ node :: head.
Proof. intros; split; [by apply add_sorted|by apply add_perm]. Qed.

(** On an ascending list the search, which stops at the first larger id,
    finds the node a search through the whole list finds; and removal takes
    that node, and nothing else, out of the list and returns it, leaving the
    list as it was when no node has the id. *)
Theorem list_find_remove head id :
  list_sorted head ->
  lwm2m_list_find head id = hd_error (filter (fun n => node_id n = id) head) /\
  match lwm2m_list_find head id with
  | Some n => exists l1 l2, head = l1 ++ n :: l2 /\ node_id n = id /\
      lwm2m_list_remove head id = (l1 ++ l2, Some n)
  | None => lwm2m_list_remove head id = (head, None)
  end /\
  list_sorted (fst (lwm2m_list_remove head id)).
Proof.
  intros Hs.
  assert (lwm2m_list_remove head id = remove_after head id) as ->.
  { destruct Hs as [|h l Hs Hh]; cbn; [done|].
    destruct (node_id h =? id) eqn:E; [by guards|].
    destruct (node_id h <? id) eqn:E'; [done|].
    rewrite remove_after_none; [done|]. apply find_above.
    eapply list.Forall_impl; [exact Hh|]. unfold id_le; lia. }
  split; [by rewrite find_filter by done|].
  destruct (lwm2m_list_find head id) as [n|] eqn:E.
  - destruct (remove_after_spec _ _ _ E) as (l1 & l2 & -> & _ & Hi & ->).
    split; [by exists l1, l2|]. by eapply list_sorted_delete.
  - rewrite remove_after_none by done. done.
Qed.

(** On a list of distinct ascending 16-bit ids that is not full,
    [lwm2m_list_newId] returns the lowest id no node has, and adding a node
    with it keeps the ids distinct. *)
Theorem list_newId_fresh head node :
  list_strict head -> Forall (fun n => 0 <= node_id n < 2 ^ 16) head ->
  len head < 2 ^ 16 ->
  Forall (fun n => node_id n <> lwm2m_list_newId head) head /\
  (forall k, 0 <= k < lwm2m_list_newId head -> exists n, n ∈ head /\ node_id n = k) /\
  (node_id node = lwm2m_list_newId head -> list_strict (lwm2m_list_add head node [])).
Proof.
  intros Hs Hb Hl. pose proof (newId_from_spec head 0 Hs Hb ltac:(lia) ltac:(lia)) as H1.
  cbn zeta in H1. fold (lwm2m_list_newId head) in H1. destruct H1 as (_ & H2 & H3).
  split_and!; [done|done|]. intros Hn. apply sorted_distinct_strict.
  - apply add_sorted; auto using strict_sorted.
  - rewrite add_perm by done. cbn. constructor.
    + rewrite Hn. intros (n & He & Hin)%list_elem_of_fmap.
      rewrite list.Forall_forall in H2. by apply (H2 n).
    + by apply strict_NoDup.
Qed.
End Correctness.

(** A list of bare ids, for the witnesses. *)
#[local] Instance Z_node : ListNode Z := fun z => z.

Lemma list_add_invariant_witness :
  list_sorted (lwm2m_list_add [1; 3] 2 []) /\ lwm2m_list_add [1; 3] 2 [] ≡ₚ [2; 1; 3].
Proof.
  apply (list_add_invariant [1; 3] 2 []); [done|].
  repeat constructor; unfold id_le, node_id, Z_node; lia.
Defined.

Lemma list_find_remove_witness :
  lwm2m_list_find [1; 3] 3 = hd_error (filter (fun n => node_id n = 3) [1; 3]) /\
  (exists l1 l2, [1; 3] = l1 ++ 3 :: l2 /\ node_id 3 = 3 /\
     lwm2m_list_remove [1; 3] 3 = (l1 ++ l2, Some 3)) /\
  list_sorted (fst (lwm2m_list_remove [1; 3] 3)).
Proof.
  assert (list_sorted [1; 3]) as Hs
    by (repeat constructor; unfold id_le, node_id, Z_node; lia).
  exact (list_find_remove [1; 3] 3 Hs).
Defined.

Lemma list_newId_fresh_witness :
  Forall (fun n => node_id n <> 2) [0; 1; 7] /\
  (forall k, 0 <= k < 2 -> exists n, n ∈ [0; 1; 7] /\ node_id n = k) /\
  (node_id 2 = 2 -> list_strict (lwm2m_list_add [0; 1; 7] 2 [])).
Proof.
  refine (list_newId_fresh [0; 1; 7] 2 _ _ _); [| |vm_compute; reflexivity];
    repeat constructor; unfold id_lt, node_id, Z_node; lia.
Defined.
End SortedList.
