(* ===== verification/Types.v ===== *)
(** * The data model of the library (include/liblwm2m.h)

    URIs, typed data trees, media types and result codes.  A C [enum] that the
    code switches on is an inductive type when it is a tag of the library's own
    data, and an integer constant when it is a number on the wire. *)
From S2P Require Import Prelude.

(** ** Identifiers and URIs *)

(** [LWM2M_MAX_ID]: the value of an identifier that is not set. *)
Definition LWM2M_MAX_ID : Z := 65535.

Record lwm2m_uri_t := mk_uri {
  objectId : Z;
  instanceId : Z;
  resourceId : Z;
  resourceInstanceId : Z
}.

#[export] Instance uri_eq_dec : EqDecision lwm2m_uri_t.
Proof. solve_decision. Defined.

(** [LWM2M_URI_RESET]: [memset] to [0xFF]. *)
Definition LWM2M_URI_RESET : lwm2m_uri_t :=
  mk_uri LWM2M_MAX_ID LWM2M_MAX_ID LWM2M_MAX_ID LWM2M_MAX_ID.

Definition LWM2M_URI_IS_SET_OBJECT (u : lwm2m_uri_t) : bool := negb (objectId u =? LWM2M_MAX_ID).
Definition LWM2M_URI_IS_SET_INSTANCE (u : lwm2m_uri_t) : bool := negb (instanceId u =? LWM2M_MAX_ID).
Definition LWM2M_URI_IS_SET_RESOURCE (u : lwm2m_uri_t) : bool := negb (resourceId u =? LWM2M_MAX_ID).
Definition LWM2M_URI_IS_SET_RESOURCE_INSTANCE (u : lwm2m_uri_t) : bool :=
  negb (resourceInstanceId u =? LWM2M_MAX_ID).

Inductive uri_depth_t :=
  | URI_DEPTH_NONE
  | URI_DEPTH_OBJECT
  | URI_DEPTH_OBJECT_INSTANCE
  | URI_DEPTH_RESOURCE
  | URI_DEPTH_RESOURCE_INSTANCE.
#[export] Instance uri_depth_eq_dec : EqDecision uri_depth_t.
Proof. solve_decision. Defined.

(** ** Data *)

Inductive lwm2m_data_type_t :=
  | LWM2M_TYPE_UNDEFINED
  | LWM2M_TYPE_OBJECT
  | LWM2M_TYPE_OBJECT_INSTANCE
  | LWM2M_TYPE_MULTIPLE_RESOURCE
  | LWM2M_TYPE_STRING
  | LWM2M_TYPE_OPAQUE
  | LWM2M_TYPE_INTEGER
  | LWM2M_TYPE_UNSIGNED_INTEGER
  | LWM2M_TYPE_FLOAT
  | LWM2M_TYPE_BOOLEAN
  | LWM2M_TYPE_OBJECT_LINK
  | LWM2M_TYPE_CORE_LINK.
#[export] Instance lwm2m_data_type_eq_dec : EqDecision lwm2m_data_type_t.
Proof. solve_decision. Defined.

(** The union of [struct _lwm2m_data_t]: its last written member, or [VZero]
    for a union cleared by [memset].  A [double] is its 64-bit object
    representation; a buffer or an array is the list of what it holds, the
    empty list for the null pointer of length 0. *)
Inductive lwm2m_data_t :=
  | mk_data (type : lwm2m_data_type_t) (id : Z) (value : value_t)
with value_t :=
  | VZero
  | VBoolean (b : bool)
  | VInteger (i : Z)
  | VUnsigned (u : Z)
  | VFloat (bits : Z)
  | VBuffer (buffer : list Z)
  | VChildren (array : list lwm2m_data_t)
  | VObjLink (objectId objectInstanceId : Z).

Definition d_type (d : lwm2m_data_t) : lwm2m_data_type_t := let 'mk_data t _ _ := d in t.
Definition d_id (d : lwm2m_data_t) : Z := let 'mk_data _ i _ := d in i.
Definition d_value (d : lwm2m_data_t) : value_t := let 'mk_data _ _ v := d in v.

(** Reading a member of the union: the member last written, zero in a cleared
    union; reading another member is outside the model. *)
Definition asBoolean (v : value_t) : C bool :=
  match v with VZero => ret false | VBoolean b => ret b | _ => None end.
Definition asInteger (v : value_t) : C Z :=
  match v with VZero => ret 0 | VInteger i => ret i | _ => None end.
Definition asUnsigned (v : value_t) : C Z :=
  match v with VZero => ret 0 | VUnsigned u => ret u | _ => None end.
Definition asFloat (v : value_t) : C Z :=
  match v with VZero => ret 0 | VFloat f => ret f | _ => None end.
Definition asBuffer (v : value_t) : C (list Z) :=
  match v with VZero => ret [] | VBuffer l => ret l | _ => None end.
Definition asChildren (v : value_t) : C (list lwm2m_data_t) :=
  match v with VZero => ret [] | VChildren l => ret l | _ => None end.
Definition asObjLink (v : value_t) : C (Z * Z) :=
  match v with VZero => ret (0, 0) | VObjLink o i => ret (o, i) | _ => None end.

(** Induction on data trees, through the arrays of children. *)
Section data_ind.
Variable P : lwm2m_data_t -> Prop.
Hypothesis Hleaf : forall t i v, (forall l, v <> VChildren l) -> P (mk_data t i v).
Hypothesis Hnode : forall t i l, Forall P l -> P (mk_data t i (VChildren l)).

Fixpoint lwm2m_data_tree_ind (d : lwm2m_data_t) : P d :=
  match d with
  | mk_data t i v =>
      match v as v return P (mk_data t i v) with
      | VChildren l =>
          Hnode t i l ((fix go (l : list lwm2m_data_t) : Forall P l :=
            match l with
            | [] => list.Forall_nil_2 P
            | d :: l => list.Forall_cons_2 P d l (lwm2m_data_tree_ind d) (go l)
            end) l)
      | VZero => Hleaf t i VZero ltac:(discriminate)
      | VBoolean b => Hleaf t i (VBoolean b) ltac:(discriminate)
      | VInteger z => Hleaf t i (VInteger z) ltac:(discriminate)
      | VUnsigned z => Hleaf t i (VUnsigned z) ltac:(discriminate)
      | VFloat f => Hleaf t i (VFloat f) ltac:(discriminate)
      | VBuffer l => Hleaf t i (VBuffer l) ltac:(discriminate)
      | VObjLink o z => Hleaf t i (VObjLink o z) ltac:(discriminate)
      end
  end.
End data_ind.

(** ** Media types ([lwm2m_media_type_t]) and CoAP content types *)

Definition LWM2M_CONTENT_TEXT : Z := 0.
Definition LWM2M_CONTENT_LINK : Z := 40.
Definition LWM2M_CONTENT_OPAQUE : Z := 42.
Definition LWM2M_CONTENT_TLV_OLD : Z := 1542.
Definition LWM2M_CONTENT_TLV : Z := 11542.
Definition LWM2M_CONTENT_JSON_OLD : Z := 1543.
Definition LWM2M_CONTENT_JSON : Z := 11543.
Definition LWM2M_CONTENT_SENML_JSON : Z := 110.
Definition LWM2M_CONTENT_CBOR : Z := 60.
Definition LWM2M_CONTENT_SENML_CBOR : Z := 112.

Definition TEXT_PLAIN : Z := 0.
Definition APPLICATION_LINK_FORMAT : Z := 40.
Definition APPLICATION_OCTET_STREAM : Z := 42.

(** ** Result codes *)

Definition COAP_NO_ERROR : Z := 0x00.
Definition COAP_IGNORE : Z := 0x01.
Definition COAP_RETRANSMISSION : Z := 0x02.
Definition COAP_201_CREATED : Z := 0x41.
Definition COAP_202_DELETED : Z := 0x42.
Definition COAP_204_CHANGED : Z := 0x44.
Definition COAP_205_CONTENT : Z := 0x45.
Definition COAP_231_CONTINUE : Z := 0x5F.
Definition COAP_400_BAD_REQUEST : Z := 0x80.
Definition COAP_402_BAD_OPTION : Z := 0x82.
Definition COAP_404_NOT_FOUND : Z := 0x84.
Definition COAP_405_METHOD_NOT_ALLOWED : Z := 0x85.
Definition COAP_406_NOT_ACCEPTABLE : Z := 0x86.
Definition COAP_408_REQ_ENTITY_INCOMPLETE : Z := 0x88.
Definition COAP_413_ENTITY_TOO_LARGE : Z := 0x8D.
Definition COAP_500_INTERNAL_SERVER_ERROR : Z := 0xA0.
Definition COAP_503_SERVICE_UNAVAILABLE : Z := 0xA3.
