(* ===== verification/Numeric.v ===== *)
(** * Numbers as text (core/utils.c, first part)

    The conversions between machine integers and their decimal text, and the
    text of an object link.  The loops are written out with the wrap-around of
    [uint64_t]; [dec] and [digits_val] are the reference for the decimal
    notation the theorems compare them with. *)
From S2P Require Import Prelude Types.

Module Numeric.



Definition is_digit (c : Z) : bool := (chr "0" <=? c) && (c <=? chr "9").

(** The [while (i < length)] loop of [utils_textToInt] and [utils_textToUInt]
    with [n] iterations left; [Some None] is [return 0]. *)
Fixpoint digits_loop (buffer : list Z) (n : nat) (i result : Z) : C (option Z) :=
  match n with
  | O => ret (Some result)
  | S n =>
      c ← rd buffer i;
      if is_digit c then
        if UINT64_MAX / 10 <? result then ret None
        else digits_loop buffer n (i + 1) (u64 (u64 (result * 10) + (c - chr "0")))
      else ret None
  end.

(** [Some (Some v)] is [return 1] with [v] in [*dataP]; [Some None] is
    [return 0] with [*dataP] as it was. *)
Definition utils_textToInt (buffer : list Z) (length : Z) : C (option Z) :=
  if length =? 0 then ret None
  else
    c0 ← rd buffer 0;
    let neg := c0 =? chr "-" in
    let i := if neg then 1 else 0 in
    res ← digits_loop buffer (Z.to_nat (length - i)) i 0;
    match res with
    | None => ret None
    | Some result =>
        if INT64_MAX + (if neg then 1 else 0) <? result then ret None
        else if neg then ret (Some (s64 (u64 (0 - result))))
        else ret (Some (s64 result))
    end.

Definition utils_textToUInt (buffer : list Z) (length : Z) : C (option Z) :=
  if length =? 0 then ret None
  else digits_loop buffer (Z.to_nat length) 0 0.

(** The scan for [':'] of [utils_textToObjLink]. *)
Fixpoint find_colon (buffer : list Z) (n : nat) (sep : Z) : C Z :=
  match n with
  | O => ret sep
  | S n => c ← rd buffer sep; if c =? chr ":" then ret sep else find_colon buffer n (sep + 1)
  end.

(** The object and the instance identifier, or [None] for [return 0]. *)
Definition utils_textToObjLink (buffer : list Z) (length : Z) : C (option (Z * Z)) :=
  sep ← find_colon buffer (Z.to_nat length) 0;
  if (sep =? 0) || (sep =? length) then ret None
  else
    o ← utils_textToUInt buffer sep;
    match o with
    | None => ret None
    | Some object =>
        r ← utils_textToUInt (drop (Z.to_nat (sep + 1)) buffer) (length - sep - 1);
        match r with
        | None => ret None
        | Some instance =>
            if (LWM2M_MAX_ID <? object) || (LWM2M_MAX_ID <? instance) then ret None
            else ret (Some (u16 object, u16 instance))
        end
    end.

(** The [do ... while] loop of [utils_uintToText] from [index = k]: the buffer,
    [index] and [data] on exit. *)
Fixpoint digits_down (k : nat) (data : Z) (string : list Z) : C (list Z * Z * Z) :=
  string ← wr string (Z.of_nat k) (chr "0" + data mod 10);
  let data := data / 10 in
  match k with
  | O => ret (string, -1, data)
  | S k => if 0 <? data then digits_down k data string else ret (string, Z.of_nat k, data)
  end.

(** The result and the buffer at [string].  [index] is an [int]. *)
Definition utils_uintToText (data : Z) (string : list Z) (length : Z) : C (Z * list Z) :=
  if length =? 0 then ret (0, string)
  else
    let index := s32 (length - 1) in
    assert! 0 <=? index;
    '(string, index, data) ← digits_down (Z.to_nat index) data string;
    if 0 <? data then ret (0, string)
    else
      let index := index + 1 in
      let result := length - index in
      if result <? length then
        moved ← rd_bytes string index result;
        string ← wr_bytes string 0 moved;
        string ← wr string result 0;
        ret (result, string)
      else ret (result, string).

Definition utils_intToText (data : Z) (string : list Z) (length : Z) : C (Z * list Z) :=
  if data <? 0 then
    if length =? 0 then ret (0, string)
    else
      string ← wr string 0 (chr "-");
      if data =? INT64_MIN then
        let int64_min_str := str "-9223372036854775808" in
        if length <=? len int64_min_str then ret (0, string)
        else
          string ← wr_bytes string 0 int64_min_str;
          string ← wr string (len int64_min_str) 0;
          ret (len int64_min_str, string)
      else
        '(result, tail) ← utils_uintToText (Z.abs data) (drop 1 string) (length - 1);
        let string := take 1 string ++ tail in
        ret (if result =? 0 then 0 else result + 1, string)
  else utils_uintToText data string length.

Definition utils_objLinkToText (objectId objectInstanceId : Z) (string : list Z) (length : Z)
    : C (Z * list Z) :=
  '(res, string) ← utils_uintToText objectId string length;
  if res =? 0 then ret (0, string)
  else
    let head := res in
    if length - head <? 1 then ret (0, string)
    else
      string ← wr string head (chr ":");
      let head := head + 1 in
      '(res, tail) ← utils_uintToText objectInstanceId (drop (Z.to_nat head) string) (length - head);
      let string := take (Z.to_nat head) string ++ tail in
      if res =? 0 then ret (0, string) else ret (head + res, string).

(** ** Reference: decimal notation *)

Fixpoint dec_fuel (f : nat) (n : Z) : list Z :=
  match f with
  | O => [chr "0" + n]
  | S f => if n <? 10 then [chr "0" + n] else dec_fuel f (n / 10) ++ [chr "0" + n mod 10]
  end.

(** The decimal digits of [n], most significant first, without leading zero;
    [log2 n] divisions by ten are enough. *)
Definition dec (n : Z) : list Z := dec_fuel (Z.to_nat (Z.log2 n)) n.

(** The value of a string of digits read after a prefix of value [v]. *)
Definition digits_val_from (v : Z) (l : list Z) : Z :=
  fold_left (fun v c => 10 * v + (c - chr "0")) l v.
Definition digits_val (l : list Z) : Z := digits_val_from 0 l.

Lemma dec_fuel_enough f g n :
  0 <= n < 10 ^ (Z.of_nat f + 1) -> (f <= g)%nat -> dec_fuel g n = dec_fuel f n.
Proof.
  revert g n. induction f as [|f IH]; intros g n Hn Hg.
  - destruct g; cbn; [done|]. by guards.
  - destruct g as [|g]; [lia|]. cbn [dec_fuel]. destruct (n <? 10) eqn:E; [done|].
    rewrite (IH g); [done| |lia].
    rewrite Nat2Z.inj_succ in Hn.
    replace (Z.succ (Z.of_nat f) + 1) with (Z.succ (Z.of_nat f + 1)) in Hn by lia.
    rewrite Z.pow_succ_r in Hn by lia. dlia.
Qed.

Lemma dec_small n : 0 <= n < 10 -> dec n = [chr "0" + n].
Proof. intros; unfold dec. destruct (Z.to_nat _); cbn; [done|by guards]. Qed.

Lemma log2_lt_pow10 n : 0 <= n -> n < 10 ^ (Z.of_nat (Z.to_nat (Z.log2 n)) + 1).
Proof.
  intros. rewrite Z2Nat.id by apply Z.log2_nonneg.
  destruct (decide (n = 0)) as [->|]; [by compute|].
  pose proof (Z.log2_spec n ltac:(lia)) as [_ Hu]. pose proof (Z.log2_nonneg n).
  eapply Z.lt_le_trans; [exact Hu|]. unfold Z.succ. apply Z.pow_le_mono_l; lia.
Qed.

Lemma dec_step n : 10 <= n -> dec n = dec (n / 10) ++ [chr "0" + n mod 10].
Proof.
  intros Hn. unfold dec at 1.
  assert (3 <= Z.log2 n) by (apply (Z.log2_le_mono 8); lia).
  destruct (Z.to_nat (Z.log2 n)) as [|f] eqn:Hf; [lia|]. cbn. guards. f_equal.
  pose proof (log2_lt_pow10 n ltac:(lia)) as Hb. rewrite Hf in Hb.
  assert (0 <= n / 10) by dlia.
  pose proof (log2_lt_pow10 (n / 10) ltac:(lia)) as Hb'.
  apply dec_fuel_enough; [lia|].
  assert (Z.log2 (n / 10) <= Z.log2 n - 1); [|lia].
  transitivity (Z.log2 (n / 2)); [apply Z.log2_le_mono; dlia|].
  change 2 with (2 ^ 1). rewrite <- Z.shiftr_div_pow2, Z.log2_shiftr by lia. lia.
Qed.

(** Induction on the decimal notation. *)
Lemma dec_ind (P : Z -> Prop) :
  (forall n, 0 <= n < 10 -> P n) -> (forall n, 10 <= n -> P (n / 10) -> P n) ->
  forall n, 0 <= n -> P n.
Proof.
  intros H1 H2 n Hn. revert Hn. induction n as [n IH] using (well_founded_induction (Z.lt_wf 0)).
  intros Hn. destruct (Z.lt_ge_cases n 10); [apply H1; lia|].
  apply H2; [done|]. apply IH; dlia.
Qed.

Lemma digits_val_from_app v l1 l2 :
  digits_val_from v (l1 ++ l2) = digits_val_from (digits_val_from v l1) l2.
Proof. apply fold_left_app. Qed.

Lemma dec_val n : 0 <= n -> digits_val (dec n) = n.
Proof.
  unfold digits_val. revert n; apply dec_ind; [intros n Hn|intros n Hn IH].
  - rewrite dec_small by done. cbn. clia.
  - rewrite dec_step, digits_val_from_app, IH by done. cbn. chars. dlia.
Qed.

Lemma dec_digits n : 0 <= n -> Forall (fun c => is_digit c = true) (dec n).
Proof.
  unfold is_digit. revert n; apply dec_ind; [intros n Hn|intros n Hn IH].
  - rewrite dec_small by done. constructor; [clia|constructor].
  - rewrite dec_step by done. apply Forall_app_2; [done|].
    constructor; [chars; dlia|constructor].
Qed.

Lemma dec_length_pos n : 0 <= n -> 0 < len (dec n).
Proof.
  intros; destruct (Z.lt_ge_cases n 10); [rewrite dec_small|rewrite dec_step]; lens.
Qed.

Lemma dec_length_iff n k : 0 <= n -> 1 <= k -> len (dec n) <= k <-> n < 10 ^ k.
Proof.
  intros Hn; revert n Hn k.
  apply (dec_ind (fun n => forall k, 1 <= k -> _)); [intros n Hn k Hk|intros n Hn IH k Hk].
  - rewrite dec_small by done. cbn. pose proof (Z.pow_le_mono_r 10 1 k). lia.
  - rewrite dec_step by done. autorewrite with buf. cbn [length].
    destruct (decide (k = 1)) as [->|].
    + pose proof (dec_length_pos (n / 10) ltac:(dlia)). lia.
    + assert (10 ^ k = 10 * 10 ^ (k - 1)) by (rewrite <- Z.pow_succ_r by lia; f_equal; lia).
      specialize (IH (k - 1) ltac:(lia)).
      transitivity (len (dec (n / 10)) <= k - 1); [lia|]. rewrite IH. dlia.
Qed.

Lemma is_digit_byte c : is_digit c = true -> is_byte c.
Proof. unfold is_digit, is_byte. clia. Qed.

Lemma dec_bytes n : 0 <= n -> bytes (dec n).
Proof. intros H%dec_digits. eapply list.Forall_impl; [exact H|]. apply is_digit_byte. Qed.

(** Digits are no terminators. *)
Lemma dec_no_zero id : 0 <= id -> Forall (fun c => c <> 0) (dec id).
Proof.
  intros Hid. eapply list.Forall_impl; [by apply dec_digits|]. cbn. unfold is_digit. intros c Hc. clia.
Qed.


Lemma digits_val_from_ge v l :
  0 <= v -> Forall (fun c => is_digit c = true) l -> v <= digits_val_from v l.
Proof.
  unfold digits_val_from. intros Hv Hl. revert v Hv.
  induction Hl as [|c l Hc Hl IH]; intros v Hv; cbn; [lia|].
  unfold is_digit in Hc. specialize (IH (10 * v + (c - chr "0"))). clia.
Qed.

(** ** Reading digits *)

Lemma digits_loop_ok pre l post v :
  Forall (fun c => is_digit c = true) l -> 0 <= v -> digits_val_from v l < 2 ^ 64 ->
  digits_loop (pre ++ l ++ post) (length l) (len pre) v = Some (Some (digits_val_from v l)).
Proof.
  intros Hl. revert pre v. induction Hl as [|c l Hc Hl IH]; intros pre v Hv Hb; [done|].
  cbn [digits_loop length app]. rewrite rd_middle by done. cbn.
  rewrite Hc. unfold is_digit in Hc.
  pose proof (digits_val_from_ge (10 * v + (c - chr "0")) l ltac:(clia) Hl) as Hge.
  change (digits_val_from v (c :: l)) with (digits_val_from (10 * v + (c - chr "0")) l) in Hb |- *.
  assert (v <= UINT64_MAX / 10) by (unfold UINT64_MAX; chars; dlia). guards.
  rewrite (wrap_small 64 (v * 10)), wrap_small by clia.
  specialize (IH (pre ++ [c]) (v * 10 + (c - chr "0")) ltac:(clia)).
  rewrite <- app_assoc in IH. cbn [app] in IH.
  replace (len (pre ++ [c])) with (len pre + 1) in IH by lens.
  replace (v * 10) with (10 * v) in * by lia. apply IH; lia.
Qed.

Lemma digits_loop_total buffer n i v :
  0 <= i -> i + Z.of_nat n <= len buffer -> exists r, digits_loop buffer n i v = Some r.
Proof.
  revert i v. induction n as [|n IH]; intros i v Hi Hn; cbn; [eauto|].
  destruct (rd_Some buffer i) as [c ->]; [lia|]. cbn.
  destruct (is_digit c); [|eauto]. destruct (_ <? v); [eauto|]. apply IH; lia.
Qed.

(** What the loop accepts is a string of digits; its result is the value
    modulo 2^64. *)
Lemma digits_loop_sound pre l post v r :
  digits_loop (pre ++ l ++ post) (length l) (len pre) v = Some (Some r) -> 0 <= v < 2 ^ 64 ->
  Forall (fun c => is_digit c = true) l /\ r = u64 (digits_val_from v l).
Proof.
  revert pre v. induction l as [|c l IH]; intros pre v; cbn [digits_loop length app].
  - intros [= ->] Hv. split; [constructor|]. cbn. by rewrite wrap_small.
  - rewrite rd_middle by done. cbn. destruct (is_digit c) eqn:Hc; [|done].
    destruct (_ <? v); [done|]. intros Hr Hv.
    specialize (IH (pre ++ [c]) (u64 (u64 (v * 10) + (c - chr "0")))).
    rewrite <- app_assoc in IH. cbn [app] in IH.
    replace (len (pre ++ [c])) with (len pre + 1) in IH by lens.
    destruct (IH Hr) as [Hl ->]; [by apply wrap_bound|]. split; [by constructor|].
    change (digits_val_from v (c :: l)) with (digits_val_from (10 * v + (c - chr "0")) l).
    assert (u64 (u64 (v * 10) + (c - chr "0")) = u64 (10 * v + (c - chr "0"))) as ->.
    { unfold wrap. rewrite Z.add_mod_idemp_l by lia. f_equal. lia. }
    generalize (10 * v + (c - chr "0")) as w. clear. intros w.
    assert (forall a b, u64 a = u64 b -> u64 (digits_val_from a l) = u64 (digits_val_from b l)) as Hcg.
    { induction l as [|c l IH]; cbn; [done|]. intros a b Hab. apply IH.
      unfold wrap in *. rewrite (Z.add_mod (10 * a)), (Z.mul_mod 10 a), Hab by lia.
      rewrite <- Z.mul_mod, <- Z.add_mod by lia. done. }
    apply Hcg. unfold wrap. apply Z.mod_mod. lia.
Qed.

(** ** Writing digits *)

Lemma digits_down_fits k pre x post data :
  0 <= data -> len pre = Z.of_nat k -> len (dec data) <= Z.of_nat k + 1 ->
  digits_down k data (pre ++ x :: post) =
    Some (take (k + 1 - length (dec data)) pre ++ dec data ++ post,
          Z.of_nat k - len (dec data), 0).
Proof.
  revert pre x post data. induction k as [|k IH]; intros pre x post data Hd Hp Hl;
    cbn [digits_down]; rewrite wr_middle by lia; cbn.
  - rewrite dec_length_iff in Hl by lia. rewrite dec_small by lia. cbn.
    destruct pre; [|cbn in Hp; lia]. cbn. rewrite Z.mod_small, Z.div_small by lia. done.
  - destruct (0 <? data / 10) eqn:E.
    + assert (10 <= data) by dlia.
      destruct pre as [|y pre' _] using rev_ind; [cbn in Hp; lia|].
      rewrite <- app_assoc. cbn [app]. rewrite dec_step in * by done.
      rewrite IH; [|dlia|lens|lens]. rewrite <- !app_assoc. cbn [app].
      pose proof (dec_length_pos (data / 10) ltac:(dlia)).
      rewrite take_app_le by lens. autorewrite with buf. cbn [length].
      feq.
    + assert (data < 10) by dlia. rewrite dec_small by lia. cbn.
      rewrite Z.mod_small, Z.div_small by lia.
      rewrite take_ge by lens. feq.
Qed.

Lemma digits_down_overflow k string data :
  0 <= data -> Z.of_nat k < len string -> 10 ^ (Z.of_nat k + 1) <= data ->
  exists s' d', digits_down k data string = Some (s', -1, d') /\ 0 < d' /\ length s' = length string.
Proof.
  revert string data. induction k as [|k IH]; intros string data Hd Hl Hb;
    cbn [digits_down]; rewrite wr_Some by lia; cbn.
  - eexists _, _. split; [done|]. split; [dlia|by rewrite length_insert].
  - rewrite Nat2Z.inj_succ in *.
    replace (Z.succ (Z.of_nat k) + 1) with (Z.succ (Z.of_nat k + 1)) in Hb by lia.
    rewrite Z.pow_succ_r in Hb by lia.
    assert (10 ^ (Z.of_nat k + 1) <= data / 10) by (apply Z.div_le_lower_bound; lia).
    guards. edestruct IH as (s' & d' & -> & Hd' & Hs'); [| |eassumption|]; [dlia|lens|].
    exists s', d'. rewrite Hs'. by autorewrite with buf.
Qed.

(** The text [utils_uintToText] leaves at [string]. *)
Lemma uintToText_fits data string length :
  0 <= data -> len (dec data) <= length <= INT_MAX -> length <= len string ->
  exists tail, utils_uintToText data string length = Some (len (dec data), dec data ++ tail) /\
    List.length (dec data ++ tail) = List.length string /\
    (len (dec data) < length -> hd_error tail = Some 0) /\
    drop (Z.to_nat length) (dec data ++ tail) = drop (Z.to_nat length) string.
Proof.
  unfold INT_MAX. intros Hd Hl Hs. pose proof (dec_length_pos data Hd) as Hp.
  unfold utils_uintToText. guards. rewrite swrap_small by (cbn; lia). guards.
  remember (Z.to_nat (length - 1)) as k eqn:Ek.
  assert (exists pre x post, string = pre ++ x :: post /\ List.length pre = k) as (pre & x & post & -> & Hk).
  { destruct (lookup_lt_is_Some_2 string k) as [x Hx]; [lia|].
    exists (take k string), x, (drop (S k) string).
    split; [by rewrite take_drop_middle|]. lens. }
  rewrite digits_down_fits by lia. cbn. set (d := dec data) in *.
  replace (Z.of_nat k - len d + 1) with (length - len d) by lia.
  replace (length - (length - len d)) with (len d) by lia.
  assert (drop (Z.to_nat length) (pre ++ x :: post) = post) as Hpost.
  { rewrite cons_middle, app_assoc. apply drop_app_length'. lens. }
  rewrite Hpost. destruct (len d <? length) eqn:E.
  - rewrite rd_bytes_app by lens. cbn.
    rewrite wr_bytes_Some by lens. cbn.
    unfold patch. change (Z.to_nat 0) with O. rewrite take_0. cbn [app Nat.add].
    rewrite wr_app by lens. cbn. eexists. split; [by rewrite <- app_assoc|].
    split_and!; [lens|done|].
    rewrite app_assoc, drop_app_ge by lens. rewrite !drop_drop.
    rewrite app_assoc. rewrite drop_app_length' by lens. done.
  - exists post. assert (take (k + 1 - List.length d) pre = []) as -> by (apply length_zero_iff_nil; lens).
    split; [done|]. split_and!; [lens|lia|]. by rewrite drop_app_length' by lens.
Qed.

Lemma uintToText_overflow data string length :
  0 <= data -> 0 < length <= INT_MAX -> length <= len string -> 10 ^ length <= data ->
  exists s', utils_uintToText data string length = Some (0, s') /\
    List.length s' = List.length string.
Proof.
  unfold INT_MAX. intros Hd Hl Hs Hb. unfold utils_uintToText. guards.
  rewrite swrap_small by (cbn; lia). guards.
  destruct (digits_down_overflow (Z.to_nat (length - 1)) string data) as (s' & d' & -> & Hd' & Hs');
    [done|lia| |].
  { rewrite Z2Nat.id by lia. by replace (length - 1 + 1) with length by lia. }
  cbn. guards. by exists s'.
Qed.

Lemma textToUInt_digits l post :
  Forall (fun c => is_digit c = true) l -> 0 < len l -> digits_val l < 2 ^ 64 ->
  utils_textToUInt (l ++ post) (len l) = Some (Some (digits_val l)).
Proof.
  intros Hl Hp Hv. unfold utils_textToUInt. guards. rewrite Nat2Z.id.
  by apply (digits_loop_ok []).
Qed.

Lemma textToUInt_dec v post :
  0 <= v < 2 ^ 64 -> utils_textToUInt (dec v ++ post) (len (dec v)) = Some (Some v).
Proof.
  intros Hv. pose proof (dec_length_pos v ltac:(lia)).
  rewrite textToUInt_digits; rewrite ?dec_val by lia; auto with lia. apply dec_digits; lia.
Qed.

Lemma textToInt_dec v post :
  0 <= v <= INT64_MAX -> utils_textToInt (dec v ++ post) (len (dec v)) = Some (Some v).
Proof.
  unfold INT64_MAX. intros Hv. unfold utils_textToInt. guards.
  pose proof (dec_length_pos v ltac:(lia)) as Hp. guards.
  pose proof (dec_digits v ltac:(lia)) as Hd. pose proof (dec_val v ltac:(lia)) as Hval.
  remember (dec v) as l eqn:El. destruct Hd as [|c l Hc Hl]; [cbn in Hp; lia|].
  cbn [app]. rewrite rd_cons_0. mstep.
  assert ((c =? chr "-") = false) as -> by (unfold is_digit in Hc; clia).
  rewrite Z.sub_0_r, Nat2Z.id.
  pose proof (digits_loop_ok [] (c :: l) post 0) as Hok. cbn [app] in Hok.
  change (len []) with 0 in Hok. rewrite Hok; [|by constructor|done|fold (digits_val (c :: l)); lia].
  mstep. fold (digits_val (c :: l)). rewrite Hval. unfold INT64_MAX. guards.
  rewrite swrap_small by (cbn; lia). done.
Qed.

Lemma textToInt_neg v post :
  0 < v <= 2 ^ 63 ->
  utils_textToInt ((chr "-" :: dec v) ++ post) (1 + len (dec v)) = Some (Some (- v)).
Proof.
  intros Hv. unfold utils_textToInt. pose proof (dec_length_pos v ltac:(lia)) as Hp. guards.
  cbn [app]. rewrite rd_cons_0. mstep. rewrite Z.eqb_refl.
  replace (1 + len (dec v) - 1) with (len (dec v)) by lia. rewrite Nat2Z.id.
  pose proof (digits_loop_ok [chr "-"] (dec v) post 0) as Hok. cbn [app length] in Hok.
  change (Z.of_nat 1) with 1 in Hok.
  rewrite Hok; [|apply dec_digits; lia|done|fold (digits_val (dec v)); rewrite dec_val; lia].
  mstep. fold (digits_val (dec v)). rewrite dec_val by lia. unfold INT64_MAX. guards.
  rewrite swrap_wrap, swrap_small by (cbn in *; lia). done.
Qed.

(** ** Properties *)

(** [utils_uintToText] writes exactly the decimal digits of [data] at
    [string] and returns their number when they fit in [length] bytes, with a
    terminating zero when there is room for it; it returns 0 when they do not
    fit.  In both cases it stays inside the [length] bytes it was given. *)
Theorem uintToText_correct data string length :
  0 <= data -> 0 < length <= INT_MAX -> length <= len string ->
  exists r s', utils_uintToText data string length = Some (r, s') /\
    List.length s' = List.length string /\
    if data <? 10 ^ length then
      r = len (dec data) /\ slice s' 0 r = dec data /\ (r < length -> rd s' r = Some 0) /\
      drop (Z.to_nat length) s' = drop (Z.to_nat length) string
    else r = 0.
Proof.
  intros Hd Hl Hs. destruct (data <? 10 ^ length) eqn:E.
  - assert (len (dec data) <= length) by (apply dec_length_iff; lia).
    destruct (uintToText_fits data string length) as (tail & -> & H1 & H2 & H3); [lia..|].
    eexists _, _. split; [done|]. split; [done|]. split_and!; [done| | |done].
    + by apply slice_prefix.
    + intros Hr. rewrite rd_app_r, Z.sub_diag by lia. specialize (H2 Hr).
      destruct tail; [done|]. cbn in *. by simplify_eq.
  - destruct (uintToText_overflow data string length) as (s' & -> & H1); [lia..|]. eauto.
Qed.

(** Integer round trip: for every [int64_t], [INT64_MIN] included,
    [utils_intToText] into a buffer of at least 21 bytes succeeds without
    leaving the buffer, and [utils_textToInt] of that text gives the integer
    back. *)
Theorem int_text_roundtrip d string length :
  INT64_MIN <= d <= INT64_MAX -> 21 <= length <= INT_MAX -> length <= len string ->
  exists r s', utils_intToText d string length = Some (r, s') /\ 0 < r < length /\
    List.length s' = List.length string /\
    utils_textToInt s' r = Some (Some d).
Proof.
  unfold INT64_MIN, INT64_MAX, INT_MAX. intros Hd Hl Hs. unfold utils_intToText.
  assert (forall n, 0 <= n <= 2 ^ 63 -> 0 < len (dec n) <= 19) as Hlen.
  { intros n Hn. split; [apply dec_length_pos; lia|]. apply dec_length_iff; lia. }
  destruct (d <? 0) eqn:Hneg; [|specialize (Hlen d ltac:(lia))].
  - guards. destruct string as [|c0 string]; [cbn in Hs; lia|].
    rewrite wr_cons_0. mstep. unfold INT64_MIN. destruct (d =? _) eqn:Hmin.
    + apply Z.eqb_eq in Hmin as ->. cbn [List.length] in Hs.
      change (len (str "-9223372036854775808")) with 20. guards. specialize (Hlen 0 ltac:(lia)).
      set (m := str "-9223372036854775808").
      assert (List.length m = 20%nat) as Hm by done.
      rewrite wr_bytes_Some by lens. mstep. unfold patch.
      change (Z.to_nat 0) with O. rewrite take_0. cbn [app Nat.add].
      rewrite wr_app by lens. mstep. eexists _, _. split; [done|]. split; [lia|].
      split; [lens|]. rewrite <- app_assoc.
      exact (textToInt_neg (2 ^ 63) _ ltac:(lia)).
    + specialize (Hlen (Z.abs d) ltac:(lia)). rewrite skipn_cons, drop_0; cbn [List.length] in *.
      destruct (uintToText_fits (Z.abs d) string (length - 1)) as (tail & -> & H1 & _ & _);
        [lia|unfold INT_MAX; lia|lia|].
      mstep. guards. change (take 1 (chr "-" :: string)) with [chr "-"]. cbn [app].
      eexists _, _. split; [done|]. split; [lia|]. split; [by cbn; f_equal|].
      pose proof (textToInt_neg (Z.abs d) tail ltac:(lia)) as Ht. cbn [app] in Ht.
      rewrite (Z.add_comm _ 1). rewrite Ht. do 2 f_equal. lia.
  - destruct (uintToText_fits d string length) as (tail & -> & H1 & _ & _);
      [lia|unfold INT_MAX; lia|lia|].
    eexists _, _. split; [done|]. split; [lia|]. split; [done|]. apply textToInt_dec.
    unfold INT64_MAX. lia.
Qed.

Lemma int_text_roundtrip_witness :
  exists r s', utils_intToText INT64_MIN (replicate 32 0) 32 = Some (r, s') /\ 0 < r < 32 /\
    length s' = length (replicate 32 0) /\ utils_textToInt s' r = Some (Some INT64_MIN).
Proof. apply (int_text_roundtrip INT64_MIN (replicate 32 0) 32); vm_compute; done. Defined.

Lemma uintToText_correct_witness :
  exists r s', utils_uintToText 65535 (replicate 6 0) 6 = Some (r, s') /\
    length s' = length (replicate 6 0) /\
    if 65535 <? 10 ^ 6 then
      r = len (dec 65535) /\ slice s' 0 r = dec 65535 /\ (r < 6 -> rd s' r = Some 0) /\
      drop (Z.to_nat 6) s' = drop (Z.to_nat 6) (replicate 6 0)
    else r = 0.
Proof. apply (uintToText_correct 65535 (replicate 6 0) 6); vm_compute; done. Defined.

(** [utils_textToUInt] never reads outside the [length] bytes it is given;
    it accepts only strings of digits, every string of digits with a value
    below 2^64 is read exactly, and any other accepted string is read modulo
    2^64. *)
Theorem textToUInt_correct l post :
  0 < len l ->
  exists r, utils_textToUInt (l ++ post) (len l) = Some r /\
    (Forall (fun c => is_digit c = true) l -> digits_val l < 2 ^ 64 -> r = Some (digits_val l)) /\
    match r with
    | Some v => Forall (fun c => is_digit c = true) l /\ v = u64 (digits_val l)
    | None => Forall (fun c => is_digit c = true) l -> 2 ^ 64 <= digits_val l
    end.
Proof.
  intros Hl. unfold utils_textToUInt. guards.
  destruct (digits_loop_total (l ++ post) (Z.to_nat (len l)) 0 0) as [r Hr]; [lia|lens|].
  exists r. split; [done|]. rewrite Nat2Z.id in Hr.
  assert (Forall (fun c => is_digit c = true) l -> digits_val l < 2 ^ 64 ->
    r = Some (digits_val l)) as Hok.
  { intros H1 H2. pose proof (digits_loop_ok [] l post 0 H1 ltac:(lia) H2) as H3.
    cbn [app length] in H3. change (Z.of_nat 0) with 0 in H3. unfold digits_val. congruence. }
  split; [done|]. destruct r as [v|].
  - by apply (digits_loop_sound [] l post 0 v).
  - intros Hd. destruct (Z.lt_ge_cases (digits_val l) (2 ^ 64)) as [Hlt|]; [|done].
    by specialize (Hok Hd Hlt).
Qed.

(** [utils_textToInt] never reads outside its [length] bytes, and what it
    accepts is an optional ['-'] followed by digits; the value is that of the
    digits modulo 2^64, with the sign, and lies in the range of [int64_t]. *)
Theorem textToInt_sound l post :
  0 < len l ->
  exists r, utils_textToInt (l ++ post) (len l) = Some r /\
    match r with
    | Some v => exists (neg : bool) digits,
        l = (if neg then [chr "-"] else []) ++ digits /\
        Forall (fun c => is_digit c = true) digits /\
        v = (if neg then - u64 (digits_val digits) else u64 (digits_val digits)) /\
        INT64_MIN <= v <= INT64_MAX
    | None => True
    end.
Proof.
  intros Hl. unfold utils_textToInt. guards.
  destruct l as [|c l]; [cbn in Hl; lia|]. cbn [app]. rewrite rd_cons_0. mstep.
  set (neg := c =? chr "-"). set (i := if neg then 1 else 0).
  destruct (digits_loop_total (c :: l ++ post) (Z.to_nat (len (c :: l) - i)) i 0) as [r Hr];
    [unfold i; destruct neg; lia|unfold i; destruct neg; lens|].
  rewrite Hr. mstep. destruct r as [v|]; [|by eexists].
  destruct (_ <? v) eqn:Eb; [by eexists|].
  assert (exists digits, c :: l = (if neg then [chr "-"] else []) ++ digits /\
    Forall (fun c => is_digit c = true) digits /\ v = u64 (digits_val digits)) as (d & Hd1 & Hd2 & Hd3).
  { destruct neg eqn:En; unfold i in Hr; cbn [length] in Hr.
    - exists l. split; [cbn; f_equal; unfold neg in En; clia|].
      replace (Z.to_nat (Z.of_nat (S (length l)) - 1)) with (length l) in Hr by lia.
      by apply (digits_loop_sound [c] l post 0 v).
    - exists (c :: l). split; [done|].
      replace (Z.to_nat (Z.of_nat (S (length l)) - 0)) with (length (c :: l)) in Hr by (cbn; lia).
      by apply (digits_loop_sound [] (c :: l) post 0 v). }
  pose proof (wrap_bound 64 (digits_val d) ltac:(lia)) as Hw. rewrite <- Hd3 in Hw.
  unfold INT64_MAX, INT64_MIN in *. destruct neg.
  - eexists. split; [done|]. exists true, d. rewrite swrap_wrap by lia.
    rewrite swrap_small by (cbn; lia). split_and!; [done|done|lia|lia..].
  - eexists. split; [done|]. exists false, d.
    rewrite swrap_small by (cbn; lia). split_and!; [done|done|lia|lia..].
Qed.

(** The overflow test before the multiplication by ten leaves the addition of
    the digit unchecked: the text of 2^64 is read as 0, with success. *)
Example textToUInt_overflow_accepted :
  utils_textToUInt (str "18446744073709551616") 20 = Some (Some 0) /\
  utils_textToInt (str "18446744073709551616") 20 = Some (Some 0).
Proof. by vm_compute. Qed.

(** A lone sign is read as 0. *)
Example textToInt_lone_sign : utils_textToInt (str "-") 1 = Some (Some 0).
Proof. by vm_compute. Qed.

Lemma find_colon_spec pre l post :
  Forall (fun c => is_digit c = true) l ->
  forall n, (length l < n)%nat ->
  find_colon (pre ++ l ++ chr ":" :: post) n (len pre) = Some (len pre + len l).
Proof.
  intros Hl. revert pre. induction Hl as [|c l Hc Hl IH]; intros pre n Hn;
    (destruct n as [|n]; [lia|]); cbn [find_colon app length] in *; rewrite rd_middle by done; mstep.
  - rewrite Z.eqb_refl. feq.
  - assert ((c =? chr ":") = false) as -> by (unfold is_digit in Hc; clia).
    specialize (IH (pre ++ [c]) n ltac:(lia)). rewrite <- app_assoc in IH. cbn [app] in IH.
    replace (len (pre ++ [c])) with (len pre + 1) in IH by lens. rewrite IH. feq.
Qed.

(** Object links: the text [utils_objLinkToText] writes for any pair of
    16-bit identifiers is read back by [utils_textToObjLink]. *)
Theorem objLink_text_roundtrip o i string length :
  0 <= o <= LWM2M_MAX_ID -> 0 <= i <= LWM2M_MAX_ID ->
  11 <= length <= INT_MAX -> length <= len string ->
  exists r s', utils_objLinkToText o i string length = Some (r, s') /\ 0 < r <= 11 /\
    utils_textToObjLink s' r = Some (Some (o, i)).
Proof.
  unfold LWM2M_MAX_ID. intros Ho Hi Hl Hs.
  assert (forall n, 0 <= n <= 65535 -> 0 < len (dec n) <= 5) as Hlen.
  { intros n Hn. split; [apply dec_length_pos; lia|]. apply dec_length_iff; lia. }
  pose proof (Hlen o Ho) as Hlo. pose proof (Hlen i Hi) as Hli. clear Hlen.
  unfold utils_objLinkToText.
  destruct (uintToText_fits o string length) as (tail & -> & H1 & _ & _); [lia..|]. mstep. guards.
  rewrite wr_app by lens. mstep. rewrite <- app_assoc. cbn [app].
  replace (Z.to_nat (len (dec o) + 1)) with (List.length (dec o ++ [chr ":"])) by lens.
  rewrite (app_cons_assoc (dec o) _ (drop 1 tail)), drop_app_length, take_app_length.
  destruct (uintToText_fits i (drop 1 tail) (length - (len (dec o) + 1))) as (tail' & -> & H2 & _ & _);
    [lia|unfold INT_MAX in *; lens|lens|]. mstep. guards.
  eexists _, _. split; [done|]. split; [lia|].
  rewrite <- app_assoc. cbn [app]. unfold utils_textToObjLink.
  pose proof (find_colon_spec [] (dec o) (dec i ++ tail') (dec_digits o ltac:(lia))
    (Z.to_nat (len (dec o) + 1 + len (dec i))) ltac:(lia)) as Hf.
  cbn [app List.length] in Hf. change (Z.of_nat 0) with 0 in Hf. rewrite Hf. mstep.
  rewrite Z.add_0_l. guards. rewrite textToUInt_dec by lia. mstep.
  replace (Z.to_nat (len (dec o) + 1)) with (List.length (dec o ++ [chr ":"])) by lens.
  rewrite (app_cons_assoc (dec o) _ (dec i ++ tail')), drop_app_length.
  replace (len (dec o) + 1 + len (dec i) - len (dec o) - 1) with (len (dec i)) by lia.
  rewrite textToUInt_dec by lia. mstep. unfold LWM2M_MAX_ID. guards.
  by rewrite !wrap_small by lia.
Qed.

Lemma textToUInt_correct_witness :
  exists r, utils_textToUInt (str "42" ++ [0]) (len (str "42")) = Some r /\
    (Forall (fun c => is_digit c = true) (str "42") -> digits_val (str "42") < 2 ^ 64 ->
     r = Some (digits_val (str "42"))) /\
    match r with
    | Some v => Forall (fun c => is_digit c = true) (str "42") /\ v = u64 (digits_val (str "42"))
    | None => Forall (fun c => is_digit c = true) (str "42") -> 2 ^ 64 <= digits_val (str "42")
    end.
Proof. apply (textToUInt_correct (str "42") [0]). vm_compute; done. Defined.

Lemma textToInt_sound_witness :
  exists r, utils_textToInt (str "-42" ++ []) (len (str "-42")) = Some r /\
    match r with
    | Some v => exists (neg : bool) digits,
        str "-42" = (if neg then [chr "-"] else []) ++ digits /\
        Forall (fun c => is_digit c = true) digits /\
        v = (if neg then - u64 (digits_val digits) else u64 (digits_val digits)) /\
        INT64_MIN <= v <= INT64_MAX
    | None => True
    end.
Proof. apply (textToInt_sound (str "-42") []). vm_compute; done. Defined.

Lemma objLink_text_roundtrip_witness :
  exists r s', utils_objLinkToText 3 65535 (replicate 12 0) 12 = Some (r, s') /\ 0 < r <= 11 /\
    utils_textToObjLink s' r = Some (Some (3, 65535)).
Proof.
  apply (objLink_text_roundtrip 3 65535 (replicate 12 0) 12); eval_side.
Defined.
End Numeric.
