(* ===== verification/Base64.v ===== *)
(** * Base64 (core/utils.c, second part)

    Encoding and decoding of opaque values in the text formats.  The loops run
    on the caller's buffers with their indices; [b64_text] is the reference
    encoding (RFC 4648 with padding). *)
From S2P Require Import Prelude.

Module Base64.

(** [PRV_B64_PADDING] and [b64Alphabet] *)
Definition PRV_B64_PADDING : Z := chr "=".
Definition b64Alphabet : list Z :=
  str "ABCDEFGHIJKLMNOPQRSTUVWXYZabcdefghijklmnopqrstuvwxyz0123456789+/".

Definition prv_encodeBlock (i0 i1 i2 : Z) : C (list Z) :=
  o0 ← rd b64Alphabet (Z.shiftr i0 2);
  o1 ← rd b64Alphabet (Z.lor (Z.shiftl (Z.land i0 3) 4) (Z.shiftr i1 4));
  o2 ← rd b64Alphabet (Z.lor (Z.shiftl (Z.land i1 15) 2) (Z.shiftr i2 6));
  o3 ← rd b64Alphabet (Z.land i2 63);
  ret [o0; o1; o2; o3].

Definition utils_base64GetSize (dataLen : Z) : Z :=
  let result_len := 4 * (dataLen / 3) in
  if negb (dataLen mod 3 =? 0) then result_len + 4 else result_len.

(** The four characters one iteration of [utils_base64Encode] writes, by the
    number of bytes left. *)
Definition encode_step (dataP : list Z) (dataLen data_index : Z) : C (list Z) :=
  let left := dataLen - data_index in
  if left =? 1 then
    d0 ← rd dataP data_index;
    o0 ← rd b64Alphabet (Z.shiftr d0 2);
    o1 ← rd b64Alphabet (Z.shiftl (Z.land d0 3) 4);
    ret [o0; o1; PRV_B64_PADDING; PRV_B64_PADDING]
  else if left =? 2 then
    d0 ← rd dataP data_index;
    d1 ← rd dataP (data_index + 1);
    o0 ← rd b64Alphabet (Z.shiftr d0 2);
    o1 ← rd b64Alphabet (Z.lor (Z.shiftl (Z.land d0 3) 4) (Z.shiftr d1 4));
    o2 ← rd b64Alphabet (Z.shiftl (Z.land d1 15) 2);
    ret [o0; o1; o2; PRV_B64_PADDING]
  else
    d0 ← rd dataP data_index;
    d1 ← rd dataP (data_index + 1);
    d2 ← rd dataP (data_index + 2);
    prv_encodeBlock d0 d1 d2.

(** The [while (data_index < dataLen)] loop; running out of fuel is [None]. *)
Fixpoint encode_loop (fuel : nat) (dataP : list Z) (dataLen data_index result_index : Z)
    (bufferP : list Z) : C (list Z) :=
  if data_index <? dataLen then
    match fuel with
    | O => None
    | S fuel =>
        out ← encode_step dataP dataLen data_index;
        bufferP ← wr_bytes bufferP result_index out;
        encode_loop fuel dataP dataLen (u32 (data_index + 3)) (u32 (result_index + 4)) bufferP
    end
  else ret bufferP.

Definition utils_base64Encode (dataP : list Z) (dataLen : Z) (bufferP : list Z) (bufferLen : Z)
    : C (Z * list Z) :=
  let result_len := utils_base64GetSize dataLen in
  if bufferLen <? result_len then ret (0, bufferP)
  else
    bufferP ← encode_loop (Z.to_nat dataLen) dataP dataLen 0 0 bufferP;
    ret (result_len, bufferP).

Definition utils_base64GetDecodedSize (dataP : list Z) (dataLen : Z) : C Z :=
  let result := 3 * (dataLen / 4) in
  let m := dataLen mod 4 in
  if m =? 0 then
    if 0 <? result then
      c ← rd dataP (dataLen - 2);
      if c =? PRV_B64_PADDING then ret (result - 2)
      else
        c ← rd dataP (dataLen - 1);
        if c =? PRV_B64_PADDING then ret (result - 1) else ret result
    else ret result
  else if m =? 2 then ret (result + 1)
  else if m =? 3 then ret (result + 2)
  else ret result.

Definition prv_base64Value (digit : Z) : Z :=
  if (chr "A" <=? digit) && (digit <=? chr "Z") then digit - chr "A"
  else if (chr "a" <=? digit) && (digit <=? chr "z") then digit - chr "a" + 26
  else if (chr "0" <=? digit) && (digit <=? chr "9") then digit - chr "0" + 52
  else if digit =? chr "+" then 62
  else if digit =? chr "/" then 63
  else 255.

(** One iteration of the loop of [utils_base64Decode]: the new [dataIndex],
    [bufferIndex] and buffer, or [None] for [return 0]. *)
Definition decode_step (dataP : list Z) (dataLen decodedSize dataIndex bufferIndex : Z)
    (bufferP : list Z) : C (option (Z * Z * list Z)) :=
  if dataLen - dataIndex <? 2 then ret None
  else
    c1 ← rd dataP dataIndex;
    let v1 := prv_base64Value c1 in
    if 64 <=? v1 then ret None
    else
      c2 ← rd dataP (dataIndex + 1);
      let v2 := prv_base64Value c2 in
      if 64 <=? v2 then ret None
      else
        bufferP ← wr bufferP bufferIndex (u8 (Z.shiftl v1 2 + Z.shiftr v2 4));
        let bufferIndex := bufferIndex + 1 in
        let dataIndex := dataIndex + 2 in
        if dataIndex <? dataLen then
          c3 ← rd dataP dataIndex;
          if negb (c3 =? PRV_B64_PADDING) then
            let v3 := prv_base64Value c3 in
            if 64 <=? v3 then ret None
            else
              bufferP ← wr bufferP bufferIndex (u8 (Z.shiftl v2 4 + Z.shiftr v3 2));
              let bufferIndex := bufferIndex + 1 in
              let dataIndex := dataIndex + 1 in
              if dataIndex <? dataLen then
                c4 ← rd dataP dataIndex;
                if negb (c4 =? PRV_B64_PADDING) then
                  let v4 := prv_base64Value c4 in
                  if 64 <=? v4 then ret None
                  else
                    bufferP ← wr bufferP bufferIndex (u8 (Z.shiftl v3 6 + v4));
                    ret (Some (dataIndex + 1, bufferIndex + 1, bufferP))
                else if negb (bufferIndex =? decodedSize) then ret None
                else ret (Some (dataIndex + 1, bufferIndex, bufferP))
              else ret (Some (dataIndex, bufferIndex, bufferP))
          else if negb (bufferIndex =? decodedSize) then ret None
          else ret (Some (dataIndex + 2, bufferIndex, bufferP))
        else ret (Some (dataIndex, bufferIndex, bufferP)).

(** [Some None] is [return 0]. *)
Fixpoint decode_loop (fuel : nat) (dataP : list Z) (dataLen decodedSize dataIndex bufferIndex : Z)
    (bufferP : list Z) : C (option (list Z)) :=
  if dataIndex <? dataLen then
    match fuel with
    | O => None
    | S fuel =>
        r ← decode_step dataP dataLen decodedSize dataIndex bufferIndex bufferP;
        match r with
        | None => ret None
        | Some (dataIndex, bufferIndex, bufferP) =>
            decode_loop fuel dataP dataLen decodedSize dataIndex bufferIndex bufferP
        end
    end
  else ret (Some bufferP).

(** The result, and the buffer when the whole input was decoded. *)
Definition utils_base64Decode (dataP : list Z) (dataLen : Z) (bufferP : list Z) (bufferLen : Z)
    : C (Z * option (list Z)) :=
  decodedSize ← utils_base64GetDecodedSize dataP dataLen;
  if bufferLen <? decodedSize then ret (0, None)
  else
    r ← decode_loop (Z.to_nat dataLen) dataP dataLen decodedSize 0 0 bufferP;
    match r with
    | None => ret (0, None)
    | Some bufferP => ret (decodedSize, Some bufferP)
    end.

(** ** Reference *)

(** The character of a 6-bit value. *)
Definition b64 (v : Z) : Z := nth (Z.to_nat v) b64Alphabet 0.

Fixpoint b64_text (l : list Z) : list Z :=
  match l with
  | [] => []
  | [a] => [b64 (a / 4); b64 (a mod 4 * 16); PRV_B64_PADDING; PRV_B64_PADDING]
  | [a; b] => [b64 (a / 4); b64 (a mod 4 * 16 + b / 16); b64 (b mod 16 * 4); PRV_B64_PADDING]
  | a :: b :: c :: l =>
      [b64 (a / 4); b64 (a mod 4 * 16 + b / 16); b64 (b mod 16 * 4 + c / 64); b64 (c mod 64)]
        ++ b64_text l
  end.

(** Induction by groups of three bytes. *)
Lemma list_ind3 {A} (P : list A -> Prop) :
  P [] -> (forall a, P [a]) -> (forall a b, P [a; b]) ->
  (forall a b c l, P l -> P (a :: b :: c :: l)) -> forall l, P l.
Proof.
  intros H0 H1 H2 H3. fix IH 1.
  intros [|a [|b [|c l]]]; [exact H0|apply H1|apply H2|apply H3, IH].
Qed.

Lemma b64_alphabet v :
  0 <= v < 64 -> rd b64Alphabet v = Some (b64 v) /\ prv_base64Value (b64 v) = v /\
    b64 v <> PRV_B64_PADDING.
Proof.
  intros Hv.
  set (f := fun v => bool_decide (rd b64Alphabet v = Some (b64 v)) &&
    (prv_base64Value (b64 v) =? v) && negb (b64 v =? PRV_B64_PADDING)).
  pose proof (range_cases 64 f ltac:(reflexivity) v Hv) as Hf.
  unfold f in Hf. apply andb_true_iff in Hf as [[H1 H2]%andb_true_iff H3].
  apply bool_decide_eq_true in H1. split; [done|]. split; [lia|].
  apply negb_true_iff, Z.eqb_neq in H3. done.
Qed.

Lemma b64_text_length l : len (b64_text l) = utils_base64GetSize (len l).
Proof.
  induction l as [|a|a b|a b c l IH] using list_ind3; [done..|].
  cbn [b64_text]. autorewrite with buf. cbn [length].
  unfold utils_base64GetSize in *.
  replace (Z.of_nat (S (S (S (length l))))) with (len l + 1 * 3) by lia.
  rewrite Z.div_add, Z.mod_add by lia. destruct (negb _); lia.
Qed.

Lemma rd_b64 v : 0 <= v < 64 -> rd b64Alphabet v = Some (b64 v).
Proof. apply b64_alphabet. Qed.

Lemma b64_value v : 0 <= v < 64 -> prv_base64Value (b64 v) = v.
Proof. apply b64_alphabet. Qed.

Lemma b64_not_padding v : 0 <= v < 64 -> (b64 v =? PRV_B64_PADDING) = false.
Proof. intros H%b64_alphabet. lia. Qed.

(** The bit expressions of the code as arithmetic. *)
Lemma shiftr_2 a : Z.shiftr a 2 = a / 4.
Proof. by rewrite shiftr_div. Qed.
Lemma shiftr_4 a : Z.shiftr a 4 = a / 16.
Proof. by rewrite shiftr_div. Qed.
Lemma shiftr_6 a : Z.shiftr a 6 = a / 64.
Proof. by rewrite shiftr_div. Qed.
Lemma shiftl_2 a : Z.shiftl a 2 = a * 4.
Proof. by rewrite shiftl_mul. Qed.
Lemma shiftl_4 a : Z.shiftl a 4 = a * 16.
Proof. by rewrite shiftl_mul. Qed.
Lemma shiftl_6 a : Z.shiftl a 6 = a * 64.
Proof. by rewrite shiftl_mul. Qed.
Lemma lor_16 a b : 0 <= b < 16 -> Z.lor (a * 16) b = a * 16 + b.
Proof. apply (lor_add a b 4); lia. Qed.
Lemma lor_4 a b : 0 <= b < 4 -> Z.lor (a * 4) b = a * 4 + b.
Proof. apply (lor_add a b 2); lia. Qed.

Create Rewrite HintDb b64.
#[local] Hint Rewrite shiftr_2 shiftr_4 shiftr_6 shiftl_2 shiftl_4 shiftl_6
  land_3 land_15 land_63 : b64.

(** Resolve the reads at known offsets of the input and in the alphabet. *)
Ltac b64_step :=
  match goal with
  | |- context [rd (?p ++ ?x :: ?l) (len ?p)] => rewrite (rd_middle p x l (len p)) by done
  | |- context [rd (?p ++ _) (len ?p + ?i)] => rewrite (rd_app_off p _ i) by lia
  | |- context [rd (?a :: ?l) 1] => change (rd (a :: l) 1) with (rd l 0); rewrite rd_cons_0
  | |- context [rd (?a :: ?b :: ?l) 2] => change (rd (a :: b :: l) 2) with (rd l 0); rewrite rd_cons_0
  | |- context [rd (?a :: ?b :: ?c :: ?l) 3] =>
      change (rd (a :: b :: c :: l) 3) with (rd l 0); rewrite rd_cons_0
  | |- context [rd b64Alphabet _] => rewrite rd_b64 by dlia
  | |- context [Z.lor (_ * 16) _] => rewrite lor_16 by dlia
  | |- context [Z.lor (_ * 4) _] => rewrite lor_4 by dlia
  end; mstep; autorewrite with b64.

Lemma encode_step_3 pre a b c l :
  is_byte a -> is_byte b -> is_byte c ->
  encode_step (pre ++ a :: b :: c :: l) (len pre + 3 + len l) (len pre) =
    Some [b64 (a / 4); b64 (a mod 4 * 16 + b / 16); b64 (b mod 16 * 4 + c / 64); b64 (c mod 64)].
Proof.
  unfold is_byte; intros. unfold encode_step, prv_encodeBlock. guards.
  by repeat b64_step.
Qed.

Lemma encode_step_2 pre a b post :
  is_byte a -> is_byte b ->
  encode_step (pre ++ a :: b :: post) (len pre + 2) (len pre) =
    Some [b64 (a / 4); b64 (a mod 4 * 16 + b / 16); b64 (b mod 16 * 4); PRV_B64_PADDING].
Proof.
  unfold is_byte; intros. unfold encode_step. guards. by repeat b64_step.
Qed.

Lemma encode_step_1 pre a post :
  is_byte a ->
  encode_step (pre ++ a :: post) (len pre + 1) (len pre) =
    Some [b64 (a / 4); b64 (a mod 4 * 16); PRV_B64_PADDING; PRV_B64_PADDING].
Proof.
  unfold is_byte; intros. unfold encode_step. guards. by repeat b64_step.
Qed.

Lemma encode_loop_ok fuel pre l post out q :
  bytes l -> len pre + len l + 3 < 2 ^ 32 -> len out + len (b64_text l) + 4 < 2 ^ 32 ->
  (length l <= fuel)%nat -> len (b64_text l) <= len q ->
  encode_loop fuel (pre ++ l ++ post) (len pre + len l) (len pre) (len out) (out ++ q) =
    Some ((out ++ b64_text l) ++ drop (length (b64_text l)) q).
Proof.
  revert pre l out q. induction fuel as [|fuel IH]; intros pre l out q Hb Hp Ho Hf Hq.
  { destruct l; [|cbn in Hf; lia]. cbn. guards. by rewrite app_nil_r, drop_0. }
  assert (forall s, len s = 4 -> len s <= len q -> len pre + 3 < 2 ^ 32 -> len out + 4 < 2 ^ 32 ->
    wr_bytes (out ++ q) (len out) s = Some ((out ++ s) ++ drop (length s) q) /\
    u32 (len pre + 3) = len pre + 3 /\ u32 (len out + 4) = len (out ++ s)) as Hw.
  { intros s Hs Hsq Hp3 Ho4. split; [by apply wr_bytes_app|]. rewrite !wrap_small by lia. lens. }
  destruct l as [|a [|b [|c l]]]; cbn [encode_loop].
  - cbn. guards. by rewrite app_nil_r, drop_0.
  - inversion Hb; subst. cbn [app length b64_text] in *. guards.
    rewrite encode_step_1 by done. mstep.
    destruct (Hw [b64 (a / 4); b64 (a mod 4 * 16); PRV_B64_PADDING; PRV_B64_PADDING])
      as (-> & -> & ->); [lens..|]. mstep.
    destruct fuel; cbn [encode_loop]; [try lia|]; by guards.
  - inversion Hb as [|? ? ? Hb']; inversion Hb'; subst. cbn [app length b64_text] in *. guards.
    rewrite encode_step_2 by done. mstep.
    destruct (Hw [b64 (a / 4); b64 (a mod 4 * 16 + b / 16); b64 (b mod 16 * 4); PRV_B64_PADDING])
      as (-> & -> & ->); [lens..|]. mstep.
    destruct fuel; cbn [encode_loop]; [try lia|]; by guards.
  - apply Forall_cons in Hb as [Ha [Hbb [Hc Hl]%Forall_cons]%Forall_cons].
    cbn [b64_text] in *. cbn [app length] in *.
    replace (len pre + Z.of_nat (S (S (S (length l))))) with (len pre + 3 + len l) by lia.
    guards. pose proof (encode_step_3 pre a b c (l ++ post) Ha Hbb Hc) as Hs.
    unfold encode_step in Hs |- *.
    destruct (Hw [b64 (a / 4); b64 (a mod 4 * 16 + b / 16); b64 (b mod 16 * 4 + c / 64); b64 (c mod 64)])
      as (Hw1 & Hw2 & Hw3); [lens..|].
    assert ((if len pre + 3 + len l - len pre =? 1 then false else
             if len pre + 3 + len l - len pre =? 2 then false else true) = true) as _ by (by guards).
    revert Hs. guards. intros ->. mstep. rewrite Hw1. mstep. rewrite Hw2, Hw3.
    specialize (IH (pre ++ [a; b; c]) l
      (out ++ [b64 (a / 4); b64 (a mod 4 * 16 + b / 16); b64 (b mod 16 * 4 + c / 64); b64 (c mod 64)])
      (drop 4 q)).
    replace (len pre + 3) with (len (pre ++ [a; b; c])) by lens.
    rewrite <- !(app_assoc pre) in IH. cbn [app] in IH. cbn [length].
    rewrite IH; [|done|lens..]. f_equal. rewrite <- !app_assoc. cbn [app]. by rewrite drop_drop.
Qed.

(** One iteration on a full group, a group of three characters and a group of
    two characters followed by padding. *)
Lemma decode_step_4 pre v1 v2 v3 v4 rest L D out q :
  0 <= v1 < 64 -> 0 <= v2 < 64 -> 0 <= v3 < 64 -> 0 <= v4 < 64 ->
  len pre + 3 < L -> 3 <= len q ->
  decode_step (pre ++ b64 v1 :: b64 v2 :: b64 v3 :: b64 v4 :: rest) L D (len pre) (len out) (out ++ q) =
    Some (Some (len pre + 4, len out + 3,
      (out ++ [u8 (v1 * 4 + v2 / 16); u8 (v2 * 16 + v3 / 4); u8 (v3 * 64 + v4)]) ++ drop 3 q)).
Proof.
  intros H1 H2 H3 H4 HL Hq. unfold decode_step. guards.
  repeat b64_step. rewrite !b64_value by lia. guards. autorewrite with b64.
  rewrite wr_app by lens. mstep. guards.
  rewrite b64_not_padding by lia. cbn [negb].
  rewrite wr_app by lens. mstep. guards.
  replace (len pre + 2 + 1) with (len pre + 3) by lia.
  do 2 b64_step.
  rewrite b64_not_padding, b64_value by lia. cbn [negb]. guards. autorewrite with b64.
  rewrite wr_app by lens. mstep. rewrite !drop_drop, <- !app_assoc. cbn [app]. feq.
Qed.

Lemma decode_step_3 pre v1 v2 v3 post D out q :
  0 <= v1 < 64 -> 0 <= v2 < 64 -> 0 <= v3 < 64 -> D = len out + 2 -> 2 <= len q ->
  decode_step (pre ++ b64 v1 :: b64 v2 :: b64 v3 :: PRV_B64_PADDING :: post) (len pre + 4) D
      (len pre) (len out) (out ++ q) =
    Some (Some (len pre + 4, len out + 2,
      (out ++ [u8 (v1 * 4 + v2 / 16); u8 (v2 * 16 + v3 / 4)]) ++ drop 2 q)).
Proof.
  intros H1 H2 H3 -> Hq. unfold decode_step. guards.
  repeat b64_step. rewrite !b64_value by lia. guards. autorewrite with b64.
  rewrite wr_app by lens. mstep. guards.
  rewrite b64_not_padding by lia. cbn [negb].
  rewrite wr_app by lens. mstep. guards.
  replace (len pre + 2 + 1) with (len pre + 3) by lia.
  do 2 b64_step.
  guards. rewrite !drop_drop, <- !app_assoc. cbn [app]. feq.
Qed.

Lemma decode_step_2 pre v1 v2 post D out q :
  0 <= v1 < 64 -> 0 <= v2 < 64 -> D = len out + 1 -> 1 <= len q ->
  decode_step (pre ++ b64 v1 :: b64 v2 :: PRV_B64_PADDING :: post) (len pre + 4) D
      (len pre) (len out) (out ++ q) =
    Some (Some (len pre + 4, len out + 1, (out ++ [u8 (v1 * 4 + v2 / 16)]) ++ drop 1 q)).
Proof.
  intros H1 H2 -> Hq. unfold decode_step. guards.
  repeat b64_step. rewrite !b64_value by lia. guards. autorewrite with b64.
  rewrite wr_app by lens. mstep. guards.
  feq.
Qed.

(** The bytes the decoder rebuilds. *)
Lemma decode_byte_0 a b' : is_byte a -> 0 <= b' < 16 ->
  u8 (a / 4 * 4 + (a mod 4 * 16 + b') / 16) = a.
Proof. unfold is_byte; intros. rewrite wrap_small; dlia. Qed.

Lemma decode_byte_1 a b c' : is_byte b -> 0 <= c' < 4 ->
  u8 ((a mod 4 * 16 + b / 16) * 16 + (b mod 16 * 4 + c') / 4) = b.
Proof. unfold is_byte, wrap; intros. dlia. Qed.

Lemma decode_byte_2 b c : is_byte c -> u8 ((b mod 16 * 4 + c / 64) * 64 + c mod 64) = c.
Proof. unfold is_byte, wrap; intros. dlia. Qed.

Lemma decode_loop_ok fuel pre l post out q :
  bytes l -> (length l <= fuel)%nat -> len l <= len q ->
  decode_loop fuel (pre ++ b64_text l ++ post) (len pre + len (b64_text l)) (len out + len l)
      (len pre) (len out) (out ++ q) =
    Some (Some ((out ++ l) ++ drop (length l) q)).
Proof.
  revert pre l out q. induction fuel as [|fuel IH]; intros pre l out q Hb Hf Hq.
  { destruct l; [|cbn in Hf; lia]. cbn. guards. by rewrite app_nil_r, drop_0. }
  destruct l as [|a [|b [|c l]]]; cbn [decode_loop].
  - cbn. guards. by rewrite app_nil_r, drop_0.
  - apply Forall_cons in Hb as [Hb _]. pose proof Hb as Hb'. unfold is_byte in Hb'.
    cbn [b64_text app length] in *. guards.
    change (Z.of_nat 4) with 4. rewrite decode_step_2 by dlia. mstep.
    pose proof (decode_byte_0 a 0 Hb ltac:(lia)) as Ha. rewrite Z.add_0_r in Ha. rewrite Ha.
    destruct fuel; cbn [decode_loop]; [try lia|]; by guards.
  - apply Forall_cons in Hb as [Ha [Hb _]%Forall_cons].
    pose proof Hb as Hb'. pose proof Ha as Ha'. unfold is_byte in Hb', Ha'.
    cbn [b64_text app length] in *. guards.
    change (Z.of_nat 4) with 4. rewrite decode_step_3 by dlia. mstep.
    rewrite decode_byte_0 by (done || dlia).
    pose proof (decode_byte_1 a b 0 Hb ltac:(lia)) as Hbb. rewrite Z.add_0_r in Hbb. rewrite Hbb.
    destruct fuel; cbn [decode_loop]; [try lia|]; by guards.
  - apply Forall_cons in Hb as [Ha [Hbb [Hc Hl]%Forall_cons]%Forall_cons].
    pose proof Ha as Ha'. pose proof Hbb as Hb'. pose proof Hc as Hc'.
    unfold is_byte in Ha', Hb', Hc'.
    cbn [b64_text] in *. cbn [app length] in *. guards.
    rewrite decode_step_4 by (dlia || lens). mstep.
    rewrite decode_byte_0, decode_byte_1, decode_byte_2 by (done || dlia).
    specialize (IH (pre ++ [b64 (a / 4); b64 (a mod 4 * 16 + b / 16);
      b64 (b mod 16 * 4 + c / 64); b64 (c mod 64)]) l (out ++ [a; b; c]) (drop 3 q) Hl).
    rewrite <- !(app_assoc pre) in IH. cbn [app] in IH. autorewrite with buf in IH.
    cbn [length] in IH.
    replace (len pre + Z.of_nat (S (S (S (S (length (b64_text l)))))))
      with (Z.of_nat (length pre + 4) + len (b64_text l)) by lia.
    replace (len out + Z.of_nat (S (S (S (length l)))))
      with (Z.of_nat (length out + 3) + len l) by lia.
    replace (len pre + 4) with (Z.of_nat (length pre + 4)) by lia.
    replace (len out + 3) with (Z.of_nat (length out + 3)) by lia.
    rewrite IH by lens. do 2 f_equal. rewrite <- !app_assoc. cbn [app]. by rewrite drop_drop.
Qed.

(** The last two characters of the text tell the padding. *)
Lemma b64_text_last l :
  bytes l -> l <> [] ->
  exists p x y, b64_text l = p ++ [x; y] /\
    (x =? PRV_B64_PADDING) = (len l mod 3 =? 1) /\ (y =? PRV_B64_PADDING) = negb (len l mod 3 =? 0).
Proof.
  induction l as [|a|a b|a b c l IH] using list_ind3; intros Hb Hl; [done| | |].
  - eexists [_; _], _, _. split; [done|]. done.
  - apply Forall_cons in Hb as [Ha [Hb _]%Forall_cons]. unfold is_byte in *.
    eexists [_; _], _, _. split; [done|]. rewrite b64_not_padding by dlia. done.
  - apply Forall_cons in Hb as [Ha [Hb [Hc Hb']%Forall_cons]%Forall_cons]. unfold is_byte in Ha, Hb, Hc.
    assert (len (a :: b :: c :: l) mod 3 = len l mod 3) as ->.
    { replace (len (a :: b :: c :: l)) with (len l + 1 * 3) by lens. by rewrite Z.mod_add. }
    destruct l as [|d l].
    + eexists [_; _], _, _. split; [done|]. by rewrite !b64_not_padding by dlia.
    + destruct IH as (p & x & y & E & Hx & Hy); [done..|].
      eexists (_ :: _ :: _ :: _ :: p), x, y. cbn [b64_text]. cbn [b64_text] in E. rewrite E. done.
Qed.

Lemma decoded_size_ok l post :
  bytes l -> utils_base64GetDecodedSize (b64_text l ++ post) (len (b64_text l)) = Some (len l).
Proof.
  intros Hb. destruct (decide (l = [])) as [->|Hl]; [done|].
  destruct (b64_text_last l Hb Hl) as (p & x & y & E & Hx & Hy).
  pose proof (b64_text_length l) as Hn. unfold utils_base64GetSize in Hn.
  unfold utils_base64GetDecodedSize. rewrite E in *. autorewrite with buf in *. cbn [length] in *.
  rewrite <- app_assoc. cbn [app]. assert (0 < len l) by (destruct l; [done|lens]).
  assert (Z.of_nat (length p + 2) = 4 * ((len l + 2) / 3)) as Hn'.
  { revert Hn. destruct (len l mod 3 =? 0) eqn:E0; cbn [negb]; intros; dlia. }
  assert (Z.of_nat (length p + 2) mod 4 = 0) as -> by dlia.
  assert (Z.of_nat (length p + 2) / 4 = (len l + 2) / 3) as -> by dlia.
  assert ((0 <? 3 * ((len l + 2) / 3)) = true) as -> by dlia. cbn match. rewrite Z.eqb_refl.
  replace (Z.of_nat (length p + 2) - 2) with (len p) by lia.
  replace (Z.of_nat (length p + 2) - 1) with (len p + 1) by lia.
  rewrite (rd_middle p x _ (len p)) by done. mstep. rewrite Hx.
  destruct (len l mod 3 =? 1) eqn:E1; [f_equal; dlia|].
  rewrite rd_app_off by lia. change (rd (x :: y :: post) 1) with (Some y). mstep. rewrite Hy.
  destruct (len l mod 3 =? 0) eqn:E2; cbn [negb]; f_equal; dlia.
Qed.

Lemma encode_ok data post buffer :
  bytes data -> len data < 2 ^ 30 ->
  utils_base64Encode (data ++ post) (len data) buffer (len buffer) =
    if utils_base64GetSize (len data) <=? len buffer
    then Some (len (b64_text data), b64_text data ++ drop (length (b64_text data)) buffer)
    else Some (0, buffer).
Proof.
  intros Hb Hl. unfold utils_base64Encode. rewrite <- b64_text_length.
  destruct (len (b64_text data) <=? len buffer) eqn:E; guards; [|done].
  assert (len (b64_text data) < 2 ^ 31).
  { rewrite b64_text_length. unfold utils_base64GetSize. destruct (negb _); dlia. }
  pose proof (encode_loop_ok (Z.to_nat (len data)) [] data post [] buffer Hb) as He.
  cbn [app length] in He. change (Z.of_nat 0) with 0 in He.
  rewrite Z.add_0_l in He. rewrite He by lia. done.
Qed.

(** ** Properties *)

(** [utils_base64Encode] succeeds exactly when the output buffer has
    [utils_base64GetSize] bytes, writes the reference encoding there, and
    touches nothing beyond it; the input is read in bounds. *)
Theorem base64_encode_correct data post buffer :
  bytes data -> len data < 2 ^ 30 ->
  utils_base64Encode (data ++ post) (len data) buffer (len buffer) =
    if utils_base64GetSize (len data) <=? len buffer
    then Some (len (b64_text data), b64_text data ++ drop (length (b64_text data)) buffer)
    else Some (0, buffer).
Proof. apply encode_ok. Qed.

(** Base64 round trip: what [utils_base64Encode] writes is decoded by
    [utils_base64Decode] to the original bytes, with the original length as
    the result, in a buffer of that length. *)
Theorem base64_roundtrip data buffer out :
  bytes data -> len data < 2 ^ 30 -> len buffer = utils_base64GetSize (len data) ->
  len out = len data ->
  exists text, utils_base64Encode data (len data) buffer (len buffer) = Some (len text, text) /\
    utils_base64Decode text (len text) out (len out) = Some (len data, Some data).
Proof.
  intros Hb Hl Hbuf Hout. exists (b64_text data). split.
  - rewrite <- (app_nil_r data) at 1. rewrite encode_ok by done. guards.
    rewrite drop_ge by (rewrite <- b64_text_length in Hbuf; lia). by rewrite app_nil_r.
  - unfold utils_base64Decode. pose proof (decoded_size_ok data [] Hb) as Hd.
    rewrite app_nil_r in Hd. rewrite Hd. mstep. guards.
    pose proof (decode_loop_ok (Z.to_nat (len (b64_text data))) [] data [] [] out Hb) as Hx.
    rewrite app_nil_r in Hx. cbn [app length] in Hx. change (Z.of_nat 0) with 0 in Hx.
    rewrite !Z.add_0_l in Hx. rewrite Hx; [|rewrite b64_text_length|lia].
    + mstep. rewrite drop_ge by lia. by rewrite app_nil_r.
    + unfold utils_base64GetSize. destruct (negb _) eqn:?; dlia.
Qed.

Lemma base64_encode_correct_witness :
  utils_base64Encode (str "M" ++ [0]) (len (str "M")) (replicate 5 0) (len (replicate 5 0)) =
    (if utils_base64GetSize (len (str "M")) <=? len (replicate 5 0)
    then Some (len (b64_text (str "M")),
      b64_text (str "M") ++ drop (length (b64_text (str "M"))) (replicate 5 0))
    else Some (0, replicate 5 0)).
Proof.
  apply (base64_encode_correct (str "M") [0] (replicate 5 0)); [apply str_bytes|eval_side].
Defined.

Lemma base64_roundtrip_witness :
  exists text,
    utils_base64Encode [0; 255; 7; 128] 4 (replicate 8 0) 8 = Some (len text, text) /\
    utils_base64Decode text (len text) (replicate 4 0) 4 = Some (4, Some [0; 255; 7; 128]).
Proof.
  apply (base64_roundtrip [0; 255; 7; 128] (replicate 8 0) (replicate 4 0)); try eval_side.
  repeat constructor; eval_side.
Defined.
End Base64.
