(* ===== verification/Utils.v ===== *)
(** * Small helpers (core/utils.c, without the number and base64 routines)

    Versions, bindings, media types, the choice of a response format, C strings
    copied with a size limit, and the search of a peer by its session. *)
From S2P Require Import Prelude Types.

Module Utils.

(** ** Versions and bindings *)

Inductive lwm2m_version_t := VERSION_MISSING | VERSION_UNRECOGNIZED | VERSION_1_0 | VERSION_1_1.

Definition utils_stringToVersion (buffer : list Z) (length : Z) : C lwm2m_version_t :=
  if length =? 0 then ret VERSION_MISSING
  else if negb (length =? 3) then ret VERSION_UNRECOGNIZED
  else
    b1 ← rd buffer 1;
    if negb (b1 =? chr ".") then ret VERSION_UNRECOGNIZED
    else
      b0 ← rd buffer 0;
      if b0 =? chr "1" then
        b2 ← rd buffer 2;
        if b2 =? chr "0" then ret VERSION_1_0
        else if b2 =? chr "1" then ret VERSION_1_1
        else ret VERSION_UNRECOGNIZED
      else ret VERSION_UNRECOGNIZED.

Definition BINDING_UNKNOWN : Z := 0x01.
Definition BINDING_U : Z := 0x02.
Definition BINDING_T : Z := 0x04.
Definition BINDING_S : Z := 0x08.
Definition BINDING_N : Z := 0x10.
Definition BINDING_Q : Z := 0x20.

(** The [for] loop of [utils_stringToBinding], with [n] iterations left. *)
Fixpoint binding_loop (buffer : list Z) (n : nat) (i binding : Z) : C Z :=
  match n with
  | O => ret binding
  | S n =>
      c ← rd buffer i;
      if c =? chr "N" then binding_loop buffer n (i + 1) (Z.lor binding BINDING_N)
      else if c =? chr "Q" then binding_loop buffer n (i + 1) (Z.lor binding BINDING_Q)
      else if c =? chr "S" then binding_loop buffer n (i + 1) (Z.lor binding BINDING_S)
      else if c =? chr "T" then binding_loop buffer n (i + 1) (Z.lor binding BINDING_T)
      else if c =? chr "U" then binding_loop buffer n (i + 1) (Z.lor binding BINDING_U)
      else ret BINDING_UNKNOWN
  end.

Definition utils_stringToBinding (buffer : list Z) (length : Z) : C Z :=
  binding_loop buffer (Z.to_nat length) 0 BINDING_UNKNOWN.

(** ** Media types and response formats *)

Definition utils_convertMediaType (type : Z) : Z :=
  let t := u16 type in
  if t =? TEXT_PLAIN then LWM2M_CONTENT_TEXT
  else if t =? APPLICATION_OCTET_STREAM then LWM2M_CONTENT_OPAQUE
  else if t =? LWM2M_CONTENT_TLV_OLD then LWM2M_CONTENT_TLV_OLD
  else if t =? LWM2M_CONTENT_TLV then LWM2M_CONTENT_TLV
  else if t =? LWM2M_CONTENT_JSON_OLD then LWM2M_CONTENT_JSON_OLD
  else if t =? LWM2M_CONTENT_JSON then LWM2M_CONTENT_JSON
  else if t =? LWM2M_CONTENT_SENML_JSON then LWM2M_CONTENT_SENML_JSON
  else if t =? LWM2M_CONTENT_CBOR then LWM2M_CONTENT_CBOR
  else if t =? LWM2M_CONTENT_SENML_CBOR then LWM2M_CONTENT_SENML_CBOR
  else if t =? APPLICATION_LINK_FORMAT then LWM2M_CONTENT_LINK
  else LWM2M_CONTENT_TEXT.

(** The [switch (accept[i])]: the format when the entry is acceptable. *)
Definition accept_entry (singular : bool) (a : Z) : option Z :=
  if a =? TEXT_PLAIN then if singular then Some LWM2M_CONTENT_TEXT else None
  else if a =? APPLICATION_OCTET_STREAM then if singular then Some LWM2M_CONTENT_OPAQUE else None
  else if a =? LWM2M_CONTENT_TLV_OLD then Some LWM2M_CONTENT_TLV_OLD
  else if a =? LWM2M_CONTENT_TLV then Some LWM2M_CONTENT_TLV
  else if a =? LWM2M_CONTENT_JSON_OLD then Some LWM2M_CONTENT_JSON_OLD
  else if a =? LWM2M_CONTENT_JSON then Some LWM2M_CONTENT_JSON
  else if a =? LWM2M_CONTENT_SENML_JSON then Some LWM2M_CONTENT_SENML_JSON
  else if a =? LWM2M_CONTENT_SENML_CBOR then Some LWM2M_CONTENT_SENML_CBOR
  else None.

(** The [for] loop over [accept], with [n] entries left. *)
Fixpoint accept_loop (singular : bool) (accept : list Z) (n : nat) (i : Z) : C (option Z) :=
  match n with
  | O => ret None
  | S n =>
      a ← rd accept i;
      match accept_entry singular a with
      | Some format => ret (Some format)
      | None => accept_loop singular accept n (i + 1)
      end
  end.

(** The result code and [*format]. *)
Definition utils_getResponseFormat (accept_num : Z) (accept : list Z) (numData : Z)
    (dataP : list lwm2m_data_t) (singleResource : bool) : C (Z * Z) :=
  singular ←
    (if numData =? 1 then
       d ← rd dataP 0;
       match d_type d with
       | LWM2M_TYPE_OBJECT | LWM2M_TYPE_OBJECT_INSTANCE | LWM2M_TYPE_MULTIPLE_RESOURCE => ret false
       | _ => ret singleResource
       end
     else ret singleResource);
  if 0 <? accept_num then
    found ← accept_loop singular accept (Z.to_nat accept_num) 0;
    match found with
    | Some format => ret (COAP_205_CONTENT, format)
    | None => ret (COAP_406_NOT_ACCEPTABLE, LWM2M_CONTENT_TEXT)
    end
  else if singular then ret (COAP_205_CONTENT, LWM2M_CONTENT_TEXT)
  else ret (COAP_205_CONTENT, LWM2M_CONTENT_SENML_CBOR).

Definition utils_depthToDatatype (depth : uri_depth_t) : lwm2m_data_type_t :=
  match depth with
  | URI_DEPTH_OBJECT => LWM2M_TYPE_OBJECT
  | URI_DEPTH_OBJECT_INSTANCE => LWM2M_TYPE_OBJECT_INSTANCE
  | _ => LWM2M_TYPE_UNDEFINED
  end.

(** ** Peers

    [lwm2m_session_is_equal] is supplied by the platform.  The three searches
    are the same loop over the [next] links of three lists. *)
Section peers.
Context {Session Peer : Type}.
Variable lwm2m_session_is_equal : Session -> Session -> bool.
Variable sessionH : Peer -> Session.

Fixpoint utils_findServer (serverList : list Peer) (fromSessionH : Session) : option Peer :=
  match serverList with
  | [] => None
  | targetP :: next =>
      if lwm2m_session_is_equal (sessionH targetP) fromSessionH then Some targetP
      else utils_findServer next fromSessionH
  end.

(** A client-mode build. *)
Definition utils_findBootstrapServer (bootstrapServerList : list Peer) (fromSessionH : Session)
    : option Peer := utils_findServer bootstrapServerList fromSessionH.

Definition utils_findClient (clientList : list Peer) (fromSessionH : Session) : option Peer :=
  utils_findServer clientList fromSessionH.
End peers.

(** ** C strings *)

(** Index of the first zero at or after [i], within [n] bytes. *)
Fixpoint memchr0 (s : list Z) (n : nat) (i : Z) : C (option Z) :=
  match n with
  | O => ret None
  | S n => c ← rd s i; if c =? 0 then ret (Some i) else memchr0 s n (i + 1)
  end.

(** [strlen]: undefined when the array holds no terminator. *)
Definition strlen (s : list Z) : C Z :=
  r ← memchr0 s (length s) 0;
  match r with Some i => ret i | None => None end.

(** A pointer that may be null is an [option]. *)
Definition utils_strnlen (str : option (list Z)) (max_size : Z) : C Z :=
  match str with
  | None => ret 0
  | Some str =>
      pos ← memchr0 str (Z.to_nat max_size) 0;
      match pos with None => ret max_size | Some pos => ret pos end
  end.

(** The result and the buffer at [dest]. *)
Definition utils_strncpy (dest : option (list Z)) (dest_size : Z) (src : option (list Z))
    (src_size : Z) : C (Z * option (list Z)) :=
  match src, dest with
  | Some s, Some d =>
      actual_src_len ← utils_strnlen src src_size;
      let bytes_to_write := if actual_src_len <? dest_size then actual_src_len else dest_size in
      moved ← rd_bytes s 0 bytes_to_write;
      d ← wr_bytes d 0 moved;
      d ← (if bytes_to_write <? dest_size then wr d bytes_to_write 0 else ret d);
      d ← (if 0 <? dest_size then wr d (dest_size - 1) 0 else ret d);
      if (0 <? dest_size) && (bytes_to_write =? dest_size) then ret (bytes_to_write - 1, Some d)
      else ret (bytes_to_write, Some d)
  | _, _ => ret (0, dest)
  end.

Definition utils_stringCopy (buffer : list Z) (length : Z) (str : list Z) : C (Z * list Z) :=
  i ← strlen str;
  '(n, d) ← utils_strncpy (Some buffer) length (Some str) i;
  match d with Some d => ret (s32 n, d) | None => None end.

(** The bytes of an integer object, most significant first, in a build for a
    little-endian target. *)
Definition utils_copyValue (src : list Z) (length : Z) : C (list Z) :=
  s ← rd_bytes src 0 length; ret (rev s).

(** One character of [utils_isAltPathValid]. *)
Definition altPath_char (c : Z) : bool :=
  negb ((c =? chr "/") ||
        ((c <? chr "A") || (chr "Z" <? c)) && ((c <? chr "a") || (chr "z" <? c)) &&
        ((c <? chr "0") || (chr "9" <? c)) && negb (c =? chr "-") && negb (c =? chr ".") &&
        negb (c =? chr "_") && negb (c =? chr "~") && negb (c =? chr "%")).

Fixpoint altPath_loop (altPath : list Z) (fuel : nat) (i : Z) : C bool :=
  match fuel with
  | O => None
  | S fuel =>
      c ← rd altPath i;
      if c =? 0 then ret true
      else if altPath_char c then altPath_loop altPath fuel (i + 1)
      else ret false
  end.

Definition utils_isAltPathValid (altPath : option (list Z)) : C bool :=
  match altPath with
  | None => ret false
  | Some altPath =>
      c0 ← rd altPath 0;
      if negb (c0 =? chr "/") then ret false
      else altPath_loop altPath (length altPath) 1
  end.

(** ** Properties *)

(** The bytes of the C string at the start of an array. *)
Fixpoint c_string (s : list Z) : list Z :=
  match s with
  | [] => []
  | c :: s => if c =? 0 then [] else c :: c_string s
  end.

Lemma memchr0_spec pre l post :
  memchr0 (pre ++ l ++ post) (length l) (len pre) =
    Some (if len (c_string l) <? len l then Some (len pre + len (c_string l)) else None).
Proof.
  revert pre. induction l as [|c l IH]; intros pre; [done|].
  cbn [memchr0 length app c_string]. rewrite rd_middle by done. mstep.
  destruct (c =? 0); [cbn; do 2 f_equal; lia|].
  specialize (IH (pre ++ [c])). rewrite <- app_assoc in IH. cbn [app] in IH.
  replace (len (pre ++ [c])) with (len pre + 1) in IH by lens. rewrite IH. cbn [length].
  do 2 f_equal. destruct (len (c_string l) <? len l) eqn:E1, (_ <? Z.of_nat (S (length l))) eqn:E2; feq.
Qed.

Lemma c_string_length l : (length (c_string l) <= length l)%nat.
Proof. induction l as [|c l IH]; cbn; [done|]. destruct (c =? 0); cbn; lia. Qed.

Lemma c_string_prefix l : c_string l = take (length (c_string l)) l.
Proof. induction l as [|c l IH]; cbn; [done|]. destruct (c =? 0); cbn; by f_equal. Qed.

Lemma c_string_nonzero l : Forall (fun c => c <> 0) (c_string l).
Proof. induction l as [|c l IH]; cbn; [done|]. destruct (c =? 0) eqn:E; constructor; lia || done. Qed.

Lemma c_string_app l : Forall (fun c => c <> 0) l -> forall rest, c_string (l ++ 0 :: rest) = l.
Proof.
  induction 1 as [|c l Hc Hl IH]; intros rest; [done|]. cbn [app c_string].
  rewrite (proj2 (Z.eqb_neq c 0)) by done. by rewrite IH.
Qed.

Lemma c_string_end l : c_string (l ++ [0]) = c_string l.
Proof. induction l as [|c l IH]; [done|]. cbn [app c_string]. by rewrite IH. Qed.

Lemma c_string_split l rest : exists rest', l ++ 0 :: rest = c_string l ++ 0 :: rest'.
Proof.
  induction l as [|c l [rest' IH]]; [by exists rest|]. cbn [app c_string]. destruct (c =? 0) eqn:E.
  - apply Z.eqb_eq in E as ->. by exists (l ++ 0 :: rest).
  - exists rest'. cbn [app]. by rewrite IH.
Qed.

Lemma strlen_text l rest : Forall (fun c => c <> 0) l -> strlen (l ++ 0 :: rest) = Some (len l).
Proof.
  intros Hl. unfold strlen. pose proof (memchr0_spec [] (l ++ 0 :: rest) []) as H. cbn [app] in H.
  rewrite app_nil_r in H. change (len (@nil Z)) with 0 in H. rewrite H, c_string_app by done.
  rewrite length_app. cbn [length]. by guards.
Qed.

Lemma strlen_end l : strlen (l ++ [0]) = Some (len (c_string l)).
Proof.
  destruct (c_string_split l []) as [rest' ->]. apply strlen_text, c_string_nonzero.
Qed.

Lemma strnlen_spec l post :
  utils_strnlen (Some (l ++ post)) (len l) = Some (len (c_string l)).
Proof.
  unfold utils_strnlen. rewrite Nat2Z.id. pose proof (memchr0_spec [] l post) as H.
  cbn [app length] in H. change (Z.of_nat 0) with 0 in H. rewrite H. mstep.
  pose proof (c_string_length l). destruct (_ <? _) eqn:E; feq.
Qed.

Lemma rd_bytes_prefix (src post l : list Z) :
  l = take (length l) src -> rd_bytes (src ++ post) 0 (len l) = Some l.
Proof.
  intros H. rewrite <- (take_drop (length l) src), <- H, <- app_assoc. by apply (rd_bytes_app []).
Qed.

(** [utils_strncpy] never writes outside the [dest_size] bytes of [dest]
    and always leaves a terminated string there: the longest prefix of the
    source string that fits, whose length it returns. *)
Theorem strncpy_correct (src post old rest : list Z) :
  0 < len old ->
  let s := take (length old - 1) (c_string src) in
  exists pad,
    utils_strncpy (Some (old ++ rest)) (len old) (Some (src ++ post)) (len src) =
      Some (len s, Some ((s ++ 0 :: pad) ++ rest)) /\
    length (s ++ 0 :: pad) = length old /\ Forall (fun c => c <> 0) s.
Proof.
  intros Ho s. unfold utils_strncpy. rewrite strnlen_spec. mstep.
  pose proof (c_string_length src) as Hc. pose proof (c_string_prefix src) as Hp.
  pose proof (c_string_nonzero src) as Hz.
  destruct (len (c_string src) <? len old) eqn:E; mstep.
  - assert (s = c_string src) as Hs by (unfold s; apply take_ge; lia). clearbody s; subst s.
    destruct (split_at old (length (c_string src))) as (o1 & x & o2 & -> & H1); [lia|].
    rewrite (rd_bytes_prefix src post (c_string src)) by done. mstep.
    rewrite <- app_assoc. cbn [app]. rewrite wr_bytes_0 by done. mstep.
    rewrite E, wr_middle by lia. mstep. guards. clear E.
    destruct o2 as [|y o2 _] using rev_ind.
    + rewrite wr_middle by lens. mstep. guards. exists []. split; [|by split; [lens|]].
      by rewrite <- app_assoc.
    + rewrite <- app_assoc. cbn [app]. rewrite (app_cons_assoc _ 0), app_assoc.
      rewrite wr_middle by lens. mstep. guards. exists (o2 ++ [0]).
      split; [|by split; [lens|]]. by apps.
  - destruct old as [|x o1 _] using rev_ind; [cbn in Ho; lia|].
    assert (length (o1 ++ [x]) = S (length o1)) as Hl by lens.
    unfold s. clear s. rewrite Hl in Ho, E |- *. rewrite Nat.sub_succ, Nat.sub_0_r.
    destruct (split_at (c_string src) (length o1)) as (c1 & y & c2 & Hcs & H1); [lia|].
    assert (take (length o1) (c_string src) = c1) as -> by (by rewrite Hcs, <- H1, take_app_length).
    rewrite Hcs in Hz, Hp. apply Forall_app in Hz as [Hz _].
    replace (Z.of_nat (S (length o1))) with (len (c1 ++ [y])) by lens.
    rewrite (rd_bytes_prefix src post (c1 ++ [y])).
    2: { rewrite (app_cons_assoc c1), length_app in Hp.
         apply (f_equal (take (length (c1 ++ [y])))) in Hp.
         rewrite take_app_length, take_take in Hp. rewrite Hp at 1. f_equal. lia. }
    mstep.
    rewrite wr_bytes_0 by lens. mstep. guards.
    rewrite <- app_assoc. cbn [app]. mstep. rewrite wr_middle by lens. mstep. guards.
    exists []. split; [|by split; [lens|]]. rewrite <- app_assoc. feq.
Qed.

Lemma strncpy_correct_witness :
  let s := take (length (replicate 4 255) - 1) (c_string (str "wakaama")) in
  exists pad,
    utils_strncpy (Some (replicate 4 255 ++ [7])) (len (replicate 4 255))
        (Some (str "wakaama" ++ [0])) (len (str "wakaama")) =
      Some (len s, Some ((s ++ 0 :: pad) ++ [7])) /\
    length (s ++ 0 :: pad) = length (replicate 4 255) /\ Forall (fun c => c <> 0) s.
Proof. apply (strncpy_correct (str "wakaama") [0] (replicate 4 255) [7]). reflexivity. Defined.

(** The answer to a request is one value, not a container of several. *)
Definition is_singular (numData : Z) (dataP : list lwm2m_data_t) (singleResource : bool) : Prop :=
  singleResource = true /\
  (numData = 1 -> forall d, head dataP = Some d ->
    d_type d ∉ [LWM2M_TYPE_OBJECT; LWM2M_TYPE_OBJECT_INSTANCE; LWM2M_TYPE_MULTIPLE_RESOURCE]).

(** The formats an answer can have: the structured ones, and plain text or
    opaque for a single value. *)
Definition acceptable (singular : Prop) (a : Z) : Prop :=
  a ∈ [LWM2M_CONTENT_TLV_OLD; LWM2M_CONTENT_TLV; LWM2M_CONTENT_JSON_OLD; LWM2M_CONTENT_JSON;
       LWM2M_CONTENT_SENML_JSON; LWM2M_CONTENT_SENML_CBOR] \/
  (singular /\ a ∈ [TEXT_PLAIN; APPLICATION_OCTET_STREAM]).

Lemma accept_entry_spec (singular : bool) (P : Prop) a :
  (singular = true <-> P) ->
  match accept_entry singular a with
  | Some f => acceptable P a /\ f = utils_convertMediaType a
  | None => ~ acceptable P a
  end.
Proof.
  intros HP. unfold accept_entry, acceptable.
  assert (singular = false -> ~ P) by (destruct singular; [done|]; intros _ H; by apply HP in H).
  assert (singular = true -> P) by apply HP. clear HP.
  destruct (Z.eqb_spec a TEXT_PLAIN) as [->|].
  { destruct singular; [split; [right; set_solver|done]|]. intros [Ha|[HP _]]; [|by apply H in HP].
    set_unfold in Ha. by destruct_or? Ha. }
  destruct (Z.eqb_spec a APPLICATION_OCTET_STREAM) as [->|].
  { destruct singular; [split; [right; set_solver|done]|]. intros [Ha|[HP _]]; [|by apply H in HP].
    set_unfold in Ha. by destruct_or? Ha. }
  repeat match goal with
  | |- context [if a =? ?v then _ else _] =>
      destruct (Z.eqb_spec a v) as [->|]; [split; [left; set_unfold; by auto 10|reflexivity]|]
  end.
  intros [Ha|[_ Ha]]; set_unfold in Ha; destruct_or? Ha; congruence.
Qed.

Lemma accept_loop_spec (singular : bool) (P : Prop) pre l post :
  (singular = true <-> P) ->
  exists r, accept_loop singular (pre ++ l ++ post) (length l) (len pre) = Some r /\
    match r with
    | Some f => exists p a q, l = p ++ a :: q /\ Forall (fun a => ~ acceptable P a) p /\
        acceptable P a /\ f = utils_convertMediaType a
    | None => Forall (fun a => ~ acceptable P a) l
    end.
Proof.
  intros HP. revert pre. induction l as [|a l IH]; intros pre; [by exists None|].
  cbn [accept_loop length app]. rewrite rd_middle by done. mstep.
  pose proof (accept_entry_spec singular P a HP) as Ha. destruct (accept_entry singular a) as [f|].
  - eexists; split; [done|]. exists [], a, l. by split.
  - specialize (IH (pre ++ [a])). rewrite <- app_assoc in IH. cbn [app] in IH.
    replace (len (pre ++ [a])) with (len pre + 1) in IH by lens.
    destruct IH as (r & -> & Hr). exists r. split; [done|]. destruct r as [f|]; [|by constructor].
    destruct Hr as (p & b & q & -> & Hp & Hb). exists (a :: p), b, q. split; [done|].
    split; [by constructor|done].
Qed.

(** Content negotiation: with an Accept option, the format of the answer is
    the first acceptable entry of the list, and 4.06 is returned exactly when
    no entry is acceptable; the list is never read past [accept_num]. *)
Theorem getResponseFormat_correct accept rest numData dataP singleResource :
  0 < len accept -> (numData = 1 -> dataP <> []) ->
  exists code format,
    utils_getResponseFormat (len accept) (accept ++ rest) numData dataP singleResource =
      Some (code, format) /\
    let ok := acceptable (is_singular numData dataP singleResource) in
    (code = COAP_205_CONTENT /\ (exists p a q, accept = p ++ a :: q /\
       Forall (fun a => ~ ok a) p /\ ok a /\ format = utils_convertMediaType a) \/
     code = COAP_406_NOT_ACCEPTABLE /\ Forall (fun a => ~ ok a) accept).
Proof.
  intros Hl Hd. unfold utils_getResponseFormat.
  assert (forall (singular : bool), (singular = true <-> is_singular numData dataP singleResource) ->
    exists code format,
    (found ← accept_loop singular (accept ++ rest) (Z.to_nat (len accept)) 0;
    match found with
    | Some format => ret (COAP_205_CONTENT, format)
    | None => ret (COAP_406_NOT_ACCEPTABLE, LWM2M_CONTENT_TEXT)
    end) = Some (code, format) /\
    let ok := acceptable (is_singular numData dataP singleResource) in
    (code = COAP_205_CONTENT /\ (exists p a q, accept = p ++ a :: q /\
       Forall (fun a => ~ ok a) p /\ ok a /\ format = utils_convertMediaType a) \/
     code = COAP_406_NOT_ACCEPTABLE /\ Forall (fun a => ~ ok a) accept)) as Hmain.
  { intros singular Hs. rewrite Nat2Z.id.
    destruct (accept_loop_spec singular _ [] accept rest Hs) as (r & Hr & H). cbn [app length] in Hr.
    change (Z.of_nat 0) with 0 in Hr. rewrite Hr. mstep. destruct r; eauto 10. }
  unfold is_singular in *. destruct (numData =? 1) eqn:E.
  - destruct dataP as [|d dataP]; [exfalso; apply Hd; [lia|done]|]. rewrite rd_cons_0. mstep.
    destruct d as [t i v]. cbn [d_type head] in *.
    assert (forall P : Prop, (false = true <-> singleResource = true /\ (numData = 1 -> P)) <->
      (singleResource = true -> ~ P)) as Hneg.
    { intros P. assert (numData = 1) by lia. destruct singleResource; intuition congruence. }
    destruct t; mstep; guards; apply Hmain;
      first [ apply Hneg; intros _ H; apply (H _ eq_refl); cbn; set_unfold; by auto
            | split; [intros ->; split; [done|]; intros _ d [= <-]; cbn; set_unfold; by intros H; destruct_or? H
                     |by intros []] ].
  - mstep. guards. apply Hmain. split; [intros; split; [done|lia]|tauto].
Qed.

Lemma getResponseFormat_correct_witness :
  let accept := [TEXT_PLAIN; LWM2M_CONTENT_TLV] in
  let data := [mk_data LWM2M_TYPE_OBJECT 3 VZero] in
  exists code format,
    utils_getResponseFormat (len accept) (accept ++ []) 1 data true = Some (code, format) /\
    let ok := acceptable (is_singular 1 data true) in
    (code = COAP_205_CONTENT /\ (exists p a q, accept = p ++ a :: q /\
       Forall (fun a => ~ ok a) p /\ ok a /\ format = utils_convertMediaType a) \/
     code = COAP_406_NOT_ACCEPTABLE /\ Forall (fun a => ~ ok a) accept).
Proof.
  apply (getResponseFormat_correct [TEXT_PLAIN; LWM2M_CONTENT_TLV] [] 1
    [mk_data LWM2M_TYPE_OBJECT 3 VZero] true); done.
Defined.
(** ** Byte order of a copied integer *)

Lemma copyValue_le n v : utils_copyValue (le_bytes n v) (Z.of_nat n) = Some (be_bytes n v).
Proof.
  unfold utils_copyValue. rewrite <- (le_bytes_length n v) at 2. by rewrite rd_bytes_all.
Qed.

Lemma copyValue_be n v : utils_copyValue (be_bytes n v) (Z.of_nat n) = Some (le_bytes n v).
Proof.
  unfold utils_copyValue. rewrite <- (be_bytes_length n v) at 2. rewrite rd_bytes_all. mstep.
  unfold be_bytes. by rewrite rev_involutive.
Qed.

End Utils.
