(* ===== verification/Uri.v ===== *)
(** * Resource paths (core/uri.c)

    The number parser, the decoding of the Uri-Path options of a request, and
    the text of a URI.  [grammar] is the reference language of the texts
    [lwm2m_stringToUri] accepts. *)
From S2P Require Import Prelude Types Numeric.
Import Numeric.

Module Uri.

(** [prv_parseNumber]: the number or -1, and the head.  [result] is an [int];
    the loop runs at most once for each remaining byte. *)
Fixpoint parse_loop (uriString : list Z) (uriLength : Z) (fuel : nat) (head result : Z)
    : C (Z * Z) :=
  match fuel with
  | O => None
  | S fuel =>
      if head <? uriLength then
        c ← rd uriString head;
        if c =? chr "/" then ret (result, head)
        else if (chr "0" <=? c) && (c <=? chr "9") then
          assert! int_ok (result * 10);
          let result := result * 10 in
          assert! int_ok (result + (c - chr "0"));
          let result := result + (c - chr "0") in
          parse_loop uriString uriLength fuel (head + 1) result
        else ret (-1, head)
      else ret (result, head)
  end.

Definition prv_parseNumber (uriString : list Z) (uriLength head : Z) : C (Z * Z) :=
  c ← rd uriString head;
  if c =? chr "/" then ret (-1, head)
  else parse_loop uriString uriLength (S (Z.to_nat (uriLength - head))) head 0.

Definition uri_getNumber (uriString : list Z) (uriLength : Z) : C Z :=
  '(n, _) ← prv_parseNumber uriString uriLength 0; ret n.

(** ** Uri-Path options *)

Inductive lwm2m_request_type_t :=
  | LWM2M_REQUEST_TYPE_UNKNOWN
  | LWM2M_REQUEST_TYPE_DM
  | LWM2M_REQUEST_TYPE_REGISTRATION
  | LWM2M_REQUEST_TYPE_BOOTSTRAP
  | LWM2M_REQUEST_TYPE_DELETE_ALL
  | LWM2M_REQUEST_TYPE_SEND.

Definition COAP_DELETE : Z := 4.

Definition URI_REGISTRATION_SEGMENT : list Z := str "rd".
Definition URI_BOOTSTRAP_SEGMENT : list Z := str "bs".
Definition URI_SEND_SEGMENT : list Z := str "dp".

(** [NULL != uriPath && LEN == uriPath->len && 0 == strncmp(SEGMENT, ...)] *)
Definition is_segment (segment : list Z) (uriPath : list (list Z)) : bool :=
  match uriPath with [] => false | s :: _ => bool_decide (s = segment) end.

(** The comparison of the first segment with [altPath + 1]; [altPath] is an
    array of [char], signed. *)
Fixpoint altPath_matches (data altPath : list Z) (n : nat) (i : Z) : C bool :=
  match n with
  | O => ret true
  | S n =>
      d ← rd data i;
      a ← rd altPath (i + 1);
      if d =? s8 a then altPath_matches data altPath n (i + 1) else ret false
  end.

Definition uri_error : lwm2m_request_type_t * lwm2m_uri_t :=
  (LWM2M_REQUEST_TYPE_UNKNOWN, LWM2M_URI_RESET).

(** [readNum < 0 || readNum >= LWM2M_MAX_ID] *)
Definition bad_id (readNum : Z) : bool := (readNum <? 0) || (LWM2M_MAX_ID <=? readNum).

(** From "Read resource instance ID" on; [uriPath] is the list after the
    resource segment. *)
Definition decode_resourceInstance (requestType : lwm2m_request_type_t) (uriP : lwm2m_uri_t)
    (uriPath : list (list Z)) : C (lwm2m_request_type_t * lwm2m_uri_t) :=
  match uriPath with
  | [] => ret (requestType, uriP)
  | data :: next =>
      r ← (if negb (len data =? 0) then
             if negb (LWM2M_URI_IS_SET_RESOURCE uriP) then ret None
             else
               readNum ← uri_getNumber data (len data);
               if bad_id readNum then ret None
               else ret (Some (mk_uri (objectId uriP) (instanceId uriP) (resourceId uriP) (u16 readNum)))
           else ret (Some uriP));
      match r with
      | None => ret uri_error
      | Some uriP => match next with [] => ret (requestType, uriP) | _ => ret uri_error end
      end
  end.

(** From "Read resource ID" on. *)
Definition decode_resource (requestType : lwm2m_request_type_t) (uriP : lwm2m_uri_t)
    (uriPath : list (list Z)) : C (lwm2m_request_type_t * lwm2m_uri_t) :=
  match uriPath with
  | [] => ret (requestType, uriP)
  | data :: next =>
      r ← (if negb (len data =? 0) then
             if negb (LWM2M_URI_IS_SET_INSTANCE uriP) then ret None
             else
               readNum ← uri_getNumber data (len data);
               if bad_id readNum then ret None
               else ret (Some (mk_uri (objectId uriP) (instanceId uriP) (u16 readNum)
                                 (resourceInstanceId uriP)))
           else ret (Some uriP));
      match r with
      | None => ret uri_error
      | Some uriP => decode_resourceInstance requestType uriP next
      end
  end.

(** From "Read object instance" on. *)
Definition decode_instance (requestType : lwm2m_request_type_t) (uriP : lwm2m_uri_t)
    (uriPath : list (list Z)) : C (lwm2m_request_type_t * lwm2m_uri_t) :=
  match uriPath with
  | [] => ret (requestType, uriP)
  | data :: next =>
      r ← (if negb (len data =? 0) then
             readNum ← uri_getNumber data (len data);
             if bad_id readNum then ret None
             else ret (Some (mk_uri (objectId uriP) (u16 readNum) (resourceId uriP)
                               (resourceInstanceId uriP)))
           else ret (Some uriP));
      match r with
      | None => ret uri_error
      | Some uriP => decode_resource requestType uriP next
      end
  end.

(** From the first [uri_getNumber] on; [uriPath] is not null there. *)
Definition decode_object (requestType : lwm2m_request_type_t) (uriPath : list (list Z))
    : C (lwm2m_request_type_t * lwm2m_uri_t) :=
  match uriPath with
  | [] => None
  | data :: next =>
      readNum ← uri_getNumber data (len data);
      if bad_id readNum then ret uri_error
      else
        let uriP := mk_uri (u16 readNum) LWM2M_MAX_ID LWM2M_MAX_ID LWM2M_MAX_ID in
        match requestType with
        | LWM2M_REQUEST_TYPE_REGISTRATION =>
            match next with [] => ret (requestType, uriP) | _ => ret uri_error end
        | _ => decode_instance requestType uriP next
        end
  end.

(** "Read altPath if any": the rest of the path, or [None] for the early return. *)
Definition strip_altPath (altPath : option (list Z)) (uriPath : list (list Z))
    : C (option (list (list Z))) :=
  match altPath with
  | None => ret (Some uriPath)
  | Some altPath =>
      match uriPath with
      | [] => ret None
      | data :: next =>
          ok ← altPath_matches data altPath (length data) 0;
          ret (if (ok : bool) then Some next else None)
      end
  end.

(** The request type and [*uriP].  A path is the list of the data of its
    options; reading past the end of a segment is outside the model. *)
Definition uri_decode (altPath : option (list Z)) (uriPath : list (list Z)) (code : Z)
    : C (lwm2m_request_type_t * lwm2m_uri_t) :=
  if is_segment URI_REGISTRATION_SEGMENT uriPath then
    match tail uriPath with
    | [] => ret (LWM2M_REQUEST_TYPE_REGISTRATION, LWM2M_URI_RESET)
    | uriPath => decode_object LWM2M_REQUEST_TYPE_REGISTRATION uriPath
    end
  else if is_segment URI_BOOTSTRAP_SEGMENT uriPath then
    match tail uriPath with
    | [] => ret (LWM2M_REQUEST_TYPE_BOOTSTRAP, LWM2M_URI_RESET)
    | _ => ret uri_error
    end
  else if is_segment URI_SEND_SEGMENT uriPath then
    match tail uriPath with
    | [] => ret (LWM2M_REQUEST_TYPE_SEND, LWM2M_URI_RESET)
    | _ => ret uri_error
    end
  else
    r ← strip_altPath altPath uriPath;
    match r with
    | None => ret (LWM2M_REQUEST_TYPE_UNKNOWN, LWM2M_URI_RESET)
    | Some uriPath =>
        if match uriPath with [] => true | data :: _ => len data =? 0 end then
          if code =? COAP_DELETE then ret (LWM2M_REQUEST_TYPE_DELETE_ALL, LWM2M_URI_RESET)
          else ret (LWM2M_REQUEST_TYPE_DM, LWM2M_URI_RESET)
        else decode_object LWM2M_REQUEST_TYPE_DM uriPath
    end.

(** ** URI texts *)

(** [isspace] in the "C" locale. *)
Definition isspace (c : Z) : bool := (c =? chr " ") || ((9 <=? c) && (c <=? 13)).

Fixpoint skip_spaces (buffer : list Z) (n : nat) (head : Z) : C Z :=
  match n with
  | O => ret head
  | S n =>
      c ← rd buffer head;
      if isspace (Z.land c 0xFF) then skip_spaces buffer n (head + 1) else ret head
  end.

(** [if (head < buffer_len && buffer[head] == '/') head += 1;] *)
Definition skip_slash (buffer : list Z) (buffer_len head : Z) : C Z :=
  if head <? buffer_len then
    c ← rd buffer head; if c =? chr "/" then ret (head + 1) else ret head
  else ret head.

(** Parse one identifier at [head]; [None] in the result is [return 0]. *)
Definition string_id (buffer : list Z) (buffer_len head : Z) : C (option (Z * Z)) :=
  '(readNum, head) ← prv_parseNumber buffer buffer_len head;
  if bad_id readNum then ret None else ret (Some (u16 readNum, head)).

(** The result and [*uriP] (which keeps what was set before an error). *)
Definition lwm2m_stringToUri (buffer : option (list Z)) (buffer_len : Z) : C (Z * lwm2m_uri_t) :=
  let uriP := LWM2M_URI_RESET in
  match buffer with
  | None => ret (0, uriP)
  | Some buffer =>
    if buffer_len =? 0 then ret (0, uriP) else
    head ← skip_spaces buffer (Z.to_nat buffer_len) 0;
    if head =? buffer_len then ret (0, uriP) else
    c ← rd buffer head;
    if negb (c =? chr "/") then ret (0, uriP) else
    let head := head + 1 in
    if negb (head <? buffer_len) then ret (s32 head, uriP) else
    r ← string_id buffer buffer_len head;
    match r with
    | None => ret (0, uriP)
    | Some (o, head) =>
      let uriP := mk_uri o LWM2M_MAX_ID LWM2M_MAX_ID LWM2M_MAX_ID in
      head ← skip_slash buffer buffer_len head;
      if negb (head <? buffer_len) then ret (s32 head, uriP) else
      r ← string_id buffer buffer_len head;
      match r with
      | None => ret (0, uriP)
      | Some (i, head) =>
        let uriP := mk_uri o i LWM2M_MAX_ID LWM2M_MAX_ID in
        head ← skip_slash buffer buffer_len head;
        if negb (head <? buffer_len) then ret (s32 head, uriP) else
        r ← string_id buffer buffer_len head;
        match r with
        | None => ret (0, uriP)
        | Some (rs, head) =>
          let uriP := mk_uri o i rs LWM2M_MAX_ID in
          head ← skip_slash buffer buffer_len head;
          r ← (if head <? buffer_len then
                 r ← string_id buffer buffer_len head;
                 match r with
                 | None => ret None
                 | Some (ri, head) => ret (Some (mk_uri o i rs ri, head))
                 end
               else ret (Some (uriP, head)));
          match r with
          | None => ret (0, uriP)
          | Some (uriP, head) =>
            if negb (head =? buffer_len) then ret (0, uriP) else ret (s32 head, uriP)
          end
        end
      end
    end
  end.

Definition URI_MAX_STRING_LEN : Z := 24.

(** One ['/'] and identifier of [lwm2m_uriToString]: the buffer, and the new
    head or [None] for [return -1]. *)
Definition string_segment (id : Z) (buffer : list Z) (bufferLen head : Z)
    : C (list Z * option Z) :=
  if u64 (bufferLen - 1) <=? head then ret (buffer, None)
  else
    buffer ← wr buffer head (chr "/");
    let head := head + 1 in
    '(res, tail) ← utils_intToText id (drop (Z.to_nat head) buffer) (bufferLen - head);
    let buffer := take (Z.to_nat head) buffer ++ tail in
    let res := s32 res in
    if res <=? 0 then ret (buffer, None) else ret (buffer, Some (head + res)).

(** The result, the buffer, and [*depthP] when it is written. *)
Definition lwm2m_uriToString (uriP : option lwm2m_uri_t) (buffer : list Z) (bufferLen : Z)
    : C (Z * list Z * option uri_depth_t) :=
  match uriP with
  | None => ret (0, buffer, Some URI_DEPTH_NONE)
  | Some u =>
    if LWM2M_URI_IS_SET_OBJECT u then
      '(buffer, r) ← string_segment (objectId u) buffer bufferLen 0;
      match r with
      | None => ret (-1, buffer, None)
      | Some head =>
        if LWM2M_URI_IS_SET_INSTANCE u then
          '(buffer, r) ← string_segment (instanceId u) buffer bufferLen head;
          match r with
          | None => ret (-1, buffer, None)
          | Some head =>
            if LWM2M_URI_IS_SET_RESOURCE u then
              '(buffer, r) ← string_segment (resourceId u) buffer bufferLen head;
              match r with
              | None => ret (-1, buffer, None)
              | Some head =>
                if LWM2M_URI_IS_SET_RESOURCE_INSTANCE u then
                  '(buffer, r) ← string_segment (resourceInstanceId u) buffer bufferLen head;
                  match r with
                  | None => ret (-1, buffer, None)
                  | Some head => ret (s32 head, buffer, Some URI_DEPTH_RESOURCE_INSTANCE)
                  end
                else ret (s32 head, buffer, Some URI_DEPTH_RESOURCE)
              end
            else ret (s32 head, buffer, Some URI_DEPTH_OBJECT_INSTANCE)
          end
        else ret (s32 head, buffer, Some URI_DEPTH_OBJECT)
      end
    else
      if u64 (bufferLen - 1) <=? 0 then ret (-1, buffer, None)
      else
        buffer ← wr buffer 0 (chr "/");
        ret (1, buffer, Some URI_DEPTH_NONE)
  end.

Definition uri_logging_to_string (uri : option lwm2m_uri_t) : C (list Z) :=
  let uri_string := replicate (Z.to_nat (URI_MAX_STRING_LEN + 1)) 0 in
  uri_string ←
    (match uri with
     | None => ret uri_string
     | Some _ => '(_, s, _) ← lwm2m_uriToString uri uri_string URI_MAX_STRING_LEN; ret s
     end);
  wr uri_string URI_MAX_STRING_LEN 0.

Example uriToString_1 :
  lwm2m_uriToString (Some (mk_uri 3 0 9 65535)) (replicate 10 0) 10 =
  Some (6, str "/3/0/9" ++ [0; 0; 0; chr "9"], Some URI_DEPTH_RESOURCE).
Proof. by vm_compute. Qed.

Example stringToUri_1 :
  lwm2m_stringToUri (Some (str " /3/0/9")) 7 = Some (7, mk_uri 3 0 9 65535).
Proof. by vm_compute. Qed.

(** ** Reference language *)

(** The text of an identifier: at least one digit, value below 65535. *)
Definition id_text (seg : list Z) : Prop :=
  seg <> [] /\ Forall (fun c => is_digit c = true) seg /\ digits_val seg < LWM2M_MAX_ID.

(** What may follow a ['/'] when at most [k] identifiers can still come: a
    ['/'] after an identifier may be the last character unless it comes after
    the fourth one. *)
Inductive uri_tail : nat -> list Z -> list (list Z) -> Prop :=
  | tail_end k : uri_tail k [] []
  | tail_last k seg : id_text seg -> uri_tail (S k) seg [seg]
  | tail_more k seg rest segs :
      id_text seg -> uri_tail (S k) rest segs ->
      uri_tail (S (S k)) (seg ++ chr "/" :: rest) (seg :: segs).

Definition uri_of (ids : list Z) : lwm2m_uri_t :=
  let nth := fun n => default LWM2M_MAX_ID (ids !! n) in
  mk_uri (nth 0%nat) (nth 1%nat) (nth 2%nat) (nth 3%nat).

(** The language [lwm2m_stringToUri] accepts. *)
Definition grammar (b : list Z) (segs : list (list Z)) : Prop :=
  exists ws rest, b = ws ++ chr "/" :: rest /\
    Forall (fun c => is_byte c /\ isspace c = true) ws /\ uri_tail 4 rest segs.

(** No number in the text exceeds the range of [int]. *)
Definition no_int_overflow (b : list Z) : Prop :=
  forall p ds q, b = p ++ ds ++ q -> Forall (fun c => is_digit c = true) ds ->
    digits_val ds <= INT_MAX.

(** ** Numbers *)

Lemma is_digit_slash c : is_digit c = true -> (c =? chr "/") = false.
Proof. unfold is_digit. clia. Qed.

Lemma digits_val_snoc ds c : digits_val (ds ++ [c]) = 10 * digits_val ds + (c - chr "0").
Proof. unfold digits_val, digits_val_from. by rewrite fold_left_app. Qed.

Lemma digits_val_nonneg ds : Forall (fun c => is_digit c = true) ds -> 0 <= digits_val ds.
Proof. intros. by apply digits_val_from_ge. Qed.

(** Where a number ends: at the end of the text or before a ['/']. *)
Definition ends (post : list Z) : Prop := post = [] \/ exists post', post = chr "/" :: post'.

Lemma parse_loop_ok pre ds0 ds post fuel :
  Forall (fun c => is_digit c = true) (ds0 ++ ds) -> digits_val (ds0 ++ ds) <= INT_MAX ->
  ends post -> (length ds < fuel)%nat ->
  parse_loop (pre ++ ds ++ post) (len (pre ++ ds ++ post)) fuel (len pre) (digits_val ds0) =
    Some (digits_val (ds0 ++ ds), len pre + len ds).
Proof.
  intros Hd Hv Hp. revert pre ds0 fuel Hd Hv.
  induction ds as [|c ds IH]; intros pre ds0 fuel Hd Hv Hf; (destruct fuel as [|fuel]; [lia|]);
    cbn [parse_loop app].
  - rewrite app_nil_r. destruct Hp as [->|[post' ->]].
    + guards. feq.
    + guards. rewrite rd_middle by done. mstep. rewrite Z.eqb_refl. feq.
  - guards. rewrite rd_middle by done. mstep.
    replace (ds0 ++ c :: ds) with ((ds0 ++ [c]) ++ ds) in * by (by apps).
    pose proof Hd as [Hc Hds]%Forall_app. apply Forall_app in Hc as [Hd0 Hc].
    apply Forall_cons in Hc as [Hc _]. rewrite is_digit_slash by done.
    unfold is_digit in Hc. rewrite Hc.
    assert (0 <= digits_val ds0) by by apply digits_val_nonneg.
    assert (digits_val (ds0 ++ [c]) <= INT_MAX) as Hv1.
    { etransitivity; [|exact Hv]. unfold digits_val at 2. rewrite digits_val_from_app.
      apply digits_val_from_ge; [|done]. fold (digits_val (ds0 ++ [c])).
      rewrite digits_val_snoc. clia. }
    rewrite digits_val_snoc in Hv1. unfold INT_MAX, int_ok in *.
    guards. cbn [length] in Hf.
    specialize (IH (pre ++ [c]) (ds0 ++ [c]) fuel Hd Hv ltac:(lia)).
    rewrite digits_val_snoc in IH. rewrite (app_cons_assoc pre).
    replace (digits_val ds0 * 10 + (c - chr "0")) with (10 * digits_val ds0 + (c - chr "0")) by lia.
    replace (len pre + 1) with (len (pre ++ [c])) by lens. rewrite IH. feq.
Qed.

Lemma parseNumber_ok pre seg post :
  id_text seg -> ends post ->
  prv_parseNumber (pre ++ seg ++ post) (len (pre ++ seg ++ post)) (len pre) =
    Some (digits_val seg, len pre + len seg).
Proof.
  intros (Hn & Hd & Hv) Hp. unfold prv_parseNumber.
  destruct seg as [|c seg]; [done|]. cbn [app]. rewrite rd_middle by done. mstep.
  pose proof Hd as [Hc _]%Forall_cons. rewrite is_digit_slash by done.
  pose proof (parse_loop_ok pre [] (c :: seg) post
    (S (Z.to_nat (len (pre ++ c :: seg ++ post) - len pre))) Hd) as Hl.
  cbn [app] in Hl. change (digits_val []) with 0 in Hl.
  apply Hl; [unfold LWM2M_MAX_ID, INT_MAX in *; lia|done|lens].
Qed.

Lemma string_id_ok pre seg post :
  id_text seg -> ends post ->
  string_id (pre ++ seg ++ post) (len (pre ++ seg ++ post)) (len pre) =
    Some (Some (digits_val seg, len pre + len seg)).
Proof.
  intros Hs Hp. unfold string_id. rewrite parseNumber_ok by done. mstep.
  destruct Hs as (_ & Hd%digits_val_nonneg & Hv).
  unfold bad_id, LWM2M_MAX_ID in *. guards. by rewrite wrap_small by lia.
Qed.

Lemma uri_getNumber_ok seg : id_text seg -> uri_getNumber seg (len seg) = Some (digits_val seg).
Proof.
  intros Hs. unfold uri_getNumber.
  pose proof (parseNumber_ok [] seg [] Hs (or_introl eq_refl)) as H.
  cbn [app length] in H. rewrite app_nil_r in H. change (Z.of_nat 0) with 0 in H. by rewrite H.
Qed.

Lemma parse_loop_sound pre ds0 rest fuel :
  no_int_overflow (pre ++ ds0 ++ rest) -> Forall (fun c => is_digit c = true) ds0 ->
  (length rest < fuel)%nat ->
  exists n h, parse_loop (pre ++ ds0 ++ rest) (len (pre ++ ds0 ++ rest)) fuel (len (pre ++ ds0))
      (digits_val ds0) = Some (n, h) /\
    (n = -1 \/ exists ds post, rest = ds ++ post /\ Forall (fun c => is_digit c = true) ds /\
       n = digits_val (ds0 ++ ds) /\ h = len (pre ++ ds0 ++ ds) /\ ends post).
Proof.
  revert ds0 fuel. induction rest as [|c rest IH]; intros ds0 fuel Ho Hd Hf;
    (destruct fuel as [|fuel]; [lia|]); cbn [parse_loop].
  - rewrite app_nil_r. guards. eexists _, _. split; [done|]. right. exists [], [].
    rewrite !app_nil_r. by split_and!; [..|left].
  - guards. rewrite (app_assoc pre ds0), rd_middle by done. mstep. destruct (c =? chr "/") eqn:Es.
    { eexists _, _. split; [done|]. right. exists [], (c :: rest). rewrite !app_nil_r.
      split_and!; [done..|]. right. exists rest. f_equal. lia. }
    destruct ((chr "0" <=? c) && (c <=? chr "9")) eqn:Ec; [|eexists _, _; by split; [|left]].
    assert (Forall (fun c => is_digit c = true) (ds0 ++ [c])) as Hd'
      by (apply Forall_app_2; [done|by repeat constructor]).
    pose proof (Ho pre (ds0 ++ [c]) rest ltac:(by apps) Hd') as Hv.
    pose proof (digits_val_nonneg ds0 Hd). rewrite digits_val_snoc in Hv.
    unfold INT_MAX, int_ok in *. guards.
    specialize (IH (ds0 ++ [c]) fuel). rewrite digits_val_snoc in IH.
    destruct IH as (n & h & Hl & Hr); [by apps|done|cbn in Hf; lia|].
    exists n, h. split.
    + rewrite <- Hl. apps. f_equal; [lens|lia].
    + destruct Hr as [?|(ds & post & -> & Hds & -> & -> & Hp)]; [by left|right].
      exists (c :: ds), post. repeat (rewrite <- app_assoc; cbn [app]).
      split_and!; [done| |done|done|done]. constructor; [exact Ec|done].
Qed.

Lemma string_id_sound pre rest :
  no_int_overflow (pre ++ rest) -> rest <> [] ->
  exists r, string_id (pre ++ rest) (len (pre ++ rest)) (len pre) = Some r /\
    match r with
    | None => True
    | Some (n, h) => exists seg post, rest = seg ++ post /\ id_text seg /\ n = digits_val seg /\
        h = len pre + len seg /\ ends post
    end.
Proof.
  intros Ho Hr. destruct rest as [|c rest]; [done|].
  unfold string_id, prv_parseNumber. rewrite rd_middle by done. mstep.
  destruct (c =? chr "/") eqn:Es; mstep; [by exists None|].
  pose proof (parse_loop_sound pre [] (c :: rest)
    (S (Z.to_nat (len (pre ++ c :: rest) - len pre))) Ho) as Hl. cbn [app] in Hl.
  change (digits_val []) with 0 in Hl. rewrite app_nil_r in Hl.
  destruct Hl as (n & h & -> & Hc); [done|lens|]. mstep. unfold bad_id.
  destruct ((n <? 0) || (LWM2M_MAX_ID <=? n)) eqn:Eb; [by eexists|]. eexists. split; [done|].
  destruct Hc as [->|(ds & post & Hds & Hd & -> & -> & Hp)]; [lia|].
  exists ds, post. unfold id_text, LWM2M_MAX_ID in *. rewrite wrap_small by lia.
  split_and!; [done| |done|lia|done|lens|done]. intros ->. cbn [app] in Hds.
  destruct Hp as [->|[post' ->]]; simplify_eq; lia.
Qed.

Lemma skip_slash_ends pre post :
  ends post -> exists rest, post = [] /\
      skip_slash (pre ++ post) (len (pre ++ post)) (len pre) = Some (len pre) \/
    post = chr "/" :: rest /\
      skip_slash (pre ++ post) (len (pre ++ post)) (len pre) = Some (len (pre ++ [chr "/"])).
Proof.
  unfold skip_slash. intros [->|[post' ->]].
  - exists []. left. by guards.
  - exists post'. right. guards. rewrite rd_middle by done. mstep. rewrite Z.eqb_refl.
    split; [done|]. f_equal. lens.
Qed.

Lemma skip_spaces_ok ws post pre :
  Forall (fun c => is_byte c /\ isspace c = true) ws -> bytes post ->
  (match post with [] => True | c :: _ => isspace c = false end) ->
  skip_spaces (pre ++ ws ++ post) (length (ws ++ post)) (len pre) = Some (len pre + len ws).
Proof.
  intros Hw Hb Hp. revert pre. induction Hw as [|c ws Hc Hw IH]; intros pre.
  - cbn [app length]. destruct post as [|c post]; cbn [skip_spaces length]; [feq|].
    rewrite rd_middle by done. mstep. apply Forall_cons in Hb as [Hb _]. unfold is_byte in Hb.
    rewrite land_255, Z.mod_small by lia. rewrite Hp. feq.
  - cbn [skip_spaces length app]. rewrite rd_middle by done. mstep. destruct Hc as [Hc1 Hc2].
    unfold is_byte in Hc1. rewrite land_255, Z.mod_small, Hc2 by lia.
    rewrite app_cons_assoc. replace (len pre + 1) with (len (pre ++ [c])) by lens.
    rewrite IH. feq.
Qed.

(** Every text is a run of white space and what follows it. *)
Lemma spaces_split b :
  bytes b -> exists ws post, b = ws ++ post /\
    Forall (fun c => is_byte c /\ isspace c = true) ws /\ bytes post /\
    match post with [] => True | c :: _ => isspace c = false end.
Proof.
  induction 1 as [|c b Hc Hb IH]; [by exists [], []|].
  destruct (isspace c) eqn:E.
  - destruct IH as (ws & post & -> & Hw & Hp & He). exists (c :: ws), post. auto.
  - exists [], (c :: b). split_and!; auto.
Qed.

(** One level of [lwm2m_stringToUri]: an identifier and the ['/'] after it. *)
Lemma string_id_level b pre rest :
  no_int_overflow b -> b = pre ++ rest -> len pre < len b ->
  exists r, string_id b (len b) (len pre) = Some r /\
    match r with
    | None => True
    | Some (n, h) => exists seg, id_text seg /\ n = digits_val seg /\
        (rest = seg /\ h = len b /\ skip_slash b (len b) h = Some (len b) \/
         exists pre' rest', rest = seg ++ chr "/" :: rest' /\ b = pre' ++ rest' /\
           h + 1 = len pre' /\ skip_slash b (len b) h = Some (len pre'))
    end.
Proof.
  intros Ho -> Hr.
  destruct (string_id_sound pre rest Ho) as (r & Hs & H); [by intros ->; rewrite app_nil_r in Hr; lia|].
  exists r. split; [done|].
  destruct r as [[n h]|]; [|done]. destruct H as (seg & post & -> & Hseg & -> & -> & Hp).
  exists seg. split; [done|]. split; [done|].
  replace (len pre + len seg) with (len (pre ++ seg)) by lens. rewrite app_assoc.
  destruct (skip_slash_ends (pre ++ seg) post Hp) as (rest & [[-> Hk]|[-> Hk]]); [left|right].
  - by rewrite !app_nil_r in *.
  - exists ((pre ++ seg) ++ [chr "/"]), rest. split; [done|]. split; [by apps|]. by split; [lens|].
Qed.

Ltac level b pre rest Ho Hb seg' pre' rest' Hb' :=
  let n := fresh "n" in let h := fresh "h" in let Hs := fresh in let Hk := fresh in let H := fresh in
  destruct (string_id_level b pre rest Ho Hb) as ([[n h]|] & Hs & H); [lia| |];
  rewrite Hs; mstep; [|by eauto];
  destruct H as (seg' & ? & -> & [(-> & -> & Hk)|(pre' & rest' & -> & Hb' & ? & Hk)]);
  rewrite Hk; mstep; clear Hs Hk.

Lemma at_end_nil (b pre rest : list Z) :
  b = pre ++ rest -> len b <= len pre -> rest = [] /\ len pre = len b.
Proof. intros -> H. destruct rest; lens || (rewrite app_nil_r; done). Qed.

Ltac at_end b pre rest E Hb :=
  destruct (Z.ltb_spec (len pre) (len b)) as [E|E]; cycle 1;
  [destruct (at_end_nil _ _ _ Hb E) as [-> ->]|]; mstep.

Lemma stringToUri_sound b :
  bytes b -> 0 < len b <= INT_MAX -> no_int_overflow b ->
  exists r u, lwm2m_stringToUri (Some b) (len b) = Some (r, u) /\
    (r = 0 \/ r = len b /\ exists segs, grammar b segs /\ u = uri_of (map digits_val segs)).
Proof.
  intros Hb Hl Ho. unfold lwm2m_stringToUri, INT_MAX in *. guards.
  destruct (spaces_split b Hb) as (ws & post & Hbs & Hw & Hpb & Hp). rewrite Nat2Z.id.
  pose proof (skip_spaces_ok ws post [] Hw Hpb Hp) as Hk. cbn [app length] in Hk.
  change (Z.of_nat 0) with 0 in Hk. rewrite <- Hbs in Hk. rewrite Hk. mstep. rewrite Z.add_0_l.
  destruct post as [|c post].
  { subst b. rewrite app_nil_r. guards. eauto. }
  assert (len ws < len b) by (subst b; lens). guards.
  assert (rd b (len ws) = Some c) as -> by (rewrite Hbs; by apply rd_middle). mstep.
  destruct (c =? chr "/") eqn:Es; mstep; [|by eauto]. assert (c = chr "/") as -> by lia.
  assert (forall segs, uri_tail 4 post segs -> grammar b segs) as Hg by (exists ws, post; auto).
  rewrite (app_cons_assoc ws) in Hbs.
  replace (len ws + 1) with (len (ws ++ [chr "/"])) by lens.
  generalize dependent (ws ++ [chr "/"]). intros pre Hbs.
  assert (forall segs u, uri_tail 4 post segs -> u = uri_of (map digits_val segs) ->
    exists r u', Some (s32 (len b), u) = Some (r, u') /\
    (r = 0 \/ r = len b /\ exists segs, grammar b segs /\ u' = uri_of (map digits_val segs))) as Hok.
  { intros segs u Ht ->. eexists _, _. split; [done|]. rewrite swrap_small by (cbn; lia).
    right. split; [done|]. eauto. }
  clear Hg Hk.
  at_end b pre post E1 Hbs; [exact (Hok [] _ (tail_end _) eq_refl)|].
  level b pre post Ho Hbs seg1 pre1 rest1 Hb1; [guards; eapply Hok; [by eauto 8 using uri_tail|done]|].
  at_end b pre1 rest1 E2 Hb1; [eapply Hok; [by eauto 8 using uri_tail|done]|].
  level b pre1 rest1 Ho Hb1 seg2 pre2 rest2 Hb2; [guards; eapply Hok; [by eauto 8 using uri_tail|done]|].
  at_end b pre2 rest2 E3 Hb2; [eapply Hok; [by eauto 8 using uri_tail|done]|].
  level b pre2 rest2 Ho Hb2 seg3 pre3 rest3 Hb3.
  { guards. mstep. guards. eapply Hok; [by eauto 8 using uri_tail|done]. }
  at_end b pre3 rest3 E4 Hb3; [guards; eapply Hok; [by eauto 8 using uri_tail|done]|].
  guards.
  destruct (string_id_level b pre3 rest3 Ho Hb3) as ([[n4 h4]|] & Hs & Hr4); [lia| |];
    rewrite Hs; mstep; [|by eauto].
  destruct Hr4 as (seg4 & ? & -> & [(-> & -> & Hk)|(pre4 & rest4 & -> & Hb4 & ? & Hk)]); mstep.
  - guards. eapply Hok; [by eauto 8 using uri_tail|done].
  - destruct (h4 =? len b) eqn:E5; mstep; [|by eauto]. exfalso. apply (f_equal length) in Hb4. lens.
Qed.

Lemma string_id_level_ok b pre rest k segs :
  b = pre ++ rest -> len pre < len b -> uri_tail (S k) rest segs ->
  exists seg h, string_id b (len b) (len pre) = Some (Some (digits_val seg, h)) /\
    (segs = [seg] /\ h = len b /\ skip_slash b (len b) h = Some (len b) \/
     exists pre' rest' segs' k', k = S k' /\ segs = seg :: segs' /\ b = pre' ++ rest' /\
       uri_tail k rest' segs' /\ skip_slash b (len b) h = Some (len pre')).
Proof.
  intros -> Hl Ht. inversion Ht as [k0|k0 seg Hseg|k0 seg rest' segs' Hseg Ht']; subst.
  - rewrite app_nil_r in Hl. lia.
  - exists rest, (len (pre ++ rest)).
    pose proof (string_id_ok pre rest [] Hseg (or_introl eq_refl)) as H. rewrite app_nil_r in H.
    rewrite H. split; [feq|]. left. split_and!; [done..|]. unfold skip_slash. by guards.
  - exists seg, (len (pre ++ seg)). rewrite string_id_ok by (done || right; eauto).
    split; [feq|]. right. exists ((pre ++ seg) ++ [chr "/"]), rest', segs', k0.
    rewrite (app_assoc pre). split_and!; [done|done|by apps|done|].
    destruct (skip_slash_ends (pre ++ seg) (chr "/" :: rest')) as (? & [[]|[_ Hk]]);
      [right; eauto|done|]. rewrite Hk. feq.
Qed.

Ltac level_ok b pre rest k Hb Ht seg pre' rest' Hb' Ht' :=
  let h := fresh "h" in let Hs := fresh in let Hk := fresh in
  destruct (string_id_level_ok b pre rest k _ Hb ltac:(lia) Ht)
    as (seg & h & Hs & [(-> & -> & Hk)|(pre' & rest' & ? & ? & ? & -> & Hb' & Ht' & Hk)]);
  guards; rewrite Hs; mstep; try (rewrite Hk; mstep); clear Hs Hk Ht;
  try match goal with
  | H : _ = S ?k' |- _ => first [discriminate H | injection H as H; subst k']
  end.

Lemma uri_tail_nil k segs : uri_tail k [] segs -> segs = [].
Proof.
  inversion 1 as [|? ? (H1 & _)|? seg]; [done|done|]. by destruct seg.
Qed.

Lemma stringToUri_complete b segs :
  bytes b -> len b <= INT_MAX -> grammar b segs ->
  lwm2m_stringToUri (Some b) (len b) = Some (len b, uri_of (map digits_val segs)).
Proof.
  intros Hb Hl (ws & post & Hbs & Hw & Ht). unfold lwm2m_stringToUri, INT_MAX in *.
  assert (len ws < len b) by (subst b; lens). guards. rewrite Nat2Z.id.
  assert (bytes (chr "/" :: post)) as Hpb by (subst b; by apply Forall_app in Hb as [_ Hb]).
  pose proof (skip_spaces_ok ws (chr "/" :: post) [] Hw Hpb eq_refl) as Hk. cbn [app length] in Hk.
  change (Z.of_nat 0) with 0 in Hk. rewrite <- Hbs in Hk.
  replace (S (length post)) with (length (chr "/" :: post)) in Hk by done.
  replace (length (ws ++ chr "/" :: post)) with (length b) in Hk by (by subst b).
  rewrite Hk. mstep. rewrite Z.add_0_l. guards.
  assert (rd b (len ws) = Some (chr "/")) as -> by (rewrite Hbs; by apply rd_middle). mstep.
  rewrite Z.eqb_refl. cbn [negb]. rewrite (app_cons_assoc ws) in Hbs.
  replace (len ws + 1) with (len (ws ++ [chr "/"])) by lens. clear Hk.
  generalize dependent (ws ++ [chr "/"]). intros pre Hbs.
  assert (s32 (len b) = len b) as Hs32 by (rewrite swrap_small by (cbn; lia); done).
  at_end b pre post E1 Hbs; [by rewrite Hs32, (uri_tail_nil _ _ Ht)|].
  level_ok b pre post 3%nat Hbs Ht seg1 pre1 rest1 Hb1 Ht1; [guards; by rewrite Hs32|].
  at_end b pre1 rest1 E2 Hb1; [by rewrite Hs32, (uri_tail_nil _ _ Ht1)|].
  level_ok b pre1 rest1 2%nat Hb1 Ht1 seg2 pre2 rest2 Hb2 Ht2; [guards; by rewrite Hs32|].
  at_end b pre2 rest2 E3 Hb2; [by rewrite Hs32, (uri_tail_nil _ _ Ht2)|].
  level_ok b pre2 rest2 1%nat Hb2 Ht2 seg3 pre3 rest3 Hb3 Ht3; [guards; mstep; guards; by rewrite Hs32|].
  at_end b pre3 rest3 E4 Hb3; [guards; by rewrite Hs32, (uri_tail_nil _ _ Ht3)|].
  level_ok b pre3 rest3 0%nat Hb3 Ht3 seg4 pre4 rest4 Hb4 Ht4. guards. by rewrite Hs32.
Qed.


(** ** Printing *)

(** The identifiers of a URI up to the first one that is not set. *)
Definition uri_ids (u : lwm2m_uri_t) : list Z :=
  if objectId u =? LWM2M_MAX_ID then []
  else objectId u ::
    if instanceId u =? LWM2M_MAX_ID then []
    else instanceId u ::
      if resourceId u =? LWM2M_MAX_ID then []
      else resourceId u ::
        if resourceInstanceId u =? LWM2M_MAX_ID then [] else [resourceInstanceId u].

Definition uri_text (u : lwm2m_uri_t) : list Z :=
  match uri_ids u with
  | [] => [chr "/"]
  | ids => concat (map (fun n => chr "/" :: dec n) ids)
  end.

Definition uri_depth (u : lwm2m_uri_t) : uri_depth_t :=
  match uri_ids u with
  | [] => URI_DEPTH_NONE
  | [_] => URI_DEPTH_OBJECT
  | [_; _] => URI_DEPTH_OBJECT_INSTANCE
  | [_; _; _] => URI_DEPTH_RESOURCE
  | _ => URI_DEPTH_RESOURCE_INSTANCE
  end.

Definition is_id (n : Z) : Prop := 0 <= n <= LWM2M_MAX_ID.

Lemma dec_id_length n : is_id n -> 0 < len (dec n) <= 5.
Proof.
  unfold is_id, LWM2M_MAX_ID. intros. split; [apply dec_length_pos; lia|]. apply dec_length_iff; lia.
Qed.

Lemma string_segment_ok id p q bufferLen :
  is_id id -> len p + 6 <= bufferLen <= len (p ++ q) -> bufferLen <= INT_MAX ->
  exists q', string_segment id (p ++ q) bufferLen (len p) =
      Some ((p ++ chr "/" :: dec id) ++ q', Some (len (p ++ chr "/" :: dec id))) /\
    length ((p ++ chr "/" :: dec id) ++ q') = length (p ++ q).
Proof.
  intros Hid Hb Hm. pose proof (dec_id_length id Hid) as Hd.
  unfold string_segment, is_id, LWM2M_MAX_ID, INT_MAX in *.
  rewrite wrap_small by (cbn; lia). guards. rewrite wr_app by lens. mstep.
  replace (Z.to_nat (len p + 1)) with (length (p ++ [chr "/"])) by lens.
  rewrite drop_app_length, take_app_length. unfold utils_intToText. guards.
  destruct (uintToText_fits id (drop 1 q) (bufferLen - (len p + 1))) as (tail & -> & H1 & _ & _);
    [lia|unfold INT_MAX; lia|lens|]. mstep.
  rewrite swrap_small by (cbn; lia). guards. exists tail. split; [|lens].
  f_equal. f_equal; [by apps|]. f_equal. lens.
Qed.

Ltac segment id Hid q' :=
  let H := fresh in let Hl := fresh "Hl" in
  match goal with
  | |- context [string_segment id (?p ++ ?q) ?l _] =>
      destruct (string_segment_ok id p q l Hid) as (q' & H & Hl);
      [lens|unfold INT_MAX; lens|rewrite H; mstep; clear H]
  end.

Ltac text_end q :=
  exists q; cbn [map concat]; rewrite app_nil_r;
  split; [rewrite swrap_small by (cbn; lens); apps; feq|split; [lens|lens]].

Lemma uriToString_ok u buffer bufferLen :
  is_id (objectId u) -> is_id (instanceId u) -> is_id (resourceId u) -> is_id (resourceInstanceId u) ->
  URI_MAX_STRING_LEN <= bufferLen <= len buffer -> bufferLen <= INT_MAX ->
  exists q, lwm2m_uriToString (Some u) buffer bufferLen =
      Some (len (uri_text u), uri_text u ++ q, Some (uri_depth u)) /\
    length (uri_text u ++ q) = length buffer /\ len (uri_text u) <= URI_MAX_STRING_LEN.
Proof.
  intros Ho Hi Hr Hri Hb Hm.
  pose proof (dec_id_length _ Ho) as Lo. pose proof (dec_id_length _ Hi) as Li.
  pose proof (dec_id_length _ Hr) as Lr. pose proof (dec_id_length _ Hri) as Lri.
  unfold lwm2m_uriToString, uri_text, uri_depth, uri_ids, LWM2M_URI_IS_SET_OBJECT,
    LWM2M_URI_IS_SET_INSTANCE, LWM2M_URI_IS_SET_RESOURCE, LWM2M_URI_IS_SET_RESOURCE_INSTANCE,
    URI_MAX_STRING_LEN, INT_MAX in *.
  assert (forall n, 0 <= n <= 24 -> s32 n = n) as H32 by (intros; apply swrap_small; cbn; lia).
  destruct (objectId u =? LWM2M_MAX_ID); cbn [negb].
  { rewrite wrap_small by (cbn; lia). guards. change buffer with ([] ++ buffer).
    rewrite wr_app by lens. mstep. eexists. split; [done|]. lens. }
  pose proof (string_segment_ok (objectId u) [] buffer bufferLen Ho) as H0. rewrite !app_nil_l in H0.
  destruct H0 as (q0 & H0 & Hl0); [lens|unfold INT_MAX; lia|].
  change (len []) with 0 in H0. rewrite H0. mstep. clear H0.
  destruct (instanceId u =? LWM2M_MAX_ID); cbn [negb]; [text_end q0|].
  segment (instanceId u) Hi q1.
  destruct (resourceId u =? LWM2M_MAX_ID); cbn [negb]; [text_end q1|].
  segment (resourceId u) Hr q2.
  destruct (resourceInstanceId u =? LWM2M_MAX_ID); cbn [negb]; [text_end q2|].
  segment (resourceInstanceId u) Hri q3. text_end q3.
Qed.

Lemma dec_id_text n : is_id n -> n <> LWM2M_MAX_ID -> id_text (dec n).
Proof.
  intros Hn Hm. pose proof (dec_id_length n Hn) as Hl. unfold is_id, id_text, LWM2M_MAX_ID in *.
  split; [intros E; rewrite E in Hl; cbn in Hl; lia|]. split; [apply dec_digits; lia|].
  rewrite dec_val; lia.
Qed.

Definition is_uri (u : lwm2m_uri_t) : Prop :=
  is_id (objectId u) /\ is_id (instanceId u) /\ is_id (resourceId u) /\ is_id (resourceInstanceId u).

Lemma uri_ids_spec u :
  is_uri u -> Forall (fun n => is_id n /\ n <> LWM2M_MAX_ID) (uri_ids u) /\ (length (uri_ids u) <= 4)%nat.
Proof.
  intros (Ho & Hi & Hr & Hri). unfold uri_ids.
  repeat match goal with
  | |- context [?a =? LWM2M_MAX_ID] => destruct (Z.eqb_spec a LWM2M_MAX_ID)
  end; (split; [repeat (apply list.Forall_cons_2; [by split|]); apply list.Forall_nil_2|cbn; lia]).
Qed.

Lemma map_digits_dec ids :
  Forall (fun n => is_id n /\ n <> LWM2M_MAX_ID) ids -> map digits_val (map dec ids) = ids.
Proof.
  induction 1 as [|n ids [Hn _] _ IH]; [done|]. cbn. rewrite IH.
  unfold is_id in Hn. by rewrite dec_val by lia.
Qed.

(** Identifiers joined by ['/'], in the grammar. *)
Lemma uri_tail_join ids : Forall (fun n => is_id n /\ n <> LWM2M_MAX_ID) ids ->
  forall k, (length ids <= k)%nat ->
  match ids with
  | [] => True
  | n :: ids' => uri_tail k (dec n ++ concat (map (fun n => chr "/" :: dec n) ids')) (map dec ids)
  end.
Proof.
  induction 1 as [|n ids [Hn Hm] _ IH]; intros k Hk; [done|].
  destruct k as [|k]; [cbn in Hk; lia|]. destruct ids as [|m ids].
  - cbn [map concat]. rewrite app_nil_r. apply tail_last. by apply dec_id_text.
  - specialize (IH k ltac:(cbn in *; lia)). destruct k as [|k]; [cbn in Hk; lia|].
    cbn [map concat]. apply tail_more; [by apply dec_id_text|]. exact IH.
Qed.

(** URI texts round trip: for every URI, [lwm2m_uriToString] into a buffer
    of at least [URI_MAX_STRING_LEN] bytes succeeds within the buffer, reports
    the depth of the URI, and [lwm2m_stringToUri] of the text gives back the
    identifiers up to the first one that is not set, the whole URI when no
    identifier is set after one that is not. *)
Theorem uri_string_roundtrip u buffer bufferLen :
  is_uri u -> URI_MAX_STRING_LEN <= bufferLen <= len buffer -> bufferLen <= INT_MAX ->
  exists r buffer', lwm2m_uriToString (Some u) buffer bufferLen =
      Some (r, buffer', Some (uri_depth u)) /\
    0 < r <= URI_MAX_STRING_LEN /\ length buffer' = length buffer /\
    lwm2m_stringToUri (Some (slice buffer' 0 r)) r = Some (r, uri_of (uri_ids u)).
Proof.
  intros Hu Hb Hm. pose proof (uri_ids_spec u Hu) as [Hids Hlen].
  destruct (uriToString_ok u buffer bufferLen) as (q & -> & Hl & Ht); [by apply Hu..|done|done|].
  assert (0 < len (uri_text u)) as Hpos.
  { unfold uri_text. destruct (uri_ids u); cbn; lia. }
  eexists _, _. split; [done|]. split; [done|]. split; [done|]. rewrite slice_prefix by done.
  rewrite <- (map_digits_dec (uri_ids u)) by done.
  apply stringToUri_complete.
  - unfold uri_text. assert (bytes (concat (map (fun n => chr "/" :: dec n) (uri_ids u)))) as Hc.
    { clear -Hids. induction Hids as [|n ids [Hn _] _ IH]; [constructor|]. cbn [map concat].
      constructor; [apply chr_byte|]. apply Forall_app_2; [|done].
      unfold is_id in Hn. apply dec_bytes; lia. }
    destruct (uri_ids u); [|done]. repeat constructor. apply chr_byte.
  - unfold URI_MAX_STRING_LEN, INT_MAX in *. lia.
  - unfold grammar, uri_text. pose proof (uri_tail_join _ Hids 4 Hlen) as Htail.
    destruct (uri_ids u) as [|n ids]; exists [].
    + exists []. split; [done|]. split; constructor.
    + eexists. split; [reflexivity|]. split; [constructor|exact Htail].
Qed.

(** ** Paths of requests *)

Lemma getNumber_dec n :
  is_id n -> n <> LWM2M_MAX_ID -> uri_getNumber (dec n) (len (dec n)) = Some n.
Proof.
  intros Hn Hm. rewrite uri_getNumber_ok by by apply dec_id_text.
  unfold is_id in Hn. by rewrite dec_val by lia.
Qed.

Ltac get_dec n :=
  rewrite (getNumber_dec n) by done; mstep;
  replace (bad_id n) with false by (unfold bad_id, is_id, LWM2M_MAX_ID in *; lia);
  rewrite (wrap_small 16 n) by (unfold is_id, LWM2M_MAX_ID in *; cbn; lia).

Lemma decode_object_ids ids :
  Forall (fun n => is_id n /\ n <> LWM2M_MAX_ID) ids -> (0 < length ids <= 4)%nat ->
  decode_object LWM2M_REQUEST_TYPE_DM (map dec ids) = Some (LWM2M_REQUEST_TYPE_DM, uri_of ids).
Proof.
  intros Hf Hl.
  assert (forall n, is_id n -> (len (dec n) =? 0) = false) as Hne
    by (intros n Hn; pose proof (dec_id_length n Hn); lia).
  destruct ids as [|o ids]; [cbn in Hl; lia|]. apply Forall_cons in Hf as [[Ho Ho'] Hf].
  unfold decode_object. cbn [map]. get_dec o.
  destruct ids as [|i ids]; [done|]. apply Forall_cons in Hf as [[Hi Hi'] Hf].
  unfold decode_instance. cbn [map]. rewrite Hne by done. cbn [negb]. get_dec i. cbn [objectId].
  destruct ids as [|r ids]; [done|]. apply Forall_cons in Hf as [[Hr Hr'] Hf].
  unfold decode_resource. mstep. cbn [map objectId instanceId resourceId resourceInstanceId].
  rewrite Hne by done. unfold LWM2M_URI_IS_SET_INSTANCE.
  cbn [instanceId]. rewrite (proj2 (Z.eqb_neq i _)) by done. cbn [negb]. get_dec r.
  destruct ids as [|ri ids]; [done|]. apply Forall_cons in Hf as [[Hri Hri'] Hf].
  unfold decode_resourceInstance. mstep.
  cbn [map objectId instanceId resourceId resourceInstanceId]. rewrite Hne by done. unfold LWM2M_URI_IS_SET_RESOURCE.
  cbn [resourceId]. rewrite (proj2 (Z.eqb_neq r _)) by done. cbn [negb]. get_dec ri.
  destruct ids; [done|cbn in Hl; lia].
Qed.

(** A segment that starts with a digit is none of the reserved ones. *)
Lemma is_segment_digits seg path :
  seg ∈ [URI_REGISTRATION_SEGMENT; URI_BOOTSTRAP_SEGMENT; URI_SEND_SEGMENT] ->
  match path with [] => True | s :: _ => id_text s end -> is_segment seg path = false.
Proof.
  intros Hs Hp. unfold is_segment. destruct path as [|s path]; [done|].
  apply bool_decide_eq_false_2. intros ->. destruct Hp as (_ & Hd & _).
  set_unfold in Hs. destruct Hs as [->|[->|[->|[]]]]; apply Forall_cons in Hd as [Hd _];
    by vm_compute in Hd.
Qed.

Lemma altPath_matches_ok q a rest :
  Forall (fun c => 0 < c < 128) q ->
  altPath_matches q (a :: q ++ rest) (length q) 0 = Some true.
Proof.
  intros Hq. change (a :: q ++ rest) with ([a] ++ q ++ rest).
  cut (forall p l, p ++ l = q -> altPath_matches q ([a] ++ q ++ rest) (length l) (len p) = Some true).
  { intros H. exact (H [] q eq_refl). }
  intros p l. revert p. induction l as [|c l IH]; intros p Hpl; [done|]. cbn [altPath_matches length].
  rewrite <- Hpl at 1. rewrite rd_middle by done. mstep.
  replace ([a] ++ q ++ rest) with ((a :: p) ++ c :: l ++ rest) at 1 by (rewrite <- Hpl; cbn; by apps).
  rewrite rd_middle by lens. mstep.
  assert (0 < c < 128) as Hc by (rewrite <- Hpl in Hq; apply Forall_app in Hq as [_ Hq];
    by apply Forall_cons in Hq as [Hq _]).
  rewrite swrap_small by (cbn; lia). rewrite Z.eqb_refl.
  replace (len p + 1) with (len (p ++ [c])) by lens. apply IH. by apps.
Qed.

Lemma decode_path_ok u code q :
  is_uri u -> Forall (fun c => 0 < c < 128) q ->
  q ∉ [URI_REGISTRATION_SEGMENT; URI_BOOTSTRAP_SEGMENT; URI_SEND_SEGMENT] ->
  let path := map dec (uri_ids u) in
  let result := (if bool_decide (uri_ids u = []) && (code =? COAP_DELETE)
                 then LWM2M_REQUEST_TYPE_DELETE_ALL else LWM2M_REQUEST_TYPE_DM, uri_of (uri_ids u)) in
  uri_decode None path code = Some result /\
  uri_decode (Some (chr "/" :: q ++ [0])) (q :: path) code = Some result.
Proof.
  intros Hu Hq Hres path result. pose proof (uri_ids_spec u Hu) as [Hids Hlen].
  assert (forall r, r = Some path ->
    match r with
    | None => ret (LWM2M_REQUEST_TYPE_UNKNOWN, LWM2M_URI_RESET)
    | Some uriPath =>
        if match uriPath with [] => true | data :: _ => len data =? 0 end then
          if code =? COAP_DELETE then ret (LWM2M_REQUEST_TYPE_DELETE_ALL, LWM2M_URI_RESET)
          else ret (LWM2M_REQUEST_TYPE_DM, LWM2M_URI_RESET)
        else decode_object LWM2M_REQUEST_TYPE_DM uriPath
    end = Some result) as Hmain.
  { intros r ->. unfold path, result. destruct (uri_ids u) as [|n ids] eqn:E.
    - cbn [map]. cbn match. by destruct (code =? COAP_DELETE).
    - cbn [map]. apply Forall_cons in Hids as Hids'. destruct Hids' as [[Hn _] _].
      pose proof (dec_id_length n Hn). guards. apply (decode_object_ids (n :: ids)); [done|cbn in *; lia]. }
  assert (forall seg, seg ∈ [URI_REGISTRATION_SEGMENT; URI_BOOTSTRAP_SEGMENT; URI_SEND_SEGMENT] ->
    is_segment seg path = false /\ is_segment seg (q :: path) = false) as Hseg.
  { intros seg Hs. split.
    - apply is_segment_digits; [done|]. unfold path. destruct (uri_ids u) as [|n ids]; [done|].
      apply Forall_cons in Hids as [[] _]. by apply dec_id_text.
    - apply bool_decide_eq_false_2. by intros ->. }
  assert (is_segment URI_REGISTRATION_SEGMENT path = false /\
    is_segment URI_REGISTRATION_SEGMENT (q :: path) = false) as [H1 H2] by (apply Hseg; by repeat constructor).
  assert (is_segment URI_BOOTSTRAP_SEGMENT path = false /\
    is_segment URI_BOOTSTRAP_SEGMENT (q :: path) = false) as [H3 H4] by (apply Hseg; by repeat constructor).
  assert (is_segment URI_SEND_SEGMENT path = false /\
    is_segment URI_SEND_SEGMENT (q :: path) = false) as [H5 H6] by (apply Hseg; by repeat constructor).
  unfold uri_decode. rewrite H1, H2, H3, H4, H5, H6. unfold strip_altPath.
  rewrite altPath_matches_ok by done. mstep. by split; exact (Hmain _ eq_refl).
Qed.

(** A URI that names an object is found in its segments. *)
Lemma uri_path_decoded u code : is_uri u -> objectId u <> LWM2M_MAX_ID ->
  uri_decode None (map dec (uri_ids u)) code = Some (LWM2M_REQUEST_TYPE_DM, uri_of (uri_ids u)).
Proof.
  intros Hu Ho. destruct (decode_path_ok u code [] Hu (list.Forall_nil_2 _) ltac:(by apply (bool_decide_unpack _))) as [-> _].
  unfold uri_ids. by rewrite (proj2 (Z.eqb_neq _ _) Ho).
Qed.

(** The Uri-Path options a URI stands for are decoded to that URI, as a
    device management request (or as "delete all" for a Delete on the root),
    directly or below an alternative path that is not a reserved segment. *)
Theorem uri_decode_path u code q :
  is_uri u -> Forall (fun c => 0 < c < 128) q ->
  q ∉ [URI_REGISTRATION_SEGMENT; URI_BOOTSTRAP_SEGMENT; URI_SEND_SEGMENT] ->
  let path := map dec (uri_ids u) in
  let result := (if bool_decide (uri_ids u = []) && (code =? COAP_DELETE)
                 then LWM2M_REQUEST_TYPE_DELETE_ALL else LWM2M_REQUEST_TYPE_DM, uri_of (uri_ids u)) in
  uri_decode None path code = Some result /\
  uri_decode (Some (chr "/" :: q ++ [0])) (q :: path) code = Some result.
Proof. exact (decode_path_ok u code q). Qed.

(** What [uri_decode] promises of the URI it fills: identifiers are set from
    the object down, and only a device management request or a registration
    update carries any. *)
Definition decoded_ok (r : lwm2m_request_type_t * lwm2m_uri_t) : Prop :=
  let '(t, u) := r in
  is_uri u /\ u = uri_of (uri_ids u) /\
  match t with
  | LWM2M_REQUEST_TYPE_DM => True
  | LWM2M_REQUEST_TYPE_REGISTRATION => (length (uri_ids u) <= 1)%nat
  | _ => u = LWM2M_URI_RESET
  end.

(** A segment whose numbers stay in the range of [int]. *)
Definition segment_ok (s : list Z) : Prop := no_int_overflow s /\ Forall (fun c => c <> 0) s.

Lemma getNumber_total s :
  s <> [] -> no_int_overflow s -> exists n, uri_getNumber s (len s) = Some n.
Proof.
  intros Hs Ho. unfold uri_getNumber, prv_parseNumber. destruct s as [|c s]; [done|].
  rewrite rd_cons_0. mstep. destruct (c =? chr "/"); [by eexists|].
  pose proof (parse_loop_sound [] [] (c :: s) (S (Z.to_nat (len (c :: s) - 0))) Ho) as Hl.
  cbn [app] in Hl. change (digits_val []) with 0 in Hl. change (len []) with 0 in Hl.
  destruct Hl as (n & h & -> & _); [done|lens|]. by eexists.
Qed.

Ltac uri_ids_eval :=
  unfold uri_ids; cbn [objectId instanceId resourceId resourceInstanceId];
  repeat match goal with
  | |- context [?a =? LWM2M_MAX_ID] => destruct (Z.eqb_spec a LWM2M_MAX_ID)
  end; try subst; try done.

Lemma uri_of_ids o i r ri :
  (o = LWM2M_MAX_ID -> i = LWM2M_MAX_ID) -> (i = LWM2M_MAX_ID -> r = LWM2M_MAX_ID) ->
  (r = LWM2M_MAX_ID -> ri = LWM2M_MAX_ID) ->
  mk_uri o i r ri = uri_of (uri_ids (mk_uri o i r ri)).
Proof. intros Hi Hr Hri. uri_ids_eval; rewrite ?Hi, ?Hr, ?Hri by auto; auto. Qed.

(** The result of reading one identifier. *)
Lemma bad_id_false n : bad_id n = false -> is_id (u16 n) /\ u16 n <> LWM2M_MAX_ID.
Proof. unfold bad_id, is_id, LWM2M_MAX_ID. intros. rewrite wrap_small by (cbn; lia). lia. Qed.

Lemma decoded_error : decoded_ok uri_error.
Proof. by vm_compute. Qed.

Lemma is_id_max : is_id LWM2M_MAX_ID.
Proof. by vm_compute. Qed.

(** The step all three levels share: an empty segment leaves the URI as it is,
    another one is a number or an error. *)
Lemma segment_step (A : Type) data (u : A) (guard : bool) (set : Z -> A) :
  segment_ok data ->
  exists r, (if negb (len data =? 0) then
               if guard then ret None
               else readNum ← uri_getNumber data (len data);
                    if bad_id readNum then ret None else ret (Some (set (u16 readNum)))
             else ret (Some u)) = Some r /\
    match r with
    | None => True
    | Some u' => u' = u \/ exists n, guard = false /\ is_id n /\ n <> LWM2M_MAX_ID /\ u' = set n
    end.
Proof.
  intros [Ho _]. destruct data as [|c data]; [exists (Some u); auto|]. cbn [length]. guards.
  cbn [negb]. destruct guard; [by exists None|].
  destruct (getNumber_total (c :: data)) as [n Hn]; [done|done|]. cbn [length] in Hn. rewrite Hn. mstep.
  destruct (bad_id n) eqn:E; [by exists None|]. apply bad_id_false in E as [].
  eexists. split; [done|]. right. by exists (u16 n).
Qed.

Lemma decode_resourceInstance_ok o i r path :
  is_id o -> is_id i -> is_id r -> o <> LWM2M_MAX_ID -> (i = LWM2M_MAX_ID -> r = LWM2M_MAX_ID) ->
  Forall segment_ok path ->
  exists res, decode_resourceInstance LWM2M_REQUEST_TYPE_DM (mk_uri o i r LWM2M_MAX_ID) path = Some res /\
    decoded_ok res.
Proof.
  intros Ho Hi Hr Ho' Hir Hp. pose proof is_id_max as Hmax.
  unfold decode_resourceInstance, decoded_ok. destruct path as [|data next].
  { eexists. split; [done|]. split; [done|]. split; [|done]. apply uri_of_ids; auto. by intros ->. }
  apply Forall_cons in Hp as [Hd _].
  edestruct (segment_step _ data (mk_uri o i r LWM2M_MAX_ID)) as (x & -> & Hx); [done|]. mstep.
  destruct x as [u|]; [|by eexists; split; [|apply decoded_error]].
  destruct next; [|by eexists; split; [|apply decoded_error]].
  eexists. split; [done|]. destruct Hx as [->|(n & Hg & Hn & Hn' & ->)].
  - split; [done|]. split; [|done]. apply uri_of_ids; auto. by intros ->.
  - unfold LWM2M_URI_IS_SET_RESOURCE in Hg. cbn in *. split; [done|]. split; [|done].
    apply uri_of_ids; [by intros ->|auto|lia].
Qed.

Lemma decode_resource_ok o i path :
  is_id o -> is_id i -> o <> LWM2M_MAX_ID -> Forall segment_ok path ->
  exists res, decode_resource LWM2M_REQUEST_TYPE_DM (mk_uri o i LWM2M_MAX_ID LWM2M_MAX_ID) path =
    Some res /\ decoded_ok res.
Proof.
  intros Ho Hi Ho' Hp. pose proof is_id_max as Hmax.
  unfold decode_resource. destruct path as [|data next].
  { eexists. split; [done|]. split; [done|]. split; [|done]. apply uri_of_ids; auto. by intros ->. }
  apply Forall_cons in Hp as [Hd Hp].
  destruct (segment_step _ data (mk_uri o i LWM2M_MAX_ID LWM2M_MAX_ID)
    (negb (LWM2M_URI_IS_SET_INSTANCE (mk_uri o i LWM2M_MAX_ID LWM2M_MAX_ID)))
    (fun r => mk_uri o i r LWM2M_MAX_ID) Hd) as (x & Hs & Hx).
  cbn [objectId instanceId resourceInstanceId]. rewrite Hs. mstep.
  destruct x as [u|]; [|by eexists; split; [|apply decoded_error]].
  destruct Hx as [->|(n & Hg & Hn & Hn' & ->)]; apply decode_resourceInstance_ok; auto.
  intros ->. by unfold LWM2M_URI_IS_SET_INSTANCE in Hg.
Qed.

Lemma decode_object_ok t path :
  t = LWM2M_REQUEST_TYPE_DM \/ t = LWM2M_REQUEST_TYPE_REGISTRATION ->
  Forall segment_ok path -> (match path with [] => False | s :: _ => s <> [] end) ->
  exists res, decode_object t path = Some res /\ decoded_ok res.
Proof.
  intros Ht Hp Hne. pose proof is_id_max as Hmax. destruct path as [|data next]; [done|].
  apply Forall_cons in Hp as [Hd Hp]. unfold decode_object.
  destruct (getNumber_total data Hne ltac:(apply Hd)) as [n ->]. mstep.
  destruct (bad_id n) eqn:Eb; [by eexists; split; [|apply decoded_error]|].
  apply bad_id_false in Eb as [Hn Hn'].
  destruct Ht as [->| ->].
  - unfold decode_instance. destruct next as [|data' next].
    { eexists. split; [done|]. split; [done|]. split; [|done]. apply uri_of_ids; auto. }
    apply Forall_cons in Hp as [Hd' Hp].
    pose proof (segment_step _ data' (mk_uri (u16 n) LWM2M_MAX_ID LWM2M_MAX_ID LWM2M_MAX_ID) false
      (fun i => mk_uri (u16 n) i LWM2M_MAX_ID LWM2M_MAX_ID) Hd') as (x & Hx & H). cbn match in Hx.
    cbn [objectId resourceId resourceInstanceId]. rewrite Hx. mstep.
    destruct x as [u|]; [|by eexists; split; [|apply decoded_error]].
    destruct H as [->|(i & _ & Hi & Hi' & ->)]; by apply decode_resource_ok.
  - destruct next; [|by eexists; split; [|apply decoded_error]].
    eexists. split; [done|]. split; [done|].
    split; [apply uri_of_ids; auto|]. unfold uri_ids. cbn. destruct (_ =? _)%Z; cbn; lia.
Qed.

Lemma altPath_matches_total s q :
  Forall (fun c => c <> 0) s -> exists r, altPath_matches s (chr "/" :: q ++ [0]) (length s) 0 = Some r.
Proof.
  intros Hs. change (chr "/" :: q ++ [0]) with ([chr "/"] ++ q ++ [0]).
  cut (forall n p l p' q', s = p ++ l -> q = p' ++ q' -> length p = length p' -> n = length l ->
    exists r, altPath_matches s ([chr "/"] ++ q ++ [0]) n (len p) = Some r).
  { intros H. exact (H _ [] s [] q eq_refl eq_refl eq_refl eq_refl). }
  induction n as [|n IH]; intros p l p' q' Hpl Hpq Hlen Hn; [by eexists|].
  cbn [altPath_matches]. destruct l as [|c l]; [done|].
  assert (rd s (len p) = Some c) as -> by (rewrite Hpl; by apply rd_middle). mstep.
  assert (rd ([chr "/"] ++ q ++ [0]) (len p + 1) = rd ((chr "/" :: p') ++ q' ++ [0]) (len p + 1)) as ->
    by (rewrite Hpq; f_equal; cbn; by apps).
  destruct q' as [|a q'].
  - change ([] ++ [0]) with [0]. rewrite (rd_middle (chr "/" :: p') 0 [] (len p + 1)) by lens. mstep.
    assert (c <> 0) as Hc by (rewrite Hpl in Hs; apply Forall_app in Hs as [_ Hs];
      by apply Forall_cons in Hs as [Hs _]).
    rewrite (swrap_small 8 0) by (cbn; lia). guards. by eexists.
  - change ((a :: q') ++ [0]) with (a :: q' ++ [0]).
    rewrite (rd_middle (chr "/" :: p') a (q' ++ [0]) (len p + 1)) by lens. mstep.
    destruct (c =? s8 a); [|by eexists]. replace (len p + 1) with (len (p ++ [c])) by lens.
    apply (IH (p ++ [c]) l (p' ++ [a]) q'); [by apps|by apps|lens|cbn in Hn; lia].
Qed.


(** Numbers of at most nine digits are in the range of [int]. *)
Lemma digits_val_bound l :
  Forall (fun c => is_digit c = true) l -> digits_val l < 10 ^ len l.
Proof.
  induction l as [|c l IH] using rev_ind; intros Hd; [done|].
  apply Forall_app in Hd as [Hl Hc]. apply Forall_cons in Hc as [Hc _].
  rewrite digits_val_snoc, length_app. cbn [length]. rewrite Nat2Z.inj_add, Z.pow_add_r by lia.
  specialize (IH Hl). unfold is_digit in Hc. change (10 ^ Z.of_nat 1) with 10. clia.
Qed.

Lemma no_int_overflow_short b : len b <= 9 -> no_int_overflow b.
Proof.
  intros Hb p ds q -> Hd. apply digits_val_bound in Hd.
  assert (10 ^ len ds <= 10 ^ 9) by (apply Z.pow_le_mono_r; lens). unfold INT_MAX. lia.
Qed.


Lemma uri_string_roundtrip_witness :
  exists r buffer', lwm2m_uriToString (Some (mk_uri 5 0 65534 65535)) (replicate 24 0) 24 =
      Some (r, buffer', Some (uri_depth (mk_uri 5 0 65534 65535))) /\
    0 < r <= URI_MAX_STRING_LEN /\ length buffer' = length (replicate 24 0) /\
    lwm2m_stringToUri (Some (slice buffer' 0 r)) r = Some (r, uri_of (uri_ids (mk_uri 5 0 65534 65535))).
Proof.
  apply (uri_string_roundtrip (mk_uri 5 0 65534 65535) (replicate 24 0) 24); by vm_compute.
Defined.

Lemma uri_decode_path_witness :
  let u := mk_uri 5 0 3 65535 in
  let path := map dec (uri_ids u) in
  let result := (if bool_decide (uri_ids u = []) && (1 =? COAP_DELETE)
                 then LWM2M_REQUEST_TYPE_DELETE_ALL else LWM2M_REQUEST_TYPE_DM, uri_of (uri_ids u)) in
  uri_decode None path 1 = Some result /\
  uri_decode (Some (chr "/" :: str "lwm2m" ++ [0])) (str "lwm2m" :: path) 1 = Some result.
Proof.
  apply (uri_decode_path (mk_uri 5 0 3 65535) 1 (str "lwm2m"));
    [by vm_compute|by repeat constructor|by apply (bool_decide_unpack _)].
Defined.


(** The texts a comment of the header lists as invalid and the code accepts. *)
Example stringToUri_accepts :
  lwm2m_stringToUri (Some (str "/")) 1 = Some (1, LWM2M_URI_RESET) /\
  lwm2m_stringToUri (Some (str "/1/2/3/")) 7 = Some (7, mk_uri 1 2 3 65535) /\
  lwm2m_stringToUri (Some (str "/1/2/3/4")) 8 = Some (8, mk_uri 1 2 3 4).
Proof. by vm_compute. Qed.

(** A number beyond [INT_MAX] overflows the [int] accumulator, and an empty
    segment after "rd" is read past its end. *)
Example parseNumber_overflow :
  lwm2m_stringToUri (Some (str "/2147483648")) 11 = None /\
  uri_decode None [str "2147483648"] 1 = None /\
  uri_decode None [str "rd"; []] 1 = None.
Proof. by vm_compute. Qed.

(** An alternative path matches as soon as the segment is a prefix of it. *)
Example altPath_prefix :
  uri_decode (Some (str "/lwm2m" ++ [0])) [str "lw"; str "3"] 1 =
  Some (LWM2M_REQUEST_TYPE_DM, mk_uri 3 65535 65535 65535).
Proof. by vm_compute. Qed.

(** With a buffer of length 0, [bufferLen - 1] wraps around and the first write
    is out of bounds. *)
Example uriToString_empty_buffer :
  lwm2m_uriToString (Some LWM2M_URI_RESET) [] 0 = None.
Proof. by vm_compute. Qed.
End Uri.
