(* ===== verification/Float.v ===== *)
(** * IEEE 754 numbers

    A C [float] or [double] is kept as its object representation, an integer of
    32 or 64 bits.  This file converts between representations and the Standard
    Library's [spec_float], whose operations round to nearest even, and proves
    that widening a [float] to [double] and narrowing it back is the identity.
    A NaN has no payload in [spec_float]: the conversions produce the quiet NaN
    with a zero payload where the hardware may keep another one. *)
From S2P Require Import Prelude.
From Stdlib Require Import SpecFloat.

Module Float.

Section format.
(** Widths of the stored mantissa and of the exponent. *)
Variables mw ew : Z.
Definition prec : Z := mw + 1.
Definition emax : Z := 2 ^ (ew - 1).

Definition sf_of_bits (z : Z) : spec_float :=
  let s := Z.testbit z (mw + ew) in
  let e := (z / 2 ^ mw) mod 2 ^ ew in
  let m := z mod 2 ^ mw in
  if e =? 0 then
    match m with Zpos p => S754_finite s p (emin prec emax) | _ => S754_zero s end
  else if e =? 2 ^ ew - 1 then
    if m =? 0 then S754_infinity s else S754_nan
  else
    match 2 ^ mw + m with
    | Zpos p => S754_finite s p (e - 1 + emin prec emax)
    | _ => S754_nan
    end.

Definition sign_bits (s : bool) : Z := if s then 2 ^ (mw + ew) else 0.

Definition bits_of_sf (f : spec_float) : Z :=
  match f with
  | S754_zero s => sign_bits s
  | S754_infinity s => sign_bits s + (2 ^ ew - 1) * 2 ^ mw
  | S754_nan => (2 ^ ew - 1) * 2 ^ mw + 2 ^ (mw - 1)
  | S754_finite s m e =>
      sign_bits s + (if Zpos m <? 2 ^ mw then Zpos m
                     else (e - emin prec emax + 1) * 2 ^ mw + (Zpos m - 2 ^ mw))
  end.

Definition is_nan_bits (z : Z) : bool :=
  ((z / 2 ^ mw) mod 2 ^ ew =? 2 ^ ew - 1) && negb (z mod 2 ^ mw =? 0).

(** Every representation that is not a NaN is recovered. *)
Lemma bits_of_sf_of_bits z :
  1 < mw -> 1 < ew -> 0 <= z < 2 ^ (mw + ew + 1) -> is_nan_bits z = false ->
  bits_of_sf (sf_of_bits z) = z.
Proof.
  intros Hm He Hz Hn. unfold sf_of_bits, is_nan_bits in *.
  assert (0 < 2 ^ mw) by lia. assert (2 <= 2 ^ ew) by (change 2 with (2 ^ 1) at 1; apply Z.pow_le_mono_r; lia).
  pose proof (Z.mod_pos_bound z (2 ^ mw) ltac:(lia)) as Hmb.
  pose proof (Z.mod_pos_bound (z / 2 ^ mw) (2 ^ ew) ltac:(lia)) as Heb.
  assert (2 ^ (mw + ew + 1) = 2 * (2 ^ mw * 2 ^ ew)) as Hp
    by (rewrite <- Z.pow_add_r, <- Z.pow_succ_r by lia; f_equal; lia).
  assert (z = sign_bits (Z.testbit z (mw + ew)) + ((z / 2 ^ mw) mod 2 ^ ew) * 2 ^ mw + z mod 2 ^ mw) as Hdec.
  { assert (Z.testbit z (mw + ew) = (z / 2 ^ mw / 2 ^ ew =? 1)) as ->.
    { rewrite Z.div_div, <- Z.pow_add_r, <- Z.shiftr_div_pow2 by lia.
      rewrite <- (Z.add_0_l (mw + ew)) at 1. rewrite <- Z.shiftr_spec by lia.
      rewrite Z.shiftr_div_pow2, Z.pow_add_r by lia.
      assert (0 <= z / (2 ^ mw * 2 ^ ew) < 2) as Hq
        by (split; [apply Z.div_pos|apply Z.div_lt_upper_bound]; nia).
      rewrite Z.bit0_odd. by destruct (Z.eq_dec (z / (2 ^ mw * 2 ^ ew)) 1) as [->|];
        [|replace (z / (2 ^ mw * 2 ^ ew)) with 0 by lia]. }
    pose proof (Z.div_mod z (2 ^ mw) ltac:(lia)). pose proof (Z.div_mod (z / 2 ^ mw) (2 ^ ew) ltac:(lia)).
    assert (0 <= z / 2 ^ mw / 2 ^ ew < 2) as Hq.
    { rewrite Z.div_div by lia. split; [apply Z.div_pos|apply Z.div_lt_upper_bound]; nia. }
    unfold sign_bits. rewrite Z.pow_add_r by lia. destruct (_ =? 1) eqn:E; nia. }
  set (s := Z.testbit z (mw + ew)) in *. set (e := (z / 2 ^ mw) mod 2 ^ ew) in *.
  set (m := z mod 2 ^ mw) in *. rewrite Hdec. clearbody s e m. clear Hdec Hz.
  destruct (e =? 0) eqn:E0.
  - destruct m as [|p|]; [cbn; lia| |lia]. cbn [bits_of_sf]. guards. nia.
  - destruct (e =? 2 ^ ew - 1) eqn:E1.
    + cbn in Hn. assert (m = 0) as -> by lia. cbn. nia.
    + destruct (2 ^ mw + m) as [|p|] eqn:Ep; [lia| |lia]. cbn [bits_of_sf].
      rewrite (proj2 (Z.ltb_ge (Zpos p) (2 ^ mw))) by lia. nia.
Qed.

Lemma bits_fields s E M :
  0 < mw -> 0 < ew -> 0 <= E < 2 ^ ew -> 0 <= M < 2 ^ mw ->
  let z := sign_bits s + E * 2 ^ mw + M in
  Z.testbit z (mw + ew) = s /\ (z / 2 ^ mw) mod 2 ^ ew = E /\ z mod 2 ^ mw = M.
Proof.
  intros Hm He HE HM z. unfold z, sign_bits.
  assert (exists b, (if s then 2 ^ (mw + ew) else 0) = b * 2 ^ ew * 2 ^ mw /\ b = Z.b2z s) as (b & -> & Hb).
  { exists (Z.b2z s). split; [|done]. destruct s; cbn [Z.b2z]; rewrite ?Z.pow_add_r by lia; lia. }
  replace (b * 2 ^ ew * 2 ^ mw + E * 2 ^ mw + M) with ((b * 2 ^ ew + E) * 2 ^ mw + M) by lia.
  assert (((b * 2 ^ ew + E) * 2 ^ mw + M) / 2 ^ mw = b * 2 ^ ew + E) as Hd.
  { rewrite Z.div_add_l by lia. rewrite Z.div_small by lia. lia. }
  split_and!.
  - rewrite <- (Z.add_0_l (mw + ew)) at 1. rewrite <- Z.shiftr_spec by lia.
    rewrite Z.add_comm, <- Z.shiftr_shiftr, !Z.shiftr_div_pow2, (Z.add_comm M) by lia.
    rewrite Hd, Z.div_add_l, Z.div_small by lia. rewrite Hb, Z.add_0_r. by destruct s.
  - by rewrite Hd, Z.add_comm, Z.mod_add, Z.mod_small by lia.
  - by rewrite Z.add_comm, Z.mod_add, Z.mod_small by lia.
Qed.

Lemma digits2_bounds p : 2 ^ (Zpos (digits2_pos p) - 1) <= Zpos p < 2 ^ Zpos (digits2_pos p).
Proof.
  induction p as [p IH|p IH|]; cbn [digits2_pos]; [| |by vm_compute];
    rewrite Pos2Z.inj_succ, Z.pow_succ_r by lia;
    replace (Z.succ (Zpos (digits2_pos p)) - 1) with (Z.succ (Zpos (digits2_pos p) - 1)) by lia;
    rewrite Z.pow_succ_r by lia; lia.
Qed.

(** The other direction, for the numbers of the format. *)
Lemma sf_of_bits_of_sf f :
  1 < mw -> 1 < ew -> valid_binary prec emax f = true -> f <> S754_nan -> sf_of_bits (bits_of_sf f) = f.
Proof.
  intros Hm He Hv Hn. assert (4 <= 2 ^ ew) by (change 4 with (2 ^ 2); apply Z.pow_le_mono_r; lia).
  assert (4 <= 2 ^ mw) by (change 4 with (2 ^ 2); apply Z.pow_le_mono_r; lia).
  unfold sf_of_bits. destruct f as [s|s| |s m e]; cbn [bits_of_sf]; [| |done|].
  - destruct (bits_fields s 0 0) as (B1 & B2 & B3); [lia..|]. rewrite Z.add_0_r in *. cbn [Z.mul] in *.
    rewrite Z.add_0_r in *. by rewrite B1, B2, B3.
  - destruct (bits_fields s (2 ^ ew - 1) 0) as (B1 & B2 & B3); [lia..|]. rewrite Z.add_0_r in *.
    rewrite B1, B2, B3. by guards.
  - cbn [valid_binary] in Hv. unfold bounded, canonical_mantissa, fexp in Hv.
    pose proof (digits2_bounds m) as Hd. apply andb_prop in Hv as [Hc Hb].
    assert (2 ^ ew = 2 * emax) as Hemax
      by (unfold emax; rewrite <- Z.pow_succ_r by lia; f_equal; lia).
    destruct (Zpos m <? 2 ^ mw) eqn:E.
    + destruct (bits_fields s 0 (Zpos m)) as (B1 & B2 & B3); [lia..|]. cbn [Z.mul] in *.
      rewrite Z.add_0_r in *. rewrite B1, B2, B3. cbn.
      assert (Zpos (digits2_pos m) - 1 < mw) by (apply (Z.pow_lt_mono_r_iff 2); lia).
      unfold prec in *. f_equal. lia.
    + assert (Zpos (digits2_pos m) > mw).
      { destruct (Z.le_gt_cases (Zpos (digits2_pos m)) mw) as [Hle|]; [|lia].
        apply (Z.pow_le_mono_r 2) in Hle; lia. }
      assert (Zpos (digits2_pos m) = mw + 1) as Hdig by (unfold prec in *; lia).
      rewrite Hdig, Z.pow_add_r in Hd by lia. unfold emin, prec in *.
      destruct (bits_fields s (e - (3 - emax - (mw + 1)) + 1) (Zpos m - 2 ^ mw)) as (B1 & B2 & B3); [lia..|].
      rewrite Z.add_assoc, B1, B2, B3. guards.
      replace (2 ^ mw + (Zpos m - 2 ^ mw)) with (Zpos m) by lia. f_equal. lia.
Qed.

Lemma sf_of_bits_valid z : 1 < mw -> 1 < ew -> valid_binary prec emax (sf_of_bits z) = true.
Proof.
  intros Hm He. unfold sf_of_bits.
  assert (2 ^ ew = 2 * emax) as Hemax
    by (unfold emax; rewrite <- Z.pow_succ_r by lia; f_equal; lia).
  pose proof (Z.mod_pos_bound z (2 ^ mw) ltac:(lia)) as Hmb.
  pose proof (Z.mod_pos_bound (z / 2 ^ mw) (2 ^ ew) ltac:(lia)) as Heb.
  generalize dependent ((z / 2 ^ mw) mod 2 ^ ew). generalize dependent (z mod 2 ^ mw).
  intros m Hmb e Heb.
  assert (2 <= emax) by (unfold emax; change 2 with (2 ^ 1) at 1; apply Z.pow_le_mono_r; lia).
  destruct (e =? 0) eqn:E0.
  - destruct m as [|p|]; [done| |done]. cbn [valid_binary]. unfold bounded, canonical_mantissa, fexp.
    pose proof (digits2_bounds p). assert (Zpos (digits2_pos p) - 1 < mw) by (apply (Z.pow_lt_mono_r_iff 2); lia).
    unfold emin, prec. lia.
  - destruct (e =? 2 ^ ew - 1) eqn:E1; [by destruct (m =? 0)|].
    destruct (2 ^ mw + m) as [|p|] eqn:Ep; [done| |done]. cbn [valid_binary].
    unfold bounded, canonical_mantissa, fexp. pose proof (digits2_bounds p) as Hd.
    assert (Zpos (digits2_pos p) - 1 < mw + 1) by (apply (Z.pow_lt_mono_r_iff 2); rewrite ?Z.pow_add_r by lia; lia).
    assert (mw < Zpos (digits2_pos p)) by (apply (Z.pow_lt_mono_r_iff 2); lia).
    unfold emin, prec. lia.
Qed.
End format.

(** The formats of C. *)
Definition double_of_bits : Z -> spec_float := sf_of_bits 52 11.
Definition bits_of_double : spec_float -> Z := bits_of_sf 52 11.
Definition float_of_bits : Z -> spec_float := sf_of_bits 23 8.
Definition bits_of_float : spec_float -> Z := bits_of_sf 23 8.

(** Rounding to a format. *)
Definition round_to (prec emax : Z) (f : spec_float) : spec_float :=
  match f with
  | S754_finite s m e => binary_round prec emax s m e
  | f => f
  end.

(** [(float)x] and [(double)x], on representations. *)
Definition float_of_double (x : Z) : Z := bits_of_float (round_to 24 128 (double_of_bits x)).
Definition double_of_float (x : Z) : Z := bits_of_double (round_to 53 1024 (float_of_bits x)).

(** [(double)FLT_MAX] *)
Definition FLT_MAX : spec_float := S754_finite false 16777215 104.

(** [x < 0.0 - (double)FLT_MAX || x > (double)FLT_MAX] *)
Definition exceeds_float (x : Z) : bool :=
  SFltb (double_of_bits x) (SFsub 53 1024 (S754_zero false) (round_to 53 1024 FLT_MAX)) ||
  SFltb (round_to 53 1024 FLT_MAX) (double_of_bits x).

(** ** Exactness of widening *)

Lemma pos_iter_xO p d : Zpos (Pos.iter xO p d) = Zpos p * 2 ^ Zpos d.
Proof.
  rewrite <- Pos2Z.inj_pow. rewrite <- Pos2Z.inj_mul. f_equal.
  induction d using Pos.peano_ind.
  - cbn. lia.
  - rewrite Pos.iter_succ, IHd, Pos.pow_succ_r. lia.
Qed.

Lemma digits2_pos_size p : digits2_pos p = Pos.size p.
Proof. induction p; cbn; congruence. Qed.

Lemma digits_shift p d : digits2_pos (Pos.iter xO p d) = (digits2_pos p + d)%positive.
Proof.
  induction d using Pos.peano_ind; [cbn; lia|].
  rewrite Pos.iter_succ. cbn [digits2_pos]. rewrite IHd. lia.
Qed.

Lemma iter_pos_iter {A} (f : A -> A) (n : positive) (x : A) : @iter_pos A f n x = Pos.iter f x n.
Proof.
  revert x. induction n as [n IH|n IH|]; intros x; cbn [iter_pos Pos.iter].
  - rewrite !IH. rewrite <- !Pos.iter_swap. done.
  - by rewrite !IH.
  - done.
Qed.

(** Shifting out the zeros shifted in. *)
Lemma shr_exact p d :
  @iter_pos _ shr_1 d (Build_shr_record (Zpos (Pos.iter xO p d)) false false) =
    Build_shr_record (Zpos p) false false.
Proof.
  rewrite iter_pos_iter. induction d using Pos.peano_ind; [done|].
  rewrite Pos.iter_succ_r, (Pos.iter_succ _ _ _ p). cbn [shr_1 orb]. exact IHd.
Qed.

(** A mantissa that is [p] shifted left so that it fills the format, or that
    is already at the least exponent, rounds to [p] at the exponent of the
    format. *)
Lemma round_exact prec emax s p d e :
  fexp prec emax (Zpos (digits2_pos p) + (e + Z.of_N d)) = e + Z.of_N d ->
  e + Z.of_N d <= emax - prec ->
  binary_round_aux prec emax s (Zpos (match d with N0 => p | Npos d => Pos.iter xO p d end)) e loc_Exact =
    S754_finite s p (e + Z.of_N d).
Proof.
  intros Hf He. unfold binary_round_aux, shr_fexp. destruct d as [|d].
  - cbn [Z.of_N] in *. rewrite Z.add_0_r in *. cbn [Zdigits2]. rewrite Hf, Z.sub_diag.
    cbn -[Z.leb Z.sub]. cbn [Zdigits2]. rewrite Hf, Z.sub_diag. cbn -[Z.leb Z.sub].
    by rewrite (proj2 (Z.leb_le _ _)) by lia.
  - cbn [Z.of_N] in *. cbn [Zdigits2]. rewrite digits_shift, Pos2Z.inj_add.
    replace (Zpos (digits2_pos p) + Zpos d + e) with (Zpos (digits2_pos p) + (e + Zpos d)) by lia.
    rewrite Hf. replace (e + Zpos d - e) with (Zpos d) by lia. cbn [shr shr_record_of_loc].
    rewrite shr_exact. cbn [shr_m loc_of_shr_record round_nearest_even Zdigits2].
    rewrite Hf, Z.sub_diag. cbn -[Z.leb Z.sub]. by rewrite (proj2 (Z.leb_le _ _)) by lia.
Qed.

(** [(double)x] is exact: the widened mantissa and exponent. *)
Lemma widen_exact s m e :
  bounded 24 128 m e = true ->
  let d := (53 - Zpos (digits2_pos m))%Z in
  round_to 53 1024 (S754_finite s m e) =
    S754_finite s (Pos.iter xO m (Z.to_pos d)) (e - d) /\
  bounded 53 1024 (Pos.iter xO m (Z.to_pos d)) (e - d) = true /\
  round_to 24 128 (S754_finite s (Pos.iter xO m (Z.to_pos d)) (e - d)) = S754_finite s m e.
Proof.
  intros Hb d. unfold bounded, canonical_mantissa in Hb.
  assert (fexp 24 128 (Zpos (digits2_pos m) + e) = e) as Hf by lia.
  assert (1 <= Zpos (digits2_pos m) <= 24 /\ -149 <= e <= 104) as [Hd He].
  { unfold fexp, emin in *. lia. }
  assert (0 < d) as Hpos by lia. unfold d in *. clear d.
  destruct (53 - Zpos (digits2_pos m)) as [|d|] eqn:Ed; [lia| |lia]. cbn [Z.to_pos].
  assert (fexp 53 1024 (Zpos (digits2_pos m) + e) = e - Zpos d) as H53 by (unfold fexp, emin; lia).
  assert (Zpos (digits2_pos (Pos.iter xO m d)) + (e - Zpos d) = Zpos (digits2_pos m) + e) as Hdig
    by (rewrite digits_shift, Pos2Z.inj_add; lia).
  split_and!.
  - cbn [round_to]. unfold binary_round, shl_align. rewrite H53.
    replace (e - Zpos d - e) with (Zneg d) by lia.
    pose proof (round_exact 53 1024 s (Pos.iter xO m d) 0 (e - Zpos d)) as Hr. cbn [Z.of_N] in Hr.
    rewrite Z.add_0_r in Hr. apply Hr; [by rewrite Hdig|lia].
  - unfold bounded, canonical_mantissa. rewrite Hdig, H53. lia.
  - cbn [round_to]. unfold binary_round, shl_align. rewrite Hdig, Hf.
    replace (e - (e - Zpos d)) with (Zpos d) by lia.
    pose proof (round_exact 24 128 s m (Npos d) (e - Zpos d)) as Hr. cbn [Z.of_N] in Hr.
    replace (e - Zpos d + Zpos d) with e in Hr by lia. by apply Hr; [|lia].
Qed.

Lemma narrow_widen f :
  valid_binary 24 128 f = true -> f <> S754_nan ->
  valid_binary 53 1024 (round_to 53 1024 f) = true /\ round_to 53 1024 f <> S754_nan /\
  round_to 24 128 (round_to 53 1024 f) = f.
Proof.
  intros Hv Hn. destruct f as [s|s| |s m e]; [done..|].
  destruct (widen_exact s m e Hv) as (-> & H2 & H3). by split_and!.
Qed.

(** Every [float] that is not a NaN survives the conversion to [double] and
    back. *)
Lemma float_of_double_of_float x :
  0 <= x < 2 ^ 32 -> is_nan_bits 23 8 x = false -> float_of_double (double_of_float x) = x.
Proof.
  intros Hx Hn. unfold float_of_double, double_of_float, double_of_bits, bits_of_double.
  pose proof (sf_of_bits_valid 23 8 x ltac:(lia) ltac:(lia)) as Hv.
  change (prec 23) with 24 in Hv. change (emax 8) with 128 in Hv.
  assert (float_of_bits x <> S754_nan) as Hnn.
  { unfold float_of_bits, sf_of_bits, is_nan_bits in *.
    pose proof (Z.mod_pos_bound x (2 ^ 23) ltac:(lia)).
    clear Hv. revert H Hn. generalize (x mod 2 ^ 23), ((x / 2 ^ 23) mod 2 ^ 8). intros m e H Hn.
    destruct (e =? 0); [by destruct m|]. destruct (e =? 2 ^ 8 - 1); cbn [andb] in Hn.
    - by destruct (m =? 0).
    - destruct (2 ^ 23 + m) eqn:E; [lia|done|lia]. }
  destruct (narrow_widen (float_of_bits x) Hv Hnn) as (H1 & H2 & H3).
  rewrite sf_of_bits_of_sf by (lia || done). rewrite H3. unfold bits_of_float, float_of_bits.
  apply bits_of_sf_of_bits; [lia|lia|lia|done].
Qed.
(** ** Subtraction and equality *)

(** A number with at most [prec] digits rounds to itself: its mantissa is
    shifted left to fill the format. *)
Lemma normalize_exact s m e :
  Zpos (digits2_pos m) < 53 -> -1021 <= Zpos (digits2_pos m) + e <= 1024 ->
  let d := 53 - Zpos (digits2_pos m) in
  binary_round 53 1024 s m e = S754_finite s (Pos.iter xO m (Z.to_pos d)) (e - d).
Proof.
  intros Hd He d. unfold d in *. clear d.
  destruct (53 - Zpos (digits2_pos m)) as [|d|] eqn:Ed; [lia| |lia]. cbn [Z.to_pos].
  assert (fexp 53 1024 (Zpos (digits2_pos m) + e) = e - Zpos d) as H53 by (unfold fexp, emin; lia).
  unfold binary_round, shl_align. rewrite H53. replace (e - Zpos d - e) with (Zneg d) by lia.
  pose proof (round_exact 53 1024 s (Pos.iter xO m d) 0 (e - Zpos d)) as Hr. cbn [Z.of_N] in Hr.
  rewrite Z.add_0_r in Hr. apply Hr; [|lia].
  rewrite digits_shift, Pos2Z.inj_add, <- H53. f_equal. lia.
Qed.

Lemma shr_iter_m n r : 0 <= shr_m r -> shr_m (Pos.iter shr_1 r n) = shr_m r / 2 ^ Zpos n.
Proof.
  intros Hr. induction n as [|n IH] using Pos.peano_ind.
  - cbn [Pos.iter]. destruct r as [[|[m|m|]|] ? ?]; cbn in *; try reflexivity; try lia; dlia.
  - rewrite Pos.iter_succ, Pos2Z.inj_succ, Z.pow_succ_r, (Z.mul_comm 2), <- Z.div_div, <- IH by lia.
    assert (0 <= shr_m (Pos.iter shr_1 r n)) as Hi by (rewrite IH; apply Z.div_pos; lia).
    clear IH. destruct (Pos.iter shr_1 r n) as [[|[m|m|]|] ? ?]; cbn in *; try reflexivity; try lia; dlia.
Qed.

(** Shifting to the format's exponent never drops all digits of a number that
    is not below the least exponent. *)
Lemma shr_fexp_pos m e l :
  0 < m -> emin 53 1024 <= e ->
  0 < shr_m (fst (shr_fexp 53 1024 m e l)) /\ emin 53 1024 <= snd (shr_fexp 53 1024 m e l).
Proof.
  intros Hm He. destruct m as [|p|]; [lia| |lia]. unfold shr_fexp. cbn [Zdigits2].
  assert (shr_m (shr_record_of_loc (Zpos p) l) = Zpos p) as Hl by (destruct l as [|[]]; done).
  destruct (fexp 53 1024 _ - e) as [|n|n] eqn:En; cbn [shr fst snd]; rewrite ?Hl; [lia| |lia].
  rewrite iter_pos_iter, shr_iter_m, Hl by lia. split; [|lia].
  pose proof (digits2_bounds p) as [Hp _].
  assert (2 ^ (Zpos n + 52) <= 2 ^ (Zpos (digits2_pos p) - 1)).
  { apply Z.pow_le_mono_r; [lia|]. unfold fexp, emin in *. lia. }
  rewrite Z.pow_add_r in H by lia. apply Z.div_str_pos. lia.
Qed.

Lemma normalize_nonzero s m e : emin 53 1024 <= e -> forall s', binary_round 53 1024 s m e <> S754_zero s'.
Proof.
  intros He s'. unfold binary_round.
  destruct (shl_align m e _) as [mz ez] eqn:Ea.
  assert (emin 53 1024 <= ez) as Hez.
  { unfold shl_align in Ea. destruct (_ - e) eqn:Ed; injection Ea as <- <-; [lia..|].
    unfold fexp. lia. }
  unfold binary_round_aux. pose proof (shr_fexp_pos (Zpos mz) ez loc_Exact ltac:(lia) Hez) as [H1 H1'].
  destruct (shr_fexp 53 1024 (Zpos mz) ez loc_Exact) as [r1 e1]. cbn [fst snd] in *.
  assert (0 < round_nearest_even (shr_m r1) (loc_of_shr_record r1)) as H2.
  { unfold round_nearest_even. destruct (loc_of_shr_record r1) as [|[]]; try destruct (Z.even _); lia. }
  pose proof (shr_fexp_pos _ e1 loc_Exact H2 H1') as [H3 _].
  destruct (shr_fexp 53 1024 _ e1 loc_Exact) as [r2 e2]. cbn [fst snd] in *.
  destruct (shr_m r2); [lia| |lia]. by destruct (_ <=? _).
Qed.

Lemma shl_align_val m e e' : e' <= e -> Zpos (fst (shl_align m e e')) = Zpos m * 2 ^ (e - e').
Proof.
  intros. unfold shl_align. destruct (e' - e) as [|d|d] eqn:E; [|lia|]; cbn [fst].
  - replace (e - e') with 0 by lia. lia.
  - rewrite pos_iter_xO. do 2 f_equal. lia.
Qed.

Lemma shl_align_digits m e e' :
  e' <= e -> Zpos (digits2_pos (fst (shl_align m e e'))) = Zpos (digits2_pos m) + (e - e').
Proof.
  intros. unfold shl_align. destruct (e' - e) as [|d|d] eqn:E; [cbn [fst]; lia|lia|]. cbn [fst].
  rewrite digits_shift. lia.
Qed.

(** The difference of two numbers is zero only when they are equal. *)
Lemma SFsub_zero f g s :
  valid_binary 53 1024 f = true -> valid_binary 53 1024 g = true ->
  (forall s t, f = S754_zero s -> g = S754_zero t -> s = t) ->
  SFsub 53 1024 f g = S754_zero s -> f = g.
Proof.
  intros Hf Hg Hz. destruct f as [sf|sf| |sf mf ef], g as [sg|sg| |sg mg eg]; try discriminate.
  - intros _. by rewrite (Hz sf sg).
  - cbn. by destruct sf, sg.
  - cbn [SFsub valid_binary] in *. unfold bounded, canonical_mantissa in Hf, Hg.
    set (ez := Z.min ef eg).
    pose proof (shl_align_digits mf ef ez ltac:(lia)) as Df. pose proof (shl_align_digits mg eg ez ltac:(lia)) as Dg.
    pose proof (shl_align_val mf ef ez ltac:(lia)) as Vf. pose proof (shl_align_val mg eg ez ltac:(lia)) as Vg.
    set (X := fst (shl_align mf ef ez)) in *. set (Y := fst (shl_align mg eg ez)) in *.
    assert (emin 53 1024 <= ez) by (unfold fexp in *; lia).
    unfold binary_normalize. destruct (cond_Zopp sf (Zpos X) - cond_Zopp sg (Zpos Y)) as [|p|p] eqn:E;
      [|intros H'; by apply normalize_nonzero in H'..].
    intros _. assert (sf = sg /\ Zpos X = Zpos Y) as [-> HXY].
    { destruct sf, sg; cbn [cond_Zopp] in E; split; lia. }
    injection HXY as HXY. rewrite HXY in Df, Vf.
    assert (Zpos (digits2_pos mf) + ef = Zpos (digits2_pos mg) + eg) as HD by lia.
    rewrite HD in Hf. assert (ef = eg) as -> by lia.
    assert (Zpos mf = Zpos mg) as Hm by nia. by injection Hm as ->.
Qed.
(** Multiplying the mantissa by a power of two instead of raising the exponent. *)
Lemma round_scale s m m' k e :
  0 <= k -> Zpos m' = Zpos m * 2 ^ k -> Zpos (digits2_pos m') < 53 ->
  -1021 <= Zpos (digits2_pos m') + e <= 1024 ->
  binary_round 53 1024 s m (e + k) = binary_round 53 1024 s m' e /\
  exists p x, binary_round 53 1024 s m (e + k) = S754_finite s p x.
Proof.
  intros Hk Hm Hd He.
  assert (Zpos (digits2_pos m') = Zpos (digits2_pos m) + k) as Hdig.
  { destruct k as [|k|]; [|rewrite <- pos_iter_xO in Hm|lia].
    - replace (Zpos m * 2 ^ 0) with (Zpos m) in Hm by lia. injection Hm as ->. lia.
    - injection Hm as ->. rewrite digits_shift. lia. }
  rewrite !normalize_exact by lia. split; [|by eauto]. f_equal; [|lia].
  assert (Zpos (Pos.iter xO m (Z.to_pos (53 - Zpos (digits2_pos m)))) =
          Zpos (Pos.iter xO m' (Z.to_pos (53 - Zpos (digits2_pos m'))))) as H; [|by injection H].
  rewrite !pos_iter_xO, Hm, !Z2Pos.id, <- Z.mul_assoc, <- Z.pow_add_r by lia. do 2 f_equal. lia.
Qed.

(** ** The range of narrowed numbers *)

Lemma shr_fexp_bound m e l :
  0 <= m ->
  0 <= shr_m (fst (shr_fexp 24 128 m e l)) < 2 ^ 24 /\ emin 24 128 <= snd (shr_fexp 24 128 m e l).
Proof.
  intros Hm. assert (shr_m (shr_record_of_loc m l) = m) as Hl by (destruct l as [|[]]; done).
  assert (0 <= m < 2 ^ Zdigits2 m) as Hd.
  { destruct m; [done| |lia]. cbn [Zdigits2]. pose proof (digits2_bounds p). lia. }
  unfold shr_fexp. set (D := Zdigits2 m) in *. clearbody D.
  assert (0 <= D) by (destruct (Z.lt_ge_cases D 0); [rewrite Z.pow_neg_r in Hd; lia|done]).
  unfold fexp in *. set (x := Z.max (D + e - 24) (emin 24 128)).
  assert (0 <= m < 2 ^ 24 \/ 24 < D) as Hc.
  { destruct (Z.le_gt_cases D 24); [left|by right]. pose proof (Z.pow_le_mono_r 2 D 24). lia. }
  destruct (x - e) as [|n|n] eqn:En; cbn [shr fst snd]; rewrite ?Hl.
  - split; [|lia]. destruct Hc; [done|lia].
  - rewrite iter_pos_iter, shr_iter_m, Hl by lia. split; [|lia].
    split; [apply Z.div_pos; lia|]. apply Z.div_lt_upper_bound; [lia|].
    rewrite <- Z.pow_add_r by lia. pose proof (Z.pow_le_mono_r 2 D (Zpos n + 24)). lia.
  - split; [|lia]. destruct Hc; [done|lia].
Qed.

Lemma float_of_double_bound x : 0 <= float_of_double x < 2 ^ 32.
Proof.
  unfold float_of_double. generalize (double_of_bits x). intros f.
  assert (forall s m e, 0 < Zpos m < 2 ^ 24 -> emin 24 128 <= e <= 104 ->
    0 <= bits_of_float (S754_finite s m e) < 2 ^ 32) as Hb.
  { intros s m e Hm He. unfold bits_of_float, bits_of_sf, sign_bits. change (emin (prec 23) (emax 8)) with (-149).
    change (emin 24 128) with (-149) in He. destruct s; dif E; lia. }
  destruct f as [[]|[]| |s m e]; try done. cbn [round_to]. unfold binary_round.
  destruct (shl_align m e _) as [mz ez]. unfold binary_round_aux.
  pose proof (shr_fexp_bound (Zpos mz) ez loc_Exact ltac:(lia)) as [H1 _].
  destruct (shr_fexp 24 128 (Zpos mz) ez loc_Exact) as [r1 e1]. cbn [fst snd] in *.
  assert (0 <= round_nearest_even (shr_m r1) (loc_of_shr_record r1)) as H2.
  { unfold round_nearest_even. destruct (loc_of_shr_record r1) as [|[]]; try destruct (Z.even _); lia. }
  pose proof (shr_fexp_bound _ e1 loc_Exact H2) as [H3 H4].
  destruct (shr_fexp 24 128 _ e1 loc_Exact) as [r2 e2]. cbn [fst snd] in *.
  destruct (shr_m r2); [by destruct s| |lia]. destruct (_ <=? _) eqn:E; [apply Hb; lia|by destruct s].
Qed.
End Float.
