(* ===== verification/Data.v ===== *)
(** * Data nodes (data/data.c, the part that does not depend on a format)

    Creation of nodes, the [lwm2m_data_encode_*] and [lwm2m_data_decode_*]
    functions, and the growth of an array of nodes.  Pointers do not appear: an
    array of nodes is a list, a pointer that may be null an [option].  A decode
    function returns [Some v] for [return 1] with [v] in [*valueP] and [None]
    for [return 0]; in an encode function the node is the result. *)
From S2P Require Import Prelude Types Numeric Utils.
Import Numeric Utils.

Module Data.

Section data.
Context `{Malloc}.

(** [sizeof(lwm2m_data_t)] on a 64-bit target. *)
Definition sizeof_data : Z := 24.

Definition zero_data : lwm2m_data_t := mk_data LWM2M_TYPE_UNDEFINED 0 VZero.

Definition lwm2m_data_new (size : Z) : option (list lwm2m_data_t) :=
  if size <=? 0 then None
  else if malloc_ok (u64 (size * sizeof_data)) then Some (replicate (Z.to_nat size) zero_data)
  else None.

(** The union after [prv_setBuffer], and its result; when the allocation fails
    the buffer pointer is null. *)
Definition prv_setBuffer (buffer : list Z) (bufferLen : Z) : C (value_t * Z) :=
  if malloc_ok bufferLen then
    b ← rd_bytes buffer 0 bufferLen; ret (VBuffer b, 1)
  else ret (VBuffer [], 0).

Definition lwm2m_data_encode_opaque (buffer : list Z) (length : Z) (dataP : lwm2m_data_t)
    : C lwm2m_data_t :=
  '(v, res) ← (if length =? 0 then ret (VBuffer [], 1) else prv_setBuffer buffer length);
  ret (mk_data (if res =? 1 then LWM2M_TYPE_OPAQUE else LWM2M_TYPE_UNDEFINED) (d_id dataP) v).

Definition lwm2m_data_encode_string (string : option (list Z)) (dataP : lwm2m_data_t)
    : C lwm2m_data_t :=
  length ← (match string with None => ret 0 | Some s => strlen s end);
  '(v, res) ← (if length =? 0 then ret (VBuffer [], 1)
               else match string with None => None | Some s => prv_setBuffer s length end);
  ret (mk_data (if res =? 1 then LWM2M_TYPE_STRING else LWM2M_TYPE_UNDEFINED) (d_id dataP) v).

Definition lwm2m_data_encode_nstring (string : list Z) (length : Z) (dataP : lwm2m_data_t)
    : C lwm2m_data_t :=
  d ← lwm2m_data_encode_opaque string length dataP;
  ret (if decide (d_type d = LWM2M_TYPE_OPAQUE) then mk_data LWM2M_TYPE_STRING (d_id d) (d_value d)
       else d).

Definition lwm2m_data_encode_corelink (corelink : option (list Z)) (dataP : lwm2m_data_t)
    : C lwm2m_data_t :=
  d ← lwm2m_data_encode_string corelink dataP;
  ret (if decide (d_type d = LWM2M_TYPE_STRING) then mk_data LWM2M_TYPE_CORE_LINK (d_id d) (d_value d)
       else d).

Definition lwm2m_data_encode_int (value : Z) (dataP : lwm2m_data_t) : lwm2m_data_t :=
  mk_data LWM2M_TYPE_INTEGER (d_id dataP) (VInteger value).
Definition lwm2m_data_encode_uint (value : Z) (dataP : lwm2m_data_t) : lwm2m_data_t :=
  mk_data LWM2M_TYPE_UNSIGNED_INTEGER (d_id dataP) (VUnsigned value).
Definition lwm2m_data_encode_float (value : Z) (dataP : lwm2m_data_t) : lwm2m_data_t :=
  mk_data LWM2M_TYPE_FLOAT (d_id dataP) (VFloat value).
Definition lwm2m_data_encode_bool (value : bool) (dataP : lwm2m_data_t) : lwm2m_data_t :=
  mk_data LWM2M_TYPE_BOOLEAN (d_id dataP) (VBoolean value).
Definition lwm2m_data_encode_objlink (objectId objectInstanceId : Z) (dataP : lwm2m_data_t)
    : lwm2m_data_t :=
  mk_data LWM2M_TYPE_OBJECT_LINK (d_id dataP) (VObjLink objectId objectInstanceId).

(** ** Decoding a node as a C value *)

Definition lwm2m_data_decode_int (dataP : lwm2m_data_t) : C (option Z) :=
  let v := d_value dataP in
  match d_type dataP with
  | LWM2M_TYPE_INTEGER => i ← asInteger v; ret (Some i)
  | LWM2M_TYPE_UNSIGNED_INTEGER =>
      u ← asUnsigned v; ret (if u <=? INT64_MAX then Some u else None)
  | LWM2M_TYPE_STRING => b ← asBuffer v; utils_textToInt b (s32 (len b))
  | LWM2M_TYPE_OPAQUE =>
      b ← asBuffer v;
      match len b with
      | 1 => c ← rd b 0; ret (Some (s8 c))
      | 2 => o ← utils_copyValue b 2; ret (Some (s16 (le_val o)))
      | 4 => o ← utils_copyValue b 4; ret (Some (s32 (le_val o)))
      | 8 => o ← utils_copyValue b 8; ret (Some (s64 (le_val o)))
      | _ => ret None
      end
  | _ => ret None
  end.

Definition lwm2m_data_decode_uint (dataP : lwm2m_data_t) : C (option Z) :=
  let v := d_value dataP in
  match d_type dataP with
  | LWM2M_TYPE_INTEGER => i ← asInteger v; ret (if 0 <=? i then Some i else None)
  | LWM2M_TYPE_UNSIGNED_INTEGER => u ← asUnsigned v; ret (Some u)
  | LWM2M_TYPE_STRING => b ← asBuffer v; utils_textToUInt b (s32 (len b))
  | LWM2M_TYPE_OPAQUE =>
      b ← asBuffer v;
      match len b with
      | 1 => c ← rd b 0; ret (Some c)
      | 2 => o ← utils_copyValue b 2; ret (Some (le_val o))
      | 4 => o ← utils_copyValue b 4; ret (Some (le_val o))
      | 8 => o ← utils_copyValue b 8; ret (Some (le_val o))
      | _ => ret None
      end
  | _ => ret None
  end.

Definition lwm2m_data_decode_bool (dataP : lwm2m_data_t) : C (option bool) :=
  let v := d_value dataP in
  match d_type dataP with
  | LWM2M_TYPE_BOOLEAN => b ← asBoolean v; ret (Some b)
  | LWM2M_TYPE_STRING =>
      b ← asBuffer v;
      if negb (len b =? 1) then ret None
      else c ← rd b 0; ret (if c =? chr "0" then Some false else if c =? chr "1" then Some true else None)
  | LWM2M_TYPE_OPAQUE =>
      b ← asBuffer v;
      if negb (len b =? 1) then ret None
      else c ← rd b 0; ret (if c =? 0 then Some false else if c =? 1 then Some true else None)
  | _ => ret None
  end.

(** ** Arrays of nodes *)

(** The array [subDataP] of [count] elements becomes the children of [dataP]. *)
Definition lwm2m_data_include (subDataP : option (list lwm2m_data_t)) (count : Z)
    (dataP : lwm2m_data_t) : C lwm2m_data_t :=
  match subDataP with
  | None => ret dataP
  | Some sub =>
      if count =? 0 then ret dataP
      else
        first ← rd sub 0;
        children ← rd_bytes sub 0 count;
        let type :=
          match d_type first with
          | LWM2M_TYPE_STRING | LWM2M_TYPE_OPAQUE | LWM2M_TYPE_INTEGER
          | LWM2M_TYPE_UNSIGNED_INTEGER | LWM2M_TYPE_FLOAT | LWM2M_TYPE_BOOLEAN
          | LWM2M_TYPE_OBJECT_LINK | LWM2M_TYPE_CORE_LINK | LWM2M_TYPE_MULTIPLE_RESOURCE =>
              LWM2M_TYPE_OBJECT_INSTANCE
          | LWM2M_TYPE_OBJECT_INSTANCE => LWM2M_TYPE_OBJECT
          | _ => LWM2M_TYPE_MULTIPLE_RESOURCE
          end in
        ret (mk_data type (d_id dataP) (VChildren children))
  end.

Definition lwm2m_data_encode_instances (subDataP : option (list lwm2m_data_t)) (count : Z)
    (dataP : lwm2m_data_t) : C lwm2m_data_t :=
  d ← lwm2m_data_include subDataP count dataP;
  ret (mk_data LWM2M_TYPE_MULTIPLE_RESOURCE (d_id d) (d_value d)).

(** The result, [*sizeP] and [*dataP].  The sum of the sizes is computed as an
    [int] before the guard. *)
Definition lwm2m_data_append (size : Z) (data : option (list lwm2m_data_t)) (addDataSize : Z)
    (addData : option (list lwm2m_data_t)) : C (Z * Z * option (list lwm2m_data_t)) :=
  assert! int_ok (size + addDataSize);
  let tmpSize := size + addDataSize in
  let result := if addDataSize =? 0 then 1 else 0 in
  if size =? 0 then ret (1, addDataSize, addData)
  else if (size <? tmpSize) && (addDataSize <? tmpSize) then
    match lwm2m_data_new tmpSize with
    | None => ret (result, size, data)
    | Some tmp =>
        match data, addData with
        | Some d, Some a =>
            d ← rd_bytes d 0 size;
            a ← rd_bytes a 0 addDataSize;
            tmp ← wr_bytes tmp 0 d;
            tmp ← wr_bytes tmp size a;
            ret (1, tmpSize, Some tmp)
        | _, _ => None
        end
    end
  else ret (result, size, data).

Definition lwm2m_data_append_one (size : Z) (data : option (list lwm2m_data_t))
    (type : lwm2m_data_type_t) (id : Z) : C (Z * Z * option (list lwm2m_data_t)) :=
  assert! int_ok (size + 1);
  let tmpSize := size + 1 in
  if size <? tmpSize then
    match lwm2m_data_new tmpSize with
    | None => ret (0, size, data)
    | Some tmp =>
        tmp ← (match data with
               | None => ret tmp
               | Some d => d ← rd_bytes d 0 size; wr_bytes tmp 0 d
               end);
        new ← rd tmp size;
        tmp ← wr tmp size (mk_data type id (d_value new));
        ret (1, tmpSize, Some tmp)
    end
  else ret (0, size, data).
End data.

(** ** Properties *)

Section properties.
Context `{Malloc}.

(** Growing an array: [lwm2m_data_append] concatenates the two arrays, and
    [lwm2m_data_append_one] adds one zeroed node with the given type and id at
    the end; when the allocation fails they return 0 with the array
    unchanged. *)
Theorem data_append_correct d a t i :
  0 < len d -> 0 < len a -> len d + len a <= INT_MAX ->
  lwm2m_data_append (len d) (Some d) (len a) (Some a) =
    Some (if malloc_ok ((len d + len a) * sizeof_data) then (1, len d + len a, Some (d ++ a))
          else (0, len d, Some d)) /\
  lwm2m_data_append_one (len d) (Some d) t i =
    Some (if malloc_ok ((len d + 1) * sizeof_data) then (1, len d + 1, Some (d ++ [mk_data t i VZero]))
          else (0, len d, Some d)).
Proof.
  unfold INT_MAX. intros Hd Ha Hs.
  unfold lwm2m_data_append, lwm2m_data_append_one, lwm2m_data_new, int_ok, sizeof_data.
  guards. rewrite !wrap_small by (cbn; lia). split.
  - destruct (malloc_ok _); [|done].
    rewrite !rd_bytes_all. mstep.
    replace (Z.to_nat (len d + len a)) with (length d + length a)%nat by lia.
    rewrite replicate_add, wr_bytes_0 by lens. mstep.
    rewrite wr_bytes_app by lens. mstep. rewrite drop_ge by lens. by rewrite app_nil_r.
  - destruct (malloc_ok _); [|done].
    rewrite rd_bytes_all. mstep.
    replace (Z.to_nat (len d + 1)) with (length d + 1)%nat by lia.
    rewrite replicate_add, wr_bytes_0 by lens. mstep. cbn [replicate].
    rewrite rd_middle by done. mstep. rewrite wr_middle by done. done.
Qed.
End properties.

Lemma data_append_correct_witness :
  let d := [zero_data] in let a := [zero_data; zero_data] in
  @lwm2m_data_append malloc_always (len d) (Some d) (len a) (Some a) =
    Some (if @malloc_ok malloc_always ((len d + len a) * sizeof_data)
          then (1, len d + len a, Some (d ++ a)) else (0, len d, Some d)) /\
  @lwm2m_data_append_one malloc_always (len d) (Some d) LWM2M_TYPE_FLOAT 7 =
    Some (if @malloc_ok malloc_always ((len d + 1) * sizeof_data)
          then (1, len d + 1, Some (d ++ [mk_data LWM2M_TYPE_FLOAT 7 VZero]))
          else (0, len d, Some d)).
Proof.
  exact (@data_append_correct malloc_always [zero_data] [zero_data; zero_data] LWM2M_TYPE_FLOAT 7
    eq_refl eq_refl ltac:(by vm_compute)).
Defined.
End Data.
