(* ===== verification/FloatText.v ===== *)
(** * Floating-point numbers as text (core/utils.c, data/data.c)

    [utils_floatToText], [utils_textToFloat], the text form of a data node and
    [lwm2m_data_decode_float].  A [double] is its object representation; the
    arithmetic is that of the Standard Library's [spec_float].  [strtod] belongs
    to the C library and is a parameter. *)
From S2P Require Import Prelude.
From S2P Require Import Types.
From S2P Require Import Numeric.
From S2P Require Import Base64.
From S2P Require Import Utils.
From S2P Require Import Float.
From S2P Require Import Data.
From Stdlib Require Import SpecFloat.
Import Numeric Base64 Utils Float Data.

(** [strtod] on a terminated string: the value, and how many characters it has
    read. *)
Class LibC := strtod : list Z -> Z * Z.

Module FloatText.

(** ** Arithmetic on [double] *)

Definition fadd : spec_float -> spec_float -> spec_float := SFadd 53 1024.
Definition fsub : spec_float -> spec_float -> spec_float := SFsub 53 1024.
Definition fmul : spec_float -> spec_float -> spec_float := SFmul 53 1024.

(** [x < y] and [x >= y], false on NaN. *)
Definition flt (x y : spec_float) : bool := SFltb x y.
Definition fge (x y : spec_float) : bool := SFleb y x.

(** [(double)z] *)
Definition double_of_Z (z : Z) : spec_float := binary_normalize 53 1024 z 0 false.

(** Conversion to an unsigned integer of [w] bits, undefined out of range. *)
Definition to_unsigned (w : Z) (f : spec_float) : C Z :=
  match f with
  | S754_zero _ => ret 0
  | S754_finite false m e =>
      let v := Z.shiftl (Zpos m) e in
      assert! v <? 2 ^ w; ret v
  | S754_finite true m e => assert! Z.shiftl (Zpos m) e =? 0; ret 0
  | _ => None
  end.

(** Constants, by their representation. *)
Definition F_1e15 : spec_float := double_of_bits 0x430c6bf526340000.
Definition F_1e25 : spec_float := double_of_bits 0x45208b2a2c280291.
Definition F_1e100 : spec_float := double_of_bits 0x54b249ad2594c37d.
Definition F_1e10 : spec_float := double_of_bits 0x4202a05f20000000.
Definition F_10 : spec_float := double_of_bits 0x4024000000000000.
Definition F_2 : spec_float := double_of_bits 0x4000000000000000.
Definition F_1 : spec_float := double_of_bits 0x3ff0000000000000.
Definition F_half : spec_float := double_of_bits 0x3fe0000000000000.
Definition F_0_1 : spec_float := double_of_bits 0x3fb999999999999a.
Definition F_0_01 : spec_float := double_of_bits 0x3f847ae147ae147b.
Definition F_1em3 : spec_float := double_of_bits 0x3f50624dd2f1a9fc.
Definition F_1em10 : spec_float := double_of_bits 0x3ddb7cdfd9d7bdbb.
Definition F_1em100 : spec_float := double_of_bits 0x2b2bff2ee48e0530.
Definition DBL_MIN : spec_float := double_of_bits 0x0010000000000000.
Definition DBL_MAX : spec_float := double_of_bits 0x7fefffffffffffff.
Definition DBL_EPSILON : spec_float := double_of_bits 0x3cb0000000000000.

(** ** Scaling *)

(** [data], [zeros] and [precisionFactor]. *)
Record scaled := mk_scaled { s_data : spec_float; zeros : Z; precisionFactor : Z }.

(** [data *= factor; zeros += k; precisionFactor++] *)
Definition scale_by (factor : spec_float) (k : Z) (st : scaled) : scaled :=
  mk_scaled (fmul (s_data st) factor) (zeros st + k) (precisionFactor st + 1).

(** [while (cond(data))] around [scale_by]. *)
Fixpoint scale_while (fuel : nat) (cond : spec_float -> bool) (factor : spec_float) (k : Z) (st : scaled) : C scaled :=
  match fuel with
  | O => None
  | S fuel => if cond (s_data st) then scale_while fuel cond factor k (scale_by factor k st) else ret st
  end.

(** A [double] has less than 400 decimal digits before or after the point. *)
Definition scale_fuel : nat := 400.

(** Scaling to a usable range, and the length of the exponent. *)
Definition scale (data : spec_float) (allowExponential : bool) : C (scaled * Z) :=
  let st := mk_scaled data 0 1 in
  if flt F_1e15 data then
    st ← scale_while scale_fuel (fun d => flt F_1e100 d) F_1em100 100 st;
    if allowExponential then
      st ← scale_while scale_fuel (fun d => flt F_1e10 d) F_1em10 10 st;
      st ← scale_while scale_fuel (fun d => flt F_10 d) F_0_1 1 st;
      ret (st, if 100 <=? zeros st then 4 else if 10 <=? zeros st then 3 else 2)
    else
      st ← scale_while scale_fuel (fun d => fge d F_1e25) F_1em10 10 st;
      st ← scale_while scale_fuel (fun d => flt F_1e15 d) F_0_1 1 st;
      ret ((if 19 <=? precisionFactor st then scale_by F_0_01 2 st
            else if 10 <=? precisionFactor st then scale_by F_0_1 1 st
            else st), 0)
  else if flt data (if allowExponential then F_1em3 else F_0_1) then
    st ← scale_while scale_fuel (fun d => flt d F_1em100) F_1e100 (-100) st;
    st ← scale_while scale_fuel (fun d => flt d F_1em10) F_1e10 (-10) st;
    st ← scale_while scale_fuel (fun d => flt d (if allowExponential then F_1 else F_0_1)) F_10 (-1) st;
    ret (st, if allowExponential then
               if zeros st <=? -100 then 5 else if zeros st <=? -10 then 4 else 3
             else 0)
  else ret (st, 0).

(** ** Digits *)

(** [while (intPart > 0)]: [noiseFloor] and [digits]. *)
Fixpoint noise_loop (fuel : nat) (intPart : Z) (noiseFloor : spec_float) (digits : Z) : C (spec_float * Z) :=
  match fuel with
  | O => None
  | S fuel =>
      if 0 <? intPart then noise_loop fuel (intPart / 10) (fmul noiseFloor F_10) (digits + 1)
      else ret (noiseFloor, digits)
  end.

(** [intPart], [decPart], [zeros], [noiseFloor] and [digits]. *)
Record parts := mk_parts { intPart : Z; decPart : spec_float; p_zeros : Z; noiseFloor : spec_float; digits : Z }.

(** [while (zeros > 0 && noiseFloor < 1)] *)
Fixpoint shift_loop (fuel : nat) (p : parts) : C parts :=
  match fuel with
  | O => None
  | S fuel =>
      if (0 <? p_zeros p) && flt (noiseFloor p) F_1 then
        let decPart := fmul (decPart p) F_10 in
        d ← to_unsigned 32 decPart;
        shift_loop fuel (mk_parts (u64 (intPart p * 10 + d)) (fsub decPart (double_of_Z d)) (p_zeros p - 1)
                           (fmul (noiseFloor p) F_10) (digits p + 1))
      else ret p
  end.

(** The [do] loop that counts the digits of the decimal part; [used] is
    [head + expLen]. *)
Fixpoint count_digits (fuel : nat) (used length : Z) (p : parts) (roundCheck : spec_float) : C (parts * spec_float) :=
  match fuel with
  | O => None
  | S fuel =>
      let digits := digits p + 1 in
      if length <? used + digits then
        ret (mk_parts (intPart p) (decPart p) (p_zeros p) (noiseFloor p) digits, roundCheck)
      else
        let dec := fmul (decPart p) F_10 in
        let p := mk_parts (intPart p) dec (p_zeros p) (fmul (noiseFloor p) F_10) digits in
        let roundCheck := fmul roundCheck F_10 in
        d ← to_unsigned 64 dec;
        if flt (noiseFloor p) (fsub dec (double_of_Z d)) then count_digits fuel used length p roundCheck
        else ret (p, roundCheck)
  end.

(** The integer and decimal parts, rounded to what the buffer can hold. *)
Definition split_parts (st : scaled) (expLen head length : Z) (allowExponential : bool) : C parts :=
  let data := s_data st in
  int ← to_unsigned 64 data;
  '(noise, digits) ←
    noise_loop 32 int (fmul DBL_EPSILON (double_of_Z (precisionFactor st))) (if int =? 0 then 2 else 1);
  let p := mk_parts int (fsub data (double_of_Z int)) (zeros st) noise digits in
  p ← (if negb allowExponential && (0 <? p_zeros p) then
         p ← shift_loop scale_fuel p;
         ret (mk_parts (intPart p) (S754_zero false) (p_zeros p) (noiseFloor p) (FloatText.digits p))
       else ret p);
  if flt (noiseFloor p) (decPart p) then
    let p := mk_parts (intPart p) (fadd (decPart p) F_1) (p_zeros p) (noiseFloor p) (FloatText.digits p) in
    '(p, roundCheck) ← count_digits (S (Z.to_nat length)) (head + expLen) length p F_2;
    let dec := fadd (decPart p) F_half in
    ret (mk_parts (if fge dec roundCheck then u64 (intPart p + 1) else intPart p) dec (p_zeros p)
           (noiseFloor p) (FloatText.digits p))
  else ret p.

(** ** Output *)

(** Writes [c] at [head] when there is room. *)
Definition put_byte (string : list Z) (head length c : Z) : C (Z * list Z) :=
  if head <? length then string ← wr string head c; ret (head + 1, string) else ret (head, string).

Definition put_parts (p : parts) (expLen : Z) (string : list Z) (head length : Z) (allowExponential : bool)
    : C (Z * list Z) :=
  '(res, string) ← at_off string head (fun s => utils_uintToText (intPart p) s (length - head));
  if res =? 0 then ret (0, string)
  else
    let head := head + res in
    let zeros := p_zeros p in
    if fge (noiseFloor p) (decPart p) || (negb allowExponential && (length - head <=? - zeros)) then
      if negb allowExponential && (0 <? zeros) && (length <? head + zeros) then ret (0, string)
      else
        '(head, string) ←
          (if negb allowExponential && (0 <? zeros) then
             string ← wr_bytes string head (replicate (Z.to_nat zeros) (chr "0")); ret (head + zeros, string)
           else ret (head, string));
        '(head, string) ← put_byte string head length (chr ".");
        '(head, string) ← put_byte string head length (chr "0");
        '(_, string) ← put_byte string head length 0;
        ret (head, string)
    else
      let leading := negb allowExponential && (zeros <? 0) in
      if leading && (length <? head - zeros) then ret (0, string)
      else
        '(head, string) ←
          (if leading then
             string ← wr string head (chr ".");
             string ← wr_bytes string (head + 1) (replicate (Z.to_nat (- zeros - 1)) (chr "0"));
             ret (head - zeros, string)
           else ret (head, string));
        dec ← to_unsigned 64 (decPart p);
        '(res, string) ← at_off string head (fun s => utils_uintToText dec s (length - head));
        if res =? 0 then ret (0, string)
        else
          string ← wr string head (if leading then chr "0" else chr ".");
          let head := head + res in
          if allowExponential && negb (zeros =? 0) then
            if length <? head + expLen then ret (0, string)
            else
              string ← wr string head (chr "e");
              let head := head + 1 in
              '(res, string) ← at_off string head (fun s => utils_intToText zeros s (length - head));
              ret (if res =? 0 then 0 else head + res, string)
          else ret (head, string).

(** The three letters of a special value. *)
Definition put_special (string : list Z) (head length : Z) (text : list Z) : C (Z * list Z) :=
  if length <? 3 + head then ret (0, string)
  else
    string ← wr_bytes string head text;
    '(_, string) ← put_byte string (head + 3) length 0;
    ret (head + 3, string).

Definition utils_floatToText (data : Z) (string : list Z) (length : Z) (allowExponential : bool)
    : C (Z * list Z) :=
  if length =? 0 then ret (0, string)
  else
    let data := double_of_bits data in
    '(head, data, string) ←
      (if flt data (S754_zero false) then string ← wr string 0 (chr "-"); ret (1, SFopp data, string)
       else ret (0, data, string));
    if flt data DBL_MIN then put_special string 0 length (str "0.0")
    else if flt DBL_MAX data then put_special string head length (str "inf")
    else
      match data with
      | S754_nan => put_special string head length (str "nan")
      | _ =>
          '(st, expLen) ← scale data allowExponential;
          p ← split_parts st expLen head length allowExponential;
          put_parts p expLen string head length allowExponential
      end.

(** ** Text to number *)

Section text.
Context `{HM : Malloc, HL : LibC}.

(** The result and the value written to [*dataP]. *)
Definition utils_textToFloat (buffer : list Z) (length : Z) (allowExponential : bool) : C (option Z) :=
  if length =? 0 then ret None
  else if negb (malloc_ok (length + 1)) then ret None
  else
    b ← rd_bytes buffer 0 length;
    let buffer_c_str := c_string b in
    if negb allowExponential && (existsb (Z.eqb (chr "e")) buffer_c_str || existsb (Z.eqb (chr "E")) buffer_c_str)
    then ret None
    else
      let '(v, n) := strtod (buffer_c_str ++ [0]) in
      ret (if n =? 0 then None else Some v).

Definition lwm2m_data_decode_float (dataP : lwm2m_data_t) : C (option Z) :=
  let v := d_value dataP in
  match d_type dataP with
  | LWM2M_TYPE_FLOAT => f ← asFloat v; ret (Some f)
  | LWM2M_TYPE_INTEGER => i ← asInteger v; ret (Some (bits_of_double (double_of_Z i)))
  | LWM2M_TYPE_UNSIGNED_INTEGER => u ← asUnsigned v; ret (Some (bits_of_double (double_of_Z u)))
  | LWM2M_TYPE_STRING => b ← asBuffer v; utils_textToFloat b (s32 (len b)) false
  | LWM2M_TYPE_OPAQUE =>
      b ← asBuffer v;
      match len b with
      | 4 => o ← utils_copyValue b 4; ret (Some (double_of_float (le_val o)))
      | 8 => o ← utils_copyValue b 8; ret (Some (le_val o))
      | _ => ret None
      end
  | _ => ret None
  end.

(** ** A node as text *)

Definition PRV_STR_LENGTH : Z := 32.

(** A fresh buffer filled with the first [res] bytes of a local array; the length
    and the buffer, [-1] when the allocation fails. *)
Definition copy_out (local : list Z) (res : Z) : C (Z * option (list Z)) :=
  if malloc_ok res then b ← rd_bytes local 0 res; ret (res, Some b) else ret (-1, None).

(** [junk] is the content of the local arrays; the result is that of the
    function and [*bufferP], [None] for the null pointer. *)
Definition prv_textSerialize (junk : Z -> list Z) (dataP : lwm2m_data_t) : C (Z * option (list Z)) :=
  let v := d_value dataP in
  match d_type dataP with
  | LWM2M_TYPE_STRING | LWM2M_TYPE_CORE_LINK =>
      b ← asBuffer v;
      if malloc_ok (len b) then ret (s32 (len b), Some b) else ret (0, None)
  | LWM2M_TYPE_INTEGER =>
      i ← asInteger v;
      '(res, s) ← utils_intToText i (junk PRV_STR_LENGTH) PRV_STR_LENGTH;
      if res =? 0 then ret (-1, None) else copy_out s res
  | LWM2M_TYPE_UNSIGNED_INTEGER =>
      u ← asUnsigned v;
      '(res, s) ← utils_uintToText u (junk PRV_STR_LENGTH) PRV_STR_LENGTH;
      if res =? 0 then ret (-1, None) else copy_out s res
  | LWM2M_TYPE_FLOAT =>
      f ← asFloat v;
      '(res, s) ← utils_floatToText f (junk (PRV_STR_LENGTH * 2)) (PRV_STR_LENGTH * 2) false;
      if res =? 0 then ret (-1, None) else copy_out s res
  | LWM2M_TYPE_BOOLEAN =>
      b ← asBoolean v;
      if malloc_ok 1 then ret (1, Some [if (b : bool) then chr "1" else chr "0"]) else ret (-1, None)
  | LWM2M_TYPE_OBJECT_LINK =>
      '(o, i) ← asObjLink v;
      '(length, s) ← utils_intToText o (junk 11) 5;
      if length =? 0 then ret (-1, None)
      else
        s ← wr s 5 (chr ":");
        let res := length + 1 in
        '(length, s) ← at_off s res (fun t => utils_intToText i t 5);
        if length =? 0 then ret (-1, None)
        else copy_out s (res + length)
  | LWM2M_TYPE_OPAQUE =>
      b ← asBuffer v;
      let length := utils_base64GetSize (len b) in
      if malloc_ok length then
        '(length, t) ← utils_base64Encode b (len b) (junk length) length;
        if length =? 0 then ret (0, None) else ret (s32 length, Some t)
      else ret (0, None)
  | _ => ret (-1, None)
  end.
End text.

(** ** Examples *)

(** The text written into a buffer of [n] bytes. *)
Definition text_of (data n : Z) (allowExponential : bool) : option (list Z) :=
  '(res, s) ← utils_floatToText data (replicate (Z.to_nat n) 0xAA) n allowExponential;
  ret (take (Z.to_nat res) s).

(** Vectors of tests/core_convert_numbers_test.c. *)
Example float_text_vectors :
  text_of 0xc03580a3d70a3d71 330 false = Some (str "-21.5025") /\
  text_of 0xbfb7ae147ae147ae 330 false = Some (str "-0.0925") /\
  text_of 0x3dd2537bf2d93ad5 330 true = Some (str "6.667e-11") /\
  text_of 0x3e112e0be826d695 6 false = Some (str "0.0") /\
  text_of 0x3fbc71c71c71c71c 6 false = Some (str "0.1111") /\
  text_of 0x3eb2a42f961f79b9 6 true = Some (str "1.1e-6") /\
  text_of 0x0010000000000000 24 true = Some (str "2.2250738585072e-308").
Proof. by vm_compute. Qed.

(** A number whose digits end before the point loses its exponent: 1e100 and
    1e-7 are both written 1.0. *)
Example float_exponent_lost :
  text_of 0x54b249ad2594c37d 64 true = Some (str "1.0") /\
  text_of 0x3e7ad7f29abcaf48 64 true = Some (str "1.0").
Proof. by vm_compute. Qed.

(** The separator of an object link is written at index 5, whatever the length
    of the first identifier. *)
Example objlink_text_misplaced :
  let junk n := replicate (Z.to_nat n) 0x55 in
  @prv_textSerialize malloc_always junk (mk_data LWM2M_TYPE_OBJECT_LINK 0 (VObjLink 10 20)) =
    Some (5, Some (str "10" ++ [0] ++ str "20")).
Proof. by vm_compute. Qed.

End FloatText.
