(* ===== verification/Tlv.v ===== *)
(** * The TLV format (data/tlv.c)

    Headers, the size computation, the serializer, which writes into an
    allocated buffer, and the recursive parser.  [enc] is the reference
    encoding the serializer is compared with. *)
From S2P Require Import Prelude Types Utils Float Data.
Import Utils Data.

Module Tlv.

Definition _PRV_TLV_TYPE_MASK : Z := 0xC0.
Definition _PRV_TLV_TYPE_UNKNOWN : Z := 0xFF.
Definition _PRV_TLV_TYPE_OBJECT : Z := 0x10.
Definition _PRV_TLV_TYPE_OBJECT_INSTANCE : Z := 0x00.
Definition _PRV_TLV_TYPE_RESOURCE : Z := 0xC0.
Definition _PRV_TLV_TYPE_MULTIPLE_RESOURCE : Z := 0x80.
Definition _PRV_TLV_TYPE_RESOURCE_INSTANCE : Z := 0x40.

(** ** Values: the bytes written to [data_buffer] *)

Definition prv_encodeFloat (data : Z) : C (list Z) :=
  if Float.exceeds_float data then utils_copyValue (le_bytes 8 data) 8
  else
    let value := Float.float_of_double data in
    utils_copyValue (le_bytes 4 value) 4.

Definition prv_encodeInt (data : Z) : C (list Z) :=
  if (-128 <=? data) && (data <=? 127) then ret [u8 data]
  else if (-32768 <=? data) && (data <=? 32767) then
    let value := s16 data in
    ret [Z.land (Z.shiftr value 8) 0xFF; Z.land value 0xFF]
  else if (-2147483648 <=? data) && (data <=? 2147483647) then
    let value := s32 data in
    utils_copyValue (le_bytes 4 value) 4
  else utils_copyValue (le_bytes 8 data) 8.

Definition prv_encodeUInt (data : Z) : C (list Z) :=
  if data <=? 255 then ret [u8 data]
  else if data <=? 65535 then
    let value := u16 data in
    ret [Z.land (Z.shiftr value 8) 0xFF; Z.land value 0xFF]
  else if data <=? 4294967295 then
    let value := u32 data in
    utils_copyValue (le_bytes 4 value) 4
  else utils_copyValue (le_bytes 8 data) 8.

(** ** Headers *)

Definition prv_getHeaderType (type : lwm2m_data_type_t) : Z :=
  match type with
  | LWM2M_TYPE_OBJECT => _PRV_TLV_TYPE_OBJECT
  | LWM2M_TYPE_OBJECT_INSTANCE => _PRV_TLV_TYPE_OBJECT_INSTANCE
  | LWM2M_TYPE_MULTIPLE_RESOURCE => _PRV_TLV_TYPE_MULTIPLE_RESOURCE
  | LWM2M_TYPE_STRING | LWM2M_TYPE_INTEGER | LWM2M_TYPE_UNSIGNED_INTEGER | LWM2M_TYPE_FLOAT
  | LWM2M_TYPE_BOOLEAN | LWM2M_TYPE_OPAQUE | LWM2M_TYPE_OBJECT_LINK | LWM2M_TYPE_CORE_LINK =>
      _PRV_TLV_TYPE_RESOURCE
  | LWM2M_TYPE_UNDEFINED => _PRV_TLV_TYPE_UNKNOWN
  end.

Definition prv_getDataType (type : Z) : lwm2m_data_type_t :=
  if type =? _PRV_TLV_TYPE_OBJECT then LWM2M_TYPE_OBJECT
  else if type =? _PRV_TLV_TYPE_OBJECT_INSTANCE then LWM2M_TYPE_OBJECT_INSTANCE
  else if type =? _PRV_TLV_TYPE_MULTIPLE_RESOURCE then LWM2M_TYPE_MULTIPLE_RESOURCE
  else if (type =? _PRV_TLV_TYPE_RESOURCE) || (type =? _PRV_TLV_TYPE_RESOURCE_INSTANCE) then
    LWM2M_TYPE_OPAQUE
  else LWM2M_TYPE_UNDEFINED.

Definition prv_getHeaderLength (id dataLen : Z) : Z :=
  let length := 2 in
  let length := if 0xFF <? id then length + 1 else length in
  if 0xFFFF <? dataLen then length + 3
  else if 0xFF <? dataLen then length + 2
  else if 7 <? dataLen then length + 1
  else length.

(** The header is written at [at] in [header], where [header[i]] is [header[at + i]]
    of the code; the result is the header's length and the buffer. *)
Definition prv_createHeader (header : list Z) (at_ : Z) (isInstance : bool)
    (type : lwm2m_data_type_t) (id data_len : Z) : C (Z * list Z) :=
  let header_len := prv_getHeaderLength id data_len in
  let hdrType := if isInstance then _PRV_TLV_TYPE_RESOURCE_INSTANCE else prv_getHeaderType type in
  let h0 := Z.land hdrType _PRV_TLV_TYPE_MASK in
  header ← wr header at_ h0;
  '(header, h0, offset) ←
    (if 0xFF <? id then
       let h0 := Z.lor h0 0x20 in
       header ← wr header at_ h0;
       header ← wr header (at_ + 1) (Z.land (Z.shiftr id 8) 0xFF);
       header ← wr header (at_ + 2) (Z.land id 0xFF);
       ret (header, h0, 3)
     else
       header ← wr header (at_ + 1) (u8 id);
       ret (header, h0, 2));
  if data_len <=? 7 then
    header ← wr header at_ (u8 (h0 + data_len));
    ret (header_len, header)
  else if data_len <=? 0xFF then
    header ← wr header at_ (Z.lor h0 0x08);
    header ← wr header (at_ + offset) (u8 data_len);
    ret (header_len, header)
  else if data_len <=? 0xFFFF then
    header ← wr header at_ (Z.lor h0 0x10);
    header ← wr header (at_ + offset) (Z.land (Z.shiftr data_len 8) 0xFF);
    header ← wr header (at_ + offset + 1) (Z.land data_len 0xFF);
    ret (header_len, header)
  else if data_len <=? 0xFFFFFF then
    header ← wr header at_ (Z.lor h0 0x18);
    header ← wr header (at_ + offset) (Z.land (Z.shiftr data_len 16) 0xFF);
    header ← wr header (at_ + offset + 1) (Z.land (Z.shiftr data_len 8) 0xFF);
    header ← wr header (at_ + offset + 2) (Z.land data_len 0xFF);
    ret (header_len, header)
  else ret (header_len, header).

Record tlv_header := mk_header {
  oType : lwm2m_data_type_t;
  oID : Z;
  oDataIndex : Z;
  oDataLen : Z
}.

(** [None] in the result is [return 0]; otherwise the code returns
    [oDataIndex + oDataLen], which is not 0. *)
Definition lwm2m_decode_TLV (buffer : list Z) (buffer_len : Z) : C (option tlv_header) :=
  if buffer_len <? 2 then ret None
  else
    let dataIndex := 2 in
    b0 ← rd buffer 0;
    let type := prv_getDataType (Z.land b0 _PRV_TLV_TYPE_MASK) in
    r ← (if Z.land b0 0x20 =? 0x20 then
           if buffer_len <? 3 then ret None
           else
             b1 ← rd buffer 1;
             b2 ← rd buffer 2;
             ret (Some (u16 (Z.shiftl b1 8 + b2), dataIndex + 1))
         else
           b1 ← rd buffer 1;
           ret (Some (b1, dataIndex)));
    match r with
    | None => ret None
    | Some (id, dataIndex) =>
        let sw := Z.land b0 0x18 in
        r ← (if sw =? 0x00 then ret (Some (Z.land b0 0x07, dataIndex))
             else if sw =? 0x08 then
               if buffer_len <? dataIndex + 1 then ret None
               else
                 l0 ← rd buffer dataIndex;
                 ret (Some (l0, dataIndex + 1))
             else if sw =? 0x10 then
               if buffer_len <? dataIndex + 2 then ret None
               else
                 l0 ← rd buffer dataIndex;
                 l1 ← rd buffer (dataIndex + 1);
                 ret (Some (Z.shiftl l0 8 + l1, dataIndex + 2))
             else if sw =? 0x18 then
               if buffer_len <? dataIndex + 3 then ret None
               else
                 l0 ← rd buffer dataIndex;
                 l1 ← rd buffer (dataIndex + 1);
                 l2 ← rd buffer (dataIndex + 2);
                 ret (Some (Z.shiftl l0 16 + Z.shiftl l1 8 + l2, dataIndex + 3))
             else ret None);
        match r with
        | None => ret None
        | Some (dataLen, dataIndex) =>
            if buffer_len <? dataIndex + dataLen then ret None
            else ret (Some (mk_header type id dataIndex dataLen))
        end
    end.

(** ** Parsing *)

Section tlv.
Context `{Malloc}.

(** The [while] loop of [tlv_parse] at [index], with the [size] nodes read so
    far in [data]; the result is the return value and [*dataP].  After
    [return 0] the array has been freed. *)
Fixpoint parse_loop (fuel : nat) (buffer : list Z) (bufferLen index size : Z)
    (data : list lwm2m_data_t) : C (Z * list lwm2m_data_t) :=
  match fuel with
  | O => None
  | S fuel =>
      r ← lwm2m_decode_TLV (drop (Z.to_nat index) buffer) (bufferLen - index);
      match r with
      | None => ret (size, data)
      | Some h =>
          match lwm2m_data_new (size + 1) with
          | None => if 1 <=? size then ret (0, []) else None
          | Some _ =>
              let start := drop (Z.to_nat (index + oDataIndex h)) buffer in
              let next := index + (oDataIndex h + oDataLen h) in
              match oType h with
              | LWM2M_TYPE_OBJECT_INSTANCE | LWM2M_TYPE_MULTIPLE_RESOURCE =>
                  '(count, array) ← parse_loop fuel start (oDataLen h) 0 0 [];
                  if count =? 0 then ret (0, [])
                  else
                    parse_loop fuel buffer bufferLen next (size + 1)
                      (data ++ [mk_data (oType h) (oID h) (VChildren array)])
              | _ =>
                  d ← lwm2m_data_encode_opaque start (oDataLen h) (mk_data (oType h) (oID h) VZero);
                  parse_loop fuel buffer bufferLen next (size + 1) (data ++ [d])
              end
          end
      end
  end.

(** Every record takes two bytes, so the length bounds the iterations of the
    loop and the depth of the recursion. *)
Definition tlv_parse (buffer : list Z) (bufferLen : Z) : C (Z * list lwm2m_data_t) :=
  parse_loop (S (Z.to_nat bufferLen)) buffer bufferLen 0 0 [].

(** ** Size *)

(** The [for] loop of [prv_getLength] over the elements of an array. *)
Definition length_loop (f : lwm2m_data_t -> Z -> C Z) : list lwm2m_data_t -> Z -> C Z :=
  fix loop l length :=
    match l with
    | [] => ret length
    | cur :: l =>
        if length =? -1 then ret length
        else length ← f cur length; loop l length
    end.

(** [length += prv_getHeaderLength(cur->id, data_len) + data_len], the sum being
    a [size_t] converted back to [int]. *)
Definition add_length (length id data_len : Z) : Z :=
  s32 (u64 (length + u64 (prv_getHeaderLength id data_len + data_len))).

(** The [switch] of [prv_getLength]: the new [length]. *)
Fixpoint getLength_item (cur : lwm2m_data_t) (length : Z) : C Z :=
  let 'mk_data type id value := cur in
  match type with
  | LWM2M_TYPE_OBJECT_INSTANCE | LWM2M_TYPE_MULTIPLE_RESOURCE =>
      subLength ←
        (match value with
         | VZero => ret 0
         | VChildren array => length_loop getLength_item array 0
         | _ => None
         end);
      if subLength =? -1 then ret (-1)
      else
        let add := prv_getHeaderLength id (u64 subLength) + subLength in
        assert! int_ok add && int_ok (length + add);
        ret (length + add)
  | LWM2M_TYPE_STRING | LWM2M_TYPE_OPAQUE | LWM2M_TYPE_CORE_LINK =>
      b ← asBuffer value; ret (add_length length id (len b))
  | LWM2M_TYPE_INTEGER =>
      i ← asInteger value; e ← prv_encodeInt i; ret (add_length length id (len e))
  | LWM2M_TYPE_UNSIGNED_INTEGER =>
      u ← asUnsigned value; e ← prv_encodeUInt u; ret (add_length length id (len e))
  | LWM2M_TYPE_FLOAT =>
      f ← asFloat value; ret (add_length length id (if Float.exceeds_float f then 8 else 4))
  | LWM2M_TYPE_BOOLEAN =>
      let add := prv_getHeaderLength id 1 + 1 in
      assert! int_ok (length + add);
      ret (length + add)
  | LWM2M_TYPE_OBJECT_LINK =>
      let add := prv_getHeaderLength id 4 + 4 in
      assert! int_ok (length + add);
      ret (length + add)
  | _ => ret (-1)
  end.

Definition prv_getLength (dataP : list lwm2m_data_t) : C Z := length_loop getLength_item dataP 0.

(** ** Serialization *)

(** The bytes a fresh allocation holds. *)
Variable junk : Z.

(** A header and the data after it, at [index]. *)
Definition put_record (buffer : list Z) (index : Z) (isInstance : bool) (type : lwm2m_data_type_t)
    (id : Z) (data : list Z) : C (list Z * Z) :=
  '(headerLen, buffer) ← prv_createHeader buffer index isInstance type id (len data);
  let index := index + headerLen in
  buffer ← wr_bytes buffer index data;
  ret (buffer, index + len data).

(** The [for] loop of [tlv_serialize]: the buffer, [index] and [length]. *)
Definition serialize_loop (f : lwm2m_data_t -> list Z * Z * Z -> C (list Z * Z * Z)) :
    list lwm2m_data_t -> list Z * Z * Z -> C (list Z * Z * Z) :=
  fix loop l st :=
    match l with
    | [] => ret st
    | cur :: l =>
        let '(_, _, length) := st in
        if length =? 0 then ret st else st ← f cur st; loop l st
    end.

(** The body of [tlv_serialize] around its loop: the return value and the
    buffer, empty when it is null. *)
Definition serialize_body (loop : list lwm2m_data_t -> list Z * Z * Z -> C (list Z * Z * Z))
    (dataP : list lwm2m_data_t) : C (Z * list Z) :=
  length ← prv_getLength dataP;
  if length <=? 0 then ret (length, [])
  else if negb (malloc_ok length) then ret (0, [])
  else
    '(buffer, _, length) ← loop dataP (replicate (Z.to_nat length) junk, 0, length);
    if length <? 0 then ret (length, []) else ret (length, buffer).

(** The [switch] of [tlv_serialize] for one element. *)
Fixpoint serialize_item (isResourceInstance : bool) (cur : lwm2m_data_t) (st : list Z * Z * Z)
    : C (list Z * Z * Z) :=
  let 'mk_data type id value := cur in
  let '(buffer, index, length) := st in
  let put data :=
    '(buffer, index) ← put_record buffer index isResourceInstance type id data;
    ret (buffer, index, length) in
  match type with
  | LWM2M_TYPE_MULTIPLE_RESOURCE | LWM2M_TYPE_OBJECT_INSTANCE =>
      let isInstance :=
        match type with LWM2M_TYPE_MULTIPLE_RESOURCE => true | _ => isResourceInstance end in
      '(res, tmpBuffer) ←
        (match value with
         | VZero => serialize_body (fun _ st => ret st) []
         | VChildren array => serialize_body (serialize_loop (serialize_item isInstance)) array
         | _ => None
         end);
      if res <? 0 then ret (buffer, index, -1)
      else
        '(headerLen, buffer) ← prv_createHeader buffer index false type id res;
        let index := index + headerLen in
        if 0 <? res then
          tmp ← rd_bytes tmpBuffer 0 res;
          buffer ← wr_bytes buffer index tmp;
          ret (buffer, index + res, length)
        else ret (buffer, index, length)
  | LWM2M_TYPE_OBJECT_LINK =>
      '(objectId, objectInstanceId) ← asObjLink value;
      let v := Z.lor (u32 (Z.shiftl objectId 16)) objectInstanceId in
      put [Z.land (Z.shiftr v 24) 0xFF; Z.land (Z.shiftr v 16) 0xFF;
           Z.land (Z.shiftr v 8) 0xFF; Z.land v 0xFF]
  | LWM2M_TYPE_STRING | LWM2M_TYPE_OPAQUE | LWM2M_TYPE_CORE_LINK =>
      b ← asBuffer value; put b
  | LWM2M_TYPE_INTEGER => i ← asInteger value; e ← prv_encodeInt i; put e
  | LWM2M_TYPE_UNSIGNED_INTEGER => u ← asUnsigned value; e ← prv_encodeUInt u; put e
  | LWM2M_TYPE_FLOAT => f ← asFloat value; e ← prv_encodeFloat f; put e
  | LWM2M_TYPE_BOOLEAN => b ← asBoolean value; put [if b : bool then 1 else 0]
  | _ => ret (buffer, index, -1)
  end.

Definition tlv_serialize (isResourceInstance : bool) (dataP : list lwm2m_data_t) : C (Z * list Z) :=
  serialize_body (serialize_loop (serialize_item isResourceInstance)) dataP.
End tlv.

Example tlv_serialize_1 :
  @tlv_serialize malloc_always 0 false
    [mk_data LWM2M_TYPE_INTEGER 1 (VInteger 300);
     mk_data LWM2M_TYPE_MULTIPLE_RESOURCE 300 (VChildren [mk_data LWM2M_TYPE_STRING 0 (VBuffer (str "abc"))])]
  = Some (12, [0xC2; 1; 1; 44; 0xA5; 1; 44; 0x43; 0; 97; 98; 99]).
Proof. by vm_compute. Qed.

Example tlv_parse_1 :
  @tlv_parse malloc_always [0xC2; 1; 1; 44; 0xA5; 1; 44; 0x43; 0; 97; 98; 99] 12
  = Some (2, [mk_data LWM2M_TYPE_OPAQUE 1 (VBuffer [1; 44]);
      mk_data LWM2M_TYPE_MULTIPLE_RESOURCE 300 (VChildren [mk_data LWM2M_TYPE_OPAQUE 0 (VBuffer (str "abc"))])]).
Proof. by vm_compute. Qed.

(** ** Reference encoding *)

Definition type_bits (isInstance : bool) (type : lwm2m_data_type_t) : Z :=
  if isInstance then 64
  else match type with
       | LWM2M_TYPE_OBJECT | LWM2M_TYPE_OBJECT_INSTANCE => 0
       | LWM2M_TYPE_MULTIPLE_RESOURCE => 128
       | _ => 192
       end.

(** Two bytes of identifier above 255; no length field up to 7, then one, two
    or three bytes. *)
Definition length_field (n : Z) : Z * list Z :=
  if n <=? 7 then (n, [])
  else if n <=? 0xFF then (8, be_bytes 1 n)
  else if n <=? 0xFFFF then (16, be_bytes 2 n)
  else (24, be_bytes 3 n).

Definition header_bytes (tb id n : Z) : list Z :=
  (tb + (if 0xFF <? id then 32 else 0) + fst (length_field n)) ::
  (if 0xFF <? id then be_bytes 2 id else be_bytes 1 id) ++ snd (length_field n).

Definition int_bytes (i : Z) : list Z :=
  if (-128 <=? i) && (i <=? 127) then be_bytes 1 i
  else if (-32768 <=? i) && (i <=? 32767) then be_bytes 2 i
  else if (-2147483648 <=? i) && (i <=? 2147483647) then be_bytes 4 i
  else be_bytes 8 i.

Definition uint_bytes (u : Z) : list Z :=
  if u <=? 255 then be_bytes 1 u
  else if u <=? 65535 then be_bytes 2 u
  else if u <=? 4294967295 then be_bytes 4 u
  else be_bytes 8 u.

Definition leaf_bytes (v : value_t) : list Z :=
  match v with
  | VBoolean b => [if b then 1 else 0]
  | VInteger i => int_bytes i
  | VUnsigned u => uint_bytes u
  | VFloat f => if Float.exceeds_float f then be_bytes 8 f else be_bytes 4 (Float.float_of_double f)
  | VBuffer b => b
  | VObjLink o i => be_bytes 2 o ++ be_bytes 2 i
  | _ => []
  end.

Fixpoint enc (isInstance : bool) (d : lwm2m_data_t) : list Z :=
  let 'mk_data type id value := d in
  match value with
  | VChildren l =>
      let body := concat (map (enc match type with LWM2M_TYPE_MULTIPLE_RESOURCE => true | _ => isInstance end) l) in
      header_bytes (type_bits false type) id (len body) ++ body
  | v => header_bytes (type_bits isInstance type) id (len (leaf_bytes v)) ++ leaf_bytes v
  end.
Definition encs (isInstance : bool) (l : list lwm2m_data_t) : list Z := concat (map (enc isInstance) l).

(** ** Headers *)

Lemma header_bytes_length tb id n : len (header_bytes tb id n) = prv_getHeaderLength id n.
Proof.
  unfold header_bytes, length_field, prv_getHeaderLength. cbn [length]. autorewrite with buf.
  destruct (0xFF <? id) eqn:E; destruct (n <=? 7) eqn:E1; [by guards|..|by guards|];
    destruct (n <=? 0xFF) eqn:E2; cbn [snd]; try (by guards; lens);
    destruct (n <=? 0xFFFF) eqn:E3; cbn [snd]; by guards; lens.
Qed.

Lemma header_length_bound id n : 2 <= prv_getHeaderLength id n <= 6.
Proof.
  unfold prv_getHeaderLength.
  destruct (_ <? id), (0xFFFF <? n), (0xFF <? n), (7 <? n); lia.
Qed.

Lemma type_bits_cases inst t : type_bits inst t ∈ [0; 64; 128; 192].
Proof. unfold type_bits. destruct inst; [set_solver|]. destruct t; set_solver. Qed.

Lemma header_type_mask (inst : bool) t :
  t <> LWM2M_TYPE_UNDEFINED ->
  Z.land (if inst then _PRV_TLV_TYPE_RESOURCE_INSTANCE else prv_getHeaderType t) _PRV_TLV_TYPE_MASK =
    type_bits inst t.
Proof. intros Ht. destruct inst; [done|]. by destruct t. Qed.

(** Writing a header at the start of a buffer of explicit cells. *)
Ltac wr_header :=
  repeat (repeat match goal with
                 | |- context [Z.of_nat ?x + ?b + ?c] => rewrite <- (Z.add_assoc (Z.of_nat x) b c)
                 end;
          first [rewrite wr_off_0 | rewrite wr_off by lia]; wr_const; mstep).

(** As many explicit cells as the length of [q] guarantees. *)
Ltac cells q Hq :=
  repeat (destruct q as [|? q]; [solve [exfalso; cbn [length] in Hq; lia]|]).

Lemma createHeader_ok p q inst t id n :
  t <> LWM2M_TYPE_UNDEFINED -> 0 <= id <= 65535 -> 0 <= n <= 0xFFFFFF ->
  prv_getHeaderLength id n <= len q ->
  let hdr := header_bytes (type_bits inst t) id n in
  prv_createHeader (p ++ q) (len p) inst t id n =
    Some (len hdr, (p ++ hdr) ++ drop (length hdr) q).
Proof.
  intros Ht Hid Hn Hq hdr.
  assert (len hdr = prv_getHeaderLength id n) as Hl by apply header_bytes_length.
  unfold prv_createHeader. rewrite header_type_mask by done. rewrite Hl. unfold hdr, header_bytes in *.
  clear hdr. pose proof (type_bits_cases inst t) as Htb. generalize dependent (type_bits inst t).
  intros tb Hl Htb. clear Hl. unfold prv_getHeaderLength, length_field in *.
  assert (n <= 7 \/ 7 < n <= 255 \/ 255 < n <= 65535 \/ 65535 < n) as Hc by lia.
  revert Hq. destruct (0xFF <? id) eqn:E; destruct Hc as [Hc|[Hc|[Hc|Hc]]]; guards; intros Hq.
  all: cells q Hq; wr_header; cbn [fst snd]; rewrite ?be_bytes_1, ?be_bytes_2, ?be_bytes_3;
    cbn [app length drop]; apps; rewrite ?shiftr_land, ?land_FF, drop_0 by lia;
    unfold wrap; change (2 ^ 8) with 256; change (2 ^ 16) with 65536.
  all: set_unfold in Htb; destruct Htb as [->|[->|[->|[->|[]]]]]; 
    repeat match goal with
    | |- context [Z.lor ?a ?b] => let v := eval vm_compute in (Z.lor a b) in change (Z.lor a b) with v
    end; repeat f_equal; dlia.
Qed.

(** The fields of the first byte. *)
Lemma first_byte_fields b :
  0 <= b < 256 ->
  Z.land b _PRV_TLV_TYPE_MASK = b / 64 * 64 /\ Z.land b 0x20 = b / 32 mod 2 * 32 /\
  Z.land b 0x18 = b / 8 mod 4 * 8 /\ Z.land b 0x07 = b mod 8.
Proof.
  intros Hb. pose proof (range_cases 256 (fun b =>
    (Z.land b _PRV_TLV_TYPE_MASK =? b / 64 * 64) && (Z.land b 0x20 =? b / 32 mod 2 * 32) &&
    (Z.land b 0x18 =? b / 8 mod 4 * 8) && (Z.land b 0x07 =? b mod 8)) ltac:(by vm_compute) b Hb) as H.
  cbn beta in H. lia.
Qed.

Lemma length_field_cases n :
  0 <= n <= 0xFFFFFF ->
  let '(l, bs) := length_field n in
  0 <= l < 32 /\ be_val bs + (if l <? 8 then l else 0) = n /\ bytes bs /\
  (l < 8 /\ bs = [] \/ l = 8 /\ len bs = 1 \/ l = 16 /\ len bs = 2 \/ l = 24 /\ len bs = 3).
Proof.
  intros Hn. unfold length_field.
  destruct (n <=? 7) eqn:E1; [change (be_val []) with 0; guards; split_and!; [lia..|by apply list.Forall_nil_2|left; split; [lia|done]]|].
  destruct (n <=? 0xFF) eqn:E2; [|destruct (n <=? 0xFFFF) eqn:E3];
    (split; [lia|]); cbn [Z.ltb Z.compare Pos.compare Pos.compare_cont];
    rewrite be_val_small by (cbn; lia); (split; [lia|]); (split; [apply be_bytes_bytes|]); lens.
Qed.

Lemma rd_cons_S (x : Z) (l : list Z) i : 0 < i -> rd (x :: l) i = rd l (i - 1).
Proof.
  intros Hi. change (x :: l) with ([x] ++ l). rewrite rd_app_r by (cbn; lia). done.
Qed.

(** Reading a header back, with anything after it. *)
Lemma decode_header tb id n buffer_len rest :
  tb ∈ [0; 64; 128; 192] -> 0 <= id <= 65535 -> 0 <= n <= 0xFFFFFF ->
  let hdr := header_bytes tb id n in
  len hdr + n <= buffer_len ->
  lwm2m_decode_TLV (hdr ++ rest) buffer_len =
    Some (Some (mk_header (prv_getDataType tb) id (len hdr) n)).
Proof.
  intros Htb Hid Hn hdr. unfold hdr, header_bytes.
  pose proof (length_field_cases n Hn) as Hf. destruct (length_field n) as [l bs]. cbn [fst snd].
  destruct Hf as (Hl & Hv & Hbs & Hc). intros Hlen.
  set (b0 := tb + (if 0xFF <? id then 32 else 0) + l) in *.
  assert (0 <= tb <= 192 /\ tb mod 64 = 0) as Htb'
    by (set_unfold in Htb; destruct Htb as [->|[->|[->|[->|[]]]]]; vm_compute; repeat split; discriminate).
  destruct (first_byte_fields b0) as (F1 & F2 & F3 & F4); [unfold b0; destruct (0xFF <? id); lia|].
  unfold lwm2m_decode_TLV. cbn [length app] in *. autorewrite with buf in Hlen.
  guards. rewrite rd_cons_0. mstep. rewrite F1, F2, F3, F4.
  assert (b0 / 64 * 64 = tb) as -> by (unfold b0; destruct (0xFF <? id); dlia).
  assert (b0 / 8 mod 4 * 8 = l / 8 * 8) as -> by (unfold b0; destruct (0xFF <? id); dlia).
  assert (b0 / 32 mod 2 * 32 = if 0xFF <? id then 32 else 0) as -> by (unfold b0; destruct (0xFF <? id); dlia).
  assert (b0 mod 8 = l mod 8) as -> by (unfold b0; destruct (0xFF <? id); dlia).
  destruct (0xFF <? id) eqn:E; rewrite ?be_bytes_1, ?be_bytes_2 in *; cbn [app length] in *;
    change (32 =? 32) with true; change (0 =? 32) with false; cbn match; guards;
    repeat (rd_const; mstep).
  all: assert ((l / 8 * 8 =? 0) = (l <? 8)) as -> by dlia;
    destruct Hc as [[Hc ->]|[[-> Hb]|[[-> Hb]|[-> Hb]]]];
    [|destruct bs as [|x [|]]; cbn in Hb; [lia| |lia]
     |destruct bs as [|x [|y [|]]]; cbn in Hb; [lia|lia| |lia]
     |destruct bs as [|x [|y [|z [|]]]]; cbn in Hb; [lia|lia|lia| |lia]];
    try (change (8 / 8 * 8) with 8); try (change (16 / 8 * 8) with 16); try (change (24 / 8 * 8) with 24);
    unfold be_val in Hv; cbn [rev app le_val length] in *; revert Hv; guards; intros Hv;
    cbn [lookup list_lookup]; mstep; repeat (rewrite shiftl_mul by lia);
    try rewrite (Z.mod_small l 8) by lia; guards; do 3 f_equal; try rewrite wrap_small by (cbn; dlia); try lia; dlia.
Qed.

(** ** Values *)

Lemma encodeInt_ok i : prv_encodeInt i = Some (int_bytes i).
Proof.
  unfold prv_encodeInt, int_bytes.
  destruct ((-128 <=? i) && (i <=? 127)); [done|].
  destruct ((-32768 <=? i) && (i <=? 32767)) eqn:E1.
  { rewrite swrap_small by (cbn; lia). by rewrite shiftr_land, land_FF, be_bytes_2 by lia. }
  destruct ((-2147483648 <=? i) && (i <=? 2147483647)) eqn:E2.
  { rewrite swrap_small by (cbn; lia). exact (copyValue_le 4 i). }
  exact (copyValue_le 8 i).
Qed.

Lemma encodeUInt_ok u : 0 <= u -> prv_encodeUInt u = Some (uint_bytes u).
Proof.
  intros Hu. unfold prv_encodeUInt, uint_bytes. destruct (u <=? 255); [done|].
  destruct (u <=? 65535) eqn:E1.
  { rewrite wrap_small by (cbn; lia). by rewrite shiftr_land, land_FF, be_bytes_2 by lia. }
  destruct (u <=? 4294967295) eqn:E2.
  { rewrite wrap_small by (cbn; lia). exact (copyValue_le 4 u). }
  exact (copyValue_le 8 u).
Qed.

Lemma encodeFloat_ok f : prv_encodeFloat f = Some (leaf_bytes (VFloat f)).
Proof.
  unfold prv_encodeFloat. cbn [leaf_bytes].
  destruct (Float.exceeds_float f); [exact (copyValue_le 8 f)|exact (copyValue_le 4 _)].
Qed.

(** A value is of the union member its type tag selects. *)
Definition leaf_ok (t : lwm2m_data_type_t) (v : value_t) : Prop :=
  match t, v with
  | LWM2M_TYPE_STRING, VBuffer b | LWM2M_TYPE_OPAQUE, VBuffer b | LWM2M_TYPE_CORE_LINK, VBuffer b =>
      bytes b /\ len b <= 0xFFFFFF
  | LWM2M_TYPE_INTEGER, VInteger i => INT64_MIN <= i <= INT64_MAX
  | LWM2M_TYPE_UNSIGNED_INTEGER, VUnsigned u => 0 <= u <= UINT64_MAX
  | LWM2M_TYPE_FLOAT, VFloat f => 0 <= f < 2 ^ 64
  | LWM2M_TYPE_BOOLEAN, VBoolean _ => True
  | LWM2M_TYPE_OBJECT_LINK, VObjLink o i => 0 <= o <= 65535 /\ 0 <= i <= 65535
  | _, _ => False
  end.

(** Trees a TLV payload can carry: 16-bit identifiers, values of their type,
    and at most 2^24-1 bytes in each container.  With [e = false] no container
    is empty. *)
Inductive data_wf (e : bool) : lwm2m_data_t -> Prop :=
  | wf_leaf t i v : 0 <= i <= 65535 -> leaf_ok t v -> data_wf e (mk_data t i v)
  | wf_node t i l :
      0 <= i <= 65535 -> t = LWM2M_TYPE_OBJECT_INSTANCE \/ t = LWM2M_TYPE_MULTIPLE_RESOURCE ->
      Forall (data_wf e) l -> len (encs false l) <= 0xFFFFFF -> (e = false -> l <> []) ->
      data_wf e (mk_data t i (VChildren l)).

Lemma leaf_bytes_length t v : leaf_ok t v -> 0 <= len (leaf_bytes v) <= 0xFFFFFF.
Proof.
  intros H. destruct v; cbn [leaf_bytes]; destruct t; cbn in H; try done; try (cbn; lia); try tauto.
  1: unfold int_bytes; destruct (_ && _); [|destruct (_ && _); [|destruct (_ && _)]]; cbn; lia.
  1: unfold uint_bytes; destruct (_ <=? _); [|destruct (_ <=? _); [|destruct (_ <=? _)]]; cbn; lia.
  destruct (Float.exceeds_float bits); cbn; lia.
Qed.

Lemma data_wf_tree e (P : lwm2m_data_t -> Prop) :
  (forall t i v, 0 <= i <= 65535 -> leaf_ok t v -> P (mk_data t i v)) ->
  (forall t i l, 0 <= i <= 65535 -> t = LWM2M_TYPE_OBJECT_INSTANCE \/ t = LWM2M_TYPE_MULTIPLE_RESOURCE ->
     Forall (data_wf e) l -> Forall P l -> len (encs false l) <= 0xFFFFFF -> (e = false -> l <> []) ->
     P (mk_data t i (VChildren l))) ->
  forall d, data_wf e d -> P d.
Proof.
  intros Hl Hn d. apply (lwm2m_data_tree_ind (fun d => data_wf e d -> P d)).
  - intros t i v Hv. inversion 1; subst; [by apply Hl|]. exfalso. by eapply Hv.
  - intros t i l IH. inversion 1 as [? ? ? ? Hok|? ? ? Hi Ht Hf Hlen He]; subst; [by destruct t|].
    apply Hn; auto. clear -IH Hf. induction Hf; [by apply list.Forall_nil_2|].
    apply Forall_cons in IH as [IH1 IH2]. apply list.Forall_cons_2; auto.
Qed.

Lemma enc_length_inst inst inst' d : length (enc inst d) = length (enc inst' d).
Proof.
  revert inst inst'. apply (lwm2m_data_tree_ind (fun d => forall inst inst', length (enc inst d) = length (enc inst' d)));
    [intros t i v Hv|intros t i l IH]; intros inst inst'; cbn [enc].
  - destruct v; try (exfalso; by eapply Hv); cbn [leaf_bytes]; by rewrite !length_app.
  - assert (forall a b, length (concat (map (enc a) l)) = length (concat (map (enc b) l))) as He.
    { intros a b. clear -IH. induction IH as [|d l Hd _ IHl]; [done|]. cbn [map concat].
      by rewrite !length_app, (Hd a b), IHl. }
    rewrite !length_app. rewrite (He _ (match t with LWM2M_TYPE_MULTIPLE_RESOURCE => true | _ => inst' end)).
    done.
Qed.

Lemma encs_length_inst inst inst' l : length (encs inst l) = length (encs inst' l).
Proof.
  unfold encs. induction l as [|d l IH]; [done|]. cbn [map concat].
  by rewrite !length_app, (enc_length_inst inst inst' d), IH.
Qed.

(** ** The size computation *)

Lemma enc_leaf inst t i v :
  leaf_ok t v ->
  enc inst (mk_data t i v) = header_bytes (type_bits inst t) i (len (leaf_bytes v)) ++ leaf_bytes v.
Proof. destruct v; try done. by destruct t. Qed.

Lemma enc_length_leaf inst t i v :
  leaf_ok t v ->
  len (enc inst (mk_data t i v)) = prv_getHeaderLength i (len (leaf_bytes v)) + len (leaf_bytes v).
Proof. intros. rewrite enc_leaf by done. by rewrite length_app, Nat2Z.inj_add, header_bytes_length. Qed.

Lemma enc_length_node inst t i l :
  len (enc inst (mk_data t i (VChildren l))) =
    prv_getHeaderLength i (len (encs inst l)) + len (encs inst l).
Proof.
  cbn [enc]. fold (encs (match t with LWM2M_TYPE_MULTIPLE_RESOURCE => true | _ => inst end) l).
  rewrite length_app, Nat2Z.inj_add, header_bytes_length.
  by rewrite (encs_length_inst _ inst).
Qed.

Lemma enc_nonempty inst e d : data_wf e d -> 0 < len (enc inst d).
Proof.
  inversion 1; subst.
  - rewrite enc_length_leaf by done. pose proof (header_length_bound i (len (leaf_bytes v))). lia.
  - rewrite enc_length_node. pose proof (header_length_bound i (len (encs inst l))). lia.
Qed.

Lemma add_length_ok length i n :
  0 <= length -> 0 <= n -> length + (prv_getHeaderLength i n + n) <= INT_MAX ->
  add_length length i n = length + (prv_getHeaderLength i n + n).
Proof.
  unfold INT_MAX, add_length. intros. pose proof (header_length_bound i n).
  rewrite (wrap_small 64 (_ + n)) by (cbn; lia). rewrite wrap_small by (cbn; lia).
  apply swrap_small; cbn; lia.
Qed.

Lemma length_loop_ok inst e f l :
  Forall (data_wf e) l ->
  Forall (fun d => forall length, 0 <= length -> length + len (enc inst d) <= INT_MAX ->
    f d length = Some (length + len (enc inst d))) l ->
  forall length, 0 <= length -> length + len (encs inst l) <= INT_MAX ->
  length_loop f l length = Some (length + len (encs inst l)).
Proof.
  unfold encs. intros Hwf Hl. induction Hl as [|d l Hd Hl IH]; intros length H0 Hb.
  - cbn. f_equal. lia.
  - apply Forall_cons in Hwf as [_ Hwf]. cbn [length_loop map concat] in *.
    rewrite length_app, Nat2Z.inj_add in *. guards. rewrite Hd by lia. mstep.
    rewrite IH by (done || lia). f_equal. lia.
Qed.

Lemma getLength_item_ok inst e d :
  data_wf e d -> forall length, 0 <= length -> length + len (enc inst d) <= INT_MAX ->
  getLength_item d length = Some (length + len (enc inst d)).
Proof.
  revert d. apply (data_wf_tree e (fun d => forall length, 0 <= length ->
    length + len (enc inst d) <= INT_MAX -> _)).
  - intros t i v Hi Hok length H0 Hb. pose proof (leaf_bytes_length t v Hok).
    rewrite enc_length_leaf in * by done.
    pose proof (add_length_ok length i (len (leaf_bytes v)) H0 ltac:(lia) Hb) as Hadd.
    destruct t, v; cbn in Hok; try done; cbn [getLength_item asBuffer asInteger asUnsigned asFloat]; mstep;
      rewrite ?encodeInt_ok, ?encodeUInt_ok by lia; mstep; try (rewrite <- Hadd; done).
    + rewrite <- Hadd. cbn [leaf_bytes]. by destruct (Float.exceeds_float bits).
    + change (len (leaf_bytes (VBoolean b))) with 1 in *. pose proof (header_length_bound i 1).
      unfold int_ok, INT_MAX in *. by guards.
    + change (len (leaf_bytes (VObjLink objectId objectInstanceId))) with 4 in *.
      pose proof (header_length_bound i 4). unfold int_ok, INT_MAX in *. by guards.
  - intros t i l Hi Ht Hf IH Hlen _ length H0 Hb. rewrite enc_length_node in *.
    rewrite (encs_length_inst inst false) in *.
    pose proof (header_length_bound i (len (encs false l))).
    assert (length_loop getLength_item l 0 = Some (len (encs false l))) as Hs.
    { rewrite (length_loop_ok false e getLength_item l); [done|done| |lia|unfold INT_MAX; lia].
      eapply list.Forall_impl; [exact IH|]. intros d Hd len' Hlen' Hb'.
      rewrite (enc_length_inst false inst) in *. by apply Hd. }
    destruct Ht as [->| ->]; cbn [getLength_item]; rewrite Hs; mstep; guards;
      rewrite wrap_small by (cbn; lia); unfold int_ok, INT_MAX in *; guards; done.
Qed.

Lemma getLength_ok inst e l :
  Forall (data_wf e) l -> len (encs inst l) <= INT_MAX -> prv_getLength l = Some (len (encs inst l)).
Proof.
  intros Hl Hb. unfold prv_getLength. rewrite (length_loop_ok inst e); [done|done| |lia|lia].
  eapply list.Forall_impl; [exact Hl|]. intros d Hd. by eapply getLength_item_ok.
Qed.

(** ** Serialization *)

Section serialize.
Context `{Malloc}.
Variable junk : Z.
Hypothesis malloc_never_fails : forall n, malloc_ok n = true.

Lemma put_record_ok p q inst t id data :
  t <> LWM2M_TYPE_UNDEFINED -> 0 <= id <= 65535 -> len data <= 0xFFFFFF ->
  let r := header_bytes (type_bits inst t) id (len data) ++ data in
  len r <= len q ->
  put_record (p ++ q) (len p) inst t id data =
    Some ((p ++ r) ++ drop (length r) q, len (p ++ r)).
Proof.
  intros Ht Hid Hd r Hr. unfold put_record, r in *. pose proof (header_bytes_length (type_bits inst t) id (len data)).
  rewrite createHeader_ok by (done || lens). mstep.
  rewrite wr_bytes_app by lens. mstep. rewrite drop_drop.
  rewrite <- (app_assoc p (header_bytes _ _ _)), (length_app (header_bytes _ _ _)).
  f_equal. f_equal. lens.
Qed.

(** An element is written right after what is already in the buffer. *)
Definition item_writes (inst : bool) (d : lwm2m_data_t) : Prop :=
  forall p q length, len (enc inst d) <= len q ->
  serialize_item junk inst d (p ++ q, len p, length) =
    Some ((p ++ enc inst d) ++ drop (base.length (enc inst d)) q, len (p ++ enc inst d), length).

Lemma serialize_loop_ok inst l :
  Forall (item_writes inst) l -> forall p q length, length <> 0 -> len (encs inst l) <= len q ->
  serialize_loop (serialize_item junk inst) l (p ++ q, len p, length) =
    Some ((p ++ encs inst l) ++ drop (base.length (encs inst l)) q, len (p ++ encs inst l), length).
Proof.
  unfold encs. induction 1 as [|d l Hd Hl IH]; intros p q length H0 Hq; cbn [serialize_loop map concat] in *.
  - rewrite app_nil_r. cbn [base.length]. by rewrite drop_0.
  - guards. rewrite length_app in Hq. rewrite Hd by lens. mstep.
    rewrite IH by (done || lens). rewrite drop_drop.
    by rewrite <- (app_assoc p (enc inst d)), (length_app (enc inst d)).
Qed.

Lemma serialize_body_ok e inst l :
  Forall (data_wf e) l -> Forall (item_writes inst) l -> len (encs inst l) <= INT_MAX ->
  serialize_body junk (serialize_loop (serialize_item junk inst)) l = Some (len (encs inst l), encs inst l).
Proof.
  intros Hwf Hl Hb. unfold serialize_body. rewrite (getLength_ok inst e) by done. mstep.
  destruct (len (encs inst l) <=? 0) eqn:E.
  { assert (encs inst l = []) as -> by (destruct (encs inst l); [done|cbn in E; lia]). done. }
  rewrite malloc_never_fails. cbn [negb].
  pose proof (serialize_loop_ok inst l Hl [] (replicate (Z.to_nat (len (encs inst l))) junk)
    (len (encs inst l)) ltac:(lia)) as Hs. cbn [app length] in Hs. change (Z.of_nat 0) with 0 in Hs.
  rewrite Hs by lens. mstep. guards. rewrite drop_ge by lens. by rewrite app_nil_r.
Qed.

Lemma objlink_bytes o i :
  0 <= o <= 65535 -> 0 <= i <= 65535 ->
  let v := Z.lor (u32 (Z.shiftl o 16)) i in
  [Z.land (Z.shiftr v 24) 0xFF; Z.land (Z.shiftr v 16) 0xFF;
   Z.land (Z.shiftr v 8) 0xFF; Z.land v 0xFF] = be_bytes 2 o ++ be_bytes 2 i.
Proof.
  intros Ho Hi. cbv zeta. rewrite shiftl_mul, wrap_small by (cbn; lia).
  rewrite (lor_add o i 16) by lia. rewrite !shiftr_land, land_FF, !be_bytes_2 by lia. cbn [app].
  change (2 ^ 24) with 16777216. change (2 ^ 16) with 65536. change (2 ^ 8) with 256.
  repeat (apply (f_equal2 (@cons Z)); [dlia|]). done.
Qed.

Lemma serialize_leaf inst t i v buffer index length :
  leaf_ok t v ->
  serialize_item junk inst (mk_data t i v) (buffer, index, length) =
    ('(buffer, index) ← put_record buffer index inst t i (leaf_bytes v);
     ret (buffer, index, length)).
Proof.
  intros Hok. destruct t, v; cbn in Hok; try done;
    cbn [serialize_item asBuffer asInteger asUnsigned asFloat asBoolean asObjLink]; mstep;
    rewrite ?encodeInt_ok, ?encodeUInt_ok, ?encodeFloat_ok by lia; try done.
  by rewrite objlink_bytes by tauto.
Qed.

Lemma serialize_item_ok e d : data_wf e d -> forall inst, item_writes inst d.
Proof.
  revert d. apply (data_wf_tree e (fun d => forall inst, item_writes inst d)).
  - intros t i v Hi Hok inst p q length Hq. pose proof (leaf_bytes_length t v Hok) as Hl.
    rewrite enc_leaf in * by done. rewrite serialize_leaf by done.
    rewrite put_record_ok; [done|by intros ->|done|lia|done].
  - intros t i l Hi Ht Hf IH Hlen _ inst p q length Hq.
    set (inst' := match t with LWM2M_TYPE_MULTIPLE_RESOURCE => true | _ => inst end).
    assert (enc inst (mk_data t i (VChildren l)) =
      header_bytes (type_bits false t) i (len (encs inst' l)) ++ encs inst' l) as He by done.
    rewrite He in *. rewrite (encs_length_inst false inst') in Hlen.
    assert (serialize_body junk (serialize_loop (serialize_item junk inst')) l =
      Some (len (encs inst' l), encs inst' l)) as Hbody.
    { apply (serialize_body_ok e); [done| |unfold INT_MAX; lia].
      eapply list.Forall_impl; [exact IH|]. intros d Hd. apply Hd. }
    pose proof (header_bytes_length (type_bits false t) i (len (encs inst' l))).
    clear He. destruct Ht as [->| ->]; unfold inst' in *; clear inst'; cbn match in *; cbn [serialize_item];
      rewrite Hbody; mstep; guards;
      rewrite createHeader_ok by (done || lens); mstep;
      match goal with |- context [encs ?a l] => set (body := encs a l) in * end;
      (destruct (0 <? len body) eqn:E;
       [rewrite rd_bytes_all; mstep; rewrite wr_bytes_app by lens; mstep; rewrite drop_drop;
        rewrite <- (app_assoc p (header_bytes _ _ _)), (length_app (header_bytes _ _ _));
        f_equal; f_equal; f_equal; lens
       |assert (body = []) as -> by (destruct body; [done|cbn in E; lia]);
        rewrite app_nil_r; f_equal; f_equal; f_equal; lens]).
Qed.
End serialize.

(** ** Parsing *)

(** What a decoded header says of its buffer. *)
Definition header_ok (buffer_len : Z) (h : tlv_header) : Prop :=
  2 <= oDataIndex h <= 6 /\ 0 <= oDataLen h /\ oDataIndex h + oDataLen h <= buffer_len /\
  0 <= oID h <= 65535 /\
  oType h ∈ [LWM2M_TYPE_OBJECT_INSTANCE; LWM2M_TYPE_MULTIPLE_RESOURCE; LWM2M_TYPE_OPAQUE].

Lemma getDataType_cases b :
  0 <= b < 256 -> prv_getDataType (Z.land b _PRV_TLV_TYPE_MASK) ∈
    [LWM2M_TYPE_OBJECT_INSTANCE; LWM2M_TYPE_MULTIPLE_RESOURCE; LWM2M_TYPE_OPAQUE].
Proof.
  intros Hb. destruct (first_byte_fields b Hb) as (-> & _).
  assert (b / 64 = 0 \/ b / 64 = 1 \/ b / 64 = 2 \/ b / 64 = 3) as [->|[->|[->| ->]]] by dlia;
    by vm_compute; repeat constructor.
Qed.

(** A read inside the buffer, and the value it gives. *)
Ltac rd_ok buffer Hb :=
  match goal with
  | |- context [mbind _ (rd buffer ?i)] =>
      let c := fresh "c" in let H := fresh "Hrd" in
      destruct (rd_Some buffer i) as [c H]; [lia|]; rewrite H; mstep;
      assert (0 <= c < 256) by exact (rd_Forall is_byte _ _ _ Hb H)
  end.

Lemma decode_TLV_total buffer buffer_len :
  bytes buffer -> 0 <= buffer_len <= len buffer ->
  exists r, lwm2m_decode_TLV buffer buffer_len = Some r /\
    match r with Some h => header_ok buffer_len h | None => True end.
Proof.
  intros Hb Hl. unfold lwm2m_decode_TLV. destruct (buffer_len <? 2) eqn:E0; [by exists None|].
  rd_ok buffer Hb. rename c into b0. destruct (first_byte_fields b0) as (_ & _ & F3 & F4); [lia|].
  pose proof (getDataType_cases b0 ltac:(lia)) as Ht.
  match goal with |- context [mbind ?k ?m] => assert (m = Some None \/ exists id ix,
    m = Some (Some (id, ix)) /\ 0 <= id <= 65535 /\ 2 <= ix <= 3 /\ ix <= buffer_len)
    as [->|(id & ix & -> & Hid & Hix & Hixl)] end.
  { destruct (Z.land b0 0x20 =? 0x20).
    - destruct (buffer_len <? 3) eqn:E; [by left|right]. rd_ok buffer Hb. rd_ok buffer Hb.
      eexists _, _. split; [done|]. rewrite shiftl_mul by lia.
      pose proof (wrap_bound 16 (c * 2 ^ 8 + c0) ltac:(lia)). lia.
    - right. rd_ok buffer Hb. eexists _, _. split; [done|]. lia. }
  { by exists None. }
  mstep. rewrite F3, F4. clear F3 F4.
  match goal with |- context [mbind ?k ?m] => assert (m = Some None \/ exists n ix',
    m = Some (Some (n, ix')) /\ 0 <= n /\ ix <= ix' <= ix + 3)
    as [->|(n & ix' & -> & Hn & Hix')] end.
  { destruct (b0 / 8 mod 4 * 8 =? 0); [right; eexists _, _; split; [done|]; dlia|].
    destruct (b0 / 8 mod 4 * 8 =? 8).
    { dif E; [by left|right]. rd_ok buffer Hb. eexists _, _. split; [done|]. lia. }
    destruct (b0 / 8 mod 4 * 8 =? 16).
    { dif E; [by left|right]. do 2 rd_ok buffer Hb. rewrite !shiftl_mul by lia.
      eexists _, _. split; [done|]. lia. }
    destruct (b0 / 8 mod 4 * 8 =? 24); [|by left].
    dif E; [by left|right]. do 3 rd_ok buffer Hb. rewrite !shiftl_mul by lia.
    eexists _, _. split; [done|]. lia. }
  { by exists None. }
  mstep. dif E; [by exists None|]. eexists. split; [done|].
  unfold header_ok. cbn [oDataIndex oDataLen oID oType]. split_and!; lia || done.
Qed.

(** What the parser makes of a tree: containers as they are, every value as an
    opaque buffer. *)
Fixpoint parsed (d : lwm2m_data_t) : lwm2m_data_t :=
  let 'mk_data type id value := d in
  match value with
  | VChildren l => mk_data type id (VChildren (map parsed l))
  | v => mk_data LWM2M_TYPE_OPAQUE id (VBuffer (leaf_bytes v))
  end.

Lemma getDataType_leaf inst t v :
  leaf_ok t v -> prv_getDataType (type_bits inst t) = LWM2M_TYPE_OPAQUE.
Proof. intros H. destruct inst; [done|]. by destruct t. Qed.

Lemma parsed_leaf t i v :
  leaf_ok t v -> parsed (mk_data t i v) = mk_data LWM2M_TYPE_OPAQUE i (VBuffer (leaf_bytes v)).
Proof. destruct v; try done. by destruct t. Qed.

(** The trees a parser returns. *)
Inductive parsed_ok : lwm2m_data_t -> Prop :=
  | ok_leaf i b : 0 <= i <= 65535 -> bytes b -> parsed_ok (mk_data LWM2M_TYPE_OPAQUE i (VBuffer b))
  | ok_node t i l :
      0 <= i <= 65535 -> t = LWM2M_TYPE_OBJECT_INSTANCE \/ t = LWM2M_TYPE_MULTIPLE_RESOURCE ->
      l <> [] -> Forall parsed_ok l -> parsed_ok (mk_data t i (VChildren l)).

Section parse.
Context `{Malloc}.
Hypothesis malloc_never_fails : forall n, malloc_ok n = true.

Lemma data_new_ok size : 0 <= size -> lwm2m_data_new (size + 1) = Some (replicate (Z.to_nat (size + 1)) zero_data).
Proof. intros. unfold lwm2m_data_new. guards. by rewrite malloc_never_fails. Qed.

Lemma encode_opaque_ok b rest d :
  lwm2m_data_encode_opaque (b ++ rest) (len b) d = Some (mk_data LWM2M_TYPE_OPAQUE (d_id d) (VBuffer b)).
Proof.
  unfold lwm2m_data_encode_opaque, prv_setBuffer. destruct (len b =? 0) eqn:E; mstep.
  - by destruct b.
  - rewrite malloc_never_fails. rewrite (rd_bytes_app [] b rest) by done. done.
Qed.

Lemma drop_pre (pre q : list Z) n : n = len pre -> drop (Z.to_nat n) (pre ++ q) = q.
Proof. intros ->. by rewrite Nat2Z.id, drop_app_length. Qed.

(** One record of the loop. *)
Lemma decode_record pre tb id body rest bufferLen :
  tb ∈ [0; 64; 128; 192] -> 0 <= id <= 65535 -> len body <= 0xFFFFFF ->
  let hdr := header_bytes tb id (len body) in
  len pre + len (hdr ++ body) <= bufferLen ->
  lwm2m_decode_TLV (drop (Z.to_nat (len pre)) (pre ++ (hdr ++ body) ++ rest)) (bufferLen - len pre) =
    Some (Some (mk_header (prv_getDataType tb) id (len hdr) (len body))) /\
  drop (Z.to_nat (len pre + len hdr)) (pre ++ (hdr ++ body) ++ rest) = body ++ rest.
Proof.
  intros Htb Hid Hb hdr Hl. split.
  - rewrite drop_pre by done. rewrite <- app_assoc. apply decode_header; [done|done|lia|].
    fold hdr. lens.
  - rewrite <- app_assoc, app_assoc. apply drop_pre. lens.
Qed.

Lemma parse_loop_encs fuel : forall inst l pre post size data,
  Forall (data_wf false) l -> (length (encs inst l) < fuel)%nat -> 0 <= size ->
  parse_loop fuel (pre ++ encs inst l ++ post) (len pre + len (encs inst l)) (len pre) size data =
    Some (size + len l, data ++ map parsed l).
Proof.
  induction fuel as [|fuel IH]; intros inst l pre post size data Hwf Hf Hs; [lia|]. cbn [parse_loop].
  destruct Hwf as [|d l Hd Hwf].
  { unfold lwm2m_decode_TLV. cbn [encs map concat length]. guards. mstep. rewrite app_nil_r. feq. }
  pose proof (enc_nonempty inst false d Hd) as Hpos.
  change (encs inst (d :: l)) with (enc inst d ++ encs inst l) in *. rewrite length_app in *.
  assert (forall data' next, next = len pre + len (enc inst d) ->
    parse_loop fuel (pre ++ (enc inst d ++ encs inst l) ++ post)
      (len pre + Z.of_nat (length (enc inst d) + length (encs inst l))) next (size + 1) data' =
    Some (size + len (d :: l), data' ++ map parsed l)) as Hnext.
  { intros data' next ->. specialize (IH inst l (pre ++ enc inst d) post (size + 1) data' Hwf ltac:(lia) ltac:(lia)).
    replace (size + len (d :: l)) with (size + 1 + len l) by lens. rewrite <- IH.
    apps. f_equal; lens. }
  destruct Hd as [t i v Hi Hok|t i l' Hi Ht Hf' Hlen Hne].
  - rewrite enc_leaf in * by done. pose proof (leaf_bytes_length t v Hok).
    destruct (decode_record pre (type_bits inst t) i (leaf_bytes v) (encs inst l ++ post)
      (len pre + Z.of_nat (length (header_bytes (type_bits inst t) i (len (leaf_bytes v)) ++ leaf_bytes v) +
        length (encs inst l)))) as [Hdec Hdrop]; [apply type_bits_cases|done|lia|lia|].
    rewrite <- (app_assoc _ (encs inst l) post) in *. rewrite Hdec. mstep.
    rewrite data_new_ok by done. cbn [oType oID oDataIndex oDataLen].
    rewrite (getDataType_leaf inst t v) by done. rewrite Hdrop, encode_opaque_ok. mstep.
    rewrite Hnext by lens. cbn [map d_id]. rewrite parsed_leaf by done. by apps.
  - set (inst' := match t with LWM2M_TYPE_MULTIPLE_RESOURCE => true | _ => inst end).
    assert (enc inst (mk_data t i (VChildren l')) =
      header_bytes (type_bits false t) i (len (encs inst' l')) ++ encs inst' l') as He by done.
    rewrite He in *. rewrite (encs_length_inst false inst') in Hlen.
    destruct (decode_record pre (type_bits false t) i (encs inst' l') (encs inst l ++ post)
      (len pre + Z.of_nat (length (header_bytes (type_bits false t) i (len (encs inst' l')) ++ encs inst' l') +
        length (encs inst l)))) as [Hdec Hdrop]; [apply type_bits_cases|done|lia|lia|].
    rewrite <- (app_assoc _ (encs inst l) post) in *. rewrite Hdec. mstep.
    rewrite data_new_ok by done. cbn [oType oID oDataIndex oDataLen]. rewrite Hdrop.
    pose proof (header_bytes_length (type_bits false t) i (len (encs inst' l'))).
    pose proof (header_length_bound i (len (encs inst' l'))).
    assert (parse_loop fuel (encs inst' l' ++ encs inst l ++ post) (len (encs inst' l')) 0 0 [] =
      Some (len l', map parsed l')) as Hsub.
    { specialize (IH inst' l' [] (encs inst l ++ post) 0 [] Hf'). cbn [app length] in IH.
      change (Z.of_nat 0) with 0 in IH. rewrite !Z.add_0_l in IH. apply IH; lens. }
    assert (l' <> []) as Hl' by by apply Hne. assert (0 < len l') by (destruct l'; [done|cbn; lia]).
    assert (prv_getDataType (type_bits false t) = t) as -> by (by destruct Ht as [->| ->]).
    rewrite Hsub in *. clear He. destruct Ht as [->| ->]; cbn match; mstep; guards;
      (rewrite Hnext by lens); cbn [map parsed]; by apps.
Qed.

Lemma parse_loop_total fuel : forall buffer bufferLen index size data,
  bytes buffer -> 0 <= index <= bufferLen -> bufferLen <= len buffer ->
  bufferLen - index < Z.of_nat fuel -> size = len data -> Forall parsed_ok data ->
  exists n l, parse_loop fuel buffer bufferLen index size data = Some (n, l) /\
    n = len l /\ Forall parsed_ok l.
Proof.
  induction fuel as [|fuel IH]; intros buffer bufferLen index size data Hb Hi Hl Hf Hs Hd; [lia|].
  cbn [parse_loop].
  destruct (decode_TLV_total (drop (Z.to_nat index) buffer) (bufferLen - index)) as (r & -> & Hr);
    [by apply Forall_drop|lens|]. mstep.
  destruct r as [h|]; [|by exists size, data].
  destruct Hr as (H1 & H2 & H3 & H4 & H5). rewrite data_new_ok by lia.
  assert (bytes (drop (Z.to_nat (index + oDataIndex h)) buffer)) as Hb' by by apply Forall_drop.
  destruct (decide (oType h = LWM2M_TYPE_OPAQUE)) as [E|E].
  - assert (exists b rest, drop (Z.to_nat (index + oDataIndex h)) buffer = b ++ rest /\ len b = oDataLen h)
      as (b & rest & Hbr & Hbl).
    { eexists (take (Z.to_nat (oDataLen h)) _), _. split; [symmetry; apply take_drop|lens]. }
    rewrite Hbr in *. rewrite E. cbn match.
    pose proof (encode_opaque_ok b rest (mk_data LWM2M_TYPE_OPAQUE (oID h) VZero)) as Henc.
    rewrite Hbl in Henc. rewrite Henc. mstep.
    apply IH; [done|lia|lia|lia|lens|].
    apply Forall_app_2; [done|]. apply list.Forall_cons_2; [|by apply list.Forall_nil_2].
    apply ok_leaf; [done|]. by apply Forall_app in Hb' as [].
  - destruct (IH (drop (Z.to_nat (index + oDataIndex h)) buffer) (oDataLen h) 0 0 [])
      as (n & l & Hsub & -> & Hok); [done|lia|lens|lia|done|done|].
    rewrite Hsub. mstep.
    assert (oType h = LWM2M_TYPE_OBJECT_INSTANCE \/ oType h = LWM2M_TYPE_MULTIPLE_RESOURCE) as Ht
      by (set_unfold in H5; tauto).
    assert (exists n l0, (if len l =? 0 then Some (0, [])
        else parse_loop fuel buffer bufferLen (index + (oDataIndex h + oDataLen h)) (size + 1)
          (data ++ [mk_data (oType h) (oID h) (VChildren l)])) = Some (n, l0) /\
      n = len l0 /\ Forall parsed_ok l0) as Hgoal.
    { destruct (len l =? 0) eqn:El; [by exists 0, []|].
      apply IH; [done|lia|lia|lia|lens|]. apply Forall_app_2; [done|].
      apply list.Forall_cons_2; [|by apply list.Forall_nil_2]. constructor; [lia|done|by intros ->|done]. }
    destruct Ht as [Ht|Ht]; rewrite Ht in *; exact Hgoal.
Qed.
End parse.

(** ** Properties *)

(** A TLV header round trips: the header [prv_createHeader] writes for any
    16-bit identifier and any length below 2^24 has the length
    [prv_getHeaderLength] announces, nothing around it changes, and
    [lwm2m_decode_TLV] reads back the identifier, the length and the kind of
    record. *)
Theorem tlv_header_roundtrip p q inst t id data :
  t <> LWM2M_TYPE_UNDEFINED -> 0 <= id <= 65535 -> len data <= 0xFFFFFF ->
  prv_getHeaderLength id (len data) <= len q ->
  exists hdr, prv_createHeader (p ++ q) (len p) inst t id (len data) =
      Some (prv_getHeaderLength id (len data), (p ++ hdr) ++ drop (length hdr) q) /\
    len hdr = prv_getHeaderLength id (len data) /\
    lwm2m_decode_TLV (hdr ++ data) (len (hdr ++ data)) =
      Some (Some (mk_header (prv_getDataType (type_bits inst t)) id (len hdr) (len data))).
Proof.
  intros Ht Hid Hd Hq. exists (header_bytes (type_bits inst t) id (len data)).
  pose proof (header_bytes_length (type_bits inst t) id (len data)) as Hl.
  rewrite createHeader_ok by (done || lia). rewrite Hl. split; [done|]. split; [done|].
  rewrite decode_header by (apply type_bits_cases || done || lens). by rewrite Hl.
Qed.

(** [lwm2m_decode_TLV] on arbitrary bytes: it never reads past
    [buffer_len], and a record it accepts lies inside the buffer, with a header
    of two to six bytes and a 16-bit identifier. *)
Theorem tlv_decode_safe buffer buffer_len :
  bytes buffer -> 0 <= buffer_len <= len buffer ->
  exists r, lwm2m_decode_TLV buffer buffer_len = Some r /\
    match r with Some h => header_ok buffer_len h | None => True end.
Proof. apply decode_TLV_total. Qed.

Section theorems.
Context `{Malloc}.
Hypothesis malloc_never_fails : forall n, malloc_ok n = true.

(** C22. [tlv_serialize] writes exactly the reference encoding of the nodes: it
    returns its length, which is that [prv_getLength] computes, every byte of
    the allocation is written (the result does not depend on what it held) and
    none outside it. *)
Theorem tlv_serialize_correct junk inst e l :
  Forall (data_wf e) l -> len (encs inst l) <= INT_MAX ->
  prv_getLength l = Some (len (encs inst l)) /\
  tlv_serialize junk inst l = Some (len (encs inst l), encs inst l).
Proof.
  intros Hl Hb. split; [by eapply getLength_ok|].
  unfold tlv_serialize. apply (serialize_body_ok junk malloc_never_fails e); [done| |done].
  eapply list.Forall_impl; [exact Hl|]. intros d Hd. by eapply serialize_item_ok.
Qed.

(** C1. TLV round trip: parsing what [tlv_serialize] produces gives back the
    tree, with the same types and identifiers of the containers and every value
    as the opaque buffer that encodes it. *)
Theorem tlv_roundtrip junk inst l :
  Forall (data_wf false) l -> len (encs inst l) <= INT_MAX ->
  exists b, tlv_serialize junk inst l = Some (len b, b) /\
    tlv_parse b (len b) = Some (len l, map parsed l).
Proof.
  intros Hl Hb. exists (encs inst l). split.
  - unfold tlv_serialize. apply (serialize_body_ok junk malloc_never_fails false); [done| |done].
    eapply list.Forall_impl; [exact Hl|]. intros d Hd. by eapply serialize_item_ok.
  - unfold tlv_parse.
    pose proof (parse_loop_encs malloc_never_fails (S (Z.to_nat (len (encs inst l)))) inst l [] [] 0 [] Hl
      ltac:(lia) ltac:(lia)) as Hp.
    cbn [app length] in Hp. rewrite app_nil_r, !Z.add_0_l in Hp. exact Hp.
Qed.

End theorems.

Lemma decode_int_opaque id n v :
  n ∈ [1; 2; 4; 8]%nat ->
  lwm2m_data_decode_int (mk_data LWM2M_TYPE_OPAQUE id (VBuffer (be_bytes n v))) =
    Some (Some (swrap (8 * Z.of_nat n) v)) /\
  lwm2m_data_decode_uint (mk_data LWM2M_TYPE_OPAQUE id (VBuffer (be_bytes n v))) =
    Some (Some (wrap (8 * Z.of_nat n) v)).
Proof.
  intros Hn. unfold lwm2m_data_decode_int, lwm2m_data_decode_uint. cbn [d_value d_type asBuffer]. mstep.
  rewrite be_bytes_length. pose proof (copyValue_be n v) as Hc.
  assert (forall k, 0 < k -> swrap k (v mod 2 ^ k) = swrap k v) as Hs by (intros; by apply swrap_wrap).
  set_unfold in Hn. destruct Hn as [->|[->|[->|[->|[]]]]].
  - change (Z.of_nat 1) with 1. cbn match. rewrite be_bytes_1, rd_cons_0. mstep.
    change (8 * 1) with 8. change 256 with (2 ^ 8). by rewrite (Hs 8).
  - change (Z.of_nat 2) with 2 in *. cbn match. rewrite Hc. mstep. rewrite le_val_bytes.
    change (8 * 2) with 16. change (256 ^ Z.of_nat 2) with (2 ^ 16). by rewrite (Hs 16).
  - change (Z.of_nat 4) with 4 in *. cbn match. rewrite Hc. mstep. rewrite le_val_bytes.
    change (8 * 4) with 32. change (256 ^ Z.of_nat 4) with (2 ^ 32). by rewrite (Hs 32).
  - change (Z.of_nat 8) with 8 in *. cbn match. rewrite Hc. mstep. rewrite le_val_bytes.
    change (8 * 8) with 64. change (256 ^ Z.of_nat 8) with (2 ^ 64). by rewrite (Hs 64).
Qed.

Lemma decode_int_parsed id i :
  INT64_MIN <= i <= INT64_MAX ->
  lwm2m_data_decode_int (mk_data LWM2M_TYPE_OPAQUE id (VBuffer (int_bytes i))) = Some (Some i).
Proof.
  unfold INT64_MIN, INT64_MAX, int_bytes. intros Hi.
  destruct ((-128 <=? i) && (i <=? 127)) eqn:E1;
    [|destruct ((-32768 <=? i) && (i <=? 32767)) eqn:E2;
      [|destruct ((-2147483648 <=? i) && (i <=? 2147483647)) eqn:E3]];
    match goal with |- context [be_bytes ?n i] =>
      rewrite (proj1 (decode_int_opaque id n i ltac:(by repeat constructor))) end;
    by rewrite swrap_small by (cbn; lia).
Qed.

Lemma decode_uint_parsed id u :
  0 <= u <= UINT64_MAX ->
  lwm2m_data_decode_uint (mk_data LWM2M_TYPE_OPAQUE id (VBuffer (uint_bytes u))) = Some (Some u).
Proof.
  unfold UINT64_MAX, uint_bytes. intros Hu.
  destruct (u <=? 255) eqn:E1; [|destruct (u <=? 65535) eqn:E2; [|destruct (u <=? 4294967295) eqn:E3]];
    match goal with |- context [be_bytes ?n u] =>
      rewrite (proj2 (decode_int_opaque id n u ltac:(by repeat constructor))) end;
    by rewrite wrap_small by (cbn; lia).
Qed.

(** Numbers and booleans survive a TLV exchange: the node the parser makes
    of an integer, an unsigned integer or a boolean is decoded to the same
    value. *)
Theorem tlv_value_roundtrip id i u b :
  INT64_MIN <= i <= INT64_MAX -> 0 <= u <= UINT64_MAX ->
  lwm2m_data_decode_int (parsed (mk_data LWM2M_TYPE_INTEGER id (VInteger i))) = Some (Some i) /\
  lwm2m_data_decode_uint (parsed (mk_data LWM2M_TYPE_UNSIGNED_INTEGER id (VUnsigned u))) = Some (Some u) /\
  lwm2m_data_decode_bool (parsed (mk_data LWM2M_TYPE_BOOLEAN id (VBoolean b))) = Some (Some b).
Proof.
  intros Hi Hu. cbn [parsed leaf_bytes]. rewrite decode_int_parsed, decode_uint_parsed by done. by destruct b.
Qed.

Lemma tlv_value_roundtrip_witness :
  lwm2m_data_decode_int (parsed (mk_data LWM2M_TYPE_INTEGER 3 (VInteger (-129)))) = Some (Some (-129)) /\
  lwm2m_data_decode_uint (parsed (mk_data LWM2M_TYPE_UNSIGNED_INTEGER 3 (VUnsigned 65536))) = Some (Some 65536) /\
  lwm2m_data_decode_bool (parsed (mk_data LWM2M_TYPE_BOOLEAN 3 (VBoolean true))) = Some (Some true).
Proof. apply (tlv_value_roundtrip 3 (-129) 65536 true); by vm_compute. Defined.

(** ** Witnesses and remarks *)

Definition tree1 : list lwm2m_data_t :=
  [mk_data LWM2M_TYPE_OBJECT_INSTANCE 0 (VChildren
    [mk_data LWM2M_TYPE_INTEGER 1 (VInteger 86400);
     mk_data LWM2M_TYPE_MULTIPLE_RESOURCE 300 (VChildren
       [mk_data LWM2M_TYPE_STRING 0 (VBuffer (str "abcdefgh"));
        mk_data LWM2M_TYPE_OBJECT_LINK 1 (VObjLink 3 0)])])].

Lemma tree1_wf : Forall (data_wf false) tree1.
Proof.
  repeat (apply list.Forall_cons_2 || apply list.Forall_nil_2).
  apply wf_node; [lia|by left| |by vm_compute|done].
  repeat (apply list.Forall_cons_2 || apply list.Forall_nil_2); [by apply wf_leaf; vm_compute|].
  apply wf_node; [lia|by right| |by vm_compute|done].
  repeat (apply list.Forall_cons_2 || apply list.Forall_nil_2); apply wf_leaf; try (by vm_compute).
  split; [apply str_bytes|by vm_compute].
Qed.

Lemma tlv_header_roundtrip_witness :
  exists hdr, prv_createHeader ([170] ++ replicate 6 0) (len [170]) false LWM2M_TYPE_OPAQUE 300
      (len (replicate 8 1)) =
      Some (prv_getHeaderLength 300 (len (replicate 8 1)), ([170] ++ hdr) ++ drop (length hdr) (replicate 6 0)) /\
    len hdr = prv_getHeaderLength 300 (len (replicate 8 1)) /\
    lwm2m_decode_TLV (hdr ++ replicate 8 1) (len (hdr ++ replicate 8 1)) =
      Some (Some (mk_header (prv_getDataType (type_bits false LWM2M_TYPE_OPAQUE)) 300 (len hdr)
        (len (replicate 8 1)))).
Proof.
  apply (tlv_header_roundtrip [170] (replicate 6 0) false LWM2M_TYPE_OPAQUE 300 (replicate 8 1)); by vm_compute.
Defined.

Lemma tlv_decode_safe_witness :
  exists r, lwm2m_decode_TLV [0xC8; 1; 2; 7; 7] 5 = Some r /\
    match r with Some h => header_ok 5 h | None => True end.
Proof. apply (tlv_decode_safe [0xC8; 1; 2; 7; 7] 5); [by repeat constructor|by vm_compute]. Defined.

Lemma tlv_serialize_correct_witness :
  prv_getLength tree1 = Some (len (encs false tree1)) /\
  @tlv_serialize malloc_always 170 false tree1 = Some (len (encs false tree1), encs false tree1).
Proof.
  apply (@tlv_serialize_correct malloc_always ltac:(done) 170 false false tree1 tree1_wf). by vm_compute.
Defined.

Lemma tlv_roundtrip_witness :
  exists b, @tlv_serialize malloc_always 170 false tree1 = Some (len b, b) /\
    @tlv_parse malloc_always b (len b) = Some (len tree1, map parsed tree1).
Proof.
  apply (@tlv_roundtrip malloc_always ltac:(done) 170 false tree1 tree1_wf). by vm_compute.
Defined.


(** A container without elements is serialized as a header of length 0, which
    the parser rejects with everything read before it. *)
Example tlv_empty_container :
  @tlv_serialize malloc_always 0 false [mk_data LWM2M_TYPE_MULTIPLE_RESOURCE 7 (VChildren [])] =
    Some (2, [128; 7]) /\
  @tlv_parse malloc_always [128; 7] 2 = Some (0, []).
Proof. by vm_compute. Qed.

(** When the allocation of the first node fails, the parser writes through the
    null pointer; when that of the second one fails it returns 0. *)
Example tlv_parse_no_memory :
  @tlv_parse (fun _ => false) [0xC1; 5; 9] 3 = None /\
  @tlv_parse (fun n => n <? 30) [0xC1; 5; 9; 0xC1; 6; 9] 6 = Some (0, []).
Proof. by vm_compute. Qed.

(** When the allocation for a nested container fails, its content is dropped
    and the end of the buffer keeps what the memory held. *)
Example tlv_serialize_no_memory :
  @tlv_serialize (fun n => 4 <? n) 170 false
    [mk_data LWM2M_TYPE_MULTIPLE_RESOURCE 7 (VChildren [mk_data LWM2M_TYPE_BOOLEAN 0 (VBoolean true)])] =
  Some (5, [128; 7; 170; 170; 170]).
Proof. by vm_compute. Qed.
End Tlv.
