(* ===== verification/Cbor.v ===== *)
(** * CBOR items (data/cbor.c)

    The head of an item ([cbor_get_type_and_value], [cbor_put_type_and_value]),
    floating-point items, and a single LwM2M value as an item
    ([cbor_get_singular], [cbor_put_singular]). *)
From S2P Require Import Prelude Types Numeric Utils Float.
From Stdlib Require Import SpecFloat.
Import Numeric Utils Float.

Module Cbor.

Definition CBOR_UNSIGNED_INTEGER : Z := 0.
Definition CBOR_NEGATIVE_INTEGER : Z := 1.
Definition CBOR_BYTE_STRING : Z := 2.
Definition CBOR_TEXT_STRING : Z := 3.
Definition CBOR_ARRAY : Z := 4.
Definition CBOR_MAP : Z := 5.
Definition CBOR_SEMANTIC_TAG : Z := 6.
Definition CBOR_FLOATING_OR_SIMPLE : Z := 7.

Definition CBOR_AI_ONE_BYTE_VALUE : Z := 24.
Definition CBOR_AI_TWO_BYTE_VALUE : Z := 25.
Definition CBOR_AI_FOUR_BYTE_VALUE : Z := 26.
Definition CBOR_AI_EIGHT_BYTE_VALUE : Z := 27.
Definition CBOR_AI_INDEFINITE_OR_BREAK : Z := 31.

Definition CBOR_SIMPLE_FALSE : Z := 20.
Definition CBOR_SIMPLE_TRUE : Z := 21.

Inductive cbor_type_t :=
  | CBOR_TYPE_UNKNOWN
  | CBOR_TYPE_UNSIGNED_INTEGER
  | CBOR_TYPE_NEGATIVE_INTEGER
  | CBOR_TYPE_FLOAT
  | CBOR_TYPE_SEMANTIC_TAG
  | CBOR_TYPE_SIMPLE_VALUE
  | CBOR_TYPE_BREAK
  | CBOR_TYPE_BYTE_STRING
  | CBOR_TYPE_TEXT_STRING
  | CBOR_TYPE_ARRAY
  | CBOR_TYPE_MAP.
#[export] Instance cbor_type_eq_dec : EqDecision cbor_type_t.
Proof. solve_decision. Defined.

(** [~val] on a [uint64_t]. *)
Definition lnot64 (val : Z) : Z := UINT64_MAX - val.

(** [ldexp] of an [int]. *)
Definition ldexp (mant exp : Z) : spec_float := binary_normalize 53 1024 mant exp false.

(** ** Reading *)

(** The first [switch (ai)]: [val] and [result], or [None] for [return -1]. *)
Definition get_value (buffer : list Z) (bufferLen ai : Z) : C (option (Z * Z)) :=
  let multi n :=
    if bufferLen <? n + 1 then ret None
    else
      b ← rd_bytes buffer 1 n;
      o ← utils_copyValue b n;
      ret (Some (le_val o, 1 + n)) in
  if ai =? CBOR_AI_ONE_BYTE_VALUE then
    if bufferLen <? 2 then ret None
    else val ← rd buffer 1; ret (Some (val, 2))
  else if ai =? CBOR_AI_TWO_BYTE_VALUE then multi 2
  else if ai =? CBOR_AI_FOUR_BYTE_VALUE then multi 4
  else if ai =? CBOR_AI_EIGHT_BYTE_VALUE then multi 8
  else if (ai =? 28) || (ai =? 29) || (ai =? 30) then ret None
  else ret (Some (ai, 1)).

(** The [double] a half-precision item stands for. *)
Definition half_to_double (half : Z) : Z :=
  let exp := Z.land (Z.shiftr half 10) 0x1f in
  let mant := Z.land half 0x3ff in
  let dval :=
    if exp =? 0 then ldexp mant (-24)
    else if negb (exp =? 31) then ldexp (mant + 1024) (exp - 25)
    else if mant =? 0 then S754_infinity false
    else S754_nan in
  bits_of_double (if negb (Z.land half 0x8000 =? 0) then SFopp dval else dval).

(** The second [switch]: the type and the value, or [None] for [return -1]. *)
Definition get_type (mt ai val : Z) : option (cbor_type_t * Z) :=
  if mt =? CBOR_UNSIGNED_INTEGER then Some (CBOR_TYPE_UNSIGNED_INTEGER, val)
  else if mt =? CBOR_NEGATIVE_INTEGER then
    if negb (Z.shiftr val 63 =? 0) then None else Some (CBOR_TYPE_NEGATIVE_INTEGER, lnot64 val)
  else if mt =? CBOR_BYTE_STRING then Some (CBOR_TYPE_BYTE_STRING, val)
  else if mt =? CBOR_TEXT_STRING then Some (CBOR_TYPE_TEXT_STRING, val)
  else if mt =? CBOR_ARRAY then Some (CBOR_TYPE_ARRAY, val)
  else if mt =? CBOR_MAP then Some (CBOR_TYPE_MAP, val)
  else if mt =? CBOR_SEMANTIC_TAG then Some (CBOR_TYPE_SEMANTIC_TAG, val)
  else if mt =? CBOR_FLOATING_OR_SIMPLE then
    if ai =? CBOR_AI_TWO_BYTE_VALUE then Some (CBOR_TYPE_FLOAT, half_to_double (u16 val))
    else if ai =? CBOR_AI_FOUR_BYTE_VALUE then Some (CBOR_TYPE_FLOAT, double_of_float (u32 val))
    else if ai =? CBOR_AI_EIGHT_BYTE_VALUE then Some (CBOR_TYPE_FLOAT, val)
    else if ai =? CBOR_AI_INDEFINITE_OR_BREAK then Some (CBOR_TYPE_BREAK, 0)
    else Some (CBOR_TYPE_SIMPLE_VALUE, val)
  else None.

(** The result, [*type] and [*value]; [None] is [return -1]. *)
Definition cbor_get_type_and_value (buffer : list Z) (bufferLen : Z)
    : C (option (Z * cbor_type_t * Z)) :=
  if bufferLen <? 1 then ret None
  else
    b0 ← rd buffer 0;
    let mt := Z.shiftr b0 5 in
    let ai := Z.land b0 0x1f in
    v ← get_value buffer bufferLen ai;
    match v with
    | None => ret None
    | Some (val, result) =>
        match get_type mt ai val with
        | None => ret None
        | Some (type, value) => ret (Some (result, type, value))
        end
    end.

(** The [do ... while (skipTag)] loop of [cbor_get_singular]; [None] in the
    result is [return -1].  A string value is the bytes the pointer into
    [buffer] designates. *)
Fixpoint singular_loop (fuel : nat) (buffer : list Z) (bufferLen result : Z) (tagSeen : bool) (id : Z)
    : C (option (Z * lwm2m_data_t)) :=
  match fuel with
  | O => None
  | S fuel =>
      r ← cbor_get_type_and_value (drop (Z.to_nat result) buffer) (bufferLen - result);
      match r with
      | None => ret None
      | Some (res, mt, val) =>
          let result := result + res in
          let string type :=
            if bufferLen - result <? val then ret None
            else
              b ← (if 0 <? val then rd_bytes buffer result val else ret []);
              ret (Some (s32 (result + val), mk_data type id (VBuffer b))) in
          match mt with
          | CBOR_TYPE_UNSIGNED_INTEGER =>
              ret (Some (result, mk_data LWM2M_TYPE_UNSIGNED_INTEGER id (VUnsigned val)))
          | CBOR_TYPE_NEGATIVE_INTEGER =>
              ret (Some (result, mk_data LWM2M_TYPE_INTEGER id (VInteger (s64 val))))
          | CBOR_TYPE_FLOAT => ret (Some (result, mk_data LWM2M_TYPE_FLOAT id (VFloat val)))
          | CBOR_TYPE_SEMANTIC_TAG =>
              if tagSeen then ret None else singular_loop fuel buffer bufferLen result true id
          | CBOR_TYPE_SIMPLE_VALUE =>
              if val =? CBOR_SIMPLE_FALSE then
                ret (Some (result, mk_data LWM2M_TYPE_BOOLEAN id (VBoolean false)))
              else if val =? CBOR_SIMPLE_TRUE then
                ret (Some (result, mk_data LWM2M_TYPE_BOOLEAN id (VBoolean true)))
              else ret None
          | CBOR_TYPE_BYTE_STRING => string LWM2M_TYPE_OPAQUE
          | CBOR_TYPE_TEXT_STRING => string LWM2M_TYPE_STRING
          | _ => ret None
          end
      end
  end.

(** One tag is skipped at most: two iterations. *)
Definition cbor_get_singular (buffer : list Z) (bufferLen : Z) (dataP : lwm2m_data_t)
    : C (option (Z * lwm2m_data_t)) := singular_loop 2 buffer bufferLen 0 false (d_id dataP).

(** ** Writing: the result and the buffer *)

Definition prv_serialize_value (buffer : list Z) (bufferLen mt val : Z) : C (Z * list Z) :=
  let r :=
    if val <? 0xff then
      if u8 val <? 24 then if bufferLen <? 1 then None else Some (u8 val)
      else if bufferLen <? 2 then None else Some CBOR_AI_ONE_BYTE_VALUE
    else if val <? 0xffff then if bufferLen <? 3 then None else Some CBOR_AI_TWO_BYTE_VALUE
    else if val <? 0xffffffff then if bufferLen <? 5 then None else Some CBOR_AI_FOUR_BYTE_VALUE
    else if bufferLen <? 9 then None else Some CBOR_AI_EIGHT_BYTE_VALUE in
  match r with
  | None => ret (0, buffer)
  | Some ai =>
      buffer ← wr buffer 0 (u8 (Z.lor (Z.shiftl mt 5) ai));
      if ai =? CBOR_AI_EIGHT_BYTE_VALUE then
        v ← utils_copyValue (le_bytes 8 val) 8; buffer ← wr_bytes buffer 1 v; ret (9, buffer)
      else if ai =? CBOR_AI_FOUR_BYTE_VALUE then
        v ← utils_copyValue (le_bytes 4 (s32 val)) 4; buffer ← wr_bytes buffer 1 v; ret (5, buffer)
      else if ai =? CBOR_AI_TWO_BYTE_VALUE then
        v ← utils_copyValue (le_bytes 2 (s16 val)) 2; buffer ← wr_bytes buffer 1 v; ret (3, buffer)
      else if ai =? CBOR_AI_ONE_BYTE_VALUE then
        buffer ← wr buffer 1 (u8 val); ret (2, buffer)
      else ret (1, buffer)
  end.

Definition is_zero (f : spec_float) : bool := match f with S754_zero _ => true | _ => false end.

(** Three bytes: the head of a half-precision item. *)
Definition put_half (buffer : list Z) (b1 b2 : Z) : C (Z * list Z) :=
  buffer ← wr buffer 0 (Z.lor (Z.shiftl CBOR_FLOATING_OR_SIMPLE 5) CBOR_AI_TWO_BYTE_VALUE);
  buffer ← wr buffer 1 (u8 b1);
  buffer ← wr buffer 2 (u8 b2);
  ret (3, buffer).

(** The branch of [prv_serialize_float] for a number that is a [float] with
    representation [uval]: half or single precision. *)
Definition serialize_single (buffer : list Z) (bufferLen uval : Z) : C (Z * list Z) :=
  let mant := Z.land uval 0x7FFFFF in
  let exp := Z.land (Z.shiftr uval 23) 0xFF - 127 in
  let sign := Z.shiftr (Z.land uval 0x80000000) 24 in
  if exp =? 0xFF - 127 then put_half buffer (Z.lor sign 0x7c) 0
  else if (mant =? 0) && (exp =? -127) then put_half buffer sign 0
  else if (Z.land mant 0x7FF =? 0) && (-14 <=? exp) && (exp <=? 15) then
    let exp := exp + 15 in
    let mant := Z.shiftr mant 13 in
    put_half buffer
      (Z.lor (Z.lor sign (Z.land (Z.shiftl exp 2) 0x7C)) (Z.land (Z.shiftr mant 8) 0x3))
      (Z.land mant 0xFF)
  else if (-24 <=? exp) && (exp <=? -14) && (Z.land mant (Z.shiftl 1 (1 - exp) - 1) =? 0) then
    let mant := Z.shiftr (mant + 0x800000) (-1 - exp) in
    put_half buffer (Z.lor sign (Z.land (Z.shiftr mant 8) 0x3)) (Z.land mant 0xFF)
  else if bufferLen <? 5 then ret (0, buffer)
  else
    buffer ← wr buffer 0 (Z.lor (Z.shiftl CBOR_FLOATING_OR_SIMPLE 5) CBOR_AI_FOUR_BYTE_VALUE);
    v ← utils_copyValue (le_bytes 4 uval) 4;
    buffer ← wr_bytes buffer 1 v;
    ret (5, buffer).

Definition prv_serialize_float (buffer : list Z) (bufferLen val : Z) : C (Z * list Z) :=
  let fval := float_of_double val in
  if bufferLen <? 3 then ret (0, buffer)
  else
    match double_of_bits val with
    | S754_nan => put_half buffer 0x7e 0
    | S754_infinity s => put_half buffer (if s then 0xfc else 0x7c) 0
    | d =>
        if is_zero (SFsub 53 1024 (round_to 53 1024 (float_of_bits fval)) d) then
          serialize_single buffer bufferLen fval
        else if bufferLen <? 9 then ret (0, buffer)
        else
          buffer ← wr buffer 0 (Z.lor (Z.shiftl CBOR_FLOATING_OR_SIMPLE 5) CBOR_AI_EIGHT_BYTE_VALUE);
          v ← utils_copyValue (le_bytes 8 val) 8;
          buffer ← wr_bytes buffer 1 v;
          ret (9, buffer)
    end.

Definition cbor_put_type_and_value (buffer : list Z) (bufferLen : Z) (type : cbor_type_t) (val : Z)
    : C (Z * list Z) :=
  if bufferLen <? 1 then ret (0, buffer)
  else
    match type with
    | CBOR_TYPE_FLOAT => prv_serialize_float buffer bufferLen val
    | CBOR_TYPE_UNSIGNED_INTEGER => prv_serialize_value buffer bufferLen CBOR_UNSIGNED_INTEGER val
    | CBOR_TYPE_NEGATIVE_INTEGER =>
        prv_serialize_value buffer bufferLen CBOR_NEGATIVE_INTEGER (lnot64 val)
    | CBOR_TYPE_SEMANTIC_TAG => prv_serialize_value buffer bufferLen CBOR_SEMANTIC_TAG val
    | CBOR_TYPE_SIMPLE_VALUE =>
        if 255 <? val then ret (0, buffer)
        else prv_serialize_value buffer bufferLen CBOR_FLOATING_OR_SIMPLE val
    | CBOR_TYPE_BREAK =>
        buffer ← wr buffer 0 (Z.lor CBOR_FLOATING_OR_SIMPLE 31); ret (1, buffer)
    | CBOR_TYPE_BYTE_STRING => prv_serialize_value buffer bufferLen CBOR_BYTE_STRING val
    | CBOR_TYPE_TEXT_STRING => prv_serialize_value buffer bufferLen CBOR_TEXT_STRING val
    | CBOR_TYPE_ARRAY => prv_serialize_value buffer bufferLen CBOR_ARRAY val
    | CBOR_TYPE_MAP => prv_serialize_value buffer bufferLen CBOR_MAP val
    | CBOR_TYPE_UNKNOWN => ret (0, buffer)
    end.

(** [snprintf(buffer + off, n, "%s", text)]: the length of the whole text and
    the buffer, with what fits before a terminator. *)
Definition snprintf (buffer : list Z) (off n : Z) (text : list Z) : C (Z * list Z) :=
  if n =? 0 then ret (len text, buffer)
  else
    buffer ← wr_bytes buffer off (take (Z.to_nat (n - 1)) text ++ [0]);
    ret (len text, buffer).

Definition cbor_put_singular (buffer : list Z) (bufferLen : Z) (dataP : lwm2m_data_t)
    : C (Z * list Z) :=
  let v := d_value dataP in
  let string mt :=
    b ← asBuffer v;
    '(res, buffer) ← prv_serialize_value buffer bufferLen mt (len b);
    if 0 <? len b then
      if res <=? 0 then ret (0, buffer)
      else
        buffer ← wr_bytes buffer res b;
        let r := s32 (len b) in
        ret (if r <=? 0 then 0 else res + r, buffer)
    else ret (res, buffer) in
  match d_type dataP with
  | LWM2M_TYPE_STRING | LWM2M_TYPE_CORE_LINK => string CBOR_TEXT_STRING
  | LWM2M_TYPE_OPAQUE => string CBOR_BYTE_STRING
  | LWM2M_TYPE_INTEGER =>
      i ← asInteger v;
      if i <? 0 then prv_serialize_value buffer bufferLen CBOR_NEGATIVE_INTEGER (-1 - i)
      else prv_serialize_value buffer bufferLen CBOR_UNSIGNED_INTEGER i
  | LWM2M_TYPE_UNSIGNED_INTEGER =>
      u ← asUnsigned v; prv_serialize_value buffer bufferLen CBOR_UNSIGNED_INTEGER u
  | LWM2M_TYPE_FLOAT => f ← asFloat v; prv_serialize_float buffer bufferLen f
  | LWM2M_TYPE_BOOLEAN =>
      b ← asBoolean v;
      prv_serialize_value buffer bufferLen CBOR_FLOATING_OR_SIMPLE
        (if b : bool then CBOR_SIMPLE_TRUE else CBOR_SIMPLE_FALSE)
  | LWM2M_TYPE_OBJECT_LINK =>
      '(o, i) ← asObjLink v;
      '(res, buffer) ← snprintf buffer 1 (u64 (bufferLen - 1)) (dec o ++ chr ":" :: dec i);
      if res <? s32 (u64 (bufferLen - 1)) then
        '(r, buffer) ← prv_serialize_value buffer bufferLen CBOR_TEXT_STRING res;
        ret (if r =? 1 then res + 1 else 0, buffer)
      else ret (0, buffer)
  | _ => ret (0, buffer)
  end.

(** 1 + 2^-11 is not a half-precision number, and is encoded as 1. *)
Example half_loses_bits :
  let v := bits_of_double (binary_normalize 53 1024 2049 (-11) false) in
  let one := bits_of_double (binary_normalize 53 1024 1 0 false) in
  v <> one /\
  prv_serialize_float (replicate 9 0) 9 v = Some (3, [0xF9; 0x3C; 0; 0; 0; 0; 0; 0; 0]) /\
  cbor_get_type_and_value [0xF9; 0x3C; 0] 3 = Some (Some (3, CBOR_TYPE_FLOAT, one)).
Proof. vm_compute. repeat split; discriminate. Qed.
Ltac consts :=
  unfold CBOR_UNSIGNED_INTEGER, CBOR_NEGATIVE_INTEGER, CBOR_BYTE_STRING, CBOR_TEXT_STRING, CBOR_ARRAY,
    CBOR_MAP, CBOR_SEMANTIC_TAG, CBOR_FLOATING_OR_SIMPLE, CBOR_AI_ONE_BYTE_VALUE,
    CBOR_AI_TWO_BYTE_VALUE, CBOR_AI_FOUR_BYTE_VALUE, CBOR_AI_EIGHT_BYTE_VALUE,
    CBOR_AI_INDEFINITE_OR_BREAK, CBOR_SIMPLE_FALSE, CBOR_SIMPLE_TRUE in *.

(** The arguments [cbor_put_type_and_value] keeps. *)
Definition value_ok (t : cbor_type_t) (v : Z) : Prop :=
  match t with
  | CBOR_TYPE_UNSIGNED_INTEGER | CBOR_TYPE_SEMANTIC_TAG | CBOR_TYPE_BYTE_STRING
  | CBOR_TYPE_TEXT_STRING | CBOR_TYPE_ARRAY | CBOR_TYPE_MAP => 0 <= v < 2 ^ 64
  | CBOR_TYPE_NEGATIVE_INTEGER => 2 ^ 63 <= v < 2 ^ 64
  | CBOR_TYPE_SIMPLE_VALUE => 0 <= v < 255
  | _ => False
  end.

(** ** Reference heads *)

Definition head_ai (val : Z) : Z :=
  if val <? 24 then val else if val <? 0xff then 24 else if val <? 0xffff then 25
  else if val <? 0xffffffff then 26 else 27.

Definition head (mt val : Z) : list Z :=
  (mt * 32 + head_ai val) ::
    be_bytes (if val <? 24 then 0 else if val <? 0xff then 1 else if val <? 0xffff then 2
              else if val <? 0xffffffff then 4 else 8) val.

Lemma lor_head mt ai : 0 <= ai < 32 -> Z.lor (Z.shiftl mt 5) ai = mt * 32 + ai.
Proof. intros. rewrite shiftl_mul by lia. by rewrite (lor_add mt ai 5) by lia. Qed.

Lemma le_bytes_cong n z z' : z mod 256 ^ Z.of_nat n = z' mod 256 ^ Z.of_nat n -> le_bytes n z = le_bytes n z'.
Proof.
  intros H. pose proof (le_bytes_val _ (le_bytes_bytes n z)) as H1. pose proof (le_bytes_val _ (le_bytes_bytes n z')) as H2.
  rewrite le_bytes_length, le_val_bytes in H1, H2. by rewrite <- H1, <- H2, H.
Qed.

Lemma wr_tail {A} (b0 : A) (q v : list A) k :
  k = length v -> len v <= len q -> wr_bytes (b0 :: q) 1 v = Some ((b0 :: v) ++ drop k q).
Proof. intros -> H. exact (wr_bytes_app [b0] q 1 v eq_refl H). Qed.

(** An initial byte and a big-endian integer. *)
Lemma put_multi q k b0 v w r :
  le_bytes k w = le_bytes k v -> 1 + Z.of_nat k <= len q ->
  (buffer ← wr q 0 b0;
   v ← utils_copyValue (le_bytes k w) (Z.of_nat k);
   buffer ← wr_bytes buffer 1 v; ret (r, buffer)) =
  Some (r : Z, (b0 :: be_bytes k v) ++ drop (S k) q).
Proof.
  intros Hw Hk. destruct q as [|x q]; [cbn [length] in Hk; lia|].
  rewrite wr_cons_0. mstep. rewrite Hw, copyValue_le. mstep.
  rewrite (wr_tail b0 q (be_bytes k v) k); [done|by rewrite be_bytes_length|lens].
Qed.

(** The serializer writes the reference head, or nothing when it does not fit. *)
Lemma serialize_value_ok q n mt val :
  0 <= mt < 8 -> 0 <= val < 2 ^ 64 -> 0 <= n <= len q ->
  prv_serialize_value q n mt val =
    Some (if n <? len (head mt val) then (0, q)
          else (len (head mt val), head mt val ++ drop (length (head mt val)) q)).
Proof.
  intros Hmt Hv Hn. unfold prv_serialize_value, head, head_ai. cbn [length]. rewrite be_bytes_length.
  assert (val < 255 -> u8 val = val) as Hu by (intros; rewrite wrap_small; lia).
  assert (forall ai, 0 <= ai < 32 -> u8 (Z.lor (Z.shiftl mt 5) ai) = mt * 32 + ai) as Hh.
  { intros ai Hai. rewrite lor_head by done. rewrite wrap_small; lia. }
  consts.
  destruct (val <? 0xff) eqn:E1.
  - rewrite Hu by lia. destruct (val <? 24) eqn:E2.
    + destruct (n <? 1) eqn:E3; [by guards|]. destruct q as [|x q]; [cbn [length] in Hn; lia|].
      rewrite wr_cons_0. mstep. rewrite Hh by lia. guards. done.
    + destruct (n <? 2) eqn:E3; [by guards|]. destruct q as [|x [|y q]]; [cbn [length] in Hn; lia..|].
      rewrite wr_cons_0. mstep. rewrite Hh by (cbv; done). guards.
      wr_const. by rewrite be_bytes_1, Z.mod_small by lia.
  - rewrite (proj2 (Z.ltb_ge val 24)) by lia.
    destruct (val <? 0xffff) eqn:E2; [|destruct (val <? 0xffffffff) eqn:E3].
    + destruct (n <? 3) eqn:E4; [by guards|]. guards. rewrite Hh by lia.
      apply (put_multi q 2); [apply le_bytes_cong; unfold swrap; cbn -[Z.modulo]; dlia|lia].
    + destruct (n <? 5) eqn:E4; [by guards|]. guards. rewrite Hh by lia.
      apply (put_multi q 4); [apply le_bytes_cong; unfold swrap; cbn -[Z.modulo]; dlia|lia].
    + destruct (n <? 9) eqn:E4; [by guards|]. guards. rewrite Hh by lia.
      by apply (put_multi q 8); [|lia].
Qed.

Lemma head_bytes mt val : 0 <= mt < 8 -> 0 <= val -> bytes (head mt val).
Proof.
  intros. unfold head. constructor; [|apply be_bytes_bytes]. unfold is_byte, head_ai.
  ifs; lia.
Qed.

Lemma head_length mt val : 1 <= len (head mt val) <= 9.
Proof. unfold head. cbn [length]. rewrite be_bytes_length. ifs; lia. Qed.

(** A multi-byte argument is read back. *)
Lemma get_multi b0 k v rest :
  0 <= v < 256 ^ Z.of_nat k ->
  (b ← rd_bytes (b0 :: be_bytes k v ++ rest) 1 (Z.of_nat k);
   o ← utils_copyValue b (Z.of_nat k); ret (Some (le_val o, 1 + Z.of_nat k))) =
  Some (Some (v, 1 + Z.of_nat k)).
Proof.
  intros Hv. rewrite (rd_bytes_app [b0] (be_bytes k v) rest) by (done || by rewrite be_bytes_length).
  mstep. rewrite copyValue_be. mstep. by rewrite le_val_bytes, Z.mod_small.
Qed.

Lemma get_value_head mt val rest n :
  0 <= val < 2 ^ 64 -> len (head mt val) <= n ->
  get_value (head mt val ++ rest) n (head_ai val) = Some (Some (val, len (head mt val))).
Proof.
  intros Hv. unfold get_value, head, head_ai. cbn [length]. rewrite be_bytes_length.
  consts.
  intros Hn. destruct (val <? 24) eqn:E1; [by guards|].
  destruct (val <? 0xff) eqn:E2.
  { guards. rewrite be_bytes_1, Z.mod_small by lia. cbn [app]. by rd_const. }
  destruct (val <? 0xffff) eqn:E3; [guards; exact (get_multi _ 2 val rest ltac:(lia))|].
  destruct (val <? 0xffffffff) eqn:E4; guards.
  - exact (get_multi _ 4 val rest ltac:(lia)).
  - exact (get_multi _ 8 val rest ltac:(lia)).
Qed.

Lemma get_head mt val rest n :
  0 <= mt < 8 -> 0 <= val < 2 ^ 64 -> len (head mt val) <= n ->
  cbor_get_type_and_value (head mt val ++ rest) n =
    Some (match get_type mt (head_ai val) val with
          | Some (t, v) => Some (len (head mt val), t, v)
          | None => None
          end).
Proof.
  intros Hmt Hv Hn. unfold cbor_get_type_and_value.
  pose proof (head_length mt val). guards.
  assert (rd (head mt val ++ rest) 0 = Some (mt * 32 + head_ai val)) as -> by done. mstep.
  assert (0 <= head_ai val < 32) as Ha by (unfold head_ai; ifs; lia).
  rewrite land_31, shiftr_div by lia. change (2 ^ 5) with 32.
  replace ((mt * 32 + head_ai val) / 32) with mt by dlia.
  replace ((mt * 32 + head_ai val) mod 32) with (head_ai val) by dlia.
  rewrite get_value_head by done. mstep. by destruct (get_type mt _ val) as [[]|].
Qed.

(** ** Reading arbitrary bytes *)

Lemma get_value_total buffer n ai :
  bytes buffer -> 1 <= n <= len buffer -> 0 <= ai < 32 ->
  exists r, get_value buffer n ai = Some r /\
    match r with Some (val, result) => 0 <= val < 2 ^ 64 /\ 1 <= result <= n | None => True end.
Proof.
  intros Hb Hn Ha. unfold get_value.
  assert (forall k : nat, (k <= 8)%nat -> (n <? Z.of_nat k + 1) = false -> exists r,
    (b ← rd_bytes buffer 1 (Z.of_nat k);
     o ← utils_copyValue b (Z.of_nat k); ret (Some (le_val o, 1 + Z.of_nat k))) = Some r /\
    match r with Some (val, result) => 0 <= val < 2 ^ 64 /\ 1 <= result <= n | None => True end) as Hm.
  { intros k Hk Hg. unfold rd_bytes. guards. mstep. unfold utils_copyValue.
    pose proof (rd_bytes_all (slice buffer 1 (Z.of_nat k))) as Ha'.
    rewrite slice_length in Ha' by lia. rewrite Ha'. mstep.
    eexists; split; [done|]. split; [|lia].
    pose proof (le_val_bound (rev (slice buffer 1 (Z.of_nat k)))
      (bytes_rev _ (Forall_slice _ _ _ _ Hb))) as Hv.
    rewrite length_rev, slice_length in Hv by lia.
    assert (256 ^ Z.of_nat k <= 256 ^ 8) by (apply Z.pow_le_mono_r; lia). lia. }
  ifs; try (eexists; split; [done|done || lia]).
  - destruct (rd_Some buffer 1 ltac:(lia)) as [v Hv]. rewrite Hv. mstep.
    pose proof (rd_Forall _ _ _ _ Hb Hv) as Hr. unfold is_byte in Hr. eexists; split; [done|]. cbn match. lia.
  - apply (Hm 2%nat); lia.
  - apply (Hm 4%nat); lia.
  - apply (Hm 8%nat); lia.
  - eexists; split; [done|]. cbn match. lia.
Qed.

Lemma get_type_ok mt ai val t v :
  0 <= val < 2 ^ 64 -> get_type mt ai val = Some (t, v) ->
  t <> CBOR_TYPE_UNKNOWN /\ (t <> CBOR_TYPE_FLOAT -> 0 <= v < 2 ^ 64) /\
  (t = CBOR_TYPE_NEGATIVE_INTEGER -> 2 ^ 63 <= v).
Proof.
  intros Hv. unfold get_type, lnot64, UINT64_MAX. ifs; intros H; try discriminate H; injection H as <- <-;
    split_and!; try done; intros; try lia.
  rewrite Z.shiftr_div_pow2 in E1 by lia. dlia.
Qed.

Lemma get_total buffer n :
  bytes buffer -> 0 <= n <= len buffer ->
  exists r, cbor_get_type_and_value buffer n = Some r /\
    match r with
    | Some (k, t, v) =>
        1 <= k <= n /\ t <> CBOR_TYPE_UNKNOWN /\ (t <> CBOR_TYPE_FLOAT -> 0 <= v < 2 ^ 64) /\
        (t = CBOR_TYPE_NEGATIVE_INTEGER -> 2 ^ 63 <= v)
    | None => True
    end.
Proof.
  intros Hb Hn. unfold cbor_get_type_and_value. dif E0; [by eexists|].
  destruct (rd_Some buffer 0 ltac:(lia)) as [b0 H0]. rewrite H0. mstep.
  pose proof (rd_Forall _ _ _ _ Hb H0) as Hr. unfold is_byte in Hr.
  destruct (get_value_total buffer n (Z.land b0 0x1f) Hb ltac:(lia) ltac:(rewrite land_31; dlia))
    as (r & -> & Hr'). mstep.
  destruct r as [[val result]|]; [|by eexists]. destruct Hr' as [Hval Hres].
  destruct (get_type _ _ val) as [[t v]|] eqn:Et; [|by eexists].
  eexists; split; [done|]. split; [done|]. by apply get_type_ok in Et.
Qed.

(** On every buffer, whatever its bytes, [cbor_get_type_and_value] returns
    without reading outside it: an error, or a head of at most [bufferLen]
    bytes with a type of the enumeration and, floating-point items apart, a
    64-bit argument, the negative numbers in the range of [int64_t]. *)
Theorem cbor_get_safe buffer n :
  bytes buffer -> 0 <= n <= len buffer ->
  exists r, cbor_get_type_and_value buffer n = Some r /\
    match r with
    | Some (k, t, v) =>
        1 <= k <= n /\ t <> CBOR_TYPE_UNKNOWN /\ (t <> CBOR_TYPE_FLOAT -> 0 <= v < 2 ^ 64) /\
        (t = CBOR_TYPE_NEGATIVE_INTEGER -> 2 ^ 63 <= v)
    | None => True
    end.
Proof. exact (get_total buffer n). Qed.

(** C29. Every typed value other than a floating-point number or a break
    survives [cbor_put_type_and_value] and [cbor_get_type_and_value]: 64-bit
    unsigned integers, negative integers, tags, string, array and map heads and
    simple values below 255.  The head is written at the start of the buffer,
    the rest of which is untouched; the result is its length, and is 0 only
    when [bufferLen] is too small for it. *)
Theorem cbor_value_roundtrip q n t v :
  value_ok t v -> 1 <= n <= len q ->
  exists r out, cbor_put_type_and_value q n t v = Some (r, out) /\
    (r = 0 /\ out = q /\ n < 9 \/
     exists e, 1 <= r <= 9 /\ r <= n /\ len e = r /\ out = e ++ drop (Z.to_nat r) q /\
       forall rest m, r <= m -> cbor_get_type_and_value (e ++ rest) m = Some (Some (r, t, v))).
Proof.
  intros Ht Hn.
  assert (exists mt val, 0 <= mt < 8 /\ 0 <= val < 2 ^ 64 /\
    cbor_put_type_and_value q n t v = prv_serialize_value q n mt val /\
    get_type mt (head_ai val) val = Some (t, v)) as (mt & val & Hmt & Hv & -> & Hg).
  { unfold cbor_put_type_and_value. guards. destruct t; cbn [value_ok] in Ht; try done.
    - by exists 0, v.
    - exists 1, (lnot64 v). unfold lnot64, UINT64_MAX. split; [done|]. split; [lia|]. split; [done|].
      unfold get_type. consts. guards. rewrite Z.shiftr_div_pow2 by lia.
      rewrite Z.div_small by lia. change (negb (0 =? 0)) with false. cbn match.
      f_equal. f_equal. unfold lnot64, UINT64_MAX. lia.
    - by exists 6, v.
    - exists 7, v. split; [done|]. split; [lia|]. split; [by guards|].
      assert (0 <= head_ai v <= 24) by (unfold head_ai; ifs; lia). unfold get_type. consts. by guards.
    - by exists 2, v.
    - by exists 3, v.
    - by exists 4, v.
    - by exists 5, v. }
  rewrite serialize_value_ok by lia. pose proof (head_length mt val).
  dif E; eexists _, _; (split; [done|]); [left; split_and!; [done|done|lia]|right].
  exists (head mt val). split; [done|]. split; [lia|]. split; [done|].
  split; [by rewrite Nat2Z.id|]. intros rest m Hm. rewrite get_head by done. by rewrite Hg.
Qed.

Lemma cbor_value_roundtrip_witness :
  exists r out, cbor_put_type_and_value (replicate 9 0) 9 CBOR_TYPE_MAP 1000 = Some (r, out) /\
    (r = 0 /\ out = replicate 9 0 /\ 9 < 9 \/
     exists e, 1 <= r <= 9 /\ r <= 9 /\ len e = r /\ out = e ++ drop (Z.to_nat r) (replicate 9 0) /\
       forall rest m, r <= m -> cbor_get_type_and_value (e ++ rest) m = Some (Some (r, CBOR_TYPE_MAP, 1000))).
Proof. apply (cbor_value_roundtrip (replicate 9 0) 9 CBOR_TYPE_MAP 1000); eval_side. Defined.

Lemma cbor_get_safe_witness :
  exists r, cbor_get_type_and_value [0x1B; 0; 0] 3 = Some r /\
    match r with
    | Some (k, t, v) =>
        1 <= k <= 3 /\ t <> CBOR_TYPE_UNKNOWN /\ (t <> CBOR_TYPE_FLOAT -> 0 <= v < 2 ^ 64) /\
        (t = CBOR_TYPE_NEGATIVE_INTEGER -> 2 ^ 63 <= v)
    | None => True
    end.
Proof.
  apply (cbor_get_safe [0x1B; 0; 0] 3); [|eval_side].
  repeat first [apply list.Forall_nil_2 | apply list.Forall_cons_2]; eval_side.
Defined.

(** ** A single value *)

(** What a value read from [buffer] may be. *)
Definition singular_ok (buffer : list Z) (d : lwm2m_data_t) : Prop :=
  match d_type d, d_value d with
  | LWM2M_TYPE_UNSIGNED_INTEGER, VUnsigned u => 0 <= u < 2 ^ 64
  | LWM2M_TYPE_INTEGER, VInteger i => INT64_MIN <= i < 0
  | LWM2M_TYPE_FLOAT, VFloat _ => True
  | LWM2M_TYPE_BOOLEAN, VBoolean _ => True
  | LWM2M_TYPE_STRING, VBuffer b | LWM2M_TYPE_OPAQUE, VBuffer b => exists p s, buffer = p ++ b ++ s
  | _, _ => False
  end.

Lemma slice_split {A} (b : list A) off n :
  exists p s, b = p ++ slice b off n ++ s.
Proof.
  exists (take (Z.to_nat off) b), (drop (Z.to_nat n) (drop (Z.to_nat off) b)).
  unfold slice. by rewrite !take_drop.
Qed.

Lemma singular_loop_ok fuel : forall buffer n result tagSeen id,
  bytes buffer -> 0 <= result <= n -> n <= len buffer -> n <= INT_MAX ->
  (if tagSeen : bool then 1 <= fuel else 2 <= fuel)%nat ->
  exists r, singular_loop fuel buffer n result tagSeen id = Some r /\
    match r with Some (k, d) => result < k <= n /\ d_id d = id /\ singular_ok buffer d | None => True end.
Proof.
  induction fuel as [|fuel IH]; intros buffer n result tagSeen id Hb Hr Hn Hi Hf;
    [destruct tagSeen; lia|].
  cbn [singular_loop].
  destruct (get_total (drop (Z.to_nat result) buffer) (n - result)) as (r & -> & Ht);
    [by apply Forall_drop|lens|]. mstep.
  destruct r as [[[k t] v]|]; [|by eexists]. destruct Ht as (Hk & _ & Hv & Hneg).
  assert (t <> CBOR_TYPE_FLOAT -> forall ty, ty = LWM2M_TYPE_STRING \/ ty = LWM2M_TYPE_OPAQUE ->
    exists r, (if n - (result + k) <? v then ret None
      else b ← (if 0 <? v then rd_bytes buffer (result + k) v else ret []);
           ret (Some (s32 (result + k + v), mk_data ty id (VBuffer b)))) = Some r /\
    match r with Some (k, d) => result < k <= n /\ d_id d = id /\ singular_ok buffer d | None => True end) as Hs.
  { intros Hnf ty Hty. specialize (Hv Hnf). dif E; [by eexists|].
    assert (exists p s b, (if 0 <? v then rd_bytes buffer (result + k) v else ret []) = Some b /\
      buffer = p ++ b ++ s) as (p & s & b & -> & Hbuf).
    { dif E1; [|by exists [], buffer, []]. unfold rd_bytes. guards.
      destruct (slice_split buffer (result + k) v) as (p & s & Hs). by exists p, s, (slice buffer (result + k) v). }
    mstep. eexists; split; [done|]. rewrite swrap_small by (unfold INT_MAX in *; lia).
    split; [lia|]. split; [done|]. destruct Hty as [-> | ->]; cbn; eauto. }
  destruct t; try (by eexists); try (apply Hs; by eauto);
    try (eexists; split; [done|]; split; [lia|split; [done|]]).
  - cbn. auto.
  - specialize (Hv ltac:(done)). specialize (Hneg eq_refl). unfold singular_ok, d_type, d_value, INT64_MIN, swrap.
    assert ((v + 2 ^ (64 - 1)) mod 2 ^ 64 = v - 2 ^ 63) as -> by dlia. lia.
  - done.
  - destruct tagSeen; [by eexists|].
    destruct (IH buffer n (result + k) true id) as (r & -> & H); [done|lia|done|done|lia|].
    eexists; split; [done|]. destruct r as [[]|]; [|done]. destruct H as [? ?]. split; [lia|done].
  - ifs; eexists; split; try done; cbn; (split; [lia|done]).
Qed.

(** C30. [cbor_get_singular] returns on every buffer without reading outside it:
    an error, or one value of at most [bufferLen] bytes whose string, if it is
    one, lies inside the buffer; one semantic tag is skipped at most. *)
Theorem cbor_singular_safe buffer n d :
  bytes buffer -> 0 <= n <= len buffer -> n <= INT_MAX ->
  exists r, cbor_get_singular buffer n d = Some r /\
    match r with Some (k, d') => 1 <= k <= n /\ d_id d' = d_id d /\ singular_ok buffer d' | None => True end.
Proof.
  intros Hb Hn Hi. destruct (singular_loop_ok 2 buffer n 0 false (d_id d)) as (r & H & Hr); [done|lia|lia|done|done|].
  exists r. split; [exact H|]. destruct r as [[]|]; [|done]. destruct Hr as [? ?]. split; [lia|done].
Qed.

Lemma singular_loop_head buffer n mt val t v rest :
  buffer = head mt val ++ rest -> 0 <= mt < 8 -> 0 <= val < 2 ^ 64 -> len (head mt val) <= n ->
  get_type mt (head_ai val) val = Some (t, v) ->
  cbor_get_type_and_value (drop (Z.to_nat 0) buffer) (n - 0) = Some (Some (len (head mt val), t, v)).
Proof.
  intros -> Hmt Hv Hn Hg. change (Z.to_nat 0) with 0%nat. rewrite drop_0, Z.sub_0_r, get_head by done.
  by rewrite Hg.
Qed.

Lemma put_head q n mt val :
  0 <= mt < 8 -> 0 <= val < 2 ^ 64 -> 9 <= n <= len q ->
  prv_serialize_value q n mt val =
    Some (len (head mt val), head mt val ++ drop (length (head mt val)) q).
Proof.
  intros Hmt Hv Hn. rewrite serialize_value_ok by lia. pose proof (head_length mt val). by guards.
Qed.

(** A string: head, then the bytes. *)
Lemma put_string q n mt b :
  0 <= mt < 8 -> 9 + len b <= n <= len q -> len b <= INT_MAX ->
  ('(res, buffer) ← prv_serialize_value q n mt (len b);
   if 0 <? len b then
     if res <=? 0 then ret (0, buffer)
     else
       buffer ← wr_bytes buffer res b;
       let r := s32 (len b) in
       ret (if r <=? 0 then 0 else res + r, buffer)
   else ret (res, buffer)) =
  Some (len (head mt (len b) ++ b), (head mt (len b) ++ b) ++ drop (length (head mt (len b) ++ b)) q).
Proof.
  unfold INT_MAX. intros Hmt Hn Hb. pose proof (head_length mt (len b)) as Hh. rewrite put_head by lia. mstep.
  destruct b as [|x b]; [by rewrite app_nil_r|]. set (l := x :: b) in *.
  assert (0 < len l) by (cbn [length l]; lia). guards.
  rewrite wr_bytes_app by lens. mstep. rewrite swrap_small by lia. guards.
  rewrite drop_drop, length_app. do 2 f_equal. lia.
Qed.

Lemma get_string mt ty b rest m d :
  mt = CBOR_BYTE_STRING /\ ty = LWM2M_TYPE_OPAQUE \/ mt = CBOR_TEXT_STRING /\ ty = LWM2M_TYPE_STRING ->
  len (head mt (len b) ++ b) <= m <= len ((head mt (len b) ++ b) ++ rest) -> m <= INT_MAX ->
  cbor_get_singular ((head mt (len b) ++ b) ++ rest) m d =
    Some (Some (len (head mt (len b) ++ b), mk_data ty (d_id d) (VBuffer b))).
Proof.
  intros Hty Hm Hi. unfold cbor_get_singular. cbn [singular_loop]. unfold INT_MAX in *.
  assert (exists t, get_type mt (head_ai (len b)) (len b) = Some (t, len b) /\ 0 <= mt < 8 /\
    (t = CBOR_TYPE_BYTE_STRING /\ ty = LWM2M_TYPE_OPAQUE \/ t = CBOR_TYPE_TEXT_STRING /\ ty = LWM2M_TYPE_STRING))
    as (t & Hg & Hmt & Ht).
  { destruct Hty as [[-> ->]|[-> ->]]; eexists; (split; [by cbn|split; [done|by auto]]). }
  rewrite length_app in Hm.
  rewrite (singular_loop_head _ m mt (len b) t (len b) (b ++ rest));
    [|by rewrite app_assoc|done|lia|lia|done]. mstep.
  assert ((if 0 <? len b then rd_bytes ((head mt (len b) ++ b) ++ rest) (0 + len (head mt (len b))) (len b)
           else ret []) = Some b) as Hrd.
  { destruct b as [|x b]; [done|]. rewrite <- app_assoc, Z.add_0_l.
    rewrite rd_bytes_app by done. by guards. }
  destruct Ht as [[-> ->]|[-> ->]]; (destruct (m - _ <? _) eqn:E; [lens|]);
    rewrite Hrd; mstep; rewrite swrap_small by lens; do 3 f_equal; lens.
Qed.

(** The bytes of a value that is not a floating-point number. *)
Definition singular_bytes (d : lwm2m_data_t) : list Z :=
  match d_type d, d_value d with
  | LWM2M_TYPE_OPAQUE, VBuffer b => head CBOR_BYTE_STRING (len b) ++ b
  | _, VBuffer b => head CBOR_TEXT_STRING (len b) ++ b
  | _, VInteger i => if i <? 0 then head CBOR_NEGATIVE_INTEGER (-1 - i) else head CBOR_UNSIGNED_INTEGER i
  | _, VUnsigned u => head CBOR_UNSIGNED_INTEGER u
  | _, VBoolean b => head CBOR_FLOATING_OR_SIMPLE (if b : bool then CBOR_SIMPLE_TRUE else CBOR_SIMPLE_FALSE)
  | _, VObjLink o i => let t := dec o ++ chr ":" :: dec i in head CBOR_TEXT_STRING (len t) ++ t
  | _, _ => []
  end.

(** The value a reader finds there: CBOR has no type for non-negative [int64_t]
    values, CoRE links and object links. *)
Definition singular_image (id : Z) (d : lwm2m_data_t) : lwm2m_data_t :=
  match d_type d, d_value d with
  | LWM2M_TYPE_INTEGER, VInteger i =>
      if i <? 0 then mk_data LWM2M_TYPE_INTEGER id (VInteger i)
      else mk_data LWM2M_TYPE_UNSIGNED_INTEGER id (VUnsigned i)
  | LWM2M_TYPE_CORE_LINK, v => mk_data LWM2M_TYPE_STRING id v
  | LWM2M_TYPE_OBJECT_LINK, VObjLink o i =>
      mk_data LWM2M_TYPE_STRING id (VBuffer (dec o ++ chr ":" :: dec i))
  | t, v => mk_data t id v
  end.

Definition singular_wf (d : lwm2m_data_t) : Prop :=
  match d_type d, d_value d with
  | (LWM2M_TYPE_STRING | LWM2M_TYPE_CORE_LINK | LWM2M_TYPE_OPAQUE), VBuffer b => len b <= INT_MAX - 9
  | LWM2M_TYPE_INTEGER, VInteger i => INT64_MIN <= i <= INT64_MAX
  | LWM2M_TYPE_UNSIGNED_INTEGER, VUnsigned u => 0 <= u < 2 ^ 64
  | LWM2M_TYPE_BOOLEAN, VBoolean _ => True
  | LWM2M_TYPE_OBJECT_LINK, VObjLink o i => 0 <= o <= 65535 /\ 0 <= i <= 65535
  | _, _ => False
  end.

Lemma objlink_text_length o i :
  0 <= o <= 65535 -> 0 <= i <= 65535 -> 3 <= len (dec o ++ chr ":" :: dec i) <= 11.
Proof.
  intros Ho Hi. assert (forall n, 0 <= n <= 65535 -> 0 < len (dec n) <= 5) as Hd.
  { intros n Hn. split; [apply dec_length_pos; lia|apply dec_length_iff; lia]. }
  pose proof (Hd o Ho). pose proof (Hd i Hi). lens.
Qed.

(** [snprintf] of a short text one byte into the buffer, then its head before it. *)
Lemma put_objlink q n t :
  0 < len t < 24 -> 2 + len t <= n -> n <= len q -> n <= INT_MAX ->
  ('(res, buffer) ← snprintf q 1 (u64 (n - 1)) t;
   if res <? s32 (u64 (n - 1)) then
     '(r, buffer) ← prv_serialize_value buffer n CBOR_TEXT_STRING res;
     ret (if r =? 1 then res + 1 else 0, buffer)
   else ret (0, buffer)) =
  Some (1 + len t, (head CBOR_TEXT_STRING (len t) ++ t) ++ 0 :: drop (2 + length t) q).
Proof.
  unfold INT_MAX. intros Ht Hn Hq Hi. rewrite wrap_small by lia. unfold snprintf. guards.
  rewrite take_ge by lia. destruct q as [|x q]; [cbn [length] in *; lia|]. cbn [length] in Hq.
  rewrite (wr_tail x q (t ++ [0]) (S (length t))) by lens. mstep.
  rewrite swrap_small by lia. guards. rewrite serialize_value_ok by (done || lens).
  assert (head CBOR_TEXT_STRING (len t) = [3 * 32 + len t]) as ->.
  { unfold head, head_ai. by guards. }
  cbn [length]. guards. mstep. guards. rewrite Z.add_comm. cbn [app drop plus].
  do 3 f_equal. by rewrite <- app_assoc.
Qed.

(** [put] writes the encoding [e], from which the value [image] is read. *)
Definition writes_item (put : C (Z * list Z)) (size : nat) (e : list Z) (image : Z -> lwm2m_data_t) : Prop :=
  exists tail, put = Some (len e, e ++ tail) /\ length (e ++ tail) = size /\
    forall rest m d0, len e <= m <= len (e ++ rest) -> m <= INT_MAX ->
      cbor_get_singular (e ++ rest) m d0 = Some (Some (len e, image (d_id d0))).

Lemma writes_head q n mt val t v image :
  0 <= mt < 8 -> 0 <= val < 2 ^ 64 -> 9 <= n <= len q -> get_type mt (head_ai val) val = Some (t, v) ->
  (forall buffer m k d0, cbor_get_type_and_value (drop (Z.to_nat 0) buffer) (m - 0) = Some (Some (k, t, v)) ->
    cbor_get_singular buffer m d0 = Some (Some (0 + k, image (d_id d0)))) ->
  writes_item (prv_serialize_value q n mt val) (length q) (head mt val) image.
Proof.
  intros Hmt Hv Hn Hg Him. pose proof (head_length mt val).
  eexists; split; [by apply put_head|]. split; [lens|]. intros rest m d0 Hm _.
  apply Him. by rewrite (singular_loop_head _ m mt val t v rest) by (done || lia).
Qed.

Lemma writes_string q n mt ty b :
  mt = CBOR_BYTE_STRING /\ ty = LWM2M_TYPE_OPAQUE \/ mt = CBOR_TEXT_STRING /\ ty = LWM2M_TYPE_STRING ->
  9 + len b <= n <= len q -> len b <= INT_MAX ->
  writes_item
   ('(res, buffer) ← prv_serialize_value q n mt (len b);
    if 0 <? len b then
      if res <=? 0 then ret (0, buffer)
      else
        buffer ← wr_bytes buffer res b;
        let r := s32 (len b) in
        ret (if r <=? 0 then 0 else res + r, buffer)
    else ret (res, buffer)) (length q) (head mt (len b) ++ b)
    (fun id => mk_data ty id (VBuffer b)).
Proof.
  intros Hty Hn Hb. assert (0 <= mt < 8) by (by destruct Hty as [[-> _]|[-> _]]).
  pose proof (head_length mt (len b)).
  eexists; split; [by apply put_string|]. split; [lens|]. intros rest m d0 Hm Hi. by apply get_string.
Qed.

Lemma put_singular_ok q n d :
  singular_wf d -> len (singular_bytes d) + 9 <= n -> n <= len q -> n <= INT_MAX ->
  writes_item (cbor_put_singular q n d) (length q) (singular_bytes d) (fun id => singular_image id d).
Proof.
  intros Hwf Hn Hq Hi. destruct d as [t id v]. unfold singular_wf, singular_image, singular_bytes in *.
  cbn [d_type d_value] in *.
  destruct t; try done; destruct v as [|b|i|u|f|b|ch|o i]; try done;
    unfold cbor_put_singular; cbn [d_type d_value asBuffer asInteger asUnsigned asBoolean asObjLink]; mstep.
  - apply writes_string; [by right|lens|lens].
  - apply writes_string; [by left|lens|lens].
  - unfold INT64_MIN, INT64_MAX in *. pose proof (head_length CBOR_NEGATIVE_INTEGER (-1 - i)).
    pose proof (head_length CBOR_UNSIGNED_INTEGER i). dif E.
    + apply (writes_head q n _ _ CBOR_TYPE_NEGATIVE_INTEGER (lnot64 (-1 - i))); [done|lia|lia| |].
      * unfold get_type. consts. rewrite Z.shiftr_div_pow2, Z.div_small by lia. done.
      * intros buffer m k d0 Hg. unfold cbor_get_singular. cbn [singular_loop]. rewrite Hg. mstep.
        do 5 f_equal. unfold swrap, lnot64, UINT64_MAX. dlia.
    + apply (writes_head q n _ _ CBOR_TYPE_UNSIGNED_INTEGER i); [done|lia|lia|done|].
      intros buffer m k d0 Hg. unfold cbor_get_singular. cbn [singular_loop]. by rewrite Hg.
  - pose proof (head_length CBOR_UNSIGNED_INTEGER u).
    apply (writes_head q n _ _ CBOR_TYPE_UNSIGNED_INTEGER u); [done|lia|lia|done|].
    intros buffer m k d0 Hg. unfold cbor_get_singular. cbn [singular_loop]. by rewrite Hg.
  - set (val := if b : bool then CBOR_SIMPLE_TRUE else CBOR_SIMPLE_FALSE) in *.
    pose proof (head_length CBOR_FLOATING_OR_SIMPLE val).
    apply (writes_head q n _ _ CBOR_TYPE_SIMPLE_VALUE val); [done|by destruct b|lia|by destruct b|].
    intros buffer m k d0 Hg. unfold cbor_get_singular. cbn [singular_loop]. rewrite Hg. by destruct b.
  - pose proof (objlink_text_length o i ltac:(lia) ltac:(lia)). rewrite length_app in Hn.
    pose proof (head_length CBOR_TEXT_STRING (len (dec o ++ chr ":" :: dec i))).
    set (tx := dec o ++ chr ":" :: dec i) in *.
    assert (len (head CBOR_TEXT_STRING (len tx)) = 1) as H1 by (unfold head; cbn [length]; by guards).
    eexists; split; [etransitivity; [apply put_objlink; lia|]; f_equal; f_equal; rewrite length_app; lia|].
    split; [cbn [length]; lens|]. intros rest m d0 Hm Hi'. apply get_string; [by right|done|done].
  - apply writes_string; [by right|lens|lens].
Qed.

(** A value written by [cbor_put_singular] into a buffer with room for it,
    one that is not a floating-point number, is its encoding followed by bytes
    the caller does not use; the result is the length of the encoding, and
    [cbor_get_singular] reads the value back from there, whatever follows. *)
Theorem cbor_singular_roundtrip q n d :
  singular_wf d -> len (singular_bytes d) + 9 <= n -> n <= len q -> n <= INT_MAX ->
  exists tail, cbor_put_singular q n d = Some (len (singular_bytes d), singular_bytes d ++ tail) /\
    length (singular_bytes d ++ tail) = length q /\
    forall rest m d0, len (singular_bytes d) <= m <= len (singular_bytes d ++ rest) -> m <= INT_MAX ->
      cbor_get_singular (singular_bytes d ++ rest) m d0 =
        Some (Some (len (singular_bytes d), singular_image (d_id d0) d)).
Proof. exact (put_singular_ok q n d). Qed.

Lemma cbor_singular_safe_witness :
  exists r, cbor_get_singular [0xC1; 0x62; 65; 66] 4 (mk_data LWM2M_TYPE_UNDEFINED 7 VZero) = Some r /\
    match r with
    | Some (k, d') => 1 <= k <= 4 /\ d_id d' = 7 /\ singular_ok [0xC1; 0x62; 65; 66] d'
    | None => True
    end.
Proof.
  apply (cbor_singular_safe [0xC1; 0x62; 65; 66] 4 (mk_data LWM2M_TYPE_UNDEFINED 7 VZero)); [|eval_side..].
  repeat first [apply list.Forall_nil_2 | apply list.Forall_cons_2]; eval_side.
Defined.

Lemma cbor_singular_roundtrip_witness :
  let d := mk_data LWM2M_TYPE_OBJECT_LINK 7 (VObjLink 10 65535) in
  exists tail, cbor_put_singular (replicate 20 0) 20 d = Some (len (singular_bytes d), singular_bytes d ++ tail) /\
    length (singular_bytes d ++ tail) = length (replicate 20 0) /\
    forall rest m d0, len (singular_bytes d) <= m <= len (singular_bytes d ++ rest) -> m <= INT_MAX ->
      cbor_get_singular (singular_bytes d ++ rest) m d0 =
        Some (Some (len (singular_bytes d), singular_image (d_id d0) d)).
Proof.
  apply (cbor_singular_roundtrip (replicate 20 0) 20 (mk_data LWM2M_TYPE_OBJECT_LINK 7 (VObjLink 10 65535)));
    eval_side.
Defined.

(** ** Behaviour outside the contract *)

(** A break is written as 0x1F, an indefinite-length unsigned integer, and is
    not read back as a break. *)
Example break_not_encoded :
  cbor_put_type_and_value [0] 1 CBOR_TYPE_BREAK 0 = Some (1, [0x1F]) /\
  cbor_get_type_and_value [0x1F] 1 = Some (Some (1, CBOR_TYPE_UNSIGNED_INTEGER, 31)) /\
  cbor_get_type_and_value [0xFF] 1 = Some (Some (1, CBOR_TYPE_BREAK, 0)).
Proof. vm_compute. done. Qed.

(** Simple value 255 is written as a half-precision number. *)
Example simple_255 :
  cbor_put_type_and_value (replicate 9 0) 9 CBOR_TYPE_SIMPLE_VALUE 255 =
    Some (3, [0xF9; 0; 0xFF; 0; 0; 0; 0; 0; 0]) /\
  exists v, cbor_get_type_and_value [0xF9; 0; 0xFF] 3 = Some (Some (3, CBOR_TYPE_FLOAT, v)).
Proof. vm_compute. eauto. Qed.

(** The bytes of a string are copied whether they fit or not. *)
Example put_string_overflow :
  cbor_put_singular (replicate 3 0) 3 (mk_data LWM2M_TYPE_STRING 0 (VBuffer [65; 66; 67; 68])) = None.
Proof. vm_compute. done. Qed.

(** The head of an indefinite-length string is taken for a string of 31 bytes. *)
Example indefinite_string :
  cbor_get_type_and_value [0x7F] 1 = Some (Some (1, CBOR_TYPE_TEXT_STRING, 31)).
Proof. vm_compute. done. Qed.
End Cbor.
