(* ===== verification/CborFloat.v ===== *)
(** * Floating-point items of CBOR

    The half, single and double precision forms chosen by
    [prv_serialize_float] stand for the number that was written. *)
From S2P Require Import Prelude Types Utils Float Cbor.
From Stdlib Require Import SpecFloat.
Import Utils Float Cbor.

Module CborFloat.

Definition half_sign (s : bool) : Z := if s then 2 ^ 15 else 0.

Lemma half_fields s e q :
  0 <= e < 32 -> 0 <= q < 1024 ->
  let h := half_sign s + e * 1024 + q in
  Z.land (Z.shiftr h 10) 0x1f = e /\ Z.land h 0x3ff = q /\ Z.land h 0x8000 = half_sign s.
Proof.
  intros He Hq h. destruct (bits_fields 10 5 s e q) as (B1 & B2 & B3); [lia..|].
  change (sign_bits 10 5 s + e * 2 ^ 10 + q) with h in *.
  split_and!.
  - rewrite land_31, shiftr_div by lia. exact B2.
  - exact (eq_trans (Z.land_ones h 10 ltac:(lia)) B3).
  - change 0x8000 with (2 ^ (10 + 5)). rewrite land_pow2, B1 by lia. by destruct s.
Qed.

Lemma SFopp_round s m e :
  (exists p x, binary_round 53 1024 false m e = S754_finite false p x) ->
  binary_round 53 1024 s m e = if s then SFopp (binary_round 53 1024 false m e) else binary_round 53 1024 false m e.
Proof.
  intros (p & x & H). destruct s; [|done]. rewrite H. revert H. unfold binary_round.
  destruct (shl_align m e _) as [mz ez]. unfold binary_round_aux.
  destruct (shr_fexp 53 1024 (Zpos mz) ez loc_Exact) as [r1 e1].
  destruct (shr_fexp 53 1024 _ e1 loc_Exact) as [r2 e2].
  destruct (shr_m r2); [done| |done]. destruct (_ <=? _); [|done]. by intros [= -> ->].
Qed.

(** Normalized and subnormal half-precision numbers. *)
Lemma half_normal s e q m :
  1 <= e <= 30 -> 0 <= q < 1024 -> Zpos m = q + 1024 ->
  half_to_double (half_sign s + e * 1024 + q) = bits_of_double (binary_round 53 1024 s m (e - 25)).
Proof.
  intros He Hq Hm. destruct (half_fields s e q ltac:(lia) Hq) as (H1 & H2 & H3).
  unfold half_to_double. rewrite H1, H2, H3. guards. f_equal.
  unfold ldexp, binary_normalize. rewrite <- Hm.
  pose proof (digits2_bounds m) as Hd. assert (Zpos (digits2_pos m) = 11) as Hd'.
  { assert (Zpos (digits2_pos m) - 1 < 11) by (apply (Z.pow_lt_mono_r_iff 2); lia).
    assert (10 < Zpos (digits2_pos m)) by (apply (Z.pow_lt_mono_r_iff 2); lia). lia. }
  rewrite (SFopp_round s) by (rewrite normalize_exact by lia; by eauto). by destruct s.
Qed.

Lemma half_subnormal s q :
  0 < Zpos q < 1024 ->
  half_to_double (half_sign s + Zpos q) = bits_of_double (binary_round 53 1024 s q (-24)).
Proof.
  intros Hq. destruct (half_fields s 0 (Zpos q) ltac:(lia) ltac:(lia)) as (H1 & H2 & H3).
  rewrite Z.mul_0_l, Z.add_0_r in *. unfold half_to_double. rewrite H1, H2, H3. guards. f_equal.
  unfold ldexp, binary_normalize.
  pose proof (digits2_bounds q) as Hd.
  assert (Zpos (digits2_pos q) - 1 < 10) by (apply (Z.pow_lt_mono_r_iff 2); lia).
  rewrite (SFopp_round s) by (rewrite normalize_exact by lia; by eauto). by destruct s.
Qed.

(** The sign, exponent and mantissa of a [float] that is finite. *)
Lemma float_fields x :
  0 <= x < 2 ^ 32 ->
  let s := Z.testbit x 31 in let E := Z.land (Z.shiftr x 23) 0xFF in let M := Z.land x 0x7FFFFF in
  0 <= E < 256 /\ 0 <= M < 2 ^ 23 /\ Z.shiftr (Z.land x 0x80000000) 24 = (if s then 128 else 0) /\
  float_of_bits x =
    (if E =? 0 then match M with Zpos p => S754_finite s p (-149) | _ => S754_zero s end
     else if E =? 255 then if M =? 0 then S754_infinity s else S754_nan
     else match 2 ^ 23 + M with Zpos p => S754_finite s p (E - 150) | _ => S754_nan end).
Proof.
  intros Hx s E M.
  assert (E = (x / 2 ^ 23) mod 2 ^ 8) as HE by (unfold E; rewrite land_255, shiftr_div by lia; done).
  assert (M = x mod 2 ^ 23) as HM by (exact (Z.land_ones x 23 ltac:(lia))).
  split_and!; [rewrite HE; dlia|rewrite HE; dlia|rewrite HM; dlia|rewrite HM; dlia| |].
  - change 0x80000000 with (2 ^ 31). rewrite land_pow2 by lia. fold s. by destruct s.
  - unfold float_of_bits, sf_of_bits. rewrite <- HE, <- HM. change (2 ^ 8 - 1) with 255.
    change (23 + 8) with 31. fold s. change (emin (prec 23) (emax 8)) with (-149).
    destruct (E =? 0); [done|]. destruct (E =? 255); [done|].
    destruct (2 ^ 23 + M); [done| |done]. f_equal. lia.
Qed.

(** ** Items *)

(** [e] is read as the number [v]. *)
Definition reads_float (e : list Z) (v : Z) : Prop :=
  forall rest m, len e <= m -> cbor_get_type_and_value (e ++ rest) m = Some (Some (len e, CBOR_TYPE_FLOAT, v)).

Lemma reads_float_multi ai k z v :
  (ai, k) ∈ [(25, 2%nat); (26, 4%nat); (27, 8%nat)] -> 0 <= z < 256 ^ Z.of_nat k ->
  get_type CBOR_FLOATING_OR_SIMPLE ai z = Some (CBOR_TYPE_FLOAT, v) ->
  reads_float ((224 + ai) :: be_bytes k z) v.
Proof.
  intros Hai Hz Hg rest m Hm. cbn [length] in *. rewrite be_bytes_length in *. unfold cbor_get_type_and_value.
  guards. cbn [app]. rewrite rd_cons_0. mstep.
  assert (exists r, get_value ((224 + ai) :: be_bytes k z ++ rest) m ai = Some (Some r) /\ r = (z, 1 + Z.of_nat k) /\
    0 <= ai < 32) as (r & Hr & -> & Ha).
  { unfold get_value. consts. set_unfold in Hai. destruct Hai as [[= -> ->]|[[= -> ->]|[[= -> ->]|[]]]]; guards;
      (eexists; split; [apply get_multi; lia|done]). }
  rewrite land_31, shiftr_div by lia.
  replace ((224 + ai) / 2 ^ 5) with CBOR_FLOATING_OR_SIMPLE by (change CBOR_FLOATING_OR_SIMPLE with 7; dlia).
  replace ((224 + ai) mod 32) with ai by dlia. rewrite Hr. mstep. rewrite Hg. do 4 f_equal. lia.
Qed.

Lemma reads_half h : 0 <= h < 65536 -> reads_float [0xF9; h / 256; h mod 256] (half_to_double h).
Proof.
  intros Hh. pose proof (reads_float_multi 25 2 h (half_to_double h)) as H.
  rewrite be_bytes_2, (Z.mod_small (h / 256)) in H by dlia.
  apply H; [set_unfold; by left|lia|]. unfold get_type. consts. guards. by rewrite wrap_small by lia.
Qed.

(** What [prv_serialize_float] does for [v], on [q]. *)
Definition writes_float (put : C (Z * list Z)) (q : list Z) (exact : Prop) (v : Z) : Prop :=
  exists e, put = Some (len e, e ++ drop (length e) q) /\ (len e = 3 \/ len e = 5 \/ len e = 9) /\
    ((len e = 3 -> exact) -> reads_float e v).

Lemma put_half_ok q b1 b2 h (exact : Prop) v :
  3 <= len q -> 0 <= h < 65536 -> u8 b1 = h / 256 -> u8 b2 = h mod 256 -> (exact -> half_to_double h = v) ->
  writes_float (put_half q b1 b2) q exact v.
Proof.
  intros Hq Hh H1 H2 Hv. exists [0xF9; h / 256; h mod 256]. split_and!; [|by left|].
  - unfold put_half. rewrite H1, H2. destruct q as [|x [|y [|z q]]]; [cbn [length] in Hq; lia..|].
    rewrite wr_cons_0. mstep. wr_const. mstep. wr_const. done.
  - intros He. rewrite <- Hv by (by apply He). by apply reads_half.
Qed.

(** The last byte of the sign and exponent of a half-precision number. *)
Lemma half_byte s e q :
  0 <= e < 32 -> 0 <= q < 4 ->
  u8 (Z.lor (Z.lor (if s : bool then 128 else 0) (Z.land (Z.shiftl e 2) 0x7C)) (Z.land q 3)) =
    (if s then 128 else 0) + e * 4 + q.
Proof.
  intros He Hq.
  assert (forall x, 0 <= x < 128 ->
    (let (e, q) := (x / 4, x mod 4) in
     (u8 (Z.lor (Z.lor 128 (Z.land (Z.shiftl e 2) 0x7C)) (Z.land q 3)) =? 128 + e * 4 + q) &&
     (u8 (Z.lor (Z.lor 0 (Z.land (Z.shiftl e 2) 0x7C)) (Z.land q 3)) =? 0 + e * 4 + q)) = true) as H
    by (apply (range_cases 128); vm_compute; done).
  specialize (H (e * 4 + q) ltac:(lia)). cbv beta zeta in H.
  replace ((e * 4 + q) / 4) with e in H by dlia. replace ((e * 4 + q) mod 4) with q in H by dlia.
  destruct s; lia.
Qed.

Lemma mask_low z n m : 0 <= n -> m = 2 ^ n - 1 -> Z.land z m = z mod 2 ^ n.
Proof. intros Hn ->. rewrite <- Z.land_ones by done. by rewrite Z.ones_equiv, Z.sub_1_r. Qed.

(** A subnormal or normal half-precision number has the value of the [float]
    it is made from. *)
Lemma half_of_normal s E M p :
  113 <= E <= 142 -> 0 <= M < 2 ^ 23 -> M mod 2 ^ 13 = 0 -> 2 ^ 23 + M = Zpos p ->
  half_to_double (half_sign s + (E - 112) * 1024 + M / 2 ^ 13) =
    bits_of_double (binary_round 53 1024 s p (E - 150)).
Proof.
  intros HE HM Hm Hp. destruct (M / 2 ^ 13 + 1024) as [|m|m] eqn:Em; [dlia| |dlia].
  rewrite (half_normal s (E - 112) (M / 2 ^ 13) m) by dlia. f_equal.
  replace (E - 112 - 25) with (E - 150 + 13) by lia. pose proof (digits2_bounds p).
  assert (Zpos (digits2_pos p) - 1 < 24) by (apply (Z.pow_lt_mono_r_iff 2); lia).
  assert (23 < Zpos (digits2_pos p)) by (apply (Z.pow_lt_mono_r_iff 2); lia).
  apply round_scale; [lia|dlia|lia|lia].
Qed.

Lemma half_of_subnormal s k M p q :
  14 <= k <= 23 -> 0 <= M < 2 ^ 23 -> M mod 2 ^ (k + 2) = 0 -> 2 ^ 23 + M = Zpos p ->
  Z.shiftr (M + 0x800000) k = Zpos q ->
  0 < Zpos q < 1024 /\
  half_to_double (half_sign s + Zpos q) = bits_of_double (binary_round 53 1024 s p (126 - k - 150)).
Proof.
  intros Hk HM Hm Hp Hq. rewrite shiftr_div in Hq by lia.
  assert (Zpos p = Zpos q * 2 ^ k) as Hpq.
  { rewrite <- Hp, <- Hq. replace (k + 2) with (2 + k) in Hm by lia. rewrite Z.pow_add_r in Hm by lia.
    apply Z.mod_divide in Hm as [c Hc]; [|lia]. change 0x800000 with (2 ^ 23).
    assert (2 ^ 23 = 2 ^ (23 - k) * 2 ^ k) as -> by (rewrite <- Z.pow_add_r by lia; f_equal; lia).
    rewrite Hc. replace (c * (2 ^ 2 * 2 ^ k) + 2 ^ (23 - k) * 2 ^ k) with ((c * 4 + 2 ^ (23 - k)) * 2 ^ k) by lia.
    rewrite Z.div_mul by lia. lia. }
  assert (2 ^ 14 <= 2 ^ k) by (apply Z.pow_le_mono_r; lia).
  assert (0 < Zpos q < 1024) as Hb by nia. split; [done|]. rewrite half_subnormal by done. f_equal.
  pose proof (digits2_bounds p).
  assert (Zpos (digits2_pos p) - 1 < 24) by (apply (Z.pow_lt_mono_r_iff 2); lia).
  replace (-24) with (126 - k - 150 + k) by lia. apply round_scale; lia.
Qed.

Lemma put_multi_float q ai k z v exact :
  (ai, k) ∈ [(26, 4%nat); (27, 8%nat)] -> 0 <= z < 256 ^ Z.of_nat k -> 9 <= len q ->
  get_type CBOR_FLOATING_OR_SIMPLE ai z = Some (CBOR_TYPE_FLOAT, v) ->
  writes_float
    (buffer ← wr q 0 (224 + ai); v ← utils_copyValue (le_bytes k z) (Z.of_nat k);
     buffer ← wr_bytes buffer 1 v; ret (1 + Z.of_nat k, buffer)) q exact v.
Proof.
  intros Hai Hz Hq Hg. exists ((224 + ai) :: be_bytes k z). set_unfold in Hai.
  cbn [length]. rewrite be_bytes_length. split_and!.
  - rewrite (put_multi q k _ z z) by (done || destruct Hai as [[= -> ->]|[[= -> ->]|[]]]; lia). do 2 f_equal. lia.
  - destruct Hai as [[= -> ->]|[[= -> ->]|[]]]; lia.
  - intros _. apply reads_float_multi; [set_unfold; tauto|done|done].
Qed.

Lemma low13 x : Z.land x 0x1FFF = Z.land x 0x7FFFFF mod 2 ^ 13.
Proof. rewrite (mask_low x 13), (mask_low x 23) by done. dlia. Qed.

Lemma serialize_single_ok q n x :
  0 <= x < 2 ^ 32 -> 9 <= n <= len q ->
  match float_of_bits x with S754_zero _ | S754_finite _ _ _ => True | _ => False end ->
  writes_float (serialize_single q n x) q (Z.land x 0x1FFF = 0) (double_of_float x).
Proof.
  intros Hx Hn Hfin. destruct (float_fields x Hx) as (HE & HM & HS & HF).
  unfold double_of_float. rewrite HF in *. unfold serialize_single. rewrite HS.
  rewrite low13.
  set (E := Z.land (Z.shiftr x 23) 0xFF) in *. set (M := Z.land x 0x7FFFFF) in *.
  set (s := Z.testbit x 31) in *.
  clearbody E M s.
  destruct (E - 127 =? 255 - 127) eqn:B1.
  { exfalso. revert Hfin. guards. by destruct (M =? 0). }
  destruct ((M =? 0) && (E - 127 =? -127)) eqn:B2.
  { guards. replace M with 0 by lia. apply (put_half_ok q _ _ (half_sign s)); [lia|by destruct s..|].
    intros _. by destruct s. }
  destruct ((Z.land M 0x7FF =? 0) && (-14 <=? E - 127) && (E - 127 <=? 15)) eqn:B3.
  { guards. destruct (2 ^ 23 + M) as [|p|p] eqn:Ep; [lia| |lia]. cbn [round_to].
    apply (put_half_ok q _ _ (half_sign s + (E - 112) * 1024 + M / 2 ^ 13)); [lia| | | |].
    - destruct s; unfold half_sign; dlia.
    - replace (E - 127 + 15) with (E - 112) by lia. rewrite !shiftr_div by lia.
      rewrite half_byte by dlia. destruct s; unfold half_sign; dlia.
    - rewrite land_255, shiftr_div, wrap_small by (try lia; dlia). destruct s; unfold half_sign; dlia.
    - intros Hm. by apply half_of_normal; [lia| |lia|]. }
  destruct ((-24 <=? E - 127) && _ && _) eqn:B4.
  { assert (exists k, k = -1 - (E - 127) /\ 13 <= k <= 23) as (k & Hk & Hk') by (eexists; split; [done|lia]).
    rewrite (mask_low M (k + 2)) in B4 by (try lia; rewrite Z.shiftl_1_l; do 2 f_equal; lia).
    destruct (Z.eq_dec k 13) as [->|Hk13].
    { exfalso. rewrite (mask_low M 11) in B3 by done. change (13 + 2) with 15 in B4. clear Hfin HF. dlia. }
    destruct (2 ^ 23 + M) as [|p|p] eqn:Ep; [lia| |lia].
    assert (0 < Z.shiftr (M + 0x800000) k) as Hpos.
    { rewrite shiftr_div by lia. apply Z.div_str_pos. pose proof (Z.pow_le_mono_r 2 k 23). lia. }
    destruct (Z.shiftr (M + 0x800000) k) as [|h|h] eqn:Eh; [lia| |lia].
    destruct (half_of_subnormal s k M p h) as [Hh Hv]; [lia|lia|lia|done|done|].
    guards. rewrite <- Hk, Eh. cbn [round_to].
    apply (put_half_ok q _ _ (half_sign s + Zpos h)); [lia| | | |].
    - destruct s; unfold half_sign; lia.
    - pose proof (half_byte s 0 (Zpos h / 256) ltac:(lia) ltac:(dlia)) as Hb.
      change (Z.land (Z.shiftl 0 2) 0x7C) with 0 in Hb. rewrite Z.lor_0_r in Hb.
      rewrite shiftr_div by lia. change (2 ^ 8) with 256. rewrite Hb. destruct s; unfold half_sign; dlia.
    - rewrite land_255, wrap_small by dlia. destruct s; unfold half_sign; dlia.
    - intros _. rewrite Hv. do 2 f_equal. lia. }
  destruct (n <? 5) eqn:B5; [lia|]. rewrite <- HF.
  apply (put_multi_float q 26 4 x); [set_unfold; by left|lia|lia|].
  unfold get_type. consts. guards. by rewrite wrap_small by lia.
Qed.

(** When the narrowed number differs from [v] by zero, it is [v]. *)
Lemma widened_equal v :
  match double_of_bits v with S754_zero _ | S754_finite _ _ _ => True | _ => False end ->
  is_zero (SFsub 53 1024 (round_to 53 1024 (float_of_bits (float_of_double v))) (double_of_bits v)) = true ->
  round_to 53 1024 (float_of_bits (float_of_double v)) = double_of_bits v /\
  match float_of_bits (float_of_double v) with S754_zero _ | S754_finite _ _ _ => True | _ => False end.
Proof.
  intros Hfin Hz.
  pose proof (sf_of_bits_valid 52 11 v ltac:(lia) ltac:(lia)) as Hvd.
  pose proof (sf_of_bits_valid 23 8 (float_of_double v) ltac:(lia) ltac:(lia)) as Hvf.
  change (prec 52) with 53 in Hvd. change (emax 11) with 1024 in Hvd. fold (double_of_bits v) in Hvd.
  change (prec 23) with 24 in Hvf. change (emax 8) with 128 in Hvf.
  fold (float_of_bits (float_of_double v)) in Hvf.
  assert (forall s, double_of_bits v = S754_zero s -> float_of_bits (float_of_double v) = S754_zero s) as Hzero.
  { intros s Hs. unfold float_of_double. rewrite Hs. by destruct s. }
  destruct (SFsub 53 1024 _ _) as [s| | |] eqn:Es; try done.
  assert (float_of_bits (float_of_double v) <> S754_nan) as Hnn by (intros Hn; by rewrite Hn in Es).
  destruct (narrow_widen _ Hvf Hnn) as (Hvw & _ & _).
  assert (round_to 53 1024 (float_of_bits (float_of_double v)) = double_of_bits v) as Heq.
  { apply (SFsub_zero _ _ s); [done|done| |done]. intros s1 t H1 H2.
    rewrite (Hzero t H2) in H1. by injection H1. }
  split; [done|]. rewrite <- Heq in Hfin. by destruct (float_of_bits (float_of_double v)).
Qed.

Lemma serialize_float_ok q n v :
  0 <= v < 2 ^ 64 -> is_nan_bits 52 11 v = false -> 9 <= n <= len q ->
  writes_float (prv_serialize_float q n v) q (Z.land (float_of_double v) 0x1FFF = 0) v.
Proof.
  intros Hv Hnan Hn. pose proof (float_of_double_bound v) as Hu.
  pose proof (bits_of_sf_of_bits 52 11 v ltac:(lia) ltac:(lia) Hv Hnan) as Hbits.
  fold (double_of_bits v) in Hbits.
  pose proof (sf_of_bits_valid 52 11 v ltac:(lia) ltac:(lia)) as Hvd.
  change (prec 52) with 53 in Hvd. change (emax 11) with 1024 in Hvd. fold (double_of_bits v) in Hvd.
  unfold prv_serialize_float. rewrite (proj2 (Z.ltb_ge n 3)) by lia.
  assert (match double_of_bits v with S754_zero _ | S754_finite _ _ _ => True | _ => False end ->
    writes_float (if is_zero (SFsub 53 1024 (round_to 53 1024 (float_of_bits (float_of_double v))) (double_of_bits v))
      then serialize_single q n (float_of_double v)
      else if n <? 9 then ret (0, q) else
        buffer ← wr q 0 (Z.lor (Z.shiftl CBOR_FLOATING_OR_SIMPLE 5) CBOR_AI_EIGHT_BYTE_VALUE);
        v ← utils_copyValue (le_bytes 8 v) 8;
        buffer ← wr_bytes buffer 1 v; ret (9, buffer)) q (Z.land (float_of_double v) 0x1FFF = 0) v) as Hfin.
  { intros Hfin. dif E; [|guards; apply (put_multi_float q 27 8 v); [set_unfold; by right; left|lia|lia|done]].
    destruct (widened_equal v) as [Hw Hf]; [done|done|].
    pose proof (serialize_single_ok q n (float_of_double v) Hu Hn Hf) as H.
    unfold double_of_float in H. rewrite Hw in H. unfold bits_of_double in H. by rewrite Hbits in H. }
  destruct (double_of_bits v) as [s|s| |s m e] eqn:Ed; [by apply Hfin| | |by apply Hfin].
  - apply (put_half_ok q _ _ (half_sign s + 31 * 1024)); [lia|by destruct s..|].
    intros _. rewrite <- Hbits. by destruct s.
  - rewrite <- Hbits in Hnan. discriminate Hnan.
Qed.

(** No bit of the [float] lies below those of a half-precision mantissa. *)
Definition half_exact (v : Z) : Prop := Z.land (float_of_double v) 0x1FFF = 0.


End CborFloat.
