(* ===== verification/CoapPacket.v ===== *)
(** * CoAP packets (coap/er-coap-13)

    The parsed message [coap_packet_t], its option bitmap, the lists of
    repeatable options, and the functions that set and get header options.

    A pointer field together with its length is the list of the bytes it
    designates, [None] for a null [payload]; [location_query], whose bytes are
    read up to and including index [location_query_len], is the memory from its
    pointer on; [buffer], a copy of an argument of
    the serializer and of the parser, is left out.  Freeing the memory of a
    packet is the reset of its lists. *)
From S2P Require Import Prelude Numeric Utils.
Import Numeric Utils.

Module CoapPacket.

(** ** Data *)

Definition COAP_DEFAULT_MAX_AGE : Z := 60.
Definition COAP_ETAG_LEN : Z := 8.
Definition COAP_TOKEN_LEN : Z := 8.
Definition COAP_MAX_ACCEPT_NUM : Z := 2.

Inductive coap_message_type_t := COAP_TYPE_CON | COAP_TYPE_NON | COAP_TYPE_ACK | COAP_TYPE_RST.
#[export] Instance coap_message_type_eq_dec : EqDecision coap_message_type_t.
Proof. solve_decision. Defined.

Definition type_num (t : coap_message_type_t) : Z :=
  match t with COAP_TYPE_CON => 0 | COAP_TYPE_NON => 1 | COAP_TYPE_ACK => 2 | COAP_TYPE_RST => 3 end.
Definition type_of_num (z : Z) : coap_message_type_t :=
  if z =? 0 then COAP_TYPE_CON else if z =? 1 then COAP_TYPE_NON
  else if z =? 2 then COAP_TYPE_ACK else COAP_TYPE_RST.

Definition COAP_OPTION_IF_MATCH : Z := 1.
Definition COAP_OPTION_URI_HOST : Z := 3.
Definition COAP_OPTION_ETAG : Z := 4.
Definition COAP_OPTION_IF_NONE_MATCH : Z := 5.
Definition COAP_OPTION_OBSERVE : Z := 6.
Definition COAP_OPTION_URI_PORT : Z := 7.
Definition COAP_OPTION_LOCATION_PATH : Z := 8.
Definition COAP_OPTION_URI_PATH : Z := 11.
Definition COAP_OPTION_CONTENT_TYPE : Z := 12.
Definition COAP_OPTION_MAX_AGE : Z := 14.
Definition COAP_OPTION_URI_QUERY : Z := 15.
Definition COAP_OPTION_ACCEPT : Z := 17.
Definition COAP_OPTION_TOKEN : Z := 19.
Definition COAP_OPTION_LOCATION_QUERY : Z := 20.
Definition COAP_OPTION_BLOCK2 : Z := 23.
Definition COAP_OPTION_BLOCK1 : Z := 27.
Definition COAP_OPTION_SIZE : Z := 28.
Definition COAP_OPTION_PROXY_URI : Z := 35.

(** A node of a list of repeatable options; [next] is the rest of the list. *)
Record multi_option_t := mk_opt { is_static : Z; opt_len : Z; opt_data : list Z }.

(** The fields [block1_num], [block1_more], ... and [block2_num], ... *)
Record block_t := mk_block { block_num : Z; block_more : Z; block_size : Z; block_offset : Z }.

Record coap_packet_t := mk_packet {
  version : Z;
  p_type : coap_message_type_t;
  code : Z;
  mid : Z;
  p_options : list Z;
  content_type : Z;
  max_age : Z;
  proxy_uri : list Z;
  etag_len : Z;
  etag : list Z;
  uri_host : list Z;
  location_path : list multi_option_t;
  uri_port : Z;
  location_query_len : Z;
  location_query : list Z;
  uri_path : list multi_option_t;
  observe : Z;
  token_len : Z;
  token : list Z;
  accept_num : Z;
  accept : list Z;
  if_match_len : Z;
  if_match : list Z;
  block2 : block_t;
  block1 : block_t;
  p_size : Z;
  uri_query : list multi_option_t;
  if_none_match : Z;
  payload_len : Z;
  payload : option (list Z) }.

#[export] Instance packet_rebuild : Rebuild coap_packet_t := fun p =>
  mk_packet (version p) (p_type p) (code p) (mid p) (p_options p) (content_type p) (max_age p)
    (proxy_uri p) (etag_len p) (etag p) (uri_host p) (location_path p) (uri_port p)
    (location_query_len p) (location_query p) (uri_path p) (observe p) (token_len p) (token p) (accept_num p) (accept p)
    (if_match_len p) (if_match p) (block2 p) (block1 p) (p_size p) (uri_query p) (if_none_match p)
    (payload_len p) (payload p).

(** [memset(coap_pkt, 0, sizeof(coap_packet_t))] *)
Definition zero_block : block_t := mk_block 0 0 0 0.
Definition zero_packet : coap_packet_t :=
  mk_packet 0 COAP_TYPE_CON 0 0 (replicate 5 0) 0 0 [] 0 (replicate 8 0) [] [] 0 0 [] [] 0 0
    (replicate 8 0) 0 (replicate 2 0) 0 (replicate 8 0) zero_block zero_block 0 [] 0 0 None.

(** The bitmap of the options that are set. *)
Definition OPTION_MAP_SIZE : Z := 8.

Definition SET_OPTION (packet : coap_packet_t) (opt : Z) : C coap_packet_t :=
  if opt <? len (p_options packet) * OPTION_MAP_SIZE then
    b ← rd (p_options packet) (opt / OPTION_MAP_SIZE);
    o ← wr (p_options packet) (opt / OPTION_MAP_SIZE)
          (u8 (Z.lor b (Z.shiftl 1 (opt mod OPTION_MAP_SIZE))));
    ret (packet <| p_options := o |>)
  else ret packet.

Definition IS_OPTION (packet : coap_packet_t) (opt : Z) : bool :=
  if opt <? len (p_options packet) * OPTION_MAP_SIZE then
    match rd (p_options packet) (opt / OPTION_MAP_SIZE) with
    | Some b => negb (Z.land b (Z.shiftl 1 (opt mod OPTION_MAP_SIZE)) =? 0)
    | None => false
    end
  else false.

(** ** Repeatable options *)

Section options.
Context `{Malloc}.

(** [sizeof(multi_option_t)] on a 64-bit target. *)
Definition SIZEOF_MULTI_OPTION : Z := 24.

Definition coap_add_multi_option (dst : list multi_option_t) (option : list Z) (option_len is_static : Z)
    : C (list multi_option_t) :=
  if malloc_ok SIZEOF_MULTI_OPTION then
    if negb (is_static =? 0) then ret (dst ++ [mk_opt 1 (u8 option_len) option])
    else if malloc_ok option_len then
      data ← rd_bytes option 0 option_len;
      ret (dst ++ [mk_opt 0 (u8 option_len) data])
    else ret dst
  else ret dst.

Fixpoint total_len (option : list multi_option_t) (n : Z) : Z :=
  match option with
  | [] => n
  | opt :: option => total_len option (n + (opt_len opt + 1))
  end.

Fixpoint copy_options (option : list multi_option_t) (prefix delimiter : Z) (output : list Z) (i : Z)
    : C (list Z * Z) :=
  match option with
  | [] => ret (output, i)
  | opt :: option =>
      output ← wr output i (if i =? 0 then prefix else delimiter);
      data ← rd_bytes (opt_data opt) 0 (opt_len opt);
      output ← wr_bytes output (i + 1) data;
      copy_options option prefix delimiter output (i + 1 + opt_len opt)
  end.

(** The allocated string, [None] when there is no memory.  [junk] is the
    content of the memory that is allocated. *)
Definition prv_coap_get_multi_option_as_string (junk : Z -> list Z) (opts : list multi_option_t)
    (prefix delimiter : Z) : C (option (list Z)) :=
  let n := total_len opts 0 in
  if malloc_ok (n + 1) then
    '(output, i) ← copy_options opts prefix delimiter (junk (n + 1)) 0;
    output ← wr output i 0;
    ret (Some output)
  else ret None.

Definition coap_get_multi_option_as_path_string (junk : Z -> list Z) (opts : list multi_option_t) :=
  prv_coap_get_multi_option_as_string junk opts (chr "/") (chr "/").

Definition coap_get_multi_option_as_query_string (junk : Z -> list Z) (opts : list multi_option_t) :=
  prv_coap_get_multi_option_as_string junk opts (chr "?") (chr "&").

Definition is_non_std_coap_port (port : Z) : bool :=
  negb ((port =? 0) || (port =? 5683) || (port =? 5684)).

Definition nDigits (x : Z) : Z :=
  if 1000000000 <=? x then 10 else if 100000000 <=? x then 9 else if 10000000 <=? x then 8
  else if 1000000 <=? x then 7 else if 100000 <=? x then 6 else if 10000 <=? x then 5
  else if 1000 <=? x then 4 else if 100 <=? x then 3 else if 10 <=? x then 2 else 1.

(** [strncat(dst, src, n)], [src] ending at its first null character or after
    [n] characters. *)
Definition strncat (dst src : list Z) (n : Z) : C (list Z) :=
  at_ ← strlen dst;
  wr_bytes dst at_ (take (Z.to_nat n) (c_string src) ++ [0]).

Definition coap_get_packet_uri_as_string (junk : Z -> list Z) (packet : coap_packet_t)
    : C (option (list Z)) :=
  path ← coap_get_multi_option_as_path_string junk (uri_path packet);
  path_string ← path;
  path_len ← strlen path_string;
  query ← coap_get_multi_option_as_query_string junk (uri_query packet);
  query_string ← query;
  query_len ← strlen query_string;
  let n := 2 in
  let n := n + len (uri_host packet) in
  let n := n + (if is_non_std_coap_port (uri_port packet) then nDigits (uri_port packet) else 0) in
  let n := n + (if path_len <? 1 then 1 else path_len) in
  let n := n + query_len in
  if malloc_ok (n + 1) then
    output ← wr_bytes (junk (n + 1)) 0 [chr "/"; chr "/"; 0];
    output ← strncat output (uri_host packet) (len (uri_host packet));
    output ← (if path_len <? 1 then strncat output [chr "/"; 0] 1
              else strncat output path_string path_len);
    output ← strncat output query_string query_len;
    output ← wr output n 0;
    ret (Some output)
  else ret None.

(** ** Message fields *)

(** [coap_get_mid]: the new value of [current_mid], and the result. *)
Definition coap_get_mid (current_mid : Z) : Z := u16 (current_mid + 1).

Definition coap_init_message (t : coap_message_type_t) (c m : Z) : coap_packet_t :=
  zero_packet <| p_type := t |> <| code := c |> <| mid := m |>.

Definition coap_free_header (packet : coap_packet_t) : coap_packet_t :=
  packet <| uri_path := [] |> <| uri_query := [] |> <| location_path := [] |>.

Definition coap_set_status_code (packet : coap_packet_t) (c : Z) : Z * coap_packet_t :=
  if c <=? 0xFF then (1, packet <| code := u8 c |>) else (0, packet).

Definition coap_get_header_content_type (packet : coap_packet_t) : Z :=
  if negb (IS_OPTION packet COAP_OPTION_CONTENT_TYPE) then u32 (-1) else content_type packet.

Definition coap_set_header_content_type (packet : coap_packet_t) (c : Z) : C (Z * coap_packet_t) :=
  packet ← SET_OPTION (packet <| content_type := c |>) COAP_OPTION_CONTENT_TYPE; ret (1, packet).

(** A getter with an output parameter returns it with the result, [None] when it
    is not written. *)
Definition coap_get_header_accept (packet : coap_packet_t) : Z * option (list Z) :=
  if negb (IS_OPTION packet COAP_OPTION_ACCEPT) then (0, None)
  else (accept_num packet, Some (accept packet)).

Definition coap_set_header_accept (packet : coap_packet_t) (a : Z) : C (Z * coap_packet_t) :=
  packet ← (if accept_num packet <? COAP_MAX_ACCEPT_NUM then
              l ← wr (accept packet) (accept_num packet) a;
              SET_OPTION (packet <| accept := l |> <| accept_num := accept_num packet + 1 |>)
                COAP_OPTION_ACCEPT
            else ret packet);
  ret (accept_num packet, packet).

Definition coap_get_header_max_age (packet : coap_packet_t) : Z * Z :=
  (1, if negb (IS_OPTION packet COAP_OPTION_MAX_AGE) then COAP_DEFAULT_MAX_AGE else max_age packet).

Definition coap_set_header_max_age (packet : coap_packet_t) (age : Z) : C (Z * coap_packet_t) :=
  packet ← SET_OPTION (packet <| max_age := age |>) COAP_OPTION_MAX_AGE; ret (1, packet).

Definition coap_get_header_etag (packet : coap_packet_t) : Z * option (list Z) :=
  if negb (IS_OPTION packet COAP_OPTION_ETAG) then (0, None) else (etag_len packet, Some (etag packet)).

Definition coap_set_header_etag (packet : coap_packet_t) (e : list Z) (n : Z) : C (Z * coap_packet_t) :=
  let n := u8 (Z.min COAP_ETAG_LEN n) in
  b ← rd_bytes e 0 n;
  b ← wr_bytes (etag packet) 0 b;
  packet ← SET_OPTION (packet <| etag_len := n |> <| etag := b |>) COAP_OPTION_ETAG;
  ret (n, packet).

Definition coap_get_header_if_match (packet : coap_packet_t) : Z * option (list Z) :=
  if negb (IS_OPTION packet COAP_OPTION_IF_MATCH) then (0, None)
  else (if_match_len packet, Some (if_match packet)).

Definition coap_set_header_if_match (packet : coap_packet_t) (e : list Z) (n : Z)
    : C (Z * coap_packet_t) :=
  let n := u8 (Z.min COAP_ETAG_LEN n) in
  b ← rd_bytes e 0 n;
  b ← wr_bytes (if_match packet) 0 b;
  packet ← SET_OPTION (packet <| if_match_len := n |> <| if_match := b |>) COAP_OPTION_IF_MATCH;
  ret (n, packet).

Definition coap_get_header_if_none_match (packet : coap_packet_t) : Z :=
  if IS_OPTION packet COAP_OPTION_IF_NONE_MATCH then 1 else 0.

Definition coap_set_header_if_none_match (packet : coap_packet_t) : C (Z * coap_packet_t) :=
  packet ← SET_OPTION packet COAP_OPTION_IF_NONE_MATCH; ret (1, packet).

Definition coap_get_header_token (packet : coap_packet_t) : Z * option (list Z) :=
  if negb (IS_OPTION packet COAP_OPTION_TOKEN) then (0, None)
  else (token_len packet, Some (token packet)).

Definition coap_set_header_token (packet : coap_packet_t) (t : list Z) (n : Z) : C (Z * coap_packet_t) :=
  let n := u8 (Z.min COAP_TOKEN_LEN n) in
  b ← rd_bytes t 0 n;
  b ← wr_bytes (token packet) 0 b;
  packet ← SET_OPTION (packet <| token_len := n |> <| token := b |>) COAP_OPTION_TOKEN;
  ret (n, packet).

Definition coap_get_header_proxy_uri (packet : coap_packet_t) : Z * option (list Z) :=
  if negb (IS_OPTION packet COAP_OPTION_PROXY_URI) then (0, None)
  else (s32 (len (proxy_uri packet)), Some (proxy_uri packet)).

Definition coap_set_header_proxy_uri (packet : coap_packet_t) (uri : list Z) : C (Z * coap_packet_t) :=
  n ← strlen uri;
  packet ← SET_OPTION (packet <| proxy_uri := take (Z.to_nat n) uri |>) COAP_OPTION_PROXY_URI;
  ret (s32 n, packet).

Definition coap_get_header_uri_host (packet : coap_packet_t) : Z * option (list Z) :=
  if negb (IS_OPTION packet COAP_OPTION_URI_HOST) then (0, None)
  else (s32 (len (uri_host packet)), Some (uri_host packet)).

Definition coap_set_header_uri_host (packet : coap_packet_t) (host : list Z) : C (Z * coap_packet_t) :=
  n ← strlen host;
  packet ← SET_OPTION (packet <| uri_host := take (Z.to_nat n) host |>) COAP_OPTION_URI_HOST;
  ret (s32 n, packet).

(** ** Paths and queries

    The getters of the repeatable options write a null pointer. *)

(** [while (path[i] != 0 && path[i] != delim) i++] from [path + at_]. *)
Fixpoint segment_end (path : list Z) (at_ delim : Z) (fuel : nat) (i : Z) : C Z :=
  match fuel with
  | O => None
  | S fuel =>
      c ← rd path (at_ + i);
      if negb (c =? 0) && negb (c =? delim) then segment_end path at_ delim fuel (i + 1) else ret i
  end.

(** The [do ... while (path[0] != 0)] loop: the options and the length. *)
Fixpoint segments_loop (fuel : nat) (dst : list multi_option_t) (path : list Z) (at_ delim length : Z)
    : C (list multi_option_t * Z) :=
  match fuel with
  | O => None
  | S fuel =>
      i ← segment_end path at_ delim (S (base.length path)) 0;
      dst ← coap_add_multi_option dst (drop (Z.to_nat at_) path) i 0;
      c ← rd path (at_ + i);
      let i := if c =? delim then i + 1 else i in
      let at_ := at_ + i in
      let length := length + i in
      c ← rd path at_;
      if negb (c =? 0) then segments_loop fuel dst path at_ delim length else ret (dst, length)
  end.

(** The options of a path or a query, a leading [prefix] skipped. *)
Definition split_options (path : list Z) (prefix delim : Z) : C (list multi_option_t * Z) :=
  c ← rd path 0;
  segments_loop (S (length path)) [] path (if c =? prefix then 1 else 0) delim 0.

Definition coap_get_header_uri_path (packet : coap_packet_t) : Z * option (option (list Z)) :=
  if negb (IS_OPTION packet COAP_OPTION_URI_PATH) then (0, None) else (0, Some None).

Definition coap_set_header_uri_path (packet : coap_packet_t) (path : list Z) : C (Z * coap_packet_t) :=
  '(l, length) ← split_options path (chr "/") (chr "/");
  packet ← SET_OPTION (packet <| uri_path := l |>) COAP_OPTION_URI_PATH;
  ret (length, packet).

(** One segment; a null pointer is [None]. *)
Definition add_segment (dst : list multi_option_t) (segment : option (list Z))
    : C (list multi_option_t * Z) :=
  match segment with
  | None => l ← coap_add_multi_option dst [] 0 1; ret (l, 0)
  | Some s =>
      c ← rd s 0;
      if c =? 0 then l ← coap_add_multi_option dst [] 0 1; ret (l, 0)
      else
        n ← strlen s;
        l ← coap_add_multi_option dst s (s32 n) 0;
        ret (l, s32 n)
  end.

Definition coap_set_header_uri_path_segment (packet : coap_packet_t) (segment : option (list Z))
    : C (Z * coap_packet_t) :=
  '(l, length) ← add_segment (uri_path packet) segment;
  packet ← SET_OPTION (packet <| uri_path := l |>) COAP_OPTION_URI_PATH;
  ret (length, packet).

Definition coap_get_header_uri_port (packet : coap_packet_t) : Z :=
  if negb (IS_OPTION packet COAP_OPTION_URI_PORT) then 0 else uri_port packet.

Definition coap_set_header_uri_port (packet : coap_packet_t) (port : Z) : C coap_packet_t :=
  SET_OPTION (packet <| uri_port := port |>) COAP_OPTION_URI_PORT.

Definition coap_get_header_uri_query (packet : coap_packet_t) : Z * option (option (list Z)) :=
  if negb (IS_OPTION packet COAP_OPTION_URI_QUERY) then (0, None) else (0, Some None).

Definition coap_set_header_uri_query (packet : coap_packet_t) (query : list Z) : C (Z * coap_packet_t) :=
  '(l, length) ← split_options query (chr "?") (chr "&");
  packet ← SET_OPTION (packet <| uri_query := l |>) COAP_OPTION_URI_QUERY;
  ret (length, packet).

Definition coap_set_header_uri_query_segment (packet : coap_packet_t) (segment : option (list Z))
    : C (Z * coap_packet_t) :=
  '(l, length) ← add_segment (uri_query packet) segment;
  packet ← SET_OPTION (packet <| uri_query := l |>) COAP_OPTION_URI_QUERY;
  ret (length, packet).

Definition coap_get_header_location_path (packet : coap_packet_t) : Z * option (option (list Z)) :=
  if negb (IS_OPTION packet COAP_OPTION_LOCATION_PATH) then (0, None) else (0, Some None).

Definition coap_set_header_location_path (packet : coap_packet_t) (path : list Z)
    : C (Z * coap_packet_t) :=
  '(l, length) ← split_options path (chr "/") (chr "/");
  packet ← SET_OPTION (packet <| location_path := l |>) COAP_OPTION_LOCATION_PATH;
  ret (length, packet).

Definition coap_get_header_location_query (packet : coap_packet_t) : Z * option (list Z) :=
  if negb (IS_OPTION packet COAP_OPTION_LOCATION_QUERY) then (0, None)
  else (s32 (location_query_len packet), Some (location_query packet)).

(** [while (query[0]=='?') ++query] *)
Fixpoint skip_marks (query : list Z) : C (list Z) :=
  match query with
  | [] => None
  | c :: q => if c =? chr "?" then skip_marks q else ret query
  end.

Definition coap_set_header_location_query (packet : coap_packet_t) (query : list Z)
    : C (Z * coap_packet_t) :=
  query ← skip_marks query;
  n ← strlen query;
  packet ← SET_OPTION (packet <| location_query := query |> <| location_query_len := n |>)
             COAP_OPTION_LOCATION_QUERY;
  ret (s32 n, packet).

(** ** Observation, blocks and size *)

Definition coap_get_header_observe (packet : coap_packet_t) : Z * option Z :=
  if negb (IS_OPTION packet COAP_OPTION_OBSERVE) then (0, None) else (1, Some (observe packet)).

Definition coap_set_header_observe (packet : coap_packet_t) (o : Z) : C (Z * coap_packet_t) :=
  packet ← SET_OPTION (packet <| observe := Z.land 0x00FFFFFF o |>) COAP_OPTION_OBSERVE; ret (1, packet).

Definition coap_get_header_block2 (packet : coap_packet_t) : Z * option block_t :=
  if negb (IS_OPTION packet COAP_OPTION_BLOCK2) then (0, None) else (1, Some (block2 packet)).

Definition coap_set_header_block2 (packet : coap_packet_t) (num more size : Z) : C (Z * coap_packet_t) :=
  if size <? 16 then ret (0, packet)
  else if 2048 <? size then ret (0, packet)
  else if 0x0FFFFF <? num then ret (0, packet)
  else
    let b := mk_block num (if negb (more =? 0) then 1 else 0) size (block_offset (block2 packet)) in
    packet ← SET_OPTION (packet <| block2 := b |>) COAP_OPTION_BLOCK2;
    ret (1, packet).

Definition coap_get_header_block1 (packet : coap_packet_t) : Z * option block_t :=
  if negb (IS_OPTION packet COAP_OPTION_BLOCK1) then (0, None) else (1, Some (block1 packet)).

Definition coap_set_header_block1 (packet : coap_packet_t) (num more size : Z) : C (Z * coap_packet_t) :=
  if size <? 16 then ret (0, packet)
  else if 2048 <? size then ret (0, packet)
  else if 0x0FFFFF <? num then ret (0, packet)
  else
    let b := mk_block num more size (block_offset (block1 packet)) in
    packet ← SET_OPTION (packet <| block1 := b |>) COAP_OPTION_BLOCK1;
    ret (1, packet).

Definition coap_get_header_block (packet : coap_packet_t) : Z * option block_t :=
  let '(r, b) := coap_get_header_block1 packet in
  if 1 =? r then (1, b) else coap_get_header_block1 packet.

Definition coap_get_header_size (packet : coap_packet_t) : Z * option Z :=
  if negb (IS_OPTION packet COAP_OPTION_SIZE) then (0, None) else (1, Some (p_size packet)).

Definition coap_set_header_size (packet : coap_packet_t) (size : Z) : C (Z * coap_packet_t) :=
  packet ← SET_OPTION (packet <| p_size := size |>) COAP_OPTION_SIZE; ret (1, packet).

(** ** Payload *)

Definition coap_get_payload (packet : coap_packet_t) : Z * option (list Z) :=
  match payload packet with
  | Some b => (payload_len packet, Some b)
  | None => (0, None)
  end.

Definition coap_set_payload (packet : coap_packet_t) (b : option (list Z)) (length : Z)
    : Z * coap_packet_t :=
  (u16 length, packet <| payload := b |> <| payload_len := u16 length |>).

(** [strncmp(name, start, name_len)==0], [name_len] the length of [name], from
    index [at_] of [buffer]. *)
Fixpoint name_matches (name buffer : list Z) (at_ : Z) : C bool :=
  match name with
  | [] => ret true
  | n :: name =>
      c ← rd buffer at_;
      if c =? n then name_matches name buffer (at_ + 1) else ret false
  end.

(** The search of [coap_get_variable]: offset and length of the value, [None]
    when there is none.  [name] is without its terminator. *)
Fixpoint variable_loop (fuel : nat) (buffer : list Z) (length : Z) (name : list Z) (start : Z)
    : C (option (Z * Z)) :=
  match fuel with
  | O => None
  | S fuel =>
      if start + len name <? length then
        first ← (if start =? 0 then ret true
                 else c ← rd buffer (start - 1); ret (c =? chr "&"));
        hit ← (if first : bool then
                 e ← rd buffer (start + len name);
                 if e =? chr "=" then name_matches name buffer start else ret false
               else ret false);
        if hit : bool then
          let start := start + (len name + 1) in
          rest ← rd_bytes buffer start (length - start);
          let value_end :=
            match list_find (fun c => c = chr "&") rest with
            | Some (k, _) => start + Z.of_nat k
            | None => length
            end in
          ret (Some (start, value_end - start))
        else variable_loop fuel buffer length name (start + 1)
      else ret None
  end.

Definition coap_get_variable (buffer : list Z) (length : Z) (name : list Z) : C (Z * option Z) :=
  n ← strlen name;
  r ← variable_loop (S (base.length buffer)) buffer length (take (Z.to_nat n) name) 0;
  match r with
  | Some (start, l) => ret (s32 l, Some start)
  | None => ret (0, None)
  end.

Definition coap_get_query_variable (packet : coap_packet_t) (name : list Z) : Z := 0.

Definition coap_get_post_variable (packet : coap_packet_t) (name : list Z) : C (Z * option Z) :=
  if negb (payload_len packet =? 0) then
    b ← payload packet;
    coap_get_variable b (payload_len packet) name
  else ret (0, None).
End options.

(** ** The option bitmap *)

(** A packet as the library makes them: a bitmap of five bytes and arrays of
    their declared sizes. *)
Definition packet_wf (p : coap_packet_t) : Prop :=
  length (p_options p) = 5%nat /\ bytes (p_options p) /\ length (etag p) = 8%nat /\
  length (if_match p) = 8%nat /\ length (token p) = 8%nat /\ length (accept p) = 2%nat.

Lemma zero_packet_wf : packet_wf zero_packet.
Proof. split_and!; try done. repeat first [apply list.Forall_nil_2 | apply list.Forall_cons_2]; done. Qed.

Lemma is_option_bit p opt b :
  0 <= opt -> p_options p !! Z.to_nat (opt / 8) = Some b ->
  IS_OPTION p opt = Z.testbit b (opt mod 8).
Proof.
  intros Ho Hb. unfold IS_OPTION, OPTION_MAP_SIZE. pose proof (lookup_lt_Some _ _ _ Hb) as Hl.
  rewrite rd_lookup, Hb by dlia. rewrite (proj2 (Z.ltb_lt _ _)) by dlia.
  rewrite Z.shiftl_1_l, land_pow2 by dlia.
  assert (0 < 2 ^ (opt mod 8)) by (apply Z.pow_pos_nonneg; dlia).
  destruct (Z.testbit b (opt mod 8)); lia.
Qed.

Lemma wf_set_options p o : packet_wf p -> length o = 5%nat -> bytes o -> packet_wf (p <| p_options := o |>).
Proof. intros (_ & _ & H1 & H2 & H3 & H4) Hl Hb. by split_and!. Qed.

(** [SET_OPTION] sets one bit, and changes nothing else. *)
Lemma set_option_ok p opt :
  packet_wf p -> 0 <= opt < 40 ->
  exists o, SET_OPTION p opt = Some (p <| p_options := o |>) /\
    length o = 5%nat /\ bytes o /\
    forall x, 0 <= x < 40 -> IS_OPTION (p <| p_options := o |>) x = (x =? opt) || IS_OPTION p x.
Proof.
  intros (Hl & Hb & _) Ho. unfold SET_OPTION, OPTION_MAP_SIZE.
  destruct (lookup_lt_is_Some_2 (p_options p) (Z.to_nat (opt / 8))) as [b Hbo]; [rewrite Hl; dlia|].
  rewrite (proj2 (Z.ltb_lt _ _)) by lia. rewrite rd_lookup, Hbo by dlia. mstep.
  rewrite wr_Some by (rewrite Hl; dlia). mstep. eexists; split; [done|].
  assert (is_byte b) as Hbb by (eapply list.Forall_lookup_1; [exact Hb|exact Hbo]).
  unfold is_byte in Hbb.
  split; [by rewrite length_insert|]. split.
  { apply list.Forall_insert; [done|]. apply (wrap_bound 8). lia. }
  intros x Hx. destruct (lookup_lt_is_Some_2 (p_options p) (Z.to_nat (x / 8))) as [c Hc]; [rewrite Hl; dlia|].
  rewrite (is_option_bit p x c) by (done || lia).
  destruct (Z.eq_dec (x / 8) (opt / 8)) as [He|Hne].
  - rewrite He, Hbo in Hc. injection Hc as ->.
    erewrite is_option_bit; [|lia|cbn; rewrite He; apply list_lookup_insert_eq; rewrite Hl; dlia].
    unfold wrap. rewrite Z.mod_pow2_bits_low by dlia. rewrite Z.lor_spec, Z.shiftl_1_l, Z.pow2_bits_eqb by dlia.
    rewrite orb_comm. f_equal. assert (opt = 8 * (opt / 8) + opt mod 8) by (apply Z.div_mod; lia).
    assert (x = 8 * (x / 8) + x mod 8) by (apply Z.div_mod; lia). lia.
  - erewrite is_option_bit; [|lia|cbn; rewrite list_lookup_insert_ne by dlia; exact Hc].
    destruct (x =? opt) eqn:E; [|done]. replace x with opt in Hne by lia. done.
Qed.

(** ** Paths *)

(** The segments of a text: it is cut at every delimiter, a final delimiter
    opens no segment, and the empty text is one empty segment. *)
Fixpoint split_path (d : Z) (l : list Z) : list (list Z) :=
  match l with
  | [] => [[]]
  | c :: l =>
      if c =? d then match l with [] => [[]] | _ => [] :: split_path d l end
      else match split_path d l with s :: r => (c :: s) :: r | [] => [[c]] end
  end.

(** A text with its delimiters back. *)
Fixpoint join (d : Z) (segs : list (list Z)) : list Z :=
  match segs with
  | [] => []
  | s :: segs => d :: s ++ join d segs
  end.

Abbreviation plain d := (Forall (fun c : Z => c <> d)).

Lemma split_path_plain d s : plain d s -> split_path d s = [s].
Proof.
  induction 1 as [|c s Hc Hs IH]; [done|]. cbn. rewrite IH. by guards.
Qed.

Lemma split_path_cut d s l :
  plain d s -> split_path d (s ++ d :: l) = s :: match l with [] => [] | _ => split_path d l end.
Proof.
  induction 1 as [|c s Hc Hs IH]; cbn; [guards; by destruct l|]. rewrite IH. by guards.
Qed.

Lemma plain_split (d : Z) (l : list Z) :
  exists s, plain d s /\ (l = s \/ exists l', l = s ++ d :: l').
Proof.
  induction l as [|c l (s & Hs & IH)]; [exists []; split; [done|by left]|].
  destruct (Z.eq_dec c d) as [->|Hc]; [exists []; split; [done|right; by exists l]|].
  exists (c :: s). split; [by constructor|]. destruct IH as [->|[l' ->]]; [by left|right; by exists l'].
Qed.

Lemma split_path_all_plain d l : Forall (fun s => plain d s) (split_path d l).
Proof.
  induction l as [|c l IH]; cbn; [repeat constructor|]. destruct (c =? d) eqn:E.
  - destruct l; repeat constructor. done.
  - destruct (split_path d l) as [|s r]; [repeat constructor; lia|].
    apply list.Forall_cons_1 in IH as [? ?]. constructor; [constructor; [lia|done]|done].
Qed.

Lemma split_path_cons d l : exists s r, split_path d l = s :: r.
Proof.
  destruct l as [|c l]; cbn; [by eauto|]. destruct (c =? d); [by destruct l; eauto|].
  destruct (split_path d l); eauto.
Qed.

(** Cutting loses the final delimiter only. *)
Lemma join_split (d : Z) (l : list Z) :
  exists t, (t = [] \/ t = [d]) /\ d :: l = join d (split_path d l) ++ t.
Proof.
  remember (length l) as n eqn:Hn. revert l Hn.
  induction n as [n IH] using lt_wf_ind. intros l ->.
  destruct (plain_split d l) as (s & Hs & [->|[l' ->]]).
  - exists []. rewrite split_path_plain by done. split; [by left|]. cbn. by rewrite !app_nil_r.
  - rewrite split_path_cut by done. destruct l' as [|c l'].
    + exists [d]. split; [by right|]. cbn. by rewrite !app_nil_r.
    + destruct (IH (length (c :: l'))) with (l := c :: l') as (t & Ht & He); [lens|done|].
      exists t. split; [done|]. cbn [join]. rewrite He. cbn. by rewrite <- !app_assoc.
Qed.

Lemma segment_end_ok d path pre s x post :
  path = pre ++ s ++ x :: post -> plain d s -> plain 0 s -> (x = 0 \/ x = d) ->
  forall s1 s2 fuel, s = s1 ++ s2 -> (length s2 < fuel)%nat ->
  segment_end path (len pre) d fuel (len s1) = Some (len s).
Proof.
  intros Hp Hd H0 Hx s1 s2. revert s1. induction s2 as [|c s2 IH]; intros s1 fuel Hs Hf;
    (destruct fuel as [|fuel]; [cbn [length] in Hf; lia|]); cbn [segment_end].
  - rewrite app_nil_r in Hs. subst s1. rewrite Hp, app_assoc, rd_middle by lens. mstep.
    destruct Hx as [-> | ->]; [by rewrite Z.eqb_refl|]. rewrite Z.eqb_refl, andb_false_r. done.
  - assert (path = (pre ++ s1) ++ c :: s2 ++ x :: post) as -> by (by rewrite Hp, Hs; apps).
    rewrite rd_middle by lens. mstep.
    assert (c <> d /\ c <> 0) as [Hc1 Hc2].
    { rewrite Hs in Hd, H0. by apply Forall_app in Hd as [_ [? _]%list.Forall_cons_1], H0 as [_ [? _]%list.Forall_cons_1]. }
    rewrite (proj2 (Z.eqb_neq _ _) Hc1), (proj2 (Z.eqb_neq _ _) Hc2). cbn [negb andb].
    replace (len s1 + 1) with (len (s1 ++ [c])) by lens.
    apply IH; [by rewrite Hs; apps|cbn [length] in Hf; lia].
Qed.

Section paths.
Context `{Malloc}.
Hypothesis malloc_never_fails : forall n, malloc_ok n = true.

(** The node of one segment: its length is kept in a byte. *)
Definition node_of (s : list Z) : multi_option_t := mk_opt 0 (u8 (len s)) s.

Lemma add_node dst s rest : coap_add_multi_option dst (s ++ rest) (len s) 0 = Some (dst ++ [node_of s]).
Proof.
  unfold coap_add_multi_option. rewrite !malloc_never_fails. cbn [negb Z.eqb].
  pose proof (rd_bytes_app [] s rest 0 (len s) eq_refl eq_refl) as Hr. cbn [app] in Hr. by rewrite Hr.
Qed.

Lemma segments_loop_ok d rest : d <> 0 -> forall fuel body pre dst n,
  plain 0 body -> (length body < fuel)%nat ->
  segments_loop fuel dst (pre ++ body ++ 0 :: rest) (len pre) d n =
    Some (dst ++ map node_of (split_path d body), n + len body).
Proof.
  intros Hd0 fuel. induction fuel as [|fuel IH]; intros body pre dst n H0 Hf; [lia|]. cbn [segments_loop].
  destruct (plain_split d body) as (s & Hs & [->|[l ->]]).
  - pose proof (segment_end_ok d (pre ++ s ++ 0 :: rest) pre s 0 rest eq_refl Hs H0 (or_introl eq_refl) [] s
      (S (length (pre ++ s ++ 0 :: rest))) eq_refl ltac:(lens)) as Hse.
    change (len (@nil Z)) with 0 in Hse. rewrite Hse. mstep.
    rewrite Nat2Z.id, drop_app_length, add_node. mstep.
    rewrite app_assoc, rd_middle by lens. mstep. rewrite (proj2 (Z.eqb_neq 0 d)) by done.
    rewrite rd_middle by lens. mstep. cbn [Z.eqb negb]. by rewrite split_path_plain.
  - apply Forall_app in H0 as [H0s H0l]. apply list.Forall_cons_1 in H0l as [_ H0l].
    assert (pre ++ (s ++ d :: l) ++ 0 :: rest = pre ++ s ++ d :: l ++ 0 :: rest) as Hp by by apps.
    pose proof (segment_end_ok d (pre ++ (s ++ d :: l) ++ 0 :: rest) pre s d (l ++ 0 :: rest) Hp Hs H0s
      (or_intror eq_refl) [] s (S (length (pre ++ (s ++ d :: l) ++ 0 :: rest))) eq_refl ltac:(lens)) as Hse.
    change (len (@nil Z)) with 0 in Hse. rewrite Hse. mstep.
    rewrite Hp, Nat2Z.id, drop_app_length, add_node. mstep.
    rewrite (app_assoc pre s), rd_middle by lens. mstep. rewrite Z.eqb_refl.
    assert ((pre ++ s) ++ d :: l ++ 0 :: rest = (pre ++ s ++ [d]) ++ l ++ 0 :: rest) as -> by by apps.
    rewrite split_path_cut by done. destruct l as [|c l].
    + cbn [app]. rewrite rd_middle by lens. mstep. cbn [Z.eqb negb]. do 2 f_equal. lens.
    + change ((c :: l) ++ 0 :: rest) with (c :: (l ++ 0 :: rest)). rewrite rd_middle by lens. mstep.
      assert (c <> 0) by (by apply list.Forall_cons_1 in H0l as [? _]).
      rewrite (proj2 (Z.eqb_neq c 0)) by done. cbn [negb].
      replace (len pre + (len s + 1)) with (len (pre ++ s ++ [d])) by lens.
      change (c :: l ++ 0 :: rest) with ((c :: l) ++ 0 :: rest).
      rewrite IH by (done || lens). rewrite <- app_assoc. cbn [app map]. do 2 f_equal. lens.
Qed.

Lemma split_options_ok prefix d body rest :
  d <> 0 -> prefix <> 0 -> plain 0 body -> hd_error body <> Some prefix ->
  split_options (body ++ 0 :: rest) prefix d = Some (map node_of (split_path d body), len body) /\
  split_options (prefix :: body ++ 0 :: rest) prefix d = Some (map node_of (split_path d body), len body).
Proof.
  intros Hd Hp H0 Hh. unfold split_options. split.
  - assert (exists c, rd (body ++ 0 :: rest) 0 = Some c /\ (c =? prefix) = false) as (c & -> & Hc).
    { destruct body as [|c body]; cbn in Hh; eexists; (split; [done|]); apply Z.eqb_neq; congruence. }
    mstep. rewrite Hc. pose proof (segments_loop_ok d rest Hd (S (length (body ++ 0 :: rest))) body [] [] 0 H0 ltac:(lens)) as Hl.
    exact Hl.
  - rewrite rd_cons_0. mstep. rewrite Z.eqb_refl.
    pose proof (segments_loop_ok d rest Hd (S (length (prefix :: body ++ 0 :: rest))) body [prefix] [] 0 H0 ltac:(lens)) as Hl.
    exact Hl.
Qed.

(** *** The path as a string *)

Lemma total_len_ok d segs n :
  Forall (fun s => len s < 256) segs -> total_len (map node_of segs) n = n + len (join d segs).
Proof.
  intros Hs. revert n. induction Hs as [|s segs Hs Hss IH]; intros n; cbn [map total_len join]; [cbn; lia|].
  rewrite IH. cbn [opt_len node_of]. rewrite wrap_small by lia. lens.
Qed.

Lemma copy_options_ok prefix d segs : Forall (fun s => len s < 256) segs -> forall pre q,
  0 < len pre -> len (join d segs) <= len q ->
  copy_options (map node_of segs) prefix d (pre ++ q) (len pre) =
    Some ((pre ++ join d segs) ++ drop (length (join d segs)) q, len (pre ++ join d segs)).
Proof.
  intros Hs. induction Hs as [|s segs Hs Hss IH]; intros pre q Hp Hq; cbn [map copy_options join].
  - by rewrite app_nil_r.
  - cbn [join] in Hq. rewrite (proj2 (Z.eqb_neq (len pre) 0)) by lia. cbn [opt_data opt_len node_of].
    rewrite wrap_small by lia. rewrite wr_app by lens. mstep. rewrite rd_bytes_all. mstep.
    rewrite wr_bytes_app by lens. mstep.
    replace (len pre + 1 + len s) with (len ((pre ++ [d]) ++ s)) by lens.
    rewrite IH by lens. rewrite !drop_drop. f_equal. f_equal; [|f_equal; lens].
    replace (length (d :: s ++ join d segs)) with (1 + (length s + length (join d segs)))%nat by lens.
    by apps.
Qed.

Lemma option_string_ok junk prefix d s segs :
  Forall (fun s => len s < 256) (s :: segs) -> (forall n, 0 <= n -> len (junk n) = n) ->
  prv_coap_get_multi_option_as_string junk (map node_of (s :: segs)) prefix d =
    Some (Some (prefix :: s ++ join d segs ++ [0])).
Proof.
  intros Hs Hj. unfold prv_coap_get_multi_option_as_string. rewrite malloc_never_fails.
  rewrite (total_len_ok d) by done. set (n := 0 + len (join d (s :: segs)) + 1).
  specialize (Hj n ltac:(lia)). remember (junk n) as q eqn:Eq. clear Eq.
  assert (len q = len s + len (join d segs) + 2) as Hq by (subst n; cbn [join] in Hj; lens).
  apply list.Forall_cons_1 in Hs as [Hs Hss]. cbn [map copy_options]. cbn [Z.eqb opt_data opt_len node_of].
  rewrite wrap_small by lia. destruct q as [|x q]; [cbn [length] in Hq; lia|]. cbn [length] in Hq.
  rewrite wr_cons_0. mstep. rewrite rd_bytes_all. mstep.
  change (prefix :: q) with ([prefix] ++ q). rewrite wr_bytes_app by lens. mstep.
  replace (0 + 1 + len s) with (len ([prefix] ++ s)) by lens.
  rewrite copy_options_ok by (done || lens). mstep. rewrite wr_app by lens. mstep.
  do 2 f_equal. rewrite !drop_drop. rewrite drop_ge by lens. rewrite app_nil_r. by apps.
Qed.

(** A Uri-Path text, with or without its leading slash, becomes one option
    per segment; the segments put together are the text again, up to a final
    slash, and when each has fewer than 256 bytes they are what
    [coap_get_multi_option_as_path_string] returns. *)
Theorem uri_path_correct p junk body rest :
  packet_wf p -> plain 0 body -> hd_error body <> Some (chr "/") -> (forall n, 0 <= n -> len (junk n) = n) ->
  exists p' segs tail,
    coap_set_header_uri_path p (body ++ 0 :: rest) = Some (len body, p') /\
    coap_set_header_uri_path p (chr "/" :: body ++ 0 :: rest) = Some (len body, p') /\
    packet_wf p' /\ IS_OPTION p' COAP_OPTION_URI_PATH = true /\
    uri_path p' = map node_of segs /\ Forall (fun s => Forall (fun c => c <> chr "/") s) segs /\
    chr "/" :: body = join (chr "/") segs ++ tail /\ (tail = [] \/ tail = [chr "/"]) /\
    (Forall (fun s => len s < 256) segs ->
     coap_get_multi_option_as_path_string junk (uri_path p') = Some (Some (join (chr "/") segs ++ [0]))).
Proof.
  intros Hp H0 Hh Hj.
  destruct (split_options_ok (chr "/") (chr "/") body rest ltac:(done) ltac:(done) H0 Hh) as [H1 H2].
  unfold coap_set_header_uri_path. rewrite H1, H2. mstep.
  set (segs := split_path (chr "/") body).
  assert (packet_wf (p <| uri_path := map node_of segs |>)) as Hw by exact Hp.
  destruct (set_option_ok _ COAP_OPTION_URI_PATH Hw ltac:(done)) as (o & -> & Hl & Hb & Ho). mstep.
  destruct (join_split (chr "/") body) as (tail & Ht & He).
  eexists _, segs, tail. split; [done|]. split; [done|]. split; [by apply wf_set_options|].
  split; [by rewrite Ho|]. split; [done|]. split; [apply split_path_all_plain|]. split; [done|].
  split; [done|]. intros Hs. cbn.
  destruct (split_path_cons (chr "/") body) as (s & r & Es). fold segs in Es. rewrite Es in *.
  unfold coap_get_multi_option_as_path_string. rewrite option_string_ok by done.
  cbn [join app]. by apps.
Qed.
End paths.

Lemma uri_path_correct_witness :
  exists p' segs tail,
    @coap_set_header_uri_path malloc_always zero_packet (str "rd/5" ++ 0 :: []) = Some (4, p') /\
    @coap_set_header_uri_path malloc_always zero_packet (chr "/" :: str "rd/5" ++ 0 :: []) = Some (4, p') /\
    packet_wf p' /\ IS_OPTION p' COAP_OPTION_URI_PATH = true /\
    uri_path p' = map node_of segs /\ Forall (fun s => Forall (fun c => c <> chr "/") s) segs /\
    chr "/" :: str "rd/5" = join (chr "/") segs ++ tail /\ (tail = [] \/ tail = [chr "/"]) /\
    (Forall (fun s => len s < 256) segs ->
     @coap_get_multi_option_as_path_string malloc_always (fun n => replicate (Z.to_nat n) 7) (uri_path p') =
       Some (Some (join (chr "/") segs ++ [0]))).
Proof.
  apply (@uri_path_correct malloc_always (fun _ => eq_refl) zero_packet _ (str "rd/5") []);
    [apply zero_packet_wf| |done|].
  - repeat first [apply list.Forall_nil_2 | apply list.Forall_cons_2]; done.
  - intros n Hn. rewrite length_replicate. lia.
Defined.

(** ** Setters and getters *)

(** A setter succeeds, keeps the packet well-formed, and sets the bit of its
    option and no other. *)
Definition sets (p : coap_packet_t) (opt : Z) (r : C (Z * coap_packet_t)) (Q : Z -> coap_packet_t -> Prop) : Prop :=
  exists res p', r = Some (res, p') /\ packet_wf p' /\
    (forall x, 0 <= x < 40 -> IS_OPTION p' x = (x =? opt) || IS_OPTION p x) /\ Q res p'.

Lemma sets_intro p q opt (Q : Z -> coap_packet_t -> Prop) res :
  packet_wf q -> p_options q = p_options p -> 0 <= opt < 40 ->
  (forall o, IS_OPTION (q <| p_options := o |>) opt = true -> Q res (q <| p_options := o |>)) ->
  sets p opt (packet ← SET_OPTION q opt; ret (res, packet)) Q.
Proof.
  intros Hq Ho Hopt HQ. destruct (set_option_ok q opt Hq Hopt) as (o & -> & Hl & Hb & Hx). mstep.
  exists res, (q <| p_options := o |>). split; [done|]. split; [by apply wf_set_options|]. split.
  - intros x Hx'. rewrite Hx by done. f_equal. unfold IS_OPTION. by rewrite Ho.
  - apply HQ. rewrite Hx by done. by rewrite Z.eqb_refl.
Qed.

(** The array of an option that is kept in eight bytes. *)
Lemma etag_bytes (old e : list Z) :
  length old = 8%nat -> len e <= 8 ->
  (b ← rd_bytes e 0 (u8 (Z.min 8 (len e))); wr_bytes old 0 b) = Some (e ++ drop (length e) old) /\
  u8 (Z.min 8 (len e)) = len e /\ length (e ++ drop (length e) old) = 8%nat.
Proof.
  intros Ho He. rewrite Z.min_r, wrap_small by lia. rewrite rd_bytes_all. mstep.
  pose proof (wr_bytes_app [] old 0 e eq_refl ltac:(lia)) as Hw. cbn [app] in Hw. rewrite Hw.
  split; [done|]. split; [done|]. lens.
Qed.

(** Every header option that is set is read back by its getter, and setting
    it changes neither the presence of another option nor the well-formedness
    of the packet: numbers, byte strings of at most eight bytes, accepted
    formats in order, and the block options within their limits. *)
Theorem set_get_correct p :
  packet_wf p ->
  (forall c, sets p COAP_OPTION_CONTENT_TYPE (coap_set_header_content_type p c)
     (fun r p' => r = 1 /\ coap_get_header_content_type p' = c)) /\
  (forall a, sets p COAP_OPTION_MAX_AGE (coap_set_header_max_age p a)
     (fun r p' => r = 1 /\ coap_get_header_max_age p' = (1, a))) /\
  (forall o, 0 <= o < 2 ^ 24 -> sets p COAP_OPTION_OBSERVE (coap_set_header_observe p o)
     (fun r p' => r = 1 /\ coap_get_header_observe p' = (1, Some o))) /\
  (forall s, sets p COAP_OPTION_SIZE (coap_set_header_size p s)
     (fun r p' => r = 1 /\ coap_get_header_size p' = (1, Some s))) /\
  (forall e, len e <= 8 -> sets p COAP_OPTION_ETAG (coap_set_header_etag p e (len e))
     (fun r p' => r = len e /\ exists t, coap_get_header_etag p' = (len e, Some (e ++ t)))) /\
  (forall e, len e <= 8 -> sets p COAP_OPTION_IF_MATCH (coap_set_header_if_match p e (len e))
     (fun r p' => r = len e /\ exists t, coap_get_header_if_match p' = (len e, Some (e ++ t)))) /\
  (forall e, len e <= 8 -> sets p COAP_OPTION_TOKEN (coap_set_header_token p e (len e))
     (fun r p' => r = len e /\ exists t, coap_get_header_token p' = (len e, Some (e ++ t)))) /\
  (forall a, 0 <= accept_num p < 2 -> sets p COAP_OPTION_ACCEPT (coap_set_header_accept p a)
     (fun r p' => r = accept_num p + 1 /\
        exists l, coap_get_header_accept p' = (r, Some l) /\ rd l (accept_num p) = Some a /\
          forall i, 0 <= i < accept_num p -> rd l i = rd (accept p) i)) /\
  (forall num more size, 0 <= num <= 0x0FFFFF -> 16 <= size <= 2048 ->
     sets p COAP_OPTION_BLOCK1 (coap_set_header_block1 p num more size)
       (fun r p' => r = 1 /\ exists off,
          coap_get_header_block1 p' = (1, Some (mk_block num more size off)) /\
          coap_get_header_block p' = (1, Some (mk_block num more size off)))) /\
  (forall num more size, 0 <= num <= 0x0FFFFF -> 16 <= size <= 2048 -> 0 <= more <= 1 ->
     sets p COAP_OPTION_BLOCK2 (coap_set_header_block2 p num more size)
       (fun r p' => r = 1 /\ exists off,
          coap_get_header_block2 p' = (1, Some (mk_block num more size off)))).
Proof.
  intros Hp. pose proof Hp as (Hl & Hb & He & Hm & Ht & Ha).
  split_and!.
  - intros c. apply sets_intro; [exact Hp|done|done|]. intros o Ho.
    unfold coap_get_header_content_type. by rewrite Ho.
  - intros a. apply sets_intro; [exact Hp|done|done|]. intros o Ho. unfold coap_get_header_max_age. by rewrite Ho.
  - intros n Hn. apply sets_intro; [exact Hp|done|done|]. intros o Ho. unfold coap_get_header_observe.
    rewrite Ho. split; [done|]. cbn. do 2 f_equal.
    rewrite Z.land_comm. change 16777215 with (Z.ones 24). rewrite Z.land_ones by lia. by apply Z.mod_small.
  - intros n. apply sets_intro; [exact Hp|done|done|]. intros o Ho. unfold coap_get_header_size. by rewrite Ho.
  - intros e Hle. destruct (etag_bytes (etag p) e He Hle) as (H1 & H2 & H3).
    unfold coap_set_header_etag, COAP_ETAG_LEN. rewrite H2 in *.
    destruct (rd_bytes e 0 (len e)) as [b|]; [|discriminate H1]. mstep. cbn in H1. rewrite H1. mstep.
    apply sets_intro; [by split_and!|done|done|]. intros o Ho. split; [done|].
    unfold coap_get_header_etag. rewrite Ho. eauto.
  - intros e Hle. destruct (etag_bytes (if_match p) e Hm Hle) as (H1 & H2 & H3).
    unfold coap_set_header_if_match, COAP_ETAG_LEN. rewrite H2 in *.
    destruct (rd_bytes e 0 (len e)) as [b|]; [|discriminate H1]. mstep. cbn in H1. rewrite H1. mstep.
    apply sets_intro; [by split_and!|done|done|]. intros o Ho. split; [done|].
    unfold coap_get_header_if_match. rewrite Ho. eauto.
  - intros e Hle. destruct (etag_bytes (token p) e Ht Hle) as (H1 & H2 & H3).
    unfold coap_set_header_token, COAP_TOKEN_LEN. rewrite H2 in *.
    destruct (rd_bytes e 0 (len e)) as [b|]; [|discriminate H1]. mstep. cbn in H1. rewrite H1. mstep.
    apply sets_intro; [by split_and!|done|done|]. intros o Ho. split; [done|].
    unfold coap_get_header_token. rewrite Ho. eauto.
  - intros a Hn. unfold coap_set_header_accept, COAP_MAX_ACCEPT_NUM. guards.
    rewrite wr_Some by (rewrite Ha; lia). mstep.
    match goal with |- context [SET_OPTION ?q _] => set (p1 := q) end.
    assert (packet_wf p1) as Hp1 by (split_and!; try done; subst p1; cbn; by rewrite length_insert).
    destruct (set_option_ok p1 COAP_OPTION_ACCEPT Hp1 ltac:(done)) as (o & -> & Hol & Hob & Hox). mstep.
    eexists _, _. split; [done|]. split; [by apply wf_set_options|]. split; [exact Hox|].
    split; [done|]. unfold coap_get_header_accept. rewrite Hox by done. cbn [negb orb Z.eqb].
    eexists. split; [done|]. cbn. split.
    + rewrite rd_lookup by lia. apply list_lookup_insert_eq. lia.
    + intros i Hi. rewrite !rd_lookup by lia. apply list_lookup_insert_ne. lia.
  - intros num more size Hn Hs. unfold coap_set_header_block1. guards.
    apply sets_intro; [exact Hp|done|done|]. intros o Ho. split; [done|].
    unfold coap_get_header_block, coap_get_header_block1. rewrite Ho. eexists. split; reflexivity.
  - intros num more size Hn Hs Hmo. unfold coap_set_header_block2. guards.
    assert ((if negb (more =? 0) then 1 else 0) = more) as -> by (destruct (more =? 0) eqn:?; cbn; lia).
    apply sets_intro; [exact Hp|done|done|]. intros o Ho. split; [done|].
    unfold coap_get_header_block2. rewrite Ho. by eexists.
Qed.

Lemma set_get_correct_witness :
  packet_wf zero_packet /\
  sets zero_packet COAP_OPTION_TOKEN (coap_set_header_token zero_packet [1; 2; 3] 3)
    (fun r p' => r = 3 /\ exists t, coap_get_header_token p' = (3, Some ([1; 2; 3] ++ t))).
Proof.
  split; [apply zero_packet_wf|].
  apply (proj1 (proj2 (proj2 (proj2 (proj2 (proj2 (proj2 (set_get_correct zero_packet zero_packet_wf))))))) [1; 2; 3]).
  done.
Defined.

(** The second lookup of [coap_get_header_block] is [coap_get_header_block1]
    again: a Block2 option is never found. *)
Example block2_not_found :
  exists p, coap_set_header_block2 zero_packet 1 0 64 = Some (1, p) /\
    fst (coap_get_header_block2 p) = 1 /\ coap_get_header_block p = (0, None).
Proof. eexists. split; [reflexivity|]. by vm_compute. Qed.

(** A segment of 256 bytes is stored with length 0. *)
Example long_segment :
  exists l, @coap_add_multi_option malloc_always [] (replicate 256 65) 256 0 = Some [l] /\ opt_len l = 0.
Proof. eexists. split; [reflexivity|]. done. Qed.

(** The comparison of a name, on the list of bytes. *)
Fixpoint starts_with (name buffer : list Z) : C bool :=
  match name, buffer with
  | [], _ => ret true
  | _, [] => None
  | n :: name, c :: buffer => if c =? n then starts_with name buffer else ret false
  end.

Lemma name_matches_starts name pre buffer :
  name_matches name (pre ++ buffer) (len pre) = starts_with name buffer.
Proof.
  revert pre buffer. induction name as [|n name IH]; intros pre buffer; [done|]. cbn [name_matches].
  destruct buffer as [|c buffer].
  - assert (rd (pre ++ []) (len pre) = None) as ->; [|done].
    unfold rd. rewrite app_nil_r. guards. apply lookup_ge_None. lia.
  - rewrite rd_middle by done. mstep. cbn [starts_with]. destruct (c =? n); [|done].
    specialize (IH (pre ++ [c]) buffer). rewrite <- app_assoc, length_app in IH. cbn [length app] in IH.
    rewrite <- IH. f_equal. lia.
Qed.

Lemma name_matches_start name buffer : name_matches name buffer 0 = starts_with name buffer.
Proof. exact (name_matches_starts name [] buffer). Qed.

(** What can be read from the data of an option: its bytes, and those that follow
    it in memory. *)
Definition memory (beyond : multi_option_t -> list Z) (q : multi_option_t) : list Z := opt_data q ++ beyond q.

End CoapPacket.
