(* ===== verification/CoapMessage.v ===== *)
(** * CoAP messages (coap/er-coap-13/er-coap-13.c)

    The option encoding, [coap_serialize_get_size], [coap_serialize_message] and
    [coap_parse_message].  Their theorems are in CoapSerialize.v and
    CoapParse.v. *)
From S2P Require Import Prelude CoapPacket.
Import CoapPacket.

Module CoapMessage.

(** ** Options *)

(** The [do ... while (value)] loop: sixteen bits are shifted out at most. *)
Fixpoint log_2_loop (fuel : nat) (value result : Z) : C Z :=
  match fuel with
  | O => None
  | S fuel =>
      let value := Z.shiftr value 1 in
      let result := result + 1 in
      if negb (value =? 0) then log_2_loop fuel value result else ret result
  end.

Definition coap_log_2 (value : Z) : C Z :=
  result ← log_2_loop 17 value 0;
  ret (if negb (result =? 0) then result - 1 else result).

Fixpoint parse_int_loop (bytes : list Z) (var : Z) : Z :=
  match bytes with
  | [] => var
  | b :: bytes => parse_int_loop bytes (Z.lor (u32 (Z.shiftl var 8)) b)
  end.

Definition coap_parse_int_option (buffer : list Z) (at_ length : Z) : C Z :=
  b ← rd_bytes buffer at_ length; ret (parse_int_loop b 0).

Definition coap_option_nibble (value : Z) : Z :=
  if value <? 13 then u8 value else if value <=? 0xFF + 13 then 13 else 14.

(** Each writer returns the buffer and the number of bytes written at [at_]. *)
Definition coap_set_option_header_extended (value : Z) (buffer : list Z) (at_ : Z) : C (list Z * Z) :=
  if 269 <=? value then
    buffer ← wr buffer at_ (u8 (Z.shiftr (u32 (value - 269)) 8));
    buffer ← wr buffer (at_ + 1) (u8 (u32 (value - 269)));
    ret (buffer, 2)
  else if 13 <=? value then
    buffer ← wr buffer at_ (u8 (u32 (value - 269)));
    ret (buffer, 1)
  else ret (buffer, 0).

Definition coap_set_option_header (delta length : Z) (buffer : list Z) (at_ : Z) : C (list Z * Z) :=
  buffer ← wr buffer at_
    (u8 (Z.lor (Z.shiftl (coap_option_nibble delta) 4) (coap_option_nibble (u32 length))));
  let index := 1 in
  '(buffer, n) ← coap_set_option_header_extended delta buffer (at_ + index);
  let index := index + n in
  '(buffer, n) ← coap_set_option_header_extended (u32 length) buffer (at_ + index);
  ret (buffer, index + n).

Definition nz (mask value : Z) : bool := negb (Z.land mask value =? 0).

Definition coap_serialize_int_option (number current_number : Z) (buffer : list Z) (at_ value : Z)
    : C (list Z * Z) :=
  let b2n (b : bool) := if b then 1 else 0 in
  let i := b2n (nz 0xFF000000 value) + b2n (nz 0xFFFF0000 value) + b2n (nz 0xFFFFFF00 value) +
           b2n (nz 0xFFFFFFFF value) in
  '(buffer, i) ← coap_set_option_header (u32 (number - current_number)) i buffer at_;
  let put (mask shift : Z) '((buffer, i) : list Z * Z) :=
    if nz mask value then
      buffer ← wr buffer (at_ + i) (u8 (Z.shiftr value shift)); ret (buffer, i + 1)
    else ret (buffer, i) in
  s ← put 0xFF000000 24 (buffer, i);
  s ← put 0xFFFF0000 16 s;
  s ← put 0xFFFFFF00 8 s;
  put 0xFFFFFFFF 0 s.

(** An option header and its value. *)
Definition put_option (number current_number : Z) (buffer : list Z) (at_ : Z) (value : list Z)
    : C (list Z * Z) :=
  '(buffer, n) ← coap_set_option_header (u32 (number - current_number)) (len value) buffer at_;
  buffer ← wr_bytes buffer (at_ + n) value;
  ret (buffer, n + len value).

(** The [for] loop of [coap_serialize_array_option] over the parts between split
    characters; [j] is advanced once more after a split character. *)
Fixpoint split_loop (fuel : nat) (number current_number : Z) (buffer : list Z) (at_ i : Z)
    (array : list Z) (length split_char j part_start : Z) : C (list Z * Z) :=
  match fuel with
  | O => None
  | S fuel =>
      if j <=? length then
        c ← rd array j;
        if (c =? split_char) || (j =? length) then
          part ← rd_bytes array part_start (j - part_start);
          '(buffer, n) ← put_option number current_number buffer (at_ + i) part;
          split_loop fuel number number buffer at_ (i + n) array length split_char (j + 1 + 1) (j + 1)
        else split_loop fuel number current_number buffer at_ i array length split_char (j + 1) part_start
      else ret (buffer, i)
  end.

Definition coap_serialize_array_option (number current_number : Z) (buffer : list Z) (at_ : Z)
    (array : list Z) (length split_char : Z) : C (list Z * Z) :=
  if negb (split_char =? 0) then
    split_loop (Z.to_nat length + 2) number current_number buffer at_ 0 array length split_char 0 0
  else
    value ← rd_bytes array 0 length;
    put_option number current_number buffer at_ value.

Fixpoint coap_serialize_multi_option (number current_number : Z) (buffer : list Z) (at_ : Z)
    (array : list multi_option_t) : C (list Z * Z) :=
  match array with
  | [] => ret (buffer, 0)
  | j :: array =>
      value ← rd_bytes (opt_data j) 0 (opt_len j);
      '(buffer, n) ← put_option number current_number buffer at_ value;
      '(buffer, m) ← coap_serialize_multi_option number number buffer (at_ + n) array;
      ret (buffer, n + m)
  end.

(** [dst] is an offset in [buffer]; the result is the buffer, [*dst] and
    [*dst_len]. *)
Definition coap_merge_multi_option (buffer : list Z) (dst dst_len option option_len separator : Z)
    : C (list Z * Z * Z) :=
  if 0 <? dst_len then
    buffer ← wr buffer (dst + dst_len) separator;
    let dst_len := dst_len + 1 in
    moved ← rd_bytes buffer option option_len;
    buffer ← wr_bytes buffer (dst + dst_len) moved;
    ret (buffer, dst, dst_len + option_len)
  else ret (buffer, option, option_len).

(** ** Serializing *)

Definition COAP_HEADER_LEN : Z := 4.
Definition COAP_MAX_OPTION_HEADER_LEN : Z := 5.

Fixpoint multi_size (l : list multi_option_t) (length : Z) : Z :=
  match l with
  | [] => length
  | o :: l => multi_size l (length + (COAP_MAX_OPTION_HEADER_LEN + opt_len o))
  end.

(** [if (IS_OPTION(coap_pkt, number)) length += ...] *)
Definition add_size (p : coap_packet_t) (number n length : Z) : Z :=
  if IS_OPTION p number then length + n else length.
Definition add_multi_size (p : coap_packet_t) (number : Z) (l : list multi_option_t) (length : Z) : Z :=
  if IS_OPTION p number then multi_size l length else length.

Definition coap_serialize_get_size (p : coap_packet_t) : Z :=
  let length := COAP_HEADER_LEN + payload_len p + token_len p in
  let length := add_size p COAP_OPTION_IF_MATCH (COAP_MAX_OPTION_HEADER_LEN + if_match_len p) length in
  let length := add_size p COAP_OPTION_URI_HOST (COAP_MAX_OPTION_HEADER_LEN + len (uri_host p)) length in
  let length := add_size p COAP_OPTION_ETAG (COAP_MAX_OPTION_HEADER_LEN + etag_len p) length in
  let length := add_size p COAP_OPTION_IF_NONE_MATCH COAP_MAX_OPTION_HEADER_LEN length in
  let length := add_size p COAP_OPTION_OBSERVE COAP_MAX_OPTION_HEADER_LEN length in
  let length := add_size p COAP_OPTION_URI_PORT COAP_MAX_OPTION_HEADER_LEN length in
  let length := add_multi_size p COAP_OPTION_LOCATION_PATH (location_path p) length in
  let length := add_multi_size p COAP_OPTION_URI_PATH (uri_path p) length in
  let length := add_size p COAP_OPTION_CONTENT_TYPE COAP_MAX_OPTION_HEADER_LEN length in
  let length := add_size p COAP_OPTION_MAX_AGE COAP_MAX_OPTION_HEADER_LEN length in
  let length := add_multi_size p COAP_OPTION_URI_QUERY (uri_query p) length in
  let length := add_size p COAP_OPTION_ACCEPT (accept_num p * COAP_MAX_OPTION_HEADER_LEN) length in
  let length :=
    add_size p COAP_OPTION_LOCATION_QUERY (COAP_MAX_OPTION_HEADER_LEN + location_query_len p) length in
  let length := add_size p COAP_OPTION_BLOCK2 COAP_MAX_OPTION_HEADER_LEN length in
  let length := add_size p COAP_OPTION_BLOCK1 COAP_MAX_OPTION_HEADER_LEN length in
  let length := add_size p COAP_OPTION_SIZE COAP_MAX_OPTION_HEADER_LEN length in
  let length := add_size p COAP_OPTION_PROXY_URI (COAP_MAX_OPTION_HEADER_LEN + len (proxy_uri p)) length in
  if negb (payload_len p =? 0) then length + 1 else length.

(** The state of the serializer: the buffer, [option - buffer] and
    [current_number].  One operation per [COAP_SERIALIZE_*] macro. *)
Abbreviation sstate := (list Z * Z * Z)%type.

Definition serialize_int (p : coap_packet_t) (number value : Z) (s : sstate) : C sstate :=
  let '(buffer, option, current_number) := s in
  if IS_OPTION p number then
    '(buffer, n) ← coap_serialize_int_option number current_number buffer option value;
    ret (buffer, option + n, number)
  else ret s.

Definition serialize_array (p : coap_packet_t) (number : Z) (array : list Z) (length split_char : Z)
    (s : sstate) : C sstate :=
  let '(buffer, option, current_number) := s in
  if IS_OPTION p number then
    '(buffer, n) ← coap_serialize_array_option number current_number buffer option array length split_char;
    ret (buffer, option + n, number)
  else ret s.

Definition serialize_multi (p : coap_packet_t) (number : Z) (l : list multi_option_t) (s : sstate)
    : C sstate :=
  let '(buffer, option, current_number) := s in
  if IS_OPTION p number then
    '(buffer, n) ← coap_serialize_multi_option number current_number buffer option l;
    ret (buffer, option + n, number)
  else ret s.

Fixpoint accept_loop (number : Z) (values : list Z) (s : sstate) : C sstate :=
  match values with
  | [] => ret s
  | v :: values =>
      let '(buffer, option, current_number) := s in
      '(buffer, n) ← coap_serialize_int_option number current_number buffer option v;
      accept_loop number values (buffer, option + n, number)
  end.

Definition serialize_accept (p : coap_packet_t) (number : Z) (s : sstate) : C sstate :=
  if IS_OPTION p number then
    values ← rd_bytes (accept p) 0 (accept_num p);
    accept_loop number values s
  else ret s.

Definition block_value (b : block_t) : C Z :=
  let block := u32 (Z.shiftl (block_num b) 4) in
  let block := if negb (block_more b =? 0) then Z.lor block 0x8 else block in
  l ← coap_log_2 (block_size b / 16);
  ret (Z.lor block (Z.land 0xF l)).

Definition serialize_block (p : coap_packet_t) (number : Z) (b : block_t) (s : sstate) : C sstate :=
  if IS_OPTION p number then block ← block_value b; serialize_int p number block s else ret s.

Definition serialize_options (p : coap_packet_t) (s : sstate) : C sstate :=
  s ← serialize_array p COAP_OPTION_IF_MATCH (if_match p) (if_match_len p) 0 s;
  s ← serialize_array p COAP_OPTION_URI_HOST (uri_host p) (len (uri_host p)) 0 s;
  s ← serialize_array p COAP_OPTION_ETAG (etag p) (etag_len p) 0 s;
  s ← serialize_int p COAP_OPTION_IF_NONE_MATCH (u32 (content_type p - content_type p)) s;
  s ← serialize_int p COAP_OPTION_OBSERVE (observe p) s;
  s ← serialize_int p COAP_OPTION_URI_PORT (uri_port p) s;
  s ← serialize_multi p COAP_OPTION_LOCATION_PATH (location_path p) s;
  s ← serialize_multi p COAP_OPTION_URI_PATH (uri_path p) s;
  s ← serialize_int p COAP_OPTION_CONTENT_TYPE (content_type p) s;
  s ← serialize_int p COAP_OPTION_MAX_AGE (max_age p) s;
  s ← serialize_multi p COAP_OPTION_URI_QUERY (uri_query p) s;
  s ← serialize_accept p COAP_OPTION_ACCEPT s;
  s ← serialize_array p COAP_OPTION_LOCATION_QUERY (location_query p) (location_query_len p) (chr "&") s;
  s ← serialize_block p COAP_OPTION_BLOCK2 (block2 p) s;
  s ← serialize_block p COAP_OPTION_BLOCK1 (block1 p) s;
  s ← serialize_int p COAP_OPTION_SIZE (p_size p) s;
  serialize_array p COAP_OPTION_PROXY_URI (proxy_uri p) (len (proxy_uri p)) 0 s.

(** The length, the buffer and the packet. *)
Definition coap_serialize_message (p : coap_packet_t) (buffer : list Z) : C (Z * list Z * coap_packet_t) :=
  let p := p <| version := 1 |> in
  let b0 := u8 (Z.lor (Z.lor (Z.land 0xC0 (Z.shiftl (version p) 6))
                             (Z.land 0x30 (Z.shiftl (type_num (p_type p)) 4)))
                      (Z.land 0x0F (token_len p))) in
  buffer ← wr buffer 0 b0;
  buffer ← wr buffer 1 (code p);
  buffer ← wr buffer 2 (u8 (Z.shiftr (mid p) 8));
  buffer ← wr buffer 3 (u8 (mid p));
  t ← rd_bytes (token p) 0 (token_len p);
  buffer ← wr_bytes buffer COAP_HEADER_LEN t;
  '(buffer, option, _) ← serialize_options p (buffer, COAP_HEADER_LEN + token_len p, 0);
  let p := coap_free_header p in
  '(buffer, option) ← (if negb (payload_len p =? 0) then
                         buffer ← wr buffer option 0xFF; ret (buffer, option + 1)
                       else ret (buffer, option));
  buffer ← (match payload p with
            | Some b => b ← rd_bytes b 0 (payload_len p); wr_bytes buffer option b
            | None => ret buffer
            end);
  ret (option + payload_len p, buffer, p).

(** ** Parsing *)

Definition NO_ERROR : Z := 0.
Definition BAD_REQUEST_4_00 : Z := 128.
Definition BAD_OPTION_4_02 : Z := 130.
Definition PROXYING_NOT_SUPPORTED_5_05 : Z := 165.

Section parse.
Context `{Malloc}.

(** What the parser returns: the status, [coap_error_message] when it is set,
    the packet and the received bytes. *)
Record parsed := mk_parsed {
  status : Z; error_message : option string; packet : coap_packet_t; received : list Z }.

Definition exit_parse_error (p : coap_packet_t) (data : list Z) : parsed :=
  mk_parsed BAD_REQUEST_4_00 (Some "Invalid COAP message"%string) (coap_free_header p) data.

(** One turn of the [do ... while] loop over [option_delta] and
    [option_length]: the position and the value, [None] for a parse error. *)
Definition parse_extended (data : list Z) (data_end cur x : Z) : C (option (Z * Z)) :=
  if x =? 13 then
    let cur := cur + 1 in
    if cur =? data_end then ret None
    else b ← rd data cur; ret (Some (cur, x + b))
  else if x =? 14 then
    let x := x + 255 in
    let cur := cur + 1 in
    if cur =? data_end then ret None
    else
      b ← rd data cur;
      let x := x + Z.shiftl b 8 in
      let cur := cur + 1 in
      if cur =? data_end then ret None
      else b ← rd data cur; ret (Some (cur, x + b))
  else ret (Some (cur, x)).

(** The fields of a block option. *)
Definition parse_block (v : Z) : block_t :=
  mk_block (Z.shiftr v 4) (Z.shiftr (Z.land v 0x08) 3) (Z.shiftl 16 (Z.land v 0x07))
    (u32 (Z.shiftl (Z.land v (u32 (Z.lnot 0xF))) (Z.land v 0x07))).

(** [memcpy] of at most eight bytes. *)
Definition parse_etag (old data : list Z) (cur option_length : Z) : C (Z * list Z) :=
  let n := u8 (Z.min 8 option_length) in
  b ← rd_bytes data cur n;
  b ← wr_bytes old 0 b;
  ret (n, b).

Inductive step :=
  | Stop (r : parsed)
  | Next (p : coap_packet_t) (data : list Z) (loc : Z).

(** [switch (option_number)], for the option whose value is at [cur].  [loc] is
    the offset of [location_query] in the received bytes. *)
Definition parse_option (p : coap_packet_t) (data : list Z) (loc cur number n : Z) : C step :=
  let next p := ret (Next p data loc) in
  let str := rd_bytes data cur n in
  let int := coap_parse_int_option data cur n in
  if number =? COAP_OPTION_CONTENT_TYPE then
    if 2 <? n then ret (Stop (exit_parse_error p data))
    else v ← int; next (p <| content_type := v |>)
  else if number =? COAP_OPTION_MAX_AGE then v ← int; next (p <| max_age := v |>)
  else if number =? COAP_OPTION_ETAG then
    '(l, b) ← parse_etag (etag p) data cur n; next (p <| etag_len := l |> <| etag := b |>)
  else if number =? COAP_OPTION_ACCEPT then
    if accept_num p <? COAP_MAX_ACCEPT_NUM then
      v ← int;
      a ← wr (accept p) (accept_num p) (u16 v);
      next (p <| accept := a |> <| accept_num := accept_num p + 1 |>)
    else next p
  else if number =? COAP_OPTION_IF_MATCH then
    '(l, b) ← parse_etag (if_match p) data cur n; next (p <| if_match_len := l |> <| if_match := b |>)
  else if number =? COAP_OPTION_IF_NONE_MATCH then next (p <| if_none_match := 1 |>)
  else if number =? COAP_OPTION_URI_HOST then s ← str; next (p <| uri_host := s |>)
  else if number =? COAP_OPTION_URI_PORT then v ← int; next (p <| uri_port := u16 v |>)
  else if number =? COAP_OPTION_URI_PATH then
    s ← str; l ← coap_add_multi_option (uri_path p) s n 1; next (p <| uri_path := l |>)
  else if number =? COAP_OPTION_URI_QUERY then
    s ← str; l ← coap_add_multi_option (uri_query p) s n 1; next (p <| uri_query := l |>)
  else if number =? COAP_OPTION_LOCATION_PATH then
    s ← str; l ← coap_add_multi_option (location_path p) s n 1; next (p <| location_path := l |>)
  else if number =? COAP_OPTION_LOCATION_QUERY then
    '(data, loc, l) ← coap_merge_multi_option data loc (location_query_len p) cur n (chr "&");
    ret (Next (p <| location_query := drop (Z.to_nat loc) data |> <| location_query_len := l |>) data loc)
  else if number =? COAP_OPTION_PROXY_URI then
    s ← str;
    ret (Stop (mk_parsed PROXYING_NOT_SUPPORTED_5_05
                 (Some "This is a constrained server (Contiki)"%string) (p <| proxy_uri := s |>) data))
  else if number =? COAP_OPTION_OBSERVE then v ← int; next (p <| observe := v |>)
  else if number =? COAP_OPTION_BLOCK2 then v ← int; next (p <| block2 := parse_block v |>)
  else if number =? COAP_OPTION_BLOCK1 then v ← int; next (p <| block1 := parse_block v |>)
  else if number =? COAP_OPTION_SIZE then v ← int; next (p <| p_size := v |>)
  else if negb (Z.land number 1 =? 0) then
    ret (Stop (mk_parsed BAD_OPTION_4_02 (Some "Unsupported critical option"%string) (coap_free_header p) data))
  else next p.

(** The [while (current_option < data_end)] loop. *)
Fixpoint parse_loop (fuel : nat) (p : coap_packet_t) (data : list Z) (data_end loc cur number : Z) : C parsed :=
  match fuel with
  | O => None
  | S fuel =>
      if cur <? data_end then
        b0 ← rd data cur;
        if b0 =? 0xFF then
          if cur + 1 =? data_end then ret (exit_parse_error p data)
          else
            let cur := cur + 1 in
            b ← rd_bytes data cur (data_end - cur);
            ret (mk_parsed NO_ERROR None (p <| payload := Some b |> <| payload_len := data_end - cur |>) data)
        else
          let option_delta := Z.shiftr b0 4 in
          let option_length := Z.land b0 0x0F in
          if (option_delta =? 0x0F) || (option_length =? 0x0F) then ret (exit_parse_error p data)
          else
            r ← parse_extended data data_end cur option_delta;
            match r with
            | None => ret (exit_parse_error p data)
            | Some (cur, option_delta) =>
                r ← parse_extended data data_end cur option_length;
                match r with
                | None => ret (exit_parse_error p data)
                | Some (cur, option_length) =>
                    let number := u32 (number + option_delta) in
                    let cur := cur + 1 in
                    if data_end <? cur + option_length then ret (exit_parse_error p data)
                    else
                      p ← SET_OPTION p number;
                      r ← parse_option p data loc cur number option_length;
                      match r with
                      | Stop r => ret r
                      | Next p data loc => parse_loop fuel p data data_end loc (cur + option_length) number
                      end
                end
            end
      else ret (mk_parsed NO_ERROR None p data)
  end.

(** Every turn consumes a byte: [data_len + 1] turns are enough. *)
Definition coap_parse_message (data : list Z) (data_len : Z) : C parsed :=
  let p := zero_packet in
  if data_len <? COAP_HEADER_LEN then ret (exit_parse_error p data)
  else
    b0 ← rd data 0; b1 ← rd data 1; b2 ← rd data 2; b3 ← rd data 3;
    let p := p <| version := Z.shiftr (Z.land 0xC0 b0) 6 |>
               <| p_type := type_of_num (Z.shiftr (Z.land 0x30 b0) 4) |>
               <| token_len := Z.land 0x0F b0 |>
               <| code := b1 |> <| mid := Z.lor (Z.shiftl b2 8) b3 |> in
    if negb (version p =? 1) then
      ret (mk_parsed BAD_REQUEST_4_00 (Some "CoAP version must be 1"%string) p data)
    else if (code p =? 0) && (COAP_HEADER_LEN <? data_len) then ret (exit_parse_error p data)
    else if COAP_TOKEN_LEN <? token_len p then ret (exit_parse_error p data)
    else
      let cur := COAP_HEADER_LEN in
      let loop p := parse_loop (S (Z.to_nat data_len)) p data data_len 0 (cur + token_len p) 0 in
      if negb (token_len p =? 0) then
        if data_len <? cur + token_len p then ret (exit_parse_error p data)
        else
          t ← rd_bytes data cur (token_len p);
          t ← wr_bytes (token p) 0 t;
          p ← SET_OPTION (p <| token := t |>) COAP_OPTION_TOKEN;
          loop p
      else loop p.
End parse.

(** A request and its parse. *)
Example parse_get :
  match @coap_parse_message malloc_always [0x42; 1; 0x12; 0x34; 7; 8; 0xB2; 114; 100; 0x61; 40; 0xFF; 65] 13 with
  | Some r =>
      status r = NO_ERROR /\ mid (packet r) = 0x1234 /\ observe (packet r) = 0 /\
      uri_path (packet r) = [mk_opt 1 2 (str "rd")] /\ payload (packet r) = Some [65]
  | None => False
  end.
Proof. by vm_compute. Qed.
End CoapMessage.
