(* ===== verification/CoapOptions.v ===== *)
(** * CoAP options

    The reference encoding of the options of a packet, the proofs that the
    serializer's macros write exactly it, and a bound of its size. *)
From S2P Require Import Prelude CoapPacket CoapMessage.
Import CoapPacket CoapMessage.

Module CoapOptions.

(** ** Reference encoding *)

Definition ext_bytes (v : Z) : list Z :=
  if 269 <=? v then be_bytes 2 (v - 269) else if 13 <=? v then [v - 13] else [].

Definition option_header (delta n : Z) : list Z :=
  (coap_option_nibble delta * 16 + coap_option_nibble n) :: ext_bytes delta ++ ext_bytes n.

Definition option_bytes (delta : Z) (v : list Z) : list Z := option_header delta (len v) ++ v.

(** The largest delta and the largest length of the format. *)
Definition MAX_EXT : Z := 65535 + 269.

(** Options in the order of the message, each with its number. *)
Fixpoint enc_options (current_number : Z) (l : list (Z * list Z)) : list Z :=
  match l with
  | [] => []
  | (number, v) :: l => option_bytes (number - current_number) v ++ enc_options number l
  end.

Definition last_number (current_number : Z) (l : list (Z * list Z)) : Z :=
  foldl (fun _ o => fst o) current_number l.

Lemma enc_options_app cur l1 l2 :
  enc_options cur (l1 ++ l2) = enc_options cur l1 ++ enc_options (last_number cur l1) l2.
Proof.
  revert cur. induction l1 as [|[n v] l1 IH]; intros cur; [done|].
  cbn [app enc_options]. rewrite IH. cbn [last_number foldl fst]. by rewrite app_assoc.
Qed.

Lemma last_number_app cur l1 l2 : last_number cur (l1 ++ l2) = last_number (last_number cur l1) l2.
Proof. apply foldl_app. Qed.

(** [f] writes [e] at its position. *)
Definition appends (f : list Z -> Z -> C (list Z * Z)) (e : list Z) : Prop :=
  forall p q, len e <= len q -> f (p ++ q) (len p) = Some ((p ++ e) ++ drop (length e) q, len e).

Lemma nibble_bound v : 0 <= v -> 0 <= coap_option_nibble v <= 14.
Proof. intros. unfold coap_option_nibble. ifs; [rewrite wrap_small; lia|lia|lia]. Qed.

Lemma ext_appends v : 0 <= v <= MAX_EXT -> appends (coap_set_option_header_extended v) (ext_bytes v).
Proof.
  unfold MAX_EXT. intros Hv p q Hq. unfold coap_set_option_header_extended, ext_bytes in *.
  destruct (269 <=? v) eqn:E1; [|destruct (13 <=? v) eqn:E2].
  - rewrite be_bytes_length in Hq. rewrite (wrap_small 32) by lia. rewrite wr_app by lens. mstep.
    replace (len p + 1) with (len (p ++ [u8 (Z.shiftr (v - 269) 8)])) by lens.
    rewrite wr_app by lens. mstep. rewrite drop_drop, shiftr_div by lia.
    do 2 f_equal. rewrite be_bytes_2. rewrite <- (app_assoc p). cbn [app].
    rewrite wrap_small by dlia. change (2 ^ 8) with 256. rewrite (Z.mod_small ((v - 269) / 256)) by dlia. done.
  - rewrite wr_app by (done || lens). mstep. do 2 f_equal. do 2 f_equal. f_equal. unfold wrap. dlia.
  - cbn. by rewrite app_nil_r.
Qed.

Lemma header_appends delta n :
  0 <= delta <= MAX_EXT -> 0 <= n <= MAX_EXT ->
  appends (coap_set_option_header delta n) (option_header delta n).
Proof.
  intros Hd Hn p q Hq. unfold coap_set_option_header, option_header in *. cbn [length] in Hq.
  rewrite length_app in Hq. unfold MAX_EXT in *. rewrite (wrap_small 32) by lia.
  pose proof (nibble_bound delta ltac:(lia)). pose proof (nibble_bound n ltac:(lia)).
  rewrite shiftl_mul, lor_add, wrap_small by lia. rewrite wr_app by lia. mstep. change (2 ^ 4) with 16.
  set (h := [coap_option_nibble delta * 16 + coap_option_nibble n]). assert (len h = 1) by done.
  replace (len p + 1) with (len (p ++ h)) by lens.
  rewrite (ext_appends delta Hd) by lens. mstep.
  replace (len p + (1 + len (ext_bytes delta))) with (len ((p ++ h) ++ ext_bytes delta)) by lens.
  rewrite (ext_appends n Hn) by lens. mstep. rewrite !drop_drop. do 2 f_equal; [|cbn [length]; lens].
  cbn [length]. rewrite length_app. by apps.
Qed.

Lemma put_option_appends number cur v :
  0 <= number - cur <= MAX_EXT -> len v <= MAX_EXT ->
  appends (fun b a => put_option number cur b a v) (option_bytes (number - cur) v).
Proof.
  unfold MAX_EXT. intros Hd Hv p q Hq. unfold put_option, option_bytes in *.
  rewrite length_app in *. rewrite wrap_small by lia. rewrite header_appends by (unfold MAX_EXT; lens). mstep.
  replace (len p + len (option_header (number - cur) (len v)))
    with (len (p ++ option_header (number - cur) (len v))) by lens.
  rewrite wr_bytes_app by lens. mstep. rewrite drop_drop. do 2 f_equal; [|lens]. by apps.
Qed.

Definition int_bytes (v : Z) : list Z :=
  if v <? 1 then [] else if v <? 2 ^ 8 then be_bytes 1 v else if v <? 2 ^ 16 then be_bytes 2 v
  else if v <? 2 ^ 24 then be_bytes 3 v else be_bytes 4 v.

Lemma nz_high k v :
  0 <= k <= 32 -> 0 <= v < 2 ^ 32 -> nz (Z.shiftl (Z.ones (32 - k)) k) v = (2 ^ k <=? v).
Proof.
  intros Hk Hv. unfold nz. rewrite Z.land_comm.
  assert (Z.land v (Z.shiftl (Z.ones (32 - k)) k) = Z.shiftl (v / 2 ^ k) k) as ->.
  { apply Z.bits_inj'. intros i Hi. rewrite Z.land_spec.
    destruct (Z.lt_ge_cases i k) as [Hlt|Hge].
    - rewrite !Z.shiftl_spec_low by done. apply andb_false_r.
    - rewrite !Z.shiftl_spec, Z.div_pow2_bits by lia. replace (i - k + k) with i by lia.
      destruct (Z.lt_ge_cases i 32) as [Hlt'|Hge'].
      + rewrite Z.ones_spec_low by lia. apply andb_true_r.
      + assert (Z.testbit v i = false) as ->; [|done].
        rewrite <- (Z.mod_small v (2 ^ 32)) by done. apply Z.mod_pow2_bits_high. lia. }
  rewrite Z.shiftl_mul_pow2 by lia. assert (0 < 2 ^ k) by lia.
  destruct (2 ^ k <=? v) eqn:E.
  - assert (0 < v / 2 ^ k) by (apply Z.div_str_pos; lia). rewrite (proj2 (Z.eqb_neq _ _)) by nia. done.
  - rewrite Z.div_small by lia. done.
Qed.

Lemma int_bytes_length v : 0 <= v < 2 ^ 32 -> 0 <= len (int_bytes v) <= 4.
Proof. intros. unfold int_bytes. ifs; rewrite ?be_bytes_length; cbn; lia. Qed.

Lemma int_appends number cur v :
  0 <= number - cur <= MAX_EXT -> 0 <= v < 2 ^ 32 ->
  appends (fun b a => coap_serialize_int_option number cur b a v) (option_bytes (number - cur) (int_bytes v)).
Proof.
  intros Hd Hv p q Hq. pose proof Hd as Hd'. unfold MAX_EXT in Hd'. unfold coap_serialize_int_option, option_bytes in *.
  rewrite length_app in Hq. pose proof (int_bytes_length v Hv).
  change 0xFF000000 with (Z.shiftl (Z.ones (32 - 24)) 24). change 0xFFFF0000 with (Z.shiftl (Z.ones (32 - 16)) 16).
  change 0xFFFFFF00 with (Z.shiftl (Z.ones (32 - 8)) 8). change 0xFFFFFFFF with (Z.shiftl (Z.ones (32 - 0)) 0).
  rewrite !nz_high by lia. rewrite (wrap_small 32 (number - cur)) by lia.
  assert ((if 2 ^ 24 <=? v then 1 else 0) + (if 2 ^ 16 <=? v then 1 else 0) +
     (if 2 ^ 8 <=? v then 1 else 0) + (if 2 ^ 0 <=? v then 1 else 0) = len (int_bytes v)) as ->
    by (unfold int_bytes; ifs; rewrite ?be_bytes_length; cbn; lia).
  rewrite header_appends by (unfold MAX_EXT; lia). mstep.
  set (h := option_header (number - cur) (len (int_bytes v))) in *.
  assert (forall s, 0 <= s -> u8 (Z.shiftr v s) = (v / 2 ^ s) mod 256) as Hu by (intros; by rewrite shiftr_div).
  rewrite !Hu by lia. clearbody h. clear Hu.
  assert (forall (x : Z) (P Q : list Z) (k : Z), k = len P -> 0 < len Q ->
    wr (P ++ Q) k x = Some ((P ++ [x]) ++ drop 1 Q)) as Hw by (intros; by apply wr_app).
  unfold int_bytes in *. change (2 ^ 0) with 1. rewrite Z.div_1_r.
  repeat match goal with |- context [if v <? ?k then _ else _] => destruct (v <? k) eqn:? end;
    guards; cbn [length be_bytes] in *; rewrite ?be_bytes_length in *; mstep;
    repeat (rewrite Hw by lens; mstep);
    rewrite ?drop_drop, <- ?app_assoc; cbn [app];
    rewrite ?be_bytes_1, ?be_bytes_2, ?be_bytes_3, ?be_bytes_4;
    (f_equal; f_equal; [repeat f_equal; rewrite ?length_app, ?app_nil_r; cbn [length]; try lia; try reflexivity|rewrite ?length_app; cbn [length]; lia]).
Qed.

Lemma option_header_length delta n : 0 <= delta -> 1 <= len (option_header delta n) <= 5.
Proof.
  intros. unfold option_header, ext_bytes. cbn [length]. rewrite length_app.
  ifs; cbn [length be_bytes]; rewrite ?be_bytes_length; lia.
Qed.

(** ** The options of a packet *)

(** The value of one node, as long as its length field says. *)
Definition opt_value (o : multi_option_t) : list Z := take (Z.to_nat (opt_len o)) (opt_data o).

Definition block_int (b : block_t) : Z :=
  block_num b * 16 + (if negb (block_more b =? 0) then 8 else 0) + Z.log2 (block_size b / 16).

(** The values of option [k], in the order of the message. *)
Definition values (p : coap_packet_t) (k : Z) : list (list Z) :=
  if k =? COAP_OPTION_IF_MATCH then [take (Z.to_nat (if_match_len p)) (if_match p)]
  else if k =? COAP_OPTION_URI_HOST then [uri_host p]
  else if k =? COAP_OPTION_ETAG then [take (Z.to_nat (etag_len p)) (etag p)]
  else if k =? COAP_OPTION_IF_NONE_MATCH then [[]]
  else if k =? COAP_OPTION_OBSERVE then [int_bytes (observe p)]
  else if k =? COAP_OPTION_URI_PORT then [int_bytes (uri_port p)]
  else if k =? COAP_OPTION_LOCATION_PATH then map opt_value (location_path p)
  else if k =? COAP_OPTION_URI_PATH then map opt_value (uri_path p)
  else if k =? COAP_OPTION_CONTENT_TYPE then [int_bytes (content_type p)]
  else if k =? COAP_OPTION_MAX_AGE then [int_bytes (max_age p)]
  else if k =? COAP_OPTION_URI_QUERY then map opt_value (uri_query p)
  else if k =? COAP_OPTION_ACCEPT then map int_bytes (take (Z.to_nat (accept_num p)) (accept p))
  else if k =? COAP_OPTION_LOCATION_QUERY then
    [take (Z.to_nat (location_query_len p)) (location_query p)]
  else if k =? COAP_OPTION_BLOCK2 then [int_bytes (block_int (block2 p))]
  else if k =? COAP_OPTION_BLOCK1 then [int_bytes (block_int (block1 p))]
  else if k =? COAP_OPTION_SIZE then [int_bytes (p_size p)]
  else if k =? COAP_OPTION_PROXY_URI then [proxy_uri p]
  else [].

(** Those of an option that is set. *)
Definition field (p : coap_packet_t) (k : Z) : list (list Z) := if IS_OPTION p k then values p k else [].

(** The numbers the library knows, Proxy-Uri last. *)
Definition numbers : list Z := [1; 3; 4; 5; 6; 7; 8; 11; 12; 14; 15; 17; 20; 23; 27; 28; 35].

Definition options_of (p : coap_packet_t) : list (Z * list Z) :=
  flat_map (fun k => map (pair k) (field p k)) numbers.

(** From a state whose last option is at most [lo], [f] writes the options [l],
    none above [hi]. *)
Definition emits (f : sstate -> C sstate) (l : list (Z * list Z)) (lo hi : Z) : Prop :=
  forall p q cur, 0 <= cur <= lo -> len (enc_options cur l) <= len q ->
    f (p ++ q, len p, cur) =
      Some ((p ++ enc_options cur l) ++ drop (length (enc_options cur l)) q, len (p ++ enc_options cur l),
            last_number cur l) /\
    0 <= last_number cur l <= hi.

Lemma emits_seq f g l1 l2 lo1 hi1 lo2 hi2 :
  emits f l1 lo1 hi1 -> emits g l2 lo2 hi2 -> hi1 <= lo2 ->
  emits (fun s => s ← f s; g s) (l1 ++ l2) lo1 hi2.
Proof.
  intros Hf Hg Hn p q cur Hc Hq. rewrite enc_options_app, length_app in Hq.
  destruct (Hf p q cur Hc ltac:(lia)) as [-> H1]. mstep.
  destruct (Hg (p ++ enc_options cur l1) (drop (length (enc_options cur l1)) q) (last_number cur l1))
    as [-> H2]; [lia|lens|]. rewrite enc_options_app, last_number_app, drop_drop, !length_app, !Nat.add_assoc.
  split; [|done]. by rewrite <- !app_assoc.
Qed.

Lemma emits_skip lo hi : lo <= hi -> emits (fun s => ret s) [] lo hi.
Proof. intros H p q cur Hc _. cbn. rewrite !app_nil_r. split; [done|lia]. Qed.

(** One option. *)
Lemma emits_option k v (h : Z -> list Z -> Z -> C (list Z * Z)) :
  (forall cur, 0 <= cur <= k -> appends (h cur) (option_bytes (k - cur) v)) -> 0 <= k ->
  emits (fun '(b, o, c) => '(b, n) ← h c b o; ret (b, o + n, k)) [(k, v)] k k.
Proof.
  intros Hh Hk p q cur Hc Hq. cbn [enc_options last_number foldl fst] in *. rewrite app_nil_r in *.
  rewrite Hh by done. mstep. rewrite length_app. split; [do 3 f_equal; lia|lia].
Qed.

Lemma emits_ext (f g : sstate -> C sstate) l lo hi :
  (forall b o c, f (b, o, c) = g (b, o, c)) -> emits g l lo hi -> emits f l lo hi.
Proof. intros He Hg p q cur Hc Hq. rewrite He. by apply Hg. Qed.

(** A macro: nothing, or what it does when its option is set. *)
Lemma emits_macro pkt k (f g : sstate -> C sstate) :
  0 <= k -> (forall b o c, f (b, o, c) = if IS_OPTION pkt k then g (b, o, c) else ret (b, o, c)) ->
  (IS_OPTION pkt k = true -> emits g (map (pair k) (values pkt k)) k k) ->
  emits f (map (pair k) (field pkt k)) k k.
Proof.
  intros Hk Hf Hg. unfold field. destruct (IS_OPTION pkt k).
  - eapply emits_ext; [exact Hf|by apply Hg].
  - eapply emits_ext; [exact Hf|]. by apply emits_skip.
Qed.

Lemma emits_int pkt k v :
  0 <= k <= MAX_EXT -> 0 <= v < 2 ^ 32 -> values pkt k = [int_bytes v] ->
  emits (serialize_int pkt k v) (map (pair k) (field pkt k)) k k.
Proof.
  intros Hk Hv Hval.
  eapply (emits_macro _ _ _ (fun '(b, o, c) => '(b, n) ← coap_serialize_int_option k c b o v; ret (b, o + n, k)));
    [lia|done|]. intros _. rewrite Hval.
  apply (emits_option k (int_bytes v) (fun c b o => coap_serialize_int_option k c b o v)); [|lia].
  intros cur Hc. apply int_appends; lia.
Qed.

Lemma emits_array pkt k array n :
  0 <= k <= MAX_EXT -> 0 <= n <= MAX_EXT -> n <= len array -> values pkt k = [take (Z.to_nat n) array] ->
  emits (serialize_array pkt k array n 0) (map (pair k) (field pkt k)) k k.
Proof.
  intros Hk Hn Ha Hval. unfold MAX_EXT in *.
  assert (rd_bytes array 0 n = Some (take (Z.to_nat n) array)) as Hr by (unfold rd_bytes; guards; done).
  eapply (emits_macro _ _ _ (fun '(b, o, c) =>
    '(b, n) ← put_option k c b o (take (Z.to_nat n) array); ret (b, o + n, k))); [lia| |].
  - intros b o c. cbn. unfold coap_serialize_array_option. cbn [negb Z.eqb]. by rewrite Hr.
  - intros _. rewrite Hval. apply (emits_option k _ (fun c b o => put_option k c b o (take (Z.to_nat n) array))); [|lia].
    intros cur Hc. apply put_option_appends; [unfold MAX_EXT; lia|unfold MAX_EXT; lens].
Qed.

(** A value without split character is one option. *)
Lemma split_loop_ok number cur buffer at_ l x post d :
  Forall (fun c => c <> d) l -> forall l1 l2 fuel, l = l1 ++ l2 -> (length l2 + 1 < fuel)%nat ->
  split_loop fuel number cur buffer at_ 0 (l ++ x :: post) (len l) d (len l1) 0 =
    put_option number cur buffer at_ l.
Proof.
  intros Hl l1 l2. revert l1. induction l2 as [|c l2 IH]; intros l1 fuel Hs Hf;
    (destruct fuel as [|fuel]; [cbn [length] in Hf; lia|]); cbn [split_loop app].
  - rewrite app_nil_r in Hs. subst l1. guards. rewrite rd_middle by done. mstep.
    rewrite Z.eqb_refl, orb_true_r, Z.sub_0_r, Z.add_0_r.
    pose proof (rd_bytes_app [] l (x :: post) 0 (len l) eq_refl eq_refl) as Hr. cbn [app] in Hr. rewrite Hr. mstep.
    destruct (put_option number cur buffer at_ l) as [[b n]|]; [|done]. mstep.
    destruct fuel as [|fuel]; [lia|]. cbn [split_loop]. by guards.
  - assert (len l = len l1 + 1 + len l2) by (rewrite Hs; lens). guards.
    assert (rd (l ++ x :: post) (len l1) = Some c) as ->.
    { rewrite Hs. replace ((l1 ++ c :: l2) ++ x :: post) with (l1 ++ c :: l2 ++ x :: post) by by apps.
      by apply rd_middle. }
    mstep. assert (c <> d) as Hc.
    { rewrite Hs in Hl. apply Forall_app in Hl as [_ Hl]. by apply list.Forall_cons_1 in Hl as [? _]. }
    rewrite (proj2 (Z.eqb_neq c d) Hc), (proj2 (Z.eqb_neq (len l1) (len l))) by lens. cbn [orb].
    replace (len l1 + 1) with (len (l1 ++ [c])) by lens.
    apply (IH (l1 ++ [c]) fuel); [by rewrite Hs; apps|cbn [length] in Hf; lia].
Qed.

Definition query_ok (array : list Z) (n : Z) : Prop :=
  exists l x post, array = l ++ x :: post /\ n = len l /\ len l <= MAX_EXT /\ Forall (fun c => c <> chr "&") l.

Lemma emits_split pkt k array n :
  0 <= k <= MAX_EXT -> (IS_OPTION pkt k = true -> query_ok array n) -> values pkt k = [take (Z.to_nat n) array] ->
  emits (serialize_array pkt k array n (chr "&")) (map (pair k) (field pkt k)) k k.
Proof.
  intros Hk Hq Hval. unfold MAX_EXT in *.
  eapply (emits_macro _ _ _ (fun '(b, o, c) =>
    '(b, n) ← coap_serialize_array_option k c b o array n (chr "&"); ret (b, o + n, k))); [lia|done|].
  intros Hi. destruct (Hq Hi) as (l & x & post & -> & -> & Hn & Hl). rewrite Hval, Nat2Z.id, take_app_length.
  eapply emits_ext; [|apply (emits_option k _ (fun c b o => put_option k c b o l)); [|lia]].
  - intros b o c. unfold coap_serialize_array_option. change (negb (chr "&" =? 0)) with true. cbn match.
    rewrite Nat2Z.id.
    pose proof (split_loop_ok k c b o l x post (chr "&") Hl [] l (length l + 2) eq_refl ltac:(lia)) as Hs.
    change (len (@nil Z)) with 0 in Hs. by rewrite Hs.
  - intros cur Hc. unfold MAX_EXT in *. apply put_option_appends; [unfold MAX_EXT; lia|unfold MAX_EXT; lens].
Qed.

(** Repeated options. *)
Fixpoint multi_bytes (k cur : Z) (vs : list (list Z)) : list Z :=
  match vs with
  | [] => []
  | v :: vs => option_bytes (k - cur) v ++ multi_bytes k k vs
  end.

Lemma enc_repeat k cur vs : enc_options cur (map (pair k) vs) = multi_bytes k cur vs.
Proof. revert cur. induction vs as [|v vs IH]; intros cur; [done|]. cbn. by rewrite IH. Qed.

Lemma last_repeat k cur vs : 0 <= cur <= k -> 0 <= last_number cur (map (pair k) vs) <= k.
Proof.
  revert cur. induction vs as [|v vs IH]; intros cur Hc; [done|]. cbn. apply IH. lia.
Qed.

Definition node_ok (o : multi_option_t) : Prop := 0 <= opt_len o < 256 /\ opt_len o <= len (opt_data o).

Lemma multi_appends k l : 0 <= k <= MAX_EXT -> Forall node_ok l -> forall cur, 0 <= cur <= k ->
  appends (fun b o => coap_serialize_multi_option k cur b o l) (multi_bytes k cur (map opt_value l)).
Proof.
  intros Hk Hl. unfold MAX_EXT in *. induction Hl as [|o l [Ho1 Ho2] Hl IH]; intros cur Hc p q Hq.
  - cbn. by rewrite app_nil_r.
  - cbn [map multi_bytes coap_serialize_multi_option] in *. rewrite length_app in Hq.
    assert (rd_bytes (opt_data o) 0 (opt_len o) = Some (opt_value o)) as -> by (unfold rd_bytes; by guards).
    mstep. rewrite put_option_appends; [|unfold MAX_EXT; lia|unfold opt_value, MAX_EXT; lens|lia]. mstep.
    replace (len p + len (option_bytes (k - cur) (opt_value o)))
      with (len (p ++ option_bytes (k - cur) (opt_value o))) by lens.
    rewrite (IH k) by lens. mstep. rewrite drop_drop, length_app. do 2 f_equal; [by rewrite <- !app_assoc|lia].
Qed.

Lemma last_repeat_eq k cur vs : vs <> [] -> last_number cur (map (pair k) vs) = k.
Proof.
  destruct vs as [|v vs]; [done|]. intros _. cbn. induction vs as [|w vs IH]; [done|]. exact IH.
Qed.

Lemma emits_multi pkt k l :
  0 <= k <= MAX_EXT -> Forall node_ok l -> (IS_OPTION pkt k = true -> l <> []) -> values pkt k = map opt_value l ->
  emits (serialize_multi pkt k l) (map (pair k) (field pkt k)) k k.
Proof.
  intros Hk Hl Hne Hval.
  eapply (emits_macro _ _ _ (fun '(b, o, c) =>
    '(b, n) ← coap_serialize_multi_option k c b o l; ret (b, o + n, k))); [lia|done|].
  intros Hi. rewrite Hval. intros p q cur Hc Hq. rewrite enc_repeat in *. rewrite multi_appends by done. mstep.
  rewrite last_repeat_eq by (destruct l; [by specialize (Hne Hi)|done]). rewrite length_app.
  split; [do 3 f_equal; lia|lia].
Qed.

Lemma emits_accepts k vs : 0 <= k <= MAX_EXT -> Forall (fun v => 0 <= v < 2 ^ 32) vs ->
  emits (accept_loop k vs) (map (pair k) (map int_bytes vs)) k k.
Proof.
  intros Hk Hvs. unfold MAX_EXT in *. induction Hvs as [|v vs Hv Hvs IH]; cbn [map]; [by apply (emits_skip k k)|].
  intros p q cur Hc Hq. cbn [accept_loop enc_options] in *. rewrite length_app in Hq.
  rewrite int_appends; [|unfold MAX_EXT; lia|done|lia]. mstep.
  replace (len p + len (option_bytes (k - cur) (int_bytes v)))
    with (len (p ++ option_bytes (k - cur) (int_bytes v))) by lens.
  destruct (IH (p ++ option_bytes (k - cur) (int_bytes v)) (drop (length (option_bytes (k - cur) (int_bytes v))) q) k)
    as [-> Hl]; [lia|lens|]. rewrite drop_drop. split; [|exact Hl].
  rewrite !length_app, !Nat.add_assoc. by rewrite <- !app_assoc.
Qed.

Lemma emits_accept pkt k :
  0 <= k <= MAX_EXT -> 0 <= accept_num pkt <= len (accept pkt) -> Forall (fun v => 0 <= v < 2 ^ 32) (accept pkt) ->
  values pkt k = map int_bytes (take (Z.to_nat (accept_num pkt)) (accept pkt)) ->
  emits (serialize_accept pkt k) (map (pair k) (field pkt k)) k k.
Proof.
  intros Hk Hn Ha Hval.
  assert (rd_bytes (accept pkt) 0 (accept_num pkt) = Some (take (Z.to_nat (accept_num pkt)) (accept pkt))) as Hr
    by (unfold rd_bytes; guards; done).
  eapply (emits_macro _ _ _ (accept_loop k (take (Z.to_nat (accept_num pkt)) (accept pkt)))); [lia| |].
  - intros b o c. unfold serialize_accept. by rewrite Hr.
  - intros _. rewrite Hval. apply emits_accepts; [done|]. by apply Forall_take.
Qed.

Lemma log_2_loop_ok fuel : forall v r,
  0 <= v < 2 ^ Z.of_nat fuel -> (0 < fuel)%nat -> log_2_loop fuel v r = Some (r + 1 + Z.log2 v).
Proof.
  induction fuel as [|fuel IH]; intros v r Hv Hf; [lia|]. cbn [log_2_loop].
  rewrite shiftr_div by lia. change (2 ^ 1) with 2.
  rewrite Nat2Z.inj_succ, Z.pow_succ_r in Hv by lia.
  destruct (v / 2 =? 0) eqn:E; cbn [negb].
  - assert (v = 0 \/ v = 1) as [-> | ->] by dlia; cbn; f_equal; lia.
  - assert (0 < v / 2) by dlia. destruct fuel as [|fuel]; [change (2 ^ Z.of_nat 0) with 1 in Hv; dlia|].
    rewrite IH by (lia || dlia). f_equal.
    assert (Z.log2 v = 1 + Z.log2 (v / 2)); [|lia].
    pose proof (Z.log2_spec (v / 2) ltac:(lia)) as Hl. rewrite Z.pow_succ_r in Hl by apply Z.log2_nonneg.
    apply Z.log2_unique; [pose proof (Z.log2_nonneg (v / 2)); lia|].
    replace (Z.succ (1 + Z.log2 (v / 2))) with (1 + (1 + Z.log2 (v / 2))) by lia.
    rewrite !Z.pow_add_r by (pose proof (Z.log2_nonneg (v / 2)); lia). change (2 ^ 1) with 2. dlia.
Qed.

Lemma coap_log_2_ok v : 0 <= v < 2 ^ 16 -> coap_log_2 v = Some (Z.log2 v).
Proof.
  intros Hv. unfold coap_log_2. rewrite log_2_loop_ok by (cbn; lia). mstep.
  pose proof (Z.log2_nonneg v). rewrite (proj2 (Z.eqb_neq _ _)) by lia. cbn. f_equal. lia.
Qed.

Definition block_ok (b : block_t) : Prop := 0 <= block_num b <= 0x0FFFFF /\ 16 <= block_size b <= 2048.

Lemma block_value_ok b : block_ok b -> block_value b = Some (block_int b) /\ 0 <= block_int b < 2 ^ 24.
Proof.
  intros [Hn Hs]. unfold block_value, block_int.
  rewrite coap_log_2_ok by dlia. mstep.
  assert (0 <= Z.log2 (block_size b / 16) <= 7) as Hl.
  { split; [apply Z.log2_nonneg|]. assert (Z.log2 (block_size b / 16) < 8); [|lia].
    apply Z.log2_lt_pow2; dlia. }
  rewrite Z.land_comm, land_15, (Z.mod_small _ 16) by lia. rewrite shiftl_mul, wrap_small by lia.
  assert (forall x, 0 <= x < 8 -> Z.lor (block_num b * 2 ^ 4) 8 = block_num b * 16 + 8 /\
    Z.lor (block_num b * 2 ^ 4) x = block_num b * 16 + x /\
    Z.lor (block_num b * 16 + 8) x = block_num b * 16 + 8 + x) as Hlor.
  { intros x Hx. split; [by rewrite (lor_add _ 8 4)|]. split; [by rewrite (lor_add _ x 4) by lia|].
    replace (block_num b * 16 + 8) with ((block_num b * 2 + 1) * 2 ^ 3) by lia. rewrite lor_add by lia. lia. }
  destruct (Hlor (Z.log2 (block_size b / 16)) ltac:(lia)) as (H1 & H2 & H3).
  destruct (block_more b =? 0); cbn [negb]; [rewrite H2|rewrite H1, H3]; (split; [f_equal; lia|lia]).
Qed.

Lemma emits_block pkt k b :
  0 <= k <= MAX_EXT -> (IS_OPTION pkt k = true -> block_ok b) -> values pkt k = [int_bytes (block_int b)] ->
  emits (serialize_block pkt k b) (map (pair k) (field pkt k)) k k.
Proof.
  intros Hk Hb Hval.
  eapply (emits_macro _ _ _ (fun s => block ← block_value b; serialize_int pkt k block s)); [lia|done|].
  intros Hi. destruct (block_value_ok b (Hb Hi)) as [Hv Hr]. rewrite Hval.
  pose proof (emits_int pkt k (block_int b) Hk ltac:(lia) Hval) as H. unfold field in H. rewrite Hi, Hval in H.
  eapply emits_ext; [|exact H]. intros bf o c. by rewrite Hv.
Qed.

(** ** Whole messages *)

(** The fields of a packet within the ranges of their types and of the format:
    options that are set have a value. *)
Record msg_ok (p : coap_packet_t) : Prop := mk_msg_ok {
  ok_wf : packet_wf p;
  ok_code : 0 <= code p < 256;
  ok_mid : 0 <= mid p < 65536;
  ok_token : 0 <= token_len p <= 8;
  ok_if_match : 0 <= if_match_len p <= 8;
  ok_etag : 0 <= etag_len p <= 8;
  ok_host : len (uri_host p) <= MAX_EXT;
  ok_proxy : len (proxy_uri p) <= MAX_EXT;
  ok_observe : 0 <= observe p < 2 ^ 32;
  ok_port : 0 <= uri_port p < 2 ^ 16;
  ok_format : 0 <= content_type p < 2 ^ 16;
  ok_age : 0 <= max_age p < 2 ^ 32;
  ok_size : 0 <= p_size p < 2 ^ 32;
  ok_location : Forall node_ok (location_path p) /\
    (IS_OPTION p COAP_OPTION_LOCATION_PATH = true -> location_path p <> []);
  ok_path : Forall node_ok (uri_path p) /\ (IS_OPTION p COAP_OPTION_URI_PATH = true -> uri_path p <> []);
  ok_query : Forall node_ok (uri_query p) /\ (IS_OPTION p COAP_OPTION_URI_QUERY = true -> uri_query p <> []);
  ok_accept : 0 <= accept_num p <= 2 /\ Forall (fun v => 0 <= v < 2 ^ 16) (accept p);
  ok_location_query : IS_OPTION p COAP_OPTION_LOCATION_QUERY = true ->
    query_ok (location_query p) (location_query_len p);
  ok_block2 : IS_OPTION p COAP_OPTION_BLOCK2 = true -> block_ok (block2 p);
  ok_block1 : IS_OPTION p COAP_OPTION_BLOCK1 = true -> block_ok (block1 p);
  ok_payload : match payload p with
               | Some b => 0 <= payload_len p <= len b
               | None => payload_len p = 0
               end }.

Lemma serialize_options_ok p : msg_ok p -> emits (serialize_options p) (options_of p) 1 35.
Proof.
  intros H. destruct H. pose proof ok_wf0 as (_ & _ & He & Hm & _ & Ha).
  unfold serialize_options, options_of, numbers. cbn [flat_map].
  assert (0 <= len (uri_host p) /\ 0 <= len (proxy_uri p)) as [? ?] by lia.
  assert (forall l : list Z, [l] = [take (Z.to_nat (len l)) l]) as Hfull by (intros; by rewrite Nat2Z.id, firstn_all).
  rewrite app_nil_r. unfold MAX_EXT in *.
  assert (forall k, k ∈ numbers -> 0 <= k <= MAX_EXT) as Hk.
  { intros k Hk. unfold numbers, MAX_EXT in *. set_unfold in Hk. lia. }
  assert (Forall (fun v => 0 <= v < 2 ^ 32) (accept p)) as Hacc.
  { destruct ok_accept0 as [_ Hc]. eapply list.Forall_impl; [exact Hc|]. cbn. lia. }
  assert (forall k array n, k ∈ numbers -> 0 <= n <= len array -> len array <= MAX_EXT ->
    values p k = [take (Z.to_nat n) array] ->
    emits (serialize_array p k array n 0) (map (pair k) (field p k)) k k) as Harr
    by (intros; unfold MAX_EXT in *; apply emits_array; [by apply Hk|unfold MAX_EXT; lia|lia|done]).
  assert (forall k v, k ∈ numbers -> 0 <= v < 2 ^ 32 -> values p k = [int_bytes v] ->
    emits (serialize_int p k v) (map (pair k) (field p k)) k k) as Hint
    by (intros; apply emits_int; auto).
  eapply emits_seq; [apply Harr; [by set_unfold; tauto|lia|unfold MAX_EXT; lia|done]| |].
  1: eapply emits_seq; [apply Harr; [set_unfold; tauto|lia|done|apply Hfull]| |].
  1: eapply emits_seq; [apply Harr; [set_unfold; tauto|lia|unfold MAX_EXT; lia|done]| |].
  1: rewrite Z.sub_diag; eapply emits_seq; [apply (Hint 5); [set_unfold; tauto|done|done]| |].
  1: eapply emits_seq; [apply Hint; [set_unfold; tauto|lia|done]| |].
  1: eapply emits_seq; [apply Hint; [set_unfold; tauto|lia|done]| |].
  1: eapply emits_seq; [apply emits_multi; [done|tauto|tauto|done]| |].
  1: eapply emits_seq; [apply emits_multi; [done|tauto|tauto|done]| |].
  1: eapply emits_seq; [apply Hint; [set_unfold; tauto|lia|done]| |].
  1: eapply emits_seq; [apply Hint; [set_unfold; tauto|lia|done]| |].
  1: eapply emits_seq; [apply emits_multi; [done|tauto|tauto|done]| |].
  1: eapply emits_seq; [apply emits_accept; [done|lia|done|done]| |].
  1: eapply emits_seq; [apply emits_split; [done|done|done]| |].
  1: eapply emits_seq; [apply emits_block; [done|done|done]| |].
  1: eapply emits_seq; [apply emits_block; [done|done|done]| |].
  1: eapply emits_seq; [apply Hint; [set_unfold; tauto|lia|done]| |].
  1: apply Harr; [set_unfold; tauto|lia|done|apply Hfull].
  all: done.
Qed.

(** *** The computed size *)

Ltac opt_consts :=
  unfold COAP_OPTION_IF_MATCH, COAP_OPTION_URI_HOST, COAP_OPTION_ETAG, COAP_OPTION_IF_NONE_MATCH,
    COAP_OPTION_OBSERVE, COAP_OPTION_URI_PORT, COAP_OPTION_LOCATION_PATH, COAP_OPTION_URI_PATH,
    COAP_OPTION_CONTENT_TYPE, COAP_OPTION_MAX_AGE, COAP_OPTION_URI_QUERY, COAP_OPTION_ACCEPT,
    COAP_OPTION_LOCATION_QUERY, COAP_OPTION_BLOCK2, COAP_OPTION_BLOCK1, COAP_OPTION_SIZE,
    COAP_OPTION_PROXY_URI in *.

(** The room [coap_serialize_get_size] leaves for option [k]. *)
Definition room (p : coap_packet_t) (k : Z) : Z :=
  if k =? COAP_OPTION_IF_MATCH then 5 + if_match_len p
  else if k =? COAP_OPTION_URI_HOST then 5 + len (uri_host p)
  else if k =? COAP_OPTION_ETAG then 5 + etag_len p
  else if k =? COAP_OPTION_LOCATION_PATH then multi_size (location_path p) 0
  else if k =? COAP_OPTION_URI_PATH then multi_size (uri_path p) 0
  else if k =? COAP_OPTION_URI_QUERY then multi_size (uri_query p) 0
  else if k =? COAP_OPTION_ACCEPT then accept_num p * 5
  else if k =? COAP_OPTION_LOCATION_QUERY then 5 + location_query_len p
  else if k =? COAP_OPTION_PROXY_URI then 5 + len (proxy_uri p)
  else 5.

Definition sum_room (p : coap_packet_t) (ks : list Z) : Z :=
  foldr (fun k n => (if IS_OPTION p k then room p k else 0) + n) 0 ks.

Lemma add_size_eq p k n length : add_size p k n length = length + (if IS_OPTION p k then n else 0).
Proof. unfold add_size. destruct (IS_OPTION p k); lia. Qed.

Lemma multi_size_eq l n : multi_size l n = n + multi_size l 0.
Proof.
  revert n. induction l as [|o l IH]; intros n; cbn [multi_size]; [lia|].
  rewrite IH, (IH (0 + _)). lia.
Qed.

Lemma add_multi_size_eq p k l length :
  add_multi_size p k l length = length + (if IS_OPTION p k then multi_size l 0 else 0).
Proof. unfold add_multi_size. rewrite multi_size_eq. destruct (IS_OPTION p k); lia. Qed.

Lemma get_size_eq p :
  coap_serialize_get_size p =
    4 + token_len p + sum_room p numbers + (if payload_len p =? 0 then 0 else 1) + payload_len p.
Proof.
  unfold coap_serialize_get_size, sum_room, numbers. cbn [foldr].
  rewrite !add_size_eq, !add_multi_size_eq.
  unfold room, COAP_HEADER_LEN, COAP_MAX_OPTION_HEADER_LEN.
  opt_consts. cbn -[Z.add Z.mul IS_OPTION multi_size payload_len token_len].
  repeat match goal with |- context [if IS_OPTION p ?k then ?x else 0] =>
    generalize (if IS_OPTION p k then x else 0); intro end.
  destruct (payload_len p =? 0); cbn [negb]; lia.
Qed.

Lemma multi_bytes_le k vs : 0 <= k <= 268 -> forall cur, 0 <= cur <= k ->
  len (multi_bytes k cur vs) <= foldr (fun v n => 5 + len v + n) 0 vs.
Proof.
  intros Hk. induction vs as [|v vs IH]; intros cur Hc; cbn [multi_bytes foldr]; [cbn; lia|].
  rewrite length_app. specialize (IH k ltac:(lia)). unfold option_bytes. rewrite length_app.
  pose proof (option_header_length (k - cur) (len v) ltac:(lia)). lia.
Qed.

Lemma nodes_size l : Forall node_ok l -> foldr (fun v n => 5 + len v + n) 0 (map opt_value l) = multi_size l 0.
Proof.
  induction 1 as [|o l [H1 H2] Hl IH]; [done|]. cbn [map foldr multi_size]. rewrite IH, (multi_size_eq l (0 + _)).
  unfold opt_value, COAP_MAX_OPTION_HEADER_LEN. lens.
Qed.

(** An integer of at most three bytes, or of four after a small delta. *)
Lemma int_option_le d v :
  0 <= d <= 35 -> 0 <= v < 2 ^ 32 -> v < 2 ^ 24 \/ d < 13 -> len (option_bytes d (int_bytes v)) <= 5.
Proof.
  intros Hd Hv Hs. pose proof (int_bytes_length v Hv). unfold option_bytes, option_header, ext_bytes.
  rewrite length_app. cbn [length]. rewrite length_app.
  assert (len (int_bytes v) <= 3 \/ d < 13).
  { destruct Hs; [left|by right]. unfold int_bytes. ifs; rewrite ?be_bytes_length; cbn; lia. }
  ifs; cbn [length be_bytes]; rewrite ?be_bytes_length; lia.
Qed.

Lemma accepts_le vs : forall cur, 0 <= cur <= 17 -> Forall (fun v => 0 <= v < 2 ^ 16) vs ->
  len (multi_bytes 17 cur (map int_bytes vs)) <= 5 * len vs.
Proof.
  induction vs as [|v vs IH]; intros cur Hc Hv; cbn [map multi_bytes]; [cbn; lia|].
  apply list.Forall_cons_1 in Hv as [Hv Hvs]. rewrite length_app. specialize (IH 17 ltac:(lia) Hvs).
  pose proof (int_option_le (17 - cur) v ltac:(lia) ltac:(lia) ltac:(left; lia)). cbn [length]. lia.
Qed.

(** What one option takes. *)
Lemma field_room p k cur :
  msg_ok p -> max_age p < 2 ^ 24 -> p_size p < 2 ^ 24 -> k ∈ numbers -> 0 <= cur <= k ->
  len (enc_options cur (map (pair k) (field p k))) <= (if IS_OPTION p k then room p k else 0).
Proof.
  intros H Hage Hsize Hk Hc. destruct H. pose proof ok_wf0 as (_ & _ & He & Hm & _ & Ha).
  unfold field. destruct (IS_OPTION p k) eqn:Hi; [|done]. rewrite enc_repeat.
  assert (0 <= k <= 35) as Hk' by (unfold numbers in Hk; set_unfold in Hk; lia).
  pose proof (multi_bytes_le k (values p k) ltac:(lia) cur Hc) as Hle.
  assert (forall v, 0 <= v < 2 ^ 32 -> v < 2 ^ 24 \/ k < 13 -> values p k = [int_bytes v] ->
    len (multi_bytes k cur (values p k)) <= 5) as Hint.
  { intros v Hv Hs ->. cbn [multi_bytes]. rewrite app_nil_r. apply int_option_le; lia. }
  unfold numbers in Hk. set_unfold in Hk. clear Hk'.
  repeat (destruct Hk as [->|Hk]); [..|done].
  - etransitivity; [exact Hle|]. cbn. lens.
  - etransitivity; [exact Hle|]. cbn. lens.
  - etransitivity; [exact Hle|]. cbn. lens.
  - etransitivity; [exact Hle|]. cbn. lia.
  - apply (Hint (observe p)); [lia|by right|done].
  - apply (Hint (uri_port p)); [lia|by right|done].
  - etransitivity; [exact Hle|]. pose proof (nodes_size (location_path p) ltac:(tauto)) as Hz. cbn in *. lia.
  - etransitivity; [exact Hle|]. pose proof (nodes_size (uri_path p) ltac:(tauto)) as Hz. cbn in *. lia.
  - apply (Hint (content_type p)); [lia|by right|done].
  - apply (Hint (max_age p)); [lia|by left|done].
  - etransitivity; [exact Hle|]. pose proof (nodes_size (uri_query p) ltac:(tauto)) as Hz. cbn in *. lia.
  - etransitivity; [apply accepts_le; [lia|apply Forall_take; tauto]|]. cbn. lens.
  - destruct (ok_location_query0 Hi) as (l & x & post & Hq & Hn & _).
    etransitivity; [exact Hle|]. cbn. rewrite Hq, Hn, Nat2Z.id, take_app_length. lia.
  - destruct (block_value_ok _ (ok_block3 Hi)) as [_ Hb].
    apply (Hint (block_int (block2 p))); [lia|left; lia|done].
  - destruct (block_value_ok _ (ok_block4 Hi)) as [_ Hb].
    apply (Hint (block_int (block1 p))); [lia|left; lia|done].
  - apply (Hint (p_size p)); [lia|by left|done].
  - etransitivity; [exact Hle|]. cbn. lia.
Qed.

Lemma enc_flat_le p ks : msg_ok p -> max_age p < 2 ^ 24 -> p_size p < 2 ^ 24 ->
  StronglySorted Z.le ks -> (forall k, k ∈ ks -> k ∈ numbers) -> forall cur,
  0 <= cur -> Forall (fun k => cur <= k) ks ->
  len (enc_options cur (flat_map (fun k => map (pair k) (field p k)) ks)) <= sum_room p ks.
Proof.
  intros H Hage Hsize Hs Hn. induction Hs as [|k ks Hs IH Hk]; intros cur Hc Hf; [cbn; lia|].
  cbn [flat_map sum_room foldr]. apply list.Forall_cons_1 in Hf as [Hck Hf].
  rewrite enc_options_app, length_app.
  pose proof (field_room p k cur H Hage Hsize (Hn k ltac:(set_unfold; by left)) ltac:(lia)) as Hr.
  pose proof (last_repeat k cur (field p k) ltac:(lia)) as Hl.
  specialize (IH ltac:(intros; apply Hn; set_unfold; by right) (last_number cur (map (pair k) (field p k))) ltac:(lia)).
  unfold sum_room in IH. rewrite Nat2Z.inj_add.
  assert (Forall (fun x => last_number cur (map (pair k) (field p k)) <= x) ks) as Hf'.
  { eapply list.Forall_impl; [exact Hk|]. cbn. lia. }
  specialize (IH Hf'). lia.
Qed.

Lemma options_size p : msg_ok p -> max_age p < 2 ^ 24 -> p_size p < 2 ^ 24 ->
  len (enc_options 0 (options_of p)) <= sum_room p numbers.
Proof.
  intros H Ha Hs. apply enc_flat_le; [done|done|done| |done|lia|].
  - unfold numbers.
    repeat (apply SSorted_cons; [|repeat first [apply list.Forall_nil_2|apply list.Forall_cons_2; [lia|]]]).
    apply SSorted_nil.
  - unfold numbers. repeat first [apply list.Forall_nil_2|apply list.Forall_cons_2; [lia|]].
Qed.

End CoapOptions.
