(* ===== verification/CoapSerialize.v ===== *)
(** * Serializing CoAP messages

    The reference encoding of whole messages, and the proofs that
    [coap_serialize_message] writes exactly it and fits in the size computed by
    [coap_serialize_get_size]. *)
From S2P Require Import Prelude CoapPacket CoapMessage CoapOptions.
Import CoapPacket CoapMessage CoapOptions.

Module CoapSerialize.

(** The bytes of a message. *)
Definition payload_bytes (p : coap_packet_t) : list Z :=
  if payload_len p =? 0 then []
  else 0xFF :: match payload p with Some b => take (Z.to_nat (payload_len p)) b | None => [] end.

Definition message_bytes (p : coap_packet_t) : list Z :=
  [64 + type_num (p_type p) * 16 + token_len p; code p; mid p / 256; mid p mod 256] ++
  take (Z.to_nat (token_len p)) (token p) ++ enc_options 0 (options_of p) ++ payload_bytes p.

Lemma first_byte t n :
  0 <= n <= 8 ->
  u8 (Z.lor (Z.lor (Z.land 0xC0 (Z.shiftl 1 6)) (Z.land 0x30 (Z.shiftl (type_num t) 4))) (Z.land 0x0F n)) =
    64 + type_num t * 16 + n.
Proof.
  intros Hn.
  pose proof (range_cases 9 (fun n =>
    u8 (Z.lor (Z.lor (Z.land 0xC0 (Z.shiftl 1 6)) (Z.land 0x30 (Z.shiftl (type_num t) 4))) (Z.land 0x0F n)) =?
    64 + type_num t * 16 + n)) as H.
  apply Z.eqb_eq, H; [by destruct t|lia].
Qed.

Lemma payload_bytes_length p :
  msg_ok p -> len (payload_bytes p) = (if payload_len p =? 0 then 0 else 1) + payload_len p.
Proof.
  intros H. pose proof (ok_payload p H) as Hp. unfold payload_bytes.
  destruct (payload_len p =? 0) eqn:E; [cbn; lia|]. destruct (payload p); [cbn [length]; lens|lia].
Qed.

Lemma message_length p :
  msg_ok p -> len (message_bytes p) =
    4 + token_len p + len (enc_options 0 (options_of p)) + (if payload_len p =? 0 then 0 else 1) + payload_len p.
Proof.
  intros H. pose proof (ok_token p H). destruct (ok_wf p H) as (_ & _ & _ & _ & Ht & _).
  unfold message_bytes. rewrite !length_app, !Nat2Z.inj_add, payload_bytes_length by done.
  rewrite length_take. cbn [length]. lia.
Qed.

Lemma msg_ok_version p v : msg_ok p -> msg_ok (p <| version := v |>).
Proof. intros []. by constructor. Qed.

(** The options, written after the header and the token. *)
Lemma serialize_options_append p pre q :
  msg_ok p -> len (enc_options 0 (options_of p)) <= len q ->
  serialize_options p (pre ++ q, len pre, 0) =
    Some ((pre ++ enc_options 0 (options_of p)) ++ drop (length (enc_options 0 (options_of p))) q,
          len (pre ++ enc_options 0 (options_of p)), last_number 0 (options_of p)).
Proof. intros H Hq. by apply (serialize_options_ok p H pre q 0 ltac:(lia)). Qed.

(** The payload marker and the payload. *)
Lemma put_payload p pre q :
  msg_ok p -> len (payload_bytes p) <= len q ->
  ('(buffer, option) ← (if negb (payload_len p =? 0) then
                          buffer ← wr (pre ++ q) (len pre) 0xFF; ret (buffer, len pre + 1)
                        else ret (pre ++ q, len pre));
   buffer ← (match payload p with
             | Some b => b ← rd_bytes b 0 (payload_len p); wr_bytes buffer option b
             | None => ret buffer
             end);
   ret (option + payload_len p, buffer)) =
  Some (len (pre ++ payload_bytes p), (pre ++ payload_bytes p) ++ drop (length (payload_bytes p)) q).
Proof.
  intros H Hq. pose proof (ok_payload p H) as Hp. pose proof (payload_bytes_length p H) as Hl.
  rewrite length_app. rewrite Nat2Z.inj_add, Hl. unfold payload_bytes in *.
  destruct (payload_len p =? 0) eqn:E; cbn [negb].
  - mstep. rewrite app_nil_r. cbn [drop length]. destruct (payload p) as [b|]; mstep; [|do 2 f_equal; lia].
    assert (payload_len p = 0) as -> by lia. unfold rd_bytes. guards. mstep.
    change (slice b 0 0) with (@nil Z).
    rewrite (wr_bytes_app pre q (len pre) []) by (cbn [length]; lia). mstep. rewrite app_nil_r. feq.
  - destruct (payload p) as [b|]; [|lia]. rewrite wr_app by (cbn [length] in Hq; lia). mstep.
    unfold rd_bytes. guards. mstep.
    change (slice b 0 (payload_len p)) with (take (Z.to_nat (payload_len p)) b).
    set (d := take (Z.to_nat (payload_len p)) b) in *.
    assert (len d = payload_len p) as Hd by (subst d; lens).
    replace (len pre + 1) with (len (pre ++ [255])) by lens.
    cbn [length] in Hq. rewrite wr_bytes_app by lens. mstep. rewrite drop_drop, length_app. cbn [length].
    do 2 f_equal; [lia|]. rewrite <- !app_assoc. cbn [app]. do 3 f_equal.
Qed.

Lemma serialize_message_ok p buffer :
  msg_ok p -> len (message_bytes p) <= len buffer ->
  coap_serialize_message p buffer =
    Some (len (message_bytes p), message_bytes p ++ drop (length (message_bytes p)) buffer,
          coap_free_header (p <| version := 1 |>)).
Proof.
  intros H Hb. pose proof (message_length p H) as Hl. pose proof (ok_token p H) as Htok.
  pose proof (ok_code p H) as Hcode. pose proof (ok_mid p H) as Hmid. pose proof (payload_bytes_length p H) as Hpl.
  destruct (ok_wf p H) as (_ & _ & _ & _ & Ht & _).
  assert (4 <= len buffer) as H4.
  { pose proof (ok_payload p H). destruct (payload p); destruct (payload_len p =? 0); lia. }
  destruct buffer as [|x0 [|x1 [|x2 [|x3 q]]]]; [cbn [length] in H4; lia..|]. clear H4.
  unfold coap_serialize_message. change (version (p <| version := 1 |>)) with 1.
  change (p_type (p <| version := 1 |>)) with (p_type p).
  change (token_len (p <| version := 1 |>)) with (token_len p). rewrite first_byte by done.
  rewrite wr_cons_0. mstep. repeat (wr_const; mstep).
  change (token (p <| version := 1 |>)) with (token p).
  assert (rd_bytes (token p) 0 (token_len p) = Some (take (Z.to_nat (token_len p)) (token p))) as ->
    by (unfold rd_bytes; guards; done).
  mstep. set (t := take (Z.to_nat (token_len p)) (token p)). assert (len t = token_len p) as Htl by (subst t; lens).
  change (code (p <| version := 1 |>)) with (code p). change (mid (p <| version := 1 |>)) with (mid p).
  assert (u8 (Z.shiftr (mid p) 8) = mid p / 256) as -> by (rewrite shiftr_div by lia; apply wrap_small; dlia).
  change (u8 (mid p)) with (mid p mod 256).
  unfold message_bytes in *. fold t in Hb, Hl |- *.
  set (h := [64 + type_num (p_type p) * 16 + token_len p; code p; mid p / 256; mid p mod 256]) in *.
  change (_ :: code p :: mid p / 256 :: mid p mod 256 :: q) with (h ++ q).
  assert (len h = 4) as Hh by done. clearbody h t. rewrite !length_app in Hb, Hl. cbn [length] in Hb.
  rewrite wr_bytes_app by (unfold COAP_HEADER_LEN; lia). mstep.
  replace (COAP_HEADER_LEN + token_len p) with (len (h ++ t)) by (unfold COAP_HEADER_LEN; lens).
  set (p1 := p <| version := 1 |>) in *.
  pose proof (msg_ok_version p 1 H) as H1. fold p1 in H1.
  change (options_of p) with (options_of p1) in *. change (payload_bytes p) with (payload_bytes p1) in *.
  rewrite (serialize_options_append p1 (h ++ t) (drop (length t) q) H1) by lens. mstep.
  change (payload_len (coap_free_header p1)) with (payload_len p1).
  change (payload (coap_free_header p1)) with (payload p1).
  set (e := enc_options 0 (options_of p1)) in *.
  pose proof (put_payload p1 ((h ++ t) ++ e) (drop (length e) (drop (length t) q)) H1 ltac:(lens)) as Hp. clearbody e.
  destruct (if negb (payload_len p1 =? 0) then _ else _) as [[b o]|]; [|discriminate Hp]. mstep. cbn [mbind option_bind] in Hp.
  destruct (match payload p1 with Some _ => _ | None => _ end) as [b'|]; [|discriminate Hp]. cbn [mbind option_bind] in Hp. mstep.
  injection Hp as Hp1 Hp2. change (payload_len p1) with (payload_len p). rewrite Hp1, Hp2.
  do 2 f_equal. f_equal; [rewrite <- !app_assoc; done|].
  rewrite !drop_drop, <- !app_assoc. do 4 f_equal.
  change (x0 :: x1 :: x2 :: x3 :: q) with ([x0; x1; x2; x3] ++ q).
  rewrite drop_app_ge by lens. f_equal. lens.
Qed.

(** C18. A buffer of the size computed by [coap_serialize_get_size] holds the
    message: [coap_serialize_message] writes the header, the token, the options
    in ascending order with the deltas of their numbers, the marker and the
    payload, never outside the buffer, returns the length it wrote and frees the
    option lists.  The Max-Age and Size values must be below [2^24]: the computed
    size leaves them one byte too little. *)
Theorem coap_serialize_correct p buffer :
  msg_ok p -> max_age p < 2 ^ 24 -> p_size p < 2 ^ 24 -> coap_serialize_get_size p <= len buffer ->
  exists tail,
    coap_serialize_message p buffer =
      Some (len (message_bytes p), message_bytes p ++ tail, coap_free_header (p <| version := 1 |>)) /\
    length (message_bytes p ++ tail) = length buffer /\
    len (message_bytes p) <= coap_serialize_get_size p.
Proof.
  intros H Hage Hsize Hb. pose proof (options_size p H Hage Hsize) as Ho.
  pose proof (message_length p H) as Hlen. pose proof (ok_token p H) as Htok.
  destruct (ok_wf p H) as (_ & _ & _ & _ & Ht & _).
  rewrite get_size_eq in *.
  assert (len (message_bytes p) <= len buffer) as Hfit by lia.
  exists (drop (length (message_bytes p)) buffer). split; [|split; [lens|lia]].
  by apply serialize_message_ok.
Qed.
(** A POST with a token, a path, a query, a format, an observation, a block and
    a payload. *)
Definition sample_packet : coap_packet_t :=
  zero_packet <| p_type := COAP_TYPE_CON |> <| code := 2 |> <| mid := 0x1234 |> <| token_len := 2 |>
    <| token := [7; 8; 0; 0; 0; 0; 0; 0] |> <| observe := 300 |> <| content_type := 11542 |>
    <| uri_path := [mk_opt 1 2 (str "rd"); mk_opt 1 1 (str "5")] |>
    <| uri_query := [mk_opt 1 5 (str "lt=60")] |> <| block1 := mk_block 3 1 64 192 |>
    <| payload := Some [65; 66] |> <| payload_len := 2 |>
    <| p_options := [64; 152; 0; 8; 0] |>.

Lemma sample_packet_ok : msg_ok sample_packet.
Proof.
  constructor; try (cbn; lia); try (intros; discriminate).
  - split_and!; try done. repeat first [apply list.Forall_nil_2 | apply list.Forall_cons_2]; done.
  - split; [apply list.Forall_nil_2|done].
  - split; [|done]. repeat first [apply list.Forall_nil_2 | apply list.Forall_cons_2]; done.
  - split; [|done]. repeat first [apply list.Forall_nil_2 | apply list.Forall_cons_2]; done.
  - split; [done|]. repeat first [apply list.Forall_nil_2 | apply list.Forall_cons_2]; done.
  - intros _. done.
Qed.

Lemma coap_serialize_correct_witness :
  exists tail,
    coap_serialize_message sample_packet (replicate 64 0) =
      Some (28, message_bytes sample_packet ++ tail, coap_free_header (sample_packet <| version := 1 |>)) /\
    length (message_bytes sample_packet ++ tail) = 64%nat /\ 28 <= coap_serialize_get_size sample_packet.
Proof.
  assert (len (message_bytes sample_packet) = 28) as <- by done.
  apply (coap_serialize_correct sample_packet (replicate 64 0) sample_packet_ok); vm_compute; congruence.
Defined.

(** What serializing [p] in [room] bytes writes. *)
Definition serialized (p : C (Z * coap_packet_t)) (room : nat) : C (Z * list Z) :=
  '(_, p) ← p; '(n, b, _) ← coap_serialize_message p (replicate room 0); ret (coap_serialize_get_size p, take (Z.to_nat n) b).

(** Max-Age at [2^24] with a delta of 14: six bytes are written, five counted. *)
Example max_age_one_byte_short :
  let p := coap_set_header_max_age zero_packet (2 ^ 24) in
  serialized p 9 = None /\ serialized p 10 = Some (9, [64; 0; 0; 0; 0xD4; 1; 1; 0; 0; 0]).
Proof. by vm_compute. Qed.

(** Only one header is counted for the parts of a Location-Query. *)
Example location_query_headers :
  let p := coap_set_header_location_query zero_packet
    (str "abcdefghijklm&abcdefghijklm&abcdefghijklm&abcdefghijklm" ++ [0]) in
  serialized p 64 = None /\ fst <$> serialized p 65 = Some 64.
Proof. by vm_compute. Qed.

(** The character after a separator is not looked at. *)
Example location_query_empty_part :
  snd <$> serialized (coap_set_header_location_query zero_packet (str "a&&b" ++ [0])) 10 =
    Some [64; 0; 0; 0; 0xD1; 7; 97; 2; 38; 98].
Proof. by vm_compute. Qed.

(** A path that is set but empty advances the current number: a Content-Format
    after it has a delta of 1 instead of 12. *)
Example empty_path_delta :
  snd <$> serialized (p ← SET_OPTION zero_packet COAP_OPTION_URI_PATH; coap_set_header_content_type p 42) 6 =
    Some [64; 0; 0; 0; 0x11; 42].
Proof. by vm_compute. Qed.
End CoapSerialize.
