(* ===== verification/CoapParse.v ===== *)
(** * Parsing CoAP messages

    [coap_parse_message] never leaves the received bytes, whatever they are, and
    reads back what [coap_serialize_message] writes. *)
From S2P Require Import Prelude CoapPacket CoapMessage CoapOptions CoapSerialize.
Import CoapPacket CoapMessage CoapOptions CoapSerialize.

Module CoapParse.

(** ** Safety *)

(** The statuses the parser returns. *)
Definition parse_status (s : Z) : Prop :=
  s = NO_ERROR \/ s = BAD_REQUEST_4_00 \/ s = BAD_OPTION_4_02 \/ s = PROXYING_NOT_SUPPORTED_5_05.

(** A parsed packet: its arrays have their sizes, its lengths are those of
    what they measure, and every segment lies in the received bytes. *)
Record parsed_wf (p : coap_packet_t) : Prop := mk_parsed_wf {
  pw_wf : packet_wf p;
  pw_accept : 0 <= accept_num p <= 2;
  pw_etag : 0 <= etag_len p <= 8;
  pw_if_match : 0 <= if_match_len p <= 8;
  pw_query_len : 0 <= location_query_len p <= len (location_query p);
  pw_path : Forall node_ok (uri_path p);
  pw_query : Forall node_ok (uri_query p);
  pw_location : Forall node_ok (location_path p);
  pw_payload : payload_len p = match payload p with Some b => len b | None => 0 end }.

Lemma zero_parsed : parsed_wf zero_packet.
Proof. constructor; try (cbn; lia); try apply zero_packet_wf; apply list.Forall_nil_2. Qed.

Definition outcome_ok (data : list Z) (r : parsed) : Prop :=
  parse_status (status r) /\ parsed_wf (packet r) /\ length (received r) = length data.

Lemma parse_extended_safe data cur x :
  bytes data -> 0 <= cur < len data -> 0 <= x <= 14 ->
  exists r, parse_extended data (len data) cur x = Some r /\
    match r with
    | None => True
    | Some (cur', v) => cur <= cur' < len data /\ 0 <= v <= MAX_EXT
    end.
Proof.
  intros Hb Hc Hx. unfold parse_extended, MAX_EXT.
  assert (forall i, 0 <= i < len data -> exists b, rd data i = Some b /\ 0 <= b < 256) as Hr.
  { intros i Hi. destruct (rd_Some data i Hi) as [b Hrd]. exists b. split; [done|].
    exact (rd_Forall is_byte data i b Hb Hrd). }
  destruct (x =? 13) eqn:E1; [|destruct (x =? 14) eqn:E2].
  - destruct (cur + 1 =? len data) eqn:E; [by eexists|].
    destruct (Hr (cur + 1)) as (b & -> & ?); [lia|]. mstep. eexists; split; [done|]. cbn. lia.
  - destruct (cur + 1 =? len data) eqn:E; [by eexists|].
    destruct (Hr (cur + 1)) as (b & -> & ?); [lia|]. mstep.
    destruct (cur + 1 + 1 =? len data) eqn:E3; [by eexists|].
    destruct (Hr (cur + 1 + 1)) as (b' & -> & ?); [lia|]. mstep. eexists; split; [done|]. cbn.
    rewrite shiftl_mul by lia. lia.
  - eexists; split; [done|]. cbn. lia.
Qed.

Lemma set_option_total p opt :
  packet_wf p -> 0 <= opt -> exists o, SET_OPTION p opt = Some (p <| p_options := o |>) /\ packet_wf (p <| p_options := o |>).
Proof.
  intros Hp Ho. destruct (Z.lt_ge_cases opt 40) as [Hlt|Hge].
  - destruct (set_option_ok p opt Hp ltac:(lia)) as (o & H & Hl & Hb & _). exists o. split; [done|].
    by apply wf_set_options.
  - exists (p_options p). unfold SET_OPTION. destruct Hp as (Hl & Hrest). rewrite Hl. unfold OPTION_MAP_SIZE. guards.
    split; [|by split]. by destruct p.
Qed.

Section safety.
Context `{Malloc}.

Lemma int_option_total data cur n :
  0 <= cur -> 0 <= n -> cur + n <= len data -> exists v, coap_parse_int_option data cur n = Some v.
Proof. intros. unfold coap_parse_int_option, rd_bytes. guards. mstep. eauto. Qed.

Lemma etag_total old data cur n :
  length old = 8%nat -> 0 <= cur -> 0 <= n -> cur + n <= len data ->
  exists l b, parse_etag old data cur n = Some (l, b) /\ length b = 8%nat /\ 0 <= l <= 8.
Proof.
  intros Ho Hc Hn Hd. unfold parse_etag. rewrite wrap_small by lia. unfold rd_bytes. guards. mstep.
  pose proof (slice_length data cur (Z.min 8 n) Hc ltac:(lia) ltac:(lia)) as Hl.
  rewrite wr_bytes_Some by lia. mstep. do 2 eexists. split; [done|].
  pose proof (patch_length old 0 (slice data cur (Z.min 8 n)) ltac:(lia) ltac:(lia)). lia.
Qed.

Lemma add_multi_total l s n :
  Forall node_ok l -> 0 <= n -> n <= len s ->
  exists l', coap_add_multi_option l s n 1 = Some l' /\ Forall node_ok l'.
Proof.
  intros Hl Hn Hs. unfold coap_add_multi_option. destruct (malloc_ok _); [|by eauto]. cbn [negb Z.eqb].
  eexists; split; [done|]. apply Forall_app. split; [done|].
  apply list.Forall_cons_2; [|apply list.Forall_nil_2]. split; cbn [opt_len opt_data].
  - apply (wrap_bound 8). lia.
  - unfold wrap. pose proof (Z.mod_le n (2 ^ 8) ltac:(lia) ltac:(lia)). lia.
Qed.

(** The merge of a Location-Query stays before the end of its option. *)
Lemma merge_total data loc l cur n :
  0 <= loc -> 0 <= l -> loc + l < cur -> 0 <= n -> cur + n <= len data ->
  exists data' loc' l', coap_merge_multi_option data loc l cur n (chr "&") = Some (data', loc', l') /\
    length data' = length data /\ (bytes data -> bytes data') /\ 0 <= loc' /\ 0 <= l' /\ loc' + l' <= cur + n.
Proof.
  intros Hloc Hl Hc Hn Hd. unfold coap_merge_multi_option.
  destruct (0 <? l) eqn:E; [|do 3 eexists; split; [done|]; split; [done|]; split; [done|lia]].
  rewrite wr_Some by lia. mstep. set (d1 := <[Z.to_nat (loc + l) := chr "&"]> data).
  assert (length d1 = length data) as Hd1 by apply length_insert.
  unfold rd_bytes. guards. mstep.
  pose proof (slice_length d1 cur n ltac:(lia) ltac:(lia) ltac:(lia)) as Hs.
  rewrite wr_bytes_Some by lia. mstep. do 3 eexists. split; [done|].
  pose proof (patch_length d1 (loc + (l + 1)) (slice d1 cur n) ltac:(lia) ltac:(lia)).
  split; [lia|]. split; [|lia]. intros Hb.
  assert (bytes d1) as Hb1 by (apply list.Forall_insert; [done|apply chr_byte]).
  auto using Forall_patch, Forall_slice.
Qed.

(** The invariant of the loop. *)
Definition loop_ok (n : nat) (p : coap_packet_t) (data : list Z) (loc cur : Z) : Prop :=
  parsed_wf p /\ bytes data /\ length data = n /\ payload p = None /\
  0 <= loc /\ 0 <= location_query_len p /\ loc + location_query_len p <= cur <= len data.

Lemma parse_error_ok n p data :
  parsed_wf p -> length data = n -> outcome_ok (replicate n 0) (exit_parse_error p data).
Proof.
  intros Hp Hn. split; [by right; left|]. split; [|cbn; by rewrite length_replicate].
  destruct Hp. constructor; try done; apply list.Forall_nil_2.
Qed.

Definition step_ok (n : nat) (cur : Z) (r : step) : Prop :=
  match r with
  | Stop r => outcome_ok (replicate n 0) r
  | Next p data loc => loop_ok n p data loc cur
  end.

(** Every case of the switch but Location-Query leaves the bytes as they are. *)
Lemma next_ok n p q data loc cur m :
  loop_ok n p data loc cur -> parsed_wf q -> payload q = None -> location_query_len q = location_query_len p ->
  0 <= m -> cur + m <= len data -> step_ok n (cur + m) (Next q data loc).
Proof. intros (H1 & H2 & H3 & H4 & H5 & H6 & H7) Hq Hpl Hl Hm Hd. split_and!; try done; lia. Qed.

Lemma parse_option_safe n p data loc cur number m :
  loop_ok n p data loc (cur - 1) -> 0 <= m -> cur + m <= len data ->
  exists r, parse_option p data loc cur number m = Some r /\ step_ok n (cur + m) r.
Proof.
  intros Hok Hm Hd. pose proof Hok as (Hw & Hb & Hn & Hp & Hloc & Hl & Hc).
  pose proof Hw as [H1 H2 H3 H4 H5 H6 H7 H8 H9]. pose proof H1 as (W1 & W2 & W3 & W4 & W5 & W6).
  assert (loop_ok n p data loc cur) as Hok' by (split_and!; try done; lia).
  destruct (int_option_total data cur m ltac:(lia) Hm Hd) as [v Hv].
  assert (rd_bytes data cur m = Some (slice data cur m)) as Hs by (unfold rd_bytes; by guards).
  pose proof (slice_length data cur m ltac:(lia) Hm Hd) as Hsl.
  assert (forall q, parsed_wf q -> payload q = None -> location_query_len q = location_query_len p ->
    exists r, Some (Next q data loc) = Some r /\ step_ok n (cur + m) r) as Hnext
    by (intros q ???; eexists; split; [done|by apply (next_ok n p)]).
  assert (forall q, packet_wf q -> accept_num q = accept_num p -> etag_len q = etag_len p ->
    if_match_len q = if_match_len p -> location_query_len q = location_query_len p ->
    location_query q = location_query p -> uri_path q = uri_path p -> uri_query q = uri_query p ->
    location_path q = location_path p -> payload_len q = payload_len p -> payload q = payload p ->
    exists r, Some (Next q data loc) = Some r /\ step_ok n (cur + m) r) as Hsame.
  { intros q Hq E1 E2 E3 E4 E5 E6 E7 E8 E9 E10. apply Hnext; [|congruence|done].
    constructor; rewrite ?E1, ?E2, ?E3, ?E4, ?E5, ?E6, ?E7, ?E8, ?E9, ?E10; done. }
  unfold parse_option. rewrite Hv, Hs. mstep.
  dif E1; [dif E; [eexists; split; [done|by apply parse_error_ok]|by apply Hsame]|].
  dif E2; [by apply Hsame|].
  dif E3.
  { destruct (etag_total (etag p) data cur m W3 ltac:(lia) Hm Hd) as (l & b & -> & ? & ?). mstep.
    apply Hnext; [|done|done]. by constructor. }
  dif E4.
  { dif E5; [|by apply Hsame]. unfold COAP_MAX_ACCEPT_NUM in E5. rewrite wr_Some by lia. mstep.
    apply Hnext; [|done|done]. constructor; try done.
    - split_and!; try done. rewrite <- W6. apply length_insert.
    - cbn. lia. }
  dif E5.
  { destruct (etag_total (if_match p) data cur m W4 ltac:(lia) Hm Hd) as (l & b & -> & ? & ?). mstep.
    apply Hnext; [|done|done]. by constructor. }
  do 3 (dif E; [by apply Hsame|]; clear E).
  dif E6.
  { destruct (add_multi_total (uri_path p) (slice data cur m) m H6 Hm ltac:(lia)) as (l & -> & Hn'). mstep.
    apply Hnext; [by constructor|done|done]. }
  dif E7.
  { destruct (add_multi_total (uri_query p) (slice data cur m) m H7 Hm ltac:(lia)) as (l & -> & Hn'). mstep.
    apply Hnext; [by constructor|done|done]. }
  dif E8.
  { destruct (add_multi_total (location_path p) (slice data cur m) m H8 Hm ltac:(lia)) as (l & -> & Hn'). mstep.
    apply Hnext; [by constructor|done|done]. }
  dif E9.
  { destruct (merge_total data loc (location_query_len p) cur m Hloc Hl ltac:(lia) Hm Hd)
      as (data' & loc' & l' & -> & Hn' & Hb' & ? & ? & ?). mstep.
    eexists; split; [done|]. split; [|split; [by auto|split; [congruence|split; [done|cbn; lia]]]].
    constructor; try done. cbn. lens. }
  dif E10.
  { eexists; split; [done|]. split; [by right; right; right|]. split; [|cbn; by rewrite length_replicate].
    by constructor. }
  do 4 (dif E; [by apply Hsame|]; clear E).
  dif E11; [|by apply Hsame]. eexists; split; [done|]. split; [by right; right; left|].
  split; [|cbn; by rewrite length_replicate]. constructor; try done; apply list.Forall_nil_2.
Qed.

(** Enough fuel is what is left to read. *)
Lemma parse_loop_safe n fuel : forall p data loc cur number,
  loop_ok n p data loc cur -> len data - cur < Z.of_nat fuel ->
  exists r, parse_loop fuel p data (len data) loc cur number = Some r /\ outcome_ok (replicate n 0) r.
Proof.
  induction fuel as [|fuel IH]; intros p data loc cur number Hok Hf;
    pose proof Hok as (Hw & Hb & Hn & Hp & Hloc & Hl & Hc); [lia|]. cbn [parse_loop].
  assert (exists r, Some (exit_parse_error p data) = Some r /\ outcome_ok (replicate n 0) r) as Herr
    by (eexists; split; [done|by apply parse_error_ok]).
  dif E; [|eexists; split; [done|]; split; [by left|]; split; [done|]; cbn; by rewrite length_replicate].
  destruct (rd_Some data cur) as [b0 Hb0]; [lia|]. pose proof (rd_Forall is_byte _ _ _ Hb Hb0) as Hr. unfold is_byte in Hr.
  rewrite Hb0. mstep. dif E0.
  - dif E1; [done|]. unfold rd_bytes. guards. mstep. eexists; split; [done|]. split; [by left|].
    split; [|cbn; by rewrite length_replicate]. destruct Hw. constructor; try done. cbn.
    rewrite slice_length by lia. done.
  - rewrite shiftr_div, land_15 by lia. change (2 ^ 4) with 16.
    dif E1; [done|]. apply orb_false_iff in E1 as [Ed El].
    destruct (parse_extended_safe data cur (b0 / 16) Hb ltac:(lia) ltac:(dlia)) as ([[c1 d]|] & -> & H1); mstep; [|done].
    destruct (parse_extended_safe data c1 (b0 mod 16) Hb ltac:(lia) ltac:(dlia)) as ([[c2 m]|] & -> & H2); mstep; [|done].
    dif E2; [done|].
    destruct (set_option_total p (u32 (number + d)) (pw_wf p Hw) ltac:(apply (wrap_bound 32); lia)) as (o & -> & Hwf). mstep.
    destruct (parse_option_safe n (p <| p_options := o |>) data loc (c2 + 1) (u32 (number + d)) m) as (r & -> & Hs);
      [|lia|lia|]. { split; [destruct Hw; by constructor|]. split_and!; try done; cbn; lia. } mstep.
    destruct r as [r|q data' loc']; [by exists r|]. pose proof Hs as (_ & _ & Hn' & _).
    replace (len data) with (len data') by lia. apply IH; [done|lia].
Qed.
End safety.

Lemma parse_safe_ok `{Malloc} data :
  bytes data -> exists r, coap_parse_message data (len data) = Some r /\ outcome_ok data r.
Proof.
  intros Hb. unfold coap_parse_message, COAP_HEADER_LEN.
  assert (forall p, parsed_wf p -> exists r, Some (exit_parse_error p data) = Some r /\ outcome_ok data r) as Herr.
  { intros p Hp. eexists; split; [done|]. destruct (parse_error_ok (length data) p data Hp eq_refl) as (H1 & H2 & _).
    by split_and!. }
  dif E; [apply Herr, zero_parsed|].
  destruct data as [|b0 [|b1 [|b2 [|b3 data]]]]; [cbn in E; lia..|].
  repeat (rd_const; mstep).
  set (all := b0 :: b1 :: b2 :: b3 :: data) in *.
  match goal with |- context [negb (version ?q =? 1)] => set (p := q) end.
  assert (parsed_wf p) as Hp by (destruct zero_parsed; by constructor).
  dif E1; [eexists; split; [done|]; split; [by right; left|]; by split|].
  dif E2; [by apply Herr|]. dif E3; [by apply Herr|]. unfold COAP_TOKEN_LEN in E3.
  assert (0 <= token_len p <= 8) as Ht.
  { split; [|lia]. subst p. cbn. apply Z.land_nonneg. lia. }
  assert (forall q, parsed_wf q -> payload q = None -> location_query_len q = 0 -> 4 + token_len p <= len all ->
    exists r, parse_loop (S (Z.to_nat (len all))) q all (len all) 0 (4 + token_len p) 0 = Some r /\
      outcome_ok all r) as Hloop.
  { intros q Hq Hpl Hlq Hl. destruct (parse_loop_safe (length all) (S (Z.to_nat (len all))) q all 0 (4 + token_len p) 0)
      as (r & Hr & H1 & H2 & H3); [split_and!; try done; lia|lia|].
    exists r. split; [exact Hr|]. split_and!; try done. by rewrite H3, length_replicate. }
  dif E4.
  - dif E5; [by apply Herr|]. unfold rd_bytes. guards. mstep.
    pose proof (slice_length all 4 (token_len p) ltac:(lia) ltac:(lia) ltac:(lia)) as Hs.
    rewrite wr_bytes_Some by (change (token p) with (replicate 8 0); cbn [length replicate]; lia). mstep.
    match goal with |- context [SET_OPTION ?q _] => set (p1 := q) end.
    assert (parsed_wf p1) as Hp1.
    { destruct Hp as [Hpw ????????]. constructor; try done. destruct Hpw as (?&?&?&?&Htok&?). split_and!; try done.
      pose proof (patch_length (token p) 0 (slice all 4 (token_len p)) ltac:(lia)
        ltac:(change (token p) with (replicate 8 0); cbn [length replicate]; lia)).
      subst p1. cbn [token update]. lia. }
    destruct (set_option_total p1 COAP_OPTION_TOKEN (pw_wf _ Hp1) ltac:(done)) as (o & -> & Hwf). mstep.
    apply Hloop; [destruct Hp1; by constructor|done|done|lia].
  - apply Hloop; [done|done|done|lia].
Qed.

(** C3. Whatever the received bytes and the state of the heap, the parser
    terminates without leaving the [data_len] bytes it was given, returns one of
    its four statuses, and leaves a packet whose lengths and segments are inside
    what they measure. *)
Theorem coap_parse_safe `{Malloc} data :
  bytes data -> exists r, coap_parse_message data (len data) = Some r /\ outcome_ok data r.
Proof. apply parse_safe_ok. Qed.

Lemma coap_parse_safe_witness :
  exists r, @coap_parse_message (fun _ => false) [0x40; 1; 0; 1; 0x7E; 255] 6 = Some r /\
    outcome_ok [0x40; 1; 0; 1; 0x7E; 255] r.
Proof.
  apply (@coap_parse_safe (fun _ => false)).
  repeat first [apply list.Forall_nil_2 | apply list.Forall_cons_2]; done.
Defined.
(** ** Round trip *)

Lemma parse_int_loop_ok l : bytes l -> forall v,
  0 <= v -> v * 256 ^ len l + be_val l < 2 ^ 32 -> parse_int_loop l v = v * 256 ^ len l + be_val l.
Proof.
  intros Hl. induction Hl as [|b l Hb Hl IH]; intros v Hv Hb32; [unfold be_val; cbn; lia|].
  cbn [parse_int_loop]. rewrite be_val_cons in *. cbn [length] in *. rewrite Nat2Z.inj_succ, Z.pow_succ_r in * by lia.
  pose proof (be_val_bound l Hl). unfold is_byte in Hb.
  assert (1 <= 256 ^ len l) by (assert (0 < 256 ^ len l) by (apply Z.pow_pos_nonneg; lia); lia).
  rewrite shiftl_mul by lia. change (2 ^ 8) with 256. rewrite wrap_small by nia.
  change 256 with (2 ^ 8) at 1. rewrite lor_add by lia. rewrite IH by nia. lia.
Qed.

Lemma int_bytes_bytes n : bytes (int_bytes n).
Proof. unfold int_bytes. ifs; try apply be_bytes_bytes. apply list.Forall_nil_2. Qed.

Lemma int_bytes_val n : 0 <= n < 2 ^ 32 -> be_val (int_bytes n) = n.
Proof.
  intros Hn. unfold int_bytes. ifs; try (apply be_val_small; cbn; lia). unfold be_val. cbn. lia.
Qed.

Lemma parse_int_bytes n : 0 <= n < 2 ^ 32 -> parse_int_loop (int_bytes n) 0 = n.
Proof.
  intros Hn. rewrite parse_int_loop_ok; rewrite ?int_bytes_val by done; try lia. apply int_bytes_bytes.
Qed.

Lemma parse_int_16 n : 0 <= n < 2 ^ 16 -> parse_int_loop (int_bytes n) 0 = n.
Proof. intros. apply parse_int_bytes. lia. Qed.

Lemma two_bytes n : 0 <= n < 2 ^ 16 -> (2 <? len (int_bytes n)) = false.
Proof. intros. unfold int_bytes. ifs; rewrite ?be_bytes_length; cbn; lia. Qed.

(** The fields of a block option. *)
Lemma parse_block_ok b : block_ok b -> block_int (parse_block (block_int b)) = block_int b.
Proof.
  intros Hb. destruct (block_value_ok b Hb) as [_ Hr]. destruct Hb as [Hn Hs].
  set (s := Z.log2 (block_size b / 16)) in *.
  assert (0 <= s <= 7) as Hlog.
  { subst s. split; [apply Z.log2_nonneg|]. assert (Z.log2 (block_size b / 16) < 8); [|lia].
    apply Z.log2_lt_pow2; dlia. }
  unfold block_int, parse_block. cbn [block_num block_more block_size]. fold s.
  set (m := if negb (block_more b =? 0) then 8 else 0). assert (m = 0 \/ m = 8) as Hm by (subst m; ifs; lia).
  rewrite land_7. assert ((block_num b * 16 + m + s) mod 8 = s) as -> by dlia.
  change 8 with (2 ^ 3) at 1. rewrite land_pow2 by lia.
  rewrite !shiftr_div by lia. rewrite Z.shiftl_mul_pow2 by lia.
  rewrite (Z.mul_comm 16), Z.div_mul, Z.log2_pow2 by lia. change (2 ^ 4) with 16.
  assert ((block_num b * 16 + m + s) / 16 = block_num b) as -> by dlia.
  rewrite Z.testbit_odd, shiftr_div by lia. change (2 ^ 3) with 8.
  destruct Hm as [-> | ->].
  - assert ((block_num b * 16 + 0 + s) / 8 = 2 * block_num b) as -> by dlia. rewrite Z.odd_mul. cbn. change (0 / 8) with 0. cbn. lia.
  - assert ((block_num b * 16 + 8 + s) / 8 = 1 + 2 * block_num b) as -> by dlia. rewrite Z.odd_add_mul_2. cbn. change (8 / 8) with 1. cbn. lia.
Qed.
(** What does not depend on the options. *)
Definition same_header (p q : coap_packet_t) : Prop :=
  version q = version p /\ p_type q = p_type p /\ code q = code p /\ mid q = mid p /\ token_len q = token_len p /\
  token q = token p /\ payload q = payload p /\ payload_len q = payload_len p.

(** A packet being parsed: the repeatable options that are not set have no
    values. *)
Record fresh (p : coap_packet_t) : Prop := mk_fresh {
  fr_wf : packet_wf p;
  fr_accept : 0 <= accept_num p <= 2;
  fr_unset : forall k, k ∈ [8; 11; 15; 17] -> IS_OPTION p k = false -> values p k = [];
  fr_query : IS_OPTION p 20 = false -> location_query_len p = 0 }.

(** There is room for one more value of option [k]. *)
Definition has_room (p : coap_packet_t) (k : Z) : Prop :=
  k ∈ [8; 11; 15] \/ len (field p k) < (if k =? 17 then 2 else 1).

Lemma fresh_field p k : fresh p -> k ∈ [8; 11; 15; 17] -> field p k = values p k.
Proof. intros H Hk. unfold field. destruct (IS_OPTION p k) eqn:E; [done|]. symmetry. by apply (fr_unset p H). Qed.

Lemma single_room p k : has_room p k -> existsb (Z.eqb k) [8; 11; 15; 17] = false -> field p k = [].
Proof.
  cbn. intros [Hk|Hr] Hn; [set_unfold in Hk; lia|].
  rewrite (proj2 (Z.eqb_neq k 17)) in Hr by lia.
  destruct (field p k); [done|]. cbn [length] in Hr. lia.
Qed.

Lemma numbers_range k : k ∈ numbers -> 0 <= k < 40.
Proof. unfold numbers. intros Hk. set_unfold in Hk. lia. Qed.

(** After its bit, the value of option [k] is stored. *)
Definition stored (p q : coap_packet_t) (k : Z) (v : list Z) : Prop :=
  fresh q /\ same_header p q /\
  forall j, j ∈ numbers -> field q j = if j =? k then field p k ++ [v] else field p j.

Lemma stored_intro p q k v :
  fresh p -> k ∈ numbers ->
  (forall x, 0 <= x < 40 -> IS_OPTION q x = (x =? k) || IS_OPTION p x) ->
  packet_wf q -> 0 <= accept_num q <= 2 -> (k <> 20 -> location_query_len q = location_query_len p) ->
  same_header p q -> values q k = field p k ++ [v] ->
  (forall j, j ∈ numbers -> j <> k -> values q j = values p j) -> stored p q k v.
Proof.
  intros Hp Hk Ho Hw Ha Hq Hs Hv Hj. split; [|split; [done|]].
  - constructor; try done.
    + intros j Hj4. assert (j ∈ numbers) as Hjn by (clear -Hj4; unfold numbers; set_unfold; lia).
      rewrite Ho by (by apply numbers_range). intros [Ej Hi]%orb_false_iff.
      rewrite Hj by (done || lia). by apply (fr_unset p Hp).
    + rewrite Ho by done. intros [Ej Hi]%orb_false_iff. rewrite Hq by lia. by apply (fr_query p Hp).
  - intros j Hjn. unfold field at 1. rewrite Ho by (by apply numbers_range).
    destruct (j =? k) eqn:E; cbn [orb].
    + apply Z.eqb_eq in E as ->. exact Hv.
    + rewrite Hj by (done || lia). reflexivity.
Qed.

(** The options of the other numbers, one number at a time. *)
Ltac other_values :=
  let j := fresh "j" in let Hj := fresh "Hj" in let Hne := fresh "Hne" in
  intros j Hj Hne; unfold numbers in Hj; set_unfold in Hj;
  repeat (destruct Hj as [->|Hj]; [first [reflexivity|congruence]|]); done.

(** A packet whose option [k] has been stored in its field. *)
Ltac stored_by H := eexists _, _; split; [reflexivity|apply H; [reflexivity|first [done|by split_and!]|first [done|cbn; lia]|done|done| |other_values]].

Section roundtrip.
Context `{Malloc} (malloc_never_fails : forall n, malloc_ok n = true).

(** One more value of a repeatable option. *)
Lemma add_multi_ok l v :
  len v < 256 -> coap_add_multi_option l v (len v) 1 = Some (l ++ [mk_opt 1 (len v) v]) /\
    map opt_value (l ++ [mk_opt 1 (len v) v]) = map opt_value l ++ [v].
Proof.
  intros Hv. unfold coap_add_multi_option. rewrite malloc_never_fails. cbn [negb Z.eqb]. rewrite wrap_small by lia.
  split; [done|]. rewrite map_app. unfold opt_value at 2. cbn [map opt_len opt_data]. by rewrite Nat2Z.id, firstn_all.
Qed.

Lemma etag_ok old data cur v :
  length old = 8%nat -> len v <= 8 -> rd_bytes data cur (len v) = Some v ->
  exists b, parse_etag old data cur (len v) = Some (len v, b) /\ length b = 8%nat /\ take (Z.to_nat (len v)) b = v.
Proof.
  intros Ho Hv Hr. unfold parse_etag. rewrite Z.min_r, wrap_small, Hr by lia. mstep.
  pose proof (wr_bytes_app [] old 0 v eq_refl ltac:(lia)) as Hw. cbn [app] in Hw. rewrite Hw. mstep.
  eexists. split; [done|]. split; [lens|]. by rewrite Nat2Z.id, take_app_length.
Qed.

Lemma accept_ok p n :
  fresh p -> 0 <= n < 2 ^ 16 -> has_room p 17 ->
  exists a, wr (accept p) (accept_num p) (u16 n) = Some a /\ length a = 2%nat /\ accept_num p < 2 /\
    map int_bytes (take (Z.to_nat (accept_num p + 1)) a) = field p 17 ++ [int_bytes n].
Proof.
  intros Hp Hn Hroom. pose proof (fr_accept p Hp). destruct (fr_wf p Hp) as (_&_&_&_&_&Ha).
  rewrite (fresh_field p 17 Hp) by (set_unfold; tauto).
  change (values p 17) with (map int_bytes (take (Z.to_nat (accept_num p)) (accept p))).
  destruct Hroom as [Hr|Hr]; [set_unfold in Hr; lia|]. rewrite (fresh_field p 17 Hp) in Hr by (set_unfold; tauto).
  change (values p 17) with (map int_bytes (take (Z.to_nat (accept_num p)) (accept p))) in Hr.
  change (17 =? 17) with true in Hr. cbn match in Hr. rewrite length_map, length_take in Hr.
  rewrite wr_Some by lia. eexists. split; [done|]. split; [by rewrite length_insert|]. split; [lia|].
  rewrite (wrap_small 16) by lia. rewrite Z2Nat.inj_add by lia. change (Z.to_nat 1) with 1%nat. rewrite Nat.add_1_r.
  erewrite take_S_r by (apply list_lookup_insert_eq; lia). rewrite take_insert_ge by lia. by rewrite map_app.
Qed.

Lemma node_length l v : Forall node_ok l -> v ∈ map opt_value l -> len v < 256.
Proof.
  intros Hl Hv. apply list_elem_of_fmap in Hv as (x & -> & Hx). rewrite list.Forall_forall in Hl.
  destruct (Hl x Hx). unfold opt_value. lens.
Qed.

Lemma parse_option_ok p0 p o k v data loc cur :
  msg_ok p0 -> fresh p -> k ∈ numbers -> k <> 35 -> v ∈ values p0 k -> has_room p k ->
  packet_wf (p <| p_options := o |>) ->
  (forall x, 0 <= x < 40 -> IS_OPTION (p <| p_options := o |>) x = (x =? k) || IS_OPTION p x) ->
  IS_OPTION p0 k = true -> rd_bytes data cur (len v) = Some v ->
  exists q loc', parse_option (p <| p_options := o |>) data loc cur k (len v) = Some (Next q data loc') /\
    stored p q k v.
Proof.
  intros H0 Hp Hk H35 Hv Hroom Hwf Ho Hi Hrd.
  pose proof (fr_accept p Hp) as Hacc. pose proof Hwf as (W1 & W2 & W3 & W4 & W5 & W6).
  assert (coap_parse_int_option data cur (len v) = Some (parse_int_loop v 0)) as Hint
    by (unfold coap_parse_int_option; by rewrite Hrd).
  assert (existsb (Z.eqb k) [8; 11; 15; 17] = false -> field p k = []) as Hone by (by apply single_room).
  assert (existsb (Z.eqb k) [8; 11; 15] = true -> field p k = values p k) as Hmul.
  { intros Hm. apply fresh_field; [done|]. cbn in Hm. set_unfold. lia. }
  assert (forall q, p_options q = o -> packet_wf q -> 0 <= accept_num q <= 2 ->
    (k <> 20 -> location_query_len q = location_query_len p) ->
    same_header p q -> values q k = field p k ++ [v] ->
    (forall j, j ∈ numbers -> j <> k -> values q j = values p j) -> stored p q k v) as Hst.
  { intros q Hqo ??????. apply stored_intro; try done. intros x Hx. rewrite <- Ho by done. unfold IS_OPTION. by rewrite Hqo. }
  pose proof Hk as Hk'. unfold numbers in Hk'. set_unfold in Hk'.
  repeat (destruct Hk' as [->|Hk']); [..|done];
    try (specialize (Hone eq_refl); rewrite Hone in Hst); try (specialize (Hmul eq_refl); rewrite Hmul in Hst);
    cbn in Hv; unfold parse_option; opt_consts;
    cbn -[parse_int_loop parse_etag coap_add_multi_option coap_merge_multi_option length rd_bytes];
    rewrite ?Hint, ?Hrd; mstep; try (apply list_elem_of_singleton in Hv as ->);
    try congruence.
  - set (v := take _ _) in *. assert (len v <= 8) as Hl by (pose proof (ok_if_match p0 H0); subst v; lens).
    destruct (etag_ok (if_match p) data cur v W4 Hl Hrd) as (b & -> & Hb & Ht). mstep.
    stored_by Hst. cbn. by rewrite Ht.
  - stored_by Hst. done.
  - set (v := take _ _) in *. assert (len v <= 8) as Hl by (pose proof (ok_etag p0 H0); subst v; lens).
    destruct (etag_ok (etag p) data cur v W3 Hl Hrd) as (b & -> & Hb & Ht). mstep.
    stored_by Hst. cbn. by rewrite Ht.
  - stored_by Hst. done.
  - stored_by Hst. cbn. by rewrite (parse_int_bytes _ (ok_observe p0 H0)).
  - stored_by Hst. cbn. pose proof (ok_port p0 H0). rewrite parse_int_16, wrap_small by done. done.
  - destruct (ok_location p0 H0) as [Hn _]. destruct (add_multi_ok (location_path p) v) as [-> He]; [by eapply node_length|].
    mstep. stored_by Hst. exact He.
  - destruct (ok_path p0 H0) as [Hn _]. destruct (add_multi_ok (uri_path p) v) as [-> He]; [by eapply node_length|].
    mstep. stored_by Hst. exact He.
  - rewrite (two_bytes _ (ok_format p0 H0)). stored_by Hst. cbn. by rewrite (parse_int_16 _ (ok_format p0 H0)).
  - stored_by Hst. cbn. by rewrite (parse_int_bytes _ (ok_age p0 H0)).
  - destruct (ok_query p0 H0) as [Hn _]. destruct (add_multi_ok (uri_query p) v) as [-> He]; [by eapply node_length|].
    mstep. stored_by Hst. exact He.
  - apply list_elem_of_fmap in Hv as (n & -> & Hn).
    assert (0 <= n < 2 ^ 16) as Hr.
    { destruct (ok_accept p0 H0) as [_ Hc]. apply (Forall_take _ (Z.to_nat (accept_num p0))) in Hc.
      rewrite list.Forall_forall in Hc. by apply Hc. }
    rewrite (parse_int_16 n Hr). destruct (accept_ok p n Hp Hr Hroom) as (a & -> & Ha & Hlt & He).
    unfold COAP_MAX_ACCEPT_NUM. rewrite (proj2 (Z.ltb_lt _ _) Hlt). mstep. stored_by Hst. exact He.
  - assert (location_query_len p = 0) as ->.
    { apply (fr_query p Hp). unfold field in Hone. destruct (IS_OPTION p 20); [discriminate Hone|done]. }
    unfold coap_merge_multi_option. cbn match. mstep. stored_by Hst.
    cbn. unfold rd_bytes in Hrd. guard_in Hrd. injection Hrd as Hrd. unfold slice in Hrd. by rewrite Hrd.
  - destruct (block_value_ok _ (ok_block2 p0 H0 Hi)) as [_ Hr].
    rewrite parse_int_bytes by (clear -Hr; lia).     stored_by Hst. cbn. by rewrite parse_block_ok by (by apply H0).
  - destruct (block_value_ok _ (ok_block1 p0 H0 Hi)) as [_ Hr].
    rewrite parse_int_bytes by (clear -Hr; lia).     stored_by Hst. cbn. by rewrite parse_block_ok by (by apply H0).
  - stored_by Hst. cbn. by rewrite (parse_int_bytes _ (ok_size p0 H0)).
Qed.
(** The extended part of a delta or a length. *)
Lemma parse_extended_ok v pre rest cur :
  0 <= v <= MAX_EXT -> cur + 1 = len pre ->
  parse_extended (pre ++ ext_bytes v ++ rest) (len (pre ++ ext_bytes v ++ rest)) cur (coap_option_nibble v) =
    Some (Some (cur + len (ext_bytes v), v)).
Proof.
  unfold MAX_EXT, parse_extended, coap_option_nibble, ext_bytes. intros Hv Hc.
  destruct (269 <=? v) eqn:E1; [|destruct (13 <=? v) eqn:E2].
  - guards. cbn [Z.eqb]. cbn match. change (14 =? 13) with false. cbn match. rewrite be_bytes_2. cbn [app].
    set (h := (v - 269) / 256 mod 256). set (l := (v - 269) mod 256).
    guards. rewrite Hc, (rd_middle pre h (l :: rest) (len pre)) by done. mstep.
    replace (pre ++ h :: l :: rest) with ((pre ++ [h]) ++ l :: rest) by by rewrite <- app_assoc.
    guards. rewrite rd_middle by lens. mstep. rewrite shiftl_mul by lia. cbn [length].
    do 3 f_equal; [lia|]. subst h l. dlia.
  - guards. change (13 =? 13) with true. cbn match. cbn [app]. guards. rewrite Hc, rd_middle by done. mstep.
    cbn [length]. do 3 f_equal; lia.
  - guards. rewrite wrap_small by lia. guards. cbn [length]. do 3 f_equal; lia.
Qed.

(** One turn of the loop on a written option. *)
Lemma parse_one fuel p pre rest loc n k v :
  0 <= n -> 0 <= k - n <= MAX_EXT -> k < 2 ^ 32 -> len v <= MAX_EXT ->
  let data := pre ++ option_bytes (k - n) v ++ rest in
  parse_loop (S fuel) p data (len data) loc (len pre) n =
    (p ← SET_OPTION p k;
     r ← parse_option p data loc (len (pre ++ option_header (k - n) (len v))) k (len v);
     match r with
     | Stop r => ret r
     | Next p data' loc => parse_loop fuel p data' (len data) loc (len (pre ++ option_bytes (k - n) v)) k
     end).
Proof.
  intros Hn Hd Hk Hv data.
  assert (data = pre ++ (coap_option_nibble (k - n) * 16 + coap_option_nibble (len v)) ::
    ext_bytes (k - n) ++ ext_bytes (len v) ++ v ++ rest) as Hdata
    by (unfold data, option_bytes, option_header; cbn [app]; by rewrite <- !app_assoc).
  pose proof (nibble_bound (k - n) ltac:(lia)) as Hb1. pose proof (nibble_bound (len v) ltac:(lia)) as Hb2.
  assert (len data = len pre + 1 + len (ext_bytes (k - n)) + len (ext_bytes (len v)) + len v + len rest) as Hlen
    by (rewrite Hdata; lens).
  cbn [parse_loop]. guards.
  assert (rd data (len pre) = Some (coap_option_nibble (k - n) * 16 + coap_option_nibble (len v))) as ->
    by (rewrite Hdata; by apply rd_middle).
  mstep. guards. rewrite shiftr_div, land_15 by lia. change (2 ^ 4) with 16.
  assert ((coap_option_nibble (k - n) * 16 + coap_option_nibble (len v)) / 16 = coap_option_nibble (k - n)) as -> by dlia.
  assert ((coap_option_nibble (k - n) * 16 + coap_option_nibble (len v)) mod 16 = coap_option_nibble (len v)) as -> by dlia.
  guards.
  set (b0 := coap_option_nibble (k - n) * 16 + coap_option_nibble (len v)) in *.
  assert (parse_extended data (len data) (len pre) (coap_option_nibble (k - n)) =
    Some (Some (len pre + len (ext_bytes (k - n)), k - n))) as ->.
  { assert (data = (pre ++ [b0]) ++ ext_bytes (k - n) ++ ext_bytes (len v) ++ v ++ rest) as ->
      by (rewrite Hdata; by rewrite <- !app_assoc).
    apply parse_extended_ok; [done|lens]. }
  mstep.
  assert (parse_extended data (len data) (len pre + len (ext_bytes (k - n))) (coap_option_nibble (len v)) =
    Some (Some (len pre + len (ext_bytes (k - n)) + len (ext_bytes (len v)), len v))) as ->.
  { assert (data = (pre ++ [b0] ++ ext_bytes (k - n)) ++ ext_bytes (len v) ++ v ++ rest) as ->
      by (rewrite Hdata; by rewrite <- !app_assoc).
    apply parse_extended_ok; [lia|lens]. }
  mstep. replace (n + (k - n)) with k by lia. rewrite wrap_small by lia. guards.
  unfold option_bytes, option_header. rewrite !length_app. cbn [length]. rewrite length_app.
  destruct (SET_OPTION p k) as [p1|]; [|done]. mstep.
  replace (Z.of_nat (length pre + S (length (ext_bytes (k - n)) + length (ext_bytes (len v)))))
    with (len pre + len (ext_bytes (k - n)) + len (ext_bytes (len v)) + 1) by lia.
  destruct (parse_option _ _ _ _ _ _) as [[r|q d l]|]; [done| |done]. mstep. f_equal. lia.
Qed.
(** The values of option [k] in a list of options. *)
Definition vals (k : Z) (l : list (Z * list Z)) : list (list Z) :=
  flat_map (fun o => if fst o =? k then [snd o] else []) l.

Fixpoint ascending (n : Z) (l : list (Z * list Z)) : Prop :=
  match l with
  | [] => True
  | (k, _) :: l => n <= k /\ ascending k l
  end.

(** An option of the packet [p0]. *)
Definition option_in (p0 : coap_packet_t) (o : Z * list Z) : Prop :=
  fst o ∈ numbers /\ fst o <> 35 /\ snd o ∈ field p0 (fst o).

(** Room for all the values of a list of options. *)
Definition all_room (p : coap_packet_t) (l : list (Z * list Z)) : Prop :=
  forall k, k ∈ numbers -> k ∈ [8; 11; 15] \/ len (field p k) + len (vals k l) <= (if k =? 17 then 2 else 1).

Lemma value_length p k v : msg_ok p -> v ∈ field p k -> len v <= MAX_EXT.
Proof.
  intros Hp Hv. unfold field in Hv. destruct (IS_OPTION p k) eqn:Hi; [|set_unfold in Hv; done].
  unfold values in Hv.
  assert (forall n, 0 <= n < 2 ^ 32 -> v ∈ [int_bytes n] -> len v <= MAX_EXT) as Hint.
  { intros n Hn ->%list_elem_of_singleton. pose proof (int_bytes_length n Hn). unfold MAX_EXT. lia. }
  assert (forall n, 0 <= n < 2 ^ 16 -> v ∈ [int_bytes n] -> len v <= MAX_EXT) as Hint16
    by (intros n Hn; apply Hint; lia).
  assert (forall l, Forall node_ok l -> v ∈ map opt_value l -> len v <= MAX_EXT) as Hnode.
  { intros l Hl Hvl. pose proof (node_length l v Hl Hvl). unfold MAX_EXT. lia. }
  revert Hv.
  dif E; [intros Hv; apply list_elem_of_singleton in Hv as ->; pose proof (ok_if_match p Hp); unfold MAX_EXT; lens|]. clear E.
  dif E; [intros Hv; apply list_elem_of_singleton in Hv as ->; apply Hp|]. clear E.
  dif E; [intros Hv; apply list_elem_of_singleton in Hv as ->; pose proof (ok_etag p Hp); unfold MAX_EXT; lens|]. clear E.
  dif E; [intros Hv; apply list_elem_of_singleton in Hv as ->; unfold MAX_EXT; cbn; lia|]. clear E.
  dif E; [intros Hv; eapply Hint; [apply (ok_observe p Hp)|done]|]. clear E.
  dif E; [intros Hv; eapply Hint16; [apply (ok_port p Hp)|done]|]. clear E.
  dif E; [intros Hv; eapply Hnode; [apply (ok_location p Hp)|done]|]. clear E.
  dif E; [intros Hv; eapply Hnode; [apply (ok_path p Hp)|done]|]. clear E.
  dif E; [intros Hv; eapply Hint16; [apply (ok_format p Hp)|done]|]. clear E.
  dif E; [intros Hv; eapply Hint; [apply (ok_age p Hp)|done]|]. clear E.
  dif E; [intros Hv; eapply Hnode; [apply (ok_query p Hp)|done]|]. clear E.
  dif E.
  { intros Hv. apply list_elem_of_fmap in Hv as (n & -> & Hn). destruct (ok_accept p Hp) as [_ Ha].
    apply (Forall_take _ (Z.to_nat (accept_num p))) in Ha. rewrite list.Forall_forall in Ha.
    specialize (Ha n Hn). pose proof (int_bytes_length n ltac:(lia)). unfold MAX_EXT. lia. }
  dif E1.
  { intros Hv. apply Z.eqb_eq in E1 as ->. apply list_elem_of_singleton in Hv as ->.
    destruct (ok_location_query p Hp Hi) as (l & x & post & -> & -> & Hl & _).
    rewrite Nat2Z.id, take_app_length. exact Hl. }
  dif E2; [intros Hv; apply Z.eqb_eq in E2 as ->; eapply Hint; [|done]; destruct (block_value_ok _ (ok_block2 p Hp Hi)); lia|].
  dif E3; [intros Hv; apply Z.eqb_eq in E3 as ->; eapply Hint; [|done]; destruct (block_value_ok _ (ok_block1 p Hp Hi)); lia|].
  dif E4; [intros Hv; eapply Hint; [apply (ok_size p Hp)|done]|].
  dif E5; [intros Hv; apply list_elem_of_singleton in Hv as ->; apply Hp|]. intros Hv. set_unfold in Hv. done.
Qed.

Lemma parse_options_ok p0 rest : msg_ok p0 -> forall opts p pre loc n fuel,
  fresh p -> Forall (option_in p0) opts -> 0 <= n <= 40 -> ascending n opts -> all_room p opts ->
  let data := pre ++ enc_options n opts ++ rest in
  exists q loc',
    parse_loop (length opts + fuel) p data (len data) loc (len pre) n =
      parse_loop fuel q data (len data) loc' (len (pre ++ enc_options n opts)) (last_number n opts) /\
    fresh q /\ same_header p q /\ forall k, k ∈ numbers -> field q k = field p k ++ vals k opts.
Proof.
  intros H0 opts. induction opts as [|[k v] opts IH]; intros p pre loc n fuel Hp Hin Hn Hasc Hroom data.
  - exists p, loc. cbn [enc_options length Nat.add]. rewrite app_nil_r. split; [done|]. split; [done|].
    split; [done|]. intros k _. cbn. by rewrite app_nil_r.
  - apply list.Forall_cons_1 in Hin as [(Hk & H35 & Hv) Hin]. cbn [fst snd] in *.
    destruct Hasc as [Hnk Hasc]. pose proof (numbers_range k Hk) as Hk40.
    pose proof (value_length p0 k v H0 Hv) as Hlv.
    assert (IS_OPTION p0 k = true /\ v ∈ values p0 k) as [Hi Hv'].
    { unfold field in Hv. destruct (IS_OPTION p0 k); [done|set_unfold in Hv; done]. }
    assert (data = pre ++ option_bytes (k - n) v ++ enc_options k opts ++ rest) as Hdata
      by (unfold data; cbn [enc_options]; by rewrite <- !app_assoc).
    cbn [length Nat.add].
    pose proof (parse_one (length opts + fuel) p pre (enc_options k opts ++ rest) loc n k v ltac:(lia)
      ltac:(unfold MAX_EXT; lia) ltac:(lia) Hlv) as Hone.
    cbv zeta in Hone. rewrite <- Hdata in Hone. rewrite Hone. clear Hone.
    destruct (set_option_ok p k (fr_wf p Hp) Hk40) as (o & -> & Hol & Hob & Hox). mstep.
    assert (has_room p k) as Hr.
    { destruct (Hroom k Hk) as [Hm|Hm]; [by left|right]. unfold vals in Hm. cbn [flat_map fst snd] in Hm.
      rewrite Z.eqb_refl in Hm. cbn [app length] in Hm. lia. }
    destruct (parse_option_ok p0 p o k v data loc (len (pre ++ option_header (k - n) (len v))))
      as (q & loc1 & -> & Hq & Hs & Hf); try done.
    { by apply wf_set_options; [apply Hp| |]. }
    { rewrite Hdata. unfold option_bytes. rewrite <- app_assoc, (app_assoc pre). by apply rd_bytes_app. }
    mstep. rewrite Hdata, (app_assoc pre).
    destruct (IH q (pre ++ option_bytes (k - n) v) loc1 k fuel) as (q' & loc' & -> & Hq' & Hs' & Hf'); try done; [lia| |].
    { intros j Hj. destruct (Hroom j Hj) as [Hm|Hm]; [by left|right]. rewrite (Hf j Hj).
      unfold vals in Hm. cbn [flat_map fst snd] in Hm. rewrite (Z.eqb_sym k j) in Hm.
      destruct (j =? k) eqn:E; cbn [app length] in Hm; [apply Z.eqb_eq in E as ->; rewrite length_app; cbn [length]; unfold vals; lia|exact Hm]. }
    exists q', loc'. split; [|split; [done|split]].
    + cbn [enc_options last_number foldl fst]. by rewrite <- !app_assoc.
    + unfold same_header in *. intuition congruence.
    + intros j Hj. rewrite (Hf' j Hj), (Hf j Hj). unfold vals. cbn [flat_map fst snd]. rewrite (Z.eqb_sym k j).
      destruct (j =? k) eqn:E; [apply Z.eqb_eq in E as ->; by rewrite <- app_assoc|done].
Qed.
End roundtrip.

(** *** The options of a whole packet *)

Lemma ascending_le n m l : n <= m -> ascending m l -> ascending n l.
Proof. destruct l as [|[k v] l]; cbn; [done|]. intros ? [? ?]. split; [lia|done]. Qed.

Lemma ascending_repeat k vs l n : n <= k -> ascending k l -> ascending n (map (pair k) vs ++ l).
Proof.
  intros Hn Hl. revert n Hn. induction vs as [|v vs IH]; intros n Hn; cbn; [by eapply ascending_le|].
  split; [done|]. apply IH. lia.
Qed.

Lemma ascending_flat (f : Z -> list (list Z)) ks : StronglySorted Z.le ks -> forall n,
  Forall (fun k => n <= k) ks -> ascending n (flat_map (fun k => map (pair k) (f k)) ks).
Proof.
  induction 1 as [|k ks Hs IH Hk]; intros n Hn; [done|]. cbn [flat_map].
  apply list.Forall_cons_1 in Hn as [? ?]. apply ascending_repeat; [done|]. by apply IH.
Qed.

Lemma vals_app k l1 l2 : vals k (l1 ++ l2) = vals k l1 ++ vals k l2.
Proof. unfold vals. apply flat_map_app. Qed.

Lemma vals_repeat j k vs : vals j (map (pair k) vs) = if k =? j then vs else [].
Proof.
  unfold vals. induction vs as [|v vs IH]; cbn [map flat_map fst snd]; [by destruct (k =? j)|].
  rewrite IH. by destruct (k =? j).
Qed.

Lemma vals_flat (f : Z -> list (list Z)) j ks : NoDup ks ->
  vals j (flat_map (fun k => map (pair k) (f k)) ks) = if existsb (Z.eqb j) ks then f j else [].
Proof.
  induction 1 as [|k ks Hk Hd IH]; [done|]. cbn [flat_map existsb]. rewrite vals_app, vals_repeat, IH.
  rewrite (Z.eqb_sym k j). destruct (j =? k) eqn:E; [|done]. apply Z.eqb_eq in E as ->. cbn [orb].
  destruct (existsb (Z.eqb k) ks) eqn:Ex; [|by rewrite app_nil_r].
  apply existsb_exists in Ex as (x & Hx & ->%Z.eqb_eq). exfalso. by apply Hk, list_elem_of_In.
Qed.

Lemma numbers_sorted : StronglySorted Z.le numbers.
Proof.
  unfold numbers. repeat (apply SSorted_cons; [|repeat first [apply list.Forall_nil_2|apply list.Forall_cons_2; [lia|]]]).
  apply SSorted_nil.
Qed.

Lemma vals_options p k : k ∈ numbers -> vals k (options_of p) = field p k.
Proof.
  intros Hk. unfold options_of. rewrite vals_flat by (by apply (bool_decide_unpack _)).
  assert (existsb (Z.eqb k) numbers = true) as ->; [|done].
  apply existsb_exists. exists k. split; [by apply list_elem_of_In|apply Z.eqb_refl].
Qed.

Lemma options_ascending p : ascending 0 (options_of p).
Proof.
  apply ascending_flat; [apply numbers_sorted|].
  unfold numbers. repeat first [apply list.Forall_nil_2|apply list.Forall_cons_2; [lia|]].
Qed.

Lemma options_in p : IS_OPTION p COAP_OPTION_PROXY_URI = false -> Forall (option_in p) (options_of p).
Proof.
  intros Hpr. apply list.Forall_forall. intros [k v] Ho. unfold options_of in Ho.
  apply list_elem_of_In, in_flat_map in Ho as (k' & Hk & Ho). apply in_map_iff in Ho as (v' & He & Hv).
  injection He as -> ->. split_and!; cbn [fst snd]; [by apply list_elem_of_In| |by apply list_elem_of_In].
  intros ->. unfold field in Hv. change 35 with COAP_OPTION_PROXY_URI in Hv. by rewrite Hpr in Hv.
Qed.

Lemma options_room p q : msg_ok p -> (forall k, k ∈ numbers -> field q k = []) -> all_room q (options_of p).
Proof.
  intros Hp Hq k Hk. rewrite (Hq k Hk), vals_options by done.
  destruct (existsb (Z.eqb k) [8; 11; 15]) eqn:E; [left; cbn in E; set_unfold; lia|right].
  destruct (ok_accept p Hp) as [Ha _]. unfold field. destruct (IS_OPTION p k); [|cbn; ifs; lia].
  unfold numbers in Hk. set_unfold in Hk. repeat (destruct Hk as [->|Hk]); [..|done]; try discriminate E; cbn; try lia.
  rewrite length_map, length_take. lia.
Qed.

Lemma enc_options_room n l : (length l <= length (enc_options n l))%nat.
Proof.
  revert n. induction l as [|[k v] l IH]; intros n; [done|]. cbn [enc_options length].
  specialize (IH k). unfold option_bytes, option_header. rewrite !length_app. cbn [length]. lia.
Qed.

(** *** Whole messages *)

(** The result [r] has the content of the packet [p]. *)
Definition reads_back (p : coap_packet_t) (r : parsed) : Prop :=
  status r = NO_ERROR /\ p_type (packet r) = p_type p /\ code (packet r) = code p /\ mid (packet r) = mid p /\
  token_len (packet r) = token_len p /\
  take (Z.to_nat (token_len p)) (token (packet r)) = take (Z.to_nat (token_len p)) (token p) /\
  options_of (packet r) = options_of p /\ payload_bytes (packet r) = payload_bytes p /\ received r = message_bytes p.

Lemma parse_payload `{Malloc} fuel p q pre loc n :
  msg_ok p -> payload q = None -> payload_len q = 0 ->
  let data := pre ++ payload_bytes p in
  exists r, parse_loop (S fuel) q data (len data) loc (len pre) n = Some r /\ status r = NO_ERROR /\
    received r = data /\ payload_bytes (packet r) = payload_bytes p /\
    exists b m, packet r = q <| payload := b |> <| payload_len := m |>.
Proof.
  intros Hp Hq Hq0 data. pose proof (ok_payload p Hp) as Hpl. unfold payload_bytes in data. cbn [parse_loop].
  destruct (payload_len p =? 0) eqn:E.
  - subst data. rewrite app_nil_r. guards. eexists. split; [done|]. unfold payload_bytes. rewrite E. cbn [packet].
    rewrite Hq0. split_and!; try done. exists (payload q), (payload_len q). by destruct q.
  - destruct (payload p) as [b|] eqn:Ep; [|lia]. set (d := take (Z.to_nat (payload_len p)) b) in *.
    assert (len d = payload_len p) as Hd by (subst d; lens).
    assert (len data = len pre + 1 + len d) as Hl by (subst data; lens).
    guards. unfold data. rewrite rd_middle by done. mstep. fold data. change (255 =? 255) with true. cbn match.
    guards. replace (len data - (len pre + 1)) with (len d) by lia.
    assert (data = (pre ++ [255]) ++ d ++ []) as Hdata by (subst data; rewrite app_nil_r; by rewrite <- app_assoc).
    assert (rd_bytes data (len pre + 1) (len d) = Some d) as -> by (rewrite Hdata; apply rd_bytes_app; lens).
    mstep. eexists. split; [done|]. cbn [status received packet]. split; [done|]. split; [done|]. split; [|by do 2 eexists].
    unfold payload_bytes. cbn [payload payload_len update]. rewrite E, Ep, Hd.
    change (payload_len q <| payload := Some d |> <| payload_len := payload_len p |>) with (payload_len p). rewrite E.
    change (payload q <| payload := Some d |> <| payload_len := payload_len p |>) with (Some d). cbn match. fold d.
    f_equal. rewrite <- Hd, Nat2Z.id. apply firstn_all.
Qed.

(** The options and the payload, from a packet with no option. *)
Lemma parse_body `{Malloc} (malloc_never_fails : forall n, malloc_ok n = true) p q pre :
  msg_ok p -> IS_OPTION p COAP_OPTION_PROXY_URI = false ->
  fresh q -> (forall k, k ∈ numbers -> field q k = []) -> payload q = None -> payload_len q = 0 ->
  pre ++ enc_options 0 (options_of p) ++ payload_bytes p = message_bytes p ->
  exists r, parse_loop (S (length (message_bytes p))) q (message_bytes p) (len (message_bytes p)) 0 (len pre) 0 = Some r /\
    status r = NO_ERROR /\ received r = message_bytes p /\ payload_bytes (packet r) = payload_bytes p /\
    options_of (packet r) = options_of p /\
    p_type (packet r) = p_type q /\ code (packet r) = code q /\ mid (packet r) = mid q /\
    token_len (packet r) = token_len q /\ token (packet r) = token q.
Proof.
  intros Hp Hpr Hq Hf Hpay Hlen Hdata. pose proof (enc_options_room 0 (options_of p)) as Hroom.
  assert (length (message_bytes p) = length (options_of p) + (length (message_bytes p) - length (options_of p)))%nat as Hfuel
    by (rewrite <- Hdata; lens).
  destruct (parse_options_ok malloc_never_fails p (payload_bytes p) Hp (options_of p) q pre 0 0
    (S (length (message_bytes p) - length (options_of p))) Hq (options_in p Hpr) ltac:(lia) (options_ascending p)
    (options_room p q Hp Hf)) as (q' & loc' & Hl & Hq' & Hs & Hf').
  rewrite Hdata, Nat.add_succ_r, <- Hfuel in Hl. rewrite Hl.
  destruct Hs as (S1 & S2 & S3 & S4 & S5 & S6 & S7 & S8).
  destruct (parse_payload (length (message_bytes p) - length (options_of p)) p q' (pre ++ enc_options 0 (options_of p)) loc'
    (last_number 0 (options_of p)) Hp ltac:(congruence) ltac:(congruence)) as (r & Hr & H1 & H2 & H3 & b & m & H4).
  rewrite <- app_assoc, Hdata in Hr, H2.
  exists r. split; [exact Hr|]. split; [done|]. split; [exact H2|]. split; [done|]. rewrite H4. split; [|by split_and!].
  change (options_of (q' <| payload := b |> <| payload_len := m |>)) with (options_of q').
  unfold options_of. rewrite !flat_map_concat_map. f_equal. apply map_ext_in. intros k Hk%list_elem_of_In.
  by rewrite (Hf' k Hk), (Hf k Hk), vals_options.
Qed.

Lemma header_fields t n :
  0 <= n <= 8 -> Z.shiftr (Z.land 0xC0 (64 + type_num t * 16 + n)) 6 = 1 /\
    type_of_num (Z.shiftr (Z.land 0x30 (64 + type_num t * 16 + n)) 4) = t /\
    Z.land 0x0F (64 + type_num t * 16 + n) = n.
Proof.
  intros Hn.
  pose proof (range_cases 9 (fun n => (Z.shiftr (Z.land 0xC0 (64 + type_num t * 16 + n)) 6 =? 1) &&
    bool_decide (type_of_num (Z.shiftr (Z.land 0x30 (64 + type_num t * 16 + n)) 4) = t) &&
    (Z.land 0x0F (64 + type_num t * 16 + n) =? n))) as H.
  specialize (H ltac:(by destruct t) n ltac:(lia)). rewrite !andb_true_iff, bool_decide_eq_true in H.
  destruct H as [[H1 H2] H3]. split_and!; [lia|done|lia].
Qed.

(** The packet that the header and the token leave, before the options. *)
Lemma parse_header `{Malloc} p q (fuel := S (length (message_bytes p))) :
  msg_ok p -> code p <> 0 \/ len (message_bytes p) = 4 ->
  q = zero_packet <| version := 1 |> <| p_type := p_type p |> <| token_len := token_len p |> <| code := code p |>
        <| mid := mid p |> ->
  exists t o, take (Z.to_nat (token_len p)) t = take (Z.to_nat (token_len p)) (token p) /\
    packet_wf (q <| token := t |> <| p_options := o |>) /\
    (forall x, 0 <= x < 40 -> x <> 19 -> IS_OPTION (q <| token := t |> <| p_options := o |>) x = IS_OPTION q x) /\
    coap_parse_message (message_bytes p) (len (message_bytes p)) =
      parse_loop fuel (q <| token := t |> <| p_options := o |>) (message_bytes p) (len (message_bytes p)) 0
        (4 + token_len p) 0.
Proof.
  intros Hp Hcode Hqe. pose proof (ok_token p Hp) as Htok. pose proof (message_length p Hp) as Hlen.
  pose proof (ok_mid p Hp) as Hmid. pose proof (ok_payload p Hp) as Hpay.
  destruct (ok_wf p Hp) as (_ & _ & _ & _ & Ht & _).
  assert (4 + token_len p <= len (message_bytes p)) as Hroom.
  { destruct (payload p); destruct (payload_len p =? 0); lia. }
  unfold coap_parse_message. replace (S (Z.to_nat (len (message_bytes p)))) with fuel by (subst fuel; lia).
  clearbody fuel. unfold COAP_HEADER_LEN, COAP_TOKEN_LEN in *. guards.
  set (n := len (message_bytes p)) in *. unfold message_bytes. cbn [app].
  repeat (rd_const; mstep).
  destruct (header_fields (p_type p) (token_len p) Htok) as (-> & -> & ->).
  assert (Z.lor (Z.shiftl (mid p / 256) 8) (mid p mod 256) = mid p) as ->.
  { rewrite shiftl_mul by lia. rewrite lor_add by (dlia || lia). dlia. }
  rewrite <- Hqe. change (_ :: code p :: _) with (message_bytes p).
  assert (token_len q = token_len p) as Hqt by by rewrite Hqe.
  assert (token q = replicate 8 0) as Hqk by by rewrite Hqe.
  assert (packet_wf q) as Hqw by (rewrite Hqe; apply zero_packet_wf).
  assert ((code q =? 0) && (4 <? n) = false) as -> by (rewrite Hqe; change (code _) with (code p); lia).
  assert (version q = 1) as -> by by rewrite Hqe. clear Hqe Hcode. rewrite !Hqt.
  cbn [negb Z.eqb Pos.eqb]. guards. destruct (token_len p =? 0) eqn:E; cbn [negb].
  - exists (token q), (p_options q). assert (token_len p = 0) as -> by lia. by destruct q.
  - assert (rd_bytes (message_bytes p) 4 (token_len p) = Some (take (Z.to_nat (token_len p)) (token p))) as ->.
    { unfold message_bytes. apply rd_bytes_app; [done|]. lens. }
    mstep. rewrite Hqk. set (t := take (Z.to_nat (token_len p)) (token p)).
    assert (len t = token_len p) as Htl by (subst t; lens).
    pose proof (wr_bytes_app [] (replicate 8 0) 0 t eq_refl ltac:(change (len (replicate 8 0)) with 8; lia)) as Hw.
    cbn [app] in Hw. rewrite Hw. mstep. clear Hw. set (t8 := t ++ drop (length t) (replicate 8 0)).
    assert (length t8 = 8%nat) as Ht8 by (subst t8; rewrite length_app, length_drop, length_replicate; lia).
    assert (packet_wf (q <| token := t8 |>)) as Hqw8 by (destruct Hqw as (?&?&?&?&_&?); by split_and!).
    destruct (set_option_ok _ COAP_OPTION_TOKEN Hqw8 ltac:(done)) as (o & -> & Hol & Hob & Hox). mstep.
    exists t8, o. split; [|split; [by apply wf_set_options|split; [|by rewrite <- Hqt]]].
    + subst t8. by rewrite <- Htl, Nat2Z.id, take_app_length.
    + intros x Hx H19. rewrite Hox by done. unfold COAP_OPTION_TOKEN. by rewrite (proj2 (Z.eqb_neq x 19)).
Qed.

Lemma message_parsed `{Malloc} p :
  (forall n, malloc_ok n = true) -> msg_ok p -> IS_OPTION p COAP_OPTION_PROXY_URI = false ->
  code p <> 0 \/ len (message_bytes p) = 4 ->
  exists r, coap_parse_message (message_bytes p) (len (message_bytes p)) = Some r /\ reads_back p r.
Proof.
  intros Hm Hp Hpr Hcode.
  destruct (parse_header p _ Hp Hcode eq_refl) as (t & o & Ht & Hwf & Hox & ->).
  set (q := zero_packet <| version := 1 |> <| p_type := p_type p |> <| token_len := token_len p |> <| code := code p |>
    <| mid := mid p |> <| token := t |> <| p_options := o |>) in *.
  assert (forall k, k ∈ numbers -> IS_OPTION q k = false) as Hq0.
  { intros k Hk. rewrite Hox by (first [by apply numbers_range|intros ->; unfold numbers in Hk; set_unfold in Hk; lia]).
    unfold numbers in Hk. set_unfold in Hk. repeat (destruct Hk as [->|Hk]); done. }
  assert (fresh q) as Hf.
  { constructor; [exact Hwf|subst q; cbn; lia| |done]. intros k Hk _. set_unfold in Hk.
    repeat (destruct Hk as [->|Hk]); done. }
  destruct (ok_wf p Hp) as (_ & _ & _ & _ & Htok & _). pose proof (ok_token p Hp).
  set (pre := [64 + type_num (p_type p) * 16 + token_len p; code p; mid p / 256; mid p mod 256] ++
    take (Z.to_nat (token_len p)) (token p)).
  destruct (parse_body Hm p q pre Hp Hpr Hf) as (r & Hr & H1 & H2 & H3 & H4 & H5 & H6 & H7 & H8 & H9).
  - intros k Hk. unfold field. by rewrite (Hq0 k Hk).
  - done.
  - done.
  - unfold pre, message_bytes. by rewrite <- app_assoc.
  - exists r. split; [|unfold reads_back; rewrite H5, H6, H7, H8, H9; by split_and!].
    rewrite <- Hr. f_equal. subst pre. cbn [app length]. rewrite length_take. lia.
Qed.


End CoapParse.
