(* ===== verification/Transaction.v ===== *)
(** * CoAP transactions (coap/transaction.c)

    The confirmable messages that wait for an answer: their retransmission, the
    matching of answers, and their end.

    The platform supplies the clock, the comparison of sessions and the sending
    of datagrams; the callbacks belong to the clients of this component.  [sent]
    and [called] record, in order, the datagrams handed to [lwm2m_buffer_send]
    and the calls of callbacks.  A pointer to a transaction is its [mID]: the
    list has no two transactions with the same one.  Reading a transaction that
    is no longer in the list is undefined. *)
From S2P Require Import Prelude Types SortedList Numeric Uri CoapPacket CoapMessage CoapOptions CoapSerialize.
Import SortedList Numeric Uri CoapPacket CoapMessage CoapOptions CoapSerialize.

(** The comparison of sessions, with the user data of the context applied. *)
Class Sessions (Session : Type) := lwm2m_session_is_equal : Session -> Session -> bool.

Module Transaction.

(** ** State *)

Definition COAP_RESPONSE_TIMEOUT : Z := 2.
Definition COAP_MAX_RETRANSMIT : Z := 4.
Definition COAP_SEPARATE_TIMEOUT : Z := 15.
Definition COAP_401_UNAUTHORIZED : Z := 129.
Definition LWM2M_STRING_ID_MAX_LEN : Z := 6.

(** [CB] and [U] stand for the pointers to callbacks and to user data. *)
Record lwm2m_transaction_t (Session CB U : Type) := mk_transaction {
  mID : Z;
  peerH : Session;
  ack_received : bool;
  retrans_counter : Z;
  retrans_time : Z;
  message : coap_packet_t;
  buffer_len : Z;
  buffer : option (list Z);
  transac_payload_len : Z;
  transac_payload : option (list Z);
  callback : option CB;
  userData : option U }.
Arguments mk_transaction {Session CB U}.
Arguments mID {Session CB U}.
Arguments peerH {Session CB U}.
Arguments ack_received {Session CB U}.
Arguments retrans_counter {Session CB U}.
Arguments retrans_time {Session CB U}.
Arguments message {Session CB U}.
Arguments buffer_len {Session CB U}.
Arguments buffer {Session CB U}.
Arguments transac_payload_len {Session CB U}.
Arguments transac_payload {Session CB U}.
Arguments callback {Session CB U}.
Arguments userData {Session CB U}.
#[export] Instance transaction_rebuild {Session CB U} : Rebuild (lwm2m_transaction_t Session CB U) := fun t =>
  mk_transaction (mID t) (peerH t) (ack_received t) (retrans_counter t) (retrans_time t) (message t)
    (buffer_len t) (buffer t) (transac_payload_len t) (transac_payload t) (callback t) (userData t).
#[export] Instance transaction_node {Session CB U} : ListNode (lwm2m_transaction_t Session CB U) := mID.

(** The context; [rest] is what other components keep in it. *)
Record lwm2m_context_t (Session CB U W : Type) := mk_context {
  transactionList : list (lwm2m_transaction_t Session CB U);
  nextMID : Z;
  sent : list (Session * list Z);
  called : list (Z * option coap_packet_t);
  rest : W }.
Arguments mk_context {Session CB U W}.
Arguments transactionList {Session CB U W}.
Arguments nextMID {Session CB U W}.
Arguments sent {Session CB U W}.
Arguments called {Session CB U W}.
Arguments rest {Session CB U W}.
#[export] Instance context_rebuild {Session CB U W} : Rebuild (lwm2m_context_t Session CB U W) := fun c =>
  mk_context (transactionList c) (nextMID c) (sent c) (called c) (rest c).

(** What a callback does to the context. *)
Class Callbacks (Session CB U W : Type) :=
  run_callback : CB -> lwm2m_context_t Session CB U W -> lwm2m_transaction_t Session CB U ->
    option coap_packet_t -> lwm2m_context_t Session CB U W.

Section operations.
Context {Session CB U W : Type} `{HM : Malloc, HS : Sessions Session, HC : Callbacks Session CB U W, HU : EqDecision U}.
(** The content of allocated memory and the status of [lwm2m_buffer_send]. *)
Context (junk : Z -> list Z) (lwm2m_buffer_send : Session -> list Z -> Z).
Abbreviation transaction := (lwm2m_transaction_t Session CB U).
Abbreviation context := (lwm2m_context_t Session CB U W).
Implicit Types (t transacP : transaction) (contextP : context).

(** A datagram is sent. *)
Definition send (contextP : context) (sessionH : Session) (data : list Z) : context :=
  contextP <| sent := sent contextP ++ [(sessionH, data)] |>.

(** [transacP->callback(contextP, transacP, message)] when there is one. *)
Definition call (contextP : context) (transacP : transaction) (m : option coap_packet_t) : context :=
  match callback transacP with
  | Some f => run_callback f (contextP <| called := called contextP ++ [(mID transacP, m)] |>) transacP m
  | None => contextP
  end.

(** Writing the fields of a transaction of the list. *)
Definition store (contextP : context) (transacP : transaction) : context :=
  contextP <| transactionList :=
    map (fun t => if mID t =? mID transacP then transacP else t) (transactionList contextP) |>.

(** ** Creation *)

Definition prv_checkFinished (transacP : transaction) (receivedMessage : coap_packet_t) : bool :=
  let transactionMessage := message transacP in
  let same_mid := mid transactionMessage =? mid receivedMessage in
  if same_mid && (COAP_DELETE <? code transactionMessage) then ack_received transacP
  else if same_mid && negb (IS_OPTION transactionMessage COAP_OPTION_TOKEN) then ack_received transacP
  else if (code transactionMessage <=? COAP_DELETE) && IS_OPTION transactionMessage COAP_OPTION_TOKEN then
    let '(l, tok) := coap_get_header_token receivedMessage in
    (token_len transactionMessage =? l) &&
    bool_decide (take (Z.to_nat l) (token transactionMessage) = take (Z.to_nat l) (default [] tok))
  else false.

(** Sizes of the structures on a 64-bit target. *)
Definition SIZEOF_TRANSACTION : Z := 96.
Definition SIZEOF_COAP_PACKET : Z := 216.

(** One identifier of the URI, as a path segment; [None] is [goto error]. *)
Definition add_id (m : coap_packet_t) (id : Z) : C (option coap_packet_t) :=
  '(result, stringID) ← utils_intToText id (junk LWM2M_STRING_ID_MAX_LEN) LWM2M_STRING_ID_MAX_LEN;
  let result := s32 result in
  if result =? 0 then ret None
  else
    stringID ← wr stringID result 0;
    '(_, m) ← coap_set_header_uri_path_segment m (Some stringID);
    ret (Some m).

(** The identifiers that are set, outermost first. *)
Fixpoint add_ids (m : coap_packet_t) (ids : list Z) : C (option coap_packet_t) :=
  match ids with
  | [] => ret (Some m)
  | id :: ids =>
      if id =? LWM2M_MAX_ID then ret (Some m)
      else
        r ← add_id m id;
        match r with
        | Some m => add_ids m ids
        | None => ret None
        end
  end.

(** [tv_sec] is the result of [lwm2m_gettime]; [tail] are the last two bytes of
    the generated token, which are not initialized. *)
Definition transaction_new (tv_sec : Z) (tail : list Z) (sessionH : option Session) (method : Z)
    (altPath : option (list Z)) (uriP : option lwm2m_uri_t) (mid_ token_len : Z) (token : option (list Z))
    : C (option transaction) :=
  match sessionH with
  | None => ret None
  | Some sessionH =>
    if negb (malloc_ok SIZEOF_TRANSACTION) then ret None
    else if negb (malloc_ok SIZEOF_COAP_PACKET) then ret None
    else
      let m := coap_init_message COAP_TYPE_CON method mid_ in
      m ← (match altPath with
           | Some p => '(_, m) ← coap_set_header_uri_path_segment m (Some (drop 1 p)); ret m
           | None => ret m
           end);
      r ← (match uriP with
           | Some u => add_ids m [objectId u; instanceId u; resourceId u; resourceInstanceId u]
           | None => ret (Some m)
           end);
      match r with
      | None => ret None
      | Some m =>
          m ← (if 0 <? token_len then
                 match token with
                 | Some tok => '(_, m) ← coap_set_header_token m tok token_len; ret m
                 | None =>
                     let temp_token := [u8 mid_; u8 (Z.shiftr mid_ 8); u8 tv_sec; u8 (Z.shiftr tv_sec 8);
                                        u8 (Z.shiftr tv_sec 16); u8 (Z.shiftr tv_sec 24)] ++ tail in
                     '(_, m) ← coap_set_header_token m temp_token token_len; ret m
                 end
               else ret m);
          ret (Some (mk_transaction mid_ sessionH false 0 0 m 0 None 0 None None None))
      end
  end.

(** ** End *)

Definition transaction_remove (contextP : context) (transacP : transaction) : context :=
  contextP <| transactionList := fst (lwm2m_list_remove (transactionList contextP) (mID transacP)) |>.

(** The callback, then the removal of the transaction, which the callback must
    have left in the list. *)
Definition finish (contextP : context) (transacP : transaction) (m : option coap_packet_t) : C context :=
  let contextP := call contextP transacP m in
  transacP ← lwm2m_list_find (transactionList contextP) (mID transacP);
  ret (transaction_remove contextP transacP).

(** [message_send] of packet.c: the status and the context. *)
Definition message_send (contextP : context) (m : coap_packet_t) (sessionH : Session) : C (Z * context) :=
  let allocLen := coap_serialize_get_size m in
  if allocLen =? 0 then ret (COAP_500_INTERNAL_SERVER_ERROR, contextP)
  else if malloc_ok allocLen then
    '(pktBufferLen, pktBuffer, _) ← coap_serialize_message m (junk allocLen);
    if negb (pktBufferLen =? 0) then
      data ← rd_bytes pktBuffer 0 pktBufferLen;
      ret (lwm2m_buffer_send sessionH data, send contextP sessionH data)
    else ret (COAP_500_INTERNAL_SERVER_ERROR, contextP)
  else ret (COAP_500_INTERNAL_SERVER_ERROR, contextP).

(** ** Answers *)

(** The body of the loop of [transaction_handleResponse] for one transaction of
    the peer; [None] when the search goes on.  [response] tells whether the
    argument is not a null pointer. *)
Definition handle_one (tv_sec : Z) (contextP : context) (fromSessionH : Session) (m : coap_packet_t)
    (response : bool) (transacP : transaction) : C (option context) :=
  let found :=
    negb (ack_received transacP) &&
    (bool_decide (p_type m = COAP_TYPE_ACK) || bool_decide (p_type m = COAP_TYPE_RST)) &&
    (mID transacP =? mid m) in
  let transacP := if found then transacP <| ack_received := true |> else transacP in
  let contextP := if found then store contextP transacP else contextP in
  let reset := found && bool_decide (p_type m = COAP_TYPE_RST) in
  if reset || prv_checkFinished transacP m then
    if reset then contextP ← finish contextP transacP (Some m); ret (Some contextP)
    else
      contextP ← (if bool_decide (p_type m = COAP_TYPE_CON) && response then
                    '(_, contextP) ← message_send contextP (coap_init_message COAP_TYPE_ACK 0 (mid m)) fromSessionH;
                    ret contextP
                  else ret contextP);
      if (code m =? COAP_401_UNAUTHORIZED) && (retrans_counter transacP <? COAP_MAX_RETRANSMIT) then
        ret (Some (store contextP (transacP <| ack_received := false |>
                     <| retrans_time := retrans_time transacP + COAP_RESPONSE_TIMEOUT |>)))
      else contextP ← finish contextP transacP (Some m); ret (Some contextP)
  else if found then
    let transacP := if 0 <=? tv_sec then transacP <| retrans_time := tv_sec |> else transacP in
    let delay := if code m =? 0 then COAP_SEPARATE_TIMEOUT
                 else COAP_RESPONSE_TIMEOUT * retrans_counter transacP in
    ret (Some (store contextP (transacP <| retrans_time := retrans_time transacP + delay |>)))
  else ret None.

Fixpoint response_loop (tv_sec : Z) (contextP : context) (fromSessionH : Session) (m : coap_packet_t)
    (response : bool) (l : list transaction) : C (bool * context) :=
  match l with
  | [] => ret (false, contextP)
  | transacP :: l =>
      if lwm2m_session_is_equal fromSessionH (peerH transacP) then
        r ← handle_one tv_sec contextP fromSessionH m response transacP;
        match r with
        | Some contextP => ret (true, contextP)
        | None => response_loop tv_sec contextP fromSessionH m response l
        end
      else response_loop tv_sec contextP fromSessionH m response l
  end.

Definition transaction_handleResponse (tv_sec : Z) (contextP : context) (fromSessionH : Session)
    (m : coap_packet_t) (response : bool) : C (bool * context) :=
  response_loop tv_sec contextP fromSessionH m response (transactionList contextP).

(** ** Sending *)

(** The datagram is serialized at the first sending; [None] in the result when
    the transaction is given up. *)
Definition prepare (transacP : transaction) : C (option transaction) :=
  match buffer transacP with
  | Some _ => ret (Some transacP)
  | None =>
      let n := u16 (coap_serialize_get_size (message transacP)) in
      if n =? 0 then ret None
      else if negb (malloc_ok n) then ret None
      else
        '(n, b, m) ← coap_serialize_message (message transacP) (junk n);
        let n := u16 n in
        if n =? 0 then ret None
        else ret (Some (transacP <| message := m |> <| buffer_len := n |> <| buffer := Some b |>))
  end.

Definition transaction_send (tv_sec : Z) (contextP : context) (id : Z) : C (Z * context) :=
  transacP ← lwm2m_list_find (transactionList contextP) id;
  r ← prepare transacP;
  match r with
  | None => ret (COAP_500_INTERNAL_SERVER_ERROR, transaction_remove contextP transacP)
  | Some transacP =>
      let contextP := store contextP transacP in
      if negb (ack_received transacP) then
        '(transacP, timeout, maxRetriesReached) ←
          (if retrans_counter transacP =? 0 then
             if 0 <=? tv_sec then
               ret (transacP <| retrans_time := tv_sec + COAP_RESPONSE_TIMEOUT |> <| retrans_counter := 1 |>, 0, false)
             else ret (transacP, 0, true)
           else
             assert! (retrans_counter transacP - 1 <? 30);
             ret (transacP, Z.shiftl COAP_RESPONSE_TIMEOUT (retrans_counter transacP - 1), false));
        r ← (if retrans_counter transacP <=? COAP_MAX_RETRANSMIT + 1 then
               b ← buffer transacP;
               data ← rd_bytes b 0 (buffer_len transacP);
               let transacP := transacP <| retrans_time := retrans_time transacP + timeout |>
                                 <| retrans_counter := u8 (retrans_counter transacP + 1) |> in
               ret (store (send contextP (peerH transacP) data) transacP, transacP, maxRetriesReached)
             else ret (store contextP transacP, transacP, true));
        let '(contextP, transacP, maxRetriesReached) := r in
        if maxRetriesReached : bool then contextP ← finish contextP transacP None; ret (-1, contextP)
        else ret (0, contextP)
      else contextP ← finish contextP transacP None; ret (-1, contextP)
  end.

(** The successor of a transaction in the list. *)
Fixpoint next_of (l : list transaction) (id : Z) : option Z :=
  match l with
  | [] => None
  | t :: l => if mID t =? id then mID <$> head l else next_of l id
  end.

Fixpoint step_loop (fuel : nat) (tv_sec currentTime : Z) (contextP : context) (transacP : option Z) (timeout : Z)
    : C (Z * context) :=
  match transacP with
  | None => ret (timeout, contextP)
  | Some id =>
      match fuel with
      | O => None
      | S fuel =>
          t ← lwm2m_list_find (transactionList contextP) id;
          let nextP := next_of (transactionList contextP) id in
          '(removed, contextP) ←
            (if retrans_time t <=? currentTime then transaction_send tv_sec contextP id else ret (0, contextP));
          timeout ← (if removed =? 0 then
                       t ← lwm2m_list_find (transactionList contextP) id;
                       let interval := if currentTime <? retrans_time t then retrans_time t - currentTime else 1 in
                       ret (if interval <? timeout then interval else timeout)
                     else ret 1);
          step_loop fuel tv_sec currentTime contextP nextP timeout
      end
  end.

(** The identifiers ascend: at most 65536 transactions are visited.  The results
    are [*timeoutP] and the context. *)
Definition transaction_step (tv_sec : Z) (contextP : context) (currentTime timeout : Z) : C (Z * context) :=
  step_loop (Z.to_nat 65537) tv_sec currentTime contextP (mID <$> head (transactionList contextP)) timeout.

(** ** Payload, user data and clients *)

Definition transaction_set_payload (coap_block_size : Z) (transacP : transaction) (data : list Z) (length : Z)
    : C (bool * transaction) :=
  if negb (malloc_ok length) then ret (false, transacP)
  else
    copy ← rd_bytes data 0 length;
    let transacP := transacP <| transac_payload := Some copy |> <| transac_payload_len := length |> in
    m ← (if coap_block_size <? length then
           '(_, m) ← coap_set_header_block1 (message transacP) 0 1 coap_block_size; ret m
         else ret (message transacP));
    let '(_, m) := coap_set_payload m (Some data) (Z.min length coap_block_size) in
    ret (true, transacP <| message := m |>).

(** The search for another transaction with the same user data. *)
Definition transaction_free_userData (contextP : context) (transacP : transaction) : bool * transaction :=
  if existsb (fun t => bool_decide (userData t = userData transacP) && negb (mID t =? mID transacP))
       (transactionList contextP)
  then (false, transacP)
  else (true, transacP <| userData := None |>).

(** [transaction_free_userData] on a transaction of the context. *)
Definition free_userData (contextP : context) (transacP : transaction) : context :=
  store contextP (snd (transaction_free_userData contextP transacP)).

Fixpoint remove_client_loop (fuel : nat) (contextP : context) (sessionH : Session) (transacP : option Z) : C context :=
  match transacP with
  | None => ret contextP
  | Some id =>
      match fuel with
      | O => None
      | S fuel =>
          t ← lwm2m_list_find (transactionList contextP) id;
          let nextP := next_of (transactionList contextP) id in
          let contextP := if lwm2m_session_is_equal (peerH t) sessionH then transaction_remove contextP t else contextP in
          remove_client_loop fuel contextP sessionH nextP
      end
  end.

Definition transaction_remove_client (contextP : context) (sessionH : Session) : C context :=
  remove_client_loop (Z.to_nat 65537) contextP sessionH (mID <$> head (transactionList contextP)).
End operations.

(** ** The list *)

Section lists.
Context {Session CB U : Type}.
Abbreviation transaction := (lwm2m_transaction_t Session CB U).
Implicit Types (t : transaction) (l : list transaction).

Lemma strict_app l t l2 :
  list_strict (l ++ t :: l2) -> Forall (fun x => mID x < mID t) l /\ Forall (fun x => mID t < mID x) l2.
Proof.
  induction l as [|x l IH]; cbn; intros Hs; inversion Hs as [|? ? Hs' Hx]; subst.
  - split; [apply list.Forall_nil_2|exact Hx].
  - destruct (IH Hs') as [H1 H2]. apply Forall_app in Hx as [_ Hx]. apply list.Forall_cons_1 in Hx as [Hx _].
    split; [by apply list.Forall_cons_2|done].
Qed.

Lemma find_mid l t l2 :
  list_strict (l ++ t :: l2) -> lwm2m_list_find (l ++ t :: l2) (mID t) = Some t.
Proof.
  intros [Hl _]%strict_app. induction Hl as [|x l Hx Hl IH]; cbn; change (node_id ?x) with (mID x).
  - by rewrite Z.ltb_irrefl, Z.eqb_refl.
  - by rewrite (proj2 (Z.ltb_lt _ _) Hx).
Qed.

Lemma next_mid l t l2 : list_strict (l ++ t :: l2) -> next_of (l ++ t :: l2) (mID t) = mID <$> head l2.
Proof.
  intros [Hl _]%strict_app. induction Hl as [|x l Hx Hl IH]; cbn; [by rewrite Z.eqb_refl|].
  by rewrite (proj2 (Z.eqb_neq (mID x) (mID t))) by lia.
Qed.

Lemma remove_mid l t l2 : list_strict (l ++ t :: l2) -> fst (lwm2m_list_remove (l ++ t :: l2) (mID t)) = l ++ l2.
Proof.
  intros [Hl _]%strict_app. assert (fst (remove_after (l ++ t :: l2) (mID t)) = l ++ l2) as Hr.
  { induction Hl as [|x l Hx Hl IH]; cbn; change (node_id ?x) with (mID x).
    - by rewrite Z.ltb_irrefl, Z.eqb_refl.
    - rewrite (proj2 (Z.ltb_lt _ _) Hx). destruct (remove_after _ _). cbn in *. by rewrite IH. }
  destruct Hl as [|x l Hx Hl]; cbn in *; change (node_id ?x) with (mID x) in *; [by rewrite Z.eqb_refl|].
  rewrite (proj2 (Z.ltb_lt _ _) Hx) in Hr. rewrite (proj2 (Z.eqb_neq (mID x) (mID t))) by lia.
  destruct (remove_after _ _). cbn in *. congruence.
Qed.

Lemma map_mid l t t' l2 :
  list_strict (l ++ t :: l2) -> mID t' = mID t ->
  map (fun x => if mID x =? mID t' then t' else x) (l ++ t :: l2) = l ++ t' :: l2.
Proof.
  intros [Hl Hl2]%strict_app Ht. rewrite map_app, Ht. cbn [map]. rewrite Z.eqb_refl. f_equal; [|f_equal].
  - induction Hl as [|x l Hx Hl IH]; [done|]. cbn. rewrite (proj2 (Z.eqb_neq (mID x) (mID t))) by lia. by rewrite IH.
  - induction Hl2 as [|x l2 Hx Hl2 IH]; [done|]. cbn. rewrite (proj2 (Z.eqb_neq (mID x) (mID t))) by lia. by rewrite IH.
Qed.

(** Strictness depends on the identifiers only. *)
Lemma strict_ids l : list_strict l <-> StronglySorted Z.lt (map mID l).
Proof.
  induction l as [|x l IH]; cbn; [split; constructor|].
  split; intros Hs; inversion Hs as [|? ? Hs' Hx]; subst; constructor; try (by apply IH).
  - apply (proj2 (list.Forall_fmap mID _ l)). exact Hx.
  - exact (proj1 (list.Forall_fmap mID _ l) Hx).
Qed.

Lemma strict_delete l t l2 : list_strict (l ++ t :: l2) -> list_strict (l ++ l2).
Proof.
  induction l as [|x l IH]; cbn; intros Hs; inversion Hs as [|? ? Hs' Hx]; subst; [done|].
  constructor; [by apply IH|]. apply Forall_app in Hx as [H1 H2]. apply list.Forall_cons_1 in H2 as [_ H2].
  apply Forall_app. by split.
Qed.

Lemma strict_replace l t t' l2 : list_strict (l ++ t :: l2) -> mID t' = mID t -> list_strict (l ++ t' :: l2).
Proof. rewrite !strict_ids, !map_app. cbn. by intros ? ->. Qed.

Definition id_ok t : Prop := 0 <= mID t < 65536.

(** At most 65536 identifiers. *)
Lemma strict_length l lo : list_strict l -> Forall (fun t => lo <= mID t < 65536) l -> len l <= Z.max 0 (65536 - lo).
Proof.
  intros Hs. revert lo. induction Hs as [|x l Hs IH Hx]; intros lo Hl; [cbn; lia|].
  apply list.Forall_cons_1 in Hl as [H1 H2]. specialize (IH (mID x + 1)). cbn [length].
  assert (Forall (fun t => mID x + 1 <= mID t < 65536) l) as H3.
  { rewrite list.Forall_forall in *. intros y Hy. specialize (H2 y Hy). specialize (Hx y Hy).
    change (mID x < mID y) in Hx. lia. }
  specialize (IH H3). lia.
Qed.
End lists.

(** ** One transaction, one step *)

Section ticks.
Context {Session CB U W : Type} `{HM : Malloc, HS : Sessions Session, HC : Callbacks Session CB U W, HU : EqDecision U}.
Context (junk : Z -> list Z).
Abbreviation transaction := (lwm2m_transaction_t Session CB U).
Abbreviation context := (lwm2m_context_t Session CB U W).
Implicit Types (t : transaction) (c : context).

(** A transaction that was sent at least once and not given up. *)
Definition live (t : transaction) : Prop :=
  id_ok t /\ 1 <= retrans_counter t <= 6 /\
  exists b, buffer t = Some b /\ 0 <= buffer_len t <= len b.

(** What [transaction_step] does to one transaction: its next state, what it
    sends, whether it ends with its callback called. *)
Definition due (now : Z) (t : transaction) : bool := retrans_time t <=? now.
Definition retry (t : transaction) : bool := negb (ack_received t) && (retrans_counter t <=? 5).

Definition tick (now : Z) (t : transaction) : option transaction :=
  if due now t then
    if retry t then
      Some (t <| retrans_time := retrans_time t + 2 ^ retrans_counter t |> <| retrans_counter := retrans_counter t + 1 |>)
    else None
  else Some t.

Definition datagram (t : transaction) : list Z := take (Z.to_nat (buffer_len t)) (default [] (buffer t)).
Definition tick_sent (now : Z) (t : transaction) : list (Session * list Z) :=
  if due now t && retry t then [(peerH t, datagram t)] else [].
Definition tick_called (now : Z) (t : transaction) : list (Z * option coap_packet_t) :=
  if due now t && negb (retry t) then match callback t with Some _ => [(mID t, None)] | None => [] end else [].

(** The callbacks leave the transactions and the records alone. *)
Definition callbacks_local : Prop := forall f (c : context) (t : transaction) m,
  transactionList (run_callback f c t m) = transactionList c /\ nextMID (run_callback f c t m) = nextMID c /\
  sent (run_callback f c t m) = sent c /\ called (run_callback f c t m) = called c.
Context (Hlocal : callbacks_local).

Lemma call_frame c t m :
  transactionList (call c t m) = transactionList c /\ sent (call c t m) = sent c /\
  called (call c t m) = called c ++ match callback t with Some _ => [(mID t, m)] | None => [] end.
Proof.
  unfold call. destruct (callback t) as [f|]; [|by rewrite app_nil_r].
  destruct (Hlocal f (c <| called := called c ++ [(mID t, m)] |>) t m) as (-> & _ & -> & ->). done.
Qed.

(** The end of a transaction. *)
Lemma finish_ok c pre t t' post m :
  transactionList c = pre ++ t' :: post -> list_strict (pre ++ t' :: post) -> mID t' = mID t ->
  exists c', finish c t m = Some c' /\ transactionList c' = pre ++ post /\ sent c' = sent c /\
    called c' = called c ++ match callback t with Some _ => [(mID t, m)] | None => [] end.
Proof.
  intros Hl Hs Hid. unfold finish. destruct (call_frame c t m) as (H1 & H2 & H3).
  rewrite H1, Hl, <- Hid, find_mid by done. mstep. eexists. split; [done|].
  unfold transaction_remove. cbn [transactionList update sent called]. rewrite H1, Hl.
  split; [by apply remove_mid|]. split; [done|by rewrite Hid].
Qed.

Lemma store_ok c pre t t' post :
  transactionList c = pre ++ t :: post -> list_strict (pre ++ t :: post) -> mID t' = mID t ->
  transactionList (store c t') = pre ++ t' :: post /\ sent (store c t') = sent c /\ called (store c t') = called c /\
  nextMID (store c t') = nextMID c.
Proof.
  intros Hl Hs Hid. unfold store. cbn [transactionList update sent called nextMID]. rewrite Hl.
  split; [by apply map_mid|done].
Qed.

(** [transaction_send] on a transaction that is due. *)
Lemma send_ok tv c pre t post :
  transactionList c = pre ++ t :: post -> list_strict (pre ++ t :: post) -> live t ->
  exists c', transaction_send junk tv c (mID t) = Some (if retry t then 0 else -1, c') /\
    transactionList c' = pre ++ (if retry t then
        [t <| retrans_time := retrans_time t + 2 ^ retrans_counter t |> <| retrans_counter := retrans_counter t + 1 |>]
      else []) ++ post /\
    sent c' = sent c ++ (if retry t then [(peerH t, datagram t)] else []) /\
    called c' = called c ++ (if retry t then [] else match callback t with Some _ => [(mID t, None)] | None => [] end).
Proof.
  intros Hl Hs (Hid & Hc & b & Hb & Hbl). unfold transaction_send. rewrite Hl, find_mid by done. mstep.
  unfold prepare. rewrite Hb. mstep.
  destruct (store_ok c pre t t post Hl Hs eq_refl) as (L1 & S1 & C1 & _).
  unfold retry. destruct (ack_received t) eqn:Ha; cbn [negb andb].
  - destruct (finish_ok (store c t) pre t t post None L1 Hs eq_refl) as (c' & -> & L2 & S2 & C2). mstep.
    exists c'. split; [done|]. split; [done|]. split; [by rewrite app_nil_r, S2|by rewrite C2, C1].
  - rewrite (proj2 (Z.eqb_neq _ _)) by lia. unfold COAP_MAX_RETRANSMIT, COAP_RESPONSE_TIMEOUT. guards. mstep.
    destruct (retrans_counter t <=? 5) eqn:E; guards.
    + rewrite Hb. mstep. unfold rd_bytes. guards. mstep.
      assert (Z.shiftl 2 (retrans_counter t - 1) = 2 ^ retrans_counter t) as ->.
      { rewrite shiftl_mul by lia. rewrite <- (Z.pow_succ_r 2) by lia. f_equal. lia. }
      rewrite wrap_small by lia. eexists. split; [done|].
      match goal with |- context [store ?x ?y] =>
        destruct (store_ok x pre t y post L1 Hs eq_refl) as (L2 & S2 & C2 & _) end.
      split; [exact L2|]. rewrite S2, C2. unfold send. cbn [sent called update]. rewrite S1, C1, app_nil_r.
      split; [|done]. unfold datagram. by rewrite Hb.
    + mstep. destruct (store_ok (store c t) pre t t post L1 Hs eq_refl) as (L2 & S2 & C2 & _).
      destruct (finish_ok (store (store c t) t) pre t t post None L2 Hs eq_refl) as (c' & -> & L3 & S3 & C3). mstep.
      exists c'. split; [done|]. split; [done|]. rewrite S3, S2, S1, C3, C2, C1, app_nil_r. done.
Qed.

(** The delay returned to the caller of [lwm2m_step] is in time for [t]. *)
Definition in_time (now timeout : Z) (t : transaction) : Prop := timeout <= Z.max 1 (retrans_time t - now).

Lemma interval_ok now r timeout :
  let interval := if now <? r then r - now else 1 in
  let timeout' := if interval <? timeout then interval else timeout in
  1 <= timeout -> 1 <= timeout' <= timeout /\ timeout' <= Z.max 1 (r - now).
Proof. intros interval timeout' Ht. subst interval timeout'. destruct (now <? r) eqn:E1; ifs; lia. Qed.

Lemma step_loop_ok tv now : forall todo fuel pre c timeout,
  transactionList c = pre ++ todo -> list_strict (pre ++ todo) -> Forall live todo -> (length todo <= fuel)%nat ->
  1 <= timeout ->
  exists c' timeout', step_loop junk fuel tv now c (mID <$> head todo) timeout = Some (timeout', c') /\
    transactionList c' = pre ++ omap (tick now) todo /\
    sent c' = sent c ++ flat_map (tick_sent now) todo /\
    called c' = called c ++ flat_map (tick_called now) todo /\
    1 <= timeout' <= timeout /\ Forall (in_time now timeout') (omap (tick now) todo).
Proof.
  induction todo as [|t todo IH]; intros fuel pre c timeout Hl Hs Hlive Hf Ht.
  - exists c, timeout. destruct fuel; cbn; rewrite !app_nil_r; (split; [done|]);
      (split; [by rewrite app_nil_r in Hl|]); (split; [done|]); (split; [done|]); (split; [lia|]); apply list.Forall_nil_2.
  - apply list.Forall_cons_1 in Hlive as [Ht1 Hlive]. destruct fuel as [|fuel]; [cbn [length] in Hf; lia|].
    cbn [head fmap option_fmap option_map step_loop]. rewrite Hl, find_mid, next_mid by done. mstep.
    cbn [omap list_omap flat_map length] in *.
    assert ((retrans_time t <=? now) = due now t) as -> by done.
    destruct (due now t) eqn:Hd.
    + destruct (send_ok tv c pre t todo Hl Hs Ht1) as (c1 & -> & L1 & S1 & C1). mstep.
      destruct (retry t) eqn:Hr.
      * assert (tick_sent now t = [(peerH t, datagram t)] /\ tick_called now t = []) as [-> ->]
          by (unfold tick_sent, tick_called; by rewrite Hd, Hr).
        assert (tick now t = Some (t <| retrans_time := retrans_time t + 2 ^ retrans_counter t |>
          <| retrans_counter := retrans_counter t + 1 |>)) as -> by (unfold tick; by rewrite Hd, Hr).
        set (t' := t <| retrans_time := retrans_time t + 2 ^ retrans_counter t |> <| retrans_counter := retrans_counter t + 1 |>) in *.
        cbn [Z.eqb]. cbn [app] in L1. rewrite L1.
        assert (list_strict (pre ++ t' :: todo)) as Hs' by (by eapply strict_replace).
        assert (mID t = mID t') as -> by done. rewrite find_mid by done. mstep.
        destruct (interval_ok now (retrans_time t') timeout Ht) as [Hi1 Hi2].
        set (timeout1 := if _ <? timeout then _ else timeout) in *.
        destruct (IH fuel (pre ++ [t']) c1 timeout1) as (c' & timeout' & -> & L2 & S2 & C2 & Ht' & Hin);
          [by rewrite <- app_assoc|by rewrite <- app_assoc|done|lia|lia|].
        exists c', timeout'. split; [done|]. split; [by rewrite L2, <- app_assoc|].
        split; [by rewrite S2, S1, <- app_assoc|]. split; [by rewrite C2, C1, <- app_assoc|].
        split; [lia|].
        apply list.Forall_cons_2; [|done]. unfold in_time. lia.
      * assert (tick_sent now t = [] /\ tick now t = None) as [-> ->]
          by (unfold tick_sent, tick; by rewrite Hd, Hr).
        assert (tick_called now t = match callback t with Some _ => [(mID t, None)] | None => [] end) as ->
          by (unfold tick_called; by rewrite Hd, Hr).
        cbn [Z.eqb]. mstep. cbn [app] in L1.
        destruct (IH fuel pre c1 1) as (c' & timeout' & -> & L2 & S2 & C2 & Ht' & Hin); [done|by eapply strict_delete|done|lia|lia|].
        exists c', timeout'. split; [done|]. split; [done|]. split; [by rewrite S2, S1, <- app_assoc|].
        split; [by rewrite C2, C1, <- app_assoc|]. split; [lia|done].
    + assert (tick_sent now t = [] /\ tick_called now t = []) as [-> ->]
        by (unfold tick_sent, tick_called; by rewrite Hd).
      assert (tick now t = Some t) as -> by (unfold tick; by rewrite Hd).
      mstep. cbn [Z.eqb]. rewrite Hl, find_mid by done. mstep.
      destruct (interval_ok now (retrans_time t) timeout Ht) as [Hi1 Hi2].
      set (timeout1 := if _ <? timeout then _ else timeout) in *.
      destruct (IH fuel (pre ++ [t]) c timeout1) as (c' & timeout' & -> & L2 & S2 & C2 & Ht' & Hin);
        [by rewrite <- app_assoc|by rewrite <- app_assoc|done|lia|lia|].
      exists c', timeout'. split; [done|]. split; [by rewrite L2, <- app_assoc|]. split; [done|]. split; [done|].
      split; [lia|].
      apply list.Forall_cons_2; [|done]. unfold in_time. lia.
Qed.
Lemma live_length (l : list transaction) : list_strict l -> Forall live l -> (length l <= Z.to_nat 65537)%nat.
Proof.
  intros Hs Hl. assert (len l <= 65536); [|lia].
  pose proof (strict_length l 0 Hs) as H. rewrite Z.max_r in H by lia. apply H.
  eapply list.Forall_impl; [exact Hl|]. intros t [Hid _]. exact Hid.
Qed.

Lemma tick_mid now t t' : tick now t = Some t' -> mID t' = mID t.
Proof. unfold tick. destruct (due now t), (retry t); try discriminate; by intros [= <-]. Qed.

Lemma ticks_strict now (l : list transaction) : list_strict l -> list_strict (omap (tick now) l).
Proof.
  induction 1 as [|t l Hs IH Ht]; cbn; [constructor|]. destruct (tick now t) as [t'|] eqn:E; [|done].
  constructor; [done|]. pose proof (tick_mid now t t' E) as Hid. rewrite list.Forall_forall in *. intros y Hy.
  apply list_elem_of_omap in Hy as (x & Hx & Hxy). specialize (Ht x Hx). apply tick_mid in Hxy.
  unfold id_lt in *. change (mID t' < mID y). change (mID t < mID x) in Ht. lia.
Qed.

Lemma tick_live now t t' : live t -> tick now t = Some t' -> live t'.
Proof.
  intros (Hid & Hc & Hb). unfold tick. destruct (due now t); [destruct (retry t) eqn:E2; [|discriminate]|]; intros [= <-];
    (split; [done|]); (split; [|done]); cbn.
  - unfold retry in E2. lia.
  - lia.
Qed.


(** ** Retransmission and expiry *)

(** Steps at the times [times], each with a timeout of a minute. *)
Fixpoint run (c : context) (times : list Z) : C context :=
  match times with
  | [] => ret c
  | now :: times => '(_, c) ← transaction_step junk now c now 60; run c times
  end.

(** [t], sent first at [t0], after [n] retransmissions. *)
Definition resent (t : transaction) (t0 : Z) (n : nat) : transaction :=
  t <| retrans_time := t0 + 2 ^ (Z.of_nat n + 2) - 2 |> <| retrans_counter := Z.of_nat n + 2 |>.

Lemma resent_next t (t0 : Z) n :
  (resent t t0 n) <| retrans_time := retrans_time (resent t t0 n) + 2 ^ retrans_counter (resent t t0 n) |>
    <| retrans_counter := retrans_counter (resent t t0 n) + 1 |> = resent t t0 (S n).
Proof.
  unfold resent, update. cbn -[Z.pow Z.add Z.sub Z.of_nat]. f_equal; [lia|].
  replace (Z.of_nat (S n) + 2) with (Z.succ (Z.of_nat n + 2)) by lia. rewrite Z.pow_succ_r by lia. lia.
Qed.

(** How many of the steps come after the last deadline. *)
Definition late (t0 : Z) (times : list Z) : nat := length (filter (fun now => t0 + 62 <= now) times).

Lemma run_empty c times : transactionList c = [] -> run c times = Some c.
Proof.
  intros Hl. induction times as [|now times IH]; [done|]. cbn [run]. unfold transaction_step. rewrite Hl. cbn [head fmap option_fmap option_map].
  replace (Z.to_nat 65537) with (S (Z.to_nat 65536)) by lia. exact IH.
Qed.

Lemma run_ok t (t0 : Z) f times : live t -> ack_received t = false -> callback t = Some f -> forall c (n : nat),
  transactionList c = [resent t t0 n] -> (n <= 4)%nat ->
  exists c' m, run c times = Some c' /\ (n <= m <= 4)%nat /\
    sent c' = sent c ++ replicate (m - n) (peerH t, datagram t) /\
    ((n < m)%nat -> exists now, now ∈ times /\ t0 + 2 ^ (Z.of_nat m + 1) - 2 <= now) /\
    ((transactionList c' = [resent t t0 m] /\ called c' = called c /\ (late t0 times < 5 - n)%nat) \/
     (transactionList c' = [] /\ called c' = called c ++ [(mID t, None)] /\ m = 4%nat /\
      exists now, now ∈ times /\ t0 + 62 <= now)).
Proof.
  intros Ht Hack Hcb. induction times as [|now times IH]; intros c n Hl Hn.
  - exists c, n. cbn. rewrite Nat.sub_diag, app_nil_r. split; [done|]. split; [lia|]. split; [done|]. split; [lia|].
    left. split; [done|]. split; [done|]. lia.
  - assert (live (resent t t0 n)) as Hlive.
    { destruct Ht as (Hid & _ & Hb). split; [done|]. split; [cbn; lia|done]. }
    cbn [run].
    destruct (step_loop_ok now now [resent t t0 n] (Z.to_nat 65537) [] c 60 Hl ltac:(repeat constructor)
      ltac:(by apply list.Forall_cons_2, list.Forall_nil_2) ltac:(cbn; lia) ltac:(lia))
      as (c1 & timeout' & Hr & H1 & H2 & H3 & _).
    unfold transaction_step. rewrite Hl. rewrite Hr. mstep. clear Hr. cbn [app omap list_omap flat_map] in *.
    rewrite !app_nil_r in *.
    assert (due now (resent t t0 n) = (t0 + 2 ^ (Z.of_nat n + 2) - 2 <=? now)) as Hdue by done.
    assert (retry (resent t t0 n) = (Z.of_nat n + 2 <=? 5)) as Hretry by (unfold retry; cbn; by rewrite Hack).
    unfold tick in H1. unfold tick_sent in H2. unfold tick_called in H3. rewrite Hdue, Hretry in *.
    destruct (t0 + 2 ^ (Z.of_nat n + 2) - 2 <=? now) eqn:Ed; [destruct (Z.of_nat n + 2 <=? 5) eqn:Er|]; cbn [andb negb] in *.
    + destruct (IH c1 (S n)) as (c' & m & Hrun & Hm & S2 & Hlast & Hend); [|lia|].
      { by rewrite H1, resent_next. }
      exists c', m. split; [done|]. split; [lia|]. split.
      { rewrite S2, H2, <- app_assoc. f_equal. replace (m - n)%nat with (S (m - S n)) by lia. done. }
      split.
      { intros _. destruct (decide (S n < m)%nat) as [Hlt|Hge].
        - destruct (Hlast Hlt) as (x & Hx & ?). exists x. split; [by right|done].
        - exists now. split; [by left|]. replace (Z.of_nat m + 1) with (Z.of_nat n + 2) by lia. lia. }
      destruct Hend as [(E1 & E2 & E3)|(E1 & E2 & E3 & x & Hx & Hx')].
      * left. split; [done|]. split; [by rewrite E2, H3, app_nil_r|]. unfold late in *. rewrite filter_cons.
        destruct (decide _); cbn [length]; lia.
      * right. split; [done|]. split; [by rewrite E2, H3, app_nil_r|]. split; [done|]. exists x. split; [by right|done].
    + assert (n = 4%nat) as -> by lia. rewrite run_empty by done. exists c1, 4%nat. split; [done|]. split; [lia|].
      split; [by rewrite H2|]. split; [lia|]. right. split; [done|]. split; [|split; [done|]].
      * rewrite H3. cbn. by rewrite Hcb.
      * exists now. split; [by left|]. change (2 ^ (Z.of_nat 4 + 2)) with 64 in Ed. lia.
    + destruct (IH c1 n H1 Hn) as (c' & m & Hrun & Hm & S2 & Hlast & Hend).
      exists c', m. split; [done|]. split; [done|]. split; [by rewrite S2, H2, app_nil_r|]. split.
      { intros Hlt. destruct (Hlast Hlt) as (x & Hx & ?). exists x. split; [by right|done]. }
      destruct Hend as [(E1 & E2 & E3)|(E1 & E2 & E3 & x & Hx & Hx')].
      * left. split; [done|]. split; [by rewrite E2, H3, app_nil_r|]. unfold late in *. rewrite filter_cons.
        destruct (decide _) as [Hd|Hd]; [|done]. cbn [length].
        assert (2 ^ (Z.of_nat n + 2) <= 2 ^ 6) by (apply Z.pow_le_mono_r; lia). lia.
      * right. split; [done|]. split; [by rewrite E2, H3, app_nil_r|]. split; [done|]. exists x. split; [by right|done].
Qed.


(** ** Answers *)

Definition acked (m : coap_packet_t) (t : transaction) : bool :=
  negb (ack_received t) && (bool_decide (p_type m = COAP_TYPE_ACK) || bool_decide (p_type m = COAP_TYPE_RST)) &&
  (mID t =? mid m).

(** The message of the peer [from] concerns [t]. *)
Definition concerns (from : Session) (m : coap_packet_t) (t : transaction) : bool :=
  lwm2m_session_is_equal from (peerH t) && (acked m t || prv_checkFinished t m).

(** The acknowledgement of a message. *)
Definition ack_bytes (m : coap_packet_t) : list Z := [96; 0; mid m / 256; mid m mod 256].

Lemma ack_ok mid_ : 0 <= mid_ < 65536 -> msg_ok (coap_init_message COAP_TYPE_ACK 0 mid_).
Proof.
  intros Hm. constructor; try (cbn; lia); try (intros; discriminate); try apply zero_packet_wf.
  - split; [apply list.Forall_nil_2|done].
  - split; [apply list.Forall_nil_2|done].
  - split; [apply list.Forall_nil_2|done].
  - split; [cbn; lia|]. repeat first [apply list.Forall_nil_2 | apply list.Forall_cons_2]; done.
Qed.

(** A message is sent when there is memory for it. *)
Lemma message_send_ok buffer_send c (m : coap_packet_t) (from : Session) :
  msg_ok m -> max_age m < 2 ^ 24 -> p_size m < 2 ^ 24 -> (forall n, 0 <= n -> len (junk n) = n) ->
  exists r, message_send junk buffer_send c m from =
    Some (if malloc_ok (coap_serialize_get_size m) then r else COAP_500_INTERNAL_SERVER_ERROR,
          if malloc_ok (coap_serialize_get_size m) then send c from (message_bytes m) else c) /\
    r = buffer_send from (message_bytes m).
Proof.
  intros Hm Hage Hsize Hj. unfold message_send.
  pose proof (options_size m Hm Hage Hsize) as Ho. pose proof (message_length m Hm) as Hl.
  pose proof (get_size_eq m) as Hs. pose proof (ok_token _ Hm). pose proof (ok_payload _ Hm) as Hp.
  set (n := coap_serialize_get_size m) in *.
  assert (4 <= len (message_bytes m) <= n) as Hn by (destruct (payload m); destruct (payload_len m =? 0); lia).
  specialize (Hj n ltac:(lia)). rewrite (proj2 (Z.eqb_neq n 0)) by lia.
  destruct (malloc_ok n); [|by eexists]. rewrite (serialize_message_ok m (junk n) Hm) by lia. mstep.
  rewrite (proj2 (Z.eqb_neq _ 0)) by lia. cbn [negb].
  pose proof (rd_bytes_app [] (message_bytes m) (drop (length (message_bytes m)) (junk n)) 0 (len (message_bytes m)) eq_refl eq_refl)
    as Hrd. cbn [app] in Hrd. rewrite Hrd. mstep. by eexists.
Qed.

Lemma message_send_ack buffer_send c (m : coap_packet_t) from :
  0 <= mid m < 65536 -> len (junk 4) = 4 ->
  exists r, message_send junk buffer_send c (coap_init_message COAP_TYPE_ACK 0 (mid m)) from =
    Some (r, if malloc_ok 4 then send c from (ack_bytes m) else c).
Proof.
  intros Hm Hj. unfold message_send.
  assert (coap_serialize_get_size (coap_init_message COAP_TYPE_ACK 0 (mid m)) = 4) as -> by reflexivity.
  cbn [Z.eqb]. destruct (malloc_ok 4); [|by eexists].
  assert (message_bytes (coap_init_message COAP_TYPE_ACK 0 (mid m)) = ack_bytes m) as Hb by reflexivity.
  rewrite (serialize_message_ok _ (junk 4) (ack_ok _ Hm)) by (rewrite Hb, Hj; cbn; lia). rewrite Hb. mstep.
  pose proof (rd_bytes_app [] (ack_bytes m) (drop (length (ack_bytes m)) (junk 4)) 0 4 eq_refl eq_refl) as Hrd.
  cbn [app] in Hrd. change (negb (len (ack_bytes m) =? 0)) with true. cbn match. change (len (ack_bytes m)) with 4.
  rewrite Hrd. mstep. eexists. reflexivity.
Qed.

Definition acks (from : Session) (m : coap_packet_t) (response : bool) : list (Session * list Z) :=
  if bool_decide (p_type m = COAP_TYPE_CON) && response && malloc_ok 4 then [(from, ack_bytes m)] else [].

(** What the answer [m] does to a transaction it concerns, with its next state. *)
Inductive outcome :=
  | Ended
  | Kept (t : transaction).

Definition answer (tv : Z) (m : coap_packet_t) (t : transaction) : outcome :=
  if acked m t && bool_decide (p_type m = COAP_TYPE_RST) then Ended
  else if prv_checkFinished (if acked m t then t <| ack_received := true |> else t) m then
    if (code m =? COAP_401_UNAUTHORIZED) && (retrans_counter t <? COAP_MAX_RETRANSMIT) then
      Kept (t <| ack_received := false |> <| retrans_time := retrans_time t + COAP_RESPONSE_TIMEOUT |>)
    else Ended
  else Kept (t <| ack_received := true |>
               <| retrans_time := (if 0 <=? tv then tv else retrans_time t) +
                    (if code m =? 0 then COAP_SEPARATE_TIMEOUT else COAP_RESPONSE_TIMEOUT * retrans_counter t) |>).

(** The answer is acknowledged when it is a confirmable message that ends a
    transaction or has it sent again. *)
Definition finished (m : coap_packet_t) (t : transaction) : bool :=
  negb (acked m t && bool_decide (p_type m = COAP_TYPE_RST)) &&
  prv_checkFinished (if acked m t then t <| ack_received := true |> else t) m.

Lemma finished_mono (m : coap_packet_t) t :
  prv_checkFinished t m = true -> prv_checkFinished (t <| ack_received := true |>) m = true.
Proof.
  unfold prv_checkFinished. change (message (t <| ack_received := true |>)) with (message t).
  change (ack_received (t <| ack_received := true |>)) with true. by repeat (dif E; [done|]; clear E).
Qed.

Lemma handle_one_ok buffer_send tv c pre t post from (m : coap_packet_t) response :
  transactionList c = pre ++ t :: post -> list_strict (pre ++ t :: post) ->
  0 <= mid m < 65536 -> len (junk 4) = 4 -> acked m t || prv_checkFinished t m = true ->
  exists c', handle_one junk buffer_send tv c from m response t = Some (Some c') /\
    sent c' = sent c ++ (if finished m t then acks from m response else []) /\
    match answer tv m t with
    | Kept t' => transactionList c' = pre ++ t' :: post /\ called c' = called c
    | Ended => transactionList c' = pre ++ post /\
        called c' = called c ++ match callback t with Some _ => [(mID t, Some m)] | None => [] end
    end.
Proof.
  intros Hl Hs Hm Hj Hc. unfold handle_one, answer, finished, acks. fold (acked m t).
  set (t1 := if acked m t then t <| ack_received := true |> else t).
  set (c1 := if acked m t then store c t1 else c).
  assert (mID t1 = mID t /\ callback t1 = callback t /\ retrans_counter t1 = retrans_counter t /\ retrans_time t1 = retrans_time t)
    as (Hid & Hcb & Hrc & Hrt) by (subst t1; by destruct (acked m t)).
  assert (list_strict (pre ++ t1 :: post)) as Hs1 by (by eapply strict_replace).
  assert (transactionList c1 = pre ++ t1 :: post /\ sent c1 = sent c /\ called c1 = called c) as (L1 & S1 & C1).
  { subst c1 t1. destruct (acked m t); [|done].
    match goal with |- context [store c ?y] => destruct (store_ok c pre t y post Hl Hs eq_refl) as (?&?&?&_) end.
    by split_and!. }
  destruct (acked m t && bool_decide (p_type m = COAP_TYPE_RST)) eqn:Ereset; cbn [orb negb andb].
  - destruct (finish_ok c1 pre t1 t1 post (Some m) L1 Hs1 eq_refl) as (c' & -> & L2 & S2 & C2). mstep.
    exists c'. split; [done|]. split; [by rewrite app_nil_r, S2|]. split; [done|]. by rewrite C2, C1, Hcb, Hid.
  - destruct (prv_checkFinished t1 m) eqn:Efin.
    + assert (exists c2, (if bool_decide (p_type m = COAP_TYPE_CON) && response then
                    '(_, contextP) ← message_send junk buffer_send c1 (coap_init_message COAP_TYPE_ACK 0 (mid m)) from;
                    ret contextP else ret c1) = Some c2 /\ transactionList c2 = pre ++ t1 :: post /\
                  sent c2 = sent c ++ acks from m response /\ called c2 = called c) as (c2 & -> & L2 & S2 & C2).
      { unfold acks. destruct (bool_decide (p_type m = COAP_TYPE_CON) && response); cbn [andb].
        - destruct (message_send_ack buffer_send c1 m from Hm Hj) as [r ->]. mstep. eexists. split; [done|].
          destruct (malloc_ok 4); [|by rewrite app_nil_r]. split; [done|]. split; [|done].
          unfold send. cbn [sent update]. by rewrite S1.
        - eexists. split; [done|]. by rewrite app_nil_r. }
      mstep. rewrite Hrc. fold (acks from m response).
      destruct ((code m =? COAP_401_UNAUTHORIZED) && (retrans_counter t <? COAP_MAX_RETRANSMIT)).
      * eexists. split; [done|].
        match goal with |- context [store c2 ?y] =>
          destruct (store_ok c2 pre t1 y post L2 Hs1 eq_refl) as (L3 & S3 & C3 & _) end.
        split; [by rewrite S3|]. split; [|by rewrite C3]. rewrite L3, Hrt. subst t1. by destruct (acked m t).
      * destruct (finish_ok c2 pre t1 t1 post (Some m) L2 Hs1 eq_refl) as (c' & -> & L3 & S3 & C3). mstep.
        exists c'. split; [done|]. split; [by rewrite S3|]. split; [done|]. by rewrite C3, C2, Hcb, Hid.
    + assert (acked m t = true) as Ea.
      { destruct (acked m t); [done|]. cbn [orb] in Hc. subst t1. congruence. }
      subst t1 c1. rewrite Ea in *. eexists. split; [done|]. rewrite app_nil_r.
      match goal with |- context [store (store c _) ?y] =>
        destruct (store_ok _ pre _ y post L1 Hs1 ltac:(by destruct (0 <=? tv))) as (L3 & S3 & C3 & _) end.
      split; [by rewrite S3|]. split; [|by rewrite C3]. rewrite L3. by destruct (0 <=? tv).
Qed.

Lemma handle_one_skip buffer_send tv c from (m : coap_packet_t) response t :
  acked m t || prv_checkFinished t m = false -> handle_one junk buffer_send tv c from m response t = Some None.
Proof.
  intros [Ha Hf]%orb_false_iff. unfold handle_one. fold (acked m t). rewrite Ha. cbn [andb orb]. by rewrite Hf.
Qed.

Lemma response_loop_skip buffer_send tv c from (m : coap_packet_t) response l1 l2 :
  Forall (fun t => concerns from m t = false) l1 ->
  response_loop junk buffer_send tv c from m response (l1 ++ l2) =
    response_loop junk buffer_send tv c from m response l2.
Proof.
  induction 1 as [|t l1 Ht Hl IH]; [done|]. cbn [app response_loop]. unfold concerns in Ht.
  destruct (lwm2m_session_is_equal from (peerH t)); [|exact IH]. cbn [andb] in Ht. by rewrite handle_one_skip.
Qed.

End ticks.

(** ** Witnesses *)

(** Sessions are numbers; the callback does nothing. *)
#[local] Instance session_Z : Sessions Z := Z.eqb.
#[local] Instance no_callback : Callbacks Z unit unit unit := fun _ c _ _ => c.
Definition no_junk (n : Z) : list Z := replicate (Z.to_nat n) 0.

(** A request sent at time 100, and the context of a client that waits for its
    answer. *)
Definition sample_transaction : lwm2m_transaction_t Z unit unit :=
  mk_transaction 7 3 false 2 102 (coap_init_message COAP_TYPE_CON 2 7) 4 (Some [64; 2; 0; 7]) 0 None (Some tt) None.
Definition sample_context : lwm2m_context_t Z unit unit unit := mk_context [sample_transaction] 8 [] [] tt.

Definition sample_times : list Z := [101; 102; 110; 120; 140; 170; 171; 172; 173; 174].

Lemma sample_live : live sample_transaction.
Proof. split; [done|]. split; [done|]. by exists [64; 2; 0; 7]. Qed.

Lemma no_callback_local : @callbacks_local Z unit unit unit no_callback.
Proof. by intros f c t m. Qed.



End Transaction.
