(* ===== verification/Request.v ===== *)
(** * Requests from one end to the other

    A request built by [transaction_new], sent by [transaction_send] and received
    by [coap_parse_message] and [uri_decode]: the composition of the transaction,
    CoAP and URI components. *)
From S2P Require Import Prelude.
From S2P Require Import Types.
From S2P Require Import SortedList.
From S2P Require Import Numeric.
From S2P Require Import Utils.
From S2P Require Import Uri.
From S2P Require Import CoapPacket.
From S2P Require Import CoapMessage.
From S2P Require Import CoapOptions.
From S2P Require Import CoapSerialize.
From S2P Require Import CoapParse.
From S2P Require Import Transaction.
Import SortedList Numeric Utils Uri CoapPacket CoapMessage CoapOptions CoapSerialize CoapParse Transaction.

Module Request.

Section request.
Context `{HM : Malloc} (malloc_never_fails : forall n, malloc_ok n = true).
Context (junk : Z -> list Z) (junk_length : forall n, 0 <= n -> len (junk n) = n).

(** The identifiers before the first one that is not set. *)
Fixpoint set_ids (ids : list Z) : list Z :=
  match ids with
  | [] => []
  | id :: ids => if id =? LWM2M_MAX_ID then [] else id :: set_ids ids
  end.

Definition id_node (id : Z) : multi_option_t := mk_opt 0 (len (dec id)) (dec id).

Lemma add_id_ok (m : coap_packet_t) id : packet_wf m -> is_id id ->
  exists o, add_id junk m id = Some (Some (m <| uri_path := uri_path m ++ [id_node id] |> <| p_options := o |>)) /\
    packet_wf (m <| p_options := o |>) /\
    forall x, 0 <= x < 40 -> IS_OPTION (m <| p_options := o |>) x = (x =? 11) || IS_OPTION m x.
Proof.
  intros Hm Hid. pose proof (dec_id_length id Hid) as Hd. unfold is_id, LWM2M_MAX_ID in Hid.
  unfold add_id, LWM2M_STRING_ID_MAX_LEN, utils_intToText. guards.
  destruct (uintToText_fits id (junk 6) 6) as (tail & -> & Hl & Hz & _);
    [lia|unfold INT_MAX; lia|rewrite junk_length; lia|]. mstep.
  rewrite swrap_small by (cbn; lia). guards. specialize (Hz ltac:(lia)).
  destruct tail as [|c tail]; [discriminate Hz|]. injection Hz as ->.
  rewrite wr_middle by done. mstep. unfold coap_set_header_uri_path_segment, add_segment.
  destruct (dec id) as [|c l] eqn:Edec; [cbn in Hd; lia|]. cbn [app]. rewrite rd_cons_0. mstep.
  pose proof (dec_no_zero id ltac:(lia)) as Hnz. rewrite Edec in Hnz.
  rewrite (proj2 (Z.eqb_neq c 0)) by (by apply list.Forall_cons_1 in Hnz as [? _]).
  rewrite (app_comm_cons l (0 :: tail) c). rewrite strlen_text by done. mstep. rewrite (swrap_small 32) by lia.
  rewrite (add_node malloc_never_fails). mstep.
  assert (packet_wf (m <| uri_path := uri_path m ++ [node_of (c :: l)] |>)) as Hw by exact Hm.
  destruct (set_option_ok _ COAP_OPTION_URI_PATH Hw ltac:(done)) as (o & -> & Hol & Hob & Hox). mstep.
  exists o. unfold id_node. rewrite Edec. unfold node_of. rewrite wrap_small by lia. split; [done|].
  split; [by apply wf_set_options|]. exact Hox.
Qed.

Lemma add_ids_ok (ids : list Z) : Forall is_id ids -> forall m, packet_wf m ->
  exists o, add_ids junk m ids =
      Some (Some (m <| uri_path := uri_path m ++ map id_node (set_ids ids) |> <| p_options := o |>)) /\
    packet_wf (m <| p_options := o |>) /\
    forall x, 0 <= x < 40 ->
      IS_OPTION (m <| p_options := o |>) x = (x =? 11) && negb (bool_decide (set_ids ids = [])) || IS_OPTION m x.
Proof.
  induction 1 as [|id ids Hid Hids IH]; intros m Hm; cbn [add_ids set_ids].
  - exists (p_options m). cbn [map]. rewrite app_nil_r. split; [by destruct m|].
    assert (m <| p_options := p_options m |> = m) as -> by by destruct m.
    split; [done|]. intros x Hx. rewrite bool_decide_true by done. by rewrite andb_false_r.
  - destruct (id =? LWM2M_MAX_ID) eqn:E.
    + exists (p_options m). cbn [map]. rewrite app_nil_r. split; [by destruct m|].
      assert (m <| p_options := p_options m |> = m) as -> by by destruct m.
      split; [done|]. intros x Hx. rewrite bool_decide_true by done. by rewrite andb_false_r.
    + destruct (add_id_ok m id Hm Hid) as (o1 & -> & Hw1 & Hx1). mstep.
      set (m1 := m <| uri_path := uri_path m ++ [id_node id] |> <| p_options := o1 |>).
      destruct (IH m1 Hw1) as (o & -> & Hw & Hx). exists o. split.
      * replace (uri_path m1 ++ map id_node (set_ids ids)) with (uri_path m ++ map id_node (id :: set_ids ids))
          by (subst m1; cbn; by rewrite <- app_assoc).
        reflexivity.
      * split; [exact Hw|]. intros x Hx0. change (IS_OPTION (m <| p_options := o |>) x) with (IS_OPTION (m1 <| p_options := o |>) x).
        rewrite Hx by done. change (IS_OPTION m1 x) with (IS_OPTION (m <| p_options := o1 |>) x). rewrite Hx1 by done.
        rewrite (bool_decide_false (_ :: _ = [])) by done. cbn [negb]. rewrite andb_true_r.
        destruct (x =? 11); [by rewrite orb_true_l, orb_true_r|]. done.
Qed.

(** The message of a request. *)
Definition request_message (method mid_ : Z) (u : lwm2m_uri_t) (tok t8 o : list Z) : coap_packet_t :=
  (coap_init_message COAP_TYPE_CON method mid_) <| uri_path := map id_node (uri_ids u) |>
    <| token_len := len tok |> <| token := t8 |> <| p_options := o |>.

Lemma set_ids_uri u : set_ids [objectId u; instanceId u; resourceId u; resourceInstanceId u] = uri_ids u.
Proof.
  unfold uri_ids. cbn [set_ids].
  repeat match goal with |- context [?a =? LWM2M_MAX_ID] => destruct (a =? LWM2M_MAX_ID) end; done.
Qed.

Lemma new_ok {Session CB U : Type} tv tail (s : Session) method mid_ u tok :
  is_uri u -> objectId u <> LWM2M_MAX_ID -> 0 < len tok <= 8 ->
  exists t8 o, @transaction_new Session CB U HM junk tv tail (Some s) method None (Some u) mid_ (len tok) (Some tok) =
      Some (Some (mk_transaction mid_ s false 0 0 (request_message method mid_ u tok t8 o) 0 None 0 None None None)) /\
    packet_wf (request_message method mid_ u tok t8 o) /\ take (length tok) t8 = tok /\
    forall x, 0 <= x < 40 -> IS_OPTION (request_message method mid_ u tok t8 o) x = (x =? 19) || (x =? 11).
Proof.
  intros Hu Ho Htok. unfold transaction_new. rewrite !malloc_never_fails. cbn [negb]. mstep.
  destruct (add_ids_ok [objectId u; instanceId u; resourceId u; resourceInstanceId u]
    ltac:(destruct Hu as (?&?&?&?); repeat (apply list.Forall_cons_2; [done|]); apply list.Forall_nil_2)
    (coap_init_message COAP_TYPE_CON method mid_) zero_packet_wf) as (o1 & -> & Hw1 & Hx1). mstep.
  rewrite set_ids_uri in *. change (uri_path (coap_init_message COAP_TYPE_CON method mid_)) with (@nil multi_option_t).
  cbn [app]. rewrite (proj2 (Z.ltb_lt 0 (len tok))) by lia. unfold coap_set_header_token, COAP_TOKEN_LEN.
  set (m1 := (coap_init_message COAP_TYPE_CON method mid_) <| uri_path := map id_node (uri_ids u) |> <| p_options := o1 |>) in *.
  destruct (etag_bytes (token m1) tok eq_refl ltac:(lia)) as (H1 & H2 & H3). rewrite H2 in *.
  destruct (rd_bytes tok 0 (len tok)) as [b|]; [|discriminate H1]. mstep. cbn [mbind option_bind] in H1. rewrite H1. mstep.
  set (t8 := tok ++ drop (length tok) (token m1)) in *.
  assert (packet_wf (m1 <| token_len := len tok |> <| token := t8 |>)) as Hw.
  { destruct Hw1 as (?&?&?&?&_&?). by split_and!. }
  destruct (set_option_ok _ COAP_OPTION_TOKEN Hw ltac:(done)) as (o & -> & Hol & Hob & Hox). mstep.
  exists t8, o. split; [done|]. split; [exact (wf_set_options _ o Hw Hol Hob)|]. split; [apply take_app_length|].
  intros x Hx. change (IS_OPTION (request_message method mid_ u tok t8 o) x)
    with (IS_OPTION (m1 <| token_len := len tok |> <| token := t8 |> <| p_options := o |>) x).
  rewrite Hox by done. unfold COAP_OPTION_TOKEN. f_equal.
  change (IS_OPTION (m1 <| token_len := len tok |> <| token := t8 |>) x)
    with (IS_OPTION ((coap_init_message COAP_TYPE_CON method mid_) <| p_options := o1 |>) x).
  rewrite Hx1 by done. assert (IS_OPTION (coap_init_message COAP_TYPE_CON method mid_) x = false) as ->.
  { pose proof (range_cases 40 (fun x => negb (IS_OPTION zero_packet x)) eq_refl x ltac:(lia)) as Hz. by apply negb_true_iff. }
  rewrite orb_false_r, bool_decide_false; [by rewrite andb_true_r|]. unfold uri_ids.
  by rewrite (proj2 (Z.eqb_neq _ _) Ho).
Qed.

(** The token that is generated. *)
Definition temp_token (tv mid_ : Z) : list Z := [u8 mid_; u8 (Z.shiftr mid_ 8); u8 tv; u8 (Z.shiftr tv 8)].

Lemma new_generated {Session CB U : Type} tv tail (s : option Session) method altPath_ uriP mid_ :
  @transaction_new Session CB U HM junk tv tail s method altPath_ uriP mid_ 4 None =
  transaction_new junk tv tail s method altPath_ uriP mid_ 4 (Some (temp_token tv mid_)).
Proof.
  unfold transaction_new. destruct s as [s|]; [|done]. destruct (negb _); [done|]. destruct (negb _); [done|].
  destruct (match altPath_ with Some p => _ | None => _ end) as [m|]; [|done]. mstep.
  destruct (match uriP with Some u => _ | None => _ end) as [[m1|]|]; [|done|done]. mstep.
  assert (forall l, coap_set_header_token m1 (temp_token tv mid_ ++ l) 4 = coap_set_header_token m1 (temp_token tv mid_) 4) as E.
  { intros l. unfold coap_set_header_token. by rewrite (rd_bytes_app [] (temp_token tv mid_) l). }
  by rewrite <- (E ([u8 (Z.shiftr tv 16); u8 (Z.shiftr tv 24)] ++ tail)).
Qed.

Lemma request_ok method mid_ u tok t8 o :
  is_uri u -> objectId u <> LWM2M_MAX_ID -> 0 < len tok <= 8 -> 1 <= method <= 4 -> 0 <= mid_ < 65536 ->
  packet_wf (request_message method mid_ u tok t8 o) ->
  (forall x, 0 <= x < 40 -> IS_OPTION (request_message method mid_ u tok t8 o) x = (x =? 19) || (x =? 11)) ->
  msg_ok (request_message method mid_ u tok t8 o).
Proof.
  intros Hu Hobj Htok Hme Hmid Hw Ho. pose proof (uri_ids_spec u Hu) as [Hids _].
  constructor; try (cbn; lia); try done; try (rewrite Ho by done; discriminate).
  - split; [apply list.Forall_nil_2|]. by rewrite Ho by done.
  - split.
    + cbn. apply list.Forall_forall. intros x (id & -> & Hin)%list_elem_of_fmap. rewrite list.Forall_forall in Hids.
      destruct (Hids id Hin) as [Hid _]. pose proof (dec_id_length id Hid). split; cbn; lia.
    + intros _. cbn. unfold uri_ids. by rewrite (proj2 (Z.eqb_neq _ _) Hobj).
  - split; [apply list.Forall_nil_2|]. by rewrite Ho by done.
  - split; [cbn; lia|]. repeat first [apply list.Forall_nil_2 | apply list.Forall_cons_2]; done.
Qed.

Lemma request_size method mid_ u tok t8 o :
  is_uri u -> 0 < len tok <= 8 ->
  (forall x, 0 <= x < 40 -> IS_OPTION (request_message method mid_ u tok t8 o) x = (x =? 19) || (x =? 11)) ->
  0 < coap_serialize_get_size (request_message method mid_ u tok t8 o) <= 52.
Proof.
  intros Hu Htok Ho. rewrite get_size_eq. unfold sum_room, numbers. cbn [foldr].
  rewrite !Ho by done. cbn -[Z.add multi_size]. change (token_len _) with (len tok).
  assert (forall l, Forall is_id l -> 0 <= multi_size (map id_node l) 0 <= 10 * len l) as Hm.
  { induction 1 as [|id l Hid Hl IH]; [done|]. cbn [map multi_size]. rewrite multi_size_eq.
    pose proof (dec_id_length id Hid). unfold COAP_MAX_OPTION_HEADER_LEN, id_node at 1 3. cbn [opt_len length]. lia. }
  destruct (uri_ids_spec u Hu) as [Hids Hlen].
  specialize (Hm (uri_ids u) ltac:(eapply list.Forall_impl; [exact Hids|]; by intros ? [? ?])). lia.
Qed.

(** The first transmission. *)
Lemma first_send {Session CB U W : Type} {HC : Callbacks Session CB U W} (c : lwm2m_context_t Session CB U W)
    pre (t : lwm2m_transaction_t Session CB U) post tv :
  msg_ok (message t) -> max_age (message t) < 2 ^ 24 -> p_size (message t) < 2 ^ 24 ->
  0 < coap_serialize_get_size (message t) < 65536 -> id_ok t ->
  buffer t = None -> ack_received t = false -> retrans_counter t = 0 ->
  0 <= tv -> transactionList c = pre ++ t :: post -> list_strict (pre ++ t :: post) ->
  exists c' t', transaction_send junk tv c (mID t) = Some (0, c') /\
    transactionList c' = pre ++ t' :: post /\ sent c' = sent c ++ [(peerH t, message_bytes (message t))] /\
    called c' = called c /\ live t' /\ mID t' = mID t /\ peerH t' = peerH t /\ callback t' = callback t /\
    ack_received t' = false /\ retrans_counter t' = 2 /\ retrans_time t' = tv + 2 /\
    datagram t' = message_bytes (message t) /\
    userData t' = userData t /\ nextMID c' = nextMID c /\ rest c' = rest c.
Proof.
  intros Hm Hage Hsize Hn Hid Hb Ha Hc Htv Hl Hs. unfold transaction_send. rewrite Hl, find_mid by done. mstep.
  unfold prepare. rewrite Hb. rewrite wrap_small by lia. rewrite (proj2 (Z.eqb_neq _ 0)) by lia.
  rewrite malloc_never_fails. cbn [negb].
  pose proof (options_size (message t) Hm Hage Hsize) as Hopt. pose proof (message_length (message t) Hm) as Hlen.
  pose proof (ok_token _ Hm) as Htok. destruct (ok_wf _ Hm) as (_ & _ & _ & _ & Htl & _).
  pose proof (get_size_eq (message t)) as Hgs. pose proof (ok_payload _ Hm) as Hp.
  set (n := coap_serialize_get_size (message t)) in *.
  assert (4 <= len (message_bytes (message t)) <= n) as Hmb.
  { destruct (payload (message t)); destruct (payload_len (message t) =? 0); lia. }
  pose proof (junk_length n ltac:(lia)) as Hj.
  rewrite (serialize_message_ok (message t) (junk n) Hm) by lia. mstep. rewrite wrap_small by lia.
  rewrite (proj2 (Z.eqb_neq _ 0)) by lia. mstep.
  set (e := message_bytes (message t)) in *. set (b := e ++ drop (length e) (junk n)).
  set (t1 := t <| message := coap_free_header ((message t) <| version := 1 |>) |> <| buffer_len := len e |> <| buffer := Some b |>).
  destruct (store_ok c pre t t1 post Hl Hs eq_refl) as (L1 & S1 & C1 & _).
  assert (list_strict (pre ++ t1 :: post)) as Hs1 by (by eapply strict_replace).
  change (ack_received t1) with (ack_received t). rewrite Ha. cbn [negb].
  change (retrans_counter t1) with (retrans_counter t). rewrite Hc. cbn [Z.eqb]. guards. mstep.
  change (retrans_counter (t1 <| retrans_time := tv + COAP_RESPONSE_TIMEOUT |> <| retrans_counter := 1 |>)) with 1.
  change (1 <=? COAP_MAX_RETRANSMIT + 1) with true. cbn match.
  change (buffer (t1 <| retrans_time := tv + COAP_RESPONSE_TIMEOUT |> <| retrans_counter := 1 |>)) with (Some b). mstep.
  change (buffer_len (t1 <| retrans_time := tv + COAP_RESPONSE_TIMEOUT |> <| retrans_counter := 1 |>)) with (len e).
  pose proof (rd_bytes_app [] e (drop (length e) (junk n)) 0 (len e) eq_refl eq_refl) as Hrd. cbn [app] in Hrd.
  fold b in Hrd. rewrite Hrd. mstep.
  match goal with |- context [send _ ?s _] => change s with (peerH t) end.
  match goal with |- context [store ?x ?y] => set (t2 := y);
    destruct (store_ok x pre t1 t2 post L1 Hs1 eq_refl) as (L2 & S2 & C2 & _) end.
  eexists _, t2. split; [done|]. split; [exact L2|]. rewrite S2, C2. unfold send. cbn [sent called update]. rewrite S1, C1.
  split; [done|]. split; [done|].
  assert (retrans_counter t2 = 2 /\ retrans_time t2 = tv + 2) as [Hrc Hrt].
  { subst t2. cbn. unfold COAP_RESPONSE_TIMEOUT. split; [done|lia]. }
  split; [|split_and!; try done].
  - split; [exact Hid|]. split; [lia|]. exists b. split; [done|].
    change (buffer_len t2) with (len e). subst b. clear. rewrite length_app. lia.
  - unfold datagram. change (buffer t2) with (Some b). change (buffer_len t2) with (len e). cbn [default from_option id].
    subst b. by rewrite Nat2Z.id, take_app_length.
Qed.

(** What the receiver takes the request for. *)
Definition target (p : coap_packet_t) : C (lwm2m_request_type_t * lwm2m_uri_t) :=
  uri_decode None (map opt_value (uri_path p)) (code p).

Lemma fields_read_back p r k : reads_back p r -> k ∈ numbers -> field (packet r) k = field p k.
Proof. intros (_ & _ & _ & _ & _ & _ & H & _) Hk. by rewrite <- !vals_options, H. Qed.

Lemma target_read_back p r u :
  is_uri u -> objectId u <> LWM2M_MAX_ID -> field p 11 = map dec (uri_ids u) -> reads_back p r ->
  target (packet r) = Some (LWM2M_REQUEST_TYPE_DM, uri_of (uri_ids u)).
Proof.
  intros Hu Hobj Hp Hb. pose proof (fields_read_back p r 11 Hb ltac:(unfold numbers; set_unfold; lia)) as Hf.
  rewrite Hp in Hf. unfold target. assert (map opt_value (uri_path (packet r)) = map dec (uri_ids u)) as ->.
  { rewrite <- Hf. unfold field in *. destruct (IS_OPTION (packet r) 11) eqn:E; [done|].
    exfalso. unfold uri_ids in Hf. by rewrite (proj2 (Z.eqb_neq _ _) Hobj) in Hf. }
  by apply uri_path_decoded.
Qed.

Lemma request_path method mid_ u tok t8 o :
  IS_OPTION (request_message method mid_ u tok t8 o) 11 = true ->
  field (request_message method mid_ u tok t8 o) 11 = map dec (uri_ids u).
Proof.
  intros Ho. unfold field. rewrite Ho. cbn. rewrite map_map. apply map_ext_in. intros id _. unfold opt_value. cbn.
  by rewrite Nat2Z.id, firstn_all.
Qed.

(** C34. A request for a URI, built by [transaction_new] with a token and sent by
    [transaction_send], is one datagram; the transaction then waits two seconds
    for an answer.  The peer that parses the datagram finds the same method,
    message id and token, and [uri_decode] finds the same URI in its path. *)
Theorem request_roundtrip {Session CB U W : Type} {HC : Callbacks Session CB U W} tv tail (s : Session) method mid_ u tok :
  is_uri u -> objectId u <> LWM2M_MAX_ID -> 0 < len tok <= 8 -> 1 <= method <= 4 -> 0 <= mid_ < 65536 ->
  exists (t : lwm2m_transaction_t Session CB U),
    transaction_new junk tv tail (Some s) method None (Some u) mid_ (len tok) (Some tok) = Some (Some t) /\
    (forall (c : lwm2m_context_t Session CB U W) pre post now, 0 <= now ->
       transactionList c = pre ++ t :: post -> list_strict (pre ++ t :: post) ->
       exists c' t', transaction_send junk now c mid_ = Some (0, c') /\
         transactionList c' = pre ++ t' :: post /\ sent c' = sent c ++ [(s, message_bytes (message t))] /\
         called c' = called c /\ live t' /\ ack_received t' = false /\ retrans_counter t' = 2 /\
         retrans_time t' = now + 2 /\ datagram t' = message_bytes (message t)) /\
    exists r, coap_parse_message (message_bytes (message t)) (len (message_bytes (message t))) = Some r /\
      status r = NO_ERROR /\ p_type (packet r) = COAP_TYPE_CON /\ code (packet r) = method /\ mid (packet r) = mid_ /\
      token_len (packet r) = len tok /\ take (length tok) (token (packet r)) = tok /\
      target (packet r) = Some (LWM2M_REQUEST_TYPE_DM, uri_of (uri_ids u)).
Proof.
  intros Hu Hobj Htok Hme Hmid.
  destruct (@new_ok Session CB U tv tail s method mid_ u tok Hu Hobj Htok) as (t8 & o & Hnew & Hwf & Ht8 & Ho).
  set (p := request_message method mid_ u tok t8 o) in *.
  pose proof (request_ok method mid_ u tok t8 o Hu Hobj Htok Hme Hmid Hwf Ho) as Hok. fold p in Hok.
  pose proof (request_size method mid_ u tok t8 o Hu Htok Ho) as Hsize. fold p in Hsize.
  eexists. split; [exact Hnew|]. cbn [message]. split.
  - intros c pre post now Hnow Hl Hs.
    match type of Hl with _ = _ ++ ?x :: _ => set (t := x) in * end.
    destruct (first_send c pre t post now Hok) as (c' & t' & H1 & H2 & H3 & H4 & H5 & _ & _ & _ & H6 & H7 & H8 & H9 & _);
      try done; [change (message t) with p; lia|].
    exists c', t'. by split_and!.
  - destruct (message_parsed p malloc_never_fails Hok) as (r & Hr & Hb);
      [by rewrite Ho|left; cbn; lia|].
    pose proof (target_read_back p r u Hu Hobj (request_path _ _ _ _ _ _ (Ho 11 ltac:(done))) Hb) as Ht.
    destruct Hb as (H1 & H2 & H3 & H4 & H5 & H6 & _). exists r. split; [done|]. split; [done|].
    split; [done|]. split; [done|]. split; [done|]. split; [done|].
    change (token_len p) with (len tok) in H6. change (token p) with t8 in H6. by rewrite Nat2Z.id, Ht8 in H6.
Qed.
End request.

Lemma request_roundtrip_witness :
  is_uri (mk_uri 3 0 9 65535) /\
  exists (t : lwm2m_transaction_t Z unit unit),
    @transaction_new Z unit unit malloc_always no_junk 1000 [0; 0] (Some 3) 1 None (Some (mk_uri 3 0 9 65535)) 7 2 (Some [1; 2]) =
      Some (Some t) /\
    exists r, @coap_parse_message malloc_always (message_bytes (message t)) (len (message_bytes (message t))) = Some r /\
      code (packet r) = 1.
Proof.
  assert (is_uri (mk_uri 3 0 9 65535)) as Hu by (by split_and!).
  split; [exact Hu|].
  destruct (@request_roundtrip malloc_always (fun _ => eq_refl) no_junk ltac:(intros n Hn; unfold no_junk; rewrite length_replicate; lia)
    Z unit unit unit (fun _ c _ _ => c) 1000 [0; 0] 3 1 7 (mk_uri 3 0 9 65535) [1; 2] Hu ltac:(done) ltac:(done) ltac:(done) ltac:(done))
    as (t & H1 & _ & r & H2 & _ & _ & H3 & _).
  exists t. split; [exact H1|]. by exists r.
Defined.
End Request.
