(* ===== verification/Block.v ===== *)
(** * Block-wise transfers: reassembly (coap/block.c)

    A peer keeps a list of unfinished transfers, Block1 requests known by their
    URI and Block2 responses known by a message id.  Each transfer holds the
    bytes received so far.

    An [option] around a field of [lwm2m_block_data_t] is C indeterminacy:
    [prv_block_insert] leaves the buffer, its size and the block number of a new
    entry uninitialized, and reading them is undefined. *)
From S2P Require Import Prelude Types.

From stdpp Require Import gmap.
Open Scope Z_scope.
Open Scope c_scope.

Module Block.

Definition LWM2M_COAP_MAX_MESSAGE_SIZE : Z := 2048.
Definition SIZEOF_BLOCK_DATA : Z := 48.

Inductive block_type_t := BLOCK_1 | BLOCK_2.

#[export] Instance block_type_eq_dec : EqDecision block_type_t.
Proof. solve_decision. Defined.

(** The union: a constructor per member, the one written last.  A string is its
    characters, without the terminator; [uri None] is a null pointer. *)
Inductive block_data_identifier_t := id_uri (uri : option (list Z)) | id_mid (mid : Z).

Record lwm2m_block_data_t := mk_block_data {
  blockType : block_type_t;
  identifier : block_data_identifier_t;
  blockBuffer : option (option (list Z));
  blockBufferSize : option Z;
  blockNum : option Z
}.

#[export] Instance block_data_rebuild : Rebuild lwm2m_block_data_t := fun b =>
  mk_block_data (blockType b) (identifier b) (blockBuffer b) (blockBufferSize b) (blockNum b).

(** What a handler leaves in [*outputBuffer] and [*outputLength]: [None] is a
    location that is not written. *)
Record block_output := mk_output { outputBuffer : option (option (list Z)); outputLength : option Z }.

(** ** The list *)

(** Reading the member of the union that was not written is undefined: the bytes
    of a message id are no pointer to a string. *)
Definition prv_matchBlock1 (ident : block_data_identifier_t) (blockData : lwm2m_block_data_t) : C bool :=
  match identifier blockData, ident with
  | id_uri a, id_uri b =>
      match a, b with
      | Some a, Some b => ret (bool_decide (b = a))
      | _, _ => ret false
      end
  | _, _ => None
  end.

Definition prv_matchBlock2 (ident : block_data_identifier_t) (blockData : lwm2m_block_data_t) : C bool :=
  match identifier blockData, ident with
  | id_mid a, id_mid b => ret (b =? a)
  | _, _ => None
  end.

Definition prv_get_matcher (ty : block_type_t) : block_data_identifier_t -> lwm2m_block_data_t -> C bool :=
  match ty with
  | BLOCK_1 => prv_matchBlock1
  | BLOCK_2 => prv_matchBlock2
  end.

(** A pointer to an entry is its position. *)
Fixpoint find_block_data (blockDataHead : list lwm2m_block_data_t) (ident : block_data_identifier_t)
    (ty : block_type_t) : C (option nat) :=
  match blockDataHead with
  | [] => ret None
  | blockData :: rest =>
      m ← prv_get_matcher ty ident blockData;
      if m : bool then ret (Some O)
      else r ← find_block_data rest ident ty; ret (option_map S r)
  end.

Section operations.
Context `{HM : Malloc}.

(** [lwm2m_strdup]: a null pointer has no copy. *)
Definition lwm2m_strdup (s : option (list Z)) : option (list Z) :=
  match s with
  | Some s => if malloc_ok (len s + 1) then Some s else None
  | None => None
  end.

(** The new entry is the head of the list; [None] when there is no memory. *)
Definition prv_block_insert (l : list lwm2m_block_data_t) (ident : block_data_identifier_t) (ty : block_type_t)
    : option (list lwm2m_block_data_t) :=
  if negb (malloc_ok SIZEOF_BLOCK_DATA) then None
  else
    let ident := match ty, ident with
                 | BLOCK_1, id_uri u => id_uri (lwm2m_strdup u)
                 | _, _ => ident
                 end in
    Some (mk_block_data ty ident None None None :: l).

(** Reads the pointers it frees. *)
Definition free_block_data (blockData : lwm2m_block_data_t) : C unit :=
  _ ← blockBuffer blockData;
  match blockType blockData, identifier blockData with
  | BLOCK_1, id_mid _ => None
  | _, _ => ret tt
  end.

(** The head is replaced, or the predecessor of the entry is sought. *)
Fixpoint unlink (l : list lwm2m_block_data_t) (removed : nat) : list lwm2m_block_data_t :=
  match l, removed with
  | [], _ => []
  | _ :: rest, O => rest
  | target :: rest, S removed => target :: unlink rest removed
  end.

Definition prv_block_data_delete (l : list lwm2m_block_data_t) (ident : block_data_identifier_t) (ty : block_type_t)
    : C (list lwm2m_block_data_t) :=
  r ← find_block_data l ident ty;
  match r with
  | None => ret l
  | Some removed =>
      b ← l !! removed;
      _ ← free_block_data b;
      ret (unlink l removed)
  end.

(** ** The handler *)

(** The answer to a block that is stored. *)
Definition block_answer (l : list lwm2m_block_data_t) (i : nat) (blockMore : bool)
    : C (Z * list lwm2m_block_data_t * block_output) :=
  if blockMore then ret (COAP_231_CONTINUE, l, mk_output None (Some UINT64_MAX))
  else
    blockData ← l !! i;
    n ← blockBufferSize blockData;
    buf ← blockBuffer blockData;
    ret (COAP_NO_ERROR, l, mk_output (Some buf) (Some n)).

Definition no_output : block_output := mk_output None None.

Definition prv_coap_block_handler (l : list lwm2m_block_data_t) (ident : block_data_identifier_t) (ty : block_type_t)
    (buffer : list Z) (length_ blockSize num : Z) (blockMore : bool) : C (Z * list lwm2m_block_data_t * block_output) :=
  r ← find_block_data l ident ty;
  if num =? 0 then
    '(l, r) ← match r with
              | None =>
                  ret (match prv_block_insert l ident ty with
                       | Some l => (l, Some O)
                       | None => (l, None)
                       end)
              | Some i =>
                  blockData ← l !! i;
                  _ ← blockBuffer blockData;
                  ret (<[i := blockData <| blockBuffer := Some None |> <| blockBufferSize := Some 0 |>]> l, Some i)
              end;
    if negb (malloc_ok length_) then ret (COAP_500_INTERNAL_SERVER_ERROR, l, no_output)
    else
      i ← r;
      blockData ← l !! i;
      data ← rd_bytes buffer 0 length_;
      let blockData := blockData <| blockBuffer := Some (Some data) |> <| blockBufferSize := Some length_ |>
                         <| blockNum := Some num |> in
      block_answer (<[i := blockData]> l) i blockMore
  else
    match r with
    | None => ret (COAP_408_REQ_ENTITY_INCOMPLETE, l, no_output)
    | Some i =>
        blockData ← l !! i;
        n ← blockNum blockData;
        if num <=? n then ret (COAP_RETRANSMISSION, l, no_output)
        else if num =? u32 (n + 1) then
          oldBuffer ← blockBuffer blockData;
          oldSize ← blockBufferSize blockData;
          if negb (oldSize =? blockSize * num) then ret (COAP_408_REQ_ENTITY_INCOMPLETE, l, no_output)
          else
            let new_size := u64 (oldSize + length_) in
            if LWM2M_COAP_MAX_MESSAGE_SIZE <? new_size then ret (COAP_413_ENTITY_TOO_LARGE, l, no_output)
            else if negb (malloc_ok new_size) then
              let blockData := blockData <| blockBufferSize := Some new_size |> <| blockBuffer := Some None |> in
              ret (COAP_500_INTERNAL_SERVER_ERROR, <[i := blockData]> l, no_output)
            else
              old ← (if oldSize =? 0 then ret [] else b ← oldBuffer; rd_bytes b 0 oldSize);
              data ← rd_bytes buffer 0 length_;
              let blockData := blockData <| blockBufferSize := Some new_size |> <| blockBuffer := Some (Some (old ++ data)) |>
                                 <| blockNum := Some num |> in
              block_answer (<[i := blockData]> l) i blockMore
        else block_answer l i blockMore
    end.

Definition block1_create (l : list lwm2m_block_data_t) (uri : option (list Z)) : option (list lwm2m_block_data_t) :=
  prv_block_insert l (id_uri uri) BLOCK_1.

Definition block1_delete (l : list lwm2m_block_data_t) (uri : option (list Z)) : C (list lwm2m_block_data_t) :=
  prv_block_data_delete l (id_uri uri) BLOCK_1.

Definition coap_block1_handler (l : list lwm2m_block_data_t) (uri : option (list Z)) (buffer : list Z)
    (length_ blockSize num : Z) (blockMore : bool) : C (Z * list lwm2m_block_data_t * block_output) :=
  prv_coap_block_handler l (id_uri uri) BLOCK_1 buffer length_ blockSize num blockMore.

Definition block2_create (l : list lwm2m_block_data_t) (mid : Z) : option (list lwm2m_block_data_t) :=
  prv_block_insert l (id_mid mid) BLOCK_2.

Definition block2_delete (l : list lwm2m_block_data_t) (mid : Z) : C (list lwm2m_block_data_t) :=
  prv_block_data_delete l (id_mid mid) BLOCK_2.

Definition coap_block2_set_expected_mid (l : list lwm2m_block_data_t) (currentMid expectedMid : Z)
    : C (list lwm2m_block_data_t) :=
  r ← find_block_data l (id_mid currentMid) BLOCK_2;
  match r with
  | None => ret l
  | Some i =>
      blockData ← l !! i;
      ret (<[i := blockData <| identifier := id_mid expectedMid |>]> l)
  end.

Definition coap_block2_handler (l : list lwm2m_block_data_t) (mid : Z) (buffer : list Z)
    (length_ blockSize num : Z) (blockMore : bool) : C (Z * list lwm2m_block_data_t * block_output) :=
  prv_coap_block_handler l (id_mid mid) BLOCK_2 buffer length_ blockSize num blockMore.
End operations.

(** ** The abstract reassembly

    The transfers of one kind as a finite map from keys (URIs or message ids) to
    the bytes received and the number of the last block. *)
Abbreviation key := (list Z + Z)%type.
Abbreviation transfers := (gmap key (list Z * Z)).

Definition kind_of (k : key) : block_type_t := match k with inl _ => BLOCK_1 | inr _ => BLOCK_2 end.
Definition ident_of (k : key) : block_data_identifier_t :=
  match k with inl u => id_uri (Some u) | inr m => id_mid m end.

(** The code of the answer, the transfers, and the payload that is complete. *)
Definition spec_answer (m : transfers) (k : key) (more : bool) : Z * transfers * option (list Z) :=
  if more then (COAP_231_CONTINUE, m, None) else (COAP_NO_ERROR, m, fst <$> m !! k).

Definition spec_block (m : transfers) (k : key) (data : list Z) (blockSize num : Z) (more : bool)
    : Z * transfers * option (list Z) :=
  if num =? 0 then spec_answer (<[k := (data, 0)]> m) k more
  else
    match m !! k with
    | None => (COAP_408_REQ_ENTITY_INCOMPLETE, m, None)
    | Some (b, n) =>
        if num <=? n then (COAP_RETRANSMISSION, m, None)
        else if num =? n + 1 then
          if negb (len b =? blockSize * num) then (COAP_408_REQ_ENTITY_INCOMPLETE, m, None)
          else if LWM2M_COAP_MAX_MESSAGE_SIZE <? len b + len data then (COAP_413_ENTITY_TOO_LARGE, m, None)
          else spec_answer (<[k := (b ++ data, num)]> m) k more
        else spec_answer m k more
    end.

(** The list that stands for given transfers. *)
Definition entry (kv : key * (list Z * Z)) : lwm2m_block_data_t :=
  let '(k, (b, n)) := kv in
  mk_block_data (kind_of k) (ident_of k) (Some (Some b)) (Some (len b)) (Some n).

Definition transfer_ok (ty : block_type_t) (kv : key * (list Z * Z)) : Prop :=
  kind_of kv.1 = ty /\ len kv.2.1 < 2 ^ 32 /\ 0 <= kv.2.2 < 2 ^ 32 - 1.

Definition represents (ty : block_type_t) (l : list lwm2m_block_data_t) (m : transfers) : Prop :=
  exists kvs, l = map entry kvs /\ NoDup kvs.*1 /\ Forall (transfer_ok ty) kvs /\ m = list_to_map kvs.

(** The code's two output locations for an abstract result. *)
Definition output_of (code : Z) (r : option (list Z)) : block_output :=
  match r with
  | Some b => mk_output (Some (Some b)) (Some (len b))
  | None => if code =? COAP_231_CONTINUE then mk_output None (Some UINT64_MAX) else no_output
  end.

(** ** Lemmas *)

Lemma match_ok ty k kv : kind_of k = ty -> kind_of kv.1 = ty ->
  prv_get_matcher ty (ident_of k) (entry kv) = Some (bool_decide (k = kv.1)).
Proof.
  destruct kv as [k' [b n]]. intros <- H. destruct k as [u|i], k' as [u'|i']; try discriminate H; cbn.
  - do 2 f_equal. apply bool_decide_ext. naive_solver.
  - f_equal. destruct (i =? i') eqn:E; symmetry; [apply bool_decide_true|apply bool_decide_false]; [f_equal; lia|].
    intros [= ->]. lia.
Qed.

(** Where an entry is found, and what the map says of it. *)
Lemma find_ok ty k : kind_of k = ty -> forall kvs, Forall (transfer_ok ty) kvs ->
  (exists pre v post, kvs = pre ++ (k, v) :: post /\
     find_block_data (map entry kvs) (ident_of k) ty = Some (Some (length pre)) /\
     (list_to_map kvs : transfers) !! k = Some v) \/
  ((k ∉ kvs.*1) /\ find_block_data (map entry kvs) (ident_of k) ty = Some None /\
     (list_to_map kvs : transfers) !! k = None).
Proof.
  intros Hk. induction 1 as [|kv kvs Hkv Hkvs IH]; [right; split_and!; [by apply not_elem_of_nil|done|done]|].
  destruct Hkv as (Hty & _). cbn [map find_block_data]. rewrite match_ok by done. mstep.
  destruct kv as [k' v]. cbn [fst] in *. destruct (bool_decide_reflect (k = k')) as [->|Hne].
  - left. exists [], v, kvs. split_and!; [done|done|]. cbn [list_to_map foldr]. by rewrite lookup_insert_eq.
  - destruct IH as [(pre & v' & post & -> & -> & Hm)|(Hn & -> & Hm)]; mstep.
    + left. exists ((k', v) :: pre), v', post. split_and!; [done|done|]. cbn. by rewrite lookup_insert_ne.
    + right. split_and!; [|done|].
      * cbn. rewrite not_elem_of_cons. naive_solver.
      * cbn. by rewrite lookup_insert_ne.
Qed.

Lemma entries_lookup pre kv post : map entry (pre ++ kv :: post) !! length pre = Some (entry kv).
Proof. rewrite map_app. apply list_lookup_middle. by rewrite length_map. Qed.

Lemma entries_bound pre kv post : (length pre < length (map entry (pre ++ kv :: post)))%nat.
Proof. rewrite length_map, length_app, length_cons. apply Nat.lt_add_pos_r, Nat.lt_0_succ. Qed.

Lemma entries_insert pre kv post b kv' : b = entry kv' ->
  <[length pre := b]> (map entry (pre ++ kv :: post)) = map entry (pre ++ kv' :: post).
Proof.
  intros ->. rewrite !map_app. rewrite insert_app_r_alt by (by rewrite length_map).
  by rewrite length_map, Nat.sub_diag.
Qed.

(** Replacing the value of a key, and a new key at the head. *)
Lemma represents_update ty pre k v v' post : NoDup (pre ++ (k, v) :: post).*1 ->
  Forall (transfer_ok ty) (pre ++ (k, v) :: post) -> transfer_ok ty (k, v') ->
  represents ty (map entry (pre ++ (k, v') :: post)) (<[k := v']> (list_to_map (pre ++ (k, v) :: post))).
Proof.
  intros Hd Hok Hv. exists (pre ++ (k, v') :: post). split_and!.
  - done.
  - by rewrite fmap_app in *.
  - apply Forall_app in Hok as [H1 H2]. apply list.Forall_cons_1 in H2 as [_ H2].
    apply Forall_app_2; [done|]. by apply list.Forall_cons_2.
  - rewrite fmap_app, fmap_cons in Hd. apply NoDup_app in Hd as (_ & Hn & Hd). apply NoDup_cons in Hd as [Hk _].
    assert (k ∉ pre.*1) as Hp by (intros Hin; apply (Hn k Hin); by apply list_elem_of_here).
    rewrite !list_to_map_app. cbn. rewrite <- !insert_union_r by (by apply not_elem_of_list_to_map).
    by rewrite insert_insert_eq.
Qed.

Lemma represents_new ty k v kvs : NoDup kvs.*1 -> Forall (transfer_ok ty) kvs -> transfer_ok ty (k, v) -> (k ∉ kvs.*1) ->
  represents ty (map entry ((k, v) :: kvs)) (<[k := v]> (list_to_map kvs)).
Proof.
  intros Hd Hok Hv Hk. exists ((k, v) :: kvs). split_and!; [done| |by apply list.Forall_cons_2|done].
  cbn. by apply NoDup_cons.
Qed.

(** ** The handler implements the abstract reassembly *)
Section refinement.
Context `{HM : Malloc} (malloc_never_fails : forall n, malloc_ok n = true).

(** Storing a block in the entry found, then the answer. *)
Lemma answer_ok ty l m i k v more : represents ty l m -> l !! i = Some (entry (k, v)) -> m !! k = Some v ->
  let '(code, m', r) := spec_answer m k more in
  block_answer l i more = Some (code, l, output_of code r) /\ m' = m.
Proof.
  intros Hr Hi Hm. unfold spec_answer, block_answer. destruct more; [done|]. rewrite Hi. mstep.
  destruct v as [b n]. cbn [blockBufferSize blockBuffer entry mbind option_bind]. by rewrite Hm.
Qed.

Lemma stored_ok ty pre k v b n post more : kind_of k = ty ->
  NoDup (pre ++ (k, v) :: post).*1 -> Forall (transfer_ok ty) (pre ++ (k, v) :: post) -> transfer_ok ty (k, (b, n)) ->
  forall l', l' = map entry (pre ++ (k, (b, n)) :: post) ->
  exists l'', 
  let '(code, m', r) := spec_answer (<[k := (b, n)]> (list_to_map (pre ++ (k, v) :: post))) k more in
  block_answer l' (length pre) more = Some (code, l'', output_of code r) /\ represents ty l'' m'.
Proof.
  intros Hk Hd Hok Hv l' ->. pose proof (represents_update ty pre k v (b, n) post Hd Hok Hv) as Hr.
  pose proof (answer_ok ty _ _ (length pre) k (b, n) more Hr (entries_lookup _ _ _) (lookup_insert_eq _ _ _)) as Ha.
  exists (map entry (pre ++ (k, (b, n)) :: post)).
  destruct (spec_answer _ _ _) as [[code m'] r]. destruct Ha as [-> ->]. done.
Qed.

Lemma handler_ok ty l m k buffer length_ blockSize num more :
  represents ty l m -> kind_of k = ty -> 0 <= length_ <= len buffer -> length_ < 2 ^ 32 -> 0 <= num < 2 ^ 32 - 1 ->
  exists l',
    let '(code, m', r) := spec_block m k (take (Z.to_nat length_) buffer) blockSize num more in
    prv_coap_block_handler l (ident_of k) ty buffer length_ blockSize num more = Some (code, l', output_of code r) /\
    represents ty l' m'.
Proof.
  intros (kvs & -> & Hd & Hok & ->) Hk Hlen Hsmall Hnum. unfold prv_coap_block_handler, spec_block.
  set (data := take (Z.to_nat length_) buffer).
  assert (len data = length_) as Hdata by (subst data; lens).
  assert (rd_bytes buffer 0 length_ = Some data) as Hrd by (unfold rd_bytes; by guards).
  rewrite Hrd, !malloc_never_fails. clearbody data. cbn [negb].
  destruct (find_ok ty k Hk kvs Hok) as [(pre & [b n] & post & -> & -> & Hm)|(Hn & -> & Hm)]; mstep.
  - rewrite entries_lookup. mstep. cbn [blockBuffer entry blockNum mbind option_bind blockBufferSize].
    assert (transfer_ok ty (k, (b, n))) as (_ & Hb & Hbn).
    { apply Forall_app in Hok as [_ Ho]. by apply list.Forall_cons_1 in Ho as [? _]. }
    cbn [fst snd] in Hb, Hbn. rewrite Hm. destruct (num =? 0) eqn:E0.
    + rewrite list_lookup_insert_eq by apply entries_bound. mstep.
      apply (stored_ok ty pre k (b, n) data 0 post more Hk Hd Hok); [by split; cbn; [done|lia]|].
      rewrite list_insert_insert_eq. apply entries_insert. unfold entry. rewrite <- Hdata.
      by replace num with 0 by lia.
    + destruct (num <=? n) eqn:E1.
      { eexists. split; [done|]. by exists (pre ++ (k, (b, n)) :: post). }
      rewrite (wrap_small 32 (n + 1)) by lia. destruct (num =? n + 1) eqn:E2.
      * destruct (len b =? blockSize * num) eqn:E3; cbn [negb];
          [|eexists; split; [done|]; by exists (pre ++ (k, (b, n)) :: post)].
        rewrite wrap_small by lia. rewrite Hdata.
        destruct (LWM2M_COAP_MAX_MESSAGE_SIZE <? len b + length_) eqn:E4;
          [eexists; split; [done|]; by exists (pre ++ (k, (b, n)) :: post)|].
        unfold LWM2M_COAP_MAX_MESSAGE_SIZE in E4. rewrite malloc_never_fails. cbn [negb].
        assert ((if len b =? 0 then ret [] else rd_bytes b 0 (len b)) = Some b) as ->.
        { destruct (len b =? 0) eqn:E5; [destruct b; [done|cbn in E5; lia]|]. apply rd_bytes_all. }
        mstep. apply (stored_ok ty pre k (b, n) (b ++ data) num post more Hk Hd Hok).
        { split; [done|]. cbn [fst snd]. rewrite length_app. lia. }
        apply entries_insert. unfold entry. by rewrite length_app, <- Hdata, Nat2Z.inj_add.
      * eexists. pose proof (answer_ok ty (map entry (pre ++ (k, (b, n)) :: post))
          (list_to_map (pre ++ (k, (b, n)) :: post)) (length pre) k (b, n) more) as Ha.
        assert (represents ty (map entry (pre ++ (k, (b, n)) :: post)) (list_to_map (pre ++ (k, (b, n)) :: post))) as Hr
          by (by exists (pre ++ (k, (b, n)) :: post)).
        specialize (Ha Hr (entries_lookup _ _ _) Hm).
        destruct (spec_answer _ _ _) as [[code m'] r]. destruct Ha as [-> ->]. by split.
  - rewrite Hm. destruct (num =? 0) eqn:E0; [|eexists; split; [done|]; by exists kvs].
    unfold prv_block_insert. rewrite malloc_never_fails. cbn [negb]. mstep. cbn [lookup list_lookup].
    mstep. cbn [insert list_insert].
    assert (transfer_ok ty (k, (data, 0))) as Hnew by (split; cbn; [done|lia]).
    pose proof (represents_new ty k (data, 0) kvs Hd Hok Hnew Hn) as Hr.
    pose proof (answer_ok ty _ _ 0 k (data, 0) more Hr eq_refl (lookup_insert_eq _ _ _)) as Ha.
    exists (map entry ((k, (data, 0)) :: kvs)).
    destruct (spec_answer _ _ _) as [[code m'] r]. destruct Ha as [Ha ->]. split; [|done]. rewrite <- Ha.
    f_equal. cbn. f_equal. unfold entry. rewrite Hdata. replace num with 0 by lia.
    destruct k; subst ty; cbn; by rewrite ?malloc_never_fails.
Qed.

(** Removal and renaming. *)
Lemma unlink_ok pre kv post : unlink (map entry (pre ++ kv :: post)) (length pre) = map entry (pre ++ post).
Proof. induction pre as [|x pre IH]; [done|]. cbn [app map length unlink]. by rewrite IH. Qed.

Lemma represents_delete ty pre k v post : NoDup (pre ++ (k, v) :: post).*1 ->
  Forall (transfer_ok ty) (pre ++ (k, v) :: post) ->
  represents ty (map entry (pre ++ post)) (delete k (list_to_map (pre ++ (k, v) :: post))).
Proof.
  intros Hd Hok. exists (pre ++ post). rewrite fmap_app, fmap_cons in Hd. apply NoDup_app in Hd as (Hd1 & Hn & Hd2).
  apply NoDup_cons in Hd2 as [Hk Hd2]. assert (k ∉ (pre.*1)) as Hp by (intros Hin; apply (Hn k Hin); by apply list_elem_of_here).
  apply Forall_app in Hok as [H1 H2]. apply list.Forall_cons_1 in H2 as [_ H2]. split_and!.
  - done.
  - rewrite fmap_app. apply NoDup_app. split_and!; [done| |done]. intros x Hx. specialize (Hn x Hx).
    by apply not_elem_of_cons in Hn as [_ ?].
  - by apply Forall_app_2.
  - rewrite !list_to_map_app. cbn. rewrite <- insert_union_r by (by apply not_elem_of_list_to_map).
    rewrite delete_insert_id; [done|]. apply lookup_union_None. by split; apply not_elem_of_list_to_map.
Qed.

Lemma delete_ok ty l m k : represents ty l m -> kind_of k = ty ->
  exists l', prv_block_data_delete l (ident_of k) ty = Some l' /\ represents ty l' (delete k m).
Proof.
  intros (kvs & -> & Hd & Hok & ->) Hk. unfold prv_block_data_delete.
  destruct (find_ok ty k Hk kvs Hok) as [(pre & [b n] & post & -> & -> & Hm)|(Hn & -> & Hm)]; mstep.
  - rewrite entries_lookup. mstep. eexists. split; [|by apply (represents_delete ty pre k (b, n))].
    rewrite unlink_ok. destruct k; subst ty; done.
  - eexists. split; [done|]. rewrite delete_id by done. by exists kvs.
Qed.

(** ** A transfer *)

(** Block [i] of a payload. *)
Definition block_of (payload : list Z) (blockSize i : Z) : list Z :=
  take (Z.to_nat blockSize) (drop (Z.to_nat (blockSize * i)) payload).

Definition last_block (payload : list Z) (blockSize : Z) : Z := (len payload - 1) / blockSize.

(** The blocks arrive with the numbers [sched]: the codes answered, the list of
    transfers and the last outputs. *)
Fixpoint receive (l : list lwm2m_block_data_t) (uri payload : list Z) (blockSize : Z) (sched : list Z) (out : block_output)
    : C (list Z * list lwm2m_block_data_t * block_output) :=
  match sched with
  | [] => ret ([], l, out)
  | i :: sched =>
      let data := block_of payload blockSize i in
      '(code, l, out) ← coap_block1_handler l (Some uri) data (len data) blockSize i (i <? last_block payload blockSize);
      '(codes, l, out) ← receive l uri payload blockSize sched out;
      ret (code :: codes, l, out)
  end.

(** Each block follows the last new one, or repeats an earlier block; block 0 is
    not repeated once block 1 has arrived. *)
Fixpoint in_order (cur : Z) (sched : list Z) : bool :=
  match sched with
  | [] => true
  | i :: sched =>
      ((i =? cur + 1) && in_order (cur + 1) sched) ||
      ((0 <=? i) && (i <=? cur) && (negb (i =? 0) || (cur =? 0)) && in_order cur sched)
  end.

Lemma in_order_cons cur i s : in_order cur (i :: s) = true ->
  (i = cur + 1 \/ (0 <= i <= cur /\ (i <> 0 \/ cur = 0))) /\ in_order (Z.max cur i) s = true.
Proof.
  cbn [in_order]. intros [H|H]%orb_true_iff; apply andb_true_iff in H as [H1 H2].
  - split; [lia|]. by replace (Z.max cur i) with (cur + 1) by lia.
  - split; [lia|]. by replace (Z.max cur i) with cur by lia.
Qed.

Lemma last_block_bound (payload : list Z) blockSize : 0 < len payload -> 0 < blockSize ->
  0 <= last_block payload blockSize < len payload /\
  blockSize * last_block payload blockSize < len payload <= blockSize * (last_block payload blockSize + 1).
Proof.
  intros Hp Hb. unfold last_block. pose proof (Z.div_mod (len payload - 1) blockSize ltac:(lia)) as Hdm.
  pose proof (Z.mod_pos_bound (len payload - 1) blockSize ltac:(lia)).
  pose proof (Z.div_pos (len payload - 1) blockSize ltac:(lia) ltac:(lia)). nia.
Qed.

(** The blocks up to number [i]. *)
Definition blocks_upto (payload : list Z) (blockSize i : Z) : list Z := take (Z.to_nat (blockSize * (i + 1))) payload.

Lemma blocks_next (payload : list Z) blockSize i : 0 <= i -> 0 < blockSize ->
  blocks_upto payload blockSize i = blocks_upto payload blockSize (i - 1) ++ block_of payload blockSize i.
Proof.
  intros Hi Hb. unfold blocks_upto, block_of. replace (blockSize * (i + 1)) with (blockSize * i + blockSize) by lia.
  replace (i - 1 + 1) with i by lia. rewrite Z2Nat.inj_add by nia.
  by rewrite take_take_drop.
Qed.

Section transfer.
Context (payload uri : list Z) (blockSize : Z).
Context (Hpayload : 0 < len payload <= LWM2M_COAP_MAX_MESSAGE_SIZE) (HblockSize : 0 < blockSize).

Let last := last_block payload blockSize.

Lemma block_length i : 0 <= i -> len (block_of payload blockSize i) <= blockSize.
Proof. intros Hi. unfold block_of. rewrite length_take. lia. Qed.

Lemma upto_length i : 0 <= i < last -> len (blocks_upto payload blockSize i) = blockSize * (i + 1).
Proof.
  intros Hi. pose proof (last_block_bound payload blockSize ltac:(lia) HblockSize). subst last.
  unfold blocks_upto. rewrite length_take. nia.
Qed.

Lemma upto_last : blocks_upto payload blockSize last = payload.
Proof.
  pose proof (last_block_bound payload blockSize ltac:(lia) HblockSize). subst last.
  unfold blocks_upto. apply take_ge. lia.
Qed.

Lemma upto_neg : blocks_upto payload blockSize (-1) = [].
Proof. unfold blocks_upto. by rewrite Z.mul_0_r. Qed.

(** What the receiver holds after block [cur]. *)
Definition received (m : transfers) (cur : Z) : transfers :=
  if cur =? -1 then m else <[inl uri := (blocks_upto payload blockSize cur, cur)]> m.

(** The abstract step on block [i] of the payload. *)
Lemma spec_one m cur i : -1 <= cur < last -> i = cur + 1 \/ (0 <= i <= cur /\ (i <> 0 \/ cur = 0)) ->
  spec_block (received m cur) (inl uri) (block_of payload blockSize i) blockSize i (i <? last) =
    if i =? cur + 1 then spec_answer (received m i) (inl uri) (i <? last)
    else if i =? 0 then spec_answer (received m 0) (inl uri) (i <? last)
    else (COAP_RETRANSMISSION, received m cur, None).
Proof.
  intros Hcur Hi. unfold LWM2M_COAP_MAX_MESSAGE_SIZE in Hpayload.
  pose proof (blocks_next payload blockSize i ltac:(lia) HblockSize) as Hnext.
  unfold spec_block, received. destruct (i =? 0) eqn:E0.
  - replace i with 0 in * by lia. rewrite Hnext. change (0 - 1) with (-1). rewrite upto_neg. cbn [app].
    destruct (cur =? -1) eqn:E1; [replace cur with (-1) by lia; done|].
    replace cur with 0 by lia. cbn [Z.eqb]. by rewrite insert_insert_eq.
  - rewrite (proj2 (Z.eqb_neq cur (-1))) by lia. rewrite (proj2 (Z.eqb_neq i (-1))) by lia.
    rewrite lookup_insert_eq. destruct (i =? cur + 1) eqn:E1.
    + guards. replace (i - 1) with cur in Hnext by lia.
      rewrite upto_length by lia. rewrite (proj2 (Z.eqb_eq _ _)) by nia. cbn [negb].
      assert (len (blocks_upto payload blockSize i) <= len payload) as Hu by (unfold blocks_upto; rewrite length_take; lia).
      rewrite Hnext in Hu at 1. rewrite length_app in Hu. rewrite <- (upto_length cur) by lia.
      unfold LWM2M_COAP_MAX_MESSAGE_SIZE. guards. by rewrite insert_insert_eq, <- Hnext.
    + by guards.
Qed.

Lemma receive_one l m cur i : -1 <= cur < last ->
  represents BLOCK_1 l (received m cur) ->
  i = cur + 1 \/ (0 <= i <= cur /\ (i <> 0 \/ cur = 0)) ->
  exists l' code r,
    let data := block_of payload blockSize i in
    coap_block1_handler l (Some uri) data (len data) blockSize i (i <? last) = Some (code, l', output_of code r) /\
    represents BLOCK_1 l' (received m (Z.max cur i)) /\
    (i < last -> code ∈ [COAP_231_CONTINUE; COAP_RETRANSMISSION]) /\
    (i = last -> code = COAP_NO_ERROR /\ r = Some payload).
Proof.
  intros Hcur Hr Hi. pose proof (last_block_bound payload blockSize ltac:(lia) HblockSize) as Hlast. fold last in Hlast.
  unfold LWM2M_COAP_MAX_MESSAGE_SIZE in Hpayload.
  pose proof (block_length i ltac:(lia)) as Hbl.
  assert (len (block_of payload blockSize i) <= len payload) as Hbp.
  { unfold block_of. rewrite length_take, length_drop. lia. }
  destruct (handler_ok BLOCK_1 l (received m cur) (inl uri) (block_of payload blockSize i) (len (block_of payload blockSize i))
    blockSize i (i <? last) Hr eq_refl) as (l' & Hl); [lia|lia|lia|].
  rewrite Nat2Z.id, firstn_all in Hl. exists l'.
  rewrite (spec_one m cur i Hcur Hi) in Hl. unfold spec_answer in Hl.
  assert (forall x, 0 <= x -> received m x !! inl uri = Some (blocks_upto payload blockSize x, x)) as Hlook.
  { intros x Hx. unfold received. guards. apply lookup_insert_eq. }
  destruct (i =? cur + 1) eqn:E1; [|destruct (i =? 0) eqn:E0].
  - replace (Z.max cur i) with i by lia. destruct (i <? last) eqn:E2; destruct Hl as [Hl Hrep]; eexists _, _.
    + split; [exact Hl|]. split; [exact Hrep|]. split; [intros; by apply list_elem_of_here|lia].
    + split; [exact Hl|]. split; [exact Hrep|]. split; [lia|]. intros ->. split; [done|].
      rewrite Hlook by lia. cbn. by rewrite upto_last.
  - assert (cur = 0) as -> by lia. replace (Z.max 0 i) with 0 by lia. replace i with 0 in * by lia.
    destruct (0 <? last) eqn:E2; [|lia]. destruct Hl as [Hl Hrep]. eexists _, _.
    split; [exact Hl|]. split; [exact Hrep|]. split; [intros; by apply list_elem_of_here|lia].
  - replace (Z.max cur i) with cur by lia. destruct Hl as [Hl Hrep]. eexists _, _.
    split; [exact Hl|]. split; [exact Hrep|]. split; [|lia]. intros _. apply list_elem_of_further, list_elem_of_here.
Qed.

Lemma receive_ok s : last ∉ s -> Forall (fun i => 0 <= i) s -> forall l m cur out,
  -1 <= cur < last -> represents BLOCK_1 l (received m cur) -> in_order cur (s ++ [last]) = true ->
  exists codes l',
    receive l uri payload blockSize (s ++ [last]) out =
      Some (codes ++ [COAP_NO_ERROR], l', mk_output (Some (Some payload)) (Some (len payload))) /\
    length codes = length s /\ Forall (fun code => code ∈ [COAP_231_CONTINUE; COAP_RETRANSMISSION]) codes /\
    represents BLOCK_1 l' (<[inl uri := (payload, last)]> m).
Proof.
  induction s as [|i s IH]; intros Hs Hpos l m cur out Hcur Hr Ho; cbn [app receive] in *; fold last.
  - destruct (in_order_cons cur last [] Ho) as [Hl _].
    destruct (receive_one l m cur last Hcur Hr Hl) as (l' & code & r & Hh & Hrep & _ & Hdone).
    destruct (Hdone eq_refl) as [-> ->]. cbn zeta in Hh. rewrite Hh. mstep. exists [], l'.
    split_and!; [done|done|by apply list.Forall_nil_2|]. revert Hrep. unfold received.
    replace (Z.max cur last) with last by lia. guards. by rewrite upto_last.
  - apply not_elem_of_cons in Hs as [Hi Hs]. apply list.Forall_cons_1 in Hpos as [Hi0 Hpos].
    destruct (in_order_cons cur i (s ++ [last]) Ho) as [Hi' Ho'].
    destruct (receive_one l m cur i Hcur Hr Hi') as (l1 & code & r & Hh & Hrep & Hcode & _).
    cbn zeta in Hh. rewrite Hh. mstep.
    destruct (IH Hs Hpos l1 m (Z.max cur i) (output_of code r) ltac:(lia) Hrep Ho')
      as (codes & l' & -> & Hlen & Hcodes & Hrep'). mstep.
    exists (code :: codes), l'. split_and!; [done|cbn; by rewrite Hlen| |done].
    apply list.Forall_cons_2; [|done]. apply Hcode. lia.
Qed.
End transfer.

(** C37. The handlers of block-wise transfers implement a finite map from URIs
    (Block1) or message ids (Block2) to the bytes received: a first block starts a
    transfer, the next block is appended when the sizes agree and the result is
    not too large, an old block is a retransmission, and the last block delivers
    the bytes collected; removal removes the key.  No other transfer changes. *)
Theorem block_handler_refines l m (k : key) buffer length_ blockSize num more :
  represents (kind_of k) l m -> 0 <= length_ <= len buffer -> length_ < 2 ^ 32 -> 0 <= num < 2 ^ 32 - 1 ->
  (exists l',
    let '(code, m', r) := spec_block m k (take (Z.to_nat length_) buffer) blockSize num more in
    match k with
    | inl uri => coap_block1_handler l (Some uri) buffer length_ blockSize num more
    | inr mid => coap_block2_handler l mid buffer length_ blockSize num more
    end = Some (code, l', output_of code r) /\
    represents (kind_of k) l' m') /\
  exists l',
    match k with inl uri => block1_delete l (Some uri) | inr mid => block2_delete l mid end = Some l' /\
    represents (kind_of k) l' (delete k m).
Proof.
  intros Hr Hlen Hsmall Hnum. split.
  - destruct (handler_ok (kind_of k) l m k buffer length_ blockSize num more Hr eq_refl Hlen Hsmall Hnum) as [l' Hl].
    exists l'. by destruct k.
  - destruct (delete_ok (kind_of k) l m k Hr eq_refl) as (l' & Hl & Hrep). exists l'. by destruct k.
Qed.

(** A payload cut into blocks is delivered complete by [coap_block1_handler]
    when its blocks arrive in order, each of them once or several times: every
    block before the last is answered with 2.31 Continue or recognised as a
    retransmission, and the last one yields the whole payload. *)
Theorem block1_transfer payload uri blockSize l m s :
  0 < len payload <= LWM2M_COAP_MAX_MESSAGE_SIZE -> 0 < blockSize -> represents BLOCK_1 l m ->
  let last := last_block payload blockSize in
  last ∉ s -> Forall (fun i => 0 <= i) s -> in_order (-1) (s ++ [last]) = true ->
  exists codes l',
    receive l uri payload blockSize (s ++ [last]) no_output =
      Some (codes ++ [COAP_NO_ERROR], l', mk_output (Some (Some payload)) (Some (len payload))) /\
    length codes = length s /\ Forall (fun code => code ∈ [COAP_231_CONTINUE; COAP_RETRANSMISSION]) codes /\
    represents BLOCK_1 l' (<[inl uri := (payload, last)]> m).
Proof.
  intros Hp Hb Hr last Hs Hpos Ho. pose proof (last_block_bound payload blockSize ltac:(lia) Hb).
  apply (receive_ok payload uri blockSize Hp Hb s Hs Hpos l m (-1)); [subst last; lia|done|done].
Qed.

End refinement.

(** ** Witnesses and examples *)

Definition sample_uri : list Z := str "/5/0/0".
Definition sample_list : list lwm2m_block_data_t := [entry (inl sample_uri, (str "0123456789abcdef", 0))].
Definition sample_map : transfers := list_to_map [(inl sample_uri, (str "0123456789abcdef", 0))].

Lemma sample_represents : represents BLOCK_1 sample_list sample_map.
Proof.
  exists [(inl sample_uri, (str "0123456789abcdef", 0))]. split_and!; [done|by apply NoDup_singleton| |done].
  apply list.Forall_cons_2; [|by apply list.Forall_nil_2]. split; [done|]. cbn. lia.
Qed.

Lemma block_handler_refines_witness :
  represents BLOCK_1 sample_list sample_map /\
  exists l', @coap_block1_handler malloc_always sample_list (Some sample_uri) (str "ghi") 3 16 1 false =
    Some (COAP_NO_ERROR, l', mk_output (Some (Some (str "0123456789abcdefghi"))) (Some 19)).
Proof.
  split; [exact sample_represents|].
  destruct (@block_handler_refines malloc_always (fun _ => eq_refl) sample_list sample_map (inl sample_uri) (str "ghi") 3 16 1 false
    sample_represents ltac:(done) ltac:(done) ltac:(done)) as [(l' & Hl) _].
  exists l'.
  assert (let '(code, _, r) := spec_block sample_map (inl sample_uri) (str "ghi") 16 1 false in
          (code, r) = (COAP_NO_ERROR, Some (str "0123456789abcdefghi"))) as Hs by (by vm_compute).
  change 3 with (len (str "ghi")) in *. rewrite Nat2Z.id, firstn_all in Hl.
  destruct (spec_block _ _ _ _ _ _) as [[code m'] r]. injection Hs as -> ->. exact (proj1 Hl).
Defined.

Definition sample_sched : list Z := [0; 0; 1; 1].

Lemma block1_transfer_witness :
  represents BLOCK_1 [] ∅ /\
  exists codes l', @receive malloc_always [] sample_uri (str "0123456789") 4 (sample_sched ++ [2]) no_output =
    Some (codes ++ [COAP_NO_ERROR], l', mk_output (Some (Some (str "0123456789"))) (Some 10)).
Proof.
  assert (represents BLOCK_1 [] ∅) as Hr
    by (exists []; split_and!; [done|by apply NoDup_nil|by apply list.Forall_nil_2|done]).
  split; [exact Hr|].
  destruct (@block1_transfer malloc_always (fun _ => eq_refl) (str "0123456789") sample_uri 4 [] ∅ sample_sched
    ltac:(by vm_compute) ltac:(done) Hr ltac:(by apply (bool_decide_unpack _)) ltac:(by apply (bool_decide_unpack _))
    ltac:(by vm_compute)) as (codes & l' & Hl & _).
  exists codes, l'. exact Hl.
Defined.

(** A block that does not follow the last one is neither stored nor refused: when
    it says it is the last, the transfer ends without the missing bytes. *)
Example block_gap_accepted :
  @coap_block1_handler malloc_always sample_list (Some sample_uri) (str "xyz") 3 16 2 false =
    Some (COAP_NO_ERROR, sample_list, mk_output (Some (Some (str "0123456789abcdef"))) (Some 16)).
Proof. by vm_compute. Qed.

(** A delayed copy of block 0 restarts a transfer whose next block is then such a
    block: the payload delivered is block 0 alone. *)
Example block_zero_repeated :
  exists codes l', @receive malloc_always [] sample_uri (str "0123456789") 4 [0; 1; 0; 2] no_output =
    Some (codes, l', mk_output (Some (Some (str "0123"))) (Some 4)).
Proof. eexists _, _. by vm_compute. Qed.

(** The transfers of both kinds share a list, but the member of the union that is
    read depends on the kind that is sought. *)
Example block_kinds_mixed :
  @coap_block1_handler malloc_always [entry (inr 7, (str "ab", 0))] (Some sample_uri) (str "xyz") 3 16 0 false = None.
Proof. by vm_compute. Qed.

(** Without memory for a new entry its null pointer is written through; without
    memory for its buffer an uninitialized pointer stays in the list and is freed
    by the next first block. *)
Example block_no_memory :
  @coap_block1_handler (fun n => negb (n =? SIZEOF_BLOCK_DATA)) [] (Some sample_uri) (str "xyz") 3 16 0 true = None /\
  match @coap_block1_handler (fun n => negb (n =? 3)) [] (Some sample_uri) (str "xyz") 3 16 0 true with
  | Some (code, l, _) => code = COAP_500_INTERNAL_SERVER_ERROR /\
      @coap_block1_handler malloc_always l (Some sample_uri) (str "xyz") 3 16 0 true = None
  | None => False
  end.
Proof. by vm_compute. Qed.
End Block.
