(* ===== verification/CoapUri.v ===== *)
(** * The URI of a message as a string

    [coap_get_packet_uri_as_string] gives the text by which block-wise transfers
    are told apart: its value for a message with well-formed options. *)
From S2P Require Import Prelude.
From S2P Require Import Utils.
From S2P Require Import CoapPacket.
From S2P Require Import CoapMessage.
From S2P Require Import CoapOptions.
Import Utils CoapPacket CoapMessage CoapOptions.

Module CoapUri.

(** ** C strings *)

(** Appending to a string that is followed by enough room. *)
Lemma strncat_ok a rest src n : Forall (fun c => c <> 0) a -> len (take (Z.to_nat n) (c_string src)) <= len rest ->
  exists rest', strncat (a ++ 0 :: rest) src n = Some ((a ++ take (Z.to_nat n) (c_string src)) ++ 0 :: rest') /\
    len rest' = len rest - len (take (Z.to_nat n) (c_string src)).
Proof.
  intros Ha Hr. unfold strncat. rewrite strlen_text by done. mstep.
  set (b := take (Z.to_nat n) (c_string src)) in *. rewrite wr_bytes_app by lens.
  exists (drop (length b) rest). split.
  - f_equal. rewrite length_app. cbn [length]. rewrite <- !app_assoc. cbn [app]. do 3 f_equal.
    rewrite Nat.add_1_r. by cbn [drop].
  - rewrite length_drop. lia.
Qed.

(** ** Options as text *)

(** The values, each after a delimiter, the first after [prefix]. *)
Definition option_text (prefix d : Z) (vs : list (list Z)) : list Z :=
  match vs with
  | [] => []
  | v :: vs => prefix :: v ++ join d vs
  end.

Lemma canonical opts : Forall node_ok opts -> forall prefix d,
  (forall output i, copy_options opts prefix d output i =
     copy_options (map node_of (map opt_value opts)) prefix d output i) /\
  (forall n, total_len opts n = total_len (map node_of (map opt_value opts)) n).
Proof.
  induction 1 as [|o opts [H1 H2] Ho IH]; intros prefix d; [done|].
  destruct (IH prefix d) as [IHc IHt]. cbn [map copy_options total_len opt_data opt_len node_of].
  assert (len (opt_value o) = opt_len o) as Hl by (unfold opt_value; lens).
  assert (rd_bytes (opt_data o) 0 (opt_len o) = Some (opt_value o)) as Hr by (unfold rd_bytes; by guards).
  rewrite Hl, wrap_small by lia. split.
  - intros output i. destruct (wr output i _); [|done]. mstep. rewrite Hr. rewrite <- Hl, rd_bytes_all. mstep.
    destruct (wr_bytes _ _ _); [|done]. mstep. apply IHc.
  - intros n. apply IHt.
Qed.

Section text.
Context `{HM : Malloc} (malloc_never_fails : forall n, malloc_ok n = true).
Context (junk : Z -> list Z) (junk_length : forall n, 0 <= n -> len (junk n) = n).

Lemma values_short opts : Forall node_ok opts -> Forall (fun s => len s < 256) (map opt_value opts).
Proof. intros Ho. apply list.Forall_fmap. eapply list.Forall_impl; [exact Ho|]. intros o [? ?]. cbn. unfold opt_value. lens. Qed.

Lemma option_string prefix d opts : Forall node_ok opts ->
  prv_coap_get_multi_option_as_string junk opts prefix d =
    Some (Some (option_text prefix d (map opt_value opts) ++ [0])).
Proof.
  intros Ho. destruct (canonical opts Ho prefix d) as [Hc Ht]. pose proof (values_short opts Ho) as Hv.
  destruct (map opt_value opts) as [|v vs] eqn:E.
  - destruct opts; [|discriminate E]. unfold prv_coap_get_multi_option_as_string. cbn. rewrite malloc_never_fails. change (0 + 1) with 1.
    pose proof (junk_length 1 ltac:(lia)) as Hj. destruct (junk 1) as [|x [|]]; cbn in Hj; try lia. done.
  - pose proof (option_string_ok malloc_never_fails junk prefix d v vs Hv junk_length) as Hs.
    unfold prv_coap_get_multi_option_as_string in *. rewrite Ht, Hc, Hs. cbn [option_text app].
    by rewrite <- app_assoc.
Qed.

(** The text of the URI: the host, the path, "/" when it is empty, and the query. *)
Definition uri_text (p : coap_packet_t) : list Z :=
  let path := c_string (option_text (chr "/") (chr "/") (map opt_value (uri_path p))) in
  let query := c_string (option_text (chr "?") (chr "&") (map opt_value (uri_query p))) in
  [chr "/"; chr "/"] ++ c_string (uri_host p) ++ (if bool_decide (path = []) then [chr "/"] else path) ++ query.

Lemma nDigits_bound x : 1 <= nDigits x <= 10.
Proof. unfold nDigits. ifs; lia. Qed.

Lemma take_c_string (l : list Z) n : len (c_string l) <= n -> take (Z.to_nat n) (c_string l) = c_string l.
Proof. intros H. apply take_ge. lia. Qed.

(** The path, or "/", after what precedes it. *)
Lemma append_path a b path : Forall (fun c => c <> 0) a ->
  let part := if bool_decide (c_string path = []) then [chr "/"] else c_string path in
  len part <= len b ->
  exists b', (if len (c_string path) <? 1 then strncat (a ++ 0 :: b) [chr "/"; 0] 1
              else strncat (a ++ 0 :: b) (path ++ [0]) (len (c_string path))) = Some ((a ++ part) ++ 0 :: b') /\
    len b' = len b - len part.
Proof.
  intros Ha part. subst part. case_bool_decide as Hn; intros Hb.
  - rewrite Hn. cbn [length Z.of_nat Z.ltb Z.compare].
    destruct (strncat_ok a b [chr "/"; 0] 1 Ha) as (b' & H1 & H2); [exact Hb|by exists b'].
  - assert ((len (c_string path) <? 1) = false) as -> by (destruct (c_string path); [done|cbn [length]; lia]).
    destruct (strncat_ok a b (path ++ [0]) (len (c_string path)) Ha) as (b' & H1 & H2);
      [by rewrite c_string_end, take_c_string by lia|].
    rewrite c_string_end, take_c_string in H1, H2 by lia. by exists b'.
Qed.

Lemma uri_string_ok p : Forall node_ok (uri_path p) -> Forall node_ok (uri_query p) ->
  exists out, coap_get_packet_uri_as_string junk p = Some (Some out) /\ c_string out = uri_text p.
Proof.
  intros Hp Hq. unfold coap_get_packet_uri_as_string, coap_get_multi_option_as_path_string,
    coap_get_multi_option_as_query_string, uri_text.
  rewrite !option_string by done. mstep.
  set (path := option_text (chr "/") (chr "/") (map opt_value (uri_path p))).
  set (query := option_text (chr "?") (chr "&") (map opt_value (uri_query p))).
  rewrite !strlen_end. mstep. rewrite malloc_never_fails.
  set (port := if is_non_std_coap_port (uri_port p) then nDigits (uri_port p) else 0).
  assert (0 <= port) as Hport by (subst port; pose proof (nDigits_bound (uri_port p)); ifs; lia).
  set (pl := if len (c_string path) <? 1 then 1 else len (c_string path)).
  assert (0 < pl /\ len (c_string path) <= pl) as Hpl by (subst pl; ifs; lia).
  set (n := 2 + len (uri_host p) + port + pl + len (c_string query)).
  pose proof (junk_length (n + 1) ltac:(lia)) as Hj. set (b := junk (n + 1)) in *. clearbody b.
  destruct b as [|x0 [|x1 [|x2 b]]]; [cbn [length] in Hj; lia..|].
  assert (wr_bytes (x0 :: x1 :: x2 :: b) 0 [chr "/"; chr "/"; 0] = Some ([chr "/"; chr "/"] ++ 0 :: b)) as ->.
  { exact (wr_bytes_0 [x0; x1; x2] b [chr "/"; chr "/"; 0] eq_refl). }
  mstep. pose proof (c_string_length (uri_host p)) as Hh. cbn [length] in Hj.
  assert (Forall (fun c => c <> 0) [chr "/"; chr "/"]) as Hs
    by (repeat apply list.Forall_cons_2; [clia|clia|apply list.Forall_nil_2]).
  destruct (strncat_ok [chr "/"; chr "/"] b (uri_host p) (len (uri_host p)) Hs) as (b1 & -> & Hb1).
  { rewrite take_c_string by lia. lia. }
  mstep. rewrite take_c_string in * by lia. pose proof (c_string_nonzero (uri_host p)) as Hhz.
  set (part := if bool_decide (c_string path = []) then [chr "/"] else c_string path).
  assert (len part = pl) as Hpart.
  { subst part pl. case_bool_decide as Hn; [by rewrite Hn|]. destruct (c_string path); [done|]. cbn [length]. by guards. }
  assert (Forall (fun c => c <> 0) part) as Hpz.
  { subst part. case_bool_decide; [apply list.Forall_cons_2; [clia|apply list.Forall_nil_2]|apply c_string_nonzero]. }
  destruct (append_path ([chr "/"; chr "/"] ++ c_string (uri_host p)) b1 path) as (b2 & -> & Hb2);
    [by apply Forall_app_2|fold part; lia|]. fold part in Hb2 |- *.
  mstep.
  destruct (strncat_ok (([chr "/"; chr "/"] ++ c_string (uri_host p)) ++ part) b2 (query ++ [0]) (len (c_string query)))
    as (b3 & -> & Hb3); [by repeat apply Forall_app_2|rewrite c_string_end, take_c_string by lia; lia|].
  rewrite c_string_end, take_c_string in * by lia. mstep.
  set (text := (([chr "/"; chr "/"] ++ c_string (uri_host p)) ++ part) ++ c_string query) in *.
  assert (Forall (fun c => c <> 0) text) as Htz by (subst text; repeat apply Forall_app_2; try done; apply c_string_nonzero).
  assert (len text = 2 + len (c_string (uri_host p)) + pl + len (c_string query)) as Htl by (subst text; rewrite !length_app; cbn [length]; lia).
  exists (<[Z.to_nat n := 0]> (text ++ 0 :: b3)). split.
  - rewrite wr_Some; [done|]. rewrite length_app. cbn [length]. lia.
  - assert (exists b4, <[Z.to_nat n := 0]> (text ++ 0 :: b3) = text ++ 0 :: b4) as (b4 & ->).
    { rewrite insert_app_r_alt by lia. destruct (Z.to_nat n - length text)%nat; cbn; by eexists. }
    rewrite c_string_app by done. subst text. by rewrite <- !app_assoc.
Qed.
End text.
End CoapUri.
