(* ===== verification/Packet.v ===== *)
(** * Packets (core/packet.c)

    The entry point of every received datagram, [lwm2m_handle_packet]: requests
    and their answers, block-wise transfers in both directions, and the dispatch
    of responses to the transactions.

    The build has the client and the server role, and no bootstrap server.  The
    components that act on a request are the operations of the class [Handlers].
    Pointers into memory that has gone out of scope are not modelled: the strings
    that [prv_create_next_block_transaction] copies to blocks of its own live as
    long as their message. *)
From S2P Require Import Prelude.
From S2P Require Import Types.
From S2P Require Import SortedList.
From S2P Require Import Utils.
From S2P Require Import Uri.
From S2P Require Import CoapPacket.
From S2P Require Import CoapMessage.
From S2P Require Import CoapOptions.
From S2P Require Import CoapSerialize.
From S2P Require Import CoapParse.
From S2P Require Import Transaction.
From S2P Require Import Block.
Import SortedList Utils Uri CoapPacket CoapMessage CoapOptions CoapSerialize CoapParse Transaction Block.

Module Packet.

(** ** The state *)

(** A peer; [server_rest] is what the registration keeps of it. *)
Record lwm2m_server_t (Session X : Type) := mk_server {
  secObjInstID : Z;
  sessionH : Session;
  blockData : list lwm2m_block_data_t;
  server_rest : X }.
Arguments mk_server {Session X}.
Arguments secObjInstID {Session X}.
Arguments sessionH {Session X}.
Arguments blockData {Session X}.
Arguments server_rest {Session X}.
#[export] Instance server_rebuild {Session X} : Rebuild (lwm2m_server_t Session X) := fun s =>
  mk_server (secObjInstID s) (sessionH s) (blockData s) (server_rest s).
#[export] Instance server_node {Session X} : ListNode (lwm2m_server_t Session X) := secObjInstID.

(** What packet.c reads of the context besides the transactions, and the global
    variables [coap_block_size] and [coap_error_message]. *)
Record world_t (Session X A : Type) := mk_world {
  coap_block_size : Z;
  coap_error_message : list Z;
  altPath : option (list Z);
  serverList : list (lwm2m_server_t Session X);
  bootstrapServerList : list (lwm2m_server_t Session X);
  app : A }.
Arguments mk_world {Session X A}.
Arguments coap_block_size {Session X A}.
Arguments coap_error_message {Session X A}.
Arguments altPath {Session X A}.
Arguments serverList {Session X A}.
Arguments bootstrapServerList {Session X A}.
Arguments app {Session X A}.
#[export] Instance world_rebuild {Session X A} : Rebuild (world_t Session X A) := fun w =>
  mk_world (coap_block_size w) (coap_error_message w) (altPath w) (serverList w) (bootstrapServerList w) (app w).

(** The operations of the other components: each returns the status, the context
    and the response it has filled in. *)
Section handlers.
Context (Session CB U X A : Type).
Let context := lwm2m_context_t Session CB U (world_t Session X A).
Let server := lwm2m_server_t Session X.

Class Handlers := {
  dm_handleRequest : context -> lwm2m_uri_t -> server -> coap_packet_t -> coap_packet_t -> C (Z * context * coap_packet_t);
  bootstrap_handleCommand :
    context -> lwm2m_uri_t -> server -> coap_packet_t -> coap_packet_t -> C (Z * context * coap_packet_t);
  bootstrap_handleDeleteAll : context -> Session -> C (Z * context);
  bootstrap_handleFinish : context -> Session -> C (Z * context);
  registration_handleRequest :
    context -> lwm2m_uri_t -> Session -> coap_packet_t -> coap_packet_t -> C (Z * context * coap_packet_t);
  reporting_handleSend : context -> Session -> coap_packet_t -> C (Z * context);
  observe_handleNotify : context -> Session -> coap_packet_t -> coap_packet_t -> C (bool * context * coap_packet_t);
  observe_cancel : context -> Z -> Session -> C context }.
End handlers.
Arguments dm_handleRequest {Session CB U X A _}.
Arguments bootstrap_handleCommand {Session CB U X A _}.
Arguments bootstrap_handleDeleteAll {Session CB U X A _}.
Arguments bootstrap_handleFinish {Session CB U X A _}.
Arguments registration_handleRequest {Session CB U X A _}.
Arguments reporting_handleSend {Session CB U X A _}.
Arguments observe_handleNotify {Session CB U X A _}.
Arguments observe_cancel {Session CB U X A _}.

Definition COAP_POST : Z := 2.
Definition COAP_GET : Z := 1.

(** ** The block size *)

Definition validate_block_size (coap_block_size_arg : Z) : bool :=
  existsb (Z.eqb coap_block_size_arg) [16; 32; 64; 128; 256; 512; 1024].

(** The result and the new value of the global variable. *)
Definition lwm2m_set_coap_block_size (block_size coap_block_size_arg : Z) : bool * Z :=
  if validate_block_size coap_block_size_arg then (true, coap_block_size_arg) else (false, block_size).

Section packet.
Context {Session CB U X A : Type}.
Context `{HM : Malloc, HS : Sessions Session, HC : Callbacks Session CB U (world_t Session X A),
          HH : Handlers Session CB U X A}.
Context (junk : Z -> list Z) (lwm2m_buffer_send : Session -> list Z -> Z).
Abbreviation server := (lwm2m_server_t Session X).
Abbreviation context := (lwm2m_context_t Session CB U (world_t Session X A)).
Abbreviation transaction := (lwm2m_transaction_t Session CB U).

Definition lwm2m_get_coap_block_size (contextP : context) : Z := coap_block_size (rest contextP).

Definition is_message_too_large (contextP : context) (m : coap_packet_t) (packet_size : Z) : bool :=
  if IS_OPTION m COAP_OPTION_BLOCK1 || IS_OPTION m COAP_OPTION_BLOCK2
  then lwm2m_get_coap_block_size contextP <? payload_len m
  else LWM2M_COAP_MAX_MESSAGE_SIZE <? packet_size.

Definition handle_reset (contextP : context) (fromSessionH : Session) (m : coap_packet_t) : C context :=
  observe_cancel contextP (mid m) fromSessionH.

(** ** Peers *)

(** [utils_findServer], then [utils_findBootstrapServer]. *)
Definition find_peer (contextP : context) (fromSessionH : Session) : option server :=
  match utils_findServer lwm2m_session_is_equal sessionH (serverList (rest contextP)) fromSessionH with
  | Some s => Some s
  | None => utils_findBootstrapServer lwm2m_session_is_equal sessionH (bootstrapServerList (rest contextP)) fromSessionH
  end.

(** Writing [*l] to the list of transfers of the peer that [find_peer] finds. *)
Fixpoint set_blockData (l : list server) (fromSessionH : Session) (b : list lwm2m_block_data_t) : list server :=
  match l with
  | [] => []
  | s :: l =>
      if lwm2m_session_is_equal (sessionH s) fromSessionH then s <| blockData := b |> :: l
      else s :: set_blockData l fromSessionH b
  end.

Definition store_blockData (contextP : context) (fromSessionH : Session) (b : list lwm2m_block_data_t) : context :=
  let w := rest contextP in
  match utils_findServer lwm2m_session_is_equal sessionH (serverList w) fromSessionH with
  | Some _ => contextP <| rest := w <| serverList := set_blockData (serverList w) fromSessionH b |> |>
  | None => contextP <| rest := w <| bootstrapServerList := set_blockData (bootstrapServerList w) fromSessionH b |> |>
  end.

(** ** Requests *)

Definition handle_request (contextP : context) (fromSessionH : Session) (m response : coap_packet_t)
    : C (Z * context * coap_packet_t) :=
  '(requestType, uri) ← uri_decode (altPath (rest contextP)) (map opt_value (uri_path m)) (code m);
  match requestType with
  | LWM2M_REQUEST_TYPE_UNKNOWN => ret (COAP_400_BAD_REQUEST, contextP, response)
  | _ =>
      '(result, contextP, response) ←
        match requestType with
        | LWM2M_REQUEST_TYPE_DM =>
            match utils_findServer lwm2m_session_is_equal sessionH (serverList (rest contextP)) fromSessionH with
            | Some serverP => dm_handleRequest contextP uri serverP m response
            | None =>
                match utils_findBootstrapServer lwm2m_session_is_equal sessionH
                        (bootstrapServerList (rest contextP)) fromSessionH with
                | Some serverP => bootstrap_handleCommand contextP uri serverP m response
                | None => ret (COAP_IGNORE, contextP, response)
                end
            end
        | LWM2M_REQUEST_TYPE_DELETE_ALL =>
            '(result, contextP) ← bootstrap_handleDeleteAll contextP fromSessionH; ret (result, contextP, response)
        | LWM2M_REQUEST_TYPE_BOOTSTRAP =>
            if code m =? COAP_POST then
              '(result, contextP) ← bootstrap_handleFinish contextP fromSessionH; ret (result, contextP, response)
            else ret (COAP_IGNORE, contextP, response)
        | LWM2M_REQUEST_TYPE_REGISTRATION => registration_handleRequest contextP uri fromSessionH m response
        | LWM2M_REQUEST_TYPE_SEND =>
            '(result, contextP) ← reporting_handleSend contextP fromSessionH m; ret (result, contextP, response)
        | _ => ret (COAP_IGNORE, contextP, response)
        end;
      let '(_, response) := coap_set_status_code response result in
      let result := if (COAP_IGNORE <? result) && (result <? COAP_400_BAD_REQUEST) then NO_ERROR else result in
      ret (result, contextP, response)
  end.

(** ** Sending a payload in blocks *)

Fixpoint get_transaction (l : list transaction) (sessionH : Session) (mid_ : Z) : option transaction :=
  match l with
  | [] => None
  | t :: l =>
      if lwm2m_session_is_equal sessionH (peerH t) && (mID t =? mid_) then Some t else get_transaction l sessionH mid_
  end.

Definition prv_get_transaction (contextP : context) (sessionH : Session) (mid_ : Z) : option transaction :=
  get_transaction (transactionList contextP) sessionH mid_.

(** Applies [f] when the option is present. *)
Definition copy_option (present : bool) (m : coap_packet_t) (f : coap_packet_t -> C coap_packet_t) : C coap_packet_t :=
  if present then f m else ret m.

Fixpoint copy_accept (m : coap_packet_t) (l : list Z) : C coap_packet_t :=
  match l with
  | [] => ret m
  | a :: l => '(_, m) ← coap_set_header_accept m a; copy_accept m l
  end.

(** The options of the clone.  The parser sets a pointer to a string and the bit
    of its option together. *)
Definition clone_options (m c : coap_packet_t) : C coap_packet_t :=
  '(_, c) ← coap_set_header_content_type c (type_num (p_type m));
  c ← copy_option (IS_OPTION m COAP_OPTION_PROXY_URI) c (fun c =>
        '(_, c) ← coap_set_header_proxy_uri c (proxy_uri m ++ [0]); ret c);
  c ← copy_option (IS_OPTION m COAP_OPTION_ETAG) c (fun c => '(_, c) ← coap_set_header_etag c (etag m) (etag_len m); ret c);
  c ← copy_option (IS_OPTION m COAP_OPTION_URI_HOST) c (fun c =>
        '(_, c) ← coap_set_header_uri_host c (uri_host m ++ [0]); ret c);
  c ← copy_option (IS_OPTION m COAP_OPTION_URI_PORT) c (fun c => coap_set_header_uri_port c (uri_port m));
  c ← copy_option (IS_OPTION m COAP_OPTION_LOCATION_PATH) c (fun c =>
        SET_OPTION (c <| location_path := location_path m |>) COAP_OPTION_LOCATION_PATH);
  c ← copy_option (IS_OPTION m COAP_OPTION_LOCATION_QUERY) c (fun c =>
        '(_, c) ← coap_set_header_location_query c (take (Z.to_nat (location_query_len m)) (location_query m) ++ [0]); ret c);
  c ← copy_option (IS_OPTION m COAP_OPTION_CONTENT_TYPE) c (fun c =>
        SET_OPTION (c <| content_type := content_type m |>) COAP_OPTION_CONTENT_TYPE);
  c ← copy_option (IS_OPTION m COAP_OPTION_URI_PATH) c (fun c =>
        SET_OPTION (c <| uri_path := uri_path m |>) COAP_OPTION_URI_PATH);
  c ← copy_option (IS_OPTION m COAP_OPTION_OBSERVE) c (fun c => '(_, c) ← coap_set_header_observe c (observe m); ret c);
  c ← copy_accept c (take (Z.to_nat (accept_num m)) (accept m));
  c ← copy_option (IS_OPTION m COAP_OPTION_IF_MATCH) c (fun c =>
        '(_, c) ← coap_set_header_if_match c (if_match m) (if_match_len m); ret c);
  c ← copy_option (IS_OPTION m COAP_OPTION_URI_QUERY) c (fun c =>
        SET_OPTION (c <| uri_query := uri_query m |>) COAP_OPTION_URI_QUERY);
  copy_option (IS_OPTION m COAP_OPTION_IF_NONE_MATCH) c (fun c => '(_, c) ← coap_set_header_if_none_match c; ret c).

(** The request of [t] again, for the next block: parsed from the datagram that
    was sent, with the payload, the callback and the user data of [t]. *)
Definition prv_create_next_block_transaction (t : transaction) (nextMID_ : Z) : C (option transaction) :=
  b ← buffer t;
  r ← coap_parse_message b (buffer_len t);
  let m := packet r in
  if negb (status r =? NO_ERROR) then ret None
  else
    clone ← transaction_new junk 0 [] (Some (peerH t)) (code m) None None nextMID_ (token_len m) (Some (token m));
    match clone with
    | None => ret None
    | Some clone =>
        c ← clone_options m (message clone);
        if negb (malloc_ok (transac_payload_len t)) then ret None
        else
          copy ← rd_bytes (default [] (transac_payload t)) 0 (transac_payload_len t);
          ret (Some (clone <| message := c |> <| transac_payload := Some copy |>
                       <| transac_payload_len := transac_payload_len t |>
                       <| callback := callback t |> <| userData := userData t |>))
    end.

(** The new transaction joins the list and is sent. *)
Definition add_and_send (tv_sec : Z) (contextP : context) (next : transaction) : C (Z * context) :=
  let contextP := contextP <| transactionList := lwm2m_list_add (transactionList contextP) next [] |> in
  transaction_send junk tv_sec contextP (mID next).

Definition b2z (b : bool) : Z := if b then 1 else 0.

(** [previous] is a pointer that is read first. *)
Definition prv_send_new_block1 (tv_sec : Z) (contextP : context) (previous : option transaction) (block_num block_size : Z)
    : C (Z * context) :=
  previous ← previous;
  if transac_payload_len previous <=? u64 (block_num * block_size) then ret (0, contextP)
  else
    let nextMID_ := nextMID contextP in
    let contextP := contextP <| nextMID := u16 (nextMID_ + 1) |> in
    next ← prv_create_next_block_transaction previous nextMID_;
    match next with
    | None => ret (COAP_500_INTERNAL_SERVER_ERROR, contextP)
    | Some next =>
        let remaining_payload_length := u64 (transac_payload_len next - block_num * block_size) in
        let new_block_start := drop (Z.to_nat (u32 (block_num * block_size))) (default [] (transac_payload next)) in
        '(_, m) ← coap_set_header_block1 (message next) block_num (b2z (block_size <? remaining_payload_length)) block_size;
        let '(_, m) := coap_set_payload m (Some new_block_start) (Z.min block_size remaining_payload_length) in
        add_and_send tv_sec contextP (next <| message := m |>)
    end.

(** Division by zero is undefined. *)
Definition prv_send_next_block1 (tv_sec : Z) (contextP : context) (sessionH : Session) (mid_ block_size : Z)
    : C (Z * context) :=
  match prv_get_transaction contextP sessionH mid_ with
  | None => ret (COAP_500_INTERNAL_SERVER_ERROR, contextP)
  | Some t =>
      let b := block1 (message t) in
      let block_size := if (CoapPacket.block_size b <? block_size) || (block_size =? 0) then CoapPacket.block_size b else block_size in
      block_num ← (if block_num b =? 0 then
                     assert! (negb (block_size =? 0)); ret (CoapPacket.block_size b / block_size)
                   else ret (u32 (block_num b + 1)));
      prv_send_new_block1 tv_sec contextP (Some t) block_num block_size
  end.

(** [for (n = 1; 16 << n <= size; n++) block_size = 16 << n], [size] of sixteen bits. *)
Fixpoint largest_block (fuel : nat) (size n block_size : Z) : C Z :=
  match fuel with
  | O => None
  | S fuel =>
      if Z.shiftl 16 n <=? size then largest_block fuel size (n + 1) (u16 (Z.shiftl 16 n)) else ret block_size
  end.

Definition prv_change_to_block1 (tv_sec : Z) (contextP : context) (sessionH : Session) (mid_ size : Z) : C (Z * context) :=
  let t := prv_get_transaction contextP sessionH mid_ in
  block_size ← largest_block 13 (u16 size) 1 16;
  prv_send_new_block1 tv_sec contextP t 0 (Z.min block_size (lwm2m_get_coap_block_size contextP)).

Definition prv_retry_block1 (tv_sec : Z) (contextP : context) (sessionH : Session) (mid_ block_size : Z)
    : C (Z * context) :=
  match prv_get_transaction contextP sessionH mid_ with
  | None => ret (COAP_500_INTERNAL_SERVER_ERROR, contextP)
  | Some t =>
      if negb (IS_OPTION (message t) COAP_OPTION_BLOCK1) then prv_send_new_block1 tv_sec contextP (Some t) 0 block_size
      else
        let b := block1 (message t) in
        let block_size := if (block_size =? CoapPacket.block_size b) && (16 <? block_size) then block_size / 2 else block_size in
        if (CoapPacket.block_size b <=? block_size) || (block_size =? 0) then ret (COAP_400_BAD_REQUEST, contextP)
        else prv_send_new_block1 tv_sec contextP (Some t) (block_num b) block_size
  end.

(** ** Asking for a payload in blocks

    [peer] is the session whose list of transfers is [blockDataHead]. *)
Definition prv_send_get_block2 (tv_sec : Z) (contextP : context) (sessionH : Session)
    (blockDataHead : list lwm2m_block_data_t) (currentMID block2_num block2_size : Z) : C (Z * context) :=
  match prv_get_transaction contextP sessionH currentMID with
  | None => ret (COAP_500_INTERNAL_SERVER_ERROR, contextP)
  | Some t =>
      if (block2_num =? 0) && IS_OPTION (message t) COAP_OPTION_BLOCK2 then ret (COAP_IGNORE, contextP)
      else
        let nextMID_ := nextMID contextP in
        let contextP := contextP <| nextMID := u16 (nextMID_ + 1) |> in
        next ← prv_create_next_block_transaction t nextMID_;
        match next with
        | None => ret (COAP_500_INTERNAL_SERVER_ERROR, contextP)
        | Some next =>
            '(_, m) ← coap_set_header_block2 (message next) block2_num 0
                        (Z.min block2_size (lwm2m_get_coap_block_size contextP));
            l ← coap_block2_set_expected_mid blockDataHead currentMID nextMID_;
            add_and_send tv_sec (store_blockData contextP sessionH l) (next <| message := m |>)
        end
  end.

Definition prv_send_get_next_block2 (tv_sec : Z) (contextP : context) (sessionH : Session)
    (blockDataHead : list lwm2m_block_data_t) (currentMID block2_num block2_size : Z) : C (Z * context) :=
  prv_send_get_block2 tv_sec contextP sessionH blockDataHead currentMID (u32 (block2_num + 1)) block2_size.

(** ** Received requests *)

(** The branch of a request with a Block1 option: the code, the context, the
    message, whose payload is the whole payload once it is complete, and the
    response. *)
Definition block1_request (contextP : context) (fromSessionH : Session) (m response : coap_packet_t)
    : C (Z * context * coap_packet_t * coap_packet_t) :=
  match find_peer contextP fromSessionH with
  | None => ret (COAP_500_INTERNAL_SERVER_ERROR, contextP, m, response)
  | Some peerP =>
      let b := block1 m in
      uri ← coap_get_packet_uri_as_string junk m;
      '(code_, contextP, out) ←
        match uri with
        | None => ret (COAP_500_INTERNAL_SERVER_ERROR, contextP, no_output)
        | Some uri =>
            '(code_, l, out) ← coap_block1_handler (blockData peerP) (Some (c_string uri)) (default [] (payload m))
                                 (payload_len m) (CoapPacket.block_size b) (CoapPacket.block_num b)
                                 (negb (CoapPacket.block_more b =? 0));
            ret (code_, store_blockData contextP fromSessionH l, out)
        end;
      m ← (if code_ =? NO_ERROR then
             complete_buffer ← outputBuffer out;
             complete_buffer_size ← outputLength out;
             ret (m <| payload := complete_buffer |> <| payload_len := complete_buffer_size |>)
           else ret m);
      '(_, response) ← coap_set_header_block1 response (CoapPacket.block_num b) (CoapPacket.block_more b)
                         (Z.min (CoapPacket.block_size b) (lwm2m_get_coap_block_size contextP));
      ret (code_, contextP, m, response)
  end.

(** The part of the payload that answers a request, by blocks when it asks for
    them or when the payload is long. *)
Definition answer_payload (contextP : context) (m response : coap_packet_t) : C coap_packet_t :=
  let bs := lwm2m_get_coap_block_size contextP in
  if IS_OPTION m COAP_OPTION_BLOCK2 then
    let b := block2 m in
    let block_size := Z.min (CoapPacket.block_size b) bs in
    let block_offset := CoapPacket.block_offset b in
    if payload_len response <=? block_offset then
      let '(_, response) := coap_set_payload (response <| code := COAP_402_BAD_OPTION |>) (Some (str "BlockOutOfScope")) 15 in
      ret response
    else
      '(_, response) ← coap_set_header_block2 response (CoapPacket.block_num b)
                         (b2z (block_size <? payload_len response - block_offset)) block_size;
      let '(_, response) := coap_set_payload response (option_map (drop (Z.to_nat block_offset)) (payload response))
                              (Z.min (payload_len response - block_offset) block_size) in
      ret response
  else if bs <? payload_len response then
    '(_, response) ← coap_set_header_block2 response 0 (b2z (bs <? payload_len response)) bs;
    let '(_, response) := coap_set_payload response (payload response) bs in
    ret response
  else ret response.

(** The code to send for a block that was received before. *)
Definition retransmission_code (response : coap_packet_t) (code_ : Z) : Z :=
  if (code_ =? COAP_RETRANSMISSION) && IS_OPTION response COAP_OPTION_BLOCK1 then
    if negb (CoapPacket.block_more (block1 response) =? 0) then COAP_231_CONTINUE else COAP_204_CHANGED
  else code_.

(** The prepared response, with the token of the request. *)
Definition prepare_response (contextP : context) (m : coap_packet_t) : C (context * coap_packet_t) :=
  let '(contextP, response) :=
    if bool_decide (p_type m = COAP_TYPE_CON) then (contextP, coap_init_message COAP_TYPE_ACK COAP_205_CONTENT (mid m))
    else (contextP <| nextMID := u16 (nextMID contextP + 1) |>,
          coap_init_message COAP_TYPE_NON COAP_205_CONTENT (nextMID contextP)) in
  if negb (token_len m =? 0) then
    '(_, response) ← coap_set_header_token response (token m) (token_len m);
    ret (contextP, response)
  else ret (contextP, response).

(** The answer is sent, or the error. *)
Definition send_answer (contextP : context) (m response : coap_packet_t) (code_ : Z) (fromSessionH : Session)
    : C (Z * context) :=
  if code_ =? NO_ERROR then
    response ← answer_payload contextP m response;
    message_send junk lwm2m_buffer_send contextP response fromSessionH
  else if negb (code_ =? COAP_IGNORE) then
    let code_ := retransmission_code response code_ in
    let '(r, response) := coap_set_status_code response code_ in
    if 1 =? r then message_send junk lwm2m_buffer_send contextP response fromSessionH else ret (code_, contextP)
  else ret (code_, contextP).

Definition receive_request (contextP : context) (m : coap_packet_t) (length_ : Z) (fromSessionH : Session)
    : C (Z * context) :=
  '(contextP, response) ← prepare_response contextP m;
  let bs := lwm2m_get_coap_block_size contextP in
  '(code_, contextP, m, response) ←
    (if is_message_too_large contextP m length_ then
       '(_, response) ← (if IS_OPTION m COAP_OPTION_BLOCK1
                         then coap_set_header_block1 response (CoapPacket.block_num (block1 m)) (CoapPacket.block_more (block1 m)) bs
                         else coap_set_header_block1 response 0 1 bs);
       ret (COAP_413_ENTITY_TOO_LARGE, contextP, m, response)
     else if IS_OPTION m COAP_OPTION_BLOCK1 then block1_request contextP fromSessionH m response
     else ret (NO_ERROR, contextP, m, response));
  '(code_, contextP, response) ←
    (if code_ =? NO_ERROR then handle_request contextP fromSessionH m response else ret (code_, contextP, response));
  send_answer contextP m response code_ fromSessionH.

(** ** Received responses *)

(** A response that carries more than one block: the request is sent again, for
    the first block. *)
Definition retry_block2 (tv_sec : Z) (contextP : context) (m : coap_packet_t) (fromSessionH : Session) : C context :=
  match find_peer contextP fromSessionH with
  | None => ret contextP
  | Some peerP =>
      '(_, contextP) ← prv_send_get_block2 tv_sec contextP fromSessionH (blockData peerP) (mid m) 0
                         (lwm2m_get_coap_block_size contextP);
      ret contextP
  end.

Definition dispatch (tv_sec : Z) (contextP : context) (m : coap_packet_t) (fromSessionH : Session) (response : bool)
    : C (bool * context) :=
  transaction_handleResponse junk lwm2m_buffer_send tv_sec contextP fromSessionH m response.

Definition receive_block1_ack (tv_sec : Z) (contextP : context) (m : coap_packet_t) (fromSessionH : Session) : C context :=
  let b := block1 m in
  if (code m =? COAP_201_CREATED) || (code m =? COAP_204_CHANGED) || (code m =? COAP_231_CONTINUE) then
    '(_, contextP) ← prv_send_next_block1 tv_sec contextP fromSessionH (mid m) (CoapPacket.block_size b);
    ret contextP
  else if code m =? COAP_413_ENTITY_TOO_LARGE then
    if 0 <? CoapPacket.block_num b then ret contextP
    else
      '(_, contextP) ← prv_retry_block1 tv_sec contextP fromSessionH (mid m) (CoapPacket.block_size b);
      ret contextP
  else ret contextP.

Definition receive_block2_ack (tv_sec : Z) (contextP : context) (m : coap_packet_t) (fromSessionH : Session)
    : C (Z * context) :=
  match find_peer contextP fromSessionH with
  | None => ret (COAP_500_INTERNAL_SERVER_ERROR, contextP)
  | Some peerP =>
      let b := block2 m in
      '(code_, l, out) ← coap_block2_handler (blockData peerP) (mid m) (default [] (payload m)) (payload_len m)
                           (CoapPacket.block_size b) (CoapPacket.block_num b) (negb (CoapPacket.block_more b =? 0));
      let contextP := store_blockData contextP fromSessionH l in
      if code_ =? NO_ERROR then
        complete_buffer ← outputBuffer out;
        complete_buffer_size ← outputLength out;
        let m := m <| payload := complete_buffer |> <| payload_len := complete_buffer_size |> in
        '(_, contextP) ← dispatch tv_sec contextP m fromSessionH false;
        peerP ← find_peer contextP fromSessionH;
        l ← block2_delete (blockData peerP) (mid m);
        ret (code_, store_blockData contextP fromSessionH l)
      else if code_ =? COAP_231_CONTINUE then
        '(_, contextP) ← prv_send_get_next_block2 tv_sec contextP fromSessionH l (mid m) (CoapPacket.block_num b)
                           (CoapPacket.block_size b);
        '(_, contextP) ← dispatch tv_sec contextP m fromSessionH false;
        ret (NO_ERROR, contextP)
      else ret (code_, contextP)
  end.

Definition receive_response (tv_sec : Z) (contextP : context) (m : coap_packet_t) (length_ : Z) (fromSessionH : Session)
    : C (Z * context) :=
  let bs := lwm2m_get_coap_block_size contextP in
  match p_type m with
  | COAP_TYPE_NON | COAP_TYPE_CON =>
      if bs <? payload_len m then
        contextP ← retry_block2 tv_sec contextP m fromSessionH;
        '(_, contextP) ← dispatch tv_sec contextP m fromSessionH false;
        ret (NO_ERROR, contextP)
      else
        '(done_, contextP) ← dispatch tv_sec contextP m fromSessionH true;
        '(done_, contextP) ←
          (if negb done_ && IS_OPTION m COAP_OPTION_OBSERVE && ((code m =? COAP_204_CHANGED) || (code m =? COAP_205_CONTENT))
           then '(d, contextP, _) ← observe_handleNotify contextP fromSessionH m zero_packet; ret (d, contextP)
           else ret (done_, contextP));
        if negb done_ && bool_decide (p_type m = COAP_TYPE_CON) then
          let response := coap_init_message COAP_TYPE_ACK 0 (mid m) in
          let '(_, response) := if is_message_too_large contextP m length_
                                then coap_set_status_code response COAP_413_ENTITY_TOO_LARGE else (1, response) in
          message_send junk lwm2m_buffer_send contextP response fromSessionH
        else ret (NO_ERROR, contextP)
  | COAP_TYPE_RST =>
      contextP ← handle_reset contextP fromSessionH m;
      '(_, contextP) ← dispatch tv_sec contextP m fromSessionH false;
      ret (NO_ERROR, contextP)
  | COAP_TYPE_ACK =>
      if bs <? payload_len m then
        contextP ← retry_block2 tv_sec contextP m fromSessionH;
        '(_, contextP) ← dispatch tv_sec contextP m fromSessionH false;
        ret (NO_ERROR, contextP)
      else if IS_OPTION m COAP_OPTION_BLOCK1 then
        contextP ← receive_block1_ack tv_sec contextP m fromSessionH;
        '(_, contextP) ← dispatch tv_sec contextP m fromSessionH false;
        ret (NO_ERROR, contextP)
      else if IS_OPTION m COAP_OPTION_BLOCK2 then receive_block2_ack tv_sec contextP m fromSessionH
      else if code m =? COAP_413_ENTITY_TOO_LARGE then
        '(_, contextP) ← prv_change_to_block1 tv_sec contextP fromSessionH (mid m) (p_size m);
        '(_, contextP) ← dispatch tv_sec contextP m fromSessionH false;
        ret (NO_ERROR, contextP)
      else
        '(_, contextP) ← dispatch tv_sec contextP m fromSessionH false;
        ret (NO_ERROR, contextP)
  end.

(** ** Datagrams *)

(** The error message that ends the handling of a packet. *)
Definition error_reply (contextP : context) (m : coap_packet_t) (code_ : Z) (fromSessionH : Session) : C context :=
  if negb (code_ =? NO_ERROR) && negb (code_ =? COAP_IGNORE) then
    let code_ := if 192 <=? code_ then COAP_500_INTERNAL_SERVER_ERROR else code_ in
    let text := coap_error_message (rest contextP) in
    let '(_, m) := coap_set_payload (coap_init_message COAP_TYPE_ACK code_ (mid m)) (Some text) (len text) in
    '(_, contextP) ← message_send junk lwm2m_buffer_send contextP m fromSessionH;
    ret contextP
  else ret contextP.

Definition lwm2m_handle_packet (tv_sec : Z) (contextP : context) (buffer : list Z) (length_ : Z) (fromSessionH : Session)
    : C context :=
  r ← coap_parse_message buffer (u16 length_);
  let contextP := match error_message r with
                  | Some text => contextP <| rest := (rest contextP) <| coap_error_message := str text |> |>
                  | None => contextP
                  end in
  let m := packet r in
  '(code_, contextP) ←
    (if status r =? NO_ERROR then
       if (COAP_GET <=? code m) && (code m <=? COAP_DELETE) then receive_request contextP m length_ fromSessionH
       else receive_response tv_sec contextP m length_ fromSessionH
     else ret (status r, contextP));
  error_reply contextP m code_ fromSessionH.
End packet.
End Packet.
