(* ===== verification/Blockwise.v ===== *)
(** * Block-wise transfers between peers

    The handling of packets by [lwm2m_handle_packet] (Packet.v): the answer to a
    datagram that is no CoAP message, and requests whose payload arrives in
    blocks. *)
From S2P Require Import Prelude.
From S2P Require Import Types.
From S2P Require Import SortedList.
From S2P Require Import Utils.
From S2P Require Import Uri.
From S2P Require Import CoapPacket.
From S2P Require Import CoapMessage.
From S2P Require Import CoapOptions.
From S2P Require Import CoapSerialize.
From S2P Require Import CoapParse.
From S2P Require Import CoapUri.
From S2P Require Import Transaction.
From S2P Require Import Block.
From S2P Require Import Packet.
Import SortedList Utils Uri CoapPacket CoapMessage CoapOptions CoapSerialize CoapParse CoapUri Transaction Block Packet.

Module Blockwise.

(** ** What the parser leaves *)

(** The header is that of [p0], and a Block1 option was decoded from its value. *)
Record kept (p0 p : coap_packet_t) : Prop := mk_kept {
  kept_type : p_type p = p_type p0;
  kept_code : code p = code p0;
  kept_mid : mid p = mid p0;
  kept_token_len : token_len p = token_len p0;
  kept_block1 : block1 p = zero_block \/ exists v, block1 p = parse_block v }.

Lemma kept_refl p : block1 p = zero_block -> kept p p.
Proof. intros. by constructor; [..|left]. Qed.

Lemma set_option_kept p0 p q k : kept p0 p -> SET_OPTION p k = Some q -> kept p0 q.
Proof.
  intros [] Hq. unfold SET_OPTION in Hq. destruct (_ <? _); [|by injection Hq as <-; constructor].
  destruct (rd _ _); [|discriminate Hq]. cbn [mbind option_bind] in Hq.
  destruct (wr _ _ _); [|discriminate Hq]. cbn [mbind option_bind] in Hq. injection Hq as <-. by constructor.
Qed.

Section kept.
Context `{HM : Malloc}.

Definition step_kept (p0 : coap_packet_t) (r : step) : Prop :=
  match r with Stop r => kept p0 (packet r) | Next p _ _ => kept p0 p end.

Lemma parse_option_kept p0 p data loc cur number n r :
  kept p0 p -> parse_option p data loc cur number n = Some r -> step_kept p0 r.
Proof.
  intros [] Hr. unfold parse_option in Hr.
  repeat match type of Hr with
  | (if ?b then _ else _) = _ => destruct b
  | _ ≫= _ = _ => apply bind_Some in Hr as (? & _ & Hr)
  | (let '(_, _) := ?x in _) = _ => destruct x
  | Some _ = Some _ => injection Hr as <-
  end.
  all: constructor; try done; cbn [block1 packet update]; first [done|right; by eexists].
Qed.

Lemma parse_loop_kept p0 fuel : forall p data data_end loc cur number r,
  kept p0 p -> parse_loop fuel p data data_end loc cur number = Some r -> kept p0 (packet r).
Proof.
  induction fuel as [|fuel IH]; intros p data data_end loc cur number r Hp Hr; [discriminate Hr|].
  cbn [parse_loop] in Hr. assert (kept p0 (packet (exit_parse_error p data))) as Herr by (destruct Hp; by constructor).
  destruct (cur <? data_end); [|by injection Hr as <-].
  apply bind_Some in Hr as (b0 & _ & Hr). destruct (b0 =? 255).
  - destruct (cur + 1 =? data_end); [by injection Hr as <-|]. apply bind_Some in Hr as (b & _ & Hr).
    injection Hr as <-. destruct Hp; by constructor.
  - destruct (_ || _); [by injection Hr as <-|]. apply bind_Some in Hr as (r1 & _ & Hr).
    destruct r1 as [[c1 d1]|]; [|by injection Hr as <-]. apply bind_Some in Hr as (r2 & _ & Hr).
    destruct r2 as [[c2 l2]|]; [|by injection Hr as <-]. destruct (data_end <? _); [by injection Hr as <-|].
    apply bind_Some in Hr as (p1 & Hp1 & Hr). apply (set_option_kept p0) in Hp1; [|done].
    apply bind_Some in Hr as (s & Hs & Hr). apply (parse_option_kept p0) in Hs; [|done].
    destruct s as [r'|p2 data2 loc2]; [by injection Hr as <-|]. by apply (IH _ _ _ _ _ _ _ Hs Hr).
Qed.

(** The header of a parsed packet, and its Block1 option. *)
Lemma parsed_header data n r : bytes data -> coap_parse_message data n = Some r ->
  0 <= code (packet r) < 256 /\ 0 <= mid (packet r) < 65536 /\
  (block1 (packet r) = zero_block \/ exists v, block1 (packet r) = parse_block v).
Proof.
  intros Hb Hr. unfold coap_parse_message in Hr. destruct (n <? COAP_HEADER_LEN).
  { injection Hr as <-. cbn. split; [lia|]. split; [lia|by left]. }
  apply bind_Some in Hr as (b0 & H0 & Hr). apply bind_Some in Hr as (b1 & H1 & Hr).
  apply bind_Some in Hr as (b2 & H2 & Hr). apply bind_Some in Hr as (b3 & H3 & Hr).
  apply (rd_Forall is_byte data) in H0, H1, H2, H3; try done. unfold is_byte in *.
  match type of Hr with context [negb (version ?q =? 1)] => set (p := q) in *; assert (kept p p) as Hp by (by apply kept_refl) end.
  assert (0 <= code p < 256 /\ 0 <= mid p < 65536) as [Hc Hm].
  { split; [done|]. change (mid p) with (Z.lor (Z.shiftl b2 8) b3). rewrite shiftl_mul, lor_add by lia. lia. }
  assert (forall q, kept p q -> 0 <= code q < 256 /\ 0 <= mid q < 65536 /\
    (block1 q = zero_block \/ exists v, block1 q = parse_block v)) as Hk.
  { intros q []. split; [congruence|]. split; [congruence|done]. }
  assert (kept p (coap_free_header p)) as Hf by (destruct Hp; by constructor).
  destruct (negb _); [injection Hr as <-; by apply Hk|].
  destruct (_ && _); [injection Hr as <-; by apply Hk|].
  destruct (_ <? _); [injection Hr as <-; by apply Hk|].
  destruct (negb _).
  - destruct (_ <? _); [injection Hr as <-; by apply Hk|].
    apply bind_Some in Hr as (t & _ & Hr). apply bind_Some in Hr as (t8 & _ & Hr). apply bind_Some in Hr as (q & Hq & Hr).
    apply Hk. apply (parse_loop_kept p) in Hr; [done|]. apply (set_option_kept p) in Hq; [done|]. destruct Hp; by constructor.
  - apply Hk. by apply (parse_loop_kept p) in Hr.
Qed.

(** A datagram is refused with one of the texts. *)
Definition error_texts : list string :=
  ["Invalid COAP message"; "CoAP version must be 1"; "This is a constrained server (Contiki)";
   "Unsupported critical option"]%string.

Definition explained (r : parsed) : Prop :=
  status r = NO_ERROR \/ exists text, error_message r = Some text /\ text ∈ error_texts.

Lemma parse_error_explained p data : explained (exit_parse_error p data).
Proof. right. eexists. split; [done|]. unfold error_texts. set_solver. Qed.

Lemma parse_option_explained p data loc cur number n r :
  parse_option p data loc cur number n = Some (Stop r) -> explained r.
Proof.
  intros Hr. unfold parse_option in Hr.
  repeat match type of Hr with
  | (if ?b then _ else _) = _ => destruct b
  | _ ≫= _ = _ => apply bind_Some in Hr as (? & _ & Hr)
  | (let '(_, _) := ?x in _) = _ => destruct x
  | Some _ = Some _ => first [discriminate Hr | injection Hr as <-]
  end.
  all: first [apply parse_error_explained | right; eexists; split; [done|]; unfold error_texts; set_solver].
Qed.

Lemma parse_loop_explained fuel : forall p data data_end loc cur number r,
  parse_loop fuel p data data_end loc cur number = Some r -> explained r.
Proof.
  induction fuel as [|fuel IH]; intros p data data_end loc cur number r Hr; [discriminate Hr|].
  cbn [parse_loop] in Hr. pose proof (parse_error_explained p data) as Herr.
  destruct (cur <? data_end); [|by injection Hr as <-; left].
  apply bind_Some in Hr as (b0 & _ & Hr). destruct (b0 =? 255).
  - destruct (cur + 1 =? data_end); [by injection Hr as <-|]. apply bind_Some in Hr as (b & _ & Hr).
    injection Hr as <-. by left.
  - destruct (_ || _); [by injection Hr as <-|]. apply bind_Some in Hr as (r1 & _ & Hr).
    destruct r1 as [[c1 d1]|]; [|by injection Hr as <-]. apply bind_Some in Hr as (r2 & _ & Hr).
    destruct r2 as [[c2 l2]|]; [|by injection Hr as <-]. destruct (data_end <? _); [by injection Hr as <-|].
    apply bind_Some in Hr as (p1 & _ & Hr). apply bind_Some in Hr as (s & Hs & Hr).
    destruct s as [r'|p2 data2 loc2]; [injection Hr as <-; by apply parse_option_explained in Hs|].
    by apply (IH _ _ _ _ _ _ _ Hr).
Qed.

Lemma parse_explained data n r : coap_parse_message data n = Some r -> explained r.
Proof.
  intros Hr. unfold coap_parse_message in Hr.
  repeat match type of Hr with
  | (if ?b then _ else _) = _ => destruct b
  | _ ≫= _ = _ => apply bind_Some in Hr as (? & _ & Hr)
  | Some _ = Some _ => injection Hr as <-
  end.
  all: first [apply parse_error_explained | by apply parse_loop_explained in Hr
             |right; eexists; split; [done|]; unfold error_texts; set_solver].
Qed.
End kept.

(** ** Datagrams that are refused *)

Section refused.
Context {Session CB U X A : Type}.
Context `{HM : Malloc, HS : Sessions Session, HC : Callbacks Session CB U (world_t Session X A),
          HH : Handlers Session CB U X A}.
Context (junk : Z -> list Z) (lwm2m_buffer_send : Session -> list Z -> Z).
Context (malloc_never_fails : forall n, malloc_ok n = true) (junk_length : forall n, 0 <= n -> len (junk n) = n).

(** An acknowledgement with a code and a text. *)
Definition error_message_of (code_ mid_ : Z) (text : list Z) : coap_packet_t :=
  (coap_init_message COAP_TYPE_ACK code_ mid_) <| payload := Some text |> <| payload_len := len text |>.

Lemma error_message_ok code_ mid_ text : 0 <= code_ < 256 -> 0 <= mid_ < 65536 ->
  msg_ok (error_message_of code_ mid_ text).
Proof.
  intros Hc Hm. constructor; try (cbn; lia); try (intros; discriminate); try apply zero_packet_wf.
  - split; [apply list.Forall_nil_2|done].
  - split; [apply list.Forall_nil_2|done].
  - split; [apply list.Forall_nil_2|done].
  - split; [cbn; lia|]. repeat first [apply list.Forall_nil_2 | apply list.Forall_cons_2]; done.
Qed.

(** The bytes of the reply. *)
Definition error_bytes (code_ mid_ : Z) (text : string) : list Z :=
  [96; code_; mid_ / 256; mid_ mod 256; 0xFF] ++ str text.

Lemma error_bytes_ok code_ mid_ text : text ∈ error_texts ->
  message_bytes (error_message_of code_ mid_ (str text)) = error_bytes code_ mid_ text /\ len (str text) < 256.
Proof.
  intros Ht. unfold error_texts in Ht. set_unfold in Ht.
  destruct Ht as [->|[->|[->|[->|[]]]]]; (split; [reflexivity|by vm_compute]).
Qed.

(** C36. A datagram that is no acceptable CoAP message, whatever its bytes, is
    answered by one acknowledgement that carries the status of the parser, the
    message id it read and an explanation; nothing else changes but the text of
    the last error. *)
Theorem bad_packet_answered tv (c : lwm2m_context_t Session CB U (world_t Session X A)) data from :
  bytes data -> len data < 65536 ->
  exists r, coap_parse_message data (len data) = Some r /\ parse_status (status r) /\
    (status r <> NO_ERROR ->
     exists text c', lwm2m_handle_packet junk lwm2m_buffer_send tv c data (len data) from = Some c' /\
       text ∈ error_texts /\
       sent c' = sent c ++ [(from, error_bytes (status r) (mid (packet r)) text)] /\
       transactionList c' = transactionList c /\ nextMID c' = nextMID c /\ called c' = called c /\
       rest c' = (rest c) <| coap_error_message := str text |>).
Proof.
  intros Hb Hl. destruct (parse_safe_ok data Hb) as (r & Hr & Hs & _). exists r. split; [done|]. split; [done|].
  intros Hne. destruct (parse_explained data _ r Hr) as [?|(text & Htext & Hin)]; [done|].
  destruct (parsed_header data _ r Hb Hr) as (_ & Hmid & _).
  assert (1 < status r < 192) as Hst by (unfold parse_status, NO_ERROR, BAD_REQUEST_4_00, BAD_OPTION_4_02, PROXYING_NOT_SUPPORTED_5_05 in *; lia).
  destruct (error_bytes_ok (status r) (mid (packet r)) text Hin) as [Hbytes Hlen].
  unfold lwm2m_handle_packet. rewrite wrap_small by lia. rewrite Hr. mstep. rewrite Htext.
  rewrite (proj2 (Z.eqb_neq (status r) NO_ERROR)) by done. mstep. unfold error_reply.
  rewrite (proj2 (Z.eqb_neq (status r) NO_ERROR)) by done. unfold COAP_IGNORE. guards.
  set (c1 := c <| rest := (rest c) <| coap_error_message := str text |> |>).
  change (coap_error_message (rest c1)) with (str text). unfold coap_set_payload. rewrite (wrap_small 16) by lia.
  match goal with |- context [message_send _ _ c1 ?m _] => change m with (error_message_of (status r) (mid (packet r)) (str text)) end.
  destruct (message_send_ok junk lwm2m_buffer_send c1 (error_message_of (status r) (mid (packet r)) (str text)) from)
    as (x & Hx & _); [by apply error_message_ok; [lia|]|by cbn|by cbn|done|].
  rewrite malloc_never_fails, Hbytes in Hx. rewrite Hx. mstep. guards. exists text, (send c1 from (error_bytes (status r) (mid (packet r)) text)).
  by split_and!.
Qed.
End refused.
(** ** Responses *)

(** An acknowledgement of [m] with its token. *)
Definition reply_base (m : coap_packet_t) (t o : list Z) : coap_packet_t :=
  (coap_init_message COAP_TYPE_ACK COAP_205_CONTENT (mid m)) <| token_len := token_len m |> <| token := t |>
    <| p_options := o |>.

(** A request whose header is well-formed. *)
Definition request_wf (m : coap_packet_t) : Prop :=
  p_type m = COAP_TYPE_CON /\ 0 <= token_len m <= 8 /\ length (token m) = 8%nat /\ 0 <= mid m < 65536.

Lemma prepared {Session CB U X A : Type} (c : lwm2m_context_t Session CB U (world_t Session X A)) m : request_wf m ->
  exists t o, prepare_response c m = Some (c, reply_base m t o) /\ packet_wf (reply_base m t o) /\
    take (Z.to_nat (token_len m)) t = take (Z.to_nat (token_len m)) (token m) /\
    forall x, 0 <= x < 40 -> IS_OPTION (reply_base m t o) x = true -> x = 19.
Proof.
  intros (Hty & Htl & Htok & Hmid). unfold prepare_response. rewrite bool_decide_true by done.
  set (r0 := coap_init_message COAP_TYPE_ACK COAP_205_CONTENT (mid m)).
  assert (packet_wf r0) as Hw0 by apply zero_packet_wf.
  assert (forall x, 0 <= x < 40 -> IS_OPTION r0 x = false) as Hx0.
  { intros x Hx. pose proof (range_cases 40 (fun x => negb (IS_OPTION zero_packet x)) eq_refl x ltac:(lia)) as Hz.
    by apply negb_true_iff. }
  destruct (token_len m =? 0) eqn:E; cbn [negb].
  - apply Z.eqb_eq in E. exists (token r0), (p_options r0).
    assert (reply_base m (token r0) (p_options r0) = r0) as Hr by (unfold reply_base; rewrite E; reflexivity).
    rewrite Hr. split; [done|]. split; [done|]. rewrite E. split; [done|]. intros x Hx Hi. by rewrite Hx0 in Hi.
  - unfold coap_set_header_token, COAP_TOKEN_LEN. rewrite Z.min_r, wrap_small by lia.
    assert (rd_bytes (token m) 0 (token_len m) = Some (take (Z.to_nat (token_len m)) (token m))) as -> by (unfold rd_bytes; by guards).
    mstep. set (tk := take (Z.to_nat (token_len m)) (token m)). assert (len tk = token_len m) as Htk by (subst tk; lens).
    pose proof (wr_bytes_app [] (token r0) 0 tk eq_refl ltac:(change (len (token r0)) with 8; lia)) as Hw. rewrite !app_nil_l in Hw.
    rewrite Hw. mstep. set (t8 := tk ++ drop (length tk) (token r0)).
    assert (length t8 = 8%nat) as Ht8 by (subst t8; change (token r0) with (replicate 8 0); rewrite length_app, length_drop, length_replicate; lia).
    assert (packet_wf (r0 <| token_len := token_len m |> <| token := t8 |>)) as Hw8
      by (destruct Hw0 as (?&?&?&?&_&?); by split_and!).
    destruct (set_option_ok _ COAP_OPTION_TOKEN Hw8 ltac:(done)) as (o & -> & Hol & Hob & Hox). mstep.
    exists t8, o. split; [done|]. split; [exact (wf_set_options _ o Hw8 Hol Hob)|]. split.
    + subst t8. by rewrite <- Htk, Nat2Z.id, take_app_length.
    + intros x Hx Hi. change (IS_OPTION (reply_base m t8 o) x)
        with (IS_OPTION (r0 <| token_len := token_len m |> <| token := t8 |> <| p_options := o |>) x) in Hi.
      rewrite Hox in Hi by done. change (IS_OPTION (r0 <| token_len := token_len m |> <| token := t8 |>) x) with (IS_OPTION r0 x) in Hi.
      rewrite Hx0 in Hi by done. unfold COAP_OPTION_TOKEN in Hi. lia.
Qed.

(** The same with a Block1 option and another code. *)
Definition block_reply (m : coap_packet_t) (t o : list Z) (code_ num more size : Z) : coap_packet_t :=
  (reply_base m t o) <| code := code_ |> <| block1 := mk_block num more size 0 |>.

Lemma block_replied m t o num more size : packet_wf (reply_base m t o) -> 16 <= size <= 2048 -> 0 <= num <= 0x0FFFFF ->
  (forall x, 0 <= x < 40 -> IS_OPTION (reply_base m t o) x = true -> x = 19) ->
  exists o', coap_set_header_block1 (reply_base m t o) num more size =
      Some (1, block_reply m t o' COAP_205_CONTENT num more size) /\
    packet_wf (reply_base m t o') /\ IS_OPTION (reply_base m t o') COAP_OPTION_BLOCK1 = true /\
    forall x, 0 <= x < 40 -> IS_OPTION (reply_base m t o') x = true -> x = 19 \/ x = 27.
Proof.
  intros Hw Hs Hn Ho. unfold coap_set_header_block1. guards.
  set (r := (reply_base m t o) <| block1 := mk_block num more size (block_offset (block1 (reply_base m t o))) |>).
  assert (packet_wf r) as Hr by exact Hw.
  destruct (set_option_ok r COAP_OPTION_BLOCK1 Hr ltac:(done)) as (o' & -> & Hol & Hob & Hox). mstep.
  assert (forall x, IS_OPTION (reply_base m t o') x = IS_OPTION (r <| p_options := o' |>) x) as Hi by done.
  exists o'. split; [done|]. split; [exact (wf_set_options _ o' Hw Hol Hob)|]. split; [by rewrite Hi, Hox|].
  intros x Hx. rewrite Hi, Hox by done. change (IS_OPTION r x) with (IS_OPTION (reply_base m t o) x).
  unfold COAP_OPTION_BLOCK1. intros [Hx27|Hx19]%orb_true_iff; [right; lia|left; by apply Ho].
Qed.

Lemma block_reply_ok m t o code_ num more size : request_wf m -> packet_wf (reply_base m t o) ->
  16 <= size <= 2048 -> 0 <= num <= 0x0FFFFF -> 0 <= code_ < 256 ->
  (forall x, 0 <= x < 40 -> IS_OPTION (reply_base m t o) x = true -> x = 19 \/ x = 27) ->
  msg_ok (block_reply m t o code_ num more size).
Proof.
  intros (_ & Htl & _ & Hmid) Hw Hs Hn Hc Ho.
  assert (forall x, 0 <= x < 40 -> x <> 19 -> x <> 27 -> IS_OPTION (block_reply m t o code_ num more size) x = false) as Hf.
  { intros x Hx H1 H2. change (IS_OPTION (block_reply m t o code_ num more size) x) with (IS_OPTION (reply_base m t o) x).
    destruct (IS_OPTION _ _) eqn:E; [|done]. destruct (Ho x Hx E); lia. }
  constructor; try (cbn; lia); try done; try (rewrite Hf by done; discriminate).
  - split; [apply list.Forall_nil_2|]. by rewrite Hf by done.
  - split; [apply list.Forall_nil_2|]. by rewrite Hf by done.
  - split; [apply list.Forall_nil_2|]. by rewrite Hf by done.
  - split; [cbn; lia|]. repeat first [apply list.Forall_nil_2 | apply list.Forall_cons_2]; done.
Qed.

(** ** Requests that arrive in blocks *)

Section upload.
Context {Session CB U X A : Type}.
Context `{HM : Malloc, HS : Sessions Session, HC : Callbacks Session CB U (world_t Session X A),
          HH : Handlers Session CB U X A}.
Context (junk : Z -> list Z) (lwm2m_buffer_send : Session -> list Z -> Z).
Context (malloc_never_fails : forall n, malloc_ok n = true) (junk_length : forall n, 0 <= n -> len (junk n) = n).
Abbreviation context := (lwm2m_context_t Session CB U (world_t Session X A)).
Implicit Types (c : context) (from : Session).

Lemma find_set (l : list (lwm2m_server_t Session X)) from b :
  utils_findServer lwm2m_session_is_equal sessionH (set_blockData l from b) from =
    option_map (fun s => s <| blockData := b |>) (utils_findServer lwm2m_session_is_equal sessionH l from).
Proof.
  induction l as [|s l IH]; [done|]. cbn [set_blockData utils_findServer].
  destruct (lwm2m_session_is_equal (sessionH s) from) eqn:E; cbn [utils_findServer].
  - change (sessionH (s <| blockData := b |>)) with (sessionH s). by rewrite E.
  - by rewrite E.
Qed.

Lemma find_store c from peer b : find_peer c from = Some peer ->
  find_peer (store_blockData c from b) from = Some (peer <| blockData := b |>).
Proof.
  unfold find_peer, store_blockData, utils_findBootstrapServer. intros Hf.
  destruct (utils_findServer _ _ (serverList (rest c)) from) as [s|] eqn:E; cbn [rest serverList bootstrapServerList update].
  - rewrite find_set, E. cbn. by injection Hf as ->.
  - rewrite E, find_set, Hf. done.
Qed.

(** Storing again is storing once. *)
Lemma set_set (l : list (lwm2m_server_t Session X)) from b b' :
  set_blockData (set_blockData l from b) from b' = set_blockData l from b'.
Proof.
  induction l as [|s l IH]; [done|]. cbn [set_blockData]. destruct (lwm2m_session_is_equal (sessionH s) from) eqn:E;
    cbn [set_blockData].
  - change (sessionH (s <| blockData := b |>)) with (sessionH s). by rewrite E.
  - by rewrite E, IH.
Qed.

Lemma store_store c from b b' : store_blockData (store_blockData c from b) from b' = store_blockData c from b'.
Proof.
  unfold store_blockData. destruct (utils_findServer _ _ (serverList (rest c)) from) as [s|] eqn:E;
    cbn [rest serverList bootstrapServerList update].
  - rewrite find_set, E. cbn [option_map]. by rewrite set_set.
  - rewrite E. by rewrite set_set.
Qed.

Lemma set_same (l : list (lwm2m_server_t Session X)) from peer :
  utils_findServer lwm2m_session_is_equal sessionH l from = Some peer -> set_blockData l from (blockData peer) = l.
Proof.
  induction l as [|s l IH]; [done|]. cbn [set_blockData utils_findServer].
  destruct (lwm2m_session_is_equal (sessionH s) from); [intros [= ->]; by destruct peer|]. intros H. by rewrite IH.
Qed.

Lemma store_same c from peer : find_peer c from = Some peer -> store_blockData c from (blockData peer) = c.
Proof.
  unfold find_peer, store_blockData, utils_findBootstrapServer. intros Hf.
  destruct (utils_findServer _ _ (serverList (rest c)) from) as [s|] eqn:E.
  - injection Hf as ->. rewrite (set_same _ _ peer E). destruct c as [? ? ? ? []]. done.
  - rewrite (set_same _ _ peer Hf). destruct c as [? ? ? ? []]. done.
Qed.

Context (payload_ uri : list Z) (blockSize : Z).
Context (Hpayload : 0 < len payload_ <= LWM2M_COAP_MAX_MESSAGE_SIZE) (HblockSize : 16 <= blockSize <= 2048).
Let last := last_block payload_ blockSize.

(** The request [m] carries block [i] of the payload for the URI [uri]. *)
Record carries (i : Z) (m : coap_packet_t) : Prop := mk_carries {
  carries_wf : request_wf m;
  carries_option : IS_OPTION m COAP_OPTION_BLOCK1 = true;
  carries_num : block_num (block1 m) = i;
  carries_more : block_more (block1 m) = b2z (i <? last);
  carries_size : CoapPacket.block_size (block1 m) = blockSize;
  carries_payload : default [] (payload m) = block_of payload_ blockSize i;
  carries_payload_len : payload_len m = len (block_of payload_ blockSize i);
  carries_path : Forall node_ok (uri_path m);
  carries_query : Forall node_ok (uri_query m);
  carries_uri : uri_text m = uri }.

(** The response [r] acknowledges the request [m] with the code [code_]. *)
Record acknowledges (m : coap_packet_t) (code_ : Z) (r : coap_packet_t) : Prop := mk_acknowledges {
  ack_ok_ : msg_ok r;
  ack_type : p_type r = COAP_TYPE_ACK;
  ack_code : code r = code_;
  ack_mid : mid r = mid m;
  ack_token_len : token_len r = token_len m;
  ack_token : take (Z.to_nat (token_len m)) (token r) = take (Z.to_nat (token_len m)) (token m);
  ack_option : IS_OPTION r COAP_OPTION_BLOCK1 = true;
  ack_num : block_num (block1 r) = block_num (block1 m);
  ack_more : block_more (block1 r) = block_more (block1 m) }.

(** The message with the whole payload once it is complete. *)
Definition completed (code_ : Z) (m : coap_packet_t) : coap_packet_t :=
  if code_ =? NO_ERROR then m <| payload := Some payload_ |> <| payload_len := len payload_ |> else m.

Lemma store_block_size c from l : coap_block_size (rest (store_blockData c from l)) = lwm2m_get_coap_block_size c.
Proof. unfold store_blockData. by destruct (utils_findServer _ _ _ _). Qed.

Lemma block1_request_ok c from peer m i l code_ r response response' :
  find_peer c from = Some peer -> carries i m -> blockSize <= lwm2m_get_coap_block_size c ->
  (let data := block_of payload_ blockSize i in
   coap_block1_handler (blockData peer) (Some uri) data (len data) blockSize i (i <? last) = Some (code_, l, output_of code_ r)) ->
  (code_ = NO_ERROR -> r = Some payload_) ->
  coap_set_header_block1 response i (b2z (i <? last)) blockSize = Some (1, response') ->
  block1_request junk c from m response = Some (code_, store_blockData c from l, completed code_ m, response').
Proof.
  intros Hf Hm Hbs Hb Hdone Hset. cbn zeta in Hb.
  destruct (uri_string_ok malloc_never_fails junk junk_length m (carries_path _ _ Hm) (carries_query _ _ Hm)) as (out & Hout & Hu).
  rewrite (carries_uri _ _ Hm) in Hu. unfold block1_request, completed. rewrite Hf, Hout. mstep.
  rewrite Hu, (carries_payload _ _ Hm), (carries_payload_len _ _ Hm), (carries_size _ _ Hm), (carries_num _ _ Hm),
    (carries_more _ _ Hm).
  assert (negb (b2z (i <? last) =? 0) = (i <? last)) as -> by by destruct (i <? last).
  rewrite Hb. mstep. unfold lwm2m_get_coap_block_size at 1. rewrite store_block_size, Z.min_l by lia.
  destruct (code_ =? NO_ERROR) eqn:E; [|by rewrite Hset].
  rewrite (Hdone ltac:(lia)). cbn [output_of outputBuffer outputLength mbind option_bind]. by rewrite Hset.
Qed.

Lemma receive_request_ok c from m i n l code_ t o response' :
  carries i m -> 0 <= i -> blockSize <= lwm2m_get_coap_block_size c ->
  prepare_response c m = Some (c, reply_base m t o) ->
  block1_request junk c from m (reply_base m t o) = Some (code_, store_blockData c from l, completed code_ m, response') ->
  receive_request junk lwm2m_buffer_send c m n from =
    ('(code_', c', response) ← (if code_ =? NO_ERROR then
        handle_request (store_blockData c from l) from (completed code_ m) response'
      else ret (code_, store_blockData c from l, response'));
     send_answer junk lwm2m_buffer_send c' (completed code_ m) response code_' from).
Proof.
  intros Hm Hi Hbs Hprep Hreq. unfold receive_request. rewrite Hprep. mstep. unfold is_message_too_large.
  rewrite (carries_option _ _ Hm). cbn [orb].
  pose proof (block_length payload_ blockSize ltac:(lia) i Hi).
  rewrite (proj2 (Z.ltb_ge (lwm2m_get_coap_block_size c) (payload_len m))) by (rewrite (carries_payload_len _ _ Hm); lia).
  rewrite Hreq. mstep. by destruct (code_ =? NO_ERROR).
Qed.

(** The answer to a block that is stored or was received before. *)
Lemma continue_sent c from m t o i code_ : request_wf m -> packet_wf (reply_base m t o) -> 0 <= i <= 0x0FFFFF ->
  IS_OPTION (reply_base m t o) COAP_OPTION_BLOCK1 = true ->
  (forall x, 0 <= x < 40 -> IS_OPTION (reply_base m t o) x = true -> x = 19 \/ x = 27) ->
  code_ = COAP_231_CONTINUE \/ code_ = COAP_RETRANSMISSION ->
  exists r, send_answer junk lwm2m_buffer_send c m (block_reply m t o COAP_205_CONTENT i 1 blockSize) code_ from =
    Some (r, send c from (message_bytes (block_reply m t o COAP_231_CONTINUE i 1 blockSize))).
Proof.
  intros Hwf Hw Hi Hopt Ho Hcode. unfold send_answer.
  assert ((code_ =? NO_ERROR) = false /\ (code_ =? COAP_IGNORE) = false) as [-> ->] by (destruct Hcode; by subst).
  cbn [negb]. assert (retransmission_code (block_reply m t o COAP_205_CONTENT i 1 blockSize) code_ = COAP_231_CONTINUE) as ->.
  { unfold retransmission_code. change (IS_OPTION (block_reply m t o COAP_205_CONTENT i 1 blockSize) COAP_OPTION_BLOCK1)
      with (IS_OPTION (reply_base m t o) COAP_OPTION_BLOCK1). rewrite Hopt. destruct Hcode; by subst. }
  change (coap_set_status_code (block_reply m t o COAP_205_CONTENT i 1 blockSize) COAP_231_CONTINUE)
    with (1, block_reply m t o COAP_231_CONTINUE i 1 blockSize). cbn match.
  destruct (message_send_ok junk lwm2m_buffer_send c (block_reply m t o COAP_231_CONTINUE i 1 blockSize) from)
    as (x & Hx & _); [by apply block_reply_ok|by cbn|by cbn|done|].
  rewrite malloc_never_fails in Hx. exists x. exact Hx.
Qed.

(** A block that is not the last is answered with 2.31 Continue; the last one
    has the request handled with the whole payload. *)
Lemma receive_block c from peer tr cur i m n :
  find_peer c from = Some peer -> represents BLOCK_1 (blockData peer) (received payload_ uri blockSize tr cur) ->
  blockSize <= lwm2m_get_coap_block_size c ->
  -1 <= cur < last -> i = cur + 1 \/ (0 <= i <= cur /\ (i <> 0 \/ cur = 0)) -> carries i m ->
  exists l t o,
    represents BLOCK_1 l (received payload_ uri blockSize tr (Z.max cur i)) /\
    (i < last -> acknowledges m COAP_231_CONTINUE (block_reply m t o COAP_231_CONTINUE i 1 blockSize) /\
       exists r, receive_request junk lwm2m_buffer_send c m n from =
         Some (r, send (store_blockData c from l) from (message_bytes (block_reply m t o COAP_231_CONTINUE i 1 blockSize)))) /\
    (i = last -> acknowledges m COAP_205_CONTENT (block_reply m t o COAP_205_CONTENT i 0 blockSize) /\
       let m' := completed NO_ERROR m in
       receive_request junk lwm2m_buffer_send c m n from =
         ('(code_, c, response) ← handle_request (store_blockData c from l) from m'
            (block_reply m t o COAP_205_CONTENT i 0 blockSize);
          send_answer junk lwm2m_buffer_send c m' response code_ from)).
Proof.
  intros Hf Hr Hbs Hcur Hi Hm. pose proof (carries_wf _ _ Hm) as Hwf. unfold LWM2M_COAP_MAX_MESSAGE_SIZE in Hpayload.
  pose proof (last_block_bound payload_ blockSize ltac:(lia) ltac:(lia)) as Hlast. fold last in Hlast.
  destruct (prepared c m Hwf) as (t & o & Hprep & Hw & Ht & Ho).
  destruct (receive_one malloc_never_fails payload_ uri blockSize ltac:(unfold LWM2M_COAP_MAX_MESSAGE_SIZE; lia) ltac:(lia)
    (blockData peer) tr cur i Hcur Hr Hi) as (l & code_ & r & Hb & Hrep & Hcont & Hdone). fold last in Hcont, Hdone, Hb.
  destruct (block_replied m t o i (b2z (i <? last)) blockSize Hw HblockSize ltac:(lia) Ho) as (o' & Hset & Hw' & Hopt & Ho').
  exists l, t, o'. split; [exact Hrep|].
  assert (forall code_, 0 <= code_ < 256 -> forall more, more = b2z (i <? last) ->
    acknowledges m code_ (block_reply m t o' code_ i more blockSize)) as Hack.
  { intros k Hk more ->. constructor; try done; try (by rewrite ?(carries_num _ _ Hm), ?(carries_more _ _ Hm)).
    apply block_reply_ok; try done. lia. }
  assert (code_ = NO_ERROR -> r = Some payload_) as Hno.
  { intros ->. destruct (Z.eq_dec i last) as [Heq|]; [by apply Hdone|]. specialize (Hcont ltac:(lia)). set_unfold in Hcont.
    unfold COAP_231_CONTINUE, COAP_RETRANSMISSION, NO_ERROR in *. lia. }
  pose proof (block1_request_ok c from peer m i l code_ r _ _ Hf Hm Hbs Hb Hno Hset) as Hreq.
  pose proof (receive_request_ok c from m i n l code_ t o _ Hm ltac:(lia) Hbs Hprep Hreq) as Hrec. clear Hreq Hb.
  split; intros Hil.
  - assert ((i <? last) = true) as Hlt by lia. rewrite Hlt in *. split; [by apply Hack|].
    specialize (Hcont Hil). set_unfold in Hcont. assert (code_ = COAP_231_CONTINUE \/ code_ = COAP_RETRANSMISSION) as Hc by tauto.
    assert ((code_ =? NO_ERROR) = false) as Hne by (destruct Hc; by subst). rewrite Hrec. unfold completed. rewrite Hne. mstep.
    apply continue_sent; try done. lia.
  - assert ((i <? last) = false) as Hlt by lia. rewrite Hlt in *. split; [by apply Hack|].
    destruct (Hdone Hil) as [-> ->]. exact Hrec.
Qed.

(** Requests received one after the other. *)
Fixpoint receive_requests c from (ms : list coap_packet_t) : C context :=
  match ms with
  | [] => ret c
  | m :: ms => '(_, c) ← receive_request junk lwm2m_buffer_send c m (payload_len m) from; receive_requests c from ms
  end.

(** [c] with the transfers [l] of the peer and the datagrams [ds] sent to it. *)
Definition after c from (l : list lwm2m_block_data_t) (ds : list (list Z)) : context :=
  (store_blockData c from l) <| sent := sent c ++ map (pair from) ds |>.

Lemma store_sent c from l (x : list (Session * list Z)) :
  store_blockData (c <| sent := x |>) from l = (store_blockData c from l) <| sent := x |>.
Proof. unfold store_blockData. cbn [rest update]. by destruct (utils_findServer _ _ _ _). Qed.

Lemma after_after c from l1 d1 l2 d2 : after (after c from l1 d1) from l2 d2 = after c from l2 (d1 ++ d2).
Proof.
  unfold after. rewrite store_sent, store_store. cbn [sent update]. by rewrite map_app, app_assoc.
Qed.

Lemma receive_loop s : last ∉ s -> Forall (fun i => 0 <= i) s -> forall ms m n c from peer tr cur,
  find_peer c from = Some peer -> represents BLOCK_1 (blockData peer) (received payload_ uri blockSize tr cur) ->
  blockSize <= lwm2m_get_coap_block_size c -> -1 <= cur < last -> in_order cur (s ++ [last]) = true ->
  Forall2 carries s ms -> carries last m ->
  exists responses l l' response,
    receive_requests c from ms = Some (after c from l (map message_bytes responses)) /\
    Forall2 (fun m r => acknowledges m COAP_231_CONTINUE r) ms responses /\
    acknowledges m COAP_205_CONTENT response /\
    represents BLOCK_1 l' (<[inl uri := (payload_, last)]> tr) /\
    let m' := completed NO_ERROR m in
    receive_request junk lwm2m_buffer_send (after c from l (map message_bytes responses)) m n from =
      ('(code_, c, response) ← handle_request (after c from l' (map message_bytes responses)) from m' response;
       send_answer junk lwm2m_buffer_send c m' response code_ from).
Proof.
  induction s as [|i s IH]; intros Hs Hpos ms m n c from peer tr cur Hf Hr Hbs Hcur Ho Hms Hm;
    inversion Hms as [|? m1 ? ms1 Hm1 Hms1]; subst; cbn [receive_requests] in *.
  - destruct (in_order_cons cur last [] Ho) as [Hl _].
    destruct (receive_block c from peer tr cur last m n Hf Hr Hbs Hcur Hl Hm) as (l' & t & o & Hrep & _ & Hdone).
    destruct (Hdone eq_refl) as [Hack Hreq].
    assert (forall l, after c from l [] = store_blockData c from l) as Hafter.
    { intros l. unfold after. cbn [map]. rewrite app_nil_r. unfold store_blockData. by destruct (utils_findServer _ _ _ _). }
    exists [], (blockData peer), l', (block_reply m t o COAP_205_CONTENT last 0 blockSize). cbn [map].
    rewrite !Hafter, (store_same c from peer Hf). split_and!; try done.
    revert Hrep. unfold received. replace (Z.max cur last) with last by lia. guards.
    unfold last. by rewrite (upto_last payload_ blockSize) by (unfold LWM2M_COAP_MAX_MESSAGE_SIZE in *; lia).
  - apply not_elem_of_cons in Hs as [Hi Hs]. apply list.Forall_cons_1 in Hpos as [Hi0 Hpos].
    destruct (in_order_cons cur i (s ++ [last]) Ho) as [Hi' Ho'].
    destruct (receive_block c from peer tr cur i m1 (payload_len m1) Hf Hr Hbs Hcur Hi' Hm1) as (l1 & t & o & Hrep & Hcont & _).
    destruct (Hcont ltac:(lia)) as (Hack & r & ->). mstep.
    set (resp := block_reply m1 t o COAP_231_CONTINUE i 1 blockSize) in *.
    change (send (store_blockData c from l1) from (message_bytes resp))
      with ((store_blockData c from l1) <| sent := sent (store_blockData c from l1) ++ [(from, message_bytes resp)] |>).
    assert (sent (store_blockData c from l1) = sent c) as -> by (unfold store_blockData; by destruct (utils_findServer _ _ _ _)).
    change (((store_blockData c from l1) <| sent := sent c ++ [(from, message_bytes resp)] |>)) with (after c from l1 [message_bytes resp]).
    set (c1 := after c from l1 [message_bytes resp]).
    destruct (IH Hs Hpos ms1 m n c1 from (peer <| blockData := l1 |>) tr (Z.max cur i)) as (responses & l & l' & response & H1 & H2 & H3 & H4 & H5);
      try done; [exact (find_store c from peer l1 Hf)|unfold lwm2m_get_coap_block_size, c1, after; cbn [rest update]; by rewrite store_block_size|lia|].
    exists (resp :: responses), l, l', response. subst c1. cbn zeta in H5.
    rewrite (after_after c from l1 _ l) in H1, H5. rewrite (after_after c from l1 _ l') in H5. cbn [map app] in *.
    split_and!; try done. by constructor.
Qed.

(** C35. A payload that a request brings in blocks reaches the handler of the
    request in one piece: when the blocks of a payload arrive from a known peer
    in order, each once or several times, every one before the last is answered
    by an acknowledgement 2.31 Continue with its message id, token and block
    number, and the last one has [handle_request] run on the message with the
    whole payload.  The transfers for other URIs are not touched. *)
Theorem block1_upload s ms m n c from peer tr :
  find_peer c from = Some peer -> represents BLOCK_1 (blockData peer) tr -> blockSize <= lwm2m_get_coap_block_size c ->
  last ∉ s -> Forall (fun i => 0 <= i) s -> in_order (-1) (s ++ [last]) = true ->
  Forall2 carries s ms -> carries last m ->
  exists responses l l' response,
    receive_requests c from ms = Some (after c from l (map message_bytes responses)) /\
    Forall2 (fun m r => acknowledges m COAP_231_CONTINUE r) ms responses /\
    acknowledges m COAP_205_CONTENT response /\
    represents BLOCK_1 l' (<[inl uri := (payload_, last)]> tr) /\
    let m' := m <| payload := Some payload_ |> <| payload_len := len payload_ |> in
    receive_request junk lwm2m_buffer_send (after c from l (map message_bytes responses)) m n from =
      ('(code_, c, response) ← handle_request (after c from l' (map message_bytes responses)) from m' response;
       send_answer junk lwm2m_buffer_send c m' response code_ from).
Proof.
  intros Hf Hr Hbs Hs Hpos Ho Hms Hm.
  pose proof (last_block_bound payload_ blockSize ltac:(lia) ltac:(lia)) as Hlast. fold last in Hlast.
  apply (receive_loop s Hs Hpos ms m n c from peer tr (-1)); try done. lia.
Qed.
End upload.

(** ** Witnesses *)

#[local] Instance no_handlers : Handlers Z unit unit unit unit := {
  dm_handleRequest c _ _ _ response := ret (COAP_204_CHANGED, c, response);
  bootstrap_handleCommand c _ _ _ response := ret (COAP_204_CHANGED, c, response);
  bootstrap_handleDeleteAll c _ := ret (COAP_202_DELETED, c);
  bootstrap_handleFinish c _ := ret (COAP_204_CHANGED, c);
  registration_handleRequest c _ _ _ response := ret (COAP_201_CREATED, c, response);
  reporting_handleSend c _ _ := ret (COAP_204_CHANGED, c);
  observe_handleNotify c _ _ response := ret (false, c, response);
  observe_cancel c _ _ := ret c }.
#[local] Instance session_Z : Sessions Z := Z.eqb.
#[local] Instance no_callback : Callbacks Z unit unit (world_t Z unit unit) := fun _ c _ _ => c.
Definition no_junk (n : Z) : list Z := replicate (Z.to_nat n) 0.

Lemma no_junk_length n : 0 <= n -> len (no_junk n) = n.
Proof. intros. unfold no_junk. rewrite length_replicate. lia. Qed.

Definition sample_server : lwm2m_server_t Z unit := mk_server 0 7 [] tt.
Definition sample_world : lwm2m_context_t Z unit unit (world_t Z unit unit) :=
  mk_context [] 1 [] [] (mk_world 1024 [] None [sample_server] [] tt).

(** A Put on /5 with block [i] of twenty bytes. *)
Definition sample_payload : list Z := str "0123456789abcdefghij".
Definition sample_block (i : Z) : coap_packet_t :=
  (coap_init_message COAP_TYPE_CON 3 (100 + i)) <| uri_path := [mk_opt 1 1 (str "5")] |>
    <| p_options := [0; 8; 0; 8; 0] |> <| block1 := mk_block i (b2z (i <? 1)) 16 0 |>
    <| payload := Some (block_of sample_payload 16 i) |> <| payload_len := len (block_of sample_payload 16 i) |>.

Lemma sample_carries i : i = 0 \/ i = 1 -> carries sample_payload (str "///5") 16 i (sample_block i).
Proof.
  intros Hi. assert (Forall node_ok [mk_opt 1 1 (str "5")]) as Hn
    by (apply list.Forall_cons_2; [split; cbn; lia|apply list.Forall_nil_2]).
  destruct Hi as [-> | ->]; constructor; try reflexivity; try exact Hn; try apply list.Forall_nil_2; by split_and!.
Qed.

Lemma block1_upload_witness :
  exists responses l l' response,
    @receive_requests Z unit unit unit unit malloc_always session_Z no_handlers no_junk (fun _ _ => 0) sample_world 7 [sample_block 0] =
      Some (after sample_world 7 l (map message_bytes responses)) /\
    @receive_request Z unit unit unit unit malloc_always session_Z no_handlers no_junk (fun _ _ => 0)
        (after sample_world 7 l (map message_bytes responses)) (sample_block 1) 30 7 =
      ('(code_, c, response) ← handle_request (after sample_world 7 l' (map message_bytes responses)) 7
         ((sample_block 1) <| payload := Some sample_payload |> <| payload_len := 20 |>) response;
       @send_answer Z unit unit unit unit malloc_always no_junk (fun _ _ => 0) c
         ((sample_block 1) <| payload := Some sample_payload |> <| payload_len := 20 |>) response code_ 7).
Proof.
  destruct (@block1_upload Z unit unit unit unit malloc_always session_Z no_handlers no_junk (fun _ _ => 0) (fun _ => eq_refl)
    no_junk_length sample_payload (str "///5") 16 ltac:(by vm_compute) ltac:(done) [0] [sample_block 0] (sample_block 1) 30
    sample_world 7 sample_server ∅ eq_refl) as (responses & l & l' & response & H1 & _ & _ & _ & H2).
  - exists []. split_and!; [done|by apply NoDup_nil|by apply list.Forall_nil_2|done].
  - done.
  - by apply (bool_decide_unpack _).
  - by apply (bool_decide_unpack _).
  - by vm_compute.
  - constructor; [apply sample_carries; by left|by constructor].
  - apply sample_carries. by right.
  - exists responses, l, l', response. split; [exact H1|exact H2].
Defined.

Lemma bad_packet_answered_witness :
  exists text c', @lwm2m_handle_packet Z unit unit unit unit malloc_always session_Z no_callback no_handlers no_junk (fun _ _ => 0) 0
      sample_world [0x40; 1; 0; 9; 0xF0] 5 7 = Some c' /\
    sent c' = [(7, error_bytes 0x80 9 text)].
Proof.
  destruct (@bad_packet_answered Z unit unit unit unit malloc_always session_Z no_callback no_handlers no_junk (fun _ _ => 0)
    (fun _ => eq_refl) no_junk_length 0 sample_world [0x40; 1; 0; 9; 0xF0] 7) as (r & Hr & _ & Hc).
  - repeat first [apply list.Forall_nil_2 | apply list.Forall_cons_2]; done.
  - done.
  - assert (match @coap_parse_message malloc_always [0x40; 1; 0; 9; 0xF0] 5 with
            | Some r => status r = 0x80 /\ mid (packet r) = 9 | None => False end) as Hp by (by vm_compute).
    change (len [64; 1; 0; 9; 240]) with 5 in *. rewrite Hr in Hp. destruct Hp as [Hs Hm].
    destruct (Hc ltac:(by rewrite Hs)) as (text & c' & Hh & _ & Hsent & _).
    exists text, c'. split; [exact Hh|]. by rewrite Hsent, Hs, Hm.
Defined.

(** ** What a peer can do *)

(** An answer with a Block1 option to a request sent without blocks divides by the
    block size 0 of that request. *)
Example block1_ack_divides_by_zero :
  let t := mk_transaction 9 7 false 1 0 (coap_init_message COAP_TYPE_CON 1 9) 4 (Some [64; 1; 0; 9]) 0 None None None in
  @lwm2m_handle_packet Z unit unit unit unit malloc_always session_Z no_callback no_handlers no_junk (fun _ _ => 0) 0
    (sample_world <| transactionList := [t] |>) [0x60; 0x44; 0; 9; 0xD1; 14; 0x06] 7 7 = None.
Proof. by vm_compute. Qed.

(** A 4.13 to a message id that no transaction has reads a null pointer. *)
Example too_large_without_transaction :
  @lwm2m_handle_packet Z unit unit unit unit malloc_always session_Z no_callback no_handlers no_junk (fun _ _ => 0) 0
    sample_world [0x60; 0x8D; 0; 9] 4 7 = None.
Proof. by vm_compute. Qed.

(** The next block of a request without Content-Format gets the type of the
    message as its Content-Format. *)
Example next_block_content_format :
  let m := (coap_init_message COAP_TYPE_NON 3 9) in
  let t := mk_transaction 9 7 false 1 0 m 4 (Some [80; 3; 0; 9]) 0 None None (@None unit) in
  match @prv_create_next_block_transaction Z unit unit malloc_always no_junk t 10 with
  | Some (Some t) => IS_OPTION (message t) COAP_OPTION_CONTENT_TYPE = true /\ content_type (message t) = 1
  | _ => False
  end.
Proof. by vm_compute. Qed.
End Blockwise.
