(* ===== verification/Client.v ===== *)
(** * The state of a client (include/liblwm2m.h)

    What the client keeps in the context besides its transactions: the objects
    of the application, its servers and the observations they have asked for.
    The server list itself is in [world_t] of Packet.v.

    A pointer to a server is the [secObjInstID] of the server, which is its
    identifier in the list.  A function pointer of an object is a value of [F],
    or [None] for a null pointer; the class [ObjectCallbacks] gives it a meaning.
    Reading and discovering leave the context alone but for the part [B], which
    belongs to the application; the other callbacks may change all of it. *)
From S2P Require Import Prelude.
From S2P Require Import Types.
From S2P Require Import SortedList.
From S2P Require Import Transaction.
From S2P Require Import Packet.
Import SortedList Transaction Packet.

Module Client.

(** ** Servers *)

Inductive lwm2m_status_t :=
  | STATE_DEREGISTERED
  | STATE_REG_HOLD_OFF
  | STATE_REG_PENDING
  | STATE_REGISTERED
  | STATE_REG_FAILED
  | STATE_REG_UPDATE_PENDING
  | STATE_REG_UPDATE_NEEDED
  | STATE_REG_FULL_UPDATE_NEEDED
  | STATE_DEREG_PENDING
  | STATE_BS_HOLD_OFF
  | STATE_BS_INITIATED
  | STATE_BS_PENDING
  | STATE_BS_FINISHING
  | STATE_BS_FINISHED
  | STATE_BS_FAILING
  | STATE_BS_FAILED.
#[export] Instance lwm2m_status_eq_dec : EqDecision lwm2m_status_t.
Proof. solve_decision. Defined.

(** The fields of [lwm2m_server_t] that packet.c does not read. *)
Record server_info := mk_info {
  shortID : Z;
  lifetime : Z;
  registration : Z;
  binding : Z;
  srv_status : lwm2m_status_t;
  location : option (list Z);
  dirty : bool;
  servObjInstID : Z;
  attempt : Z;
  sequence : Z }.
#[export] Instance info_rebuild : Rebuild server_info := fun s =>
  mk_info (shortID s) (lifetime s) (registration s) (binding s) (srv_status s) (location s) (dirty s)
    (servObjInstID s) (attempt s) (sequence s).

(** [memset(targetP, 0, sizeof(lwm2m_server_t))] *)
Definition zero_info : server_info := mk_info 0 0 0 0 STATE_DEREGISTERED None false 0 0 0.

(** ** Objects *)

Definition LWM2M_SECURITY_OBJECT_ID : Z := 0.
Definition LWM2M_SERVER_OBJECT_ID : Z := 1.
Definition LWM2M_OSCORE_OBJECT_ID : Z := 21.

Inductive lwm2m_write_type_t :=
  | LWM2M_WRITE_PARTIAL_UPDATE
  | LWM2M_WRITE_REPLACE_RESOURCES
  | LWM2M_WRITE_REPLACE_INSTANCE.

(** An instance is a node of a list, with its identifier. *)
#[export] Instance instance_node : ListNode Z := fun id => id.

Record lwm2m_object_t (F : Type) := mk_object {
  objID : Z;
  versionMajor : Z;
  versionMinor : Z;
  instanceList : list Z;
  readFunc : option F;
  writeFunc : option F;
  executeFunc : option F;
  createFunc : option F;
  deleteFunc : option F;
  discoverFunc : option F }.
Arguments mk_object {F}.
Arguments objID {F}.
Arguments versionMajor {F}.
Arguments versionMinor {F}.
Arguments instanceList {F}.
Arguments readFunc {F}.
Arguments writeFunc {F}.
Arguments executeFunc {F}.
Arguments createFunc {F}.
Arguments deleteFunc {F}.
Arguments discoverFunc {F}.
#[export] Instance object_rebuild {F} : Rebuild (lwm2m_object_t F) := fun o =>
  mk_object (objID o) (versionMajor o) (versionMinor o) (instanceList o) (readFunc o) (writeFunc o)
    (executeFunc o) (createFunc o) (deleteFunc o) (discoverFunc o).
#[export] Instance object_node {F} : ListNode (lwm2m_object_t F) := objID.

(** ** Observations *)

Definition LWM2M_ATTR_FLAG_MIN_PERIOD : Z := 0x01.
Definition LWM2M_ATTR_FLAG_MAX_PERIOD : Z := 0x02.
Definition LWM2M_ATTR_FLAG_GREATER_THAN : Z := 0x04.
Definition LWM2M_ATTR_FLAG_LESS_THAN : Z := 0x08.
Definition LWM2M_ATTR_FLAG_STEP : Z := 0x10.
Definition ATTR_FLAG_NUMERIC : Z :=
  Z.lor (Z.lor LWM2M_ATTR_FLAG_LESS_THAN LWM2M_ATTR_FLAG_GREATER_THAN) LWM2M_ATTR_FLAG_STEP.

(** [flags & flag] as a condition. *)
Definition has_flag (flags flag : Z) : bool := negb (Z.land flags flag =? 0).

(** A [double] is its 64-bit object representation. *)
Record lwm2m_attributes_t := mk_attributes {
  toSet : Z;
  toClear : Z;
  minPeriod : Z;
  maxPeriod : Z;
  greaterThan : Z;
  lessThan : Z;
  a_step : Z }.
#[export] Instance attributes_rebuild : Rebuild lwm2m_attributes_t := fun a =>
  mk_attributes (toSet a) (toClear a) (minPeriod a) (maxPeriod a) (greaterThan a) (lessThan a) (a_step a).
Definition zero_attributes : lwm2m_attributes_t := mk_attributes 0 0 0 0 0 0 0.

(** [lastValue] is the 64-bit object representation of the union. *)
Record lwm2m_watcher_t := mk_watcher {
  active : bool;
  w_update : bool;
  w_server : Z;
  parameters : option lwm2m_attributes_t;
  w_format : Z;
  w_token : list Z;
  tokenLen : Z;
  lastTime : Z;
  counter : Z;
  lastMid : Z;
  lastValue : Z }.
#[export] Instance watcher_rebuild : Rebuild lwm2m_watcher_t := fun w =>
  mk_watcher (active w) (w_update w) (w_server w) (parameters w) (w_format w) (w_token w) (tokenLen w)
    (lastTime w) (counter w) (lastMid w) (lastValue w).

Record lwm2m_observed_t := mk_observed {
  o_uri : lwm2m_uri_t;
  watcherList : list lwm2m_watcher_t }.
#[export] Instance observed_rebuild : Rebuild lwm2m_observed_t := fun o => mk_observed (o_uri o) (watcherList o).

(** ** The context *)

Inductive lwm2m_client_state_t :=
  | STATE_INITIAL
  | STATE_BOOTSTRAP_REQUIRED
  | STATE_BOOTSTRAPPING
  | STATE_REGISTER_REQUIRED
  | STATE_REGISTERING
  | STATE_READY.
#[export] Instance lwm2m_client_state_eq_dec : EqDecision lwm2m_client_state_t.
Proof. solve_decision. Defined.

(** [observedList] is [None] when its head is a node that has been freed, so that
    reading the list is undefined.  [user] is the state of the application. *)
Record client_t (F B : Type) := mk_client {
  client_state : lwm2m_client_state_t;
  endpointName : list Z;
  msisdn : option (list Z);
  objectList : list (lwm2m_object_t F);
  observedList : C (list lwm2m_observed_t);
  user : B }.
Arguments mk_client {F B}.
Arguments client_state {F B}.
Arguments endpointName {F B}.
Arguments msisdn {F B}.
Arguments objectList {F B}.
Arguments observedList {F B}.
Arguments user {F B}.
#[export] Instance client_rebuild {F B} : Rebuild (client_t F B) := fun c =>
  mk_client (client_state c) (endpointName c) (msisdn c) (objectList c) (observedList c) (user c).

Section client.
Context (Session CB U F B : Type).
Let context := lwm2m_context_t Session CB U (world_t Session server_info (client_t F B)).

(** What the callbacks of an object do: the status, and what they give back.
    [node_survives] tells whether the list node of an instance is still readable
    memory after the delete callback has removed the instance. *)
Class ObjectCallbacks := {
  read_callback : F -> context -> Z -> list lwm2m_data_t -> lwm2m_object_t F -> Z * list lwm2m_data_t * B;
  discover_callback : F -> context -> Z -> list lwm2m_data_t -> lwm2m_object_t F -> Z * list lwm2m_data_t * B;
  write_callback :
    F -> context -> Z -> list lwm2m_data_t -> lwm2m_object_t F -> lwm2m_write_type_t -> Z * context;
  execute_callback : F -> context -> Z -> Z -> option (list Z) -> Z -> lwm2m_object_t F -> Z * context;
  create_callback : F -> context -> Z -> list lwm2m_data_t -> lwm2m_object_t F -> Z * context;
  delete_callback : F -> context -> Z -> lwm2m_object_t F -> Z * context;
  node_survives : F -> bool }.
End client.
Arguments read_callback {Session CB U F B _}.
Arguments discover_callback {Session CB U F B _}.
Arguments write_callback {Session CB U F B _}.
Arguments execute_callback {Session CB U F B _}.
Arguments create_callback {Session CB U F B _}.
Arguments delete_callback {Session CB U F B _}.
Arguments node_survives {Session CB U F B _}.

(** The null pointer among the sessions, and [lwm2m_connect_server] for a Security
    instance. *)
Class Connections (Session : Type) := {
  null_session : Session;
  session_is_null : Session -> bool;
  lwm2m_connect_server : Z -> Session }.

(** ** Access to the parts of the context *)
Section access.
Context {Session CB U F B : Type}.
Abbreviation context := (lwm2m_context_t Session CB U (world_t Session server_info (client_t F B))).
Implicit Types (c : context).

Definition objects c : list (lwm2m_object_t F) := objectList (app (rest c)).
Definition observed c : C (list lwm2m_observed_t) := observedList (app (rest c)).
Definition servers c : list (lwm2m_server_t Session server_info) := serverList (rest c).

Definition set_client c (a : client_t F B) : context := c <| rest := (rest c) <| app := a |> |>.
Definition set_observed c (l : C (list lwm2m_observed_t)) : context :=
  set_client c ((app (rest c)) <| observedList := l |>).
Definition set_user c (b : B) : context := set_client c ((app (rest c)) <| user := b |>).
Definition set_servers c (l : list (lwm2m_server_t Session server_info)) : context :=
  c <| rest := (rest c) <| serverList := l |> |>.
Definition set_bootstrap_servers c (l : list (lwm2m_server_t Session server_info)) : context :=
  c <| rest := (rest c) <| bootstrapServerList := l |> |>.

Lemma observed_set_observed c l : observed (set_observed c l) = l.
Proof. done. Qed.
Lemma objects_set_observed c l : objects (set_observed c l) = objects c.
Proof. done. Qed.
Lemma servers_set_observed c l : servers (set_observed c l) = servers c.
Proof. done. Qed.
Lemma observed_set_user c b : observed (set_user c b) = observed c.
Proof. done. Qed.
Lemma objects_set_user c b : objects (set_user c b) = objects c.
Proof. done. Qed.
Lemma servers_set_user c b : servers (set_user c b) = servers c.
Proof. done. Qed.
End access.
Create Rewrite HintDb client.
#[export] Hint Rewrite @observed_set_observed @objects_set_observed @servers_set_observed
  @observed_set_user @objects_set_user @servers_set_user : client.

End Client.
