(* ===== verification/Observed.v ===== *)
(** * The observations of a client (core/observe.c, first part)

    The list of observed URIs and, for each, the watchers: the servers to notify.
    A pointer to a node is its position in the list.  What reads the objects of
    the application (setting parameters, notifications) is in Observe.v. *)
From S2P Require Import Prelude.
From S2P Require Import Types.
From S2P Require Import Float.
From S2P Require Import Data.
From S2P Require Import FloatText.
From S2P Require Import CoapPacket.
From S2P Require Import Transaction.
From S2P Require Import Packet.
From S2P Require Import Client.
Import Float Data FloatText CoapPacket Transaction Packet Client.

Module Observed.

Definition SIZEOF_OBSERVED : Z := 24.
Definition SIZEOF_WATCHER : Z := 72.

(** The loop condition of [prv_findObserved], negated. *)
Definition uri_covers (uriP target : lwm2m_uri_t) : bool :=
  negb ((LWM2M_URI_IS_SET_OBJECT uriP && negb (objectId target =? objectId uriP)) ||
        (LWM2M_URI_IS_SET_INSTANCE uriP && negb (instanceId target =? instanceId uriP)) ||
        (LWM2M_URI_IS_SET_RESOURCE uriP && negb (resourceId target =? resourceId uriP)) ||
        (LWM2M_URI_IS_SET_RESOURCE_INSTANCE uriP && negb (resourceInstanceId target =? resourceInstanceId uriP))).

Definition prv_findObserved (l : list lwm2m_observed_t) (uriP : lwm2m_uri_t) : option (nat * lwm2m_observed_t) :=
  list_find (fun o => uri_covers uriP (o_uri o) = true) l.

Definition prv_unlinkObserved (l : list lwm2m_observed_t) (observedP : nat) : list lwm2m_observed_t :=
  delete observedP l.

Definition prv_findWatcher (o : lwm2m_observed_t) (serverP : Z) : option (nat * lwm2m_watcher_t) :=
  list_find (fun w => w_server w = serverP) (watcherList o).

(** The conditions on one identifier in [observe_findByUri] and in
    [lwm2m_resource_value_changed]. *)
Definition id_same (a b : Z) : bool :=
  ((a =? LWM2M_MAX_ID) && (b =? LWM2M_MAX_ID)) || (negb (a =? LWM2M_MAX_ID) && negb (b =? LWM2M_MAX_ID) && (a =? b)).
Definition id_overlaps (a b : Z) : bool := (a =? LWM2M_MAX_ID) || (b =? LWM2M_MAX_ID) || (a =? b).

Definition uri_same (uriP target : lwm2m_uri_t) : bool :=
  (objectId target =? objectId uriP) && id_same (instanceId uriP) (instanceId target) &&
  id_same (resourceId uriP) (resourceId target) && id_same (resourceInstanceId uriP) (resourceInstanceId target).
Definition uri_overlaps (uriP target : lwm2m_uri_t) : bool :=
  (objectId target =? objectId uriP) && id_overlaps (instanceId uriP) (instanceId target) &&
  id_overlaps (resourceId uriP) (resourceId target) &&
  id_overlaps (resourceInstanceId uriP) (resourceInstanceId target).

Definition observe_findByUri (l : list lwm2m_observed_t) (uriP : lwm2m_uri_t) : option lwm2m_observed_t :=
  snd <$> list_find (fun o => uri_same uriP (o_uri o) = true) l.

(** Writing a watcher of the list. *)
Definition upd_watcher (l : list lwm2m_observed_t) (p : nat * nat) (f : lwm2m_watcher_t -> lwm2m_watcher_t)
    : list lwm2m_observed_t :=
  alter (fun o => o <| watcherList := alter f p.2 (watcherList o) |>) p.1 l.

Definition get_watcher (l : list lwm2m_observed_t) (p : nat * nat) : C lwm2m_watcher_t :=
  o ← l !! p.1; watcherList o !! p.2.

Definition zero_watcher (serverP : Z) : lwm2m_watcher_t :=
  mk_watcher false false serverP None 0 (replicate 8 0) 0 0 0 0 0.

Section observed.
Context {Session CB U F B : Type} `{HM : Malloc, HS : Sessions Session}.
Abbreviation context := (lwm2m_context_t Session CB U (world_t Session server_info (client_t F B))).
Abbreviation server := (lwm2m_server_t Session server_info).

(** The watcher, as the positions of the two nodes, and the list.  When the
    second allocation fails the new node is freed but stays at the head of the
    list. *)
Definition prv_getWatcher (l : list lwm2m_observed_t) (uriP : lwm2m_uri_t) (serverP : Z)
    : option (nat * nat) * C (list lwm2m_observed_t) :=
  let found := prv_findObserved l uriP in
  match
    match found with
    | Some (i, o) => Some (i, o, l)
    | None =>
        if malloc_ok SIZEOF_OBSERVED then let o := mk_observed uriP [] in Some (O, o, o :: l) else None
    end
  with
  | None => (None, Some l)
  | Some (i, o, l') =>
      match prv_findWatcher o serverP with
      | Some (j, _) => (Some (i, j), Some l')
      | None =>
          if malloc_ok SIZEOF_WATCHER then
            (Some (i, O), Some (alter (fun o => o <| watcherList := zero_watcher serverP :: watcherList o |>) i l'))
          else (None, if found is Some _ then Some l else None)
      end
  end.

(** ** Removing *)

(** [serverP->sessionH]: the server must still be in the list. *)
Definition server_session (contextP : context) (serverP : Z) : C Session :=
  s ← list_find (fun s : server => secObjInstID s = serverP) (servers contextP); ret (sessionH (snd s)).

(** The condition on a watcher in [observe_cancel]. *)
Definition cancels (contextP : context) (mid_ : Z) (fromSessionH : Session) (w : lwm2m_watcher_t) : C bool :=
  if lastMid w =? mid_ then s ← server_session contextP (w_server w); ret (lwm2m_session_is_equal s fromSessionH)
  else ret false.

(** The watchers without the first one to cancel, [None] when there is none. *)
Fixpoint cancel_watcher (contextP : context) (mid_ : Z) (fromSessionH : Session) (ws : list lwm2m_watcher_t)
    : C (option (list lwm2m_watcher_t)) :=
  match ws with
  | [] => ret None
  | w :: ws =>
      b ← cancels contextP mid_ fromSessionH w;
      if (b : bool) then ret (Some ws)
      else r ← cancel_watcher contextP mid_ fromSessionH ws; ret (option_map (cons w) r)
  end.

(** The loop reads the first watcher of each node without a test. *)
Fixpoint cancel_loop (contextP : context) (mid_ : Z) (fromSessionH : Session) (l : list lwm2m_observed_t)
    : C (list lwm2m_observed_t) :=
  match l with
  | [] => ret []
  | o :: l =>
      match watcherList o with
      | [] => None
      | ws =>
          r ← cancel_watcher contextP mid_ fromSessionH ws;
          match r with
          | Some [] => ret l
          | Some ws => ret (o <| watcherList := ws |> :: l)
          | None => l ← cancel_loop contextP mid_ fromSessionH l; ret (o :: l)
          end
      end
  end.

Definition observe_cancel (contextP : context) (mid_ : Z) (fromSessionH : Session) : C context :=
  l ← observed contextP;
  l ← cancel_loop contextP mid_ fromSessionH l;
  ret (set_observed contextP (Some l)).

(** The condition of [observe_clear] on a node. *)
Definition clears (uriP target : lwm2m_uri_t) : bool :=
  (objectId target =? objectId uriP) &&
  (negb (LWM2M_URI_IS_SET_INSTANCE uriP) || (instanceId target =? instanceId uriP)).

Fixpoint clear_loop (uriP : lwm2m_uri_t) (l : list lwm2m_observed_t) : list lwm2m_observed_t :=
  match l with
  | [] => []
  | o :: l => if clears uriP (o_uri o) then clear_loop uriP l else o :: clear_loop uriP l
  end.

Definition observe_clear (contextP : context) (uriP : lwm2m_uri_t) : C context :=
  l ← observed contextP; ret (set_observed contextP (Some (clear_loop uriP l))).

(** ** Value changes *)

Definition tag_watcher (w : lwm2m_watcher_t) : lwm2m_watcher_t :=
  if active w then w <| w_update := true |> else w.

Definition lwm2m_resource_value_changed (contextP : context) (uriP : lwm2m_uri_t) : C context :=
  l ← observed contextP;
  ret (set_observed contextP (Some (map (fun o =>
    if uri_overlaps uriP (o_uri o) then o <| watcherList := map tag_watcher (watcherList o) |> else o) l))).

(** ** Requests *)

Section request.
Context `{HL : LibC}.

(** The value of the resource as the union [lastValue], [Some None] when it is
    not a number and [None] when it cannot be decoded. *)
Definition value_of (valueP : lwm2m_data_t) : C (option (option Z)) :=
  match d_type valueP with
  | LWM2M_TYPE_INTEGER => v ← lwm2m_data_decode_int valueP; ret (option_map (fun v => Some (u64 v)) v)
  | LWM2M_TYPE_UNSIGNED_INTEGER => v ← lwm2m_data_decode_uint valueP; ret (option_map Some v)
  | LWM2M_TYPE_FLOAT => v ← lwm2m_data_decode_float valueP; ret (option_map Some v)
  | _ => ret (Some None)
  end.

(** The node that holds the value of a resource or of a resource instance. *)
Definition value_node (uriP : lwm2m_uri_t) (dataP : list lwm2m_data_t) : C lwm2m_data_t :=
  d ← rd dataP 0;
  if LWM2M_URI_IS_SET_RESOURCE_INSTANCE uriP && bool_decide (d_type d = LWM2M_TYPE_MULTIPLE_RESOURCE) then
    children ← asChildren (d_value d);
    if len children =? 1 then rd children 0 else ret d
  else ret d.

(** [tv_sec] is the result of [lwm2m_gettime]. *)
Definition observe_handleRequest (tv_sec : Z) (contextP : context) (uriP : lwm2m_uri_t) (serverP : server)
    (dataP : list lwm2m_data_t) (m response : coap_packet_t) : C (Z * context * coap_packet_t) :=
  count ← snd (coap_get_header_observe m);
  let target := secObjInstID serverP in
  if count =? 0 then
    if negb (LWM2M_URI_IS_SET_INSTANCE uriP) && LWM2M_URI_IS_SET_RESOURCE uriP then
      ret (COAP_400_BAD_REQUEST, contextP, response)
    else if token_len m =? 0 then ret (COAP_400_BAD_REQUEST, contextP, response)
    else
      l ← observed contextP;
      match prv_getWatcher l uriP target with
      | (None, l) => ret (COAP_500_INTERNAL_SERVER_ERROR, set_observed contextP l, response)
      | (Some p, l) =>
          l ← l;
          w ← get_watcher l p;
          tok ← rd_bytes (token m) 0 (token_len m);
          tok ← wr_bytes (w_token w) 0 tok;
          let l := upd_watcher l p (fun w =>
            w <| tokenLen := token_len m |> <| w_token := tok |> <| active := true |> <| lastTime := tv_sec |>
              <| lastMid := mid response |> <| w_format := content_type response |>) in
          let contextP := set_observed contextP (Some l) in
          value ←
            (if LWM2M_URI_IS_SET_RESOURCE uriP then valueP ← value_node uriP dataP; value_of valueP
             else if LWM2M_URI_IS_SET_RESOURCE_INSTANCE uriP then _ ← value_node uriP dataP; ret (Some None)
             else ret (Some None));
          match value with
          | None => ret (COAP_500_INTERNAL_SERVER_ERROR, contextP, response)
          | Some value =>
              let l := upd_watcher l p (fun w =>
                (if value is Some v then w <| lastValue := v |> else w) <| counter := u32 (counter w + 1) |>) in
              '(_, response) ← coap_set_header_observe response (counter w);
              ret (COAP_205_CONTENT, set_observed contextP (Some l), response)
          end
      end
  else if count =? 1 then
    l ← observed contextP;
    contextP ←
      match prv_findObserved l uriP with
      | Some (_, o) =>
          match prv_findWatcher o target with
          | Some (_, w) => observe_cancel contextP (lastMid w) (sessionH serverP)
          | None => ret contextP
          end
      | None => ret contextP
      end;
    ret (COAP_205_CONTENT, contextP, response)
  else ret (COAP_400_BAD_REQUEST, contextP, response).
End request.
End observed.

(** ** The invariant of the list

    A URI is observed once, by at least one watcher, and each server has at most
    one watcher for it; the server is still known, and its token fits.  No
    operation of this file reads a field that this invariant does not protect. *)

(** A resource is only observed inside an instance. *)
Definition uri_observable (u : lwm2m_uri_t) : bool :=
  LWM2M_URI_IS_SET_INSTANCE u || negb (LWM2M_URI_IS_SET_RESOURCE u).

Record watcher_ok (ids : list Z) (w : lwm2m_watcher_t) : Prop := mk_watcher_ok {
  known_server : w_server w ∈ ids;
  token_room : length (w_token w) = 8%nat;
  token_fits : 0 <= tokenLen w <= 8 }.

Record node_ok (ids : list Z) (o : lwm2m_observed_t) : Prop := mk_node_ok {
  observable : uri_observable (o_uri o) = true;
  watched : watcherList o <> [];
  one_per_server : NoDup (map w_server (watcherList o));
  watchers_ok : Forall (watcher_ok ids) (watcherList o) }.

Definition observed_ok (ids : list Z) (l : list lwm2m_observed_t) : Prop :=
  NoDup (map o_uri l) /\ Forall (node_ok ids) l.

(** The union member that the tag announces. *)
Definition tag_ok (d : lwm2m_data_t) : Prop :=
  match d_type d with
  | LWM2M_TYPE_INTEGER => is_Some (asInteger (d_value d))
  | LWM2M_TYPE_UNSIGNED_INTEGER => is_Some (asUnsigned (d_value d))
  | LWM2M_TYPE_FLOAT => is_Some (asFloat (d_value d))
  | LWM2M_TYPE_MULTIPLE_RESOURCE => exists l, asChildren (d_value d) = Some l
  | _ => True
  end.
(** A node that was read, and its children. *)
Definition read_ok (d : lwm2m_data_t) : Prop :=
  tag_ok d /\ (d_type d = LWM2M_TYPE_MULTIPLE_RESOURCE -> exists l, asChildren (d_value d) = Some l /\ Forall tag_ok l).

Section lists.
Context {A D : Type}.

Lemma map_alter_same (g : A -> D) f i (l : list A) : (forall x, g (f x) = g x) -> map g (alter f i l) = map g l.
Proof.
  intros Hg. revert i. induction l as [|x l IH]; intros [|i]; cbn; [done..| |].
  - by rewrite Hg.
  - f_equal. apply IH.
Qed.

Lemma alter_nil f i (l : list A) : alter f i l = [] -> l = [].
Proof. destruct l, i; by cbn. Qed.

Lemma NoDup_filter_map (g : A -> D) (P : A -> Prop) `{forall x, Decision (P x)} (l : list A) :
  NoDup (map g l) -> NoDup (map g (filter P l)).
Proof.
  induction l as [|x l IH]; intros Hn; [done|]. cbn [map] in Hn. apply NoDup_cons in Hn as [Hx Hn].
  rewrite filter_cons. destruct (decide (P x)); [|auto]. cbn [map]. apply NoDup_cons. split; [|auto].
  intros Hin. apply Hx. apply list_elem_of_fmap in Hin as (y & -> & Hy). apply list_elem_of_filter in Hy as [_ Hy].
  by apply list_elem_of_fmap_2.
Qed.
End lists.

Section invariant.
Context (ids : list Z).

Lemma upd_ok l p f :
  observed_ok ids l ->
  (forall w, get_watcher l p = Some w -> watcher_ok ids w -> watcher_ok ids (f w)) ->
  (forall w, w_server (f w) = w_server w) -> observed_ok ids (upd_watcher l p f).
Proof.
  intros [Hn Hl] Hf Hs. destruct p as [i j]. unfold upd_watcher. cbn [fst snd]. split.
  - rewrite map_alter_same; [done|by intros []].
  - apply list.Forall_alter; [exact Hl|]. intros o Ho [H1 H2 H3 H4]. split; [done| | |].
    + cbn. intros He. by apply alter_nil in He.
    + cbn. by rewrite map_alter_same.
    + cbn. apply list.Forall_alter; [done|]. intros w Hw Hok. apply Hf; [|done].
      unfold get_watcher. cbn [fst snd]. rewrite Ho. exact Hw.
Qed.

Lemma get_upd l p f w : get_watcher l p = Some w -> get_watcher (upd_watcher l p f) p = Some (f w).
Proof.
  destruct p as [i j]. unfold get_watcher, upd_watcher. cbn [fst snd]. rewrite list_lookup_alter_eq.
  destruct (l !! i) as [o|]; [|done]. cbn [fmap option_fmap option_map mbind option_bind]. intros Hw. cbn [watcherList update]. by rewrite list_lookup_alter_eq, Hw.
Qed.

Lemma get_ok l p w : observed_ok ids l -> get_watcher l p = Some w -> watcher_ok ids w.
Proof.
  intros [_ Hl] Hg. unfold get_watcher in Hg. destruct (l !! p.1) as [o|] eqn:Ho; [|done]. cbn in Hg.
  pose proof (list.Forall_lookup_1 _ _ _ _ Hl Ho) as [_ _ _ Hw]. by eapply list.Forall_lookup_1.
Qed.

Lemma uri_covers_self u : uri_covers u u = true.
Proof. unfold uri_covers. rewrite !Z.eqb_refl. by rewrite !andb_false_r. Qed.

Lemma prv_getWatcher_ok `{Malloc} l u s :
  observed_ok ids l -> uri_observable u = true -> s ∈ ids -> malloc_ok SIZEOF_WATCHER = true ->
  match prv_getWatcher l u s with
  | (Some p, Some l') => observed_ok ids l' /\ exists w, get_watcher l' p = Some w /\ w_server w = s
  | (None, l') => l' = Some l
  | _ => False
  end.
Proof.
  intros [Hn Hl] Hu Hs Hm. unfold prv_getWatcher, prv_findObserved, prv_findWatcher. rewrite Hm.
  assert (watcher_ok ids (zero_watcher s)) as Hz by (split; [done|done|cbn; lia]).
  destruct (list_find _ l) as [[i o]|] eqn:Ef.
  - apply list_find_Some in Ef as (Ho & Hc & _). pose proof (list.Forall_lookup_1 _ _ _ _ Hl Ho) as [H1 H2 H3 H4].
    destruct (list_find _ (watcherList o)) as [[j w]|] eqn:Ew.
    + apply list_find_Some in Ew as (Hw & Hws & _). split; [done|]. exists w. split; [|done].
      unfold get_watcher. cbn [fst snd]. by rewrite Ho.
    + apply list_find_None in Ew. split; [split|].
      * rewrite map_alter_same; [done|by intros []].
      * apply list.Forall_alter; [done|]. intros o' Ho' _. simplify_eq. split; [done|done| |].
        -- cbn. apply NoDup_cons. split; [|done]. intros Hin. apply list_elem_of_fmap in Hin as (w & Hw & Hin).
           rewrite list.Forall_forall in Ew. by apply (Ew w Hin).
        -- by apply Forall_cons.
      * exists (zero_watcher s). split; [|done]. unfold get_watcher. cbn [fst snd]. by rewrite list_lookup_alter_eq, Ho.
  - destruct (malloc_ok SIZEOF_OBSERVED); [|done]. cbn. apply list_find_None in Ef. split; [split|].
    + cbn. apply NoDup_cons. split; [|done]. intros Hin. apply list_elem_of_fmap in Hin as (o & Ho & Hin).
      rewrite list.Forall_forall in Ef. apply (Ef o Hin). rewrite <- Ho. apply uri_covers_self.
    + apply Forall_cons. split; [|done]. split; [done|done|cbn; by apply NoDup_singleton|by apply Forall_cons].
    + by exists (zero_watcher s).
Qed.

Lemma clear_loop_ok l u : observed_ok ids l -> observed_ok ids (clear_loop u l).
Proof.
  assert (clear_loop u l = filter (fun o => clears u (o_uri o) = false) l) as ->.
  { induction l as [|o l IH]; [done|]. cbn [clear_loop]. rewrite filter_cons, IH.
    destruct (clears u (o_uri o)) eqn:E; by case_decide. }
  intros [Hn Hl]. split; [by apply NoDup_filter_map|]. rewrite list.Forall_forall in *. intros o Ho.
  apply list_elem_of_filter in Ho as [_ Ho]. auto.
Qed.

Lemma tag_server w : w_server (tag_watcher w) = w_server w.
Proof. unfold tag_watcher. by destruct (active w). Qed.

Lemma changed_ok l u :
  observed_ok ids l ->
  observed_ok ids (map (fun o =>
    if uri_overlaps u (o_uri o) then o <| watcherList := map tag_watcher (watcherList o) |> else o) l).
Proof.
  intros [Hn Hl]. split.
  - rewrite map_map. erewrite map_ext; [exact Hn|]. intros o. by destruct (uri_overlaps _ _).
  - apply list.Forall_fmap. eapply list.Forall_impl; [exact Hl|]. intros o [H1 H2 H3 H4]. unfold compose.
    destruct (uri_overlaps _ _); [|done]. split; [done| | |].
    + cbn. by destruct (watcherList o).
    + cbn. rewrite map_map. erewrite map_ext; [exact H3|]. apply tag_server.
    + cbn. apply list.Forall_fmap. eapply list.Forall_impl; [exact H4|]. intros w [? ? ?]. unfold compose, tag_watcher.
      by destruct (active w).
Qed.
End invariant.

Section operations.
Context {Session CB U F B : Type} `{HM : Malloc, HS : Sessions Session}.
Abbreviation context := (lwm2m_context_t Session CB U (world_t Session server_info (client_t F B))).
Abbreviation server := (lwm2m_server_t Session server_info).
Implicit Types (c : context) (s : server).

(** The invariant of the context. *)
Definition observed_inv c : Prop :=
  exists l, observed c = Some l /\ observed_ok (map secObjInstID (servers c)) l.

Lemma server_session_ok c id : id ∈ map secObjInstID (servers c) -> exists x, server_session c id = Some x.
Proof.
  intros Hin. unfold server_session. destruct (list_find _ (servers c)) as [[i s]|] eqn:E; [by exists (sessionH s)|].
  apply list_find_None in E. apply list_elem_of_fmap in Hin as (s & -> & Hin). rewrite list.Forall_forall in E.
  by destruct (E s Hin).
Qed.

Lemma cancel_watcher_ok c mid_ from ws :
  Forall (watcher_ok (map secObjInstID (servers c))) ws ->
  exists r, cancel_watcher c mid_ from ws = Some r /\
    match r with Some ws' => exists w, ws ≡ₚ w :: ws' /\ lastMid w = mid_ | None => True end.
Proof.
  induction 1 as [|w ws Hw Hws IH]; [by exists None|]. cbn [cancel_watcher].
  assert (exists b : bool, cancels c mid_ from w = Some b /\ (b = true -> lastMid w = mid_)) as (b & -> & Hb).
  { unfold cancels. destruct (lastMid w =? mid_) eqn:E; [|by exists false].
    destruct (server_session_ok c (w_server w) (known_server _ _ Hw)) as [x ->]. mstep. eexists. split; [done|]. lia. }
  mstep. destruct b.
  - exists (Some ws). split; [done|]. exists w. auto.
  - destruct IH as (r & -> & Hr). mstep. eexists. split; [done|]. destruct r as [ws'|]; [|done]. cbn.
    destruct Hr as (x & Hp & Hx). exists x. split; [rewrite Hp; constructor|done].
Qed.

Lemma cancel_loop_ok c mid_ from l (ids := map secObjInstID (servers c)) :
  observed_ok ids l ->
  exists l', cancel_loop c mid_ from l = Some l' /\ observed_ok ids l' /\ (forall u, u ∈ map o_uri l' -> u ∈ map o_uri l).
Proof.
  induction l as [|o l IH]; intros [Hn Hl]; [by exists []|]. cbn [map] in Hn. apply NoDup_cons in Hn as [Ho Hn].
  apply Forall_cons in Hl as [Hok Hl]. destruct (IH (conj Hn Hl)) as (l2 & H2 & [Hn2 Hl2] & Hsub). cbn [cancel_loop map].
  destruct Hok as [H1 Hne H3 H4]. destruct (cancel_watcher_ok c mid_ from (watcherList o) H4) as (r & Hr & Hprop).
  destruct (watcherList o) as [|w ws] eqn:Ew; [done|]. rewrite Hr. mstep.
  destruct r as [[|x xs]|].
  - exists l. split; [done|]. split; [done|]. intros u Hu. by apply list_elem_of_further.
  - destruct Hprop as (y & Hp & _). eexists. split; [done|]. split; [|done].
    split; [by apply NoDup_cons|]. apply Forall_cons. split; [|done]. split; [done|done| |].
    + cbn [watcherList update]. rewrite Hp in H3. cbn [map] in H3. by apply NoDup_cons in H3 as [_ H3].
    + cbn [watcherList update]. rewrite Hp in H4. by apply Forall_cons in H4 as [_ H4].
  - rewrite H2. mstep. exists (o :: l2). split; [done|]. split.
    2:{ cbn [map]. intros u Hu. set_unfold. naive_solver. }
    split; [|apply Forall_cons; split; [|done]; by split; rewrite ?Ew].
    cbn [map]. apply NoDup_cons. split; [|done]. auto.
Qed.

(** What an operation promises: no undefined behaviour, the same servers, and the
    invariant. *)
Definition keeps c (r : C context) : Prop :=
  exists c', r = Some c' /\ servers c' = servers c /\ observed_inv c'.

Lemma keeps_list c l : observed_ok (map secObjInstID (servers c)) l -> keeps c (Some (set_observed c (Some l))).
Proof. intros Hl. eexists. split; [done|]. split; [done|]. by exists l. Qed.

Lemma observe_cancel_ok c mid_ from : observed_inv c -> keeps c (observe_cancel c mid_ from).
Proof.
  intros (l & Hl & Hok). unfold observe_cancel. rewrite Hl. mstep.
  destruct (cancel_loop_ok c mid_ from l Hok) as (l' & -> & Hok' & _). mstep. by apply keeps_list.
Qed.

Lemma observe_clear_ok c u : observed_inv c -> keeps c (observe_clear c u).
Proof.
  intros (l & Hl & Hok). unfold observe_clear. rewrite Hl. mstep. by apply keeps_list, clear_loop_ok.
Qed.

Lemma value_changed_ok c u : observed_inv c -> keeps c (lwm2m_resource_value_changed c u).
Proof.
  intros (l & Hl & Hok). unfold lwm2m_resource_value_changed. rewrite Hl. mstep. by apply keeps_list, changed_ok.
Qed.

Section request.
Context `{HL : LibC}.

Lemma value_node_ok u d l : read_ok d -> exists v, value_node u (d :: l) = Some v /\ tag_ok v.
Proof.
  intros [Ht Hm]. unfold value_node. rewrite rd_cons_0. mstep.
  destruct (LWM2M_URI_IS_SET_RESOURCE_INSTANCE u); [|by exists d]. cbn [andb]. case_bool_decide as E; [|by exists d].
  destruct (Hm E) as (ch & -> & Hch). mstep. destruct (len ch =? 1) eqn:El; [|by exists d].
  destruct ch as [|x [|? ?]]; [done| |lens]. rewrite rd_cons_0. exists x. split; [done|].
  by apply Forall_cons in Hch as [? _].
Qed.

Lemma value_of_ok v : tag_ok v -> exists r, value_of v = Some r.
Proof.
  unfold tag_ok, value_of, lwm2m_data_decode_int, lwm2m_data_decode_uint, lwm2m_data_decode_float.
  destruct (d_type v); try (by eexists); intros [x ->]; mstep; by eexists.
Qed.

(** What a request must be for [observe_handleRequest] to be called. *)
Record request_ok (u : lwm2m_uri_t) (dataP : list lwm2m_data_t) (m response : coap_packet_t) : Prop := mk_request_ok {
  req_observe : IS_OPTION m COAP_OPTION_OBSERVE = true;
  req_token : length (token m) = 8%nat /\ 0 <= token_len m <= 8;
  req_response : packet_wf response;
  req_data : LWM2M_URI_IS_SET_RESOURCE u || LWM2M_URI_IS_SET_RESOURCE_INSTANCE u = true ->
    exists d l, dataP = d :: l /\ read_ok d }.

Lemma request_value u dataP m response :
  request_ok u dataP m response ->
  exists r, (if LWM2M_URI_IS_SET_RESOURCE u then valueP ← value_node u dataP; value_of valueP
             else if LWM2M_URI_IS_SET_RESOURCE_INSTANCE u then _ ← value_node u dataP; ret (Some None)
             else ret (Some None)) = Some r.
Proof.
  intros [_ _ _ Hd]. destruct (LWM2M_URI_IS_SET_RESOURCE u) eqn:E1, (LWM2M_URI_IS_SET_RESOURCE_INSTANCE u) eqn:E2;
    [destruct Hd as (d & l & -> & Hr); [done|]; destruct (value_node_ok u d l Hr) as (v & -> & Hv); mstep;
     first [by apply value_of_ok|by eexists]..|by eexists].
Qed.

Lemma observe_handleRequest_ok tv c u s dataP m response :
  observed_inv c -> secObjInstID s ∈ map secObjInstID (servers c) -> malloc_ok SIZEOF_WATCHER = true ->
  request_ok u dataP m response ->
  exists r c' response', observe_handleRequest tv c u s dataP m response = Some (r, c', response') /\
    servers c' = servers c /\ observed_inv c'.
Proof.
  intros Hinv Hs Hm Hr. destruct Hinv as (l & Hl & Hok). unfold observe_handleRequest, coap_get_header_observe.
  destruct (request_value u dataP m response Hr) as (r & Hval). destruct Hr as [Ho [Htok Htl] Hresp _]. rewrite Ho.
  cbn [negb snd]. mstep. assert (observed_inv c) as Hinv by (by exists l). destruct (observe m =? 0).
  - destruct (_ && _) eqn:Eu; [by eexists _, _, _|]. destruct (token_len m =? 0); [by eexists _, _, _|].
    rewrite Hl. mstep. assert (uri_observable u = true) as Hu
      by (unfold uri_observable; destruct (LWM2M_URI_IS_SET_INSTANCE u), (LWM2M_URI_IS_SET_RESOURCE u); done).
    pose proof (prv_getWatcher_ok _ l u (secObjInstID s) Hok Hu Hs Hm) as Hg.
    destruct (prv_getWatcher l u (secObjInstID s)) as [[p|] l'].
    + destruct l' as [l'|]; [|done]. destruct Hg as (Hok' & w & Hw & Hws). mstep. rewrite Hw. mstep.
      pose proof (get_ok _ _ _ _ Hok' Hw) as Hwok.
      unfold rd_bytes at 1. guards. mstep. rewrite wr_bytes_Some by (pose proof (slice_length (token m) 0 (token_len m)); destruct Hwok; lens).
      mstep. rewrite Hval. mstep.
      match goal with |- context [upd_watcher l' p ?f] => assert (observed_ok (map secObjInstID (servers c)) (upd_watcher l' p f)) as Hok2 end.
      { apply upd_ok; [done| |done]. intros x _ [? ? ?]. split; [done| |done]. cbn.
        pose proof (slice_length (token m) 0 (token_len m)). apply Nat2Z.inj. rewrite patch_length; destruct Hwok; lens. }
      destruct r as [v|].
      * destruct (set_option_ok (response <| observe := Z.land 0x00FFFFFF (counter w) |>) COAP_OPTION_OBSERVE) as (o & E & _);
          [done|done|]. unfold coap_set_header_observe. rewrite E. mstep. eexists _, _, _. split; [done|].
        split; [done|]. eexists. split; [done|]. apply upd_ok; [done| |by intros; destruct v].
        intros x _ [? ? ?]. by destruct v.
      * eexists _, _, _. split; [done|]. split; [done|]. by eexists.
    + subst l'. eexists _, _, _. split; [done|]. split; [done|]. by eexists.
  - destruct (observe m =? 1); [|by eexists _, _, _]. rewrite Hl. mstep.
    destruct (prv_findObserved l u) as [[i o]|]; [|by eexists _, _, _].
    destruct (prv_findWatcher o (secObjInstID s)) as [[j w]|]; [|by eexists _, _, _].
    destruct (observe_cancel_ok c (lastMid w) (sessionH s) Hinv) as (c' & -> & H1 & H2). mstep. by eexists _, _, _.
Qed.
End request.
End operations.

End Observed.
