(* ===== verification/Discover.v ===== *)
(** * Discovery (core/discover.c)

    The link-format description of an object, an instance or a resource, with
    the attributes that a server has set.  [contextP] is the list of observed
    URIs of the context, [None] for a null context; [serverP] is [None] for a
    null pointer.  [junk] is the content of local arrays. *)
From S2P Require Import Prelude.
From S2P Require Import Types.
From S2P Require Import Numeric.
From S2P Require Import Uri.
From S2P Require Import FloatText.
From S2P Require Import Client.
From S2P Require Import Observed.
Import Numeric Uri FloatText Client Observed.

Module Discover.

Definition PRV_LINK_BUFFER_SIZE : Z := 1024.

Definition prv_findAttributes (contextP : option (list lwm2m_observed_t)) (uriP : lwm2m_uri_t) (serverP : option Z)
    : option lwm2m_attributes_t :=
  match contextP, serverP with
  | Some l, Some s =>
      match observe_findByUri l uriP with
      | Some o =>
          fold_left (fun paramP w => if w_server w =? s then parameters w else paramP) (watcherList o) None
      | None => None
      end
  | _, _ => None
  end.

(** A buffer and the index of its first free byte. *)
Definition out := (list Z * Z)%type.

(** [PRV_CONCAT_STR] *)
Definition PRV_CONCAT_STR (o : out) (length : Z) (text : list Z) : C (option out) :=
  let '(buf, index) := o in
  if u64 (length - index) <? len text then ret None
  else buf ← wr_bytes buf index text; ret (Some (buf, index + len text)).

(** A number written by one of the functions of utils.c. *)
Definition put_number (o : out) (length : Z) (f : list Z -> Z -> C (Z * list Z)) : C (option out) :=
  let '(buf, index) := o in
  '(res, buf) ← at_off buf index (fun b => f b (length - index));
  ret (if res <=? 0 then None else Some (buf, index + res)).

Definition put_int (o : out) (length v : Z) : C (option out) := put_number o length (utils_intToText v).

(** [;key] and the value. *)
Definition put_period (o : out) (length : Z) (key : list Z) (v : Z) : C (option out) :=
  o ←? PRV_CONCAT_STR o length (str ";"); o ←? PRV_CONCAT_STR o length key; put_int o length v.
Definition put_float (o : out) (length : Z) (key : list Z) (v : Z) : C (option out) :=
  o ←? PRV_CONCAT_STR o length (str ";"); o ←? PRV_CONCAT_STR o length key;
  put_number o length (fun b n => utils_floatToText v b n false).

(** A period of the parameters, or else of the object. *)
Definition attr_period (o : out) (length : Z) (key : list Z) (flag : Z) (field : lwm2m_attributes_t -> Z)
    (paramP : lwm2m_attributes_t) (objectParamP : option lwm2m_attributes_t) : C (option out) :=
  if has_flag (toSet paramP) flag then put_period o length key (field paramP)
  else
    match objectParamP with
    | Some p => if has_flag (toSet p) flag then put_period o length key (field p) else ret (Some o)
    | None => ret (Some o)
    end.

Definition attr_float (o : out) (length : Z) (key : list Z) (flag : Z) (field : lwm2m_attributes_t -> Z)
    (paramP : lwm2m_attributes_t) : C (option out) :=
  if has_flag (toSet paramP) flag then put_float o length key (field paramP) else ret (Some o).

(** The buffer and the result, [None] for [-1]. *)
Definition prv_serializeAttributes (contextP : option (list lwm2m_observed_t)) (uriP : lwm2m_uri_t)
    (serverP : option Z) (objectParamP : option lwm2m_attributes_t) (buffer : list Z) (uriLen bufferLen : Z)
    : C (option out) :=
  let paramP := match prv_findAttributes contextP uriP serverP with Some p => Some p | None => objectParamP end in
  match paramP with
  | None => ret (Some (buffer, 0))
  | Some p =>
      o ←? attr_period (buffer, uriLen) bufferLen (str "pmin=") LWM2M_ATTR_FLAG_MIN_PERIOD minPeriod p objectParamP;
      o ←? attr_period o bufferLen (str "pmax=") LWM2M_ATTR_FLAG_MAX_PERIOD maxPeriod p objectParamP;
      o ←? attr_float o bufferLen (str "gt=") LWM2M_ATTR_FLAG_GREATER_THAN greaterThan p;
      o ←? attr_float o bufferLen (str "lt=") LWM2M_ATTR_FLAG_LESS_THAN lessThan p;
      o ←? attr_float o bufferLen (str "st=") LWM2M_ATTR_FLAG_STEP a_step p;
      '(buffer, head) ←? PRV_CONCAT_STR o bufferLen (str ",");
      ret (Some (buffer, if 0 <? head then head - (uriLen + 1) else head))
  end.

Section link.
Context (junk : Z -> list Z) (contextP : option (list lwm2m_observed_t)) (serverP : option Z).

(** [memcpy] under the test [bufferLen - head < size]. *)
Definition put_text (o : out) (length : Z) (text : list Z) : C (option out) := PRV_CONCAT_STR o length text.

(** The loop on the children of an instance: each writes behind the last. *)
Fixpoint link_loop (f : lwm2m_data_t -> list Z -> Z -> C (option out)) (array : list lwm2m_data_t)
    (o : out) (bufferLen : Z) : C (option out) :=
  match array with
  | [] => ret (Some o)
  | d :: array =>
      let '(buffer, head) := o in
      '(r, buffer) ←
        at_off buffer head (fun b =>
          r ← f d b (bufferLen - head); ret (match r with Some (b, n) => (Some n, b) | None => (None, b) end));
      match r with
      | None => ret None
      | Some res => link_loop f array (buffer, head + res) bufferLen
      end
  end.

(** The entry of a resource. *)
Definition link_resource (type : lwm2m_data_type_t) (id : Z) (value : value_t)
    (objectParamP : option lwm2m_attributes_t) (parentUriP : lwm2m_uri_t) (parentUriStr : list Z)
    (buffer : list Z) (bufferLen : Z) : C (option out) :=
  o ←? put_text (buffer, 0) bufferLen (str "<");
  o ←? (if 0 <? len parentUriStr then put_text o bufferLen parentUriStr else ret (Some o));
  o ←? put_text o bufferLen (str "/");
  o ←? put_int o bufferLen id;
  o ←? (match type with
        | LWM2M_TYPE_MULTIPLE_RESOURCE =>
            children ← asChildren value;
            o ←? put_text o bufferLen (str ">;dim=");
            o ←? put_int o bufferLen (len children);
            put_text o bufferLen (str ",")
        | _ => put_text o bufferLen (str ">,")
        end);
  match serverP with
  | Some _ =>
      let '(buffer, head) := o in
      let uri := mk_uri (objectId parentUriP) (instanceId parentUriP) id (resourceInstanceId parentUriP) in
      '(buffer, res) ←? prv_serializeAttributes contextP uri serverP objectParamP buffer (head - 1) bufferLen;
      ret (Some (buffer, if 0 <? res then head + res else head))
  | None => ret (Some o)
  end.

(** [parentUriStr] holds [parentUriLen] characters. *)
Fixpoint prv_serializeLinkData (tlvP : lwm2m_data_t) (objectParamP : option lwm2m_attributes_t)
    (parentUriP : lwm2m_uri_t) (parentUriStr : list Z) (buffer : list Z) (bufferLen : Z) {struct tlvP}
    : C (option out) :=
  let 'mk_data type id value := tlvP in
  match type with
  | LWM2M_TYPE_OBJECT => ret None
  | LWM2M_TYPE_OBJECT_INSTANCE =>
      if URI_MAX_STRING_LEN <? len parentUriStr then ret None
      else
        uriStr ← wr_bytes (junk URI_MAX_STRING_LEN) 0 parentUriStr;
        o ←? put_text (uriStr, len parentUriStr) URI_MAX_STRING_LEN (str "/");
        '(uriStr, uriLen) ←? put_int o URI_MAX_STRING_LEN id;
        uriStr ← rd_bytes uriStr 0 uriLen;
        let uri := mk_uri (objectId parentUriP) id (resourceId parentUriP) (resourceInstanceId parentUriP) in
        o ←? PRV_CONCAT_STR (buffer, 0) bufferLen (str "<");
        o ←? PRV_CONCAT_STR o bufferLen uriStr;
        o ←? PRV_CONCAT_STR o bufferLen (str ">,");
        o ←? (match serverP with
              | Some _ =>
                  let '(buffer, head) := o in
                  '(buffer, res) ←? prv_serializeAttributes contextP uri serverP None buffer (head - 1) bufferLen;
                  ret (Some (buffer, if res =? 0 then 0 else head + res))
              | None => ret (Some o)
              end);
        match value with
        | VZero => ret (Some o)
        | VChildren array =>
            link_loop (fun d => prv_serializeLinkData d objectParamP uri uriStr) array o bufferLen
        | _ => None
        end
  | _ => link_resource type id value objectParamP parentUriP parentUriStr buffer bufferLen
  end.

(** The attributes of the object under those of the instance. *)
Definition merge_attributes (objParamP instParamP : option lwm2m_attributes_t) : option lwm2m_attributes_t :=
  match objParamP, instParamP with
  | Some o, Some i =>
      let flags := Z.lor (toSet o) (toSet i) in
      let pick flag field :=
        if has_flag flags flag then if has_flag (toSet i) flag then field i else field o else 0 in
      Some (zero_attributes <| toSet := flags |>
              <| minPeriod := pick LWM2M_ATTR_FLAG_MIN_PERIOD minPeriod |>
              <| maxPeriod := pick LWM2M_ATTR_FLAG_MAX_PERIOD maxPeriod |>)
  | Some o, None => Some o
  | None, _ => instParamP
  end.

(** The entry of the object or of the instance itself. *)
Definition link_head (uriP parentUri : lwm2m_uri_t) (o : out) : C (option out) :=
  let length := PRV_LINK_BUFFER_SIZE in
  o ←? PRV_CONCAT_STR o length (str "<");
  o ←? PRV_CONCAT_STR o length (str "/");
  o ←? put_int o length (objectId uriP);
  o ←? (if LWM2M_URI_IS_SET_INSTANCE uriP then
          o ←? PRV_CONCAT_STR o length (str "/"); put_int o length (instanceId uriP)
        else ret (Some o));
  '(buffer, head) ←? PRV_CONCAT_STR o length (str ">,");
  match serverP with
  | Some _ =>
      '(buffer, res) ←? prv_serializeAttributes contextP parentUri serverP None buffer (head - 1) length;
      ret (Some (buffer, head + res))
  | None => ret (Some (buffer, head))
  end.

(** [for (index = 0; index < size && head < PRV_LINK_BUFFER_SIZE; index++)] *)
Fixpoint discover_loop (dataP : list lwm2m_data_t) (paramP : option lwm2m_attributes_t) (uriP : lwm2m_uri_t)
    (baseUriStr : list Z) (o : out) : C (option out) :=
  match dataP with
  | [] => ret (Some o)
  | d :: dataP =>
      if PRV_LINK_BUFFER_SIZE <=? snd o then ret (Some o)
      else
        o ←? link_loop (fun d => prv_serializeLinkData d paramP uriP baseUriStr) [d] o PRV_LINK_BUFFER_SIZE;
        discover_loop dataP paramP uriP baseUriStr o
  end.

Section serialize.
Context `{HM : Malloc}.

(** The result and the buffer. *)
Definition discover_serialize (uriP : lwm2m_uri_t) (dataP : list lwm2m_data_t) : C (Z * option (list Z)) :=
  let bufferLink := junk PRV_LINK_BUFFER_SIZE in
  let objUri := mk_uri (objectId uriP) LWM2M_MAX_ID LWM2M_MAX_ID LWM2M_MAX_ID in
  let instUri := mk_uri (objectId uriP) (instanceId uriP) LWM2M_MAX_ID LWM2M_MAX_ID in
  r ←
    (if LWM2M_URI_IS_SET_RESOURCE uriP then
       let paramP := merge_attributes (prv_findAttributes contextP objUri serverP)
                                      (prv_findAttributes contextP instUri serverP) in
       let baseUri := mk_uri (objectId uriP) (instanceId uriP) LWM2M_MAX_ID (resourceInstanceId uriP) in
       ret (Some ((bufferLink, 0), paramP, baseUri))
     else
       o ←? link_head uriP (if LWM2M_URI_IS_SET_INSTANCE uriP then instUri else objUri) (bufferLink, 0);
       ret (Some (o, None, uriP)));
  match r with
  | None => ret (-1, None)
  | Some (o, paramP, uriP) =>
      '(baseUriLen, baseUriStr, _) ← lwm2m_uriToString (Some uriP) (junk URI_MAX_STRING_LEN) URI_MAX_STRING_LEN;
      if baseUriLen <? 0 then ret (-1, None)
      else
        baseUriStr ← rd_bytes baseUriStr 0 baseUriLen;
        r ← discover_loop dataP paramP uriP baseUriStr o;
        match r with
        | None => ret (-1, None)
        | Some (buffer, head) =>
            if 0 <? head then
              let head := head - 1 in
              if malloc_ok head then b ← rd_bytes buffer 0 head; ret (head, Some b) else ret (0, None)
            else ret (head, None)
        end
  end.
End serialize.
End link.

End Discover.
