(* ===== verification/Formats.v ===== *)
(** * Content formats (data/data.c)

    The dispatch of [lwm2m_data_parse] and [lwm2m_data_serialize] to the formats.
    Text, opaque values, TLV and links are those of this development; JSON, SenML
    JSON and SenML CBOR are the operations of the class [Codecs]. *)
From S2P Require Import Prelude.
From S2P Require Import Types.
From S2P Require Import Data.
From S2P Require Import FloatText.
From S2P Require Import Tlv.
From S2P Require Import Client.
From S2P Require Import Discover.
Import Data FloatText Tlv Client Discover.

(** The formats that belong to other files: the result with the parsed data, or
    with the buffer. *)
Class Codecs := {
  json_parse : option lwm2m_uri_t -> list Z -> Z -> C (Z * list lwm2m_data_t);
  json_serialize : option lwm2m_uri_t -> list lwm2m_data_t -> C (Z * option (list Z));
  senml_json_parse : option lwm2m_uri_t -> list Z -> Z -> C (Z * list lwm2m_data_t);
  senml_json_serialize : option lwm2m_uri_t -> list lwm2m_data_t -> C (Z * option (list Z));
  senml_cbor_parse : option lwm2m_uri_t -> list Z -> Z -> C (Z * list lwm2m_data_t);
  senml_cbor_serialize : option lwm2m_uri_t -> list lwm2m_data_t -> C (Z * option (list Z)) }.

Module Formats.
Section formats.
Context `{HM : Malloc, HL : LibC, HF : Codecs}.

(** A single value of type [type]. *)
Definition parse_value (type : lwm2m_data_type_t) (uriP : lwm2m_uri_t) (buffer : list Z) (bufferLen : Z)
    : C (Z * list lwm2m_data_t) :=
  if negb (LWM2M_URI_IS_SET_RESOURCE uriP) then ret (0, [])
  else
    match lwm2m_data_new 1 with
    | None => ret (0, [])
    | Some _ =>
        let id := if LWM2M_URI_IS_SET_RESOURCE_INSTANCE uriP then resourceInstanceId uriP else resourceId uriP in
        '(v, res) ← prv_setBuffer buffer bufferLen;
        ret (if res =? 0 then (res, []) else (res, [mk_data type id v]))
    end.

(** The result and the array. *)
Definition lwm2m_data_parse (uriP : lwm2m_uri_t) (buffer : list Z) (bufferLen format : Z)
    : C (Z * list lwm2m_data_t) :=
  if format =? LWM2M_CONTENT_TEXT then parse_value LWM2M_TYPE_STRING uriP buffer bufferLen
  else if format =? LWM2M_CONTENT_OPAQUE then parse_value LWM2M_TYPE_OPAQUE uriP buffer bufferLen
  else if (format =? LWM2M_CONTENT_TLV_OLD) || (format =? LWM2M_CONTENT_TLV) then tlv_parse buffer bufferLen
  else if (format =? LWM2M_CONTENT_JSON_OLD) || (format =? LWM2M_CONTENT_JSON) then
    json_parse (Some uriP) buffer bufferLen
  else if format =? LWM2M_CONTENT_SENML_JSON then senml_json_parse (Some uriP) buffer bufferLen
  else if format =? LWM2M_CONTENT_SENML_CBOR then senml_cbor_parse (Some uriP) buffer bufferLen
  else ret (0, []).

Definition is_container (type : lwm2m_data_type_t) : bool :=
  match type with
  | LWM2M_TYPE_OBJECT | LWM2M_TYPE_OBJECT_INSTANCE | LWM2M_TYPE_MULTIPLE_RESOURCE => true
  | _ => false
  end.

(** The format after the check: text, opaque and CBOR are for single values. *)
Definition check_format (uriP : option lwm2m_uri_t) (dataP : list lwm2m_data_t) (format : Z) : C Z :=
  if (format =? LWM2M_CONTENT_TEXT) || (format =? LWM2M_CONTENT_OPAQUE) || (format =? LWM2M_CONTENT_CBOR) then
    if negb (len dataP =? 1) then ret LWM2M_CONTENT_SENML_CBOR
    else if match uriP with Some u => negb (LWM2M_URI_IS_SET_RESOURCE u) | None => false end then
      ret LWM2M_CONTENT_SENML_CBOR
    else d ← rd dataP 0; ret (if is_container (d_type d) then LWM2M_CONTENT_SENML_CBOR else format)
  else ret format.

(** [isResourceInstance], [None] for [return -1]. *)
Definition tlv_instance (uriP : option lwm2m_uri_t) (dataP : list lwm2m_data_t) : C (option bool) :=
  match uriP with
  | None => ret (Some false)
  | Some u =>
      if LWM2M_URI_IS_SET_RESOURCE_INSTANCE u then
        if negb (len dataP =? 1) then ret None
        else d ← rd dataP 0; ret (if negb (d_id d =? resourceInstanceId u) then None else Some true)
      else if LWM2M_URI_IS_SET_RESOURCE u then
        if negb (len dataP =? 1) then ret (Some true)
        else d ← rd dataP 0; ret (Some (negb (d_id d =? resourceId u)))
      else ret (Some false)
  end.

(** The result, [*formatP] and the buffer; [size] is the length of the array. *)
Definition lwm2m_data_serialize (junk : Z -> list Z) (uriP : option lwm2m_uri_t) (dataP : list lwm2m_data_t)
    (format : Z) : C (Z * Z * option (list Z)) :=
  format ← check_format uriP dataP format;
  refused ← (if format =? LWM2M_CONTENT_OPAQUE then
               d ← rd dataP 0; ret (negb (bool_decide (d_type d = LWM2M_TYPE_OPAQUE)))
             else ret false);
  if (refused : bool) then ret (-1, format, None)
  else
    '(res, buffer) ←
      (if format =? LWM2M_CONTENT_TEXT then d ← rd dataP 0; prv_textSerialize junk d
       else if format =? LWM2M_CONTENT_OPAQUE then
         d ← rd dataP 0;
         b ← asBuffer (d_value d);
         ret (if malloc_ok (len b) then (s32 (len b), Some b) else (-1, None))
       else if (format =? LWM2M_CONTENT_TLV) || (format =? LWM2M_CONTENT_TLV_OLD) then
         isResourceInstance ← tlv_instance uriP dataP;
         match isResourceInstance with
         | None => ret (-1, None)
         | Some b =>
             '(res, buf) ← @tlv_serialize HM (hd 0 (junk 1)) b dataP;
             ret (res, if res <=? 0 then None else Some buf)
         end
       else if format =? LWM2M_CONTENT_LINK then
         match uriP with Some u => discover_serialize junk None None u dataP | None => None end
       else if (format =? LWM2M_CONTENT_JSON) || (format =? LWM2M_CONTENT_JSON_OLD) then json_serialize uriP dataP
       else if format =? LWM2M_CONTENT_SENML_JSON then senml_json_serialize uriP dataP
       else if format =? LWM2M_CONTENT_SENML_CBOR then senml_cbor_serialize uriP dataP
       else ret (-1, None));
    ret (res, format, buffer).
End formats.
End Formats.
