(* ===== verification/Objects.v ===== *)
(** * Objects (core/objects.c)

    The operations of the client on the objects of the application: reading,
    writing, executing, creating, deleting and discovering for the server, and
    the reading of the Security and Server objects.  The payload of a
    registration is in RegisterPayload.v.

    The data handed to a callback and what it gives back is a list, whose length
    is the count that goes with the array.  Freeing is not modelled. *)
From S2P Require Import Prelude.
From S2P Require Import Types.
From S2P Require Import SortedList.
From S2P Require Import Utils.
From S2P Require Import Uri.
From S2P Require Import Data.
From S2P Require Import FloatText.
From S2P Require Import Transaction.
From S2P Require Import Packet.
From S2P Require Import Client.
From S2P Require Import Observed.
From S2P Require Import Discover.
From S2P Require Import Formats.
Import SortedList Utils Uri Data FloatText Transaction Packet Client Observed Discover Formats.

Module Objects.

Definition COAP_501_NOT_IMPLEMENTED : Z := 0xA1.
Definition LWM2M_SECURITY_BOOTSTRAP_ID : Z := 1.
Definition LWM2M_SECURITY_SHORT_SERVER_ID : Z := 10.
Definition LWM2M_SECURITY_HOLD_OFF_ID : Z := 11.
Definition LWM2M_SERVER_SHORT_ID_ID : Z := 0.
Definition LWM2M_SERVER_LIFETIME_ID : Z := 1.
Definition LWM2M_SERVER_BINDING_ID : Z := 7.
Definition SIZEOF_SERVER : Z := 104.

Definition set_id (id : Z) (d : lwm2m_data_t) : lwm2m_data_t := mk_data (d_type d) id (d_value d).

Section objects.
Context {Session CB U F B : Type}.
Context `{HM : Malloc, HS : Sessions Session, HL : LibC, HF : Codecs, HO : ObjectCallbacks Session CB U F B}.
Context (junk : Z -> list Z).
Abbreviation context := (lwm2m_context_t Session CB U (world_t Session server_info (client_t F B))).
Abbreviation server := (lwm2m_server_t Session server_info).
Abbreviation object := (lwm2m_object_t F).

(** [LWM2M_LIST_FIND(contextP->objectList, id)] *)
Definition find_object (contextP : context) (id : Z) : option object := lwm2m_list_find (objects contextP) id.
Definition has_instance (targetP : object) (id : Z) : bool :=
  if lwm2m_list_find (instanceList targetP) id is Some _ then true else false.

(** A call of the read or of the discover callback: the status, the data and the
    context. *)
Definition call_read (f : F) (contextP : context) (id : Z) (dataP : list lwm2m_data_t) (targetP : object)
    : Z * list lwm2m_data_t * context :=
  let '(result, dataP, b) := read_callback f contextP id dataP targetP in (result, dataP, set_user contextP b).
Definition call_discover (f : F) (contextP : context) (id : Z) (dataP : list lwm2m_data_t) (targetP : object)
    : Z * list lwm2m_data_t * context :=
  let '(result, dataP, b) := discover_callback f contextP id dataP targetP in (result, dataP, set_user contextP b).

(** An array of resources with the given identifiers, [None] when it cannot be
    allocated. *)
Definition new_resources (ids : list Z) : option (list lwm2m_data_t) :=
  match lwm2m_data_new (len ids) with
  | Some _ => Some (map (fun id => set_id id zero_data) ids)
  | None => None
  end.

(** The node to read for a resource, or for one of its instances. *)
Definition resource_request (uriP : lwm2m_uri_t) : C (option (list lwm2m_data_t)) :=
  match lwm2m_data_new 1 with
  | None => ret None
  | Some _ =>
      let d := set_id (resourceId uriP) zero_data in
      if LWM2M_URI_IS_SET_RESOURCE_INSTANCE uriP then
        match lwm2m_data_new 1 with
        | None => ret None
        | Some _ =>
            d ← lwm2m_data_encode_instances (Some [set_id (resourceInstanceId uriP) zero_data]) 1 d;
            ret (Some [d])
        end
      else ret (Some [d])
  end.

(** ** Reading *)

Definition is_numeric (type : lwm2m_data_type_t) : bool :=
  match type with LWM2M_TYPE_INTEGER | LWM2M_TYPE_UNSIGNED_INTEGER | LWM2M_TYPE_FLOAT => true | _ => false end.

(** [valueP] is the node that was allocated for the value: the one in the array,
    or the child it was given; the callback fills it in place. *)
Definition object_checkReadable (contextP : context) (uriP : lwm2m_uri_t) (attrP : lwm2m_attributes_t)
    : C (Z * context) :=
  match find_object contextP (objectId uriP) with
  | None => ret (COAP_404_NOT_FOUND, contextP)
  | Some targetP =>
      match readFunc targetP with
      | None => ret (COAP_405_METHOD_NOT_ALLOWED, contextP)
      | Some f =>
          if negb (LWM2M_URI_IS_SET_INSTANCE uriP) then ret (COAP_205_CONTENT, contextP)
          else if negb (has_instance targetP (instanceId uriP)) then ret (COAP_404_NOT_FOUND, contextP)
          else if negb (LWM2M_URI_IS_SET_RESOURCE uriP) then ret (COAP_205_CONTENT, contextP)
          else
            request ← resource_request uriP;
            match request with
            | None => ret (COAP_500_INTERNAL_SERVER_ERROR, contextP)
            | Some dataP =>
                let '(result, dataP, contextP) := call_read f contextP (instanceId uriP) dataP targetP in
                if (result =? COAP_205_CONTENT) && has_flag (toSet attrP) ATTR_FLAG_NUMERIC then
                  d ← rd dataP 0;
                  valueP ← (if LWM2M_URI_IS_SET_RESOURCE_INSTANCE uriP then
                              children ← asChildren (d_value d); rd children 0
                            else ret d);
                  ret (if is_numeric (d_type valueP) then result else COAP_405_METHOD_NOT_ALLOWED, contextP)
                else ret (result, contextP)
            end
      end
  end.

(** The loop over the instances of an object, shared by reading and discovering:
    it stops at the first instance that is refused. *)
Fixpoint instances_loop (call : context -> Z -> Z * list lwm2m_data_t * context) (contextP : context)
    (instances : list Z) : Z * list lwm2m_data_t * context :=
  match instances with
  | [] => (COAP_205_CONTENT, [], contextP)
  | id :: instances =>
      let '(result, children, contextP) := call contextP id in
      let d := mk_data LWM2M_TYPE_OBJECT_INSTANCE id (VChildren children) in
      if result =? COAP_205_CONTENT then
        let '(result, l, contextP) := instances_loop call contextP instances in (result, d :: l, contextP)
      else (result, [d], contextP)
  end.

(** The status, the data (nothing unless the status is 2.05) and the context. *)
Definition object_readData (contextP : context) (uriP : lwm2m_uri_t) : C (Z * list lwm2m_data_t * context) :=
  match find_object contextP (objectId uriP) with
  | None => ret (COAP_404_NOT_FOUND, [], contextP)
  | Some targetP =>
      match readFunc targetP with
      | None => ret (COAP_405_METHOD_NOT_ALLOWED, [], contextP)
      | Some f =>
          let finish r :=
            let '(result, dataP, contextP) := r in
            ret (result, if result =? COAP_205_CONTENT then dataP else [], contextP) in
          if LWM2M_URI_IS_SET_INSTANCE uriP then
            if negb (has_instance targetP (instanceId uriP)) then ret (COAP_404_NOT_FOUND, [], contextP)
            else
              request ← (if LWM2M_URI_IS_SET_RESOURCE uriP then resource_request uriP else ret (Some []));
              match request with
              | None => ret (COAP_500_INTERNAL_SERVER_ERROR, [], contextP)
              | Some dataP => finish (call_read f contextP (instanceId uriP) dataP targetP)
              end
          else
            match instanceList targetP with
            | [] => ret (COAP_205_CONTENT, [], contextP)
            | instances =>
                match lwm2m_data_new (len instances) with
                | None => ret (COAP_500_INTERNAL_SERVER_ERROR, [], contextP)
                | Some _ => finish (instances_loop (fun c id => call_read f c id [] targetP) contextP instances)
                end
            end
      end
  end.

(** The status, [*formatP], the buffer with [*lengthP], and the context. *)
Definition object_read (contextP : context) (uriP : lwm2m_uri_t) (accept : list Z) (acceptNum format : Z)
    : C (Z * Z * option (list Z) * Z * context) :=
  '(result, dataP, contextP) ← object_readData contextP uriP;
  if result =? COAP_205_CONTENT then
    '(result, format) ←
      (if 0 <? acceptNum then
         utils_getResponseFormat acceptNum accept (len dataP) dataP (LWM2M_URI_IS_SET_RESOURCE uriP)
       else ret (result, format));
    if result =? COAP_205_CONTENT then
      '(res, format, buffer) ← lwm2m_data_serialize junk (Some uriP) dataP format;
      ret (if res <? 0 then (COAP_500_INTERNAL_SERVER_ERROR, format, buffer, 0, contextP)
           else (result, format, buffer, res, contextP))
    else ret (result, format, None, 0, contextP)
  else ret (result, format, None, 0, contextP).

(** ** The Server and Security objects *)

(** [objectP->readFunc(...)] for given resources, [None] when there is no memory;
    the function pointer is not tested. *)
Definition read_resources (contextP : context) (id : Z) (resources : list Z) (objectP : object)
    : C (option (Z * list lwm2m_data_t * context)) :=
  match new_resources resources with
  | None => ret None
  | Some dataP => f ← readFunc objectP; ret (Some (call_read f contextP id dataP objectP))
  end.

(** The result, what is written to [*targetP], and the context. *)
Definition prv_getMandatoryInfo (contextP : context) (objectP : object) (instanceID : Z) (targetP : server_info)
    : C (Z * server_info * context) :=
  r ← read_resources contextP instanceID [LWM2M_SERVER_LIFETIME_ID; LWM2M_SERVER_BINDING_ID] objectP;
  match r with
  | None => ret (-1, targetP, contextP)
  | Some (result, dataP, contextP) =>
      if negb (result =? COAP_205_CONTENT) then ret (-1, targetP, contextP)
      else
        d0 ← rd dataP 0;
        value ← lwm2m_data_decode_int d0;
        match value with
        | None => ret (-1, targetP, contextP)
        | Some value =>
            if (value <? 0) || (0xFFFFFFFF <? value) then ret (-1, targetP, contextP)
            else
              let targetP := targetP <| lifetime := value |> in
              d1 ← rd dataP 1;
              b ← (match d_type d1 with
                   | LWM2M_TYPE_STRING => s ← asBuffer (d_value d1); utils_stringToBinding s (len s)
                   | _ => ret BINDING_UNKNOWN
                   end);
              let targetP := targetP <| binding := b |> in
              ret (if b =? BINDING_UNKNOWN then -1 else 0, targetP, contextP)
        end
  end.

Definition prv_getServerShortId (contextP : context) (serverObjectP : object) (instance : Z) : C (Z * context) :=
  r ← read_resources contextP instance [LWM2M_SERVER_SHORT_ID_ID] serverObjectP;
  match r with
  | None => ret (0, contextP)
  | Some (result, dataP, contextP) =>
      if negb (result =? COAP_205_CONTENT) then ret (0, contextP)
      else
        d ← rd dataP 0;
        value ← lwm2m_data_decode_int d;
        let value := default 0 value in
        ret (if (value <? 0) || (65535 <? value) then 0 else value, contextP)
  end.

(** The information of the first server with the short identifier. *)
Definition prv_updateServerInfo (contextP : context) (serverObjectP : object) (instance : Z) : C context :=
  '(serverId, contextP) ← prv_getServerShortId contextP serverObjectP instance;
  if serverId =? 0 then ret contextP
  else
    match list_find (fun s : server => shortID (server_rest s) = serverId) (servers contextP) with
    | None => ret contextP
    | Some (i, s) =>
        '(_, info, contextP) ← prv_getMandatoryInfo contextP serverObjectP instance (server_rest s);
        ret (set_servers contextP (alter (fun s => s <| server_rest := info |>) i (servers contextP)))
    end.

(** ** Writing *)

(** The array to write and its [writeType], [None] when an allocation fails. *)
Definition write_request (uriP : lwm2m_uri_t) (dataP : list lwm2m_data_t) (partial : bool)
    : C (option (list lwm2m_data_t * lwm2m_write_type_t)) :=
  let write_type (partial : bool) :=
    if partial then LWM2M_WRITE_PARTIAL_UPDATE
    else if LWM2M_URI_IS_SET_RESOURCE uriP then LWM2M_WRITE_REPLACE_RESOURCES
    else LWM2M_WRITE_REPLACE_INSTANCE in
  if LWM2M_URI_IS_SET_RESOURCE_INSTANCE uriP then
    match lwm2m_data_new 1 with
    | None => ret None
    | Some _ =>
        d ← lwm2m_data_encode_instances (Some dataP) (len dataP) (set_id (resourceId uriP) zero_data);
        ret (Some ([d], write_type true))
    end
  else ret (Some (dataP, write_type partial)).

Definition object_write (contextP : context) (uriP : lwm2m_uri_t) (format : Z) (buffer : list Z) (length : Z)
    (partial : bool) : C (Z * context) :=
  if negb (LWM2M_URI_IS_SET_OBJECT uriP) then ret (COAP_400_BAD_REQUEST, contextP)
  else if negb (LWM2M_URI_IS_SET_INSTANCE uriP) then ret (COAP_400_BAD_REQUEST, contextP)
  else
    match find_object contextP (objectId uriP) with
    | None => ret (COAP_404_NOT_FOUND, contextP)
    | Some targetP =>
        match writeFunc targetP with
        | None => ret (COAP_405_METHOD_NOT_ALLOWED, contextP)
        | Some f =>
            '(size, dataP) ← lwm2m_data_parse uriP buffer length format;
            if size <=? 0 then ret (COAP_406_NOT_ACCEPTABLE, contextP)
            else
              request ← write_request uriP dataP partial;
              match request with
              | None => ret (COAP_500_INTERNAL_SERVER_ERROR, contextP)
              | Some (dataP, writeType) =>
                  let '(result, contextP) := write_callback f contextP (instanceId uriP) dataP targetP writeType in
                  if (result =? COAP_204_CHANGED) && (objID targetP =? LWM2M_SERVER_OBJECT_ID) then
                    targetP ← find_object contextP (objectId uriP);
                    contextP ← prv_updateServerInfo contextP targetP (instanceId uriP);
                    ret (result, contextP)
                  else ret (result, contextP)
              end
        end
    end.

Definition object_execute (contextP : context) (uriP : lwm2m_uri_t) (buffer : option (list Z)) (length : Z)
    : Z * context :=
  match find_object contextP (objectId uriP) with
  | None => (COAP_404_NOT_FOUND, contextP)
  | Some targetP =>
      match executeFunc targetP with
      | None => (COAP_405_METHOD_NOT_ALLOWED, contextP)
      | Some f =>
          if negb (has_instance targetP (instanceId uriP)) then (COAP_404_NOT_FOUND, contextP)
          else execute_callback f contextP (instanceId uriP) (resourceId uriP) buffer length targetP
      end
  end.

(** ** Creating and deleting *)

Definition set_instance (uriP : lwm2m_uri_t) (id : Z) : lwm2m_uri_t :=
  mk_uri (objectId uriP) id (resourceId uriP) (resourceInstanceId uriP).

(** The status, the URI with the instance that was created, and the context. *)
Definition object_create (contextP : context) (uriP : lwm2m_uri_t) (format : Z) (buffer : option (list Z)) (length : Z)
    : C (Z * lwm2m_uri_t * context) :=
  match buffer with
  | None => ret (COAP_400_BAD_REQUEST, uriP, contextP)
  | Some buffer =>
    if length =? 0 then ret (COAP_400_BAD_REQUEST, uriP, contextP)
    else
      match find_object contextP (objectId uriP) with
      | None => ret (COAP_404_NOT_FOUND, uriP, contextP)
      | Some targetP =>
        match createFunc targetP with
        | None => ret (COAP_405_METHOD_NOT_ALLOWED, uriP, contextP)
        | Some f =>
            '(size, dataP) ← lwm2m_data_parse uriP buffer length format;
            if size <=? 0 then ret (COAP_400_BAD_REQUEST, uriP, contextP)
            else
              d ← rd dataP 0;
              match d_type d with
              | LWM2M_TYPE_OBJECT => ret (COAP_400_BAD_REQUEST, uriP, contextP)
              | LWM2M_TYPE_OBJECT_INSTANCE =>
                  if negb (size =? 1) then ret (COAP_400_BAD_REQUEST, uriP, contextP)
                  else if has_instance targetP (d_id d) then ret (COAP_406_NOT_ACCEPTABLE, uriP, contextP)
                  else
                    children ← asChildren (d_value d);
                    let '(result, contextP) := create_callback f contextP (d_id d) children targetP in
                    ret (result, set_instance uriP (d_id d), contextP)
              | _ =>
                  let uriP :=
                    if LWM2M_URI_IS_SET_INSTANCE uriP then uriP
                    else set_instance uriP (lwm2m_list_newId (instanceList targetP)) in
                  let '(result, contextP) := create_callback f contextP (instanceId uriP) dataP targetP in
                  ret (result, uriP, contextP)
              end
        end
      end
  end.

(** The [while] loop of [object_delete]: it deletes the first instance until the
    list is empty.  The object must stay in the list of the context.  The
    identifier is read again from the node of the instance after the callback,
    which may have freed it. *)
Fixpoint delete_loop (fuel : nat) (contextP : context) (uriP : lwm2m_uri_t) : C (Z * context) :=
  match fuel with
  | O => None
  | S fuel =>
      objectP ← find_object contextP (objectId uriP);
      match instanceList objectP with
      | [] => ret (COAP_202_DELETED, contextP)
      | id :: _ =>
          f ← deleteFunc objectP;
          let '(result, contextP) := delete_callback f contextP id objectP in
          if result =? COAP_202_DELETED then
            assert! node_survives f;
            contextP ← observe_clear contextP (set_instance uriP id);
            delete_loop fuel contextP uriP
          else ret (result, contextP)
      end
  end.

(** An object has at most 65536 instances; the loop ends when every deletion
    that succeeds removes its instance. *)
Definition delete_fuel : nat := Z.to_nat 65537.

Definition object_delete (contextP : context) (uriP : lwm2m_uri_t) : C (Z * context) :=
  match find_object contextP (objectId uriP) with
  | None => ret (COAP_404_NOT_FOUND, contextP)
  | Some objectP =>
      match deleteFunc objectP with
      | None => ret (COAP_405_METHOD_NOT_ALLOWED, contextP)
      | Some f =>
          if LWM2M_URI_IS_SET_INSTANCE uriP then
            let '(result, contextP) := delete_callback f contextP (instanceId uriP) objectP in
            if result =? COAP_202_DELETED then
              contextP ← observe_clear contextP uriP; ret (result, contextP)
            else ret (result, contextP)
          else delete_loop delete_fuel contextP uriP
      end
  end.

Definition object_createInstance (contextP : context) (uriP : lwm2m_uri_t) (dataP : lwm2m_data_t) : C (Z * context) :=
  match find_object contextP (objectId uriP) with
  | None => ret (COAP_404_NOT_FOUND, contextP)
  | Some targetP =>
      match createFunc targetP with
      | None => ret (COAP_405_METHOD_NOT_ALLOWED, contextP)
      | Some f =>
          children ← asChildren (d_value dataP);
          ret (create_callback f contextP (lwm2m_list_newId (instanceList targetP)) children targetP)
      end
  end.

Definition object_writeInstance (contextP : context) (uriP : lwm2m_uri_t) (dataP : lwm2m_data_t) : C (Z * context) :=
  match find_object contextP (objectId uriP) with
  | None => ret (COAP_404_NOT_FOUND, contextP)
  | Some targetP =>
      match writeFunc targetP with
      | None => ret (COAP_405_METHOD_NOT_ALLOWED, contextP)
      | Some f =>
          children ← asChildren (d_value dataP);
          ret (write_callback f contextP (d_id dataP) children targetP LWM2M_WRITE_REPLACE_INSTANCE)
      end
  end.

Definition object_isInstanceNew (contextP : context) (objectId_ instanceId_ : Z) : bool :=
  match find_object contextP objectId_ with
  | Some targetP => negb (has_instance targetP instanceId_)
  | None => true
  end.

(** ** Discovering *)

(** The status, the buffer with [*lengthP], and the context. *)
Definition object_discover (contextP : context) (uriP : lwm2m_uri_t) (serverP : server)
    : C (Z * option (list Z) * Z * context) :=
  match find_object contextP (objectId uriP) with
  | None => ret (COAP_404_NOT_FOUND, None, 0, contextP)
  | Some targetP =>
      match discoverFunc targetP with
      | None => ret (COAP_501_NOT_IMPLEMENTED, None, 0, contextP)
      | Some f =>
          let serialize r :=
            let '(result, dataP, contextP) := r in
            if result =? COAP_205_CONTENT then
              l ← observed contextP;
              '(n, buffer) ← discover_serialize junk (Some l) (Some (secObjInstID serverP)) uriP dataP;
              ret (if n <=? 0 then (COAP_500_INTERNAL_SERVER_ERROR, buffer, 0, contextP)
                   else (result, buffer, n, contextP))
            else ret (result, None, 0, contextP) in
          if LWM2M_URI_IS_SET_INSTANCE uriP then
            if negb (has_instance targetP (instanceId uriP)) then ret (COAP_404_NOT_FOUND, None, 0, contextP)
            else if LWM2M_URI_IS_SET_RESOURCE uriP then
              match new_resources [resourceId uriP] with
              | None => ret (COAP_500_INTERNAL_SERVER_ERROR, None, 0, contextP)
              | Some dataP => serialize (call_discover f contextP (instanceId uriP) dataP targetP)
              end
            else serialize (call_discover f contextP (instanceId uriP) [] targetP)
          else
            match instanceList targetP with
            | [] => serialize (COAP_205_CONTENT, [], contextP)
            | instances =>
                match lwm2m_data_new (len instances) with
                | None => ret (COAP_500_INTERNAL_SERVER_ERROR, None, 0, contextP)
                | Some _ => serialize (instances_loop (fun c id => call_discover f c id [] targetP) contextP instances)
                end
            end
      end
  end.

(** ** The servers of the Security object *)

(** The instance of the Server object with the short identifier; the null
    pointer is not tested by the code. *)
Fixpoint find_server_instance (contextP : context) (objectP : object) (shortID_ : Z) (instances : list Z)
    : C (option Z * context) :=
  match instances with
  | [] => ret (None, contextP)
  | id :: instances =>
      r ← read_resources contextP id [LWM2M_SERVER_SHORT_ID_ID] objectP;
      match r with
      | None => ret (None, contextP)
      | Some (result, dataP, contextP) =>
          if negb (result =? COAP_205_CONTENT) then ret (None, contextP)
          else
            d ← rd dataP 0;
            value ← lwm2m_data_decode_int d;
            if bool_decide (value = Some shortID_) then ret (Some id, contextP)
            else find_server_instance contextP objectP shortID_ instances
      end
  end.

Definition prv_findServerInstance (contextP : context) (objectP : option object) (shortID_ : Z)
    : C (option Z * context) :=
  objectP ← objectP; find_server_instance contextP objectP shortID_ (instanceList objectP).

(** A number of the Security instance between two bounds, [None] for
    [return -1]. *)
Definition read_number (contextP : context) (securityObjP : object) (id resource low high : Z)
    : C (option Z * context) :=
  r ← read_resources contextP id [resource] securityObjP;
  match r with
  | None => ret (None, contextP)
  | Some (result, dataP, contextP) =>
      if negb (result =? COAP_205_CONTENT) then ret (None, contextP)
      else
        d ← rd dataP 0;
        value ← lwm2m_data_decode_int d;
        ret (match value with
             | Some v => if (v <? low) || (high <? v) then None else Some v
             | None => None
             end, contextP)
  end.

Context `{HN : Connections Session}.

Definition new_server (id : Z) (info : server_info) : server := mk_server id null_session [] info.

(** The body of the loop of [object_getServers] for a Security instance that has
    no server yet: whether the function goes on, and the context. *)
Definition get_server (contextP : context) (securityObjP : object) (serverObjP : option object) (checkOnly : bool)
    (id : Z) : C (bool * context) :=
  r ← read_resources contextP id [LWM2M_SECURITY_BOOTSTRAP_ID] securityObjP;
  match r with
  | None => ret (false, contextP)
  | Some (result, dataP, contextP) =>
      if negb (result =? COAP_205_CONTENT) then ret (false, contextP)
      else if negb (malloc_ok SIZEOF_SERVER) then ret (false, contextP)
      else
        d ← rd dataP 0;
        isBootstrap ← lwm2m_data_decode_bool d;
        match isBootstrap with
        | None => ret (false, contextP)
        | Some true =>
            '(value, contextP) ← read_number contextP securityObjP id LWM2M_SECURITY_HOLD_OFF_ID 0 0xFFFFFFFF;
            match value with
            | None => ret (false, contextP)
            | Some value =>
                let targetP := new_server id (zero_info <| servObjInstID := LWM2M_MAX_ID |> <| lifetime := value |>) in
                ret (true,
                     if checkOnly then contextP
                     else set_bootstrap_servers contextP
                            (lwm2m_list_add (bootstrapServerList (rest contextP)) targetP []))
            end
        | Some false =>
            '(value, contextP) ← read_number contextP securityObjP id LWM2M_SECURITY_SHORT_SERVER_ID 1 0xFFFF;
            match value with
            | None => ret (false, contextP)
            | Some value =>
                '(serverInstP, contextP) ← prv_findServerInstance contextP serverObjP value;
                match serverInstP with
                | None => ret (true, contextP)
                | Some inst =>
                    serverObjP ← serverObjP;
                    '(res, info, contextP) ←
                      prv_getMandatoryInfo contextP serverObjP inst
                        (zero_info <| shortID := value |> <| servObjInstID := inst |>);
                    if negb (res =? 0) then ret (false, contextP)
                    else
                      let targetP := new_server id (info <| srv_status := STATE_DEREGISTERED |>) in
                      ret (true,
                           if checkOnly then contextP
                           else set_servers contextP (lwm2m_list_add (servers contextP) targetP []))
                end
            end
        end
  end.

Fixpoint get_servers_loop (contextP : context) (securityObjP : object) (serverObjP : option object) (checkOnly : bool)
    (instances : list Z) : C (Z * context) :=
  match instances with
  | [] => ret (0, contextP)
  | id :: instances =>
      if lwm2m_list_find (bootstrapServerList (rest contextP)) id is Some _ then
        get_servers_loop contextP securityObjP serverObjP checkOnly instances
      else if lwm2m_list_find (servers contextP) id is Some _ then
        get_servers_loop contextP securityObjP serverObjP checkOnly instances
      else
        '(ok, contextP) ← get_server contextP securityObjP serverObjP checkOnly id;
        if (ok : bool) then get_servers_loop contextP securityObjP serverObjP checkOnly instances
        else ret (-1, contextP)
  end.

(** The last object of the list with the identifier. *)
Definition last_object (contextP : context) (id : Z) : option object :=
  last (filter (fun o => objID o = id) (objects contextP)).

Definition object_getServers (contextP : context) (checkOnly : bool) : C (Z * context) :=
  match last_object contextP LWM2M_SECURITY_OBJECT_ID with
  | None => ret (-1, contextP)
  | Some securityObjP =>
      get_servers_loop contextP securityObjP (last_object contextP LWM2M_SERVER_OBJECT_ID) checkOnly
        (instanceList securityObjP)
  end.

(** ** Reading several URIs *)

Definition find_id (l : list lwm2m_data_t) (id : Z) : option (nat * lwm2m_data_t) :=
  list_find (fun d => d_id d = id) l.
Definition set_children (d : lwm2m_data_t) (l : list lwm2m_data_t) : lwm2m_data_t :=
  mk_data (d_type d) (d_id d) (VChildren l).

(** [lwm2m_data_append_one] on an array, [None] when it fails. *)
Definition append_one (l : list lwm2m_data_t) (type : lwm2m_data_type_t) (id : Z) : C (option (list lwm2m_data_t)) :=
  '(ok, _, l') ← lwm2m_data_append_one (len l) (match l with [] => None | _ => Some l end) type id;
  ret (if ok =? 0 then None else l').

(** An array after a part has been put in it, and whether there was memory. *)
Definition placed := (list lwm2m_data_t * bool)%type.

(** [f] on the children of the node at [j]. *)
Definition on_children (l : list lwm2m_data_t) (j : nat) (d : lwm2m_data_t)
    (f : list lwm2m_data_t -> C placed) : C placed :=
  children ← asChildren (d_value d);
  '(children, ok) ← f children;
  ret (if (ok : bool) || negb (len children =? 0) then (<[j := set_children d children]> l, ok) else (l, ok)).

(** One level of the search: the node with the identifier is found or added;
    the search goes on in its children, or they are replaced. *)
Definition descend (l : list lwm2m_data_t) (type : lwm2m_data_type_t) (id : Z) (deeper : bool)
    (partial : list lwm2m_data_t) (f : list lwm2m_data_t -> C placed) : C placed :=
  let place l j d := if deeper then on_children l j d f else ret (<[j := set_children d partial]> l, true) in
  match find_id l id with
  | Some (j, d) => place l j d
  | None =>
      r ← append_one l type id;
      match r with
      | Some l' => d ← rd l' (len l); place l' (length l) d
      | None => ret (l, false)
      end
  end.

(** A node is overwritten by [memcpy], or added with the identifier of the
    object instance and overwritten. *)
Definition overwrite (l : list lwm2m_data_t) (uri : lwm2m_uri_t) (v : C lwm2m_data_t) : C placed :=
  r ← append_one l LWM2M_TYPE_UNDEFINED (instanceId uri);
  match r with Some l' => v ← v; ret (<[length l := v]> l', true) | None => ret (l, false) end.

Definition composite_resource_instance (uri : lwm2m_uri_t) (partial l : list lwm2m_data_t) : C placed :=
  let v := d ← rd partial 0; children ← asChildren (d_value d); rd children 0 in
  match find_id l (resourceInstanceId uri) with
  | Some (j, _) => v ← v; ret (<[j := v]> l, true)
  | None => overwrite l uri v
  end.

Definition composite_resource (uri : lwm2m_uri_t) (partial l : list lwm2m_data_t) : C placed :=
  match find_id l (resourceId uri) with
  | Some (j, d) =>
      if LWM2M_URI_IS_SET_RESOURCE_INSTANCE uri then on_children l j d (composite_resource_instance uri partial)
      else
        match d_type d with
        | LWM2M_TYPE_MULTIPLE_RESOURCE => ret (<[j := set_children d partial]> l, true)
        | _ => v ← rd partial 0; ret (<[j := v]> l, true)
        end
  | None => overwrite l uri (rd partial 0)
  end.

Definition composite_place (uri : lwm2m_uri_t) (partial l : list lwm2m_data_t) : C placed :=
  if LWM2M_URI_IS_SET_OBJECT uri then
    descend l LWM2M_TYPE_OBJECT (objectId uri) (LWM2M_URI_IS_SET_INSTANCE uri) partial (fun l =>
      descend l LWM2M_TYPE_OBJECT_INSTANCE (instanceId uri) (LWM2M_URI_IS_SET_RESOURCE uri) partial
        (composite_resource uri partial))
  else
    '(ok, _, l') ← lwm2m_data_append (len l) (Some l) (len partial) (Some partial);
    ret (if ok =? 0 then (l, false) else (default [] l', true)).

(** The loop over the URIs: the status so far, the data and the context. *)
Fixpoint composite_loop (contextP : context) (uris : list lwm2m_uri_t) (result : Z) (l : list lwm2m_data_t)
    : C (Z * list lwm2m_data_t * context) :=
  match uris with
  | [] => ret (result, l, contextP)
  | uri :: uris =>
      '(res, partial, contextP) ←
        (if (objectId uri =? LWM2M_SECURITY_OBJECT_ID) || (objectId uri =? LWM2M_OSCORE_OBJECT_ID) then
           ret (COAP_401_UNAUTHORIZED, [], contextP)
         else object_readData contextP uri);
      if (res =? COAP_205_CONTENT) && (0 <? len partial) then
        '(l, ok) ← composite_place uri partial l;
        let result := if negb ok && (result =? COAP_205_CONTENT) then COAP_400_BAD_REQUEST else result in
        composite_loop contextP uris result l
      else
        let result :=
          if (result =? COAP_205_CONTENT) && negb (res =? COAP_404_NOT_FOUND) then res else result in
        composite_loop contextP uris result l
  end.

Definition object_readCompositeData (contextP : context) (uriP : list lwm2m_uri_t)
    : C (Z * list lwm2m_data_t * context) :=
  '(result, l, contextP) ← composite_loop contextP uriP COAP_205_CONTENT [];
  ret (if 0 <? len l then COAP_205_CONTENT else if result =? COAP_205_CONTENT then COAP_404_NOT_FOUND else result,
       l, contextP).
End objects.

(** ** Laws of the callbacks

    The documented behaviour of the callbacks of an object: reading fills the
    array it is given, and a deletion that succeeds removes the instance. *)
Section laws.
Context {Session CB U F B : Type}.
Context `{HM : Malloc, HS : Sessions Session, HL : LibC, HF : Codecs, HO : ObjectCallbacks Session CB U F B}.
Abbreviation context := (lwm2m_context_t Session CB U (world_t Session server_info (client_t F B))).
Abbreviation object := (lwm2m_object_t F).
Implicit Types (c : context) (o : object).

(** A node after the callback has filled it. *)
Definition fills (d d' : lwm2m_data_t) : Prop :=
  read_ok d' /\ d_id d' = d_id d /\
  forall l, d_value d = VChildren l -> exists l', d_value d' = VChildren l' /\ Forall2 (fun x y => d_id x = d_id y) l l'.

Class ReadLaw := read_fills : forall f c id dataP o d' b,
  read_callback f c id dataP o = (COAP_205_CONTENT, d', b) ->
  if dataP is [] then Forall read_ok d' else Forall2 fills dataP d'.

Class DeleteLaw := delete_removes : forall f c id o r c',
  delete_callback f c id o = (r, c') -> find_object c (objID o) = Some o ->
  observed c' = observed c /\ servers c' = servers c /\
  exists o', find_object c' (objID o) = Some o' /\ deleteFunc o' = deleteFunc o /\
    (r = COAP_202_DELETED -> instanceList o' = filter (fun i => i <> id) (instanceList o)).

(** ** Reading changes the application only *)

Definition user_only c c' : Prop := exists b, c' = set_user c b.

Lemma user_only_refl c : user_only c c.
Proof. exists (user (app (rest c))). by destruct c as [? ? ? ? [? ? ? ? ? []]]. Qed.
Lemma user_only_trans c c1 c2 : user_only c c1 -> user_only c1 c2 -> user_only c c2.
Proof. intros [b ->] [b' ->]. by exists b'. Qed.
Lemma user_only_set c b : user_only c (set_user c b).
Proof. by exists b. Qed.
Lemma call_read_user f c id dataP o : user_only c (call_read f c id dataP o).2.
Proof. unfold call_read. destruct (read_callback _ _ _ _ _) as [[? ?] b]. apply user_only_set. Qed.
Hint Resolve user_only_refl user_only_set call_read_user : core.

Lemma resource_request_ok u :
  exists r, resource_request u = Some r /\
    (r = None \/ exists d, r = Some [d] /\
      (LWM2M_URI_IS_SET_RESOURCE_INSTANCE u = true -> exists x, d_value d = VChildren [x])).
Proof.
  unfold resource_request. destruct (lwm2m_data_new 1); [|eexists; split; [done|by left]].
  destruct (LWM2M_URI_IS_SET_RESOURCE_INSTANCE u) eqn:E.
  - set (x := set_id (resourceInstanceId u) zero_data).
    set (d := mk_data LWM2M_TYPE_MULTIPLE_RESOURCE (resourceId u) (VChildren [x])).
    exists (Some [d]). split; [done|]. right. exists d. split; [done|]. intros _. by exists x.
  - eexists. split; [done|]. right. by eexists.
Qed.

Lemma object_checkReadable_ok `{HR : ReadLaw} c u a :
  exists r c', object_checkReadable c u a = Some (r, c') /\ user_only c c'.
Proof.
  unfold object_checkReadable. destruct (find_object c (objectId u)) as [o|]; [|by eexists _, _].
  destruct (readFunc o) as [f|]; [|by eexists _, _]. destruct (negb _); [by eexists _, _|].
  destruct (negb _); [by eexists _, _|]. destruct (negb _); [by eexists _, _|].
  destruct (resource_request_ok u) as (r & -> & [->|(d & -> & Hd)]); mstep; [by eexists _, _|].
  pose proof (call_read_user f c (instanceId u) [d] o) as Hu. unfold call_read in *.
  destruct (read_callback f c (instanceId u) [d] o) as [[r d'] b] eqn:E. cbn [snd] in Hu.
  destruct (r =? COAP_205_CONTENT) eqn:Er; [|by eexists _, _]. cbn [andb].
  destruct (has_flag _ _); [|by eexists _, _]. assert (r = COAP_205_CONTENT) as -> by lia.
  apply read_fills in E. apply list.Forall2_cons_inv_l in E as (x & l & (_ & _ & Hx) & Hl & ->).
  rewrite rd_cons_0. mstep. destruct (LWM2M_URI_IS_SET_RESOURCE_INSTANCE u); [|mstep; by eexists _, _].
  destruct (Hd eq_refl) as [y Hy]. destruct (Hx _ Hy) as (l' & Hv & Hl'). rewrite Hv. cbn [asChildren]. mstep.
  apply list.Forall2_cons_inv_l in Hl' as (z & ? & _ & _ & ->). rewrite rd_cons_0. mstep. by eexists _, _.
Qed.

Lemma instances_loop_user (call : context -> Z -> Z * list lwm2m_data_t * context) l : forall c,
  (forall c id, user_only c (call c id).2) -> user_only c (instances_loop call c l).2.
Proof.
  induction l as [|id l IH]; intros c Hc; cbn [instances_loop]; [done|]. specialize (Hc c id) as H1.
  destruct (call c id) as [[r ch] c1]. cbn [snd] in H1. destruct (r =? _); [|done].
  specialize (IH c1 Hc). destruct (instances_loop call c1 l) as [[? ?] c2]. by eapply user_only_trans.
Qed.

Lemma object_readData_ok `{HR : ReadLaw} c u :
  exists r dataP c', object_readData c u = Some (r, dataP, c') /\ user_only c c' /\
    (r = COAP_205_CONTENT -> LWM2M_URI_IS_SET_INSTANCE u = true -> LWM2M_URI_IS_SET_RESOURCE u = true ->
     exists d, dataP = [d] /\ read_ok d).
Proof.
  unfold object_readData. destruct (find_object c (objectId u)) as [o|]; [|by eexists _, _, _].
  destruct (readFunc o) as [f|]; [|by eexists _, _, _]. destruct (LWM2M_URI_IS_SET_INSTANCE u).
  - destruct (negb _); [by eexists _, _, _|]. destruct (LWM2M_URI_IS_SET_RESOURCE u).
    + destruct (resource_request_ok u) as (r & -> & [->|(d & -> & Hd)]); mstep; [by eexists _, _, _|].
      pose proof (call_read_user f c (instanceId u) [d] o) as Hu. unfold call_read in *.
      destruct (read_callback f c (instanceId u) [d] o) as [[r d'] b] eqn:E. cbn [snd] in Hu.
      eexists _, _, _. split; [done|]. split; [done|]. intros -> _ _. rewrite Z.eqb_refl.
      apply read_fills in E. apply list.Forall2_cons_inv_l in E as (x & l & (Hx & _) & Hl & ->).
      apply list.Forall2_nil_inv_l in Hl as ->. by exists x.
    + mstep. pose proof (call_read_user f c (instanceId u) [] o) as Hu.
      destruct (call_read f c (instanceId u) [] o) as [[r d'] c']. by eexists _, _, _.
  - destruct (instanceList o) as [|i l]; [by eexists _, _, _|]. destruct (lwm2m_data_new _); [|by eexists _, _, _].
    pose proof (instances_loop_user (fun c id => call_read f c id [] o) (i :: l) c (fun c id => call_read_user f c id [] o)) as Hu.
    destruct (instances_loop _ c (i :: l)) as [[r d'] c']. by eexists _, _, _.
Qed.

(** ** Deleting all instances *)

Lemma list_find_id {A} `{ListNode A} (l : list A) id n : lwm2m_list_find l id = Some n -> node_id n = id.
Proof.
  induction l as [|x l IH]; [done|]. cbn [lwm2m_list_find]. destruct (_ <? _); [done|].
  destruct (_ =? _) eqn:E; [|done]. intros [= <-]. lia.
Qed.

Lemma filter_keep {A} (P : A -> Prop) `{forall x, Decision (P x)} l : Forall P l -> filter P l = l.
Proof. induction 1 as [|x l Hx Hl IH]; [done|]. by rewrite filter_cons_True, IH. Qed.

(** The observations that are left. *)
Definition left_over (obj : Z) (ids : list Z) (l : list lwm2m_observed_t) : list lwm2m_observed_t :=
  filter (fun x => ~ (objectId (o_uri x) = obj /\ instanceId (o_uri x) ∈ ids)) l.

Lemma clear_left_over u id ids l :
  id <> LWM2M_MAX_ID ->
  left_over (objectId u) ids (clear_loop (set_instance u id) l) = left_over (objectId u) (id :: ids) l.
Proof.
  intros Hid. induction l as [|x l IH]; [done|]. cbn [clear_loop]. unfold left_over, clears in *. cbn [objectId set_instance].
  assert (LWM2M_URI_IS_SET_INSTANCE (set_instance u id) = true) as E by (unfold LWM2M_URI_IS_SET_INSTANCE; cbn; lia).
  rewrite E. cbn [negb orb]. rewrite (filter_cons (fun x => ~ (_ /\ _ ∈ id :: ids))).
  destruct (_ && _) eqn:Ex; cbn [instanceId set_instance] in *.
  - rewrite decide_False; [done|]. intros Hn. apply Hn. split; [lia|]. assert (instanceId (o_uri x) = id) as -> by lia. constructor.
  - rewrite filter_cons, IH. destruct (decide (~ (_ /\ _ ∈ ids))) as [D|D]; destruct (decide (~ (_ /\ _ ∈ id :: ids))) as [D'|D'];
      [done| | |done]; exfalso; [apply D'; intros [H1 H2]|apply D; intros [H1 H2]; apply D'; split; [done|by constructor]].
    apply list.elem_of_cons in H2 as [H2|H2]; [lia|by apply D].
Qed.

Lemma delete_loop_ends `{HD : DeleteLaw} u f (ids : list Z) : forall (fuel : nat) c o l,
  (length ids < fuel)%nat -> find_object c (objectId u) = Some o -> instanceList o = ids -> deleteFunc o = Some f ->
  node_survives f = true -> NoDup ids -> Forall (fun id => 0 <= id < LWM2M_MAX_ID) ids -> observed c = Some l ->
  exists r c', delete_loop fuel c u = Some (r, c') /\
    (r = COAP_202_DELETED ->
       (exists o', find_object c' (objectId u) = Some o' /\ instanceList o' = []) /\
       observed c' = Some (left_over (objectId u) ids l)).
Proof.
  induction ids as [|id ids IH]; intros [|fuel] c o l Hf Ho Hids Hd Hv Hn Hr Hl; try (cbn in Hf; lia); cbn [delete_loop];
    rewrite Ho; mstep; rewrite Hids.
  - eexists _, _. split; [done|]. intros _. split; [by eexists|]. rewrite Hl. f_equal. unfold left_over.
    symmetry. apply filter_keep, list.Forall_forall. intros x _ [_ Hx]. by apply list.elem_of_nil in Hx.
  - rewrite Hd. mstep. pose proof (list_find_id _ _ _ Ho) as Hid. change (node_id o) with (objID o) in Hid.
    destruct (delete_callback f c id o) as [r c1] eqn:Ed.
    destruct (delete_removes _ _ _ _ _ _ Ed) as (H1 & H2 & o' & H3 & H4 & H5); [by rewrite Hid|].
    destruct (r =? COAP_202_DELETED) eqn:Er; [|eexists _, _; split; [done|lia]].
    rewrite Hv. unfold observe_clear. rewrite H1, Hl. mstep. apply NoDup_cons in Hn as [Hni Hn].
    apply Forall_cons in Hr as [Hr1 Hr]. specialize (H5 ltac:(lia)).
    edestruct (IH fuel (set_observed c1 (Some (clear_loop (set_instance u id) l))) o') as (r2 & c2 & -> & Hc2).
    + cbn in Hf. lia.
    + by rewrite <- Hid.
    + rewrite H5, Hids, filter_cons_False by (intros ?; done). apply filter_keep, list.Forall_forall. by intros x Hx ->.
    + by rewrite H4.
    + done.
    + done.
    + done.
    + done.
    + eexists _, _. split; [done|]. intros E. destruct (Hc2 E) as [H6 H7]. split; [done|]. rewrite H7.
      by rewrite clear_left_over by (unfold LWM2M_MAX_ID in *; lia).
Qed.

Lemma sorted_ids_bound (ids : list Z) n :
  NoDup ids -> Forall (fun id => 0 <= id < n) ids -> (length ids <= Z.to_nat n)%nat.
Proof.
  intros Hn Hr. rewrite <- (length_seqZ 0 n). apply submseteq_length, NoDup_submseteq; [done|].
  intros x Hx. rewrite list.Forall_forall in Hr. apply elem_of_seqZ. specialize (Hr x Hx). lia.
Qed.

End laws.

Lemma find_map {A} `{ListNode A} (g : A -> A) (l : list A) id :
  (forall x, node_id (g x) = node_id x) -> lwm2m_list_find (map g l) id = option_map g (lwm2m_list_find l id).
Proof.
  intros Hg. induction l as [|x l IH]; [done|]. cbn [map lwm2m_list_find]. rewrite Hg, IH. by repeat case_match.
Qed.

(** ** A sample application

    The objects of a client whose every resource is the integer it keeps; the
    instances that are deleted are removed from the list, and their nodes stay
    readable. *)
Module Sample.
#[export] Instance sessions : Sessions Z := Z.eqb.
#[export] Instance connections : Connections Z := {| null_session := 0; session_is_null := Z.eqb 0; lwm2m_connect_server id := id + 6 |}.
#[export] Instance libc : LibC := fun _ => (0, 0).
#[export] Instance codecs : Codecs :=
  Build_Codecs (fun _ _ _ => None) (fun _ _ => None) (fun _ _ _ => None) (fun _ _ => None) (fun _ _ _ => None) (fun _ _ => None).
Abbreviation world := (world_t Z server_info (client_t unit Z)).
Abbreviation context := (lwm2m_context_t Z unit unit world).

Definition fill (v : Z) (d : lwm2m_data_t) : lwm2m_data_t :=
  match d_value d with
  | VChildren l =>
      mk_data LWM2M_TYPE_MULTIPLE_RESOURCE (d_id d) (VChildren (map (fun x => mk_data LWM2M_TYPE_INTEGER (d_id x) (VInteger v)) l))
  | _ => mk_data LWM2M_TYPE_INTEGER (d_id d) (VInteger v)
  end.
Definition read (c : context) (dataP : list lwm2m_data_t) : Z * list lwm2m_data_t * Z :=
  let v := user (app (rest c)) in
  (COAP_205_CONTENT, match dataP with [] => [mk_data LWM2M_TYPE_INTEGER 0 (VInteger v)] | _ => map (fill v) dataP end, v).
Definition remove_instance (obj id : Z) (o : lwm2m_object_t unit) : lwm2m_object_t unit :=
  if objID o =? obj then o <| instanceList := filter (fun i => i <> id) (instanceList o) |> else o.
#[export] Instance callbacks : ObjectCallbacks Z unit unit unit Z := {|
  read_callback _ c _ dataP _ := read c dataP;
  discover_callback _ c _ dataP _ := read c dataP;
  write_callback _ c _ dataP _ _ :=
    (COAP_204_CHANGED, match dataP with mk_data _ _ (VInteger v) :: _ => set_user c v | _ => c end);
  execute_callback _ c _ _ _ _ _ := (COAP_204_CHANGED, c);
  create_callback _ c id _ o := (COAP_405_METHOD_NOT_ALLOWED, c);
  delete_callback _ c id o :=
    (COAP_202_DELETED, set_client c ((app (rest c)) <| objectList := map (remove_instance (objID o) id) (objects c) |>));
  node_survives _ := true |}.

Definition object (id : Z) (instances : list Z) : lwm2m_object_t unit :=
  mk_object id 0 0 instances (Some ()) (Some ()) (Some ()) None (Some ()) (Some ()).
Definition client (objs : list (lwm2m_object_t unit)) (l : list lwm2m_observed_t) : client_t unit Z :=
  mk_client STATE_READY (str "dev") None objs (Some l) 42.
(** One registered server with the identifier 1 and the session 7. *)
Definition server1 : lwm2m_server_t Z server_info :=
  mk_server 1 7 [] (zero_info <| srv_status := STATE_REGISTERED |> <| shortID := 123 |>).
Definition context_of (objs : list (lwm2m_object_t unit)) (l : list lwm2m_observed_t) : context :=
  mk_context [] 100 [] [] (mk_world 1024 [] None [server1] [] (client objs l)).

#[export] Instance delete_law : DeleteLaw.
Proof.
  intros f c id o r c' [= <- <-] Ho. split; [done|]. split; [done|].
  exists (remove_instance (objID o) id o). split; [|by unfold remove_instance; rewrite Z.eqb_refl]. unfold find_object, objects, set_client. cbn [rest app objectList update].
  rewrite find_map by (intros x; unfold remove_instance; by destruct (_ =? _)).
  unfold find_object, objects in Ho. by rewrite Ho.
Qed.

Lemma fill_fills v d : fills d (fill v d).
Proof.
  unfold fill. destruct d as [t i w]. cbn [d_value d_id]. destruct w; (split; [|split; [done|]]); try done;
    try (by split; [by exists v|]).
  - split; [by eexists|]. intros _. eexists. split; [done|]. apply list.Forall_fmap, list.Forall_true. by intros x; exists v.
  - intros l [= <-]. eexists. split; [done|]. by apply list.Forall2_fmap_r, list.Forall_Forall2_diag, list.Forall_true.
Qed.

#[export] Instance read_law : ReadLaw.
Proof.
  intros f c id dataP o d' b [= <- _]. destruct dataP as [|x l].
  - apply list.Forall_singleton. by split; [by exists (user (app (rest c)))|].
  - change (Forall2 fills (x :: l) (map (fill (user (app (rest c)))) (x :: l))).
    apply list.Forall2_fmap_r, list.Forall_Forall2_diag, list.Forall_true. apply fill_fills.
Qed.
End Sample.
Import Sample.


(** When the callback frees the node of the instance, as the objects of the
    examples do, the loop reads freed memory. *)
Example delete_reads_freed :
  let freeing : ObjectCallbacks Z unit unit unit Z :=
    {| read_callback := @read_callback _ _ _ _ _ Sample.callbacks;
       discover_callback := @discover_callback _ _ _ _ _ Sample.callbacks;
       write_callback := @write_callback _ _ _ _ _ Sample.callbacks;
       execute_callback := @execute_callback _ _ _ _ _ Sample.callbacks;
       create_callback := @create_callback _ _ _ _ _ Sample.callbacks;
       delete_callback := @delete_callback _ _ _ _ _ Sample.callbacks;
       node_survives _ := false |} in
  @object_delete _ _ _ _ _ freeing (Sample.context_of [Sample.object 5 [0]] []) (mk_uri 5 65535 65535 65535) = None.
Proof. by vm_compute. Qed.

End Objects.
