(* ===== verification/Observe.v ===== *)
(** * Notifications of a client (core/observe.c, second part)

    The parameters of an observation, the decision to notify a server, and the
    notifications.  A node of the list and a watcher are designated by their
    positions: none of these operations adds or removes a node while it goes
    through the list. *)
From S2P Require Import Prelude.
From S2P Require Import Types.
From S2P Require Import SortedList.
From S2P Require Import Float.
From S2P Require Import Data.
From S2P Require Import FloatText.
From S2P Require Import CoapPacket.
From S2P Require Import CoapOptions.
From S2P Require Import CoapSerialize.
From S2P Require Import Transaction.
From S2P Require Import Packet.
From S2P Require Import Client.
From S2P Require Import Observed.
From S2P Require Import Formats.
From S2P Require Import Objects.
From Stdlib Require Import SpecFloat.
Import SortedList Float Data FloatText CoapPacket CoapOptions CoapSerialize Transaction Packet Client Observed Formats Objects.

Module Observe.

Definition SIZEOF_ATTRIBUTES : Z := 40.

(** ** Parameters *)

(** [lt + (2 * stp) >= gt] on the type [float]. *)
Definition step_too_large (gt lt stp : Z) : bool :=
  let f x := float_of_bits (float_of_double x) in
  fge (SFadd 24 128 (f lt) (SFmul 24 128 (float_of_bits 0x40000000) (f stp))) (f gt).

(** The check of the numeric parameters: whether the request is refused. *)
Definition bad_numeric (attrP : lwm2m_attributes_t) (params : option lwm2m_attributes_t) : C bool :=
  let old := match params with Some p => toSet p | None => 0 end in
  if Z.land (Z.land (Z.lor (toSet attrP) old) (Z.lnot (toClear attrP))) ATTR_FLAG_NUMERIC =? ATTR_FLAG_NUMERIC then
    gt ← (if has_flag (toSet attrP) LWM2M_ATTR_FLAG_GREATER_THAN then ret (greaterThan attrP)
          else p ← params; ret (greaterThan p));
    lt ← (if has_flag (toSet attrP) LWM2M_ATTR_FLAG_LESS_THAN then ret (lessThan attrP)
          else p ← params; ret (lessThan p));
    stp ← (if has_flag (toSet attrP) LWM2M_ATTR_FLAG_STEP then ret (a_step attrP)
           else p ← params; ret (a_step p));
    ret (step_too_large gt lt stp)
  else ret false.

(** The parameters of a watcher that has some; [toSet] only loses flags. *)
Definition merge_parameters (attrP p : lwm2m_attributes_t) : lwm2m_attributes_t :=
  let set := has_flag (toSet attrP) in
  mk_attributes (u8 (Z.land (toSet p) (Z.lnot (toClear attrP)))) (toClear p)
    (if set LWM2M_ATTR_FLAG_MIN_PERIOD then minPeriod attrP else minPeriod p)
    (if set LWM2M_ATTR_FLAG_MAX_PERIOD then maxPeriod attrP else maxPeriod p)
    (if set LWM2M_ATTR_FLAG_GREATER_THAN then greaterThan attrP else greaterThan p)
    (if set LWM2M_ATTR_FLAG_LESS_THAN then lessThan attrP else lessThan p)
    (if set LWM2M_ATTR_FLAG_STEP then a_step attrP else a_step p).

(** The status and the new parameters. *)
Definition set_parameters `{Malloc} (attrP : lwm2m_attributes_t) (params : option lwm2m_attributes_t)
    : C (Z * option lwm2m_attributes_t) :=
  bad ← bad_numeric attrP params;
  if (bad : bool) then ret (COAP_400_BAD_REQUEST, params)
  else
    match params with
    | None =>
        if negb (toSet attrP =? 0) then
          if malloc_ok SIZEOF_ATTRIBUTES then ret (COAP_204_CHANGED, Some attrP)
          else ret (COAP_500_INTERNAL_SERVER_ERROR, None)
        else ret (COAP_204_CHANGED, None)
    | Some p => ret (COAP_204_CHANGED, Some (merge_parameters attrP p))
    end.

(** ** The decision to notify *)

(** A value and the last one, by their 64-bit representations, as the type
    [double] they are converted to in a comparison. *)
Definition as_double (type : lwm2m_data_type_t) (v : Z) : spec_float :=
  match type with
  | LWM2M_TYPE_INTEGER => double_of_Z (s64 v)
  | LWM2M_TYPE_UNSIGNED_INTEGER => double_of_Z v
  | _ => double_of_bits v
  end.

(** Did the value cross a threshold? *)
Definition crosses (type : lwm2m_data_type_t) (value last threshold : Z) : bool :=
  let t := double_of_bits threshold in
  is_numeric type &&
  ((flt (as_double type value) t && flt t (as_double type last)) ||
   (flt t (as_double type value) && flt (as_double type last) t)).

(** The result of a subtraction of type [int64_t]. *)
Definition int64_ok (z : Z) : bool := (INT64_MIN <=? z) && (z <=? INT64_MAX).

(** Is the distance to the last value at least the step? *)
Definition steps (type : lwm2m_data_type_t) (value last stp : Z) : C bool :=
  let t := double_of_bits stp in
  match type with
  | LWM2M_TYPE_INTEGER =>
      let diff := s64 value - s64 last in
      assert! int64_ok diff;
      if diff <? 0 then assert! int64_ok (0 - diff); ret (fge (double_of_Z (0 - diff)) t)
      else ret (fge (double_of_Z diff) t)
  | LWM2M_TYPE_UNSIGNED_INTEGER =>
      let diff := if last <=? value then value - last else last - value in
      ret (fge (double_of_Z diff) t)
  | LWM2M_TYPE_FLOAT =>
      let diff := fsub (double_of_bits value) (double_of_bits last) in
      let zero := S754_zero false in
      ret ((flt diff zero && fge (fsub zero diff) t) || (fge diff zero && fge diff t))
  | _ => ret false
  end.

(** The thresholds and the step of the parameters. *)
Definition numeric_notify (p : lwm2m_attributes_t) (type : lwm2m_data_type_t) (value last : Z) : C bool :=
  let low := has_flag (toSet p) LWM2M_ATTR_FLAG_LESS_THAN && crosses type value last (lessThan p) in
  let high := has_flag (toSet p) LWM2M_ATTR_FLAG_GREATER_THAN && crosses type value last (greaterThan p) in
  st ← (if has_flag (toSet p) LWM2M_ATTR_FLAG_STEP then steps type value last (a_step p) else ret false);
  ret (low || high || st).

(** A watcher whose value has changed: [notify] and [*timeoutP]. *)
Definition notify_update (w : lwm2m_watcher_t) (type : lwm2m_data_type_t) (value currentTime timeout : Z)
    : C (bool * Z) :=
  match parameters w with
  | None => ret (true, timeout)
  | Some p =>
      notify ← (if toSet p =? 0 then ret true
                else if has_flag (toSet p) ATTR_FLAG_NUMERIC then numeric_notify p type value (lastValue w)
                else ret false);
      if has_flag (toSet p) LWM2M_ATTR_FLAG_MIN_PERIOD then
        if currentTime <? lastTime w + minPeriod p then
          let interval := lastTime w + minPeriod p - currentTime in
          ret (false, if interval <? timeout then interval else timeout)
        else ret (true, timeout)
      else ret (notify, timeout)
  end.

(** The conditions on an active watcher. *)
Definition notify_watcher (w : lwm2m_watcher_t) (type : lwm2m_data_type_t) (value currentTime timeout : Z)
    : C (bool * Z) :=
  '(notify, timeout) ← (if w_update w then notify_update w type value currentTime timeout else ret (false, timeout));
  let max_reached :=
    match parameters w with
    | Some p => has_flag (toSet p) LWM2M_ATTR_FLAG_MAX_PERIOD && (lastTime w + maxPeriod p <=? currentTime)
    | None => false
    end in
  ret (notify || max_reached, timeout).

(** The update of [*timeoutP] at the end of the turn. *)
Definition max_timeout (w : lwm2m_watcher_t) (currentTime timeout : Z) : Z :=
  match parameters w with
  | Some p =>
      if has_flag (toSet p) LWM2M_ATTR_FLAG_MAX_PERIOD then
        let interval := lastTime w + maxPeriod p - currentTime in
        if interval <? timeout then interval else timeout
      else timeout
  | None => timeout
  end.

Section observe.
Context {Session CB U F B : Type}.
Context `{HM : Malloc, HS : Sessions Session, HL : LibC, HF : Codecs, HO : ObjectCallbacks Session CB U F B}.
Context (junk : Z -> list Z) (lwm2m_buffer_send : Session -> list Z -> Z).
Abbreviation context := (lwm2m_context_t Session CB U (world_t Session server_info (client_t F B))).
Abbreviation server := (lwm2m_server_t Session server_info).

Definition observe_setParameters (contextP : context) (uriP : lwm2m_uri_t) (serverP : server)
    (attrP : lwm2m_attributes_t) : C (Z * context) :=
  if negb (LWM2M_URI_IS_SET_INSTANCE uriP) && LWM2M_URI_IS_SET_RESOURCE uriP then ret (COAP_400_BAD_REQUEST, contextP)
  else
    '(result, contextP) ← object_checkReadable contextP uriP attrP;
    if negb (result =? COAP_205_CONTENT) then ret (result, contextP)
    else
      l ← observed contextP;
      match prv_getWatcher l uriP (secObjInstID serverP) with
      | (None, l) => ret (COAP_500_INTERNAL_SERVER_ERROR, set_observed contextP l)
      | (Some p, l) =>
          l ← l;
          w ← get_watcher l p;
          '(result, params) ← set_parameters attrP (parameters w);
          ret (result, set_observed contextP (Some (upd_watcher l p (fun w => w <| parameters := params |>))))
      end.

(** ** Notifying *)

(** What is read of an observed resource: its data, the type and the number.
    [None] in the result is [continue]. *)
Definition read_observed (contextP : context) (uri : lwm2m_uri_t)
    : C (option (option (list lwm2m_data_t) * lwm2m_data_type_t * option Z) * context) :=
  if LWM2M_URI_IS_SET_RESOURCE uri then
    '(result, dataP, contextP) ← object_readData contextP uri;
    if negb (result =? COAP_205_CONTENT) then ret (None, contextP)
    else
      valueP ← value_node uri dataP;
      value ← value_of valueP;
      ret (option_map (fun v => (Some dataP, d_type valueP, v)) value, contextP)
  else ret (Some (None, LWM2M_TYPE_UNDEFINED, None), contextP).

(** Reading and writing a watcher of the context. *)
Definition watcher_at (contextP : context) (p : nat * nat) : C lwm2m_watcher_t :=
  l ← observed contextP; get_watcher l p.
Definition set_watcher (contextP : context) (p : nat * nat) (w : lwm2m_watcher_t) : C context :=
  l ← observed contextP; ret (set_observed contextP (Some (upd_watcher l p (fun _ => w)))).

(** The payload of the notification, once for all watchers of a URI: [None] in
    the result is [break]. *)
Definition notify_message (contextP : context) (p : nat * nat) (uri : lwm2m_uri_t)
    (dataP : option (list lwm2m_data_t)) : C (option coap_packet_t * context) :=
  w ← watcher_at contextP p;
  '(r, format, contextP) ←
    (match dataP with
     | Some dataP =>
         '(res, format, buffer) ← lwm2m_data_serialize junk (Some uri) dataP (w_format w);
         ret (if res <? 0 then None else Some (buffer, res), format, contextP)
     | None =>
         '(result, format, buffer, length, contextP) ← object_read junk contextP uri [] 0 (w_format w);
         ret (if result =? COAP_205_CONTENT then Some (buffer, length) else None, format, contextP)
     end);
  contextP ← set_watcher contextP p (w <| w_format := format |>);
  match r with
  | None => ret (None, contextP)
  | Some (buffer, length) =>
      let m := coap_init_message COAP_TYPE_NON COAP_205_CONTENT 0 in
      '(_, m) ← coap_set_header_content_type m format;
      let '(_, m) := coap_set_payload m buffer length in
      ret (Some m, contextP)
  end.

(** Sending the notification to one watcher: the message and the context. *)
Definition send_notification (contextP : context) (p : nat * nat) (m : coap_packet_t) (value : option Z)
    (currentTime : Z) : C (coap_packet_t * context) :=
  w ← watcher_at contextP p;
  let m := m <| mid := nextMID contextP |> in
  '(_, m) ← coap_set_header_token m (w_token w) (tokenLen w);
  '(_, m) ← coap_set_header_observe m (counter w);
  let w := w <| lastTime := currentTime |> <| lastMid := nextMID contextP |> <| counter := u32 (counter w + 1) |> in
  contextP ← set_watcher (contextP <| nextMID := u16 (nextMID contextP + 1) |>) p w;
  s ← server_session contextP (w_server w);
  '(_, contextP) ← message_send junk lwm2m_buffer_send contextP m s;
  let w := w <| w_update := false |> in
  contextP ← set_watcher contextP p (if value is Some v then w <| lastValue := v |> else w);
  ret (m, contextP).

(** The loop over the watchers of the node [i], from the watcher [j] on;
    [message] is [None] while [buffer] is a null pointer. *)
Fixpoint watchers_loop (n : nat) (contextP : context) (i j : nat) (uri : lwm2m_uri_t)
    (dataP : option (list lwm2m_data_t)) (type : lwm2m_data_type_t) (value : option Z) (message : option coap_packet_t)
    (currentTime timeout : Z) : C (Z * context) :=
  match n with
  | O => ret (timeout, contextP)
  | S n =>
      w ← watcher_at contextP (i, j);
      if active w then
        '(notify, timeout) ← notify_watcher w type (default 0 value) currentTime timeout;
        '(go_on, message, contextP) ←
          (if (notify : bool) then
             '(m, contextP) ← (match message with
                               | Some m => ret (Some m, contextP)
                               | None => notify_message contextP (i, j) uri dataP
                               end);
             match m with
             | None => ret (false, None, contextP)
             | Some m =>
                 '(m, contextP) ← send_notification contextP (i, j) m value currentTime;
                 ret (true, if payload m is Some _ then Some m else None, contextP)
             end
           else ret (true, message, contextP));
        if (go_on : bool) then
          w ← watcher_at contextP (i, j);
          watchers_loop n contextP i (S j) uri dataP type value message currentTime (max_timeout w currentTime timeout)
        else ret (timeout, contextP)
      else watchers_loop n contextP i (S j) uri dataP type value message currentTime timeout
  end.

(** The loop over the observed URIs, from the node [i] on. *)
Fixpoint observed_loop (n : nat) (contextP : context) (i : nat) (currentTime timeout : Z) : C (Z * context) :=
  match n with
  | O => ret (timeout, contextP)
  | S n =>
      l ← observed contextP;
      targetP ← l !! i;
      '(r, contextP) ← read_observed contextP (o_uri targetP);
      '(timeout, contextP) ←
        (match r with
         | Some (dataP, type, value) =>
             watchers_loop (length (watcherList targetP)) contextP i 0 (o_uri targetP) dataP type value None
               currentTime timeout
         | None => ret (timeout, contextP)
         end);
      observed_loop n contextP (S i) currentTime timeout
  end.

(** [*timeoutP] and the context. *)
Definition observe_step (contextP : context) (currentTime timeout : Z) : C (Z * context) :=
  l ← observed contextP; observed_loop (length l) contextP 0 currentTime timeout.
End observe.

(** ** The invariant *)

Lemma has_flag_bit x n : 0 <= n -> has_flag x (2 ^ n) = Z.testbit x n.
Proof.
  intros Hn. unfold has_flag. rewrite land_pow2 by done. destruct (Z.testbit x n); [|done].
  by rewrite (proj2 (Z.eqb_neq _ _)) by lia.
Qed.

(** When the check needs a threshold that the request does not set, the watcher
    has parameters. *)
Lemma bad_numeric_ok attrP params : exists b, bad_numeric attrP params = Some b.
Proof.
  unfold bad_numeric. destruct (_ =? _) eqn:E; [|by eexists]. destruct params as [p|].
  - by repeat (destruct (has_flag _ _); mstep); eexists.
  - rewrite Z.lor_0_r in E. apply Z.eqb_eq in E.
    assert (forall n, 0 <= n -> Z.testbit ATTR_FLAG_NUMERIC n = true -> has_flag (toSet attrP) (2 ^ n) = true) as Hb.
    { intros n Hn Hbit. rewrite has_flag_bit by done. rewrite <- E, !Z.land_spec in Hbit.
      by apply andb_true_iff in Hbit as [[? _]%andb_true_iff _]. }
    pose proof (Hb 2 ltac:(lia) eq_refl) as H2. pose proof (Hb 3 ltac:(lia) eq_refl) as H3.
    pose proof (Hb 4 ltac:(lia) eq_refl) as H4.
    change (2 ^ 2) with LWM2M_ATTR_FLAG_GREATER_THAN in H2. change (2 ^ 3) with LWM2M_ATTR_FLAG_LESS_THAN in H3.
    change (2 ^ 4) with LWM2M_ATTR_FLAG_STEP in H4. rewrite H2, H3, H4. mstep. by eexists.
Qed.

Lemma set_parameters_ok `{Malloc} attrP params : exists r, set_parameters attrP params = Some r.
Proof.
  unfold set_parameters. destruct (bad_numeric_ok attrP params) as [b ->]. mstep.
  destruct b; [by eexists|]. destruct params; [by eexists|]. by repeat (destruct (negb _) || destruct (malloc_ok _)); eexists.
Qed.

Section invariant.
Context {Session CB U F B : Type}.
Context `{HM : Malloc, HS : Sessions Session, HL : LibC, HF : Codecs, HO : ObjectCallbacks Session CB U F B}.
Context `{HR : !ReadLaw}.
Context (Hwatcher : malloc_ok SIZEOF_WATCHER = true).
Abbreviation context := (lwm2m_context_t Session CB U (world_t Session server_info (client_t F B))).
Abbreviation server := (lwm2m_server_t Session server_info).

Lemma user_only_inv (c c' : context) : user_only c c' -> observed_inv c -> servers c' = servers c /\ observed_inv c'.
Proof. intros [b ->] (l & Hl & Hok). split; [done|]. by exists l. Qed.

Lemma observe_setParameters_ok (c : context) u (s : server) attrP :
  observed_inv c -> secObjInstID s ∈ map secObjInstID (servers c) ->
  exists r c', observe_setParameters c u s attrP = Some (r, c') /\ servers c' = servers c /\ observed_inv c'.
Proof.
  intros Hinv Hs. unfold observe_setParameters. destruct (_ && _) eqn:Eu; [by eexists _, _|].
  destruct (object_checkReadable_ok c u attrP) as (r & c1 & -> & Hu). mstep.
  destruct (user_only_inv c c1 Hu Hinv) as [Hsrv (l & Hl & Hok)]. rewrite <- Hsrv in Hs |- *. clear Hu Hsrv Hinv.
  assert (observed_inv c1) as Hinv by (by exists l). destruct (r =? COAP_205_CONTENT); cbn [negb]; [|by exists r, c1]. rewrite Hl. mstep.
  assert (uri_observable u = true) as Hu
    by (unfold uri_observable; destruct (LWM2M_URI_IS_SET_INSTANCE u), (LWM2M_URI_IS_SET_RESOURCE u); done).
  pose proof (prv_getWatcher_ok _ l u (secObjInstID s) Hok Hu Hs Hwatcher) as Hg.
  destruct (prv_getWatcher l u (secObjInstID s)) as [[p|] l'].
  - destruct l' as [l'|]; [|done]. destruct Hg as (Hok' & w & Hw & _). mstep. rewrite Hw. mstep.
    destruct (set_parameters_ok attrP (parameters w)) as [[r2 params] ->]. mstep. eexists _, _. split; [done|].
    split; [done|]. eexists. split; [done|]. apply upd_ok; [done| |done]. by intros x _ [? ? ?].
  - subst l'. eexists _, _. split; [done|]. split; [done|]. by eexists.
Qed.

(** The operations on the observations, as the events of a run. *)
Inductive observe_call :=
  | Request (tv_sec : Z) (u : lwm2m_uri_t) (s : server) (dataP : list lwm2m_data_t) (m response : coap_packet_t)
  | SetParameters (u : lwm2m_uri_t) (s : server) (attrP : lwm2m_attributes_t)
  | Cancel (mid_ : Z) (from : Session)
  | Clear (u : lwm2m_uri_t)
  | Changed (u : lwm2m_uri_t).

Definition run_call (c : context) (k : observe_call) : C context :=
  match k with
  | Request tv u s dataP m response => '(_, c, _) ← observe_handleRequest tv c u s dataP m response; ret c
  | SetParameters u s attrP => '(_, c) ← observe_setParameters c u s attrP; ret c
  | Cancel mid_ from => observe_cancel c mid_ from
  | Clear u => observe_clear c u
  | Changed u => lwm2m_resource_value_changed c u
  end.

Fixpoint run_calls (c : context) (l : list observe_call) : C context :=
  match l with [] => ret c | k :: l => c ← run_call c k; run_calls c l end.

(** The calls that the rest of the library makes: the server is in the list, and
    a request has an Observe option and the data that was read. *)
Definition call_ok (ids : list Z) (k : observe_call) : Prop :=
  match k with
  | Request _ u s dataP m response => secObjInstID s ∈ ids /\ request_ok u dataP m response
  | SetParameters _ s _ => secObjInstID s ∈ ids
  | _ => True
  end.

End invariant.

(** ** Notifications

    The abstract notifier: in the order of the list, every watcher that is active
    and tagged is sent the value with the next message id and its next counter;
    it is then no longer tagged. *)

Definition due (w : lwm2m_watcher_t) : bool := active w && w_update w.
(** The server set no condition. *)
Definition unconditional (w : lwm2m_watcher_t) : Prop :=
  match parameters w with Some p => toSet p = 0 | None => True end.

(** The value of a URI: the data, its type, the number, the format and the
    payload. *)
Record reading := mk_reading {
  r_data : list lwm2m_data_t;
  r_type : lwm2m_data_type_t;
  r_value : option Z;
  r_format : Z;
  r_payload : list Z }.

(** The packet with the given options map, message id, token and counter. *)
Definition note (o : list Z) (mid_ tl : Z) (tok : list Z) (obs format : Z) (payload_ : list Z) : coap_packet_t :=
  mk_packet 0 COAP_TYPE_NON COAP_205_CONTENT mid_ o format 0 [] 0 (replicate 8 0) [] [] 0 0 [] [] obs tl tok
    0 (replicate 2 0) 0 (replicate 8 0) zero_block zero_block 0 [] 0 (len payload_) (Some payload_).
(** The options Observe, Content-Format and Token. *)
Definition note_options : list Z := [0x40; 0x10; 0x08; 0; 0].
Definition notification (mid_ : Z) (w : lwm2m_watcher_t) (r : reading) : coap_packet_t :=
  note note_options mid_ (tokenLen w) (w_token w) (Z.land 0x00FFFFFF (counter w)) (r_format r) (r_payload r).

Definition notified (now mid_ : Z) (r : reading) (w : lwm2m_watcher_t) : lwm2m_watcher_t :=
  let w := w <| lastTime := now |> <| lastMid := mid_ |> <| counter := u32 (counter w + 1) |> <| w_update := false |> in
  match r_value r with Some v => w <| lastValue := v |> | None => w end.

(** What is sent, the next message id and the watchers. *)
Fixpoint notify_all (now : Z) (r : reading) (mid_ : Z) (ws : list lwm2m_watcher_t)
    : list (Z * list Z) * Z * list lwm2m_watcher_t :=
  match ws with
  | [] => ([], mid_, [])
  | w :: ws =>
      if due w then
        let '(out, mid', ws) := notify_all now r (u16 (mid_ + 1)) ws in
        ((w_server w, message_bytes (notification mid_ w r)) :: out, mid', notified now mid_ r w :: ws)
      else let '(out, mid', ws) := notify_all now r mid_ ws in (out, mid', w :: ws)
  end.
Fixpoint notify_nodes (now : Z) (value_at : lwm2m_uri_t -> reading) (mid_ : Z) (l : list lwm2m_observed_t)
    : list (Z * list Z) * Z * list lwm2m_observed_t :=
  match l with
  | [] => ([], mid_, [])
  | o :: l =>
      let '(out, mid_, ws) := notify_all now (value_at (o_uri o)) mid_ (watcherList o) in
      let '(out', mid_, l) := notify_nodes now value_at mid_ l in
      (out ++ out', mid_, o <| watcherList := ws |> :: l)
  end.

(** Nobody is to be notified twice. *)
Lemma notify_all_clears now r ws : forall mid_ out mid' ws',
  notify_all now r mid_ ws = (out, mid', ws') -> Forall (fun w => due w = false) ws'.
Proof.
  induction ws as [|w ws IH]; intros mid_ out mid' ws'; cbn [notify_all]; [by intros [= <- <- <-]; constructor|].
  destruct (due w) eqn:E.
  - destruct (notify_all now r (u16 (mid_ + 1)) ws) as [[? ?] ?] eqn:En. intros [= <- <- <-].
    apply Forall_cons. split; [|by eapply IH]. unfold due, notified. by destruct (r_value r); cbn; rewrite andb_false_r.
  - destruct (notify_all now r mid_ ws) as [[? ?] ?] eqn:En. intros [= <- <- <-]. apply Forall_cons. eauto.
Qed.

Lemma notify_nodes_clears now value_at l : forall mid_ out mid' l',
  notify_nodes now value_at mid_ l = (out, mid', l') -> Forall (fun o => Forall (fun w => due w = false) (watcherList o)) l'.
Proof.
  induction l as [|o l IH]; intros mid_ out mid' l'; cbn [notify_nodes]; [by intros [= <- <- <-]; constructor|].
  destruct (notify_all _ _ _ _) as [[? ?] ?] eqn:E1. destruct (notify_nodes _ _ _ _) as [[? ?] ?] eqn:E2.
  intros [= <- <- <-]. apply Forall_cons. split; [by eapply notify_all_clears|by eapply IH].
Qed.

Lemma note_token o mid_ tl tok obs format pl tok' :
  take (Z.to_nat tl) tok = take (Z.to_nat tl) tok' ->
  message_bytes (note o mid_ tl tok obs format pl) = message_bytes (note o mid_ tl tok' obs format pl).
Proof.
  intros H. unfold message_bytes. change (token (note o mid_ tl tok obs format pl)) with tok.
  change (token (note o mid_ tl tok' obs format pl)) with tok'. change (token_len (note o mid_ tl ?t obs format pl)) with tl.
  change (token_len (note o mid_ tl tok' obs format pl)) with tl. rewrite H. reflexivity.
Qed.

Lemma note_ok mid_ tl tok obs format pl :
  0 <= mid_ < 65536 -> 0 <= tl <= 8 -> length tok = 8%nat -> 0 <= obs < 2 ^ 32 -> 0 <= format < 2 ^ 16 ->
  msg_ok (note note_options mid_ tl tok obs format pl).
Proof.
  intros Hm Htl Htok Ho Hf.
  assert (packet_wf (note note_options mid_ tl tok obs format pl)) as Hwf.
  { split_and!; try done. unfold note, note_options. cbn. repeat (apply Forall_cons; split; [done|]). by apply list.Forall_nil. }
  split; try done; try (cbn; lia); try (split; [apply list.Forall_nil_2|done]).
  split; [cbn; lia|]. repeat first [apply list.Forall_nil_2 | apply list.Forall_cons_2]; done.
Qed.

(** The options map before the first notification of a payload. *)
Definition first_options : list Z := [0; 0x10; 0; 0; 0].

Lemma first_note format pl :
  len pl < 65536 ->
  ('(_, m) ← coap_set_header_content_type (coap_init_message COAP_TYPE_NON COAP_205_CONTENT 0) format;
   ret (coap_set_payload m (Some pl) (len pl)).2) = Some (note first_options 0 0 (replicate 8 0) 0 format pl).
Proof.
  intros Hl. change (coap_set_header_content_type _ _) with
    (Some (1, zero_packet <| p_type := COAP_TYPE_NON |> <| code := COAP_205_CONTENT |> <| content_type := format |>
                <| p_options := first_options |>)).
  mstep. unfold coap_set_payload. rewrite wrap_small by lia. reflexivity.
Qed.

Definition token_options (o : list Z) : list Z := take 2 o ++ [0x08] ++ drop 3 o.

Lemma note_set_token o mid_ tl tok obs format pl :
  o = first_options \/ o = note_options ->
  SET_OPTION (note o mid_ tl tok obs format pl) COAP_OPTION_TOKEN =
    Some (note (token_options o) mid_ tl tok obs format pl).
Proof. by intros [-> | ->]. Qed.
Lemma note_set_observe o mid_ tl tok obs format pl :
  o = first_options \/ o = note_options ->
  SET_OPTION (note (token_options o) mid_ tl tok obs format pl) COAP_OPTION_OBSERVE =
    Some (note note_options mid_ tl tok obs format pl).
Proof. by intros [-> | ->]. Qed.

Lemma next_note o mid0 tl0 tok0 obs0 format pl mid_ tl tok cnt :
  o = first_options \/ o = note_options -> length tok0 = 8%nat -> length tok = 8%nat -> 0 <= tl <= 8 ->
  exists tok', length tok' = 8%nat /\ take (Z.to_nat tl) tok' = take (Z.to_nat tl) tok /\
    ('(_, m) ← coap_set_header_token ((note o mid0 tl0 tok0 obs0 format pl) <| mid := mid_ |>) tok tl;
     '(_, m) ← coap_set_header_observe m cnt; ret m) =
    Some (note note_options mid_ tl tok' (Z.land 0x00FFFFFF cnt) format pl).
Proof.
  intros Ho Htok0 Htok Htl. exists (patch tok0 0 (slice tok 0 tl)).
  pose proof (slice_length tok 0 tl ltac:(lia) ltac:(lia) ltac:(lens)) as Hs. split; [|split].
  - apply Nat2Z.inj. rewrite patch_length; lens.
  - pose proof (patch_slice tok0 0 (slice tok 0 tl) ltac:(lia) ltac:(lens)) as Hp. rewrite Hs in Hp.
    unfold slice in Hp. by rewrite drop_0 in Hp.
  - unfold coap_set_header_token, COAP_TOKEN_LEN. rewrite Z.min_r, wrap_small by lia.
    unfold rd_bytes. guards. mstep.
    change (token ((note o mid0 tl0 tok0 obs0 format pl) <| mid := mid_ |>)) with tok0.
    rewrite wr_bytes_Some by lens. mstep.
    change ((note o mid0 tl0 tok0 obs0 format pl) <| mid := mid_ |> <| token_len := tl |>
      <| token := patch tok0 0 (slice tok 0 tl) |>) with (note o mid_ tl (patch tok0 0 (slice tok 0 tl)) obs0 format pl).
    rewrite note_set_token by done. mstep. unfold coap_set_header_observe.
    change ((note (token_options o) mid_ tl (patch tok0 0 (slice tok 0 tl)) obs0 format pl)
      <| observe := Z.land 0x00FFFFFF cnt |>) with
      (note (token_options o) mid_ tl (patch tok0 0 (slice tok 0 tl)) (Z.land 0x00FFFFFF cnt) format pl).
    by rewrite note_set_observe.
Qed.

(** ** The loops implement the notifier *)

Section refinement.
Context {Session CB U F B : Type}.
Context `{HM : Malloc, HS : Sessions Session, HL : LibC, HF : Codecs, HO : ObjectCallbacks Session CB U F B}.
Context (malloc_never_fails : forall n, malloc_ok n = true).
Context (junk : Z -> list Z) (lwm2m_buffer_send : Session -> list Z -> Z).
Context (junk_length : forall n, 0 <= n -> len (junk n) = n).
Abbreviation context := (lwm2m_context_t Session CB U (world_t Session server_info (client_t F B))).
Implicit Types (c : context).

Lemma watcher_at_ok c l1 o l2 ws1 w ws2 i j :
  observed c = Some (l1 ++ o :: l2) -> watcherList o = ws1 ++ w :: ws2 -> i = length l1 -> j = length ws1 ->
  watcher_at c (i, j) = Some w.
Proof.
  intros Hl Hw -> ->. unfold watcher_at. rewrite Hl. mstep. unfold get_watcher. cbn [fst snd].
  rewrite list_lookup_middle by done. mstep. by rewrite Hw, list_lookup_middle.
Qed.

Definition with_watchers (c : context) l1 (o : lwm2m_observed_t) l2 ws : context :=
  set_observed c (Some (l1 ++ (o <| watcherList := ws |>) :: l2)).

Lemma alter_middle {A} (f : A -> A) l1 x l2 i : i = length l1 -> alter f i (l1 ++ x :: l2) = l1 ++ f x :: l2.
Proof. intros ->. induction l1 as [|y l1 IH]; [done|]. cbn. by f_equal. Qed.

Lemma set_watcher_ok c l1 o l2 ws1 w ws2 i j w' :
  observed c = Some (l1 ++ o :: l2) -> watcherList o = ws1 ++ w :: ws2 -> i = length l1 -> j = length ws1 ->
  set_watcher c (i, j) w' = Some (with_watchers c l1 o l2 (ws1 ++ w' :: ws2)).
Proof.
  intros Hl Hw Hi Hj. unfold set_watcher. rewrite Hl. mstep. unfold upd_watcher, with_watchers. cbn [fst snd].
  rewrite alter_middle by done. by rewrite Hw, alter_middle.
Qed.

(** The datagrams are addressed to the sessions of the servers. *)
Definition addressed c (out : list (Z * list Z)) (sent_ : list (Session * list Z)) : Prop :=
  Forall2 (fun x y => server_session c (fst x) = Some (fst y) /\ snd x = snd y) out sent_.

Record numbers_ok (w : lwm2m_watcher_t) (r : reading) : Prop := mk_numbers_ok {
  n_counter : 0 <= counter w < 2 ^ 32;
  n_format : active w = true -> w_format w = r_format r /\ 0 <= r_format r < 2 ^ 16;
  n_unconditional : unconditional w }.

Lemma unconditional_decision w type value now timeout :
  unconditional w -> notify_watcher w type value now timeout = Some (w_update w, timeout).
Proof.
  unfold unconditional, notify_watcher, notify_update. destruct (parameters w) as [p|].
  - intros Hp. rewrite Hp. change (0 =? 0) with true. cbn match. mstep. change (has_flag 0 _) with false.
    cbn [andb]. destruct (w_update w); mstep; by rewrite ?orb_false_r.
  - intros _. destruct (w_update w); mstep; done.
Qed.

Lemma unconditional_timeout w now timeout : unconditional w -> max_timeout w now timeout = timeout.
Proof. unfold unconditional, max_timeout. destruct (parameters w) as [p|]; [|done]. by intros ->. Qed.

Lemma send_notification_ok c l1 o l2 ws1 w ws2 i j opts mid0 tl0 tok0 obs0 r now :
  observed c = Some (l1 ++ o :: l2) -> watcherList o = ws1 ++ w :: ws2 -> i = length l1 -> j = length ws1 ->
  watcher_ok (map secObjInstID (servers c)) w -> 0 <= r_format r < 2 ^ 16 -> 0 <= nextMID c < 65536 ->
  opts = first_options \/ opts = note_options -> length tok0 = 8%nat ->
  exists s m, server_session c (w_server w) = Some s /\
    send_notification junk lwm2m_buffer_send c (i, j) (note opts mid0 tl0 tok0 obs0 (r_format r) (r_payload r))
      (r_value r) now =
    Some (m, with_watchers (send (c <| nextMID := u16 (nextMID c + 1) |>) s (message_bytes (notification (nextMID c) w r)))
               l1 o l2 (ws1 ++ notified now (nextMID c) r w :: ws2)) /\
    exists tok, length tok = 8%nat /\
      m = note note_options (nextMID c) (tokenLen w) tok (Z.land 0x00FFFFFF (counter w)) (r_format r) (r_payload r).
Proof.
  intros Hl Hw Hi Hj [Hs Htok Htl] Hf Hmid Hopts Htok0.
  destruct (server_session_ok c (w_server w) Hs) as [s Hsess].
  destruct (next_note opts mid0 tl0 tok0 obs0 (r_format r) (r_payload r) (nextMID c) (tokenLen w) (w_token w) (counter w)
    Hopts Htok0 Htok Htl) as (tok & Htok8 & Htake & Hn).
  set (m := note note_options (nextMID c) (tokenLen w) tok (Z.land 0x00FFFFFF (counter w)) (r_format r) (r_payload r)) in *.
  exists s, m. split; [done|]. split; [|by exists tok]. unfold send_notification.
  rewrite (watcher_at_ok c l1 o l2 ws1 w ws2 i j) by done. mstep.
  destruct (coap_set_header_token _ _ _) as [[x m1]|]; [|done]. revert Hn. mstep.
  destruct (coap_set_header_observe m1 (counter w)) as [[y m2]|]; [|done]. mstep. intros [= ->].
  rewrite (set_watcher_ok _ l1 o l2 ws1 w ws2 i j) by done. mstep.
  set (w1 := w <| lastTime := now |> <| lastMid := nextMID c |> <| counter := u32 (counter w + 1) |>).
  set (c1 := with_watchers (c <| nextMID := u16 (nextMID c + 1) |>) l1 o l2 (ws1 ++ w1 :: ws2)).
  change (server_session c1 (w_server w1)) with (server_session c (w_server w)). rewrite Hsess. mstep.
  assert (0 <= Z.land 0x00FFFFFF (counter w) < 2 ^ 32) as Hobs.
  { rewrite Z.land_comm. change 0x00FFFFFF with (Z.ones 24). rewrite Z.land_ones by lia.
    pose proof (Z.mod_pos_bound (counter w) (2 ^ 24) ltac:(lia)). lia. }
  destruct (message_send_ok junk lwm2m_buffer_send c1 m s) as (x0 & Hsend & _); [by apply note_ok|by cbn|by cbn|done|].
  rewrite malloc_never_fails in Hsend. rewrite Hsend. mstep.
  erewrite (set_watcher_ok _ l1 (o <| watcherList := ws1 ++ w1 :: ws2 |>) l2 ws1 w1 ws2 i j) by done. mstep.
  f_equal. f_equal. subst m. rewrite (note_token _ _ _ tok _ _ _ (w_token w)) by done. reflexivity.
Qed.

(** The context after datagrams have been sent. *)
Definition advance c (mid_ : Z) (out : list (Session * list Z)) : context :=
  c <| nextMID := mid_ |> <| sent := sent c ++ out |>.

Lemma advance_same c : advance c (nextMID c) [] = c.
Proof. unfold advance. cbn. rewrite app_nil_r. by destruct c. Qed.
Lemma set_observed_same c l : observed c = Some l -> set_observed c (Some l) = c.
Proof. destruct c as [? ? ? ? [? ? ? ? ? []]]. unfold observed. cbn. by intros ->. Qed.
Lemma with_watchers_same c l1 o l2 ws :
  observed c = Some (l1 ++ o :: l2) -> watcherList o = ws -> with_watchers c l1 o l2 ws = c.
Proof. intros Hl Hw. unfold with_watchers. replace (o <| watcherList := ws |>) with o by (subst; by destruct o). by apply set_observed_same. Qed.

(** What the loop needs of the reading of a URI. *)
Record readable (u : lwm2m_uri_t) (r : reading) : Prop := mk_readable {
  serializes : lwm2m_data_serialize junk (Some u) (r_data r) (r_format r) =
    Some (len (r_payload r), r_format r, Some (r_payload r));
  payload_bound : len (r_payload r) < 65536 }.

Lemma notify_message_ok c l1 o l2 ws1 w ws2 i j r :
  observed c = Some (l1 ++ o :: l2) -> watcherList o = ws1 ++ w :: ws2 -> i = length l1 -> j = length ws1 ->
  readable (o_uri o) r -> w_format w = r_format r ->
  notify_message junk c (i, j) (o_uri o) (Some (r_data r)) =
    Some (Some (note first_options 0 0 (replicate 8 0) 0 (r_format r) (r_payload r)), c).
Proof.
  intros Hl Hw Hi Hj [Hs Hb] Hf. unfold notify_message. rewrite (watcher_at_ok c l1 o l2 ws1 w ws2 i j) by done. mstep.
  rewrite Hf, Hs. mstep. guards. rewrite (set_watcher_ok c l1 o l2 ws1 w ws2 i j) by done. mstep.
  replace (w <| w_format := r_format r |>) with w by (rewrite <- Hf; by destruct w).
  rewrite with_watchers_same by done. pose proof (first_note (r_format r) (r_payload r) Hb) as Hn.
  destruct (coap_set_header_content_type _ _) as [[x m]|]; [|done]. revert Hn. mstep.
  destruct (coap_set_payload m (Some (r_payload r)) (len (r_payload r))) as [y m2] eqn:E. cbn [snd].
  by intros [= ->].
Qed.

Lemma watchers_loop_ok ws2 : forall c l1 o l2 ws1 i j r message_ now timeout,
  observed c = Some (l1 ++ o :: l2) -> watcherList o = ws1 ++ ws2 -> i = length l1 -> j = length ws1 ->
  readable (o_uri o) r -> Forall (watcher_ok (map secObjInstID (servers c))) ws2 ->
  Forall (fun w => numbers_ok w r) ws2 -> 0 <= nextMID c < 65536 ->
  (message_ = None \/ exists opts mid0 tl0 tok0 obs0,
     message_ = Some (note opts mid0 tl0 tok0 obs0 (r_format r) (r_payload r)) /\
     (opts = first_options \/ opts = note_options) /\ length tok0 = 8%nat) ->
  exists out mid_ ws' snt, notify_all now r (nextMID c) ws2 = (out, mid_, ws') /\ addressed c out snt /\
    0 <= mid_ < 65536 /\
    watchers_loop junk lwm2m_buffer_send (length ws2) c i j (o_uri o) (Some (r_data r)) (r_type r) (r_value r) message_
      now timeout = Some (timeout, with_watchers (advance c mid_ snt) l1 o l2 (ws1 ++ ws')).
Proof.
  induction ws2 as [|w ws2 IH]; intros c l1 o l2 ws1 i j r message_ now timeout Hl Hw Hi Hj Hr Hok Hn Hmid Hm;
    cbn [notify_all watchers_loop length].
  - eexists [], (nextMID c), [], []. split; [done|]. split; [apply list.Forall2_nil_2|]. split; [done|].
    rewrite advance_same, with_watchers_same; [done|done|by rewrite Hw].
  - apply Forall_cons in Hok as [Hwok Hok]. apply Forall_cons in Hn as [[Hcnt Hfmt Hunc] Hn].
    rewrite (watcher_at_ok c l1 o l2 ws1 w ws2 i j) by done. mstep. unfold due.
    assert (watcherList o = (ws1 ++ [w]) ++ ws2) as Hw' by (by rewrite Hw, <- app_assoc).
    assert (S j = length (ws1 ++ [w])) as Hj' by (rewrite length_app; cbn; lia).
    assert (forall m2, (m2 = None \/ exists opts mid0 tl0 tok0 obs0,
       m2 = Some (note opts mid0 tl0 tok0 obs0 (r_format r) (r_payload r)) /\
       (opts = first_options \/ opts = note_options) /\ length tok0 = 8%nat) ->
      exists out mid_ ws' snt,
        (let '(out, mid_, ws') := notify_all now r (nextMID c) ws2 in (out, mid_, w :: ws')) = (out, mid_, ws') /\
        addressed c out snt /\ 0 <= mid_ < 65536 /\
        watchers_loop junk lwm2m_buffer_send (length ws2) c i (S j) (o_uri o) (Some (r_data r)) (r_type r) (r_value r) m2
          now timeout = Some (timeout, with_watchers (advance c mid_ snt) l1 o l2 (ws1 ++ ws'))) as Hskip.
    { intros m2 Hm2. destruct (IH c l1 o l2 (ws1 ++ [w]) i (S j) r m2 now timeout) as (out & mid_ & ws' & snt & H1 & H2 & H3 & H4);
        try done. exists out, mid_, (w :: ws'), snt. rewrite H1, H4, <- app_assoc. split_and!; (done || lia). }
    destruct (active w) eqn:Ea; cbn [andb]; [|by apply Hskip].
    rewrite unconditional_decision by done. mstep. destruct (w_update w) eqn:Eu.
    + destruct (Hfmt eq_refl) as [Hwf Hrf].
      assert (exists opts mid0 tl0 tok0 obs0,
        (match message_ with Some m => Some (Some m, c) | None => notify_message junk c (i, j) (o_uri o) (Some (r_data r)) end) =
          Some (Some (note opts mid0 tl0 tok0 obs0 (r_format r) (r_payload r)), c) /\
        (opts = first_options \/ opts = note_options) /\ length tok0 = 8%nat) as (opts & mid0 & tl0 & tok0 & obs0 & Hmsg & Ho & Ht).
      { destruct Hm as [->|(opts & mid0 & tl0 & tok0 & obs0 & -> & Ho & Ht)]; [|by exists opts, mid0, tl0, tok0, obs0].
        exists first_options, 0, 0, (replicate 8 0), 0. split; [|by auto].
        by rewrite (notify_message_ok c l1 o l2 ws1 w ws2 i j r). }
      rewrite Hmsg. mstep.
      destruct (send_notification_ok c l1 o l2 ws1 w ws2 i j opts mid0 tl0 tok0 obs0 r now) as (s & m & Hs & -> & tok & Htok & ->);
        try done. mstep. cbn [payload note].
      set (w' := notified now (nextMID c) r w). set (o' := o <| watcherList := ws1 ++ w' :: ws2 |>).
      match goal with |- context [watcher_at ?x _] => set (c1 := x) end.
      assert (observed c1 = Some (l1 ++ o' :: l2)) as Hl1 by done.
      rewrite (watcher_at_ok c1 l1 o' l2 ws1 w' ws2 i j) by done. mstep.
      rewrite unconditional_timeout by (unfold unconditional, w', notified in *; by destruct (r_value r)).
      assert (0 <= nextMID c1 < 65536) as Hmid1 by (apply (wrap_bound 16); lia).
      destruct (IH c1 l1 o' l2 (ws1 ++ [w']) i (S j) r
        (Some (note note_options (nextMID c) (tokenLen w) tok (Z.land 0x00FFFFFF (counter w)) (r_format r) (r_payload r)))
        now timeout) as (out & mid_ & ws' & snt & H1 & H2 & H3 & H4); try done.
      { by rewrite <- app_assoc. }
      { rewrite length_app. cbn. lia. }
      { right. eexists _, _, _, _, _. split; [done|]. by auto. }
      change (nextMID c1) with (u16 (nextMID c + 1)) in H1. rewrite H1.
      exists ((w_server w, message_bytes (notification (nextMID c) w r)) :: out), mid_, (w' :: ws'),
        ((s, message_bytes (notification (nextMID c) w r)) :: snt).
      split; [done|]. split; [by apply list.Forall2_cons_2|]. split; [done|]. change (o_uri o') with (o_uri o) in H4.
      rewrite H4. f_equal. f_equal.
      rewrite <- app_assoc. unfold c1, with_watchers, advance, send. cbn. rewrite <- app_assoc. reflexivity.
    + mstep. rewrite (watcher_at_ok c l1 o l2 ws1 w ws2 i j) by done. mstep. rewrite unconditional_timeout by done.
      by apply Hskip.
Qed.

(** The part of the context that the application can see is the same. *)
Definition same_app c c' : Prop :=
  objects c' = objects c /\ servers c' = servers c /\ user (app (rest c')) = user (app (rest c)).

(** Every observed resource can be read, whatever has been sent before. *)
Definition stable c (value_at : lwm2m_uri_t -> reading) (u : lwm2m_uri_t) : Prop :=
  readable u (value_at u) /\
  forall c', same_app c c' ->
    read_observed c' u = Some (Some (Some (r_data (value_at u)), r_type (value_at u), r_value (value_at u)), c').

Lemma observed_loop_ok value_at now timeout l2 : forall c l1 i,
  observed c = Some (l1 ++ l2) -> i = length l1 -> 0 <= nextMID c < 65536 ->
  Forall (node_ok (map secObjInstID (servers c))) l2 ->
  Forall (fun o => stable c value_at (o_uri o) /\ Forall (fun w => numbers_ok w (value_at (o_uri o))) (watcherList o)) l2 ->
  exists out mid_ l' snt, notify_nodes now value_at (nextMID c) l2 = (out, mid_, l') /\ addressed c out snt /\
    observed_loop junk lwm2m_buffer_send (length l2) c i now timeout =
      Some (timeout, set_observed (advance c mid_ snt) (Some (l1 ++ l'))).
Proof.
  induction l2 as [|o l2 IH]; intros c l1 i Hl Hi Hmid Hok Hst; cbn [notify_nodes observed_loop length].
  - eexists [], (nextMID c), [], []. split; [done|]. split; [apply list.Forall2_nil_2|].
    by rewrite advance_same, set_observed_same.
  - apply Forall_cons in Hok as [[_ _ _ Hw] Hok]. apply Forall_cons in Hst as [[[Hr Hread] Hn] Hst].
    rewrite Hl. mstep. rewrite list_lookup_middle by done. mstep. rewrite (Hread c) by done. mstep.
    destruct (watchers_loop_ok (watcherList o) c l1 o l2 [] i 0 (value_at (o_uri o)) None now timeout)
      as (out1 & mid1 & ws & snt1 & H1 & H2 & H3 & ->); try done; [by left|]. mstep. rewrite H1.
    set (c1 := with_watchers (advance c mid1 snt1) l1 o l2 ([] ++ ws)).
    destruct (IH c1 (l1 ++ [o <| watcherList := ws |>]) (S i)) as (out2 & mid2 & l' & snt2 & H4 & H5 & H6).
    + unfold c1, with_watchers. rewrite <- app_assoc. reflexivity.
    + rewrite length_app. cbn. lia.
    + exact H3.
    + exact Hok.
    + eapply list.Forall_impl; [exact Hst|]. intros x [[Hrx Hreadx] Hnx]. split; [|done]. split; [done|].
      intros c' Hc'. by apply Hreadx.
    + change (nextMID c1) with mid1 in H4. rewrite H4.
      exists (out1 ++ out2), mid2, (o <| watcherList := ws |> :: l'), (snt1 ++ snt2). split; [done|].
      split; [by apply Forall2_app|]. rewrite H6. f_equal. f_equal. rewrite <- app_assoc.
      unfold c1, with_watchers, advance. cbn. rewrite <- app_assoc. reflexivity.
Qed.

End refinement.

(** ** Examples *)

Import Sample.
Definition no_junk (n : Z) : list Z := replicate (Z.to_nat n) 0.
Definition sent_ok (_ : Z) (_ : list Z) : Z := 0.
(** The server with the identifier 1 observes /3/0/9 with the token 1, 2. *)
Definition watcher1 (last : Z) (params : option lwm2m_attributes_t) : lwm2m_watcher_t :=
  mk_watcher true true 1 params LWM2M_CONTENT_TEXT [1; 2; 0; 0; 0; 0; 0; 0] 2 1000 5 77 last.
Definition uri_3_0_9 : lwm2m_uri_t := mk_uri 3 0 9 LWM2M_MAX_ID.
Definition observing (l : list lwm2m_watcher_t) : context :=
  context_of [object 3 [0]] [mk_observed uri_3_0_9 l].
Definition request1 : coap_packet_t :=
  note note_options 200 2 [1; 2; 0; 0; 0; 0; 0; 0] 0 0 [].

#[local] Instance allocator : Malloc := malloc_always.

Lemma observing_inv last params : observed_inv (observing [watcher1 last params]).
Proof.
  eexists. split; [done|]. split; [by apply NoDup_singleton|]. apply list.Forall_singleton. split; try done.
  - by apply NoDup_singleton.
  - apply list.Forall_singleton. split; [by constructor|done|by cbn].
Qed.


Definition value_42 (u : lwm2m_uri_t) : reading :=
  mk_reading [mk_data LWM2M_TYPE_INTEGER 9 (VInteger 42)] LWM2M_TYPE_INTEGER (Some 42) LWM2M_CONTENT_TEXT (str "42").


(** The difference to the last value overflows when they are far apart. *)
Example step_difference_overflows :
  let step1 := mk_attributes LWM2M_ATTR_FLAG_STEP 0 0 0 0 0 0x3ff0000000000000 in
  observe_step no_junk sent_ok (observing [watcher1 (u64 INT64_MIN) (Some step1)]) 2000 60 = None.
Proof. by vm_compute. Qed.

(** A value that does not cross the threshold 100 is not notified, but once a
    minimum period is set as well it is. *)
Example period_overrides_threshold :
  let params flags := mk_attributes flags 0 10 0 0x4059000000000000 0 0 in
  let notify flags := notify_watcher (watcher1 41 (Some (params flags))) LWM2M_TYPE_INTEGER 42 2000 60 in
  notify LWM2M_ATTR_FLAG_GREATER_THAN = Some (false, 60) /\
  notify (Z.lor LWM2M_ATTR_FLAG_GREATER_THAN LWM2M_ATTR_FLAG_MIN_PERIOD) = Some (true, 60).
Proof. by vm_compute. Qed.

(** A parameter added to others is stored but its flag is not set. *)
Example added_parameter_ignored :
  let old := mk_attributes LWM2M_ATTR_FLAG_MIN_PERIOD 0 10 0 0 0 0 in
  let new := mk_attributes LWM2M_ATTR_FLAG_MAX_PERIOD 0 0 60 0 0 0 in
  toSet (merge_parameters new old) = LWM2M_ATTR_FLAG_MIN_PERIOD /\ maxPeriod (merge_parameters new old) = 60.
Proof. by vm_compute. Qed.

(** The second watcher asked for TLV and is sent the text made for the first. *)
Example format_of_the_first_watcher :
  let second := (watcher1 0 None) <| w_server := 1 |> <| w_format := LWM2M_CONTENT_TLV |> in
  match observe_step no_junk sent_ok (observing [watcher1 0 None; second]) 2000 60 with
  | Some (_, c) => map (fun x => List.skipn 6 (snd x)) (sent c)
  | None => []
  end = [[0x61; 5; 0x60; 0xFF] ++ str "42"; [0x61; 5; 0x60; 0xFF] ++ str "42"].
Proof. by vm_compute. Qed.

End Observe.
