(* ===== verification/Send.v ===== *)
(** * The Send operation of a client (core/observe.c, [lwm2m_send])

    The client reads the given URIs and posts the data to one server, or to all
    the servers it is registered with.  A server is designated by its position in
    the list. *)
From S2P Require Import Prelude.
From S2P Require Import Types.
From S2P Require Import SortedList.
From S2P Require Import Data.
From S2P Require Import FloatText.
From S2P Require Import CoapPacket.
From S2P Require Import Transaction.
From S2P Require Import Packet.
From S2P Require Import Client.
From S2P Require Import Formats.
From S2P Require Import Objects.
Import SortedList Data FloatText CoapPacket Transaction Packet Client Formats Objects.

Module Send.

Definition LWM2M_SERVER_MUTE_SEND_ID : Z := 23.
Definition URI_SEND_PATH : list Z := str "/dp" ++ [0].

(** The states in which a server takes part in a Send. *)
Definition is_registered (s : lwm2m_status_t) : bool :=
  match s with
  | STATE_REGISTERED | STATE_REG_UPDATE_PENDING | STATE_REG_UPDATE_NEEDED | STATE_REG_FULL_UPDATE_NEEDED => true
  | _ => false
  end.

(** The test on the URIs at the start. *)
Definition bad_uri (u : lwm2m_uri_t) : bool :=
  negb (LWM2M_URI_IS_SET_OBJECT u) || (negb (LWM2M_URI_IS_SET_INSTANCE u) && LWM2M_URI_IS_SET_RESOURCE u).

(** The URI the data is relative to. *)
Definition base_uri (dataP : list lwm2m_data_t) : C lwm2m_uri_t :=
  match dataP with
  | [d] =>
      children ← asChildren (d_value d);
      ret (match children with
           | [i] => mk_uri (d_id d) (d_id i) LWM2M_MAX_ID LWM2M_MAX_ID
           | _ => mk_uri (d_id d) LWM2M_MAX_ID LWM2M_MAX_ID LWM2M_MAX_ID
           end)
  | _ => ret LWM2M_URI_RESET
  end.

Section send.
Context {Session CB U F B : Type}.
Context `{HM : Malloc, HS : Sessions Session, HL : LibC, HF : Codecs, HO : ObjectCallbacks Session CB U F B}.
Context `{HN : Connections Session}.
Context `{HC : Callbacks Session CB U (world_t Session server_info (client_t F B))}.
Context (junk : Z -> list Z).
Abbreviation context := (lwm2m_context_t Session CB U (world_t Session server_info (client_t F B))).
Abbreviation server := (lwm2m_server_t Session server_info).

(** The resource by which a server refuses to receive. *)
Definition is_muted (contextP : context) (targetP : server) : C (bool * context) :=
  '(result, dataP, contextP) ←
    object_readData contextP
      (mk_uri LWM2M_SERVER_OBJECT_ID (servObjInstID (server_rest targetP)) LWM2M_SERVER_MUTE_SEND_ID LWM2M_MAX_ID);
  if result =? COAP_205_CONTENT then
    d ← rd dataP 0; v ← lwm2m_data_decode_bool d; ret (default true v, contextP)
  else ret (true, contextP).

(** The request to one server: the status ([None] when the transaction cannot be
    created) and the context.  The transaction is written to after
    [transaction_send], which may have freed it. *)
Definition send_to (tv_sec : Z) (contextP : context) (targetP : server) (format : Z) (buffer : option (list Z))
    (length : Z) (callback_ : option CB) (userData_ : option U) : C (option Z * context) :=
  t ← transaction_new junk tv_sec [] (Some (sessionH targetP)) COAP_POST None (Some LWM2M_URI_RESET)
        (nextMID contextP) 0 None;
  let contextP := contextP <| nextMID := u16 (nextMID contextP + 1) |> in
  match t with
  | None => ret (None, contextP)
  | Some t =>
      '(_, m) ← coap_set_header_uri_path (message t) URI_SEND_PATH;
      '(_, m) ← coap_set_header_content_type m format;
      let '(_, m) := coap_set_payload m buffer length in
      let t := t <| message := m |> <| callback := callback_ |> <| userData := userData_ |> in
      let contextP := contextP <| transactionList := lwm2m_list_add (transactionList contextP) t [] |> in
      '(result, contextP) ← transaction_send junk tv_sec contextP (mID t);
      t ← lwm2m_list_find (transactionList contextP) (mID t);
      let '(_, m) := coap_set_payload (message t) None 0 in
      ret (Some result, store contextP (t <| message := m |>))
  end.

(** The loop over the servers, from position [i] on: the status, whether one
    request was sent, and the context. *)
Fixpoint send_loop (n : nat) (tv_sec : Z) (contextP : context) (i : nat) (shortServerID format : Z)
    (buffer : option (list Z)) (length : Z) (callback_ : option CB) (userData_ : option U) (result : Z)
    (oneGood : bool) : C (Z * bool * context) :=
  match n with
  | O => ret (result, oneGood, contextP)
  | S n =>
      targetP ← servers contextP !! i;
      let next contextP result oneGood :=
        send_loop n tv_sec contextP (S i) shortServerID format buffer length callback_ userData_ result oneGood in
      let refused contextP :=
        let result := if result =? COAP_404_NOT_FOUND then COAP_405_METHOD_NOT_ALLOWED else result in
        if shortServerID =? 0 then next contextP result oneGood else ret (result, oneGood, contextP) in
      if negb (shortServerID =? 0) && negb (shortServerID =? shortID (server_rest targetP)) then
        next contextP result oneGood
      else if session_is_null (sessionH targetP) || negb (is_registered (srv_status (server_rest targetP))) then
        refused contextP
      else
        '(mute, contextP) ← is_muted contextP targetP;
        if (mute : bool) then refused contextP
        else
          '(r, contextP) ← send_to tv_sec contextP targetP format buffer length callback_ userData_;
          match r with
          | None => ret (COAP_500_INTERNAL_SERVER_ERROR, oneGood, contextP)
          | Some result =>
              let oneGood := oneGood || (result =? COAP_NO_ERROR) in
              if negb (shortServerID =? 0) then ret (result, oneGood, contextP) else next contextP result oneGood
          end
  end.

Definition lwm2m_send (tv_sec : Z) (contextP : context) (shortServerID : Z) (urisP : list lwm2m_uri_t)
    (callback_ : option CB) (userData_ : option U) : C (Z * context) :=
  if existsb bad_uri urisP then ret (COAP_400_BAD_REQUEST, contextP)
  else
    '(result, dataP, contextP) ← object_readCompositeData contextP urisP;
    if negb (result =? COAP_205_CONTENT) then ret (result, contextP)
    else
      uri ← base_uri dataP;
      '(length, format, buffer) ← lwm2m_data_serialize junk (Some uri) dataP LWM2M_CONTENT_SENML_CBOR;
      if length <? 0 then ret (COAP_500_INTERNAL_SERVER_ERROR, contextP)
      else
        let shortServerID :=
          match servers contextP with
          | [s] => if shortServerID =? 0 then shortID (server_rest s) else shortServerID
          | _ => shortServerID
          end in
        '(result, oneGood, contextP) ←
          send_loop (List.length (servers contextP)) tv_sec contextP 0 shortServerID format buffer length callback_
            userData_ COAP_404_NOT_FOUND false;
        ret (if (oneGood : bool) then COAP_NO_ERROR else result, contextP).
End send.
End Send.
