(* ===== verification/RegisterPayload.v ===== *)
(** * The payload of a registration (core/objects.c)

    The list of links to the objects and instances of the client that a
    registration carries, and the length of the buffer it is written to.
    [altPath] and [objectList] are those of the context. *)
From S2P Require Import Prelude.
From S2P Require Import Types.
From S2P Require Import SortedList.
From S2P Require Import Numeric.
From S2P Require Import Utils.
From S2P Require Import Client.
Import SortedList Numeric Utils Client.

Module RegisterPayload.

Definition REG_START : list Z := str "<".
Definition REG_DEFAULT_PATH : list Z := str "/".
Definition REG_LWM2M_RESOURCE_TYPE : list Z := str ">;rt=" ++ [34] ++ str "oma.lwm2m" ++ [34] ++ str ";ct=112,".
Definition REG_OBJECT_MIN_LEN : Z := 5.
Definition REG_PATH_END : list Z := str ">,".
Definition REG_VERSION_START : list Z := str ">;ver=".
Definition REG_DELIMITER : Z := chr ",".

(** Lengths of literals. *)
Ltac lstr := cbn [length str map String.list_ascii_of_string] in *.

Section payload.
Context {F : Type} (junk : Z -> list Z).
Abbreviation object := (lwm2m_object_t F).

(** The result and the buffer. *)
Definition prv_getObjectTemplate (buffer : list Z) (length id : Z) : C (Z * list Z) :=
  if length <? REG_OBJECT_MIN_LEN then ret (-1, buffer)
  else
    buffer ← wr buffer 0 (chr "<");
    buffer ← wr buffer 1 (chr "/");
    '(result, buffer) ← at_off buffer 2 (fun b => utils_intToText id b (length - 2));
    if result =? 0 then ret (-1, buffer)
    else
      let index := 2 + result in
      if length - index <? REG_OBJECT_MIN_LEN - 3 then ret (-1, buffer)
      else buffer ← wr buffer index (chr "/"); ret (index + 1, buffer).

Definition is_versioned (o : object) : bool := negb (versionMajor o =? 0) || negb (versionMinor o =? 0).

(** The alternative path, or the default one. *)
Definition root_path (altPath : option (list Z)) : C (list Z) :=
  match altPath with
  | None => ret (REG_DEFAULT_PATH ++ [0])
  | Some p => c ← rd p 0; ret (if c =? 0 then REG_DEFAULT_PATH ++ [0] else p)
  end.

(** ** The length *)

(** [sizeof(buffer)] *)
Definition LENGTH_BUFFER : Z := REG_OBJECT_MIN_LEN + 5.

(** The loop over the instances; [None] is [return 0]. *)
Fixpoint instances_length (instances : list Z) (index start length : Z) : C (option Z) :=
  match instances with
  | [] => ret (Some index)
  | id :: instances =>
      let index := if negb (index =? start + length) then index + length else index in
      '(result, _) ← utils_intToText id (junk LENGTH_BUFFER) LENGTH_BUFFER;
      if result =? 0 then ret None
      else instances_length instances (index + result + len REG_PATH_END) start length
  end.

Definition object_length (index : Z) (o : object) : C (option Z) :=
  if (objID o =? LWM2M_SECURITY_OBJECT_ID) || (objID o =? LWM2M_OSCORE_OBJECT_ID) then ret (Some index)
  else
    '(result, _) ← prv_getObjectTemplate (junk LENGTH_BUFFER) LENGTH_BUFFER (objID o);
    if result <? 0 then ret None
    else
      let start := index in
      let length := result in
      let index := index + length in
      '(start, index) ←
        (if is_versioned o then
           let index := index - 1 + len REG_VERSION_START in
           '(result, _) ← utils_uintToText (versionMajor o) (junk LENGTH_BUFFER) LENGTH_BUFFER;
           let index := index + result + 1 in
           '(result, _) ← utils_uintToText (versionMinor o) (junk LENGTH_BUFFER) LENGTH_BUFFER;
           let index := index + result + 1 in
           ret (match instanceList o with [] => (start, index) | _ => (index, index + length) end)
         else
           ret (start, match instanceList o with [] => index - 1 + len REG_PATH_END | _ => index end));
      instances_length (instanceList o) index start length.

Fixpoint objects_length (objectList : list object) (index : Z) : C (option Z) :=
  match objectList with
  | [] => ret (Some index)
  | o :: objectList => index ←? object_length index o; objects_length objectList index
  end.

Definition object_getRegisterPayloadBufferLength (altPath : option (list Z)) (objectList : list object) : C Z :=
  path ← root_path altPath;
  n ← strlen path;
  r ← objects_length objectList (len REG_START + n + len REG_LWM2M_RESOURCE_TYPE);
  ret (match r with Some index => index + 1 | None => 0 end).

(** ** The payload *)

(** A buffer and [index]. *)
Definition out := (list Z * Z)%type.

(** [utils_stringCopy] at [index]; [text] is a terminated string. *)
Definition put_string (o : out) (bufferLen : Z) (text : list Z) : C (option out) :=
  let '(buffer, index) := o in
  '(result, buffer) ← at_off buffer index (fun b => utils_stringCopy b (bufferLen - index) text);
  ret (if result <? 0 then None else Some (buffer, index + result)).

Definition put_template (o : out) (bufferLen id : Z) : C (option out) :=
  let '(buffer, index) := o in
  '(result, buffer) ← at_off buffer index (fun b => prv_getObjectTemplate b (bufferLen - index) id);
  ret (if result <? 0 then None else Some (buffer, index + result)).

(** A version number, whose conversion is not checked. *)
Definition put_uint (o : out) (bufferLen v : Z) : C (option out) :=
  let '(buffer, index) := o in
  '(result, buffer) ← at_off buffer index (fun b => utils_uintToText v b (bufferLen - index));
  ret (Some (buffer, index + result)).

Definition put_char (o : out) (bufferLen c : Z) : C (option out) :=
  let '(buffer, index) := o in
  if bufferLen <=? index then ret None
  else buffer ← wr buffer index c; ret (Some (buffer, index + 1)).

Definition put_id (o : out) (bufferLen id : Z) : C (option out) :=
  let '(buffer, index) := o in
  '(result, buffer) ← at_off buffer index (fun b => utils_intToText id b (bufferLen - index));
  ret (if result =? 0 then None else Some (buffer, index + result)).

(** The copy of the template in front of all instances but the first. *)
Definition put_copy (o : out) (bufferLen start length : Z) : C (option out) :=
  let '(buffer, index) := o in
  if negb (index =? start + length) then
    if bufferLen - index <=? length then ret None
    else
      b ← rd_bytes buffer start length;
      buffer ← wr_bytes buffer index b;
      ret (Some (buffer, index + length))
  else ret (Some o).

Fixpoint put_instances (instances : list Z) (o : out) (bufferLen start length : Z) : C (option out) :=
  match instances with
  | [] => ret (Some o)
  | id :: instances =>
      o ←? put_copy o bufferLen start length;
      o ←? put_id o bufferLen id;
      o ←? put_string o bufferLen (REG_PATH_END ++ [0]);
      put_instances instances o bufferLen start length
  end.

(** [index--] *)
Definition back (o : out) : out := (fst o, snd o - 1).

(** The link of a versioned object: up to the delimiter. *)
Definition put_version (obj : object) (o : out) (bufferLen : Z) : C (option out) :=
  o ←? put_string (back o) bufferLen (REG_VERSION_START ++ [0]);
  o ←? put_uint o bufferLen (versionMajor obj);
  o ←? put_char o bufferLen (chr ".");
  o ←? put_uint o bufferLen (versionMinor obj);
  put_char o bufferLen REG_DELIMITER.

Definition put_object (o : out) (bufferLen : Z) (obj : object) : C (option out) :=
  if objID obj =? LWM2M_SECURITY_OBJECT_ID then ret (Some o)
  else
    let start := snd o in
    o ←? put_template o bufferLen (objID obj);
    if is_versioned obj then
      o ←? put_version obj o bufferLen;
      match instanceList obj with
      | [] => ret (Some o)
      | _ =>
          let start := snd o in
          o ←? put_template o bufferLen (objID obj);
          put_instances (instanceList obj) o bufferLen start (snd o - start)
      end
    else
      match instanceList obj with
      | [] => put_string (back o) bufferLen (REG_PATH_END ++ [0])
      | _ => put_instances (instanceList obj) o bufferLen start (snd o - start)
      end.

Fixpoint put_objects (objectList : list object) (o : out) (bufferLen : Z) : C (option out) :=
  match objectList with
  | [] => ret (Some o)
  | obj :: objectList => o ←? put_object o bufferLen obj; put_objects objectList o bufferLen
  end.

(** The result and the buffer, which is not used after a failure. *)
Definition object_getRegisterPayload (altPath : option (list Z)) (objectList : list object) (buffer : list Z)
    (bufferLen : Z) : C (Z * list Z) :=
  path ← root_path altPath;
  r ←
    (o ←? put_string (buffer, 0) bufferLen (REG_START ++ [0]);
     o ←? put_string o bufferLen path;
     o ←? put_string o bufferLen (REG_LWM2M_RESOURCE_TYPE ++ [0]);
     put_objects objectList o bufferLen);
  match r with
  | None => ret (0, buffer)
  | Some (buffer, index) =>
      let index := if 0 <? index then index - 1 else index in
      buffer ← wr buffer index 0;
      ret (index, buffer)
  end.

(** ** The links *)

Definition object_path (id : Z) : list Z := str "</" ++ dec id.
Definition instance_link (id inst : Z) : list Z := object_path id ++ str "/" ++ dec inst ++ str ">,".
Definition instance_links (o : object) : list Z := concat (map (instance_link (objID o)) (instanceList o)).

(** The links of an object: its own when it has a version or no instance, and
    one for each instance. *)
Definition object_links (o : object) : list Z :=
  if is_versioned o then
    object_path (objID o) ++ str ">;ver=" ++ dec (versionMajor o) ++ str "." ++ dec (versionMinor o) ++ str "," ++
    instance_links o
  else match instanceList o with [] => object_path (objID o) ++ str ">," | _ => instance_links o end.

Definition registered (objectList : list object) : list object :=
  filter (fun o => objID o <> LWM2M_SECURITY_OBJECT_ID) objectList.

Definition root_link (path : list Z) : list Z := str "<" ++ path ++ REG_LWM2M_RESOURCE_TYPE.

Definition register_links (path : list Z) (objectList : list object) : list Z :=
  root_link path ++ concat (map object_links (registered objectList)).

Definition is_id (i : Z) : Prop := 0 <= i < 65536.
Record object_ok (o : object) : Prop := mk_object_ok {
  ok_id : is_id (objID o);
  ok_major : 0 <= versionMajor o < 256;
  ok_minor : 0 <= versionMinor o < 256;
  ok_instances : Forall is_id (instanceList o) }.

(** ** Writing a text *)

(** [f] appends [text] when there is room for it and one more character. *)
Definition writes (f : out -> Z -> C (option out)) (text : list Z) : Prop :=
  forall p q bufferLen, bufferLen = len (p ++ q) -> bufferLen <= INT_MAX -> len text < len q ->
  exists q', length (text ++ q') = length q /\
    f (p ++ q, len p) bufferLen = Some (Some (p ++ text ++ q', len p + len text)).

Lemma writes_seq f g text1 text2 :
  writes f text1 -> writes g text2 -> writes (fun o n => o ←? f o n; g o n) (text1 ++ text2).
Proof.
  intros Hf Hg p q n Hn Hm Hq. destruct (Hf p q n) as (q1 & H1 & E1); [lens..|].
  destruct (Hg (p ++ text1) q1 n) as (q2 & H2 & E2); [lens..|].
  exists q2. split; [lens|]. unfold and_then. rewrite E1. mstep.
  replace (len p + len text1) with (len (p ++ text1)) by lens. rewrite app_assoc, E2.
  f_equal. f_equal. rewrite <- !app_assoc. f_equal. lens.
Qed.

Lemma writes_ext f g text : (forall o n, f o n = g o n) -> writes f text -> writes g text.
Proof. intros H Hf p q n Hn Hm Hq. rewrite <- H. by apply Hf. Qed.

Lemma writes_nothing text : text = [] -> writes (fun o _ => ret (Some o)) text.
Proof. intros -> p q n Hn Hm Hq. exists q. split; [done|]. by rewrite Z.add_0_r. Qed.

(** The string copied is cut only when there is no room for a terminator. *)
Lemma stringCopy_ok text q n :
  Forall (fun c => c <> 0) text -> len text < n -> n = len q -> n <= INT_MAX ->
  exists q', length (text ++ q') = length q /\ utils_stringCopy q n (text ++ [0]) = Some (len text, text ++ q').
Proof.
  intros Ht Hn Hq Hm. unfold INT_MAX in Hm. unfold utils_stringCopy. rewrite strlen_text by done. mstep.
  destruct (strncpy_correct text [0] q []) as (pad & E & Hp & _); [lia|].
  rewrite app_nil_r in E. rewrite <- Hq in E. rewrite E. mstep.
  assert (c_string text = text) as Hc.
  { pose proof (c_string_app text Ht []) as Hc. by rewrite c_string_end in Hc. }
  rewrite Hc, list.take_ge in * by lia. rewrite app_nil_r. exists (0 :: pad). split; [done|].
  rewrite swrap_small by (cbn; lia). done.
Qed.

Lemma put_string_ok text : Forall (fun c => c <> 0) text -> writes (fun o n => put_string o n (text ++ [0])) text.
Proof.
  intros Ht p q n Hn Hm Hq. unfold put_string. rewrite at_off_app by done.
  destruct (stringCopy_ok text q (n - len p)) as (q' & Hl & ->); [done|lens..|]. mstep. guards. by exists q'.
Qed.

(** The digits of a number, in the room there is. *)
Lemma intToText_ok v q n :
  0 <= v -> len (dec v) <= n -> n <= len q -> n <= INT_MAX ->
  exists q', length (dec v ++ q') = length q /\ utils_intToText v q n = Some (len (dec v), dec v ++ q').
Proof.
  intros Hv Hn Hq Hm. unfold utils_intToText. guards.
  destruct (uintToText_fits v q n) as (q' & E & Hl & _); [done|lia..|]. by exists q'.
Qed.

Lemma put_id_ok v : 0 <= v -> writes (fun o n => put_id o n v) (dec v).
Proof.
  intros Hv p q n Hn Hm Hq. unfold put_id. rewrite at_off_app by done.
  destruct (intToText_ok v q (n - len p)) as (q' & Hl & ->); [done|lens..|].
  pose proof (dec_length_pos v Hv). mstep. guards. by exists q'.
Qed.

Lemma put_uint_ok v : 0 <= v -> writes (fun o n => put_uint o n v) (dec v).
Proof.
  intros Hv p q n Hn Hm Hq. unfold put_uint. rewrite at_off_app by done.
  destruct (uintToText_fits v q (n - len p)) as (q' & -> & Hl & _); [done|lens..|]. mstep. by exists q'.
Qed.

Lemma put_char_ok c : writes (fun o n => put_char o n c) [c].
Proof.
  intros p q n Hn Hm Hq. unfold put_char. cbn [length] in Hq. destruct q as [|x q]; [cbn in Hq; lia|].
  replace (n <=? len p) with false by lens. rewrite wr_middle by done. mstep.
  exists q. split; [done|]. cbn [length app]. done.
Qed.

(** The template [</id/] of the links of an object. *)
Definition template (id : Z) : list Z := object_path id ++ str "/".

Lemma template_length id : is_id id -> 4 <= len (template id) <= 8.
Proof.
  intros Hid. unfold template, object_path. pose proof (dec_length_pos id ltac:(unfold is_id in Hid; lia)).
  pose proof (proj2 (dec_length_iff id 5 ltac:(unfold is_id in Hid; lia) ltac:(lia))) as H5.
  rewrite !length_app. unfold is_id in Hid. lstr.
  specialize (H5 ltac:(cbn; lia)). lia.
Qed.

(** A template needs room for an identifier after it, not for a terminator. *)
Lemma getObjectTemplate_ok id q n :
  is_id id -> len (template id) < n -> n <= len q -> n <= INT_MAX ->
  exists q', length (template id ++ q') = length q /\
    prv_getObjectTemplate q n id = Some (len (template id), template id ++ q').
Proof.
  intros Hid Hn Hq Hm. pose proof (template_length id Hid) as Ht.
  unfold prv_getObjectTemplate, REG_OBJECT_MIN_LEN. guards.
  destruct q as [|x0 [|x1 q]]; [cbn in Hq; lia..|]. rewrite wr_cons_0. mstep.
  change (chr "<" :: x1 :: q) with ([chr "<"] ++ x1 :: q). rewrite wr_middle by done. mstep.
  change ([chr "<"] ++ chr "/" :: q) with ([chr "<"; chr "/"] ++ q).
  rewrite (at_off_app [chr "<"; chr "/"] q) by done.
  assert (len (template id) = 3 + len (dec id)) as Hd by (unfold template, object_path; cbn; lens).
  unfold is_id in Hid. destruct (intToText_ok id q (n - 2)) as (q' & Hl & ->); [lia..|cbn [length] in Hq; lia|lia|].
  pose proof (dec_length_pos id ltac:(lia)). mstep. guards.
  destruct q' as [|y q']; [exfalso; cbn [length] in Hq; lens|].
  rewrite (app_assoc [_; _]), wr_middle by (cbn [length app]; lens). mstep.
  exists q'. split; [unfold template, object_path; cbn [length] in *; cbn [str map String.list_ascii_of_string]; lens|].
  rewrite Hd. f_equal. f_equal; [lia|]. unfold template, object_path. by rewrite <- !app_assoc.
Qed.

Lemma put_template_ok id : is_id id -> writes (fun o n => put_template o n id) (template id).
Proof.
  intros Hid p q n Hn Hm Hq. unfold put_template. rewrite at_off_app by done.
  destruct (getObjectTemplate_ok id q (n - len p)) as (q' & Hl & ->); [done|lens..|].
  pose proof (template_length id Hid). mstep. guards. by exists q'.
Qed.
(** A text written over the last character of the template. *)
Lemma put_back_ok id f text :
  is_id id -> 0 < len text -> writes f text ->
  writes (fun o n => o ←? put_template o n id; f (back o) n) (object_path id ++ text).
Proof.
  intros Hid Ht Hf p q n Hn Hm Hq.
  assert (len (template id) = len (object_path id) + 1) as Htl by (unfold template; rewrite length_app; cbn; lia).
  destruct (put_template_ok id Hid p q n) as (q1 & H1 & E1); [lens..|].
  assert (p ++ template id ++ q1 = (p ++ object_path id) ++ chr "/" :: q1) as Hb
    by (unfold template; rewrite <- !app_assoc; done).
  destruct (Hf (p ++ object_path id) (chr "/" :: q1) n) as (q2 & H2 & E2); [cbn [length] in *; lens..|].
  exists q2. split; [cbn [length] in *; lens|]. unfold and_then. rewrite E1. mstep. unfold back. cbn [fst snd].
  replace (len p + len (template id) - 1) with (len (p ++ object_path id)) by lens.
  rewrite Hb, E2. f_equal. f_equal. rewrite <- !app_assoc. f_equal. lens.
Qed.

Lemma version_link_ok obj : object_ok obj ->
  writes (fun o n => o ←? put_template o n (objID obj); put_version obj o n)
    (object_path (objID obj) ++ str ">;ver=" ++ dec (versionMajor obj) ++ str "." ++ dec (versionMinor obj) ++ str ",").
Proof.
  intros [Hid Hma Hmi _].
  apply (put_back_ok _ (fun o n => o ←? put_string o n (REG_VERSION_START ++ [0]); o ←? put_uint o n (versionMajor obj);
    o ←? put_char o n (chr "."); o ←? put_uint o n (versionMinor obj); put_char o n REG_DELIMITER)); [done|cbn; lens|].
  apply (writes_seq (fun o n => put_string o n (REG_VERSION_START ++ [0]))).
  { apply put_string_ok. by repeat constructor. }
  apply writes_seq; [apply put_uint_ok; lia|]. apply writes_seq; [apply put_char_ok|].
  apply writes_seq; [apply put_uint_ok; lia|]. apply put_char_ok.
Qed.

Lemma path_end_ok : writes (fun o n => put_string o n (REG_PATH_END ++ [0])) (str ">,").
Proof. apply put_string_ok. by repeat constructor. Qed.

(** The copy of the template for an instance that is not the first. *)
Definition copied (id : Z) (before : list Z) : list Z := match before with [] => [] | _ => template id end.

Lemma put_copy_ok id p before q n :
  n = len ((p ++ template id ++ before) ++ q) -> len (copied id before) < len q ->
  exists q', length (copied id before ++ q') = length q /\
    put_copy ((p ++ template id ++ before) ++ q, len (p ++ template id ++ before)) n (len p) (len (template id)) =
      Some (Some ((p ++ template id ++ before) ++ copied id before ++ q',
                  len (p ++ template id ++ before) + len (copied id before))).
Proof.
  intros Hn Hq. unfold put_copy. destruct before as [|b before].
  - exists q. split; [done|]. cbn [copied app]. rewrite app_nil_r, length_app.
    replace (negb _) with false by lia. do 3 f_equal. cbn. lia.
  - cbn [copied] in *. replace (negb _) with true by (rewrite !length_app; cbn [length]; lia).
    replace (n - _ <=? _) with false by lens.
    replace (rd_bytes _ _ _) with (Some (template id)).
    2: { rewrite <- !app_assoc. symmetry. by apply rd_bytes_app. }
    mstep. rewrite wr_bytes_app by lens. mstep. exists (drop (length (template id)) q). split; [lens|].
    by rewrite <- app_assoc.
Qed.

(** The links of the instances, the template of the first being in place when
    nothing is [before] it. *)
Definition instances_text (id : Z) (before : list Z) (instances : list Z) : list Z :=
  match instances with
  | [] => []
  | i :: js => copied id before ++ dec i ++ str ">," ++ concat (map (instance_link id) js)
  end.

Lemma instances_text_cons id before i js :
  before <> [] -> instances_text id before (i :: js) = concat (map (instance_link id) (i :: js)).
Proof.
  intros Hb. destruct before; [done|]. cbn [instances_text copied map concat]. unfold instance_link, template.
  by rewrite <- !app_assoc.
Qed.

Lemma put_instances_ok id instances : Forall is_id instances -> forall p before q n,
  n = len ((p ++ template id ++ before) ++ q) -> n <= INT_MAX -> len (instances_text id before instances) < len q ->
  exists q', length (instances_text id before instances ++ q') = length q /\
    put_instances instances ((p ++ template id ++ before) ++ q, len (p ++ template id ++ before)) n (len p)
        (len (template id)) =
      Some (Some ((p ++ template id ++ before) ++ instances_text id before instances ++ q',
                  len (p ++ template id ++ before) + len (instances_text id before instances))).
Proof.
  induction 1 as [|i js Hi His IH]; intros p before q n Hn Hm Hq.
  { exists q. split; [done|]. cbn. by rewrite Z.add_0_r. }
  cbn [put_instances instances_text] in *. unfold is_id in Hi.
  set (links := concat (map (instance_link id) js)) in *.
  destruct (put_copy_ok id p before q n) as (q1 & H1 & E1); [lens..|]. unfold and_then. rewrite E1. mstep.
  set (a := p ++ template id ++ before) in *.
  destruct (put_id_ok i ltac:(lia) (a ++ copied id before) q1 n) as (q2 & H2 & E2); [lens..|].
  replace (len a + len (copied id before)) with (len (a ++ copied id before)) by lens.
  rewrite (app_assoc a), E2. mstep.
  destruct (path_end_ok ((a ++ copied id before) ++ dec i) q2 n) as (q3 & H3 & E3); [lens..|].
  replace (len (a ++ copied id before) + len (dec i)) with (len ((a ++ copied id before) ++ dec i)) by lens.
  rewrite (app_assoc (a ++ _)), E3. mstep.
  set (before' := before ++ copied id before ++ dec i ++ str ">,").
  assert (instances_text id before' js = links) as Hl.
  { destruct js as [|i' js]; [done|]. apply instances_text_cons. unfold before'. intros Hz.
    apply (f_equal length) in Hz. rewrite !length_app in Hz. cbn in Hz. lia. }
  assert (p ++ template id ++ before' = (a ++ copied id before) ++ dec i ++ str ">,") as Hp
    by (unfold before', a; by rewrite <- !app_assoc).
  destruct (IH p before' q3 n) as (q4 & H4 & E4); [rewrite Hp; lens|done|rewrite Hl; lens|].
  rewrite Hl in H4, E4. rewrite Hp in E4. exists q4. split; [lens|].
  replace (len ((a ++ copied id before) ++ dec i) + len (str ">,"))
    with (len ((a ++ copied id before) ++ dec i ++ str ">,")) by lens.
  replace (((a ++ copied id before) ++ dec i) ++ str ">," ++ q3)
    with (((a ++ copied id before) ++ dec i ++ str ">,") ++ q3) by (by rewrite <- !app_assoc).
  rewrite E4. f_equal. f_equal. rewrite <- !app_assoc. f_equal. lens.
Qed.

(** The template and the instances after it. *)
Lemma instance_links_ok id instances : is_id id -> Forall is_id instances -> instances <> [] ->
  writes (fun o n => let start := snd o in
      o ←? put_template o n id; put_instances instances o n start (snd o - start))
    (concat (map (instance_link id) instances)).
Proof.
  intros Hid His Hne p q n Hn Hm Hq.
  assert (concat (map (instance_link id) instances) = template id ++ instances_text id [] instances) as Ht.
  { destruct instances as [|i js]; [done|]. cbn [map concat instances_text copied app]. unfold instance_link, template.
    by rewrite <- !app_assoc. }
  rewrite Ht in *. destruct (put_template_ok id Hid p q n) as (q1 & H1 & E1); [lens..|].
  unfold and_then. rewrite E1. mstep. replace (len p + len (template id) - len p) with (len (template id)) by lia.
  destruct (put_instances_ok id instances His p [] q1 n) as (q2 & H2 & E2); [rewrite app_nil_r; lens|done|lens|].
  rewrite app_nil_r in E2. exists q2. split; [lens|].
  replace (len p + len (template id)) with (len (p ++ template id)) by lens. rewrite app_assoc, E2.
  f_equal. f_equal. rewrite <- !app_assoc. f_equal. lens.
Qed.

Lemma put_object_ok obj : object_ok obj -> objID obj <> LWM2M_SECURITY_OBJECT_ID ->
  writes (fun o n => put_object o n obj) (object_links obj).
Proof.
  intros Hok Hs. pose proof Hok as [Hid Hma Hmi His]. unfold put_object, object_links, instance_links.
  replace (objID obj =? _) with false by lia. destruct (is_versioned obj).
  - set (rest := match instanceList obj with [] => fun o _ => ret (Some o) | _ => fun o n =>
      let start := snd o in
      o ←? put_template o n (objID obj); put_instances (instanceList obj) o n start (snd o - start) end).
    apply (writes_ext (fun o n => o ←? (o ←? put_template o n (objID obj); put_version obj o n); rest o n)).
    { intros o n. unfold and_then, rest. destruct (put_template o n (objID obj)) as [[o1|]|]; [|done..]. mstep.
      destruct (put_version obj o1 n) as [[o2|]|]; [|done..]. mstep. by destruct (instanceList obj). }
    replace (_ ++ _) with ((object_path (objID obj) ++ str ">;ver=" ++ dec (versionMajor obj) ++ str "." ++
      dec (versionMinor obj) ++ str ",") ++ concat (map (instance_link (objID obj)) (instanceList obj)))
      by (by rewrite <- !app_assoc).
    apply writes_seq; [by apply version_link_ok|]. unfold rest. destruct (instanceList obj) as [|i js] eqn:Ei.
    + by apply writes_nothing.
    + by apply instance_links_ok.
  - destruct (instanceList obj) as [|i js] eqn:Ei.
    + apply (put_back_ok _ (fun o n => put_string o n (REG_PATH_END ++ [0]))); [done|done|apply path_end_ok].
    + rewrite <- Ei in *. apply instance_links_ok; [done|done|congruence].
Qed.

Lemma put_objects_ok objs : Forall object_ok objs ->
  writes (fun o n => put_objects objs o n) (concat (map object_links (registered objs))).
Proof.
  unfold registered. induction 1 as [|obj objs Hok Hall IH]; [by apply writes_nothing|].
  cbn [put_objects filter list_filter]. destruct (decide (objID obj <> LWM2M_SECURITY_OBJECT_ID)) as [Hs|Hs].
  - cbn [map concat]. apply writes_seq; [by apply put_object_ok|done].
  - eapply writes_ext; [|exact IH]. intros o n. unfold and_then, put_object.
    replace (objID obj =? _) with true by lia. by mstep.
Qed.
(** ** The length *)

Hypothesis junk_length : forall n, 0 <= n -> len (junk n) = n.

Lemma length_digits v : 0 <= v < 65536 ->
  0 < len (dec v) /\
  (exists q, utils_uintToText v (junk LENGTH_BUFFER) LENGTH_BUFFER = Some (len (dec v), dec v ++ q)) /\
  exists q, utils_intToText v (junk LENGTH_BUFFER) LENGTH_BUFFER = Some (len (dec v), dec v ++ q).
Proof.
  intros Hv. pose proof (junk_length LENGTH_BUFFER ltac:(done)) as Hj. pose proof (dec_length_pos v ltac:(lia)).
  pose proof (proj2 (dec_length_iff v 5 ltac:(lia) ltac:(lia)) ltac:(cbn; lia)).
  change LENGTH_BUFFER with 10 in *. split; [done|]. split.
  - destruct (uintToText_fits v (junk 10) 10) as (q & E & _); [lia|unfold INT_MAX; lia|lia|by exists q].
  - destruct (intToText_ok v (junk 10) 10) as (q & _ & E); [lia..|unfold INT_MAX; lia|by exists q].
Qed.

Lemma instances_length_ok id instances : is_id id -> Forall is_id instances -> forall before index start,
  index = start + len (template id) + len before ->
  instances_length instances index start (len (template id)) =
    Some (Some (index + len (instances_text id before instances))).
Proof.
  intros Hid. induction 1 as [|i js Hi Hjs IH]; intros before index start Hx.
  { cbn. do 2 f_equal. lia. }
  cbn [instances_length]. destruct (length_digits i Hi) as (Hp & _ & q & ->). mstep. guards.
  assert ((if negb (index =? start + len (template id)) then index + len (template id) else index) =
    index + len (copied id before)) as ->.
  { destruct before as [|b before]; cbn [copied length] in *; [guards; lia|].
    replace (negb _) with true by lia. done. }
  set (before' := before ++ copied id before ++ dec i ++ str ">,").
  rewrite (IH before') by (unfold before'; change (len REG_PATH_END) with 2; rewrite !length_app; lstr; lia).
  do 2 f_equal. change (len REG_PATH_END) with 2.
  assert (instances_text id before' js = concat (map (instance_link id) js)) as ->.
  { destruct js as [|i' js]; [done|]. apply instances_text_cons. unfold before'. intros Hz.
    apply (f_equal length) in Hz. rewrite !length_app in Hz. cbn in Hz. lia. }
  cbn [instances_text]. rewrite !length_app. lstr. lia.
Qed.

Lemma first_links id instances : instances <> [] ->
  length (concat (map (instance_link id) instances)) = (length (template id) + length (instances_text id [] instances))%nat.
Proof.
  destruct instances as [|i js]; [done|]. intros _. cbn [map concat instances_text copied app]. unfold instance_link, template.
  rewrite !length_app. lia.
Qed.

Lemma object_length_ok o index : object_ok o -> objID o <> LWM2M_OSCORE_OBJECT_ID ->
  object_length index o =
    Some (Some (index + if objID o =? LWM2M_SECURITY_OBJECT_ID then 0 else len (object_links o))).
Proof.
  intros [Hid Hma Hmi His] Ho. unfold object_length. rewrite (proj2 (Z.eqb_neq _ _) Ho), orb_false_r.
  destruct (objID o =? LWM2M_SECURITY_OBJECT_ID); [do 2 f_equal; lia|].
  pose proof (template_length (objID o) Hid) as Ht.
  destruct (getObjectTemplate_ok (objID o) (junk LENGTH_BUFFER) LENGTH_BUFFER) as (q & _ & ->);
    [done|unfold LENGTH_BUFFER, REG_OBJECT_MIN_LEN; lia|rewrite junk_length by done; lia|done|].
  mstep. guards. unfold object_links, instance_links.
  assert (len (object_path (objID o)) = len (template (objID o)) - 1) as Hp
    by (unfold template; rewrite length_app; cbn; lia).
  destruct (is_versioned o).
  - destruct (length_digits (versionMajor o)) as (_ & (q1 & ->) & _); [lia|].
    destruct (length_digits (versionMinor o)) as (_ & (q2 & ->) & _); [lia|]. mstep.
    change (len REG_VERSION_START) with 6. rewrite !length_app. lstr.
    destruct (instanceList o) as [|i js] eqn:Ei; [cbn [map concat length instances_length]; do 2 f_equal; lia|].
    rewrite (instances_length_ok (objID o) (i :: js) Hid His []) by (cbn [length]; lia).
    rewrite first_links by done. do 2 f_equal. lia.
  - destruct (instanceList o) as [|i js] eqn:Ei.
    + change (len REG_PATH_END) with 2. rewrite length_app. lstr. mstep. cbn [instances_length]. do 2 f_equal. lia.
    + mstep. rewrite (instances_length_ok (objID o) (i :: js) Hid His []) by (cbn [length]; lia). rewrite first_links by done.
      do 2 f_equal. lia.
Qed.

Lemma objects_length_ok objs : Forall object_ok objs -> Forall (fun o => objID o <> LWM2M_OSCORE_OBJECT_ID) objs ->
  forall index, objects_length objs index =
    Some (Some (index + len (concat (map object_links (registered objs))))).
Proof.
  unfold registered. intros Hok. induction Hok as [|o objs Ho Hok IH]; intros Hno index.
  { cbn. do 2 f_equal. lia. }
  apply list.Forall_cons in Hno as [Hn Hno]. cbn [objects_length]. rewrite object_length_ok by done.
  unfold and_then. mstep. rewrite IH by done. do 2 f_equal.
  destruct (decide (objID o <> LWM2M_SECURITY_OBJECT_ID)) as [Hs|Hs];
    [rewrite filter_cons_True by done|rewrite filter_cons_False by done].
  - rewrite (proj2 (Z.eqb_neq _ _) Hs). cbn [map concat]. rewrite length_app. lia.
  - replace (objID o =? _) with true by lia. lia.
Qed.

(** ** The payload fits *)

(** The alternative path of the context as a string, and the path that is sent. *)
Definition path_ok (altPath : option (list Z)) (path : list Z) : Prop :=
  Forall (fun c => c <> 0) path /\ path <> [] /\
  (altPath = Some (path ++ [0]) \/ path = REG_DEFAULT_PATH /\ (altPath = None \/ altPath = Some [0])).

Lemma root_path_ok altPath path : path_ok altPath path -> root_path altPath = Some (path ++ [0]).
Proof.
  intros (Hz & Hne & [->|[-> [->| ->]]]); [|done..]. destruct path as [|c path]; [done|].
  apply list.Forall_cons in Hz as [Hc _]. cbn [app]. unfold root_path. rewrite rd_cons_0. mstep. by guards.
Qed.

Lemma payload_ok altPath path objs :
  path_ok altPath path -> Forall object_ok objs ->
  let text := register_links path objs in
  len text + 1 <= INT_MAX ->
  forall buffer, len buffer = len text + 1 -> exists tail,
    object_getRegisterPayload altPath objs buffer (len text + 1) = Some (len text - 1, removelast text ++ 0 :: tail) /\
    length (removelast text ++ 0 :: tail) = length buffer.
Proof.
  intros Hp Hok text Hm buffer Hb. unfold object_getRegisterPayload. rewrite (root_path_ok _ _ Hp). mstep.
  destruct Hp as (Hz & _).
  assert (writes (fun o n => o ←? put_string o n (REG_START ++ [0]); o ←? put_string o n (path ++ [0]);
    o ←? put_string o n (REG_LWM2M_RESOURCE_TYPE ++ [0]); put_objects objs o n) text) as Hw.
  { unfold text, register_links, root_link. rewrite <- !app_assoc.
    apply (writes_seq (fun o n => put_string o n (REG_START ++ [0]))); [apply put_string_ok; by repeat constructor|].
    apply (writes_seq (fun o n => put_string o n (path ++ [0]))); [by apply put_string_ok|].
    apply (writes_seq (fun o n => put_string o n (REG_LWM2M_RESOURCE_TYPE ++ [0])));
      [apply put_string_ok; by repeat constructor|by apply put_objects_ok]. }
  destruct (Hw [] buffer (len text + 1)) as (q' & Hl & E); [cbn [app]; lia|done|lia|].
  cbn [app] in E. change (len (@nil Z)) with 0 in E. rewrite E. mstep.
  assert (text <> []) as Hne by done. clearbody text. destruct text as [|c t _] using rev_ind; [done|].
  rewrite removelast_last. rewrite !length_app in *. cbn [length] in *. guards.
  rewrite <- app_assoc. cbn [app]. rewrite wr_middle by lia. mstep. exists q'.
  split; [do 2 f_equal; lia|]. rewrite length_app. cbn [length]. lia.
Qed.

(** C38. [object_getRegisterPayloadBufferLength] computes the length of the links
    to the objects and instances of the client, plus one, and a buffer of that
    size is enough: [object_getRegisterPayload] writes all the links, without the
    last comma and with a terminator, and returns their length.  The Security
    object is left out by both; the OSCORE object, which only the first leaves
    out, must be absent. *)
Theorem register_payload_fits altPath path objs :
  path_ok altPath path -> Forall object_ok objs -> Forall (fun o => objID o <> LWM2M_OSCORE_OBJECT_ID) objs ->
  let text := register_links path objs in
  len text + 1 <= INT_MAX ->
  object_getRegisterPayloadBufferLength altPath objs = Some (len text + 1) /\
  forall buffer, len buffer = len text + 1 -> exists tail,
    object_getRegisterPayload altPath objs buffer (len text + 1) = Some (len text - 1, removelast text ++ 0 :: tail) /\
    length (removelast text ++ 0 :: tail) = length buffer.
Proof.
  intros Hp Hok Hno text Hm. split; [|by apply payload_ok].
  unfold object_getRegisterPayloadBufferLength. rewrite (root_path_ok _ _ Hp). mstep.
  rewrite strlen_text by apply Hp. mstep. rewrite objects_length_ok by done. mstep. f_equal.
  unfold text, register_links, root_link. rewrite !length_app. unfold REG_START. lstr. lia.
Qed.
End payload.

(** ** Examples *)

Definition sample_object (id major minor : Z) (instances : list Z) : lwm2m_object_t unit :=
  mk_object id major minor instances None None None None None None.
Definition sample_objects : list (lwm2m_object_t unit) :=
  [sample_object 0 0 0 [0]; sample_object 1 1 1 [0]; sample_object 3 0 0 [0]; sample_object 5 0 0 [];
   sample_object 31024 0 0 [10; 11]].
Definition zero_junk (n : Z) : list Z := replicate (Z.to_nat n) 0.

Lemma register_payload_fits_witness :
  let text := register_links (str "/") sample_objects in
  object_getRegisterPayloadBufferLength zero_junk None sample_objects = Some (len text + 1) /\
  forall buffer, len buffer = len text + 1 -> exists tail,
    object_getRegisterPayload None sample_objects buffer (len text + 1) =
      Some (len text - 1, removelast text ++ 0 :: tail) /\
    length (removelast text ++ 0 :: tail) = length buffer.
Proof.
  apply (register_payload_fits zero_junk).
  - intros n Hn. unfold zero_junk. rewrite length_replicate. lia.
  - split; [by repeat constructor|]. split; [done|]. right. split; [done|by left].
  - repeat constructor; cbn; done.
  - by repeat constructor.
  - by vm_compute.
Defined.

(** The links of the example. *)
Example register_links_sample :
  register_links (str "/") sample_objects =
    root_link (str "/") ++ str "</1>;ver=1.1,</1/0>,</3/0>,</5>,</31024/10>,</31024/11>,".
Proof. by vm_compute. Qed.

(** With an OSCORE object the computed length is too small for the links, and the
    payload is not written. *)
Example oscore_payload_fails :
  let objs := [sample_object 1 0 0 [0]; sample_object 21 0 0 [0]] in
  object_getRegisterPayloadBufferLength zero_junk None objs = Some 34 /\
  len (register_links (str "/") objs) = 41 /\
  exists b, object_getRegisterPayload None objs (zero_junk 34) 34 = Some (0, b).
Proof. split; [by vm_compute|]. split; [by vm_compute|]. eexists. by vm_compute. Qed.

(** With one byte too few the payload is cut: [utils_stringCopy] reports the
    length of what it has copied, which is never negative. *)
Example short_payload_cut :
  let objs := [sample_object 5 0 0 [1]] in
  exists b, object_getRegisterPayload None objs (zero_junk 33) 33 = Some (31, b) /\
    object_getRegisterPayloadBufferLength zero_junk None objs = Some 34.
Proof. eexists. split; by vm_compute. Qed.

End RegisterPayload.
