(* ===== verification/RegQuery.v ===== *)
(** * The query of a registration (core/registration.c)

    The parameters that a client registers with (endpoint name, phone number,
    binding, lifetime) as the query string of the request, and the length of the
    buffer it is written to. *)
From S2P Require Import Prelude.
From S2P Require Import Types.
From S2P Require Import Numeric.
From S2P Require Import Utils.
From S2P Require Import Client.
From S2P Require Import RegisterPayload.
Import Numeric Utils Client RegisterPayload.

Module RegQuery.

Definition QUERY_STARTER : list Z := str "?".
Definition QUERY_DELIMITER : list Z := str "&".
Definition QUERY_VERSION : list Z := str "lwm2m=".
Definition QUERY_VERSION_FULL : list Z := str "lwm2m=1.1".
Definition QUERY_NAME : list Z := str "ep=".
Definition QUERY_SMS : list Z := str "sms=".
Definition QUERY_LIFETIME : list Z := str "lt=".
Definition QUERY_BINDING : list Z := str "b=".
Definition QUERY_QUEUE_MODE : list Z := str "Q".

(** [server->binding & flag] as a condition. *)
Definition binds (binding flag : Z) : bool := negb (Z.land binding flag =? 0).
(** [server->binding & ~(BINDING_UNKNOWN|BINDING_Q)] *)
Definition names_binding (binding : Z) : bool :=
  binds binding (Z.lnot (Z.lor BINDING_UNKNOWN BINDING_Q)).

Definition b2n (b : bool) : Z := if b then 1 else 0.

Section query.
Context (junk : Z -> list Z).

(** ** The length *)

Definition binding_length (binding : Z) : Z :=
  (if names_binding binding then
     len QUERY_DELIMITER + len QUERY_BINDING + b2n (binds binding BINDING_U) + b2n (binds binding BINDING_T) +
     b2n (binds binding BINDING_S) + b2n (binds binding BINDING_N)
   else 0) +
  (if binds binding BINDING_Q then len QUERY_DELIMITER + len QUERY_QUEUE_MODE else 0).

Definition prv_getRegistrationQueryLength (endpointName : list Z) (msisdn : option (list Z)) (server : server_info)
    : C Z :=
  n ← strlen endpointName;
  let index := len (QUERY_STARTER ++ QUERY_VERSION_FULL ++ QUERY_DELIMITER ++ QUERY_NAME) + n in
  index ← (match msisdn with
           | Some s => n ← strlen s; ret (index + len (QUERY_DELIMITER ++ QUERY_SMS) + n)
           | None => ret index
           end);
  let index := index + binding_length (binding server) in
  if negb (lifetime server =? 0) then
    '(res, _) ← utils_intToText (lifetime server) (junk 21) 21;
    ret (if res =? 0 then 0 else index + len (QUERY_DELIMITER ++ QUERY_LIFETIME) + res + 1)
  else ret (index + 1).

(** ** The query *)

(** A letter when the flag is set. *)
Definition put_flag (o : out) (length binding flag c : Z) : C (option out) :=
  if binds binding flag then put_char o length c else ret (Some o).

Definition put_binding (o : out) (length binding : Z) : C (option out) :=
  o ←? (if names_binding binding then
          o ←? put_string o length (QUERY_DELIMITER ++ QUERY_BINDING ++ [0]);
          o ←? put_flag o length binding BINDING_U (chr "U");
          o ←? put_flag o length binding BINDING_T (chr "T");
          o ←? put_flag o length binding BINDING_S (chr "S");
          put_flag o length binding BINDING_N (chr "N")
        else ret (Some o));
  if binds binding BINDING_Q then put_string o length (QUERY_DELIMITER ++ QUERY_QUEUE_MODE ++ [0]) else ret (Some o).

(** The result and the buffer. *)
Definition prv_getRegistrationQuery (endpointName : list Z) (msisdn : option (list Z)) (server : server_info)
    (buffer : list Z) (length : Z) : C (Z * list Z) :=
  r ←
    (o ←? put_string (buffer, 0) length (QUERY_STARTER ++ QUERY_VERSION_FULL ++ QUERY_DELIMITER ++ QUERY_NAME ++ [0]);
     o ←? put_string o length endpointName;
     o ←? (match msisdn with
           | Some s => o ←? put_string o length (QUERY_DELIMITER ++ QUERY_SMS ++ [0]); put_string o length s
           | None => ret (Some o)
           end);
     o ←? put_binding o length (binding server);
     if negb (lifetime server =? 0) then
       o ←? put_string o length (QUERY_DELIMITER ++ QUERY_LIFETIME ++ [0]);
       put_id o length (lifetime server)
     else ret (Some o));
  match r with
  | None => ret (0, buffer)
  | Some (buffer, index) =>
      if index <? length then buffer ← wr buffer index 0; ret (index + 1, buffer) else ret (0, buffer)
  end.

(** ** The text *)

Definition flag_text (binding flag : Z) (c : Z) : list Z := if binds binding flag then [c] else [].

Definition binding_text (binding : Z) : list Z :=
  (if names_binding binding then
     str "&b=" ++ flag_text binding BINDING_U (chr "U") ++ flag_text binding BINDING_T (chr "T") ++
     flag_text binding BINDING_S (chr "S") ++ flag_text binding BINDING_N (chr "N")
   else []) ++
  (if binds binding BINDING_Q then str "&Q" else []).

Definition query_text (ep : list Z) (sms : option (list Z)) (server : server_info) : list Z :=
  str "?lwm2m=1.1&ep=" ++ ep ++ match sms with Some s => str "&sms=" ++ s | None => [] end ++
  binding_text (binding server) ++ (if lifetime server =? 0 then [] else str "&lt=" ++ dec (lifetime server)).

Lemma put_flag_ok binding flag c : writes (fun o n => put_flag o n binding flag c) (flag_text binding flag c).
Proof. unfold put_flag, flag_text. destruct (binds binding flag); [apply put_char_ok|by apply writes_nothing]. Qed.

(** Constant strings are terminated by their literal. *)
Lemma put_literal_ok f text :
  (forall o n, f o n = put_string o n (text ++ [0])) -> Forall (fun c => c <> 0) text -> writes f text.
Proof. intros Hf Ht. eapply writes_ext; [intros o n; symmetry; apply Hf|]. by apply put_string_ok. Qed.

Lemma put_binding_ok b : writes (fun o n => put_binding o n b) (binding_text b).
Proof.
  unfold binding_text.
  apply (writes_seq (fun o n => if names_binding b then
          o ←? put_string o n (QUERY_DELIMITER ++ QUERY_BINDING ++ [0]);
          o ←? put_flag o n b BINDING_U (chr "U");
          o ←? put_flag o n b BINDING_T (chr "T");
          o ←? put_flag o n b BINDING_S (chr "S");
          put_flag o n b BINDING_N (chr "N")
        else ret (Some o))
    (fun o n => if binds b BINDING_Q then put_string o n (QUERY_DELIMITER ++ QUERY_QUEUE_MODE ++ [0]) else ret (Some o))).
  - destruct (names_binding b); [|by apply writes_nothing].
    apply (writes_seq (fun o n => put_string o n (QUERY_DELIMITER ++ QUERY_BINDING ++ [0]))).
    { by apply (put_literal_ok _ (str "&b=")); [|repeat constructor]. }
    repeat (apply writes_seq; [apply put_flag_ok|]). apply put_flag_ok.
  - destruct (binds b BINDING_Q); [|by apply writes_nothing]. by apply (put_literal_ok _ (str "&Q")); [|repeat constructor].
Qed.

Definition string_ok (s : list Z) : Prop := Forall (fun c => c <> 0) s.

Lemma query_writes ep sms server :
  string_ok ep -> from_option string_ok True sms -> 0 <= lifetime server ->
  writes (fun o n =>
     o ←? put_string o n (QUERY_STARTER ++ QUERY_VERSION_FULL ++ QUERY_DELIMITER ++ QUERY_NAME ++ [0]);
     o ←? put_string o n (ep ++ [0]);
     o ←? (match option_map (fun s => s ++ [0]) sms with
           | Some s => o ←? put_string o n (QUERY_DELIMITER ++ QUERY_SMS ++ [0]); put_string o n s
           | None => ret (Some o)
           end);
     o ←? put_binding o n (binding server);
     if negb (lifetime server =? 0) then
       o ←? put_string o n (QUERY_DELIMITER ++ QUERY_LIFETIME ++ [0]); put_id o n (lifetime server)
     else ret (Some o)) (query_text ep sms server).
Proof.
  intros Hep Hsms Hl. unfold query_text.
  apply (writes_seq (fun o n => put_string o n (QUERY_STARTER ++ QUERY_VERSION_FULL ++ QUERY_DELIMITER ++ QUERY_NAME ++ [0]))).
  { by apply (put_literal_ok _ (str "?lwm2m=1.1&ep=")); [|repeat constructor]. }
  apply (writes_seq (fun o n => put_string o n (ep ++ [0]))); [by apply put_string_ok|].
  apply (writes_seq (fun o n => match option_map (fun s => s ++ [0]) sms with
           | Some s => o ←? put_string o n (QUERY_DELIMITER ++ QUERY_SMS ++ [0]); put_string o n s
           | None => ret (Some o)
           end)).
  { destruct sms as [s|]; cbn [option_map]; [|by apply writes_nothing].
    apply (writes_seq (fun o n => put_string o n (QUERY_DELIMITER ++ QUERY_SMS ++ [0]))).
    - by apply (put_literal_ok _ (str "&sms=")); [|repeat constructor].
    - by apply put_string_ok. }
  apply (writes_seq (fun o n => put_binding o n (binding server))); [apply put_binding_ok|].
  destruct (lifetime server =? 0); cbn [negb]; [by apply writes_nothing|].
  apply (writes_seq (fun o n => put_string o n (QUERY_DELIMITER ++ QUERY_LIFETIME ++ [0]))).
  - by apply (put_literal_ok _ (str "&lt=")); [|repeat constructor].
  - by apply put_id_ok.
Qed.

Lemma binding_length_ok b : binding_length b = len (binding_text b).
Proof.
  unfold binding_length, binding_text, flag_text.
  by destruct (names_binding b), (binds b BINDING_Q), (binds b BINDING_U), (binds b BINDING_T), (binds b BINDING_S),
    (binds b BINDING_N).
Qed.

(** C40. The length computed for the query of a registration is that of the query
    with its terminator, and [prv_getRegistrationQuery] fills a buffer of that
    length exactly: the version, the endpoint name and, when they are set, the
    phone number, the binding and the lifetime. *)
Theorem registration_query_fits ep sms server :
  (forall n, 0 <= n -> len (junk n) = n) ->
  string_ok ep -> from_option string_ok True sms -> 0 <= lifetime server < 2 ^ 32 ->
  let text := query_text ep sms server in
  let msisdn := option_map (fun s => s ++ [0]) sms in
  len text + 1 <= INT_MAX ->
  prv_getRegistrationQueryLength (ep ++ [0]) msisdn server = Some (len text + 1) /\
  forall buffer, len buffer = len text + 1 ->
    prv_getRegistrationQuery (ep ++ [0]) msisdn server buffer (len text + 1) = Some (len text + 1, text ++ [0]).
Proof.
  intros Hj Hep Hsms Hl text msisdn Hm. split.
  - unfold prv_getRegistrationQueryLength. rewrite strlen_text by done. mstep.
    assert ((match msisdn with Some s => n ← strlen s; ret (len (QUERY_STARTER ++ QUERY_VERSION_FULL ++ QUERY_DELIMITER ++
        QUERY_NAME) + len ep + len (QUERY_DELIMITER ++ QUERY_SMS) + n) | None => ret (len (QUERY_STARTER ++
        QUERY_VERSION_FULL ++ QUERY_DELIMITER ++ QUERY_NAME) + len ep) end) =
      Some (len (str "?lwm2m=1.1&ep=" ++ ep ++ match sms with Some s => str "&sms=" ++ s | None => [] end))) as ->.
    { unfold msisdn. destruct sms as [s|]; cbn [option_map];
        [rewrite strlen_text by done; mstep|]; f_equal; rewrite !length_app; unfold QUERY_STARTER, QUERY_VERSION_FULL,
        QUERY_DELIMITER, QUERY_NAME, QUERY_SMS; lstr; lia. }
    mstep. rewrite binding_length_ok. unfold text, query_text. destruct (lifetime server =? 0) eqn:E; cbn [negb].
    + f_equal. rewrite !length_app. cbn [length]. lia.
    + assert (0 < len (dec (lifetime server)) <= 10) as Hd.
      { split; [apply dec_length_pos; lia|]. apply dec_length_iff; lia. }
      destruct (intToText_ok (lifetime server) (junk 21) 21) as (q & _ & ->);
        [lia|lia|rewrite Hj; lia|done|]. mstep. guards. f_equal. rewrite !length_app.
      unfold QUERY_DELIMITER, QUERY_LIFETIME. lstr. lia.
  - intros buffer Hb. unfold prv_getRegistrationQuery.
    destruct (query_writes ep sms server Hep Hsms ltac:(lia) [] buffer (len text + 1)) as (q & Hq & E);
      [cbn [app]; lia|done|fold text; lia|].
    cbn [app] in E. change (len (@nil Z)) with 0 in E. fold msisdn in E. fold text in E, Hq. rewrite E. mstep.
    guards. assert (exists x, q = [x]) as [x ->].
    { destruct q as [|x [|y q]]; [|by exists x|]; rewrite length_app in Hq; cbn [length] in Hq; lia. }
    rewrite wr_middle by done. mstep. done.
Qed.
End query.

Lemma registration_query_fits_witness :
  let server := zero_info <| lifetime := 300 |> <| binding := Z.lor BINDING_U BINDING_Q |> in
  query_text (str "dev") None server = str "?lwm2m=1.1&ep=dev&b=U&Q&lt=300" /\
  prv_getRegistrationQueryLength zero_junk (str "dev" ++ [0]) None server = Some 31 /\
  forall buffer, len buffer = 31 ->
    prv_getRegistrationQuery (str "dev" ++ [0]) None server buffer 31 =
      Some (31, str "?lwm2m=1.1&ep=dev&b=U&Q&lt=300" ++ [0]).
Proof.
  intros server. split; [by vm_compute|].
  apply (registration_query_fits zero_junk (str "dev") None server).
  - intros n Hn. unfold zero_junk. rewrite length_replicate. lia.
  - by repeat constructor.
  - done.
  - by split.
  - by vm_compute.
Defined.
End RegQuery.
