(* ===== verification/Registration.v ===== *)
(** * The registration of a client (core/registration.c, client part)

    The life of the registration with each server: its start, the request, the
    replies, the retries in attempts and sequences, the updates and the
    deregistration.  [tv_sec] is the result of [lwm2m_gettime].

    A pointer to a server is its [secObjInstID]; reading a server that is not in
    the list is undefined.  Times are unbounded integers when they are compared.
    The result of a read of the Server object comes with
    the value it has written, [None] when the variable stays uninitialized. *)
From S2P Require Import Prelude.
From S2P Require Import Types.
From S2P Require Import SortedList.
From S2P Require Import Data.
From S2P Require Import Uri.
From S2P Require Import FloatText.
From S2P Require Import CoapMessage.
From S2P Require Import CoapOptions.
From S2P Require Import CoapPacket.
From S2P Require Import Transaction.
From S2P Require Import Packet.
From S2P Require Import Client.
From S2P Require Import Formats.
From S2P Require Import Objects.
From S2P Require Import RegisterPayload.
From S2P Require Import RegQuery.
Import SortedList Data Uri FloatText CoapPacket CoapMessage CoapOptions Transaction Packet Client Formats Objects RegisterPayload RegQuery.

(** The callbacks of the transactions of a registration, and their user data: a
    [registration_data_t], by its address and its [server], or the server alone.
    The query and the payload that it keeps alive are not modelled. *)
Class RegistrationPointers (CB U : Type) := {
  reply_callback : CB;
  update_callback : CB;
  deregistration_callback : CB;
  registration_data : Z -> Z -> U;
  server_data : Z -> U;
  data_server : U -> option Z }.

Module Registration.

Definition LWM2M_SERVER_REG_ORDER_ID : Z := 13.
Definition LWM2M_SERVER_INITIAL_REG_DELAY_ID : Z := 14.
Definition LWM2M_SERVER_REG_FAIL_BLOCK_ID : Z := 15.
Definition LWM2M_SERVER_REG_FAIL_BOOTSTRAP_ID : Z := 16.
Definition LWM2M_SERVER_COMM_RETRY_COUNT_ID : Z := 17.
Definition LWM2M_SERVER_COMM_RETRY_TIMER_ID : Z := 18.
Definition LWM2M_SERVER_SEQ_DELAY_TIMER_ID : Z := 19.
Definition LWM2M_SERVER_SEQ_RETRY_COUNT_ID : Z := 20.
Definition SIZEOF_REGISTRATION_DATA : Z := 24.
Definition URI_REGISTRATION_PATH : list Z := str "/rd" ++ [0].
(** [COAP_MAX_TRANSMIT_WAIT], 2 * 31 * 1.5 seconds. *)
Definition COAP_MAX_TRANSMIT_WAIT : Z := 93.

Section registration.
Context {Session CB U F B : Type}.
Context `{HM : Malloc, HS : Sessions Session, HL : LibC, HF : Codecs, HO : ObjectCallbacks Session CB U F B}.
Context `{HN : Connections Session, HP : RegistrationPointers CB U, HU : EqDecision U}.
Context `{HC : Callbacks Session CB U (world_t Session server_info (client_t F B))}.
Context (junk : Z -> list Z).
Abbreviation context := (lwm2m_context_t Session CB U (world_t Session server_info (client_t F B))).
Abbreviation server := (lwm2m_server_t Session server_info).
Abbreviation object := (lwm2m_object_t F).
Abbreviation transaction := (lwm2m_transaction_t Session CB U).

(** ** Access to a server *)

Definition find_server (contextP : context) (targetP : Z) : C server :=
  p ← list_find (fun s : server => secObjInstID s = targetP) (servers contextP); ret (snd p).
Definition upd_server (contextP : context) (targetP : Z) (f : server -> server) : context :=
  set_servers contextP (map (fun s => if secObjInstID s =? targetP then f s else s) (servers contextP)).
Definition upd_info (contextP : context) (targetP : Z) (f : server_info -> server_info) : context :=
  upd_server contextP targetP (fun s => s <| server_rest := f (server_rest s) |>).
Definition set_status (contextP : context) (targetP : Z) (st : lwm2m_status_t) : context :=
  upd_info contextP targetP (fun i => i <| srv_status := st |>).

Definition set_state (contextP : context) (st : lwm2m_client_state_t) : context :=
  set_client contextP ((app (rest contextP)) <| client_state := st |>).

(** ** The resources of the Server object *)

(** The result, [*valueP] and the context. *)
Definition prv_readUint (contextP : context) (objP : object) (instanceId_ resourceId_ : Z)
    : C (Z * option Z * context) :=
  r ← read_resources contextP instanceId_ [resourceId_] objP;
  match r with
  | None => ret (COAP_500_INTERNAL_SERVER_ERROR, None, contextP)
  | Some (result, dataP, contextP) =>
      if result =? COAP_205_CONTENT then
        d ← rd dataP 0;
        v ← lwm2m_data_decode_uint d;
        ret (if v is Some _ then COAP_NO_ERROR else COAP_400_BAD_REQUEST, v, contextP)
      else ret (result, None, contextP)
  end.

Definition prv_readBoolean (contextP : context) (objP : object) (instanceId_ resourceId_ : Z)
    : C (Z * option bool * context) :=
  r ← read_resources contextP instanceId_ [resourceId_] objP;
  match r with
  | None => ret (COAP_500_INTERNAL_SERVER_ERROR, None, contextP)
  | Some (result, dataP, contextP) =>
      if result =? COAP_205_CONTENT then
        d ← rd dataP 0;
        v ← lwm2m_data_decode_bool d;
        ret (if v is Some _ then COAP_NO_ERROR else COAP_400_BAD_REQUEST, v, contextP)
      else ret (result, None, contextP)
  end.

(** A number of the Server object with its value when it does not exist. *)
Definition read_default (contextP : context) (inst : Z) (serverObjP : object) (resource absent : Z)
    : C (Z * option Z * context) :=
  '(result, v, contextP) ← prv_readUint contextP serverObjP inst resource;
  ret (if result =? COAP_404_NOT_FOUND then (COAP_NO_ERROR, Some absent, contextP) else (result, v, contextP)).
Definition read_flag (contextP : context) (inst : Z) (serverObjP : object) (resource : Z) (absent : bool)
    : C (Z * option bool * context) :=
  '(result, v, contextP) ← prv_readBoolean contextP serverObjP inst resource;
  if result =? COAP_NO_ERROR then v ← v; ret (result, Some v, contextP)
  else ret (if result =? COAP_404_NOT_FOUND then (COAP_NO_ERROR, Some absent, contextP) else (result, None, contextP)).

(** The result, [*orderedP], [*orderP] and the context; [inst] is the
    [servObjInstID] of the server. *)
Definition prv_getRegistrationOrder (contextP : context) (inst : Z) (serverObjP : object)
    : C (Z * option bool * option Z * context) :=
  '(result, order, contextP) ← prv_readUint contextP serverObjP inst LWM2M_SERVER_REG_ORDER_ID;
  if result =? COAP_NO_ERROR then order ← order; ret (result, Some true, Some order, contextP)
  else if result =? COAP_404_NOT_FOUND then ret (COAP_NO_ERROR, Some false, None, contextP)
  else ret (result, None, None, contextP).

Definition prv_getRegistrationFailureBlocking (contextP : context) (inst : Z) (serverObjP : object)
    : C (Z * option bool * context) :=
  read_flag contextP inst serverObjP LWM2M_SERVER_REG_FAIL_BLOCK_ID false.
Definition prv_getBootstrapOnRegistrationFailure (contextP : context) (inst : Z) (serverObjP : object)
    : C (Z * option bool * context) :=
  read_flag contextP inst serverObjP LWM2M_SERVER_REG_FAIL_BOOTSTRAP_ID true.

(** A limit, at most 254, and a delay. *)
Definition limit_and_delay (contextP : context) (inst : Z) (serverObjP : object)
    (limit_id limit_absent delay_id delay_absent : Z) : C (Z * option (Z * Z) * context) :=
  '(result, limit, contextP) ← read_default contextP inst serverObjP limit_id limit_absent;
  if result =? COAP_NO_ERROR then
    '(result, delay, contextP) ← read_default contextP inst serverObjP delay_id delay_absent;
    if result =? COAP_NO_ERROR then
      limit ← limit;
      delay ← delay;
      ret (result, Some (if 254 <? limit then 254 else limit, delay), contextP)
    else ret (result, None, contextP)
  else ret (result, None, contextP).

Definition prv_getRegistrationAttemptLimit (contextP : context) (inst : Z) (serverObjP : object)
    : C (Z * option (Z * Z) * context) :=
  limit_and_delay contextP inst serverObjP LWM2M_SERVER_COMM_RETRY_COUNT_ID 5 LWM2M_SERVER_COMM_RETRY_TIMER_ID 60.
Definition prv_getRegistrationSequenceLimit (contextP : context) (inst : Z) (serverObjP : object)
    : C (Z * option (Z * Z) * context) :=
  limit_and_delay contextP inst serverObjP LWM2M_SERVER_SEQ_RETRY_COUNT_ID 1 LWM2M_SERVER_SEQ_DELAY_TIMER_ID 86400.

Definition inst_of (s : server) : Z := servObjInstID (server_rest s).

(** ** Starting *)

(** A registration is planned: [registration] is the time to send it. *)
Definition hold_off (contextP : context) (targetP time : Z) : context :=
  upd_info contextP targetP (fun i => i <| registration := time |> <| srv_status := STATE_REG_HOLD_OFF |>).

Definition prv_startRegistration (tv_sec : Z) (contextP : context) (targetP : Z) (serverObjP : object)
    : C (Z * context) :=
  s ← find_server contextP targetP;
  '(result, delay, contextP) ← read_default contextP (inst_of s) serverObjP LWM2M_SERVER_INITIAL_REG_DELAY_ID 0;
  if result =? COAP_NO_ERROR then delay ← delay; ret (result, hold_off contextP targetP (s64 (tv_sec + delay)))
  else ret (result, contextP).

(** Servers to start: those that are not registered, and those that have failed. *)
Definition to_start (restartFailed : bool) (st : lwm2m_status_t) : bool :=
  bool_decide (st = STATE_DEREGISTERED) || (restartFailed && bool_decide (st = STATE_REG_FAILED)).

(** The loop over the servers, from position [i] on; [first] is the server with
    the lowest order so far, and its order. *)
Fixpoint start_loop (n : nat) (tv_sec : Z) (contextP : context) (i : nat) (serverObjP : object) (restartFailed : bool)
    (first : option (Z * Z)) : C (Z * option (Z * Z) * context) :=
  match n with
  | O => ret (COAP_NO_ERROR, first, contextP)
  | S n =>
      s ← servers contextP !! i;
      if to_start restartFailed (srv_status (server_rest s)) then
        let targetP := secObjInstID s in
        let contextP := upd_info contextP targetP (fun i => i <| attempt := 0 |> <| sequence := 0 |>) in
        '(result, ordered, order, contextP) ← prv_getRegistrationOrder contextP (inst_of s) serverObjP;
        '(result, first, contextP) ←
          (if result =? COAP_NO_ERROR then
             ordered ← ordered;
             if (ordered : bool) then
               order ← order;
               ret (result,
                    match first with
                    | Some (_, firstOrder) => if order <? firstOrder then Some (targetP, order) else first
                    | None => Some (targetP, order)
                    end, contextP)
             else
               '(result, contextP) ← prv_startRegistration tv_sec contextP targetP serverObjP;
               ret (result, first, contextP)
           else ret (result, first, contextP));
        if result =? COAP_NO_ERROR then start_loop n tv_sec contextP (S i) serverObjP restartFailed first
        else ret (result, first, contextP)
      else start_loop n tv_sec contextP (S i) serverObjP restartFailed first
  end.

Definition registration_start (tv_sec : Z) (contextP : context) (restartFailed : bool) : C (Z * context) :=
  match find_object contextP LWM2M_SERVER_OBJECT_ID with
  | None => ret (COAP_500_INTERNAL_SERVER_ERROR, contextP)
  | Some serverObjP =>
      '(result, first, contextP) ←
        start_loop (length (servers contextP)) tv_sec contextP 0 serverObjP restartFailed None;
      match first with
      | Some (firstOrdered, _) => prv_startRegistration tv_sec contextP firstOrdered serverObjP
      | None => ret (result, contextP)
      end
  end.

(** ** Failures *)

(** The ordered registrations that have not started fail too. *)
Fixpoint fail_ordered (n : nat) (contextP : context) (i : nat) (serverObjP : object) : C context :=
  match n with
  | O => ret contextP
  | S n =>
      s ← servers contextP !! i;
      if bool_decide (srv_status (server_rest s) = STATE_DEREGISTERED) then
        '(result, ordered, _, contextP) ← prv_getRegistrationOrder contextP (inst_of s) serverObjP;
        contextP ← (if result =? COAP_NO_ERROR then
                      ordered ← ordered;
                      ret (if (ordered : bool) then set_status contextP (secObjInstID s) STATE_REG_FAILED else contextP)
                    else ret contextP);
        fail_ordered n contextP (S i) serverObjP
      else fail_ordered n contextP (S i) serverObjP
  end.

(** Ordered and blocking, the next registration being started when a failure of
    the first sequence does not block it. *)
Definition sequence_order (tv_sec : Z) (contextP : context) (serverObjP : object) (s : server)
    : C (bool * bool * context) :=
  '(result, ordered, _, contextP) ← prv_getRegistrationOrder contextP (inst_of s) serverObjP;
  let ordered := default false ordered in
  if (result =? COAP_NO_ERROR) && ordered then
    '(result, blocking, contextP) ← prv_getRegistrationFailureBlocking contextP (inst_of s) serverObjP;
    let blocking := default false blocking in
    s ← find_server contextP (secObjInstID s);
    contextP ← (if (result =? COAP_NO_ERROR) && negb blocking && (sequence (server_rest s) =? 1) then
                  '(_, contextP) ← registration_start tv_sec contextP false; ret contextP
                else ret contextP);
    ret (ordered, blocking, contextP)
  else ret (ordered, false, contextP).

Definition prv_handleRegistrationSequenceFailure (tv_sec : Z) (contextP : context) (serverObjP : object) (targetP : Z)
    : C context :=
  s ← find_server contextP targetP;
  '(ordered, blocking, contextP) ← sequence_order tv_sec contextP serverObjP s;
  '(result, limit, contextP) ← prv_getRegistrationSequenceLimit contextP (inst_of s) serverObjP;
  if result =? COAP_NO_ERROR then
    '(sequenceLimit, sequenceDelay) ← limit;
    s ← find_server contextP targetP;
    if sequenceLimit <=? sequence (server_rest s) then
      let contextP := set_status contextP targetP STATE_REG_FAILED in
      '(result, bootstrap, contextP) ← prv_getBootstrapOnRegistrationFailure contextP (inst_of s) serverObjP;
      if negb (result =? COAP_NO_ERROR) || default false bootstrap then
        ret (set_state contextP STATE_BOOTSTRAP_REQUIRED)
      else if ordered && blocking then fail_ordered (length (servers contextP)) contextP 0 serverObjP
      else ret contextP
    else
      ret (upd_info (hold_off contextP targetP (s64 (tv_sec + sequenceDelay))) targetP
             (fun i => i <| attempt := 0 |>))
  else ret (set_status contextP targetP STATE_REG_FAILED).

(** The delay doubles with each attempt. *)
Definition prv_handleRegistrationAttemptFailure (tv_sec : Z) (contextP : context) (targetP : Z) : C context :=
  match find_object contextP LWM2M_SERVER_OBJECT_ID with
  | None => ret (set_status contextP targetP STATE_REG_FAILED)
  | Some serverObjP =>
      s ← find_server contextP targetP;
      '(result, limit, contextP) ← prv_getRegistrationAttemptLimit contextP (inst_of s) serverObjP;
      if result =? COAP_NO_ERROR then
        '(attemptLimit, attemptDelay) ← limit;
        s ← find_server contextP targetP;
        let attempt_ := attempt (server_rest s) in
        if attemptLimit <=? attempt_ then prv_handleRegistrationSequenceFailure tv_sec contextP serverObjP targetP
        else
          assert! (0 <=? attempt_ - 1) && (attempt_ - 1 <? 31);
          ret (hold_off contextP targetP (s64 (tv_sec + u64 (attemptDelay * Z.shiftl 1 (attempt_ - 1)))))
      else ret (set_status contextP targetP STATE_REG_FAILED)
  end.

(** ** Requests and replies *)

(** The reply says that the transfer of the payload goes on. *)
Definition goes_on (packet : coap_packet_t) : bool :=
  (code packet =? COAP_231_CONTINUE) ||
  ((code packet =? COAP_413_ENTITY_TOO_LARGE) &&
   (negb (IS_OPTION packet COAP_OPTION_BLOCK1) || (block_num (block1 packet) =? 0))).

(** The next ordered registration, once this one has succeeded. *)
Definition start_next (tv_sec : Z) (contextP : context) (targetP : Z) : C context :=
  match find_object contextP LWM2M_SERVER_OBJECT_ID with
  | None => ret contextP
  | Some serverObjP =>
      s ← find_server contextP targetP;
      '(result, ordered, _, contextP) ← prv_getRegistrationOrder contextP (inst_of s) serverObjP;
      ordered ← (if result =? COAP_NO_ERROR then ordered else ret false);
      if (ordered : bool) then
        s ← find_server contextP targetP;
        if sequence (server_rest s) =? 1 then
          '(_, contextP) ← registration_start tv_sec contextP false; ret contextP
        else
          '(result, blocking, contextP) ← prv_getRegistrationFailureBlocking contextP (inst_of s) serverObjP;
          blocking ← (if result =? COAP_NO_ERROR then blocking else ret true);
          if negb blocking then '(_, contextP) ← registration_start tv_sec contextP false; ret contextP
          else ret contextP
      else ret contextP
  end.

(** The time of the reply, when there is one. *)
Definition set_registration (tv_sec : Z) (contextP : context) (targetP : Z) : context :=
  if 0 <=? tv_sec then upd_info contextP targetP (fun i => i <| registration := tv_sec |>) else contextP.

Definition prv_handleRegistrationReply (tv_sec : Z) (contextP : context) (transacP : transaction)
    (packet : option coap_packet_t) : C context :=
  u ← userData transacP;
  targetP ← data_server u;
  s ← find_server contextP targetP;
  if bool_decide (srv_status (server_rest s) = STATE_REG_PENDING) then
    let contextP := set_registration tv_sec contextP targetP in
    match packet with
    | Some packet =>
        if goes_on packet then ret (free_userData contextP transacP)
        else
          contextP ←
            (if code packet =? COAP_201_CREATED then
               path ← coap_get_multi_option_as_path_string junk (location_path packet);
               let contextP := upd_info contextP targetP (fun i =>
                 i <| srv_status := STATE_REGISTERED |> <| location := path |>) in
               start_next tv_sec contextP targetP
             else prv_handleRegistrationAttemptFailure tv_sec contextP targetP);
          ret (free_userData contextP transacP)
    | None =>
        contextP ← prv_handleRegistrationAttemptFailure tv_sec contextP targetP;
        ret (free_userData contextP transacP)
    end
  else ret (free_userData contextP transacP).

(** The links of the objects, [None] when they cannot be written. *)
Definition register_payload (contextP : context) : C (option (list Z)) :=
  let path := altPath (rest contextP) in
  n ← object_getRegisterPayloadBufferLength junk path (objects contextP);
  if n =? 0 then ret None
  else if negb (malloc_ok n) then ret None
  else
    '(n, payload) ← object_getRegisterPayload path (objects contextP) (junk n) n;
    ret (if n =? 0 then None else Some (take (Z.to_nat n) payload)).

(** The query of the request. *)
Definition register_query (contextP : context) (info : server_info) : C (option (list Z)) :=
  let c := app (rest contextP) in
  n ← prv_getRegistrationQueryLength junk (endpointName c) (msisdn c) info;
  if n =? 0 then ret None
  else if negb (malloc_ok n) then ret None
  else
    '(res, query) ← prv_getRegistrationQuery (endpointName c) (msisdn c) info (junk n) n;
    ret (if negb (res =? n) then None else Some query).

(** The transaction is added to the list and sent. *)
Definition add_and_send (tv_sec : Z) (contextP : context) (t : transaction) : C (Z * context) :=
  let contextP := contextP <| transactionList := lwm2m_list_add (transactionList contextP) t [] |> in
  transaction_send junk tv_sec contextP (mID t).

(** A request to a server, with the token of [transaction_new]; the bytes of the
    token after the fourth are not used. *)
Definition new_request (tv_sec : Z) (contextP : context) (sessionH_ : Session) (method : Z)
    : C (option transaction * context) :=
  t ← transaction_new junk tv_sec [0; 0] (Some sessionH_) method None None (nextMID contextP) 4 None;
  ret (t, contextP <| nextMID := u16 (nextMID contextP + 1) |>).

(** The session of the server, opened when there is none. *)
Definition open_session (contextP : context) (targetP : Z) : C (Session * context) :=
  s ← find_server contextP targetP;
  if session_is_null (sessionH s) then
    let h := lwm2m_connect_server targetP in ret (h, upd_server contextP targetP (fun s => s <| sessionH := h |>))
  else ret (sessionH s, contextP).

(** One more attempt; the first one of a sequence counts the sequence. *)
Definition count_attempt (i : server_info) : server_info :=
  (if attempt i =? 0 then i <| sequence := u8 (sequence i + 1) |> else i) <| attempt := u8 (attempt i + 1) |>.

Definition prv_register (tv_sec : Z) (contextP : context) (targetP : Z) : C (Z * context) :=
  s ← find_server contextP targetP;
  payload_ ← register_payload contextP;
  match payload_ with
  | None => ret (COAP_500_INTERNAL_SERVER_ERROR, contextP)
  | Some payload_ =>
      query ← register_query contextP (server_rest s);
      match query with
      | None => ret (COAP_500_INTERNAL_SERVER_ERROR, contextP)
      | Some query =>
          '(h, contextP) ← open_session contextP targetP;
          if session_is_null h then ret (COAP_503_SERVICE_UNAVAILABLE, contextP)
          else
            '(t, contextP) ← new_request tv_sec contextP h COAP_POST;
            match t with
            | None => ret (COAP_503_SERVICE_UNAVAILABLE, contextP)
            | Some t =>
                '(_, m) ← coap_set_header_uri_path (message t) URI_REGISTRATION_PATH;
                '(_, m) ← coap_set_header_uri_query m query;
                '(_, m) ← coap_set_header_content_type m LWM2M_CONTENT_LINK;
                '(ok, t) ← transaction_set_payload (coap_block_size (rest contextP)) (t <| message := m |>) payload_
                             (len payload_);
                if negb ok then ret (COAP_503_SERVICE_UNAVAILABLE, contextP)
                else if negb (malloc_ok SIZEOF_REGISTRATION_DATA) then ret (COAP_503_SERVICE_UNAVAILABLE, contextP)
                else
                  '(r, contextP) ← add_and_send tv_sec contextP
                    (t <| callback := Some reply_callback |> <| userData := Some (registration_data (mID t) targetP) |>);
                  if negb (r =? 0) then ret (COAP_503_SERVICE_UNAVAILABLE, contextP)
                  else
                    ret (COAP_NO_ERROR,
                         upd_info contextP targetP (fun i => (count_attempt i) <| srv_status := STATE_REG_PENDING |>))
            end
      end
  end.

(** ** Updates *)

Definition prv_handleRegistrationUpdateReply (tv_sec : Z) (contextP : context) (transacP : transaction)
    (packet : option coap_packet_t) : C context :=
  u ← userData transacP;
  targetP ← data_server u;
  s ← find_server contextP targetP;
  let finish contextP :=
    match packet with
    | Some packet => if negb (code packet =? COAP_231_CONTINUE) then free_userData contextP transacP else contextP
    | None => contextP
    end in
  if bool_decide (srv_status (server_rest s) = STATE_REG_UPDATE_PENDING) then
    let contextP := set_registration tv_sec contextP targetP in
    match packet with
    | Some packet =>
        if goes_on packet then ret (free_userData contextP transacP)
        else
          ret (finish (set_status contextP targetP
                 (if code packet =? COAP_204_CHANGED then STATE_REGISTERED else STATE_REG_FAILED)))
    | None => ret (finish (set_status contextP targetP STATE_REG_FAILED))
    end
  else ret (finish contextP).

Definition prv_updateRegistration (tv_sec : Z) (contextP : context) (targetP : Z) (withObjects : bool)
    : C (Z * context) :=
  s ← find_server contextP targetP;
  '(t, contextP) ← new_request tv_sec contextP (sessionH s) COAP_POST;
  match t with
  | None => ret (COAP_500_INTERNAL_SERVER_ERROR, contextP)
  | Some t =>
      path ← location (server_rest s);
      '(_, m) ← coap_set_header_uri_path (message t) path;
      let t := t <| message := m |> in
      t ← (if withObjects : bool then
             payload_ ← register_payload contextP;
             match payload_ with
             | None => ret None
             | Some payload_ =>
                 '(ok, t) ← transaction_set_payload (coap_block_size (rest contextP)) t payload_ (len payload_);
                 ret (if (ok : bool) then Some t else None)
             end
           else ret (Some t));
      match t with
      | None => ret (COAP_500_INTERNAL_SERVER_ERROR, contextP)
      | Some t =>
          if negb (malloc_ok SIZEOF_REGISTRATION_DATA) then ret (COAP_500_INTERNAL_SERVER_ERROR, contextP)
          else
            '(r, contextP) ← add_and_send tv_sec contextP
              (t <| callback := Some update_callback |> <| userData := Some (registration_data (mID t) targetP) |>);
            ret (COAP_NO_ERROR, if r =? 0 then set_status contextP targetP STATE_REG_UPDATE_PENDING else contextP)
      end
  end.

(** The new status of a server to update, [None] when it cannot be. *)
Definition update_status (st : lwm2m_status_t) (withObjects : bool) : option lwm2m_status_t :=
  match st with
  | STATE_REGISTERED | STATE_REG_UPDATE_PENDING =>
      Some (if withObjects then STATE_REG_FULL_UPDATE_NEEDED else STATE_REG_UPDATE_NEEDED)
  | STATE_REG_FULL_UPDATE_NEEDED | STATE_REG_UPDATE_NEEDED => Some (if withObjects then STATE_REG_FULL_UPDATE_NEEDED else st)
  | _ => None
  end.

(** One server, all of them ([shortServerID] 0) being marked only when they are
    registered or waiting for the reply to an update. *)
Definition mark_update (withObjects : bool) (s : server) : server :=
  match srv_status (server_rest s) with
  | STATE_REGISTERED | STATE_REG_UPDATE_PENDING =>
      s <| server_rest := (server_rest s) <| srv_status :=
        if withObjects then STATE_REG_FULL_UPDATE_NEEDED else STATE_REG_UPDATE_NEEDED |> |>
  | _ => s
  end.

Definition lwm2m_update_registration (contextP : context) (shortServerID : Z) (withObjects : bool) : C (Z * context) :=
  match servers contextP with
  | [] =>
      '(r, contextP) ← object_getServers contextP false;
      ret (if r =? -1 then COAP_404_NOT_FOUND else if shortServerID =? 0 then COAP_NO_ERROR else COAP_404_NOT_FOUND,
           contextP)
  | l =>
      if shortServerID =? 0 then ret (COAP_NO_ERROR, set_servers contextP (map (mark_update withObjects) l))
      else
        match list_find (fun s : server => shortID (server_rest s) = shortServerID) l with
        | None => ret (COAP_404_NOT_FOUND, contextP)
        | Some (_, s) =>
            match update_status (srv_status (server_rest s)) withObjects with
            | Some st => ret (COAP_NO_ERROR, set_status contextP (secObjInstID s) st)
            | None => ret (COAP_400_BAD_REQUEST, contextP)
            end
        end
  end.

(** ** The overall status *)

Definition merge_status (reg_status st : lwm2m_status_t) : lwm2m_status_t :=
  match st with
  | STATE_REGISTERED | STATE_REG_UPDATE_NEEDED | STATE_REG_FULL_UPDATE_NEEDED | STATE_REG_UPDATE_PENDING
  | STATE_DEREG_PENDING =>
      match reg_status with STATE_REG_FAILED => STATE_REGISTERED | _ => reg_status end
  | STATE_REG_HOLD_OFF | STATE_REG_PENDING => STATE_REG_PENDING
  | _ => reg_status
  end.
Definition registration_getStatus (contextP : context) : lwm2m_status_t :=
  fold_left (fun r s => merge_status r (srv_status (server_rest s))) (servers contextP) STATE_REG_FAILED.

(** ** Deregistration *)

Definition prv_handleDeregistrationReply (contextP : context) (transacP : transaction) : C context :=
  match userData transacP with
  | None => ret contextP
  | Some u =>
      targetP ← data_server u;
      s ← find_server contextP targetP;
      ret (if bool_decide (srv_status (server_rest s) = STATE_DEREG_PENDING)
           then set_status contextP targetP STATE_DEREGISTERED else contextP)
  end.

Definition registration_deregister (tv_sec : Z) (contextP : context) (serverP : Z) : C context :=
  s ← find_server contextP serverP;
  match srv_status (server_rest s), location (server_rest s) with
  | STATE_DEREGISTERED, _ | STATE_REG_PENDING, _ | STATE_DEREG_PENDING, _ | STATE_REG_FAILED, _ | _, None => ret contextP
  | _, Some path =>
      '(t, contextP) ← new_request tv_sec contextP (sessionH s) COAP_DELETE;
      match t with
      | None => ret contextP
      | Some t =>
          '(_, m) ← coap_set_header_uri_path (message t) path;
          '(r, contextP) ← add_and_send tv_sec contextP
            (t <| message := m |> <| callback := Some deregistration_callback |> <| userData := Some (server_data serverP) |>);
          ret (if r =? 0 then set_status contextP serverP STATE_DEREG_PENDING else contextP)
      end
  end.

(** ** The step *)

(** The time between a registration and its update. *)
Definition update_delay (lifetime_ : Z) : Z :=
  if COAP_MAX_TRANSMIT_WAIT <? lifetime_ then lifetime_ - COAP_MAX_TRANSMIT_WAIT else Z.shiftr lifetime_ 1.

(** One server: [*timeoutP] and the context. *)
Definition step_server (tv_sec : Z) (contextP : context) (currentTime timeout : Z) (s : server) : C (Z * context) :=
  let i := server_rest s in
  let targetP := secObjInstID s in
  match srv_status i with
  | STATE_REG_HOLD_OFF =>
      let interval := registration i - currentTime in
      if interval <=? 0 then '(_, contextP) ← prv_register tv_sec contextP targetP; ret (timeout, contextP)
      else ret (if interval <=? timeout then interval else timeout, contextP)
  | STATE_REGISTERED =>
      let interval := registration i + update_delay (lifetime i) - currentTime in
      if interval <=? 0 then
        '(_, contextP) ← prv_updateRegistration tv_sec contextP targetP false; ret (timeout, contextP)
      else ret (if interval <? timeout then interval else timeout, contextP)
  | STATE_REG_UPDATE_NEEDED =>
      '(_, contextP) ← prv_updateRegistration tv_sec contextP targetP false; ret (timeout, contextP)
  | STATE_REG_FULL_UPDATE_NEEDED =>
      '(_, contextP) ← prv_updateRegistration tv_sec contextP targetP true; ret (timeout, contextP)
  | STATE_REG_FAILED =>
      ret (timeout,
           if session_is_null (sessionH s) then contextP
           else upd_server contextP targetP (fun s => s <| sessionH := null_session |>))
  | _ => ret (timeout, contextP)
  end.

Fixpoint step_loop (n : nat) (tv_sec : Z) (contextP : context) (i : nat) (currentTime timeout : Z) : C (Z * context) :=
  match n with
  | O => ret (timeout, contextP)
  | S n =>
      s ← servers contextP !! i;
      '(timeout, contextP) ← step_server tv_sec contextP currentTime timeout s;
      step_loop n tv_sec contextP (S i) currentTime timeout
  end.

(** The client part of [registration_step]; closing a connection is left to the
    platform. *)
Definition registration_step (tv_sec : Z) (contextP : context) (currentTime timeout : Z) : C (Z * context) :=
  step_loop (length (servers contextP)) tv_sec contextP 0 currentTime timeout.
End registration.
End Registration.
