(* ===== verification/RegMachine.v ===== *)
(** * The registration as a state machine

    The abstract machine of a registration: the moves of the status of a server
    at each event.  The operations of Registration.v make no other move
    ([registration_refines_machine]), and along any sequence of events a server
    counts as registered only once it has answered 2.01
    ([registered_was_accepted]). *)
From S2P Require Import Prelude.
From S2P Require Import Types.
From S2P Require Import SortedList.
From S2P Require Import Data.
From S2P Require Import Uri.
From S2P Require Import FloatText.
From S2P Require Import CoapPacket.
From S2P Require Import CoapMessage.
From S2P Require Import CoapOptions.
From S2P Require Import Transaction.
From S2P Require Import Packet.
From S2P Require Import Client.
From S2P Require Import Formats.
From S2P Require Import Objects.
From S2P Require Import RegisterPayload.
From S2P Require Import RegQuery.
From S2P Require Import Registration.
Import SortedList Data Uri FloatText CoapPacket CoapMessage CoapOptions Transaction Packet Client Formats Objects.
Import RegisterPayload RegQuery Registration.

Module RegMachine.

(** One bind of a hypothesis. *)
Ltac mb H x E := apply bind_Some in H as (x & E & H).
(** Case analysis on the completed execution of a hypothesis: the binds, the
    matches and the result. *)
Ltac run1 H :=
  match type of H with
  | _ ≫= _ = Some _ =>
      let x := fresh "x" in let E := fresh "E" in apply bind_Some in H as (x & E & H)
  | (match ?x with _ => _ end) = _ => let E := fresh "E" in destruct x eqn:E; try discriminate H
  | Some _ = Some _ => apply (inj Some) in H
  | (_, _) = (_, _) => injection H; clear H; intros; subst
  end.
Ltac runs H := repeat (run1 H; cbv beta iota in H; subst).

Section machine.
Context {Session CB U F B : Type}.
Context `{HM : Malloc, HS : Sessions Session, HL : LibC, HF : Codecs, HO : ObjectCallbacks Session CB U F B}.
Context `{HN : Connections Session, HP : RegistrationPointers CB U, HU : EqDecision U}.
Context `{HC : Callbacks Session CB U (world_t Session server_info (client_t F B))}.
Context (junk : Z -> list Z).
Abbreviation context := (lwm2m_context_t Session CB U (world_t Session server_info (client_t F B))).
Abbreviation server := (lwm2m_server_t Session server_info).
Abbreviation object := (lwm2m_object_t F).
Abbreviation transaction := (lwm2m_transaction_t Session CB U).
Implicit Types (c : context) (s : server) (t : transaction) (st : lwm2m_status_t).

(** ** The machine *)

Inductive event :=
  | Start (restartFailed : bool)
  | Reply (t : transaction) (p : option coap_packet_t)
  | UpdateReply (t : transaction) (p : option coap_packet_t)
  | DeregisterReply (t : transaction)
  | Update (shortServerID : Z) (withObjects : bool)
  | Deregister (target : Z)
  | Step (currentTime timeout : Z).

Definition answers (code_ : Z) (p : option coap_packet_t) : Prop := exists m, p = Some m /\ code m = code_.

(** The moves of the server [i]. *)
Inductive moves : event -> Z -> lwm2m_status_t -> lwm2m_status_t -> Prop :=
  | stays e i st : moves e i st st
  | planned rf i st : to_start rf st = true -> moves (Start rf) i st STATE_REG_HOLD_OFF
  | accepted t p i : userData t ≫= data_server = Some i -> answers COAP_201_CREATED p ->
      moves (Reply t p) i STATE_REG_PENDING STATE_REGISTERED
  | refused t p i st : userData t ≫= data_server = Some i -> ~ answers COAP_201_CREATED p ->
      st = STATE_REG_HOLD_OFF \/ st = STATE_REG_FAILED -> moves (Reply t p) i STATE_REG_PENDING st
  | next_planned t p i j : userData t ≫= data_server = Some j -> i <> j ->
      moves (Reply t p) i STATE_DEREGISTERED STATE_REG_HOLD_OFF
  | blocked t p i j : userData t ≫= data_server = Some j -> i <> j -> ~ answers COAP_201_CREATED p ->
      moves (Reply t p) i STATE_DEREGISTERED STATE_REG_FAILED
  | updated t p i : userData t ≫= data_server = Some i -> answers COAP_204_CHANGED p ->
      moves (UpdateReply t p) i STATE_REG_UPDATE_PENDING STATE_REGISTERED
  | update_failed t p i : userData t ≫= data_server = Some i -> ~ answers COAP_204_CHANGED p ->
      moves (UpdateReply t p) i STATE_REG_UPDATE_PENDING STATE_REG_FAILED
  | deregistered t i : userData t ≫= data_server = Some i ->
      moves (DeregisterReply t) i STATE_DEREG_PENDING STATE_DEREGISTERED
  | asked id i w st : st = STATE_REGISTERED \/ st = STATE_REG_UPDATE_PENDING ->
      moves (Update id w) i st (if w then STATE_REG_FULL_UPDATE_NEEDED else STATE_REG_UPDATE_NEEDED)
  | asked_full id i : moves (Update id true) i STATE_REG_UPDATE_NEEDED STATE_REG_FULL_UPDATE_NEEDED
  | leaves i st :
      ~ (st = STATE_DEREGISTERED \/ st = STATE_REG_PENDING \/ st = STATE_DEREG_PENDING \/ st = STATE_REG_FAILED) ->
      moves (Deregister i) i st STATE_DEREG_PENDING
  | sends now d i : moves (Step now d) i STATE_REG_HOLD_OFF STATE_REG_PENDING
  | sends_update now d i st :
      st = STATE_REGISTERED \/ st = STATE_REG_UPDATE_NEEDED \/ st = STATE_REG_FULL_UPDATE_NEEDED ->
      moves (Step now d) i st STATE_REG_UPDATE_PENDING.

(** The operation of an event at the time [tv]. *)
Definition exec (tv : Z) (e : event) (c : context) : C context :=
  match e with
  | Start rf => '(_, c) ← registration_start tv c rf; ret c
  | Reply t p => prv_handleRegistrationReply junk tv c t p
  | UpdateReply t p => prv_handleRegistrationUpdateReply tv c t p
  | DeregisterReply t => prv_handleDeregistrationReply c t
  | Update id w => '(_, c) ← lwm2m_update_registration c id w; ret c
  | Deregister i => registration_deregister junk tv c i
  | Step now d => '(_, c) ← registration_step junk tv c now d; ret c
  end.

(** ** Changes of the servers *)

Definition id_of s : Z := secObjInstID s.
Definition st_of s : lwm2m_status_t := srv_status (server_rest s).
Definition relates (R : Z -> lwm2m_status_t -> lwm2m_status_t -> Prop) (l l' : list server) : Prop :=
  Forall2 (fun s s' => id_of s' = id_of s /\ R (id_of s) (st_of s) (st_of s')) l l'.
Definition distinct c : Prop := NoDup (map id_of (servers c)).

Lemma relates_refl R c : (forall i st, R i st st) -> relates R (servers c) (servers c).
Proof. intros HR. by apply list.Forall_Forall2_diag, list.Forall_true. Qed.

Lemma relates_trans (R1 R2 R : Z -> lwm2m_status_t -> lwm2m_status_t -> Prop) c c1 c2 :
  relates R1 (servers c) (servers c1) -> relates R2 (servers c1) (servers c2) ->
  (forall i st1 st2 st3, R1 i st1 st2 -> R2 i st2 st3 -> R i st1 st3) -> relates R (servers c) (servers c2).
Proof.
  intros H1 H2 HR. revert H2. generalize (servers c2). induction H1 as [|s s1 l l1 [Hi Hs] _ IH]; intros l2 H2; inversion_clear H2 as [|? s2 ? l2' [Hi2 Hs2]]; constructor.
  - split; [congruence|]. rewrite Hi in Hs2. by eapply HR.
  - by apply IH.
Qed.

Lemma relates_impl (R1 R : Z -> lwm2m_status_t -> lwm2m_status_t -> Prop) l l' :
  relates R1 l l' -> (forall i st st', R1 i st st' -> R i st st') -> relates R l l'.
Proof. intros H HR. eapply list.Forall2_impl; [exact H|]. intros s s' [? ?]. auto. Qed.

Lemma relates_ids R l l' : relates R l l' -> map id_of l' = map id_of l.
Proof. induction 1 as [|s s' l l' [Hi _] _ IH]; cbn; congruence. Qed.

Lemma relates_distinct R c c' : relates R (servers c) (servers c') -> distinct c -> distinct c'.
Proof. unfold distinct. by intros ->%relates_ids. Qed.

Lemma find_server_in c i s : find_server c i = Some s -> s ∈ servers c /\ id_of s = i.
Proof.
  unfold find_server. intros (p & Hp & [= <-])%bind_Some. destruct p as [n x].
  apply list_find_Some in Hp as (Hn & Hi & _). split; [by eapply list_elem_of_lookup_2|done].
Qed.

Lemma distinct_eq (l : list server) s s' :
  NoDup (map id_of l) -> s ∈ l -> s' ∈ l -> id_of s = id_of s' -> s = s'.
Proof.
  intros Hn (i & Hi)%list_elem_of_lookup (j & Hj)%list_elem_of_lookup E.
  assert (i = j) as ->; [|congruence]. eapply NoDup_lookup; [exact Hn| |];
    rewrite list_lookup_fmap; [by rewrite Hi|by rewrite Hj, E].
Qed.

(** Changing one server, which is in the status [st]. *)
Lemma upd_relates (R : Z -> lwm2m_status_t -> lwm2m_status_t -> Prop) c i s (f : server -> server) :
  distinct c -> s ∈ servers c -> id_of s = i -> (forall i st, R i st st) ->
  (forall s, id_of (f s) = id_of s) -> R i (st_of s) (st_of (f s)) ->
  relates R (servers c) (servers (upd_server c i f)).
Proof.
  intros Hd Hs Hi Hr Hf HR. unfold upd_server, set_servers, servers, update. cbn. unfold servers, distinct in *.
  apply list.Forall2_fmap_r. apply list.Forall2_same_length_lookup_2; [done|].
  intros k x y Hx Hy. assert (x = y) as -> by congruence. cbn. destruct (secObjInstID y =? i) eqn:E; [|done].
  assert (y = s) as ->.
  { eapply distinct_eq; [exact Hd|by eapply list_elem_of_lookup_2|done|]. unfold id_of in *. lia. }
  split; [done|]. by rewrite Hi.
Qed.
(** ** The reads of the Server object *)

Lemma read_resources_user c inst ids o r d c' :
  read_resources c inst ids o = Some (Some (r, d, c')) -> user_only c c'.
Proof.
  unfold read_resources. destruct (new_resources ids) as [l|]; [|done].
  intros (f & _ & [= E])%bind_Some. pose proof (call_read_user f c inst l o) as H. by rewrite E in H.
Qed.

Create HintDb reads.
Hint Resolve user_only_refl read_resources_user user_only_trans : reads.

Lemma readUint_user c o inst id r v c' : prv_readUint c o inst id = Some (r, v, c') -> user_only c c'.
Proof. unfold prv_readUint. intros H. runs H; eauto with reads. Qed.
Lemma readBoolean_user c o inst id r v c' : prv_readBoolean c o inst id = Some (r, v, c') -> user_only c c'.
Proof. unfold prv_readBoolean. intros H. runs H; eauto with reads. Qed.
Hint Resolve readUint_user readBoolean_user : reads.

Lemma read_default_user c inst o id absent r v c' : read_default c inst o id absent = Some (r, v, c') -> user_only c c'.
Proof. unfold read_default. intros H. runs H; eauto with reads. Qed.
Lemma read_flag_user c inst o id absent r v c' : read_flag c inst o id absent = Some (r, v, c') -> user_only c c'.
Proof. unfold read_flag. intros H. runs H; eauto with reads. Qed.
Hint Resolve read_default_user read_flag_user : reads.

Lemma order_user c inst o r x y c' : prv_getRegistrationOrder c inst o = Some (r, x, y, c') -> user_only c c'.
Proof. unfold prv_getRegistrationOrder. intros H. runs H; eauto with reads. Qed.
Lemma limit_user c inst o a b d e r v c' : limit_and_delay c inst o a b d e = Some (r, v, c') -> user_only c c'.
Proof. unfold limit_and_delay. intros H. runs H; eauto with reads. Qed.
Hint Resolve order_user limit_user : reads.

Lemma user_only_servers c c' : user_only c c' -> servers c' = servers c.
Proof. by intros [b ->]. Qed.

(** ** Starting *)

Lemma start_trans rf i st1 st2 st3 :
  moves (Start rf) i st1 st2 -> moves (Start rf) i st2 st3 -> moves (Start rf) i st1 st3.
Proof. inversion 1; [done|]. inversion 1; subst; by constructor. Qed.

Definition startable (rf : bool) (i : Z) (l : list server) : Prop :=
  Forall (fun s => id_of s = i -> to_start rf (st_of s) = true \/ st_of s = STATE_REG_HOLD_OFF) l.

Lemma startable_moves rf i l l' : relates (moves (Start rf)) l l' -> startable rf i l -> startable rf i l'.
Proof.
  induction 1 as [|s s' l l' [Hi Hs] _ IH]; inversion_clear 1; constructor; [|by apply IH].
  intros E. inversion Hs; subst; [|by right]. apply H0. congruence.
Qed.

Lemma hold_off_relates rf c i tv s :
  distinct c -> s ∈ servers c -> id_of s = i -> startable rf i (servers c) ->
  relates (moves (Start rf)) (servers c) (servers (hold_off c i tv)).
Proof.
  intros Hd Hs Hi Hst. unfold hold_off, upd_info. eapply upd_relates; [done|exact Hs|done|constructor|done|].
  unfold startable in Hst. rewrite list.Forall_forall in Hst. destruct (Hst s Hs Hi) as [H| ->].
  - by apply planned.
  - apply stays.
Qed.

Lemma startRegistration_relates rf tv c i o r c' :
  distinct c -> startable rf i (servers c) -> prv_startRegistration tv c i o = Some (r, c') ->
  relates (moves (Start rf)) (servers c) (servers c').
Proof.
  intros Hd Hst H. unfold prv_startRegistration in H. mb H s Hs. apply find_server_in in Hs as [Hs Hi].
  mb H p Hp. destruct p as [[r1 v] c1]. pose proof (user_only_servers _ _ (read_default_user _ _ _ _ _ _ _ _ Hp)) as E.
  destruct (r1 =? COAP_NO_ERROR); runs H; rewrite <- E in *; [|by apply relates_refl, stays].
  eapply hold_off_relates; try done. unfold distinct in *. by rewrite E.
Qed.

Lemma reset_relates (R : Z -> lwm2m_status_t -> lwm2m_status_t -> Prop) c i (f : server_info -> server_info) :
  (forall i st, R i st st) -> (forall x, srv_status (f x) = srv_status x) ->
  relates R (servers c) (servers (upd_info c i f)).
Proof.
  intros HR Hf. unfold upd_info, upd_server, set_servers, servers, update. cbn.
  apply list.Forall2_fmap_r, list.Forall_Forall2_diag, list.Forall_true. intros s. cbn.
  destruct (secObjInstID s =? i); [|done]. split; [done|]. unfold st_of. cbn. rewrite Hf. apply HR.
Qed.

Lemma start_loop_relates rf tv o n : forall c (i : nat) first r first' c',
  distinct c -> (forall j k, first = Some (j, k) -> startable rf j (servers c)) ->
  start_loop n tv c i o rf first = Some (r, first', c') ->
  relates (moves (Start rf)) (servers c) (servers c') /\
  (forall j k, first' = Some (j, k) -> startable rf j (servers c')).
Proof.
  induction n as [|n IH]; intros c i first r first' c' Hd Hf H; cbn [start_loop] in H.
  { runs H. split; [by apply relates_refl, stays|done]. }
  mb H s Hs. destruct (to_start _ _) eqn:Et; [|by eapply (IH c (S i) first)].
  mb H p Hp. destruct p as [[[r1 ordered] order] c1]. mb H p2 Hp2. destruct p2 as [[r2 first2] c2].
  set (c0 := upd_info _ _ _) in *.
  assert (relates (moves (Start rf)) (servers c) (servers c0)) as R0 by (by apply reset_relates; [apply stays|]).
  pose proof (user_only_servers _ _ (order_user _ _ _ _ _ _ _ Hp)) as E1.
  assert (startable rf (secObjInstID s) (servers c)) as Hst.
  { apply list.Forall_forall. intros s' Hs' E. left.
    assert (s' = s) as ->; [|done]. eapply distinct_eq; [exact Hd|done|by eapply list_elem_of_lookup_2|done]. }
  assert (relates (moves (Start rf)) (servers c) (servers c2) /\
    (forall j k, first2 = Some (j, k) -> startable rf j (servers c2))) as [R2 Hf2].
  { assert (relates (moves (Start rf)) (servers c) (servers c1)) as R1 by by rewrite E1.
    assert (forall j k, first = Some (j, k) -> startable rf j (servers c1)) as Hf1.
    { intros j k E. eapply startable_moves; [exact R1|by eapply Hf]. }
    destruct (r1 =? _); [|by runs Hp2].
    mb Hp2 b Hb. destruct b; [mb Hp2 k Hk; runs Hp2|].
    - split; [done|]. intros j k' E. destruct first as [[j0 k0]|]; [destruct (k <? k0)|]; simplify_eq;
        try (by eapply startable_moves); by eapply Hf1.
    - mb Hp2 p3 Hp3. destruct p3 as [r3 c3]. runs Hp2.
      eapply (startRegistration_relates rf) in Hp3; [|by eapply relates_distinct|by eapply startable_moves].
      split; [by eapply relates_trans; [exact R1|exact Hp3|apply start_trans]|].
      intros j k E. eapply startable_moves; [exact Hp3|by eapply Hf1]. }
  destruct (r2 =? _); [|by runs H].
  eapply IH in H as [R3 Hf3]; [|by eapply relates_distinct|done].
  split; [|done]. eapply relates_trans; [exact R2|exact R3|apply start_trans].
Qed.

Lemma start_relates rf tv c r c' :
  distinct c -> registration_start tv c rf = Some (r, c') -> relates (moves (Start rf)) (servers c) (servers c').
Proof.
  intros Hd H. unfold registration_start in H. destruct (find_object _ _) as [o|]; [|runs H; by apply relates_refl, stays].
  mb H p Hp. destruct p as [[r1 first] c1]. apply (start_loop_relates rf) in Hp as [R1 Hf]; [|done|done].
  destruct first as [[j k]|]; [|by runs H].
  eapply (startRegistration_relates rf) in H; [|by eapply relates_distinct|by eapply Hf].
  eapply relates_trans; [exact R1|exact H|apply start_trans].
Qed.

(** ** Replies to a registration *)

Definition nexts (j i : Z) st st' : Prop :=
  st' = st \/ i <> j /\ st = STATE_DEREGISTERED /\ st' = STATE_REG_HOLD_OFF.
(** The registration [j] fails. *)
Definition fails (j i : Z) st st' : Prop :=
  st' = st \/
  (i = j /\ st = STATE_REG_PENDING \/ i <> j /\ st = STATE_DEREGISTERED) /\
  (st' = STATE_REG_HOLD_OFF \/ st' = STATE_REG_FAILED).

Lemma nexts_refl j i st : nexts j i st st.
Proof. by left. Qed.
Lemma fails_refl j i st : fails j i st st.
Proof. by left. Qed.
Lemma nexts_fails j i st st' : nexts j i st st' -> fails j i st st'.
Proof. intros [->|(Hi & -> & ->)]; [by left|]. right. split; [by right|by left]. Qed.
Lemma fails_trans j i st1 st2 st3 : fails j i st1 st2 -> fails j i st2 st3 -> fails j i st1 st3.
Proof. unfold fails. intuition congruence. Qed.

(** The server [j], if any, has a status that satisfies [P]. *)
Definition server_is (P : lwm2m_status_t -> Prop) (j : Z) (l : list server) : Prop :=
  Forall (fun s => id_of s = j -> P (st_of s)) l.
Definition settled : Z -> list server -> Prop := server_is (fun st => st <> STATE_DEREGISTERED).
Definition pending : Z -> list server -> Prop := server_is (fun st => st = STATE_REG_PENDING).

Lemma server_is_in P j l s : server_is P j l -> s ∈ l -> id_of s = j -> P (st_of s).
Proof. unfold server_is. rewrite list.Forall_forall. auto. Qed.

Lemma server_is_found (P : lwm2m_status_t -> Prop) c j s :
  distinct c -> s ∈ servers c -> id_of s = j -> P (st_of s) -> server_is P j (servers c).
Proof.
  intros Hd Hs Hi HPs. apply list.Forall_forall. intros s' Hs' E.
  assert (s' = s) as ->; [|done]. eapply distinct_eq; [exact Hd|done|done|congruence].
Qed.

Lemma server_is_impl (P Q : lwm2m_status_t -> Prop) j l : (forall st, P st -> Q st) -> server_is P j l -> server_is Q j l.
Proof. intros H HPs. eapply list.Forall_impl; [exact HPs|]. cbn. auto. Qed.
Lemma pending_settled j l : pending j l -> settled j l.
Proof. apply server_is_impl. by intros ? ->. Qed.

Lemma server_is_relates (P Q : lwm2m_status_t -> Prop) R j l l' :
  relates R l l' -> (forall st st', R j st st' -> P st -> Q st') -> server_is P j l -> server_is Q j l'.
Proof.
  intros H HR. induction H as [|s s' l l' [Hi Hs] _ IH]; inversion_clear 1; constructor; [|by apply IH].
  intros E. rewrite <- Hi, E in Hs. eapply HR; [exact Hs|]. apply H0. congruence.
Qed.

Lemma relates_given P R R' j l l' :
  relates R l l' -> server_is P j l -> (forall i st st', (i = j -> P st) -> R i st st' -> R' i st st') -> relates R' l l'.
Proof.
  intros H Hp HR. induction H as [|s s' l l' [Hi Hs] _ IH]; [constructor|]. inversion_clear Hp.
  constructor; [|by apply IH]. split; [done|]. by apply HR.
Qed.

Lemma start_nexts tv c r c' j :
  distinct c -> settled j (servers c) -> registration_start tv c false = Some (r, c') ->
  relates (nexts j) (servers c) (servers c').
Proof.
  intros Hd Hj H%start_relates; [|done]. eapply relates_given; [exact H|exact Hj|].
  intros i st st' Hi. inversion 1; subst; [by left|]. right. rename H2 into Ht.
  assert (st = STATE_DEREGISTERED) as -> by (by destruct st). split_and!; [|done|done]. intros E. by apply Hi.
Qed.

Lemma fail_ordered_relates j o n : forall c (k : nat) c',
  distinct c -> settled j (servers c) -> fail_ordered n c k o = Some c' -> relates (fails j) (servers c) (servers c').
Proof.
  induction n as [|n IH]; intros c k c' Hd Hj H; cbn [fail_ordered] in H.
  { runs H. apply relates_refl, fails_refl. }
  mb H s Hs. case_bool_decide as Es; [|by eapply IH]. apply list_elem_of_lookup_2 in Hs.
  mb H p Hp. destruct p as [[[r ordered] order] c1].
  pose proof (user_only_servers _ _ (order_user _ _ _ _ _ _ _ Hp)) as E1. mb H c2 H2.
  assert (relates (fails j) (servers c) (servers c2)) as R2.
  { rewrite <- E1 in *. destruct (r =? _); [|runs H2; apply relates_refl, fails_refl].
    mb H2 b Hb. runs H2. destruct b; [|apply relates_refl, fails_refl].
    eapply upd_relates; [unfold distinct in *; congruence|exact Hs|done|apply fails_refl|done|].
    right. split; [right; split; [|done]|by right]. intros E. by eapply (server_is_in _ _ _ _ Hj Hs E). }
  assert (settled j (servers c2)) as Hj2.
  { eapply server_is_relates; [exact R2| |exact Hj]. intros st st' [->|[[[? ->]|[? ->]] [->| ->]]]; done. }
  eapply IH in H; [|by eapply relates_distinct|done].
  eapply relates_trans; [exact R2|exact H|apply fails_trans].
Qed.

Lemma fails_from j i st st' : i = j -> st = STATE_REG_PENDING -> st' = STATE_REG_HOLD_OFF \/ st' = STATE_REG_FAILED ->
  fails j i st st'.
Proof. intros -> -> H. right. auto. Qed.

(** Writing the status of a server of which [P] holds. *)
Lemma write_relates (P : lwm2m_status_t -> Prop) (R : Z -> lwm2m_status_t -> lwm2m_status_t -> Prop) c j
    (f : server_info -> server_info) :
  server_is P j (servers c) -> (forall i st, R i st st) ->
  (forall x, P (srv_status x) -> R j (srv_status x) (srv_status (f x))) ->
  relates R (servers c) (servers (upd_info c j f)).
Proof.
  intros Hp HR Hf. unfold upd_info, upd_server, set_servers, servers, update in *. cbn. induction Hp as [|s l Hs Hl IH]; cbn; constructor; [|done].
  destruct (secObjInstID s =? j) eqn:E; [|split; [done|apply HR]].
  assert (id_of s = j) as Ej by (unfold id_of; lia). split; [done|]. rewrite Ej. by apply Hf, Hs.
Qed.

(** A pending server fails, or waits. *)
Lemma fail_relates c j (f : server_info -> server_info) :
  pending j (servers c) -> (forall i, srv_status (f i) = STATE_REG_HOLD_OFF \/ srv_status (f i) = STATE_REG_FAILED) ->
  relates (fails j) (servers c) (servers (upd_info c j f)).
Proof. intros Hp Hf. apply (write_relates _ _ _ _ _ Hp); [apply fails_refl|]. intros x Hx. by apply fails_from. Qed.

Lemma fails_settled j l l' : relates (fails j) l l' -> settled j l -> settled j l'.
Proof. intros R. eapply server_is_relates; [exact R|]. intros st st' [->|[_ [->| ->]]]; done. Qed.
Lemma nexts_pending j l l' : relates (nexts j) l l' -> pending j l -> pending j l'.
Proof. intros R. eapply server_is_relates; [exact R|]. by intros st st' [->|[? _]]. Qed.

Lemma user_only_distinct c c' : user_only c c' -> distinct c -> distinct c'.
Proof. unfold distinct. by intros ->%user_only_servers. Qed.

Lemma sequence_order_relates tv c o s x y c' j :
  distinct c -> settled j (servers c) -> sequence_order tv c o s = Some (x, y, c') ->
  relates (nexts j) (servers c) (servers c').
Proof.
  intros Hd Hj H. unfold sequence_order in H. mb H p Hp. destruct p as [[[r ordered] order] c1].
  pose proof (order_user _ _ _ _ _ _ _ Hp) as U1. rewrite <- (user_only_servers _ _ U1) in *.
  destruct (_ && _); [|runs H; apply relates_refl, nexts_refl]. mb H p2 Hp2. destruct p2 as [[r2 blocking] c2].
  assert (user_only c1 c2) as U2 by (by eapply read_flag_user).
  rewrite <- (user_only_servers _ _ U2) in *. mb H s2 Hs2. mb H c3 Hc3. runs H.
  destruct (_ && _); [|runs Hc3; apply relates_refl, nexts_refl]. mb Hc3 p3 Hp3. destruct p3 as [r3 c4]. runs Hc3.
  eapply start_nexts; [|done|exact Hp3]. by eapply user_only_distinct, user_only_distinct.
Qed.

Lemma sequence_failure_relates tv c o j c' :
  distinct c -> pending j (servers c) -> prv_handleRegistrationSequenceFailure tv c o j = Some c' ->
  relates (fails j) (servers c) (servers c').
Proof.
  intros Hd Hj H. unfold prv_handleRegistrationSequenceFailure in H. mb H s Hs. mb H p Hp. destruct p as [[ordered blocking] c1].
  apply (sequence_order_relates _ _ _ _ _ _ _ j) in Hp as R1; [|done|by apply pending_settled].
  pose proof (nexts_pending _ _ _ R1 Hj) as Hj1. pose proof (relates_distinct _ _ _ R1 Hd) as Hd1.
  mb H p2 Hp2. destruct p2 as [[r limit] c2]. assert (user_only c1 c2) as U2 by (by eapply limit_user).
  pose proof (user_only_distinct _ _ U2 Hd1) as Hd2. rewrite <- (user_only_servers _ _ U2) in *.
  eapply relates_trans; [eapply relates_impl; [exact R1|apply nexts_fails]| |apply fails_trans].
  destruct (r =? _); [|runs H; by apply fail_relates; [|intros; right]].
  mb H lim Hlim. destruct lim as [sequenceLimit sequenceDelay]. mb H s2 Hs2.
  destruct (_ <=? _).
  2:{ runs H. eapply (relates_trans _ _ _ _ (hold_off c2 j (s64 (tv + sequenceDelay)))); [| |apply fails_trans].
      - apply fail_relates; [exact Hj1|]. intros. by left.
      - by apply reset_relates; [apply fails_refl|]. }
  set (c3 := set_status _ _ _) in *.
  assert (relates (fails j) (servers c2) (servers c3)) as R3 by (apply fail_relates; [done|by intros; right]).
  mb H p3 Hp3. destruct p3 as [[r3 bootstrap] c4]. assert (user_only c3 c4) as U4 by (by eapply read_flag_user).
  pose proof (user_only_distinct _ _ U4 (relates_distinct _ _ _ R3 Hd2)) as Hd4.
  pose proof (fails_settled _ _ _ R3 (pending_settled _ _ Hj1)) as Hj4. rewrite <- (user_only_servers _ _ U4) in *.
  eapply relates_trans; [exact R3| |apply fails_trans].
  destruct (_ || _); [runs H; apply (relates_refl _ c4), fails_refl|].
  destruct (_ && _); [by eapply fail_ordered_relates|runs H; apply relates_refl, fails_refl].
Qed.

Lemma attempt_failure_relates tv c j c' :
  distinct c -> pending j (servers c) -> prv_handleRegistrationAttemptFailure tv c j = Some c' ->
  relates (fails j) (servers c) (servers c').
Proof.
  intros Hd Hj H. unfold prv_handleRegistrationAttemptFailure in H.
  destruct (find_object _ _) as [o|]; [|runs H; by apply fail_relates; [|intros; right]].
  mb H s Hs. mb H p Hp. destruct p as [[r limit] c1]. assert (user_only c c1) as U1 by (by eapply limit_user).
  pose proof (user_only_distinct _ _ U1 Hd) as Hd1. rewrite <- (user_only_servers _ _ U1) in *.
  destruct (r =? _); [|runs H; by apply fail_relates; [|intros; right]].
  mb H lim Hlim. destruct lim as [attemptLimit attemptDelay]. mb H s1 Hs1.
  destruct (_ <=? _); [by eapply sequence_failure_relates|]. destruct (_ && _); [|done]. runs H.
  by apply fail_relates; [|intros; left].
Qed.

Lemma start_next_relates tv c j c' :
  distinct c -> settled j (servers c) -> start_next tv c j = Some c' -> relates (nexts j) (servers c) (servers c').
Proof.
  intros Hd Hj H. unfold start_next in H. destruct (find_object _ _) as [o|]; [|runs H; apply relates_refl, nexts_refl].
  mb H s Hs. mb H p Hp. destruct p as [[[r ordered] order] c1].
  assert (user_only c c1) as U1 by (by eapply order_user).
  pose proof (user_only_distinct _ _ U1 Hd) as Hd1. rewrite <- (user_only_servers _ _ U1) in *.
  mb H b Hb. destruct b; [|runs H; apply relates_refl, nexts_refl]. mb H s1 Hs1. destruct (_ =? 1).
  - mb H p2 Hp2. destruct p2 as [r2 c2]. runs H. by eapply start_nexts.
  - mb H p2 Hp2. destruct p2 as [[r2 blocking] c2]. assert (user_only c1 c2) as U2 by (by eapply read_flag_user).
    pose proof (user_only_distinct _ _ U2 Hd1) as Hd2. rewrite <- (user_only_servers _ _ U2) in *.
    mb H b2 Hb2. destruct (negb b2); [|runs H; apply relates_refl, nexts_refl].
    mb H p3 Hp3. destruct p3 as [r3 c3]. runs H. by eapply start_nexts.
Qed.

Lemma set_registration_relates R tv c j :
  (forall i st, R i st st) -> relates R (servers c) (servers (set_registration tv c j)).
Proof. intros HR. unfold set_registration. destruct (_ <=? _); [by apply reset_relates|by apply relates_refl]. Qed.

Lemma reply_relates tv c t p c' :
  distinct c -> prv_handleRegistrationReply junk tv c t p = Some c' ->
  relates (moves (Reply t p)) (servers c) (servers c').
Proof.
  intros Hd H. unfold prv_handleRegistrationReply in H. mb H u Hu. mb H j Hj. mb H s Hs.
  assert (userData t ≫= data_server = Some j) as Ht by by rewrite Hu. apply find_server_in in Hs as [Hs Hi].
  case_bool_decide as Ep; [|runs H; by apply (relates_refl _ c), stays].
  assert (pending j (servers c)) as Hp0 by (by eapply server_is_found).
  clear dependent s.
  set (c0 := set_registration _ _ _) in *.
  assert (relates (fun _ st st' => st' = st) (servers c) (servers c0)) as R0 by by apply set_registration_relates.
  pose proof (relates_distinct _ _ _ R0 Hd) as Hd0.
  assert (pending j (servers c0)) as Hp by (eapply server_is_relates; [exact R0| |exact Hp0]; by intros ? ? ->).
  assert (forall c1, ~ answers COAP_201_CREATED p -> relates (fails j) (servers c0) (servers c1) ->
    relates (moves (Reply t p)) (servers c) (servers c1)) as Hfail.
  { intros c1 Hn R1. eapply relates_trans; [exact R0|exact R1|].
    intros i st ? st' -> [->|[[[-> ->]|[Hij ->]] Hst]]; [apply stays|by eapply refused|].
    destruct Hst as [->| ->]; [by eapply next_planned|by eapply blocked]. }
  destruct p as [m|].
  - destruct (goes_on m); [runs H; eapply relates_impl; [exact R0|intros i st ? ->; apply stays]|].
    mb H c2 H2. runs H. change (servers (free_userData c2 t)) with (servers c2). destruct (code m =? COAP_201_CREATED) eqn:Ec.
    + mb H2 path Hpath. set (c1 := upd_info _ _ _) in *.
      assert (relates (moves (Reply t (Some m))) (servers c0) (servers c1)) as R1.
      { eapply write_relates; [exact Hp|apply stays|]. intros x ->. apply accepted; [done|]. exists m. split; [done|lia]. }
      assert (settled j (servers c1)) as Hj1.
      { eapply server_is_relates; [exact R1| |exact Hp]. intros st st' Hm ->. by inversion Hm; subst; try done; intros ->; intuition. }
      apply (start_next_relates _ _ j) in H2; [|by eapply relates_distinct|done].
      eapply relates_trans; [exact R0| |by intros i st ? st' ->; exact id].
      eapply relates_trans; [exact R1|exact H2|].
      intros i st1 st2 st3 Hm [->|(Hij & -> & ->)]; [done|]. inversion Hm; subst; [by eapply next_planned|intuition congruence].
    + eapply Hfail; [|by eapply attempt_failure_relates]. intros (m' & [= <-] & E). lia.
  - mb H c2 H2. runs H. change (servers (free_userData c2 t)) with (servers c2). eapply Hfail; [by intros (? & ? & ?)|by eapply attempt_failure_relates].
Qed.

Lemma update_reply_relates tv c t p c' :
  distinct c -> prv_handleRegistrationUpdateReply tv c t p = Some c' ->
  relates (moves (UpdateReply t p)) (servers c) (servers c').
Proof.
  intros Hd H. unfold prv_handleRegistrationUpdateReply in H. mb H u Hu. mb H j Hj. mb H s Hs.
  assert (userData t ≫= data_server = Some j) as Ht by by rewrite Hu. apply find_server_in in Hs as [Hs Hi].
  assert (forall c, servers match p with Some m => if negb (code m =? COAP_231_CONTINUE) then free_userData c t else c
                            | None => c end = servers c) as Hfin by (intros; destruct p; [by destruct (negb _)|done]).
  case_bool_decide as Ep; [|runs H; rewrite Hfin; by apply relates_refl, stays].
  assert (server_is (fun st => st = STATE_REG_UPDATE_PENDING) j (servers c)) as Hp0 by (by eapply server_is_found).
  clear dependent s. set (c0 := set_registration _ _ _) in *.
  assert (relates (fun _ st st' => st' = st) (servers c) (servers c0)) as R0 by by apply set_registration_relates.
  assert (server_is (fun st => st = STATE_REG_UPDATE_PENDING) j (servers c0)) as Hp
    by (eapply server_is_relates; [exact R0| |exact Hp0]; by intros ? ? ->).
  assert (forall X, moves (UpdateReply t p) j STATE_REG_UPDATE_PENDING X ->
    relates (moves (UpdateReply t p)) (servers c) (servers (set_status c0 j X))) as Hset.
  { intros X HX. eapply relates_trans; [exact R0| |by intros i st ? st' ->; exact id].
    eapply write_relates; [exact Hp|apply stays|]. by intros x ->. }
  destruct p as [m|].
  - destruct (goes_on m); [runs H; eapply relates_impl; [exact R0|intros i st ? ->; apply stays]|].
    apply (inj Some) in H as <-. rewrite Hfin. apply Hset. destruct (code m =? COAP_204_CHANGED) eqn:E.
    + apply updated; [done|]. exists m. split; [done|lia].
    + apply update_failed; [done|]. intros (m' & [= <-] & ?). lia.
  - runs H. apply Hset, update_failed; [done|]. by intros (? & ? & _).
Qed.

Lemma deregister_reply_relates c t c' :
  distinct c -> prv_handleDeregistrationReply c t = Some c' ->
  relates (moves (DeregisterReply t)) (servers c) (servers c').
Proof.
  intros Hd H. unfold prv_handleDeregistrationReply in H. destruct (userData t) as [u|] eqn:Hu; [|runs H; by apply relates_refl, stays].
  mb H j Hj. mb H s Hs. apply find_server_in in Hs as [Hs Hi]. apply (inj Some) in H as <-.
  case_bool_decide as Ep; [|by apply relates_refl, stays].
  assert (server_is (fun st => st = STATE_DEREG_PENDING) j (servers c)) as Hp by (by eapply server_is_found).
  eapply write_relates; [exact Hp|apply stays|]. intros x ->. apply deregistered. by rewrite Hu.
Qed.

Lemma mark_relates id w l : relates (moves (Update id w)) l (map (mark_update w) l).
Proof.
  apply list.Forall2_fmap_r, list.Forall_Forall2_diag, list.Forall_true. intros s. cbn. unfold mark_update.
  destruct (srv_status (server_rest s)) eqn:E; (split; [done|]); try apply stays; unfold st_of; rewrite E; apply asked; auto.
Qed.

Lemma update_relates c id w r c' :
  distinct c -> servers c <> [] -> lwm2m_update_registration c id w = Some (r, c') ->
  relates (moves (Update id w)) (servers c) (servers c').
Proof.
  intros Hd Hn H. unfold lwm2m_update_registration in H. destruct (servers c) as [|x l] eqn:El; [done|].
  rewrite <- El in *. clear El. destruct (id =? 0); [runs H; apply mark_relates|].
  destruct (list_find _ _) as [[k s]|] eqn:Ef; [|runs H; by apply relates_refl, stays].
  apply list_find_Some in Ef as (Hk%list_elem_of_lookup_2 & _).
  destruct (update_status _ _) as [st|] eqn:Es; [|runs H; by apply relates_refl, stays]. runs H.
  eapply upd_relates; [done|exact Hk|done|apply stays|done|]. unfold st_of in *. cbn.
  destruct (srv_status (server_rest s)); try done; cbn in Es; apply (inj Some) in Es as <-;
    destruct w; first [apply stays|apply asked_full|apply (asked _ _ true); by auto|apply (asked _ _ false); by auto].
Qed.

(** ** Requests *)

(** The next [n] message identifiers are not used by a transaction. *)
Definition fresh (n : nat) c : Prop :=
  0 <= nextMID c < 65536 /\ list_strict (transactionList c) /\
  forall k, 0 <= k < Z.of_nat n -> Forall (fun t => mID t <> u16 (nextMID c + k)) (transactionList c).

Lemma add_mid (l : list transaction) t :
  list_strict l -> Forall (fun x => mID x <> mID t) l ->
  exists l1 l2, lwm2m_list_add l t [] = l1 ++ t :: l2 /\ list_strict (l1 ++ t :: l2) /\ Permutation (l1 ++ l2) l.
Proof.
  intros Hs Hf. pose proof (add_perm l t [] (fun _ => eq_refl)) as Hp.
  assert (t ∈ lwm2m_list_add l t []) as (l1 & l2 & E)%list_elem_of_split by (rewrite Hp; constructor).
  exists l1, l2. rewrite <- E. split; [done|]. split.
  - apply sorted_distinct_strict; [apply add_sorted; auto using strict_sorted|]. rewrite Hp. cbn. constructor; [|by apply strict_NoDup].
    intros (x & Hx & Hin)%list_elem_of_fmap. rewrite list.Forall_forall in Hf. by apply (Hf x).
  - rewrite E, <- Permutation_middle in Hp. by apply Permutation_cons_inv in Hp.
Qed.

Lemma prepare_kept t r :
  prepare junk t = Some r ->
  if r is Some t' then mID t' = mID t /\ ack_received t' = ack_received t /\ retrans_counter t' = retrans_counter t else True.
Proof. unfold prepare. intros H. runs H; done. Qed.

(** A new transaction is sent without its callback being called. *)
Lemma send_new tv c t l1 l2 r c' :
  0 <= tv -> transactionList c = l1 ++ t :: l2 -> list_strict (l1 ++ t :: l2) ->
  ack_received t = false -> retrans_counter t = 0 -> transaction_send junk tv c (mID t) = Some (r, c') ->
  rest c' = rest c /\ nextMID c' = nextMID c /\
  (transactionList c' = l1 ++ l2 \/ exists t', mID t' = mID t /\ transactionList c' = l1 ++ t' :: l2).
Proof.
  intros Htv Hl Hs Ha Hr H. unfold transaction_send in H. rewrite Hl, find_mid in H by done. mb H t0 Ht0.
  injection Ht0 as <-. mb H t1 Ht1. apply prepare_kept in Ht1. destruct t1 as [t1|].
  2:{ runs H. split; [done|]. split; [done|]. left. unfold transaction_remove, update. cbn. rewrite Hl. by apply remove_mid. }
  destruct Ht1 as (Hm1 & Ha1 & Hr1). rewrite Ha1, Ha, Hr1, Hr in H. cbn [negb] in H. rewrite (proj2 (Z.leb_le 0 tv) Htv) in H.
  cbn in H. mb H p Hp. mb Hp b Hb. mb Hp data Hdata. apply (inj Some) in Hp as <-. apply (inj Some) in H as [= <- <-].
  split; [done|]. split; [done|]. right.
  destruct (store_ok c l1 t t1 l2 Hl Hs Hm1) as (L1 & _). cbn.
  cbn in L1. rewrite L1. match goal with |- exists _, _ /\ map (fun t0 => if _ then ?t2 else _) _ = _ =>
    exists t2; split; [exact Hm1|]; apply (map_mid l1 t1 t2 l2); [by eapply strict_replace|done] end.
Qed.

Lemma send_frame tv c t r c' :
  0 <= tv -> list_strict (transactionList c) -> Forall (fun x => mID x <> mID t) (transactionList c) ->
  ack_received t = false -> retrans_counter t = 0 -> add_and_send junk tv c t = Some (r, c') ->
  rest c' = rest c /\ nextMID c' = nextMID c /\ list_strict (transactionList c') /\
  forall m, m <> mID t -> Forall (fun x => mID x <> m) (transactionList c) -> Forall (fun x => mID x <> m) (transactionList c').
Proof.
  intros Htv Hs Hf Ha Hr H. unfold add_and_send in H.
  destruct (add_mid _ _ Hs Hf) as (l1 & l2 & E & Hl & Hp). 
  match type of H with transaction_send _ _ ?c1 _ = _ =>
    destruct (send_new tv c1 t l1 l2 r c' Htv E Hl Ha Hr H) as (H1 & H2 & H3) end.
  split; [done|]. split; [done|]. destruct H3 as [->|(t' & Ht' & ->)].
  - split; [by eapply strict_delete|]. intros m _ Hm. by rewrite Hp.
  - split; [by eapply strict_replace|]. intros m Hn Hm. rewrite <- Permutation_middle. constructor; [congruence|]. by rewrite Hp.
Qed.

Lemma fresh_less n c : fresh (S n) c -> fresh n c.
Proof. intros (H1 & H2 & H3). split; [done|]. split; [done|]. intros k Hk. apply H3. lia. Qed.

Lemma u16_add a b : u16 (u16 a + b) = u16 (a + b).
Proof. unfold wrap. by rewrite Zplus_mod_idemp_l. Qed.

(** The context after a request has been made with the next identifier. *)
Definition after_request c : context := c <| nextMID := u16 (nextMID c + 1) |>.

Lemma fresh_after n c c' :
  fresh (S n) c -> nextMID c' = u16 (nextMID c + 1) -> transactionList c' = transactionList c -> fresh n c'.
Proof.
  intros (H1 & H2 & H3) Hn Ht. split; [rewrite Hn; by apply wrap_bound|]. rewrite Ht. split; [done|].
  intros k Hk. specialize (H3 (k + 1)). rewrite Hn, u16_add. replace (nextMID c + 1 + k) with (nextMID c + (k + 1)) by lia.
  apply H3. lia.
Qed.

Lemma transaction_new_ok tv tail h m mid_ t :
  transaction_new junk tv tail (Some h) m None None mid_ 4 None = Some (Some t) ->
  mID t = mid_ /\ ack_received t = false /\ retrans_counter t = 0.
Proof. unfold transaction_new. intros H. cbn in H. by runs H. Qed.

Lemma new_request_ok tv c h m r c1 :
  new_request junk tv c h m = Some (r, c1) ->
  c1 = after_request c /\
  if r is Some t then mID t = nextMID c /\ ack_received t = false /\ retrans_counter t = 0 else True.
Proof.
  unfold new_request. intros (t0 & Ht & [= <- <-])%bind_Some. split; [done|].
  destruct t0 as [t0|]; [|done]. by eapply transaction_new_ok.
Qed.

Lemma set_payload_kept size t data n ok t' :
  transaction_set_payload size t data n = Some (ok, t') ->
  mID t' = mID t /\ ack_received t' = ack_received t /\ retrans_counter t' = retrans_counter t.
Proof. unfold transaction_set_payload. intros H. runs H; done. Qed.

(** A request that is sent with the next identifier. *)
Lemma request_sent n tv c c1 t r c' :
  0 <= tv -> fresh (S n) c -> nextMID c1 = u16 (nextMID c + 1) -> transactionList c1 = transactionList c ->
  mID t = nextMID c -> ack_received t = false -> retrans_counter t = 0 -> Z.of_nat n < 65536 ->
  add_and_send junk tv c1 t = Some (r, c') -> rest c' = rest c1 /\ fresh n c'.
Proof.
  intros Htv Hf Hn Ht Hm Ha Hr Hb H. pose proof (fresh_after _ _ _ Hf Hn Ht) as (H1 & H2 & H3).
  destruct Hf as (F1 & F2 & F3). apply send_frame in H as (S1 & S2 & S3 & S4); [|done|done| |done|done].
  2:{ rewrite Ht, Hm. specialize (F3 0 ltac:(lia)). by rewrite Z.add_0_r, wrap_small in F3. }
  split; [done|]. split; [by rewrite S2|]. split; [done|]. rewrite S2. intros k Hk. apply S4; [|by apply H3].
  rewrite Hm, Hn, u16_add. unfold wrap. rewrite <- (Z.mod_small (nextMID c) (2 ^ 16)) at 2 by lia. dlia.
Qed.

(** The servers of a context whose world is kept. *)
Lemma rest_servers c c' : rest c' = rest c -> servers c' = servers c.
Proof. unfold servers. by intros ->. Qed.

Lemma open_session_ok c i h c' :
  open_session c i = Some (h, c') ->
  relates (fun _ st st' => st' = st) (servers c) (servers c') /\
  nextMID c' = nextMID c /\ transactionList c' = transactionList c.
Proof.
  unfold open_session. intros (s & _ & H)%bind_Some. destruct (session_is_null _); runs H; (split; [|done]).
  - unfold upd_server, set_servers, servers, update. cbn.
    apply list.Forall2_fmap_r, list.Forall_Forall2_diag, list.Forall_true. intros x. cbn. by destruct (_ =? _).
  - by apply relates_refl.
Qed.

Lemma register_relates n now d tv c i r c' :
  0 <= tv -> fresh (S n) c -> Z.of_nat n < 65536 -> server_is (fun st => st = STATE_REG_HOLD_OFF) i (servers c) ->
  prv_register junk tv c i = Some (r, c') -> relates (moves (Step now d)) (servers c) (servers c') /\ fresh n c'.
Proof.
  intros Htv Hf Hn Hst H. unfold prv_register in H. mb H s Hs. mb H p Hp.
  assert (relates (moves (Step now d)) (servers c) (servers c) /\ fresh n c) as H0
    by (split; [apply relates_refl, stays|by apply fresh_less]).
  destruct p as [p|]; [|by runs H]. mb H q Hq. destruct q as [q|]; [|by runs H].
  mb H o Ho. destruct o as [h c1]. apply open_session_ok in Ho as (R1 & N1 & T1).
  assert (relates (moves (Step now d)) (servers c) (servers c1)) as R
    by (eapply relates_impl; [exact R1|intros j st ? ->; apply stays]).
  assert (fresh n (after_request c1)) as Hf1 by (apply (fresh_after n c); [done|cbn; by rewrite N1|done]).
  destruct (session_is_null h).
  { runs H. split; [done|]. destruct (fresh_less _ _ Hf) as (F1 & F2 & F3). split; [by rewrite N1|]. by rewrite T1, N1. }
  mb H x Hx. destruct x as [t c2]. apply new_request_ok in Hx as [-> Ht]. destruct t as [t|]; [|by runs H].
  mb H m1 H1. destruct m1 as [? m1]. mb H m2 H2. destruct m2 as [? m2]. mb H m3 H3. destruct m3 as [? m3].
  mb H y Hz. destruct y as [ok t1]. apply set_payload_kept in Hz as (Z1 & Z2 & Z3). destruct Ht as (M1 & M2 & M3).
  destruct (negb ok); [by runs H|]. destruct (negb _); [by runs H|]. mb H w Hw. destruct w as [r1 c3].
  eapply (request_sent n tv c) in Hw as [W1 W2]; [|done|done|cbn; by rewrite N1|done|cbn in *; congruence|cbn in *; congruence|cbn in *; congruence|done].
  assert (servers c3 = servers c1) as Es by by apply rest_servers.
  destruct (negb _); runs H; [by rewrite Es|]. split; [|done].
  eapply relates_trans; [exact R1| |by intros j st ? st' ->; exact id]. rewrite <- Es.
  eapply (write_relates (fun st => st = STATE_REG_HOLD_OFF)); [rewrite Es|apply stays|].
  - eapply server_is_relates; [exact R1| |exact Hst]. by intros ? ? ->.
  - intros x ->. apply sends.
Qed.

Lemma updateRegistration_relates n now d tv c i w r c' :
  0 <= tv -> fresh (S n) c -> Z.of_nat n < 65536 ->
  server_is (fun st => st = STATE_REGISTERED \/ st = STATE_REG_UPDATE_NEEDED \/ st = STATE_REG_FULL_UPDATE_NEEDED) i (servers c) ->
  prv_updateRegistration junk tv c i w = Some (r, c') -> relates (moves (Step now d)) (servers c) (servers c') /\ fresh n c'.
Proof.
  intros Htv Hf Hn Hst H. unfold prv_updateRegistration in H. mb H s Hs.
  mb H x Hx. destruct x as [t c2]. apply new_request_ok in Hx as [-> Ht].
  assert (relates (moves (Step now d)) (servers c) (servers (after_request c)) /\ fresh n (after_request c)) as H0
    by (split; [apply (relates_refl _ c), stays|by apply (fresh_after n c)]).
  destruct t as [t|]; [|by runs H]. mb H p Hp. mb H m Hm. destruct m as [? m]. mb H t1 Ht1.
  destruct t1 as [t1|]; [|by runs H].
  assert (mID t1 = mID t /\ ack_received t1 = ack_received t /\ retrans_counter t1 = retrans_counter t) as (M1 & M2 & M3).
  { destruct w; [|by runs Ht1]. mb Ht1 q Hq. destruct q as [q|]; [|done]. mb Ht1 y Hz. destruct y as [ok t2].
    apply set_payload_kept in Hz. destruct ok; [|done]. by runs Ht1. }
  destruct Ht as (N1 & N2 & N3). destruct (negb _); [by runs H|]. mb H y Hy. destruct y as [r1 c3].
  eapply (request_sent n tv c) in Hy as [W1 W2]; [|done|done|done|done|cbn in *; congruence|cbn in *; congruence|cbn in *; congruence|done].
  assert (servers c3 = servers c) as Es by by apply rest_servers.
  runs H. split; [|by destruct (_ =? 0)]. destruct (_ =? 0); [|rewrite Es; apply relates_refl, stays]. rewrite <- Es in *.
  eapply write_relates; [exact Hst|apply stays|]. intros x Hx. by apply sends_update.
Qed.

Lemma deregister_relates tv c i c' :
  0 <= tv -> distinct c -> fresh 1 c -> registration_deregister junk tv c i = Some c' ->
  relates (moves (Deregister i)) (servers c) (servers c').
Proof.
  intros Htv Hd Hf H. unfold registration_deregister in H. mb H s Hs. apply find_server_in in Hs as [Hs Hi].
  assert (relates (moves (Deregister i)) (servers c) (servers c)) as H0 by apply relates_refl, stays.
  set (P := fun st => ~ (st = STATE_DEREGISTERED \/ st = STATE_REG_PENDING \/ st = STATE_DEREG_PENDING \/ st = STATE_REG_FAILED)).
  assert (forall path, P (st_of s) -> ('(t, contextP) ← new_request junk tv c (sessionH s) COAP_DELETE;
      match t with
      | None => ret contextP
      | Some t =>
          '(_, m) ← coap_set_header_uri_path (message t) path;
          '(r, contextP) ← add_and_send junk tv contextP
            (t <| message := m |> <| callback := Some deregistration_callback |> <| userData := Some (server_data i) |>);
          ret (if r =? 0 then set_status contextP i STATE_DEREG_PENDING else contextP)
      end) = Some c' -> relates (moves (Deregister i)) (servers c) (servers c')) as Hsend.
  { clear H. intros path HPs H. mb H x Hx. destruct x as [t c2]. apply new_request_ok in Hx as [-> Ht].
    destruct t as [t|]; [|by runs H]. mb H m Hm. destruct m as [? m]. mb H y Hy. destruct y as [r1 c3]. destruct Ht as (N1 & N2 & N3).
    eapply (request_sent 0 tv c) in Hy as [W1 W2]; [|done|done|done|done|done|done|done|done].
    assert (servers c3 = servers c) as Es by by apply rest_servers. runs H.
    destruct (_ =? 0); [|by rewrite Es]. rewrite <- Es in *.
    eapply (upd_relates _ c3); [unfold distinct in *; congruence|exact Hs|done|apply stays|done|].
    by apply leaves. }
  destruct (srv_status (server_rest s)) eqn:Est; destruct (location (server_rest s)) as [path|]; try (by runs H);
    apply (Hsend path); try done; unfold P, st_of; rewrite Est; intuition congruence.
Qed.

(** ** The step *)

Lemma step_trans now d i st1 st2 st3 :
  moves (Step now d) i st1 st2 -> moves (Step now d) i st2 st3 -> moves (Step now d) i st1 st3.
Proof. inversion 1; [done| |]; inversion 1; subst; try by constructor. all: intuition congruence. Qed.

Lemma step_server_relates n tv c now timeout s r c' d :
  0 <= tv -> distinct c -> fresh (S n) c -> Z.of_nat n < 65536 -> s ∈ servers c ->
  step_server junk tv c now timeout s = Some (r, c') -> relates (moves (Step now d)) (servers c) (servers c') /\ fresh n c'.
Proof.
  intros Htv Hd Hf Hn Hs H.
  assert (relates (moves (Step now d)) (servers c) (servers c) /\ fresh n c) as H0
    by (split; [apply relates_refl, stays|by apply fresh_less]).
  assert (forall w r1 c1, (st_of s = STATE_REGISTERED \/ st_of s = STATE_REG_UPDATE_NEEDED \/ st_of s = STATE_REG_FULL_UPDATE_NEEDED) ->
    prv_updateRegistration junk tv c (secObjInstID s) w = Some (r1, c1) ->
    relates (moves (Step now d)) (servers c) (servers c1) /\ fresh n c1) as Hup.
  { intros w r1 c1 Hst Hu. eapply updateRegistration_relates in Hu; [exact Hu|done|done|done|]. by eapply server_is_found. }
  unfold step_server in H. unfold st_of in Hup. destruct (srv_status (server_rest s)) eqn:Est; try (by runs H).
  - destruct (_ <=? 0); [|by runs H]. mb H x Hx. destruct x as [r1 c1]. runs H.
    eapply register_relates in Hx; [exact Hx|done|done|done|]. by eapply server_is_found.
  - destruct (_ <=? 0); [|by runs H]. mb H x Hx. destruct x as [r1 c1]. runs H. eapply Hup; [|exact Hx]. auto.
  - runs H. destruct (session_is_null _); [done|]. split; [|apply H0].
    by eapply upd_relates; [done|exact Hs|done|apply stays|done|apply stays].
  - mb H x Hx. destruct x as [r1 c1]. runs H. eapply Hup; [|exact Hx]. auto.
  - mb H x Hx. destruct x as [r1 c1]. runs H. eapply Hup; [|exact Hx]. auto.
Qed.

Lemma step_loop_relates tv now d n : forall c (i : nat) timeout r c',
  0 <= tv -> distinct c -> fresh n c -> Z.of_nat n <= 65536 ->
  Registration.step_loop junk n tv c i now timeout = Some (r, c') -> relates (moves (Step now d)) (servers c) (servers c').
Proof.
  induction n as [|n IH]; intros c i timeout r c' Htv Hd Hf Hn H; cbn [Registration.step_loop] in H.
  { runs H. apply relates_refl, stays. }
  mb H s Hs. apply list_elem_of_lookup_2 in Hs. mb H x Hx. destruct x as [timeout1 c1].
  eapply (step_server_relates n) in Hx as [R1 F1]; [|done|done|done|lia|done].
  apply IH in H; [|done|by eapply relates_distinct|done|lia].
  eapply relates_trans; [exact R1|exact H|apply step_trans].
Qed.

(** ** The refinement *)

(** The servers have distinct identifiers and the next message identifiers are
    not those of transactions. *)
Definition client_ok c : Prop :=
  distinct c /\ servers c <> [] /\ len (servers c) <= 65536 /\ fresh (length (servers c)) c.

Lemma fresh_one n c : fresh n c -> (0 < n)%nat -> fresh 1 c.
Proof. intros (H1 & H2 & H3) Hn. split; [done|]. split; [done|]. intros k Hk. apply H3. lia. Qed.

Lemma exec_relates tv e c c' :
  0 <= tv -> client_ok c -> exec tv e c = Some c' -> relates (moves e) (servers c) (servers c').
Proof.
  intros Htv (Hd & Hn & Hl & Hf) H. destruct e; cbn [exec] in H.
  - mb H x Hx. destruct x as [r c1]. runs H. by eapply start_relates.
  - by eapply reply_relates.
  - by eapply update_reply_relates.
  - by eapply deregister_reply_relates.
  - mb H x Hx. destruct x as [r c1]. runs H. by eapply update_relates.
  - eapply deregister_relates; [done|done| |done]. eapply fresh_one; [done|]. by destruct (servers c); [|cbn; lia].
  - mb H x Hx. destruct x as [r c1]. runs H. by eapply step_loop_relates.
Qed.

(** C5. The registration of a client refines the state machine [moves]: at
    every event (start, a reply or its absence, a request to update, a
    deregistration, the periodic step) the servers stay the same and each
    changes its status only by a move of the machine for that event.  So a
    server becomes registered only by an answer 2.01 to its pending request or
    2.04 to its pending update, an answer never touches another server but to
    start or to block its planned registration, and the step only sends. *)
Theorem registration_refines_machine tv e c c' :
  0 <= tv -> client_ok c -> exec tv e c = Some c' ->
  Forall2 (fun s s' => secObjInstID s' = secObjInstID s /\
    moves e (secObjInstID s) (srv_status (server_rest s)) (srv_status (server_rest s'))) (servers c) (servers c').
Proof. apply exec_relates. Qed.

(** ** Histories *)

(** The events of a client, the last one first, between which other components
    may do anything but change the servers. *)
Inductive history (c0 : context) : list event -> context -> Prop :=
  | begins : history c0 [] c0
  | happens tv e l c c' : history c0 l c -> 0 <= tv -> client_ok c -> exec tv e c = Some c' -> history c0 (e :: l) c'
  | elsewhere l c c' : history c0 l c -> servers c' = servers c -> history c0 l c'.

Definition counts_as_registered st : bool :=
  match st with
  | STATE_REGISTERED | STATE_REG_UPDATE_PENDING | STATE_REG_UPDATE_NEEDED | STATE_REG_FULL_UPDATE_NEEDED => true
  | _ => false
  end.

(** One of the events is the answer 2.01 of the server [i] to its registration. *)
Definition was_accepted (i : Z) (l : list event) : Prop :=
  exists t m, Reply t (Some m) ∈ l /\ userData t ≫= data_server = Some i /\ code m = COAP_201_CREATED.

Lemma accepted_more i e l : was_accepted i l -> was_accepted i (e :: l).
Proof. intros (t & m & H & ?). exists t, m. split; [by constructor|done]. Qed.

Lemma moves_registered e i st st' l :
  moves e i st st' -> (counts_as_registered st = true -> was_accepted i l) ->
  counts_as_registered st' = true -> was_accepted i (e :: l).
Proof.
  intros Hm Hl Hr. inversion Hm; subst; try done; try (by apply accepted_more, Hl);
    repeat match goal with H : _ \/ _ |- _ => destruct H; subst end; try done; try (by apply accepted_more, Hl).
  destruct H0 as (m & -> & Hc). exists t, m. split; [by constructor|done].
Qed.

(** C4. No registration without acceptance: whatever the client, its
    application and the network do, a server that was deregistered at the
    start counts as registered (it is sent updates and notifications) only
    when it has answered 2.01 to a registration request. *)
Theorem registered_was_accepted c0 l c s :
  Forall (fun s => srv_status (server_rest s) = STATE_DEREGISTERED) (servers c0) ->
  history c0 l c -> s ∈ servers c -> counts_as_registered (srv_status (server_rest s)) = true ->
  was_accepted (secObjInstID s) l.
Proof.
  intros H0 Hh. revert s. induction Hh as [|tv e l c c' Hh IH Htv Hok Hx|l c c' Hh IH Hs]; intros s Hin Hr.
  - rewrite list.Forall_forall in H0. by rewrite (H0 s Hin) in Hr.
  - apply exec_relates in Hx; [|done|done]. apply list_elem_of_lookup in Hin as [k Hk].
    apply (list.Forall2_lookup_r _ _ _ _ _ Hx) in Hk as (s0 & Hk & Hi & Hm). apply list_elem_of_lookup_2 in Hk.
    unfold id_of, st_of in *. rewrite Hi. eapply moves_registered; [exact Hm|intros Hc; by eapply IH|done].
  - rewrite Hs in Hin. by eapply IH.
Qed.
(** ** Retries *)

(** The Server object gives the settings of a server that is not ordered: the
    attempts and their delay, the sequences and their delay, and whether a
    failure asks for a bootstrap. *)
Record gives (c : context) (j inst : Z) (o : object) (L D S E : Z) (b : bool) : Prop := {
  gives_order : forall c1, user_only c c1 -> exists k c2,
    prv_getRegistrationOrder c1 inst o = Some (COAP_NO_ERROR, Some false, k, c2);
  gives_attempts : forall c1, user_only c c1 -> exists c2,
    prv_getRegistrationAttemptLimit c1 inst o = Some (COAP_NO_ERROR, Some (L, D), c2);
  gives_sequences : forall c1, user_only c c1 -> exists c2,
    prv_getRegistrationSequenceLimit c1 inst o = Some (COAP_NO_ERROR, Some (S, E), c2);
  gives_bootstrap : forall c1, user_only c c1 -> exists c2,
    prv_getBootstrapOnRegistrationFailure (set_status c1 j STATE_REG_FAILED) inst o = Some (COAP_NO_ERROR, Some b, c2) }.

Definition exhausted (L S : Z) (i : server_info) : bool := (L <=? attempt i) && (S <=? sequence i).
(** The server after a failure at the time [tv]. *)
Definition retried (tv L D S E : Z) (i : server_info) : server_info :=
  if attempt i <? L then i <| registration := tv + D * 2 ^ (attempt i - 1) |> <| srv_status := STATE_REG_HOLD_OFF |>
  else if sequence i <? S then
    i <| registration := tv + E |> <| srv_status := STATE_REG_HOLD_OFF |> <| attempt := 0 |>
  else i <| srv_status := STATE_REG_FAILED |>.

Lemma upd_upd c j (f g : server_info -> server_info) :
  servers (upd_info (upd_info c j f) j g) = servers (upd_info c j (fun i => g (f i))).
Proof.
  unfold upd_info, upd_server, set_servers, servers, update. cbn. rewrite map_map. apply map_ext. intros s.
  destruct (secObjInstID s =? j) eqn:Ej; cbn; by rewrite Ej.
Qed.

Lemma upd_same c j s (f g : server_info -> server_info) :
  distinct c -> s ∈ servers c -> id_of s = j -> f (server_rest s) = g (server_rest s) ->
  servers (upd_info c j f) = servers (upd_info c j g).
Proof.
  intros Hd Hs Hi Hfg. unfold upd_info, upd_server, set_servers, servers, update. cbn. apply map_ext_in.
  intros s' Hs'%list_elem_of_In. destruct (secObjInstID s' =? j) eqn:Ej; [|done].
  assert (s' = s) as ->; [|by rewrite Hfg]. eapply distinct_eq; [exact Hd|done|done|]. unfold id_of in *. lia.
Qed.

Lemma find_server_user c c1 j : user_only c c1 -> find_server c1 j = find_server c j.
Proof. unfold find_server. by intros ->%user_only_servers. Qed.

Lemma upd_user c c1 j f : user_only c c1 -> servers (upd_info c1 j f) = servers (upd_info c j f).
Proof. by intros [b ->]. Qed.
Lemma state_user c c1 : user_only c c1 -> client_state (app (rest c1)) = client_state (app (rest c)).
Proof. by intros [b ->]. Qed.

(** The failure of the last attempt of a sequence. *)
Lemma sequence_schedule tv c j s o L D S E b :
  distinct c -> find_server c j = Some s -> gives c j (inst_of s) o L D S E b -> 0 <= tv -> 0 <= E -> tv + E <= INT64_MAX ->
  exists c', prv_handleRegistrationSequenceFailure tv c o j = Some c' /\
    servers c' = servers (upd_info c j (fun i =>
      if sequence i <? S then i <| registration := tv + E |> <| srv_status := STATE_REG_HOLD_OFF |> <| attempt := 0 |>
      else i <| srv_status := STATE_REG_FAILED |>)) /\
    client_state (app (rest c')) =
      (if (S <=? sequence (server_rest s)) && b then STATE_BOOTSTRAP_REQUIRED else client_state (app (rest c))).
Proof.
  intros Hd Hs [G1 G2 G3 G4] Htv HE H2. destruct (find_server_in _ _ _ Hs) as [Hin Hi].
  unfold prv_handleRegistrationSequenceFailure. rewrite Hs. mstep. unfold sequence_order.
  destruct (G1 c (user_only_refl c)) as (k & c1 & E1). rewrite E1. mstep. apply order_user in E1 as U1. cbn [default andb].
  rewrite Bool.andb_false_r. mstep. destruct (G3 c1 U1) as [c2 E2]. rewrite E2. mstep. apply limit_user in E2 as U2.
  pose proof (user_only_trans _ _ _ U1 U2) as U12. change (COAP_NO_ERROR =? COAP_NO_ERROR) with true. mstep.
  rewrite (find_server_user _ _ _ U12), Hs. mstep. destruct (S <=? sequence (server_rest s)) eqn:ES.
  - destruct (G4 c2 U12) as [c3 E3]. rewrite E3. apply read_flag_user in E3 as U3.
    mstep. change (COAP_NO_ERROR =? COAP_NO_ERROR) with true. cbn [negb orb andb default from_option id].
    assert (servers (upd_info c j (fun i => if sequence i <? S
      then i <| registration := tv + E |> <| srv_status := STATE_REG_HOLD_OFF |> <| attempt := 0 |>
      else i <| srv_status := STATE_REG_FAILED |>)) = servers (set_status c j STATE_REG_FAILED)) as Eu.
    { eapply upd_same; [done|exact Hin|done|]. cbn. rewrite (proj2 (Z.ltb_ge _ _)) by lia. done. }
    assert (servers c3 = servers (set_status c j STATE_REG_FAILED)) as S3.
    { rewrite (user_only_servers _ _ U3). by apply upd_user. }
    rewrite Eu, <- S3. destruct b; (eexists; split; [done|]); split; try done.
    rewrite (state_user _ _ U3). by apply (state_user _ _ U12).
  - eexists. split; [done|]. split; [|by apply (state_user _ _ U12)]. unfold hold_off. rewrite upd_upd, (upd_user c) by done.
    eapply upd_same; [done|exact Hin|done|]. cbn. rewrite (proj2 (Z.ltb_lt _ _)) by lia.
    by rewrite swrap_small by (unfold INT64_MAX in *; lia).
Qed.

(** C39. The retry schedule: when the registration of a server that is not
    ordered fails, the n-th attempt of a sequence is retried after the delay of
    the Server object times 2^(n-1), the first attempt of the next sequence
    follows after the sequence delay, and after the last sequence the server is
    in failure and the client asks for a bootstrap if the Server object says
    so.  No other server is touched. *)
Theorem retry_schedule tv c j s o L D S E b :
  distinct c -> find_server c j = Some s -> find_object c LWM2M_SERVER_OBJECT_ID = Some o ->
  gives c j (inst_of s) o L D S E b -> 1 <= attempt (server_rest s) <= 31 -> 0 <= tv -> 0 <= D -> 0 <= E ->
  tv + D * 2 ^ (attempt (server_rest s) - 1) <= INT64_MAX -> tv + E <= INT64_MAX ->
  exists c', prv_handleRegistrationAttemptFailure tv c j = Some c' /\
    servers c' = servers (upd_info c j (retried tv L D S E)) /\
    client_state (app (rest c')) =
      (if exhausted L S (server_rest s) && b then STATE_BOOTSTRAP_REQUIRED else client_state (app (rest c))).
Proof.
  intros Hd Hs Ho [G1 G2 G3 G4] Ha Htv HD HE H1 H2. destruct (find_server_in _ _ _ Hs) as [Hin Hi].
  unfold prv_handleRegistrationAttemptFailure. rewrite Ho, Hs. mstep.
  destruct (G2 c (user_only_refl c)) as [c1 E1]. rewrite E1. mstep. apply limit_user in E1 as U1.
  change (COAP_NO_ERROR =? COAP_NO_ERROR) with true. mstep. rewrite (find_server_user _ _ _ U1), Hs. mstep.
  pose proof (user_only_distinct _ _ U1 Hd) as Hd1. pose proof (user_only_servers _ _ U1) as S1.
  destruct (L <=? attempt (server_rest s)) eqn:EL.
  2:{ guards. rewrite shiftl_mul by lia. rewrite Z.mul_1_l.
      assert (0 < 2 ^ (attempt (server_rest s) - 1)) by (apply Z.pow_pos_nonneg; lia).
      rewrite !wrap_small, swrap_small by (unfold INT64_MAX in *; nia). eexists. split; [done|]. unfold exhausted. rewrite EL. split; [|by apply (state_user _ _ U1)].
      unfold hold_off. rewrite (upd_user c) by done. eapply upd_same; [done|exact Hin|done|].
      unfold retried. by rewrite (proj2 (Z.ltb_lt _ _)) by lia. }
  assert (gives c1 j (inst_of s) o L D S E b) as G by (split; eauto using user_only_trans).
  destruct (sequence_schedule tv c1 j s o L D S E b) as (c' & -> & Hc1 & Hc2); try done; [by rewrite (find_server_user c)|].
  exists c'. split; [done|]. unfold exhausted. rewrite EL, Hc1, Hc2, (state_user _ _ U1). split; [|done].
  rewrite (upd_user c) by done. eapply upd_same; [done|exact Hin|done|]. unfold retried.
  by rewrite (proj2 (Z.ltb_ge (attempt _) _)) by lia.
Qed.
End machine.

(** ** A sample client

    The read callback of the Server object gives the values of an association
    list; the other resources are absent. *)
Module Sample.
Inductive callback_name := Registered | Updated | Deregistered.
#[export] Instance sessions : Sessions Z := Z.eqb.
#[export] Instance connections : Connections Z :=
  {| null_session := 0; session_is_null := Z.eqb 0; lwm2m_connect_server id := id + 6 |}.
#[export] Instance libc : LibC := fun _ => (0, 0).
#[export] Instance codecs : Codecs :=
  Build_Codecs (fun _ _ _ => None) (fun _ _ => None) (fun _ _ _ => None) (fun _ _ => None) (fun _ _ _ => None) (fun _ _ => None).
#[export] Instance pointers : RegistrationPointers callback_name Z := {|
  reply_callback := Registered;
  update_callback := Updated;
  deregistration_callback := Deregistered;
  registration_data _ target := target;
  server_data target := target;
  data_server := Some |}.
Abbreviation settings := (list (Z * Z)).
Abbreviation world := (world_t Z server_info (client_t settings unit)).
Abbreviation context := (lwm2m_context_t Z callback_name Z world).
Definition read (l : settings) (dataP : list lwm2m_data_t) : Z * list lwm2m_data_t * unit :=
  match dataP with
  | d :: _ =>
      match list_find (fun p => fst p = d_id d) l with
      | Some (_, (id, v)) => (COAP_205_CONTENT, [mk_data LWM2M_TYPE_INTEGER id (VInteger v)], ())
      | None => (COAP_404_NOT_FOUND, dataP, ())
      end
  | [] => (COAP_404_NOT_FOUND, [], ())
  end.
#[export] Instance objects_ : ObjectCallbacks Z callback_name Z settings unit := {|
  read_callback f _ _ dataP _ := read f dataP;
  discover_callback f _ _ dataP _ := read f dataP;
  write_callback _ c _ _ _ _ := (COAP_405_METHOD_NOT_ALLOWED, c);
  execute_callback _ c _ _ _ _ _ := (COAP_405_METHOD_NOT_ALLOWED, c);
  create_callback _ c _ _ _ := (COAP_405_METHOD_NOT_ALLOWED, c);
  delete_callback _ c _ _ := (COAP_405_METHOD_NOT_ALLOWED, c);
  node_survives _ := true |}.
Definition no_junk (n : Z) : list Z := replicate (Z.to_nat n) 0.
#[export] Instance allocator : Malloc := malloc_always.
#[export] Instance callbacks : Callbacks Z callback_name Z world := fun _ c _ _ => c.

(** A client with one server, and the answer of that server. *)
Definition server_in (st : lwm2m_status_t) (n : Z) : lwm2m_server_t Z server_info :=
  mk_server 1 7 [] (zero_info <| srv_status := st |> <| lifetime := 300 |> <| binding := 2 |> <| attempt := n |> <| sequence := 1 |>).
Definition server_object (l : settings) : lwm2m_object_t settings := mk_object 1 0 0 [0] (Some l) None None None None None.
(** The server is in a status, after [n] attempts. *)
Definition context_in (st : lwm2m_status_t) (n : Z) (l : settings) : context :=
  mk_context [] 100 [] [] (mk_world 1024 [] None [server_in st n] []
    (mk_client STATE_READY (str "dev" ++ [0]) None [server_object l] (Some []) ())).
Definition request : lwm2m_transaction_t Z callback_name Z :=
  mk_transaction 100 7 false 0 0 zero_packet 0 None 0 None (Some Registered) (Some 1).
Definition created : coap_packet_t := zero_packet <| code := COAP_201_CREATED |>.
Definition status_of (c : context) : list lwm2m_status_t := map (fun s => srv_status (server_rest s)) (servers c).

Lemma context_in_ok st n l : client_ok (context_in st n l).
Proof.
  split; [apply NoDup_singleton|]. split; [done|]. split; [done|]. split; [done|]. split; [constructor|].
  intros k _. constructor.
Qed.
End Sample.
Import Sample.

Lemma registration_refines_machine_witness :
  let c := context_in STATE_REG_HOLD_OFF 0 [] in
  client_ok c /\ exists c', exec no_junk 100 (Step 100 60) c = Some c' /\ map fst (sent c') = [7] /\
    status_of c' = [STATE_REG_PENDING] /\ moves (Step 100 60 : @event Z callback_name Z) 1 STATE_REG_HOLD_OFF STATE_REG_PENDING.
Proof.
  split; [apply context_in_ok|]. eexists. split; [vm_compute; reflexivity|]. split; [done|]. split; [done|].
  pose proof (registration_refines_machine no_junk 100 (Step 100 60) (context_in STATE_REG_HOLD_OFF 0 []) _ ltac:(done)
    (context_in_ok _ _ _) ltac:(vm_compute; reflexivity)) as H.
  by inversion_clear H as [|? ? ? ? [_ Hm] _].
Defined.

(** The contexts of a first registration. *)
Definition after (e : event) (c : context) : context := default c (exec no_junk 100 e c).
Definition started : context := Eval vm_compute in after (Start false) (context_in STATE_DEREGISTERED 0 []).
Definition requested : context := Eval vm_compute in after (Step 100 60) started.
Definition registered : context := Eval vm_compute in after (Reply request (Some created)) requested.

Lemma requested_ok : client_ok requested.
Proof.
  split; [apply NoDup_singleton|]. split; [done|]. split; [done|]. split; [done|]. split; [repeat constructor|].
  intros k Hk. cbn in Hk. assert (k = 0) as -> by lia. by repeat constructor.
Qed.
Lemma registered_history :
  history no_junk (context_in STATE_DEREGISTERED 0 []) [Reply request (Some created); Step 100 60; Start false] registered.
Proof.
  apply (happens _ _ 100 _ _ requested); [|done|apply requested_ok|by vm_compute].
  apply (happens _ _ 100 _ _ started); [|done| |by vm_compute].
  - apply (happens _ _ 100 _ _ (context_in STATE_DEREGISTERED 0 [])); [apply begins|done|apply context_in_ok|by vm_compute].
  - split; [apply NoDup_singleton|]. split; [done|]. split; [done|]. split; [done|]. split; [constructor|]. intros k _. constructor.
Qed.

Lemma registered_was_accepted_witness :
  status_of registered = [STATE_REGISTERED] /\
  was_accepted 1 [Reply request (Some created); Step 100 60; Start false].
Proof.
  split; [done|].
  apply (registered_was_accepted no_junk (context_in STATE_DEREGISTERED 0 []) _ registered (List.hd (server_in STATE_REGISTERED 1) (servers registered))).
  - by repeat constructor.
  - apply registered_history.
  - constructor.
  - done.
Defined.

Lemma retry_schedule_witness :
  let c := context_in STATE_REG_PENDING 3 [] in
  exists c', prv_handleRegistrationAttemptFailure 1000 c 1 = Some c' /\
    servers c' = [(server_in STATE_REG_HOLD_OFF 3) <| server_rest := (server_rest (server_in STATE_REG_HOLD_OFF 3)) <| registration := 1240 |> |>].
Proof.
  destruct (retry_schedule 1000 (context_in STATE_REG_PENDING 3 []) 1 (server_in STATE_REG_PENDING 3) (server_object [])
    5 60 1 86400 true) as (c' & H & Hs & _).
  - apply (context_in_ok STATE_REG_PENDING 3 []).
  - done.
  - done.
  - split; intros c1 [b ->]; eexists; try eexists; vm_compute; reflexivity.
  - done.
  - done.
  - done.
  - done.
  - done.
  - done.
  - exists c'. split; [exact H|]. rewrite Hs. done.
Defined.

(** With a limit above 32 attempts the shift of an [int] overflows. *)
Example many_attempts_overflow :
  let c := context_in STATE_REG_PENDING 32 [(LWM2M_SERVER_COMM_RETRY_COUNT_ID, 40)] in
  prv_handleRegistrationAttemptFailure 1000 c 1 = None.
Proof. by vm_compute. Qed.

(** When the transaction of an update is given up, its data are not freed. *)
Example update_timeout_keeps_data :
  let t := request <| callback := Some Updated |> in
  let c := (context_in STATE_REG_UPDATE_PENDING 1 []) <| transactionList := [t] |> in
  exists c', prv_handleRegistrationUpdateReply 1000 c t None = Some c' /\ transactionList c' = [t].
Proof. eexists. split; vm_compute; reflexivity. Qed.

End RegMachine.
