(* ===== verification/Management.v ===== *)
(** * Device management, client side (core/management.c)

    The attributes of a Write-Attributes request, and the handler of the requests
    of a server on the objects of the client.

    The options of a received message lie in the datagram: [beyond q] are the
    readable bytes that follow the value of the option [q], which comparisons of
    its name may reach. *)
From Stdlib Require Import SpecFloat.
From S2P Require Import Prelude.
From S2P Require Import Types.
From S2P Require Import SortedList.
From S2P Require Import Numeric.
From S2P Require Import Utils.
From S2P Require Import Uri.
From S2P Require Import Float.
From S2P Require Import Data.
From S2P Require Import FloatText.
From S2P Require Import CoapPacket.
From S2P Require Import CoapMessage.
From S2P Require Import Transaction.
From S2P Require Import Packet.
From S2P Require Import Client.
From S2P Require Import Observed.
From S2P Require Import Formats.
From S2P Require Import Objects.
From S2P Require Import Observe.
From S2P Require Import Send.
From S2P Require Import Registration.
Import SortedList Numeric Utils Uri Float Data FloatText CoapPacket CoapMessage Transaction Packet Client Observed.
Import Formats Objects Observe Send Registration.

Module Management.

(** The code of [coap_method_t] that packet.c does not name. *)
Definition COAP_PUT : Z := 3.
Definition ATTR_MIN_PERIOD_STR : list Z := str "pmin=".
Definition ATTR_MAX_PERIOD_STR : list Z := str "pmax=".
Definition ATTR_GREATER_THAN_STR : list Z := str "gt=".
Definition ATTR_LESS_THAN_STR : list Z := str "lt=".
Definition ATTR_STEP_STR : list Z := str "st=".

(** ** Attributes *)

Section attributes.
Context `{HM : Malloc, HL : LibC}.
Context (beyond : multi_option_t -> list Z).

Abbreviation memory := (memory beyond).

(** A period, [None] when it is refused. *)
Definition period_value (buffer : list Z) (length : Z) : C (option Z) :=
  v ← utils_textToInt buffer length;
  ret (match v with Some v => if v <? 0 then None else Some (u32 v) | None => None end).
Definition number_value (buffer : list Z) (length : Z) : C (option Z) := utils_textToFloat buffer length false.
Definition step_value (buffer : list Z) (length : Z) : C (option Z) :=
  v ← utils_textToFloat buffer length false;
  ret (match v with Some v => if flt (double_of_bits v) (S754_zero false) then None else Some v | None => None end).

Definition given (attrP : lwm2m_attributes_t) (flag : Z) : bool := has_flag (Z.lor (toSet attrP) (toClear attrP)) flag.

(** One attribute: [name=value] sets it and [name] clears it; [None] in the result
    is [return -1]. *)
Definition try_attribute (name : list Z) (flag : Z) (value : list Z -> Z -> C (option Z))
    (write : lwm2m_attributes_t -> Z -> lwm2m_attributes_t) (attrP : lwm2m_attributes_t) (query : multi_option_t)
    (otherwise : C (option lwm2m_attributes_t)) : C (option lwm2m_attributes_t) :=
  set ← name_matches name (memory query) 0;
  if (set : bool) then
    if given attrP flag then ret None
    else if opt_len query =? len name then ret None
    else
      v ← value (drop (length name) (memory query)) (opt_len query - len name);
      ret (match v with
           | Some v => Some (write (attrP <| toSet := Z.lor (toSet attrP) flag |>) v)
           | None => None
           end)
  else
    clear ← name_matches (removelast name) (memory query) 0;
    if (clear : bool) then
      if given attrP flag then ret None
      else if negb (opt_len query =? len name - 1) then ret None
      else ret (Some (attrP <| toClear := Z.lor (toClear attrP) flag |>))
    else otherwise.

Definition read_attribute (attrP : lwm2m_attributes_t) (query : multi_option_t) : C (option lwm2m_attributes_t) :=
  try_attribute ATTR_MIN_PERIOD_STR LWM2M_ATTR_FLAG_MIN_PERIOD period_value
    (fun a v => a <| minPeriod := v |>) attrP query
  (try_attribute ATTR_MAX_PERIOD_STR LWM2M_ATTR_FLAG_MAX_PERIOD period_value
    (fun a v => a <| maxPeriod := v |>) attrP query
  (try_attribute ATTR_GREATER_THAN_STR LWM2M_ATTR_FLAG_GREATER_THAN number_value
    (fun a v => a <| greaterThan := v |>) attrP query
  (try_attribute ATTR_LESS_THAN_STR LWM2M_ATTR_FLAG_LESS_THAN number_value
    (fun a v => a <| lessThan := v |>) attrP query
  (try_attribute ATTR_STEP_STR LWM2M_ATTR_FLAG_STEP step_value
    (fun a v => a <| a_step := v |>) attrP query (ret None))))).

Fixpoint attributes_loop (attrP : lwm2m_attributes_t) (query : list multi_option_t) : C (option lwm2m_attributes_t) :=
  match query with
  | [] => ret (Some attrP)
  | q :: query =>
      r ← read_attribute attrP q;
      match r with
      | Some attrP => attributes_loop attrP query
      | None => ret None
      end
  end.

(** [*attrP], or [None] when the result is -1. *)
Definition prv_readAttributes (query : list multi_option_t) : C (option lwm2m_attributes_t) :=
  attributes_loop zero_attributes query.
End attributes.

(** ** Requests *)

Section requests.
Context {Session CB U F B : Type}.
Context `{HM : Malloc, HS : Sessions Session, HL : LibC, HF : Codecs, HO : ObjectCallbacks Session CB U F B, HN : Connections Session}.
Context (junk : Z -> list Z) (beyond : multi_option_t -> list Z).
Abbreviation context := (lwm2m_context_t Session CB U (world_t Session server_info (client_t F B))).
Abbreviation server := (lwm2m_server_t Session server_info).

(** The content of a response, when the result is 2.05. *)
Definition set_content (result format : Z) (buffer : option (list Z)) (length : Z) (response : coap_packet_t)
    : C coap_packet_t :=
  if result =? COAP_205_CONTENT then
    '(_, response) ← coap_set_header_content_type response format;
    ret (snd (coap_set_payload response buffer length))
  else ret response.

Definition dm_observe (tv_sec : Z) (contextP : context) (uriP : lwm2m_uri_t) (serverP : server) (format : Z)
    (m response : coap_packet_t) : C (Z * context * coap_packet_t) :=
  '(result, dataP, contextP) ← object_readData contextP uriP;
  if result =? COAP_205_CONTENT then
    '(result, format) ← utils_getResponseFormat (accept_num m) (accept m) (len dataP) dataP (LWM2M_URI_IS_SET_RESOURCE uriP);
    if result =? COAP_205_CONTENT then
      '(_, response) ← coap_set_header_content_type response format;
      '(result, contextP, response) ← observe_handleRequest tv_sec contextP uriP serverP dataP m response;
      if result =? COAP_205_CONTENT then
        '(res, format, buffer) ← lwm2m_data_serialize junk (Some uriP) dataP format;
        if res <? 0 then ret (COAP_500_INTERNAL_SERVER_ERROR, contextP, response)
        else response ← set_content result format buffer res response; ret (result, contextP, response)
      else ret (result, contextP, response)
    else ret (result, contextP, response)
  else ret (result, contextP, response).

Definition dm_get (tv_sec : Z) (contextP : context) (uriP : lwm2m_uri_t) (serverP : server) (format : Z)
    (m response : coap_packet_t) : C (Z * context * coap_packet_t) :=
  if IS_OPTION m COAP_OPTION_OBSERVE then dm_observe tv_sec contextP uriP serverP format m response
  else
    link ← (if IS_OPTION m COAP_OPTION_ACCEPT && (accept_num m =? 1) then
              a ← rd (accept m) 0; ret (a =? APPLICATION_LINK_FORMAT)
            else ret false);
    if (link : bool) then
      '(result, buffer, length, contextP) ← object_discover junk contextP uriP serverP;
      response ← set_content result LWM2M_CONTENT_LINK buffer length response;
      ret (result, contextP, response)
    else
      '(result, format, buffer, length, contextP) ← object_read junk contextP uriP (accept m) (accept_num m) format;
      response ← set_content result format buffer length response;
      ret (result, contextP, response).

(** [sprintf(location_path, "/%d/%d", ...)] with the terminator. *)
Definition created_path (uriP : lwm2m_uri_t) : list Z :=
  str "/" ++ dec (objectId uriP) ++ str "/" ++ dec (instanceId uriP) ++ [0].

Definition dm_post (contextP : context) (uriP : lwm2m_uri_t) (format : Z) (m response : coap_packet_t)
    : C (Z * context * coap_packet_t) :=
  if negb (LWM2M_URI_IS_SET_INSTANCE uriP) then
    '(result, uriP, contextP) ← object_create contextP uriP format (payload m) (payload_len m);
    if result =? COAP_201_CREATED then
      if negb (LWM2M_URI_IS_SET_INSTANCE uriP) then ret (COAP_500_INTERNAL_SERVER_ERROR, contextP, response)
      else
        '(_, response) ← coap_set_header_location_path response (created_path uriP);
        '(_, contextP) ← lwm2m_update_registration contextP 0 true;
        ret (result, contextP, response)
    else ret (result, contextP, response)
  else if negb (IS_OPTION m COAP_OPTION_CONTENT_TYPE) || (format =? LWM2M_CONTENT_TEXT) then
    if negb (LWM2M_URI_IS_SET_RESOURCE uriP) || LWM2M_URI_IS_SET_RESOURCE_INSTANCE uriP then
      ret (COAP_400_BAD_REQUEST, contextP, response)
    else
      let '(result, contextP) := object_execute contextP uriP (payload m) (payload_len m) in
      ret (result, contextP, response)
  else
    '(result, contextP) ← object_write contextP uriP format (default [] (payload m)) (payload_len m) true;
    ret (result, contextP, response).

Definition dm_put (contextP : context) (uriP : lwm2m_uri_t) (serverP : server) (format : Z) (m response : coap_packet_t)
    : C (Z * context * coap_packet_t) :=
  if IS_OPTION m COAP_OPTION_URI_QUERY then
    attr ← prv_readAttributes beyond (uri_query m);
    match attr with
    | None => ret (COAP_400_BAD_REQUEST, contextP, response)
    | Some attr =>
        '(result, contextP) ← observe_setParameters contextP uriP serverP attr;
        ret (result, contextP, response)
    end
  else if LWM2M_URI_IS_SET_INSTANCE uriP then
    '(result, contextP) ← object_write contextP uriP format (default [] (payload m)) (payload_len m) false;
    ret (result, contextP, response)
  else ret (COAP_400_BAD_REQUEST, contextP, response).

Definition dm_delete (contextP : context) (uriP : lwm2m_uri_t) (response : coap_packet_t)
    : C (Z * context * coap_packet_t) :=
  if negb (LWM2M_URI_IS_SET_INSTANCE uriP) || LWM2M_URI_IS_SET_RESOURCE uriP then
    ret (COAP_400_BAD_REQUEST, contextP, response)
  else
    '(result, contextP) ← object_delete contextP uriP;
    if result =? COAP_202_DELETED then
      '(_, contextP) ← lwm2m_update_registration contextP 0 true; ret (result, contextP, response)
    else ret (result, contextP, response).

(** [LWM2M_CONTENT_TLV] when the message has no Content-Format. *)
Definition request_format (m : coap_packet_t) : Z :=
  if IS_OPTION m COAP_OPTION_CONTENT_TYPE then utils_convertMediaType (content_type m) else LWM2M_CONTENT_TLV.

(** The status, the context and the response. *)
Definition dm_handleRequest (tv_sec : Z) (contextP : context) (uriP : lwm2m_uri_t) (serverP : server)
    (m response : coap_packet_t) : C (Z * context * coap_packet_t) :=
  let format := request_format m in
  if objectId uriP =? LWM2M_SECURITY_OBJECT_ID then ret (COAP_401_UNAUTHORIZED, contextP, response)
  else if negb (is_registered (srv_status (server_rest serverP))) then ret (COAP_IGNORE, contextP, response)
  else if code m =? COAP_GET then dm_get tv_sec contextP uriP serverP format m response
  else if code m =? COAP_POST then dm_post contextP uriP format m response
  else if code m =? COAP_PUT then dm_put contextP uriP serverP format m response
  else if code m =? COAP_DELETE then dm_delete contextP uriP response
  else ret (COAP_400_BAD_REQUEST, contextP, response).
End requests.

(** ** Reading attributes *)

Inductive attr := MinPeriod | MaxPeriod | GreaterThan | LessThan | Step.
#[export] Instance attr_eq_dec : EqDecision attr.
Proof. solve_decision. Defined.

Definition name_of (k : attr) : list Z :=
  match k with
  | MinPeriod => ATTR_MIN_PERIOD_STR
  | MaxPeriod => ATTR_MAX_PERIOD_STR
  | GreaterThan => ATTR_GREATER_THAN_STR
  | LessThan => ATTR_LESS_THAN_STR
  | Step => ATTR_STEP_STR
  end.
Definition bit_of (k : attr) : Z :=
  match k with MinPeriod => 0 | MaxPeriod => 1 | GreaterThan => 2 | LessThan => 3 | Step => 4 end.
Definition flag_of (k : attr) : Z := 2 ^ bit_of k.
Definition write_of (k : attr) (v : Z) (a : lwm2m_attributes_t) : lwm2m_attributes_t :=
  match k with
  | MinPeriod => a <| minPeriod := v |>
  | MaxPeriod => a <| maxPeriod := v |>
  | GreaterThan => a <| greaterThan := v |>
  | LessThan => a <| lessThan := v |>
  | Step => a <| a_step := v |>
  end.

(** An attribute with its text and the value it denotes, or without. *)
Definition item := (attr * option (list Z * Z))%type.
Definition item_text (i : item) : list Z :=
  match snd i with Some (t, _) => name_of (fst i) ++ t | None => removelast (name_of (fst i)) end.
Definition set_item (a : lwm2m_attributes_t) (i : item) : lwm2m_attributes_t :=
  match snd i with
  | Some (_, v) => write_of (fst i) v (a <| toSet := Z.lor (toSet a) (flag_of (fst i)) |>)
  | None => a <| toClear := Z.lor (toClear a) (flag_of (fst i)) |>
  end.

Lemma has_flag_or x y n : 0 <= n -> has_flag (Z.lor x y) (2 ^ n) = has_flag x (2 ^ n) || has_flag y (2 ^ n).
Proof. intros Hn. rewrite !has_flag_bit by done. apply Z.lor_spec. Qed.

Lemma has_flag_of k k' : has_flag (flag_of k) (flag_of k') = bool_decide (k = k').
Proof. by destruct k, k'. Qed.

Lemma flag_bit k : 0 <= bit_of k.
Proof. by destruct k. Qed.

Lemma has_flag_or_flag x y k : has_flag (Z.lor x y) (flag_of k) = has_flag x (flag_of k) || has_flag y (flag_of k).
Proof. apply has_flag_or, flag_bit. Qed.

Lemma given_set_item a i k : given (set_item a i) (flag_of k) = given a (flag_of k) || bool_decide (fst i = k).
Proof.
  pose proof (flag_bit k). destruct i as [k0 [[t v]|]]; unfold given, set_item; cbn [fst snd].
  - assert (toSet (write_of k0 v (a <| toSet := Z.lor (toSet a) (flag_of k0) |>)) = Z.lor (toSet a) (flag_of k0)) as -> by by destruct k0.
    assert (toClear (write_of k0 v (a <| toSet := Z.lor (toSet a) (flag_of k0) |>)) = toClear a) as -> by by destruct k0.
    rewrite !has_flag_or_flag, has_flag_of.
    by destruct (has_flag (toSet a) _), (has_flag (toClear a) _), (bool_decide _).
  - cbn [toSet toClear update]. rewrite !has_flag_or_flag, has_flag_of.
    by destruct (has_flag (toSet a) _), (has_flag (toClear a) _), (bool_decide _).
Qed.

(** The names as bytes. *)
Ltac names :=
  repeat match goal with |- context [name_of ?k] => let v := eval vm_compute in (name_of k) in change (name_of k) with v end.

Section reading.
Context `{HM : Malloc, HL : LibC}.
Context (Hmalloc : forall n, malloc_ok n = true) (beyond : multi_option_t -> list Z).

(** The texts of a value. *)
Definition is_number (t : list Z) (v : Z) : Prop :=
  Forall (fun c => c <> 0 /\ c <> chr "e" /\ c <> chr "E") t /\ t <> [] /\ exists n, n <> 0 /\ strtod (t ++ [0]) = (v, n).
Definition denotes (k : attr) (t : list Z) (v : Z) : Prop :=
  match k with
  | MinPeriod | MaxPeriod => t = dec v /\ 0 <= v < 2 ^ 32
  | GreaterThan | LessThan => is_number t v
  | Step => is_number t v /\ flt (double_of_bits v) (S754_zero false) = false
  end.

(** The option of an item; one that clears an attribute must not be followed by
    an equals sign in memory. *)
Definition item_option (i : item) (q : multi_option_t) : Prop :=
  opt_data q = item_text i /\ opt_len q = len (item_text i) /\
  match snd i with Some (t, v) => denotes (fst i) t v | None => exists c l, beyond q = c :: l /\ c <> chr "=" end.

Lemma textToInt_prefix v post : 0 <= v < 2 ^ 32 -> utils_textToInt (dec v ++ post) (len (dec v)) = Some (Some v).
Proof.
  intros Hv. unfold utils_textToInt. pose proof (dec_length_pos v ltac:(lia)) as Hl. pose proof (dec_digits v ltac:(lia)) as Hd.
  guards. destruct (dec v) as [|c l] eqn:E; [done|]. change ((c :: l) ++ post) with (c :: l ++ post). rewrite rd_cons_0. mstep.
  assert ((c =? chr "-") = false) as -> by (apply Forall_cons in Hd as [Hc _]; unfold is_digit in Hc; clia).
  rewrite Z.sub_0_r, Nat2Z.id. change (c :: l ++ post) with ((c :: l) ++ post). rewrite <- E in *.
  pose proof (digits_loop_ok [] (dec v) post 0 Hd ltac:(lia)) as Hloop. fold (digits_val (dec v)) in Hloop.
  rewrite dec_val in Hloop by lia.
  assert (digits_loop (dec v ++ post) (length (dec v)) 0 0 = Some (Some v)) as -> by (apply Hloop; lia). mstep. unfold INT64_MAX. guards.
  by rewrite swrap_small by lia.
Qed.

Lemma c_string_number t : Forall (fun c => c <> 0) t -> c_string t = t.
Proof. induction 1 as [|c t Hc Ht IH]; [done|]. cbn [c_string]. by rewrite (proj2 (Z.eqb_neq c 0)), IH by done. Qed.

Lemma textToFloat_number t v post : is_number t v -> utils_textToFloat (t ++ post) (len t) false = Some (Some v).
Proof.
  intros (Ht & Hn & n & Hn0 & Hv). unfold utils_textToFloat. rewrite Hmalloc. cbn [negb].
  assert ((len t =? 0) = false) as -> by (destruct t; [done|cbn [length]; lia]).
  rewrite (rd_bytes_app [] t post) by done. mstep.
  rewrite c_string_number by (eapply list.Forall_impl; [exact Ht|by intros ? []]).
  assert (forall c, Forall (fun x => x <> c) t -> existsb (Z.eqb c) t = false) as Hno.
  { intros c Hc. apply not_true_iff_false. rewrite existsb_exists. intros (x & Hx%list_elem_of_In & E).
    rewrite list.Forall_forall in Hc. apply (Hc x Hx). lia. }
  rewrite !Hno by (eapply list.Forall_impl; [exact Ht|cbn; tauto]). rewrite Hv. cbn [andb orb].
  by rewrite (proj2 (Z.eqb_neq n 0)).
Qed.

(** The name of the attribute [k'] in the text of an item. *)
Lemma starts_item k' (i : item) q :
  item_option i q ->
  starts_with (name_of k') (memory beyond q) =
    (if bool_decide (k' = fst i) then ret (if snd i is Some _ then true else false) else ret false).
Proof.
  intros (Hd & _ & Hb). unfold memory. rewrite Hd. destruct i as [k [[t v]|]]; cbn [fst snd] in *; unfold item_text; cbn [fst snd].
  - by destruct k', k.
  - destruct Hb as (c & l & -> & Hc). chars. destruct k', k; names; cbn; try done; by destruct (Z.eqb_spec c 61).
Qed.

(** One option of an item. *)
Lemma item_memory (i : item) q : item_option i q -> exists post, memory beyond q = item_text i ++ post.
Proof. intros (Hd & _). unfold memory. rewrite Hd. by eexists. Qed.

Definition value_read (k : attr) : list Z -> Z -> C (option Z) :=
  match k with MinPeriod | MaxPeriod => period_value | GreaterThan | LessThan => number_value | Step => step_value end.

Lemma value_read_ok k t v post : denotes k t v -> value_read k (t ++ post) (len t) = Some (Some v).
Proof.
  destruct k; cbn [denotes value_read]; unfold period_value, number_value, step_value.
  1, 2: intros [-> Hv]; rewrite textToInt_prefix by done; mstep; guards; by rewrite wrap_small.
  1, 2: apply textToFloat_number.
  intros [Hn Hf]. rewrite (textToFloat_number t v) by done. mstep. by rewrite Hf.
Qed.

Lemma denotes_length k t v : denotes k t v -> 0 < len t.
Proof.
  destruct k; cbn [denotes]; try (intros [-> ?]; apply dec_length_pos; lia);
    [intros (_ & H & _)|intros (_ & H & _)|intros ((_ & H & _) & _)]; destruct t; try done; cbn [length]; lia.
Qed.

Lemma starts_name k post : starts_with (name_of k) (name_of k ++ post) = Some true /\
  starts_with (removelast (name_of k)) (removelast (name_of k) ++ post) = Some true.
Proof. by destruct k. Qed.

(** One attribute that is tried. *)
Definition tried (k' : attr) a q (otherwise : C (option lwm2m_attributes_t)) : C (option lwm2m_attributes_t) :=
  try_attribute beyond (name_of k') (flag_of k') (value_read k') (fun a v => write_of k' v a) a q otherwise.

Lemma read_attribute_tries a q :
  read_attribute beyond a q =
    tried MinPeriod a q (tried MaxPeriod a q (tried GreaterThan a q (tried LessThan a q (tried Step a q (ret None))))).
Proof. reflexivity. Qed.

(** An attribute that is tried for an item. *)
Lemma try_item k' a (i : item) q otherwise :
  item_option i q -> k' = fst i ->
  tried k' a q otherwise =
    Some (if given a (flag_of k') then None else Some (set_item a i)).
Proof.
  intros Hq ->. unfold tried, try_attribute. rewrite !name_matches_start, (starts_item _ i), bool_decide_eq_true_2 by done.
  destruct (item_memory i q Hq) as [post Hm]. destruct Hq as (_ & Hl & Hv).
  destruct i as [k [[t v]|]]; unfold item_text, set_item in *; cbn [fst snd] in *; mstep; rewrite Hl.
  - destruct (given a (flag_of k)); [done|]. pose proof (denotes_length _ _ _ Hv). rewrite length_app. guards.
    rewrite Hm, <- app_assoc, drop_app_length. replace (Z.of_nat _ - _) with (len t) by lia.
    by rewrite (value_read_ok k t v).
  - rewrite Hm, (proj2 (starts_name k post)). mstep. destruct (given a (flag_of k)); [done|].
    by replace (len (removelast (name_of k)) =? len (name_of k) - 1) with true by by destruct k.
Qed.

Lemma try_other k' a (i : item) q otherwise :
  item_option i q -> k' <> fst i ->
  tried k' a q otherwise = otherwise.
Proof.
  intros Hq Hk. unfold tried, try_attribute. rewrite !name_matches_start, (starts_item _ i), bool_decide_eq_false_2 by done. mstep.
  destruct (item_memory i q Hq) as [post ->].
  destruct i as [k [[t v]|]]; unfold item_text; cbn [fst snd] in *; by destruct k', k.
Qed.

Lemma read_item a (i : item) q :
  item_option i q -> read_attribute beyond a q = Some (if given a (flag_of (fst i)) then None else Some (set_item a i)).
Proof.
  intros Hq. rewrite read_attribute_tries.
  destruct (fst i) eqn:E; repeat (rewrite (try_other _ _ i) by (try done; by rewrite E));
    by rewrite (try_item _ _ i) by (try done; by rewrite E).
Qed.

(** The items in turn: an attribute that is given twice is refused. *)
Fixpoint read_items (a : lwm2m_attributes_t) (l : list item) : option lwm2m_attributes_t :=
  match l with
  | [] => Some a
  | i :: l => if given a (flag_of (fst i)) then None else read_items (set_item a i) l
  end.

Lemma attributes_loop_items l qs : forall a,
  Forall2 item_option l qs -> attributes_loop beyond a qs = Some (read_items a l).
Proof.
  intros a H. revert a. induction H as [|i q l qs Hi _ IH]; intros a; [done|]. cbn [attributes_loop read_items].
  rewrite (read_item a i) by done. mstep. by destruct (given _ _).
Qed.

Lemma read_items_fold l : forall a (seen : list attr), (forall k, given a (flag_of k) = bool_decide (k ∈ seen)) ->
  read_items a l = if decide (NoDup (map fst l) /\ Forall (fun k => k ∉ seen) (map fst l)) then Some (fold_left set_item l a) else None.
Proof.
  induction l as [|i l IH]; intros a seen Ha; cbn [read_items map fold_left].
  - by rewrite decide_True by (split; constructor).
  - rewrite Ha. case_bool_decide as Hi.
    + rewrite decide_False; [done|]. intros [_ Hf]. by apply Forall_cons in Hf as [Hf _].
    + rewrite (IH (set_item a i) (fst i :: seen)).
      * apply decide_ext. rewrite NoDup_cons, Forall_cons. setoid_rewrite list.elem_of_cons. rewrite !list.Forall_forall.
        split; [intros [H1 H2]|intros [[H0 H1] [_ H2]]].
        -- repeat split; [intros Hin; by apply (H2 _ Hin); left|done|done|]. intros x Hx Hs. by apply (H2 x); [|right].
        -- split; [done|]. intros x Hx [->|Hs]; [done|by apply (H2 x)].
      * intros k. rewrite given_set_item, Ha. rewrite <- bool_decide_or. apply bool_decide_ext.
        rewrite list.elem_of_cons. naive_solver.
Qed.

Lemma read_items_once l :
  read_items zero_attributes l = if decide (NoDup (map fst l)) then Some (fold_left set_item l zero_attributes) else None.
Proof.
  rewrite (read_items_fold _ _ []) by by intros []. apply decide_ext. split; [by intros [? _]|].
  intros H0. split; [done|]. apply list.Forall_forall. by intros k _ ?%list.elem_of_nil.
Qed.

(** C19. Reading the attributes of a Write-Attributes request: on the texts of
    any items (periods in decimal, numbers that [strtod] reads) in any order the
    result has exactly the flags and the values of the items, and an attribute
    that is given twice, set or cleared, is refused.  An item that clears an
    attribute must be followed in memory by a byte that is not an equals sign. *)
Theorem readAttributes_correct l qs :
  Forall2 item_option l qs ->
  prv_readAttributes beyond qs =
    Some (if decide (NoDup (map fst l)) then Some (fold_left set_item l zero_attributes) else None).
Proof.
  intros H. unfold prv_readAttributes. rewrite (attributes_loop_items l) by done. by rewrite read_items_once.
Qed.
End reading.

(** ** Witnesses and examples *)

#[local] Instance allocator : Malloc := malloc_always.
#[local] Instance no_strtod : LibC := fun _ => (0, 0).
Definition option_of (text : list Z) : multi_option_t := mk_opt 1 (len text) text.
(** The option is followed by the byte [c] in memory. *)
Definition followed_by (c : Z) (_ : multi_option_t) : list Z := [c].
Definition at_end (_ : multi_option_t) : list Z := [].

Lemma readAttributes_correct_witness :
  prv_readAttributes (followed_by 255) (map option_of [str "pmin=30"; str "st"; str "pmax=4000000000"]) =
    Some (Some (mk_attributes 3 16 30 4000000000 0 0 0)) /\
  prv_readAttributes (followed_by 255) (map option_of [str "pmin=30"; str "pmin"]) = Some None.
Proof.
  split.
  - rewrite (readAttributes_correct (fun _ => eq_refl) (followed_by 255)
      [(MinPeriod, Some (str "30", 30)); (Step, None); (MaxPeriod, Some (str "4000000000", 4000000000))]); [by vm_compute|].
    repeat apply list.Forall2_cons_2; try apply list.Forall2_nil_2; (split; [done|]); (split; [by vm_compute|]);
      first [by exists 255, []|split; [by vm_compute|done]].
  - rewrite (readAttributes_correct (fun _ => eq_refl) (followed_by 255) [(MinPeriod, Some (str "30", 30)); (MinPeriod, None)]);
      [by vm_compute|].
    repeat apply list.Forall2_cons_2; try apply list.Forall2_nil_2; (split; [done|]); (split; [by vm_compute|]);
      first [by exists 255, []|split; [by vm_compute|done]].
Defined.

(** The name of an option at the end of the datagram is compared with the bytes
    behind it. *)
Example clear_reads_past_the_end : prv_readAttributes at_end [option_of (str "pmin")] = None.
Proof. by vm_compute. Qed.

(** When the header of the next option is an equals sign, an attribute to clear
    is set to zero, or its text has the length -1. *)
Example clear_taken_for_set :
  prv_readAttributes (fun _ => str "=0") [option_of (str "pmin")] = Some (Some (mk_attributes 1 0 0 0 0 0 0)) /\
  prv_readAttributes (fun _ => str "=0") [option_of (str "gt")] = None.
Proof. split; by vm_compute. Qed.

(** Periods are truncated to 32 bits. *)
Example period_truncated :
  prv_readAttributes (followed_by 255) [option_of (str "pmin=4294967297")] = Some (Some (mk_attributes 1 0 1 0 0 0 0)).
Proof. by vm_compute. Qed.

(** When the payload of the answer to an Observe request cannot be serialized, the
    answer is 5.00 but the watcher stays. *)
Definition observing : coap_packet_t :=
  mk_packet 1 COAP_TYPE_CON COAP_GET 7 [64; 0; 2; 0; 0] 0 0 [] 0 (replicate 8 0) [] [] 0 0 [] [] 0 1
    (replicate 8 9) 1 [110; 0] 0 (replicate 8 0) zero_block zero_block 0 [] 0 0 None.

#[local] Existing Instance Objects.Sample.sessions.
#[local] Existing Instance Objects.Sample.connections.
#[local] Existing Instance Objects.Sample.callbacks.
#[local] Instance failing : Codecs :=
  Build_Codecs (fun _ _ _ => None) (fun _ _ => Some (-1, None)) (fun _ _ _ => None) (fun _ _ => Some (-1, None))
    (fun _ _ _ => None) (fun _ _ => Some (-1, None)).

Example observation_of_an_error :
  let c := Objects.Sample.context_of [Objects.Sample.object 3 [0]] [] in
  exists c' r, dm_handleRequest (fun n => replicate (Z.to_nat n) 0) at_end 100 c (mk_uri 3 0 1 65535)
      Objects.Sample.server1 observing zero_packet = Some (COAP_500_INTERNAL_SERVER_ERROR, c', r) /\
    option_map (map (fun o => len (watcherList o))) (observed c') = Some [1].
Proof. eexists _, _. split; vm_compute; reflexivity. Qed.
End Management.
