(* ===== verification/LinkFormat.v ===== *)
(** * The links of a registration (core/registration.c, server part)

    A registration lists the objects of the client as links (RFC 6690); the
    server decodes them to a list of objects with their instances, and takes the
    alternative path and the format from the link of the root.

    A pointer into the payload is the list of the bytes readable from there: the
    rest of the payload and the bytes that follow it in memory.  Lengths are
    16-bit integers. *)
From S2P Require Import Prelude.
From S2P Require Import Types.
From S2P Require Import SortedList.
From S2P Require Import Numeric.
From S2P Require Import Utils.
From S2P Require Import Uri.
From S2P Require Import CoapPacket.
From S2P Require Import Client.
From S2P Require Import Objects.
From S2P Require Import RegisterPayload.
Import SortedList Numeric Utils Uri CoapPacket Client Objects RegisterPayload.

Module LinkFormat.

Definition REG_URI_START : Z := chr "<".
Definition REG_URI_END : Z := chr ">".
Definition REG_ATTR_SEPARATOR : Z := chr ";".
Definition REG_ATTR_EQUALS : Z := chr "=".
Definition REG_ATTR_TYPE_KEY : list Z := str "rt".
Definition REG_ATTR_TYPE_VALUE : list Z := [34] ++ str "oma.lwm2m" ++ [34].
Definition REG_ATTR_CONTENT_KEY : list Z := str "ct".
Definition REG_ATTR_CONTENT_JSON : list Z := str "11543".
Definition REG_ATTR_CONTENT_JSON_OLD : list Z := str "1543".
Definition REG_ATTR_CONTENT_SENML_JSON : list Z := str "110".
Definition REG_ATTR_CONTENT_SENML_CBOR : list Z := str "112".
Definition ATTR_VERSION_STR : list Z := str "ver=".
Definition ATTR_VERSION_LEN : Z := 4.

(** An object of a client, as its server knows it. *)
Record lwm2m_client_object_t := mk_client_object {
  c_id : Z;
  c_versionMajor : Z;
  c_versionMinor : Z;
  c_instanceList : list Z }.
#[export] Instance client_object_rebuild : Rebuild lwm2m_client_object_t := fun o =>
  mk_client_object (c_id o) (c_versionMajor o) (c_versionMinor o) (c_instanceList o).
#[export] Instance client_object_node : ListNode lwm2m_client_object_t := c_id.

(** ** Scanning *)

(** [while (index < length && go(data[index])) index++] *)
Fixpoint scan (fuel : nat) (go : Z -> bool) (data : list Z) (length index : Z) : C Z :=
  match fuel with
  | O => ret index
  | S fuel =>
      if index <? length then
        c ← rd data index;
        if go c then scan fuel go data length (index + 1) else ret index
      else ret index
  end.
Definition skip (go : Z -> bool) (data : list Z) (length index : Z) : C Z :=
  scan (Z.to_nat (length - index)) go data length index.

(** [while (index > low && go(data[index])) index--] *)
Fixpoint scan_back (fuel : nat) (go : Z -> bool) (data : list Z) (low index : Z) : C Z :=
  match fuel with
  | O => ret index
  | S fuel =>
      if low <? index then
        c ← rd data index;
        if go c then scan_back fuel go data low (index - 1) else ret index
      else ret index
  end.
Definition back_to (go : Z -> bool) (data : list Z) (low index : Z) : C Z :=
  scan_back (Z.to_nat (index - low)) go data low index.

Definition is_space (c : Z) : bool := c =? chr " ".
Definition isnt (c0 c : Z) : bool := negb (c =? c0).

(** [while (length > 0 && data[length-1] == ' ') length--] *)
Definition trim (data : list Z) (length : Z) : C Z :=
  last ← back_to is_space data (-1) (length - 1); ret (last + 1).

(** ** Attributes of the root *)

(** The bounds of a key and its value, and the end; [None] is [return 0]. *)
Definition prv_splitLinkAttribute (data : list Z) (length : Z) : C (option (Z * Z * Z * Z * Z)) :=
  index ← skip is_space data length 0;
  if index =? length then ret None
  else
    c ← rd data index;
    let index := if c =? REG_ATTR_SEPARATOR then index + 1 else index in
    if index =? length then ret None
    else
      let keyStart := index in
      index ← skip (isnt REG_ATTR_EQUALS) data length index;
      if (index =? keyStart) || (index =? length) then ret None
      else
        let keyLength := index - keyStart in
        index ← skip is_space data length (index + 1);
        if index =? length then ret None
        else
          let valueStart := index in
          end_ ← skip (isnt REG_ATTR_SEPARATOR) data length index;
          index ← back_to is_space data valueStart (end_ - 1);
          if index =? valueStart then ret None
          else ret (Some (keyStart, keyLength, valueStart, index - valueStart + 1, end_)).

(** [n == LEN && 0 == lwm2m_strncmp(LITERAL, data + at, n)] *)
Definition is_literal (literal : list Z) (data : list Z) (at_ n : Z) : C bool :=
  if n =? len literal then name_matches literal data at_ else ret false.

(** The format named by the [ct] attribute. *)
Definition content_format (data : list Z) (at_ n : Z) : C (option Z) :=
  json ← is_literal REG_ATTR_CONTENT_JSON data at_ n;
  if (json : bool) then ret (Some LWM2M_CONTENT_JSON)
  else
    old ← is_literal REG_ATTR_CONTENT_JSON_OLD data at_ n;
    if (old : bool) then ret (Some LWM2M_CONTENT_JSON_OLD)
    else
      senml ← is_literal REG_ATTR_CONTENT_SENML_JSON data at_ n;
      if (senml : bool) then ret (Some LWM2M_CONTENT_SENML_JSON)
      else
        cbor ← is_literal REG_ATTR_CONTENT_SENML_CBOR data at_ n;
        ret (if (cbor : bool) then Some LWM2M_CONTENT_SENML_CBOR else None).

(** The loop over the attributes, from [index] on: [rtValCount] and [*format]. *)
Fixpoint root_attributes (fuel : nat) (data : list Z) (length index rtValCount format : Z) : C (option (Z * Z)) :=
  if index <? length then
    match fuel with
    | O => None
    | S fuel =>
        r ← prv_splitLinkAttribute (drop (Z.to_nat index) data) (length - index);
        match r with
        | None => ret None
        | Some (keyStart, keyLength, valueStart, valueLength, result) =>
            rt ← is_literal REG_ATTR_TYPE_KEY data (index + keyStart) keyLength;
            if (rt : bool) then
              ok ← is_literal REG_ATTR_TYPE_VALUE data (index + valueStart) valueLength;
              if negb ok then ret None
              else
                let rtValCount := u8 (rtValCount + 1) in
                if 1 <? rtValCount then ret None
                else root_attributes fuel data length (index + result) rtValCount format
            else
              ct ← is_literal REG_ATTR_CONTENT_KEY data (index + keyStart) keyLength;
              if (ct : bool) then
                if negb (format =? LWM2M_CONTENT_TLV) then ret None
                else
                  f ← content_format data (index + valueStart) valueLength;
                  match f with
                  | Some format => root_attributes fuel data length (index + result) rtValCount format
                  | None => ret None
                  end
              else root_attributes fuel data length (index + result) rtValCount format
        end
    end
  else ret (Some (rtValCount, format)).

Section decoding.
Context `{HM : Malloc}.

(** [*format] and [*altPath], a terminated string; [None] is [return 0]. *)
Definition prv_parseLinkAttributes (data : list Z) (length format : Z) : C (option (Z * option (list Z))) :=
  length ← trim data length;
  start ← (if 2 <=? length then c ← rd data 0; ret (c =? REG_URI_START) else ret false);
  if negb start then ret None
  else
    let data := drop 1 data in
    let length := length - 1 in
    index ← back_to (isnt REG_URI_END) data 0 (length - 1);
    if (index =? 0) || (index =? length - 1) then ret None
    else
      c ← rd data 0;
      let pathStart := if c =? chr "/" then 1 else 0 in
      let pathLength := index - pathStart in
      let index := index + 1 in
      separator ← (if length <=? index then ret false else c ← rd data index; ret (c =? REG_ATTR_SEPARATOR));
      if negb separator then ret None
      else
        r ← root_attributes (Z.to_nat length) data length (index + 1) 0 format;
        match r with
        | None => ret None
        | Some (rtValCount, format) =>
            if 1 <? rtValCount then ret None
            else if pathLength =? 0 then ret (Some (format, None))
            else if negb (malloc_ok (pathLength + 1)) then ret None
            else path ← rd_bytes data pathStart pathLength; ret (Some (format, Some (path ++ [0])))
        end.
End decoding.

(** ** Links of objects *)

(** The version in an attribute of [limit] bytes, with the moved [data], [limit]
    and [length]; [None] is [return 0]. *)
Definition read_version (data : list Z) (limit length : Z) : C (option (Z * Z * list Z * Z * Z)) :=
  c ← rd data ATTR_VERSION_LEN;
  let quoted := c =? 34 in
  let '(data, limit, length) := if quoted then (drop 1 data, limit - 1, length - 1) else (data, limit, length) in
  c ← rd data (limit - 1);
  let extra := if c =? 34 then 1 else 0 in
  let limit := limit - extra in
  if limit <? ATTR_VERSION_LEN then ret None
  else
    limit2 ← skip (isnt (chr ".")) data limit (ATTR_VERSION_LEN + 1);
    if limit - 2 <? limit2 then ret None
    else
      major ← utils_textToUInt (drop (Z.to_nat ATTR_VERSION_LEN) data) (limit2 - ATTR_VERSION_LEN);
      match major with
      | None => ret None
      | Some major =>
          if 255 <? major then ret None
          else
            minor ← utils_textToUInt (drop (Z.to_nat (limit2 + 1)) data) (limit - limit2 - 1);
            match minor with
            | None => ret None
            | Some minor => if 255 <? minor then ret None else ret (Some (major, minor, data, limit + extra, length))
            end
      end.

(** The loop over the attributes of a link: the version, or [None] when the link
    is refused. *)
Fixpoint link_attributes (fuel : nat) (data : list Z) (length versionMajor versionMinor : Z) : C (option (Z * Z)) :=
  if 0 <? length then
    match fuel with
    | O => None
    | S fuel =>
        spaces ← skip is_space data length 0;
        let data := drop (Z.to_nat spaces) data in
        let length := length - spaces in
        if length =? 0 then ret (Some (versionMajor, versionMinor))
        else
          limit ← skip (isnt REG_ATTR_SEPARATOR) data length 0;
          version ← (if ATTR_VERSION_LEN <? limit then name_matches ATTR_VERSION_STR data 0 else ret false);
          r ← (if (version : bool) then
                 if negb (versionMajor =? 0) || negb (versionMinor =? 0) then ret None
                 else if limit <? ATTR_VERSION_LEN + 2 then ret None
                 else read_version data limit length
               else ret (Some (versionMajor, versionMinor, data, limit, length)));
          match r with
          | None => ret None
          | Some (versionMajor, versionMinor, data, limit, length) =>
              c ← rd data limit;
              let limit := if c =? REG_ATTR_SEPARATOR then limit + 1 else limit in
              link_attributes fuel (drop (Z.to_nat limit) data) (u16 (length - limit)) versionMajor versionMinor
          end
    end
  else ret (Some (versionMajor, versionMinor)).

(** The bytes behind the identifiers: the close tag at [limit], the attributes. *)
Definition link_end (data : list Z) (limit length objId : Z) (instanceId_ : option Z)
    : C (option (Z * option Z * Z * Z)) :=
  c ← rd data limit;
  if negb (c =? REG_URI_END) then ret None
  else
    let data := drop (Z.to_nat (limit + 1)) data in
    let length := length - (limit + 1) in
    separator ← (if 1 <? length then c ← rd data 0; ret (c =? REG_ATTR_SEPARATOR) else ret false);
    if (separator : bool) then
      v ← link_attributes (Z.to_nat 65536) (drop 1 data) (length - 1) 0 0;
      ret (match v with Some (major, minor) => Some (objId, instanceId_, major, minor) | None => None end)
    else ret (Some (objId, instanceId_, 0, 0)).

(** [*objId], [*instanceId] when the result is 2, and the version; [None] is
    [return 0]. *)
Definition prv_getId (data : list Z) (length : Z) : C (option (Z * option Z * Z * Z)) :=
  length ← trim data length;
  start ← (if length <? 1 then ret false else c ← rd data 0; ret (c =? REG_URI_START));
  if negb start then ret None
  else
    let data := drop 1 data in
    let length := length - 1 in
    slash ← (if length <? 1 then ret false else c ← rd data 0; ret (c =? chr "/"));
    if negb slash then ret None
    else
      let data := drop 1 data in
      let length := length - 1 in
      limit ← skip (fun c => isnt (chr "/") c && isnt REG_URI_END c) data length 0;
      if (limit =? 0) || (length <=? limit) then ret None
      else
        value ← uri_getNumber data limit;
        if (value <? 0) || (LWM2M_MAX_ID <=? value) then ret None
        else
          c ← rd data limit;
          if c =? chr "/" then
            let data := drop (Z.to_nat (limit + 1)) data in
            let length := length - (limit + 1) in
            limit ← skip (isnt REG_URI_END) data length 0;
            if length <=? limit then ret None
            else if 0 <? limit then
              instance ← uri_getNumber data limit;
              if (instance <? 0) || (LWM2M_MAX_ID <=? instance) then ret None
              else link_end data limit length value (Some instance)
            else link_end data limit length value None
          else link_end data limit length value None.

(** ** The payload *)

Section payload.
Context `{HM : Malloc}.

Definition SIZEOF_CLIENT_OBJECT : Z := 24.
Definition SIZEOF_LIST : Z := 16.

(** Writing the node of the list with the identifier [id]. *)
Definition upd_object (objList : list lwm2m_client_object_t) (id : Z) (f : lwm2m_client_object_t -> lwm2m_client_object_t)
    : list lwm2m_client_object_t :=
  map (fun o => if c_id o =? id then f o else o) objList.

(** The node of an instance is cleared after its identifier has been written; its
    allocation is not tested. *)
Definition add_instance (instances : list Z) (instance : Z) : C (list Z) :=
  if lwm2m_list_find instances instance is Some _ then ret instances
  else assert! malloc_ok SIZEOF_LIST; ret (lwm2m_list_add instances 0 []).

(** The object of a link, [None] when there is no memory. *)
Definition add_link (objList : list lwm2m_client_object_t) (id : Z) (instance : option Z) (major minor : Z)
    : C (option (list lwm2m_client_object_t)) :=
  let objList :=
    match lwm2m_list_find objList id with
    | Some _ => Some objList
    | None =>
        if malloc_ok SIZEOF_CLIENT_OBJECT then Some (lwm2m_list_add objList (mk_client_object id 0 0 []) []) else None
    end in
  match objList with
  | None => ret None
  | Some objList =>
      match instance with
      | None => ret (Some (upd_object objList id (fun o => o <| c_versionMajor := major |> <| c_versionMinor := minor |>)))
      | Some instance =>
          o ← lwm2m_list_find objList id;
          l ← add_instance (c_instanceList o) instance;
          ret (Some (upd_object objList id (fun o => o <| c_instanceList := l |>)))
      end
  end.

(** The loop from [index] on: the objects, the format and the alternative path;
    [None] in the result is the label [error]. *)
Fixpoint links_loop (fuel : nat) (payload : list Z) (payloadLength index : Z) (objList : list lwm2m_client_object_t)
    (root : option (Z * option (list Z))) : C (option (list lwm2m_client_object_t * option (Z * option (list Z)))) :=
  match fuel with
  | O => None
  | S fuel =>
      if payloadLength <? index then ret (Some (objList, root))
      else
        index ← skip is_space payload payloadLength index;
        if index =? payloadLength then ret (Some (objList, root))
        else
          let start := u16 index in
          index ← skip (isnt REG_DELIMITER) payload payloadLength index;
          let length := u16 (index - start) in
          let data := drop (Z.to_nat start) payload in
          r ← prv_getId data length;
          match r with
          | Some (id, instance, major, minor) =>
              objList ← add_link objList id instance major minor;
              match objList with
              | Some objList => links_loop fuel payload payloadLength (index + 1) objList root
              | None => ret None
              end
          | None =>
              match root with
              | Some _ => ret None
              | None =>
                  r ← prv_parseLinkAttributes data length LWM2M_CONTENT_TLV;
                  match r with
                  | Some root => links_loop fuel payload payloadLength (index + 1) objList (Some root)
                  | None => ret None
                  end
              end
          end
  end.

(** The objects, [[]] for NULL, with [*format] and [*altPath]. *)
Definition prv_decodeRegisterPayload (payload : list Z) (payloadLength : Z)
    : C (list lwm2m_client_object_t * Z * option (list Z)) :=
  r ← links_loop (Z.to_nat payloadLength + 2) payload payloadLength 0 [] None;
  ret (match r with
       | Some (objList, Some (format, altPath)) => (objList, format, altPath)
       | Some (objList, None) => (objList, LWM2M_CONTENT_TLV, None)
       | None => ([], LWM2M_CONTENT_TLV, None)
       end).
End payload.

(** ** Lemmas on scanning *)

Lemma skip_stop go pre mid c post length_ :
  Forall (fun x => go x = true) mid -> go c = false -> len pre + len mid < length_ ->
  skip go (pre ++ mid ++ c :: post) length_ (len pre) = Some (len pre + len mid).
Proof.
  intros Hm Hc. unfold skip. intros Hl. assert (length mid < Z.to_nat (length_ - len pre))%nat as Hf by lia.
  remember (Z.to_nat (length_ - len pre)) as fuel eqn:E. clear E. revert fuel pre Hl Hf.
  induction Hm as [|x mid Hx Hm IH]; intros [|fuel] pre Hl Hf; try (cbn in Hf; lia); cbn [scan app length] in *; guards.
  - rewrite rd_middle by done. mstep. rewrite Hc. f_equal. lia.
  - rewrite rd_middle by done. mstep. rewrite Hx. specialize (IH fuel (pre ++ [x])). rewrite <- !app_assoc, length_app in IH.
    cbn [app length] in IH. replace (len pre + 1) with (Z.of_nat (length pre + 1)) by lia. rewrite IH by lia. f_equal. lia.
Qed.

Lemma skip_end go pre mid post length_ :
  Forall (fun x => go x = true) mid -> length_ = len pre + len mid ->
  skip go (pre ++ mid ++ post) length_ (len pre) = Some length_.
Proof.
  intros Hm ->. unfold skip. replace (Z.to_nat _) with (length mid) by lia. revert pre.
  induction Hm as [|x mid Hx Hm IH]; intros pre; cbn [scan app length]; [f_equal; lia|]. guards.
  rewrite rd_middle by done. mstep. rewrite Hx. specialize (IH (pre ++ [x])). rewrite <- !app_assoc, length_app in IH.
  cbn [app length] in IH. replace (len pre + 1) with (Z.of_nat (length pre + 1)) by lia.
  replace (len pre + Z.of_nat (S (length mid))) with (Z.of_nat (length pre + 1) + len mid) by lia. apply IH.
Qed.

(** From the start of the data. *)
Lemma skip_stop0 go mid c post length_ :
  Forall (fun x => go x = true) mid -> go c = false -> len mid < length_ ->
  skip go (mid ++ c :: post) length_ 0 = Some (len mid).
Proof. intros. by apply (skip_stop go []). Qed.
Lemma skip_end0 go mid post : Forall (fun x => go x = true) mid -> skip go (mid ++ post) (len mid) 0 = Some (len mid).
Proof. intros. by apply (skip_end go []). Qed.

Lemma back_to_stop go pre c mid post low :
  Forall (fun x => go x = true) mid -> go c = false -> low <= len pre ->
  back_to go (pre ++ c :: mid ++ post) low (len pre + len mid) = Some (len pre).
Proof.
  intros Hm Hc Hl. unfold back_to. revert post. induction mid as [|x mid IH] using rev_ind; intros post.
  - cbn [length app]. rewrite Z.add_0_r. destruct (Z.to_nat (len pre - low)) eqn:E; cbn [scan_back]; [done|]. guards.
    rewrite rd_middle by done. mstep. by rewrite Hc.
  - apply Forall_app in Hm as [Hm Hx]. apply Forall_cons in Hx as [Hx _]. rewrite length_app. cbn [length].
    replace (Z.to_nat _) with (S (Z.to_nat (len pre + len mid - low))) by lia. cbn [scan_back]. guards.
    rewrite <- app_assoc. cbn [app].
    assert (rd (pre ++ c :: mid ++ x :: post) (len pre + Z.of_nat (length mid + 1)) = Some x) as ->.
    { replace (pre ++ c :: mid ++ x :: post) with ((pre ++ c :: mid) ++ x :: post) by (by rewrite <- app_assoc).
      apply rd_middle. rewrite length_app. cbn [length]. lia. }
    mstep. rewrite Hx. replace (len pre + Z.of_nat (length mid + 1) - 1) with (len pre + len mid) by lia. by apply IH.
Qed.

Lemma trim_ok pre c post : is_space c = false -> trim (pre ++ c :: post) (len pre + 1) = Some (len pre + 1).
Proof.
  intros Hc. unfold trim. pose proof (back_to_stop is_space pre c [] post (-1)) as H. cbn [app length] in H.
  replace (len pre + 1 - 1) with (len pre + Z.of_nat 0) by lia. rewrite H by (done || lia). done.
Qed.

(** ** Links of objects *)

Lemma parse_loop_prefix s post fuel : forall head r, 0 <= head ->
  parse_loop (s ++ post) (len s) fuel head r = parse_loop s (len s) fuel head r.
Proof.
  induction fuel as [|fuel IH]; intros head r Hh; [done|]. cbn [parse_loop]. destruct (head <? len s) eqn:E; [|done].
  rewrite rd_app_l by lia. destruct (rd s head) as [c|]; [|done]. mstep. destruct (c =? chr "/"); [done|].
  destruct (_ && _); [|done]. destruct (int_ok _); [|done]. cbn zeta. destruct (int_ok _); [|done]. apply IH. lia.
Qed.

Lemma getNumber_id n post : is_id n -> n <> LWM2M_MAX_ID -> uri_getNumber (dec n ++ post) (len (dec n)) = Some n.
Proof.
  intros Hn Hm. assert (Uri.is_id n) as Hn' by (unfold is_id, Uri.is_id, LWM2M_MAX_ID in *; lia).
  rewrite <- (getNumber_dec n Hn' Hm). unfold uri_getNumber, prv_parseNumber.
  pose proof (dec_length_pos n ltac:(unfold is_id in Hn; lia)). rewrite rd_app_l by lia.
  destruct (rd (dec n) 0) as [c|]; [|done]. mstep. destruct (c =? chr "/"); [done|]. by rewrite parse_loop_prefix by lia.
Qed.

Lemma dec_isnt c0 n : 0 <= n -> is_digit c0 = false -> Forall (fun c => isnt c0 c = true) (dec n).
Proof.
  intros Hn Hc. eapply list.Forall_impl; [by apply dec_digits|]. cbn. intros c Hd. unfold isnt.
  destruct (Z.eqb_spec c c0) as [->|]; [congruence|done].
Qed.

(** The identifier of the object, up to a slash or the close tag. *)
Lemma dec_not_end n : 0 <= n -> Forall (fun c => isnt (chr "/") c && isnt REG_URI_END c = true) (dec n).
Proof.
  intros Hn. pose proof (dec_isnt (chr "/") n Hn eq_refl) as H1. pose proof (dec_isnt REG_URI_END n Hn eq_refl) as H2.
  rewrite list.Forall_forall in *. intros c Hc. by rewrite H1, H2.
Qed.

Lemma getId_object id rest_ last_ post length_ :
  is_id id -> id <> LWM2M_MAX_ID -> is_space last_ = false ->
  length_ = len (object_path id ++ REG_URI_END :: rest_) ->
  REG_URI_END :: rest_ = removelast (REG_URI_END :: rest_) ++ [last_] ->
  prv_getId (object_path id ++ (REG_URI_END :: rest_) ++ post) length_ =
    link_end (dec id ++ (REG_URI_END :: rest_) ++ post) (len (dec id)) (length_ - 2) id None.
Proof.
  intros Hid Hmax Hlast -> Hr. unfold prv_getId.
  assert (0 <= id) as Hpos by (unfold is_id in Hid; lia).
  assert (trim (object_path id ++ (REG_URI_END :: rest_) ++ post) (len (object_path id ++ REG_URI_END :: rest_)) =
    Some (len (object_path id ++ REG_URI_END :: rest_))) as ->.
  { rewrite Hr. pose proof (trim_ok (object_path id ++ removelast (REG_URI_END :: rest_)) last_ post Hlast) as H.
    rewrite <- !app_assoc. rewrite <- app_assoc in H. cbn [app] in *.
    replace (len (object_path id ++ removelast (REG_URI_END :: rest_) ++ [last_])) with
      (len (object_path id ++ removelast (REG_URI_END :: rest_)) + 1); [exact H|].
    rewrite !length_app. cbn [length]. lia. }
  mstep. unfold object_path. pose proof (dec_length_pos id Hpos) as Hl. 
  set (l := REG_URI_END :: rest_) in *. assert (1 <= len l) by (unfold l; cbn [length]; lia).
  change (str "</") with ([chr "<"; chr "/"]). rewrite !length_app. cbn [length app]. guards. rewrite rd_cons_0. mstep.
  change (chr "<" =? REG_URI_START) with true. cbn [negb drop]. guards. rewrite rd_cons_0. mstep.
  change (chr "/" =? chr "/") with true. cbn [negb drop].
  rewrite (skip_stop0 _ (dec id) REG_URI_END (rest_ ++ post)) by (first [by apply dec_not_end|done|lia]). mstep. guards.
  rewrite !drop_0, getNumber_id by done. mstep. unfold is_id, LWM2M_MAX_ID in *. guards.
  rewrite (rd_middle (dec id) REG_URI_END (rest_ ++ post)) by done. mstep.
  change (REG_URI_END =? chr "/") with false. f_equal. lia.
Qed.

Lemma link_end_plain pre post id inst :
  link_end (pre ++ REG_URI_END :: post) (len pre) (len pre + 1) id inst = Some (Some (id, inst, 0, 0)).
Proof.
  unfold link_end. rewrite rd_middle by done. mstep. rewrite Z.eqb_refl. cbn [negb].
  by replace (len pre + 1 - (len pre + 1)) with 0 by lia.
Qed.

(** The attribute of a version, [ver=M.m]. *)
Definition version_text (major minor : Z) : list Z := ATTR_VERSION_STR ++ dec major ++ str "." ++ dec minor.

Lemma textToUInt_prefix v post : 0 <= v < 256 -> utils_textToUInt (dec v ++ post) (len (dec v)) = Some (Some v).
Proof. intros Hv. apply textToUInt_dec. lia. Qed.

Lemma digit_middle v : 0 <= v -> exists l c, dec v = l ++ [c] /\ is_digit c = true.
Proof.
  intros Hv. pose proof (dec_digits v Hv) as Hd. pose proof (dec_length_pos v Hv).
  destruct (dec v) as [|x l] using rev_ind; [cbn in *; lia|]. exists l, x. split; [done|].
  apply Forall_app in Hd as [_ Hd]. by apply Forall_cons in Hd as [? _].
Qed.

Lemma read_version_ok major minor post :
  0 <= major < 256 -> 0 <= minor < 256 ->
  read_version (version_text major minor ++ post) (len (version_text major minor)) (len (version_text major minor)) =
    Some (Some (major, minor, version_text major minor ++ post, len (version_text major minor), len (version_text major minor))).
Proof.
  intros HM Hm. unfold read_version. set (text := version_text major minor).
  pose proof (dec_length_pos major ltac:(lia)). pose proof (dec_length_pos minor ltac:(lia)).
  assert (len text = 5 + len (dec major) + len (dec minor)) as Hlen
    by (unfold text, version_text, ATTR_VERSION_STR; rewrite !length_app; lstr; lia).
  assert (exists c, rd (text ++ post) ATTR_VERSION_LEN = Some c /\ is_digit c = true) as (c & -> & Hc).
  { unfold text, version_text. destruct (dec major) as [|c l] eqn:E; [cbn in *; lia|]. exists c.
    pose proof (dec_digits major ltac:(lia)) as Hd. rewrite E in Hd. apply Forall_cons in Hd as [Hd _]. split; [|done].
    rewrite <- !app_assoc. by apply (rd_middle ATTR_VERSION_STR). }
  mstep. assert ((c =? 34) = false) as -> by (unfold is_digit in Hc; clia). cbv beta iota.
  destruct (digit_middle minor ltac:(lia)) as (l & d & El & Hd).
  assert (rd (text ++ post) (len text - 1) = Some d) as ->.
  { unfold text, version_text. rewrite El, !app_assoc. rewrite <- (app_assoc _ [d] post).
    apply rd_middle. rewrite !length_app. cbn [length]. lia. }
  mstep. assert ((d =? 34) = false) as -> by (unfold is_digit in Hd; clia). rewrite Z.sub_0_r, Z.add_0_r.
  unfold ATTR_VERSION_LEN. guards.
  assert (skip (isnt (chr ".")) (text ++ post) (len text) (4 + 1) = Some (4 + len (dec major))) as ->.
  { unfold text, version_text. destruct (dec major) as [|x ds] eqn:E; [cbn in *; lia|].
    pose proof (dec_isnt (chr ".") major ltac:(lia) eq_refl) as Hi. rewrite E in Hi. apply Forall_cons in Hi as [_ Hi].
    rewrite <- !app_assoc. cbn [app].
    pose proof (skip_stop (isnt (chr ".")) (ATTR_VERSION_STR ++ [x]) ds (chr ".") (dec minor ++ post) (len text)) as Hs.
    rewrite <- !app_assoc in Hs. cbn [app] in Hs. unfold text, version_text in Hs. rewrite E in Hs.
    rewrite length_app in Hs. change (Z.of_nat (length ATTR_VERSION_STR + length [x])) with (4 + 1) in Hs.
    etransitivity; [apply Hs; [done|done|]|cbn [length]; f_equal; lia].
    rewrite !length_app. change (length ATTR_VERSION_STR) with 4%nat. cbn [length]. lstr. lia. }
  mstep. guards.
  assert (drop (Z.to_nat 4) (text ++ post) = dec major ++ str "." ++ dec minor ++ post) as ->.
  { unfold text, version_text. by rewrite <- !app_assoc. }
  replace (4 + len (dec major) - 4) with (len (dec major)) by lia. rewrite textToUInt_prefix by done. mstep. guards.
  assert (drop (Z.to_nat (4 + len (dec major) + 1)) (text ++ post) = dec minor ++ post) as ->.
  { unfold text, version_text. replace (Z.to_nat _) with (length (ATTR_VERSION_STR ++ dec major ++ str ".")) by
      (rewrite !length_app; unfold ATTR_VERSION_STR; lstr; lia).
    replace ((ATTR_VERSION_STR ++ dec major ++ str "." ++ dec minor) ++ post) with
      ((ATTR_VERSION_STR ++ dec major ++ str ".") ++ dec minor ++ post) by (by rewrite <- !app_assoc).
    by rewrite drop_app_length. }
  replace (len text - (4 + len (dec major)) - 1) with (len (dec minor)) by lia. rewrite textToUInt_prefix by done.
  mstep. by guards.
Qed.

Lemma version_not_separator major minor :
  0 <= major -> 0 <= minor -> Forall (fun c => isnt REG_ATTR_SEPARATOR c = true) (version_text major minor).
Proof.
  intros HM Hm. unfold version_text. repeat apply Forall_app_2; [by repeat constructor| |by repeat constructor|];
    by apply dec_isnt.
Qed.

Lemma link_attributes_version fuel major minor c post :
  0 <= major < 256 -> 0 <= minor < 256 -> c <> REG_ATTR_SEPARATOR -> (1 < fuel)%nat ->
  link_attributes fuel (version_text major minor ++ c :: post) (len (version_text major minor)) 0 0 = Some (Some (major, minor)).
Proof.
  intros HM Hm Hc Hf. destruct fuel as [|fuel]; [lia|]. cbn [link_attributes].
  assert (exists t, version_text major minor = ATTR_VERSION_STR ++ t) as [t Et] by by eexists.
  pose proof (dec_length_pos major ltac:(lia)). pose proof (dec_length_pos minor ltac:(lia)).
  assert (len (version_text major minor) = 5 + len (dec major) + len (dec minor)) as Hlen
    by (unfold version_text, ATTR_VERSION_STR; rewrite !length_app; lstr; lia).
  set (text := version_text major minor) in *. guards.
  assert (skip is_space (text ++ c :: post) (len text) 0 = Some 0) as ->.
  { rewrite Et. apply (skip_stop0 is_space []); [constructor|done|]. rewrite <- Et. cbn [length]. lia. }
  mstep. rewrite drop_0, Z.sub_0_r. guards.
  rewrite (skip_end0 (isnt REG_ATTR_SEPARATOR) text (c :: post)) by (apply version_not_separator; lia). mstep.
  unfold ATTR_VERSION_LEN. guards. rewrite name_matches_start.
  assert (starts_with ATTR_VERSION_STR (text ++ c :: post) = Some true) as -> by by rewrite Et. mstep.
  cbn [negb orb Z.eqb]. guards. unfold text at 1. rewrite read_version_ok by done. mstep. fold text.
  rewrite (rd_middle text c post) by done. mstep. rewrite (proj2 (Z.eqb_neq c _)) by done. rewrite Z.sub_diag.
  change (u16 0) with 0. by destruct fuel.
Qed.

Lemma link_end_version pre c post id inst major minor :
  0 <= major < 256 -> 0 <= minor < 256 -> c <> REG_ATTR_SEPARATOR ->
  link_end (pre ++ REG_URI_END :: REG_ATTR_SEPARATOR :: version_text major minor ++ c :: post) (len pre)
    (len pre + 2 + len (version_text major minor)) id inst = Some (Some (id, inst, major, minor)).
Proof.
  intros HM Hm Hc. unfold link_end. rewrite rd_middle by done. mstep. rewrite Z.eqb_refl. cbn [negb].
  replace (Z.to_nat (len pre + 1)) with (length (pre ++ [REG_URI_END])) by (rewrite length_app; cbn [length]; lia).
  replace (pre ++ REG_URI_END :: REG_ATTR_SEPARATOR :: version_text major minor ++ c :: post) with
    ((pre ++ [REG_URI_END]) ++ REG_ATTR_SEPARATOR :: version_text major minor ++ c :: post) by (by rewrite <- app_assoc).
  rewrite drop_app_length. replace (len pre + 2 + len (version_text major minor) - (len pre + 1)) with
    (len (version_text major minor) + 1) by lia.
  assert (0 < len (version_text major minor)) by (unfold version_text, ATTR_VERSION_STR; rewrite length_app; lstr; lia).
  guards. rewrite rd_cons_0. mstep. rewrite Z.eqb_refl. cbn [drop]. rewrite drop_0.
  replace (len (version_text major minor) + 1 - 1) with (len (version_text major minor)) by lia.
  by rewrite (link_attributes_version (Z.to_nat 65536)) by (done || lia).
Qed.

(** The link of an instance. *)
Lemma getId_instance id inst post :
  is_id id -> id <> LWM2M_MAX_ID -> is_id inst -> inst <> LWM2M_MAX_ID ->
  prv_getId (object_path id ++ (str "/" ++ dec inst ++ str ">") ++ post) (len (object_path id ++ str "/" ++ dec inst ++ str ">")) =
    Some (Some (id, Some inst, 0, 0)).
Proof.
  intros Hid Hmax Hin Hmax'. unfold prv_getId. assert (0 <= id /\ 0 <= inst) as [Hpos Hpos'] by (unfold is_id in *; lia).
  pose proof (dec_length_pos id Hpos) as Hl. pose proof (dec_length_pos inst Hpos') as Hl'.
  replace (len (object_path id ++ str "/" ++ dec inst ++ str ">")) with (len (object_path id ++ str "/" ++ dec inst) + 1)
    by (rewrite !length_app; lstr; lia).
  replace (object_path id ++ (str "/" ++ dec inst ++ str ">") ++ post) with
    ((object_path id ++ str "/" ++ dec inst) ++ REG_URI_END :: post) by (by rewrite <- !app_assoc).
  rewrite trim_ok by done. mstep.
  replace (len (object_path id ++ str "/" ++ dec inst) + 1) with (4 + len (dec id) + len (dec inst))
    by (unfold object_path; rewrite !length_app; lstr; lia).
  unfold object_path. change (str "</") with [chr "<"; chr "/"]. rewrite <- !app_assoc. cbn [app]. guards. rewrite rd_cons_0. mstep.
  change (chr "<" =? REG_URI_START) with true. cbn [negb drop]. guards. rewrite rd_cons_0. mstep.
  change (chr "/" =? chr "/") with true. cbn [negb drop]. rewrite !drop_0. change (str "/") with [chr "/"]. cbn [app].
  rewrite (skip_stop0 _ (dec id) (chr "/")) by (first [by apply dec_not_end|done|lia]). mstep. guards.
  rewrite getNumber_id by done. mstep. unfold is_id, LWM2M_MAX_ID in *. guards.
  rewrite (rd_middle (dec id) (chr "/")) by done. mstep. change (chr "/" =? chr "/") with true. cbv iota.
  replace (Z.to_nat (len (dec id) + 1)) with (length (dec id ++ [chr "/"])) by (rewrite length_app; cbn [length]; lia).
  replace (dec id ++ chr "/" :: dec inst ++ REG_URI_END :: post) with ((dec id ++ [chr "/"]) ++ dec inst ++ REG_URI_END :: post)
    by (by rewrite <- app_assoc).
  rewrite drop_app_length. rewrite (skip_stop0 _ (dec inst) REG_URI_END) by (first [by apply dec_isnt|done|lia]). mstep. guards.
  rewrite getNumber_id by (unfold is_id, LWM2M_MAX_ID in *; lia). mstep. unfold LWM2M_MAX_ID. guards.
  replace (4 + len (dec id) + len (dec inst) - 1 - 1 - (len (dec id) + 1)) with (len (dec inst) + 1) by lia.
  apply link_end_plain.
Qed.

(** ** The link of the root *)

(** Behind the path: the attributes, without the final comma. *)
Definition root_tail : list Z := Eval vm_compute in removelast REG_LWM2M_RESOURCE_TYPE.
Lemma root_tail_eq : REG_LWM2M_RESOURCE_TYPE = root_tail ++ str ",".
Proof. reflexivity. Qed.

(** A path below the root: no tag, no delimiter, and not a number. *)
Definition segment_ok (seg : list Z) : Prop :=
  Forall (fun c => isnt REG_URI_END c && isnt REG_DELIMITER c && isnt 0 c = true) seg /\
  forall c l, seg = c :: l -> is_digit c = false.

Definition root_text (seg : list Z) : list Z := chr "<" :: chr "/" :: seg ++ root_tail.

Lemma root_trim seg post : trim (root_text seg ++ post) (len (root_text seg)) = Some (len (root_text seg)).
Proof.
  pose proof (trim_ok (chr "<" :: chr "/" :: seg ++ removelast root_tail) (chr "2") post eq_refl) as H.
  replace (len (root_text seg)) with (len (chr "<" :: chr "/" :: seg ++ removelast root_tail) + 1).
  - rewrite <- H. f_equal. unfold root_text. cbn [app]. by rewrite <- !app_assoc.
  - unfold root_text. cbn [length]. rewrite !length_app. change (length root_tail) with (S (length (removelast root_tail))). lia.
Qed.

Lemma getId_root seg post : segment_ok seg -> prv_getId (root_text seg ++ post) (len (root_text seg)) = Some None.
Proof.
  intros [Hseg Hdig]. unfold prv_getId. rewrite root_trim. mstep. assert (len root_tail = 23) as Ht by done.
  replace (len (root_text seg)) with (25 + len seg) by (unfold root_text; cbn [length]; rewrite length_app; lia).
  unfold root_text. cbn [app]. guards. rewrite rd_cons_0. mstep.
  change (chr "<" =? REG_URI_START) with true. cbn [negb drop]. guards. rewrite rd_cons_0. mstep.
  change (chr "/" =? chr "/") with true. cbn [negb drop]. rewrite !drop_0, <- app_assoc.
  set (go := fun c => isnt (chr "/") c && isnt REG_URI_END c).
  assert (exists mid c rest_, seg ++ root_tail ++ post = mid ++ c :: rest_ /\ Forall (fun c => go c = true) mid /\ go c = false /\
    len mid <= len seg /\ forall x l, mid = x :: l -> exists l', seg = x :: l') as (mid & c & rest_ & E & Hm & Hc & Hl & Hx).
  { clear Hdig. induction Hseg as [|x seg Hc Hs IH].
    - exists [], REG_URI_END, (drop 1 root_tail ++ post). repeat split; try done; try constructor. 
    - destruct (go x) eqn:Ex.
      + destruct IH as (mid & c & rest_ & E & Hm & Hc' & Hl & Hx). exists (x :: mid), c, rest_. cbn [app length]. rewrite E.
        split; [done|]. split; [by constructor|]. split; [done|]. split; [lia|]. intros y l [= <- _]. by exists seg.
      + exists [], x, (seg ++ root_tail ++ post). split; [done|]. split; [constructor|]. split; [done|].
        split; [cbn [length]; lia|]. by intros. }
  rewrite E, (skip_stop0 go mid c) by (done || lia). mstep. destruct mid as [|x mid]; [done|].
  destruct (Hx x mid eq_refl) as [l' ->]. specialize (Hdig x l' eq_refl). cbn [length] in *. guards.
  assert (uri_getNumber ((x :: mid) ++ c :: rest_) (Z.of_nat (S (length mid))) = Some (-1)) as ->; [|done].
  unfold uri_getNumber, prv_parseNumber. cbn [app]. rewrite rd_cons_0. mstep.
  apply Forall_cons in Hm as [Hgx _]. unfold go, isnt in Hgx. apply andb_true_iff in Hgx as [Hgx _].
  destruct (x =? chr "/") eqn:Es; [done|]. cbn [parse_loop]. guards. rewrite rd_cons_0. mstep. rewrite Es.
  unfold is_digit in Hdig. by rewrite Hdig.
Qed.
Lemma is_literal_at literal pre (k : nat) x n :
  (k <= length x)%nat ->
  is_literal literal (pre ++ x) (len pre + Z.of_nat k) n =
    if n =? len literal then starts_with literal (drop k x) else ret false.
Proof.
  intros Hk. unfold is_literal. destruct (n =? len literal); [|done].
  rewrite <- (name_matches_starts literal (pre ++ take k x) (drop k x)). f_equal.
  - by rewrite <- app_assoc, take_drop.
  - rewrite length_app, length_take. lia.
Qed.

(** The attributes of the root link: the resource type, and the format. *)
Definition root_attrs : list Z := Eval vm_compute in drop 2 root_tail.

Lemma root_attributes_ok fuel pre post :
  (2 <= fuel)%nat ->
  root_attributes fuel (pre ++ root_attrs ++ post) (len pre + 21) (len pre) 0 LWM2M_CONTENT_TLV =
    Some (Some (1, LWM2M_CONTENT_SENML_CBOR)).
Proof.
  intros Hf. destruct fuel as [|[|fuel]]; [lia..|]. cbn [root_attributes]. guards.
  rewrite Nat2Z.id, drop_app_length. replace (len pre + 21 - len pre) with 21 by lia.
  assert (prv_splitLinkAttribute (root_attrs ++ post) 21 = Some (Some (0, 2, 3, 11, 14))) as -> by (vm_compute; reflexivity).
  mstep. rewrite (is_literal_at REG_ATTR_TYPE_KEY pre 0) by (cbn; lia).
  assert (starts_with REG_ATTR_TYPE_KEY (drop 0 (root_attrs ++ post)) = Some true) as -> by (vm_compute; reflexivity).
  change (2 =? len REG_ATTR_TYPE_KEY) with true. cbv iota. mstep.
  rewrite (is_literal_at REG_ATTR_TYPE_VALUE pre 3) by (rewrite length_app; change (length root_attrs) with 21%nat; lia).
  assert (starts_with REG_ATTR_TYPE_VALUE (drop 3 (root_attrs ++ post)) = Some true) as -> by (vm_compute; reflexivity).
  change (11 =? len REG_ATTR_TYPE_VALUE) with true. cbv iota. mstep. cbn [negb]. change (u8 (0 + 1)) with 1.
  change (1 <? 1) with false. cbv iota. guards.
  replace (Z.to_nat (len pre + 14)) with (length (pre ++ take 14 root_attrs)) by (rewrite length_app; cbn; lia).
  assert (pre ++ root_attrs ++ post = (pre ++ take 14 root_attrs) ++ drop 14 root_attrs ++ post) as E by (by rewrite <- app_assoc).
  rewrite E, drop_app_length. replace (len pre + 21 - (len pre + 14)) with 7 by lia.
  assert (prv_splitLinkAttribute (drop 14 root_attrs ++ post) 7 = Some (Some (1, 2, 4, 3, 7))) as -> by (vm_compute; reflexivity).
  mstep. rewrite <- E. clear E.
  assert (forall k : nat, (k <= 21)%nat -> (k <= length (root_attrs ++ post))%nat) as Hk
    by (intros k ?; rewrite length_app; change (length root_attrs) with 21%nat; lia).
  replace (len pre + 14 + 1) with (len pre + Z.of_nat 15) by lia. replace (len pre + 14 + 4) with (len pre + Z.of_nat 18) by lia.
  rewrite !is_literal_at by (apply Hk; lia). cbn [Z.eqb len length REG_ATTR_TYPE_KEY REG_ATTR_CONTENT_KEY].
  assert (starts_with REG_ATTR_TYPE_KEY (drop 15 (root_attrs ++ post)) = Some false) as -> by (vm_compute; reflexivity).
  assert (starts_with REG_ATTR_CONTENT_KEY (drop 15 (root_attrs ++ post)) = Some true) as -> by (vm_compute; reflexivity).
  change (2 =? len REG_ATTR_TYPE_KEY) with true. change (2 =? len REG_ATTR_CONTENT_KEY) with true. cbv iota. mstep.
  change (negb (LWM2M_CONTENT_TLV =? LWM2M_CONTENT_TLV)) with false. cbv iota.
  unfold content_format. rewrite !is_literal_at by (apply Hk; lia).
  assert (starts_with REG_ATTR_CONTENT_SENML_JSON (drop 18 (root_attrs ++ post)) = Some false) as -> by (vm_compute; reflexivity).
  assert (starts_with REG_ATTR_CONTENT_SENML_CBOR (drop 18 (root_attrs ++ post)) = Some true) as -> by (vm_compute; reflexivity).
  change (3 =? len REG_ATTR_CONTENT_JSON) with false. change (3 =? len REG_ATTR_CONTENT_JSON_OLD) with false.
  change (3 =? len REG_ATTR_CONTENT_SENML_JSON) with true. change (3 =? len REG_ATTR_CONTENT_SENML_CBOR) with true.
  cbv iota. mstep. destruct fuel; cbn [root_attributes]; guards; done.
Qed.

Lemma parse_root `{Malloc} seg post :
  (seg <> [] -> malloc_ok (len seg + 1) = true) ->
  prv_parseLinkAttributes (root_text seg ++ post) (len (root_text seg)) LWM2M_CONTENT_TLV =
    Some (Some (LWM2M_CONTENT_SENML_CBOR, match seg with [] => None | _ => Some (seg ++ [0]) end)).
Proof.
  intros Hm. unfold prv_parseLinkAttributes. rewrite root_trim. mstep.
  assert (len (root_text seg) = 25 + len seg) as -> by (unfold root_text; cbn [length]; rewrite length_app; change (length root_tail) with 23%nat; lia).
  unfold root_text. cbn [app]. guards. rewrite rd_cons_0. mstep. change (chr "<" =? REG_URI_START) with true. cbn [negb drop].
  rewrite <- app_assoc. set (path := chr "/" :: seg).
  assert (chr "/" :: seg ++ root_tail ++ post = path ++ REG_URI_END :: drop 1 root_tail ++ post) as -> by done.
  replace (25 + len seg - 1 - 1) with (len path + len (drop 1 root_tail)) by (unfold path; cbn [length]; change (length (drop 1 root_tail)) with 22%nat; lia).
  rewrite back_to_stop by (first [done | lia | (vm_compute; repeat constructor)]). mstep.
  assert (len path = 1 + len seg) as Hp by (unfold path; cbn [length]; lia).
  change (len (drop 1 root_tail)) with 22. guards. cbn [orb].
  assert (rd (path ++ REG_URI_END :: drop 1 root_tail ++ post) 0 = Some (chr "/")) as -> by done. mstep.
  change (chr "/" =? chr "/") with true. cbv iota.
  assert (path ++ REG_URI_END :: drop 1 root_tail ++ post = (path ++ [REG_URI_END]) ++ REG_ATTR_SEPARATOR :: root_attrs ++ post) as E
    by (rewrite <- app_assoc; done).
  rewrite E at 1. rewrite rd_middle by (rewrite length_app; cbn [length]; lia). mstep. rewrite Z.eqb_refl. cbn [negb].
  assert (path ++ REG_URI_END :: drop 1 root_tail ++ post = (path ++ [REG_URI_END; REG_ATTR_SEPARATOR]) ++ root_attrs ++ post) as ->
    by (rewrite <- app_assoc; done).
  replace (len path + 1 + 1) with (len (path ++ [REG_URI_END; REG_ATTR_SEPARATOR])) by (rewrite length_app; cbn [length]; lia).
  replace (25 + len seg - 1) with (len (path ++ [REG_URI_END; REG_ATTR_SEPARATOR]) + 21) by (rewrite length_app; cbn [length]; lia).
  rewrite root_attributes_ok by lia. mstep. change (1 <? 1) with false. cbv iota.
  replace (len path - 1) with (len seg) by lia. destruct seg as [|x seg]; [done|]. cbn [length] in *. guards.
  rewrite Hm by done. cbn [negb].
  assert (path = [chr "/"] ++ x :: seg) as -> by done. rewrite <- !app_assoc.
  by rewrite (rd_bytes_app [chr "/"] (x :: seg)) by (cbn [length]; lia).
Qed.

(** ** The payload of a client *)

Section roundtrip.
Context `{HM : Malloc} {F : Type}.
Abbreviation object := (lwm2m_object_t F).

(** A link with what it says. *)
Record link := mk_link { l_text : list Z; l_id : Z; l_instance : option Z; l_major : Z; l_minor : Z }.

(** What the decoding of a link needs: it stops at the delimiter, or at any byte
    that is not the separator. *)
Definition link_reads (l : link) : Prop :=
  (exists t, l_text l = chr "<" :: t) /\ Forall (fun c => isnt REG_DELIMITER c = true) (l_text l) /\
  forall c post, c <> REG_ATTR_SEPARATOR ->
    prv_getId (l_text l ++ c :: post) (len (l_text l)) = Some (Some (l_id l, l_instance l, l_major l, l_minor l)).

Definition inst_link (o : object) (i : Z) : link :=
  mk_link (object_path (objID o) ++ str "/" ++ dec i ++ str ">") (objID o) (Some i) 0 0.

Definition links_of (o : object) : list link :=
  if is_versioned o then
    mk_link (object_path (objID o) ++ str ">;" ++ version_text (versionMajor o) (versionMinor o)) (objID o) None
      (versionMajor o) (versionMinor o) :: map (inst_link o) (instanceList o)
  else match instanceList o with
       | [] => [mk_link (object_path (objID o) ++ str ">") (objID o) None 0 0]
       | _ => map (inst_link o) (instanceList o)
       end.

Definition delimited (l : link) : list Z := l_text l ++ str ",".

Lemma inst_links_text o : concat (map delimited (map (inst_link o) (instanceList o))) = instance_links o.
Proof.
  unfold instance_links. rewrite map_map. f_equal. apply map_ext. intros i. unfold delimited, inst_link, instance_link.
  cbn [l_text]. by rewrite <- !app_assoc.
Qed.

Lemma links_of_text o : concat (map delimited (links_of o)) = object_links o.
Proof.
  unfold links_of, object_links. destruct (is_versioned o).
  - cbn [map concat]. rewrite inst_links_text. unfold delimited, version_text, ATTR_VERSION_STR. cbn [l_text].
    rewrite <- !app_assoc. done.
  - destruct (instanceList o) eqn:E; [|rewrite <- E; apply inst_links_text].
    unfold delimited. cbn [map concat l_text]. by rewrite app_nil_r, <- app_assoc.
Qed.

(** An identifier that a registration can hold. *)
Definition known_id (i : Z) : Prop := 0 <= i < LWM2M_MAX_ID.

Lemma not_delimiter_dec n : 0 <= n -> Forall (fun c => isnt REG_DELIMITER c = true) (dec n).
Proof. intros. by apply dec_isnt. Qed.

Lemma object_path_text id : 0 <= id -> Forall (fun c => isnt REG_DELIMITER c = true) (object_path id).
Proof. intros. apply Forall_app_2; [by repeat constructor|by apply not_delimiter_dec]. Qed.

Lemma inst_link_reads o i : known_id (objID o) -> known_id i -> link_reads (inst_link o i).
Proof.
  intros Ho Hi. unfold known_id, LWM2M_MAX_ID in *. split; [by eexists|]. unfold inst_link. cbn [l_text]. split.
  - apply Forall_app_2; [by apply object_path_text; lia|]. apply Forall_app_2; [by repeat constructor|].
    apply Forall_app_2; [by apply not_delimiter_dec; lia|by repeat constructor].
  - intros c post _. cbn [l_id l_instance l_major l_minor]. rewrite <- app_assoc.
    apply getId_instance; unfold is_id, LWM2M_MAX_ID; lia.
Qed.

Lemma links_of_reads o :
  known_id (objID o) -> Forall known_id (instanceList o) -> 0 <= versionMajor o < 256 -> 0 <= versionMinor o < 256 ->
  Forall link_reads (links_of o).
Proof.
  intros Ho Hi Hmaj Hmin.
  assert (Forall link_reads (map (inst_link o) (instanceList o))) as Hl.
  { apply Forall_map. eapply list.Forall_impl; [exact Hi|]. intros. by apply inst_link_reads. }
  unfold known_id, LWM2M_MAX_ID in Ho. unfold links_of. destruct (is_versioned o); [constructor; [|done]|].
  - split; [by eexists|]. cbn [l_text l_id l_instance l_major l_minor]. split.
    + apply Forall_app_2; [by apply object_path_text; lia|]. apply Forall_app_2; [by repeat constructor|].
      unfold version_text. apply Forall_app_2; [by repeat constructor|]. apply Forall_app_2; [by apply not_delimiter_dec; lia|].
      apply Forall_app_2; [by repeat constructor|by apply not_delimiter_dec; lia].
    + intros c post Hc. set (v := version_text (versionMajor o) (versionMinor o)).
      destruct (digit_middle (versionMinor o)) as (l & d & El & Hd); [lia|].
      pose proof (getId_object (objID o) (REG_ATTR_SEPARATOR :: v) d (c :: post) (len (object_path (objID o) ++ str ">;" ++ v))) as H.
      change (str ">;" ++ v) with (REG_URI_END :: REG_ATTR_SEPARATOR :: v) in *. rewrite <- app_assoc. rewrite H; clear H.
      * cbn [app]. rewrite <- (link_end_version (dec (objID o)) c post (objID o) None) by done. fold v. f_equal.
        unfold object_path. rewrite !length_app. cbn [length]. lstr. lia.
      * unfold is_id; lia.
      * unfold LWM2M_MAX_ID; lia.
      * unfold is_digit, is_space in *. clia.
      * done.
      * assert (exists w, v = w ++ [d]) as [w ->] by (unfold v, version_text; rewrite El; eexists; by rewrite !app_assoc).
        change (REG_URI_END :: REG_ATTR_SEPARATOR :: w ++ [d]) with ((REG_URI_END :: REG_ATTR_SEPARATOR :: w) ++ [d]).
        by rewrite removelast_last.
  - destruct (instanceList o) eqn:E; [|done]. constructor; [|constructor]. split; [by eexists|].
    cbn [l_text l_id l_instance l_major l_minor]. split.
    + apply Forall_app_2; [by apply object_path_text; lia|by repeat constructor].
    + intros c post _. pose proof (getId_object (objID o) [] REG_URI_END (c :: post) (len (object_path (objID o) ++ str ">"))) as H.
      change (str ">") with [REG_URI_END] in *. rewrite <- app_assoc. rewrite H; clear H; try done.
      * rewrite <- (link_end_plain (dec (objID o)) (c :: post)). cbn [app]. f_equal.
        unfold object_path. rewrite !length_app. cbn [length]. lstr. lia.
      * unfold is_id; lia.
      * unfold LWM2M_MAX_ID; lia.
Qed.

(** ** The list of objects *)

Fixpoint add_links (links : list link) (objs : list lwm2m_client_object_t) : C (option (list lwm2m_client_object_t)) :=
  match links with
  | [] => ret (Some objs)
  | l :: links => objs ←? add_link objs (l_id l) (l_instance l) (l_major l) (l_minor l); add_links links objs
  end.

Definition below (id : Z) (l : list lwm2m_client_object_t) : Prop := Forall (fun o => c_id o < id) l.

Lemma below_find l id x : below id l -> c_id x = id -> lwm2m_list_find (l ++ [x]) id = Some x.
Proof.
  intros Hl Hx. induction Hl as [|y l Hy Hl IH]; cbn [app lwm2m_list_find]; unfold node_id, client_object_node in *; by guards.
Qed.

Lemma below_none l id : below id l -> lwm2m_list_find l id = None.
Proof. intros Hl. induction Hl as [|y l Hy Hl IH]; cbn [lwm2m_list_find]; unfold node_id, client_object_node in *; by guards. Qed.

Lemma below_add l id x : below id l -> c_id x = id -> lwm2m_list_add l x [] = l ++ [x].
Proof.
  intros Hl Hx. destruct Hl as [|y l Hy Hl]; [done|]. unfold lwm2m_list_add, node_id, client_object_node. guards.
  f_equal. induction Hl as [|z l Hz Hl IH]; [done|]. cbn [insert_after app]. unfold node_id, client_object_node. guards. cbn [app] in IH. injection IH as IH. by rewrite IH.
Qed.

Lemma below_upd l id x f : below id l -> c_id x = id -> upd_object (l ++ [x]) id f = l ++ [f x].
Proof.
  intros Hl Hx. unfold upd_object. rewrite map_app. cbn [map]. f_equal; [|by guards].
  induction Hl as [|z l Hz Hl IH]; [done|]. cbn [map]. guards. by rewrite IH.
Qed.

Context (HMo : malloc_ok SIZEOF_CLIENT_OBJECT = true) (HMl : malloc_ok SIZEOF_LIST = true).

Lemma add_link_new l id inst major minor :
  below id l -> add_link l id inst major minor = add_link (l ++ [mk_client_object id 0 0 []]) id inst major minor.
Proof.
  intros Hl. unfold add_link. rewrite (below_find l id (mk_client_object id 0 0 [])) by done.
  rewrite below_none, HMo by done. by rewrite (below_add l id) by done.
Qed.

Lemma add_link_version l x major minor :
  below (c_id x) l ->
  add_link (l ++ [x]) (c_id x) None major minor =
    Some (Some (l ++ [mk_client_object (c_id x) major minor (c_instanceList x)])).
Proof. intros Hl. unfold add_link. rewrite below_find by done. by rewrite below_upd by done. Qed.

Lemma find_zeros k i : (k = 0%nat \/ 0 < i) -> lwm2m_list_find (replicate k 0) i = None.
Proof.
  intros Hk. induction k as [|k IH]; [done|]. cbn [replicate lwm2m_list_find]. unfold node_id, instance_node. guards. apply IH. lia.
Qed.
Lemma add_zeros k : lwm2m_list_add (replicate k 0) 0 [] = replicate (S k) 0.
Proof. by destruct k as [|[|k]]. Qed.

Lemma add_link_instance l id major minor k i M m :
  below id l -> (k = 0%nat \/ 0 < i) ->
  add_link (l ++ [mk_client_object id major minor (replicate k 0)]) id (Some i) M m =
    Some (Some (l ++ [mk_client_object id major minor (replicate (S k) 0)])).
Proof.
  intros Hl Hk. unfold add_link. rewrite !(below_find l id) by done. mstep. unfold add_instance. cbn [c_instanceList].
  rewrite find_zeros, HMl by done. mstep. rewrite add_zeros. by rewrite below_upd by done.
Qed.

Lemma add_instances o l major minor insts : forall k,
  below (objID o) l -> StronglySorted Z.lt insts -> Forall known_id insts -> (k = 0%nat \/ Forall (fun i => 0 < i) insts) ->
  add_links (map (inst_link o) insts) (l ++ [mk_client_object (objID o) major minor (replicate k 0)]) =
    Some (Some (l ++ [mk_client_object (objID o) major minor (replicate (k + length insts) 0)])).
Proof.
  intros k Hl Hs Hi. revert k. induction Hs as [|i insts Hs IH Hlt]; intros k Hk; cbn [map add_links length].
  - by rewrite Nat.add_0_r.
  - cbn [l_id l_instance l_major l_minor inst_link]. apply Forall_cons in Hi as [Hi0 Hi].
    rewrite add_link_instance by (first [done | destruct Hk as [|Hk]; [by left|apply Forall_cons in Hk as [? _]; by right]]).
    unfold and_then. mstep. rewrite IH; [|done|].
    + by replace (S k + length insts)%nat with (k + S (length insts))%nat by lia.
    + right. unfold known_id in Hi0. eapply list.Forall_impl; [exact Hlt|]. cbn. lia.
Qed.

(** What the server knows of an object: its version, and a list of as many
    instances, whose identifiers are lost. *)
Definition decoded (o : object) : lwm2m_client_object_t :=
  mk_client_object (objID o) (versionMajor o) (versionMinor o) (replicate (length (instanceList o)) 0).

Lemma add_object o l :
  below (objID o) l -> StronglySorted Z.lt (instanceList o) -> Forall known_id (instanceList o) ->
  add_links (links_of o) l = Some (Some (l ++ [decoded o])).
Proof.
  intros Hl Hs Hi. unfold links_of, decoded. destruct (is_versioned o) eqn:Ev.
  - cbn [add_links l_id l_instance l_major l_minor]. rewrite add_link_new by done.
    rewrite (add_link_version l (mk_client_object (objID o) 0 0 [])) by done. unfold and_then. mstep. cbn [c_id c_instanceList].
    by apply (add_instances o l _ _ (instanceList o) 0); [..|by left].
  - assert (versionMajor o = 0 /\ versionMinor o = 0) as [-> ->] by (unfold is_versioned in Ev; lia).
    destruct (instanceList o) as [|i insts] eqn:E.
    + cbn [add_links l_id l_instance l_major l_minor]. rewrite add_link_new by done.
      by rewrite (add_link_version l (mk_client_object (objID o) 0 0 [])) by done.
    + pose proof (add_instances o l 0 0 (i :: insts) 0 Hl Hs Hi (or_introl eq_refl)) as H. cbn [map add_links] in *.
      rewrite add_link_new by done. exact H.
Qed.

Lemma add_links_app l1 l2 objs : add_links (l1 ++ l2) objs = (r ←? add_links l1 objs; add_links l2 r).
Proof.
  revert objs. induction l1 as [|l l1 IH]; intros objs; [done|]. cbn [app add_links]. unfold and_then.
  destruct (add_link _ _ _ _ _) as [[objs'|]|]; [|done..]. mstep. apply IH.
Qed.

(** The links in memory, with the bytes behind them. *)
Fixpoint joined (links : list link) (behind : list Z) : list Z :=
  match links with
  | [] => behind
  | [l] => l_text l ++ behind
  | l :: links => l_text l ++ REG_DELIMITER :: joined links behind
  end.

Lemma joined_concat links behind :
  links <> [] -> joined links behind = removelast (concat (map delimited links)) ++ behind.
Proof.
  induction links as [|l [|l' links] IH]; intros Hn; [done|..].
  - cbn [joined map concat]. unfold delimited. change (str ",") with [REG_DELIMITER]. by rewrite app_nil_r, removelast_last.
  - change (joined (l :: l' :: links) behind) with (l_text l ++ REG_DELIMITER :: joined (l' :: links) behind).
    rewrite IH by done. cbn [map concat]. assert (delimited l' ++ concat (map delimited links) <> []) as Hne
      by (unfold delimited; by destruct (l_text l')).
    rewrite (removelast_app (delimited l)) by done. change (delimited l) with (l_text l ++ [REG_DELIMITER]). by rewrite <- !app_assoc.
Qed.

(** A link is read up to the delimiter, or to the end. *)
Lemma loop_link l pre rest_ fuel length_ c objs root :
  link_reads l -> c <> REG_ATTR_SEPARATOR -> length_ <= 65535 ->
  (c = REG_DELIMITER /\ len pre + len (l_text l) < length_ \/ length_ = len pre + len (l_text l)) ->
  links_loop (S fuel) (pre ++ l_text l ++ c :: rest_) length_ (len pre) objs root =
    r ← add_link objs (l_id l) (l_instance l) (l_major l) (l_minor l);
    match r with
    | Some objs => links_loop fuel (pre ++ l_text l ++ c :: rest_) length_ (len pre + len (l_text l) + 1) objs root
    | None => ret None
    end.
Proof.
  intros ([t Et] & Hd & Hr) Hc Hmax Hlen. cbn [links_loop].
  assert (0 < len (l_text l)) by (rewrite Et; cbn [length]; lia).
  assert (0 <= len pre) by lia. guards.
  assert (skip is_space (pre ++ l_text l ++ c :: rest_) length_ (len pre) = Some (len pre)) as ->.
  { rewrite Et. pose proof (skip_stop is_space pre [] (chr "<") (t ++ c :: rest_) length_) as H1. cbn [app length] in *.
    rewrite H1 by (first [done | constructor | lia]). f_equal. lia. }
  mstep. guards. rewrite (wrap_small 16 (len pre)) by (cbn; lia).
  assert (skip (isnt REG_DELIMITER) (pre ++ l_text l ++ c :: rest_) length_ (len pre) = Some (len pre + len (l_text l))) as ->.
  { destruct Hlen as [[-> Hlen]|Hlen]; [by apply skip_stop|]. by rewrite <- Hlen, skip_end. }
  mstep. replace (len pre + len (l_text l) - len pre) with (len (l_text l)) by lia.
  rewrite wrap_small by (cbn; lia). by rewrite Nat2Z.id, drop_app_length, Hr.
Qed.

Lemma links_loop_ok links : forall fuel pre c post length_ objs objs' root,
  links <> [] -> Forall link_reads links -> c <> REG_ATTR_SEPARATOR -> length_ <= 65535 ->
  length_ = len pre + len (joined links []) -> (length links < fuel)%nat ->
  add_links links objs = Some (Some objs') ->
  links_loop fuel (pre ++ joined links (c :: post)) length_ (len pre) objs root = Some (Some (objs', root)).
Proof.
  induction links as [|l [|l' links] IH]; intros [|fuel] pre c post length_ objs objs' root Hn Hl Hc Hmax Hlen Hf Ha;
    try done; try (cbn in Hf; lia); apply Forall_cons in Hl as [Hl0 Hl].
  - cbn [joined] in *. rewrite app_nil_r in Hlen. rewrite loop_link by (first [done | by right]).
    cbn [add_links] in Ha. unfold and_then in Ha. apply bind_Some in Ha as ([objs1|] & E & Ha); [|done]. injection Ha as ->.
    rewrite E. mstep. destruct fuel; [cbn in Hf; lia|]. cbn [links_loop]. by guards.
  - change (joined (l :: l' :: links) ?b) with (l_text l ++ REG_DELIMITER :: joined (l' :: links) b) in *.
    rewrite loop_link; [|done|done|done|left; split; [done|rewrite Hlen, length_app; cbn [length]; lia]].
    cbn [add_links] in Ha. unfold and_then in Ha at 1. apply bind_Some in Ha as ([objs1|] & E & Ha); [|done].
    rewrite E. mstep. specialize (IH fuel (pre ++ l_text l ++ [REG_DELIMITER]) c post length_ objs1 objs' root).
    rewrite <- !app_assoc in IH. cbn [app] in IH. rewrite !length_app in *. cbn [length] in *.
    rewrite <- IH; [f_equal; lia|done..|lia|lia|done].
Qed.

(** Objects in the order of the list of the context. *)
Record object_known (o : object) : Prop := mk_object_known {
  kn_id : known_id (objID o);
  kn_major : 0 <= versionMajor o < 256;
  kn_minor : 0 <= versionMinor o < 256;
  kn_sorted : StronglySorted Z.lt (instanceList o);
  kn_instances : Forall known_id (instanceList o) }.

Lemma add_objects objs : forall l,
  StronglySorted (fun a b => objID a < objID b) objs -> Forall object_known objs -> Forall (fun o => below (objID o) l) objs ->
  add_links (concat (map links_of objs)) l = Some (Some (l ++ map decoded objs)).
Proof.
  induction objs as [|o objs IH]; intros l Hs Hk Hl; cbn [map concat]; [by rewrite app_nil_r|].
  inversion_clear Hs as [|? ? Hs' Ho]. apply Forall_cons in Hk as [[] Hk]. apply Forall_cons in Hl as [Hl0 Hl].
  rewrite add_links_app, add_object by done. unfold and_then. mstep. rewrite IH; [by rewrite <- app_assoc|done|done|].
  rewrite list.Forall_forall in *. intros o' Ho'. apply Forall_app_2; [by apply Hl|]. constructor; [|done]. by apply Ho.
Qed.

(** The link of the root, in front of the others. *)
Lemma root_not_delimiter seg : segment_ok seg -> Forall (fun c => isnt REG_DELIMITER c = true) (root_text seg).
Proof.
  intros [Hs _]. constructor; [done|]. constructor; [done|]. apply Forall_app_2; [|by vm_compute; repeat constructor].
  eapply list.Forall_impl; [exact Hs|]. cbn. lia.
Qed.

Lemma loop_root seg fuel c rest_ length_ objs :
  segment_ok seg -> (seg <> [] -> malloc_ok (len seg + 1) = true) -> length_ <= 65535 ->
  (c = REG_DELIMITER /\ len (root_text seg) < length_ \/ length_ = len (root_text seg)) ->
  links_loop (S fuel) (root_text seg ++ c :: rest_) length_ 0 objs None =
    links_loop fuel (root_text seg ++ c :: rest_) length_ (len (root_text seg) + 1) objs
      (Some (LWM2M_CONTENT_SENML_CBOR, match seg with [] => None | _ => Some (seg ++ [0]) end)).
Proof.
  intros Hseg Hm Hmax Hlen. cbn [links_loop].
  assert (0 < len (root_text seg)) by (unfold root_text; cbn [length]; lia). guards.
  assert (skip is_space (root_text seg ++ c :: rest_) length_ 0 = Some 0) as ->.
  { pose proof (skip_stop0 is_space [] (chr "<") (chr "/" :: seg ++ root_tail ++ c :: rest_) length_) as H1.
    unfold root_text. cbn [app length] in *. rewrite <- app_assoc. apply H1; [constructor|done|lia]. }
  mstep. guards. change (u16 0) with 0.
  assert (skip (isnt REG_DELIMITER) (root_text seg ++ c :: rest_) length_ 0 = Some (len (root_text seg))) as ->.
  { destruct Hlen as [[-> Hlen]| ->]; [apply skip_stop0|apply skip_end0]; try done; by apply root_not_delimiter. }
  mstep. rewrite Z.sub_0_r, (wrap_small 16 (len (root_text seg))) by lia. change (Z.to_nat 0) with 0%nat.
  rewrite drop_0, getId_root by done. mstep.
  by rewrite parse_root.
Qed.

Lemma registered_links objs : concat (map object_links objs) = concat (map delimited (concat (map links_of objs))).
Proof.
  induction objs as [|o objs IH]; cbn [map concat]; [done|]. by rewrite map_app, concat_app, links_of_text, IH.
Qed.

(** The payload in memory: the link of the root and the others. *)
Definition payload_text (seg : list Z) (links : list link) (behind : list Z) : list Z :=
  root_text seg ++ match links with [] => behind | _ => REG_DELIMITER :: joined links behind end.

Lemma payload_text_ok seg (objs : list object) behind :
  removelast (register_links (chr "/" :: seg) objs) ++ behind =
    payload_text seg (concat (map links_of (registered objs))) behind.
Proof.
  unfold register_links, payload_text. rewrite registered_links. set (links := concat (map links_of (registered objs))).
  assert (root_link (chr "/" :: seg) = root_text seg ++ [REG_DELIMITER]) as ->.
  { unfold root_link, root_text. rewrite root_tail_eq. cbn [app]. by rewrite <- app_assoc. }
  destruct links as [|l links]; [cbn [map concat]; by rewrite app_nil_r, removelast_last|].
  rewrite removelast_app by (cbn [map concat]; unfold delimited at 1; by destruct (l_text l)).
  rewrite joined_concat, <- !app_assoc by done. done.
Qed.

End roundtrip.

(** ** Examples *)

Definition sample_payload : list Z := removelast (register_links (str "/wk") sample_objects).


(** A semicolon behind the payload is taken for the separator of one more
    attribute: the remaining length becomes 65535, and the memory behind the
    payload is scanned. *)
Example version_past_the_end :
  let _ := malloc_always in
  prv_decodeRegisterPayload (str "</1>;ver=1.1" ++ str ";") 12 = None /\
  prv_decodeRegisterPayload (str "</1>;ver=1.1" ++ [0]) 12 = Some ([mk_client_object 1 1 1 []], LWM2M_CONTENT_TLV, None) /\
  prv_decodeRegisterPayload (str "</1>;ver=1.1") 12 = None.
Proof. intros. by vm_compute. Qed.

(** A number of ten digits overflows the result of [uri_getNumber]. *)
Example link_number_overflows :
  let _ := malloc_always in prv_decodeRegisterPayload (str "</9999999999>" ++ [0]) 13 = None.
Proof. intros. by vm_compute. Qed.

(** A value of one character ends the decoding of the attributes. *)
Example one_character_value :
  prv_splitLinkAttribute (str "if=x") 4 = Some None /\ prv_splitLinkAttribute (str "if=xy") 5 = Some (Some (0, 2, 3, 2, 5)).
Proof. by vm_compute. Qed.
End LinkFormat.
