(* ===== verification/Clients.v ===== *)
(** * The clients of a server (include/liblwm2m.h)

    What the server keeps of the clients that have registered: the list of
    clients with their objects and their observations, and the callbacks that are
    told of registrations and of reports.

    A result callback together with its user data is a value of [R], which the
    class [ResultCallbacks] gives a meaning; a null pointer is [None].  A client
    is designated by its [internalID], an observation by its [obs_id].  The class
    [Registry] states where the clients are in the state of a program, so that
    the operations on them run in the context of a server and in that of a program
    with both roles. *)
From S2P Require Import Prelude.
From S2P Require Import Types.
From S2P Require Import SortedList.
From S2P Require Import Utils.
From S2P Require Import CoapPacket.
From S2P Require Import Block.
From S2P Require Import Transaction.
From S2P Require Import Packet.
From S2P Require Import Client.
From S2P Require Import LinkFormat.
Import SortedList Utils CoapPacket Block Transaction Packet Client LinkFormat.

Module Clients.

Record block_info_t := mk_block_info { bi_num : Z; bi_size : Z; bi_more : Z }.

Record lwm2m_observation_t (R : Type) := mk_observation {
  obs_id : Z;
  obs_client : Z;
  obs_uri : lwm2m_uri_t;
  obs_status : lwm2m_status_t;
  obs_callback : option R }.
Arguments mk_observation {R}.
Arguments obs_id {R}.
Arguments obs_client {R}.
Arguments obs_uri {R}.
Arguments obs_status {R}.
Arguments obs_callback {R}.
#[export] Instance observation_rebuild {R} : Rebuild (lwm2m_observation_t R) := fun o =>
  mk_observation (obs_id o) (obs_client o) (obs_uri o) (obs_status o) (obs_callback o).
#[export] Instance observation_node {R} : ListNode (lwm2m_observation_t R) := obs_id.

Record lwm2m_client_t (Session R : Type) := mk_server_client {
  internalID : Z;
  cl_name : option (list Z);
  cl_version : lwm2m_version_t;
  cl_binding : Z;
  cl_msisdn : option (list Z);
  cl_altPath : option (list Z);
  cl_format : Z;
  cl_lifetime : Z;
  endOfLife : Z;
  cl_session : Session;
  cl_objects : list lwm2m_client_object_t;
  observationList : list (lwm2m_observation_t R);
  observationId : Z;
  cl_blockData : list lwm2m_block_data_t }.
Arguments mk_server_client {Session R}.
Arguments internalID {Session R}.
Arguments cl_name {Session R}.
Arguments cl_version {Session R}.
Arguments cl_binding {Session R}.
Arguments cl_msisdn {Session R}.
Arguments cl_altPath {Session R}.
Arguments cl_format {Session R}.
Arguments cl_lifetime {Session R}.
Arguments endOfLife {Session R}.
Arguments cl_session {Session R}.
Arguments cl_objects {Session R}.
Arguments observationList {Session R}.
Arguments observationId {Session R}.
Arguments cl_blockData {Session R}.
#[export] Instance server_client_rebuild {Session R} : Rebuild (lwm2m_client_t Session R) := fun c =>
  mk_server_client (internalID c) (cl_name c) (cl_version c) (cl_binding c) (cl_msisdn c) (cl_altPath c) (cl_format c)
    (cl_lifetime c) (endOfLife c) (cl_session c) (cl_objects c) (observationList c) (observationId c) (cl_blockData c).
#[export] Instance server_client_node {Session R} : ListNode (lwm2m_client_t Session R) := internalID.

(** The part of the context of a server. *)
Record registry_t (Session R : Type) := mk_registry {
  clientList : list (lwm2m_client_t Session R);
  monitorCallback : option R;
  reportingSendCallback : option R }.
Arguments mk_registry {Session R}.
Arguments clientList {Session R}.
Arguments monitorCallback {Session R}.
Arguments reportingSendCallback {Session R}.
#[export] Instance registry_rebuild {Session R} : Rebuild (registry_t Session R) := fun r =>
  mk_registry (clientList r) (monitorCallback r) (reportingSendCallback r).

(** The position of a message in a Block2 transfer, if it is part of one. *)
Definition block_info (packet : coap_packet_t) : option block_info_t :=
  match coap_get_header_block2 packet with
  | (_, Some b) => Some (mk_block_info (block_num b) (CoapPacket.block_size b) (CoapPacket.block_more b))
  | (_, None) => None
  end.

(** ** Interfaces *)

Class Registry (Session R W : Type) := {
  registry_of : W -> registry_t Session R;
  with_registry : registry_t Session R -> W -> W;
  registry_with r w : registry_of (with_registry r w) = r;
  with_registry_same w : with_registry (registry_of w) w = w;
  with_with_registry r r' w : with_registry r (with_registry r' w) = with_registry r w }.

(** The registry alone, with the state of an application, and in the states of a
    client and of packet.c. *)
#[export] Program Instance registry_itself Session R : Registry Session R (registry_t Session R) :=
  {| registry_of w := w; with_registry r _ := r |}.
Solve Obligations with done.
#[export] Program Instance registry_beside Session R A : Registry Session R (registry_t Session R * A) :=
  {| registry_of := fst; with_registry r w := (r, snd w) |}.
Solve Obligations with (intros; try (by destruct w); done).
#[export] Program Instance registry_in_client {Session R B} F `{Registry Session R B} : Registry Session R (client_t F B) :=
  {| registry_of w := registry_of (user w); with_registry r w := w <| user := with_registry r (user w) |> |}.
Next Obligation. intros. apply registry_with. Qed.
Next Obligation. intros. destruct w. cbn. by rewrite with_registry_same. Qed.
Next Obligation. intros. cbn. by rewrite with_with_registry. Qed.
#[export] Program Instance registry_in_world {Session R A} X `{Registry Session R A} : Registry Session R (world_t Session X A) :=
  {| registry_of w := registry_of (app w); with_registry r w := w <| app := with_registry r (app w) |> |}.
Next Obligation. intros. apply registry_with. Qed.
Next Obligation. intros. destruct w. cbn. by rewrite with_registry_same. Qed.
Next Obligation. intros. cbn. by rewrite with_with_registry. Qed.

(** What a result callback does with the identifier of the client, the URI, the
    status, the position in a block-wise transfer, the format and the data. *)
Class ResultCallbacks (R context : Type) :=
  run_result : R -> context -> Z -> option lwm2m_uri_t -> Z -> option block_info_t -> Z -> option (list Z) -> Z -> context.

(** ** Access *)

Section access.
Context {Session CB U R W : Type} `{HG : Registry Session R W}.
Abbreviation context := (lwm2m_context_t Session CB U W).
Abbreviation client := (lwm2m_client_t Session R).

Definition clients (contextP : context) : list client := clientList (registry_of (rest contextP)).
Definition monitor (contextP : context) : option R := monitorCallback (registry_of (rest contextP)).

Definition set_clients (contextP : context) (l : list client) : context :=
  contextP <| rest := with_registry ((registry_of (rest contextP)) <| clientList := l |>) (rest contextP) |>.

Definition find_client (contextP : context) (id : Z) : option client := lwm2m_list_find (clients contextP) id.

(** Writing the client with the identifier [id]: the first with it. *)
Fixpoint upd_first (l : list client) (id : Z) (f : client -> client) : option (list client) :=
  match l with
  | [] => None
  | c :: l => if internalID c =? id then Some (f c :: l) else cons c <$> upd_first l id f
  end.

Definition upd_client (contextP : context) (id : Z) (f : client -> client) : C context :=
  l ← upd_first (clients contextP) id f; ret (set_clients contextP l).

(** ** Lemmas *)

Lemma clients_set c l : clients (set_clients c l) = l.
Proof. unfold clients, set_clients. cbn. by rewrite registry_with. Qed.
Lemma monitor_set c l : monitor (set_clients c l) = monitor c.
Proof. unfold monitor, set_clients. cbn. by rewrite registry_with. Qed.
Lemma set_clients_twice c l l' : set_clients (set_clients c l) l' = set_clients c l'.
Proof. unfold set_clients. cbn. by rewrite registry_with, with_with_registry. Qed.
Lemma set_clients_same c : set_clients c (clients c) = c.
Proof.
  unfold set_clients, clients. destruct c as [ts mid_ se ca w]. cbn.
  assert ((registry_of w) <| clientList := clientList (registry_of w) |> = registry_of w) as -> by (by destruct (registry_of w)).
  by rewrite with_registry_same.
Qed.

Lemma upd_first_middle l (c : client) l2 f :
  list_strict (l ++ c :: l2) -> upd_first (l ++ c :: l2) (internalID c) f = Some (l ++ f c :: l2).
Proof.
  intros [Hl _]%strict_middle. induction Hl as [|x l Hx Hl IH]; cbn; [by rewrite Z.eqb_refl|].
  change (node_id ?x) with (internalID x) in *. rewrite (proj2 (Z.eqb_neq (internalID x) (internalID c))) by lia. by rewrite IH.
Qed.

Lemma find_client_split c id cl :
  list_strict (clients c) -> find_client c id = Some cl ->
  internalID cl = id /\ exists l l2, clients c = l ++ cl :: l2.
Proof. intros Hs Hf. exact (find_split _ _ _ Hs Hf). Qed.

Lemma upd_client_ok c id cl f :
  list_strict (clients c) -> find_client c id = Some cl ->
  exists l l2, clients c = l ++ cl :: l2 /\ upd_client c id f = Some (set_clients c (l ++ f cl :: l2)).
Proof.
  intros Hs Hf. destruct (find_client_split c id cl Hs Hf) as (<- & l & l2 & E). exists l, l2. split; [done|].
  unfold upd_client. rewrite E in *. by rewrite upd_first_middle.
Qed.

(** Looking up after a write. *)
Lemma find_replaced l (cl cl' : client) l2 id :
  list_strict (l ++ cl :: l2) -> internalID cl' = internalID cl ->
  lwm2m_list_find (l ++ cl' :: l2) id = if id =? internalID cl then Some cl' else lwm2m_list_find (l ++ cl :: l2) id.
Proof.
  intros Hs Hi. pose proof (strict_replace_middle l cl cl' l2 Hs Hi) as Hs'. destruct (Z.eqb_spec id (internalID cl)) as [->|Hn].
  - rewrite <- Hi. exact (find_middle l cl' l2 Hs').
  - rewrite !find_filter by (by apply strict_sorted). rewrite !filter_app.
    rewrite !filter_cons_False; [done|..]; change (node_id ?x) with (internalID x); lia.
Qed.

Lemma find_upd c id f c' id' :
  list_strict (clients c) -> (forall cl, internalID (f cl) = internalID cl) -> upd_client c id f = Some c' ->
  find_client c' id' = (if id' =? id then f <$> find_client c id else find_client c id').
Proof.
  intros Hs Hf Hu. destruct (find_client c id) as [cl|] eqn:E.
  - destruct (upd_client_ok c id cl f Hs E) as (l & l2 & El & Hu'). rewrite Hu' in Hu. injection Hu as <-.
    destruct (find_client_split c id cl Hs E) as [<- _]. unfold find_client. rewrite clients_set, El in *.
    by rewrite (find_replaced l cl).
  - exfalso. unfold upd_client in Hu. apply bind_Some in Hu as (l & Hl & _). unfold find_client in E. revert l Hl E.
    induction (clients c) as [|x l0 IH]; cbn; [done|]. intros l. change (node_id x) with (internalID x).
    inversion_clear Hs as [|? ? Hs' Hx]. destruct (Z.eqb_spec (internalID x) id) as [<-|Hn]; [by rewrite Z.ltb_irrefl|].
    intros (l1 & Hl1 & _)%fmap_Some. destruct (internalID x <? id) eqn:El; [by eapply IH|]. intros _.
    clear IH. revert l1 Hl1. induction Hx as [|y l0 Hy Hx IHx]; [done|]. cbn. intros l1. unfold id_lt in Hy.
    change (node_id ?x) with (internalID x) in *. rewrite (proj2 (Z.eqb_neq (internalID y) id)) by lia.
    intros (l3 & Hl3 & _)%fmap_Some. inversion_clear Hs'. by eapply IHx.
Qed.
End access.
End Clients.
