(* ===== verification/ServerRegistry.v ===== *)
(** * The registrations a server receives (core/registration.c, server part)

    The Register, Update and Deregister requests of clients, and the expiry of
    registrations.  [tv_sec] is the result of [lwm2m_gettime]; times are compared
    as unbounded integers.

    [beyond] is the memory behind an option, as in Management.v.  Memory that is
    freed, or never freed, is not modelled, but reading a client or an observation
    that has been removed is undefined.  [lwm2m_session_remove], which the platform
    supplies, has no access to the context. *)
From S2P Require Import Prelude.
From S2P Require Import Types.
From S2P Require Import SortedList.
From S2P Require Import Numeric.
From S2P Require Import Utils.
From S2P Require Import Data.
From S2P Require Import Uri.
From S2P Require Import CoapPacket.
From S2P Require Import CoapMessage.
From S2P Require Import CoapOptions.
From S2P Require Import Transaction.
From S2P Require Import Packet.
From S2P Require Import Client.
From S2P Require Import Formats.
From S2P Require Import RegQuery.
From S2P Require Import LinkFormat.
From S2P Require Import Clients.
Import SortedList Numeric Utils Data Uri CoapPacket CoapMessage CoapOptions Transaction Packet Client Formats RegQuery LinkFormat Clients.

Module ServerRegistry.

Definition MAX_LOCATION_LENGTH : Z := 10.
Definition LWM2M_DEFAULT_LIFETIME : Z := 86400.
Definition SIZEOF_CLIENT : Z := 104.
Definition COAP_412_PRECONDITION_FAILED : Z := 140.

(** ** Parameters *)

Record parameters_t := mk_parameters {
  p_name : option (list Z);
  p_lifetime : Z;
  p_msisdn : option (list Z);
  p_binding : Z;
  p_version : lwm2m_version_t }.
#[export] Instance parameters_rebuild : Rebuild parameters_t := fun p =>
  mk_parameters (p_name p) (p_lifetime p) (p_msisdn p) (p_binding p) (p_version p).
#[export] Instance version_eq_dec : EqDecision lwm2m_version_t.
Proof. solve_decision. Defined.

Section parameters.
Context `{HM : Malloc}.
Context (beyond : multi_option_t -> list Z).
Abbreviation memory := (memory beyond).

(** A string of the query behind its key of [n] bytes, terminated. *)
Definition copy_value (query : multi_option_t) (n : Z) : C (option (list Z)) :=
  let size := opt_len query - n in
  if negb (malloc_ok (u64 (size + 1))) then ret None
  else v ← rd_bytes (memory query) n size; ret (Some (v ++ [0])).

(** The digits from [i] on; [None] in the result is the label [error]. *)
Fixpoint lifetime_loop (n : nat) (data : list Z) (i lifetime : Z) : C (option Z) :=
  match n with
  | O => ret (Some lifetime)
  | S n =>
      c ← rd data i;
      if (c <? chr "0") || (chr "9" <? c) then ret None
      else lifetime_loop n data (i + 1) (u32 (lifetime * 10 + (c - chr "0")))
  end.

(** One string of the query; [None] in the result is the label [error]. *)
Definition read_parameter (p : parameters_t) (query : multi_option_t) : C (option parameters_t) :=
  name ← name_matches QUERY_NAME (memory query) 0;
  if (name : bool) then
    if (if p_name p is Some _ then true else false) then ret None
    else if opt_len query =? len QUERY_NAME then ret None
    else v ← copy_value query (len QUERY_NAME); ret (Some (p <| p_name := v |>))
  else
  sms ← name_matches QUERY_SMS (memory query) 0;
  if (sms : bool) then
    if (if p_msisdn p is Some _ then true else false) then ret None
    else if opt_len query =? len QUERY_SMS then ret None
    else v ← copy_value query (len QUERY_SMS); ret (Some (p <| p_msisdn := v |>))
  else
  lt ← name_matches QUERY_LIFETIME (memory query) 0;
  if (lt : bool) then
    if negb (p_lifetime p =? 0) then ret None
    else if opt_len query =? len QUERY_LIFETIME then ret None
    else
      r ← lifetime_loop (Z.to_nat (opt_len query - len QUERY_LIFETIME)) (memory query) (len QUERY_LIFETIME) (p_lifetime p);
      ret (match r with Some v => Some (p <| p_lifetime := v |>) | None => None end)
  else
  version ← name_matches QUERY_VERSION (memory query) 0;
  if (version : bool) then
    if negb (bool_decide (p_version p = VERSION_MISSING)) then ret None
    else if opt_len query =? len QUERY_VERSION then ret None
    else
      v ← utils_stringToVersion (drop (length QUERY_VERSION) (memory query)) (opt_len query - len QUERY_VERSION);
      ret (Some (p <| p_version := v |>))
  else
  b ← name_matches QUERY_BINDING (memory query) 0;
  if (b : bool) then
    if negb (Z.land (p_binding p) (Z.lnot BINDING_Q) =? 0) then ret None
    else if opt_len query =? len QUERY_BINDING then ret None
    else
      v ← utils_stringToBinding (drop (length QUERY_BINDING) (memory query)) (opt_len query - len QUERY_BINDING);
      ret (Some (p <| p_binding := Z.lor (p_binding p) v |>))
  else
  q ← name_matches QUERY_QUEUE_MODE (memory query) 0;
  if (q : bool) then
    if negb (Z.land (p_binding p) BINDING_Q =? 0) then ret None
    else if negb (opt_len query =? len QUERY_QUEUE_MODE) then ret None
    else ret (Some (p <| p_binding := Z.lor (p_binding p) BINDING_Q |>))
  else ret (Some p).

Fixpoint parameters_loop (p : parameters_t) (query : list multi_option_t) : C (option parameters_t) :=
  match query with
  | [] => ret (Some p)
  | q :: query => p ←? read_parameter p q; parameters_loop p query
  end.

Definition zero_parameters : parameters_t := mk_parameters None 0 None 0 VERSION_MISSING.

(** The parameters, or [None] when the result is -1. *)
Definition prv_getParameters (query : list multi_option_t) : C (option parameters_t) :=
  p ←? parameters_loop zero_parameters query;
  let binding := if p_binding p =? 0 then BINDING_UNKNOWN else p_binding p in
  if bool_decide (p_version p = VERSION_1_0) && negb (Z.land binding (Z.lor BINDING_T BINDING_N) =? 0) then ret None
  else ret (Some (p <| p_binding := binding |>)).
End parameters.

Section registry.
Context {Session CB U R W : Type}.
Context `{HM : Malloc, HS : Sessions Session, HG : Registry Session R W, HR : ResultCallbacks R (lwm2m_context_t Session CB U W)}.
Context (beyond : multi_option_t -> list Z).
Abbreviation context := (lwm2m_context_t Session CB U W).
Abbreviation client := (lwm2m_client_t Session R).
Abbreviation observation := (lwm2m_observation_t R).

(** ** Clients *)

(** [name] and the names of the clients are terminated strings. *)
Fixpoint prv_getClientByName (l : list client) (name : list Z) : option client :=
  match l with
  | [] => None
  | c :: l =>
      if (if cl_name c is Some n then bool_decide (c_string name = c_string n) else false) then Some c
      else prv_getClientByName l name
  end.

(** The client is no longer in the list. *)
Definition registration_freeClient (contextP : context) (clientP : client) : C context :=
  transaction_remove_client contextP (cl_session clientP).

(** [LWM2M_LIST_RM], then [registration_freeClient], for the client with an [id]. *)
Definition remove_client (contextP : context) (id : Z) : C context :=
  clientP ← find_client contextP id;
  let '(l, _) := lwm2m_list_remove (clients contextP) id in
  registration_freeClient (set_clients contextP l) clientP.

(** The length and the array; 0 when the location does not fit. *)
Definition prv_getLocationString (id : Z) : C (Z * list Z) :=
  let location := replicate (Z.to_nat MAX_LOCATION_LENGTH) 0 in
  '(index, location) ← utils_stringCopy location MAX_LOCATION_LENGTH (str "/" ++ URI_REGISTRATION_SEGMENT ++ str "/" ++ [0]);
  if index <? 0 then ret (0, location)
  else
    '(result, location) ← at_off location index (fun b => utils_intToText id b (MAX_LOCATION_LENGTH - index));
    if result =? 0 then ret (0, location) else ret (index + result, location).

(** The call of the monitor. *)
Definition tell_monitor (contextP : context) (id status : Z) : context :=
  match monitor contextP with
  | Some r => run_result r contextP id None status None LWM2M_CONTENT_TEXT None 0
  | None => contextP
  end.

(** ** Register *)

(** The client that the request is about, if it is known. *)
Definition select_client (contextP : context) (name : list Z) (fromSessionH : Session) (block1 : bool)
    : C (option Z * context) :=
  let find_from := utils_findClient lwm2m_session_is_equal cl_session (clients contextP) fromSessionH in
  match prv_getClientByName (clients contextP) name with
  | None => ret (if block1 then internalID <$> find_from else None, contextP)
  | Some clientP =>
      if block1 then
        tmpClientP ← find_from;
        contextP ← remove_client contextP (internalID tmpClientP);
        assert! negb (internalID tmpClientP =? internalID clientP);
        ret (Some (internalID clientP), contextP)
      else ret (Some (internalID clientP), contextP)
  end.

(** The client to fill in: one that is known, without its objects, or a new one. *)
Definition reset_or_new (contextP : context) (clientP : option Z) (fromSessionH : Session) : C (option (Z * context)) :=
  match clientP with
  | Some id => contextP ← upd_client contextP id (fun c => c <| cl_objects := [] |>); ret (Some (id, contextP))
  | None =>
      if negb (malloc_ok SIZEOF_CLIENT) then ret None
      else
        let id := lwm2m_list_newId (clients contextP) in
        let clientP := mk_server_client id None VERSION_MISSING 0 None None 0 0 0 fromSessionH [] [] 0 [] in
        ret (Some (id, set_clients contextP (lwm2m_list_add (clients contextP) clientP [])))
  end.

(** A client whose location cannot be written is freed but stays in the list. *)
Definition handle_register (tv_sec : Z) (contextP : context) (fromSessionH : Session) (m response : coap_packet_t)
    (p : parameters_t) (objects : list lwm2m_client_object_t) (format : Z) (altPath : option (list Z))
    : C (Z * context * coap_packet_t) :=
  if bool_decide (p_version p = VERSION_MISSING) then ret (COAP_400_BAD_REQUEST, contextP, response)
  else
  match p_name p with
  | None => ret (COAP_400_BAD_REQUEST, contextP, response)
  | Some name =>
  match objects with
  | [] => ret (COAP_400_BAD_REQUEST, contextP, response)
  | _ =>
  if negb (bool_decide (p_version p = VERSION_1_0) || bool_decide (p_version p = VERSION_1_1)) then
    ret (COAP_412_PRECONDITION_FAILED, contextP, response)
  else
  let lifetime := if p_lifetime p =? 0 then LWM2M_DEFAULT_LIFETIME else p_lifetime p in
  '(clientP, contextP) ← select_client contextP name fromSessionH (IS_OPTION m COAP_OPTION_BLOCK1);
  r ← reset_or_new contextP clientP fromSessionH;
  match r with
  | None => ret (COAP_500_INTERNAL_SERVER_ERROR, contextP, response)
  | Some (id, contextP) =>
      contextP ← upd_client contextP id (fun c =>
        mk_server_client (internalID c) (Some name) (p_version p) (p_binding p) (p_msisdn p) altPath format lifetime
          (tv_sec + lifetime) fromSessionH objects (observationList c) (observationId c) (cl_blockData c));
      '(n, location) ← prv_getLocationString id;
      assert! negb (n =? 0);
      '(n, response) ← coap_set_header_location_path response location;
      assert! negb (n =? 0);
      ret (COAP_201_CREATED, tell_monitor contextP id COAP_201_CREATED, response)
  end
  end
  end.

(** ** Update *)

Definition find_observation (contextP : context) (clientID id : Z) : option observation :=
  clientP ← find_client contextP clientID; lwm2m_list_find (observationList clientP) id.

(** [observe_remove] of core/observe.c. *)
Definition observe_remove (contextP : context) (observationP : observation) : C context :=
  upd_client contextP (obs_client observationP) (fun c =>
    c <| observationList := fst (lwm2m_list_remove (observationList c) (obs_id observationP)) |>).

(** The call of the callback of an observation, which is not tested. *)
Definition call_observation (contextP : context) (observationP : observation) (status : Z) : C context :=
  r ← obs_callback observationP;
  ret (run_result r contextP (obs_client observationP) (Some (obs_uri observationP)) status None LWM2M_CONTENT_TEXT None 0).

(** The observation of the URI is one of an object or an instance that is gone. *)
Definition is_gone (objects : list lwm2m_client_object_t) (uri : lwm2m_uri_t) : bool :=
  match lwm2m_list_find objects (objectId uri) with
  | None => true
  | Some objP =>
      LWM2M_URI_IS_SET_INSTANCE uri && (if lwm2m_list_find (c_instanceList objP) (instanceId uri) is Some _ then false else true)
  end.

(** The loop over the observations of the client from [observationP] on. *)
Fixpoint observations_loop (fuel : nat) (contextP : context) (clientID : Z) (objects : list lwm2m_client_object_t)
    (observationP : option Z) : C context :=
  match observationP with
  | None => ret contextP
  | Some id =>
      match fuel with
      | O => None
      | S fuel =>
          clientP ← find_client contextP clientID;
          o ← lwm2m_list_find (observationList clientP) id;
          let nextP := next_id (observationList clientP) id in
          contextP ←
            (if is_gone objects (obs_uri o) then
               contextP ← call_observation contextP o COAP_202_DELETED;
               o ← find_observation contextP clientID id;
               observe_remove contextP o
             else ret contextP);
          observations_loop fuel contextP clientID objects nextP
      end
  end.

(** The identifiers of the observations ascend: at most 65536 are visited. *)
Definition drop_observations (contextP : context) (clientID : Z) (objects : list lwm2m_client_object_t) : C context :=
  clientP ← find_client contextP clientID;
  observations_loop (Z.to_nat 65537) contextP clientID objects (obs_id <$> head (observationList clientP)).

Definition handle_update (tv_sec : Z) (contextP : context) (uriP : lwm2m_uri_t) (fromSessionH : Session)
    (p : parameters_t) (objects : list lwm2m_client_object_t) : C (Z * context) :=
  if LWM2M_URI_IS_SET_INSTANCE uriP then ret (COAP_400_BAD_REQUEST, contextP)
  else
  let id := objectId uriP in
  match find_client contextP id with
  | None => ret (COAP_404_NOT_FOUND, contextP)
  | Some _ =>
  if (if p_name p is Some _ then true else false) then ret (COAP_400_BAD_REQUEST, contextP)
  else
    contextP ← upd_client contextP id (fun c =>
      c <| cl_binding := if p_binding p =? BINDING_UNKNOWN then cl_binding c else p_binding p |>
        <| cl_msisdn := if p_msisdn p is Some s then Some s else cl_msisdn c |>
        <| cl_lifetime := if p_lifetime p =? 0 then cl_lifetime c else p_lifetime p |>
        <| cl_session := fromSessionH |>);
    contextP ←
      match objects with
      | [] => ret contextP
      | _ =>
          contextP ← drop_observations contextP id objects;
          upd_client contextP id (fun c => c <| cl_objects := objects |>)
      end;
    contextP ← upd_client contextP id (fun c => c <| endOfLife := tv_sec + cl_lifetime c |>);
    ret (COAP_204_CHANGED, tell_monitor contextP id COAP_204_CHANGED)
  end.

(** ** Deregister *)

Definition handle_deregister (contextP : context) (uriP : lwm2m_uri_t) : C (Z * context) :=
  if negb (LWM2M_URI_IS_SET_OBJECT uriP) then ret (COAP_400_BAD_REQUEST, contextP)
  else if LWM2M_URI_IS_SET_INSTANCE uriP then ret (COAP_400_BAD_REQUEST, contextP)
  else
    match find_client contextP (objectId uriP) with
    | None => ret (COAP_400_BAD_REQUEST, contextP)
    | Some clientP =>
        let contextP := tell_monitor contextP (internalID clientP) COAP_202_DELETED in
        contextP ← remove_client contextP (internalID clientP);
        ret (COAP_202_DELETED, contextP)
    end.

(** ** Requests *)

Definition registration_handleRequest (tv_sec : Z) (contextP : context) (uriP : lwm2m_uri_t) (fromSessionH : Session)
    (m response : coap_packet_t) : C (Z * context * coap_packet_t) :=
  if tv_sec <? 0 then ret (COAP_500_INTERNAL_SERVER_ERROR, contextP, response)
  else if code m =? COAP_POST then
    p ← prv_getParameters beyond (uri_query m);
    match p with
    | None => ret (COAP_400_BAD_REQUEST, contextP, response)
    | Some p =>
        if negb (content_type m =? LWM2M_CONTENT_LINK) && negb (content_type m =? LWM2M_CONTENT_TEXT) then
          ret (COAP_400_BAD_REQUEST, contextP, response)
        else
          '(objects, format, altPath) ← prv_decodeRegisterPayload (default [] (payload m)) (payload_len m);
          if negb (LWM2M_URI_IS_SET_OBJECT uriP) then
            handle_register tv_sec contextP fromSessionH m response p objects format altPath
          else
            '(result, contextP) ← handle_update tv_sec contextP uriP fromSessionH p objects;
            ret (result, contextP, response)
    end
  else if code m =? COAP_DELETE then
    '(result, contextP) ← handle_deregister contextP uriP;
    ret (result, contextP, response)
  else ret (COAP_400_BAD_REQUEST, contextP, response).

Definition lwm2m_set_monitoring_callback (contextP : context) (r : option R) : context :=
  contextP <| rest := with_registry ((registry_of (rest contextP)) <| monitorCallback := r |>) (rest contextP) |>.

(** ** Expiry *)

(** The loop over the clients from [clientP] on: [*timeoutP] and the context. *)
Fixpoint expire_loop (fuel : nat) (contextP : context) (currentTime timeout : Z) (clientP : option Z) : C (Z * context) :=
  match clientP with
  | None => ret (timeout, contextP)
  | Some id =>
      match fuel with
      | O => None
      | S fuel =>
          c ← find_client contextP id;
          let nextP := next_id (clients contextP) id in
          if endOfLife c <=? currentTime then
            let contextP := tell_monitor contextP id COAP_202_DELETED in
            contextP ← remove_client contextP id;
            expire_loop fuel contextP currentTime timeout nextP
          else
            let interval := endOfLife c - currentTime in
            expire_loop fuel contextP currentTime (if interval <? timeout then interval else timeout) nextP
      end
  end.

(** The part of [registration_step] for a server.  The identifiers of the clients
    ascend: at most 65536 are visited. *)
Definition registration_step (contextP : context) (currentTime timeout : Z) : C (Z * context) :=
  expire_loop (Z.to_nat 65537) contextP currentTime timeout (internalID <$> head (clients contextP)).
End registry.

(** ** Correctness *)

Section correctness.
Context {Session CB U R W : Type}.
Context `{HM : Malloc, HS : Sessions Session, HG : Registry Session R W, HR : ResultCallbacks R (lwm2m_context_t Session CB U W)}.
Context (beyond : multi_option_t -> list Z).
Abbreviation context := (lwm2m_context_t Session CB U W).
Abbreviation client := (lwm2m_client_t Session R).
Abbreviation observation := (lwm2m_observation_t R).
Implicit Types (c : context) (cl : client).

Definition mids_ok c : Prop := list_strict (transactionList c) /\ Forall id_ok (transactionList c).

(** The transactions with other peers than [s]. *)
Definition drop_session c (s : Session) : context :=
  c <| transactionList := filter (fun t => lwm2m_session_is_equal (peerH t) s = false) (transactionList c) |>.

Lemma remove_client_loop_ok s ts : forall fuel kept c,
  transactionList c = kept ++ ts -> list_strict (kept ++ ts) -> (length ts < fuel)%nat ->
  remove_client_loop fuel c s (mID <$> head ts) =
    Some (c <| transactionList := kept ++ filter (fun t => lwm2m_session_is_equal (peerH t) s = false) ts |>).
Proof.
  induction ts as [|t ts IH]; intros [|fuel] kept c Hc Hs Hf; try (cbn in Hf; lia); cbn [head fmap option_fmap option_map remove_client_loop].
  - rewrite app_nil_r in *. rewrite <- Hc. by destruct c.
  - rewrite Hc, find_mid by done. mstep. rewrite next_mid by done. destruct (lwm2m_session_is_equal (peerH t) s) eqn:E.
    + rewrite filter_cons_False by congruence. unfold transaction_remove. rewrite Hc, remove_mid by done.
      rewrite (IH fuel kept) by (first [done | by eapply strict_delete | cbn in Hf; lia]). done.
    + rewrite filter_cons_True by done. specialize (IH fuel (kept ++ [t]) c). rewrite <- !app_assoc in IH. cbn [app] in IH.
      apply IH; [done|done|cbn in Hf; lia].
Qed.

Lemma transaction_remove_client_ok c s : mids_ok c -> transaction_remove_client c s = Some (drop_session c s).
Proof.
  intros [Hs Hi]. unfold transaction_remove_client. rewrite (remove_client_loop_ok s (transactionList c) _ []); [done..|].
  pose proof (strict_length (transactionList c) 0 Hs Hi). lia.
Qed.

Lemma drop_session_mids c s : mids_ok c -> mids_ok (drop_session c s).
Proof. intros [Hs Hi]. split; [by apply sorted_filter|by apply Forall_keep]. Qed.

(** ** The invariant of the registry *)

Definition name_of (cl : client) : option (list Z) := c_string <$> cl_name cl.

Record client_ok (cl : client) : Prop := mk_client_ok {
  ok_observations : list_strict (observationList cl);
  ok_owner : Forall (fun o => obs_client o = internalID cl) (observationList cl);
  ok_obs_id : Forall (fun o : observation => 0 <= obs_id o < 65536) (observationList cl);
  ok_callbacks : Forall (fun o : observation => is_Some (obs_callback o)) (observationList cl) }.

Record registry_ok (l : list client) : Prop := mk_registry_ok {
  ok_strict : list_strict l;
  ok_ids : Forall (fun cl => 0 <= internalID cl < LWM2M_MAX_ID) l;
  ok_names : NoDup (omap name_of l);
  ok_clients : Forall client_ok l }.

(** Writing one client: its identifier stays, and its name is its old one or new. *)
Lemma registry_replace l cl cl' l2 :
  registry_ok (l ++ cl :: l2) -> internalID cl' = internalID cl -> client_ok cl' ->
  (forall n, name_of cl' = Some n -> name_of cl = Some n \/ n ∉ omap name_of (l ++ l2)) ->
  registry_ok (l ++ cl' :: l2).
Proof.
  intros [Hs Hi Hn Ho] Hid Hok Hname. constructor.
  - by eapply strict_replace_middle.
  - apply Forall_app in Hi as [H1 H2]. apply Forall_cons in H2 as [H2 H3]. apply Forall_app_2; [done|]. constructor; [by rewrite Hid|done].
  - revert Hn Hname. rewrite !omap_app. cbn. intros Hn Hname.
    assert (NoDup (omap name_of l ++ omap name_of l2)) as Hrest.
    { destruct (name_of cl); [|done]. by apply NoDup_app in Hn as (? & ? & [? ?]%NoDup_cons); apply NoDup_app; set_solver. }
    destruct (name_of cl') as [n|]; [|done]. destruct (Hname n eq_refl) as [E|Hnew]; [by rewrite E in Hn|].
    rewrite <- Permutation_middle. apply NoDup_cons. done.
  - apply Forall_app in Ho as [H1 H2]. apply Forall_cons in H2 as [_ H3]. apply Forall_app_2; [done|]. by constructor.
Qed.

Lemma registry_delete l cl l2 : registry_ok (l ++ cl :: l2) -> registry_ok (l ++ l2).
Proof.
  intros [Hs Hi Hn Ho]. constructor.
  - by eapply strict_delete_middle.
  - apply Forall_app in Hi as [H1 H2]. apply Forall_cons in H2 as [_ H2]. by apply Forall_app_2.
  - revert Hn. rewrite !omap_app. cbn. destruct (name_of cl); [|done].
    intros Hn. rewrite <- Permutation_middle in Hn. by apply NoDup_cons in Hn as [_ ?].
  - apply Forall_app in Ho as [H1 H2]. apply Forall_cons in H2 as [_ H2]. by apply Forall_app_2.
Qed.

(** ** Removal and expiry *)

(** The client is out of the list, and its transactions are gone. *)
Definition expel c cl : context :=
  drop_session (set_clients c (filter (fun x => internalID x <> internalID cl) (clients c))) (cl_session cl).

Lemma filter_middle l cl l2 :
  list_strict (l ++ cl :: l2) -> filter (fun x => internalID x <> internalID cl) (l ++ cl :: l2) = l ++ l2.
Proof.
  intros [Hl Hl2]%strict_middle. rewrite filter_app, filter_cons_False by lia. f_equal.
  - induction Hl as [|x l Hx Hl IH]; [done|]. change (node_id ?x) with (internalID x) in *. rewrite filter_cons_True by lia. by rewrite IH.
  - induction Hl2 as [|x l2 Hx Hl2 IH]; [done|]. change (node_id ?x) with (internalID x) in *. rewrite filter_cons_True by lia. by rewrite IH.
Qed.

Lemma remove_client_ok c cl l l2 :
  list_strict (clients c) -> mids_ok c -> clients c = l ++ cl :: l2 ->
  remove_client c (internalID cl) = Some (expel c cl) /\ clients (expel c cl) = l ++ l2 /\ mids_ok (expel c cl).
Proof.
  intros Hs Hm E. rewrite E in Hs. split_and!.
  - unfold remove_client, find_client. rewrite E. unfold expel.
    assert (lwm2m_list_find (l ++ cl :: l2) (internalID cl) = Some cl) as -> by exact (find_middle l cl l2 Hs). mstep.
    assert (lwm2m_list_remove (l ++ cl :: l2) (internalID cl) = (l ++ l2, Some cl)) as -> by exact (remove_middle l cl l2 Hs).
    unfold registration_freeClient. rewrite transaction_remove_client_ok by done. by rewrite E, filter_middle.
  - unfold expel. rewrite E, filter_middle by done. unfold drop_session, clients. cbn. by rewrite registry_with.
  - by apply drop_session_mids.
Qed.

Context (quiet : forall r c id u s b f d n,
  clients (run_result r c id u s b f d n) = clients c /\ (mids_ok c -> mids_ok (run_result r c id u s b f d n))).

Lemma tell_monitor_quiet c id s : clients (tell_monitor c id s) = clients c /\ (mids_ok c -> mids_ok (tell_monitor c id s)).
Proof. unfold tell_monitor. destruct (monitor c); [apply quiet|done]. Qed.

Definition expired (now : Z) (l : list client) : list client := filter (fun cl => endOfLife cl <= now) l.
Definition alive (now : Z) (l : list client) : list client := filter (fun cl => now < endOfLife cl) l.
Definition expire c cl : context := expel (tell_monitor c (internalID cl) COAP_202_DELETED) cl.
Definition next_expiry (now timeout : Z) (l : list client) : Z :=
  foldl (fun t cl => Z.min t (endOfLife cl - now)) timeout (alive now l).

Lemma expire_loop_ok now ts : forall fuel kept c timeout,
  clients c = kept ++ ts -> list_strict (kept ++ ts) -> mids_ok c -> (length ts < fuel)%nat ->
  expire_loop fuel c now timeout (internalID <$> head ts) =
    Some (next_expiry now timeout ts, foldl expire c (expired now ts)) /\
  clients (foldl expire c (expired now ts)) = kept ++ alive now ts /\ mids_ok (foldl expire c (expired now ts)).
Proof.
  induction ts as [|cl ts IH]; intros [|fuel] kept c timeout Hc Hs Hm Hf; try (cbn in Hf; lia); [done|].
  cbn [head fmap option_fmap option_map expire_loop]. unfold find_client. rewrite Hc.
  assert (lwm2m_list_find (kept ++ cl :: ts) (internalID cl) = Some cl) as -> by exact (find_middle kept cl ts Hs). mstep.
  assert (next_id (kept ++ cl :: ts) (internalID cl) = internalID <$> head ts) as -> by exact (next_middle kept cl ts Hs).
  unfold expired, alive, next_expiry. destruct (endOfLife cl <=? now) eqn:E.
  - unfold alive. rewrite !(filter_cons_True (fun cl => endOfLife cl <= now)), !(filter_cons_False (fun cl => now < endOfLife cl)) by lia.
    destruct (tell_monitor_quiet c (internalID cl) COAP_202_DELETED) as [Hq Hq'].
    destruct (remove_client_ok (tell_monitor c (internalID cl) COAP_202_DELETED) cl kept ts) as (E1 & E2 & E3);
      [by rewrite Hq, Hc|by apply Hq'|by rewrite Hq|].
    rewrite E1. mstep. cbn [foldl]. apply IH; [done|by eapply strict_delete_middle|done|cbn in Hf; lia].
  - unfold alive. rewrite !(filter_cons_False (fun cl => endOfLife cl <= now)), !(filter_cons_True (fun cl => now < endOfLife cl)) by lia.
    specialize (IH fuel (kept ++ [cl]) c (Z.min timeout (endOfLife cl - now))). rewrite <- !app_assoc in IH. cbn [app foldl] in *.
    destruct (endOfLife cl - now <? timeout) eqn:E'.
    + replace (Z.min timeout (endOfLife cl - now)) with (endOfLife cl - now) in IH by lia.
      replace (Z.min timeout (endOfLife cl - now)) with (endOfLife cl - now) by lia. apply IH; [done..|cbn in Hf; lia].
    + replace (Z.min timeout (endOfLife cl - now)) with timeout in IH by lia.
      replace (Z.min timeout (endOfLife cl - now)) with timeout by lia. apply IH; [done..|cbn in Hf; lia].
Qed.


(** ** The location of a client *)

Lemma location_string id :
  0 <= id < 65536 -> exists rest_, prv_getLocationString id =
    Some (4 + len (dec id), str "/rd/" ++ dec id ++ 0 :: rest_).
Proof.
  intros Hid. unfold prv_getLocationString, MAX_LOCATION_LENGTH.
  assert (utils_stringCopy (replicate (Z.to_nat 10) 0) 10 (str "/" ++ URI_REGISTRATION_SEGMENT ++ str "/" ++ [0]) =
    Some (4, str "/rd/" ++ [0; 0; 0; 0; 0; 0])) as -> by (vm_compute; reflexivity).
  mstep. change (4 <? 0) with false. cbv iota. rewrite (at_off_app (str "/rd/")) by done.
  pose proof (dec_length_pos id ltac:(lia)) as Hl. pose proof (proj2 (dec_length_iff id 5 ltac:(lia) ltac:(lia)) ltac:(cbn; lia)) as H5.
  change (10 - 4) with 6. destruct (uintToText_fits id [0; 0; 0; 0; 0; 0] 6) as (q & E & Hq & Hz & _); [lia|unfold INT_MAX; lia|cbn; lia|].
  unfold utils_intToText. guards. rewrite E. mstep. guards.
  destruct q as [|z q]; [specialize (Hz ltac:(lia)); done|]. specialize (Hz ltac:(lia)). injection Hz as ->. by exists q.
Qed.

(** The segments of the location are those of a request on the client. *)
Definition location_segments (id : Z) : list (list Z) := [URI_REGISTRATION_SEGMENT; dec id].

Context (malloc_never_fails : forall n, malloc_ok n = true).

Lemma location_response id rest_ (response : coap_packet_t) :
  0 <= id -> packet_wf response -> exists n response',
    coap_set_header_location_path response (str "/rd/" ++ dec id ++ 0 :: rest_) = Some (n, response') /\ n <> 0 /\
    location_path response' = map node_of (location_segments id).
Proof.
  intros Hid Hwf. unfold coap_set_header_location_path.
  assert (plain 0 (str "rd/" ++ dec id)) as Hp.
  { apply Forall_app_2; [by repeat constructor|]. eapply list.Forall_impl; [by apply dec_digits|]. cbn. unfold is_digit. clia. }
  destruct (split_options_ok malloc_never_fails (chr "/") (chr "/") (str "rd/" ++ dec id) rest_) as [_ E]; [done|done|done|done|].
  rewrite <- app_assoc in E. change (chr "/" :: str "rd/" ++ dec id ++ 0 :: rest_) with (str "/rd/" ++ dec id ++ 0 :: rest_) in E.
  rewrite E. mstep.
  assert (split_path (chr "/") (str "rd/" ++ dec id) = location_segments id) as ->.
  { change (str "rd/" ++ dec id) with (str "rd" ++ chr "/" :: dec id). rewrite split_path_cut by by repeat constructor.
    pose proof (dec_length_pos id Hid). destruct (dec id) eqn:Ed; [cbn in *; lia|]. rewrite split_path_plain; [unfold location_segments; by rewrite Ed|].
    rewrite <- Ed. eapply list.Forall_impl; [by apply dec_digits|]. cbn. unfold is_digit. clia. }
  assert (packet_wf (response <| location_path := map node_of (location_segments id) |>)) as Hwf' by done.
  destruct (set_option_ok _ COAP_OPTION_LOCATION_PATH Hwf' ltac:(done)) as (o & -> & _). mstep.
  eexists _, _. split; [done|]. split; [rewrite length_app; cbn [length str map String.list_ascii_of_string]; lia|done].
Qed.

Lemma location_decoded alt id code :
  0 <= id < LWM2M_MAX_ID ->
  uri_decode alt (location_segments id) code =
    Some (LWM2M_REQUEST_TYPE_REGISTRATION, mk_uri id LWM2M_MAX_ID LWM2M_MAX_ID LWM2M_MAX_ID).
Proof.
  intros Hid. unfold uri_decode, location_segments.
  assert (is_segment URI_REGISTRATION_SEGMENT [URI_REGISTRATION_SEGMENT; dec id] = true) as -> by done.
  cbn [tail]. unfold decode_object. unfold LWM2M_MAX_ID in *.
  rewrite getNumber_dec by (unfold is_id, LWM2M_MAX_ID; lia). mstep.
  assert (bad_id id = false) as -> by (unfold bad_id, LWM2M_MAX_ID; lia). by rewrite wrap_small by lia.
Qed.

(** ** Registration *)

Lemma by_name_some l name cl :
  prv_getClientByName l name = Some cl -> exists l1 l2, l = l1 ++ cl :: l2 /\ name_of cl = Some (c_string name).
Proof.
  induction l as [|x l IH]; cbn; [done|]. unfold name_of. destruct (cl_name x) as [n|] eqn:En.
  - case_bool_decide as Hn; [|by intros (l1 & l2 & -> & ?)%IH; exists (x :: l1), l2].
    intros [= ->]. exists [], l. split; [done|]. rewrite En. cbn. by rewrite Hn.
  - by intros (l1 & l2 & -> & ?)%IH; exists (x :: l1), l2.
Qed.

Lemma by_name_none l name : prv_getClientByName l name = None -> c_string name ∉ omap name_of l.
Proof.
  induction l as [|x l IH]; cbn; [intros _ Hin; inversion Hin|]. unfold name_of at 1.
  destruct (cl_name x) as [n|]; cbn; [|done]. case_bool_decide as Hn; [done|]. intros Hl.
  intros Hin. inversion Hin; subst; [done|by apply IH].
Qed.

(** What a Register request writes. *)
Definition registered (tv_sec : Z) (p : parameters_t) (name : list Z) (objects : list lwm2m_client_object_t) (format : Z)
    (altPath : option (list Z)) (from : Session) cl : client :=
  let lifetime := if p_lifetime p =? 0 then LWM2M_DEFAULT_LIFETIME else p_lifetime p in
  mk_server_client (internalID cl) (Some name) (p_version p) (p_binding p) (p_msisdn p) altPath format lifetime
    (tv_sec + lifetime) from objects (observationList cl) (observationId cl) (cl_blockData cl).

Definition fresh_client (id : Z) (from : Session) : client :=
  mk_server_client id None VERSION_MISSING 0 None None 0 0 0 from [] [] 0 [].

Lemma new_client_ok c from :
  registry_ok (clients c) -> len (clients c) < LWM2M_MAX_ID ->
  let id := lwm2m_list_newId (clients c) in
  let l := lwm2m_list_add (clients c) (fresh_client id from) [] in
  registry_ok l /\ 0 <= id < LWM2M_MAX_ID /\ find_client c id = None /\
  (forall id', lwm2m_list_find l id' = if id' =? id then Some (fresh_client id from) else find_client c id') /\
  omap name_of l ≡ₚ omap name_of (clients c).
Proof.
  intros [Hs Hi Hn Ho] Hl id l. unfold LWM2M_MAX_ID in *.
  assert (Forall (fun n => 0 <= node_id n < 2 ^ 16) (clients c)) as Hi'.
  { eapply list.Forall_impl; [exact Hi|]. cbn beta. intros cl Hcl. unfold node_id, server_client_node. lia. }
  pose proof (newId_from_spec (clients c) 0 Hs Hi' ltac:(lia) ltac:(lia)) as (Hid & Hfree & _).
  change (newId_from (clients c) 0) with id in *.
  assert (l ≡ₚ fresh_client id from :: clients c) as Hp by by apply add_perm. split_and!.
  - constructor.
    + apply sorted_distinct_strict; [by apply add_sorted; [|apply strict_sorted]|]. fold l. rewrite Hp. cbn. constructor.
      * intros (x & Hx & Hin)%list_elem_of_fmap. rewrite list.Forall_forall in Hfree. by apply (Hfree x Hin).
      * by apply strict_NoDup.
    + rewrite Hp. constructor; [cbn; unfold LWM2M_MAX_ID; lia|done].
    + rewrite Hp. done.
    + rewrite Hp. constructor; [|done]. split; constructor.
  - lia.
  - lia.
  - by apply find_absent.
  - intros id'. exact (find_add (fresh_client id from) (clients c) id' Hfree).
  - by rewrite Hp.
Qed.

(** Looking up in a list that was written in the middle. *)
Lemma find_client_set c l cl cl' l2 id :
  list_strict (l ++ cl :: l2) -> internalID cl' = internalID cl ->
  find_client (set_clients c (l ++ cl' :: l2)) id =
    if id =? internalID cl then Some cl' else lwm2m_list_find (l ++ cl :: l2) id.
Proof. intros. unfold find_client. rewrite clients_set. by apply find_replaced. Qed.

Section fill.
Context (c : context) (name : list Z) (from : Session) (tv_sec : Z) (p : parameters_t)
  (objects : list lwm2m_client_object_t) (format : Z) (altPath : option (list Z)).
Let f := registered tv_sec p name objects format altPath from.

(** The client that a Register request writes, and what it leaves alone. *)
Definition filled (base : client) (c2 : context) : Prop :=
  registry_ok (clients c2) /\ transactionList c2 = transactionList c /\
  forall id', find_client c2 id' = if id' =? internalID base then Some (f base) else find_client c id'.

Lemma fill_known cl :
  registry_ok (clients c) -> prv_getClientByName (clients c) name = Some cl ->
  exists c1 c2, reset_or_new c (Some (internalID cl)) from = Some (Some (internalID cl, c1)) /\
    upd_client c1 (internalID cl) f = Some c2 /\ filled cl c2 /\ 0 <= internalID cl < LWM2M_MAX_ID.
Proof.
  intros Hok Hn. destruct (by_name_some _ _ _ Hn) as (l & l2 & E & Hname). pose proof Hok as [Hs Hi _ Ho]. rewrite E in Hs, Hi, Ho, Hok.
  unfold reset_or_new, upd_client. rewrite E, (upd_first_middle l cl l2) by done. mstep.
  set (cl0 := cl <| cl_objects := [] |>).
  assert (list_strict (l ++ cl0 :: l2)) as Hs0 by by eapply strict_replace_middle.
  eexists _, (set_clients c (l ++ f cl :: l2)). split; [done|]. rewrite clients_set.
  change (internalID cl) with (internalID cl0) at 1. rewrite (upd_first_middle l cl0 l2) by done. mstep. rewrite set_clients_twice.
  split; [done|]. apply Forall_app in Hi as [_ Hi]. apply Forall_cons in Hi as [Hi _].
  apply Forall_app in Ho as [_ Ho]. apply Forall_cons in Ho as [[] _]. split; [|done]. split_and!; [|done|].
  - rewrite clients_set. apply (registry_replace l cl); [done|done|by constructor|]. intros n Hn'. left. by rewrite <- Hn', Hname.
  - intros id'. rewrite (find_client_set c l cl) by done. unfold find_client. by rewrite E.
Qed.

Lemma fill_new :
  registry_ok (clients c) -> len (clients c) < LWM2M_MAX_ID -> prv_getClientByName (clients c) name = None ->
  let id := lwm2m_list_newId (clients c) in
  exists c1 c2, reset_or_new c None from = Some (Some (id, c1)) /\
    upd_client c1 id f = Some c2 /\ filled (fresh_client id from) c2 /\ 0 <= id < LWM2M_MAX_ID /\ find_client c id = None.
Proof.
  intros Hok Hl Hn id. destruct (new_client_ok c from Hok Hl) as (Hok' & Hid & Hfree & Hfind & Hnames). fold id in Hok', Hid, Hfree, Hfind, Hnames.
  unfold reset_or_new. rewrite malloc_never_fails. cbn [negb]. fold id. fold (fresh_client id from).
  set (l1 := lwm2m_list_add (clients c) (fresh_client id from) []) in *.
  assert (lwm2m_list_find l1 id = Some (fresh_client id from)) as Hf by by rewrite Hfind, Z.eqb_refl.
  destruct (find_split l1 id _ (ok_strict _ Hok') Hf) as (_ & l & l2 & E).
  eexists _, (set_clients c (l ++ f (fresh_client id from) :: l2)). split; [done|]. unfold upd_client. rewrite clients_set, E.
  pose proof (ok_strict _ Hok') as Hs. rewrite E in Hs.
  assert (upd_first (l ++ fresh_client id from :: l2) id f = Some (l ++ f (fresh_client id from) :: l2)) as ->
    by exact (upd_first_middle l (fresh_client id from) l2 f Hs).
  mstep. rewrite set_clients_twice. split; [done|]. split; [|done]. split_and!; [|done|].
  - rewrite clients_set. rewrite E in Hok'. apply (registry_replace l (fresh_client id from)); [done|done|by repeat constructor|].
    intros n [= <-]. right. apply by_name_none in Hn. rewrite <- Hnames, E, omap_app in Hn. by rewrite omap_app.
  - intros id'. rewrite (find_client_set c l (fresh_client id from)) by done. rewrite <- E. cbn [internalID fresh_client].
    destruct (id' =? id) eqn:Ei; [done|]. by rewrite Hfind, Ei.
Qed.
End fill.

(** The client a Register request is for, without a block-wise transfer: the one
    with the name, or a new one with the lowest free identifier. *)
Definition register_base c (name : list Z) (from : Session) : client :=
  match prv_getClientByName (clients c) name with
  | Some cl => cl
  | None => fresh_client (lwm2m_list_newId (clients c)) from
  end.


(** ** Update *)

Definition with_observations cl (os : list observation) : client := cl <| observationList := os |>.
Definition remaining (objects : list lwm2m_client_object_t) (os : list observation) : list observation :=
  filter (fun o => is_gone objects (obs_uri o) = false) os.

Lemma find_middle_client c l cl l2 : list_strict (l ++ cl :: l2) -> clients c = l ++ cl :: l2 -> find_client c (internalID cl) = Some cl.
Proof. intros Hs E. unfold find_client. rewrite E. exact (find_middle l cl l2 Hs). Qed.

Lemma upd_middle_client c l cl l2 f :
  list_strict (l ++ cl :: l2) -> clients c = l ++ cl :: l2 ->
  upd_client c (internalID cl) f = Some (set_clients c (l ++ f cl :: l2)).
Proof. intros Hs E. unfold upd_client. rewrite E. by rewrite upd_first_middle. Qed.

Lemma observations_loop_ok objects l cl l2 os : forall fuel kept c,
  list_strict (l ++ cl :: l2) -> clients c = l ++ with_observations cl (kept ++ os) :: l2 -> list_strict (kept ++ os) ->
  Forall (fun o => obs_client o = internalID cl) os -> Forall (fun o : observation => is_Some (obs_callback o)) os ->
  (length os < fuel)%nat ->
  exists c', observations_loop fuel c (internalID cl) objects (obs_id <$> head os) = Some c' /\
    clients c' = l ++ with_observations cl (kept ++ remaining objects os) :: l2 /\ (mids_ok c -> mids_ok c').
Proof.
  induction os as [|o os IH]; intros [|fuel] kept c Hs Hc Ho Hown Hcb Hf; try (cbn in Hf; lia); cbn [head fmap option_fmap option_map observations_loop].
  - exists c. by rewrite app_nil_r in *.
  - apply Forall_cons in Hown as [Hown0 Hown]. apply Forall_cons in Hcb as [[r Hr] Hcb]. cbn [length] in Hf.
    set (clo := with_observations cl (kept ++ o :: os)) in *.
    assert (list_strict (l ++ clo :: l2)) as Hso by by eapply strict_replace_middle.
    change (internalID cl) with (internalID clo). rewrite (find_middle_client c l clo l2) by done. mstep.
    change (observationList clo) with (kept ++ o :: os).
    assert (lwm2m_list_find (kept ++ o :: os) (obs_id o) = Some o) as -> by exact (find_middle kept o os Ho). mstep.
    assert (next_id (kept ++ o :: os) (obs_id o) = obs_id <$> head os) as -> by exact (next_middle kept o os Ho).
    unfold remaining. destruct (is_gone objects (obs_uri o)) eqn:Eg.
    + rewrite filter_cons_False by congruence. unfold call_observation. rewrite Hr. mstep.
      set (c1 := run_result r c _ _ _ _ _ _ _).
      assert (clients c1 = clients c /\ (mids_ok c -> mids_ok c1)) as [Hq Hq'] by by apply quiet.
      unfold find_observation. rewrite (find_middle_client c1 l clo l2) by (first [done | by rewrite Hq]). mstep.
      change (observationList clo) with (kept ++ o :: os).
      assert (lwm2m_list_find (kept ++ o :: os) (obs_id o) = Some o) as -> by exact (find_middle kept o os Ho). mstep.
      unfold observe_remove. rewrite Hown0. change (internalID cl) with (internalID clo).
      rewrite (upd_middle_client c1 l clo l2) by (first [done | by rewrite Hq]). mstep.
      change (observationList clo) with (kept ++ o :: os).
      assert (lwm2m_list_remove (kept ++ o :: os) (obs_id o) = (kept ++ os, Some o)) as -> by exact (remove_middle kept o os Ho).
      cbn [fst]. change (clo <| observationList := kept ++ os |>) with (with_observations cl (kept ++ os)).
      destruct (IH fuel kept (set_clients c1 (l ++ with_observations cl (kept ++ os) :: l2))) as (c' & E' & Hc' & Hm');
        [done|by rewrite clients_set|by eapply strict_delete_middle|done|done|lia|].
      exists c'. split; [exact E'|]. split; [done|]. intros Hm. apply Hm'. by apply Hq'.
    + rewrite filter_cons_True by done. mstep.
      destruct (IH fuel (kept ++ [o]) c) as (c' & E' & Hc' & Hm'); [done|by rewrite <- app_assoc|by rewrite <- app_assoc|done|done|lia|].
      exists c'. split; [exact E'|]. split; [|done]. by rewrite Hc', <- app_assoc.
Qed.

Lemma drop_observations_ok objects c l cl l2 :
  list_strict (l ++ cl :: l2) -> clients c = l ++ cl :: l2 -> client_ok cl ->
  exists c', drop_observations c (internalID cl) objects = Some c' /\
    clients c' = l ++ with_observations cl (remaining objects (observationList cl)) :: l2 /\ (mids_ok c -> mids_ok c').
Proof.
  intros Hs Hc []. unfold drop_observations. rewrite (find_middle_client c l cl l2) by done. mstep.
  apply (observations_loop_ok objects l cl l2 (observationList cl) _ []); try done; [by destruct cl|].
  pose proof (strict_length_bound (observationList cl) 0 65536 ok_observations0 ok_obs_id0). lia.
Qed.

Lemma remaining_ok objects cl : client_ok cl -> client_ok (with_observations cl (remaining objects (observationList cl))).
Proof. intros []. constructor; cbn; [by apply sorted_filter|by apply Forall_keep..]. Qed.

(** What an Update request writes. *)
Definition updated (tv_sec : Z) (p : parameters_t) (objects : list lwm2m_client_object_t) (from : Session) cl : client :=
  let lifetime := if p_lifetime p =? 0 then cl_lifetime cl else p_lifetime p in
  mk_server_client (internalID cl) (cl_name cl) (cl_version cl)
    (if p_binding p =? BINDING_UNKNOWN then cl_binding cl else p_binding p)
    (if p_msisdn p is Some s then Some s else cl_msisdn cl) (cl_altPath cl) (cl_format cl) lifetime (tv_sec + lifetime) from
    (match objects with [] => cl_objects cl | _ => objects end)
    (match objects with [] => observationList cl | _ => remaining objects (observationList cl) end)
    (observationId cl) (cl_blockData cl).

Lemma updated_ok tv_sec p objects from cl : client_ok cl -> client_ok (updated tv_sec p objects from cl).
Proof. intros Hok. pose proof (remaining_ok objects cl Hok) as []. destruct Hok. destruct objects; by constructor. Qed.

Lemma handle_update_ok tv_sec c uriP from p objects cl :
  registry_ok (clients c) -> find_client c (objectId uriP) = Some cl -> LWM2M_URI_IS_SET_INSTANCE uriP = false ->
  p_name p = None ->
  exists l l2 c', clients c = l ++ cl :: l2 /\ handle_update tv_sec c uriP from p objects = Some (COAP_204_CHANGED, c') /\
    clients c' = l ++ updated tv_sec p objects from cl :: l2 /\ (mids_ok c -> mids_ok c').
Proof.
  intros Hok Hf Hi Hn. destruct (find_client_split c _ cl (ok_strict _ Hok) Hf) as (Hid & l & l2 & E).
  unfold handle_update. rewrite Hi, Hf, Hn. rewrite <- Hid. pose proof (ok_strict _ Hok) as Hs. rewrite E in Hs.
  assert (client_ok cl) as Hcl by (apply ok_clients in Hok; rewrite E in Hok; by apply Forall_app in Hok as [_ [? _]%Forall_cons]).
  rewrite (upd_middle_client c l cl l2) by done. mstep. set (cl1 := cl <| cl_binding := _ |> <| cl_msisdn := _ |> <| cl_lifetime := _ |> <| cl_session := _ |>).
  set (c1 := set_clients c (l ++ cl1 :: l2)). assert (clients c1 = l ++ cl1 :: l2) as E1 by apply clients_set.
  assert (list_strict (l ++ cl1 :: l2)) as Hs1 by by eapply strict_replace_middle.
  set (cl2 := match objects with [] => cl1 | _ => (with_observations cl1 (remaining objects (observationList cl))) <| cl_objects := objects |> end).
  assert (exists c2, match objects with
      | [] => Some c1
      | _ => c' ← drop_observations c1 (internalID cl) objects; upd_client c' (internalID cl) (fun x => x <| cl_objects := objects |>)
      end = Some c2 /\ clients c2 = l ++ cl2 :: l2 /\ (mids_ok c1 -> mids_ok c2)) as (c2 & -> & E2 & Hm2).
  { unfold cl2. destruct objects as [|o objs] eqn:Eo; [by exists c1|]. rewrite <- Eo. clear Eo.
    destruct (drop_observations_ok objects c1 l cl1 l2) as (c2 & Ed & E2 & Hm2); [done|done|by destruct Hcl; constructor|].
    change (internalID cl1) with (internalID cl) in Ed. rewrite Ed. mstep.
    set (cld := with_observations cl1 (remaining objects (observationList cl1))) in *.
    assert (list_strict (l ++ cld :: l2)) as Hsd by by eapply strict_replace_middle.
    change (internalID cl) with (internalID cld). rewrite (upd_middle_client c2 l cld l2) by done.
    eexists. split; [done|]. rewrite clients_set. by split. }
  mstep. assert (internalID cl2 = internalID cl) as Hi2 by (unfold cl2; by destruct objects).
  assert (list_strict (l ++ cl2 :: l2)) as Hs2 by by eapply strict_replace_middle.
  rewrite <- Hi2, (upd_middle_client c2 l cl2 l2) by done. mstep. rewrite Hi2.
  set (c3 := set_clients c2 _). destruct (tell_monitor_quiet c3 (internalID cl) COAP_204_CHANGED) as [Hq Hq'].
  exists l, l2. eexists. split; [done|]. split; [done|]. split.
  - rewrite Hq. unfold c3. rewrite clients_set. do 2 f_equal. unfold cl2, updated. by destruct objects.
  - intros Hm. apply Hq'. unfold c3. by apply Hm2.
Qed.


(** ** Deregister *)

Lemma find_deleted l cl l2 id :
  list_strict (l ++ cl :: l2) -> lwm2m_list_find (l ++ l2) id = if id =? internalID cl then None else lwm2m_list_find (l ++ cl :: l2) id.
Proof.
  intros Hs. pose proof (strict_delete_middle l cl l2 Hs) as Hd. rewrite !find_filter by by apply strict_sorted.
  rewrite !filter_app. destruct (Z.eqb_spec id (internalID cl)) as [->|Hn].
  - apply strict_middle in Hs as [H1 H2]. assert (forall l' : list client, Forall (fun m => node_id m <> internalID cl) l' ->
      filter (fun n => node_id n = internalID cl) l' = []) as Hnil.
    { induction 1 as [|x l' Hx Hl IH]; [done|]. by rewrite filter_cons_False. }
    rewrite !Hnil; [done|..]; [apply (list.Forall_impl _ _ _ H2)|apply (list.Forall_impl _ _ _ H1)];
      intros x; cbn beta; change (node_id cl) with (internalID cl); lia.
  - rewrite (filter_cons_False _ cl); [done|]. change (node_id cl) with (internalID cl). lia.
Qed.

Lemma handle_deregister_ok c uriP cl :
  registry_ok (clients c) -> mids_ok c -> find_client c (objectId uriP) = Some cl ->
  LWM2M_URI_IS_SET_OBJECT uriP = true -> LWM2M_URI_IS_SET_INSTANCE uriP = false ->
  exists l l2, clients c = l ++ cl :: l2 /\
    handle_deregister c uriP = Some (COAP_202_DELETED, expel (tell_monitor c (internalID cl) COAP_202_DELETED) cl) /\
    clients (expel (tell_monitor c (internalID cl) COAP_202_DELETED) cl) = l ++ l2 /\
    mids_ok (expel (tell_monitor c (internalID cl) COAP_202_DELETED) cl).
Proof.
  intros Hok Hm Hf Ho Hi. destruct (find_client_split c _ cl (ok_strict _ Hok) Hf) as (Hid & l & l2 & E). exists l, l2. split; [done|].
  unfold handle_deregister. rewrite Ho, Hi, Hf. cbn [negb].
  destruct (tell_monitor_quiet c (internalID cl) COAP_202_DELETED) as [Hq Hq'].
  destruct (remove_client_ok (tell_monitor c (internalID cl) COAP_202_DELETED) cl l l2) as (-> & E2 & Hm2);
    [rewrite Hq; apply Hok|by apply Hq'|by rewrite Hq|]. done.
Qed.

(** ** Every request *)

Definition state_ok c : Prop := registry_ok (clients c) /\ mids_ok c.

(** The client may take the name: it has it, or nobody has. *)
Definition may_take (l : list client) (name : list Z) (cand : option Z) : Prop :=
  match cand with
  | None => prv_getClientByName l name = None
  | Some id => exists l1 cl l2, l = l1 ++ cl :: l2 /\ internalID cl = id /\
      (name_of cl = Some (c_string name) \/ c_string name ∉ omap name_of (l1 ++ l2))
  end.

Lemma find_peer_in l from cl :
  utils_findClient lwm2m_session_is_equal cl_session l from = Some cl -> exists l1 l2, l = l1 ++ cl :: l2.
Proof.
  unfold utils_findClient. induction l as [|x l IH]; cbn; [done|]. destruct (lwm2m_session_is_equal (cl_session x) from).
  - intros [= ->]. by exists [], l.
  - intros (l1 & l2 & ->)%IH. by exists (x :: l1), l2.
Qed.

Lemma select_client_ok c name from b cand c1 :
  state_ok c -> select_client c name from b = Some (cand, c1) ->
  state_ok c1 /\ may_take (clients c1) name cand /\ len (clients c1) <= len (clients c).
Proof.
  intros [Hok Hm]. unfold select_client. destruct (prv_getClientByName (clients c) name) as [cl|] eqn:En.
  - destruct (by_name_some _ _ _ En) as (l & l2 & E & Hname). destruct b.
    + intros (tmp & Ht & Hb)%bind_Some. apply find_peer_in in Ht as (t1 & t2 & Et).
      destruct (remove_client_ok c tmp t1 t2 (ok_strict _ Hok) Hm Et) as (Er & Ec & Hm1). rewrite Er in Hb. cbn [mbind option_bind] in Hb.
      destruct (Z.eqb_spec (internalID tmp) (internalID cl)) as [|Hne]; [done|]. cbn [negb] in Hb. injection Hb as <- <-.
      split; [split; [|done]|split].
      * rewrite Ec. rewrite Et in Hok. by eapply registry_delete.
      * rewrite Ec. assert (cl ∈ t1 ++ t2) as (l1 & l3 & E3)%list_elem_of_split.
        { assert (cl ∈ t1 ++ tmp :: t2) as Hin by (rewrite <- Et, E; set_solver).
          assert (cl <> tmp) by congruence. set_solver. }
        exists l1, cl, l3. split; [done|]. split; [done|]. by left.
      * rewrite Ec, Et, !length_app. cbn [length]. lia.
    + intros [= <- <-]. split; [done|]. split; [|lia]. exists l, cl, l2. split; [done|]. split; [done|]. by left.
  - intros [= <- <-]. split; [done|]. split; [|lia]. destruct b; [|done].
    destruct (utils_findClient _ _ _ _) as [cl|] eqn:Ef; [|done]. apply find_peer_in in Ef as (l1 & l2 & E).
    exists l1, cl, l2. split; [done|]. split; [done|]. right. apply by_name_none in En. rewrite E in En. clear -En.
    rewrite !omap_app in *. cbn in *. destruct (name_of cl); set_solver.
Qed.

Lemma fill_ok c name from tv_sec p objects format altPath cand r id c1 c2 :
  state_ok c -> may_take (clients c) name cand -> len (clients c) < LWM2M_MAX_ID ->
  reset_or_new c cand from = Some r -> r = Some (id, c1) ->
  upd_client c1 id (registered tv_sec p name objects format altPath from) = Some c2 -> state_ok c2.
Proof.
  intros [Hok Hm] Ht Hl Hr -> Hu. destruct cand as [id0|].
  - destruct Ht as (l & cl & l2 & E & <- & Hname). pose proof (ok_strict _ Hok) as Hs. rewrite E in Hs.
    unfold reset_or_new in Hr. rewrite (upd_middle_client c l cl l2) in Hr by done. cbn [mbind option_bind] in Hr. injection Hr as <- <-.
    set (cl0 := cl <| cl_objects := [] |>) in *. assert (list_strict (l ++ cl0 :: l2)) as Hs0 by by eapply strict_replace_middle.
    change (internalID cl) with (internalID cl0) in Hu. rewrite (upd_middle_client _ l cl0 l2) in Hu by (first [done | apply clients_set]).
    injection Hu as <-. split; [|done]. rewrite clients_set. rewrite E in Hok.
    assert (client_ok cl) as [] by (apply ok_clients in Hok; by apply Forall_app in Hok as [_ [? _]%Forall_cons]).
    apply (registry_replace l cl); [done|done|by constructor|]. intros n [= <-]. done.
  - destruct (fill_new c name from tv_sec p objects format altPath Hok Hl Ht) as (d1 & d2 & E1 & E2 & (Hok2 & Hts & _) & _).
    rewrite E1 in Hr. injection Hr as <- <-. rewrite E2 in Hu. injection Hu as <-. split; [done|]. unfold mids_ok. by rewrite Hts.
Qed.

Lemma tell_monitor_ok c id s : state_ok c -> state_ok (tell_monitor c id s).
Proof. intros [Hok Hm]. destruct (tell_monitor_quiet c id s) as [Hq Hq']. split; [by rewrite Hq|by apply Hq']. Qed.

Lemma handle_register_state tv_sec c from m response p objects format altPath r c' response' :
  state_ok c -> len (clients c) < LWM2M_MAX_ID ->
  handle_register tv_sec c from m response p objects format altPath = Some (r, c', response') -> state_ok c'.
Proof.
  intros Hok Hl. unfold handle_register. destruct (bool_decide _); [by intros [= _ <- _]|].
  destruct (p_name p) as [name|]; [|by intros [= _ <- _]]. destruct objects as [|o objs] eqn:Eo; [by intros [= _ <- _]|]. rewrite <- Eo. clear Eo.
  destruct (negb _); [by intros [= _ <- _]|].
  intros ([cand c1] & Hsel & H)%bind_Some. destruct (select_client_ok _ _ _ _ _ _ Hok Hsel) as (Hok1 & Ht & Hl1).
  apply bind_Some in H as (res & Hr & H). destruct res as [[id c2]|] eqn:Er; [|by injection H as _ <- _].
  apply bind_Some in H as (c3 & Hu & H). assert (state_ok c3) as Hok3 by (eapply fill_ok; try done; lia).
  apply bind_Some in H as ([n loc] & _ & H). destruct (negb (n =? 0)); [|done]. apply bind_Some in H as ([n' resp] & _ & H).
  destruct (negb (n' =? 0)); [|done]. injection H as _ <- _. by apply tell_monitor_ok.
Qed.

Lemma handle_request_state tv_sec c uriP from m response r c' response' :
  state_ok c -> len (clients c) < LWM2M_MAX_ID ->
  registration_handleRequest beyond tv_sec c uriP from m response = Some (r, c', response') -> state_ok c'.
Proof.
  intros Hok Hl. unfold registration_handleRequest. destruct (tv_sec <? 0); [by intros [= _ <- _]|].
  destruct (code m =? COAP_POST).
  - intros ([p|] & _ & H)%bind_Some; [|by injection H as _ <- _].
    destruct (negb (content_type m =? LWM2M_CONTENT_LINK) && _); [by injection H as _ <- _|].
    apply bind_Some in H as ([[objects format] altPath] & _ & H). destruct (LWM2M_URI_IS_SET_OBJECT uriP) eqn:Eo; cbn [negb] in H.
    + apply bind_Some in H as ([res c1] & H & E). injection E as _ <- _. destruct Hok as [Hok Hm].
      destruct (LWM2M_URI_IS_SET_INSTANCE uriP) eqn:Ei; [unfold handle_update in H; rewrite Ei in H; by injection H as _ <-|].
      destruct (find_client c (objectId uriP)) as [cl|] eqn:Ef;
        [|unfold handle_update in H; rewrite Ei, Ef in H; by injection H as _ <-].
      destruct (p_name p) eqn:En; [unfold handle_update in H; rewrite Ei, Ef, En in H; by injection H as _ <-|].
      destruct (handle_update_ok tv_sec c uriP from p objects cl Hok Ef Ei En) as (l & l2 & c2 & E & Hu & E2 & Hm2).
      rewrite Hu in H. injection H as _ <-. split; [|by apply Hm2]. rewrite E2. rewrite E in Hok.
      assert (client_ok cl) by (apply ok_clients in Hok; by apply Forall_app in Hok as [_ [? _]%Forall_cons]).
      apply (registry_replace l cl); [done|done|by apply updated_ok|by left].
    + by eapply handle_register_state.
  - destruct (code m =? COAP_DELETE); [|by intros [= _ <- _]].
    intros ([res c1] & H & E)%bind_Some. injection E as _ <- _. destruct (LWM2M_URI_IS_SET_OBJECT uriP) eqn:Eo;
      [|unfold handle_deregister in H; rewrite Eo in H; by injection H as _ <-].
    destruct (LWM2M_URI_IS_SET_INSTANCE uriP) eqn:Ei; [unfold handle_deregister in H; rewrite Eo, Ei in H; by injection H as _ <-|].
    destruct (find_client c (objectId uriP)) as [cl|] eqn:Ef;
      [|unfold handle_deregister in H; rewrite Eo, Ei, Ef in H; by injection H as _ <-].
    destruct Hok as [Hok Hm]. destruct (handle_deregister_ok c uriP cl Hok Hm Ef Eo Ei) as (l & l2 & E & Hd & E2 & Hm2).
    rewrite Hd in H. injection H as _ <-. split; [|done]. rewrite E2. rewrite E in Hok. by eapply registry_delete.
Qed.

Lemma registry_filter l now : registry_ok l -> registry_ok (alive now l).
Proof.
  intros [Hs Hi Hn Ho]. constructor; [by apply sorted_filter|by apply Forall_keep| |by apply Forall_keep].
  assert (forall l, omap name_of (alive now l) ⊆ omap name_of l) as Hsub.
  { clear. induction l as [|x l IH]; [done|]. unfold alive. rewrite filter_cons. fold (alive now l). cbn.
    destruct (decide _); cbn; destruct (name_of x); set_solver. }
  clear -Hn Hsub. induction l as [|x l IH]; [done|]. unfold alive. rewrite filter_cons. fold (alive now l). cbn in *.
  destruct (name_of x) eqn:E; cbn in *; [apply NoDup_cons in Hn as [Hx Hn]|];
    (destruct (decide _); cbn; [rewrite E|]; try (apply NoDup_cons; split); try by apply IH).
  intros Hin. by apply Hx, Hsub.
Qed.

(** What a server does with its registry: requests, and periodic steps. *)
Inductive serves : context -> context -> Prop :=
  | serves_nothing c : serves c c
  | serves_request c c1 tv_sec uriP from m response r c2 response' :
      serves c c1 -> len (clients c1) < LWM2M_MAX_ID ->
      registration_handleRequest beyond tv_sec c1 uriP from m response = Some (r, c2, response') -> serves c c2
  | serves_step c c1 now timeout timeout' c2 :
      serves c c1 -> registration_step c1 now timeout = Some (timeout', c2) -> serves c c2.

End correctness.

(** ** Examples *)

Module Sample.
#[export] Instance sessions : Sessions Z := Z.eqb.
#[export] Instance memory_left : Malloc := malloc_always.
#[export] Instance silent : ResultCallbacks unit (lwm2m_context_t Z unit unit (registry_t Z unit)) := fun _ c _ _ _ _ _ _ _ => c.

Definition observing (id client_id obj : Z) : lwm2m_observation_t unit :=
  mk_observation id client_id (mk_uri obj 65535 65535 65535) STATE_REGISTERED (Some tt).
Definition client (id : Z) (name : list Z) (eol : Z) : lwm2m_client_t Z unit :=
  mk_server_client id (Some (name ++ [0])) VERSION_1_1 BINDING_U None None LWM2M_CONTENT_TLV 60 eol (7 + id)
    [mk_client_object 3 0 0 []] [observing 1 id 3; observing 2 id 5] 2 [].
Definition context_of (l : list (lwm2m_client_t Z unit)) : lwm2m_context_t Z unit unit (registry_t Z unit) :=
  mk_context [] 8 [] [] (mk_registry l (Some tt) (Some tt)).
Definition two : lwm2m_context_t Z unit unit (registry_t Z unit) := context_of [client 0 (str "a") 100; client 1 (str "b") 200].

Definition no_bytes (_ : multi_option_t) : list Z := replicate 8 0.
Definition query (texts : list (list Z)) : list multi_option_t := map (fun t => mk_opt 1 (len t) t) texts.
Definition request (code_ : Z) (texts : list (list Z)) (body : list Z) : coap_packet_t :=
  zero_packet <| code := code_ |> <| uri_query := query texts |> <| content_type := LWM2M_CONTENT_LINK |>
    <| payload := Some (body ++ [0]) |> <| payload_len := len body |>.

Lemma two_ok : state_ok two.
Proof.
  split; [|split; constructor]. constructor.
  - repeat constructor; done.
  - repeat constructor; done.
  - apply (bool_decide_unpack _). by vm_compute.
  - repeat constructor; try done; by eexists.
Qed.

Lemma quiet_silent r c id u s b f d n :
  clients (run_result r c id u s b f d n) = clients c /\ (mids_ok c -> mids_ok (run_result r c id u s b f d n)).
Proof. done. Qed.
End Sample.
Import Sample.




Definition registering : coap_packet_t :=
  request COAP_POST [str "lwm2m=1.1"; str "ep=c"; str "lt=90"; str "b=U"] (str "</>;rt=" ++ [34] ++ str "oma.lwm2m" ++ [34] ++ str ";ct=112,</1/0>,</3/0>").
Definition after (r : C (Z * lwm2m_context_t Z unit unit (registry_t Z unit) * coap_packet_t)) : lwm2m_context_t Z unit unit (registry_t Z unit) :=
  match r with Some (_, c, _) => c | None => two end.
Definition three : lwm2m_context_t Z unit unit (registry_t Z unit) :=
  after (registration_handleRequest no_bytes 50 two LWM2M_URI_RESET 12 registering zero_packet).

Example registered_three :
  map (fun cl => (internalID cl, cl_lifetime cl, endOfLife cl, cl_format cl)) (clients three) =
    [(0, 60, 100, 11542); (1, 60, 200, 11542); (2, 90, 140, 112)].
Proof. by vm_compute. Qed.


(** A Register request that arrives in blocks, for a known name: the client of the
    sender is looked up and removed without a test, so that a sender without a
    client ends in a null pointer, and a sender that is the client itself in the
    use of freed memory. *)
Example blockwise_registration :
  let p := mk_parameters (Some (str "a" ++ [0])) 0 None BINDING_U VERSION_1_1 in
  select_client two (str "a" ++ [0]) 99 true = None /\ select_client two (str "a" ++ [0]) 7 true = None /\
  exists c', select_client two (str "a" ++ [0]) 8 true = Some (Some 0, c').
Proof. split; [by vm_compute|]. split; [by vm_compute|]. eexists. by vm_compute. Qed.

(** The key of a parameter is compared past the end of a short option. *)
Example parameter_past_the_end :
  prv_getParameters (fun _ => []) (query [str "ep"]) = None /\
  prv_getParameters (fun _ => str "=") (query [str "ep"]) = None /\
  prv_getParameters (fun _ => [255]) (query [str "ep"]) = Some (Some (zero_parameters <| p_binding := BINDING_UNKNOWN |>)).
Proof. split_and!; by vm_compute. Qed.

(** A lifetime of more than 32 bits wraps around. *)
Example lifetime_wraps :
  option_map (option_map p_lifetime) (prv_getParameters no_bytes (query [str "lt=4294967297"])) = Some (Some 1).
Proof. by vm_compute. Qed.
End ServerRegistry.
