(* ===== verification/Reporting.v ===== *)
(** * Reports (core/reporting.c)

    The Send operation: a client sends values, which the server hands to a callback
    of the application.  The peer is compared as a pointer. *)
From S2P Require Import Prelude.
From S2P Require Import Types.
From S2P Require Import SortedList.
From S2P Require Import Utils.
From S2P Require Import CoapPacket.
From S2P Require Import Transaction.
From S2P Require Import Packet.
From S2P Require Import Clients.
From S2P Require Import ServerRegistry.
Import SortedList Utils CoapPacket Transaction Packet Clients ServerRegistry.

Module Reporting.
Section reporting.
Context {Session CB U R W : Type}.
Context `{HE : EqDecision Session, HG : Registry Session R W, HR : ResultCallbacks R (lwm2m_context_t Session CB U W)}.
Abbreviation context := (lwm2m_context_t Session CB U W).
Implicit Types (c : context).

Definition find_sender c (fromSessionH : Session) : option (lwm2m_client_t Session R) :=
  snd <$> list_find (fun cl => cl_session cl = fromSessionH) (clients c).

Definition reporting_handleSend (contextP : context) (fromSessionH : Session) (m : coap_packet_t) : C (Z * context) :=
  if negb (code m =? COAP_POST) then ret (COAP_400_BAD_REQUEST, contextP)
  else
    match find_sender contextP fromSessionH with
    | None => ret (COAP_400_BAD_REQUEST, contextP)
    | Some clientP =>
        let format := utils_convertMediaType (content_type m) in
        if negb (format =? LWM2M_CONTENT_SENML_JSON) && negb (format =? LWM2M_CONTENT_SENML_CBOR) then
          ret (COAP_400_BAD_REQUEST, contextP)
        else
          ret (COAP_204_CHANGED,
               match reportingSendCallback (registry_of (rest contextP)) with
               | Some r => run_result r contextP (internalID clientP) None (code m) None format (payload m) (payload_len m)
               | None => contextP
               end)
    end.

Definition lwm2m_reporting_set_send_callback (contextP : context) (r : option R) : context :=
  contextP <| rest := with_registry ((registry_of (rest contextP)) <| reportingSendCallback := r |>) (rest contextP) |>.

(** A report is accepted from a registered client only, and the application is
    given what was sent, under the identifier of that client; anything else
    changes nothing. *)
Theorem handleSend_correct c from m :
  exists r c', reporting_handleSend c from m = Some (r, c') /\
    (r = COAP_204_CHANGED /\ code m = COAP_POST /\
       (exists cl, cl ∈ clients c /\ cl_session cl = from /\
          (forall cb, reportingSendCallback (registry_of (rest c)) = Some cb ->
             c' = run_result cb c (internalID cl) None COAP_POST None (utils_convertMediaType (content_type m)) (payload m) (payload_len m)) /\
          (reportingSendCallback (registry_of (rest c)) = None -> c' = c)) \/
     r = COAP_400_BAD_REQUEST /\ c' = c).
Proof.
  unfold reporting_handleSend. destruct (Z.eqb_spec (code m) COAP_POST) as [Ec|]; cbn [negb]; [|by eexists _, _; split; [|right]].
  unfold find_sender. destruct (list_find _ _) as [[i cl]|] eqn:E; cbn; [|by eexists _, _; split; [|right]].
  apply list_find_Some in E as (Hl & Hs & _). apply list_elem_of_lookup_2 in Hl.
  destruct (_ && _); [by eexists _, _; split; [|right]|]. eexists _, _. split; [done|]. left. split; [done|]. split; [done|].
  exists cl. split; [done|]. split; [done|]. rewrite Ec. split; [by intros cb ->|by intros ->].
Qed.
End reporting.
End Reporting.
