(* ===== verification/ServerManagement.v ===== *)
(** * Device management, server side (core/management.c)

    The requests that a server makes on the objects of a client, and what it does
    with the replies.

    [tv_sec] is the result of [lwm2m_gettime].  The user data of the transactions
    is a [dm_data_t], whose address is the message identifier of the first
    transaction that carries it. *)
From Stdlib Require Import SpecFloat.
From S2P Require Import Prelude.
From S2P Require Import Types.
From S2P Require Import SortedList.
From S2P Require Import Numeric.
From S2P Require Import Utils.
From S2P Require Import Uri.
From S2P Require Import Float.
From S2P Require Import FloatText.
From S2P Require Import CoapPacket.
From S2P Require Import CoapMessage.
From S2P Require Import CoapOptions.
From S2P Require Import Transaction.
From S2P Require Import Packet.
From S2P Require Import Client.
From S2P Require Import Formats.
From S2P Require Import Observe.
From S2P Require Import Management.
From S2P Require Import Clients.
Import SortedList Numeric Utils Uri Float FloatText CoapPacket CoapMessage CoapOptions Transaction Packet Client Formats.
Import Observe Management Clients.

Module ServerManagement.

(** [dm_callback] is the callback with its user data. *)
Record dm_data_t (R : Type) := mk_dm_data { dm_client : Z; dm_uri : lwm2m_uri_t; dm_callback : R }.
Arguments mk_dm_data {R}.
Arguments dm_client {R}.
Arguments dm_uri {R}.
Arguments dm_callback {R}.
#[export] Instance dm_data_rebuild {R} : Rebuild (dm_data_t R) := fun d =>
  mk_dm_data (dm_client d) (dm_uri d) (dm_callback d).

#[export] Instance dm_data_eq_dec {R} `{EqDecision R} : EqDecision (dm_data_t R).
Proof. solve_decision. Defined.

(** The address of [prv_resultCallback], and user data at an address. *)
Class ManagementPointers (CB U R : Type) := {
  result_callback : CB;
  dm_data : Z -> dm_data_t R -> U;
  data_of : U -> option (Z * dm_data_t R) }.

Definition _PRV_BUFFER_SIZE : Z := 32.
Definition SIZEOF_DM_DATA : Z := 32.

Section management.
Context {Session CB U R X A : Type}.
Abbreviation context := (lwm2m_context_t Session CB U (world_t Session X A)).
Context `{HM : Malloc, HL : LibC, HF : Codecs, HU : EqDecision U, HC : Callbacks Session CB U (world_t Session X A)}.
Context `{HG : Registry Session R (world_t Session X A), HR : ResultCallbacks R context, HP : ManagementPointers CB U R}.
Context (junk : Z -> list Z).
Abbreviation transaction := (lwm2m_transaction_t Session CB U).
Abbreviation client := (lwm2m_client_t Session R).

(** ** Replies *)

(** Writing the user data of a transaction, which other transactions may share. *)
Definition write_userData (contextP : context) (transacP : transaction) (u : U) : context :=
  contextP <| transactionList :=
    map (fun t => if bool_decide (userData t = userData transacP) then t <| userData := Some u |> else t)
      (transactionList contextP) |>.

(** The URI of the instance that the client has created; [None] in the result when
    the Location-Path is refused. *)
Definition created_uri (uri : lwm2m_uri_t) (location : list multi_option_t) : C (option lwm2m_uri_t) :=
  locationString ← coap_get_multi_option_as_path_string junk location;
  match locationString with
  | None => ret None
  | Some s =>
      '(result, locationUri) ← lwm2m_stringToUri (Some s) (len (c_string s));
      if result =? 0 then ret None
      else if negb (LWM2M_URI_IS_SET_OBJECT locationUri) || negb (LWM2M_URI_IS_SET_INSTANCE locationUri) ||
              LWM2M_URI_IS_SET_RESOURCE locationUri || negb (objectId locationUri =? objectId uri)
      then ret None
      else ret (Some locationUri)
  end.

(** The callback is called with the user data [d], then the user data is freed. *)
Definition report (contextP : context) (transacP : transaction) (d : dm_data_t R) (status : Z)
    (block : option block_info_t) (format : Z) (data : option (list Z)) (length : Z) : context :=
  let contextP := run_result (dm_callback d) contextP (dm_client d) (Some (dm_uri d)) status block format data length in
  free_userData contextP transacP.

Definition prv_resultCallback (contextP : context) (transacP : transaction) (m : option coap_packet_t) : C context :=
  u ← userData transacP;
  '(address, dataP) ← data_of u;
  match m with
  | None => ret (report contextP transacP dataP COAP_503_SERVICE_UNAVAILABLE None LWM2M_CONTENT_TEXT None 0)
  | Some packet =>
      let answer contextP transacP dataP :=
        report contextP transacP dataP (code packet) (block_info packet) (utils_convertMediaType (content_type packet))
          (payload packet) (payload_len packet) in
      if (code packet =? COAP_201_CREATED) && negb (bool_decide (location_path packet = [])) then
        r ← created_uri (dm_uri dataP) (location_path packet);
        match r with
        | None => ret contextP
        | Some uri =>
            let dataP := dataP <| dm_uri := uri |> in
            let u := dm_data address dataP in
            ret (answer (write_userData contextP transacP u) (transacP <| userData := Some u |>) dataP)
        end
      else ret (answer contextP transacP dataP)
  end.

(** ** Requests *)

(** A new transaction with a client. *)
Definition new_operation (tv_sec : Z) (contextP : context) (clientP : client) (uriP : lwm2m_uri_t) (method : Z)
    : C (option transaction * context) :=
  t ← transaction_new junk tv_sec [] (Some (cl_session clientP)) method (cl_altPath clientP) (Some uriP) (nextMID contextP) 4 None;
  ret (t, contextP <| nextMID := u16 (nextMID contextP + 1) |>).

(** The callback of the application, [None] in the result when there is no memory
    for the user data. *)
Definition attach (clientP : client) (uriP : lwm2m_uri_t) (callback_ : option R) (t : transaction) : option transaction :=
  match callback_ with
  | None => Some t
  | Some r =>
      if malloc_ok SIZEOF_DM_DATA then
        Some (t <| callback := Some result_callback |>
                <| userData := Some (dm_data (mID t) (mk_dm_data (internalID clientP) uriP r)) |>)
      else None
  end.

(** The message of an operation; [None] in the result when there is no memory for
    the payload. *)
Definition operation_message (contextP : context) (method format : Z) (buffer_ : option (list Z)) (length : Z) (t : transaction)
    : C (option transaction) :=
  if method =? COAP_GET then
    '(_, m) ← coap_set_header_accept (message t) format; ret (Some (t <| message := m |>))
  else
    match buffer_ with
    | None => ret (Some t)
    | Some b =>
        '(_, m) ← coap_set_header_content_type (message t) format;
        '(ok, t) ← transaction_set_payload (lwm2m_get_coap_block_size contextP) (t <| message := m |>) b length;
        ret (if (ok : bool) then Some t else None)
    end.

Definition prv_makeOperation (tv_sec : Z) (contextP : context) (clientID : Z) (uriP : lwm2m_uri_t) (method format : Z)
    (buffer_ : option (list Z)) (length : Z) (callback_ : option R) : C (Z * context) :=
  match find_client contextP clientID with
  | None => ret (COAP_404_NOT_FOUND, contextP)
  | Some clientP =>
      '(t, contextP) ← new_operation tv_sec contextP clientP uriP method;
      match t with
      | None => ret (COAP_500_INTERNAL_SERVER_ERROR, contextP)
      | Some t =>
          t ← operation_message contextP method format buffer_ length t;
          match t ≫= attach clientP uriP callback_ with
          | None => ret (COAP_500_INTERNAL_SERVER_ERROR, contextP)
          | Some t => add_and_send junk tv_sec contextP t
          end
      end
  end.

Definition prv_lwm2m_dm_read (tv_sec : Z) (contextP : context) (clientID : Z) (uriP : lwm2m_uri_t) (callback_ : option R)
    : C (Z * context) :=
  match find_client contextP clientID with
  | None => ret (COAP_404_NOT_FOUND, contextP)
  | Some clientP => prv_makeOperation tv_sec contextP clientID uriP COAP_GET (cl_format clientP) None 0 callback_
  end.

Definition lwm2m_dm_read := prv_lwm2m_dm_read.

Definition prv_lwm2m_dm_write (tv_sec : Z) (contextP : context) (clientID : Z) (uriP : lwm2m_uri_t) (format : Z)
    (buffer_ : option (list Z)) (length : Z) (partialUpdate : bool) (callback_ : option R) : C (Z * context) :=
  let method := if partialUpdate then COAP_POST else COAP_PUT in
  if negb (LWM2M_URI_IS_SET_OBJECT uriP) || (length =? 0) then ret (COAP_400_BAD_REQUEST, contextP)
  else if LWM2M_URI_IS_SET_RESOURCE uriP then
    prv_makeOperation tv_sec contextP clientID uriP COAP_PUT format buffer_ length callback_
  else prv_makeOperation tv_sec contextP clientID uriP method format buffer_ length callback_.

Definition lwm2m_dm_write := prv_lwm2m_dm_write.

Definition lwm2m_dm_execute (tv_sec : Z) (contextP : context) (clientID : Z) (uriP : lwm2m_uri_t) (format : Z)
    (buffer_ : option (list Z)) (length : Z) (callback_ : option R) : C (Z * context) :=
  if negb (LWM2M_URI_IS_SET_RESOURCE uriP) then ret (COAP_400_BAD_REQUEST, contextP)
  else prv_makeOperation tv_sec contextP clientID uriP COAP_POST format buffer_ length callback_.

(** The format of the data of a Create: TLV unless it is one instance. *)
Definition create_format (format : Z) (dataP : list lwm2m_data_t) : C Z :=
  if format =? LWM2M_CONTENT_TLV then ret format
  else if 1 <? len dataP then ret LWM2M_CONTENT_TLV
  else d ← rd dataP 0; ret (if bool_decide (d_type d = LWM2M_TYPE_OBJECT_INSTANCE) then format else LWM2M_CONTENT_TLV).

Definition prv_lwm2m_dm_create (tv_sec : Z) (contextP : context) (clientID : Z) (uriP : lwm2m_uri_t)
    (dataP : list lwm2m_data_t) (callback_ : option R) : C (Z * context) :=
  if LWM2M_URI_IS_SET_INSTANCE uriP || (len dataP =? 0) then ret (COAP_400_BAD_REQUEST, contextP)
  else
    match find_client contextP clientID with
    | None => ret (COAP_404_NOT_FOUND, contextP)
    | Some clientP =>
        format ← create_format (cl_format clientP) dataP;
        '(length, format, buffer_) ← lwm2m_data_serialize junk (Some uriP) dataP format;
        if length <=? 0 then ret (COAP_400_BAD_REQUEST, contextP)
        else prv_makeOperation tv_sec contextP clientID uriP COAP_POST format buffer_ length callback_
    end.

Definition lwm2m_dm_create := prv_lwm2m_dm_create.

Definition lwm2m_dm_delete (tv_sec : Z) (contextP : context) (clientID : Z) (uriP : lwm2m_uri_t) (callback_ : option R)
    : C (Z * context) :=
  if negb (LWM2M_URI_IS_SET_INSTANCE uriP) || LWM2M_URI_IS_SET_RESOURCE uriP then ret (COAP_400_BAD_REQUEST, contextP)
  else prv_makeOperation tv_sec contextP clientID uriP COAP_DELETE LWM2M_CONTENT_TEXT None 0 callback_.

(** ** Attributes *)

(** The options written so far, and the local array. *)
Definition queries := (coap_packet_t * list Z)%type.

(** One attribute to set, when [toSet] has the flag: the name, and the text of the
    value; [None] in the result when the text does not fit. *)
Definition set_attribute (toSet_ flag : Z) (name : list Z) (text : list Z -> Z -> C (Z * list Z)) (q : queries)
    : C (option queries) :=
  let '(m, buffer_) := q in
  if has_flag toSet_ flag then
    buffer_ ← wr_bytes buffer_ 0 name;
    '(length, buffer_) ← at_off buffer_ (len name) (fun b => text b (_PRV_BUFFER_SIZE - len name));
    if length =? 0 then ret None
    else
      l ← coap_add_multi_option (uri_query m) buffer_ (len name + length) 0;
      m ← SET_OPTION (m <| uri_query := l |>) COAP_OPTION_URI_QUERY;
      ret (Some (m, buffer_))
  else ret (Some q).

(** One attribute to clear. *)
Definition clear_attribute (toClear_ flag : Z) (name : list Z) (m : coap_packet_t) : C coap_packet_t :=
  if has_flag toClear_ flag then
    l ← coap_add_multi_option (uri_query m) name (len name - 1) 0;
    SET_OPTION (m <| uri_query := l |>) COAP_OPTION_URI_QUERY
  else ret m.

Definition set_attributes (attrP : lwm2m_attributes_t) (q : queries) : C (option queries) :=
  q ←? set_attribute (toSet attrP) LWM2M_ATTR_FLAG_MIN_PERIOD ATTR_MIN_PERIOD_STR (utils_intToText (minPeriod attrP)) q;
  q ←? set_attribute (toSet attrP) LWM2M_ATTR_FLAG_MAX_PERIOD ATTR_MAX_PERIOD_STR (utils_intToText (maxPeriod attrP)) q;
  q ←? set_attribute (toSet attrP) LWM2M_ATTR_FLAG_GREATER_THAN ATTR_GREATER_THAN_STR
         (fun b n => utils_floatToText (greaterThan attrP) b n false) q;
  q ←? set_attribute (toSet attrP) LWM2M_ATTR_FLAG_LESS_THAN ATTR_LESS_THAN_STR
         (fun b n => utils_floatToText (lessThan attrP) b n false) q;
  set_attribute (toSet attrP) LWM2M_ATTR_FLAG_STEP ATTR_STEP_STR (fun b n => utils_floatToText (a_step attrP) b n false) q.

Definition clear_attributes (attrP : lwm2m_attributes_t) (m : coap_packet_t) : C coap_packet_t :=
  m ← clear_attribute (toClear attrP) LWM2M_ATTR_FLAG_MIN_PERIOD ATTR_MIN_PERIOD_STR m;
  m ← clear_attribute (toClear attrP) LWM2M_ATTR_FLAG_MAX_PERIOD ATTR_MAX_PERIOD_STR m;
  m ← clear_attribute (toClear attrP) LWM2M_ATTR_FLAG_GREATER_THAN ATTR_GREATER_THAN_STR m;
  m ← clear_attribute (toClear attrP) LWM2M_ATTR_FLAG_LESS_THAN ATTR_LESS_THAN_STR m;
  clear_attribute (toClear attrP) LWM2M_ATTR_FLAG_STEP ATTR_STEP_STR m.

(** The options of the attributes, [None] in the result when a value has no text.
    The list of queries, which is freed first, must be empty. *)
Definition attribute_queries (attrP : lwm2m_attributes_t) (m : coap_packet_t) : C (option coap_packet_t) :=
  assert! bool_decide (uri_query m = []);
  '(m, _) ←? set_attributes attrP (m, junk _PRV_BUFFER_SIZE);
  m ← clear_attributes attrP m; ret (Some m).

(** The checks on the attributes; the sum is one of [double]s. *)
Definition bad_attributes (attrP : lwm2m_attributes_t) (uriP : lwm2m_uri_t) : bool :=
  negb (Z.land (toSet attrP) (toClear attrP) =? 0) ||
  (negb (Z.land (toSet attrP) ATTR_FLAG_NUMERIC =? 0) && negb (LWM2M_URI_IS_SET_RESOURCE uriP)) ||
  ((Z.land (toSet attrP) ATTR_FLAG_NUMERIC =? ATTR_FLAG_NUMERIC) &&
   fge (fadd (double_of_bits (lessThan attrP)) (fmul (double_of_bits 0x4000000000000000) (double_of_bits (a_step attrP))))
       (double_of_bits (greaterThan attrP))).

Definition lwm2m_dm_write_attributes (tv_sec : Z) (contextP : context) (clientID : Z) (uriP : lwm2m_uri_t)
    (attrP : option lwm2m_attributes_t) (callback_ : option R) : C (Z * context) :=
  match attrP with
  | None => ret (COAP_400_BAD_REQUEST, contextP)
  | Some attrP =>
      if bad_attributes attrP uriP then ret (COAP_400_BAD_REQUEST, contextP)
      else
        match find_client contextP clientID with
        | None => ret (COAP_404_NOT_FOUND, contextP)
        | Some clientP =>
            '(t, contextP) ← new_operation tv_sec contextP clientP uriP COAP_PUT;
            match t ≫= attach clientP uriP callback_ with
            | None => ret (COAP_500_INTERNAL_SERVER_ERROR, contextP)
            | Some t =>
                m ← attribute_queries attrP (message t);
                match m with
                | None => ret (COAP_500_INTERNAL_SERVER_ERROR, contextP)
                | Some m => add_and_send junk tv_sec contextP (t <| message := m |>)
                end
            end
        end
  end.

Definition lwm2m_dm_discover (tv_sec : Z) (contextP : context) (clientID : Z) (uriP : lwm2m_uri_t) (callback_ : option R)
    : C (Z * context) :=
  match find_client contextP clientID with
  | None => ret (COAP_404_NOT_FOUND, contextP)
  | Some clientP =>
      '(t, contextP) ← new_operation tv_sec contextP clientP uriP COAP_GET;
      match t with
      | None => ret (COAP_500_INTERNAL_SERVER_ERROR, contextP)
      | Some t =>
          '(_, m) ← coap_set_header_accept (message t) LWM2M_CONTENT_LINK;
          match attach clientP uriP callback_ (t <| message := m |>) with
          | None => ret (COAP_500_INTERNAL_SERVER_ERROR, contextP)
          | Some t => add_and_send junk tv_sec contextP t
          end
      end
  end.
End management.
(** ** The attributes of a request *)

Section attributes.
Context `{HM : Malloc, HL : LibC}.
Context (Hmalloc : forall n, malloc_ok n = true).
Context (junk : Z -> list Z) (junk_length : forall n, 0 <= n -> len (junk n) = n).
Context (beyond : multi_option_t -> list Z).

(** A message with queries. *)
Definition with_query (m : coap_packet_t) (l : list multi_option_t) (o : list Z) : coap_packet_t :=
  m <| uri_query := l |> <| p_options := o |>.
Definition queried (m : coap_packet_t) (l : list multi_option_t) (o : list Z) : Prop :=
  packet_wf (with_query m l o) /\
  forall x, 0 <= x < 40 -> IS_OPTION (with_query m l o) x = (x =? COAP_OPTION_URI_QUERY) && negb (bool_decide (l = [])) || IS_OPTION m x.

Definition query_of (t : list Z) : multi_option_t := mk_opt 0 (len t) t.

(** One option. *)
Lemma add_query m l o buf t post :
  queried m l o -> buf = t ++ post -> len t < 256 ->
  exists o', queried m (l ++ [query_of t]) o' /\
    (l' ← coap_add_multi_option (uri_query (with_query m l o)) buf (len t) 0;
     SET_OPTION ((with_query m l o) <| uri_query := l' |>) COAP_OPTION_URI_QUERY) =
      Some (with_query m (l ++ [query_of t]) o').
Proof.
  intros [Hw Hx] -> Ht. unfold coap_add_multi_option. rewrite !Hmalloc. cbn [Z.eqb negb].
  rewrite (rd_bytes_app [] t post) by done. mstep. rewrite wrap_small by lia.
  set (m1 := (with_query m l o) <| uri_query := _ |>).
  assert (packet_wf m1) as Hw1 by exact Hw.
  destruct (set_option_ok m1 COAP_OPTION_URI_QUERY Hw1 ltac:(done)) as (o' & -> & Hl & Hb & Ho). exists o'.
  split; [|done]. split; [by apply (wf_set_options m1)|].
  intros x Hx0. change (IS_OPTION (with_query m (l ++ [query_of t]) o') x) with (IS_OPTION (m1 <| p_options := o' |>) x).
  rewrite Ho by done. change (IS_OPTION m1 x) with (IS_OPTION (with_query m l o) x). rewrite Hx by done.
  rewrite (bool_decide_false (l ++ _ = [])) by (by destruct l). cbn [negb]. destruct (x =? _), (bool_decide _); cbn; try done.
Qed.

(** The text of an attribute: what is written wherever there is room. *)
Definition writes (text : list Z -> Z -> C (Z * list Z)) (name t : list Z) : Prop :=
  t <> [] /\ len (name ++ t) < 256 /\
  forall b, len b = _PRV_BUFFER_SIZE - len name -> exists post, text b (len b) = Some (len t, t ++ post) /\ len (t ++ post) = len b.

Lemma set_attribute_ok flags flag name text t m l o buf :
  has_flag flags flag = true -> writes text name t -> len name <= len buf -> len buf = _PRV_BUFFER_SIZE -> queried m l o ->
  exists o' buf', set_attribute flags flag name text (with_query m l o, buf) =
      Some (Some (with_query m (l ++ [query_of (name ++ t)]) o', buf')) /\
    len buf' = _PRV_BUFFER_SIZE /\ queried m (l ++ [query_of (name ++ t)]) o'.
Proof.
  intros Hf (Hn & Hs & Ht) Hb Hl Hq. unfold set_attribute. rewrite Hf.
  rewrite <- (take_drop (length name) buf). rewrite wr_bytes_0 by lens. mstep. rewrite at_off_app by done.
  destruct (Ht (drop (length name) buf)) as (post & E & Hp); [lens|].
  replace (_PRV_BUFFER_SIZE - len name) with (len (drop (length name) buf)) by lens.
  rewrite E. mstep. assert (0 < len t) by (destruct t; [done|cbn [length]; lia]). rewrite (proj2 (Z.eqb_neq _ _)) by lia.
  replace (len name + len t) with (len (name ++ t)) by lens.
  destruct (add_query m l o (name ++ t ++ post) (name ++ t) post Hq ltac:(by apps) Hs) as (o' & Hq' & E').
  destruct (coap_add_multi_option _ _ _ _) as [l'|]; [|discriminate E']. cbn [mbind option_bind] in *. rewrite E'. mstep.
  eexists o', _. split; [done|]. split; [|done]. lens.
Qed.

Lemma set_attribute_off flags flag name text q :
  has_flag flags flag = false -> set_attribute flags flag name text q = Some (Some q).
Proof. intros Hf. unfold set_attribute. rewrite Hf. by destruct q. Qed.

Lemma clear_attribute_ok flags flag name m l o :
  has_flag flags flag = true -> 0 < len name < 256 -> queried m l o ->
  exists o', clear_attribute flags flag name (with_query m l o) = Some (with_query m (l ++ [query_of (removelast name)]) o') /\
    queried m (l ++ [query_of (removelast name)]) o'.
Proof.
  intros Hf Hn Hq. unfold clear_attribute. rewrite Hf.
  assert (name = removelast name ++ [List.last name 0]) as E by (apply app_removelast_last; intros ->; cbn in Hn; lia).
  assert (len name = len (removelast name) + 1) as Hl by (rewrite E at 1; lens).
  replace (len name - 1) with (len (removelast name)) by lia.
  destruct (add_query m l o name (removelast name) _ Hq E) as (o' & Hq' & E'); [lia|by exists o'].
Qed.

(** The attributes in the order in which they are written. *)
Definition attrs : list attr := [MinPeriod; MaxPeriod; GreaterThan; LessThan; Step].
Definition attr_value (a : lwm2m_attributes_t) (k : attr) : Z :=
  match k with
  | MinPeriod => minPeriod a | MaxPeriod => maxPeriod a | GreaterThan => greaterThan a | LessThan => lessThan a | Step => a_step a
  end.
Definition text_of (a : lwm2m_attributes_t) (k : attr) (b : list Z) (n : Z) : C (Z * list Z) :=
  match k with
  | MinPeriod | MaxPeriod => utils_intToText (attr_value a k) b n
  | _ => utils_floatToText (attr_value a k) b n false
  end.
Fixpoint set_all (a : lwm2m_attributes_t) (l : list attr) (q : queries) : C (option queries) :=
  match l with
  | [] => ret (Some q)
  | k :: l => q ←? set_attribute (toSet a) (flag_of k) (name_of k) (text_of a k) q; set_all a l q
  end.
Fixpoint clear_all (a : lwm2m_attributes_t) (l : list attr) (m : coap_packet_t) : C coap_packet_t :=
  match l with
  | [] => ret m
  | k :: l => m ← clear_attribute (toClear a) (flag_of k) (name_of k) m; clear_all a l m
  end.

Lemma and_then_ext {A B} (e e' : C (option A)) (k k' : A -> C (option B)) :
  e = e' -> (forall x, k x = k' x) -> and_then e k = and_then e' k'.
Proof. intros -> H. unfold and_then. destruct e' as [[x|]|]; [apply H|done|done]. Qed.

Lemma set_attributes_all a q : set_attributes a q = set_all a attrs q.
Proof.
  unfold set_attributes, attrs. cbn [set_all]. do 4 (apply and_then_ext; [done|intros ?]).
  unfold and_then. change (text_of a Step) with (fun b n => utils_floatToText (a_step a) b n false). by destruct (set_attribute _ _ _ _ _) as [[?|]|].
Qed.
Lemma clear_attributes_all a m : clear_attributes a m = clear_all a attrs m.
Proof.
  unfold clear_attributes, attrs. cbn [clear_all]. do 4 (apply option_bind_ext; [intros ?|done]).
  by destruct (clear_attribute _ _ _ _).
Qed.
(** The attributes as items. *)
Definition chosen (flags : Z) (l : list attr) : list attr := filter (fun k => has_flag flags (flag_of k) = true) l.
Definition set_items (a : lwm2m_attributes_t) (texts : attr -> list Z) (l : list attr) : list item :=
  map (fun k => (k, Some (texts k, attr_value a k))) (chosen (toSet a) l).
Definition clear_items (a : lwm2m_attributes_t) (l : list attr) : list item := map (fun k => (k, None)) (chosen (toClear a) l).
Definition query_of_item (i : item) : multi_option_t := query_of (item_text i).

Lemma chosen_cons flags k l : chosen flags (k :: l) = (if has_flag flags (flag_of k) then [k] else []) ++ chosen flags l.
Proof.
  unfold chosen. destruct (has_flag flags (flag_of k)) eqn:E; [by rewrite filter_cons_True|].
  rewrite filter_cons_False; [done|]. by rewrite E.
Qed.

Lemma set_all_ok a texts m l :
  (forall k, has_flag (toSet a) (flag_of k) = true -> writes (text_of a k) (name_of k) (texts k)) ->
  forall L o buf, len buf = _PRV_BUFFER_SIZE -> queried m L o ->
  exists o' buf', set_all a l (with_query m L o, buf) =
      Some (Some (with_query m (L ++ map query_of_item (set_items a texts l)) o', buf')) /\
    queried m (L ++ map query_of_item (set_items a texts l)) o'.
Proof.
  intros Ht. induction l as [|k l IH]; intros L o buf Hb Hq; cbn [set_all].
  - unfold set_items. cbn [map chosen]. rewrite app_nil_r. by exists o, buf.
  - unfold set_items in *. rewrite chosen_cons. destruct (has_flag (toSet a) (flag_of k)) eqn:E; cbn [List.app].
    + destruct (set_attribute_ok (toSet a) (flag_of k) (name_of k) (text_of a k) (texts k) m L o buf E (Ht k E)) as (o1 & b1 & -> & Hb1 & Hq1);
        [rewrite Hb; by destruct k|done|done|].
      unfold and_then. mstep. destruct (IH _ o1 b1 Hb1 Hq1) as (o2 & b2 & -> & Hq2). exists o2, b2.
      cbn [map] in *. unfold query_of_item at 1 3. rewrite <- app_assoc in *. done.
    + rewrite set_attribute_off by done. unfold and_then. mstep. by apply IH.
Qed.

Lemma clear_all_ok a m l : forall L o, queried m L o ->
  exists o', clear_all a l (with_query m L o) = Some (with_query m (L ++ map query_of_item (clear_items a l)) o') /\
    queried m (L ++ map query_of_item (clear_items a l)) o'.
Proof.
  induction l as [|k l IH]; intros L o Hq; cbn [clear_all].
  - unfold clear_items. cbn [map chosen]. rewrite app_nil_r. by exists o.
  - unfold clear_items in *. rewrite chosen_cons. destruct (has_flag (toClear a) (flag_of k)) eqn:E; cbn [List.app].
    + destruct (clear_attribute_ok (toClear a) (flag_of k) (name_of k) m L o E) as (o1 & -> & Hq1); [by destruct k|done|].
      mstep. destruct (IH _ o1 Hq1) as (o2 & -> & Hq2). exists o2.
      cbn [map] in *. unfold query_of_item at 1 3. rewrite <- app_assoc in *. done.
    + unfold clear_attribute at 1. rewrite E. mstep. by apply IH.
Qed.

(** What the client reads. *)
Definition flags_of (n : Z) : Z := fold_left (fun v k => if has_flag n (flag_of k) then Z.lor v (flag_of k) else v) attrs 0.
Lemma five_flags n : 0 <= n < 32 -> n = flags_of n.
Proof. intros Hn. pose proof (range_cases 32 (fun n => n =? flags_of n) eq_refl n Hn) as H. by apply Z.eqb_eq. Qed.

Definition only_set (a : lwm2m_attributes_t) : lwm2m_attributes_t :=
  fold_left (fun r k => if has_flag (toSet a) (flag_of k) then write_of k (attr_value a k) r else r) attrs
    (mk_attributes (toSet a) (toClear a) 0 0 0 0 0).

Lemma items_read a texts : 0 <= toSet a < 32 -> 0 <= toClear a < 32 ->
  fold_left set_item (set_items a texts attrs ++ clear_items a attrs) zero_attributes = only_set a.
Proof.
  intros Hs Hc. rewrite fold_left_app. pose proof (five_flags _ Hs) as E1. pose proof (five_flags _ Hc) as E2.
  assert (forall r, fold_left set_item (clear_items a attrs) r =
    r <| toClear := fold_left (fun v k => if has_flag (toClear a) (flag_of k) then Z.lor v (flag_of k) else v) attrs (toClear r) |>) as ->.
  { intros []. unfold clear_items, attrs. rewrite !chosen_cons. clear E1 E2. cbn [fold_left].
    do 5 (match goal with |- context [has_flag ?x ?y] => destruct (has_flag x y) end); reflexivity. }
  assert (fold_left set_item (set_items a texts attrs) zero_attributes =
    fold_left (fun r k => if has_flag (toSet a) (flag_of k) then write_of k (attr_value a k) r else r) attrs
      (mk_attributes (fold_left (fun v k => if has_flag (toSet a) (flag_of k) then Z.lor v (flag_of k) else v) attrs 0) 0 0 0 0 0 0)) as ->.
  { unfold set_items, attrs. rewrite !chosen_cons. clear E1 E2. cbn [fold_left].
    do 5 (match goal with |- context [has_flag ?x ?y] => destruct (has_flag x y) end); reflexivity. }
  fold (flags_of (toSet a)). rewrite <- E1. unfold only_set, attrs. cbn [fold_left].
  do 5 (match goal with |- context [has_flag (toSet a) ?y] => destruct (has_flag (toSet a) y) end); cbn; unfold update; cbn; f_equal; symmetry; exact E2.
Qed.

Lemma items_once a texts : Z.land (toSet a) (toClear a) = 0 ->
  NoDup (map fst (set_items a texts attrs ++ clear_items a attrs)).
Proof.
  intros Hd. assert (NoDup attrs) as Hn by (apply (bool_decide_unpack _); by vm_compute).
  unfold set_items, clear_items. rewrite map_app, !map_map. cbn [fst]. rewrite !map_id. apply NoDup_app.
  split; [by apply NoDup_filter|]. split; [|by apply NoDup_filter].
  intros k [Hs _]%list_elem_of_filter [Hc _]%list_elem_of_filter.
  unfold flag_of in *. rewrite has_flag_bit in * by apply flag_bit.
  pose proof (Z.land_spec (toSet a) (toClear a) (bit_of k)) as E. rewrite Hd, Hs, Hc, Z.bits_0 in E. discriminate E.
Qed.
Lemma period_writes v name : 0 <= v < 2 ^ 32 -> len name = 5 -> writes (utils_intToText v) name (dec v).
Proof.
  intros Hv Hn. pose proof (dec_length_pos v ltac:(lia)). pose proof (proj2 (dec_length_iff v 10 ltac:(lia) ltac:(lia)) ltac:(lia)).
  split; [by destruct (dec v)|]. split; [lens|]. intros b Hb. unfold utils_intToText, _PRV_BUFFER_SIZE in *. rewrite (proj2 (Z.ltb_ge v 0)) by lia.
  destruct (uintToText_fits v b (len b)) as (tail & E & Hl & _); [lia|unfold INT_MAX; lia|lia|]. exists tail. split; [done|lia].
Qed.

(** C20. The attributes that a server writes to the query of a Write-Attributes
    request are those that the client reads from it: the same attributes are set,
    with the same values, and the same are cleared.  Periods are any 32-bit
    numbers; a numeric attribute is one whose text [strtod] reads back; an
    attribute that is cleared must not be followed by an equals sign in the
    memory of the client. *)
Theorem write_attributes_roundtrip a (texts : attr -> list Z) m :
  packet_wf m -> uri_query m = [] -> IS_OPTION m COAP_OPTION_URI_QUERY = false ->
  0 <= toSet a < 32 -> 0 <= toClear a < 32 -> Z.land (toSet a) (toClear a) = 0 ->
  0 <= minPeriod a < 2 ^ 32 -> 0 <= maxPeriod a < 2 ^ 32 ->
  (forall k, has_flag (Z.land (toSet a) ATTR_FLAG_NUMERIC) (flag_of k) = true ->
     writes (text_of a k) (name_of k) (texts k) /\ denotes k (texts k) (attr_value a k)) ->
  (forall q, exists c l, beyond q = c :: l /\ c <> chr "=") ->
  exists m', attribute_queries junk a m = Some (Some m') /\ packet_wf m' /\
    IS_OPTION m' COAP_OPTION_URI_QUERY = negb (Z.lor (toSet a) (toClear a) =? 0) /\
    prv_readAttributes beyond (uri_query m') = Some (Some (only_set a)).
Proof.
  intros Hw Hq Ho Hs Hc Hd Hmin Hmax Hnum Hb.
  set (t k := match k with MinPeriod => dec (minPeriod a) | MaxPeriod => dec (maxPeriod a) | _ => texts k end).
  assert (forall k, has_flag (toSet a) (flag_of k) = true -> writes (text_of a k) (name_of k) (t k) /\ denotes k (t k) (attr_value a k)) as Ht.
  { intros k Hk. destruct k; [split; [by apply period_writes|done]..| | |];
      apply Hnum; unfold flag_of in *; rewrite has_flag_bit in * by done; by rewrite Z.land_spec, Hk. }
  assert (with_query m [] (p_options m) = m) as Em by (destruct m; cbn in Hq; by subst).
  assert (queried m [] (p_options m)) as Hq0 by (split; rewrite Em; [done|]; intros x _; by rewrite bool_decide_true, andb_false_r).
  destruct (set_all_ok a t m attrs (fun k Hk => proj1 (Ht k Hk)) [] (p_options m) (junk _PRV_BUFFER_SIZE)) as (o1 & b1 & E1 & Hq1);
    [by apply junk_length|done|]. rewrite Em in E1.
  destruct (clear_all_ok a m attrs _ o1 Hq1) as (o2 & E2 & Hq2). rewrite !app_nil_l, <- map_app in *.
  set (l := set_items a t attrs ++ clear_items a attrs) in *.
  exists (with_query m (map query_of_item l) o2). unfold attribute_queries. rewrite bool_decide_true, set_attributes_all, E1 by done.
  unfold and_then. mstep. rewrite clear_attributes_all, E2. mstep. split; [done|]. split; [apply Hq2|]. split.
  - rewrite (proj2 Hq2), Ho by done. cbn [Z.eqb andb]. rewrite orb_false_r. f_equal. unfold l, set_items, clear_items, attrs.
    clear - Hs Hc.
    assert (Z.lor (toSet a) (toClear a) = Z.lor (flags_of (toSet a)) (flags_of (toClear a))) as -> by by rewrite <- !five_flags.
    unfold flags_of, attrs. rewrite !chosen_cons. cbn [fold_left].
    do 10 (match goal with |- context [has_flag ?x ?y] => destruct (has_flag x y) end); reflexivity.
  - change (uri_query (with_query m (map query_of_item l) o2)) with (map query_of_item l). unfold prv_readAttributes.
    rewrite (attributes_loop_items Hmalloc beyond l).
    + rewrite read_items_once, decide_True by by apply items_once. unfold l. by rewrite items_read.
    + apply list.Forall2_fmap_r, Forall_Forall2_diag, list.Forall_app. unfold set_items, clear_items, chosen. rewrite !list.Forall_fmap, !list.Forall_forall.
      split; intros k [Hk _]%list_elem_of_filter; (split; [done|]; split; [done|]); [by apply Ht|by apply Hb].
Qed.
End attributes.
#[local] Instance memory_left : Malloc := malloc_always.
#[local] Instance strtod_constant : LibC := fun _ => (0x4004000000000000, 3).
Definition blank (n : Z) : list Z := replicate (Z.to_nat n) 0.

Lemma write_attributes_roundtrip_witness :
  exists m', attribute_queries blank (mk_attributes 5 2 30 7 0x4004000000000000 0 0) zero_packet = Some (Some m') /\
    prv_readAttributes (followed_by 255) (uri_query m') = Some (Some (mk_attributes 5 2 30 0 0x4004000000000000 0 0)).
Proof.
  assert (Ha : forall k, has_flag (Z.land 5 ATTR_FLAG_NUMERIC) (flag_of k) = true -> k = GreaterThan) by by intros [].
  pose (a := mk_attributes 5 2 30 7 0x4004000000000000 0 0). fold a.
  destruct (@write_attributes_roundtrip memory_left strtod_constant (fun _ => eq_refl) blank ltac:(intros n Hn; unfold blank; rewrite length_replicate; lia)
    (followed_by 255) a (fun _ => str "2.5") zero_packet zero_packet_wf) as (m' & H1 & _ & _ & H2);
    [reflexivity|reflexivity|cbn; lia|cbn; lia|reflexivity|cbn; lia|cbn; lia| |by exists 255, []|].
  2: { exists m'. split; [exact H1|]. etransitivity; [exact H2|by vm_compute]. }
  intros k ->%Ha. split.
  - split; [done|]. split; [done|]. intros b Hb. change (len b = 29) in Hb.
    do 29 (destruct b as [|? b]; [discriminate Hb|]). destruct b; [|cbn in Hb; lia].
    eexists. split; [by vm_compute|done].
  - split; [|split; [done|by exists 3]]. repeat apply list.Forall_cons_2; try apply list.Forall_nil_2; done.
Defined.

(** A Create whose answer has the path of an object only: the application is not
    told, and the user data stays. *)
#[local] Instance pointers : ManagementPointers unit (Z * dm_data_t unit) unit :=
  {| result_callback := tt; dm_data a d := (a, d); data_of u := Some u |}.
#[local] Instance counting :
    ResultCallbacks unit (lwm2m_context_t Z unit (Z * dm_data_t unit) (world_t Z unit (registry_t Z unit))) :=
  fun _ c _ _ _ _ _ _ _ => c <| nextMID := nextMID c + 1 |>.
Definition created (path : list (list Z)) : coap_packet_t :=
  zero_packet <| code := COAP_201_CREATED |> <| location_path := map (fun t => mk_opt 1 (len t) t) path |>.
Definition creating : lwm2m_transaction_t Z unit (Z * dm_data_t unit) :=
  mk_transaction 7 8 true 1 0 zero_packet 0 None 0 None (Some tt) (Some (7, mk_dm_data 1 (mk_uri 3 65535 65535 65535) tt)).
Definition idle : lwm2m_context_t Z unit (Z * dm_data_t unit) (world_t Z unit (registry_t Z unit)) :=
  mk_context [creating] 9 [] [] (mk_world 1024 [] None [] [] (mk_registry [] None None)).

Example location_refused :
  prv_resultCallback blank idle creating (Some (created [str "3"])) = Some idle /\
  option_map nextMID (prv_resultCallback blank idle creating (Some (created [str "3"; str "2"]))) = Some 10 /\
  created_uri blank (mk_uri 3 65535 65535 65535) (location_path (created [str "3"; str "2"])) = Some (Some (mk_uri 3 2 65535 65535)).
Proof. split; [|split]; by vm_compute. Qed.
End ServerManagement.
