(* ===== verification/Delivery.v ===== *)
(** * The requests of a server, from one end to the other

    An operation that a server asks of a client ([prv_makeOperation]) is one
    datagram, in which the client finds the same method, URI, format and data. *)
From S2P Require Import Prelude.
From S2P Require Import Types.
From S2P Require Import SortedList.
From S2P Require Import Numeric.
From S2P Require Import Utils.
From S2P Require Import Uri.
From S2P Require Import CoapPacket.
From S2P Require Import CoapMessage.
From S2P Require Import CoapOptions.
From S2P Require Import CoapSerialize.
From S2P Require Import CoapParse.
From S2P Require Import Transaction.
From S2P Require Import Request.
From S2P Require Import Packet.
From S2P Require Import Client.
From S2P Require Import Formats.
From S2P Require Import Management.
From S2P Require Import Clients.
From S2P Require Import ServerManagement.
Import SortedList Numeric Utils Uri CoapPacket CoapMessage CoapOptions CoapSerialize CoapParse Transaction Request Packet.
Import Client Formats Management Clients ServerManagement.

Module Delivery.

(** ** The message *)

(** The content of a request: the format that is accepted, or the data. *)
Inductive content_t := Accepted (format : Z) | Data (format : Z) (data : list Z) | Nothing.

(** What an operation asks for. *)
Definition content_of (method format : Z) (buffer_ : option (list Z)) (length : Z) : content_t :=
  if method =? COAP_GET then Accepted format
  else match buffer_ with Some b => Data format (take (Z.to_nat length) b) | None => Nothing end.

(** The bytes of the payload of a message. *)
Definition body (p : coap_packet_t) : list Z :=
  match payload p with Some b => take (Z.to_nat (payload_len p)) b | None => [] end.

(** What a message says: the values of its options, and its payload. *)
Definition content (p : coap_packet_t) : content_t :=
  match field p COAP_OPTION_ACCEPT, field p COAP_OPTION_CONTENT_TYPE with
  | v :: _, _ => Accepted (be_val v)
  | [], v :: _ => Data (be_val v) (body p)
  | [], [] => Nothing
  end.

Lemma body_bytes p : body p = drop 1 (payload_bytes p).
Proof.
  unfold body, payload_bytes. destruct (payload_len p =? 0) eqn:E; [|done].
  apply Z.eqb_eq in E. rewrite E. destruct (payload p); [by rewrite take_0|done].
Qed.

Lemma content_read_back p r : reads_back p r -> content (packet r) = content p.
Proof.
  intros Hb. unfold content. rewrite !(fields_read_back p r) by (try done; unfold numbers; set_unfold; tauto).
  rewrite !body_bytes. destruct Hb as (_ & _ & _ & _ & _ & _ & _ & -> & _). done.
Qed.

(** A message with one more option, 12 or 17. *)
Definition marked (m : coap_packet_t) (n : Z) (a : list Z) (f : Z) (b : option (list Z)) (l : Z) (o : list Z) : coap_packet_t :=
  m <| accept := a |> <| accept_num := n |> <| content_type := f |> <| payload := b |> <| payload_len := l |> <| p_options := o |>.

Lemma marked_ok m n a f b l o opt :
  msg_ok m -> length o = 5%nat -> bytes o -> opt = 12 \/ opt = 17 ->
  (forall x, 0 <= x < 40 -> IS_OPTION (m <| p_options := o |>) x = (x =? opt) || IS_OPTION m x) ->
  length a = 2%nat -> Forall (fun v => 0 <= v < 2 ^ 16) a -> 0 <= n <= 2 -> 0 <= f < 2 ^ 16 ->
  match b with Some d => 0 <= l <= len d | None => l = 0 end ->
  msg_ok (marked m n a f b l o).
Proof.
  intros Hm Ho Hb Hopt Hx Ha Hav Hn Hf Hp. destruct Hm.
  assert (forall x, 0 <= x < 40 -> x <> 12 -> x <> 17 -> IS_OPTION (marked m n a f b l o) x = IS_OPTION m x) as Hsame.
  { intros x Hx0 H1 H2. change (IS_OPTION (marked m n a f b l o) x) with (IS_OPTION (m <| p_options := o |>) x).
    rewrite Hx by done. by rewrite (proj2 (Z.eqb_neq x opt)) by lia. }
  constructor; try assumption; try (rewrite Hsame by done; assumption).
  - destruct ok_wf0 as (_ & _ & H3 & H4 & H5 & _). split_and!; assumption.
  - by split.
Qed.

Section delivery.
Context `{HM : Malloc} (malloc_never_fails : forall n, malloc_ok n = true).
Context (junk : Z -> list Z) (junk_length : forall n, 0 <= n -> len (junk n) = n).
Context {Session CB U R X A : Type}.
Context `{HL : LibC, HF : Codecs, HU : EqDecision U, HC : Callbacks Session CB U (world_t Session X A)}.
Context `{HG : Registry Session R (world_t Session X A), HP : ManagementPointers CB U R}.
Abbreviation context := (lwm2m_context_t Session CB U (world_t Session X A)).
Implicit Types (c : context).

(** The bytes of the data of an operation. *)
Definition data_ok (buffer_ : option (list Z)) (n block : Z) : Prop :=
  match buffer_ with Some b => 0 <= n <= len b /\ n <= block | None => True end.

(** The message of an operation: that of [transaction_new], with its content. *)
Section message.
Context (method mid_ : Z) (u : lwm2m_uri_t) (tok t8 o0 : list Z).
Let m := request_message method mid_ u tok t8 o0.
Context (Hu : is_uri u) (Hobj : objectId u <> LWM2M_MAX_ID) (Htok : 0 < len tok <= 8) (Hme : 1 <= method <= 4).
Context (Hmid : 0 <= mid_ < 65536) (Hw : packet_wf m) (Ho : forall x, 0 <= x < 40 -> IS_OPTION m x = (x =? 19) || (x =? 11)).

(** What is needed of a message to send it. *)
Definition sendable (p : coap_packet_t) : Prop :=
  msg_ok p /\ 0 < coap_serialize_get_size p <= 1100 /\ max_age p < 2 ^ 24 /\ p_size p < 2 ^ 24 /\ code p = method /\
  IS_OPTION p COAP_OPTION_PROXY_URI = false /\ field p 11 = map dec (uri_ids u).

Lemma plain_sendable : sendable m.
Proof.
  split; [by apply request_ok|]. pose proof (request_size method mid_ u tok t8 o0 Hu Htok Ho). fold m in H.
  split; [lia|]. do 3 (split; [done|]). split; [by rewrite Ho|]. apply request_path. by rewrite Ho.
Qed.

Lemma marked_sendable n a f b l o opt :
  length o = 5%nat -> bytes o -> opt = 12 \/ opt = 17 ->
  (forall x, 0 <= x < 40 -> IS_OPTION (m <| p_options := o |>) x = (x =? opt) || IS_OPTION m x) ->
  length a = 2%nat -> Forall (fun v => 0 <= v < 2 ^ 16) a -> 0 <= n <= 2 -> 0 <= f < 2 ^ 16 -> l <= 1024 ->
  match b with Some d => 0 <= l <= len d | None => l = 0 end ->
  sendable (marked m n a f b l o).
Proof.
  intros Hl Hb Hopt Hx Ha Hav Hn Hf Hl2 Hp. pose proof plain_sendable as (Hm & Hsize & _ & _ & _ & _ & Hpath).
  assert (forall x, 0 <= x < 40 -> IS_OPTION (marked m n a f b l o) x = (x =? opt) || ((x =? 19) || (x =? 11))) as Hx2.
  { intros x Hx0. rewrite <- (Ho x) by done. exact (Hx x Hx0). }
  split; [by eapply marked_ok|]. split.
  - pose proof (request_size method mid_ u tok t8 o0 Hu Htok Ho) as Hs. fold m in Hs.
    rewrite get_size_eq in *. unfold sum_room, numbers in *. cbn [foldr] in *.
    rewrite !Ho in Hs by done. rewrite !Hx2 by done. cbn -[Z.add multi_size] in Hs.
    change (token_len (marked m n a f b l o)) with (len tok). change (token_len m) with (len tok) in Hs.
    change (payload_len (marked m n a f b l o)) with l.
    assert (0 <= l) by (destruct b; lia).
    assert (0 <= (if l =? 0 then 0 else 1) <= 1) as Hm1 by (by destruct (l =? 0)). revert Hm1. generalize (if l =? 0 then 0 else 1). intros k Hk.
    destruct Hopt as [-> | ->]; cbn -[Z.add multi_size Z.mul]; clear - Hs H Hk Hn Hl2; lia.
  - do 3 (split; [done|]). split; [rewrite Hx2 by done; by destruct Hopt as [-> | ->]|].
    rewrite <- Hpath. unfold field. rewrite Hx2, Ho by done. cbn -[Z.eqb]. by rewrite orb_true_r.
Qed.
End message.

(** The content is put in a message [m] that has none. *)
Lemma operation_message_marked c method format buffer_ n (t : lwm2m_transaction_t Session CB U) m (P : coap_packet_t -> Prop) :
  message t = m -> packet_wf m -> (forall x, 0 <= x < 40 -> IS_OPTION m x = (x =? 19) || (x =? 11)) ->
  0 <= format < 2 ^ 16 -> 0 <= coap_block_size (rest c) <= 1024 -> data_ok buffer_ n (coap_block_size (rest c)) ->
  accept_num m = 0 -> accept m = [0; 0] -> content_type m = 0 -> payload m = None -> payload_len m = 0 -> P m ->
  (forall n a f b l o opt, length o = 5%nat -> bytes o -> opt = 12 \/ opt = 17 ->
     (forall x, 0 <= x < 40 -> IS_OPTION (m <| p_options := o |>) x = (x =? opt) || IS_OPTION m x) ->
     length a = 2%nat -> Forall (fun v => 0 <= v < 2 ^ 16) a -> 0 <= n <= 2 -> 0 <= f < 2 ^ 16 -> l <= 1024 ->
     match b with Some d => 0 <= l <= len d | None => l = 0 end -> P (marked m n a f b l o)) ->
  exists p l d, operation_message c method format buffer_ n t =
      Some (Some (t <| transac_payload := l |> <| transac_payload_len := d |> <| message := p |>)) /\
    P p /\ content p = content_of method format buffer_ n.
Proof.
  intros Em Hw Ho Hf Hbs Hd E1 E2 E3 E4 E5 Hplain Hmarked. unfold operation_message, content_of. rewrite Em.
  destruct (method =? COAP_GET) eqn:Eg.
  - unfold coap_set_header_accept. rewrite E1, E2. change (0 <? COAP_MAX_ACCEPT_NUM) with true. cbn match.
    change (wr [0; 0] 0 format) with (Some [format; 0]). mstep.
    set (m1 := m <| accept := [format; 0] |> <| accept_num := 0 + 1 |>).
    assert (packet_wf m1) as Hw1 by (destruct Hw as (?&?&?&?&?&?); by split_and!).
    destruct (set_option_ok m1 COAP_OPTION_ACCEPT Hw1 ltac:(done)) as (o & -> & Hl & Hb & Hx). mstep.
    set (p := m1 <| p_options := o |>).
    assert (p = marked m 1 [format; 0] 0 None 0 o) as Ep by (clear - E3 E4 E5; unfold p, m1, marked; destruct m; cbn in *; by subst).
    exists p, (transac_payload t), (transac_payload_len t). split; [done|]. split.
    + rewrite Ep. apply (Hmarked 1 [format; 0] 0 None 0 o 17); try done; [by right|].
      apply list.Forall_cons_2; [done|]. by apply list.Forall_cons_2; [|apply list.Forall_nil_2].
    + unfold content, field. subst p. rewrite Hx by done.
      change (Accepted (be_val (int_bytes format)) = Accepted format). by rewrite int_bytes_val by lia.
  - destruct buffer_ as [b|].
    + destruct Hd as [Hn Hn2]. unfold coap_set_header_content_type. set (m1 := m <| content_type := format |>).
      assert (packet_wf m1) as Hw1 by exact Hw.
      destruct (set_option_ok m1 COAP_OPTION_CONTENT_TYPE Hw1 ltac:(done)) as (o & -> & Hl & Hb & Hx). mstep.
      unfold transaction_set_payload, lwm2m_get_coap_block_size. rewrite malloc_never_fails. cbn [negb].
      unfold rd_bytes. guards. mstep. unfold coap_set_payload. rewrite (Z.min_l n) by lia. rewrite wrap_small by lia.
      set (p := m1 <| p_options := o |> <| payload := Some b |> <| payload_len := n |>).
      assert (p = marked m 0 [0; 0] format (Some b) n o) as Ep by (clear - E1 E2; unfold p, m1, marked; destruct m; cbn in *; by subst).
      eexists p, _, _. split; [done|]. split.
      * rewrite Ep. apply (Hmarked 0 [0; 0] format (Some b) n o 12); try done; [by left| |lia].
        apply list.Forall_cons_2; [done|]. by apply list.Forall_cons_2; [|apply list.Forall_nil_2].
      * unfold content, field. change (IS_OPTION p) with (IS_OPTION (m1 <| p_options := o |>)).
        rewrite !Hx by done. change (IS_OPTION m1) with (IS_OPTION m). rewrite !Ho by done.
        change (Data (be_val (int_bytes format)) (take (Z.to_nat n) b) = Data format (take (Z.to_nat n) b)).
        by rewrite int_bytes_val by lia.
    + exists m, (transac_payload t), (transac_payload_len t). split; [destruct t; cbn in Em; by subst|]. split; [done|].
      unfold content, field. by rewrite !Ho.
Qed.

Lemma operation_message_ok c method format buffer_ n (t : lwm2m_transaction_t Session CB U) mid_ u tok t8 o0 :
  message t = request_message method mid_ u tok t8 o0 ->
  is_uri u -> objectId u <> LWM2M_MAX_ID -> 0 < len tok <= 8 -> 1 <= method <= 4 -> 0 <= mid_ < 65536 ->
  packet_wf (message t) ->
  (forall x, 0 <= x < 40 -> IS_OPTION (message t) x = (x =? 19) || (x =? 11)) ->
  0 <= format < 2 ^ 16 -> 0 <= coap_block_size (rest c) <= 1024 -> data_ok buffer_ n (coap_block_size (rest c)) ->
  exists p l d, operation_message c method format buffer_ n t =
      Some (Some (t <| transac_payload := l |> <| transac_payload_len := d |> <| message := p |>)) /\
    sendable method u p /\ content p = content_of method format buffer_ n.
Proof.
  intros Em Hu Hobj Htok Hme Hmid Hw Ho Hf Hbs Hd. rewrite Em in Hw, Ho.
  apply (operation_message_marked c method format buffer_ n t _ (sendable method u) Em Hw Ho Hf Hbs Hd); try done.
  - by apply plain_sendable.
  - by apply marked_sendable.
Qed.

(** ** The operation *)

(** The transaction of an operation, and its callback. *)
Definition waits_for (c : context) (cl : lwm2m_client_t Session R) u (cb : option R) (t : lwm2m_transaction_t Session CB U) : Prop :=
  mID t = nextMID c /\ peerH t = cl_session cl /\
  match cb with
  | Some r => callback t = Some result_callback /\ userData t = Some (dm_data (nextMID c) (mk_dm_data (internalID cl) u r))
  | None => callback t = None /\ userData t = None
  end.

(** C16. An operation that a server asks of a registered client sends one datagram,
    in which the client finds the method, the URI, and the format that is accepted
    or the data with its format; the transaction that waits for the answer has the
    callback of the application with the client and the URI.  [c] has no
    transaction under the next message identifier; data that needs more than one
    block is left to the block-wise transfer. *)
Theorem operation_delivered tv_sec c id cl u method format buffer_ n cb :
  list_strict (transactionList c) -> Forall (fun t => mID t <> nextMID c) (transactionList c) ->
  0 <= nextMID c < 65536 -> 0 <= tv_sec ->
  find_client c id = Some cl -> cl_altPath cl = None -> is_uri u -> objectId u <> LWM2M_MAX_ID ->
  1 <= method <= 4 -> 0 <= format < 2 ^ 16 -> 0 <= coap_block_size (rest c) <= 1024 ->
  data_ok buffer_ n (coap_block_size (rest c)) ->
  exists c' m t, prv_makeOperation junk tv_sec c id u method format buffer_ n cb = Some (0, c') /\
    sent c' = sent c ++ [(cl_session cl, message_bytes m)] /\ rest c' = rest c /\ nextMID c' = u16 (nextMID c + 1) /\
    transactionList c' ≡ₚ t :: transactionList c /\ waits_for c cl u cb t /\
    exists r, coap_parse_message (message_bytes m) (len (message_bytes m)) = Some r /\ status r = NO_ERROR /\
      code (packet r) = method /\ target (packet r) = Some (LWM2M_REQUEST_TYPE_DM, uri_of (uri_ids u)) /\
      content (packet r) = content_of method format buffer_ n.
Proof.
  intros Hs Hfresh Hmid Htv Hcl Halt Hu Hobj Hme Hf Hbs Hd. unfold prv_makeOperation, new_operation. rewrite Hcl, Halt, new_generated.
  destruct (@new_ok HM malloc_never_fails junk junk_length Session CB U tv_sec [] (cl_session cl) method (nextMID c) u
    (temp_token tv_sec (nextMID c)) Hu Hobj ltac:(done)) as (t8 & o & Hnew & Hw & _ & Ho).
  change (len (temp_token tv_sec (nextMID c))) with 4 in Hnew. rewrite Hnew. mstep.
  set (c1 := c <| nextMID := _ |>). set (t0 := mk_transaction _ _ _ _ _ _ _ _ _ _ _ _).
  destruct (operation_message_ok c1 method format buffer_ n t0 (nextMID c) u (temp_token tv_sec (nextMID c)) t8 o)
    as (p & l & d & -> & Hp & Hc); try done. mstep.
  set (t1 := t0 <| transac_payload := l |> <| transac_payload_len := d |> <| message := p |>).
  assert (exists t2, attach cl u cb t1 = Some t2 /\ waits_for c cl u cb t2 /\ message t2 = p /\ ack_received t2 = false /\
    retrans_counter t2 = 0 /\ buffer t2 = None) as (t2 & -> & Ht2 & Em & Ea & Er & Eb).
  { unfold attach. destruct cb as [r|]; [rewrite malloc_never_fails|]; eexists; split; try done; by split_and!. }
  destruct Ht2 as (Hm2 & Hp2 & Hcb2). unfold add_and_send.
  destruct (add_split t2 (transactionList c1) Hs) as (l1 & l2 & El & El2 & Hs2).
  { change (node_id t2) with (mID t2). by rewrite Hm2. }
  destruct Hp as (Hok & Hsize & Hage & Hps & Hcode & Hproxy & Hpath).
  destruct (first_send malloc_never_fails junk junk_length (c1 <| transactionList := lwm2m_list_add (transactionList c1) t2 [] |>) l1 t2 l2 tv_sec)
    as (c' & t' & H1 & H2 & H3 & _ & _ & H4 & H5 & H6 & _ & _ & _ & _ & H7 & H8 & H9);
    try (rewrite ?Em; done || lia); [by unfold id_ok; rewrite Hm2|].
  destruct (message_parsed p malloc_never_fails Hok Hproxy) as (r & Hr & Hb); [left; lia|].
  exists c', p, t'. rewrite Em, Hp2 in *. split; [exact H1|]. split; [exact H3|]. split; [exact H9|]. split; [exact H8|]. split.
  - rewrite H2. change (transactionList c) with (transactionList c1). rewrite El2. symmetry. apply Permutation_middle.
  - split; [split; [congruence|]; split; [congruence|]; destruct cb; destruct Hcb2; split; congruence|].
    exists r. split; [exact Hr|]. split; [apply Hb|]. split; [by destruct Hb as (_ & _ & -> & _)|].
    split; [by eapply target_read_back|]. by rewrite (content_read_back p).
Qed.
End delivery.
(** ** An example *)

#[local] Instance sessions : Sessions Z := Z.eqb.
#[local] Instance memory_left : Malloc := malloc_always.
#[local] Instance pointers : ManagementPointers unit (Z * dm_data_t unit) unit :=
  {| result_callback := tt; dm_data a d := (a, d); data_of u := Some u |}.
#[local] Instance quiet : Callbacks Z unit (Z * dm_data_t unit) (world_t Z unit (registry_t Z unit)) := fun _ c _ _ => c.

(** A server with one client, which gave no alternative path. *)
Definition known_client : lwm2m_client_t Z unit :=
  mk_server_client 1 (Some (str "b" ++ [0])) VERSION_1_1 BINDING_U None None LWM2M_CONTENT_TLV 60 200 8 [] [] 0 [].
Definition server : lwm2m_context_t Z unit (Z * dm_data_t unit) (world_t Z unit (registry_t Z unit)) :=
  mk_context [] 7 [] [] (mk_world 1024 [] None [] [] (mk_registry [known_client] None None)).

Lemma operation_delivered_witness :
  let u := mk_uri 3 0 15 65535 in
  exists c' m r, prv_makeOperation blank 50 server 1 u COAP_PUT LWM2M_CONTENT_TEXT (Some (str "UTC+1")) 5 (Some tt) = Some (0, c') /\
    sent c' = [(8, message_bytes m)] /\ coap_parse_message (message_bytes m) (len (message_bytes m)) = Some r /\
    target (packet r) = Some (LWM2M_REQUEST_TYPE_DM, u) /\ content (packet r) = Data LWM2M_CONTENT_TEXT (str "UTC+1").
Proof.
  intros u.
  destruct (operation_delivered (fun _ => eq_refl) blank ltac:(intros n Hn; unfold blank; rewrite length_replicate; lia)
    50 server 1 known_client u COAP_PUT LWM2M_CONTENT_TEXT (Some (str "UTC+1")) 5 (Some tt))
    as (c' & m & t & H1 & H2 & _ & _ & _ & _ & r & H3 & _ & _ & H4 & H5);
    [constructor|constructor|done|done|done|done|by split_and!|done|done|done|done|by split|].
  exists c', m, r. split; [exact H1|]. split; [exact H2|]. split; [exact H3|]. split; [exact H4|]. exact H5.
Defined.
End Delivery.
