(* ===== verification/ServerObserve.v ===== *)
(** * The observations of a server (core/observe.c, server part)

    A server asks a client to notify it of the value of a resource, is notified,
    and stops.

    A pointer to an observation is its client and its identifier in the list of
    the client; reading one that is no longer there is undefined.  The user data of
    the transactions is an [observation_data_t] or a [cancellation_data_t], whose
    address is the message identifier of the first transaction that carries it.
    A result callback of the application may be a null pointer, [None], whose call
    is undefined. *)
From S2P Require Import Prelude.
From S2P Require Import Types.
From S2P Require Import SortedList.
From S2P Require Import Utils.
From S2P Require Import Uri.
From S2P Require Import CoapPacket.
From S2P Require Import CoapMessage.
From S2P Require Import CoapOptions.
From S2P Require Import CoapSerialize.
From S2P Require Import Transaction.
From S2P Require Import Packet.
From S2P Require Import Client.
From S2P Require Import Clients.
From S2P Require Import ServerRegistry.
Import SortedList Utils Uri CoapPacket CoapMessage CoapOptions CoapSerialize Transaction Packet Client Clients ServerRegistry.

Module ServerObserve.

Record observation_data_t (R : Type) := mk_observation_data {
  od_id : Z;
  od_client : Z;
  od_uri : lwm2m_uri_t;
  od_callback : option R }.
Arguments mk_observation_data {R}.
Arguments od_id {R}.
Arguments od_client {R}.
Arguments od_uri {R}.
Arguments od_callback {R}.

Record cancellation_data_t (R : Type) := mk_cancellation_data {
  cd_client : Z;
  cd_uri : lwm2m_uri_t;
  cd_callback : option R }.
Arguments mk_cancellation_data {R}.
Arguments cd_client {R}.
Arguments cd_uri {R}.
Arguments cd_callback {R}.

#[export] Instance observation_data_eq_dec {R} `{EqDecision R} : EqDecision (observation_data_t R).
Proof. solve_decision. Defined.
#[export] Instance cancellation_data_eq_dec {R} `{EqDecision R} : EqDecision (cancellation_data_t R).
Proof. solve_decision. Defined.

(** The addresses of the callbacks, and user data at an address. *)
Class ObservePointers (CB U R : Type) := {
  obs_request_callback : CB;
  obs_cancel_callback : CB;
  observation_data : Z -> observation_data_t R -> U;
  cancellation_data : Z -> cancellation_data_t R -> U;
  observation_data_of : U -> option (observation_data_t R);
  cancellation_data_of : U -> option (cancellation_data_t R) }.

Definition SIZEOF_OBSERVATION : Z := 56.
Definition SIZEOF_OBSERVATION_DATA : Z := 40.
Definition SIZEOF_CANCELLATION_DATA : Z := 40.

Section observe.
Context {Session CB U R W : Type}.
Context `{HM : Malloc, HU : EqDecision U, HC : Callbacks Session CB U W, HG : Registry Session R W}.
Context `{HR : ResultCallbacks R (lwm2m_context_t Session CB U W), HP : ObservePointers CB U R}.
Context (junk : Z -> list Z) (lwm2m_buffer_send : Session -> list Z -> Z).
Abbreviation context := (lwm2m_context_t Session CB U W).
Abbreviation transaction := (lwm2m_transaction_t Session CB U).
Abbreviation client := (lwm2m_client_t Session R).
Abbreviation observation := (lwm2m_observation_t R).

Definition same_uri (u v : lwm2m_uri_t) : bool :=
  (objectId u =? objectId v) && (instanceId u =? instanceId v) && (resourceId u =? resourceId v) &&
  (resourceInstanceId u =? resourceInstanceId v).

Fixpoint find_by_uri (l : list observation) (uriP : lwm2m_uri_t) : option observation :=
  match l with
  | [] => None
  | o :: l => if same_uri (obs_uri o) uriP then Some o else find_by_uri l uriP
  end.

Definition prv_findObservationByURI (clientP : client) (uriP : lwm2m_uri_t) : option observation :=
  find_by_uri (observationList clientP) uriP.

(** Writing the status of an observation. *)
Definition set_obs_status (contextP : context) (clientID id : Z) (status : lwm2m_status_t) : C context :=
  upd_client contextP clientID (fun c =>
    c <| observationList := map (fun o => if obs_id o =? id then o <| obs_status := status |> else o) (observationList c) |>).

(** ** Replies *)

(** The call of a callback that is not tested. *)
Definition notify (contextP : context) (r : option R) (clientID : Z) (uri : lwm2m_uri_t) (status : Z)
    (block : option block_info_t) (format : Z) (data : option (list Z)) (length : Z) : C context :=
  r ← r; ret (run_result r contextP clientID (Some uri) status block format data length).

(** The call with a status only. *)
Definition notify_status (contextP : context) (r : option R) (clientID : Z) (uri : lwm2m_uri_t) (status : Z) : C context :=
  notify contextP r clientID uri status None LWM2M_CONTENT_TEXT None 0.

(** The call with the content of a message. *)
Definition notify_content (contextP : context) (r : option R) (clientID : Z) (uri : lwm2m_uri_t) (status : Z)
    (block : option block_info_t) (m : coap_packet_t) : C context :=
  notify contextP r clientID uri status block (utils_convertMediaType (content_type m)) (payload m) (payload_len m).

(** What the reply to an Observe request comes to. *)
Definition request_code (observationP : option observation) (m : option coap_packet_t) : Z :=
  if match observationP with Some o => bool_decide (obs_status o = STATE_DEREG_PENDING) | None => false end then
    COAP_400_BAD_REQUEST
  else
    match m with
    | None => COAP_503_SERVICE_UNAVAILABLE
    | Some packet =>
        if (code packet =? COAP_205_CONTENT) && negb (IS_OPTION packet COAP_OPTION_OBSERVE) then COAP_405_METHOD_NOT_ALLOWED
        else code packet
    end.

(** The observation is entered in the list, in place of the previous one of the
    URI; [None] in the result when there is no memory. *)
Definition enter_observation (contextP : context) (d : observation_data_t R) (observationP : option observation)
    : C (option context) :=
  let enter contextP :=
    upd_client contextP (od_client d) (fun c =>
      c <| observationList := lwm2m_list_add (observationList c)
             (mk_observation (od_id d) (od_client d) (od_uri d) STATE_REGISTERED (od_callback d)) [] |>) in
  match observationP with
  | None => if malloc_ok SIZEOF_OBSERVATION then contextP ← enter contextP; ret (Some contextP) else ret None
  | Some o =>
      contextP ← observe_remove contextP o;
      contextP ← notify_status contextP (od_callback d) (od_client d) (od_uri d) COAP_202_DELETED;
      contextP ← enter contextP; ret (Some contextP)
  end.

Definition prv_obsRequestCallback (contextP : context) (transacP : transaction) (m : option coap_packet_t) : C context :=
  u ← userData transacP;
  d ← observation_data_of u;
  let done_ contextP := ret (free_userData contextP transacP) in
  match find_client contextP (od_client d) with
  | None =>
      contextP ← notify_status contextP (od_callback d) (od_client d) (od_uri d) COAP_500_INTERNAL_SERVER_ERROR;
      done_ contextP
  | Some clientP =>
      let observationP := prv_findObservationByURI clientP (od_uri d) in
      let code_ := request_code observationP m in
      if negb (code_ =? COAP_205_CONTENT) then
        contextP ← notify_status contextP (od_callback d) (od_client d) (od_uri d) code_; done_ contextP
      else
        packet ← m;
        if IS_OPTION packet COAP_OPTION_BLOCK2 && negb (CoapPacket.block_more (block2 packet) =? 0) then
          contextP ← notify_content contextP (od_callback d) (od_client d) (od_uri d) code_ None packet; done_ contextP
        else
          r ← enter_observation contextP d observationP;
          match r with
          | None => done_ contextP
          | Some contextP =>
              contextP ← notify_content contextP (od_callback d) (od_client d) (od_uri d) COAP_NO_ERROR (block_info packet) packet;
              done_ contextP
          end
  end.

(** The last block of a transfer, or a message that is not part of one. *)
Definition is_last (block : option block_info_t) : bool :=
  match block with Some b => bi_more b =? 0 | None => true end.

Definition prv_obsCancelRequestCallback (contextP : context) (transacP : transaction) (m : option coap_packet_t) : C context :=
  u ← userData transacP;
  d ← cancellation_data_of u;
  let done_ contextP := ret (free_userData contextP transacP) in
  match find_client contextP (cd_client d) with
  | None =>
      contextP ← notify_status contextP (cd_callback d) (cd_client d) (cd_uri d) COAP_500_INTERNAL_SERVER_ERROR;
      done_ contextP
  | Some clientP =>
      let observationP := prv_findObservationByURI clientP (cd_uri d) in
      let code_ := match m with None => COAP_503_SERVICE_UNAVAILABLE | Some packet => code packet end in
      if negb (code_ =? COAP_205_CONTENT) then
        contextP ← notify_status contextP (cd_callback d) (cd_client d) (cd_uri d) code_; done_ contextP
      else
        packet ← m;
        contextP ← notify_content contextP (cd_callback d) (cd_client d) (cd_uri d) COAP_NO_ERROR (block_info packet) packet;
        contextP ← (if is_last (block_info packet) then
                      o ← observationP;
                      o ← find_observation contextP (cd_client d) (obs_id o);
                      observe_remove contextP o
                    else ret contextP);
        done_ contextP
  end.

(** ** Requests *)

(** The token of an observation: the identifiers of the client and its own. *)
Definition observation_token (clientID id : Z) : list Z :=
  [u8 (Z.shiftr clientID 8); Z.land clientID 0xFF; u8 (Z.shiftr id 8); Z.land id 0xFF].

(** A GET with that token. *)
Definition new_observe (tv_sec : Z) (contextP : context) (clientP : client) (uriP : lwm2m_uri_t) (id : Z)
    : C (option transaction * context) :=
  t ← transaction_new junk tv_sec [] (Some (cl_session clientP)) COAP_GET (cl_altPath clientP) (Some uriP) (nextMID contextP) 4
        (Some (observation_token (internalID clientP) id));
  ret (t, contextP <| nextMID := u16 (nextMID contextP + 1) |>).

(** [transaction_send] may have freed the user data that is freed after a failure. *)
Definition prv_lwm2m_observe (tv_sec : Z) (contextP : context) (clientID : Z) (uriP : lwm2m_uri_t) (callback_ : option R)
    : C (Z * context) :=
  if negb (LWM2M_URI_IS_SET_INSTANCE uriP) && LWM2M_URI_IS_SET_RESOURCE uriP then ret (COAP_400_BAD_REQUEST, contextP)
  else
    match find_client contextP clientID with
    | None => ret (COAP_404_NOT_FOUND, contextP)
    | Some clientP =>
        let observationP := prv_findObservationByURI clientP uriP in
        if negb (malloc_ok SIZEOF_OBSERVATION_DATA) then ret (COAP_500_INTERNAL_SERVER_ERROR, contextP)
        else
          let id := u16 (observationId clientP + 1) in
          contextP ← upd_client contextP clientID (fun c => c <| observationId := id |>);
          if (if lwm2m_list_find (observationList clientP) id is Some _ then true else false) then
            ret (COAP_500_INTERNAL_SERVER_ERROR, contextP)
          else
            '(t, contextP) ← new_observe tv_sec contextP clientP uriP id;
            match t with
            | None => ret (COAP_500_INTERNAL_SERVER_ERROR, contextP)
            | Some t =>
                '(_, m) ← coap_set_header_observe (message t) 0;
                '(_, m) ← coap_set_header_accept m (cl_format clientP);
                let t := t <| message := m |> <| callback := Some obs_request_callback |>
                           <| userData := Some (observation_data (mID t) (mk_observation_data id (internalID clientP) uriP callback_)) |> in
                let contextP := contextP <| transactionList := lwm2m_list_add (transactionList contextP) t [] |> in
                contextP ← (match observationP with
                            | Some o => set_obs_status contextP clientID (obs_id o) STATE_REG_PENDING
                            | None => ret contextP
                            end);
                transaction_send junk tv_sec contextP (mID t)
            end
    end.

Definition lwm2m_observe := prv_lwm2m_observe.

(** The request to stop an observation. *)
Definition send_cancel (tv_sec : Z) (contextP : context) (clientP : client) (observationP : observation) (uriP : lwm2m_uri_t)
    (callback_ : option R) : C (Z * context) :=
  '(t, contextP) ← new_observe tv_sec contextP clientP uriP (obs_id observationP);
  match t with
  | None => ret (COAP_500_INTERNAL_SERVER_ERROR, contextP)
  | Some t =>
      if negb (malloc_ok SIZEOF_CANCELLATION_DATA) then ret (COAP_500_INTERNAL_SERVER_ERROR, contextP)
      else
        '(_, m) ← coap_set_header_observe (message t) 1;
        let t := t <| message := m |> <| callback := Some obs_cancel_callback |>
                   <| userData := Some (cancellation_data (mID t) (mk_cancellation_data (internalID clientP) uriP callback_)) |> in
        let contextP := contextP <| transactionList := lwm2m_list_add (transactionList contextP) t [] |> in
        contextP ← set_obs_status contextP (internalID clientP) (obs_id observationP) STATE_DEREG_PENDING;
        transaction_send junk tv_sec contextP (mID t)
  end.

Definition prv_lwm2m_observe_cancel (tv_sec : Z) (contextP : context) (clientID : Z) (uriP : lwm2m_uri_t) (callback_ : option R)
    : C (Z * context) :=
  match find_client contextP clientID with
  | None => ret (COAP_404_NOT_FOUND, contextP)
  | Some clientP =>
      match prv_findObservationByURI clientP uriP with
      | None => ret (COAP_404_NOT_FOUND, contextP)
      | Some o =>
          match obs_status o with
          | STATE_REGISTERED => send_cancel tv_sec contextP clientP o uriP callback_
          | STATE_REG_PENDING => contextP ← observe_remove contextP o; ret (COAP_204_CHANGED, contextP)
          | _ => contextP ← observe_remove contextP o; ret (COAP_IGNORE, contextP)
          end
      end
  end.

Definition lwm2m_observe_cancel := prv_lwm2m_observe_cancel.

(** ** Notifications *)

(** Whether the message is a notification, the context and the response. *)
Definition observe_handleNotify (contextP : context) (fromSessionH : Session) (m response : coap_packet_t)
    : C (bool * context * coap_packet_t) :=
  let '(n, tokenP) := coap_get_header_token m in
  if negb (n =? 4) then ret (false, contextP, response)
  else
    match coap_get_header_observe m with
    | (_, None) => ret (false, contextP, response)
    | (_, Some count) =>
        tokenP ← tokenP;
        t0 ← rd tokenP 0; t1 ← rd tokenP 1; t2 ← rd tokenP 2; t3 ← rd tokenP 3;
        let clientID := Z.lor (Z.shiftl t0 8) t1 in
        let obsID := Z.lor (Z.shiftl t2 8) t3 in
        match find_client contextP clientID with
        | None => ret (false, contextP, response)
        | Some clientP =>
            match lwm2m_list_find (observationList clientP) obsID with
            | None =>
                let response := coap_init_message COAP_TYPE_RST 0 (mid m) in
                '(_, contextP) ← message_send junk lwm2m_buffer_send contextP response fromSessionH;
                ret (true, contextP, response)
            | Some o =>
                '(contextP, response) ←
                  (if bool_decide (p_type m = COAP_TYPE_CON) then
                     let response := coap_init_message COAP_TYPE_ACK 0 (mid m) in
                     '(_, contextP) ← message_send junk lwm2m_buffer_send contextP response fromSessionH;
                     ret (contextP, response)
                   else ret (contextP, response));
                contextP ← notify_content contextP (obs_callback o) clientID (obs_uri o) (s32 count) (block_info m) m;
                ret (true, contextP, response)
            end
        end
    end.
End observe.

(** ** The invariant *)

Section invariant.
Context {Session CB U R W : Type}.
Context `{HM : Malloc, HU : EqDecision U, HC : Callbacks Session CB U W, HG : Registry Session R W}.
Context `{HR : ResultCallbacks R (lwm2m_context_t Session CB U W), HP : ObservePointers CB U R}.
Context (junk : Z -> list Z) (lwm2m_buffer_send : Session -> list Z -> Z).
Abbreviation context := (lwm2m_context_t Session CB U W).
Abbreviation client := (lwm2m_client_t Session R).
Abbreviation observation := (lwm2m_observation_t R).
Implicit Types (c : context) (cl : client).

(** The application does not change the clients in its callbacks; nor do the
    callbacks of transactions that have failed. *)
Context (quiet : forall r c id u s b f d n, clients (run_result r c id u s b f d n) = clients c).
Context (quiet_failure : forall f c t, clients (run_callback f c t None) = clients c).

(** The clients are well formed, and a client has one observation of a URI. *)
Definition watched_once cl : Prop := NoDup (map obs_uri (observationList cl)).
Definition observing_ok (l : list client) : Prop := registry_ok l /\ Forall watched_once l.

Lemma same_uri_eq u v : same_uri u v = true <-> u = v.
Proof.
  unfold same_uri. rewrite !andb_true_iff, !Z.eqb_eq. split; [|by intros ->].
  destruct u, v; cbn; by intros [[[-> ->] ->] ->].
Qed.

Lemma upd_first_Some (l : list client) id f l' :
  upd_first l id f = Some l' -> exists l1 cl l2, l = l1 ++ cl :: l2 /\ internalID cl = id /\ l' = l1 ++ f cl :: l2.
Proof.
  revert l'. induction l as [|x l IH]; intros l' H; [discriminate H|]. cbn in H. destruct (Z.eqb_spec (internalID x) id) as [Hx|Hx].
  - injection H as <-. by exists [], x, l.
  - apply fmap_Some in H as (l3 & H & ->). destruct (IH _ H) as (l1 & cl & l2 & -> & Hid & ->). by exists (x :: l1), cl, l2.
Qed.

(** Writing the observations of a client. *)
Lemma upd_observing c id f c' :
  observing_ok (clients c) -> upd_client c id f = Some c' ->
  (forall cl, find_client c id = Some cl -> client_ok cl -> watched_once cl ->
     internalID (f cl) = internalID cl /\ cl_name (f cl) = cl_name cl /\ client_ok (f cl) /\ watched_once (f cl)) ->
  observing_ok (clients c').
Proof.
  intros [Hr Hw] Hu Hf. unfold upd_client in Hu. apply bind_Some in Hu as (l' & Hl & E). injection E as <-.
  rewrite clients_set. destruct (upd_first_Some _ _ _ _ Hl) as (l1 & cl & l2 & El & Hid & ->).
  assert (find_client c id = Some cl) as Hfind.
  { pose proof (ok_strict _ Hr) as Hs. unfold find_client. rewrite El, <- Hid in *. exact (find_middle l1 cl l2 Hs). }
  rewrite El in *. pose proof (ok_clients _ Hr) as Hc. rewrite list.Forall_app, list.Forall_cons in Hc, Hw.
  destruct Hc as (Hc1 & Hc2 & Hc3), Hw as (Hw1 & Hw2 & Hw3).
  destruct (Hf cl Hfind Hc2 Hw2) as (F1 & F2 & F3 & F4). split.
  - apply (registry_replace l1 cl); [done|done|done|]. intros n Hn. left. unfold name_of in *. by rewrite <- F2.
  - rewrite list.Forall_app, list.Forall_cons. done.
Qed.

(** ** The operations *)

Lemma transaction_send_clients tv c id r c' : transaction_send junk tv c id = Some (r, c') -> clients c' = clients c.
Proof.
  assert (forall c t c', finish c t None = Some c' -> clients c' = clients c) as Hfin.
  { intros c0 t c0' H. unfold finish in H. apply bind_Some in H as (t' & _ & H). injection H as <-.
    unfold transaction_remove. change (clients (call c0 t None) = clients c0). unfold call.
    destruct (callback t); [|done]. by rewrite quiet_failure. }
  intros H. unfold transaction_send in H. apply bind_Some in H as (t & _ & H). apply bind_Some in H as (p & _ & H).
  destruct p as [t1|]; [|by injection H as _ <-]. destruct (negb _).
  - apply bind_Some in H as ([[t2 timeout] m] & _ & H). apply bind_Some in H as ([[c2 t3] m2] & H2 & H).
    assert (clients c2 = clients c) as E.
    { destruct (_ <=? _); [|by injection H2 as <- _ _]. apply bind_Some in H2 as (b & _ & H2).
      apply bind_Some in H2 as (d & _ & H2). by injection H2 as <- _ _. }
    destruct m2; [|by injection H as _ <-]. apply bind_Some in H as (c3 & H3 & H). injection H as _ <-.
    by rewrite (Hfin _ _ _ H3).
  - apply bind_Some in H as (c3 & H3 & H). injection H as _ <-. by rewrite (Hfin _ _ _ H3).
Qed.

Lemma notify_clients c r id u s b f d n c' : notify c r id u s b f d n = Some c' -> clients c' = clients c.
Proof. intros H. unfold notify in H. apply bind_Some in H as (x & _ & H). injection H as <-. apply quiet. Qed.

Lemma free_clients c t : clients (free_userData c t) = clients c.
Proof. done. Qed.
Lemma find_client_ok c id cl : observing_ok (clients c) -> find_client c id = Some cl ->
  internalID cl = id /\ client_ok cl /\ watched_once cl.
Proof.
  intros [Hr Hw] Hf. destruct (find_client_split c id cl (ok_strict _ Hr) Hf) as (Hid & l1 & l2 & El). split; [done|].
  pose proof (ok_clients _ Hr) as Hc. rewrite El, list.Forall_app, list.Forall_cons in Hc, Hw. split; [apply Hc|apply Hw].
Qed.

Lemma by_uri_elem (l : list observation) u o : find_by_uri l u = Some o -> o ∈ l /\ obs_uri o = u.
Proof.
  induction l as [|x l IH]; [done|]. cbn. destruct (same_uri _ _) eqn:E.
  - intros [= ->]. split; [by left|by apply same_uri_eq].
  - intros H. destruct (IH H). split; [by right|done].
Qed.
Lemma by_uri_none (l : list observation) u : find_by_uri l u = None -> u ∉ map obs_uri l.
Proof.
  induction l as [|x l IH]; cbn; [intros _ H; by inversion H|]. destruct (same_uri _ _) eqn:E; [done|].
  intros H. apply list.not_elem_of_cons. split; [|by apply IH]. intros ->. by rewrite (proj2 (same_uri_eq _ _) eq_refl) in E.
Qed.

Lemma kept_elem (l l1 l2 : list observation) o o' : l = l1 ++ o :: l2 -> o' ∈ l1 ++ l2 -> o' ∈ l.
Proof. intros ->. rewrite !list.elem_of_app, list.elem_of_cons. tauto. Qed.

(** An observation without its entry in the list. *)
Lemma observe_remove_ok c id cl o c' :
  observing_ok (clients c) -> find_client c id = Some cl -> o ∈ observationList cl -> observe_remove c o = Some c' ->
  observing_ok (clients c') /\ exists l1 l2, observationList cl = l1 ++ o :: l2 /\
    find_client c' id = Some (with_observations cl (l1 ++ l2)).
Proof.
  intros Hok Hf Ho Hu. destruct (find_client_ok c id cl Hok Hf) as (Hid & Hcl & Hw).
  assert (obs_client o = id) as Hoc.
  { pose proof (ok_owner _ Hcl) as H. rewrite list.Forall_forall in H. by rewrite (H o Ho). }
  apply list_elem_of_split in Ho as (l1 & l2 & El). unfold observe_remove in Hu. rewrite Hoc in Hu.
  set (f := fun c0 : client => _) in Hu.
  assert (f cl = with_observations cl (l1 ++ l2)) as Ef.
  { unfold f, with_observations. pose proof (ok_observations _ Hcl) as Hs. rewrite El in *.
    pose proof (remove_middle l1 o l2 Hs) as E. change (node_id o) with (obs_id o) in E. by rewrite E. }
  assert (client_ok (with_observations cl (l1 ++ l2)) /\ watched_once (with_observations cl (l1 ++ l2))) as [H1 H2].
  { destruct Hcl as [A1 A2 A3 A4]. rewrite El in A1, A2, A3, A4. unfold watched_once in *. rewrite El, map_app in Hw. cbn in Hw.
    rewrite list.Forall_app, list.Forall_cons in A2, A3, A4. split.
    - constructor; [exact (strict_delete_middle l1 o l2 A1)|..]; apply Forall_app_2; tauto.
    - cbn. rewrite map_app. rewrite <- Permutation_middle in Hw. by apply NoDup_cons in Hw as [_ ?]. }
  split.
  - apply (upd_observing c id f c' Hok Hu). intros cl0 Hf0 _ _. rewrite Hf in Hf0. injection Hf0 as <-. by rewrite Ef.
  - exists l1, l2. split; [done|]. rewrite (find_upd c id f c' id (ok_strict _ (proj1 Hok))) by done.
    by rewrite Z.eqb_refl, Hf, <- Ef.
Qed.

Lemma set_status_ok c id oid st c' : observing_ok (clients c) -> set_obs_status c id oid st = Some c' -> observing_ok (clients c').
Proof.
  intros Hok Hu. apply (upd_observing c id _ c' Hok Hu). intros cl _ [A1 A2 A3 A4] Hw. cbn.
  set (f := fun o : observation => _).
  assert (forall o, obs_id (f o) = obs_id o /\ obs_client (f o) = obs_client o /\ obs_uri (f o) = obs_uri o /\ obs_callback (f o) = obs_callback o) as Hf.
  { intros o. unfold f. by destruct (_ =? _). }
  split; [done|]. split; [done|]. split.
  - constructor; cbn; rewrite ?list.Forall_fmap.
    + apply strict_node_ids. apply strict_node_ids in A1. rewrite map_map. erewrite map_ext; [exact A1|]. intros o. apply Hf.
    + eapply list.Forall_impl; [exact A2|]. intros o. cbn. by rewrite (proj1 (proj2 (Hf o))).
    + eapply list.Forall_impl; [exact A3|]. intros o. cbn. by rewrite (proj1 (Hf o)).
    + eapply list.Forall_impl; [exact A4|]. intros o. cbn. by rewrite (proj2 (proj2 (proj2 (Hf o)))).
  - unfold watched_once in *. cbn. rewrite map_map. erewrite map_ext; [exact Hw|]. intros o. apply Hf.
Qed.

(** The identifier of a request is not that of an observation of another URI. *)
Definition free_id c (d : observation_data_t R) : Prop :=
  forall cl o, find_client c (od_client d) = Some cl -> o ∈ observationList cl -> obs_id o = od_id d -> obs_uri o = od_uri d.
Definition data_ok (d : observation_data_t R) : Prop := 0 <= od_id d < 65536 /\ is_Some (od_callback d).

(** A new observation is entered. *)
Lemma enter_ok c d cl c' :
  observing_ok (clients c) -> find_client c (od_client d) = Some cl -> data_ok d ->
  Forall (fun o => obs_id o <> od_id d) (observationList cl) -> od_uri d ∉ map obs_uri (observationList cl) ->
  upd_client c (od_client d) (fun cl => cl <| observationList := lwm2m_list_add (observationList cl)
    (mk_observation (od_id d) (od_client d) (od_uri d) STATE_REGISTERED (od_callback d)) [] |>) = Some c' ->
  observing_ok (clients c').
Proof.
  intros Hok Hf [Hid Hcb] Hn Hu Hupd. apply (upd_observing c (od_client d) _ c' Hok Hupd).
  intros cl0 Hf0 [A1 A2 A3 A4] Hw. rewrite Hf in Hf0. injection Hf0 as <-. cbn. split; [done|]. split; [done|].
  destruct (find_client_ok c _ cl Hok Hf) as (Hcid & _).
  set (o := mk_observation _ _ _ _ _). pose proof (add_perm (observationList cl) o [] (fun _ => eq_refl)) as Hp. split.
  - constructor; cbn [observationList internalID update]; [|rewrite Hp; by constructor..].
    destruct (add_split o (observationList cl) A1 Hn) as (l1 & l2 & -> & _ & H). exact H.
  - unfold watched_once in *. cbn [observationList update]. rewrite Hp. cbn. by apply NoDup_cons.
Qed.
Lemma notify_ok c r id u s b f d n c' : observing_ok (clients c) -> notify c r id u s b f d n = Some c' -> observing_ok (clients c').
Proof. intros Hok H. by rewrite (notify_clients _ _ _ _ _ _ _ _ _ _ H). Qed.

Lemma request_reply_ok c t m c' :
  observing_ok (clients c) -> (forall u d, userData t = Some u -> observation_data_of u = Some d -> data_ok d /\ free_id c d) ->
  prv_obsRequestCallback c t m = Some c' -> observing_ok (clients c').
Proof.
  intros Hok Hd H. unfold prv_obsRequestCallback in H. apply bind_Some in H as (u & Hu & H). apply bind_Some in H as (d & Hdu & H).
  destruct (Hd u d Hu Hdu) as [Hdok Hfree]. destruct (find_client c (od_client d)) as [cl|] eqn:Hf.
  2: { apply bind_Some in H as (c1 & H1 & H). injection H as <-. rewrite free_clients. by eapply notify_ok. }
  destruct (negb _).
  { apply bind_Some in H as (c1 & H1 & H). injection H as <-. rewrite free_clients. by eapply notify_ok. }
  apply bind_Some in H as (p & _ & H). destruct (_ && _).
  { apply bind_Some in H as (c1 & H1 & H). injection H as <-. rewrite free_clients. by eapply notify_ok. }
  apply bind_Some in H as (r & Hr & H). destruct r as [c1|]; [|injection H as <-; by rewrite free_clients].
  apply bind_Some in H as (c2 & H2 & H). injection H as <-. rewrite free_clients. apply (notify_ok _ _ _ _ _ _ _ _ _ _) in H2; [done|].
  clear H2. unfold enter_observation, prv_findObservationByURI in Hr. destruct (find_by_uri _ _) as [o|] eqn:Eo.
  - destruct (by_uri_elem _ _ _ Eo) as [Ho Huri]. apply bind_Some in Hr as (c3 & H3 & Hr).
    destruct (observe_remove_ok c _ cl o c3 Hok Hf Ho H3) as (Hok3 & l1 & l2 & El & Hf3).
    apply bind_Some in Hr as (c4 & H4 & Hr). apply bind_Some in Hr as (c5 & H5 & Hr). injection Hr as <-.
    pose proof (notify_clients _ _ _ _ _ _ _ _ _ _ H4) as E4. pose proof (notify_ok _ _ _ _ _ _ _ _ _ _ Hok3 H4) as Hok4.
    destruct (find_client_ok c _ cl Hok Hf) as (_ & _ & Hw). unfold watched_once in Hw. rewrite El, map_app in Hw. cbn in Hw.
    rewrite <- Permutation_middle in Hw. apply NoDup_cons in Hw as [Hw _].
    apply (enter_ok c4 d (with_observations cl (l1 ++ l2))); try done.
    + unfold find_client. by rewrite E4.
    + apply list.Forall_forall. intros o' Ho' E. cbn in Ho'. apply Hw. rewrite <- map_app, Huri.
      rewrite <- (Hfree cl o' Hf (kept_elem _ _ _ _ _ El Ho') E). by apply list_elem_of_fmap_2.
    + cbn. by rewrite map_app, <- Huri.
  - destruct (malloc_ok _); [|discriminate Hr]. apply bind_Some in Hr as (c5 & H5 & Hr). injection Hr as <-.
    apply by_uri_none in Eo. apply (enter_ok c d cl); try done.
    apply list.Forall_forall. intros o' Ho' E. apply Eo. rewrite <- (Hfree cl o' Hf Ho' E). by apply list_elem_of_fmap_2.
Qed.

Lemma cancel_reply_ok c t m c' : observing_ok (clients c) -> prv_obsCancelRequestCallback c t m = Some c' -> observing_ok (clients c').
Proof.
  intros Hok H. unfold prv_obsCancelRequestCallback in H. apply bind_Some in H as (u & _ & H). apply bind_Some in H as (d & _ & H).
  destruct (find_client c (cd_client d)) as [cl|] eqn:Hf.
  2: { apply bind_Some in H as (c1 & H1 & H). injection H as <-. rewrite free_clients. by eapply notify_ok. }
  destruct (negb _).
  { apply bind_Some in H as (c1 & H1 & H). injection H as <-. rewrite free_clients. by eapply notify_ok. }
  apply bind_Some in H as (p & _ & H). apply bind_Some in H as (c1 & H1 & H). apply bind_Some in H as (c2 & H2 & H).
  injection H as <-. rewrite free_clients. pose proof (notify_ok _ _ _ _ _ _ _ _ _ _ Hok H1) as Hok1.
  destruct (is_last _); [|by injection H2 as <-]. apply bind_Some in H2 as (o & _ & H2). apply bind_Some in H2 as (o' & Ho & H2).
  unfold find_observation in Ho. apply bind_Some in Ho as (cl1 & Hf1 & Ho).
  destruct (find_client_ok c1 _ cl1 Hok1 Hf1) as (_ & Hcl1 & _).
  destruct (find_split _ _ _ (ok_observations _ Hcl1) Ho) as (_ & l1 & l2 & El).
  apply (observe_remove_ok c1 (cd_client d) cl1 o' c2); try done. rewrite El. set_solver.
Qed.

Lemma observe_ok tv c id u cb r c' : observing_ok (clients c) -> prv_lwm2m_observe junk tv c id u cb = Some (r, c') -> observing_ok (clients c').
Proof.
  intros Hok H. unfold prv_lwm2m_observe in H. destruct (_ && _); [by injection H as _ <-|].
  destruct (find_client c id) as [cl|] eqn:Hf; [|by injection H as _ <-]. destruct (negb _); [by injection H as _ <-|].
  apply bind_Some in H as (c1 & H1 & H). assert (observing_ok (clients c1)) as Hok1.
  { apply (upd_observing c id _ c1 Hok H1). intros cl0 _ [] Hw. done. }
  destruct (if lwm2m_list_find _ _ is Some _ then true else false); [by injection H as _ <-|].
  apply bind_Some in H as ([t c2] & H2 & H). unfold new_observe in H2. apply bind_Some in H2 as (t0 & _ & H2). injection H2 as <- <-.
  destruct t0 as [t|]; [|by injection H as _ <-]. apply bind_Some in H as ([? m1] & _ & H). apply bind_Some in H as ([? m2] & _ & H).
  apply bind_Some in H as (c3 & H3 & H). apply transaction_send_clients in H. rewrite H.
  destruct (prv_findObservationByURI _ _); [|by injection H3 as <-]. by eapply set_status_ok; [|exact H3].
Qed.

Lemma cancel_ok tv c id u cb r c' :
  observing_ok (clients c) -> prv_lwm2m_observe_cancel junk tv c id u cb = Some (r, c') -> observing_ok (clients c').
Proof.
  intros Hok H. unfold prv_lwm2m_observe_cancel in H. destruct (find_client c id) as [cl|] eqn:Hf; [|by injection H as _ <-].
  destruct (prv_findObservationByURI _ _) as [o|] eqn:Eo; [|by injection H as _ <-].
  destruct (by_uri_elem _ _ _ Eo) as [Ho _].
  assert (forall r0, (c1 ← observe_remove c o; Some (r0, c1)) = Some (r, c') -> observing_ok (clients c')) as Hrm.
  { intros r0 H0. apply bind_Some in H0 as (c1 & H1 & H0). injection H0 as _ <-. by eapply observe_remove_ok. }
  destruct (obs_status o); try by eapply Hrm. unfold send_cancel in H.
  apply bind_Some in H as ([t c2] & H2 & H). unfold new_observe in H2. apply bind_Some in H2 as (t0 & _ & H2). injection H2 as <- <-.
  destruct t0 as [t|]; [|by injection H as _ <-]. destruct (negb _); [by injection H as _ <-|].
  apply bind_Some in H as ([? m1] & _ & H). apply bind_Some in H as (c3 & H3 & H). apply transaction_send_clients in H. rewrite H.
  by eapply set_status_ok; [|exact H3].
Qed.

Lemma handle_notify_ok c from m response b c' response' :
  observing_ok (clients c) -> observe_handleNotify junk lwm2m_buffer_send c from m response = Some (b, c', response') -> observing_ok (clients c').
Proof.
  assert (forall c p r c', message_send junk lwm2m_buffer_send c p from = Some (r, c') -> clients c' = clients c) as Hsend.
  { intros c0 p r c1 H. unfold message_send in H. destruct (_ =? 0); [by injection H as _ <-|].
    destruct (malloc_ok _); [|by injection H as _ <-]. apply bind_Some in H as ([[n b0] q] & _ & H).
    destruct (negb _); [|by injection H as _ <-]. apply bind_Some in H as (d & _ & H). by injection H as _ <-. }
  intros Hok H. unfold observe_handleNotify in H. destruct (coap_get_header_token m) as [n tok]. destruct (negb _); [by injection H as _ <- _|].
  destruct (coap_get_header_observe m) as [? [count|]]; [|by injection H as _ <- _].
  do 5 apply bind_Some in H as (? & _ & H). destruct (find_client c _) as [cl|]; [|by injection H as _ <- _].
  destruct (lwm2m_list_find _ _) as [o|].
  - apply bind_Some in H as ([c1 r1] & H1 & H). apply bind_Some in H as (c2 & H2 & H). injection H as _ <- _.
    apply notify_clients in H2. rewrite H2. destruct (bool_decide _); [|by injection H1 as <- _].
    apply bind_Some in H1 as ([? c3] & H1 & E). injection E as <- _. by rewrite (Hsend _ _ _ _ H1).
  - apply bind_Some in H as ([? c1] & H1 & H). injection H as _ <- _. by rewrite (Hsend _ _ _ _ H1).
Qed.

(** What happens to the observations of a server: requests of the application,
    replies, and notifications. *)
Inductive observes : context -> context -> Prop :=
  | observes_nothing c : observes c c
  | observes_start c c1 tv_sec id u cb r c2 :
      observes c c1 -> lwm2m_observe junk tv_sec c1 id u cb = Some (r, c2) -> observes c c2
  | observes_stop c c1 tv_sec id u cb r c2 :
      observes c c1 -> lwm2m_observe_cancel junk tv_sec c1 id u cb = Some (r, c2) -> observes c c2
  | observes_reply c c1 t m c2 :
      observes c c1 -> (forall u d, userData t = Some u -> observation_data_of u = Some d -> data_ok d /\ free_id c1 d) ->
      prv_obsRequestCallback c1 t m = Some c2 -> observes c c2
  | observes_stopped c c1 t m c2 :
      observes c c1 -> prv_obsCancelRequestCallback c1 t m = Some c2 -> observes c c2
  | observes_notification c c1 from m response b c2 response' :
      observes c c1 -> observe_handleNotify junk lwm2m_buffer_send c1 from m response = Some (b, c2, response') -> observes c c2.

End invariant.
(** ** Notifications *)

Section routing.
Context {Session CB U R W : Type}.
Context `{HM : Malloc, HG : Registry Session R W, HR : ResultCallbacks R (lwm2m_context_t Session CB U W)}.
Context (junk : Z -> list Z) (lwm2m_buffer_send : Session -> list Z -> Z).
Context (junk_length : forall n, 0 <= n -> len (junk n) = n).
Abbreviation context := (lwm2m_context_t Session CB U W).

Lemma id_bytes id : 0 <= id < 65536 -> Z.lor (Z.shiftl (u8 (Z.shiftr id 8)) 8) (Z.land id 0xFF) = id.
Proof.
  intros Hid. rewrite Z.shiftr_div_pow2 by lia. change (2 ^ 8) with 256. rewrite wrap_small by dlia.
  change 0xFF with (Z.ones 8). rewrite Z.land_ones by lia. change (2 ^ 8) with 256.
  rewrite shiftl_mul by lia. rewrite (lor_add _ _ 8) by dlia. dlia.
Qed.

Lemma reset_ok mid_ : 0 <= mid_ < 65536 -> msg_ok (coap_init_message COAP_TYPE_RST 0 mid_).
Proof. intros Hm. destruct (ack_ok mid_ Hm). by constructor. Qed.

(** The context after the reply to a notification. *)
Definition acked (c : context) (from : Session) (m : coap_packet_t) : context := c <| sent := sent c ++ acks from m true |>.
Definition reset_sent (c : context) (from : Session) (m : coap_packet_t) : context :=
  if malloc_ok 4 then send c from (message_bytes (coap_init_message COAP_TYPE_RST 0 (mid m))) else c.

(** C13. A message with the token of an observation, as [lwm2m_observe] puts it in
    its request, is taken for a notification of that observation: the callback of
    the observation gets its URI and the content of the message, once the message
    is acknowledged if it asks for it; without the observation the answer is a
    reset; and a message for a client that is not registered is left alone. *)
Theorem notification_routed (c : context) from m response id oid :
  0 <= id < 65536 -> 0 <= oid < 65536 -> 0 <= mid m < 65536 ->
  IS_OPTION m COAP_OPTION_TOKEN = true -> token_len m = 4 -> take 4 (token m) = observation_token id oid ->
  IS_OPTION m COAP_OPTION_OBSERVE = true ->
  match find_client c id with
  | None => observe_handleNotify junk lwm2m_buffer_send c from m response = Some (false, c, response)
  | Some cl =>
      match lwm2m_list_find (observationList cl) oid with
      | None => exists response', observe_handleNotify junk lwm2m_buffer_send c from m response = Some (true, reset_sent c from m, response')
      | Some o => forall r, obs_callback o = Some r ->
          exists response', observe_handleNotify junk lwm2m_buffer_send c from m response =
            Some (true, run_result r (acked c from m) id (Some (obs_uri o)) (s32 (observe m)) (block_info m)
                          (utils_convertMediaType (content_type m)) (payload m) (payload_len m), response')
      end
  end.
Proof.
  intros Hid Hoid Hmid Ht Htl Htok Ho. unfold observe_handleNotify, coap_get_header_token, coap_get_header_observe.
  rewrite Ht, Ho, Htl. change (negb true) with false. cbn match. change (negb (4 =? 4)) with false. cbn match.
  destruct (token m) as [|t0 [|t1 [|t2 [|t3 tk]]]]; try discriminate Htok. cbn in Htok. injection Htok as -> -> -> ->.
  set (tk' := u8 (Z.shiftr id 8) :: _). mstep.
  assert (rd tk' 0 = Some (u8 (Z.shiftr id 8)) /\ rd tk' 1 = Some (Z.land id 0xFF) /\ rd tk' 2 = Some (u8 (Z.shiftr oid 8)) /\
    rd tk' 3 = Some (Z.land oid 0xFF)) as (-> & -> & -> & ->) by done. mstep.
  rewrite !id_bytes by done. destruct (find_client c id) as [cl|]; [|done].
  destruct (lwm2m_list_find (observationList cl) oid) as [o|].
  - intros r Hr. unfold notify_content, notify, acked, acks. rewrite Hr. destruct (bool_decide (p_type m = COAP_TYPE_CON)); cbn [andb].
    + destruct (message_send_ack junk lwm2m_buffer_send c m from Hmid (junk_length 4 ltac:(lia))) as [x ->]. mstep. eexists.
      destruct (malloc_ok 4); [done|]. rewrite app_nil_r. by destruct c.
    + mstep. eexists. rewrite app_nil_r. by destruct c.
  - destruct (message_send_ok junk lwm2m_buffer_send c (coap_init_message COAP_TYPE_RST 0 (mid m)) from) as (x & -> & _);
      [by apply reset_ok|by cbn|by cbn|done|]. mstep. by eexists.
Qed.
End routing.

(** ** Examples *)

Module Sample.
#[export] Instance memory_left : Malloc := malloc_always.
Definition user_data : Type := Z * (observation_data_t unit + cancellation_data_t unit).
#[export] Instance pointers : ObservePointers bool user_data unit :=
  {| obs_request_callback := true; obs_cancel_callback := false;
     observation_data a d := (a, inl d); cancellation_data a d := (a, inr d);
     observation_data_of u := match snd u with inl d => Some d | inr _ => None end;
     cancellation_data_of u := match snd u with inl _ => None | inr d => Some d end |}.
#[export] Instance silent : ResultCallbacks unit (lwm2m_context_t Z bool user_data (registry_t Z unit)) := fun _ c _ _ _ _ _ _ _ => c.
#[export] Instance left_alone : Callbacks Z bool user_data (registry_t Z unit) := fun _ c _ _ => c.
Definition blank (n : Z) : list Z := replicate (Z.to_nat n) 0.

Definition watching (os : list (lwm2m_observation_t unit)) : lwm2m_context_t Z bool user_data (registry_t Z unit) :=
  mk_context [] 7 [] []
    (mk_registry [mk_server_client 1 None VERSION_1_1 BINDING_U None None LWM2M_CONTENT_TLV 60 200 8 [] os 2 []] None None).
Definition uri3 : lwm2m_uri_t := mk_uri 3 0 65535 65535.
Definition uri5 : lwm2m_uri_t := mk_uri 5 0 65535 65535.
Definition watch (id : Z) (u : lwm2m_uri_t) (s : lwm2m_status_t) : lwm2m_observation_t unit := mk_observation id 1 u s (Some tt).
Definition request (d : observation_data_t unit + cancellation_data_t unit) : lwm2m_transaction_t Z bool user_data :=
  mk_transaction 6 8 true 1 0 zero_packet 0 None 0 None (Some true) (Some (6, d)).
(** An answer 2.05 with the Observe option. *)
Definition answer : coap_packet_t := zero_packet <| code := COAP_205_CONTENT |> <| observe := 12 |> <| p_options := [64; 0; 0; 0; 0] |>.
Definition kept_uris (r : C (lwm2m_context_t Z bool user_data (registry_t Z unit))) : option (list (list (Z * lwm2m_uri_t))) :=
  option_map (fun c => map (fun cl => map (fun o => (obs_id o, obs_uri o)) (observationList cl)) (clients c)) r.

Lemma watching_ok : observing_ok (clients (watching [watch 1 uri3 STATE_REGISTERED; watch 2 uri5 STATE_REGISTERED])).
Proof.
  split.
  - constructor; by repeat constructor.
  - constructor; [|done]. apply (bool_decide_unpack _). by vm_compute.
Qed.
End Sample.
Import Sample.


(** A notification of the observation 258 of the client 1. *)
Definition notification : coap_packet_t :=
  zero_packet <| p_type := COAP_TYPE_CON |> <| code := COAP_205_CONTENT |> <| mid := 77 |> <| token_len := 4 |>
    <| token := [0; 1; 1; 2; 0; 0; 0; 0] |> <| observe := 5 |> <| p_options := [64; 0; 8; 0; 0] |>.

Lemma notification_routed_witness :
  exists response', observe_handleNotify blank (fun _ _ => 0) (watching [watch 258 uri5 STATE_REGISTERED]) 8 notification zero_packet =
    Some (true, acked (watching [watch 258 uri5 STATE_REGISTERED]) 8 notification, response').
Proof.
  exact (notification_routed blank (fun _ _ => 0) ltac:(intros n Hn; unfold blank; rewrite length_replicate; lia)
    (watching [watch 258 uri5 STATE_REGISTERED]) 8 notification zero_packet 1 258
    ltac:(done) ltac:(done) ltac:(done) ltac:(done) ltac:(done) ltac:(done) ltac:(done) tt eq_refl).
Defined.

(** An observation that is cancelled twice is removed at the second time; the
    answer to the first cancellation then reads an observation that is not there. *)
Example cancelled_twice :
  let c := watching [watch 1 uri3 STATE_DEREG_PENDING] in
  (exists c', prv_lwm2m_observe_cancel blank 50 c 1 uri3 (Some tt) = Some (COAP_IGNORE, c') /\ kept_uris (Some c') = Some [[]] /\
    prv_obsCancelRequestCallback c' (request (inr (mk_cancellation_data 1 uri3 (Some tt)))) (Some answer) = None).
Proof. eexists. split; [by vm_compute|]. split; by vm_compute. Qed.

(** A request that is cancelled before its answer comes is forgotten, and the
    answer enters the observation again. *)
Example cancelled_before_the_answer :
  let c := watching [watch 1 uri3 STATE_REG_PENDING] in
  exists c', prv_lwm2m_observe_cancel blank 50 c 1 uri3 (Some tt) = Some (COAP_204_CHANGED, c') /\ kept_uris (Some c') = Some [[]] /\
    kept_uris (prv_obsRequestCallback c' (request (inl (mk_observation_data 2 1 uri3 (Some tt)))) (Some answer)) = Some [[(2, uri3)]].
Proof. eexists. split; [by vm_compute|]. split; by vm_compute. Qed.
End ServerObserve.
