(* ===== verification/BootDiscover.v ===== *)
(** * Bootstrap-Discover (core/bootstrap.c)

    The list of links that a client gives to its bootstrap server: one pass over
    the objects computes the length, another one writes.  Both read the Security
    and Server objects, so that a step of either may fail and changes the part of
    the application in the context. *)
From S2P Require Import Prelude.
From S2P Require Import Types.
From S2P Require Import SortedList.
From S2P Require Import Numeric.
From S2P Require Import Utils.
From S2P Require Import Data.
From S2P Require Import FloatText.
From S2P Require Import Transaction.
From S2P Require Import Packet.
From S2P Require Import Client.
From S2P Require Import Formats.
From S2P Require Import Objects.
From S2P Require Import RegisterPayload.
Import SortedList Numeric Utils Data FloatText Transaction Packet Client Formats Objects RegisterPayload.

Module BootDiscover.

Definition LWM2M_SECURITY_URI_ID : Z := 0.
Definition LWM2M_VERSION : list Z := str "1.1".
Definition QUERY_VERSION : list Z := str "lwm2m=".
Definition ATTR_VERSION_STR : list Z := str "ver=".
Definition ATTR_SSID_STR : list Z := str "ssid=".
Definition ATTR_URI_STR : list Z := str "uri=" ++ [34].

Section discover.
Context {Session CB U F B : Type}.
Context `{HM : Malloc, HL : LibC, HO : ObjectCallbacks Session CB U F B}.
Context (junk : Z -> list Z).
Abbreviation context := (lwm2m_context_t Session CB U (world_t Session server_info (client_t F B))).
Abbreviation object := (lwm2m_object_t F).

(** ** Steps that may fail *)

(** A value, or [None] for an error, and the context. *)
Definition M (A : Type) : Type := context -> C (option A * context).
Definition done_ {A} (a : A) : M A := fun c => ret (Some a, c).
Definition fail_ {A} : M A := fun c => ret (None, c).
Definition lift {A} (e : C (option A)) : M A := fun c => r ← e; ret (r, c).
Definition then_ {A B'} (e : M A) (k : A -> M B') : M B' := fun c =>
  '(r, c) ← e c; match r with Some a => k a c | None => ret (None, c) end.
Notation "x ⇐ e ; k" := (then_ e (fun x => k))
  (at level 20, e at level 100, k at level 200, right associativity, only parsing).

(** ** Reading *)

(** The single value of a resource. *)
Definition read_single (objectId_ instanceId_ resourceId_ : Z) : M lwm2m_data_t := fun c =>
  '(result, dataP, c) ← object_readData c (mk_uri objectId_ instanceId_ resourceId_ LWM2M_MAX_ID);
  if negb (result =? COAP_205_CONTENT) then ret (None, c)
  else if negb (len dataP =? 1) then ret (None, c)
  else d ← rd dataP 0; ret (Some d, c).

Definition read_boolean (o i r : Z) : M bool := d ⇐ read_single o i r; lift (lwm2m_data_decode_bool d).
Definition read_ssid (o i r : Z) : M Z := d ⇐ read_single o i r; lift (lwm2m_data_decode_uint d).
Definition read_text (o i r : Z) : M (list Z) :=
  d ⇐ read_single o i r;
  lift (match d_type d with
        | LWM2M_TYPE_STRING => b ← asBuffer (d_value d); ret (Some b)
        | _ => ret None
        end).

(** The object is left out. *)
Definition skipped (uriP : lwm2m_uri_t) (objectP : object) : bool :=
  LWM2M_URI_IS_SET_OBJECT uriP && negb (objectId uriP =? objID objectP).
(** The object has a link of its own. *)
Definition has_link (objectP : object) : bool :=
  match instanceList objectP with [] => true | _ => is_versioned objectP end.

(** ** The length *)

(** The digits of a number, in a buffer of [REG_OBJECT_MIN_LEN + 5]. *)
Definition number_length (v : Z) : M Z :=
  lift ('(res, _) ← utils_uintToText v (junk LENGTH_BUFFER) LENGTH_BUFFER; ret (if res =? 0 then None else Some res)).

Definition ssid_length (o i r length : Z) : M Z :=
  val ⇐ read_ssid o i r;
  n ⇐ number_length val;
  done_ (length + (1 + len ATTR_SSID_STR) + n).

Definition attributes_length (o i length : Z) : M Z :=
  if o =? LWM2M_SECURITY_OBJECT_ID then
    bootstrap ⇐ read_boolean o i LWM2M_SECURITY_BOOTSTRAP_ID;
    if (bootstrap : bool) then done_ length
    else
      length ⇐ ssid_length o i LWM2M_SECURITY_SHORT_SERVER_ID length;
      uri ⇐ read_text o i LWM2M_SECURITY_URI_ID;
      done_ (length + (3 + len ATTR_URI_STR) + len uri)
  else if o =? LWM2M_SERVER_OBJECT_ID then ssid_length o i LWM2M_SERVER_SHORT_ID_ID length
  else done_ length.

Fixpoint links_length (o : Z) (instances : list Z) (length : Z) : M Z :=
  match instances with
  | [] => done_ length
  | i :: instances =>
      a ⇐ number_length o;
      b ⇐ number_length i;
      length ⇐ attributes_length o i (length + 5 + a + b);
      links_length o instances length
  end.

Definition own_length (objectP : object) (length : Z) : M Z :=
  if has_link objectP then
    a ⇐ number_length (objID objectP);
    if is_versioned objectP then
      b ⇐ number_length (versionMajor objectP);
      d ⇐ number_length (versionMinor objectP);
      done_ (length + 4 + a + (2 + len ATTR_VERSION_STR) + b + d)
    else done_ (length + 4 + a)
  else done_ length.

Fixpoint list_length (uriP : lwm2m_uri_t) (objectList : list object) (length : Z) : M Z :=
  match objectList with
  | [] => done_ length
  | objectP :: objectList =>
      if skipped uriP objectP then list_length uriP objectList length
      else
        length ⇐ own_length objectP length;
        length ⇐ links_length (objID objectP) (instanceList objectP) length;
        list_length uriP objectList length
  end.

(** ** Writing *)

(** Some characters, when there is room for them. *)
Definition put_chars (o : out) (length : Z) (l : list Z) : C (option out) :=
  let '(buffer, index) := o in
  if length - index <? len l then ret None
  else buffer ← wr_bytes buffer index l; ret (Some (buffer, index + len l)).

Definition put_number (o : out) (length v : Z) : C (option out) :=
  let '(buffer, index) := o in
  '(result, buffer) ← at_off buffer index (fun b => utils_uintToText v b (length - index));
  ret (if result =? 0 then None else Some (buffer, index + result)).

Definition put_ssid (o i r : Z) (b : out) (length : Z) : M out :=
  val ⇐ read_ssid o i r;
  lift (b ←? put_chars b length (str ";"); b ←? put_string b length (ATTR_SSID_STR ++ [0]); put_number b length val).

Definition put_attributes (o i : Z) (b : out) (length : Z) : M out :=
  if o =? LWM2M_SECURITY_OBJECT_ID then
    bootstrap ⇐ read_boolean o i LWM2M_SECURITY_BOOTSTRAP_ID;
    if (bootstrap : bool) then done_ b
    else
      b ⇐ put_ssid o i LWM2M_SECURITY_SHORT_SERVER_ID b length;
      b ⇐ lift (b ←? put_chars b length (str ";"); put_string b length (ATTR_URI_STR ++ [0]));
      uri ⇐ read_text o i LWM2M_SECURITY_URI_ID;
      lift (b ←? put_chars b length uri; put_chars b length [34])
  else if o =? LWM2M_SERVER_OBJECT_ID then put_ssid o i LWM2M_SERVER_SHORT_ID_ID b length
  else done_ b.

Fixpoint put_links (o : Z) (instances : list Z) (b : out) (length : Z) : M out :=
  match instances with
  | [] => done_ b
  | i :: instances =>
      b ⇐ lift (b ←? put_chars b length (str ",</"); b ←? put_number b length o; b ←? put_chars b length (str "/");
                b ←? put_number b length i; put_chars b length (str ">"));
      b ⇐ put_attributes o i b length;
      put_links o instances b length
  end.

Definition put_own (objectP : object) (b : out) (length : Z) : C (option out) :=
  if has_link objectP then
    b ←? put_chars b length (str ",</");
    b ←? put_number b length (objID objectP);
    b ←? put_chars b length (str ">");
    if is_versioned objectP then
      b ←? put_chars b length (str ";");
      b ←? put_string b length (ATTR_VERSION_STR ++ [0]);
      b ←? put_number b length (versionMajor objectP);
      b ←? put_chars b length (str ".");
      put_number b length (versionMinor objectP)
    else ret (Some b)
  else ret (Some b).

Fixpoint put_list (uriP : lwm2m_uri_t) (objectList : list object) (b : out) (length : Z) : M out :=
  match objectList with
  | [] => done_ b
  | objectP :: objectList =>
      if skipped uriP objectP then put_list uriP objectList b length
      else
        b ⇐ lift (put_own objectP b length);
        b ⇐ put_links (objID objectP) (instanceList objectP) b length;
        put_list uriP objectList b length
  end.

(** The request is refused before anything is read. *)
Definition refused (contextP : context) (uriP : lwm2m_uri_t) : option Z :=
  if LWM2M_URI_IS_SET_OBJECT uriP then
    if LWM2M_URI_IS_SET_INSTANCE uriP || LWM2M_URI_IS_SET_RESOURCE uriP || LWM2M_URI_IS_SET_RESOURCE_INSTANCE uriP
    then Some COAP_400_BAD_REQUEST
    else match find_object contextP (objectId uriP) with Some _ => None | None => Some COAP_404_NOT_FOUND end
  else None.

(** The status, the buffer with [*lengthP], and the context. *)
Definition prv_handleBootstrapDiscover (contextP : context) (uriP : lwm2m_uri_t)
    : C (Z * option (list Z) * Z * context) :=
  match refused contextP uriP with
  | Some result => ret (result, None, 0, contextP)
  | None =>
      let l := objects contextP in
      '(length, contextP) ← list_length uriP l (4 + (len QUERY_VERSION + len LWM2M_VERSION)) contextP;
      match length with
      | None => ret (COAP_500_INTERNAL_SERVER_ERROR, None, 0, contextP)
      | Some length =>
          if negb (malloc_ok length) then ret (COAP_500_INTERNAL_SERVER_ERROR, None, 0, contextP)
          else
            '(r, contextP) ←
              (b ⇐ lift (b ←? put_chars (junk length, 0) length (str "</>;");
                         b ←? put_string b length (QUERY_VERSION ++ [0]);
                         put_string b length (LWM2M_VERSION ++ [0]));
               put_list uriP l b length) contextP;
            match r with
            | None => ret (COAP_500_INTERNAL_SERVER_ERROR, None, 0, contextP)
            | Some (buffer, index) => ret (COAP_205_CONTENT, Some buffer, index, contextP)
            end
      end
  end.

(** ** The links *)

(** ** Writing in the room there is *)

(** [f] appends [text] when there is room for it and [k] more characters. *)
Definition writes_in (k : Z) (f : out -> Z -> C (option out)) (text : list Z) : Prop :=
  forall p q n, n = len (p ++ q) -> n <= INT_MAX -> len text + k <= len q ->
  exists q', length (text ++ q') = length q /\
    f (p ++ q, len p) n = Some (Some (p ++ text ++ q', len p + len text)).

Lemma writes_in_string text : Forall (fun c => c <> 0) text -> writes_in 1 (fun o n => put_string o n (text ++ [0])) text.
Proof. intros Ht p q n Hn Hm Hq. apply put_string_ok; [done..|lia]. Qed.

Lemma writes_in_chars text : writes_in 0 (fun o n => put_chars o n text) text.
Proof.
  intros p q n Hn Hm Hq. unfold put_chars.
  replace (n - len p <? len text) with false by lens.
  exists (drop (length text) q). split; [lens|].
  rewrite <- (Z.add_0_r (len p)) at 1. rewrite wr_bytes_app by lens. mstep. by rewrite <- app_assoc.
Qed.

Lemma writes_in_number v : 0 <= v -> writes_in 0 (fun o n => put_number o n v) (dec v).
Proof.
  intros Hv p q n Hn Hm Hq. unfold put_number. rewrite at_off_app by done.
  destruct (uintToText_fits v q (n - len p)) as (q' & -> & Hl & _); [done|lens..|].
  pose proof (dec_length_pos v Hv). mstep. guards. by exists q'.
Qed.

Lemma writes_in_seq k1 k2 f g text1 text2 :
  writes_in k1 f text1 -> writes_in k2 g text2 -> k1 <= len text2 + k2 -> 0 <= k2 ->
  writes_in k2 (fun o n => o ←? f o n; g o n) (text1 ++ text2).
Proof.
  intros Hf Hg Hk Hk2 p q n Hn Hm Hq. destruct (Hf p q n) as (q1 & H1 & E1); [lens..|].
  destruct (Hg (p ++ text1) q1 n) as (q2 & H2 & E2); [lens..|].
  exists q2. split; [lens|]. unfold and_then. rewrite E1. mstep.
  replace (len p + len text1) with (len (p ++ text1)) by lens. rewrite app_assoc, E2.
  f_equal. f_equal. rewrite <- !app_assoc. f_equal. lens.
Qed.

Lemma writes_in_nothing : writes_in 0 (fun o _ => ret (Some o)) [].
Proof. intros p q n Hn Hm Hq. exists q. split; [done|]. by rewrite Z.add_0_r. Qed.

Section links.
(** What is read in the context [c0]. *)
Context (c0 : context).
Definition reads {A} (e : M A) : option A := match e c0 with Some (r, _) => r | None => None end.

(** A number of at most ten digits. *)
Definition number_text (v : Z) : option (list Z) := if v <? 10 ^ 10 then Some (dec v) else None.

Definition ssid_text (o i r : Z) : option (list Z) :=
  val ← reads (read_ssid o i r); t ← number_text val; Some (str ";ssid=" ++ t).
Definition attributes_text (o i : Z) : option (list Z) :=
  if o =? LWM2M_SECURITY_OBJECT_ID then
    bootstrap ← reads (read_boolean o i LWM2M_SECURITY_BOOTSTRAP_ID);
    if (bootstrap : bool) then Some []
    else
      t ← ssid_text o i LWM2M_SECURITY_SHORT_SERVER_ID;
      uri ← reads (read_text o i LWM2M_SECURITY_URI_ID);
      Some (t ++ str ";uri=" ++ [34] ++ uri ++ [34])
  else if o =? LWM2M_SERVER_OBJECT_ID then ssid_text o i LWM2M_SERVER_SHORT_ID_ID
  else Some [].
Definition link_text (o i : Z) : option (list Z) :=
  t ← attributes_text o i; Some (str ",</" ++ dec o ++ str "/" ++ dec i ++ str ">" ++ t).
Definition own_text (objectP : object) : list Z :=
  if has_link objectP then
    str ",</" ++ dec (objID objectP) ++ str ">" ++
    (if is_versioned objectP then
       str ";ver=" ++ dec (versionMajor objectP) ++ str "." ++ dec (versionMinor objectP)
     else [])
  else [].
Definition object_text (objectP : object) : option (list Z) :=
  l ← mapM (link_text (objID objectP)) (instanceList objectP); Some (own_text objectP ++ concat l).

(** The answer to a Bootstrap-Discover: the version, then the links of the object
    of the request, or of all objects. *)
Definition bootstrap_links (uriP : lwm2m_uri_t) : option (list Z) :=
  l ← mapM object_text (filter (fun o => skipped uriP o = false) (objects c0)); Some (str "</>;lwm2m=1.1" ++ concat l).

(** ** Both passes agree with the links *)

(** What a read callback must fill: values that can be decoded. *)
Definition decodable (d : lwm2m_data_t) : Prop :=
  is_Some (lwm2m_data_decode_bool d) /\
  (exists r, lwm2m_data_decode_uint d = Some r /\ forall v, r = Some v -> 0 <= v) /\
  (d_type d = LWM2M_TYPE_STRING -> is_Some (asBuffer (d_value d))).

(** Reading a resource gives decodable values, and the same ones whatever
    reading has changed in the application. *)
Record readable : Prop := mk_readable {
  same_values : forall c f id dataP o, user_only c0 c -> (read_callback f c id dataP o).1 = (read_callback f c0 id dataP o).1;
  good_values : forall f id d o dataP b,
    read_callback f c0 id [d] o = (COAP_205_CONTENT, dataP, b) -> Forall decodable dataP }.

(** [e] has the result [r] in every context that reading can reach. *)
Definition steady {A} (e : M A) (r : option A) : Prop :=
  forall c, user_only c0 c -> exists c', e c = Some (r, c') /\ user_only c0 c'.

Lemma steady_done {A} (a : A) : steady (done_ a) (Some a).
Proof. intros c Hc. by exists c. Qed.
Lemma steady_lift {A} (e : C (option A)) r : e = Some r -> steady (lift e) r.
Proof. intros -> c Hc. by exists c. Qed.
Lemma steady_then {A B'} (e : M A) (k : A -> M B') a r : steady e (Some a) -> steady (k a) r -> steady (then_ e k) r.
Proof.
  intros He Hk c Hc. destruct (He c Hc) as (c1 & E & H1). destruct (Hk c1 H1) as (c2 & E2 & H2).
  exists c2. unfold then_. rewrite E. by mstep.
Qed.
Lemma steady_fails {A B'} (e : M A) (k : A -> M B') : steady e None -> steady (then_ e k) None.
Proof. intros He c Hc. destruct (He c Hc) as (c1 & E & H1). exists c1. unfold then_. rewrite E. by mstep. Qed.
Lemma steady_reads {A} (e : M A) r : steady e r -> reads e = r.
Proof. intros He. destruct (He c0 (user_only_refl c0)) as (c' & E & _). unfold reads. by rewrite E. Qed.

Section agree.
Context (Hread : readable).

Lemma user_only_find c o : user_only c0 c -> find_object c o = find_object c0 o.
Proof. by intros [b ->]. Qed.

Lemma read_single_steady o i r : i <> LWM2M_MAX_ID -> r <> LWM2M_MAX_ID ->
  exists d, steady (read_single o i r) d /\ forall x, d = Some x -> decodable x.
Proof.
  intros Hi Hr. unfold read_single, object_readData.
  set (u := mk_uri o i r LWM2M_MAX_ID). change (objectId u) with o. change (instanceId u) with i.
  assert (LWM2M_URI_IS_SET_RESOURCE u = true) as -> by (unfold u, LWM2M_URI_IS_SET_RESOURCE; cbn [resourceId]; lia).
  assert (LWM2M_URI_IS_SET_INSTANCE u = true) as -> by (unfold u, LWM2M_URI_IS_SET_INSTANCE; cbn [instanceId]; lia).
  assert (exists request, resource_request u = Some request /\ (request = None \/ exists d, request = Some [d])) as (rq & Hrq & Hd).
  { unfold resource_request. destruct (lwm2m_data_new 1); [|eexists; split; [done|by left]].
    eexists. split; [done|]. right. by eexists. }
  destruct (find_object c0 o) as [ob|] eqn:Eo.
  2: { exists None. split; [|done]. intros c Hc. rewrite (user_only_find c o Hc), Eo. mstep. by exists c. }
  destruct (readFunc ob) as [f|] eqn:Ef.
  2: { exists None. split; [|done]. intros c Hc. rewrite (user_only_find c o Hc), Eo, Ef. mstep. by exists c. }
  destruct (has_instance ob i) eqn:Eh.
  2: { exists None. split; [|done]. intros c Hc. rewrite (user_only_find c o Hc), Eo, Ef, Eh. mstep. by exists c. }
  destruct Hd as [->|[d ->]].
  { exists None. split; [|done]. intros c Hc. rewrite (user_only_find c o Hc), Eo, Ef, Eh, Hrq. mstep. by exists c. }
  destruct (read_callback f c0 i [d] ob) as [[z dataP] b] eqn:E0.
  exists (if z =? COAP_205_CONTENT then match dataP with [x] => Some x | _ => None end else None). split.
  - intros c Hc. rewrite (user_only_find c o Hc), Eo, Ef, Eh, Hrq. mstep.
    pose proof (call_read_user f c i [d] ob) as Hu. pose proof (same_values Hread c f i [d] ob Hc) as Hs. unfold call_read in *.
    destruct (read_callback f c i [d] ob) as [[z' dataP'] b']. rewrite E0 in Hs. injection Hs as -> ->. cbn [snd] in Hu.
    pose proof (user_only_trans c0 _ _ Hc Hu). cbn [negb]. mstep. destruct (z =? COAP_205_CONTENT); cbn [negb]; [|by eexists].
    destruct dataP as [|x [|y l]]; [by eexists| |]. { change (len [x] =? 1) with true. cbn [negb]. rewrite rd_cons_0. mstep. by eexists. }
    assert ((len (x :: y :: l) =? 1) = false) as -> by lens. cbn [negb]. by eexists.
  - intros x Hx. destruct (Z.eqb_spec z COAP_205_CONTENT) as [->|]; [|done]. destruct dataP as [|x' [|? ?]]; [done| |done].
    injection Hx as ->. pose proof (good_values Hread f i d ob [x] b E0) as Hg. by apply Forall_cons in Hg as [? _].
Qed.

(** The three ways to read a value. *)
Lemma decoded_steady {A} (k : lwm2m_data_t -> C (option A)) o i r :
  i <> LWM2M_MAX_ID -> r <> LWM2M_MAX_ID -> (forall d, decodable d -> is_Some (k d)) ->
  let e := then_ (read_single o i r) (fun d => lift (k d)) in steady e (reads e).
Proof.
  intros Hi Hr Hk e. destruct (read_single_steady o i r Hi Hr) as ([d|] & Hs & Hd).
  - destruct (Hk d (Hd d eq_refl)) as [v Hv]. assert (steady e v) as He by (eapply steady_then; [exact Hs|by apply steady_lift]).
    by rewrite (steady_reads e v He).
  - assert (steady e None) as He by by apply steady_fails. by rewrite (steady_reads e None He).
Qed.

Lemma boolean_steady o i r : i <> LWM2M_MAX_ID -> r <> LWM2M_MAX_ID -> steady (read_boolean o i r) (reads (read_boolean o i r)).
Proof. intros Hi Hr. apply decoded_steady; [done..|]. by intros d (H & _). Qed.
Lemma text_steady o i r : i <> LWM2M_MAX_ID -> r <> LWM2M_MAX_ID -> steady (read_text o i r) (reads (read_text o i r)).
Proof.
  intros Hi Hr. apply decoded_steady; [done..|]. intros d (_ & _ & H).
  destruct (d_type d); try by eexists. destruct (H eq_refl) as [b ->]. by eexists.
Qed.
Lemma ssid_steady o i r : i <> LWM2M_MAX_ID -> r <> LWM2M_MAX_ID ->
  steady (read_ssid o i r) (reads (read_ssid o i r)) /\ forall v, reads (read_ssid o i r) = Some v -> 0 <= v.
Proof.
  intros Hi Hr. split.
  { apply decoded_steady; [done..|]. intros d (_ & (v & H & _) & _). by exists v. }
  intros v Hv. destruct (read_single_steady o i r Hi Hr) as ([d|] & Hs & Hd).
  - destruct (Hd d eq_refl) as (_ & (w & Hw & H0) & _). apply H0.
    rewrite <- Hv. symmetry. apply steady_reads. eapply steady_then; [exact Hs|by apply steady_lift].
  - assert (steady (read_ssid o i r) None) as He by by apply steady_fails. apply steady_reads in He. congruence.
Qed.

(** ** The two passes *)

(** [f] adds the length of the text, or one more for each link. *)
Definition counts (f : Z -> M Z) (t : option (list Z)) : Prop :=
  forall n, exists r, steady (f n) r /\
    match t with Some t => exists n', r = Some n' /\ n + len t <= n' <= n + 2 * len t | None => r = None end.

(** [f] appends the text when there is room for it. *)
Definition puts (f : out -> Z -> M out) (text : list Z) : Prop :=
  forall p q n, n = len (p ++ q) -> n <= INT_MAX -> len text <= len q ->
  exists q', length (text ++ q') = length q /\
    steady (f (p ++ q, len p) n) (Some (p ++ text ++ q', len p + len text)).

Lemma puts_lift f text : writes_in 0 f text -> puts (fun o n => lift (f o n)) text.
Proof.
  intros Hf p q n Hn Hm Hq. destruct (Hf p q n) as (q' & H1 & E); [lens..|]. exists q'. split; [done|]. by apply steady_lift.
Qed.
Lemma puts_done : puts (fun o _ => done_ o) [].
Proof. intros p q n Hn Hm Hq. exists q. split; [done|]. rewrite Z.add_0_r. apply steady_done. Qed.
Lemma puts_then f g text1 text2 : puts f text1 -> puts g text2 -> puts (fun o n => o ⇐ f o n; g o n) (text1 ++ text2).
Proof.
  intros Hf Hg p q n Hn Hm Hq. destruct (Hf p q n) as (q1 & H1 & E1); [lens..|].
  destruct (Hg (p ++ text1) q1 n) as (q2 & H2 & E2); [lens..|].
  exists q2. split; [lens|]. eapply steady_then; [exact E1|].
  rewrite (app_assoc p text1 q1). replace (len p + len text1) with (len (p ++ text1)) by lens.
  replace (p ++ (text1 ++ text2) ++ q2) with ((p ++ text1) ++ text2 ++ q2) by (by rewrite <- !app_assoc).
  replace (len p + len (text1 ++ text2)) with (len (p ++ text1) + len text2) by lens. exact E2.
Qed.

(** A text that needs a terminator, with another one after it. *)
Lemma puts_lift_then k f g text1 text2 : writes_in k f text1 -> puts g text2 -> k <= len text2 ->
  puts (fun o n => o ⇐ lift (f o n); g o n) (text1 ++ text2).
Proof.
  intros Hf Hg Hk p q n Hn Hm Hq. destruct (Hf p q n) as (q1 & H1 & E1); [lens..|].
  destruct (Hg (p ++ text1) q1 n) as (q2 & H2 & E2); [lens..|].
  exists q2. split; [lens|]. eapply steady_then; [by apply steady_lift|].
  rewrite (app_assoc p text1 q1). replace (len p + len text1) with (len (p ++ text1)) by lens.
  replace (p ++ (text1 ++ text2) ++ q2) with ((p ++ text1) ++ text2 ++ q2) by (by rewrite <- !app_assoc).
  replace (len p + len (text1 ++ text2)) with (len (p ++ text1) + len text2) by lens. exact E2.
Qed.

(** A step that reads first. *)
Lemma puts_read {A} (e : M A) f a text : steady e (Some a) -> puts (f a) text -> puts (fun o n => x ⇐ e; f x o n) text.
Proof.
  intros He Hf p q n Hn Hm Hq. destruct (Hf p q n Hn Hm Hq) as (q' & H1 & E). exists q'. split; [done|].
  by eapply steady_then.
Qed.


(** *** The length *)

Section length.
Hypothesis junk_length : forall n, 0 <= n -> len (junk n) = n.

Lemma number_counts v : 0 <= v -> steady (number_length v) ((fun t => len t) <$> number_text v).
Proof.
  intros Hv. apply steady_lift. unfold number_text. pose proof (junk_length LENGTH_BUFFER ltac:(done)) as Hj.
  change LENGTH_BUFFER with 10 in *. destruct (Z.ltb_spec v (10 ^ 10)) as [H|H].
  - pose proof (proj2 (dec_length_iff v 10 Hv ltac:(lia)) H). pose proof (dec_length_pos v Hv).
    destruct (uintToText_fits v (junk 10) 10) as (q & -> & _); [done|unfold INT_MAX; lia|lia|]. mstep. guards. done.
  - destruct (uintToText_overflow v (junk 10) 10) as (q & -> & _); [done|unfold INT_MAX; lia|lia|done|]. done.
Qed.

Lemma small_text v : 0 <= v < 65536 -> number_text v = Some (dec v).
Proof. intros Hv. unfold number_text. rewrite (proj2 (Z.ltb_lt v (10 ^ 10))) by lia. done. Qed.

Lemma small_counts v : 0 <= v < 65536 -> steady (number_length v) (Some (len (dec v))).
Proof. intros Hv. pose proof (number_counts v ltac:(lia)) as H. by rewrite small_text in H. Qed.

Lemma counts_done : counts done_ (Some []).
Proof. intros n. exists (Some n). split; [apply steady_done|]. exists n. split; [done|]. cbn [length]. lia. Qed.

Lemma counts_ssid o i r : i <> LWM2M_MAX_ID -> r <> LWM2M_MAX_ID -> counts (ssid_length o i r) (ssid_text o i r).
Proof.
  intros Hi Hr n. unfold ssid_length, ssid_text. destruct (ssid_steady o i r Hi Hr) as [Hs Hv].
  destruct (reads (read_ssid o i r)) as [v|]; cbn [mbind option_bind].
  2: { exists None. split; [|done]. by apply steady_fails. }
  pose proof (number_counts v (Hv v eq_refl)) as Hn. destruct (number_text v) as [t|]; cbn [mbind option_bind fmap option_fmap option_map] in *.
  2: { exists None. split; [|done]. eapply steady_then; [exact Hs|]. by apply steady_fails. }
  eexists. split; [eapply steady_then; [exact Hs|]; eapply steady_then; [exact Hn|]; apply steady_done|].
  eexists. split; [done|]. rewrite length_app. change (length (str ";ssid=")) with 6%nat. change (len ATTR_SSID_STR) with 5. lia.
Qed.

Lemma counts_attributes o i : i <> LWM2M_MAX_ID -> counts (attributes_length o i) (attributes_text o i).
Proof.
  intros Hi n. unfold attributes_length, attributes_text.
  destruct (o =? LWM2M_SECURITY_OBJECT_ID).
  2: { destruct (o =? LWM2M_SERVER_OBJECT_ID); [by apply counts_ssid|apply counts_done]. }
  pose proof (boolean_steady o i LWM2M_SECURITY_BOOTSTRAP_ID Hi ltac:(done)) as Hb.
  destruct (reads (read_boolean _ _ _)) as [[]|]; cbn [mbind option_bind].
  - destruct (counts_done n) as (r & Hr & Hn). exists r. split; [|done]. by eapply steady_then.
  - destruct (counts_ssid o i LWM2M_SECURITY_SHORT_SERVER_ID Hi ltac:(done) n) as (r & Hr & Ht).
    destruct (ssid_text _ _ _) as [t|]; cbn [mbind option_bind].
    2: { subst r. exists None. split; [|done]. eapply steady_then; [exact Hb|]. by apply steady_fails. }
    destruct Ht as (n1 & -> & Hn1). pose proof (text_steady o i LWM2M_SECURITY_URI_ID Hi ltac:(done)) as Hu.
    destruct (reads (read_text _ _ _)) as [uri|]; cbn [mbind option_bind].
    2: { exists None. split; [|done]. eapply steady_then; [exact Hb|]. eapply steady_then; [exact Hr|]. by apply steady_fails. }
    eexists. split; [eapply steady_then; [exact Hb|]; eapply steady_then; [exact Hr|]; eapply steady_then; [exact Hu|]; apply steady_done|].
    eexists. split; [done|]. change (len ATTR_URI_STR) with 5. change (str ";uri=") with [59; 117; 114; 105; 61].
    rewrite !length_app. cbn [length]. lia.
  - exists None. split; [|done]. by apply steady_fails.
Qed.

Lemma counts_links o l : 0 <= o < 65536 -> Forall (fun i => 0 <= i < LWM2M_MAX_ID) l ->
  counts (links_length o l) (t ← mapM (link_text o) l; Some (concat t)).
Proof.
  intros Ho. induction 1 as [|i l Hi Hl IH]; intros n.
  { apply counts_done. }
  cbn [links_length mapM].
  assert (link_text o i = t ← attributes_text o i; Some (str ",</" ++ dec o ++ str "/" ++ dec i ++ str ">" ++ t)) as -> by done.
  unfold LWM2M_MAX_ID in Hi.
  pose proof (small_counts o Ho) as Eo. pose proof (small_counts i ltac:(lia)) as Ei.
  destruct (counts_attributes o i ltac:(unfold LWM2M_MAX_ID; lia) (n + 5 + len (dec o) + len (dec i))) as (r & Hr & Ht).
  destruct (attributes_text o i) as [t|]; cbn [mbind option_bind].
  2: { subst r. exists None. split; [|done]. eapply steady_then; [exact Eo|]. eapply steady_then; [exact Ei|]. by apply steady_fails. }
  destruct Ht as (n1 & -> & Hn1). destruct (IH n1) as (r2 & Hr2 & Ht2). exists r2. split.
  - eapply steady_then; [exact Eo|]. eapply steady_then; [exact Ei|]. by eapply steady_then.
  - destruct (mapM (link_text o) l) as [ts|]; cbn [mbind option_bind] in *; [|done].
    destruct Ht2 as (n2 & -> & Hn2). exists n2. split; [done|]. cbn [concat]. rewrite !length_app.
    change (length (str ",</")) with 3%nat. change (length (str "/")) with 1%nat. change (length (str ">")) with 1%nat. lia.
Qed.

Lemma counts_own o : object_ok o -> counts (own_length o) (Some (own_text o)).
Proof.
  intros [Hid Hma Hmi _] n. unfold own_length, own_text. unfold is_id in Hid. pose proof (small_counts (objID o) Hid) as Ei.
  pose proof (small_counts (versionMajor o) ltac:(lia)) as Ea. pose proof (small_counts (versionMinor o) ltac:(lia)) as Eb.
  destruct (has_link o).
  2: { apply counts_done. }
  destruct (is_versioned o).
  - eexists. split; [eapply steady_then; [exact Ei|]; eapply steady_then; [exact Ea|]; eapply steady_then; [exact Eb|]; apply steady_done|].
    eexists. split; [done|]. rewrite !length_app. change (len ATTR_VERSION_STR) with 4.
    change (length (str ",</")) with 3%nat. change (length (str ">")) with 1%nat. change (length (str ";ver=")) with 5%nat.
    change (length (str ".")) with 1%nat. lia.
  - eexists. split; [eapply steady_then; [exact Ei|]; apply steady_done|].
    eexists. split; [done|]. rewrite !length_app. change (length (str ",</")) with 3%nat. change (length (str ">")) with 1%nat. cbn [length]. lia.
Qed.

(** The identifiers of an object are those of LwM2M. *)
Definition ids_ok (o : object) : Prop := object_ok o /\ Forall (fun i => 0 <= i < LWM2M_MAX_ID) (instanceList o).

Lemma counts_list u l : Forall ids_ok l ->
  counts (list_length u l) (t ← mapM object_text (filter (fun o => skipped u o = false) l); Some (concat t)).
Proof.
  induction 1 as [|o l [Ho Hi] Hl IH]; intros n.
  { apply counts_done. }
  cbn [list_length]. destruct (skipped u o) eqn:Es.
  { rewrite list.filter_cons_False by congruence. apply IH. }
  rewrite list.filter_cons_True by done. cbn [mapM].
  assert (object_text o = l ← mapM (link_text (objID o)) (instanceList o); Some (own_text o ++ concat l)) as -> by done.
  destruct (counts_own o Ho n) as (r1 & H1 & n1 & -> & Hn1). pose proof (ok_id o Ho) as Hid. unfold is_id in Hid.
  destruct (counts_links (objID o) (instanceList o) Hid Hi n1) as (r2 & H2 & Ht2).
  destruct (mapM (link_text (objID o)) (instanceList o)) as [ts|]; cbn [mbind option_bind] in *.
  2: { subst r2. exists None. split; [|done]. eapply steady_then; [exact H1|]. by apply steady_fails. }
  destruct Ht2 as (n2 & -> & Hn2). destruct (IH n2) as (r3 & H3 & Ht3). exists r3. split.
  - eapply steady_then; [exact H1|]. by eapply steady_then.
  - destruct (mapM object_text _) as [tl|]; cbn [mbind option_bind] in *; [|done].
    destruct Ht3 as (n3 & -> & Hn3). exists n3. split; [done|]. cbn [concat]. rewrite !length_app. lia.
Qed.
End length.

(** *** The text *)

Lemma puts_ext f g t : (forall b n, f b n = g b n) -> puts f t -> puts g t.
Proof. intros H Hf p q n Hn Hm Hq. rewrite <- H. by apply Hf. Qed.

(** Nonempty texts leave room for a terminator before them. *)
Lemma dec_pos v : 0 <= v -> 0 < len (dec v).
Proof. apply dec_length_pos. Qed.

Lemma puts_ssid o i r t : i <> LWM2M_MAX_ID -> r <> LWM2M_MAX_ID -> ssid_text o i r = Some t -> puts (put_ssid o i r) t.
Proof.
  intros Hi Hr Ht. unfold ssid_text in Ht. destruct (ssid_steady o i r Hi Hr) as [Hs Hv].
  destruct (reads (read_ssid o i r)) as [v|]; cbn [mbind option_bind] in Ht; [|done]. specialize (Hv v eq_refl).
  unfold number_text in Ht. destruct (v <? 10 ^ 10); [|done]. cbn [mbind option_bind] in Ht. injection Ht as <-.
  apply (puts_read _ (fun val b n => lift (b ←? put_chars b n (str ";"); b ←? put_string b n (ATTR_SSID_STR ++ [0]); put_number b n val))
    v _ Hs).
  apply (puts_lift _ (str ";" ++ ATTR_SSID_STR ++ dec v)). pose proof (dec_pos v Hv).
  eapply writes_in_seq; [apply writes_in_chars| |lia|lia].
  eapply writes_in_seq; [apply writes_in_string; by repeat constructor|by apply writes_in_number|lia|lia].
Qed.

Lemma puts_attributes o i t : i <> LWM2M_MAX_ID -> attributes_text o i = Some t -> puts (put_attributes o i) t.
Proof.
  intros Hi Ht. unfold attributes_text in Ht.
  destruct (o =? LWM2M_SECURITY_OBJECT_ID) eqn:E0.
  - pose proof (boolean_steady o i LWM2M_SECURITY_BOOTSTRAP_ID Hi ltac:(done)) as Hb.
    destruct (reads (read_boolean _ _ _)) as [b|]; cbn [mbind option_bind] in Ht; [|done].
    eapply puts_ext; [intros b0 n0; unfold put_attributes; rewrite E0; reflexivity|].
    eapply (puts_read _ (fun (bootstrap : bool) b n => if bootstrap then done_ b else _) b _ Hb). destruct b.
    { injection Ht as <-. apply puts_done. }
    destruct (ssid_text _ _ _) as [s|] eqn:Es; cbn [mbind option_bind] in Ht; [|done].
    pose proof (text_steady o i LWM2M_SECURITY_URI_ID Hi ltac:(done)) as Hu.
    destruct (reads (read_text _ _ _)) as [uri|]; cbn [mbind option_bind] in Ht; [|done]. injection Ht as <-.
    apply puts_then; [by apply puts_ssid|].
    apply (puts_lift_then 1 (fun b n => b ←? put_chars b n (str ";"); put_string b n (ATTR_URI_STR ++ [0]))
      (fun b n => uri ⇐ read_text o i LWM2M_SECURITY_URI_ID; lift (b ←? put_chars b n uri; put_chars b n [34]))
      (str ";" ++ ATTR_URI_STR) (uri ++ [34])).
    + eapply writes_in_seq; [apply writes_in_chars|apply writes_in_string; by repeat constructor|lia|lia].
    + eapply (puts_read _ (fun uri b n => lift (b ←? put_chars b n uri; put_chars b n [34])) uri _ Hu).
      apply puts_lift. eapply writes_in_seq; [apply writes_in_chars|apply writes_in_chars|lia|lia].
    + lens.
  - destruct (o =? LWM2M_SERVER_OBJECT_ID) eqn:E1.
    + eapply puts_ext; [intros b0 n0; unfold put_attributes; rewrite E0, E1; reflexivity|]. by apply puts_ssid.
    + injection Ht as <-. eapply puts_ext; [intros b0 n0; unfold put_attributes; rewrite E0, E1; reflexivity|]. apply puts_done.
Qed.

Lemma puts_links o l ts : 0 <= o -> Forall (fun i => 0 <= i < LWM2M_MAX_ID) l ->
  mapM (link_text o) l = Some ts -> puts (put_links o l) (concat ts).
Proof.
  intros Ho Hl. revert ts. induction Hl as [|i l Hi Hl IH]; intros ts Hts.
  { injection Hts as <-. apply puts_done. }
  cbn [mapM] in Hts. apply bind_Some in Hts as (t & Ht & Hts). apply bind_Some in Hts as (ts' & Hts' & E).
  injection E as <-. apply bind_Some in Ht as (a & Ha & E). apply (inj Some) in E as <-. cbn [concat].
  pose proof (dec_pos o Ho). pose proof (dec_pos i ltac:(lia)).
  assert (writes_in 0 (fun b n => b ←? put_chars b n (str ",</"); b ←? put_number b n o; b ←? put_chars b n (str "/");
            b ←? put_number b n i; put_chars b n (str ">")) (str ",</" ++ dec o ++ str "/" ++ dec i ++ str ">")) as Hw.
  { repeat (eapply writes_in_seq; [apply writes_in_chars || (apply writes_in_number; lia)| |lia|lia]). apply writes_in_chars. }
  replace ((str ",</" ++ dec o ++ str "/" ++ dec i ++ str ">" ++ a) ++ concat ts')
    with ((str ",</" ++ dec o ++ str "/" ++ dec i ++ str ">") ++ a ++ concat ts') by (by rewrite <- !app_assoc).
  apply (puts_lift_then 0 _ (fun b n => b ⇐ put_attributes o i b n; put_links o l b n) _ _ Hw); [|lia].
  apply puts_then; [apply puts_attributes; [lia|done]|by apply IH].
Qed.

Lemma puts_own o : object_ok o -> puts (fun b n => lift (put_own o b n)) (own_text o).
Proof.
  intros [Hid Hma Hmi _]. unfold is_id in Hid. apply puts_lift. unfold put_own, own_text.
  pose proof (dec_pos (versionMajor o) ltac:(lia)). pose proof (dec_pos (versionMinor o) ltac:(lia)).
  destruct (has_link o); [|apply writes_in_nothing].
  eapply writes_in_seq; [apply writes_in_chars| |lia|lia].
  eapply writes_in_seq; [apply writes_in_number; lia| |lia|lia].
  eapply writes_in_seq; [apply writes_in_chars| |lia|lia].
  destruct (is_versioned o); [|apply writes_in_nothing].
  change (str ";ver=") with (str ";" ++ ATTR_VERSION_STR). rewrite <- app_assoc.
  eapply writes_in_seq; [apply writes_in_chars| |lia|lia].
  eapply writes_in_seq; [apply writes_in_string; by repeat constructor| |lens|lia].
  eapply writes_in_seq; [apply writes_in_number; lia| |lia|lia].
  eapply writes_in_seq; [apply writes_in_chars|apply writes_in_number; lia|lia|lia].
Qed.

Lemma puts_list u l ts : Forall ids_ok l -> mapM object_text (filter (fun o => skipped u o = false) l) = Some ts ->
  puts (put_list u l) (concat ts).
Proof.
  intros Hl. revert ts. induction Hl as [|o l [Ho Hi] Hl IH]; intros ts Hts.
  { injection Hts as <-. apply puts_done. }
  destruct (skipped u o) eqn:Es.
  { rewrite list.filter_cons_False in Hts by congruence.
    eapply puts_ext; [intros b n; cbn [put_list]; rewrite Es; reflexivity|]. by apply IH. }
  rewrite list.filter_cons_True in Hts by done. cbn [mapM] in Hts.
  apply bind_Some in Hts as (t & Ht & Hts). apply bind_Some in Hts as (ts' & Hts' & E). injection E as <-.
  apply bind_Some in Ht as (a & Ha & E). injection E as <-. cbn [concat]. rewrite <- app_assoc.
  eapply puts_ext; [intros b n; cbn [put_list]; rewrite Es; reflexivity|]. pose proof (ok_id o Ho) as Hid. unfold is_id in Hid.
  apply puts_then; [by apply puts_own|]. apply puts_then; [apply puts_links; [lia|done..]|by apply IH].
Qed.

(** An object has at least one link. *)
Lemma object_text_pos o t : object_text o = Some t -> 0 < len t.
Proof.
  unfold object_text. intros H. apply bind_Some in H as (l & Hl & E). injection E as <-. unfold own_text, has_link.
  change (str ",</") with ([44; 60; 47]). destruct (instanceList o) as [|i is_] eqn:Ei; [lens|].
  cbn [mapM] in Hl. apply bind_Some in Hl as (a & Ha & Hl). apply bind_Some in Hl as (l' & _ & E). injection E as <-.
  apply bind_Some in Ha as (b & _ & E). injection E as <-. change (str ",</") with ([44; 60; 47]). cbn [concat]. lens.
Qed.
End agree.

(** The request that is not refused has an object to list. *)
Lemma listed_object u : refused c0 u = None -> objects c0 <> [] -> exists o, o ∈ objects c0 /\ skipped u o = false.
Proof.
  intros Er Hne. unfold refused in Er. unfold skipped. destruct (LWM2M_URI_IS_SET_OBJECT u).
  - destruct (_ || _); [done|]. destruct (find_object c0 (objectId u)) as [x|] eqn:Ex; [|done].
    destruct (remove_after_spec _ _ _ Ex) as (l1 & l2 & El & _ & Hid & _). change (objID x = objectId u) in Hid.
    exists x. unfold objects in *. rewrite El, Hid, Z.eqb_refl. split; [set_solver|done].
  - destruct (objects c0) as [|o l]; [done|]. exists o. split; [left|done].
Qed.

Lemma links_pos u ts : refused c0 u = None -> objects c0 <> [] ->
  mapM object_text (filter (fun o => skipped u o = false) (objects c0)) = Some ts -> 0 < len (concat ts).
Proof.
  intros Er Hne Ets. destruct (listed_object u Er Hne) as (x & Hx & Hs).
  assert (x ∈ filter (fun o => skipped u o = false) (objects c0)) as Hin by by apply list_elem_of_filter.
  destruct (filter _ _) as [|o l]; [by apply not_elem_of_nil in Hin|].
  cbn [mapM] in Ets. apply bind_Some in Ets as (t & Ht & E). apply bind_Some in E as (l' & _ & E). injection E as <-.
  pose proof (object_text_pos o t Ht). cbn [concat]. lens.
Qed.

(** C17. A Bootstrap-Discover is answered with the links of the objects, and with 5.00
    when one of the attributes cannot be read: the length of the first pass is
    enough for the second one. *)
Theorem bootstrapDiscover_correct u :
  (forall n, malloc_ok n = true) -> (forall n, 0 <= n -> len (junk n) = n) -> readable ->
  objects c0 <> [] -> Forall ids_ok (objects c0) -> (forall t, bootstrap_links u = Some t -> len t < 2 ^ 30) ->
  match refused c0 u, bootstrap_links u with
  | Some r, _ => prv_handleBootstrapDiscover c0 u = Some (r, None, 0, c0)
  | None, Some text => exists rest c', user_only c0 c' /\
      prv_handleBootstrapDiscover c0 u = Some (COAP_205_CONTENT, Some (text ++ rest), len text, c')
  | None, None => exists c', user_only c0 c' /\
      prv_handleBootstrapDiscover c0 u = Some (COAP_500_INTERNAL_SERVER_ERROR, None, 0, c')
  end.
Proof.
  intros Hm Hj Hr Hne Hok Hlen. unfold prv_handleBootstrapDiscover. destruct (refused c0 u) as [r|] eqn:Er; [done|].
  destruct (counts_list Hr Hj u (objects c0) Hok (4 + (len QUERY_VERSION + len LWM2M_VERSION))) as (n & Hn & Ht).
  destruct (Hn c0 (user_only_refl c0)) as (c1 & E1 & H1). rewrite E1. mstep.
  unfold bootstrap_links in *. destruct (mapM object_text _) as [ts|] eqn:Ets; cbn [mbind option_bind] in *.
  2: { subst n. by exists c1. }
  destruct Ht as (n' & -> & Hn'). rewrite Hm. cbn [negb].
  specialize (Hlen _ eq_refl). rewrite length_app in Hlen. change (length (str "</>;lwm2m=1.1")) with 13%nat in Hlen.
  change (4 + (len QUERY_VERSION + len LWM2M_VERSION)) with 13 in Hn'.
  assert (0 < len (concat ts)) as Hpos by by apply (links_pos u).
  pose proof (Hj n' ltac:(lia)) as Hjn.
  assert (puts (fun b n => b ⇐ lift (b ←? put_chars b n (str "</>;"); b ←? put_string b n (QUERY_VERSION ++ [0]);
                                     put_string b n (LWM2M_VERSION ++ [0])); put_list u (objects c0) b n)
            (str "</>;lwm2m=1.1" ++ concat ts)) as Hp.
  { apply (puts_lift_then 1 _ (put_list u (objects c0))); [|by apply puts_list|lia].
    change (str "</>;lwm2m=1.1") with (str "</>;" ++ QUERY_VERSION ++ LWM2M_VERSION).
    eapply writes_in_seq; [apply writes_in_chars| |lia|lia].
    eapply writes_in_seq; [apply writes_in_string; by repeat constructor|apply writes_in_string; by repeat constructor|lens|lia]. }
  destruct (Hp [] (junk n') n') as (q & _ & Hs); [done|unfold INT_MAX; lia|rewrite length_app; change (length (str "</>;lwm2m=1.1")) with 13%nat; lia|].
  destruct (Hs c1 H1) as (c2 & E2 & H2). change ([] ++ junk n', len ([] : list Z)) with (junk n', 0) in E2. cbv beta in E2.
  rewrite E2. exists q, c2. split; [done|]. mstep. by rewrite Z.add_0_l.
Qed.
End links.
End discover.
(** ** Examples *)

(** A client with its bootstrap server in the Security instance 0 and a server,
    with the short identifier 123, in the instance 1. *)
Module Known.
Definition resource (o i r : Z) : lwm2m_data_type_t * value_t :=
  if o =? 0 then
    if r =? 1 then (LWM2M_TYPE_BOOLEAN, VBoolean (i =? 0))
    else if r =? 0 then (LWM2M_TYPE_STRING, VBuffer (str "coap://s"))
    else (LWM2M_TYPE_UNSIGNED_INTEGER, VUnsigned 123)
  else (LWM2M_TYPE_UNSIGNED_INTEGER, VUnsigned 123).
Definition filled (o i : Z) (d : lwm2m_data_t) : lwm2m_data_t :=
  let '(t, v) := resource o i (d_id d) in mk_data t (d_id d) v.
#[export] Instance callbacks : ObjectCallbacks Z unit unit unit Z := {|
  read_callback _ c id dataP o := (COAP_205_CONTENT, map (filled (objID o) id) dataP, 1 + user (app (rest c)));
  discover_callback _ c _ dataP _ := (COAP_205_CONTENT, dataP, user (app (rest c)));
  write_callback _ c _ _ _ _ := (COAP_204_CHANGED, c);
  execute_callback _ c _ _ _ _ _ := (COAP_204_CHANGED, c);
  create_callback _ c id _ o := (COAP_201_CREATED, c);
  delete_callback _ c id o :=
    (COAP_202_DELETED, set_client c ((app (rest c)) <| objectList := map (Sample.remove_instance (objID o) id) (objects c) |>));
  node_survives _ := true |}.
Definition client : lwm2m_context_t Z unit unit (world_t Z server_info (client_t unit Z)) :=
  Sample.context_of [Sample.object 0 [0; 1]; Sample.object 1 [0]; (Sample.object 3 [0]) <| versionMajor := 1 |>; Sample.object 5 []] [].
End Known.
Import Known.

Lemma known_ids (o : lwm2m_object_t unit) : is_id (objID o) -> 0 <= versionMajor o < 256 -> 0 <= versionMinor o < 256 ->
  Forall (fun i => 0 <= i < 2) (instanceList o) -> ids_ok o.
Proof.
  intros Ho Ha Hb Hi. split; [split; [done..|]|]; (eapply list.Forall_impl; [exact Hi|]); unfold is_id, LWM2M_MAX_ID; intros; lia.
Qed.

Lemma bootstrapDiscover_correct_witness :
  let _ := malloc_always in
  let all := mk_uri 65535 65535 65535 65535 in
  let text := str "</>;lwm2m=1.1,</0/0>,</0/1>;ssid=123;uri=" ++ [34] ++ str "coap://s" ++ [34] ++
              str ",</1/0>;ssid=123,</3>;ver=1.0,</3/0>,</5>" in
  exists rest c', prv_handleBootstrapDiscover zero_junk Known.client all =
    Some (COAP_205_CONTENT, Some (text ++ rest), len text, c').
Proof.
  intros HM all text.
  assert (bootstrap_links Known.client all = Some text) as Et by by vm_compute.
  pose proof (bootstrapDiscover_correct zero_junk Known.client all) as H.
  change (refused Known.client all) with (@None Z) in H. rewrite Et in H.
  destruct H as (rest & c' & _ & H).
  - done.
  - intros n Hn. unfold zero_junk. rewrite length_replicate. lia.
  - split.
    + by intros c f id dataP o [b ->].
    + intros f id d o dataP b [= <- <-]. apply list.Forall_singleton. unfold Known.filled, Known.resource.
      destruct (objID o =? 0); [destruct (d_id d =? 1); [|destruct (d_id d =? 0)]|];
        (split; [by eexists|split; [by eexists; split; [done|intros ? [= <-]]|first [by intros ? | intros _; by eexists]]]).
  - done.
  - repeat (apply Forall_cons; split); [apply known_ids; [cbn; unfold is_id; lia..|repeat constructor; lia]..|by apply list.Forall_nil].
  - intros t [= <-]. by vm_compute.
  - exists rest, c'. exact H.
Defined.

(** Without objects the version is cut, as a string copied to the end of a buffer
    gives its last character up for the terminator. *)
Example discover_of_nothing :
  let _ := malloc_always in
  let c := Sample.context_of [] [] in
  exists b c', prv_handleBootstrapDiscover zero_junk c (mk_uri 65535 65535 65535 65535) =
    Some (COAP_205_CONTENT, Some (str "</>;lwm2m=1." ++ b), 12, c').
Proof. intros HM c. exists [0]. eexists. by vm_compute. Qed.

End BootDiscover.
