(* ===== verification/Bootstrap.v ===== *)
(** * The bootstrap of a client (core/bootstrap.c, client part)

    The life of the bootstrap with each bootstrap server: its start, the request
    and its reply, the commands of the server, and the end of the bootstrap.
    [tv_sec] is the result of [lwm2m_gettime].

    A pointer to a bootstrap server is its [secObjInstID]; reading a server that
    is not in the list is undefined.  Times are unbounded integers. *)
From S2P Require Import Prelude.
From S2P Require Import Types.
From S2P Require Import SortedList.
From S2P Require Import Utils.
From S2P Require Import Uri.
From S2P Require Import Data.
From S2P Require Import FloatText.
From S2P Require Import CoapPacket.
From S2P Require Import CoapMessage.
From S2P Require Import CoapOptions.
From S2P Require Import Transaction.
From S2P Require Import Packet.
From S2P Require Import Client.
From S2P Require Import Formats.
From S2P Require Import Objects.
From S2P Require Import RegisterPayload.
From S2P Require Import RegQuery.
From S2P Require Import Registration.
From S2P Require Import Management.
From S2P Require Import BootDiscover.
Import SortedList Utils Uri Data FloatText CoapPacket CoapMessage CoapOptions Transaction Packet Client Formats Objects.
Import RegisterPayload RegQuery Registration Management BootDiscover.

(** The callback of the request and its user data, the bootstrap server. *)
Class BootstrapPointers (CB U : Type) := {
  bootstrap_callback : CB;
  bootstrap_data : Z -> U;
  data_bootstrap : U -> option Z }.

Module Bootstrap.

(** [COAP_EXCHANGE_LIFETIME]: 2 * 15 * 1.5 + 2 * 100 + 2 seconds. *)
Definition COAP_EXCHANGE_LIFETIME : Z := 247.
Definition PRV_QUERY_BUFFER_LENGTH : Z := 200.
Definition LWM2M_ACL_OBJECT_ID : Z := 2.
Definition QUERY_PCT : list Z := str "pct=".
Definition REG_ATTR_CONTENT_SENML_CBOR : list Z := str "112".
Definition URI_BOOTSTRAP_PATH : list Z := str "/bs" ++ [0].

Section bootstrap.
Context {Session CB U F B : Type}.
Context `{HM : Malloc, HS : Sessions Session, HL : LibC, HF : Codecs, HO : ObjectCallbacks Session CB U F B}.
Context `{HN : Connections Session, HP : BootstrapPointers CB U, HU : EqDecision U}.
Context `{HC : Callbacks Session CB U (world_t Session server_info (client_t F B))}.
Context (junk : Z -> list Z).
Abbreviation context := (lwm2m_context_t Session CB U (world_t Session server_info (client_t F B))).
Abbreviation server := (lwm2m_server_t Session server_info).
Abbreviation object := (lwm2m_object_t F).
Abbreviation transaction := (lwm2m_transaction_t Session CB U).

(** ** Access to a bootstrap server *)

Definition bootstrap_servers (contextP : context) : list server := bootstrapServerList (rest contextP).
Definition find_bootstrap (contextP : context) (targetP : Z) : C server :=
  p ← list_find (fun s : server => secObjInstID s = targetP) (bootstrap_servers contextP); ret (snd p).
Definition upd_bootstrap (contextP : context) (targetP : Z) (f : server -> server) : context :=
  set_bootstrap_servers contextP
    (map (fun s => if secObjInstID s =? targetP then f s else s) (bootstrap_servers contextP)).
Definition set_info (f : server_info -> server_info) (s : server) : server := s <| server_rest := f (server_rest s) |>.
Definition set_bs (contextP : context) (targetP : Z) (st : lwm2m_status_t) : context :=
  upd_bootstrap contextP targetP (set_info (fun i => i <| srv_status := st |>)).
(** The status with the time until which it holds. *)
Definition set_until (contextP : context) (targetP time : Z) (st : lwm2m_status_t) : context :=
  upd_bootstrap contextP targetP (set_info (fun i => i <| registration := time |> <| srv_status := st |>)).

(** ** The request *)

Definition prv_handleResponse (tv_sec : Z) (contextP : context) (bootstrapServer : Z) (m : coap_packet_t) : context :=
  if code m =? COAP_204_CHANGED then
    set_until contextP bootstrapServer (tv_sec + COAP_EXCHANGE_LIFETIME) STATE_BS_PENDING
  else set_bs contextP bootstrapServer STATE_BS_FAILING.

Definition prv_handleBootstrapReply (tv_sec : Z) (contextP : context) (transacP : transaction) (m : option coap_packet_t)
    : C context :=
  u ← userData transacP;
  bootstrapServer ← data_bootstrap u;
  s ← find_bootstrap contextP bootstrapServer;
  ret (if bool_decide (srv_status (server_rest s) = STATE_BS_INITIATED) then
         match m with
         | Some m =>
             if bool_decide (p_type m = COAP_TYPE_RST) then set_bs contextP bootstrapServer STATE_BS_FAILING
             else prv_handleResponse tv_sec contextP bootstrapServer m
         | None => set_bs contextP bootstrapServer STATE_BS_FAILING
         end
       else contextP).

(** The query, [None] when it is refused. *)
Definition bootstrap_query (endpointName_ : list Z) : C (option (list Z)) :=
  r ← (o ←? put_string (junk PRV_QUERY_BUFFER_LENGTH, 0) PRV_QUERY_BUFFER_LENGTH (QUERY_STARTER ++ QUERY_NAME ++ [0]);
       o ←? put_string o PRV_QUERY_BUFFER_LENGTH endpointName_;
       o ←? put_string o PRV_QUERY_BUFFER_LENGTH (QUERY_DELIMITER ++ QUERY_PCT ++ [0]);
       put_string o PRV_QUERY_BUFFER_LENGTH (REG_ATTR_CONTENT_SENML_CBOR ++ [0]));
  ret (match r with Some (query, _) => Some query | None => None end).

(** The session of the server, opened when there is none. *)
Definition open_bootstrap (contextP : context) (s : server) : Session * context :=
  if session_is_null (sessionH s) then
    let h := lwm2m_connect_server (secObjInstID s) in
    (h, upd_bootstrap contextP (secObjInstID s) (fun s => s <| sessionH := h |>))
  else (sessionH s, contextP).

Definition prv_requestBootstrap (tv_sec : Z) (contextP : context) (bootstrapServer : Z) : C context :=
  s ← find_bootstrap contextP bootstrapServer;
  query ← bootstrap_query (endpointName (app (rest contextP)));
  match query with
  | None => ret (set_bs contextP bootstrapServer STATE_BS_FAILING)
  | Some query =>
      let '(h, contextP) := open_bootstrap contextP s in
      if session_is_null h then ret (set_bs contextP bootstrapServer STATE_BS_FAILED)
      else
        '(t, contextP) ← new_request junk tv_sec contextP h COAP_POST;
        match t with
        | None => ret (set_bs contextP bootstrapServer STATE_BS_FAILING)
        | Some t =>
            '(_, m) ← coap_set_header_uri_path (message t) URI_BOOTSTRAP_PATH;
            '(_, m) ← coap_set_header_uri_query m query;
            '(r, contextP) ← Registration.add_and_send junk tv_sec contextP
              (t <| message := m |> <| callback := Some bootstrap_callback |>
                 <| userData := Some (bootstrap_data bootstrapServer) |>);
            ret (if r =? 0 then set_bs contextP bootstrapServer STATE_BS_INITIATED else contextP)
        end
  end.

(** ** The step *)

(** [*timeoutP] after the wait of a server. *)
Definition earlier (timeout interval : Z) : Z := if interval <? timeout then interval else timeout.

(** The connection is closed, which is left to the platform. *)
Definition close_bootstrap (contextP : context) (targetP : Z) (st : lwm2m_status_t) : context :=
  upd_bootstrap contextP targetP (fun s =>
    set_info (fun i => i <| srv_status := st |>) (if session_is_null (sessionH s) then s else s <| sessionH := null_session |>)).

(** One server: [*timeoutP] and the context. *)
Definition bootstrap_step_server (tv_sec : Z) (contextP : context) (currentTime timeout : Z) (s : server) : C (Z * context) :=
  let i := server_rest s in
  let targetP := secObjInstID s in
  match srv_status i with
  | STATE_DEREGISTERED =>
      ret (earlier timeout (lifetime i), set_until contextP targetP (currentTime + lifetime i) STATE_BS_HOLD_OFF)
  | STATE_BS_HOLD_OFF =>
      if registration i <=? currentTime then contextP ← prv_requestBootstrap tv_sec contextP targetP; ret (timeout, contextP)
      else ret (earlier timeout (registration i - currentTime), contextP)
  | STATE_BS_PENDING =>
      if registration i <=? currentTime then ret (0, set_bs contextP targetP STATE_BS_FAILING)
      else ret (earlier timeout (registration i - currentTime), contextP)
  | STATE_BS_FINISHING => ret (0, close_bootstrap contextP targetP STATE_BS_FINISHED)
  | STATE_BS_FAILING => ret (0, close_bootstrap contextP targetP STATE_BS_FAILED)
  | _ => ret (timeout, contextP)
  end.

Fixpoint bootstrap_step_loop (n : nat) (tv_sec : Z) (contextP : context) (i : nat) (currentTime timeout : Z) : C (Z * context) :=
  match n with
  | O => ret (timeout, contextP)
  | S n =>
      s ← bootstrap_servers contextP !! i;
      '(timeout, contextP) ← bootstrap_step_server tv_sec contextP currentTime timeout s;
      bootstrap_step_loop n tv_sec contextP (S i) currentTime timeout
  end.

Definition bootstrap_step (tv_sec : Z) (contextP : context) (currentTime timeout : Z) : C (Z * context) :=
  bootstrap_step_loop (length (bootstrap_servers contextP)) tv_sec contextP 0 currentTime timeout.

(** ** Start, status and end *)

Definition bootstrap_handleFinish (contextP : context) (fromSessionH : Session) : C (Z * context) :=
  match utils_findBootstrapServer lwm2m_session_is_equal sessionH (bootstrap_servers contextP) fromSessionH with
  | Some s =>
      if bool_decide (srv_status (server_rest s) = STATE_BS_PENDING) then
        '(r, contextP) ← object_getServers contextP true;
        ret (if r =? 0 then (COAP_204_CHANGED, set_bs contextP (secObjInstID s) STATE_BS_FINISHING)
             else (COAP_406_NOT_ACCEPTABLE, contextP))
      else ret (COAP_IGNORE, contextP)
  | None => ret (COAP_IGNORE, contextP)
  end.

Definition start_server (s : server) : server :=
  let s := set_info (fun i => i <| srv_status := STATE_DEREGISTERED |>) s in
  if session_is_null (sessionH s) then s <| sessionH := lwm2m_connect_server (secObjInstID s) |> else s.
Definition bootstrap_start (contextP : context) : context :=
  set_bootstrap_servers contextP (map start_server (bootstrap_servers contextP)).

Definition merge_bootstrap (bs_status st : lwm2m_status_t) : lwm2m_status_t :=
  match st with
  | STATE_BS_FINISHED => match bs_status with STATE_BS_FAILED => STATE_BS_FINISHED | _ => bs_status end
  | STATE_BS_HOLD_OFF | STATE_BS_INITIATED | STATE_BS_PENDING | STATE_BS_FINISHING | STATE_BS_FAILING => STATE_BS_PENDING
  | _ => bs_status
  end.
Definition bootstrap_getStatus (contextP : context) : lwm2m_status_t :=
  fold_left (fun r s => merge_bootstrap r (srv_status (server_rest s))) (bootstrap_servers contextP) STATE_BS_FAILED.

(** ** Commands of the server *)

(** The result and the context. *)
Definition prv_checkServerStatus (tv_sec : Z) (contextP : context) (serverP : Z) : C (Z * context) :=
  s ← find_bootstrap contextP serverP;
  match srv_status (server_rest s) with
  | STATE_BS_HOLD_OFF | STATE_BS_INITIATED => ret (COAP_NO_ERROR, set_bs contextP serverP STATE_BS_PENDING)
  | STATE_DEREGISTERED | STATE_BS_PENDING =>
      ret (COAP_NO_ERROR,
           upd_bootstrap contextP serverP (set_info (fun i => i <| registration := tv_sec + COAP_EXCHANGE_LIFETIME |>)))
  | _ => ret (COAP_IGNORE, contextP)
  end.

Definition tag (s : server) : server := set_info (fun i => i <| dirty := true |>) s.

(** The server of a Security instance is to be read again. *)
Definition prv_tagServer (contextP : context) (id : Z) : context :=
  match lwm2m_list_find (bootstrap_servers contextP) id with
  | Some s => upd_bootstrap contextP (secObjInstID s) tag
  | None =>
      match lwm2m_list_find (servers contextP) id with
      | Some s => upd_server contextP (secObjInstID s) tag
      | None => contextP
      end
  end.

(** All servers but [serverP], or all of them. *)
Definition prv_tagAllServer (contextP : context) (serverP : option Z) : context :=
  let contextP := set_bootstrap_servers contextP
    (map (fun s => if bool_decide (serverP = Some (secObjInstID s)) then s else tag s) (bootstrap_servers contextP)) in
  set_servers contextP (map tag (servers contextP)).

(** The deletion of the Security instances but the one of the server, from a place
    of the list on; each deletion goes back to its head. *)
Fixpoint delete_others (fuel : nat) (contextP : context) (objectId_ keep : Z) (instances : list Z) : C (Z * context) :=
  match fuel with
  | O => None
  | S fuel =>
      match instances with
      | [] => ret (COAP_202_DELETED, contextP)
      | id :: next =>
          if id =? keep then delete_others fuel contextP objectId_ keep next
          else
            '(result, contextP) ← object_delete contextP (mk_uri objectId_ id LWM2M_MAX_ID LWM2M_MAX_ID);
            if result =? COAP_202_DELETED then
              objectP ← find_object contextP objectId_;
              delete_others fuel contextP objectId_ keep (instanceList objectP)
            else ret (result, contextP)
      end
  end.

(** Each deletion follows at most one instance that is kept. *)
Definition others_fuel : nat := Z.to_nat (2 * 65537).

(** The loop is left out when something has failed before. *)
Definition delete_security (contextP : context) (keep : Z) (result : Z) (objectP : object) : C (Z * context) :=
  '(result, contextP) ←
    (if result =? COAP_202_DELETED
     then delete_others others_fuel contextP (objID objectP) keep (instanceList objectP)
     else ret (result, contextP));
  ret (result, if result =? COAP_202_DELETED then prv_tagAllServer contextP (Some keep) else contextP).

(** The loop over the objects, from position [i] on, for a Delete on the Security
    object. *)
Fixpoint delete_security_loop (n : nat) (contextP : context) (i : nat) (keep result : Z) : C (Z * context) :=
  match n with
  | O => ret (result, contextP)
  | S n =>
      objectP ← objects contextP !! i;
      '(result, contextP) ←
        (if objID objectP =? LWM2M_SECURITY_OBJECT_ID then delete_security contextP keep result objectP
         else ret (result, contextP));
      delete_security_loop n contextP (S i) keep result
  end.

(** A Write on a whole object, one instance after another. *)
Fixpoint write_instances (contextP : context) (uriP : lwm2m_uri_t) (dataP : list lwm2m_data_t) (result : Z) : C (Z * context) :=
  match dataP with
  | [] => ret (result, contextP)
  | d :: dataP =>
      match d_type d with
      | LWM2M_TYPE_OBJECT_INSTANCE =>
          '(result, contextP) ←
            (if object_isInstanceNew contextP (objectId uriP) (d_id d) then
               '(result, contextP) ← object_createInstance contextP uriP d;
               ret (if result =? COAP_201_CREATED then COAP_204_CHANGED else result, contextP)
             else
               '(result, contextP) ← object_writeInstance contextP uriP d;
               ret (result,
                    if (objectId uriP =? LWM2M_SECURITY_OBJECT_ID) && (result =? COAP_204_CHANGED)
                    then prv_tagServer contextP (d_id d) else contextP));
          if negb (result =? COAP_204_CHANGED) then ret (result, contextP)
          else write_instances contextP uriP dataP result
      | _ => write_instances contextP uriP dataP COAP_400_BAD_REQUEST
      end
  end.

Definition bs_put (contextP : context) (uriP : lwm2m_uri_t) (format : Z) (m : coap_packet_t) : C (Z * context) :=
  if LWM2M_URI_IS_SET_INSTANCE uriP then
    if object_isInstanceNew contextP (objectId uriP) (instanceId uriP) then
      '(result, _, contextP) ← object_create contextP uriP format (payload m) (payload_len m);
      ret (if result =? COAP_201_CREATED then COAP_204_CHANGED else result, contextP)
    else
      '(result, contextP) ← object_write contextP uriP format (default [] (payload m)) (payload_len m) false;
      ret (result,
           if (objectId uriP =? LWM2M_SECURITY_OBJECT_ID) && (result =? COAP_204_CHANGED)
           then prv_tagServer contextP (instanceId uriP) else contextP)
  else
    match payload m with
    | None => ret (COAP_400_BAD_REQUEST, contextP)
    | Some payload_ =>
        if payload_len m =? 0 then ret (COAP_400_BAD_REQUEST, contextP)
        else
          '(size, dataP) ← lwm2m_data_parse uriP payload_ (payload_len m) format;
          if size =? 0 then ret (COAP_500_INTERNAL_SERVER_ERROR, contextP)
          else write_instances contextP uriP (take (Z.to_nat size) dataP) COAP_NO_ERROR
    end.

Definition bs_delete (contextP : context) (uriP : lwm2m_uri_t) (serverP : Z) : C (Z * context) :=
  if LWM2M_URI_IS_SET_RESOURCE uriP then ret (COAP_400_BAD_REQUEST, contextP)
  else if (objectId uriP =? LWM2M_SECURITY_OBJECT_ID) && negb (LWM2M_URI_IS_SET_INSTANCE uriP) then
    delete_security_loop (length (objects contextP)) contextP 0 serverP COAP_202_DELETED
  else
    '(result, contextP) ← object_delete contextP uriP;
    ret (result,
         if (objectId uriP =? LWM2M_SECURITY_OBJECT_ID) && (result =? COAP_202_DELETED) then
           if LWM2M_URI_IS_SET_INSTANCE uriP then prv_tagServer contextP (instanceId uriP)
           else prv_tagAllServer contextP None
         else contextP).

(** The status, [*formatP], the buffer with [*lengthP], and the context. *)
Definition prv_handleBootstrapRead (contextP : context) (uriP : lwm2m_uri_t) (acceptNum : Z) (accept_ : list Z) (format : Z)
    : C (Z * Z * option (list Z) * Z * context) :=
  if LWM2M_URI_IS_SET_OBJECT uriP &&
     ((objectId uriP =? LWM2M_SERVER_OBJECT_ID) || (objectId uriP =? LWM2M_ACL_OBJECT_ID))
  then object_read junk contextP uriP accept_ acceptNum format
  else ret (COAP_400_BAD_REQUEST, format, None, 0, contextP).

Definition bs_get (contextP : context) (uriP : lwm2m_uri_t) (format : Z) (m response : coap_packet_t)
    : C (Z * context * coap_packet_t) :=
  link ← (if IS_OPTION m COAP_OPTION_ACCEPT && (accept_num m =? 1) then
            a ← rd (accept m) 0; ret (a =? APPLICATION_LINK_FORMAT)
          else ret false);
  if (link : bool) then
    '(result, buffer, length, contextP) ← prv_handleBootstrapDiscover junk contextP uriP;
    response ← set_content result LWM2M_CONTENT_LINK buffer length response;
    ret (result, contextP, response)
  else
    '(result, format, buffer, length, contextP) ← prv_handleBootstrapRead contextP uriP (accept_num m) (accept m) format;
    response ← set_content result format buffer length response;
    ret (result, contextP, response).

(** A bootstrap that the server has initiated begins with a command that succeeds. *)
Definition mark_pending (contextP : context) (serverP result : Z) : C context :=
  if (result =? COAP_202_DELETED) || (result =? COAP_204_CHANGED) then
    s ← find_bootstrap contextP serverP;
    ret (if bool_decide (srv_status (server_rest s) = STATE_BS_PENDING) then contextP
         else set_state (set_bs contextP serverP STATE_BS_PENDING) STATE_BOOTSTRAPPING)
  else ret contextP.

(** The status, the context and the response. *)
Definition bootstrap_handleCommand (tv_sec : Z) (contextP : context) (uriP : lwm2m_uri_t) (server_ : server)
    (m response : coap_packet_t) : C (Z * context * coap_packet_t) :=
  let serverP := secObjInstID server_ in
  let format := utils_convertMediaType (content_type m) in
  '(result, contextP) ← prv_checkServerStatus tv_sec contextP serverP;
  if negb (result =? COAP_NO_ERROR) then ret (result, contextP, response)
  else
    '(result, contextP, response) ←
      (if code m =? COAP_PUT then '(result, contextP) ← bs_put contextP uriP format m; ret (result, contextP, response)
       else if code m =? COAP_DELETE then
         '(result, contextP) ← bs_delete contextP uriP serverP; ret (result, contextP, response)
       else if code m =? COAP_GET then bs_get contextP uriP format m response
       else ret (COAP_400_BAD_REQUEST, contextP, response));
    contextP ← mark_pending contextP serverP result;
    ret (result, contextP, response).

(** ** Delete all *)

(** The loop over the objects, from position [i] on; the result is that of the
    last object. *)
Fixpoint delete_all_loop (n : nat) (contextP : context) (i : nat) (keep result : Z) : C (Z * context) :=
  match n with
  | O => ret (result, contextP)
  | S n =>
      objectP ← objects contextP !! i;
      '(result, contextP) ←
        (if objID objectP =? LWM2M_SECURITY_OBJECT_ID then delete_security contextP keep result objectP
         else
           '(result, contextP) ← object_delete contextP (mk_uri (objID objectP) LWM2M_MAX_ID LWM2M_MAX_ID LWM2M_MAX_ID);
           ret (if result =? COAP_405_METHOD_NOT_ALLOWED then COAP_202_DELETED else result, contextP));
      delete_all_loop n contextP (S i) keep result
  end.

Definition bootstrap_handleDeleteAll (tv_sec : Z) (contextP : context) (fromSessionH : Session) : C (Z * context) :=
  match utils_findBootstrapServer lwm2m_session_is_equal sessionH (bootstrap_servers contextP) fromSessionH with
  | None => ret (COAP_IGNORE, contextP)
  | Some s =>
      '(result, contextP) ← prv_checkServerStatus tv_sec contextP (secObjInstID s);
      if negb (result =? COAP_NO_ERROR) then ret (result, contextP)
      else delete_all_loop (length (objects contextP)) contextP 0 (secObjInstID s) COAP_202_DELETED
  end.
End bootstrap.
End Bootstrap.
