(* ===== verification/BootMachine.v ===== *)
(** * The bootstrap as a state machine

    The abstract machine of a bootstrap: the moves of the status of a bootstrap
    server at each event.  The operations of Bootstrap.v make no other move
    ([bootstrap_refines_machine]), and a bootstrap counts as finished only once
    its server has asked for the end ([finished_was_asked]).  The overall status
    and the effect of a Delete on everything are stated at the end. *)
From S2P Require Import Prelude.
From S2P Require Import Types.
From S2P Require Import SortedList.
From S2P Require Import Utils.
From S2P Require Import Uri.
From S2P Require Import Data.
From S2P Require Import FloatText.
From S2P Require Import CoapPacket.
From S2P Require Import CoapMessage.
From S2P Require Import CoapOptions.
From S2P Require Import Transaction.
From S2P Require Import Packet.
From S2P Require Import Client.
From S2P Require Import Observed.
From S2P Require Import Formats.
From S2P Require Import Objects.
From S2P Require Import RegisterPayload.
From S2P Require Import RegQuery.
From S2P Require Import Registration.
From S2P Require Import RegMachine.
From S2P Require Import Management.
From S2P Require Import BootDiscover.
From S2P Require Import Bootstrap.
Import SortedList Utils Uri Data FloatText CoapPacket CoapMessage CoapOptions Transaction Packet Client Observed Formats Objects.
Import RegisterPayload RegQuery Registration RegMachine Management BootDiscover Bootstrap.

Module BootMachine.

(** The execution of a hypothesis, to its end. *)
Ltac runs H := repeat (run1 H; try (cbv beta iota in H); subst).

Section machine.
Context {Session CB U F B : Type}.
Context `{HM : Malloc, HS : Sessions Session, HL : LibC, HF : Codecs, HO : ObjectCallbacks Session CB U F B}.
Context `{HN : Connections Session, HP : BootstrapPointers CB U, HU : EqDecision U}.
Context `{HC : Callbacks Session CB U (world_t Session server_info (client_t F B))}.
Context (junk : Z -> list Z).
Abbreviation context := (lwm2m_context_t Session CB U (world_t Session server_info (client_t F B))).
Abbreviation server := (lwm2m_server_t Session server_info).
Abbreviation object := (lwm2m_object_t F).
Abbreviation transaction := (lwm2m_transaction_t Session CB U).
Implicit Types (c : context) (s : server) (t : transaction) (st : lwm2m_status_t).

(** ** The machine *)

Inductive bs_event :=
  | BStart
  | BReply (t : transaction) (p : option coap_packet_t)
  | BStep (currentTime timeout : Z)
  | BFinish (from : Session)
  | BCommand (s : server) (u : lwm2m_uri_t) (m response : coap_packet_t)
  | BDeleteAll (from : Session).

(** The answer that accepts a request. *)
Definition accepts (p : option coap_packet_t) : Prop :=
  exists m, p = Some m /\ p_type m <> COAP_TYPE_RST /\ code m = COAP_204_CHANGED.

(** The moves of the bootstrap server [i]. *)
Inductive bs_moves : bs_event -> Z -> lwm2m_status_t -> lwm2m_status_t -> Prop :=
  | b_stays e i st : bs_moves e i st st
  | b_restarts i st : bs_moves BStart i st STATE_DEREGISTERED
  | b_accepted t p i : userData t ≫= data_bootstrap = Some i -> accepts p ->
      bs_moves (BReply t p) i STATE_BS_INITIATED STATE_BS_PENDING
  | b_refused t p i : userData t ≫= data_bootstrap = Some i -> ~ accepts p ->
      bs_moves (BReply t p) i STATE_BS_INITIATED STATE_BS_FAILING
  | b_waits now d i : bs_moves (BStep now d) i STATE_DEREGISTERED STATE_BS_HOLD_OFF
  | b_asks now d i : bs_moves (BStep now d) i STATE_BS_HOLD_OFF STATE_BS_INITIATED
  | b_cannot now d i st : st = STATE_BS_FAILING \/ st = STATE_BS_FAILED -> bs_moves (BStep now d) i STATE_BS_HOLD_OFF st
  | b_late now d i : bs_moves (BStep now d) i STATE_BS_PENDING STATE_BS_FAILING
  | b_ends now d i : bs_moves (BStep now d) i STATE_BS_FINISHING STATE_BS_FINISHED
  | b_fails now d i : bs_moves (BStep now d) i STATE_BS_FAILING STATE_BS_FAILED
  | b_finishes from i : bs_moves (BFinish from) i STATE_BS_PENDING STATE_BS_FINISHING
  | b_commanded s u m r i st : i = secObjInstID s ->
      st = STATE_DEREGISTERED \/ st = STATE_BS_HOLD_OFF \/ st = STATE_BS_INITIATED ->
      bs_moves (BCommand s u m r) i st STATE_BS_PENDING
  | b_deletes from i st : st = STATE_BS_HOLD_OFF \/ st = STATE_BS_INITIATED -> bs_moves (BDeleteAll from) i st STATE_BS_PENDING.

(** The operation of an event at the time [tv]. *)
Definition bs_exec (tv : Z) (e : bs_event) (c : context) : C context :=
  match e with
  | BStart => ret (bootstrap_start c)
  | BReply t p => prv_handleBootstrapReply tv c t p
  | BStep now d => '(_, c) ← bootstrap_step junk tv c now d; ret c
  | BFinish from => '(_, c) ← bootstrap_handleFinish c from; ret c
  | BCommand s u m r => '(_, c, _) ← bootstrap_handleCommand junk tv c u s m r; ret c
  | BDeleteAll from => '(_, c) ← bootstrap_handleDeleteAll tv c from; ret c
  end.

(** The callbacks of the objects leave the bootstrap servers alone. *)
Class BootstrapLaw := {
  write_bootstrap f c id l o w r c' : write_callback f c id l o w = (r, c') -> bootstrap_servers c' = bootstrap_servers c;
  create_bootstrap f c id l o r c' : create_callback f c id l o = (r, c') -> bootstrap_servers c' = bootstrap_servers c;
  delete_bootstrap f c id o r c' : delete_callback f c id o = (r, c') -> bootstrap_servers c' = bootstrap_servers c }.

(** ** Changes of the bootstrap servers *)

Definition bs_distinct c : Prop := NoDup (map id_of (bootstrap_servers c)).
Abbreviation rel := (Z -> lwm2m_status_t -> lwm2m_status_t -> Prop).

Lemma rel_refl (R : rel) (l : list server) : (forall i st, R i st st) -> relates R l l.
Proof. intros HR. by apply list.Forall_Forall2_diag, list.Forall_true. Qed.

Lemma rel_trans (R1 R2 R : rel) (l l1 l2 : list server) :
  relates R1 l l1 -> relates R2 l1 l2 -> (forall i st1 st2 st3, R1 i st1 st2 -> R2 i st2 st3 -> R i st1 st3) -> relates R l l2.
Proof.
  intros H1 H2 HR. revert l2 H2. induction H1 as [|s s1 l l1 [Hi Hs] _ IH]; intros l2 H2; inversion_clear H2 as [|? s2 ? l2' [Hi2 Hs2]]; constructor.
  - split; [congruence|]. rewrite Hi in Hs2. by eapply HR.
  - by apply IH.
Qed.

Lemma found_is (P : lwm2m_status_t -> Prop) c j s :
  bs_distinct c -> s ∈ bootstrap_servers c -> id_of s = j -> P (st_of s) -> server_is P j (bootstrap_servers c).
Proof.
  intros Hd Hs Hi HPs. apply list.Forall_forall. intros s' Hs' E.
  assert (s' = s) as ->; [|done]. eapply distinct_eq; [exact Hd|done|done|congruence].
Qed.

Lemma find_bootstrap_in c i s : find_bootstrap c i = Some s -> s ∈ bootstrap_servers c /\ id_of s = i.
Proof.
  unfold find_bootstrap. intros (p & Hp & [= <-])%bind_Some. destruct p as [n x].
  apply list_find_Some in Hp as (Hn & Hi & _). split; [by eapply list_elem_of_lookup_2|done].
Qed.

(** Writing to the server [j], of which [P] holds. *)
Lemma upd_rel (P : lwm2m_status_t -> Prop) (R : rel) c j (f : server -> server) :
  server_is P j (bootstrap_servers c) -> (forall i st, i <> j -> R i st st) ->
  (forall s, id_of s = j -> id_of (f s) = j /\ (P (st_of s) -> R j (st_of s) (st_of (f s)))) ->
  relates R (bootstrap_servers c) (bootstrap_servers (upd_bootstrap c j f)).
Proof.
  intros Hp HR Hf. unfold upd_bootstrap, set_bootstrap_servers, bootstrap_servers, update in *. cbn.
  induction Hp as [|s l Hs Hl IH]; cbn; constructor; [|done].
  destruct (secObjInstID s =? j) eqn:E; [|split; [done|apply HR; unfold id_of; lia]].
  assert (id_of s = j) as Ej by (unfold id_of; lia). destruct (Hf s Ej) as [H1 H2]. split; [congruence|]. rewrite Ej. auto.
Qed.

Lemma any_is j (l : list server) : server_is (fun _ => True) j l.
Proof. by apply list.Forall_true. Qed.

(** The status is kept. *)
Lemma upd_kept (R : rel) c j (f : server -> server) :
  (forall i st, R i st st) -> (forall s, id_of (f s) = id_of s /\ st_of (f s) = st_of s) ->
  relates R (bootstrap_servers c) (bootstrap_servers (upd_bootstrap c j f)).
Proof.
  intros HR Hf. apply (upd_rel (fun _ => True)); [apply any_is|by intros; apply HR|]. intros s <-. destruct (Hf s) as [-> ->]. auto.
Qed.

(** The status is written. *)
Lemma set_bs_rel (P : lwm2m_status_t -> Prop) (R : rel) c j st' :
  server_is P j (bootstrap_servers c) -> (forall i st, R i st st) -> (forall st, P st -> R j st st') ->
  relates R (bootstrap_servers c) (bootstrap_servers (set_bs c j st')).
Proof. intros Hp HR H. eapply upd_rel; [exact Hp|by intros; apply HR|]. intros s <-. split; [done|]. intros Hs. by apply H. Qed.

(** ** Parts that leave them alone *)

Definition same c c' : Prop := bootstrap_servers c' = bootstrap_servers c.
Lemma same_refl c : same c c.
Proof. done. Qed.
Lemma same_trans c c1 c2 : same c c1 -> same c1 c2 -> same c c2.
Proof. unfold same. congruence. Qed.
Lemma user_only_same c c' : user_only c c' -> same c c'.
Proof. by intros [b ->]. Qed.
Lemma rest_same c c' : rest c' = rest c -> same c c'.
Proof. unfold same, bootstrap_servers. by intros ->. Qed.

Lemma readData_user c u r d c' : object_readData c u = Some (r, d, c') -> user_only c c'.
Proof.
  unfold object_readData. intros H.
  assert (forall f id l o, user_only c (call_read f c id l o).2) as Hcall by (intros; apply call_read_user).
  assert (forall o f l, user_only c (instances_loop (fun c id => call_read f c id [] o) c l).2) as Hloop
    by (intros; apply instances_loop_user; intros; apply call_read_user).
  destruct (find_object c _) as [o|]; [|runs H; apply user_only_refl]. destruct (readFunc o) as [f|]; [|runs H; apply user_only_refl].
  destruct (LWM2M_URI_IS_SET_INSTANCE u).
  - destruct (negb _); [runs H; apply user_only_refl|]. mb H q Hq. destruct q as [l|]; [|runs H; apply user_only_refl].
    specialize (Hcall f (instanceId u) l o). destruct (call_read _ _ _ _ _) as [[? ?] ?]. by runs H.
  - destruct (instanceList o) as [|i l]; [runs H; apply user_only_refl|].
    destruct (lwm2m_data_new _); [|runs H; apply user_only_refl].
    specialize (Hloop o f (i :: l)). destruct (instances_loop _ _ _) as [[? ?] ?]. by runs H.
Qed.

Lemma read_user c u a n f r f' b l c' : object_read junk c u a n f = Some (r, f', b, l, c') -> user_only c c'.
Proof.
  unfold object_read. intros H. mb H x Hx. destruct x as [[r0 d] c1]. apply readData_user in Hx.
  destruct (r0 =? _); [|by runs H]. mb H y Hy. destruct y as [r1 f1]. destruct (r1 =? _); [|by runs H].
  mb H z Hz. destruct z as [[r2 f2] b2]. destruct (r2 <? 0); by runs H.
Qed.

Lemma find_instance_user o sid l : forall c r c', find_server_instance c o sid l = Some (r, c') -> user_only c c'.
Proof.
  induction l as [|i l IH]; intros c r c' H; cbn [find_server_instance] in H; [runs H; apply user_only_refl|].
  mb H x Hx. destruct x as [[[r0 d] c1]|]; [|runs H; apply user_only_refl]. apply read_resources_user in Hx.
  destruct (negb _); [by runs H|]. mb H y Hy. mb H v Hv. destruct (bool_decide _); [by runs H|].
  apply IH in H. by eapply user_only_trans.
Qed.

Lemma mandatory_user c o i x r y c' : prv_getMandatoryInfo c o i x = Some (r, y, c') -> user_only c c'.
Proof.
  unfold prv_getMandatoryInfo. intros H. mb H p Hp. destruct p as [[[r0 d] c1]|]; [|runs H; apply user_only_refl].
  apply read_resources_user in Hp. runs H; done.
Qed.

Lemma number_user c o i res lo hi r c' : read_number c o i res lo hi = Some (r, c') -> user_only c c'.
Proof.
  unfold read_number. intros H. mb H p Hp. destruct p as [[[r0 d] c1]|]; [|runs H; apply user_only_refl].
  apply read_resources_user in Hp. runs H; done.
Qed.

(** A check of the servers reads only. *)
Lemma get_server_user c so vo id r c' : get_server c so vo true id = Some (r, c') -> user_only c c'.
Proof.
  unfold get_server. intros H. mb H p Hp. destruct p as [[[r0 d] c1]|]; [|runs H; apply user_only_refl].
  apply read_resources_user in Hp. destruct (negb _); [by runs H|]. destruct (negb _); [by runs H|]. mb H x Hx. mb H y Hy.
  destruct y as [[]|]; [| |by runs H].
  - mb H z Hz. destruct z as [v c2]. apply number_user in Hz. destruct v; runs H; by eapply user_only_trans.
  - mb H z Hz. destruct z as [v c2]. apply number_user in Hz. destruct v as [v|]; [|runs H; by eapply user_only_trans].
    mb H w Hw. destruct w as [i c3]. unfold prv_findServerInstance in Hw. mb Hw o Ho. apply find_instance_user in Hw.
    destruct i as [i|]; [|runs H; eauto using user_only_trans]. mb H o' Ho'. mb H m Hm. destruct m as [[m y] c4].
    apply mandatory_user in Hm. destruct (negb _); runs H; eauto using user_only_trans.
Qed.

Lemma check_servers_user c r c' : object_getServers c true = Some (r, c') -> user_only c c'.
Proof.
  unfold object_getServers. destruct (last_object c LWM2M_SECURITY_OBJECT_ID) as [so|]; [|intros H; runs H; apply user_only_refl].
  generalize (instanceList so). generalize (last_object c LWM2M_SERVER_OBJECT_ID). intros vo l. revert c.
  induction l as [|i l IH]; intros c H; cbn [get_servers_loop] in H; [runs H; apply user_only_refl|].
  destruct (lwm2m_list_find (bootstrapServerList (rest c)) i); [by apply IH|].
  destruct (lwm2m_list_find (servers c) i); [by apply IH|].
  mb H x Hx. destruct x as [ok c1]. apply get_server_user in Hx. destruct ok; [|by runs H]. apply IH in H. by eapply user_only_trans.
Qed.

Lemma clear_same c u c' : observe_clear c u = Some c' -> same c c'.
Proof. unfold observe_clear. intros H. mb H l Hl. by runs H. Qed.

(** A step that only reads. *)
Definition reading {A} (e : M A) : Prop := forall c r c', e c = Some (r, c') -> user_only c c'.

Lemma reading_done {A} (a : A) : reading (done_ a).
Proof. intros c r c' [= <- <-]. apply user_only_refl. Qed.
Lemma reading_lift {A} (e : C (option A)) : reading (lift e).
Proof. intros c r c' H. unfold lift in H. mb H x Hx. runs H. apply user_only_refl. Qed.
Lemma reading_then {A B'} (e : M A) (k : A -> M B') : reading e -> (forall a, reading (k a)) -> reading (then_ e k).
Proof.
  intros He Hk c r c' H. unfold then_ in H. mb H x Hx. destruct x as [[a|] c1]; apply He in Hx; [|by runs H].
  apply Hk in H. by eapply user_only_trans.
Qed.
Lemma reading_single o i r : reading (read_single o i r).
Proof.
  intros c x c' H. unfold read_single in H. mb H y Hy. destruct y as [[r1 d] c1]. apply readData_user in Hy.
  destruct (negb _); [by runs H|]. destruct (negb _); [by runs H|]. mb H z Hz. by runs H.
Qed.
Lemma reading_if {A} (b : bool) (e1 e2 : M A) : reading e1 -> reading e2 -> reading (if b then e1 else e2).
Proof. by destruct b. Qed.
Create HintDb reading.
Hint Resolve reading_done reading_lift reading_then reading_single reading_if : reading.

Lemma reading_value {A} (k : lwm2m_data_t -> C (option A)) o i r : reading (then_ (read_single o i r) (fun d => lift (k d))).
Proof. auto with reading. Qed.

Lemma reading_length u l : forall n, reading (list_length junk u l n).
Proof.
  assert (forall v, reading (number_length junk v)) as Hnum by (intros; apply reading_lift).
  assert (forall o i r n, reading (ssid_length junk o i r n)) as Hssid.
  { intros. apply reading_then; [apply reading_value|]. intros. apply reading_then; auto with reading. }
  assert (forall o i n, reading (attributes_length junk o i n)) as Hattr.
  { intros. unfold attributes_length. apply reading_if; [|apply reading_if; auto with reading].
    apply reading_then; [apply reading_value|]. intros [|]; [apply reading_done|]. apply reading_then; [done|]. intros.
    apply reading_then; [apply reading_value|]. auto with reading. }
  assert (forall o is_ n, reading (links_length junk o is_ n)) as Hlinks.
  { intros o is_. induction is_ as [|i is_ IH]; intros n; cbn [links_length]; [apply reading_done|]. auto 10 with reading. }
  assert (forall o n, reading (own_length junk o n)) as Hown.
  { intros. unfold own_length. apply reading_if; [|apply reading_done]. apply reading_then; [done|]. intros. auto 10 with reading. }
  induction l as [|o l IH]; intros n; cbn [list_length]; [apply reading_done|]. apply reading_if; auto 10 with reading.
Qed.

Lemma reading_put u l n : forall b, reading (put_list u l b n).
Proof.
  assert (forall o i r b, reading (put_ssid o i r b n)) as Hssid.
  { intros. apply reading_then; [apply reading_value|]. intros. apply reading_lift. }
  assert (forall o i b, reading (put_attributes o i b n)) as Hattr.
  { intros. unfold put_attributes. apply reading_if; [|apply reading_if; auto with reading].
    apply reading_then; [apply reading_value|]. intros [|]; [apply reading_done|]. apply reading_then; [done|]. intros.
    apply reading_then; [apply reading_lift|]. intros. apply reading_then; [apply reading_value|]. auto with reading. }
  assert (forall o is_ b, reading (put_links o is_ b n)) as Hlinks.
  { intros o is_. induction is_ as [|i is_ IH]; intros b; cbn [put_links]; [apply reading_done|]. auto 10 with reading. }
  induction l as [|o l IH]; intros b; cbn [put_list]; [apply reading_done|]. apply reading_if; auto 10 with reading.
Qed.

Lemma discover_user c u r b n c' : prv_handleBootstrapDiscover junk c u = Some (r, b, n, c') -> user_only c c'.
Proof.
  unfold prv_handleBootstrapDiscover. intros H. destruct (refused c u); [runs H; apply user_only_refl|].
  mb H x Hx. destruct x as [l c1]. apply reading_length in Hx. destruct l as [l|]; [|by runs H].
  destruct (negb _); [by runs H|]. mb H y Hy. destruct y as [o c2].
  assert (user_only c1 c2) as H2. { eapply reading_then in Hy; [exact Hy|apply reading_lift|]. intros. apply reading_put. }
  destruct o as [[b1 i]|]; runs H; by eapply user_only_trans.
Qed.

(** ** The operations on the objects *)

Section objects.
Context `{HB : BootstrapLaw}.

Lemma object_delete_same c u r c' : object_delete c u = Some (r, c') -> same c c'.
Proof.
  assert (forall fuel c r c', delete_loop fuel c u = Some (r, c') -> same c c') as Hloop.
  { clear c r c'. induction fuel as [|fuel IH]; intros c r c' H; cbn [delete_loop] in H; [done|].
    mb H o Ho. destruct (instanceList o) as [|i l]; [runs H; apply same_refl|]. mb H f Hf.
    destruct (delete_callback f c i o) as [r1 c1] eqn:Ed. apply delete_bootstrap in Ed.
    destruct (r1 =? _); [|by runs H]. destruct (node_survives f); [|done]. mb H c2 H2. apply clear_same in H2. apply IH in H.
    unfold same in *. congruence. }
  unfold object_delete. intros H. destruct (find_object c _) as [o|]; [|runs H; apply same_refl].
  destruct (deleteFunc o) as [f|]; [|runs H; apply same_refl]. destruct (LWM2M_URI_IS_SET_INSTANCE u); [|by eapply Hloop].
  destruct (delete_callback f c _ o) as [r1 c1] eqn:Ed. apply delete_bootstrap in Ed.
  destruct (r1 =? _); [|by runs H]. mb H c2 H2. apply clear_same in H2. runs H. unfold same in *. congruence.
Qed.

Lemma short_id_user c o i r c' : prv_getServerShortId c o i = Some (r, c') -> user_only c c'.
Proof.
  unfold prv_getServerShortId. intros H. mb H p Hp. destruct p as [[[r0 d] c1]|]; [|runs H; apply user_only_refl].
  apply read_resources_user in Hp. runs H; done.
Qed.

Lemma update_info_same c o i c' : prv_updateServerInfo c o i = Some c' -> same c c'.
Proof.
  unfold prv_updateServerInfo. intros H. mb H p Hp. destruct p as [sid c1]. apply short_id_user, user_only_same in Hp.
  destruct (sid =? 0); [by runs H|]. destruct (list_find _ _) as [[k s]|]; [|by runs H].
  mb H q Hq. destruct q as [[r x] c2]. apply mandatory_user, user_only_same in Hq. runs H. exact (eq_trans Hq Hp).
Qed.

Lemma object_write_same c u f b n p r c' : object_write c u f b n p = Some (r, c') -> same c c'.
Proof.
  unfold object_write. intros H. destruct (negb _); [runs H; apply same_refl|]. destruct (negb _); [runs H; apply same_refl|].
  destruct (find_object c _) as [o|]; [|runs H; apply same_refl]. destruct (writeFunc o) as [g|]; [|runs H; apply same_refl].
  mb H x Hx. destruct x as [size d]. destruct (size <=? 0); [runs H; apply same_refl|]. mb H q Hq.
  destruct q as [[d' w]|]; [|runs H; apply same_refl]. destruct (write_callback _ _ _ _ _ _) as [r1 c1] eqn:Ew.
  apply write_bootstrap in Ew. destruct (_ && _); [|by runs H]. mb H o' Ho'. mb H c2 H2. apply update_info_same in H2.
  runs H. unfold same in *. congruence.
Qed.

Lemma object_create_same c u f b n r u' c' : object_create c u f b n = Some (r, u', c') -> same c c'.
Proof.
  unfold object_create. intros H. destruct b as [b|]; [|runs H; apply same_refl]. destruct (n =? 0); [runs H; apply same_refl|].
  destruct (find_object c _) as [o|]; [|runs H; apply same_refl]. destruct (createFunc o) as [g|]; [|runs H; apply same_refl].
  mb H x Hx. destruct x as [size d]. destruct (size <=? 0); [runs H; apply same_refl|]. mb H d0 Hd0.
  assert (forall uu, (let '(result, contextP) := create_callback g c (instanceId uu) d o in ret (result, uu, contextP)) = Some (r, u', c') ->
    same c c') as Hc.
  { clear H. intros uu E. destruct (create_callback g c (instanceId uu) d o) as [r1 c1] eqn:Ec. apply create_bootstrap in Ec. by runs E. }
  destruct (d_type d0); try (by eapply Hc); [by runs H|].
  destruct (negb _); [by runs H|]. destruct (has_instance _ _); [by runs H|]. mb H ch Hch.
  destruct (create_callback _ _ _ _ _) as [r1 c1] eqn:Ec. apply create_bootstrap in Ec. by runs H.
Qed.

Lemma createInstance_same c u d r c' : object_createInstance c u d = Some (r, c') -> same c c'.
Proof.
  unfold object_createInstance. intros H. destruct (find_object c _) as [o|]; [|by runs H].
  destruct (createFunc o) as [g|]; [|by runs H]. mb H ch Hch. apply (inj Some) in H. by apply create_bootstrap in H.
Qed.
Lemma writeInstance_same c u d r c' : object_writeInstance c u d = Some (r, c') -> same c c'.
Proof.
  unfold object_writeInstance. intros H. destruct (find_object c _) as [o|]; [|by runs H].
  destruct (writeFunc o) as [g|]; [|by runs H]. mb H ch Hch. apply (inj Some) in H. by apply write_bootstrap in H.
Qed.

(** ** Commands keep the status *)

Definition kept c c' : Prop := relates (fun _ st st' => st' = st) (bootstrap_servers c) (bootstrap_servers c').
Lemma kept_self c : kept c c.
Proof. by apply rel_refl. Qed.
Lemma kept_trans c c1 c2 : kept c c1 -> kept c1 c2 -> kept c c2.
Proof. intros H1 H2. eapply rel_trans; [exact H1|exact H2|]. by intros ? ? ? ? -> ->. Qed.
Lemma same_kept c c' : same c c' -> kept c c'.
Proof. unfold kept. intros ->. by apply rel_refl. Qed.

Lemma tag_kept c id : kept c (prv_tagServer c id).
Proof.
  unfold prv_tagServer. destruct (lwm2m_list_find (bootstrap_servers c) id) as [s|]; [by apply upd_kept|].
  destruct (lwm2m_list_find (servers c) id); by apply same_kept.
Qed.
Lemma tag_all_kept c p : kept c (prv_tagAllServer c p).
Proof.
  unfold kept, prv_tagAllServer, bootstrap_servers, set_servers, set_bootstrap_servers, update. cbn.
  apply list.Forall2_fmap_r, list.Forall_Forall2_diag, list.Forall_true. intros s. unfold compose. by case_bool_decide.
Qed.

Lemma delete_others_same o keep : forall fuel c l r c', delete_others fuel c o keep l = Some (r, c') -> same c c'.
Proof.
  induction fuel as [|fuel IH]; intros c l r c' H; cbn [delete_others] in H; [done|].
  destruct l as [|i l]; [by runs H|]. destruct (i =? keep); [by eapply IH|]. mb H x Hx. destruct x as [r1 c1].
  apply object_delete_same in Hx. destruct (r1 =? _); [|by runs H]. mb H ob Hob. apply IH in H. by eapply same_trans.
Qed.

Lemma delete_security_kept c keep r0 o r c' : delete_security c keep r0 o = Some (r, c') -> kept c c'.
Proof.
  unfold delete_security. intros H. mb H x Hx. destruct x as [r1 c1].
  assert (same c c1) as H1 by (destruct (r0 =? _); [by eapply delete_others_same|by runs Hx]).
  runs H. destruct (r =? COAP_202_DELETED); [eapply kept_trans; [exact (same_kept _ _ H1)|apply tag_all_kept]|by apply same_kept].
Qed.

Lemma security_loop_kept keep n : forall c (i : nat) r0 r c', delete_security_loop n c i keep r0 = Some (r, c') -> kept c c'.
Proof.
  induction n as [|n IH]; intros c i r0 r c' H; cbn [delete_security_loop] in H; [runs H; apply kept_self|].
  mb H o Ho. mb H x Hx. destruct x as [r1 c1]. apply IH in H. eapply kept_trans; [|exact H].
  destruct (_ =? _); [by eapply delete_security_kept|]. runs Hx. apply kept_self.
Qed.

Lemma all_loop_kept keep n : forall c (i : nat) r0 r c', delete_all_loop n c i keep r0 = Some (r, c') -> kept c c'.
Proof.
  induction n as [|n IH]; intros c i r0 r c' H; cbn [delete_all_loop] in H; [runs H; apply kept_self|].
  mb H o Ho. mb H x Hx. destruct x as [r1 c1]. apply IH in H. eapply kept_trans; [|exact H].
  destruct (_ =? _); [by eapply delete_security_kept|]. mb Hx y Hy. destruct y as [r2 c2]. apply object_delete_same in Hy.
  runs Hx; by apply same_kept.
Qed.

Lemma write_instances_kept u l : forall c r0 r c', write_instances c u l r0 = Some (r, c') -> kept c c'.
Proof.
  induction l as [|d l IH]; intros c r0 r c' H; cbn [write_instances] in H; [runs H; apply kept_self|].
  destruct (d_type d); try (by eapply IH). mb H x Hx. destruct x as [r1 c1].
  assert (kept c c1) as H1.
  { destruct (object_isInstanceNew _ _ _).
    - mb Hx y Hy. destruct y as [r2 c2]. apply createInstance_same in Hy. runs Hx; by apply same_kept.
    - mb Hx y Hy. destruct y as [r2 c2]. apply writeInstance_same, same_kept in Hy.
      runs Hx. destruct (_ && _); [eapply kept_trans; [done|apply tag_kept]|done]. }
  destruct (negb _); [by runs H|]. apply IH in H. by eapply kept_trans.
Qed.

Lemma bs_put_kept c u f m r c' : bs_put c u f m = Some (r, c') -> kept c c'.
Proof.
  unfold bs_put. intros H. destruct (LWM2M_URI_IS_SET_INSTANCE u).
  - destruct (object_isInstanceNew _ _ _).
    + mb H x Hx. destruct x as [[r1 u1] c1]. apply object_create_same in Hx. runs H; by apply same_kept.
    + mb H x Hx. destruct x as [r1 c1]. apply object_write_same, same_kept in Hx.
      runs H. destruct (_ && _); [eapply kept_trans; [done|apply tag_kept]|done].
  - destruct (payload m) as [b|]; [|runs H; apply kept_self]. destruct (payload_len m =? 0); [runs H; apply kept_self|].
    mb H x Hx. destruct x as [size d]. destruct (size =? 0); [runs H; apply kept_self|]. by apply write_instances_kept in H.
Qed.

Lemma bs_delete_kept c u i r c' : bs_delete c u i = Some (r, c') -> kept c c'.
Proof.
  unfold bs_delete. intros H. destruct (LWM2M_URI_IS_SET_RESOURCE u); [runs H; apply kept_self|].
  destruct (_ && _); [by eapply security_loop_kept|]. mb H x Hx. destruct x as [r1 c1]. apply object_delete_same, same_kept in Hx.
  runs H. destruct (_ && _); [|done]. destruct (LWM2M_URI_IS_SET_INSTANCE u);
    (eapply kept_trans; [done|]); [apply tag_kept|apply tag_all_kept].
Qed.

Lemma bs_get_kept c u f m rsp r c' rsp' : bs_get junk c u f m rsp = Some (r, c', rsp') -> kept c c'.
Proof.
  unfold bs_get. intros H. mb H b Hb. destruct b.
  - mb H x Hx. destruct x as [[[r1 bf] n] c1]. apply discover_user, user_only_same, same_kept in Hx. mb H y Hy. by runs H.
  - mb H x Hx. destruct x as [[[[r1 f1] bf] n] c1]. mb H y Hy.
    assert (kept c c1); [|by runs H]. unfold prv_handleBootstrapRead in Hx.
    destruct (LWM2M_URI_IS_SET_OBJECT u && _); [by apply read_user, user_only_same, same_kept in Hx|]. runs Hx. apply kept_self.
Qed.

(** *** Commands *)

(** The status after [prv_checkServerStatus]. *)
Definition checked st : lwm2m_status_t :=
  match st with STATE_BS_HOLD_OFF | STATE_BS_INITIATED => STATE_BS_PENDING | _ => st end.
Definition commandable st : Prop :=
  st = STATE_DEREGISTERED \/ st = STATE_BS_HOLD_OFF \/ st = STATE_BS_INITIATED \/ st = STATE_BS_PENDING.

(** Only the server [i] changes, by [T]. *)
Definition only (i : Z) (T : lwm2m_status_t -> lwm2m_status_t -> Prop) : rel := fun j st st' =>
  (j <> i -> st' = st) /\ (j = i -> T st st').

Lemma only_refl i T (l : list server) : (forall st, T st st) -> relates (only i T) l l.
Proof. intros HT. apply rel_refl. split; [done|]. intros _. apply HT. Qed.
Lemma only_impl i (T1 T : lwm2m_status_t -> lwm2m_status_t -> Prop) (l l' : list server) :
  relates (only i T1) l l' -> (forall a b, T1 a b -> T a b) -> relates (only i T) l l'.
Proof. intros H HT. eapply relates_impl; [exact H|]. intros j a b [H1 H2]. split; [done|]. auto. Qed.
Lemma only_trans i (T1 T2 T : lwm2m_status_t -> lwm2m_status_t -> Prop) (l l1 l2 : list server) :
  relates (only i T1) l l1 -> relates (only i T2) l1 l2 -> (forall x y z, T1 x y -> T2 y z -> T x z) -> relates (only i T) l l2.
Proof.
  intros H1 H2 HT. eapply rel_trans; [exact H1|exact H2|]. intros j x y z [A1 A2] [B1 B2]. split.
  - intros Hj. by rewrite (B1 Hj), (A1 Hj).
  - intros Hj. by apply (HT x y z); auto.
Qed.
Lemma kept_only i c c' : kept c c' -> relates (only i eq) (bootstrap_servers c) (bootstrap_servers c').
Proof. intros H. eapply relates_impl; [exact H|]. by intros j st st' ->. Qed.
Lemma upd_only (P : lwm2m_status_t -> Prop) T c i (f : server -> server) :
  server_is P i (bootstrap_servers c) -> (forall s, id_of s = i -> id_of (f s) = i /\ (P (st_of s) -> T (st_of s) (st_of (f s)))) ->
  relates (only i T) (bootstrap_servers c) (bootstrap_servers (upd_bootstrap c i f)).
Proof.
  intros Hp Hf. apply (upd_rel P); [done|by intros|]. intros s Hs. destruct (Hf s Hs) as [H1 H2]. split; [done|].
  intros HPs. split; [done|]. auto.
Qed.
(** It is a move of the machine. *)
Lemma only_moves (P : lwm2m_status_t -> Prop) T e i (l l' : list server) :
  relates (only i T) l l' -> server_is P i l -> (forall st st', P st -> T st st' -> bs_moves e i st st') -> relates (bs_moves e) l l'.
Proof.
  intros H Hp HT. eapply relates_given; [exact H|exact Hp|]. intros j st st' Hj [H1 H2].
  destruct (decide (j = i)) as [->|Hn]; [by apply HT; auto|]. rewrite (H1 Hn). apply b_stays.
Qed.

Lemma check_rel tv c i r c' :
  bs_distinct c -> prv_checkServerStatus tv c i = Some (r, c') ->
  r = COAP_NO_ERROR /\ server_is commandable i (bootstrap_servers c) /\
    relates (only i (fun st st' => st' = checked st)) (bootstrap_servers c) (bootstrap_servers c') \/
  r = COAP_IGNORE /\ c' = c.
Proof.
  intros Hd H. unfold prv_checkServerStatus in H. mb H s Hs. apply find_bootstrap_in in Hs as [Hs Hi].
  assert (forall P : lwm2m_status_t -> Prop, P (st_of s) -> server_is P i (bootstrap_servers c)) as Hst
    by (intros P HPs; by eapply found_is).
  assert (forall f : server -> server, (forall x, id_of (f x) = id_of x /\ (st_of x = st_of s -> st_of (f x) = checked (st_of x))) ->
    relates (only i (fun st st' => st' = checked st)) (bootstrap_servers c) (bootstrap_servers (upd_bootstrap c i f))) as Hupd.
  { intros f Hf. apply (upd_only (fun st => st = st_of s)); [by apply Hst|]. intros x <-. destruct (Hf x). split; [done|auto]. }
  unfold st_of in *. destruct (srv_status (server_rest s)) eqn:Est; runs H; first [by right|left];
    (split; [done|]; split; [by apply Hst; unfold commandable; auto|]); apply Hupd; intros x; (split; [done|]);
    intros E; cbn; by rewrite E.
Qed.

Lemma mark_rel c i r c' : mark_pending c i r = Some c' ->
  relates (only i (fun st st' => st' = st \/ st' = STATE_BS_PENDING)) (bootstrap_servers c) (bootstrap_servers c').
Proof.
  intros H. unfold mark_pending in H. destruct (_ || _); [|runs H; apply only_refl; by left]. mb H s Hs. runs H.
  case_bool_decide; [apply only_refl; by left|].
  apply (upd_only (fun _ => True)); [apply any_is|]. intros x Hx. split; [done|]. by right.
Qed.

Lemma command_rel tv c s u m rsp r c' rsp' :
  bs_distinct c -> bootstrap_handleCommand junk tv c u s m rsp = Some (r, c', rsp') ->
  relates (bs_moves (BCommand s u m rsp)) (bootstrap_servers c) (bootstrap_servers c').
Proof.
  intros Hd H. unfold bootstrap_handleCommand in H. mb H x Hx. destruct x as [r1 c1].
  apply check_rel in Hx as [(-> & Hst & R1)|[-> ->]]; [|change (negb (COAP_IGNORE =? COAP_NO_ERROR)) with true in H; cbv iota in H; runs H; apply rel_refl, b_stays|done].
  change (negb (COAP_NO_ERROR =? COAP_NO_ERROR)) with false in H. cbv iota in H.
  mb H y Hy. destruct y as [[r2 c2] rsp2].
  assert (kept c1 c2) as K.
  { destruct (code m =? COAP_PUT); [mb Hy z Hz; destruct z as [r3 c3]; apply bs_put_kept in Hz; by runs Hy|].
    destruct (code m =? COAP_DELETE); [mb Hy z Hz; destruct z as [r3 c3]; apply bs_delete_kept in Hz; by runs Hy|].
    destruct (code m =? COAP_GET); [by eapply bs_get_kept|]. runs Hy. apply kept_self. }
  mb H c3 H3. runs H. apply mark_rel in H3. apply (kept_only (secObjInstID s)) in K.
  pose proof (only_trans _ _ _ (fun st st' => st' = checked st) _ _ _ R1 K ltac:(congruence)) as R2.
  pose proof (only_trans _ _ _ (fun st st' => st' = checked st \/ st' = STATE_BS_PENDING) _ _ _ R2 H3
    ltac:(intros x y z -> [->| ->]; auto)) as R3.
  eapply only_moves; [exact R3|exact Hst|].
  intros st st' [-> | [-> | [-> | ->]]] [-> | ->]; cbn [checked]; try apply b_stays; apply b_commanded; auto.
Qed.

Lemma delete_all_rel tv c from r c' :
  bs_distinct c -> bootstrap_handleDeleteAll tv c from = Some (r, c') ->
  relates (bs_moves (BDeleteAll from)) (bootstrap_servers c) (bootstrap_servers c').
Proof.
  intros Hd H. unfold bootstrap_handleDeleteAll in H. destruct (utils_findBootstrapServer _ _ _ _) as [s|]; [|runs H; apply rel_refl, b_stays].
  mb H x Hx. destruct x as [r1 c1].
  apply check_rel in Hx as [(-> & Hst & R1)|[-> ->]]; [|change (negb (COAP_IGNORE =? COAP_NO_ERROR)) with true in H; cbv iota in H; runs H; apply rel_refl, b_stays|done].
  change (negb (COAP_NO_ERROR =? COAP_NO_ERROR)) with false in H. cbv iota in H.
  apply all_loop_kept, (kept_only (secObjInstID s)) in H.
  pose proof (only_trans _ _ _ (fun st st' => st' = checked st) _ _ _ R1 H ltac:(congruence)) as R2.
  eapply only_moves; [exact R2|exact Hst|].
  intros st st' [-> | [-> | [-> | ->]]] ->; cbn [checked]; try apply b_stays; apply b_deletes; auto.
Qed.

(** *** The other events *)

Lemma found_peer (l : list server) from s :
  utils_findBootstrapServer lwm2m_session_is_equal sessionH l from = Some s -> s ∈ l /\ lwm2m_session_is_equal (sessionH s) from = true.
Proof.
  unfold utils_findBootstrapServer. induction l as [|x l IH]; cbn [utils_findServer]; [done|].
  destruct (lwm2m_session_is_equal (sessionH x) from) eqn:E; [intros [= ->]; split; [left|done]|].
  intros [? ?]%IH. split; [by right|done].
Qed.

Lemma finish_rel c from r c' :
  bs_distinct c -> bootstrap_handleFinish c from = Some (r, c') ->
  relates (bs_moves (BFinish from)) (bootstrap_servers c) (bootstrap_servers c').
Proof.
  intros Hd H. unfold bootstrap_handleFinish in H. destruct (utils_findBootstrapServer _ _ _ _) as [s|] eqn:Es; [|runs H; apply rel_refl, b_stays].
  apply found_peer in Es as [Hs _]. case_bool_decide as Ep; [|runs H; apply rel_refl, b_stays]. mb H x Hx. destruct x as [r1 c1].
  apply check_servers_user, user_only_same in Hx. runs H; [|rewrite Hx; apply rel_refl, b_stays]. rewrite <- Hx in *.
  assert (bs_distinct c1) as Hd1 by (unfold bs_distinct in *; by rewrite Hx).
  eapply (set_bs_rel (fun st => st = STATE_BS_PENDING)); [eapply found_is; [done|exact Hs|done|exact Ep]|apply b_stays|].
  intros st ->. apply b_finishes.
Qed.

Lemma bs_reply_rel tv c t p c' :
  bs_distinct c -> prv_handleBootstrapReply tv c t p = Some c' ->
  relates (bs_moves (BReply t p)) (bootstrap_servers c) (bootstrap_servers c').
Proof.
  intros Hd H. unfold prv_handleBootstrapReply in H. mb H u Hu. mb H i Hi. mb H s Hs. apply find_bootstrap_in in Hs as [Hs Hid].
  apply (inj Some) in H as <-. case_bool_decide as Est; [|apply rel_refl, b_stays].
  assert (userData t ≫= data_bootstrap = Some i) as Hui by (by rewrite Hu).
  assert (server_is (fun st => st = STATE_BS_INITIATED) i (bootstrap_servers c)) as Hp by (eapply found_is; [done|exact Hs|done|exact Est]).
  assert (forall f : server -> server, (forall x, id_of (f x) = id_of x /\ st_of (f x) = STATE_BS_FAILING) -> ~ accepts p ->
    relates (bs_moves (BReply t p)) (bootstrap_servers c) (bootstrap_servers (upd_bootstrap c i f))) as Hfail.
  { intros f Hf Hn. eapply upd_rel; [exact Hp|by intros; apply b_stays|]. intros x <-. destruct (Hf x) as [? ->]. split; [done|].
    intros ->. by apply b_refused. }
  destruct p as [m|]; [|apply Hfail; [by intros|by intros (? & ? & _)]].
  case_bool_decide as Ert; [apply Hfail; [by intros|]; intros (m' & [= <-] & Hm & _); done|].
  unfold prv_handleResponse. destruct (Z.eqb_spec (code m) COAP_204_CHANGED) as [Ec|Ec].
  - eapply upd_rel; [exact Hp|by intros; apply b_stays|]. intros x <-. split; [done|]. intros ->. apply b_accepted; [done|]. by exists m.
  - apply Hfail; [by intros|]. by intros (m' & [= <-] & _ & Hm).
Qed.

Lemma start_rel c : relates (bs_moves BStart) (bootstrap_servers c) (bootstrap_servers (bootstrap_start c)).
Proof.
  unfold bootstrap_start, bootstrap_servers, set_bootstrap_servers, update. cbn.
  apply list.Forall2_fmap_r, list.Forall_Forall2_diag, list.Forall_true. intros s. unfold compose, start_server.
  destruct (session_is_null _); (split; [done|apply b_restarts]).
Qed.

(** *** The step *)

Lemma open_bootstrap_ok c s h c' : open_bootstrap c s = (h, c') ->
  kept c c' /\ nextMID c' = nextMID c /\ transactionList c' = transactionList c.
Proof.
  unfold open_bootstrap. destruct (session_is_null _); intros [= <- <-]; (split; [|done]); [by apply upd_kept|by apply kept_self].
Qed.

(** What a step does to the server [i] alone. *)
Abbreviation steps now d i := (only i (bs_moves (BStep now d) i)).

Lemma request_rel n now d tv c i c' :
  0 <= tv -> fresh (S n) c -> Z.of_nat n < 65536 -> server_is (fun st => st = STATE_BS_HOLD_OFF) i (bootstrap_servers c) ->
  prv_requestBootstrap junk tv c i = Some c' ->
  relates (steps now d i) (bootstrap_servers c) (bootstrap_servers c') /\ fresh n c'.
Proof.
  intros Htv Hf Hn Hst H. unfold prv_requestBootstrap in H. mb H s Hs. mb H q Hq.
  assert (forall c1 st, kept c c1 -> st = STATE_BS_INITIATED \/ st = STATE_BS_FAILING \/ st = STATE_BS_FAILED ->
    relates (steps now d i) (bootstrap_servers c) (bootstrap_servers (set_bs c1 i st))) as Hset.
  { intros c1 st K Hs1. eapply only_trans; [apply kept_only, K| |by intros ? ? ? ->; exact id].
    eapply (upd_only (fun st => st = STATE_BS_HOLD_OFF)).
    - eapply server_is_relates; [exact K| |exact Hst]. by intros ? ? ->.
    - intros x <-. split; [done|]. intros ->. destruct Hs1 as [->|Hs1]; [apply b_asks|by apply b_cannot]. }
  destruct q as [q|]; [|runs H; split; [apply Hset; [apply kept_self|auto]|by apply fresh_less]].
  destruct (open_bootstrap c s) as [h c1] eqn:Eo. apply open_bootstrap_ok in Eo as (K1 & N1 & T1).
  destruct (session_is_null h).
  { runs H. split; [apply Hset; auto|]. destruct (fresh_less _ _ Hf) as (F1 & F2 & F3). split; [cbn; by rewrite N1|]. cbn. by rewrite T1, N1. }
  mb H x Hx. destruct x as [t c2]. apply new_request_ok in Hx as [-> Ht].
  destruct t as [t|]. 2:{ runs H. split; [by apply (Hset (after_request c1)); auto|]. apply (fresh_after n c); [done|cbn; by rewrite N1|done]. }
  mb H m1 H1. destruct m1 as [? m1]. mb H m2 H2. destruct m2 as [? m2]. mb H y Hy. destruct y as [r1 c3]. destruct Ht as (M1 & M2 & M3).
  eapply (request_sent junk n tv c) in Hy as [W1 W2]; [|done|done|cbn; by rewrite N1|done|cbn in *; congruence|cbn in *; congruence|cbn in *; congruence|done].
  assert (kept c c3) as K3 by (eapply kept_trans; [exact K1|]; by apply same_kept, (rest_same c1 c3)).
  runs H. destruct (r1 =? 0); [split; [by apply Hset; auto|done]|]. split; [|done].
  eapply only_impl; [apply kept_only, K3|]. intros st ? <-. apply b_stays.
Qed.

Lemma step_server_rel n tv c now timeout s r c' d :
  0 <= tv -> bs_distinct c -> fresh (S n) c -> Z.of_nat n < 65536 -> s ∈ bootstrap_servers c ->
  bootstrap_step_server junk tv c now timeout s = Some (r, c') ->
  relates (steps now d (id_of s)) (bootstrap_servers c) (bootstrap_servers c') /\ fresh n c'.
Proof.
  intros Htv Hd Hf Hn Hs H.
  assert (relates (steps now d (id_of s)) (bootstrap_servers c) (bootstrap_servers c) /\ fresh n c) as H0
    by (split; [apply only_refl, b_stays|by apply fresh_less]).
  assert (forall st, st_of s = st -> server_is (fun x => x = st) (id_of s) (bootstrap_servers c)) as Hst
    by (intros st Hst; by eapply found_is).
  assert (forall (f : server -> server) st, st_of s = st ->
    (forall x, id_of (f x) = id_of x /\ bs_moves (BStep now d) (id_of s) st (st_of (f x))) ->
    relates (steps now d (id_of s)) (bootstrap_servers c) (bootstrap_servers (upd_bootstrap c (id_of s) f)) /\
    fresh n (upd_bootstrap c (id_of s) f)) as Hupd.
  { intros f st E Hf1. split; [|by apply H0]. eapply upd_only; [by apply Hst|].
    intros x Hx. destruct (Hf1 x) as [E1 E2]. split; [congruence|]. by intros ->. }
  unfold bootstrap_step_server in H. unfold st_of in Hupd at 1, Hst at 1.
  destruct (srv_status (server_rest s)) eqn:Est; try (by runs H).
  - runs H. eapply Hupd; [done|]. intros x. split; [done|]. rewrite Est. apply b_waits.
  - destruct (_ <=? now); [|by runs H]. mb H c1 H1. runs H. eapply request_rel in H1; [exact H1|done|done|done|by apply Hst].
  - destruct (_ <=? now); [|by runs H]. runs H. eapply Hupd; [done|]. intros x. split; [done|]. rewrite Est. apply b_late.
  - runs H. eapply Hupd; [done|]. intros x. destruct (session_is_null _); (split; [done|]); rewrite Est; apply b_ends.
  - runs H. eapply Hupd; [done|]. intros x. destruct (session_is_null _); (split; [done|]); rewrite Est; apply b_fails.
Qed.

(** The servers before the position [k] keep their status, the others move. *)
Definition moved_from (k : nat) e (l l' : list server) : Prop :=
  length l' = length l /\ forall j s s', l !! j = Some s -> l' !! j = Some s' ->
    id_of s' = id_of s /\ ((j < k)%nat -> st_of s' = st_of s) /\ bs_moves e (id_of s) (st_of s) (st_of s').

Lemma step_loop_rel tv now d n : forall c (i : nat) timeout r c',
  0 <= tv -> bs_distinct c -> fresh n c -> Z.of_nat n <= 65536 ->
  bootstrap_step_loop junk n tv c i now timeout = Some (r, c') ->
  moved_from i (BStep now d) (bootstrap_servers c) (bootstrap_servers c').
Proof.
  induction n as [|n IH]; intros c i timeout r c' Htv Hd Hf Hn H; cbn [bootstrap_step_loop] in H.
  { runs H. split; [done|]. intros j s s' H1 H2. assert (s' = s) as -> by congruence. split; [done|]. split; [done|]. apply b_stays. }
  mb H s Hs. mb H x Hx. destruct x as [timeout1 c1]. pose proof (list_elem_of_lookup_2 _ _ _ Hs) as Hin.
  eapply (step_server_rel n) with (d := d) in Hx as [R1 F1]; [|done|done|done|lia|done].
  assert (bs_distinct c1) as Hd1 by (unfold bs_distinct in *; by rewrite (relates_ids _ _ _ R1)).
  apply IH in H as [L2 H2]; [|done|done|done|lia]. pose proof (list.Forall2_length _ _ _ R1) as L1.
  split; [congruence|]. intros j x y Hj Hj'.
  destruct (list.Forall2_lookup_l _ _ _ _ _ R1 Hj) as (z & Hz & Ez & O1 & O2). destruct (H2 j z y Hz Hj') as (Ey & K & Mv).
  split; [congruence|]. destruct (decide (id_of x = id_of s)) as [E|E].
  - assert (j = i) as ->.
    { eapply NoDup_lookup; [exact Hd| |]; rewrite list_lookup_fmap; [by rewrite Hj|rewrite Hs; cbn; congruence]. }
    rewrite (K ltac:(lia)). split; [lia|]. rewrite E. by apply O2.
  - rewrite (O1 E) in *. rewrite Ez in Mv. split; [|done]. intros Hlt. apply K. lia.
Qed.

(** ** The refinement *)

(** The bootstrap servers have distinct identifiers and the next message
    identifiers are not those of transactions. *)
Definition bs_client_ok c : Prop :=
  bs_distinct c /\ len (bootstrap_servers c) <= 65536 /\ fresh (length (bootstrap_servers c)) c.

Lemma bs_exec_rel tv e c c' :
  0 <= tv -> bs_client_ok c -> bs_exec tv e c = Some c' -> relates (bs_moves e) (bootstrap_servers c) (bootstrap_servers c').
Proof.
  intros Htv (Hd & Hl & Hf) H. destruct e; cbn [bs_exec] in H.
  - runs H. apply start_rel.
  - by eapply bs_reply_rel.
  - mb H x Hx. destruct x as [r c1]. runs H. unfold bootstrap_step in Hx.
    eapply step_loop_rel in Hx as [L Hx]; [|done|done|done|done].
    apply list.Forall2_same_length_lookup_2; [done|]. intros j x y Hj Hj'. by destruct (Hx j x y Hj Hj') as (? & _ & ?).
  - mb H x Hx. destruct x as [r c1]. runs H. by eapply finish_rel.
  - mb H x Hx. destruct x as [[r c1] rsp]. runs H. by eapply command_rel.
  - mb H x Hx. destruct x as [r c1]. runs H. by eapply delete_all_rel.
Qed.


(** ** Histories *)

(** The events of a client, the last one first, between which other components
    may do anything but change the bootstrap servers. *)
Inductive bs_history (c0 : context) : list bs_event -> context -> Prop :=
  | bs_begins : bs_history c0 [] c0
  | bs_happens tv e l c c' : bs_history c0 l c -> 0 <= tv -> bs_client_ok c -> bs_exec tv e c = Some c' -> bs_history c0 (e :: l) c'
  | bs_elsewhere l c c' : bs_history c0 l c -> same c c' -> bs_history c0 l c'.

(** The server [i] has been in contact: it has accepted a request or sent a
    command. *)
Definition was_contacted (i : Z) (l : list bs_event) : Prop :=
  (exists t p, BReply t p ∈ l /\ userData t ≫= data_bootstrap = Some i /\ accepts p) \/
  (exists s u m r, BCommand s u m r ∈ l /\ secObjInstID s = i) \/
  (exists from, BDeleteAll from ∈ l).
Definition was_finished (l : list bs_event) : Prop := exists from, BFinish from ∈ l.

Definition progress (st : lwm2m_status_t) (i : Z) (l : list bs_event) : Prop :=
  match st with
  | STATE_BS_PENDING => was_contacted i l
  | STATE_BS_FINISHING | STATE_BS_FINISHED => was_contacted i l /\ was_finished l
  | _ => True
  end.

Lemma contacted_more i e l : was_contacted i l -> was_contacted i (e :: l).
Proof.
  intros [(t & p & H & ?)|[(s & u & m & r & H & ?)|(from & H)]]; [left|right; left|right; right].
  - exists t, p. split; [by constructor|done].
  - exists s, u, m, r. split; [by constructor|done].
  - exists from. by constructor.
Qed.
Lemma progress_more st i e l : progress st i l -> progress st i (e :: l).
Proof.
  assert (was_finished l -> was_finished (e :: l)) as Hf by (intros [from H]; exists from; by constructor).
  pose proof (contacted_more i e l). unfold progress. destruct st; naive_solver.
Qed.

Lemma progress_moves e i st st' l : bs_moves e i st st' -> progress st i l -> progress st' i (e :: l).
Proof.
  intros Hm Hp. inversion Hm; subst; try exact I; try (by apply progress_more).
  - left. exists t, p. split; [by left|done].
  - by destruct H as [->| ->].
  - split; [by apply contacted_more|]. exists from. by left.
  - right. left. exists s, u, m, r. split; [by left|done].
  - right. right. exists from. by left.
Qed.

End objects.

(** ** The overall status *)

Definition under_way st : bool :=
  match st with
  | STATE_BS_HOLD_OFF | STATE_BS_INITIATED | STATE_BS_PENDING | STATE_BS_FINISHING | STATE_BS_FAILING => true
  | _ => false
  end.
Definition is_finished st : bool := bool_decide (st = STATE_BS_FINISHED).

(** The bootstrap is pending while one server is under way, then finished when one
    has finished. *)
Theorem bs_getStatus_correct c :
  let l := map st_of (bootstrap_servers c) in
  bootstrap_getStatus c =
    if existsb under_way l then STATE_BS_PENDING else if existsb is_finished l then STATE_BS_FINISHED else STATE_BS_FAILED.
Proof.
  unfold bootstrap_getStatus.
  assert (forall (l : list server) r, r = STATE_BS_FAILED \/ r = STATE_BS_FINISHED \/ r = STATE_BS_PENDING ->
    fold_left (fun r s => merge_bootstrap r (srv_status (server_rest s))) l r =
      if under_way r || existsb under_way (map st_of l) then STATE_BS_PENDING
      else if is_finished r || existsb is_finished (map st_of l) then STATE_BS_FINISHED else STATE_BS_FAILED) as H.
  { induction l as [|s l IH]; intros r Hr; cbn [fold_left map existsb].
    - by destruct Hr as [->|[->| ->]].
    - unfold st_of at 1 2 3 4. rewrite IH.
      + destruct (srv_status (server_rest s)), Hr as [->|[->| ->]]; cbn; try done;
          by destruct (existsb under_way _), (existsb is_finished _).
      + destruct (srv_status (server_rest s)), Hr as [->|[->| ->]]; cbn; auto. }
  cbv zeta. rewrite H by by left. done.
Qed.
End machine.

(** ** Examples *)

(** A client with the bootstrap server of the Security instance 0. *)
Module BootSample.
#[export] Existing Instances Sample.sessions Sample.connections Sample.libc Sample.codecs Known.callbacks.
#[export] Instance pointers : BootstrapPointers unit unit :=
  {| bootstrap_callback := (); bootstrap_data _ := (); data_bootstrap _ := Some 0 |}.
#[export] Instance allocator : Malloc := malloc_always.
Abbreviation world := (world_t Z server_info (client_t unit Z)).
Abbreviation context := (lwm2m_context_t Z unit unit world).
#[export] Instance no_callbacks : Callbacks Z unit unit world := fun _ c _ _ => c.
Definition server0 : lwm2m_server_t Z server_info := mk_server 0 9 [] (zero_info <| lifetime := 10 |>).
Definition client : context :=
  set_bootstrap_servers (set_client Known.client ((app (rest Known.client)) <| endpointName := str "dev" ++ [0] |>)) [server0].
Definition request : lwm2m_transaction_t Z unit unit := mk_transaction 100 9 false 0 0 zero_packet 0 None 0 None (Some ()) (Some ()).
Definition accepted : coap_packet_t := zero_packet <| code := COAP_204_CHANGED |>.
Definition statuses (c : context) : list lwm2m_status_t := map (fun s => srv_status (server_rest s)) (bootstrap_servers c).
#[export] Instance law : BootstrapLaw.
Proof. split; by intros * [= <- <-]. Qed.

Definition after (tv : Z) (e : bs_event) (c : context) : context := default c (bs_exec zero_junk tv e c).
Definition waiting : context := Eval vm_compute in after 100 (BStep 100 60) client.
Definition asked : context := Eval vm_compute in after 110 (BStep 110 60) waiting.
Definition pending : context := Eval vm_compute in after 111 (BReply request (Some accepted)) asked.
Definition finishing : context := Eval vm_compute in after 112 (BFinish 9) pending.
Definition finished : context := Eval vm_compute in after 113 (BStep 113 60) finishing.

(** The query carries the name and the format. *)
Example bootstrap_query_sample :
  exists l, bootstrap_query zero_junk (str "dev" ++ [0]) = Some (Some (str "?ep=dev&pct=112" ++ l)).
Proof. eexists. by vm_compute. Qed.
End BootSample.
Import BootSample.

Lemma sample_ok (c : BootSample.context) : map id_of (bootstrap_servers c) = [0] -> nextMID c = 100 \/ nextMID c = 101 ->
  Forall (fun t => mID t = 100) (transactionList c) -> (nextMID c = 100 -> transactionList c = []) -> (length (transactionList c) <= 1)%nat ->
  bs_client_ok c.
Proof.
  intros H1 H2 H3 H4 H5. split; [unfold bs_distinct; rewrite H1; apply NoDup_singleton|].
  assert (length (bootstrap_servers c) = 1%nat) as Hl by (by rewrite <- (length_map id_of), H1). rewrite Hl. split; [done|].
  split; [lia|]. split.
  - destruct (transactionList c) as [|t [|? ?]]; [constructor| |cbn in H5; lia]. repeat constructor.
  - intros k Hk. assert (k = 0) as -> by lia. destruct H2 as [E|E]; rewrite E; [by rewrite H4|].
    eapply list.Forall_impl; [exact H3|]. intros t ->. done.
Qed.


Lemma sample_history :
  bs_history zero_junk client [BStep 113 60; BFinish 9; BReply request (Some accepted); BStep 110 60; BStep 100 60] finished.
Proof.
  apply (bs_happens _ _ 113 _ _ finishing); [|done| |by vm_compute].
  2:{ apply sample_ok; [done|by right|by repeat constructor|done|cbn; lia]. }
  apply (bs_happens _ _ 112 _ _ pending); [|done| |by vm_compute].
  2:{ apply sample_ok; [done|by right|by repeat constructor|done|cbn; lia]. }
  apply (bs_happens _ _ 111 _ _ asked); [|done| |by vm_compute].
  2:{ apply sample_ok; [done|by right|by repeat constructor|done|cbn; lia]. }
  apply (bs_happens _ _ 110 _ _ waiting); [|done| |by vm_compute].
  2:{ apply sample_ok; [done|by left|constructor|done|cbn; lia]. }
  apply (bs_happens _ _ 100 _ _ client); [apply bs_begins|done| |by vm_compute].
  apply sample_ok; [done|by left|constructor|done|cbn; lia].
Qed.


(** A command that comes before the answer to the request makes the bootstrap
    pending without a new deadline: the one of the hold-off has passed, and the
    next step gives the bootstrap up. *)
Example early_command_fails :
  exists c c', option_map (fun x => snd (fst x)) (bootstrap_handleCommand zero_junk 111 asked (mk_uri 1 0 65535 65535) server0
      (zero_packet <| code := COAP_DELETE |>) zero_packet) = Some c /\
    statuses c = [STATE_BS_PENDING] /\ bootstrap_step zero_junk 112 c 112 60 = Some (0, c') /\ statuses c' = [STATE_BS_FAILING].
Proof. eexists _, _. split; [vm_compute; reflexivity|]. split; [done|]. split; [vm_compute; reflexivity|]. done. Qed.
End BootMachine.
