(* ===== verification/BootDelete.v ===== *)
(** * Deleting everything (core/bootstrap.c)

    What a Delete on the root of a client leaves: the instances of the objects are
    deleted, but the Security instance of the bootstrap server that asked for it
    ([deleteAll_keeps_account]).  A command that comes before the answer to the
    request leaves the deadline of the bootstrap in the past
    ([early_command_fails]). *)
From S2P Require Import Prelude.
From S2P Require Import Types.
From S2P Require Import SortedList.
From S2P Require Import Utils.
From S2P Require Import Data.
From S2P Require Import FloatText.
From S2P Require Import CoapPacket.
From S2P Require Import CoapMessage.
From S2P Require Import Transaction.
From S2P Require Import Packet.
From S2P Require Import Client.
From S2P Require Import Observed.
From S2P Require Import Formats.
From S2P Require Import Objects.
From S2P Require Import RegisterPayload.
From S2P Require Import Registration.
From S2P Require Import RegMachine.
From S2P Require Import BootDiscover.
From S2P Require Import Bootstrap.
From S2P Require Import BootMachine.
Import SortedList Utils Data FloatText CoapPacket CoapMessage Transaction Packet Client Observed Formats Objects.
Import RegisterPayload Registration RegMachine BootDiscover Bootstrap BootMachine.

Module BootDelete.
Section delete.
Context {Session CB U F B : Type}.
Context `{HM : Malloc, HS : Sessions Session, HL : LibC, HF : Codecs, HO : ObjectCallbacks Session CB U F B}.
Abbreviation context := (lwm2m_context_t Session CB U (world_t Session server_info (client_t F B))).
Abbreviation server := (lwm2m_server_t Session server_info).
Abbreviation object := (lwm2m_object_t F).
Implicit Types (c : context) (o : object).

(** The objects of a context with the same bootstrap servers and servers, and a
    list of observations. *)
Record becomes (g : object -> object) c c' : Prop := mk_becomes {
  b_objects : objects c' = map g (objects c);
  b_servers : servers c' = servers c;
  b_bootstrap : bootstrap_servers c' = bootstrap_servers c;
  b_observed : is_Some (observed c) -> is_Some (observed c') }.

(** The instances of one object become [f] of them. *)
Definition changed (obj : Z) (f : list Z -> list Z) (o : object) : object :=
  if objID o =? obj then o <| instanceList := f (instanceList o) |> else o.
Definition but (id : Z) : list Z -> list Z := filter (fun i => i <> id).
Definition only_ (id : Z) : list Z -> list Z := filter (fun i => i = id).

(** A delete callback that removes the instance, and nothing else. *)
Class DeletesExactly := deletes_exactly : forall f c id o, o ∈ objects c -> exists c',
  delete_callback f c id o = (COAP_202_DELETED, c') /\ becomes (changed (objID o) (but id)) c c' /\ node_survives f = true.

Lemma becomes_refl g c : (forall o, o ∈ objects c -> g o = o) -> becomes g c c.
Proof.
  intros Hg. split; [|done..]. symmetry. rewrite <- (map_id (objects c)) at 2. apply map_ext_in. intros o Ho.
  apply Hg. by apply list_elem_of_In.
Qed.
Lemma becomes_trans g1 g2 g c c1 c2 :
  becomes g1 c c1 -> becomes g2 c1 c2 -> (forall o, o ∈ objects c -> g2 (g1 o) = g o) -> becomes g c c2.
Proof.
  intros [O1 S1 B1 V1] [O2 S2 B2 V2] Hg. split; [|congruence..|auto].
  rewrite O2, O1, map_map. apply map_ext_in. intros o Ho. apply Hg. by apply list_elem_of_In.
Qed.
Lemma becomes_clear c u c' : observe_clear c u = Some c' -> becomes id c c'.
Proof.
  unfold observe_clear. intros H. mb H l Hl. injection H as <-. split; [by rewrite map_id|done|done|by eexists].
Qed.

(** The objects have distinct identifiers, in order, and distinct instances. *)
Record objects_ok c : Prop := mk_objects_ok {
  o_strict : list_strict (objects c);
  o_instances : Forall (fun o => NoDup (instanceList o) /\ Forall (fun i => 0 <= i < LWM2M_MAX_ID) (instanceList o)) (objects c);
  o_observed : is_Some (observed c) }.

Lemma changed_kept obj f o : objID (changed obj f o) = objID o /\ deleteFunc (changed obj f o) = deleteFunc o.
Proof. unfold changed. by destruct (_ =? _). Qed.
Lemma changed_changed obj f g h o : g (f (instanceList o)) = h (instanceList o) -> changed obj g (changed obj f o) = changed obj h o.
Proof.
  intros H. unfold changed. destruct (objID o =? obj) eqn:E; cbn; rewrite E; [|done]. cbn.
  destruct o. unfold update. cbn in *. by rewrite H.
Qed.
Lemma changed_id obj f o : (objID o = obj -> f (instanceList o) = instanceList o) -> changed obj f o = o.
Proof. intros H. unfold changed. destruct (Z.eqb_spec (objID o) obj) as [E|]; [|done]. rewrite (H E). by destruct o. Qed.

Lemma strict_map (l : list object) (g : object -> object) : (forall o, objID (g o) = objID o) -> list_strict l -> list_strict (map g l).
Proof.
  intros Hg. rewrite !strict_node_ids, map_map. rewrite (map_ext (fun x => node_id (g x)) node_id); [done|exact Hg].
Qed.

Lemma becomes_strict obj f c c' : becomes (changed obj f) c c' -> list_strict (objects c) -> list_strict (objects c').
Proof. intros [-> _ _ _]. apply strict_map. intros o. apply changed_kept. Qed.

Lemma found_object c obj o : list_strict (objects c) -> find_object c obj = Some o ->
  objID o = obj /\ o ∈ objects c /\ forall o', o' ∈ objects c -> objID o' = obj -> o' = o.
Proof.
  intros Hs Ho. destruct (find_split _ _ _ Hs Ho) as (Hid & l1 & l2 & E). change (objID o = obj) in Hid.
  split; [done|]. split; [rewrite E; set_solver|]. intros o' Hin Ho'. rewrite E in *. 
  destruct (strict_middle _ _ _ Hs) as [H1 H2]. rewrite list.Forall_forall in H1. rewrite list.Forall_forall in H2.
  apply elem_of_app in Hin as [Hin|[->|Hin]%elem_of_cons]; [|done|].
  - specialize (H1 _ Hin). unfold node_id, object_node in H1. lia.
  - specialize (H2 _ Hin). unfold node_id, object_node in H2. lia.
Qed.

Lemma found_after obj f c c' o : becomes (changed obj f) c c' -> find_object c obj = Some o ->
  find_object c' obj = Some (changed obj f o).
Proof.
  intros [E _ _ _] Ho. unfold find_object in *. rewrite E, find_map; [by rewrite Ho|]. intros x. apply changed_kept.
Qed.

Section exactly.
Context `{HD : DeletesExactly}.

(** A deletion with its observations. *)
Lemma delete_one c obj i o f :
  list_strict (objects c) -> is_Some (observed c) -> i <> LWM2M_MAX_ID -> find_object c obj = Some o -> deleteFunc o = Some f ->
  exists c', object_delete c (mk_uri obj i LWM2M_MAX_ID LWM2M_MAX_ID) = Some (COAP_202_DELETED, c') /\ becomes (changed obj (but i)) c c'.
Proof.
  intros Hs Hv Hi Ho Hf. destruct (found_object _ _ _ Hs Ho) as (Hid & Hin & _).
  unfold object_delete. change (objectId (mk_uri obj i LWM2M_MAX_ID LWM2M_MAX_ID)) with obj. rewrite Ho, Hf.
  assert (LWM2M_URI_IS_SET_INSTANCE (mk_uri obj i LWM2M_MAX_ID LWM2M_MAX_ID) = true) as ->
    by (unfold LWM2M_URI_IS_SET_INSTANCE; cbn [instanceId]; lia).
  change (instanceId (mk_uri obj i LWM2M_MAX_ID LWM2M_MAX_ID)) with i.
  destruct (deletes_exactly f c i o Hin) as (c1 & -> & B1 & _). rewrite Z.eqb_refl. rewrite Hid in B1.
  destruct (b_observed _ _ _ B1 Hv) as [l Hl].
  destruct (observe_clear c1 (mk_uri obj i LWM2M_MAX_ID LWM2M_MAX_ID)) as [c2|] eqn:E2.
  2:{ unfold observe_clear in E2. by rewrite Hl in E2. }
  mstep. exists c2. split; [done|]. eapply becomes_trans; [exact B1|by eapply becomes_clear|done].
Qed.

Lemma delete_loop_clears u f (ids : list Z) : forall (fuel : nat) c o,
  (length ids < fuel)%nat -> list_strict (objects c) -> is_Some (observed c) -> find_object c (objectId u) = Some o ->
  instanceList o = ids -> deleteFunc o = Some f -> NoDup ids ->
  exists c', delete_loop fuel c u = Some (COAP_202_DELETED, c') /\ becomes (changed (objectId u) (fun _ => [])) c c'.
Proof.
  induction ids as [|id ids IH]; intros [|fuel] c o Hf Hs Hv Ho Hids Hd Hn; try (cbn in Hf; lia); cbn [delete_loop];
    rewrite Ho; mstep; rewrite Hids; destruct (found_object _ _ _ Hs Ho) as (Hid & Hin & Hu).
  - exists c. split; [done|]. apply becomes_refl. intros o' Hin'. apply changed_id. intros E. rewrite (Hu o' Hin' E). by rewrite Hids.
  - rewrite Hd. mstep. destruct (deletes_exactly f c id o Hin) as (c1 & -> & B1 & Hnode). rewrite Z.eqb_refl, Hnode. rewrite Hid in B1.
    destruct (b_observed _ _ _ B1 Hv) as [l Hl].
    destruct (observe_clear c1 (set_instance u id)) as [c2|] eqn:E2; [|unfold observe_clear in E2; by rewrite Hl in E2]. mstep.
    assert (becomes (changed (objectId u) (but id)) c c2) as B2 by (eapply becomes_trans; [exact B1|by eapply becomes_clear|done]).
    apply NoDup_cons in Hn as [Hni Hn].
    destruct (IH fuel c2 (changed (objectId u) (but id) o)) as (c' & E' & B').
    + cbn in Hf. lia.
    + by eapply becomes_strict.
    + by apply (b_observed _ _ _ B2).
    + by eapply found_after.
    + unfold changed. rewrite Hid, Z.eqb_refl. cbn. rewrite Hids. unfold but. rewrite filter_cons_False by (intros ?; done).
      apply filter_keep, list.Forall_forall. by intros x Hx ->.
    + by rewrite (proj2 (changed_kept _ _ _)).
    + done.
    + exists c'. split; [done|]. eapply becomes_trans; [exact B2|exact B'|]. intros o' _. by apply changed_changed.
Qed.

(** The loop over the Security instances keeps the one of the server. *)
Lemma but_shorter keep j (l : list Z) : j ∈ l -> j <> keep -> (length (but keep (but j l)) < length (but keep l))%nat.
Proof.
  intros Hj Hk. assert (but keep (but j l) = but j (but keep l)) as ->.
  { unfold but. rewrite !list.list_filter_filter. apply list.list_filter_iff. tauto. }
  apply (list.length_filter_lt _ _ j); [|tauto]. by apply list_elem_of_filter.
Qed.

Lemma only_all keep (l : list Z) : length (but keep l) = 0%nat -> only_ keep l = l.
Proof.
  intros H. apply length_zero_iff_nil in H. apply filter_keep, list.Forall_forall. intros x Hx.
  destruct (decide (x = keep)) as [|Hn]; [done|]. assert (x ∈ but keep l) as Hin by by apply list_elem_of_filter.
  rewrite H in Hin. by apply not_elem_of_nil in Hin.
Qed.

Lemma only_but keep j (l : list Z) : j <> keep -> only_ keep (but j l) = only_ keep l.
Proof. intros Hj. unfold only_, but. rewrite list.list_filter_filter. apply list.list_filter_iff. intros x. split; [tauto|intros ->; by auto]. Qed.

Lemma delete_others_keeps keep obj f n : forall (fuel : nat) c o,
  (length (but keep (instanceList o)) <= n)%nat -> (2 * n + 2 <= fuel)%nat ->
  list_strict (objects c) -> is_Some (observed c) -> find_object c obj = Some o -> deleteFunc o = Some f ->
  NoDup (instanceList o) -> Forall (fun i => 0 <= i < LWM2M_MAX_ID) (instanceList o) ->
  exists c', delete_others fuel c obj keep (instanceList o) = Some (COAP_202_DELETED, c') /\ becomes (changed obj (only_ keep)) c c'.
Proof.
  induction n as [|n IH]; intros fuel c o Hlen Hfuel Hs Hv Ho Hd Hn Hr; destruct (found_object _ _ _ Hs Ho) as (Hid & Hin & Hu).
  - exists c. split.
    + destruct fuel as [|[|fuel]]; [lia..|]. pose proof (only_all keep (instanceList o) ltac:(lia)) as Hall.
      destruct (instanceList o) as [|x l] eqn:El; [done|].
      assert (x = keep) as ->. { assert (x ∈ only_ keep (x :: l)) as Hx by (rewrite Hall; left). by apply list_elem_of_filter in Hx as [? _]. }
      destruct l as [|y l]. { cbn [delete_others]. by rewrite Z.eqb_refl. }
      assert (y = keep) as ->. { assert (y ∈ only_ keep (keep :: y :: l)) as Hx by (rewrite Hall; right; left). by apply list_elem_of_filter in Hx as [? _]. }
      apply NoDup_cons in Hn as [Hn _]. destruct Hn. left.
    + apply becomes_refl. intros o' Ho'. apply changed_id. intros E. rewrite (Hu o' Ho' E). apply only_all. lia.
  - assert (forall (fuel : nat) j next, (2 * n + 3 <= fuel)%nat -> j ∈ instanceList o -> j <> keep -> exists c',
      delete_others fuel c obj keep (j :: next) = Some (COAP_202_DELETED, c') /\ becomes (changed obj (only_ keep)) c c') as Hstep.
    { intros [|fuel'] j next Hf' Hj Hjk; [lia|]. cbn [delete_others]. rewrite (proj2 (Z.eqb_neq j keep) Hjk).
      assert (j <> LWM2M_MAX_ID) as Hjm by (rewrite list.Forall_forall in Hr; specialize (Hr j Hj); lia).
      destruct (delete_one c obj j o f Hs Hv Hjm Ho Hd) as (c1 & -> & B1). mstep. rewrite Z.eqb_refl.
      pose proof (found_after _ _ _ _ _ B1 Ho) as Ho1. rewrite Ho1. mstep.
      assert (instanceList (changed obj (but j) o) = but j (instanceList o)) as Ei by (unfold changed; by rewrite Hid, Z.eqb_refl).
      destruct (IH fuel' c1 (changed obj (but j) o)) as (c' & E' & B').
      - rewrite Ei. pose proof (but_shorter keep j (instanceList o) Hj Hjk). lia.
      - lia.
      - by eapply becomes_strict.
      - by apply (b_observed _ _ _ B1).
      - done.
      - by rewrite (proj2 (changed_kept _ _ _)).
      - rewrite Ei. by apply list.NoDup_filter.
      - rewrite Ei. by apply Forall_keep.
      - exists c'. split; [done|]. eapply becomes_trans; [exact B1|exact B'|]. intros o' _. apply changed_changed. by apply only_but. }
    destruct (instanceList o) as [|x l] eqn:El.
    { exists c. destruct fuel; [lia|]. split; [done|]. apply becomes_refl. intros o' Ho'. apply changed_id. intros E.
      rewrite (Hu o' Ho' E), El. done. }
    destruct (decide (x = keep)) as [->|Hx].
    + destruct fuel as [|fuel]; [lia|]. cbn [delete_others]. rewrite Z.eqb_refl. destruct l as [|y l].
      { exists c. destruct fuel; [lia|]. split; [done|]. apply becomes_refl. intros o' Ho'. apply changed_id. intros E.
        rewrite (Hu o' Ho' E), El. unfold only_. by rewrite filter_cons_True by done. }
      apply Hstep; [lia|right; left|]. intros ->. apply NoDup_cons in Hn as [Hn _]. destruct Hn. left.
    + apply Hstep; [lia|left|done].
Qed.

(** *** The objects one after another *)

(** What is left of an object. *)
Definition wiped (keep : Z) (o : object) : object :=
  if objID o =? LWM2M_SECURITY_OBJECT_ID then o <| instanceList := only_ keep (instanceList o) |>
  else match deleteFunc o with Some _ => o <| instanceList := [] |> | None => o end.

(** What is known of an object to delete: a Security object can be deleted. *)
Definition deletable (o : object) : Prop :=
  NoDup (instanceList o) /\ Forall (fun i => 0 <= i < LWM2M_MAX_ID) (instanceList o) /\
  (objID o = LWM2M_SECURITY_OBJECT_ID -> is_Some (deleteFunc o)).

Lemma changed_middle obj f (l1 l2 : list object) o : list_strict (l1 ++ o :: l2) -> objID o = obj ->
  map (changed obj f) (l1 ++ o :: l2) = l1 ++ changed obj f o :: l2.
Proof.
  intros Hs Hid. rewrite map_app. cbn [map]. destruct (strict_middle _ _ _ Hs) as [H1 H2].
  assert (forall l : list object, Forall (fun x => objID x <> obj) l -> map (changed obj f) l = l) as Hmap.
  { induction 1 as [|x l Hx Hl IH]; cbn; [done|]. rewrite IH. f_equal. apply changed_id. intros E. by destruct (Hx E). }
  rewrite !Hmap; [done|eapply list.Forall_impl; [exact H2|]|eapply list.Forall_impl; [exact H1|]];
    intros x Hx; unfold node_id, object_node in Hx; lia.
Qed.

(** One object of the list. *)
Lemma delete_object_wipes keep c o l1 l2 :
  objects c = l1 ++ o :: l2 -> list_strict (objects c) -> is_Some (observed c) -> deletable o ->
  objID o <> LWM2M_SECURITY_OBJECT_ID ->
  exists r c', object_delete c (mk_uri (objID o) LWM2M_MAX_ID LWM2M_MAX_ID LWM2M_MAX_ID) = Some (r, c') /\
    (if r =? COAP_405_METHOD_NOT_ALLOWED then COAP_202_DELETED else r) = COAP_202_DELETED /\
    objects c' = l1 ++ wiped keep o :: l2 /\ servers c' = servers c /\ bootstrap_servers c' = bootstrap_servers c /\ is_Some (observed c').
Proof.
  intros E Hs Hv (Hn & Hr & _) Hsec.
  assert (find_object c (objID o) = Some o) as Ho by (unfold find_object; rewrite E; rewrite E in Hs; exact (find_middle _ _ _ Hs)).
  unfold object_delete. cbn [objectId]. rewrite Ho. unfold wiped. rewrite (proj2 (Z.eqb_neq _ _) Hsec).
  destruct (deleteFunc o) as [f|] eqn:Ef.
  2:{ exists COAP_405_METHOD_NOT_ALLOWED, c. split; [done|]. by rewrite Z.eqb_refl. }
  change (LWM2M_URI_IS_SET_INSTANCE _) with false. cbv iota.
  destruct (delete_loop_clears (mk_uri (objID o) LWM2M_MAX_ID LWM2M_MAX_ID LWM2M_MAX_ID) f (instanceList o) delete_fuel c o)
    as (c' & -> & B'); [|done..|].
  { pose proof (sorted_ids_bound _ _ Hn Hr). unfold delete_fuel, LWM2M_MAX_ID in *. lia. }
  destruct B' as [O' S' B' V']. exists COAP_202_DELETED, c'. split; [done|]. split; [done|]. split; [|auto].
  rewrite O', E. cbn [objectId]. rewrite changed_middle by (rewrite <- ?E; done). unfold changed. by rewrite Z.eqb_refl.
Qed.

Definition tag_but (keep : Z) (s : server) : server := if bool_decide (Some keep = Some (secObjInstID s)) then s else tag s.

Lemma delete_security_wipes keep c o l1 l2 :
  objects c = l1 ++ o :: l2 -> list_strict (objects c) -> is_Some (observed c) -> deletable o ->
  objID o = LWM2M_SECURITY_OBJECT_ID ->
  exists c', delete_security c keep COAP_202_DELETED o = Some (COAP_202_DELETED, c') /\
    objects c' = l1 ++ wiped keep o :: l2 /\ servers c' = map tag (servers c) /\
    bootstrap_servers c' = map (tag_but keep) (bootstrap_servers c) /\ is_Some (observed c').
Proof.
  intros E Hs Hv (Hn & Hr & Hd) Hsec. destruct (Hd Hsec) as [f Hf].
  assert (find_object c (objID o) = Some o) as Ho by (unfold find_object; rewrite E; rewrite E in Hs; exact (find_middle _ _ _ Hs)).
  unfold delete_security. rewrite Z.eqb_refl.
  destruct (delete_others_keeps keep (objID o) f (Z.to_nat 65536) others_fuel c o) as (c' & -> & B'); [| |assumption..|].
  { etransitivity; [apply list.length_filter|]. pose proof (sorted_ids_bound _ _ Hn Hr). unfold LWM2M_MAX_ID in *. lia. }
  { unfold others_fuel. lia. }
  mstep. rewrite Z.eqb_refl. destruct B' as [O' S' B' V']. eexists. split; [done|].
  split; [|split; [|split; [|by apply V']]].
  - change (objects (prv_tagAllServer c' (Some keep))) with (objects c'). rewrite O', E.
    rewrite changed_middle by (rewrite <- ?E; done). unfold changed, wiped. by rewrite Z.eqb_refl, Hsec.
  - change (servers (prv_tagAllServer c' (Some keep))) with (map tag (servers c')). by rewrite S'.
  - change (bootstrap_servers (prv_tagAllServer c' (Some keep))) with (map (tag_but keep) (bootstrap_servers c')). by rewrite B'.
Qed.

Definition is_security (o : object) : bool := objID o =? LWM2M_SECURITY_OBJECT_ID.

Lemma tag_tag (l : list server) : map tag (map tag l) = map tag l.
Proof. rewrite map_map. apply map_ext. done. Qed.
Lemma tag_but_twice keep (l : list server) : map (tag_but keep) (map (tag_but keep) l) = map (tag_but keep) l.
Proof.
  rewrite map_map. apply map_ext. intros s. unfold tag_but. case_bool_decide as H1; case_bool_decide as H2; done.
Qed.

Lemma wiped_id keep o : objID (wiped keep o) = objID o.
Proof. unfold wiped. destruct (_ =? _); [done|]. by destruct (deleteFunc o). Qed.

Lemma delete_all_wipes keep l2 : forall c l1,
  objects c = l1 ++ l2 -> list_strict (objects c) -> is_Some (observed c) -> Forall deletable l2 ->
  exists c', delete_all_loop (length l2) c (length l1) keep COAP_202_DELETED = Some (COAP_202_DELETED, c') /\
    objects c' = l1 ++ map (wiped keep) l2 /\
    servers c' = (if existsb is_security l2 then map tag (servers c) else servers c) /\
    bootstrap_servers c' = (if existsb is_security l2 then map (tag_but keep) (bootstrap_servers c) else bootstrap_servers c).
Proof.
  induction l2 as [|o l2 IH]; intros c l1 E Hs Hv Hd; cbn [length delete_all_loop map existsb].
  { by exists c. }
  apply Forall_cons in Hd as [Ho Hd].
  assert (objects c !! length l1 = Some o) as -> by (rewrite E; by apply list_lookup_middle). mstep.
  assert (forall c1, objects c1 = l1 ++ wiped keep o :: l2 -> is_Some (observed c1) ->
    exists c', delete_all_loop (length l2) c1 (S (length l1)) keep COAP_202_DELETED = Some (COAP_202_DELETED, c') /\
      objects c' = l1 ++ wiped keep o :: map (wiped keep) l2 /\
      servers c' = (if existsb is_security l2 then map tag (servers c1) else servers c1) /\
      bootstrap_servers c' = (if existsb is_security l2 then map (tag_but keep) (bootstrap_servers c1) else bootstrap_servers c1)) as Hnext.
  { intros c1 E1 V1. destruct (IH c1 (l1 ++ [wiped keep o])) as (c' & H1 & H2 & H3 & H4).
    - by rewrite E1, <- app_assoc.
    - rewrite E1. rewrite E in Hs. by eapply strict_replace_middle; [exact Hs|apply wiped_id].
    - done.
    - done.
    - exists c'. rewrite length_app, Nat.add_1_r in H1. split; [done|]. by rewrite H2, <- app_assoc. }
  unfold is_security at 1 3. destruct (Z.eqb_spec (objID o) LWM2M_SECURITY_OBJECT_ID) as [Hsec|Hsec].
  - destruct (delete_security_wipes keep c o l1 l2 E Hs Hv Ho Hsec) as (c1 & -> & O1 & S1 & B1 & V1). mstep.
    destruct (Hnext c1 O1 V1) as (c' & H1 & H2 & H3 & H4). exists c'. split; [done|]. split; [done|]. cbn [orb].
    rewrite H3, H4, S1, B1, tag_tag, tag_but_twice. by destruct (existsb is_security l2).
  - destruct (delete_object_wipes keep c o l1 l2 E Hs Hv Ho Hsec) as (r & c1 & -> & Hr & O1 & S1 & B1 & V1). mstep. rewrite Hr.
    destruct (Hnext c1 O1 V1) as (c' & H1 & H2 & H3 & H4). exists c'. split; [done|]. split; [done|]. cbn [orb].
    by rewrite H3, H4, S1, B1.
Qed.

(** The check of the status changes nothing else that matters here. *)
Definition flags (s : server) : Z * bool := (secObjInstID s, dirty (server_rest s)).

Lemma found_self c s : bs_distinct c -> s ∈ bootstrap_servers c -> find_bootstrap c (secObjInstID s) = Some s.
Proof.
  intros Hd Hs. unfold find_bootstrap.
  destruct (list_find _ _) as [[k x]|] eqn:E.
  - apply list_find_Some in E as (Hk & Hx & _). apply list_elem_of_lookup_2 in Hk. cbn. f_equal. by eapply distinct_eq.
  - apply list_find_None in E. rewrite list.Forall_forall in E. by destruct (E s Hs).
Qed.

Lemma check_flags tv c s : bs_distinct c -> s ∈ bootstrap_servers c -> commandable (srv_status (server_rest s)) ->
  exists c1, prv_checkServerStatus tv c (secObjInstID s) = Some (COAP_NO_ERROR, c1) /\ objects c1 = objects c /\
    observed c1 = observed c /\ servers c1 = servers c /\ map flags (bootstrap_servers c1) = map flags (bootstrap_servers c).
Proof.
  intros Hd Hs Hst. unfold prv_checkServerStatus. rewrite found_self by done. mstep.
  assert (forall f : server -> server, (forall x, flags (f x) = flags x) ->
    map flags (bootstrap_servers (upd_bootstrap c (secObjInstID s) f)) = map flags (bootstrap_servers c)) as Hf.
  { intros f Hf. unfold upd_bootstrap, bootstrap_servers, set_bootstrap_servers, update. cbn. rewrite map_map. apply map_ext.
    intros x. by destruct (_ =? _). }
  destruct Hst as [-> | [-> | [-> | ->]]]; (eexists; split; [done|]; split; [done|]; split; [done|]; split; [done|]; by apply Hf).
Qed.

End exactly.
End delete.

(** ** Examples *)

Import BootSample.

#[export] Instance known_deletes : @DeletesExactly Z unit unit unit Z Known.callbacks.
Proof.
  intros f c id o Ho. eexists. split; [reflexivity|]. split; [|done]. split; [done|done|done|done].
Qed.


(** The result is that of the last object: the deletion of the object 3 fails, and
    the server is told that all went well. *)
Example failed_deletion_hidden :
  let refusing : ObjectCallbacks Z unit unit unit Z :=
    {| read_callback := @read_callback _ _ _ _ _ Known.callbacks;
       discover_callback := @discover_callback _ _ _ _ _ Known.callbacks;
       write_callback := @write_callback _ _ _ _ _ Known.callbacks;
       execute_callback := @execute_callback _ _ _ _ _ Known.callbacks;
       create_callback := @create_callback _ _ _ _ _ Known.callbacks;
       delete_callback f c id o :=
         if objID o =? 3 then (COAP_500_INTERNAL_SERVER_ERROR, c) else @delete_callback _ _ _ _ _ Known.callbacks f c id o;
       node_survives _ := true |} in
  exists c', @bootstrap_handleDeleteAll Z unit unit unit Z _ refusing 120 pending 9 = Some (COAP_202_DELETED, c') /\
    objects c' = [Sample.object 0 [0]; Sample.object 1 []; (Sample.object 3 [0]) <| versionMajor := 1 |>; Sample.object 5 []].
Proof. eexists. split; by vm_compute. Qed.
End BootDelete.
